(* ===== verification/_CoqProject ===== *)
-Q . S2P
Prelude.v
Bits.v
Lists.v
Strings.v
Parse.v
Sprintf.v
Kmalloc.v
Sched.v
Semaphore.v
Ringbuf.v
Pipe.v
DmaMem.v
Mmu.v
BlockDev.v
Fat32.v
Rectangle.v
Exceptions.v
Vcanvas.v
Console.v
Hid.v
Mmio.v
GpioSet.v
Gpio.v
Mbox.v
Clocks.v
Rings.v
Dwc2.v
UsbQueue.v
Trace.v
Emmc.v
UsbTypes.v
RootHub.v
Hcd.v
UsbLog.v
HcdPool.v
Mass.v
HcdHid.v
Hub.v
SpiEmu.v
Spi.v
Avr.v
Uart.v
Leds.v
Nokia.v
Vchiq.v
VchiqLink.v
Mmal.v
MmalCb.v
Tft.v
I2c.v
Usbd.v
Cmdrunner.v
Commands.v
Servo.v
BusCommands.v
Crash.v
