(* ===== verification/Prelude.v ===== *)
(** * arm64_os: a verification library for the kernel's own core logic

    The program under src/ is a kernel for the Raspberry Pi 3 (one CPU, AArch64)
    with its drivers.  This library translates its core into Rocq definitions
    and proves what makes each part correct.  Definitions keep the names of the
    C functions they translate; a theorem that describes a surprising behaviour
    (a card that can never be initialised, a release that leaks a slot)
    describes what the code does.

    ** Conventions

    - Machine integers are [Z] with the wrap-around written out ([u8], [u32],
      [u64], [s32], ...).  Byte memory is a finite map from addresses to bytes
      ([mem]); list nodes, wait flags and table words have stores of their own,
      because no C code reaches one through a pointer to another.  Aliasing
      inside a store is modelled: operations take addresses.
    - Outcomes ([outcome], below): [Ret], [Panic] ([BUG], [kernel_panic]),
      [Fault] (what C leaves undefined: an unmapped address, an index outside
      an array), [NoFuel] (a loop whose bound was exhausted).
    - A loop carries fuel where its end depends on memory or on a device.  The
      fuel is a function of the input (the string's length, the number of bytes
      of a descriptor, the number of sectors of a file) or an argument; the
      theorems state that the result is [Ret], so the fuel given is enough.
      Loops that poll a device have no bound of their own and their theorems
      quantify over devices, or bound the polls by the code's own retry count.
    - Code that is not under src/ is a parameter: the linker's addresses, the
      hardware behind the registers, the firmware behind the mailbox, the
      medium of a block device.  What a theorem needs of it is a named
      hypothesis or the law of a class, and a witness gives an instance.
    - Interrupts are off and there is one CPU wherever the code takes a
      spinlock, so every operation is one step of the model; where a task is
      switched out in the middle of an operation the definition is split there.

    ** The files

    Foundations:
    - [Prelude]: outcomes, machine integers, byte memory, bounded loops, the
      tactics and the hints the other files share.
    - [Bits]: include/bits_api.h, bitword.h, bitmap.h, mem_access.h, math.h.
    - [Lists]: the intrusive lists of include/list.h as rings in a heap of
      nodes, and the object pools of memory/static_slot.h built on them.
    - [Strings], [Parse], [Sprintf]: lib/stringlib and lib/parse_string.c over
      byte memory: copying, comparison, number and token parsing, and the
      formatted printing everything else logs with.

    Kernel:
    - [Kmalloc]: kmalloc.c, twelve size classes over bitmaps of [Bits].
    - [Sched]: sched.c, three queues of tasks on the rings of [Lists], with
      the wait flags and armv8_lock.S; an abstract queue machine is the
      specification that [schedule] refines.
    - [Semaphore]: semaphore.c on the kernel state of [Sched].
    - [Ringbuf], [Pipe]: ringbuf.c over byte memory with the queue it stands
      for; pipe.c adds a wait flag of [Sched].
    - [DmaMem]: dma_memory.c, chunk headers on the rings of [Lists].
    - [Mmu]: arch/armv8/mmu.c, the four levels of translation tables, with a
      table walk as specification.
    - [Exceptions]: exception.c, irq.c, intr_ctl.c, timer.c: registries of
      callbacks and the dispatch of an exception to them.

    Storage:
    - [BlockDev]: block_device.h as a class of operations with laws; partition
      and eMMC devices as instances; the partition table of fs.c.
    - [Fat32]: fs/fat32/fat32.c over any [BlockDevice].

    Display:
    - [Rectangle]: rectangle.c; [Vcanvas]: vcanvas.c over a frame buffer in
      byte memory; [Console]: the consoles that scroll text on it.

    Faults:
    - [Crash]: exception_reporter.c, binblock.c, cpuctx_generic.c,
      armv8_cpuctx.c, unhandled_exception.c, the dump of a fatal exception over the
      UART of [Uart], and parse_uart_capture.py, which reads it on the host.

    Devices:
    - [Mmio]: registers as operations of an arbitrary device, and the [io]
      monad of a driver; [Trace]: a device with a log of its accesses, the
      languages that specify logs and the rules to prove them.
    - [GpioSet], [Gpio], [Mbox], [Clocks]: pin ownership, pins, the firmware
      mailbox, clocks, PWM and timers.
    - [Emmc]: the SD card controller of board/bcm2835/emmc/.
    - [Uart]: the PL011 and mini UARTs, the receive path from the interrupt
      through the pipe of [Pipe] to the subscribers.
    - [SpiEmu]: spi_emulated.c, the bus over pins of [Gpio], master and slave;
      [Spi]: the controller of spi.c, the DMA channels of dma.c, and the class
      of a bus that the boards below are written against.
    - [Avr]: the programmer of atmega8a.c and avr_update.c, with the chip's
      instruction set as the law of its bus; [Nokia]: nokia5110.c and its
      console, with the display controller as the law; [Leds]: shiftreg.c,
      f5161ah.c over a 74HC595, and max7219.c.
    - [Tft]: tft_lcd.c, an ILI9341 on SPI0: rectangles, and the chain of DMA
      control blocks that sends a frame.
    - [I2c]: the master and the slave, i2c_master.c and bsc_slave.c.
    - [Servo]: the channels of pwm.c as objects that own a pin of [GpioSet] and a
      slot of [Rings]; sg90.c on any PWM and the timer of the CPU
      (armv8_generic_timer.c), which calculate in single precision.

    USB:
    - [Hid]: the HID report descriptor parser.
    - [Rings]: a heap of nodes as a finite map of disjoint lists, with the list
      and pool operations of [Lists] on it.
    - [Dwc2]: the host controller (dwc2*.c): channels, transfers, interrupts.
    - [UsbQueue]: job chains on the controller (usb_xfer_queue.c,
      hcd_transfer.c), the client of [Dwc2] and of the scheduler.
    - [UsbTypes]: requests, descriptors and port states as bytes, and the class
      of a bus that carries transfers; the files below are written against it.
    - [RootHub]: root_hub.c, the hub inside the controller, with the port of the
      USB specification as what its requests act on.
    - [Hcd], [HcdPool]: hcd.c, the devices, their pool and lists, parsing of
      configurations and the steps of enumeration.
    - [Hub]: hcd_hub.c, ports, resets and the enumeration state machine.
    - [HcdHid]: hcd_hid.c; its report descriptors go to [Hid].
    - [UsbLog]: a bus with a log of its transfers; [Mass]: hcd_mass_storage.c,
      the bulk-only transport specified as a language of such logs.
    - [Usbd]: the start of the host over all of these (hcd.c, root_hub.c), and
      the addresses and searches in the tree of devices (usbd.c).

    VideoCore:
    - [Vchiq]: the message queue of vchiq_2835_arm.c: two shared states and a
      memory of slots; sending, receiving, recycling, events, services.
    - [VchiqLink]: two sides of [Vchiq] on one memory, as the reachable states
      of any schedule of their operations.
    - [Mmal]: the camera of the same file: requests to the VideoCore and their
      answers (a class), components, ports, buffers, contexts; [MmalCb]: the
      callbacks of its two services, as a client of [Vchiq], and the thread that
      works on returned buffers.

    Shell:
    - [Cmdrunner]: cmdrunner.c, the line editor, history and dispatch over byte
      memory, for any commands, with the words of [Parse]; [Commands]: the
      commands for pins, clocks, PWM, memory and LEDs, [BusCommands]: those for the
      firmware's clocks, the displays and SPI, on the drivers above.

    ** The theorems

    - State invariants, preserved by every operation: [Sched.scheduler_op_safe]
      (queues of a well-formed kernel), [GpioSet.gpio_pins_exclusive] (by
      induction over the reachable states), [Mmal.mems_contexts_found], [Mbox.mbox_messages_wf].
    - Refinements of an abstract specification: [Sched.schedule_refines],
      [Kmalloc.kmalloc_refines], [Lists.slot_alloc_refines],
      [Ringbuf.ringbuf_read_dequeues], [Ringbuf.ringbuf_write_enqueues], [Mmu.map_linear_range_walk],
      [Fat32.fat32_iterate_file_sectors_visits],
      [UsbQueue.process_running_job_step] (lists of jobs and pools as finite
      maps of rings), [RootHub.root_hub_port_feature],
      [Nokia.nokia5110_shows_text] (the memory of the display),
      [VchiqLink.vchiq_channel_fifo] (two sides of the queue are a FIFO),
      [Tft.prepare_chain_covers] (a frame and its chain of blocks).
    - What goes over the bus: [Emmc.emmc_read_block]
      (for every controller, with the log of the accesses),
      [Dwc2.dwc2_xfer_one_job_programs],
      [Mass.usb_cbw_transfer_session], [Mass.usb_mass_read_reads]; as a lemma
      [Tft.tft_fill_rect_paints] (the bytes a display is sent).
    - What is typed: [Cmdrunner.shell_runs_line] (a line edited by any keys runs
      the command it names), [Commands.gpio_set_writes] (down to the register).
    - What the device at the other end holds afterwards:
      [Avr.atmega8a_flash_programs] (the flash), [Leds.f5161ah_display_shows]
      (the outputs of the register).
    - Liveness: [Sched.round_robin], [Uart.uart_rx_delivers], [VchiqLink.vchiq_slots_come_back]; termination:
      [Hid.usb_hid_parse_total], [Hub.enum_loop_terminates] (the turns
      of the state machine; the waits inside a turn end by the clock), and the
      totality part of the block transfers.
    - Equivalence with a reference: [Fat32.fat32_iterate_directory_visits];
      round trips: [Mmal.mmal_buffer_returns], [Servo.pwm_channel_roundtrip],
      [SpiEmu.spi_emulated_link], [Sprintf.snprintf_d_strtoll],
      [Crash.crash_dump_parses] (the dump and the tool that reads it),
      [Hcd.usb_hcd_parse_configuration_roundtrip].
    - Bounds: [I2c.i2c_write_transfers] for the number of bus accesses; as a
      lemma [Sprintf.vsnprintf_safe], that a print which returns has written only
      inside its buffer ([Sprintf.star_precision_faults] is one that does not).
    - Error behaviour: [I2c.i2c_error_sticks], and as a lemma [Emmc.emmc_init_never_succeeds].
    - The remaining theorems state the functional behaviour of the operation
      they are named after, on every branch.

    ** Not modelled

    - Ported or generated code: the Linux files of board/bcm2835/vchiq (all but
      vchiq_2835_arm.c and what it takes from vchiq_core.c and the headers) and
      board/bcm2835/bcm2835-camera, the register printers generated from the
      YAML specifications, the glyph tables.
    - Of USB: the printer of the device tree, the loop that probes hubs for ever
      and the mouse report loop.
    - Of the displays and boards on SPI and I2C: the loop of tft_lcd.c that plays
      frames from a USB disk, the text of the lock bits and the analog test code
      of atmega8a.c, the test pictures of nokia5110, register printers of the
      UART and of the PWM.
    - Assembly other than the spinlock, the bit helpers of the pins, the
      putchar of the UART and the mailbox call; reset and context-switch code;
      the printers of CPU state, stacks and exception summaries, and the symbol
      map and display of parse_uart_capture.py.
    - Of the debug shell: the command ps, which prints the tasks, the help
      texts, and the task that takes characters from a pipe; tests and tools.
    - Time, caches and memory barriers: [wait_usec], [dcache_flush] and [dsb]
      have no effect on the state modelled. *)

From Stdlib Require Export ZArith Lia.
From stdpp Require Export base tactics option list numbers fin_maps gmap.

#[export] Set Default Goal Selector "!".
Global Open Scope Z_scope.

(** ** Outcomes of kernel code

    A C function that returns gives [Ret]; [kernel_panic] (reached through the
    [BUG] macro) gives [Panic]; an access the C standard leaves undefined (an
    unmapped byte, a NULL dereference, an index outside an array) gives
    [Fault]; a loop whose bound was exhausted gives [NoFuel]. *)
Inductive outcome (A : Type) : Type :=
| Ret (a : A)
| Panic
| Fault
| NoFuel.
Arguments Ret {A} a.
Arguments Panic {A}.
Arguments Fault {A}.
Arguments NoFuel {A}.

#[export] Instance outcome_ret : MRet outcome := @Ret.
#[export] Instance outcome_bind : MBind outcome := λ A B f m,
  match m with
  | Ret a => f a
  | Panic => Panic
  | Fault => Fault
  | NoFuel => NoFuel
  end.

#[export] Instance outcome_eq_dec A `{EqDecision A} : EqDecision (outcome A).
Proof. solve_decision. Defined.

(** [BUG(expr, msg)] of include/bug.h. *)
Definition BUG (expr : bool) : outcome unit := if expr then Panic else Ret tt.

(** A C access that must find something. *)
Definition deref {A} (o : option A) : outcome A :=
  match o with Some a => Ret a | None => Fault end.

Definition returns {A} (m : outcome A) : Prop := ∃ a, m = Ret a.

(** [m] does not run out of fuel. *)
Definition terminates {A} (m : outcome A) : Prop := m ≠ NoFuel.

(** Partial-correctness triple used by the frame lemmas: whatever [m] returns
    satisfies [Q]. *)
Definition post {A} (m : outcome A) (Q : A → Prop) : Prop :=
  ∀ a, m = Ret a → Q a.

Lemma bind_ret {A B} (a : A) (f : A → outcome B) : (Ret a ≫= f) = f a.
Proof. done. Qed.

Lemma bind_inv {A B} (m : outcome A) (f : A → outcome B) b :
  (m ≫= f) = Ret b → ∃ a, m = Ret a ∧ f a = Ret b.
Proof. destruct m; naive_solver. Qed.

Lemma bind_ret_r {A} (m : outcome A) : (m ≫= Ret) = m.
Proof. by destruct m. Qed.

Lemma bind_assoc {A B C} (m : outcome A) (f : A → outcome B) (g : B → outcome C) :
  ((m ≫= f) ≫= g) = (m ≫= λ a, f a ≫= g).
Proof. by destruct m. Qed.

Lemma post_ret {A} (a : A) (Q : A → Prop) : Q a → post (Ret a) Q.
Proof. intros HQ b ?; by simplify_eq. Qed.

Lemma post_bind {A B} (m : outcome A) (f : A → outcome B) (P : A → Prop) (Q : B → Prop) :
  post m P → (∀ a, P a → post (f a) Q) → post (m ≫= f) Q.
Proof. intros Hm Hf b (a & Ha & Hb)%bind_inv. exact (Hf a (Hm a Ha) b Hb). Qed.

Lemma post_mono {A} (m : outcome A) (P Q : A → Prop) :
  post m P → (∀ a, P a → Q a) → post m Q.
Proof. intros Hm HPQ a Ha. apply HPQ, Hm, Ha. Qed.

Lemma post_fault {A} (Q : A → Prop) : post (@Fault A) Q.
Proof. by intros a. Qed.

Lemma post_panic {A} (Q : A → Prop) : post (@Panic A) Q.
Proof. by intros a. Qed.

Lemma terminates_ret {A} (a : A) : terminates (Ret a).
Proof. done. Qed.

Lemma terminates_bind {A B} (m : outcome A) (f : A → outcome B) :
  terminates m → (∀ a, m = Ret a → terminates (f a)) → terminates (m ≫= f).
Proof. destruct m as [a| | |]; intros Hm Hf; try done. exact (Hf a eq_refl). Qed.

Lemma terminates_deref {A} (o : option A) : terminates (deref o).
Proof. by destruct o. Qed.

Lemma terminates_BUG b : terminates (BUG b).
Proof. by destruct b. Qed.

Lemma BUG_false : BUG false = Ret tt.
Proof. done. Qed.

(** ** Loops

    [loop fuel body s] runs a C loop whose body maps the loop variables to
    [inl] (next iteration) or [inr] (the loop is left). *)
Fixpoint loop {St R} (fuel : nat) (body : St → outcome (St + R)) (s : St) : outcome R :=
  match fuel with
  | O => NoFuel
  | S n => r ← body s; match r with inl s' => loop n body s' | inr v => Ret v end
  end.

Lemma loop_mono {St R} (body : St → outcome (St + R)) n m s r :
  loop n body s = Ret r → (n ≤ m)%nat → loop m body s = Ret r.
Proof.
  revert m s; induction n as [|n IH]; intros [|m] s Hl Hle; try (done || lia); simpl in *.
  destruct (body s) as [[s'|v]| | |]; simpl in *; try done. apply IH; [done | lia].
Qed.

Lemma loop_step {St R} (body : St → outcome (St + R)) n s : (0 < n)%nat →
  loop n body s = (r ← body s; match r with inl s' => loop (n - 1) body s' | inr v => Ret v end).
Proof. intros Hn. destruct n as [|n]; [lia|]. cbn [loop]. by rewrite Nat.sub_1_r. Qed.

(** A loop whose measure drops at every iteration terminates. *)
Lemma loop_terminates {St R} (body : St → outcome (St + R)) (I : St → Prop) (meas : St → nat) :
  (∀ s, I s → terminates (body s)) →
  (∀ s s', I s → body s = Ret (inl s') → I s' ∧ (meas s' < meas s)%nat) →
  ∀ n s, I s → (meas s < n)%nat → terminates (loop n body s).
Proof.
  intros Hb Hdec n; induction n as [|n IH]; intros s HI Hn; [lia|]; simpl.
  apply terminates_bind; [by apply Hb|]. intros [s'|v] Hs; [|done].
  destruct (Hdec _ _ HI Hs). apply IH; [done | lia].
Qed.

(** Invariant rule for loops. *)
Lemma loop_post {St R} (body : St → outcome (St + R)) (I : St → Prop) (Q : R → Prop) :
  (∀ s, I s → post (body s) (λ r, match r with inl s' => I s' | inr v => Q v end)) →
  ∀ n s, I s → post (loop n body s) Q.
Proof.
  intros Hb n; induction n as [|n IH]; intros s HI; [by intros ?|]; simpl.
  eapply post_bind; [by apply Hb|]. intros [s'|v] H; [by apply IH | by apply post_ret].
Qed.

(** ** Total triples

    [tpost m Q]: [m] does not run out of fuel, and whatever it returns
    satisfies [Q] (it may panic or fault). *)
Definition tpost {A} (m : outcome A) (Q : A → Prop) : Prop :=
  match m with Ret a => Q a | NoFuel => False | _ => True end.

Lemma tpost_post {A} (m : outcome A) (Q : A → Prop) : tpost m Q → post m Q.
Proof. intros H a ->. exact H. Qed.

Lemma tpost_terminates {A} (m : outcome A) (Q : A → Prop) : tpost m Q → terminates m.
Proof. by destruct m. Qed.

Lemma tpost_bind {A B} (m : outcome A) (f : A → outcome B) (P : A → Prop) (Q : B → Prop) :
  tpost m P → (∀ a, P a → tpost (f a) Q) → tpost (m ≫= f) Q.
Proof. destruct m; simpl; auto. Qed.

Lemma tpost_mono {A} (m : outcome A) (P Q : A → Prop) :
  tpost m P → (∀ a, P a → Q a) → tpost m Q.
Proof. destruct m; simpl; auto. Qed.

Lemma tpost_deref {A} (o : option A) : tpost (deref o) (λ a, o = Some a).
Proof. by destruct o. Qed.

Lemma tpost_BUG b : tpost (BUG b) (λ _, b = false).
Proof. by destruct b. Qed.

(** A loop with an invariant and a measure that drops. *)
Lemma tpost_loop {St R} (body : St → outcome (St + R)) (I : St → Prop) (meas : St → nat) (Q : R → Prop) :
  (∀ s, I s → tpost (body s)
    (λ r, match r with inl s' => I s' ∧ (meas s' < meas s)%nat | inr v => Q v end)) →
  ∀ n s, I s → (meas s < n)%nat → tpost (loop n body s) Q.
Proof.
  intros Hb n; induction n as [|n IH]; intros s HI Hn; [lia|]; simpl.
  eapply tpost_bind; [by apply Hb|]. intros [s'|v]; [|done]. intros [? ?]. apply IH; [done|lia].
Qed.

(** ** Machine integers

    Integers are mathematical; each operation of the source that can wrap is
    written with the wrap of its C type.  [char] is unsigned on this target
    (AArch64 procedure call standard; the Makefile passes no [-fsigned-char]). *)
Definition u8 (z : Z) : Z := z mod 2 ^ 8.
Definition u16 (z : Z) : Z := z mod 2 ^ 16.
Definition u32 (z : Z) : Z := z mod 2 ^ 32.
Definition u64 (z : Z) : Z := z mod 2 ^ 64.
Definition s32 (z : Z) : Z := (z + 2 ^ 31) mod 2 ^ 32 - 2 ^ 31.
Definition s64 (z : Z) : Z := (z + 2 ^ 63) mod 2 ^ 64 - 2 ^ 63.

(** C truth values. *)
Definition truth (z : Z) : bool := negb (z =? 0).

(** [min] and [max] of include/common.h. *)
Definition c_min (a b : Z) : Z := if a <? b then a else b.
Definition c_max (a b : Z) : Z := if a <? b then b else a.

Lemma c_min_spec a b : c_min a b = Z.min a b.
Proof. unfold c_min. destruct (Z.ltb_spec a b); lia. Qed.

Lemma c_max_spec a b : c_max a b = Z.max a b.
Proof. unfold c_max. destruct (Z.ltb_spec a b); lia. Qed.

Create HintDb wrap.
Create Rewrite HintDb wrap.

Lemma u8_id z : 0 ≤ z < 2 ^ 8 → u8 z = z.
Proof. apply Z.mod_small. Qed.
Lemma u16_id z : 0 ≤ z < 2 ^ 16 → u16 z = z.
Proof. apply Z.mod_small. Qed.
Lemma u32_id z : 0 ≤ z < 2 ^ 32 → u32 z = z.
Proof. apply Z.mod_small. Qed.
Lemma u64_id z : 0 ≤ z < 2 ^ 64 → u64 z = z.
Proof. apply Z.mod_small. Qed.
Lemma s32_id z : - 2 ^ 31 ≤ z < 2 ^ 31 → s32 z = z.
Proof. intros. unfold s32. rewrite Z.mod_small; lia. Qed.
Lemma s64_id z : - 2 ^ 63 ≤ z < 2 ^ 63 → s64 z = z.
Proof. intros. unfold s64. rewrite Z.mod_small; lia. Qed.

Lemma u8_range z : 0 ≤ u8 z < 2 ^ 8.
Proof. by apply Z.mod_pos_bound. Qed.
Lemma u16_range z : 0 ≤ u16 z < 2 ^ 16.
Proof. by apply Z.mod_pos_bound. Qed.
Lemma u32_range z : 0 ≤ u32 z < 2 ^ 32.
Proof. by apply Z.mod_pos_bound. Qed.
Lemma u64_range z : 0 ≤ u64 z < 2 ^ 64.
Proof. by apply Z.mod_pos_bound. Qed.
Lemma s32_range z : - 2 ^ 31 ≤ s32 z < 2 ^ 31.
Proof. unfold s32. pose proof (Z.mod_pos_bound (z + 2 ^ 31) (2 ^ 32)). lia. Qed.

Lemma u32_u32 z : u32 (u32 z) = u32 z.
Proof. apply u32_id, u32_range. Qed.

#[export] Hint Rewrite c_min_spec c_max_spec : wrap.
#[export] Hint Resolve u8_range u16_range u32_range u64_range s32_range : wrap.

(** Removes the wraps whose argument is in range. *)
Ltac unwrap :=
  repeat match goal with
  | |- context [u8 ?z] => rewrite (u8_id z) by lia
  | |- context [u16 ?z] => rewrite (u16_id z) by lia
  | |- context [u32 ?z] => rewrite (u32_id z) by lia
  | |- context [u64 ?z] => rewrite (u64_id z) by lia
  | |- context [s32 ?z] => rewrite (s32_id z) by lia
  | |- context [s64 ?z] => rewrite (s64_id z) by lia
  end.

(** Case analysis on the C comparisons of the goal, with their arithmetic
    meaning in the context. *)
Ltac zcases :=
  repeat match goal with
  | |- context [?a <? ?b] => destruct (Z.ltb_spec a b)
  | |- context [?a <=? ?b] => destruct (Z.leb_spec a b)
  | |- context [?a =? ?b] => destruct (Z.eqb_spec a b)
  | |- context [?a >? ?b] => rewrite (Z.gtb_ltb a b)
  | |- context [?a >=? ?b] => rewrite (Z.geb_leb a b)
  end.

(** Decides the comparisons that the context settles. *)
Ltac zdec :=
  repeat match goal with
  | |- context [?a <? ?b] =>
      first [rewrite (proj2 (Z.ltb_lt a b)) by lia | rewrite (proj2 (Z.ltb_ge a b)) by lia]
  | |- context [?a <=? ?b] =>
      first [rewrite (proj2 (Z.leb_le a b)) by lia | rewrite (proj2 (Z.leb_gt a b)) by lia]
  | |- context [?a =? ?b] =>
      first [rewrite (proj2 (Z.eqb_eq a b)) by lia | rewrite (proj2 (Z.eqb_neq a b)) by lia]
  end.

(** Unfolds the binds of a hypothesis [m = Ret x] into its steps. *)
Ltac ret_inv H :=
  repeat match type of H with
  | (_ ≫= _) = Ret _ =>
      let a := fresh "a" in let Ha := fresh "Ha" in
      apply bind_inv in H as (a & Ha & H); try ret_inv Ha
  | Ret _ = Ret _ => injection H as H
  end.

(** ** Bits *)
Lemma testbit_mod_pow2 z w i :
  0 ≤ w → 0 ≤ i → Z.testbit (z mod 2 ^ w) i = (i <? w) && Z.testbit z i.
Proof.
  intros Hw Hi. zcases; simpl.
  - by apply Z.mod_pow2_bits_low.
  - apply Z.mod_pow2_bits_high; lia.
Qed.

Lemma testbit_ones w i : 0 ≤ w → 0 ≤ i → Z.testbit (Z.ones w) i = (i <? w).
Proof. intros. rewrite Z.testbit_ones_nonneg by lia. done. Qed.

Lemma testbit_pow2 w i : 0 ≤ w → Z.testbit (2 ^ w) i = (i =? w).
Proof.
  intros. destruct (Z.eqb_spec i w) as [->|].
  - by apply Z.pow2_bits_true.
  - by apply Z.pow2_bits_false.
Qed.

Lemma testbit_high z w i : 0 ≤ z < 2 ^ w → w ≤ i → Z.testbit z i = false.
Proof.
  intros Hz Hi. destruct (Z_lt_le_dec w 0) as [Hw|Hw].
  { rewrite Z.pow_neg_r in Hz by done. lia. }
  rewrite <- (Z.mod_small z (2 ^ w)) by done. by apply Z.mod_pow2_bits_high.
Qed.

(** A number below [2^w] is determined by its [w] low bits. *)
Lemma bits_bound z w : 0 ≤ w → (0 ≤ z ∧ ∀ i, w ≤ i → Z.testbit z i = false) → 0 ≤ z < 2 ^ w.
Proof.
  intros Hw [Hz Hb]. split; [done|].
  destruct (Z.eq_dec z 0) as [->|]; [by apply Z.pow_pos_nonneg|].
  apply Z.log2_lt_pow2; [lia|].
  destruct (Z_lt_le_dec (Z.log2 z) w) as [|Hge]; [done|].
  specialize (Hb _ Hge). rewrite Z.bit_log2 in Hb by lia. done.
Qed.

Lemma land_lor_disjoint_testbit a b i : 0 ≤ i →
  Z.testbit (Z.lor a b) i = Z.testbit a i || Z.testbit b i.
Proof. intros. apply Z.lor_spec. Qed.

(** ** Byte memory

    An address space of bytes; an address outside the domain is unmapped. *)
Abbreviation mem := (gmap Z Z).

Definition load8 (m : mem) (p : Z) : outcome Z := deref (m !! p).

Definition store8 (m : mem) (p v : Z) : outcome mem :=
  match m !! p with Some _ => Ret (<[p := u8 v]> m) | None => Fault end.

(** [n]-byte little-endian accesses. *)
Fixpoint load_le (n : nat) (m : mem) (p : Z) : outcome Z :=
  match n with
  | O => Ret 0
  | S n => b ← load8 m p; r ← load_le n m (p + 1); Ret (b + 2 ^ 8 * r)
  end.

Fixpoint store_le (n : nat) (m : mem) (p v : Z) : outcome mem :=
  match n with
  | O => Ret m
  | S n => m ← store8 m p (v mod 2 ^ 8); store_le n m (p + 1) (v / 2 ^ 8)
  end.

(** The bytes [l] are at [p]. *)
Definition bytes_at (m : mem) (p : Z) (l : list Z) : Prop :=
  ∀ i b, l !! i = Some b → m !! (p + Z.of_nat i) = Some b.

(** The NUL-terminated string [s] is at [p]. *)
Definition cstr (m : mem) (p : Z) (s : list Z) : Prop :=
  bytes_at m p (s ++ [0]) ∧ Forall (λ b, 0 < b < 2 ^ 8) s.

(** The [n] bytes from [p] are mapped. *)
Definition mapped (m : mem) (p n : Z) : Prop := ∀ q, p ≤ q < p + n → is_Some (m !! q).

(** [m'] is [m] up to writes inside [[lo, hi)]. *)
Definition writes_in (lo hi : Z) (m m' : mem) : Prop :=
  (∀ q, is_Some (m' !! q) ↔ is_Some (m !! q)) ∧
  (∀ q, ¬ (lo ≤ q < hi) → m' !! q = m !! q).

#[export] Instance writes_in_preorder lo hi : PreOrder (writes_in lo hi).
Proof.
  split.
  - by intros m.
  - intros m1 m2 m3 [Hd1 Hw1] [Hd2 Hw2]; split.
    + intros q. by rewrite Hd2.
    + intros q Hq. rewrite Hw2 by done. by apply Hw1.
Qed.

Lemma writes_in_weaken lo hi lo' hi' m m' :
  writes_in lo hi m m' → lo' ≤ lo → hi ≤ hi' → writes_in lo' hi' m m'.
Proof. intros [Hd Hw] ??. split; [done|]. intros q Hq. apply Hw. lia. Qed.

Lemma store8_writes lo hi m p v : lo ≤ p < hi → post (store8 m p v) (writes_in lo hi m).
Proof.
  intros Hp m' Hm'. unfold store8 in Hm'. destruct (m !! p) eqn:E; simplify_eq.
  split; intros q.
  - rewrite lookup_insert. case_decide; subst; [|done].
    split; intros _; [by eexists|by eexists].
  - intros Hq. apply lookup_insert_ne. lia.
Qed.

Lemma store8_returns m p v : is_Some (m !! p) → store8 m p v = Ret (<[p := u8 v]> m).
Proof. intros [b E]. unfold store8. by rewrite E. Qed.

Lemma store8_terminates m p v : terminates (store8 m p v).
Proof. unfold store8. by destruct (m !! p). Qed.

Lemma tpost_load8 m p : tpost (load8 m p) (λ v, m !! p = Some v).
Proof. apply tpost_deref. Qed.

Lemma tpost_store8 m p v : tpost (store8 m p v) (λ m', is_Some (m !! p) ∧ m' = <[p := u8 v]> m).
Proof. unfold store8. destruct (m !! p); simpl; [|done]. by split. Qed.

Lemma load8_terminates m p : terminates (load8 m p).
Proof. apply terminates_deref. Qed.

Lemma mapped_writes lo hi m m' p n : writes_in lo hi m m' → mapped m p n → mapped m' p n.
Proof. intros [Hd _] Hm q Hq. apply Hd. by apply Hm. Qed.

Lemma bytes_at_writes lo hi m m' p l :
  writes_in lo hi m m' → bytes_at m p l →
  (p + Z.of_nat (length l) ≤ lo ∨ hi ≤ p) → bytes_at m' p l.
Proof.
  intros [_ Hw] Hb Hd i b Hi. rewrite Hw; [by apply Hb|].
  apply lookup_lt_Some in Hi. lia.
Qed.

Lemma bytes_at_nil m p : bytes_at m p [].
Proof. by intros i b. Qed.

Lemma bytes_at_cons m p b l : bytes_at m p (b :: l) ↔ m !! p = Some b ∧ bytes_at m (p + 1) l.
Proof.
  split.
  - intros H. split.
    + specialize (H 0%nat b eq_refl). by rewrite Z.add_0_r in H.
    + intros i c Hi. rewrite <- (H (S i) c Hi). f_equal. lia.
  - intros [H0 H] [|i] c Hi; simpl in Hi.
    + simplify_eq. by rewrite Z.add_0_r.
    + rewrite <- (H i c Hi). f_equal. lia.
Qed.

Lemma bytes_at_app m p l1 l2 :
  bytes_at m p (l1 ++ l2) ↔ bytes_at m p l1 ∧ bytes_at m (p + Z.of_nat (length l1)) l2.
Proof.
  revert p; induction l1 as [|b l1 IH]; intros p; simpl.
  - rewrite Z.add_0_r. split; [intros; split; [apply bytes_at_nil|done]|by intros [_ ?]].
  - rewrite !bytes_at_cons, IH. replace (p + Z.of_nat (S (length l1))) with
      (p + 1 + Z.of_nat (length l1)) by lia. tauto.
Qed.

Lemma bytes_at_mapped m p l : bytes_at m p l → mapped m p (Z.of_nat (length l)).
Proof.
  intros Hb q Hq. destruct (lookup_lt_is_Some_2 l (Z.to_nat (q - p))) as [b Hl]; [lia|].
  exists b. rewrite <- (Hb _ _ Hl). f_equal. lia.
Qed.

Lemma cstr_cons m p b s :
  cstr m p (b :: s) ↔ m !! p = Some b ∧ 0 < b < 2 ^ 8 ∧ cstr m (p + 1) s.
Proof. unfold cstr. simpl. rewrite bytes_at_cons, Forall_cons. tauto. Qed.

Lemma cstr_nil m p : cstr m p [] ↔ m !! p = Some 0.
Proof.
  unfold cstr. simpl. rewrite bytes_at_cons. split; [by intros [[? _] _]|].
  intros. split; [|by constructor]. split; [done|apply bytes_at_nil].
Qed.

(** The memory that holds exactly the bytes [l] at [p]. *)
Fixpoint mem_of (p : Z) (l : list Z) : mem :=
  match l with [] => ∅ | b :: l => <[p := b]> (mem_of (p + 1) l) end.

Lemma mem_of_lookup p l q :
  mem_of p l !! q = if decide (p ≤ q) then l !! Z.to_nat (q - p) else None.
Proof.
  revert p; induction l as [|b l IH]; intros p; simpl.
  { rewrite lookup_empty. by case_decide. }
  rewrite lookup_insert. repeat case_decide; try lia.
  - subst. by rewrite Z.sub_diag.
  - rewrite IH. case_decide; [|lia].
    replace (Z.to_nat (q - p)) with (S (Z.to_nat (q - (p + 1)))) by lia. done.
  - rewrite IH. case_decide; [lia|done].
Qed.

Lemma mem_of_bytes p l : bytes_at (mem_of p l) p l.
Proof.
  intros i b Hi. rewrite mem_of_lookup. case_decide; [|lia].
  replace (Z.to_nat (p + Z.of_nat i - p)) with i by lia. done.
Qed.

(** Writing the bytes [l] from [p] on. *)
Fixpoint write_bytes (m : mem) (p : Z) (l : list Z) : mem :=
  match l with [] => m | b :: l => write_bytes (<[p := b]> m) (p + 1) l end.

Lemma write_bytes_lookup m p l q :
  write_bytes m p l !! q =
  if decide (p ≤ q < p + Z.of_nat (length l)) then l !! Z.to_nat (q - p) else m !! q.
Proof.
  revert m p; induction l as [|b l IH]; intros m p; simpl.
  { by rewrite decide_False by lia. }
  rewrite IH. repeat case_decide; try lia.
  - replace (Z.to_nat (q - p)) with (S (Z.to_nat (q - (p + 1)))) by lia. done.
  - assert (q = p) as -> by lia. by rewrite lookup_insert_eq, Z.sub_diag.
  - apply lookup_insert_ne. lia.
Qed.

Lemma write_bytes_app m p l1 l2 :
  write_bytes m p (l1 ++ l2) = write_bytes (write_bytes m p l1) (p + Z.of_nat (length l1)) l2.
Proof.
  revert m p; induction l1 as [|b l1 IH]; intros m p; simpl; [by rewrite Z.add_0_r|].
  rewrite IH. f_equal. lia.
Qed.

Lemma write_bytes_at m p l : bytes_at (write_bytes m p l) p l.
Proof.
  intros i b Hi. rewrite write_bytes_lookup. pose proof (lookup_lt_Some _ _ _ Hi).
  rewrite decide_True by lia. by replace (Z.to_nat (p + Z.of_nat i - p)) with i by lia.
Qed.

Lemma write_bytes_mapped m p l q n : mapped m q n → mapped (write_bytes m p l) q n.
Proof.
  intros Hm r Hr. rewrite write_bytes_lookup. case_decide; [|by apply Hm].
  apply lookup_lt_is_Some_2. lia.
Qed.

Lemma write_bytes_bytes_at m p l q l' :
  bytes_at m q l' → (q + Z.of_nat (length l') ≤ p ∨ p + Z.of_nat (length l) ≤ q) →
  bytes_at (write_bytes m p l) q l'.
Proof.
  intros Hb Hd i b Hi. pose proof (lookup_lt_Some _ _ _ Hi).
  rewrite write_bytes_lookup, decide_False by lia. by apply Hb.
Qed.

Lemma write_bytes_writes m p l :
  mapped m p (Z.of_nat (length l)) → writes_in p (p + Z.of_nat (length l)) m (write_bytes m p l).
Proof.
  intros Hm. split; intros q; rewrite write_bytes_lookup; case_decide; try done.
  split; intros _; [by apply Hm; lia|]. apply lookup_lt_is_Some_2. lia.
Qed.

Lemma store8_write m p b : 0 ≤ b < 2 ^ 8 → is_Some (m !! p) → store8 m p b = Ret (write_bytes m p [b]).
Proof. intros. rewrite store8_returns by done. by rewrite u8_id. Qed.

Lemma load8_at m p b : m !! p = Some b → load8 m p = Ret b.
Proof. unfold load8. by intros ->. Qed.

Lemma bytes_at_lookup m p l i : bytes_at m p l → 0 ≤ i < Z.of_nat (length l) →
  ∃ b, l !! Z.to_nat i = Some b ∧ m !! (p + i) = Some b.
Proof.
  intros Hb Hi. destruct (lookup_lt_is_Some_2 l (Z.to_nat i)) as [b Hl]; [lia|].
  exists b. split; [done|]. rewrite <- (Hb _ _ Hl). f_equal. lia.
Qed.

(** Little-endian values of byte strings. *)
Definition is_bytes (l : list Z) : Prop := Forall (λ b, 0 ≤ b < 2 ^ 8) l.

Fixpoint le_val (l : list Z) : Z := match l with [] => 0 | b :: l => b + 2 ^ 8 * le_val l end.

Lemma load_le_val m p l : bytes_at m p l → load_le (length l) m p = Ret (le_val l).
Proof.
  revert p; induction l as [|b l IH]; intros p Hb; [done|]. apply bytes_at_cons in Hb as [H0 Hb].
  simpl. rewrite (load8_at _ _ _ H0), bind_ret, (IH _ Hb). done.
Qed.

Lemma store_le_val m p l : is_bytes l → mapped m p (Z.of_nat (length l)) →
  store_le (length l) m p (le_val l) = Ret (write_bytes m p l).
Proof.
  revert m p; induction l as [|b l IH]; intros m p Hb Hm; [done|].
  apply Forall_cons in Hb as [H0 Hb]. cbn [length store_le le_val write_bytes].
  replace ((b + 2 ^ 8 * le_val l) mod 2 ^ 8) with b
    by (rewrite (Z.mul_comm (2 ^ 8)), Z.mod_add, Z.mod_small; lia).
  replace ((b + 2 ^ 8 * le_val l) / 2 ^ 8) with (le_val l)
    by (rewrite (Z.mul_comm (2 ^ 8)), Z.div_add, Z.div_small; lia).
  rewrite store8_write; [|done|apply Hm; simpl; lia]. rewrite bind_ret. simpl.
  apply IH; [done|]. intros q Hq. rewrite lookup_insert. case_decide; [done|]. apply Hm. simpl. lia.
Qed.

(** The [n] low bytes of a number, lowest first. *)
Fixpoint le_bytes (n : nat) (v : Z) : list Z :=
  match n with O => [] | S n => v mod 2 ^ 8 :: le_bytes n (v / 2 ^ 8) end.

Lemma le_bytes_length n v : length (le_bytes n v) = n.
Proof. revert v; induction n; intros v; cbn; auto. Qed.

Lemma le_bytes_is_bytes n v : is_bytes (le_bytes n v).
Proof.
  revert v; induction n as [|n IH]; intros v; constructor; [|apply IH]. apply Z.mod_pos_bound. lia.
Qed.

Lemma le_val_bytes n v : le_val (le_bytes n v) = v mod 2 ^ (8 * Z.of_nat n).
Proof.
  revert v; induction n as [|n IH]; intros v; [by rewrite Z.mod_1_r|]. cbn [le_bytes le_val]. rewrite IH.
  replace (8 * Z.of_nat (S n)) with (8 + 8 * Z.of_nat n) by lia. rewrite Z.pow_add_r, Z.rem_mul_r by lia. lia.
Qed.

Lemma store_le_bytes n m p v : mapped m p (Z.of_nat n) → store_le n m p v = Ret (write_bytes m p (le_bytes n v)).
Proof.
  revert m p v; induction n as [|n IH]; intros m p v Hm; [done|]. cbn [store_le le_bytes write_bytes].
  pose proof (Z.mod_pos_bound v (2 ^ 8) ltac:(lia)). rewrite store8_write; [|lia|apply Hm; lia]. rewrite bind_ret.
  cbn [write_bytes]. apply IH. intros q Hq. rewrite lookup_insert. case_decide; [done|]. apply Hm. lia.
Qed.

Lemma load_le_bytes n m p v : bytes_at m p (le_bytes n v) → load_le n m p = Ret (v mod 2 ^ (8 * Z.of_nat n)).
Proof. intros H. apply load_le_val in H. by rewrite le_bytes_length, le_val_bytes in H. Qed.

(** ** Counted loops: [for (i = lo; i < hi; ++i) a = f(i, a)] *)
Fixpoint for_n {A} (n : nat) (i : Z) (f : Z → A → outcome A) (a : A) : outcome A :=
  match n with O => Ret a | S n => a ← f i a; for_n n (i + 1) f a end.

Definition forZ {A} (lo hi : Z) (f : Z → A → outcome A) (a : A) : outcome A := for_n (Z.to_nat (hi - lo)) lo f a.

(** A loop whose steps return and keep an invariant indexed by the counter. *)
Lemma forZ_inv {A} (I : Z → A → Prop) lo hi f (a : A) : lo ≤ hi → I lo a →
  (∀ i a, lo ≤ i < hi → I i a → ∃ a', f i a = Ret a' ∧ I (i + 1) a') →
  ∃ a', forZ lo hi f a = Ret a' ∧ I hi a'.
Proof.
  intros Hle HI Hstep. unfold forZ. assert (∀ n i a, lo ≤ i → i + Z.of_nat n = hi → I i a →
    ∃ a', for_n n i f a = Ret a' ∧ I hi a') as H.
  { induction n as [|n IH]; intros i b Hi Hn Hb; cbn [for_n].
    - exists b. split; [done|]. by replace hi with i by lia.
    - destruct (Hstep i b) as (b' & -> & Hb'); [lia|done|]. rewrite bind_ret. apply IH; [lia..|done]. }
  apply H; [lia..|done].
Qed.

(** The same with bounds in any order. *)
Lemma forZ_max {A} (I : Z → A → Prop) lo hi f (a : A) : I lo a →
  (∀ i a, lo ≤ i < hi → I i a → ∃ a', f i a = Ret a' ∧ I (i + 1) a') →
  ∃ a', forZ lo hi f a = Ret a' ∧ I (Z.max lo hi) a'.
Proof.
  intros HI Hstep. destruct (Z.le_gt_cases lo hi).
  - rewrite Z.max_r by done. by apply forZ_inv.
  - rewrite Z.max_l by lia. exists a. split; [|done]. unfold forZ. by replace (Z.to_nat (hi - lo)) with 0%nat by lia.
Qed.

Lemma forZ_empty {A} lo hi f (a : A) : hi ≤ lo → forZ lo hi f a = Ret a.
Proof. intros H. unfold forZ. by replace (Z.to_nat (hi - lo)) with 0%nat by lia. Qed.

(** A loop that ends does so with [returns], whatever its steps. *)
Lemma forZ_terminates {A} lo hi f (a : A) : (∀ i a, terminates (f i a)) → terminates (forZ lo hi f a).
Proof.
  intros Hf. unfold forZ. generalize (Z.to_nat (hi - lo)). intros n. revert lo a. induction n as [|n IH]; intros i a; [done|].
  cbn [for_n]. apply terminates_bind; [apply Hf|]. intros b _. apply IH.
Qed.

(** A [switch] of [case]s that return: the first equal one. *)
Fixpoint swicase {A} (v : Z) (cases : list (Z * A)) : option A :=
  match cases with [] => None | (c, n) :: cases => if v =? c then Some n else swicase v cases end.

(** [lia] for goals with divisions and remainders by constants. *)
Ltac dlia := zify; Z.to_euclidean_division_equations; lia.
