(* ===== verification/Bits.v ===== *)
(** * Bits: bit fields, bit words, bitmaps, unaligned accesses and size classes

    Models include/bits_api.h (the bit-field macros every register accessor is
    built from), include/bitword.h and include/bitmap.h (the bitmap behind
    kmalloc), include/mem_access.h and include/math.h. *)
From S2P Require Import Prelude.

(** ** Bit fields (include/bits_api.h) *)
Definition BT (bitpos : Z) : Z := s32 (Z.shiftl 1 bitpos).
Definition BIT_IS_SET (val bitpos : Z) : Z := Z.land val (BT bitpos).
Definition BIT_IS_CLEAR (val bitpos : Z) : bool := negb (truth (BIT_IS_SET val bitpos)).
(** [val] is the [uint8_t] the callers pass. *)
Definition BIT_CLEAR (val bitpos : Z) : Z := u8 (Z.land val (Z.lnot (BT bitpos))).
Definition BITS_AT_POS (bits pos mask : Z) : Z := s64 (Z.shiftl (Z.land (s64 bits) mask) pos).
Definition BIT_AT_POS (bit pos : Z) : Z := BITS_AT_POS bit pos 1.
Definition BF_MASK_32 (width : Z) : Z := u32 (u64 (Z.shiftl 1 width) - 1).
Definition BF_MASK_AT_32 (offset width : Z) : Z := u32 (Z.shiftl (BF_MASK_32 width) offset).
Definition BITS_PLACE_32 (val offset width : Z) : Z := u32 (BITS_AT_POS val offset (BF_MASK_32 width)).
Definition BF_EXTRACT (val offset width : Z) : Z := Z.land (Z.shiftr val offset) (BF_MASK_32 width).
Definition BF_CLEAR (val offset width : Z) : Z :=
  Z.land val (u32 (Z.lnot (BF_MASK_AT_32 offset width))).
Definition BF_ORR (val set offset width : Z) : Z := Z.lor val (BITS_PLACE_32 set offset width).
Definition BF_CLEAR_AND_SET (val set offset width : Z) : Z :=
  BF_ORR (BF_CLEAR val offset width) set offset width.
Definition BYTE_EXTRACT (v i : Z) : Z := u8 (Z.land (Z.shiftr v (i * 8)) 0xff).

(** ** Unaligned little-endian accesses (include/mem_access.h) *)
Definition get_unaligned_16_le (m : mem) (addr : Z) : outcome Z :=
  b1 ← load8 m (addr + 1);
  b0 ← load8 m addr;
  Ret (u16 (Z.lor (Z.shiftl b1 8) b0)).

Definition get_unaligned_32_le (m : mem) (addr : Z) : outcome Z :=
  b3 ← load8 m (addr + 3);
  b2 ← load8 m (addr + 2);
  b1 ← load8 m (addr + 1);
  b0 ← load8 m addr;
  Ret (u32 (Z.lor (Z.lor (Z.lor (s32 (Z.shiftl b3 24)) (Z.shiftl b2 16)) (Z.shiftl b1 8)) b0)).

Definition set_unaligned_16_le (m : mem) (a v : Z) : outcome mem :=
  m ← store8 m a (BYTE_EXTRACT v 1);
  store8 m (a + 1) (BYTE_EXTRACT v 0).

Definition set_unaligned_32_le (m : mem) (a v : Z) : outcome mem :=
  m ← store8 m a (BYTE_EXTRACT v 3);
  m ← store8 m (a + 1) (BYTE_EXTRACT v 2);
  m ← store8 m (a + 2) (BYTE_EXTRACT v 1);
  store8 m (a + 3) (BYTE_EXTRACT v 0).

Definition is_aligned (a alignment : Z) : bool := negb (truth (Z.land a (alignment - 1))).

(** ** Bit words (include/bitword.h)

    A word is the [uint64_t] behind [ptr]; operations return the new word. *)
Definition BITS_PER_WORD_LOG : Z := 6.
Definition BITS_PER_WORD : Z := 2 ^ BITS_PER_WORD_LOG.

(** [char b = *ptr] keeps the low eight bits, and the word is written back
    from [b]. *)
Definition bitword_set_next_free (fuel : nat) (word end_bit : Z) : outcome (Z * Z) :=
  let b := u8 word in
  loop fuel (λ i,
    if i <? end_bit then
      if Z.land b (s32 (Z.shiftl 1 i)) =? 0
      then Ret (inr (u64 (Z.lor b (s32 (Z.shiftl 1 i))), i))
      else Ret (inl (i + 1))
    else Ret (inr (word, end_bit))) 0.

Definition bitword_clear_bit (word bit : Z) : Z := Z.land word (u64 (Z.lnot (Z.shiftl 1 bit))).

(** [1 << bit] is an [int] shift: from 32 on it is undefined; at 31 it is
    negative and is sign-extended before the conjunction. *)
Definition bitword_bit_is_set (word bit : Z) : outcome bool :=
  if bit <? 32 then Ret (truth (Z.land word (u64 (s32 (Z.shiftl 1 bit))))) else Fault.

(** ** Bitmaps (include/bitmap.h): arrays of words *)
Definition bitmap_clear (bitmap : list Z) (bit_idx : Z) : outcome (list Z) :=
  if bit_idx <? 0 then Fault else
  let w := Z.to_nat (Z.shiftr bit_idx BITS_PER_WORD_LOG) in
  word ← deref (bitmap !! w);
  Ret (<[w := bitword_clear_bit word (Z.rem bit_idx BITS_PER_WORD)]> bitmap).

(** The do-while over the words; [cur] is [current_word - bitmap]. *)
Definition bitmap_scan (fuel : nat) (bitmap : list Z) (end_word : Z) : outcome (list Z * Z * option Z) :=
  loop fuel (λ '(bitmap, cur),
    word ← deref (bitmap !! Z.to_nat cur);
    '(word', bit) ← bitword_set_next_free 65 word BITS_PER_WORD;
    let bitmap := <[Z.to_nat cur := word']> bitmap in
    if bit <=? BITS_PER_WORD - 1 then Ret (inr (bitmap, cur, Some bit))
    else if cur + 1 =? end_word then Ret (inr (bitmap, cur + 1, None))
    else Ret (inl (bitmap, cur + 1))) (bitmap, 0).

Definition bitmap_set_next_free (fuel : nat) (bitmap : list Z) (end_idx : Z) : outcome (list Z * Z) :=
  let end_word := Z.shiftr end_idx BITS_PER_WORD_LOG in
  '(bitmap, cur, found) ← bitmap_scan fuel bitmap end_word;
  match found with
  | Some bit => Ret (bitmap, Z.shiftl cur BITS_PER_WORD_LOG + bit)
  | None =>
      let tail := Z.rem end_idx BITS_PER_WORD in
      if truth tail then
        word ← deref (bitmap !! Z.to_nat cur);
        '(word', bit) ← bitword_set_next_free 65 word tail;
        let bitmap := <[Z.to_nat cur := word']> bitmap in
        if bit <=? tail then Ret (bitmap, Z.shiftl cur BITS_PER_WORD_LOG + bit)
        else Ret (bitmap, end_idx)
      else Ret (bitmap, end_idx)
  end.

Definition bitmap_bit_is_set (bitmap : list Z) (idx : Z) : outcome bool :=
  if idx <? 0 then Fault else
  word ← deref (bitmap !! Z.to_nat (Z.shiftr idx BITS_PER_WORD_LOG));
  bitword_bit_is_set word (Z.rem idx BITS_PER_WORD).

(** ** include/math.h

    The loop halves [tmp], an [int], so 32 iterations are enough. *)
Definition get_biggest_log2 (num : Z) : outcome Z :=
  '(tmp, res) ← loop 33 (λ '(tmp, res),
    if 1 <? tmp then Ret (inl (Z.shiftr tmp 1, res + 1)) else Ret (inr (tmp, res)))
    (s32 (num - 1), 0);
  Ret (if s32 (Z.shiftl tmp res) <? num then res + 1 else res).

(** ** Lemmas on the wraps at bit level *)
Lemma testbit_u32 z i : 0 ≤ i → Z.testbit (u32 z) i = (i <? 32) && Z.testbit z i.
Proof. intros. unfold u32. by apply testbit_mod_pow2. Qed.

Lemma testbit_u64 z i : 0 ≤ i → Z.testbit (u64 z) i = (i <? 64) && Z.testbit z i.
Proof. intros. unfold u64. by apply testbit_mod_pow2. Qed.

Lemma testbit_u8 z i : 0 ≤ i → Z.testbit (u8 z) i = (i <? 8) && Z.testbit z i.
Proof. intros. unfold u8. by apply testbit_mod_pow2. Qed.

Lemma s64_mod z : s64 z mod 2 ^ 64 = z mod 2 ^ 64.
Proof.
  unfold s64. rewrite Zminus_mod_idemp_l. f_equal. lia.
Qed.

Lemma s32_mod z : s32 z mod 2 ^ 32 = z mod 2 ^ 32.
Proof.
  unfold s32. rewrite Zminus_mod_idemp_l. f_equal. lia.
Qed.

Lemma testbit_s64 z i : 0 ≤ i < 64 → Z.testbit (s64 z) i = Z.testbit z i.
Proof.
  intros. pose proof (testbit_mod_pow2 (s64 z) 64 i ltac:(lia) ltac:(lia)) as H1.
  rewrite s64_mod, testbit_mod_pow2 in H1 by lia. destruct (Z.ltb_spec i 64); [done|lia].
Qed.

Lemma testbit_s32 z i : 0 ≤ i < 32 → Z.testbit (s32 z) i = Z.testbit z i.
Proof.
  intros. pose proof (testbit_mod_pow2 (s32 z) 32 i ltac:(lia) ltac:(lia)) as H1.
  rewrite s32_mod, testbit_mod_pow2 in H1 by lia. destruct (Z.ltb_spec i 32); [done|lia].
Qed.

(** Rewrites a goal about [Z.testbit] to its bits; side conditions are linear. *)
Ltac testbits :=
  repeat first
    [ rewrite Z.land_spec | rewrite Z.lor_spec | rewrite Z.lxor_spec
    | rewrite Z.ldiff_spec
    | rewrite Z.lnot_spec by lia | rewrite Z.shiftr_spec by lia
    | rewrite Z.shiftl_spec by lia | rewrite testbit_u32 by lia
    | rewrite testbit_u64 by lia | rewrite testbit_u8 by lia
    | rewrite testbit_s64 by lia | rewrite testbit_s32 by lia
    | rewrite testbit_mod_pow2 by lia
    | rewrite testbit_ones by lia | rewrite Z.testbit_0_l ].

Lemma BF_MASK_32_ones w : 0 ≤ w ≤ 32 → BF_MASK_32 w = Z.ones w.
Proof.
  intros. unfold BF_MASK_32. rewrite Z.shiftl_mul_pow2, Z.mul_1_l by lia.
  assert (0 < 2 ^ w ≤ 2 ^ 32).
  { split; [apply Z.pow_pos_nonneg; lia|]. apply Z.pow_le_mono_r; lia. }
  unwrap. rewrite Z.ones_equiv. lia.
Qed.

Lemma testbit_place set o w i : 0 ≤ o → 0 ≤ w → o + w ≤ 32 → 0 ≤ i →
  Z.testbit (BITS_PLACE_32 set o w) i = (o <=? i) && (i <? o + w) && Z.testbit set (i - o).
Proof.
  intros. unfold BITS_PLACE_32, BITS_AT_POS. rewrite BF_MASK_32_ones by lia.
  rewrite testbit_u32 by done. destruct (Z.ltb_spec i 32); simpl.
  - rewrite testbit_s64, Z.shiftl_spec, Z.land_spec by lia.
    destruct (Z.leb_spec o i); simpl.
    + rewrite testbit_s64, testbit_ones by lia.
      zcases; simpl; try lia; by rewrite ?andb_true_r, ?andb_false_r.
    + by rewrite !Z.testbit_neg_r by lia.
  - zcases; simpl; done || lia.
Qed.

Lemma testbit_clear v o w i : 0 ≤ o → 0 ≤ w → o + w ≤ 32 → 0 ≤ i < 32 →
  Z.testbit (BF_CLEAR v o w) i = Z.testbit v i && negb ((o <=? i) && (i <? o + w)).
Proof.
  intros. unfold BF_CLEAR, BF_MASK_AT_32. rewrite BF_MASK_32_ones by lia. testbits.
  destruct (Z.ltb_spec i 32); [|lia]. simpl.
  destruct (Z.leb_spec o i); simpl; [|by rewrite (Z.testbit_neg_r (Z.ones w)) by lia].
  rewrite testbit_ones by lia. f_equal. f_equal. zcases; done || lia.
Qed.

Lemma testbit_extract v o w i : 0 ≤ o → 0 ≤ w ≤ 32 → 0 ≤ i →
  Z.testbit (BF_EXTRACT v o w) i = (i <? w) && Z.testbit v (i + o).
Proof.
  intros. unfold BF_EXTRACT. rewrite BF_MASK_32_ones by lia. testbits. apply andb_comm.
Qed.

Lemma BF_EXTRACT_spec v o w : 0 ≤ o → 0 ≤ w ≤ 32 → BF_EXTRACT v o w = (v / 2 ^ o) mod 2 ^ w.
Proof.
  intros. unfold BF_EXTRACT. rewrite BF_MASK_32_ones, Z.land_ones, Z.shiftr_div_pow2 by lia. done.
Qed.

(** Register fields that are set or cleared keep the word in range ... *)
Lemma bf_clear_range v o w : 0 ≤ v < 2 ^ 32 → 0 ≤ BF_CLEAR v o w < 2 ^ 32.
Proof.
  intros Hv. apply bits_bound; [lia|]. split; [apply Z.land_nonneg; lia|].
  intros i Hi. unfold BF_CLEAR. by rewrite Z.land_spec, (testbit_high v 32) by lia.
Qed.

Lemma bf_set_range v x o w : 0 ≤ v < 2 ^ 32 → 0 ≤ o → 0 ≤ w → o + w ≤ 32 → 0 ≤ BF_CLEAR_AND_SET v x o w < 2 ^ 32.
Proof.
  intros Hv ???. pose proof (bf_clear_range v o w Hv). apply bits_bound; [lia|]. split.
  - apply Z.lor_nonneg; split; [lia|apply u32_range].
  - intros i Hi. unfold BF_CLEAR_AND_SET, BF_ORR. rewrite Z.lor_spec, (testbit_high (BF_CLEAR v o w) 32), testbit_place by lia.
    zcases; simpl; done || lia.
Qed.

(** ... are read back modulo their width, and leave the other fields alone. *)
Lemma bf_set_same v x o w : 0 ≤ v < 2 ^ 32 → 0 ≤ o → 0 ≤ w → o + w ≤ 32 →
  BF_EXTRACT (BF_CLEAR_AND_SET v x o w) o w = x mod 2 ^ w.
Proof.
  intros Hv ???. unfold BF_CLEAR_AND_SET, BF_ORR. apply Z.bits_inj'; intros i Hi.
  rewrite testbit_extract, testbit_mod_pow2 by lia. destruct (Z.ltb_spec i w); simpl; [|done].
  rewrite Z.lor_spec, testbit_clear, testbit_place by lia.
  destruct (Z.leb_spec o (i + o)); [|lia]. destruct (Z.ltb_spec (i + o) (o + w)); [|lia].
  simpl. rewrite andb_false_r. simpl. f_equal. lia.
Qed.

Lemma bf_set_other v x o w o' w' : 0 ≤ v < 2 ^ 32 → 0 ≤ o → 0 ≤ w → o + w ≤ 32 → 0 ≤ o' → 0 ≤ w' → o' + w' ≤ 32 →
  o + w ≤ o' ∨ o' + w' ≤ o → BF_EXTRACT (BF_CLEAR_AND_SET v x o w) o' w' = BF_EXTRACT v o' w'.
Proof.
  intros Hv ?????? Hd. unfold BF_CLEAR_AND_SET, BF_ORR. apply Z.bits_inj'; intros i Hi. rewrite !testbit_extract by lia.
  destruct (Z.ltb_spec i w'); simpl; [|done]. rewrite Z.lor_spec, testbit_clear, testbit_place by lia.
  zcases; simpl; try lia; by rewrite ?andb_true_r, ?orb_false_r.
Qed.

Lemma bf_clear_same v o w : 0 ≤ v < 2 ^ 32 → 0 ≤ o → 0 ≤ w → o + w ≤ 32 → BF_EXTRACT (BF_CLEAR v o w) o w = 0.
Proof.
  intros Hv ???. apply Z.bits_inj'; intros i Hi. rewrite Z.bits_0, testbit_extract by lia.
  destruct (Z.ltb_spec i w); simpl; [|done]. rewrite testbit_clear by lia. zdec. by rewrite andb_false_r.
Qed.

Lemma bf_clear_other v o w o' w' : 0 ≤ v < 2 ^ 32 → 0 ≤ o → 0 ≤ w → o + w ≤ 32 → 0 ≤ o' → 0 ≤ w' → o' + w' ≤ 32 →
  o + w ≤ o' ∨ o' + w' ≤ o → BF_EXTRACT (BF_CLEAR v o w) o' w' = BF_EXTRACT v o' w'.
Proof.
  intros Hv ?????? Hd. apply Z.bits_inj'; intros i Hi. rewrite !testbit_extract by lia.
  destruct (Z.ltb_spec i w'); simpl; [|done]. rewrite testbit_clear by lia. zcases; simpl; try lia; by rewrite ?andb_true_r.
Qed.

(** Reads a field of a word built from field accesses. *)
Ltac bf_range := repeat first [apply bf_set_range | apply bf_clear_range]; try lia.
Ltac bf_read :=
  repeat first [rewrite bf_set_same by (bf_range; lia) | rewrite bf_set_other by (bf_range; lia)
    | rewrite bf_clear_same by (bf_range; lia) | rewrite bf_clear_other by (bf_range; lia)].

(** setting a register field with [BF_CLEAR_AND_SET] and reading it back
    with [BF_EXTRACT] gives the value modulo the field's width, every field
    that does not overlap keeps its value, and the register stays a 32-bit
    value: the contract all register accessors rely on. *)
Theorem bf_set_get v x o w o' w' :
  0 ≤ v < 2 ^ 32 → 0 ≤ o → 0 ≤ w → o + w ≤ 32 → 0 ≤ o' → 0 ≤ w' → o' + w' ≤ 32 →
  BF_EXTRACT (BF_CLEAR_AND_SET v x o w) o w = x mod 2 ^ w ∧
  (o + w ≤ o' ∨ o' + w' ≤ o →
   BF_EXTRACT (BF_CLEAR_AND_SET v x o w) o' w' = BF_EXTRACT v o' w') ∧
  0 ≤ BF_CLEAR_AND_SET v x o w < 2 ^ 32.
Proof. intros. split_and!; [by apply bf_set_same|intros; by apply bf_set_other|by apply bf_set_range|by apply bf_set_range]. Qed.

(** Witness: a 4-bit field at bit 11 (the endpoint field of USB_HOST_CHAR). *)
Lemma bf_set_get_witness :
  0 ≤ 0xffff0000 < 2 ^ 32 ∧
  BF_EXTRACT (BF_CLEAR_AND_SET 0xffff0000 19 11 4) 11 4 = 19 mod 2 ^ 4.
Proof. split; [lia|]. apply (bf_set_get 0xffff0000 19 11 4 15 1); lia. Defined.

(** ** Unaligned accesses *)
Lemma shiftl_lor_add a b n : 0 ≤ n → 0 ≤ b < 2 ^ n → Z.lor (Z.shiftl a n) b = a * 2 ^ n + b.
Proof.
  intros Hn Hb. rewrite <- Z.shiftl_mul_pow2 by done.
  rewrite <- Z.lxor_lor, <- Z.add_nocarry_lxor; [done| |];
    apply Z.bits_inj'; intros i Hi; rewrite Z.land_spec, Z.shiftl_spec, Z.testbit_0_l by done;
    destruct (Z_lt_le_dec i n);
    (rewrite Z.testbit_neg_r by lia; done) || (rewrite (testbit_high b n) by lia; apply andb_false_r).
Qed.

Lemma lor_bytes b3 b2 b1 b0 :
  0 ≤ b2 < 2 ^ 8 → 0 ≤ b1 < 2 ^ 8 → 0 ≤ b0 < 2 ^ 8 →
  Z.lor (Z.lor (Z.lor (Z.shiftl b3 24) (Z.shiftl b2 16)) (Z.shiftl b1 8)) b0
  = b0 + 2 ^ 8 * b1 + 2 ^ 16 * b2 + 2 ^ 24 * b3.
Proof.
  intros. replace (Z.shiftl b3 24) with (Z.shiftl (Z.shiftl b3 8) 16) by (by rewrite Z.shiftl_shiftl).
  rewrite <- Z.shiftl_lor, (shiftl_lor_add b3) by lia.
  replace (Z.shiftl (b3 * 2 ^ 8 + b2) 16) with (Z.shiftl (Z.shiftl (b3 * 2 ^ 8 + b2) 8) 8)
    by (by rewrite Z.shiftl_shiftl).
  rewrite <- Z.shiftl_lor, (shiftl_lor_add (b3 * 2 ^ 8 + b2)) by lia.
  rewrite shiftl_lor_add by lia. lia.
Qed.

Lemma u32_lor a b : u32 (Z.lor (s32 a) b) = u32 (Z.lor a b).
Proof.
  apply Z.bits_inj'; intros i Hi. rewrite !testbit_u32, !Z.lor_spec by done.
  destruct (Z.ltb_spec i 32); simpl; [|done]. by rewrite testbit_s32 by lia.
Qed.

Lemma get_unaligned_32_le_val m a b0 b1 b2 b3 :
  bytes_at m a [b0; b1; b2; b3] → Forall (λ b, 0 ≤ b < 2 ^ 8) [b0; b1; b2; b3] →
  get_unaligned_32_le m a = Ret (b0 + 2 ^ 8 * b1 + 2 ^ 16 * b2 + 2 ^ 24 * b3).
Proof.
  intros Hm Hb. rewrite !Forall_cons in Hb. destruct Hb as (?&?&?&?&_).
  pose proof (Hm 0%nat b0 eq_refl) as E0. pose proof (Hm 1%nat b1 eq_refl) as E1.
  pose proof (Hm 2%nat b2 eq_refl) as E2. pose proof (Hm 3%nat b3 eq_refl) as E3.
  unfold get_unaligned_32_le, load8. rewrite Z.add_0_r in E0.
  change (Z.of_nat 1) with 1 in E1. change (Z.of_nat 2) with 2 in E2. change (Z.of_nat 3) with 3 in E3.
  rewrite E0, E1, E2, E3. simpl. f_equal.
  rewrite <- !Z.lor_assoc, u32_lor, !Z.lor_assoc, lor_bytes by done. apply u32_id. lia.
Qed.

Lemma get_unaligned_16_le_val m a b0 b1 :
  bytes_at m a [b0; b1] → Forall (λ b, 0 ≤ b < 2 ^ 8) [b0; b1] →
  get_unaligned_16_le m a = Ret (b0 + 2 ^ 8 * b1).
Proof.
  intros Hm Hb. rewrite !Forall_cons in Hb. destruct Hb as (?&?&_).
  pose proof (Hm 0%nat b0 eq_refl) as E0. pose proof (Hm 1%nat b1 eq_refl) as E1.
  unfold get_unaligned_16_le, load8. rewrite Z.add_0_r in E0.
  change (Z.of_nat 1) with 1 in E1. rewrite E0, E1. simpl. f_equal.
  rewrite shiftl_lor_add by lia. rewrite u16_id by lia. lia.
Qed.

Lemma BYTE_EXTRACT_val v i : 0 ≤ i → BYTE_EXTRACT v i = (v / 2 ^ (i * 8)) mod 2 ^ 8.
Proof.
  intros. unfold BYTE_EXTRACT. change 0xff with (Z.ones 8).
  rewrite Z.land_ones, Z.shiftr_div_pow2 by lia. apply u8_id. by apply Z.mod_pos_bound.
Qed.

Lemma u8_BYTE_EXTRACT v i : u8 (BYTE_EXTRACT v i) = BYTE_EXTRACT v i.
Proof. apply u8_id, u8_range. Qed.

Lemma set_unaligned_32_le_val m a v : mapped m a 4 →
  set_unaligned_32_le m a v = Ret (<[a + 3 := BYTE_EXTRACT v 0]> (<[a + 2 := BYTE_EXTRACT v 1]>
    (<[a + 1 := BYTE_EXTRACT v 2]> (<[a := BYTE_EXTRACT v 3]> m)))).
Proof.
  intros Hm. unfold set_unaligned_32_le.
  assert (∀ q, a ≤ q < a + 4 → ∀ m', (∀ q, is_Some (m !! q) → is_Some (m' !! q)) →
    ∀ x, store8 m' q x = Ret (<[q := u8 x]> m')) as St.
  { intros q Hq m' Hm' x. apply store8_returns, Hm', Hm. lia. }
  assert (∀ (m' : mem) k x, (∀ q, is_Some (m !! q) → is_Some (m' !! q)) →
    ∀ q, is_Some (m !! q) → is_Some (<[k := x]> m' !! q)) as Ins.
  { intros m' k x Hm' q Hq. rewrite lookup_insert. case_decide; [done|by apply Hm']. }
  rewrite St by (done || lia). rewrite bind_ret. rewrite St by (try lia; auto).
  rewrite bind_ret, St by (try lia; auto). rewrite bind_ret, St by (try lia; auto 10).
  by rewrite !u8_BYTE_EXTRACT.
Qed.

(** the 32-bit store whose name says little-endian writes the bytes in
    big-endian order: reading the word back with [get_unaligned_32_le] gives
    the byte-swapped value. *)
Theorem set_unaligned_32_le_swaps m a v :
  mapped m a 4 → 0 ≤ v < 2 ^ 32 →
  (m' ← set_unaligned_32_le m a v; get_unaligned_32_le m' a)
  = Ret (v / 2 ^ 24 + 2 ^ 8 * (v / 2 ^ 16 mod 2 ^ 8) + 2 ^ 16 * (v / 2 ^ 8 mod 2 ^ 8)
         + 2 ^ 24 * (v mod 2 ^ 8)).
Proof.
  intros Hm Hv. rewrite set_unaligned_32_le_val by done. rewrite bind_ret.
  rewrite (get_unaligned_32_le_val _ _ (BYTE_EXTRACT v 3) (BYTE_EXTRACT v 2) (BYTE_EXTRACT v 1)
             (BYTE_EXTRACT v 0)).
  - rewrite !BYTE_EXTRACT_val by lia. change (3 * 8) with 24. change (2 * 8) with 16.
    change (1 * 8) with 8. change (0 * 8) with 0. rewrite Z.pow_0_r, Z.div_1_r.
    rewrite (Z.mod_small (v / 2 ^ 24)); [done|]. split; [apply Z.div_pos; lia|].
    apply Z.div_lt_upper_bound; lia.
  - intros [|[|[|[|i]]]] b Hi; simplify_eq/=.
    all: rewrite ?Z.add_0_r; by repeat (rewrite lookup_insert; case_decide; [done || lia|]); try lia.
  - repeat constructor; apply u8_range.
Qed.

(** Witness: 0x12345678 reads back as 0x78563412. *)
Lemma set_unaligned_32_le_swaps_witness :
  (m' ← set_unaligned_32_le (mem_of 100 [0; 0; 0; 0]) 100 0x12345678; get_unaligned_32_le m' 100)
  = Ret 0x78563412.
Proof.
  rewrite (set_unaligned_32_le_swaps (mem_of 100 [0; 0; 0; 0]) 100 0x12345678); [done| |lia].
  apply (bytes_at_mapped _ 100 [0; 0; 0; 0]), mem_of_bytes.
Defined.

(** ** The bitmap allocator *)
Lemma land_pow2_eqb b i : 0 ≤ i → (Z.land b (2 ^ i) =? 0) = negb (Z.testbit b i).
Proof.
  intros Hi. destruct (Z.testbit b i) eqn:E; simpl.
  - apply Z.eqb_neq. intros H0. apply (f_equal (λ z, Z.testbit z i)) in H0.
    rewrite Z.land_spec, E, testbit_pow2, Z.eqb_refl, Z.testbit_0_l in H0 by done. done.
  - apply Z.eqb_eq. apply Z.bits_inj'; intros j Hj.
    rewrite Z.land_spec, testbit_pow2, Z.testbit_0_l by done.
    destruct (Z.eqb_spec j i) as [->|]; [by rewrite E|apply andb_false_r].
Qed.

Lemma s32_shiftl_1 i : 0 ≤ i < 31 → s32 (Z.shiftl 1 i) = 2 ^ i.
Proof.
  intros. rewrite Z.shiftl_1_l. apply s32_id.
  assert (2 ^ i < 2 ^ 31) by (apply Z.pow_lt_mono_r; lia).
  assert (0 < 2 ^ i) by (apply Z.pow_pos_nonneg; lia). lia.
Qed.

(** The bit a word's low byte gives: the lowest clear one, or 8. *)
Definition low_byte_free (w i : Z) : Prop :=
  0 ≤ i ≤ 8 ∧ (∀ j, 0 ≤ j < i → Z.testbit w j = true) ∧ (i < 8 → Z.testbit w i = false).

Lemma bitword_loop_finds word end_bit n k i :
  9 ≤ end_bit → i + Z.of_nat n = 8 → 0 ≤ i → (∀ j, 0 ≤ j < i → Z.testbit word j = true) →
  ∃ r, low_byte_free word r ∧
    loop (S n + k) (λ i,
      if i <? end_bit then
        if Z.land (u8 word) (s32 (Z.shiftl 1 i)) =? 0
        then Ret (inr (u64 (Z.lor (u8 word) (s32 (Z.shiftl 1 i))), i))
        else Ret (inl (i + 1))
      else Ret (inr (word, end_bit))) i = Ret (Z.lor (u8 word) (2 ^ r), r).
Proof.
  intros He. revert i; induction n as [|n IH]; intros i Hi Hi0 Hj; cbn [loop Nat.add].
  all: destruct (Z.ltb_spec i end_bit); [|lia].
  all: rewrite s32_shiftl_1, land_pow2_eqb, testbit_u8 by lia.
  - assert (i = 8) as -> by lia. simpl. exists 8. split; [by split; [lia|split; [|lia]]|].
    f_equal. f_equal. apply u64_id. apply (bits_bound _ 64); [lia|]. split.
    + apply Z.lor_nonneg. split; [apply u8_range|lia].
    + intros j ?. rewrite Z.lor_spec, testbit_u8 by lia. change 256 with (2 ^ 8).
      rewrite testbit_pow2 by lia. zcases; done || lia.
  - destruct (Z.ltb_spec i 8); [|lia]. simpl. destruct (Z.testbit word i) eqn:E; simpl.
    + apply IH; [lia..|]. intros j ?. destruct (Z.eq_dec j i) as [->|]; [done|apply Hj; lia].
    + exists i. split; [by split; [lia|]|]. f_equal. f_equal. apply u64_id.
      apply (bits_bound _ 64); [lia|]. split.
      * apply Z.lor_nonneg. split; [apply u8_range|apply Z.pow_nonneg; lia].
      * intros j ?. rewrite Z.lor_spec, testbit_u8, testbit_pow2 by lia. zcases; done || lia.
Qed.

Lemma bitword_set_next_free_low word end_bit : 9 ≤ end_bit →
  ∃ r, low_byte_free word r ∧
    bitword_set_next_free 65 word end_bit = Ret (Z.lor (u8 word) (2 ^ r), r).
Proof.
  intros. unfold bitword_set_next_free.
  apply (bitword_loop_finds word end_bit 8 56 0); [done|lia|lia|intros; lia].
Qed.

Lemma bitmap_low_byte n word rest end_idx : (0 < n)%nat → 64 ≤ end_idx →
  ∃ i, low_byte_free word i ∧
    bitmap_set_next_free n (word :: rest) end_idx = Ret (Z.lor (u8 word) (2 ^ i) :: rest, i).
Proof.
  intros Hn He. destruct (bitword_set_next_free_low word BITS_PER_WORD) as (i & Hi & E); [done|].
  exists i. split; [done|]. unfold bitmap_set_next_free, bitmap_scan. rewrite loop_step by done.
  change (Z.to_nat 0) with 0%nat. cbn [lookup list_lookup deref]. rewrite bind_ret, E, bind_ret.
  destruct Hi as (Hi & _ & _). change (BITS_PER_WORD - 1) with 63.
  destruct (Z.leb_spec i 63); [|lia]. done.
Qed.

(** on a bitmap of at least 64 entries the allocator only ever looks at
    the low byte of the first word.  It returns the lowest clear bit of that
    byte, or 8 once the byte is full, and it writes the word back from the
    byte, so whatever bits 8 to 63 recorded is lost. *)
Theorem bitmap_set_next_free_low_byte word rest end_idx :
  64 ≤ end_idx →
  ∃ i, low_byte_free word i ∧
    bitmap_set_next_free 1 (word :: rest) end_idx = Ret (Z.lor (u8 word) (2 ^ i) :: rest, i).
Proof. apply bitmap_low_byte. lia. Qed.

(** Witness: a first word whose low byte and bit 20 are taken. *)
Lemma bitmap_set_next_free_low_byte_witness :
  64 ≤ 4096 ∧ bitmap_set_next_free 1 [2 ^ 20 + 255; 0] 4096 = Ret ([511; 0], 8).
Proof.
  split; [lia|].
  destruct (bitmap_set_next_free_low_byte (2 ^ 20 + 255) [0] 4096 ltac:(lia)) as (i & Hi & ->).
  destruct Hi as (Hr & Hj & Hc).
  assert (i = 8) as ->; [|done].
  destruct (Z.eq_dec i 8) as [|Hne]; [done|]. exfalso. specialize (Hc ltac:(lia)).
  assert (i = 0 ∨ i = 1 ∨ i = 2 ∨ i = 3 ∨ i = 4 ∨ i = 5 ∨ i = 6 ∨ i = 7) as Hc' by lia.
  destruct_or! Hc'; subst i; vm_compute in Hc; discriminate.
Defined.

(** ** Size classes *)
Lemma log2_loop n tmp res : 1 ≤ tmp → (Z.to_nat (Z.log2 tmp) < n)%nat →
  loop n (λ '(tmp, res),
    if 1 <? tmp then Ret (inl (Z.shiftr tmp 1, res + 1)) else Ret (inr (tmp, res))) (tmp, res)
  = Ret (1, res + Z.log2 tmp).
Proof.
  revert tmp res; induction n as [|n IH]; intros tmp res Ht Hn; [lia|]. cbn [loop].
  destruct (Z.ltb_spec 1 tmp).
  - cbn. assert (1 ≤ Z.log2 tmp) by (apply Z.log2_le_pow2; lia).
    assert (Z.log2 (Z.shiftr tmp 1) = Z.log2 tmp - 1) as El.
    { rewrite Z.log2_shiftr by lia. lia. }
    change (Z.div2 tmp) with (Z.shiftr tmp 1).
    rewrite IH; [f_equal; f_equal; lia| |lia].
    rewrite Z.shiftr_div_pow2 by lia. apply Z.div_le_lower_bound; lia.
  - assert (tmp = 1) as -> by lia. cbn. f_equal. f_equal. lia.
Qed.

Lemma get_biggest_log2_bounds num :
  2 ≤ num < 2 ^ 31 →
  get_biggest_log2 num = Ret (Z.log2_up num) ∧
  2 ^ (Z.log2_up num - 1) < num ≤ 2 ^ Z.log2_up num.
Proof.
  intros Hn. assert (Z.log2 (num - 1) < 31) by (apply Z.log2_lt_pow2; lia).
  assert (0 ≤ Z.log2 (num - 1)) by apply Z.log2_nonneg.
  assert (Z.log2_up num = Z.log2 (num - 1) + 1) as Eu.
  { rewrite Z.log2_up_eqn by lia. rewrite <- Z.sub_1_r. lia. }
  assert (2 ^ Z.log2 (num - 1) ≤ num - 1) as Hlo by (apply Z.log2_spec; lia).
  split.
  - unfold get_biggest_log2. rewrite s32_id, log2_loop by lia. rewrite bind_ret, Z.add_0_l, Z.shiftl_1_l.
    rewrite s32_id.
    + destruct (Z.ltb_spec (2 ^ Z.log2 (num - 1)) num); [|lia]. f_equal. lia.
    + assert (0 < 2 ^ Z.log2 (num - 1)) by (apply Z.pow_pos_nonneg; lia). lia.
  - replace (Z.log2_up num - 1) with (Z.pred (Z.log2_up num)) by lia. apply Z.log2_up_spec. lia.
Qed.

(** for every size from 2 up to the largest [int], [get_biggest_log2] is the
    base-2 logarithm rounded up: [2^(r-1) < num <= 2^r]. *)
Theorem get_biggest_log2_up num :
  2 ≤ num < 2 ^ 31 →
  get_biggest_log2 num = Ret (Z.log2_up num) ∧
  2 ^ (Z.log2_up num - 1) < num ≤ 2 ^ Z.log2_up num.
Proof. apply get_biggest_log2_bounds. Qed.

(** Witness: a 100-byte request is in the 128-byte class. *)
Lemma get_biggest_log2_up_witness : 2 ≤ 100 < 2 ^ 31 ∧ get_biggest_log2 100 = Ret 7.
Proof. split; [lia|]. destruct (get_biggest_log2_up 100) as [-> _]; [lia|done]. Defined.
