(* ===== verification/Lists.v ===== *)
(** * Lists: the intrusive doubly linked lists of include/list.h

    The operations run on a heap of list nodes addressed by integers, with
    NULL (0) unmapped; a dereference of an unmapped node is a [Fault].
    [dring σ h xs] says that head [h] and the nodes [xs] form a circular
    list; every operation is proved to act on [xs] as the corresponding list
    operation and to leave all other nodes alone.  The last part models the
    fixed-size object pools of include/memory/static_slot.h. *)
From S2P Require Import Prelude.

Record list_head := ListHead { next : Z; prev : Z }.

#[export] Instance list_head_eq_dec : EqDecision list_head.
Proof. solve_decision. Defined.

Abbreviation heap := (gmap Z list_head).

Definition NULL : Z := 0.

Definition get_next (σ : heap) (p : Z) : outcome Z := e ← deref (σ !! p); Ret (next e).
Definition get_prev (σ : heap) (p : Z) : outcome Z := e ← deref (σ !! p); Ret (prev e).
Definition set_next (σ : heap) (p v : Z) : outcome heap :=
  e ← deref (σ !! p); Ret (<[p := ListHead v (prev e)]> σ).
Definition set_prev (σ : heap) (p v : Z) : outcome heap :=
  e ← deref (σ !! p); Ret (<[p := ListHead (next e) v]> σ).

(** ** The operations *)
Definition INIT_LIST_HEAD (σ : heap) (list : Z) : outcome heap :=
  σ ← set_next σ list list;
  set_prev σ list list.

Definition list_empty (σ : heap) (head : Z) : outcome bool :=
  n ← get_next σ head; Ret (n =? head).

Definition __list_add (σ : heap) (new prev next : Z) : outcome heap :=
  σ ← set_prev σ next new;
  σ ← set_next σ new next;
  σ ← set_prev σ new prev;
  set_next σ prev new.

Definition list_add (σ : heap) (new_node head : Z) : outcome heap :=
  n ← get_next σ head; __list_add σ new_node head n.

Definition list_add_tail (σ : heap) (new_node head : Z) : outcome heap :=
  p ← get_prev σ head; __list_add σ new_node p head.

Definition __list_del (σ : heap) (entry : Z) : outcome heap :=
  p ← get_prev σ entry;
  n ← get_next σ entry;
  σ ← set_next σ p n;
  n ← get_next σ entry;
  p ← get_prev σ entry;
  σ ← set_prev σ n p;
  σ ← set_next σ entry NULL;
  set_prev σ entry NULL.

Definition list_del (σ : heap) (entry : Z) : outcome heap := __list_del σ entry.

Definition list_del_init (σ : heap) (entry : Z) : outcome heap :=
  σ ← __list_del σ entry;
  σ ← set_prev σ entry entry;
  set_next σ entry entry.

Definition list_move (σ : heap) (list head : Z) : outcome heap :=
  σ ← __list_del σ list; list_add σ list head.

Definition list_move_tail (σ : heap) (list head : Z) : outcome heap :=
  σ ← __list_del σ list; list_add_tail σ list head.

(** Entries are named by the address of their list node. *)
Definition list_first_entry (σ : heap) (head : Z) : outcome Z := get_next σ head.

Definition list_next_entry_or_null (σ : heap) (head : Z) : outcome Z :=
  pos ← get_next σ head; Ret (if pos =? head then NULL else pos).

(** [list_for_each_entry_safe(pos, tmp, head, member) body], for a body that
    transforms a state [s] whose heap is [hp s]. *)
Definition list_for_each_entry_safe {St} (hp : St → heap) (fuel : nat) (head : Z)
    (body : St → Z → outcome St) (s : St) : outcome St :=
  pos ← list_first_entry (hp s) head;
  tmp ← get_next (hp s) pos;
  loop fuel (λ '(s, pos, tmp),
    if pos =? head then Ret (inr s)
    else s ← body s pos; tmp' ← get_next (hp s) tmp; Ret (inl (s, tmp, tmp'))) (s, pos, tmp).

(** ** Object pools (include/memory/static_slot.h)

    A pool is an array of slots and the two list heads of its free and its
    active slots. *)
Record slot_pool := SlotPool { slot_free : Z; slot_active : Z; slot_nodes : list Z }.

(** [memset] of the slot array: the links of every slot become NULL. *)
Definition zero_slots (σ : heap) (nodes : list Z) : outcome heap :=
  foldl (λ m node, σ ← m; _ ← deref (σ !! node); Ret (<[node := ListHead NULL NULL]> σ)) (Ret σ) nodes.

Definition STATIC_SLOT_INIT_FREE (σ : heap) (p : slot_pool) : outcome heap :=
  σ ← zero_slots σ (slot_nodes p);
  foldl (λ m node, σ ← m; list_add σ node (slot_free p)) (Ret σ) (slot_nodes p).

Definition slot_alloc (σ : heap) (p : slot_pool) : outcome (heap * Z) :=
  obj ← list_next_entry_or_null σ (slot_free p);
  if truth obj then σ ← list_move σ obj (slot_active p); Ret (σ, obj) else Ret (σ, NULL).

Definition slot_release (σ : heap) (p : slot_pool) (obj : Z) : outcome heap :=
  list_move σ obj (slot_free p).

(** ** Rings *)
Definition next_of (σ : heap) (x : Z) : option Z := next <$> σ !! x.
Definition prev_of (σ : heap) (x : Z) : option Z := prev <$> σ !! x.

Definition link (σ : heap) (x y : Z) : Prop := next_of σ x = Some y ∧ prev_of σ y = Some x.

Fixpoint path (σ : heap) (x : Z) (xs : list Z) (y : Z) : Prop :=
  match xs with
  | [] => link σ x y
  | z :: xs => link σ x z ∧ path σ z xs y
  end.

(** The circular list with head [h] and members [xs], in order. *)
Definition dring (σ : heap) (h : Z) (xs : list Z) : Prop :=
  NoDup (h :: xs) ∧ path σ h xs h.

(** [σ'] is [σ] outside the nodes [X], with the same nodes mapped. *)
Definition agree_off (X : list Z) (σ σ' : heap) : Prop :=
  ∀ x, (x ∉ X → σ' !! x = σ !! x) ∧ (is_Some (σ' !! x) ↔ is_Some (σ !! x)).

#[export] Instance agree_off_preorder X : PreOrder (agree_off X).
Proof.
  split.
  - by intros σ x.
  - intros σ1 σ2 σ3 H1 H2 x. destruct (H1 x) as [E1 D1], (H2 x) as [E2 D2]. split.
    + intros Hx. by rewrite E2, E1.
    + by rewrite D2.
Qed.

Lemma agree_off_mono X Y σ σ' : agree_off X σ σ' → X ⊆ Y → agree_off Y σ σ'.
Proof. intros H HXY x. destruct (H x) as [E D]. split; [|done]. intros Hx. apply E. set_solver. Qed.

Lemma path_app σ x xs z ys y : path σ x (xs ++ z :: ys) y ↔ path σ x xs z ∧ path σ z ys y.
Proof. revert x; induction xs as [|w xs IH]; intros x; simpl; [done|]. rewrite IH. tauto. Qed.

Lemma path_frame σ σ' x xs y :
  (∀ z, z ∈ x :: xs → next_of σ' z = next_of σ z) →
  (∀ z, z ∈ xs ++ [y] → prev_of σ' z = prev_of σ z) →
  path σ x xs y → path σ' x xs y.
Proof.
  revert x; induction xs as [|w xs IH]; intros x Hn Hp; simpl.
  - intros [??]. split; [rewrite Hn by set_solver|rewrite Hp by set_solver]; done.
  - intros [[??] Hpath]. split.
    + split; [rewrite Hn by set_solver|rewrite Hp by set_solver]; done.
    + apply IH; [| |done]; intros z Hz; [apply Hn|apply Hp]; set_solver.
Qed.

Lemma dring_frame X σ σ' h xs :
  agree_off X σ σ' → (∀ x, x ∈ h :: xs → x ∉ X) → dring σ h xs → dring σ' h xs.
Proof.
  intros Hag Hd [Hnd Hp]. split; [done|].
  eapply path_frame; [| |done]; intros z Hz; unfold next_of, prev_of;
    destruct (Hag z) as [-> _]; try done; apply Hd; set_solver.
Qed.

Lemma path_mapped σ x xs y z : path σ x xs y → z ∈ x :: xs ++ [y] → is_Some (σ !! z).
Proof.
  assert (∀ w v, next_of σ w = Some v → is_Some (σ !! w)) as Hn.
  { intros w v. unfold next_of. destruct (σ !! w); naive_solver. }
  assert (∀ w v, prev_of σ w = Some v → is_Some (σ !! w)) as Hp.
  { intros w v. unfold prev_of. destruct (σ !! w); naive_solver. }
  revert x; induction xs as [|w xs IH]; intros x; simpl.
  - intros [H1 H2] Hz. rewrite !elem_of_cons in Hz. destruct Hz as [->|[->|Hz]]; eauto.
    by apply not_elem_of_nil in Hz.
  - intros [[H1 H2] H3] Hz. apply elem_of_cons in Hz as [->|Hz]; [eauto|]. by apply (IH w).
Qed.

Lemma dring_mapped σ h xs z : dring σ h xs → z ∈ h :: xs → is_Some (σ !! z).
Proof. intros [_ Hp] Hz. eapply path_mapped; [done|set_solver]. Qed.

(** ** What each store changes *)
Lemma set_next_ok σ p v : is_Some (σ !! p) →
  ∃ σ', set_next σ p v = Ret σ' ∧ agree_off [p] σ σ' ∧
    (∀ x, next_of σ' x = if decide (x = p) then Some v else next_of σ x) ∧
    (∀ x, prev_of σ' x = prev_of σ x).
Proof.
  intros [e He]. unfold set_next. rewrite He. cbn. eexists; split; [done|].
  unfold next_of, prev_of. split; [|split]; intros x; rewrite lookup_insert;
    repeat case_decide; subst; rewrite ?He; try done; set_solver.
Qed.

Lemma set_prev_ok σ p v : is_Some (σ !! p) →
  ∃ σ', set_prev σ p v = Ret σ' ∧ agree_off [p] σ σ' ∧
    (∀ x, prev_of σ' x = if decide (x = p) then Some v else prev_of σ x) ∧
    (∀ x, next_of σ' x = next_of σ x).
Proof.
  intros [e He]. unfold set_prev. rewrite He. cbn. eexists; split; [done|].
  unfold next_of, prev_of. split; [|split]; intros x; rewrite lookup_insert;
    repeat case_decide; subst; rewrite ?He; try done; set_solver.
Qed.

Lemma get_next_ok σ p v : next_of σ p = Some v → get_next σ p = Ret v.
Proof. unfold next_of, get_next. destruct (σ !! p); [|done]. intros; by simplify_eq/=. Qed.

Lemma get_prev_ok σ p v : prev_of σ p = Some v → get_prev σ p = Ret v.
Proof. unfold prev_of, get_prev. destruct (σ !! p); [|done]. intros; by simplify_eq/=. Qed.

Lemma next_of_mapped σ p v : next_of σ p = Some v → is_Some (σ !! p).
Proof. unfold next_of. destruct (σ !! p); naive_solver. Qed.

Lemma prev_of_mapped σ p v : prev_of σ p = Some v → is_Some (σ !! p).
Proof. unfold prev_of. destruct (σ !! p); naive_solver. Qed.

(** Runs one pointer store, naming the heap it produces; leaves the premise
    that the node is mapped to [lia]-free propagation through [agree_off]. *)
Ltac mapped_step :=
  match goal with
  | Hag : agree_off _ ?σ ?σ' |- is_Some (?σ' !! ?p) =>
      apply (proj2 (proj2 (Hag p))); first [assumption | mapped_step]
  | H : is_Some (?σ !! ?p) |- is_Some (?σ !! ?p) => exact H
  end.

Ltac store_step :=
  match goal with
  | |- context [set_next ?σ ?p ?v] =>
      let σ' := fresh "σ" in
      destruct (set_next_ok σ p v) as (σ' & -> & ? & ? & ?);
      [mapped_step | rewrite ?bind_ret]
  | |- context [set_prev ?σ ?p ?v] =>
      let σ' := fresh "σ" in
      destruct (set_prev_ok σ p v) as (σ' & -> & ? & ? & ?);
      [mapped_step | rewrite ?bind_ret]
  end.

(** Rewrites [next_of]/[prev_of] of the produced heaps back to the first one. *)
Ltac fields :=
  repeat match goal with
  | H : ∀ x, next_of ?σ x = _ |- context [next_of ?σ _] => rewrite H
  | H : ∀ x, prev_of ?σ x = _ |- context [prev_of ?σ _] => rewrite H
  end.

Ltac agree_steps :=
  repeat match goal with
  | H : agree_off ?X ?σ ?σ' |- agree_off ?Y ?σ ?σ' => apply (agree_off_mono X); [exact H|set_solver]
  | H : agree_off ?X ?σ ?σ1 |- agree_off ?Y ?σ ?σ' =>
      transitivity σ1; [apply (agree_off_mono X); [exact H|set_solver]|]; clear H
  end.

Lemma __list_add_ok σ new p n :
  is_Some (σ !! new) → is_Some (σ !! p) → is_Some (σ !! n) →
  ∃ σ', __list_add σ new p n = Ret σ' ∧ agree_off [new; p; n] σ σ' ∧
    (∀ x, next_of σ' x = if decide (x = p) then Some new
                         else if decide (x = new) then Some n else next_of σ x) ∧
    (∀ x, prev_of σ' x = if decide (x = new) then Some p
                         else if decide (x = n) then Some new else prev_of σ x).
Proof.
  intros Hnew Hp Hn. unfold __list_add.
  do 4 store_step. eexists. split; [done|]. split; [agree_steps|].
  split; intros x; fields; done.
Qed.

Lemma __list_del_ok σ e p n :
  next_of σ e = Some n → prev_of σ e = Some p → is_Some (σ !! p) → is_Some (σ !! n) →
  ∃ σ', __list_del σ e = Ret σ' ∧ agree_off [e; p; n] σ σ' ∧
    (∀ x, next_of σ' x = if decide (x = e) then Some NULL
                         else if decide (x = p) then Some n else next_of σ x) ∧
    (∀ x, prev_of σ' x = if decide (x = e) then Some NULL
                         else if decide (x = n) then Some p else prev_of σ x).
Proof.
  intros En Ep Hp Hn. assert (is_Some (σ !! e)) as He by (eapply next_of_mapped; done).
  unfold __list_del. rewrite (get_prev_ok σ e p), bind_ret, (get_next_ok σ e n), bind_ret by done.
  store_step.
  rewrite (get_next_ok _ e n) by (fields; by case_decide). rewrite bind_ret.
  rewrite (get_prev_ok _ e p) by (by fields). rewrite bind_ret.
  do 3 store_step. eexists. split; [done|]. split; [agree_steps|].
  split; intros x; fields; done.
Qed.

(** ** Insertion and removal on rings *)
Lemma path_snoc_inv σ x xs e : path σ x xs e → NoDup (x :: xs) →
  ∃ p, p ∈ x :: xs ∧ link σ p e ∧
    ∀ σ' y, (∀ z, z ∈ x :: xs → z ≠ p → next_of σ' z = next_of σ z) →
            (∀ z, z ∈ xs → prev_of σ' z = prev_of σ z) →
            link σ' p y → path σ' x xs y.
Proof.
  revert x; induction xs as [|z xs IH]; intros x; simpl.
  - intros Hl _. exists x. split; [set_solver|]. split; [done|]. by intros.
  - intros [Hl Hp] [Hx Hnd]%NoDup_cons. destruct (IH _ Hp Hnd) as (p & Hpin & Hpe & Hk).
    exists p. split; [set_solver|]. split; [done|]. intros σ' y Hn Hpr Hy. split.
    + destruct Hl as [H1 H2]. split.
      * rewrite Hn; [done|set_solver|]. intros ->. done.
      * rewrite Hpr; [done|set_solver].
    + apply Hk; [| |done]; intros w Hw; [intros; apply Hn|apply Hpr]; set_solver.
Qed.

Lemma dring_nil σ h : dring σ h [] ↔ next_of σ h = Some h ∧ prev_of σ h = Some h.
Proof.
  unfold dring; simpl. split; [by intros [_ ?]|]. intros. split; [|done].
  apply NoDup_singleton.
Qed.

(** The successor of [x] on a path and what follows it. *)
Lemma path_head σ x xs y : path σ x xs y → ∃ n, next_of σ x = Some n ∧ prev_of σ n = Some x ∧
  n = match xs with [] => y | z :: _ => z end.
Proof. destruct xs as [|z xs]; simpl; [intros [??]|intros [[??] _]]; by eexists. Qed.

Lemma NoDup_second (h new : Z) xs : NoDup (h :: xs) → new ∉ h :: xs → NoDup (h :: new :: xs).
Proof.
  rewrite !NoDup_cons, !not_elem_of_cons. intros [? ?] [? ?]. by repeat split; [apply not_eq_sym|..].
Qed.

Section ring_ops.
Context (σ : heap) (h : Z).

Lemma INIT_LIST_HEAD_ring : is_Some (σ !! h) →
  ∃ σ', INIT_LIST_HEAD σ h = Ret σ' ∧ dring σ' h [] ∧ agree_off [h] σ σ'.
Proof.
  intros. unfold INIT_LIST_HEAD. do 2 store_step. eexists. split; [done|].
  split; [|agree_steps]. apply dring_nil. fields. by case_decide.
Qed.

Lemma list_empty_ring xs : dring σ h xs → list_empty σ h = Ret (bool_decide (xs = [])).
Proof.
  intros [Hnd Hp]. unfold list_empty. destruct (path_head _ _ _ _ Hp) as (n & Hn & _ & ->).
  rewrite (get_next_ok _ _ _ Hn), bind_ret. f_equal. destruct xs as [|z xs].
  - by rewrite Z.eqb_refl.
  - rewrite bool_decide_false by done. apply Z.eqb_neq. intros ->.
    apply NoDup_cons in Hnd as [Hz _]. set_solver.
Qed.

Lemma list_first_ring xs : dring σ h xs →
  list_first_entry σ h = Ret (match xs with [] => h | z :: _ => z end).
Proof.
  intros [_ Hp]. destruct (path_head _ _ _ _ Hp) as (n & Hn & _ & ->). by apply get_next_ok.
Qed.

Lemma list_next_or_null_ring xs : dring σ h xs →
  list_next_entry_or_null σ h = Ret (match xs with [] => NULL | z :: _ => z end).
Proof.
  intros Hr. unfold list_next_entry_or_null. pose proof (list_first_ring _ Hr) as E.
  unfold list_first_entry in E. rewrite E, bind_ret. f_equal. destruct xs as [|z xs].
  - by rewrite Z.eqb_refl.
  - destruct (Z.eqb_spec z h) as [->|]; [|done].
    destruct Hr as [Hnd _]. apply NoDup_cons in Hnd as [Hz _]. set_solver.
Qed.

Lemma list_add_ring xs new : dring σ h xs → new ∉ h :: xs → is_Some (σ !! new) →
  ∃ σ', list_add σ new h = Ret σ' ∧ dring σ' h (new :: xs) ∧ agree_off (new :: h :: xs) σ σ'.
Proof.
  intros [Hnd Hp] Hnew Hm. destruct (path_head _ _ _ _ Hp) as (n & Hn & Hpn & En).
  unfold list_add. rewrite (get_next_ok _ _ _ Hn), bind_ret.
  destruct (__list_add_ok σ new h n) as (σ' & -> & Hag & Fn & Fp);
    [done|by eapply next_of_mapped|by eapply prev_of_mapped|].
  exists σ'. split; [done|]. split.
  - split; [by apply NoDup_second|].
    apply NoDup_cons in Hnd as [Hh Hnd]. split.
    + split; fields; repeat case_decide; set_solver.
    + destruct xs as [|z xs]; subst n.
      * split; fields; repeat case_decide; set_solver.
      * destruct Hp as [Hl Hp]. apply NoDup_cons in Hnd as [Hz Hnd]. split.
        { split; fields; repeat case_decide; set_solver. }
        eapply path_frame; [| |exact Hp]; intros w Hw; fields; repeat case_decide; set_solver.
  - eapply agree_off_mono; [done|]. destruct xs; subst n; set_solver.
Qed.

Lemma list_add_tail_ring xs new : dring σ h xs → new ∉ h :: xs → is_Some (σ !! new) →
  ∃ σ', list_add_tail σ new h = Ret σ' ∧ dring σ' h (xs ++ [new]) ∧
    agree_off (new :: h :: xs) σ σ'.
Proof.
  intros [Hnd Hp] Hnew Hm. destruct (path_snoc_inv _ _ _ _ Hp Hnd) as (p & Hpin & [Hnp Hph] & Hk).
  unfold list_add_tail. rewrite (get_prev_ok _ _ _ Hph), bind_ret.
  destruct (__list_add_ok σ new p h) as (σ' & -> & Hag & Fn & Fp);
    [done|by eapply next_of_mapped|by eapply prev_of_mapped|].
  exists σ'. split; [done|]. split.
  - split.
    { rewrite app_comm_cons. apply NoDup_app. split; [done|]. split; [set_solver|apply NoDup_singleton]. }
    apply NoDup_cons in Hnd as [Hh Hnd].
    apply path_app. split.
    + apply Hk.
      * intros z Hz ?. fields. repeat case_decide; set_solver.
      * intros z Hz. fields. repeat case_decide; set_solver.
      * split; fields; repeat case_decide; set_solver.
    + split; fields; repeat case_decide; set_solver.
  - eapply agree_off_mono; [done|]. set_solver.
Qed.

Lemma list_del_ring xs e ys : dring σ h (xs ++ e :: ys) →
  ∃ σ', __list_del σ e = Ret σ' ∧ dring σ' h (xs ++ ys) ∧
    next_of σ' e = Some NULL ∧ prev_of σ' e = Some NULL ∧
    agree_off (h :: xs ++ e :: ys) σ σ'.
Proof.
  intros [Hnd Hp]. apply path_app in Hp as [Hp1 Hp2].
  assert (NoDup (h :: xs)) as Hnd1.
  { rewrite app_comm_cons in Hnd. by apply NoDup_app in Hnd as [? _]. }
  destruct (path_snoc_inv _ _ _ _ Hp1 Hnd1) as (p & Hpin & [Hnp Hpe] & Hk).
  destruct (path_head _ _ _ _ Hp2) as (n & Hne & Hpn & En).
  destruct (__list_del_ok σ e p n) as (σ' & -> & Hag & Fn & Fp);
    [done|done|by eapply next_of_mapped|by eapply prev_of_mapped|].
  exists σ'. split; [done|].
  assert (NoDup (h :: xs ++ ys) ∧ e ∉ h :: xs ++ ys) as [Hnd' He].
  { rewrite app_comm_cons, NoDup_app in Hnd. destruct Hnd as (_ & Hd & [? ?]%NoDup_cons).
    split; [rewrite app_comm_cons; apply NoDup_app; set_solver|set_solver]. }
  assert (∀ w, w ∈ h :: xs → w ≠ e) as Hxe by (intros w Hw ->; apply He; set_solver).
  assert (∀ w, w ∈ ys → w ≠ e) as Hye by (intros w Hw ->; apply He; set_solver).
  rewrite app_comm_cons, NoDup_app in Hnd'. destruct Hnd' as (_ & Hd & Hndy).
  assert (p ≠ e) by by apply Hxe.
  assert (n ≠ e) by (subst n; destruct ys; [apply Hxe|apply Hye]; set_solver).
  assert (link σ' p n) as Hlink by (split; fields; by repeat case_decide).
  assert (h ∉ xs) as Hhx by by apply NoDup_cons in Hnd1 as [? _].
  split; [split|].
  - rewrite app_comm_cons. apply NoDup_app. done.
  - destruct ys as [|z ys]; subst n.
    + rewrite app_nil_r. apply Hk; [| |done]; intros w Hw; [intros Hwp|]; fields.
      * rewrite !decide_False by auto. done.
      * assert (w ≠ h) by (by intros ->).
        rewrite !decide_False by (try apply Hxe; set_solver). done.
    + destruct Hp2 as [_ Hp2]. apply path_app. apply NoDup_cons in Hndy as [Hz Hndy]. split.
      * apply Hk; [| |done]; intros w Hw; [intros Hwp|]; fields.
        -- rewrite !decide_False by auto. done.
        -- assert (w ≠ z) by (intros ->; apply (Hd z); set_solver).
           rewrite !decide_False by (try apply Hxe; set_solver). done.
      * eapply path_frame; [| |exact Hp2]; intros w Hw; fields.
        -- assert (w ≠ p) by (intros ->; by apply (Hd p)).
           rewrite !decide_False by auto. done.
        -- assert (w ≠ z ∧ w ≠ e) as [??].
           { apply elem_of_app in Hw as [Hw|Hw]; split.
             - by intros ->.
             - apply Hye. set_solver.
             - apply list_elem_of_singleton in Hw as ->. intros ->. apply (Hd z); set_solver.
             - apply list_elem_of_singleton in Hw as ->. apply Hxe. set_solver. }
           rewrite !decide_False by auto. done.
  - split; [fields; by case_decide|]. split; [fields; by case_decide|].
    eapply agree_off_mono; [done|]. destruct ys; subst n; set_solver.
Qed.
End ring_ops.

(** Two circular lists that share no node. *)
Definition rings_disjoint (h1 : Z) (xs : list Z) (h2 : Z) (ys : list Z) : Prop :=
  ∀ z, z ∈ h1 :: xs → z ∉ h2 :: ys.

Lemma rings_disjoint_sym h1 xs h2 ys : rings_disjoint h1 xs h2 ys → rings_disjoint h2 ys h1 xs.
Proof. intros H z Hz Hz'. by apply (H z). Qed.

Lemma dring_delete_NoDup σ h xs e ys : dring σ h (xs ++ e :: ys) → e ∉ h :: xs ++ ys.
Proof.
  intros [Hnd _]. rewrite app_comm_cons, NoDup_app in Hnd.
  destruct Hnd as (_ & Hd & [? ?]%NoDup_cons). set_solver.
Qed.

(** Deleting a node of one list and adding it to another: the shape shared by
    [list_move], [list_move_tail] and the scheduler's queue operations.  [add]
    is one of the two insertions, [ins] its effect on the member list. *)
Lemma move_rings σ h1 xs e ys h2 zs (add : heap → Z → Z → outcome heap)
    (ins : list Z → Z → list Z) :
  (∀ σ h l new, dring σ h l → new ∉ h :: l → is_Some (σ !! new) →
    ∃ σ', add σ new h = Ret σ' ∧ dring σ' h (ins l new) ∧ agree_off (new :: h :: l) σ σ') →
  dring σ h1 (xs ++ e :: ys) → dring σ h2 zs → rings_disjoint h1 (xs ++ e :: ys) h2 zs →
  ∃ σ', (σ ← __list_del σ e; add σ e h2) = Ret σ' ∧
    dring σ' h1 (xs ++ ys) ∧ dring σ' h2 (ins zs e) ∧
    agree_off (h1 :: xs ++ e :: ys ++ h2 :: zs) σ σ'.
Proof.
  intros Hadd H1 H2 Hd. pose proof (dring_delete_NoDup _ _ _ _ _ H1) as He.
  assert (e ∉ h2 :: zs) as He2 by (apply Hd; set_solver).
  destruct (list_del_ring _ _ _ _ _ H1) as (σ1 & -> & H1' & En & _ & Hag1). rewrite bind_ret.
  assert (dring σ1 h2 zs) as H2'.
  { eapply dring_frame; [exact Hag1| |done]. intros z Hz Hz'. by apply (Hd z). }
  destruct (Hadd σ1 h2 zs e H2' He2) as (σ2 & -> & H2'' & Hag2); [by eapply next_of_mapped|].
  exists σ2. split; [done|]. split; [|split; [done|]].
  - eapply dring_frame; [exact Hag2| |done]. intros z Hz Hz'.
    apply elem_of_cons in Hz' as [->|Hz']; [done|]. apply (Hd z); [set_solver|done].
  - transitivity σ1; eapply agree_off_mono; [exact Hag1|set_solver|exact Hag2|set_solver].
Qed.

(** Same within one list: the member ends up where [ins] puts it. *)
Lemma move_ring_same σ h xs e ys (add : heap → Z → Z → outcome heap) (ins : list Z → Z → list Z) :
  (∀ σ h l new, dring σ h l → new ∉ h :: l → is_Some (σ !! new) →
    ∃ σ', add σ new h = Ret σ' ∧ dring σ' h (ins l new) ∧ agree_off (new :: h :: l) σ σ') →
  dring σ h (xs ++ e :: ys) →
  ∃ σ', (σ ← __list_del σ e; add σ e h) = Ret σ' ∧ dring σ' h (ins (xs ++ ys) e) ∧
    agree_off (h :: xs ++ e :: ys) σ σ'.
Proof.
  intros Hadd H1. pose proof (dring_delete_NoDup _ _ _ _ _ H1) as He.
  destruct (list_del_ring _ _ _ _ _ H1) as (σ1 & -> & H1' & En & _ & Hag1). rewrite bind_ret.
  destruct (Hadd σ1 h (xs ++ ys) e H1' He) as (σ2 & -> & H2'' & Hag2); [by eapply next_of_mapped|].
  exists σ2. split; [done|]. split; [done|].
  transitivity σ1; eapply agree_off_mono; [exact Hag1|set_solver|exact Hag2|set_solver].
Qed.

(** moving a member to the tail of another list ([list_move_tail]) removes
    it from where it was, appends it to the other list, keeps both lists
    well linked in both directions, and touches no other node. *)
Theorem list_move_tail_refines σ h1 xs e ys h2 zs :
  dring σ h1 (xs ++ e :: ys) → dring σ h2 zs → rings_disjoint h1 (xs ++ e :: ys) h2 zs →
  ∃ σ', list_move_tail σ e h2 = Ret σ' ∧
    dring σ' h1 (xs ++ ys) ∧ dring σ' h2 (zs ++ [e]) ∧
    agree_off (h1 :: xs ++ e :: ys ++ h2 :: zs) σ σ'.
Proof.
  apply (move_rings _ _ _ _ _ _ _ list_add_tail (λ l x, l ++ [x])).
  intros. by apply list_add_tail_ring.
Qed.

Lemma list_move_ring σ h1 xs e ys h2 zs :
  dring σ h1 (xs ++ e :: ys) → dring σ h2 zs → rings_disjoint h1 (xs ++ e :: ys) h2 zs →
  ∃ σ', list_move σ e h2 = Ret σ' ∧
    dring σ' h1 (xs ++ ys) ∧ dring σ' h2 (e :: zs) ∧
    agree_off (h1 :: xs ++ e :: ys ++ h2 :: zs) σ σ'.
Proof.
  apply (move_rings _ _ _ _ _ _ _ list_add (λ l x, x :: l)). intros. by apply list_add_ring.
Qed.

(** A concrete heap with the lists 1: [2; 3] and 4: [] for the witnesses. *)
Definition demo_heap : heap :=
  <[1 := ListHead 2 3]> (<[2 := ListHead 3 1]> (<[3 := ListHead 1 2]> (<[4 := ListHead 4 4]> ∅))).

Lemma demo_heap_rings : dring demo_heap 1 [2; 3] ∧ dring demo_heap 4 [] ∧
  rings_disjoint 1 [2; 3] 4 [].
Proof.
  split; [|split].
  - split; [by apply (bool_decide_unpack _); vm_compute|]. repeat split.
  - split; [by apply (bool_decide_unpack _); vm_compute|]. repeat split.
  - intros z Hz Hz'. set_solver.
Qed.

(** Witness: node 2 moves from list 1 to list 4. *)
Lemma list_move_tail_refines_witness :
  ∃ σ', list_move_tail demo_heap 2 4 = Ret σ' ∧ dring σ' 1 [3] ∧ dring σ' 4 [2].
Proof.
  destruct demo_heap_rings as (H1 & H2 & Hd).
  destruct (list_move_tail_refines demo_heap 1 [] 2 [3] 4 [] H1 H2 Hd) as (σ' & ? & ? & ? & _).
  by exists σ'.
Defined.

(** [list_del_init] leaves a self-linked node; it also accepts a node that is
    not on any list, as long as it is self-linked. *)
Lemma list_del_init_ring σ h xs e ys : dring σ h (xs ++ e :: ys) →
  ∃ σ', list_del_init σ e = Ret σ' ∧ dring σ' h (xs ++ ys) ∧ dring σ' e [] ∧
    agree_off (h :: xs ++ e :: ys) σ σ'.
Proof.
  intros H. pose proof (dring_delete_NoDup _ _ _ _ _ H) as He.
  destruct (list_del_ring _ _ _ _ _ H) as (σ1 & E1 & H1 & En & Ep & Hag).
  assert (is_Some (σ1 !! e)) by (by eapply next_of_mapped).
  unfold list_del_init. rewrite E1, bind_ret. do 2 store_step.
  match goal with |- ∃ _, Ret ?s = _ ∧ _ => assert (agree_off [e] σ1 s) as Hag' by agree_steps end.
  eexists. split; [done|]. split; [|split].
  - eapply dring_frame; [exact Hag'| |done]. intros z Hz. set_solver.
  - apply dring_nil. fields. by case_decide.
  - transitivity σ1; eapply agree_off_mono; [exact Hag|set_solver|exact Hag'|set_solver].
Qed.

Lemma list_del_init_self σ e : dring σ e [] →
  ∃ σ', list_del_init σ e = Ret σ' ∧ dring σ' e [] ∧ agree_off [e] σ σ'.
Proof.
  intros [En Ep]%dring_nil. assert (is_Some (σ !! e)) as Hm by (by eapply next_of_mapped).
  destruct (__list_del_ok σ e e e En Ep Hm Hm) as (σ1 & E1 & Hag & _ & _).
  assert (is_Some (σ1 !! e)) by (by apply (proj2 (proj2 (Hag e)))).
  unfold list_del_init. rewrite E1, bind_ret. do 2 store_step.
  eexists. split; [done|]. split; [apply dring_nil; fields; by case_decide|].
  transitivity σ1; [eapply agree_off_mono; [exact Hag|set_solver]|agree_steps].
Qed.

(** ** Several lists at once

    [rings σ Ls]: the (head, members) pairs of [Ls] are circular lists that
    share no node: the queues of a scheduler, or a pool with its free and
    active slots. *)
Definition rings (σ : heap) (Ls : list (Z * list Z)) : Prop :=
  (∀ i p, Ls !! i = Some p → dring σ p.1 p.2) ∧
  (∀ i j p q, i ≠ j → Ls !! i = Some p → Ls !! j = Some q → rings_disjoint p.1 p.2 q.1 q.2).

Definition del (x : Z) (l : list Z) : list Z := filter (λ y, y ≠ x) l.
Definition del_all (x : Z) (Ls : list (Z * list Z)) : list (Z * list Z) :=
  map (λ p, (p.1, del x p.2)) Ls.

Lemma del_notin x l : x ∉ l → del x l = l.
Proof.
  intros Hx. unfold del. induction l as [|y l IH]; [done|].
  rewrite filter_cons, decide_True by set_solver. f_equal. apply IH. set_solver.
Qed.

Lemma del_split x xs ys : x ∉ xs → x ∉ ys → del x (xs ++ x :: ys) = xs ++ ys.
Proof.
  intros Hx Hy. unfold del. rewrite filter_app, filter_cons, decide_False by auto.
  fold (del x xs) (del x ys). by rewrite !del_notin.
Qed.

Lemma elem_of_del x y l : y ∈ del x l ↔ y ≠ x ∧ y ∈ l.
Proof. unfold del. by rewrite list_elem_of_filter. Qed.

Lemma del_all_lookup x Ls i p : del_all x Ls !! i = Some p →
  ∃ l, Ls !! i = Some (p.1, l) ∧ p.2 = del x l.
Proof.
  unfold del_all. rewrite list_lookup_fmap. intros ([h l] & E & ->)%fmap_Some. by exists l.
Qed.

Lemma del_all_notin x Ls : (∀ i p, Ls !! i = Some p → x ∉ p.2) → del_all x Ls = Ls.
Proof.
  intros H. apply list_eq. intros i. unfold del_all. rewrite list_lookup_fmap.
  destruct (Ls !! i) as [[h l]|] eqn:E; [|done]. simpl. rewrite del_notin; [done|]. exact (H i (h, l) E).
Qed.

Lemma rings_frame σ σ' Ls X : rings σ Ls → agree_off X σ σ' →
  (∀ i p z, Ls !! i = Some p → z ∈ p.1 :: p.2 → z ∉ X) → rings σ' Ls.
Proof.
  intros [Hr Hd] Hag HX. split; [|done]. intros i p Hp.
  eapply dring_frame; [exact Hag| |by eapply Hr]. intros z Hz. by eapply HX.
Qed.

(** [list_del_init] of a member, or of a self-linked node that is no member. *)
Lemma list_del_init_rings σ Ls x : rings σ Ls → (∀ i p, Ls !! i = Some p → x ≠ p.1) →
  ((∃ i p, Ls !! i = Some p ∧ x ∈ p.2) ∨ (dring σ x [] ∧ ∀ i p, Ls !! i = Some p → x ∉ p.2)) →
  ∃ σ', list_del_init σ x = Ret σ' ∧ rings σ' (del_all x Ls) ∧ is_Some (σ' !! x) ∧
    agree_off (x :: concat (map (λ p, p.1 :: p.2) Ls)) σ σ'.
Proof.
  intros [Hr Hd] Hh [(i & [h l] & Hi & Hx)|[Hx Hnot]].
  - simpl in Hx. apply list_elem_of_split in Hx as (xs & ys & ->). pose proof (Hr _ _ Hi) as Hl.
    pose proof (dring_delete_NoDup _ _ _ _ _ Hl) as Hnx. simpl in *.
    destruct (list_del_init_ring _ _ _ _ _ Hl) as (σ' & E & H1 & H2 & Hag).
    exists σ'. split; [done|]. split; [|split; [by eapply dring_mapped; [exact H2|set_solver]|]].
    + split.
      * intros j p (l' & Hj & Hp2)%del_all_lookup. destruct p as [hp lp]. simpl in *. subst lp.
        destruct (decide (i = j)) as [<-|Hne].
        { simplify_eq. rewrite del_split by set_solver. done. }
        pose proof (Hd i j _ _ Hne Hi Hj) as Hdis.
        assert (x ∉ l') as Hxl by (intros Hxl; apply (Hdis x); set_solver).
        rewrite del_notin by done. eapply dring_frame; [exact Hag| |exact (Hr _ _ Hj)].
        intros z Hz Hz'. by apply (Hdis z).
      * intros j k p q Hjk (l1 & Hj & Hp)%del_all_lookup (l2 & Hk & Hq)%del_all_lookup z Hz Hz'.
        apply (Hd j k _ _ Hjk Hj Hk z); simpl; rewrite elem_of_cons in *; rewrite ?Hp, ?Hq, elem_of_del in *; tauto.
    + eapply agree_off_mono; [exact Hag|]. intros z Hz. apply elem_of_cons. right.
      apply list_elem_of_In, in_concat. exists (h :: xs ++ x :: ys). split; [|by apply list_elem_of_In].
      apply in_map_iff. exists (h, xs ++ x :: ys). split; [done|]. apply list_elem_of_In. by eapply list_elem_of_lookup_2.
  - destruct (list_del_init_self _ _ Hx) as (σ' & E & H2 & Hag). exists σ'. split; [done|].
    rewrite del_all_notin by done. split; [|split; [by eapply dring_mapped; [exact H2|set_solver]|]].
    + eapply rings_frame; [done|exact Hag|]. intros i p z Hi Hz ->%list_elem_of_singleton.
      apply elem_of_cons in Hz as [->|Hz]; [by eapply Hh|by eapply Hnot].
    + eapply agree_off_mono; [exact Hag|]. set_solver.
Qed.

Lemma list_add_tail_rings σ Ls x i h l : rings σ Ls → is_Some (σ !! x) →
  (∀ j p, Ls !! j = Some p → x ∉ p.1 :: p.2) → Ls !! i = Some (h, l) →
  ∃ σ', list_add_tail σ x h = Ret σ' ∧ rings σ' (<[i := (h, l ++ [x])]> Ls) ∧
    agree_off (x :: concat (map (λ p, p.1 :: p.2) Ls)) σ σ'.
Proof.
  intros [Hr Hd] Hm Hx Hi. pose proof (lookup_lt_Some _ _ _ Hi) as Hlt.
  destruct (list_add_tail_ring σ h l x (Hr _ _ Hi) (Hx _ _ Hi) Hm) as (σ' & E & H1 & Hag).
  exists σ'. split; [done|]. split.
  - assert (∀ j p, <[i := (h, l ++ [x])]> Ls !! j = Some p →
      (j = i ∧ p = (h, l ++ [x])) ∨ (j ≠ i ∧ Ls !! j = Some p)) as Hins.
    { intros j p. destruct (decide (j = i)) as [->|]; [|rewrite list_lookup_insert_ne by done; by right].
      rewrite list_lookup_insert_eq by done. intros; simplify_eq. by left. }
    split.
    + intros j p [[-> ->]|[Hne Hj]]%Hins; [done|].
      eapply dring_frame; [exact Hag| |exact (Hr _ _ Hj)]. intros z Hz Hz'.
      apply elem_of_cons in Hz' as [->|Hz']; [by eapply Hx|].
      by apply (Hd j i _ _ Hne Hj Hi z).
    + intros j k p q Hjk [[-> ->]|[Hj1 Hj]]%Hins [[-> ->]|[Hk1 Hk]]%Hins z Hz Hz'; simpl in *; try done.
      * assert (z ∈ h :: l ∨ z = x) as [Hz2| ->] by set_solver; [by apply (Hd i k _ _ Hjk Hi Hk z)|by eapply Hx].
      * assert (z ∈ h :: l ∨ z = x) as [Hz2| ->] by set_solver; [by apply (Hd j i _ _ Hjk Hj Hi z)|by eapply Hx].
      * by apply (Hd j k _ _ Hjk Hj Hk z).
  - eapply agree_off_mono; [exact Hag|]. intros z [->|Hz]%elem_of_cons; [set_solver|]. apply elem_of_cons. right.
    apply list_elem_of_In, in_concat. exists (h :: l). split; [|by apply list_elem_of_In].
    apply in_map_iff. exists (h, l). split; [done|]. apply list_elem_of_In. by eapply list_elem_of_lookup_2.
Qed.

(** Taking a node off whatever list it is on and queueing it on list [i]. *)
Lemma requeue_rings σ Ls x i h l : rings σ Ls → (∀ i p, Ls !! i = Some p → x ≠ p.1) →
  ((∃ i p, Ls !! i = Some p ∧ x ∈ p.2) ∨ (dring σ x [] ∧ ∀ i p, Ls !! i = Some p → x ∉ p.2)) →
  Ls !! i = Some (h, l) →
  ∃ σ', (σ ← list_del_init σ x; list_add_tail σ x h) = Ret σ' ∧
    rings σ' (<[i := (h, del x l ++ [x])]> (del_all x Ls)) ∧
    agree_off (x :: concat (map (λ p, p.1 :: p.2) Ls)) σ σ'.
Proof.
  intros HLs Hh Hx Hi. destruct (list_del_init_rings σ Ls x HLs Hh Hx) as (σ1 & -> & H1 & Hm & Hag1).
  rewrite bind_ret. assert (del_all x Ls !! i = Some (h, del x l)) as Hi'.
  { unfold del_all. by rewrite list_lookup_fmap, Hi. }
  destruct (list_add_tail_rings σ1 (del_all x Ls) x i h (del x l) H1 Hm) as (σ2 & -> & H2 & Hag2); [|done|].
  { intros j p (l' & Hj & Hp)%del_all_lookup. rewrite Hp. apply not_elem_of_cons. split; [|rewrite elem_of_del; tauto].
    exact (Hh j _ Hj). }
  exists σ2. split; [done|]. split; [done|]. transitivity σ1; [done|]. eapply agree_off_mono; [exact Hag2|].
  intros z [->|Hz]%elem_of_cons; [set_solver|]. apply elem_of_cons. right.
  apply list_elem_of_In, in_concat in Hz as (l0 & Hl0 & Hz). apply in_map_iff in Hl0 as (p & <- & Hp).
  apply list_elem_of_In, list_elem_of_lookup_1 in Hp as [j Hp]. apply del_all_lookup in Hp as (l1 & Hj & Hp2).
  apply list_elem_of_In, in_concat. exists (p.1 :: l1). split.
  - apply in_map_iff. exists (p.1, l1). split; [done|]. apply list_elem_of_In. by eapply list_elem_of_lookup_2.
  - apply list_elem_of_In. apply list_elem_of_In in Hz. rewrite Hp2 in Hz. rewrite elem_of_cons, elem_of_del in *. tauto.
Qed.

(** ** Iteration

    [I done rest s] is kept from one visited node to the next; the members
    still to be visited stay linked in order. *)
Lemma list_for_each_entry_safe_ok {St} (hp : St → heap) (head : Z) (body : St → Z → outcome St)
    (I : list Z → St → Prop) :
  (∀ rest s, I rest s → is_Some (next_of (hp s) head) ∧ head ∉ rest) →
  (∀ x rest s, I (x :: rest) s →
     next_of (hp s) x = Some (match rest with [] => head | z :: _ => z end)) →
  (∀ x rest s, I (x :: rest) s → ∃ s', body s x = Ret s' ∧ I rest s') →
  ∀ xs s, I xs s → list_first_entry (hp s) head = Ret (match xs with [] => head | z :: _ => z end) →
  ∀ fuel, (length xs < fuel)%nat →
  ∃ s', list_for_each_entry_safe hp fuel head body s = Ret s' ∧ I [] s'.
Proof.
  intros Hhead Hnext Hbody xs s HI Hfirst fuel Hf. unfold list_for_each_entry_safe.
  rewrite Hfirst, bind_ret.
  assert (∃ tmp, get_next (hp s) (match xs with [] => head | z :: _ => z end) = Ret tmp ∧
    (∀ x rest, xs = x :: rest → tmp = match rest with [] => head | z :: _ => z end)) as (tmp & -> & Ht).
  { destruct xs as [|x rest].
    - destruct (Hhead _ _ HI) as [[v Hv] _]. exists v. split; [by apply get_next_ok|done].
    - eexists. split; [eapply get_next_ok, Hnext, HI|]. intros ?? E. by simplify_eq. }
  rewrite bind_ret. clear Hfirst.
  revert s tmp HI Ht fuel Hf; induction xs as [|x rest IH]; intros s tmp HI Ht [|fuel] Hf;
    simpl in Hf; try lia; cbn [loop].
  - rewrite Z.eqb_refl. cbn. by exists s.
  - destruct (Hhead _ _ HI) as [_ Hx]. destruct (Z.eqb_spec x head) as [->|]; [set_solver|].
    destruct (Hbody _ _ _ HI) as (s' & -> & HI'). rewrite bind_ret.
    specialize (Ht x rest eq_refl) as ->.
    destruct (Hhead _ _ HI') as [[v Hv] _].
    destruct rest as [|z rest].
    + rewrite (get_next_ok _ _ _ Hv), !bind_ret. apply IH; [done|done|simpl; lia].
    + rewrite (get_next_ok _ _ _ (Hnext _ _ _ HI')), !bind_ret.
      apply IH; [done| |simpl in *; lia]. intros ?? E. by simplify_eq.
Qed.

(** ** Object pools *)

(** The pool [p] holds the free slots [free] and the active slots [active]. *)
Definition slot_pool_ok (σ : heap) (p : slot_pool) (free active : list Z) : Prop :=
  σ !! NULL = None ∧
  dring σ (slot_free p) free ∧ dring σ (slot_active p) active ∧
  rings_disjoint (slot_free p) free (slot_active p) active.

(** The abstract pool: allocation takes the first free slot, release puts a
    slot back in front. *)
Definition pool_alloc (free active : list Z) : list Z * list Z * Z :=
  match free with [] => ([], active, NULL) | x :: fs => (fs, x :: active, x) end.

(** C33: [*_alloc] of a static-slot pool refines taking the first free slot: it
    returns that slot and puts it at the head of the active ring, or returns NULL
    and changes nothing when the pool is exhausted; a slot is never handed out
    twice. *)
Theorem slot_alloc_refines σ p free active :
  slot_pool_ok σ p free active →
  let '(free', active', obj) := pool_alloc free active in
  ∃ σ', slot_alloc σ p = Ret (σ', obj) ∧ slot_pool_ok σ' p free' active' ∧
    (free = [] → σ' = σ ∧ obj = NULL) ∧ (free ≠ [] → obj ≠ NULL ∧ obj ∉ active).
Proof.
  intros (Hnull & Hf & Ha & Hd). unfold slot_alloc. rewrite (list_next_or_null_ring _ _ _ Hf), bind_ret.
  destruct free as [|x fs]; simpl.
  { exists σ. split; [done|]. split; [by split|]. split; [done|]. by intros []. }
  assert (x ≠ NULL) as Hx.
  { intros ->. destruct (dring_mapped _ _ _ NULL Hf) as [e E]; [set_solver|]. congruence. }
  unfold truth. destruct (Z.eqb_spec x 0); [done|]. simpl.
  destruct (list_move_ring σ _ [] x fs _ _ Hf Ha Hd) as (σ' & -> & Hf' & Ha' & Hag).
  rewrite bind_ret. exists σ'. split; [done|]. split; [|split; [done|]].
  - split; [|split; [done|split; [done|]]].
    + apply eq_None_not_Some. rewrite (proj2 (Hag NULL)), Hnull. intros Hs. by apply is_Some_None in Hs.
    + destruct Hf as [Hnd _]. apply NoDup_cons in Hnd as [Hnf [Hxf _]%NoDup_cons].
      intros z Hz Hz'. apply (Hd z); [set_solver|]. assert (z ≠ x) by set_solver. set_solver.
  - intros _. split; [done|]. intros Hin. apply (Hd x); set_solver.
Qed.

(** Witness: a pool of the two slots 2 and 3, both free. *)
Lemma slot_alloc_refines_witness :
  ∃ σ', slot_alloc demo_heap (SlotPool 1 4 [2; 3]) = Ret (σ', 2) ∧
    slot_pool_ok σ' (SlotPool 1 4 [2; 3]) [3] [2].
Proof.
  destruct demo_heap_rings as (H1 & H2 & Hd).
  destruct (slot_alloc_refines demo_heap (SlotPool 1 4 [2; 3]) [2; 3] []) as (σ' & ? & ? & _);
    [by split|by exists σ'].
Defined.

Lemma slot_release_refines σ p free xs obj ys :
  slot_pool_ok σ p free (xs ++ obj :: ys) →
  ∃ σ', slot_release σ p obj = Ret σ' ∧ slot_pool_ok σ' p (obj :: free) (xs ++ ys).
Proof.
  intros (Hnull & Hf & Ha & Hd). unfold slot_release.
  destruct (list_move_ring σ _ xs obj ys _ _ Ha Hf) as (σ' & -> & Ha' & Hf' & Hag).
  { by apply rings_disjoint_sym. }
  exists σ'. split; [done|]. split; [|split; [done|split; [done|]]].
  - apply eq_None_not_Some. rewrite (proj2 (Hag NULL)), Hnull. intros Hs. by apply is_Some_None in Hs.
  - pose proof (dring_delete_NoDup _ _ _ _ _ Ha) as Ho. intros z Hz Hz'.
    apply elem_of_cons in Hz as [->|Hz].
    + apply (Hd (slot_free p)); [set_solver|]. clear -Hz'. set_solver.
    + apply elem_of_cons in Hz as [->|Hz]; [done|]. apply (Hd z); [set_solver|]. clear -Hz'. set_solver.
Qed.

Lemma slot_init_refines nodes σ p :
  NoDup (slot_free p :: nodes) → (∀ x, x ∈ nodes → is_Some (σ !! x)) →
  ∀ xs, dring σ (slot_free p) xs → (∀ x, x ∈ nodes → x ∉ xs) →
  ∃ σ', foldl (λ m node, σ ← m; list_add σ node (slot_free p)) (Ret σ) nodes = Ret σ' ∧
    dring σ' (slot_free p) (rev nodes ++ xs) ∧ agree_off (slot_free p :: xs ++ nodes) σ σ'.
Proof.
  intros Hnd. revert σ; induction nodes as [|x nodes IH]; intros σ Hm xs Hr Hx; cbn [foldl].
  - exists σ. split; [done|]. split; [done|]. reflexivity.
  - apply NoDup_cons in Hnd as [Hf [Hxn Hnd]%NoDup_cons]. rewrite bind_ret.
    destruct (list_add_ring σ _ _ x Hr) as (σ1 & E & Hr1 & Hag1); [|apply Hm; set_solver|].
    { apply not_elem_of_cons. split; [set_solver|]. apply Hx. set_solver. }
    rewrite E. destruct (IH ltac:(apply NoDup_cons; set_solver) σ1) with (xs := x :: xs)
      as (σ2 & E2 & Hr2 & Hag2).
    { intros y Hy. apply (proj2 (Hag1 y)), Hm. set_solver. }
    { done. }
    { intros y Hy. apply not_elem_of_cons. split; [by intros ->|]. apply Hx. set_solver. }
    exists σ2. split; [done|]. split.
    + simpl. by rewrite <- app_assoc.
    + transitivity σ1; eapply agree_off_mono; [exact Hag1|set_solver|exact Hag2|set_solver].
Qed.

Lemma zero_slots_ok nodes σ : (∀ x, x ∈ nodes → is_Some (σ !! x)) →
  ∃ σ', zero_slots σ nodes = Ret σ' ∧ agree_off nodes σ σ'.
Proof.
  unfold zero_slots. revert σ; induction nodes as [|x nodes IH]; intros σ Hm; cbn [foldl].
  - exists σ. split; [done|]. reflexivity.
  - destruct (Hm x) as [e E]; [set_solver|]. rewrite bind_ret, E. cbn [deref]. rewrite bind_ret.
    destruct (IH (<[x := ListHead NULL NULL]> σ)) as (σ' & -> & Hag).
    { intros y Hy. rewrite lookup_insert_is_Some'. right. apply Hm. set_solver. }
    exists σ'. split; [done|]. intros z. destruct (Hag z) as [H1 H2]. split.
    + intros Hz. rewrite H1 by set_solver. apply lookup_insert_ne. set_solver.
    + rewrite H2, lookup_insert_is_Some'. split; [|by right]. intros [<-|]; [by eexists|done].
Qed.

(** initialising a pool of distinct slots links every slot into the free
    list (the last one first), so the pool can serve exactly its capacity. *)
Theorem STATIC_SLOT_INIT_FREE_refines σ p :
  σ !! NULL = None → dring σ (slot_free p) [] → dring σ (slot_active p) [] →
  NoDup (slot_free p :: slot_active p :: slot_nodes p) →
  (∀ x, x ∈ slot_nodes p → is_Some (σ !! x)) →
  ∃ σ', STATIC_SLOT_INIT_FREE σ p = Ret σ' ∧ slot_pool_ok σ' p (rev (slot_nodes p)) [].
Proof.
  intros Hnull Hf Ha Hnd Hm. rewrite !NoDup_cons in Hnd. destruct Hnd as (Hfn & Han & Hnd).
  unfold STATIC_SLOT_INIT_FREE. destruct (zero_slots_ok _ _ Hm) as (σ0 & -> & Hz0). rewrite bind_ret.
  destruct (slot_init_refines (slot_nodes p) σ0 p) with (xs := @nil Z) as (σ' & E & Hf' & Hag).
  { apply NoDup_cons; set_solver. }
  { intros x Hx. by apply (proj2 (Hz0 x)), Hm. }
  { eapply dring_frame; [exact Hz0| |done]. intros z Hz. set_solver. }
  { set_solver. }
  exists σ'. split; [exact E|]. rewrite app_nil_r in Hf'.
  apply (agree_off_mono _ (slot_free p :: slot_nodes p)) in Hz0; [|set_solver].
  assert (agree_off (slot_free p :: slot_nodes p) σ σ') as Hag'.
  { transitivity σ0; [done|]. exact Hag. }
  clear Hag. rename Hag' into Hag.
  split; [|split; [done|split]].
  - apply eq_None_not_Some. rewrite (proj2 (Hag NULL)), Hnull. intros Hs. by apply is_Some_None in Hs.
  - eapply dring_frame; [exact Hag| |done]. intros z Hz. set_solver.
  - intros z Hz Hz'. assert (z = slot_active p) as -> by set_solver.
    apply elem_of_cons in Hz as [Hz|Hz]; [set_solver|]. apply list_elem_of_In, in_rev, list_elem_of_In in Hz. done.
Qed.

(** Witness: a pool of two zeroed slots 2 and 3 with heads 1 and 4. *)
Lemma STATIC_SLOT_INIT_FREE_refines_witness :
  ∃ σ', STATIC_SLOT_INIT_FREE
      (<[1 := ListHead 1 1]> (<[4 := ListHead 4 4]> (<[2 := ListHead 0 0]> (<[3 := ListHead 0 0]> ∅))))
      (SlotPool 1 4 [2; 3]) = Ret σ' ∧ slot_pool_ok σ' (SlotPool 1 4 [2; 3]) [3; 2] [].
Proof.
  apply (STATIC_SLOT_INIT_FREE_refines _ (SlotPool 1 4 [2; 3])).
  - done.
  - by apply dring_nil.
  - by apply dring_nil.
  - by apply (bool_decide_unpack _); vm_compute.
  - intros x Hx. simpl in Hx. rewrite !elem_of_cons in Hx.
    destruct Hx as [->|[->|Hx]]; [by eexists|by eexists|by apply not_elem_of_nil in Hx].
Defined.
