(* ===== verification/Strings.v ===== *)
(** * Strings: the kernel's C string and memory routines

    Models lib/stringlib/stringlib.c over the byte memory of the prelude.
    Addresses are integers; a byte outside the mapped memory is a [Fault].
    Loops carry fuel; the theorems give enough of it. *)
From S2P Require Import Prelude Bits.

(** ** Character classes *)
Definition isprint (ch : Z) : bool :=
  ((0x20 <=? ch) && (ch <? 0x7f)) || (ch =? 10) || (ch =? 32).
Definition isdigit (ch : Z) : bool := (48 <=? ch) && (ch <=? 57).
Definition isspace (c : Z) : bool := (c =? 32) || ((9 <=? c) && (c <=? 13)).

(** ** Comparison and length *)
Definition strcmp (fuel : nat) (m : mem) (s1 s2 : Z) : outcome Z :=
  '(s1, s2) ← loop fuel (λ '(s1, s2),
    c1 ← load8 m s1;
    if truth c1 then
      c2 ← load8 m s2;
      if truth c2 && (c1 =? c2) then Ret (inl (s1 + 1, s2 + 1)) else Ret (inr (s1, s2))
    else Ret (inr (s1, s2))) (s1, s2);
  c1 ← load8 m s1;
  c2 ← load8 m s2;
  Ret (c1 - c2).

(** The loop never advances [p1] and [p2]. *)
Definition memcmp (fuel : nat) (m : mem) (a b n : Z) : outcome Z :=
  loop fuel (λ n,
    if truth n then
      c1 ← load8 m a;
      c2 ← load8 m b;
      if c1 =? c2 then Ret (inl (n - 1)) else Ret (inr (c1 - c2))
    else Ret (inr 0)) n.

Definition strncmp (fuel : nat) (m : mem) (s1 s2 n : Z) : outcome Z :=
  '(s1, s2, n) ← loop fuel (λ '(s1, s2, n),
    if truth n then
      c1 ← load8 m s1;
      if truth c1 then
        c2 ← load8 m s2;
        if truth c2 && (c1 =? c2) then Ret (inl (s1 + 1, s2 + 1, n - 1)) else Ret (inr (s1, s2, n))
      else Ret (inr (s1, s2, n))
    else Ret (inr (s1, s2, n))) (s1, s2, n);
  if truth n then c1 ← load8 m s1; c2 ← load8 m s2; Ret (c1 - c2) else Ret 0.

Definition strlen (fuel : nat) (m : mem) (ptr : Z) : outcome Z :=
  loop fuel (λ '(ptr, res),
    c ← load8 m ptr;
    if truth c then Ret (inl (ptr + 1, res + 1)) else Ret (inr res)) (ptr, 0).

(** [while( *ptr++ && n--)]: the byte is read before [n] is tested. *)
Definition strnlen (fuel : nat) (m : mem) (ptr n : Z) : outcome Z :=
  loop fuel (λ '(ptr, n, res),
    c ← load8 m ptr;
    if truth c && truth n then Ret (inl (ptr + 1, n - 1, res + 1)) else Ret (inr res)) (ptr, n, 0).

(** ** Copying *)
Definition strcpy (fuel : nat) (m : mem) (dst src : Z) : outcome mem :=
  '(m, dst) ← loop fuel (λ '(m, dst, src),
    c ← load8 m src;
    if truth c then m ← store8 m dst c; Ret (inl (m, dst + 1, src + 1))
    else Ret (inr (m, dst))) (m, dst, src);
  store8 m dst 0.

Definition strncpy (fuel : nat) (m : mem) (dst src n : Z) : outcome mem :=
  '(m, dst, n) ← loop fuel (λ '(m, dst, src, n),
    if truth n then
      tmp ← load8 m src;
      m ← store8 m dst tmp;
      if truth tmp then Ret (inl (m, dst + 1, src + 1, n - 1))
      else Ret (inr (m, dst + 1, n - 1))
    else Ret (inr (m, dst, n))) (m, dst, src, n);
  loop fuel (λ '(m, dst, n),
    if truth n then m ← store8 m dst 0; Ret (inl (m, dst + 1, n - 1)) else Ret (inr m)) (m, dst, n).

Definition memset (fuel : nat) (m : mem) (dst value n : Z) : outcome mem :=
  loop fuel (λ '(m, ptr, n),
    if truth n then m ← store8 m ptr value; Ret (inl (m, ptr + 1, n - 1)) else Ret (inr m)) (m, dst, n).

Definition IS_ALIGNED (addr sz : Z) : bool := Z.rem addr sz =? 0.

(** [CPY_ARRAY_EL(type, dst, src, i)] with [sizeof(type) = w]. *)
Definition CPY_ARRAY_EL (w : nat) (m : mem) (dst src i : Z) : outcome mem :=
  v ← load_le w m (src + Z.of_nat w * i);
  store_le w m (dst + Z.of_nat w * i) v.

(** [for (i = first; i < last; ++i) CPY_ARRAY_EL(..)] with an [unsigned int i]. *)
Definition cpy_loop (fuel : nat) (w : nat) (m : mem) (dst src first last : Z) : outcome mem :=
  loop fuel (λ '(m, i),
    if i <? last then m ← CPY_ARRAY_EL w m dst src i; Ret (inl (m, u32 (i + 1)))
    else Ret (inr m)) (m, first).

Definition memcpy_8aligned (fuel : nat) (m : mem) (dst src n : Z) : outcome mem :=
  _ ← BUG (negb (IS_ALIGNED dst 8) || negb (IS_ALIGNED src 8) || truth (Z.rem n 8));
  cpy_loop fuel 8 m dst src 0 (n / 8).

Definition memcpy (fuel : nat) (m : mem) (dst src n : Z) : outcome mem :=
  if negb (IS_ALIGNED dst 8) || negb (IS_ALIGNED src 8) then
    if negb (IS_ALIGNED dst 4) || negb (IS_ALIGNED src 4) then
      cpy_loop fuel 1 m dst src 0 n
    else
      let imax := u32 (n / 4 * 4) in
      m ← cpy_loop fuel 4 m dst src 0 (imax / 4);
      cpy_loop fuel 1 m dst src (u32 (n / 4 * 4)) n
  else
    m ← memcpy_8aligned fuel m dst src (n / 8 * 8);
    cpy_loop fuel 1 m dst src (u32 (n / 8 * 8)) n.

(** UCS-2 to bytes; returns the memory and the count. *)
Definition wtomb (fuel : nat) (m : mem) (buf buf_sz src src_sz : Z) : outcome (mem * Z) :=
  let send := src + src_sz in
  let dend := buf + buf_sz in
  if dend <=? buf then Ret (m, 0) else
  c ← load8 m src;
  '(m, dptr) ← loop fuel (λ '(m, sptr, dptr, c),
    let sptr := sptr + 1 in
    m ← store8 m dptr c;
    let dptr := dptr + 1 in
    if dend <=? dptr then m ← store8 m (dptr - 1) 0; Ret (inr (m, dptr)) else
    c ← load8 m sptr;
    let sptr := sptr + 1 in
    if negb (truth c) then m ← store8 m dptr 0; Ret (inr (m, dptr)) else
    if send - sptr <? 2 then
      m ← store8 m dptr c;
      let dptr := dptr + 1 in
      m ← store8 m dptr 0; Ret (inr (m, dptr))
    else Ret (inl (m, sptr, dptr, c))) (m, src + 1, buf, c);
  Ret (m, dptr - buf).

(** ** Copy loops *)
Lemma CPY_ARRAY_EL_ok w m dst src i l :
  (0 < w)%nat → bytes_at m src l → is_bytes l → (w * i + w ≤ length l)%nat →
  mapped m (dst + Z.of_nat (w * i)) (Z.of_nat w) →
  CPY_ARRAY_EL w m dst src (Z.of_nat i)
  = Ret (write_bytes m (dst + Z.of_nat (w * i)) (take w (drop (w * i) l))).
Proof.
  intros Hw Hb Hl Hi Hm. unfold CPY_ARRAY_EL.
  replace (Z.of_nat w * Z.of_nat i) with (Z.of_nat (w * i)) by lia.
  assert (length (take w (drop (w * i) l)) = w) as Hlen.
  { rewrite length_take, length_drop. lia. }
  assert (bytes_at m (src + Z.of_nat (w * i)) (take w (drop (w * i) l))) as Hb'.
  { intros j b Hj. rewrite <- Z.add_assoc, <- Nat2Z.inj_add. apply Hb.
    apply lookup_take_Some in Hj as [Hj _]. by rewrite lookup_drop in Hj. }
  pose proof (load_le_val _ _ _ Hb') as E1. rewrite Hlen in E1. rewrite E1, bind_ret.
  pose proof (store_le_val m (dst + Z.of_nat (w * i)) (take w (drop (w * i) l))) as E2.
  rewrite Hlen in E2. apply E2; [|done]. by apply Forall_take, Forall_drop.
Qed.

Lemma cpy_loop_ok w l dst src fuel k m first :
  (0 < w)%nat → bytes_at m src l → is_bytes l →
  (w * (first + k) ≤ length l)%nat → mapped m dst (Z.of_nat (length l)) →
  (src + Z.of_nat (length l) ≤ dst ∨ dst + Z.of_nat (length l) ≤ src) →
  Z.of_nat (first + k) < 2 ^ 32 → (k < fuel)%nat →
  cpy_loop fuel w m dst src (Z.of_nat first) (Z.of_nat (first + k))
  = Ret (write_bytes m (dst + Z.of_nat (w * first)) (take (w * k) (drop (w * first) l))).
Proof.
  intros Hw. unfold cpy_loop. revert k m first; induction fuel as [|fuel IH];
    intros [|k] m first Hb Hl Hle Hm Hd H32 Hf; try lia; cbn [loop].
  - replace (Z.of_nat (first + 0)) with (Z.of_nat first) by lia. rewrite Z.ltb_irrefl. simpl.
    rewrite Nat.mul_0_r. done.
  - destruct (Z.ltb_spec (Z.of_nat first) (Z.of_nat (first + S k))); [|lia].
    rewrite (CPY_ARRAY_EL_ok w m dst src first l); [|done..|nia|intros q Hq; apply Hm; nia].
    rewrite !bind_ret. assert (length (take w (drop (w * first) l)) = w) as Hlen.
    { rewrite length_take, length_drop. nia. }
    replace (u32 (Z.of_nat first + 1)) with (Z.of_nat (S first)) by (rewrite u32_id; lia).
    replace (first + S k)%nat with (S first + k)%nat by lia.
    rewrite IH.
    + f_equal. replace (w * S k)%nat with (w + w * k)%nat by lia.
      rewrite <- (take_take_drop (drop (w * first) l)), write_bytes_app, Hlen, drop_drop.
      f_equal; [|f_equal]; [lia|f_equal; lia].
    + apply write_bytes_bytes_at; [done|]. rewrite Hlen. nia.
    + done.
    + lia.
    + by apply write_bytes_mapped.
    + done.
    + lia.
    + lia.
Qed.

Lemma div_mod_nat (n k : nat) : (0 < k)%nat →
  ∃ q r, n = (k * q + r)%nat ∧ Z.of_nat n / Z.of_nat k * Z.of_nat k = Z.of_nat (k * q).
Proof.
  intros Hk. exists (n / k)%nat, (n mod k)%nat. split; [apply Nat.div_mod_eq|].
  rewrite <- Nat2Z.inj_div, <- Nat2Z.inj_mul. lia.
Qed.

Lemma memcpy_ok m dst src l fuel :
  bytes_at m src l → is_bytes l → mapped m dst (Z.of_nat (length l)) →
  (src + Z.of_nat (length l) ≤ dst ∨ dst + Z.of_nat (length l) ≤ src) →
  Z.of_nat (length l) < 2 ^ 32 → (length l < fuel)%nat →
  memcpy fuel m dst src (Z.of_nat (length l)) = Ret (write_bytes m dst l).
Proof.
  intros Hb Hl Hm Hd H32 Hf. set (n := length l) in *.
  assert (∀ w, (0 < w)%nat → ∀ q r, n = (w * q + r)%nat →
    (m ← cpy_loop fuel w m dst src 0 (Z.of_nat q);
     cpy_loop fuel 1 m dst src (Z.of_nat (w * q)) (Z.of_nat n)) = Ret (write_bytes m dst l)) as Hwide.
  { intros w Hw q r Hn. change 0 with (Z.of_nat 0). replace q with (0 + q)%nat at 1 by done.
    rewrite (cpy_loop_ok w l dst src fuel q m 0); [|done..|nia|done|done|nia|nia].
    rewrite bind_ret. rewrite Nat.mul_0_r, Z.add_0_r, drop_0.
    assert (length (take (w * q) l) = (w * q)%nat) as Hlen by (rewrite length_take; lia).
    replace n with (w * q + r)%nat at 1 by lia.
    rewrite (cpy_loop_ok 1 l).
    - f_equal. rewrite !Nat.mul_1_l. transitivity (write_bytes m dst (take (w * q + r) l)).
      + by rewrite <- (take_take_drop l), write_bytes_app, Hlen.
      + rewrite <- Hn. unfold n. by rewrite firstn_all.
    - lia.
    - apply write_bytes_bytes_at; [done|]. rewrite Hlen. lia.
    - done.
    - lia.
    - by apply write_bytes_mapped.
    - done.
    - lia.
    - lia. }
  unfold memcpy.
  destruct (negb (IS_ALIGNED dst 8) || negb (IS_ALIGNED src 8)) eqn:E8.
  - destruct (negb (IS_ALIGNED dst 4) || negb (IS_ALIGNED src 4)).
    + pose proof (Hwide 1%nat ltac:(lia) 0%nat n ltac:(lia)) as E.
      rewrite Nat.mul_0_r in E. simpl in E.
      replace fuel with (S (pred fuel)) in E at 1 by lia. done.
    + pose proof (div_mod_nat n 4 ltac:(lia)) as (q & r & Hq & Eq).
    change (Z.of_nat 4) with 4 in Eq. rewrite Eq.
      rewrite u32_id by lia.
      replace (Z.of_nat (4 * q) / 4) with (Z.of_nat q) by dlia. by apply Hwide with r; lia.
  - pose proof (div_mod_nat n 8 ltac:(lia)) as (q & r & Hq & Eq).
    change (Z.of_nat 8) with 8 in Eq. rewrite Eq.
    unfold memcpy_8aligned. rewrite E8, Z.rem_mod_nonneg by lia.
    replace (Z.of_nat (8 * q) mod 8) with 0 by dlia.
    change (BUG (false || truth 0)) with (Ret tt). rewrite bind_ret.
    replace (Z.of_nat (8 * q) / 8) with (Z.of_nat q) by dlia.
    rewrite u32_id by lia. by apply Hwide with r; lia.
Qed.

(** [memcpy] copies exactly the [n] source bytes whatever the alignment of
    the two pointers: the 8-byte, 4-byte and 1-byte paths all equal the plain
    byte copy, and no byte outside the destination changes. *)
Theorem memcpy_copies m dst src l fuel :
  bytes_at m src l → is_bytes l → mapped m dst (Z.of_nat (length l)) →
  (src + Z.of_nat (length l) ≤ dst ∨ dst + Z.of_nat (length l) ≤ src) →
  Z.of_nat (length l) < 2 ^ 32 → (length l < fuel)%nat →
  memcpy fuel m dst src (Z.of_nat (length l)) = Ret (write_bytes m dst l).
Proof. apply memcpy_ok. Qed.

(** Witness: seven bytes from an odd address to an even one. *)
Lemma memcpy_copies_witness :
  bytes_at (mem_of 8 [1; 2; 3; 4; 5; 6; 7; 0; 0; 0; 0; 0; 0; 0; 0]) 8 [1; 2; 3; 4; 5; 6; 7] ∧
  memcpy 8 (mem_of 8 [1; 2; 3; 4; 5; 6; 7; 0; 0; 0; 0; 0; 0; 0; 0]) 16 8 7
  = Ret (write_bytes (mem_of 8 [1; 2; 3; 4; 5; 6; 7; 0; 0; 0; 0; 0; 0; 0; 0]) 16 [1; 2; 3; 4; 5; 6; 7]).
Proof.
  assert (bytes_at (mem_of 8 [1; 2; 3; 4; 5; 6; 7; 0; 0; 0; 0; 0; 0; 0; 0]) 8 [1; 2; 3; 4; 5; 6; 7]) as Hb.
  { apply (proj1 (bytes_at_app _ 8 [1; 2; 3; 4; 5; 6; 7] [0; 0; 0; 0; 0; 0; 0; 0])), mem_of_bytes. }
  split; [done|].
  apply (memcpy_copies _ 16 8 [1; 2; 3; 4; 5; 6; 7] 8); [done| | |simpl; lia|simpl; lia|simpl; lia].
  - repeat constructor; lia.
  - intros q Hq. apply (bytes_at_mapped _ 8 _ (mem_of_bytes 8 _)). simpl in *. lia.
Defined.

(** ** Length and comparison *)
Lemma truth_nonzero c : 0 < c → truth c = true.
Proof. intros. unfold truth. destruct (Z.eqb_spec c 0); [lia|done]. Qed.

Lemma strlen_loop fuel m s p n : cstr m p s → (length s < fuel)%nat →
  loop fuel (λ '(ptr, res), c ← load8 m ptr;
    if truth c then Ret (inl (ptr + 1, res + 1)) else Ret (inr res)) (p, n)
  = Ret (n + Z.of_nat (length s)).
Proof.
  revert s p n; induction fuel as [|fuel IH]; intros [|c s] p n Hs Hf; simpl in Hf; try lia; cbn [loop].
  - apply cstr_nil in Hs. rewrite (load8_at _ _ _ Hs), bind_ret. simpl. f_equal. lia.
  - apply cstr_cons in Hs as (Hc & Hr & Hs). rewrite (load8_at _ _ _ Hc), bind_ret, truth_nonzero by lia.
    rewrite bind_ret, (IH s) by (done || lia). f_equal. simpl. lia.
Qed.

Lemma strlen_ok fuel m p s : cstr m p s → (length s < fuel)%nat →
  strlen fuel m p = Ret (Z.of_nat (length s)).
Proof. intros. unfold strlen. by rewrite strlen_loop with (s := s). Qed.

(** The difference at the first position where two NUL-terminated strings differ. *)
Fixpoint cdiff (a b : list Z) : Z :=
  match a, b with
  | [], [] => 0
  | x :: _, [] => x
  | [], y :: _ => - y
  | x :: a, y :: b => if x =? y then cdiff a b else x - y
  end.

Lemma cdiff_zero m p q a b : cstr m p a → cstr m q b → cdiff a b = 0 ↔ a = b.
Proof.
  intros [_ Ha] [_ Hb]. revert b Hb; induction a as [|x a IH]; intros [|y b] Hb; simpl; try done.
  - apply Forall_cons in Hb as [? _]. split; [lia|done].
  - apply Forall_cons in Ha as [? _]. split; [lia|done].
  - apply Forall_cons in Ha as [? Ha]. apply Forall_cons in Hb as [? Hb].
    destruct (Z.eqb_spec x y) as [->|]; [|split; [lia|congruence]].
    rewrite (IH Ha) by done. split; [by intros ->|congruence].
Qed.

(** on NUL-terminated strings [strcmp] returns the difference of the first
    differing characters, and 0 exactly when the strings are equal. *)
Theorem strcmp_spec fuel m p q a b :
  cstr m p a → cstr m q b → (length a < fuel)%nat →
  strcmp fuel m p q = Ret (cdiff a b) ∧ (cdiff a b = 0 ↔ a = b).
Proof.
  intros Ha Hb Hf. split; [|by eapply cdiff_zero]. unfold strcmp.
  revert a b p q Ha Hb Hf; induction fuel as [|fuel IH]; intros [|x a] [|y b] p q Ha Hb Hf;
    simpl in Hf; try lia; cbn [loop cdiff].
  - apply cstr_nil in Ha, Hb. rewrite (load8_at _ _ _ Ha); cbn. by rewrite (load8_at _ _ _ Ha), (load8_at _ _ _ Hb).
  - apply cstr_nil in Ha. apply cstr_cons in Hb as (Hy & Hry & Hb). rewrite (load8_at _ _ _ Ha); cbn.
    by rewrite (load8_at _ _ _ Ha), (load8_at _ _ _ Hy).
  - apply cstr_cons in Ha as (Hx & Hrx & Ha). apply cstr_nil in Hb.
    rewrite (load8_at _ _ _ Hx), bind_ret, truth_nonzero by lia.
    rewrite (load8_at _ _ _ Hb); cbn. rewrite (load8_at _ _ _ Hx), (load8_at _ _ _ Hb); cbn.
    f_equal. lia.
  - apply cstr_cons in Ha as (Hx & Hrx & Ha). apply cstr_cons in Hb as (Hy & Hry & Hb).
    rewrite (load8_at _ _ _ Hx), bind_ret, truth_nonzero by lia.
    rewrite (load8_at _ _ _ Hy), bind_ret, truth_nonzero by lia. simpl.
    destruct (Z.eqb_spec x y) as [->|].
    + rewrite bind_ret. apply IH; [done|done|lia].
    + rewrite !bind_ret, (load8_at _ _ _ Hx), bind_ret, (load8_at _ _ _ Hy). done.
Qed.

(** Witness: "ab" against "ac". *)
Lemma strcmp_spec_witness : strcmp 3 (mem_of 10 [97; 98; 0; 97; 99; 0]) 10 13 = Ret (-1).
Proof.
  refine (proj1 (strcmp_spec 3 (mem_of 10 [97; 98; 0; 97; 99; 0]) 10 13 [97; 98] [97; 99] _ _ _)).
  - rewrite !cstr_cons, cstr_nil. repeat split.
  - rewrite !cstr_cons, cstr_nil. repeat split.
  - simpl; lia.
Defined.

(** [memcmp] never advances its pointers, so for every positive length it
    compares only the first byte of the two blocks. *)
Theorem memcmp_first_byte fuel m a b n x y :
  m !! a = Some x → m !! b = Some y → 0 < n → (Z.to_nat n < fuel)%nat →
  memcmp fuel m a b n = Ret (if x =? y then 0 else x - y).
Proof.
  intros Hx Hy Hn Hf. unfold memcmp.
  rewrite (load8_at _ _ _ Hx), (load8_at _ _ _ Hy).
  assert (0 ≤ n) as H0 by lia. cbn. destruct (Z.eqb_spec x y) as [->|Hne].
  - clear Hn. revert n H0 Hf; induction fuel as [|fuel IH]; intros n H0 Hf; [lia|]. cbn [loop].
    destruct (Z.eq_dec n 0) as [->|]; [done|]. rewrite truth_nonzero by lia.
    rewrite bind_ret. apply IH; lia.
  - destruct fuel as [|fuel]; [lia|]. cbn [loop]. by rewrite truth_nonzero by lia.
Qed.

(** Witness: "abc" and "axy" compare equal over three bytes. *)
Lemma memcmp_first_byte_witness : memcmp 4 (mem_of 10 [97; 98; 99; 97; 120; 121]) 10 13 3 = Ret 0.
Proof.
  apply (memcmp_first_byte 4 (mem_of 10 [97; 98; 99; 97; 120; 121]) 10 13 3 97 97);
    [done|done|lia|simpl; lia].
Defined.

(** ** Filling and copying strings *)
Lemma fill_loop fuel (v : Z) n m p : 0 ≤ v < 2 ^ 8 → mapped m p (Z.of_nat n) → (n < fuel)%nat →
  loop fuel (λ '(m, ptr, n),
    if truth n then m ← store8 m ptr v; Ret (inl (m, ptr + 1, n - 1)) else Ret (inr m))
    (m, p, Z.of_nat n) = Ret (write_bytes m p (replicate n v)).
Proof.
  intros Hv. revert n m p; induction fuel as [|fuel IH]; intros [|n] m p Hm Hf; try lia; [done|].
  cbn [loop]. rewrite truth_nonzero by lia. rewrite store8_write; [|done|apply Hm; lia].
  rewrite !bind_ret. replace (Z.of_nat (S n) - 1) with (Z.of_nat n) by lia.
  change (write_bytes m p (replicate (S n) v))
    with (write_bytes (write_bytes m p [v]) (p + 1) (replicate n v)).
  apply IH; [|lia]. apply write_bytes_mapped. intros q Hq. apply Hm. lia.
Qed.

Lemma store8_u8 m p v : store8 m p v = store8 m p (u8 v).
Proof. unfold store8. rewrite (u8_id (u8 v)); [done|apply u8_range]. Qed.

Lemma memset_ok fuel m dst value n : mapped m dst (Z.of_nat n) → (n < fuel)%nat →
  memset fuel m dst value (Z.of_nat n) = Ret (write_bytes m dst (replicate n (u8 value))).
Proof.
  intros Hm Hf. rewrite <- (fill_loop fuel (u8 value) n m dst); [|apply u8_range|done|done].
  unfold memset. clear Hm Hf. revert m dst n; induction fuel as [|fuel IH]; intros m dst n; [done|].
  cbn [loop]. destruct n as [|n]; [done|]. rewrite truth_nonzero by lia. rewrite <- store8_u8.
  destruct (store8 m dst value); try done. rewrite !bind_ret.
  replace (Z.of_nat (S n) - 1) with (Z.of_nat n) by lia. apply IH.
Qed.

Lemma cstr_write m p q s l :
  cstr m q s → (q + Z.of_nat (S (length s)) ≤ p ∨ p + Z.of_nat (length l) ≤ q) →
  cstr (write_bytes m p l) q s.
Proof.
  intros [Hb Hs] Hd. split; [|done]. apply write_bytes_bytes_at; [done|].
  rewrite length_app. simpl. lia.
Qed.

(** [strcpy] writes exactly the source string and its terminator, and
    nothing else, provided the destination is that large and disjoint. *)
Theorem strcpy_spec fuel m dst src s :
  cstr m src s → mapped m dst (Z.of_nat (S (length s))) →
  (src + Z.of_nat (S (length s)) ≤ dst ∨ dst + Z.of_nat (S (length s)) ≤ src) →
  (length s < fuel)%nat →
  strcpy fuel m dst src = Ret (write_bytes m dst (s ++ [0])).
Proof.
  unfold strcpy.
  revert s m dst src; induction fuel as [|fuel IH]; intros [|c s] m dst src Hs Hm Hd Hf;
    simpl in Hf; try lia; cbn [loop].
  - apply cstr_nil in Hs. rewrite (load8_at _ _ _ Hs), !bind_ret. simpl.
    apply (store8_write m dst 0); [lia|]. apply Hm. simpl; lia.
  - apply cstr_cons in Hs as (Hc & Hr & Hs).
    rewrite (load8_at _ _ _ Hc), bind_ret, truth_nonzero by lia. simpl in Hm, Hd.
    rewrite store8_write by (lia || (apply Hm; lia)). rewrite !bind_ret.
    apply (IH s (write_bytes m dst [c]) (dst + 1) (src + 1)); [| | |lia].
    + apply cstr_write; [done|]. simpl. lia.
    + apply write_bytes_mapped. intros q Hq. apply Hm. lia.
    + simpl. lia.
Qed.

(** Witness: "hi" copied over "xyz". *)
Lemma strcpy_spec_witness :
  strcpy 3 (mem_of 10 [104; 105; 0; 120; 121; 122]) 13 10
  = Ret (write_bytes (mem_of 10 [104; 105; 0; 120; 121; 122]) 13 [104; 105; 0]).
Proof.
  apply (strcpy_spec 3 _ 13 10 [104; 105]); [| |simpl; lia|simpl; lia].
  - rewrite !cstr_cons, cstr_nil. repeat split.
  - intros q Hq. apply (bytes_at_mapped _ 10 _ (mem_of_bytes 10 _)). simpl in *. lia.
Defined.

(** [strncpy]: the first [n] characters of the string padded with NULs. *)
Definition pad_to (n : nat) (s : list Z) : list Z := take n (s ++ replicate n 0).

Lemma pad_to_cons n c s : pad_to (S n) (c :: s) = c :: pad_to n s.
Proof.
  unfold pad_to. rewrite replicate_S_end, app_assoc. simpl.
  rewrite take_app_le; [done|]. rewrite length_app, length_replicate. lia.
Qed.

Lemma strncpy_ok fuel m dst src s n :
  cstr m src s → mapped m dst (Z.of_nat n) →
  (src + Z.of_nat (S (length s)) ≤ dst ∨ dst + Z.of_nat n ≤ src) → (n < fuel)%nat →
  strncpy fuel m dst src (Z.of_nat n) = Ret (write_bytes m dst (pad_to n s)).
Proof.
  intros Hs Hm Hd Hf. unfold strncpy.
  assert (∃ k m1, (k ≤ n)%nat ∧
    loop fuel (λ '(m, dst, src, n),
      if truth n then
        tmp ← load8 m src;
        m ← store8 m dst tmp;
        if truth tmp then Ret (inl (m, dst + 1, src + 1, n - 1))
        else Ret (inr (m, dst + 1, n - 1))
      else Ret (inr (m, dst, n))) (m, dst, src, Z.of_nat n)
    = Ret (m1, dst + Z.of_nat (n - k), Z.of_nat k) ∧
    mapped m1 (dst + Z.of_nat (n - k)) (Z.of_nat k) ∧
    write_bytes m1 (dst + Z.of_nat (n - k)) (replicate k 0) = write_bytes m dst (pad_to n s))
    as (k & m1 & Hk & -> & Hm1 & <-).
  - revert s m dst src n Hs Hm Hd Hf; induction fuel as [|fuel IH];
      intros s m dst src n Hs Hm Hd Hf; [lia|]. cbn [loop].
    destruct n as [|n].
    { exists 0%nat, m. rewrite !Z.add_0_r. unfold pad_to. by rewrite take_0. }
    rewrite truth_nonzero by lia. destruct s as [|c s].
    + apply cstr_nil in Hs. rewrite (load8_at _ _ _ Hs), bind_ret.
      rewrite store8_write by (lia || (apply Hm; lia)). rewrite !bind_ret.
      exists n, (write_bytes m dst [0]). split; [lia|].
      replace (S n - n)%nat with 1%nat by lia. split; [by replace (Z.of_nat (S n) - 1) with (Z.of_nat n) by lia|].
      split; [apply write_bytes_mapped; intros q Hq; apply Hm; lia|]. unfold pad_to. simpl.
      rewrite take_ge; [done|]. rewrite length_replicate. lia.
    + apply cstr_cons in Hs as (Hc & Hr & Hs). simpl in Hd.
      rewrite (load8_at _ _ _ Hc), bind_ret.
      rewrite store8_write by (lia || (apply Hm; lia)). rewrite bind_ret, truth_nonzero by lia.
      rewrite bind_ret. replace (Z.of_nat (S n) - 1) with (Z.of_nat n) by lia.
      destruct (IH s (write_bytes m dst [c]) (dst + 1) (src + 1) n) as (k & m1 & Hk & E & Hm1 & Ew).
      * apply cstr_write; [done|]. simpl. lia.
      * apply write_bytes_mapped. intros q Hq. apply Hm. lia.
      * lia.
      * lia.
      * exists k, m1. split; [lia|]. rewrite E.
        replace (dst + 1 + Z.of_nat (n - k)) with (dst + Z.of_nat (S n - k)) in * by lia.
        split; [done|]. split; [done|]. by rewrite Ew, pad_to_cons.
  - rewrite bind_ret. apply (fill_loop fuel 0); [lia|done|lia].
Qed.

Lemma strncmp_ok fuel m p q a b n :
  cstr m p a → cstr m q b → (n < fuel)%nat →
  strncmp fuel m p q (Z.of_nat n) = Ret (cdiff (take n a) (take n b)).
Proof.
  unfold strncmp. revert a b p q n; induction fuel as [|fuel IH]; intros a b p q n Ha Hb Hf; [lia|].
  cbn [loop]. destruct n as [|n]; [done|]. rewrite truth_nonzero by lia.
  destruct a as [|x a]; [apply cstr_nil in Ha|apply cstr_cons in Ha as (Hx & ? & Ha)];
    (destruct b as [|y b]; [apply cstr_nil in Hb|apply cstr_cons in Hb as (Hy & ? & Hb)]); cbn [take cdiff].
  - rewrite (load8_at _ _ _ Ha). cbn. by rewrite (load8_at _ _ _ Ha), (load8_at _ _ _ Hb).
  - rewrite (load8_at _ _ _ Ha). cbn. by rewrite (load8_at _ _ _ Ha), (load8_at _ _ _ Hy).
  - rewrite (load8_at _ _ _ Hx), bind_ret, truth_nonzero by lia.
    rewrite (load8_at _ _ _ Hb). cbn. rewrite (load8_at _ _ _ Hx), (load8_at _ _ _ Hb). cbn.
    f_equal. lia.
  - rewrite (load8_at _ _ _ Hx), bind_ret, truth_nonzero by lia.
    rewrite (load8_at _ _ _ Hy), bind_ret, truth_nonzero by lia. simpl.
    destruct (Z.eqb_spec x y) as [->|].
    + rewrite bind_ret. replace (Z.of_nat (S n) - 1) with (Z.of_nat n) by lia. apply IH; [done|done|lia].
    + rewrite !bind_ret. cbn. by rewrite (load8_at _ _ _ Hx), (load8_at _ _ _ Hy).
Qed.

(** ** UCS-2 *)
Definition ucs2 (cs : list Z) : list Z := flat_map (λ c, [c; 0]) cs.

Lemma length_ucs2 cs : length (ucs2 cs) = (2 * length cs)%nat.
Proof. induction cs; simpl in *; lia. Qed.

Lemma wtomb_loop fuel m rest sptr dptr c c2 send dend :
  bytes_at m sptr (0 :: ucs2 (c2 :: rest)) → Forall (λ b, 0 < b < 2 ^ 8) (c :: c2 :: rest) →
  send = sptr + 1 + 2 * Z.of_nat (length (c2 :: rest)) →
  dptr + Z.of_nat (length (c :: c2 :: rest)) ≤ dend →
  mapped m dptr (3 + Z.of_nat (length rest)) →
  (dptr + 3 + Z.of_nat (length rest) ≤ sptr ∨ send ≤ dptr) →
  (length rest < fuel)%nat →
  loop fuel (λ '(m, sptr, dptr, c),
    let sptr := sptr + 1 in
    m ← store8 m dptr c;
    let dptr := dptr + 1 in
    if dend <=? dptr then m ← store8 m (dptr - 1) 0; Ret (inr (m, dptr)) else
    c ← load8 m sptr;
    let sptr := sptr + 1 in
    if negb (truth c) then m ← store8 m dptr 0; Ret (inr (m, dptr)) else
    if send - sptr <? 2 then
      m ← store8 m dptr c;
      let dptr := dptr + 1 in
      m ← store8 m dptr 0; Ret (inr (m, dptr))
    else Ret (inl (m, sptr, dptr, c))) (m, sptr, dptr, c)
  = Ret (write_bytes m dptr (c :: c2 :: rest ++ [0]), dptr + 2 + Z.of_nat (length rest)).
Proof.
  revert m rest sptr dptr c c2; induction fuel as [|fuel IH];
    intros m rest sptr dptr c c2 Hb Hc Hsend Hdend Hm Hd Hf; [lia|]. cbn [loop length] in *.
  rewrite !Forall_cons in Hc. destruct Hc as (Hc & Hc2 & Hrest).
  simpl in Hb. rewrite !bytes_at_cons in Hb. destruct Hb as (Hb0 & Hb1 & Hb2 & Hb).
  rewrite store8_write by (lia || (apply Hm; lia)). rewrite bind_ret.
  destruct (Z.leb_spec dend (dptr + 1)); [lia|].
  assert (write_bytes m dptr [c] !! (sptr + 1) = Some c2) as E2.
  { rewrite write_bytes_lookup, decide_False by (simpl; lia). done. }
  rewrite (load8_at _ _ _ E2), bind_ret, truth_nonzero by lia. cbn [negb].
  destruct rest as [|c3 rest].
  - simpl in *. destruct (Z.ltb_spec (send - (sptr + 1 + 1)) 2); [|lia].
    rewrite store8_write; [|lia|apply (write_bytes_mapped m dptr [c] dptr 3 Hm); lia].
    rewrite bind_ret. rewrite store8_write;
      [|lia|apply (write_bytes_mapped _ (dptr + 1) [c2] dptr 3 (write_bytes_mapped m dptr [c] dptr 3 Hm)); lia].
    rewrite bind_ret. simpl. f_equal. f_equal. lia.
  - simpl in Hsend, Hdend, Hd, Hm, Hf |- *.
    destruct (Z.ltb_spec (send - (sptr + 1 + 1)) 2); [lia|]. rewrite bind_ret.
    change (<[dptr:=c]> m) with (write_bytes m dptr [c]).
    rewrite (IH _ rest (sptr + 1 + 1) (dptr + 1) c2 c3).
    + simpl. f_equal. f_equal. lia.
    + apply write_bytes_bytes_at.
      * simpl. rewrite bytes_at_cons. split; [done|exact Hb].
      * simpl. change (flat_map (λ c : Z, [c; 0]) rest) with (ucs2 rest). rewrite ?length_ucs2. lia.
    + by constructor.
    + simpl. lia.
    + simpl. lia.
    + apply write_bytes_mapped. intros q Hq. apply Hm. lia.
    + lia.
    + lia.
Qed.

(** on a UCS-2 field of [n >= 2] non-NUL ASCII characters that fits in the
    buffer, [wtomb] returns [n] and writes the characters followed by a NUL.
    When the characters fill the buffer exactly ([buf_sz = n]), that NUL lands
    one byte past [buf_sz]. *)
Theorem wtomb_decodes fuel m buf buf_sz src cs :
  (2 ≤ length cs)%nat → Forall (λ b, 0 < b < 2 ^ 8) cs → bytes_at m src (ucs2 cs) →
  Z.of_nat (length cs) ≤ buf_sz → mapped m buf (1 + Z.of_nat (length cs)) →
  (buf + 1 + Z.of_nat (length cs) ≤ src ∨ src + 2 * Z.of_nat (length cs) ≤ buf) →
  (length cs ≤ fuel)%nat →
  wtomb fuel m buf buf_sz src (2 * Z.of_nat (length cs))
  = Ret (write_bytes m buf (cs ++ [0]), Z.of_nat (length cs)).
Proof.
  intros Hn Hc Hb Hsz Hm Hd Hf. destruct cs as [|c [|c2 rest]]; simpl in Hn; try lia.
  unfold wtomb. destruct (Z.leb_spec (buf + buf_sz) buf); [simpl in Hsz; lia|].
  simpl in Hb. rewrite bytes_at_cons in Hb. destruct Hb as [Hb0 Hb].
  rewrite (load8_at _ _ _ Hb0), bind_ret. simpl in Hsz, Hd, Hm, Hf.
  rewrite (wtomb_loop fuel m rest (src + 1) buf c c2).
  - rewrite bind_ret. simpl. f_equal. f_equal. lia.
  - done.
  - done.
  - simpl. lia.
  - simpl. lia.
  - intros q Hq. apply Hm. lia.
  - simpl. lia.
  - lia.
Qed.

(** Witness: "ab" in UCS-2 into a 2-byte buffer. *)
Lemma wtomb_decodes_witness :
  wtomb 2 (mem_of 10 [97; 0; 98; 0; 7; 7; 7]) 14 2 10 4
  = Ret (write_bytes (mem_of 10 [97; 0; 98; 0; 7; 7; 7]) 14 [97; 98; 0], 2).
Proof.
  apply (wtomb_decodes 2 _ 14 2 10 [97; 98]); [simpl; lia| | |simpl; lia| |simpl; lia|simpl; lia].
  - repeat constructor.
  - apply (proj1 (bytes_at_app _ 10 [97; 0; 98; 0] [7; 7; 7])), mem_of_bytes.
  - intros q Hq. apply (bytes_at_mapped _ 10 _ (mem_of_bytes 10 _)). simpl in *. lia.
Defined.
