(* ===== verification/Parse.v ===== *)
(** * Parse: number and token parsing

    Models lib/stringlib/strtol.c ([strtoll]) and lib/parse_string.c
    ([tokenize_string]), the two parsers of the command line. *)
From S2P Require Import Prelude Bits Strings.

(** ** strtoll (lib/stringlib/strtol.c) *)
Definition SKIP_WHITESPACES (fuel : nat) (m : mem) (ptr : Z) : outcome Z :=
  loop fuel (λ ptr,
    c ← load8 m ptr;
    if truth c && isspace c then Ret (inl (ptr + 1)) else Ret (inr ptr)) ptr.

(** The forward walks: to the first NUL or character for which [stop] holds. *)
Definition forward_walk (fuel : nat) (m : mem) (stop : Z → bool) (ptr : Z) : outcome Z :=
  loop fuel (λ bptr,
    c ← load8 m bptr;
    if truth c then if stop c then Ret (inr bptr) else Ret (inl (bptr + 1))
    else Ret (inr bptr)) ptr.

Definition stop2 (c : Z) : bool := 1 <? u8 (c - 48).
Definition stop10 (c : Z) : bool := 9 <? u8 (c - 48).
Definition stop16 (c : Z) : bool := (9 <? u8 (c - 48)) && (5 <? u8 (c - 97)) && (5 <? u8 (c - 65)).

(** The backward walks, from [bptr] down to [ptr]. *)
Definition backward2 (fuel : nat) (m : mem) (ptr bptr : Z) : outcome Z :=
  loop fuel (λ '(bptr, result, order),
    if ptr <=? bptr then
      c ← load8 m bptr;
      if c =? 49 then
        if order <? 32 then
          Ret (inl (bptr - 1, s64 (result + s32 (Z.shiftl 1 order)), u64 (order + 1)))
        else Fault
      else Ret (inl (bptr - 1, result, u64 (order + 1)))
    else Ret (inr result)) (bptr, 0, 0).

Definition backward10 (fuel : nat) (m : mem) (ptr bptr : Z) : outcome Z :=
  loop fuel (λ '(bptr, result, order),
    if ptr <=? bptr then
      c ← load8 m bptr;
      Ret (inl (bptr - 1, s64 (result + u64 (order * (c - 48))), u64 (order * 10)))
    else Ret (inr result)) (bptr, 0, 1).

Definition backward16 (fuel : nat) (m : mem) (ptr bptr : Z) : outcome Z :=
  loop fuel (λ '(bptr, result, order),
    if ptr <=? bptr then
      c ← load8 m bptr;
      let c := if 97 <=? c then u8 (c - 32) else c in
      if c - 48 <=? 9 then
        Ret (inl (bptr - 1, s64 (result + u64 (order * (c - 48))), u64 (order * 16)))
      else if c - 65 <=? 6 then
        Ret (inl (bptr - 1, s64 (result + u64 (order * (10 + c - 65))), u64 (order * 16)))
      else Ret (inr result)
    else Ret (inr result)) (bptr, 0, 1).

(** Returns the value and the end pointer. *)
Definition strtoll (fuel : nat) (m : mem) (str basis : Z) : outcome (Z * Z) :=
  ptr ← SKIP_WHITESPACES fuel m str;
  c ← load8 m ptr;
  let ptr := if c =? 43 then ptr + 1 else ptr in
  c ← load8 m ptr;
  let has_negative_sign := c =? 45 in
  let ptr := if has_negative_sign then ptr + 1 else ptr in
  c0 ← load8 m ptr;
  basis ← (if basis =? 0 then
             if c0 =? 48 then
               c1 ← load8 m (ptr + 1);
               Ret (if (c1 =? 120) || (c1 =? 88) then 16 else 2)
             else Ret 10
           else Ret basis);
  prefix ← (if basis =? 16 then
              if c0 =? 48 then
                c1 ← load8 m (ptr + 1);
                Ret (if (c1 =? 120) || (c1 =? 88) then Some (ptr + 2) else None)
              else Ret None
            else Ret (Some ptr));
  '(result, eptr) ←
    match prefix with
    | None => Ret (0, str)
    | Some ptr =>
        if basis =? 2 then
          e ← forward_walk fuel m stop2 ptr; r ← backward2 fuel m ptr (e - 1); Ret (r, e)
        else if basis =? 10 then
          e ← forward_walk fuel m stop10 ptr; r ← backward10 fuel m ptr (e - 1); Ret (r, e)
        else if basis =? 16 then
          e ← forward_walk fuel m stop16 ptr; r ← backward16 fuel m ptr (e - 1); Ret (r, e)
        else Ret (0, str)
    end;
  Ret (if has_negative_sign then s64 (result * -1) else result, eptr).

(** ** tokenize_string (lib/parse_string.c)

    A token is its start address and its length; [out->ts] is the list of the
    tokens filled in and [out->len] its length. *)
Inductive scan : Type := Done (ptr : Z) | Stop (ptr : Z).

(** Skips to the first non-space; [Done] at the end of the text. *)
Definition skip_spaces (fuel : nat) (m : mem) (ptr end_ : Z) : outcome scan :=
  loop fuel (λ ptr,
    if end_ <=? ptr then Ret (inr (Done ptr)) else
    c ← load8 m ptr;
    if c =? 0 then Ret (inr (Done ptr))
    else if negb (isspace c) then Ret (inr (Stop ptr))
    else Ret (inl (ptr + 1))) ptr.

Definition scan_word (fuel : nat) (m : mem) (ptr end_ : Z) : outcome scan :=
  loop fuel (λ ptr,
    if end_ <=? ptr then Ret (inr (Done ptr)) else
    c ← load8 m ptr;
    if c =? 0 then Ret (inr (Done ptr))
    else if isspace c then Ret (inr (Stop ptr))
    else Ret (inl (ptr + 1))) ptr.

Definition tokenize_string (fuel : nat) (m : mem) (start end_ max_tokens : Z) : outcome (list (Z * Z)) :=
  loop fuel (λ '(ptr, ts),
    if Z.of_nat (length ts) <? max_tokens then
      r ← skip_spaces fuel m ptr end_;
      match r with
      | Done _ => Ret (inr ts)
      | Stop s =>
          w ← scan_word fuel m s end_;
          match w with
          | Done e => Ret (inr (ts ++ [(s, e - s)]))
          | Stop e => Ret (inl (e, ts ++ [(s, e - s)]))
          end
      end
    else Ret (inr ts)) (start, []).

(** [string_token_eq] of cmdrunner/cmdrunner.c. *)
Definition string_token_eq (fuel : nat) (m : mem) (t : Z * Z) (str : Z) : outcome bool :=
  r ← strncmp fuel m t.1 str t.2; Ret (r =? 0).

(** ** Decimal numbers *)
Definition dec_val (ds : list Z) : Z := foldl (λ a d, 10 * a + d) 0 ds.
Definition digit_chars (ds : list Z) : list Z := map (λ d, d + 48) ds.
Definition is_digits (ds : list Z) : Prop := Forall (λ d, 0 ≤ d ≤ 9) ds.

Lemma dec_val_app a b : dec_val (a ++ b) = dec_val a * 10 ^ Z.of_nat (length b) + dec_val b.
Proof.
  unfold dec_val. rewrite foldl_app. generalize (foldl (λ a d, 10 * a + d) 0 a) as x. clear a.
  induction b as [|d b IH] using rev_ind; intros x; simpl.
  - rewrite Z.pow_0_r. lia.
  - rewrite !foldl_app, length_app. simpl. rewrite IH.
    replace (Z.of_nat (length b + 1)) with (Z.succ (Z.of_nat (length b))) by lia.
    rewrite Z.pow_succ_r by lia. lia.
Qed.

Lemma dec_val_bounds ds : is_digits ds → 0 ≤ dec_val ds < 10 ^ Z.of_nat (length ds).
Proof.
  induction ds as [|d ds IH] using rev_ind; intros Hd.
  - unfold dec_val. simpl. lia.
  - apply Forall_app in Hd as [Hds [Hd _]%Forall_cons]. specialize (IH Hds).
    rewrite dec_val_app, length_app. change (10 ^ Z.of_nat (length [d])) with 10. cbn [length].
    replace (Z.of_nat (length ds + 1)) with (Z.succ (Z.of_nat (length ds))) by lia.
    rewrite Z.pow_succ_r by lia.
    change (dec_val [d]) with (0 + d). lia.
Qed.

(** Reading the digit string [ds] ended by a character that is not a digit. *)
Lemma forward_walk_digits fuel m ds p t :
  is_digits ds → bytes_at m p (digit_chars ds ++ [t]) → 0 ≤ t < 2 ^ 8 → isdigit t = false →
  (length ds < fuel)%nat → forward_walk fuel m stop10 p = Ret (p + Z.of_nat (length ds)).
Proof.
  intros Hd Hb Ht Hnd. unfold forward_walk. revert p ds Hd Hb; induction fuel as [|fuel IH];
    intros p [|d ds] Hd Hb Hf; simpl in Hf; try lia; cbn [loop]; simpl in Hb;
    apply bytes_at_cons in Hb as [Hc Hb]; rewrite (load8_at _ _ _ Hc), bind_ret.
  - destruct (Z.eq_dec t 0) as [->|]; [simpl; f_equal; lia|]. rewrite truth_nonzero by lia.
    assert (stop10 t = true) as ->; [|simpl; f_equal; lia].
    unfold stop10, isdigit in *. apply Z.ltb_lt.
    destruct (Z.leb_spec 48 t); simpl in Hnd.
    + destruct (Z.leb_spec t 57); [done|]. unfold u8. dlia.
    + unfold u8. dlia.
  - apply Forall_cons in Hd as [Hd0 Hd]. rewrite truth_nonzero by lia.
    assert (stop10 (d + 48) = false) as ->.
    { unfold stop10. rewrite u8_id by lia. apply Z.ltb_ge. lia. }
    rewrite bind_ret, (IH _ ds) by (done || lia). f_equal. simpl. lia.
Qed.

Lemma mod64_eq a b : a mod 2 ^ 64 = b mod 2 ^ 64 → s64 a = s64 b.
Proof.
  intros H. unfold s64. rewrite <- (Zplus_mod_idemp_l a), H, Zplus_mod_idemp_l. done.
Qed.

Lemma backward10_loop m p pre suf fuel result order :
  bytes_at m p (digit_chars pre) → (length pre < fuel)%nat →
  result = s64 (dec_val suf) → order mod 2 ^ 64 = 10 ^ Z.of_nat (length suf) mod 2 ^ 64 →
  loop fuel (λ '(bptr, result, order),
    if p <=? bptr then
      c ← load8 m bptr;
      Ret (inl (bptr - 1, s64 (result + u64 (order * (c - 48))), u64 (order * 10)))
    else Ret (inr result)) (p + Z.of_nat (length pre) - 1, result, order)
  = Ret (s64 (dec_val (pre ++ suf))).
Proof.
  revert suf fuel result order; induction pre as [|d pre IH] using rev_ind;
    intros suf [|fuel] result order Hb Hf Hr Ho; try lia; cbn [loop].
  - assert (p <=? p + Z.of_nat (length (@nil Z)) - 1 = false) as -> by (apply Z.leb_gt; simpl; lia).
    by rewrite bind_ret, Hr.
  - rewrite length_app in *. simpl in *. unfold digit_chars in Hb. rewrite map_app, bytes_at_app in Hb.
    destruct Hb as [Hb Hd]. simpl in Hd. apply bytes_at_cons in Hd as [Hd _].
    rewrite length_map in Hd.
    destruct (Z.leb_spec p (p + Z.of_nat (length pre + 1) - 1)); [|lia].
    replace (p + Z.of_nat (length pre + 1) - 1) with (p + Z.of_nat (length pre)) by lia.
    rewrite (load8_at _ _ _ Hd), !bind_ret.
    rewrite <- app_assoc. simpl. apply IH; [done|lia| |].
    + rewrite Hr. apply mod64_eq. change (d :: suf) with ([d] ++ suf). rewrite dec_val_app.
      unfold u64. rewrite Zplus_mod_idemp_r, <- Zplus_mod_idemp_l, s64_mod, Zplus_mod_idemp_l.
      rewrite <- Zplus_mod_idemp_r, <- Zmult_mod_idemp_l, Ho, Zmult_mod_idemp_l, Zplus_mod_idemp_r.
      f_equal. change (dec_val [d]) with (0 + d). lia.
    + unfold u64. rewrite Zmod_mod, <- Zmult_mod_idemp_l, Ho, Zmult_mod_idemp_l. f_equal.
      cbn [length]. rewrite Nat2Z.inj_succ, Z.pow_succ_r by lia. lia.
Qed.

(** reading a decimal number (an optional minus sign, at least one digit,
    a terminator that is not a digit) gives its value and an end pointer just
    after the last digit, for every value below [2^63]. *)
Theorem strtoll_decimal fuel m p (neg : bool) ds t :
  is_digits ds → ds ≠ [] → 0 ≤ t < 2 ^ 8 → isdigit t = false →
  bytes_at m p ((if neg then [45] else []) ++ digit_chars ds ++ [t]) →
  dec_val ds < 2 ^ 63 → (length ds + 1 < fuel)%nat →
  strtoll fuel m p 10
  = Ret (if neg then - dec_val ds else dec_val ds,
         p + (if neg then 1 else 0) + Z.of_nat (length ds)).
Proof.
  intros Hd Hne Ht Hnd Hb Hv Hf. destruct ds as [|d ds']; [done|].
  set (ds := d :: ds') in *. apply bytes_at_app in Hb as [Hsign Hb].
  assert (0 ≤ d ≤ 9) as Hd0 by (by apply Forall_cons in Hd as [? _]).
  set (q := p + (if neg then 1 else 0)).
  replace (p + Z.of_nat (length (if neg then [45] else []))) with q in Hb by (unfold q; by destruct neg).
  assert (m !! q = Some (d + 48)) as Hq by (simpl in Hb; by apply bytes_at_cons in Hb as [? _]).
  assert (m !! p = Some (if neg then 45 else d + 48)) as Hp.
  { destruct neg; [by apply bytes_at_cons in Hsign as [? _]|]. unfold q in Hq. by rewrite Z.add_0_r in Hq. }
  unfold strtoll, SKIP_WHITESPACES. destruct fuel as [|fuel]; [lia|]. cbn [loop].
  rewrite (load8_at _ _ _ Hp), !bind_ret.
  assert (isspace (if neg then 45 else d + 48) = false) as ->.
  { destruct neg; [done|]. unfold isspace. zcases; simpl; lia || done. }
  rewrite andb_false_r, !bind_ret, (load8_at _ _ _ Hp), bind_ret.
  assert ((if neg then 45 else d + 48) =? 43 = false) as ->.
  { destruct neg; [done|]. apply Z.eqb_neq. lia. }
  rewrite (load8_at _ _ _ Hp), bind_ret.
  assert ((if neg then 45 else d + 48) =? 45 = neg) as ->.
  { destruct neg; [done|]. apply Z.eqb_neq. lia. }
  replace (if neg then p + 1 else p) with q by (unfold q; destruct neg; lia).
  rewrite (load8_at _ _ _ Hq), bind_ret. change (10 =? 0) with false. cbn match. rewrite bind_ret.
  change (10 =? 16) with false. cbn match. rewrite bind_ret. change (10 =? 2) with false.
  change (10 =? 10) with true. cbn match.
  rewrite (forward_walk_digits _ _ ds _ t) by (done || (simpl in *; lia)). rewrite bind_ret.
  unfold backward10. rewrite (backward10_loop m q ds []).
  - rewrite !bind_ret, app_nil_r. pose proof (dec_val_bounds ds Hd).
    rewrite (s64_id (dec_val ds)) by lia. destruct neg; [|done].
    rewrite s64_id by lia. f_equal. f_equal. lia.
  - by apply bytes_at_app in Hb as [? _].
  - simpl in *. lia.
  - done.
  - done.
Qed.

(** Witness: "-42" followed by a space. *)
Lemma strtoll_decimal_witness :
  strtoll 10 (mem_of 100 [45; 52; 50; 32]) 100 10 = Ret (-42, 103).
Proof.
  apply (strtoll_decimal 10 (mem_of 100 [45; 52; 50; 32]) 100 true [4; 2] 32);
    [|done|lia|done|apply mem_of_bytes|done|simpl; lia].
  repeat constructor; lia.
Defined.

(** ** Tokens *)

(** The words of a text at address [p], read left to right; [cur] is the start
    of the word being read. *)
Fixpoint words (p : Z) (cur : option Z) (l : list Z) : list (Z * Z) :=
  match l, cur with
  | [], Some s => [(s, p - s)]
  | [], None => []
  | c :: l, Some s => if isspace c then (s, p - s) :: words (p + 1) None l else words (p + 1) cur l
  | c :: l, None => if isspace c then words (p + 1) None l else words (p + 1) (Some p) l
  end.

(** The text ends at [end_] or at a NUL. *)
Definition text_at (m : mem) (p end_ : Z) (l : list Z) : Prop :=
  bytes_at m p l ∧ Forall (λ c, 0 < c < 2 ^ 8) l ∧
  (p + Z.of_nat (length l) = end_ ∨ (p + Z.of_nat (length l) < end_ ∧ m !! (p + Z.of_nat (length l)) = Some 0)).

Lemma text_at_cons m p end_ c l :
  text_at m p end_ (c :: l) → m !! p = Some c ∧ 0 < c < 2 ^ 8 ∧ p < end_ ∧ text_at m (p + 1) end_ l.
Proof.
  intros (Hb & Hc & He). apply bytes_at_cons in Hb as [? Hb]. apply Forall_cons in Hc as [? Hc].
  cbn [length] in He. replace (p + Z.of_nat (S (length l))) with (p + 1 + Z.of_nat (length l)) in He by lia.
  repeat split; try done; lia.
Qed.

Lemma text_at_nil m p end_ : text_at m p end_ [] → p = end_ ∨ (p < end_ ∧ m !! p = Some 0).
Proof. intros (_ & _ & He). simpl in He. rewrite Z.add_0_r in He. done. Qed.

Lemma skip_spaces_ok fuel m p end_ l : text_at m p end_ l → (length l < fuel)%nat →
  (words p None l = [] ∧ ∃ e, skip_spaces fuel m p end_ = Ret (Done e)) ∨
  (∃ s c l', skip_spaces fuel m p end_ = Ret (Stop s) ∧ text_at m s end_ (c :: l') ∧
     isspace c = false ∧ words p None l = words (s + 1) (Some s) l' ∧ (length l' < length l)%nat).
Proof.
  unfold skip_spaces. revert p l; induction fuel as [|fuel IH]; intros p [|c l] Ht Hf;
    simpl in Hf; try lia; cbn [loop words].
  - left. split; [done|]. exists p. apply text_at_nil in Ht as [->|[Hlt H0]].
    + by rewrite Z.leb_refl.
    + destruct (Z.leb_spec end_ p); [lia|]. by rewrite (load8_at _ _ _ H0).
  - pose proof (text_at_cons _ _ _ _ _ Ht) as (Hc & Hr & Hlt & Ht').
    destruct (Z.leb_spec end_ p); [lia|]. rewrite (load8_at _ _ _ Hc), bind_ret.
    destruct (Z.eqb_spec c 0); [lia|]. destruct (isspace c) eqn:Es; simpl.
    + destruct (IH (p + 1) l Ht' ltac:(lia)) as [[? He]|(s & c' & l' & ? & ? & ? & ? & ?)];
        [by left|right]. exists s, c', l'. split_and!; try (done || lia).
    + right. exists p, c, l. split_and!; try (done || lia).
Qed.

Lemma scan_word_ok fuel m p s end_ l : text_at m p end_ l → (length l < fuel)%nat →
  (∃ e, scan_word fuel m p end_ = Ret (Done e) ∧ words p (Some s) l = [(s, e - s)]) ∨
  (∃ e l', scan_word fuel m p end_ = Ret (Stop e) ∧ text_at m e end_ l' ∧
     words p (Some s) l = (s, e - s) :: words e None l' ∧ (length l' ≤ length l)%nat ∧
     (∀ c, head l = Some c → isspace c = false → (length l' < length l)%nat)).
Proof.
  unfold scan_word. revert p l; induction fuel as [|fuel IH]; intros p [|c l] Ht Hf;
    simpl in Hf; try lia; cbn [loop words].
  - left. exists p. apply text_at_nil in Ht as [->|[Hlt H0]].
    + by rewrite Z.leb_refl.
    + destruct (Z.leb_spec end_ p); [lia|]. by rewrite (load8_at _ _ _ H0).
  - pose proof (text_at_cons _ _ _ _ _ Ht) as (Hc & Hr & Hlt & Ht').
    destruct (Z.leb_spec end_ p); [lia|]. rewrite (load8_at _ _ _ Hc), bind_ret.
    destruct (Z.eqb_spec c 0); [lia|]. destruct (isspace c) eqn:Es; simpl.
    + right. exists p, (c :: l). split_and!; try (done || lia); [simpl; rewrite Es; done|].
      intros c' ? ?; simplify_eq/=. congruence.
    + destruct (IH (p + 1) l Ht' ltac:(lia)) as [[e [? ?]]|(e & l' & ? & ? & ? & ? & _)].
      * left. by exists e.
      * right. exists e, l'. split_and!; try (done || lia).
Qed.

(** [tokenize_string] returns the whitespace-separated words of the text in
    order, each as its address and length, truncated to [max_tokens]; it stops
    at the end pointer or the first NUL. *)
Theorem tokenize_string_words fuel m p end_ l max_tokens :
  text_at m p end_ l → 0 ≤ max_tokens → (length l < fuel)%nat →
  tokenize_string fuel m p end_ max_tokens = Ret (take (Z.to_nat max_tokens) (words p None l)).
Proof.
  intros Ht Hmax Hf. unfold tokenize_string.
  assert (∀ n ts p l, text_at m p end_ l → (length l < n)%nat → (length l < fuel)%nat →
    loop n (λ '(ptr, ts),
      if Z.of_nat (length ts) <? max_tokens then
        r ← skip_spaces fuel m ptr end_;
        match r with
        | Done _ => Ret (inr ts)
        | Stop s =>
            w ← scan_word fuel m s end_;
            match w with
            | Done e => Ret (inr (ts ++ [(s, e - s)]))
            | Stop e => Ret (inl (e, ts ++ [(s, e - s)]))
            end
        end
      else Ret (inr ts)) (p, ts)
    = Ret (ts ++ take (Z.to_nat max_tokens - length ts) (words p None l))) as Hloop.
  { clear p l Ht Hf. induction n as [|n IH]; intros ts p l Ht Hn Hf; [lia|]. cbn [loop].
    destruct (Z.ltb_spec (Z.of_nat (length ts)) max_tokens).
    2:{ rewrite bind_ret. replace (Z.to_nat max_tokens - length ts)%nat with 0%nat by lia.
        by rewrite take_0, app_nil_r. }
    destruct (skip_spaces_ok fuel m p end_ l Ht Hf) as [[-> [e ->]]|(s & c & l' & -> & Hs & Hc & -> & Hl)].
    { rewrite !bind_ret, take_nil, app_nil_r. done. }
    rewrite bind_ret. pose proof (text_at_cons _ _ _ _ _ Hs) as (_ & _ & _ & Hs').
    assert (words (s + 1) (Some s) l' = words s (Some s) (c :: l')) as -> by (simpl; by rewrite Hc).
    destruct (scan_word_ok fuel m s s end_ (c :: l') Hs ltac:(simpl; lia))
      as [(e & -> & ->)|(e & l2 & -> & Ht2 & -> & Hl2 & Hlt)].
    - rewrite !bind_ret. destruct (Z.to_nat max_tokens - length ts)%nat eqn:E; [lia|].
      simpl. by rewrite take_nil.
    - rewrite !bind_ret. assert (length l2 < n)%nat.
      { specialize (Hlt c eq_refl Hc). simpl in Hlt. lia. }
      rewrite (IH _ e l2) by (done || (simpl in *; lia)).
      rewrite length_app, <- app_assoc. simpl.
      replace (Z.to_nat max_tokens - length ts)%nat
        with (S (Z.to_nat max_tokens - (length ts + 1))) by lia. done. }
  rewrite (Hloop fuel [] p l Ht Hf Hf). simpl. by rewrite Nat.sub_0_r.
Qed.

(** Witness: " ab  c" followed by a NUL. *)
Lemma tokenize_string_words_witness :
  tokenize_string 10 (mem_of 100 [32; 97; 98; 32; 32; 99; 0]) 100 200 4 = Ret [(101, 2); (105, 1)].
Proof.
  apply (tokenize_string_words 10 (mem_of 100 [32; 97; 98; 32; 32; 99; 0]) 100 200
           [32; 97; 98; 32; 32; 99] 4); [|lia|simpl; lia].
  split; [|split; [repeat constructor; lia|right; split; [simpl; lia|by vm_compute]]].
  pose proof (mem_of_bytes 100 [32; 97; 98; 32; 32; 99; 0]) as Hb.
  by apply (bytes_at_app _ _ [32; 97; 98; 32; 32; 99] [0]) in Hb as [? _].
Defined.
