(* ===== verification/Sprintf.v ===== *)
(** * Sprintf: the kernel's formatted printing

    Models lib/stringlib/sprintf.c over the byte memory: the format scanner,
    the number, string and character printers and [__vsnprintf] itself.  The
    formatting context is the record [printf_ctx]; variadic arguments are the
    list of their 64-bit register values. *)
From S2P Require Import Prelude Bits Strings Parse.

(** ** The formatting context *)
Definition FMT_SIZE_NO : Z := 0x00.
Definition FMT_SIZE_LONG : Z := 0x01.
Definition FMT_SIZE_LLONG : Z := 0x02.
Definition FMT_SIZE_INTMAX : Z := 0x04.
Definition FMT_SIZE_SIZE_T : Z := 0x08.
Definition FMT_SIZE_INT64 : Z := 0x20.
Definition FMT_SIZE_HALF : Z := 0x40.
Definition FMT_SIZE_HHALF : Z := 0x80.
Definition FMT_SIZE_PTRDIFF : Z := 0x100.

Record printf_ctx := PrintfCtx {
  fmt : Z; dst : Z; dst_virt : Z; dst_end : Z;
  flag_plus : Z; flag_space : Z; flag_zero : Z; flag_left_align : Z; flag_hex_prefix : Z;
  width : Z; precision : Z; size : Z; type : Z; arg : Z
}.

Definition set_fmt (c : printf_ctx) (v : Z) : printf_ctx :=
  PrintfCtx v (dst c) (dst_virt c) (dst_end c) (flag_plus c) (flag_space c) (flag_zero c)
    (flag_left_align c) (flag_hex_prefix c) (width c) (precision c) (size c) (type c) (arg c).
Definition set_dst (c : printf_ctx) (d v : Z) : printf_ctx :=
  PrintfCtx (fmt c) d v (dst_end c) (flag_plus c) (flag_space c) (flag_zero c)
    (flag_left_align c) (flag_hex_prefix c) (width c) (precision c) (size c) (type c) (arg c).
Definition set_flag_plus (c : printf_ctx) (v : Z) : printf_ctx :=
  PrintfCtx (fmt c) (dst c) (dst_virt c) (dst_end c) v (flag_space c) (flag_zero c)
    (flag_left_align c) (flag_hex_prefix c) (width c) (precision c) (size c) (type c) (arg c).
Definition set_flag_space (c : printf_ctx) (v : Z) : printf_ctx :=
  PrintfCtx (fmt c) (dst c) (dst_virt c) (dst_end c) (flag_plus c) v (flag_zero c)
    (flag_left_align c) (flag_hex_prefix c) (width c) (precision c) (size c) (type c) (arg c).
Definition set_flag_zero (c : printf_ctx) (v : Z) : printf_ctx :=
  PrintfCtx (fmt c) (dst c) (dst_virt c) (dst_end c) (flag_plus c) (flag_space c) v
    (flag_left_align c) (flag_hex_prefix c) (width c) (precision c) (size c) (type c) (arg c).
Definition set_flag_left_align (c : printf_ctx) (v : Z) : printf_ctx :=
  PrintfCtx (fmt c) (dst c) (dst_virt c) (dst_end c) (flag_plus c) (flag_space c) (flag_zero c)
    v (flag_hex_prefix c) (width c) (precision c) (size c) (type c) (arg c).
Definition set_flag_hex_prefix (c : printf_ctx) (v : Z) : printf_ctx :=
  PrintfCtx (fmt c) (dst c) (dst_virt c) (dst_end c) (flag_plus c) (flag_space c) (flag_zero c)
    (flag_left_align c) v (width c) (precision c) (size c) (type c) (arg c).
Definition set_width (c : printf_ctx) (v : Z) : printf_ctx :=
  PrintfCtx (fmt c) (dst c) (dst_virt c) (dst_end c) (flag_plus c) (flag_space c) (flag_zero c)
    (flag_left_align c) (flag_hex_prefix c) v (precision c) (size c) (type c) (arg c).
Definition set_precision (c : printf_ctx) (v : Z) : printf_ctx :=
  PrintfCtx (fmt c) (dst c) (dst_virt c) (dst_end c) (flag_plus c) (flag_space c) (flag_zero c)
    (flag_left_align c) (flag_hex_prefix c) (width c) v (size c) (type c) (arg c).
Definition set_size (c : printf_ctx) (v : Z) : printf_ctx :=
  PrintfCtx (fmt c) (dst c) (dst_virt c) (dst_end c) (flag_plus c) (flag_space c) (flag_zero c)
    (flag_left_align c) (flag_hex_prefix c) (width c) (precision c) v (type c) (arg c).
Definition set_type (c : printf_ctx) (v : Z) : printf_ctx :=
  PrintfCtx (fmt c) (dst c) (dst_virt c) (dst_end c) (flag_plus c) (flag_space c) (flag_zero c)
    (flag_left_align c) (flag_hex_prefix c) (width c) (precision c) (size c) v (arg c).
Definition set_arg (c : printf_ctx) (v : Z) : printf_ctx :=
  PrintfCtx (fmt c) (dst c) (dst_virt c) (dst_end c) (flag_plus c) (flag_space c) (flag_zero c)
    (flag_left_align c) (flag_hex_prefix c) (width c) (precision c) (size c) (type c) v.

(** The memory and the context, threaded through every printer. *)
Definition pstate : Type := mem * printf_ctx.

(** ** Output macros *)
Definition DST_FREE_BYTES (c : printf_ctx) : Z := dst_end c - dst c.

Definition DST_APPEND_C (s : pstate) (ch : Z) : outcome pstate :=
  let '(m, c) := s in
  if dst c <? dst_end c then
    m ← store8 m (dst c) ch; Ret (m, set_dst c (dst c + 1) (dst_virt c + 1))
  else Ret (m, set_dst c (dst c) (dst_virt c + 1)).

Fixpoint DST_APPEND_S (s : pstate) (l : list Z) : outcome pstate :=
  match l with [] => Ret s | ch :: l => s ← DST_APPEND_C s ch; DST_APPEND_S s l end.

Definition DST_MEMCPY (fuel : nat) (s : pstate) (src len : Z) : outcome pstate :=
  let '(m, c) := s in
  let op_len := s32 (c_min len (DST_FREE_BYTES c)) in
  m ← memcpy fuel m (dst c) src (u64 op_len);
  Ret (m, set_dst c (dst c + op_len) (dst_virt c + op_len)).

Definition DST_MEMSET (fuel : nat) (s : pstate) (val len : Z) : outcome pstate :=
  let '(m, c) := s in
  let op_len := s32 (c_min len (DST_FREE_BYTES c)) in
  m ← memset fuel m (dst c) val (u64 op_len);
  Ret (m, set_dst c (dst c + op_len) (dst_virt c + len)).

(** ** Digits *)
Definition to_char_16 (i uppercase : Z) : Z :=
  if 10 <=? i then i + (1 - uppercase) * (97 - 65) + 65 - 10 else i + 48.
Definition to_char_8_10 (i base : Z) : Z := if base <=? i then 35 else i + 48.

Definition __decimal_table : list Z :=
  [1; 10; 100; 1000; 10000; 100000; 1000000; 10000000; 100000000; 1000000000;
   10000000000; 100000000000; 1000000000000; 10000000000000; 100000000000000;
   1000000000000000; 10000000000000000; 100000000000000000; 1000000000000000000;
   10000000000000000000].

Definition decimal_table (i : Z) : outcome Z :=
  if (0 <=? i) then deref (__decimal_table !! Z.to_nat i) else Fault.

Definition closest_round_base10_div (fuel : nat) (val : Z) : outcome Z :=
  loop fuel (λ '(divider, wordlen),
    if divider =? 0 then Fault else
    if truth (val / divider) then Ret (inl (u64 (divider * 10), wordlen + 1))
    else Ret (inr wordlen)) (10, 1).

Definition closest_round_base10_nodiv (fuel : nat) (val : Z) : outcome Z :=
  let max_idx := 20 in
  pivot ← loop fuel (λ '(base, delta),
    let pivot := base + delta in
    let delta := Z.shiftr delta 1 in
    d ← decimal_table pivot;
    let base := if d <=? val then pivot else base in
    if negb (base =? pivot) || truth delta then Ret (inl (base, delta))
    else Ret (inr pivot)) (0, Z.quot max_idx 2);
  if pivot =? 0 then Ret 0 else
  d ← decimal_table pivot;
  if d <=? val then
    if pivot <=? 20 - 2 then
      d1 ← decimal_table (pivot + 1);
      Ret (if d1 <=? val then pivot + 1 else pivot)
    else Ret pivot
  else Ret (pivot - 1).

(** Returns the digit and the amount to subtract. *)
Definition get_digit (num powered_base : Z) : outcome (Z * Z) :=
  loop 12 (λ '(i, cmp),
    if i <? 11 then
      if num <? cmp then Ret (inr (i - 1, u64 (cmp - powered_base)))
      else Ret (inl (i + 1, u64 (cmp + powered_base)))
    else Ret (inr (0, 0))) (1, powered_base).

(** ** Decimal numbers *)
Record print_num_spec := PrintNumSpec {
  space_padding : Z; padding : Z; wordlen : Z; is_neg_sign : Z
}.

(** The build does not define NODIV. *)
Definition __print_fn_prep_spec (fuel : nat) (c : printf_ctx) (is_neg : Z) : outcome print_num_spec :=
  wordlen ← closest_round_base10_div fuel (arg c);
  let wordlen := s32 (wordlen + Z.lor (Z.lor is_neg (flag_plus c)) (flag_space c)) in
  let padding := c_max (s32 (width c - wordlen)) 0 in
  let space_padding := c_max (s32 (padding - c_max (s32 (c_max (precision c) 0 - wordlen)) 0)) 0 in
  let space_padding := if truth (flag_zero c) && (precision c =? -1) then 0 else space_padding in
  Ret (PrintNumSpec space_padding padding wordlen is_neg).

(** [DIV_LLD] divides as signed 64-bit numbers. *)
Definition DIV_LLD (a b : Z) : Z := s64 (Z.quot (s64 a) (s64 b)).

Definition __print_fn_number_10_div (fuel : nat) (s : pstate) (wordlen : Z) : outcome pstate :=
  divider ← decimal_table (wordlen - 1);
  loop fuel (λ '(s, divider),
    if truth divider then
      let tmp := to_char_8_10 (s32 (DIV_LLD (arg s.2) divider)) 10 in
      s ← DST_APPEND_C s (u8 tmp);
      Ret (inl ((s.1, set_arg s.2 (arg s.2 mod divider)), divider / 10))
    else Ret (inr s)) (s, divider).

Definition __print_fn_number_10_nodiv (fuel : nat) (s : pstate) (wordlen : Z) : outcome pstate :=
  '(s, _) ← loop fuel (λ '(s, tmp_arg, wordlen),
    if 0 <? wordlen then
      d ← decimal_table (wordlen - 1);
      '(tmp_num, subtract_round) ← get_digit tmp_arg d;
      s ← DST_APPEND_C s (u8 (to_char_8_10 tmp_num 10));
      Ret (inl (s, u64 (tmp_arg - subtract_round), wordlen - 1))
    else Ret (inr (s, tmp_arg))) (s, arg s.2, wordlen);
  Ret s.

Definition __print_fn_number_10 (fuel : nat) (s : pstate) (sp : print_num_spec) : outcome pstate :=
  s ← DST_MEMSET fuel s 32 (space_padding sp);
  let padding := s32 (padding sp - space_padding sp) in
  '(s, wordlen) ←
    (if truth (is_neg_sign sp) then s ← DST_APPEND_C s 45; Ret (s, wordlen sp - 1)
     else if truth (flag_plus s.2) then s ← DST_APPEND_C s 43; Ret (s, wordlen sp - 1)
     else if truth (flag_space s.2) then s ← DST_APPEND_C s 32; Ret (s, wordlen sp - 1)
     else Ret (s, wordlen sp));
  s ← DST_MEMSET fuel s 48 padding;
  __print_fn_number_10_div fuel s wordlen.

(** [sizeof(long) == sizeof(int)] is false on this target. *)
Definition __print_fn_number_10_u (fuel : nat) (s : pstate) : outcome pstate :=
  let '(m, c) := s in
  let c := if size c =? FMT_SIZE_NO then set_arg c (Z.land (arg c) 0xffffffff) else c in
  sp ← __print_fn_prep_spec fuel c 0;
  __print_fn_number_10 fuel (m, c) sp.

(** [__LP64__] is 1 on this target. *)
Definition __print_fn_number_10_d (fuel : nat) (s : pstate) : outcome pstate :=
  let '(m, c) := s in
  let max_bit_pos :=
    if truth (Z.land (size c) (Z.lor (Z.lor FMT_SIZE_LLONG FMT_SIZE_LONG) FMT_SIZE_INT64))
    then 63 else 31 in
  let type_mask := if max_bit_pos =? 31 then 0xffffffff else 0xffffffffffffffff in
  let c := set_arg c (Z.land (arg c) type_mask) in
  let neg := truth (Z.land (arg c) (Z.shiftl 1 max_bit_pos)) in
  let c := if neg then set_arg c (Z.land (u64 (u64 (Z.lnot (arg c)) + 1)) type_mask) else c in
  sp ← __print_fn_prep_spec fuel c (if neg then 1 else 0);
  __print_fn_number_10 fuel (m, c) sp.

(** ** Hexadecimal numbers

    The count-leading-zeros builtins compile to the CLZ instruction, which
    gives the operand width at zero. *)
Definition __builtin_clzll (x : Z) : Z := if u64 x =? 0 then 64 else 63 - Z.log2 (u64 x).
Definition __builtin_clz (x : Z) : Z := if u32 x =? 0 then 32 else 31 - Z.log2 (u32 x).

Definition __print_fn_number_16 (fuel : nat) (s : pstate) : outcome pstate :=
  let c := s.2 in
  '(s, leading_zeroes, maxbits) ←
    (if size c =? FMT_SIZE_LLONG then Ret (s, __builtin_clzll (arg c), 64)
     else if size c =? FMT_SIZE_LONG then Ret (s, __builtin_clzll (arg c), 64)
     else if size c =? FMT_SIZE_NO then Ret (s, __builtin_clz (arg c), 32)
     else s ← DST_APPEND_S s [60; 62]; Ret (s, 0, 0));
  let '(m, c) := s in
  let rightmost_nibble := Z.quot (maxbits - leading_zeroes - 1) 4 in
  let padding := c_max (s32 (c_max (width c) (precision c) - (rightmost_nibble + 1))) 0 in
  let padding := if truth (flag_hex_prefix c) then c_max (padding - 2) 0 else padding in
  let c := if negb (precision c =? -1)
           then set_precision c (c_max (s32 (precision c - (rightmost_nibble + 1))) 0) else c in
  let space_padding :=
    if negb (precision s.2 =? -1) then s32 (padding - precision c)
    else if truth (flag_zero c) then 0 else padding in
  s ← DST_MEMSET fuel (m, c) 32 space_padding;
  let padding := s32 (padding - space_padding) in
  s ← (if truth (flag_hex_prefix s.2) then s ← DST_APPEND_C s 48; DST_APPEND_C s 120 else Ret s);
  s ← DST_MEMSET fuel s 48 padding;
  loop fuel (λ '(s, rightmost_nibble),
    if 0 <=? rightmost_nibble then
      let nibble := Z.land (Z.shiftr (arg s.2) (rightmost_nibble * 4)) 0xf in
      let tmp := to_char_16 nibble (if type s.2 <? 97 then 1 else 0) in
      s ← DST_APPEND_C s (u8 tmp);
      Ret (inl (s, rightmost_nibble - 1))
    else Ret (inr s)) (s, rightmost_nibble).

(** ** Strings and characters *)
Definition __printf_strlcpy (fuel : nat) (m : mem) (dst src n : Z) : outcome (mem * Z) :=
  let src_end := src + n in
  loop fuel (λ '(m, dst, src),
    ch ← load8 m src;
    if truth ch && negb (src =? src_end) then
      m ← store8 m dst ch; Ret (inl (m, dst + 1, src + 1))
    else Ret (inr (m, dst))) (m, dst, src).

Definition __print_fn_string (fuel : nat) (s : pstate) : outcome pstate :=
  let '(m, c) := s in
  let src := arg c in
  '(m, d) ← __printf_strlcpy fuel m (dst c) src (s32 (dst_end c - dst c));
  v ← loop fuel (λ '(v, src),
    ch ← load8 m src;
    if truth ch then Ret (inl (v + 1, src + 1)) else Ret (inr v)) (dst_virt c, src);
  Ret (m, set_dst c d v).

Definition __print_fn_char (s : pstate) : outcome pstate :=
  let '(m, c) := s in
  let ch := u8 (arg c) in
  let ch := if isprint ch then ch else 46 in
  if dst c <? dst_end c then
    m ← store8 m (dst c) ch; Ret (m, set_dst c (dst c + 1) (dst_virt c))
  else Ret (m, c).

Definition __print_fn_address (fuel : nat) (s : pstate) : outcome pstate :=
  __print_fn_number_16 fuel (s.1, set_flag_hex_prefix s.2 1).

(** The printers by conversion character; those not listed print nothing. *)
Definition __printf_fn_map (fuel : nat) (ch : Z) (s : pstate) : outcome pstate :=
  if ch =? 99 then __print_fn_char s
  else if (ch =? 100) || (ch =? 105) then __print_fn_number_10_d fuel s
  else if ch =? 112 then __print_fn_address fuel s
  else if ch =? 115 then __print_fn_string fuel s
  else if ch =? 117 then __print_fn_number_10_u fuel s
  else if (ch =? 120) || (ch =? 121) || (ch =? 122) then __print_fn_number_16 fuel s
  else Ret s.

Definition fmt_print_type (fuel : nat) (s : pstate) : outcome pstate :=
  let gentype := Z.lor (type s.2) 0x20 in
  if (97 <=? gentype) && (gentype <=? 120) then __printf_fn_map fuel gentype s else Ret s.

(** ** The format scanner *)
Definition __mem_find_any_byte_of_2 (fuel : nat) (m : mem) (start_addr end_addr bytearray : Z) : outcome Z :=
  let a := Z.land bytearray 0xff in
  let b := Z.land (Z.shiftr bytearray 8) 0xff in
  loop fuel (λ p,
    if p <? end_addr then
      t ← load8 m p;
      if (t =? a) || (t =? b) then Ret (inr p) else Ret (inl (p + 1))
    else Ret (inr p)) start_addr.

Definition __find_special_or_null (fuel : nat) (m : mem) (pos end_ : Z) : outcome Z :=
  loop fuel (λ pos,
    pos ← __mem_find_any_byte_of_2 fuel m pos end_ (Z.lor (Z.shiftl 37 8) (Z.shiftl 0 0));
    ch ← load8 m pos;
    if truth ch then
      ch1 ← load8 m (pos + 1);
      if negb (ch1 =? 37) then Ret (inr pos) else Ret (inl (pos + 1))
    else Ret (inr pos)) pos.

(** [special = *(++c->fmt)] *)
Definition fmt_fetch_special (m : mem) (c : printf_ctx) : outcome (printf_ctx * Z) :=
  special ← load8 m (fmt c + 1);
  Ret (set_fmt c (fmt c + 1), special).

Definition fmt_skip_to_special (fuel : nat) (s : pstate) : outcome (pstate * Z) :=
  fmt_pos ← __find_special_or_null fuel s.1 (fmt s.2) (fmt s.2 + 512);
  s ← DST_MEMCPY fuel s (fmt s.2) (fmt_pos - fmt s.2);
  let s := (s.1, set_fmt s.2 fmt_pos) in
  special ← load8 s.1 fmt_pos;
  if special =? 37 then
    '(c, special) ← fmt_fetch_special s.1 s.2; Ret ((s.1, c), special)
  else Ret (s, special).

(** The macro compares with the character 0 whatever its [fchar] is. *)
Definition fmt_handle_flag (set_flag : printf_ctx → Z → printf_ctx) (m : mem)
    (cs : printf_ctx * Z) : outcome (printf_ctx * Z) :=
  let '(c, special) := cs in
  let c := set_flag c 0 in
  if special =? 48 then fmt_fetch_special m (set_flag c 1) else Ret (c, special).

(** [__builtin_va_arg] for an int and for a 64-bit type. *)
Definition va_int (args : list Z) : outcome (Z * list Z) :=
  match args with [] => Fault | v :: args => Ret (s32 v, args) end.
Definition va_long (args : list Z) : outcome (Z * list Z) :=
  match args with [] => Fault | v :: args => Ret (u64 v, args) end.

Definition is_digit (ch : Z) : bool := (48 <=? ch) && (ch <=? 57).

Definition fmt_handle_star_or_digit (set_digit : printf_ctx → Z → printf_ctx) (fuel : nat) (m : mem)
    (csa : printf_ctx * Z * list Z) : outcome (printf_ctx * Z * list Z) :=
  let '(c, special, args) := csa in
  let c := set_digit c (-1) in
  if special =? 42 then
    '(v, args) ← va_int args;
    '(c, special) ← fmt_fetch_special m (set_digit c v);
    Ret (c, special, args)
  else if is_digit special then
    '(c, special, digit_var) ← loop fuel (λ '(c, special, digit_var),
      let digit_var := s32 (digit_var * 10 + (special - 48)) in
      '(c, special) ← fmt_fetch_special m c;
      if is_digit special then Ret (inl (c, special, digit_var))
      else Ret (inr (c, special, digit_var))) (c, special, 0);
    Ret (set_digit c digit_var, special, args)
  else Ret (c, special, args).

Definition fmt_handle_size (m : mem) (cs : printf_ctx * Z) : outcome (printf_ctx * Z) :=
  let '(c, special) := cs in
  let c :=
    if special =? 99 then set_size (set_fmt c (fmt c - 1)) FMT_SIZE_LONG
    else if special =? 108 then set_size c FMT_SIZE_LONG
    else if special =? 104 then set_size c FMT_SIZE_HALF
    else if special =? 106 then set_size c FMT_SIZE_INTMAX
    else if special =? 122 then set_size c FMT_SIZE_SIZE_T
    else if special =? 116 then set_size c FMT_SIZE_PTRDIFF
    else if special =? 76 then set_size c FMT_SIZE_INT64
    else set_fmt (set_size c FMT_SIZE_NO) (fmt c - 1) in
  '(c, special) ← fmt_fetch_special m c;
  if (size c =? FMT_SIZE_LONG) && (special =? 108) then
    fmt_fetch_special m (set_size c FMT_SIZE_LLONG)
  else if (size c =? FMT_SIZE_HALF) && (special =? 104) then
    fmt_fetch_special m (set_size c FMT_SIZE_HHALF)
  else if (special =? 112) || (special =? 115) then Ret (set_size c FMT_SIZE_LLONG, special)
  else Ret (c, special).

Definition arg_fetch (c : printf_ctx) (args : list Z) : outcome (printf_ctx * list Z) :=
  if (size c =? FMT_SIZE_SIZE_T) || (size c =? FMT_SIZE_LONG) || (size c =? FMT_SIZE_LLONG) then
    '(v, args) ← va_long args; Ret (set_arg c v, args)
  else '(v, args) ← va_int args; Ret (set_arg c (u64 v), args).

(** Returns [true] at the end of the format. *)
Definition fmt_parse_token (fuel : nat) (s : pstate) (args : list Z) : outcome (bool * pstate * list Z) :=
  '(s, special) ← fmt_skip_to_special fuel s;
  if negb (truth special) then Ret (true, s, args) else
  let m := s.1 in
  cs ← fmt_handle_flag set_flag_zero m (s.2, special);
  cs ← fmt_handle_flag set_flag_left_align m cs;
  cs ← fmt_handle_flag set_flag_plus m cs;
  '(c, special) ← fmt_handle_flag set_flag_space m cs;
  csa ← fmt_handle_star_or_digit set_width fuel m (c, special, args);
  '(c, special, args) ← fmt_handle_star_or_digit set_precision fuel m csa;
  '(c, special) ← fmt_handle_size m (c, special);
  '(c, args) ← arg_fetch c args;
  let c := set_type c special in
  Ret (false, (m, set_fmt c (fmt c + 1)), args).

(** Returns the memory and the length of the text. *)
Definition __vsnprintf (fuel : nat) (m : mem) (d dst_len fmt_ : Z) (args : list Z) : outcome (mem * Z) :=
  let c := PrintfCtx fmt_ d d (d + dst_len) 0 0 0 0 0 0 0 0 0 0 in
  '(m, c) ← loop fuel (λ '(s, args),
    ch ← load8 s.1 (fmt s.2);
    if truth ch then
      '(ended, s, args) ← fmt_parse_token fuel s args;
      if ended : bool then Ret (inr s)
      else s ← fmt_print_type fuel s; Ret (inl (s, args))
    else Ret (inr s)) ((m, c), args);
  m ← (if truth dst_len then
         if dst c =? dst_end c then store8 m (dst c - 1) 0 else store8 m (dst c) 0
       else Ret m);
  Ret (m, s32 (dst_virt c - d)).

Definition vsprintf (fuel : nat) (m : mem) (d fmt_ : Z) (args : list Z) : outcome (mem * Z) :=
  __vsnprintf fuel m d 4096 fmt_ args.

Definition sprintf (fuel : nat) (m : mem) (d fmt_ : Z) (args : list Z) : outcome (mem * Z) :=
  __vsnprintf fuel m d 4096 fmt_ args.

Definition snprintf (fuel : nat) (m : mem) (d dst_size fmt_ : Z) (args : list Z) : outcome (mem * Z) :=
  __vsnprintf fuel m d dst_size fmt_ args.

(** ** Memory safety of the printers

    [sok m0 lo e fl s]: the state [s] differs from the initial memory [m0] only
    inside the output buffer [[lo, e)], its output pointer is in it, and its
    format pointer is at [fl] or after. *)
Definition in_ram (hi : Z) (m : mem) : Prop := ∀ q, is_Some (m !! q) → 0 ≤ q < hi.

Definition sok (m0 : mem) (lo e fl : Z) (s : pstate) : Prop :=
  writes_in lo e m0 s.1 ∧ lo ≤ dst s.2 ≤ e ∧ dst_end s.2 = e ∧ fl ≤ fmt s.2.

Lemma in_ram_writes hi lo e m m' : in_ram hi m → writes_in lo e m m' → in_ram hi m'.
Proof. intros Hr [Hd _] q Hq. apply Hr. by apply Hd. Qed.

Lemma memset_tpost hi fuel m p v n : in_ram hi m → (Z.to_nat hi < fuel)%nat → 0 ≤ n →
  tpost (memset fuel m p v n) (λ m', writes_in p (p + n) m m' ∧ (0 < n → 0 ≤ p ∧ p + n ≤ hi)).
Proof.
  intros Hr Hf Hn. unfold memset. eapply (tpost_loop _
    (λ '(m', q, k), writes_in p (p + n) m m' ∧ q = p + n - k ∧ 0 ≤ k ≤ n ∧
       (k < n → 0 ≤ p ∧ q ≤ hi)) (λ '(m', q, k), Z.to_nat (hi - Z.max q 0))).
  - intros [[m' q] k] (Hw & -> & Hk & Hb). destruct (Z.eq_dec k 0) as [->|].
    { simpl. split; [done|]. intros. destruct Hb; lia. }
    rewrite truth_nonzero by lia. eapply tpost_bind; [apply tpost_store8|].
    intros m'' [Hm ->]. cbn. pose proof (in_ram_writes _ _ _ _ _ Hr Hw _ Hm).
    split_and!; try lia.
    transitivity m'; [done|]. apply (store8_writes _ _ m' (p + n - k) v); [lia|].
    by apply store8_returns.
  - split_and!; [reflexivity|lia..].
  - lia.
Qed.

Lemma store_le_tpost w m p v lo e : lo ≤ p → p + Z.of_nat w ≤ e →
  tpost (store_le w m p v) (writes_in lo e m).
Proof.
  revert m p v; induction w as [|w IH]; intros m p v Hlo He; cbn [store_le]; [cbn; reflexivity|].
  eapply tpost_bind; [apply tpost_store8|]. intros m' [Hm ->].
  eapply tpost_mono; [apply IH; lia|]. intros m'' Hw. etransitivity; [|exact Hw].
  apply (store8_writes _ _ m p (v mod 2 ^ 8)); [lia|]. by apply store8_returns.
Qed.

Lemma load_le_tpost w m p : tpost (load_le w m p) (λ _, (0 < w)%nat → is_Some (m !! p)).
Proof.
  revert p; induction w as [|w IH]; intros p; cbn [load_le]; [cbn; lia|].
  eapply tpost_bind; [apply tpost_load8|]. intros b Hb.
  eapply tpost_bind; [apply IH|]. intros r _ _. exists b. exact Hb.
Qed.

Lemma cpy_loop_tpost hi fuel w m dst src first last lo e :
  in_ram hi m → (Z.to_nat hi < fuel)%nat → (0 < w)%nat → 0 ≤ first → last < 2 ^ 32 →
  lo ≤ dst → dst + Z.of_nat w * last ≤ e →
  tpost (cpy_loop fuel w m dst src first last) (writes_in lo e m).
Proof.
  intros Hr Hf Hw H1 H2 Hlo He. unfold cpy_loop. eapply (tpost_loop _
    (λ '(m', i), writes_in lo e m m' ∧ 0 ≤ i)
    (λ '(m', i), Z.to_nat (hi - Z.max (src + Z.of_nat w * i) 0))); [|split; [reflexivity|done]|lia].
  intros [m' i] [Hm' Hi]. destruct (Z.ltb_spec i last); [|done]. unfold CPY_ARRAY_EL.
  eapply tpost_bind.
  { eapply tpost_bind; [apply load_le_tpost|]. intros v Hv.
    eapply tpost_mono; [apply (store_le_tpost w m' _ v lo e); nia|].
    intros m'' Hw''. exact (conj (Hv Hw) Hw''). }
  intros m'' [Hs Hw'']. cbn. rewrite u32_id by lia.
  pose proof (in_ram_writes _ _ _ _ _ Hr Hm' _ Hs). split_and!; [|lia|nia].
  by transitivity m'.
Qed.

Lemma memcpy_tpost hi fuel m dst src n :
  in_ram hi m → (Z.to_nat hi < fuel)%nat → 0 ≤ n < 2 ^ 31 →
  tpost (memcpy fuel m dst src n) (writes_in dst (dst + n) m).
Proof.
  intros Hr Hf Hn. unfold memcpy.
  assert (0 ≤ n / 4 * 4 ≤ n) as H4 by dlia. assert (0 ≤ n / 8 * 8 ≤ n) as H8 by dlia.
  destruct (negb (IS_ALIGNED dst 8) || negb (IS_ALIGNED src 8)) eqn:E8.
  - destruct (negb (IS_ALIGNED dst 4) || negb (IS_ALIGNED src 4)).
    + apply (cpy_loop_tpost hi); try (done || lia).
    + rewrite u32_id by lia. eapply tpost_bind.
      { apply (cpy_loop_tpost hi) with (lo := dst) (e := dst + n); try (done || lia);
          rewrite Z.div_mul by lia; lia. }
      intros m' Hw. eapply tpost_mono.
      { apply (cpy_loop_tpost hi) with (lo := dst) (e := dst + n); try (done || lia).
        by eapply in_ram_writes. }
      intros m'' Hw'. by transitivity m'.
  - unfold memcpy_8aligned. eapply tpost_bind.
    { eapply tpost_bind; [apply tpost_BUG|]. intros _ _.
      apply (cpy_loop_tpost hi) with (lo := dst) (e := dst + n); try (done || lia);
        rewrite Z.div_mul by lia; lia. }
    intros m' Hw. rewrite u32_id by lia. eapply tpost_mono.
    { apply (cpy_loop_tpost hi) with (lo := dst) (e := dst + n); try (done || lia).
      by eapply in_ram_writes. }
    intros m'' Hw'. by transitivity m'.
Qed.

Lemma closest_round_base10_div_ok n val : (66 < n)%nat →
  tpost (closest_round_base10_div n val) (λ w, 1 ≤ w ≤ 64).
Proof.
  intros Hn. unfold closest_round_base10_div. eapply (tpost_loop _
    (λ '(divider, w), divider = u64 (10 ^ w) ∧ 1 ≤ w ≤ 64) (λ '(_, w), Z.to_nat (65 - w)));
    [|split; [done|lia]|lia].
  intros [divider w] [-> Hw]. destruct (Z.eqb_spec (u64 (10 ^ w)) 0) as [|Hnz]; [done|].
  destruct (truth (val / u64 (10 ^ w))); [|done]. cbn.
  assert (w ≠ 64) by (intros ->; by apply Hnz). split_and!; try lia.
  unfold u64. rewrite Zmult_mod_idemp_l. f_equal. rewrite Z.pow_add_r by lia. lia.
Qed.

Lemma decimal_table_ok i : tpost (decimal_table i) (λ d, 0 ≤ i < 20 ∧ d = 10 ^ i).
Proof.
  unfold decimal_table. destruct (Z.leb_spec 0 i); [|done].
  eapply tpost_mono; [apply tpost_deref|]. intros d Hd.
  pose proof (lookup_lt_Some _ _ _ Hd) as Hl. change (length __decimal_table) with 20%nat in Hl.
  split; [lia|]. assert (i = Z.of_nat (Z.to_nat i)) as -> by lia. revert Hd Hl.
  generalize (Z.to_nat i) as n. intros n Hd Hl. clear -Hd Hl.
  do 20 (destruct n as [|n]; [by injection Hd as <-|]). lia.
Qed.

Lemma log2_10 d : 0 < d → Z.log2 (2 * (d / 10)) < Z.log2 (2 * d).
Proof.
  intros Hd. rewrite (Z.log2_double d) by lia. pose proof (Z.log2_le_mono (2 * (d / 10)) d ltac:(dlia)). lia.
Qed.

Lemma clz_range x : 0 ≤ __builtin_clzll x ≤ 64 ∧ 0 ≤ __builtin_clz x ≤ 32.
Proof.
  unfold __builtin_clzll, __builtin_clz. pose proof (u64_range x). pose proof (u32_range x).
  pose proof (Z.log2_nonneg (u64 x)). pose proof (Z.log2_nonneg (u32 x)).
  assert (Z.log2 (u64 x) ≤ 63) by (change 63 with (Z.log2 (2 ^ 64 - 1)); apply Z.log2_le_mono; lia).
  assert (Z.log2 (u32 x) ≤ 31) by (change 31 with (Z.log2 (2 ^ 32 - 1)); apply Z.log2_le_mono; lia).
  zcases; lia.
Qed.

(** The output macros keep [sok]; their lengths are those of an int. *)
Section printers.
Context (hi lo e fl : Z) (m0 : mem) (fuel : nat).
Context (Hram : in_ram hi m0) (Hhi : hi ≤ 2 ^ 63) (Hbuf : e - lo < 2 ^ 31).
Context (Hfuel : (Z.to_nat hi + 100 < fuel)%nat).
Local Notation ok := (sok m0 lo e fl).

Lemma sok_ram s : ok s → in_ram hi s.1.
Proof. intros [Hw _]. by eapply in_ram_writes. Qed.

Lemma sok_step s m' d v : ok s → writes_in (dst s.2) d s.1 m' → dst s.2 ≤ d ≤ e →
  ok (m', set_dst s.2 d v).
Proof.
  intros (Hw & Hd & He & Hfl) Hw' Hd'. split; [|simpl; split; [lia|split; done]]. simpl.
  transitivity s.1; [done|]. eapply writes_in_weaken; [done|lia|lia].
Qed.

Lemma DST_APPEND_C_ok s ch : ok s → tpost (DST_APPEND_C s ch) ok.
Proof.
  intros Hs. destruct s as [m c]. unfold DST_APPEND_C. pose proof Hs as (Hw & Hd & He & Hfl). simpl in *.
  destruct (Z.ltb_spec (dst c) (dst_end c)).
  - eapply tpost_bind; [apply tpost_store8|]. intros m' [Hm ->]. cbn.
    apply (sok_step (m, c)); [done| |simpl; lia]. simpl.
    apply (store8_writes _ _ m (dst c) ch); [lia|]. by apply store8_returns.
  - cbn. apply (sok_step (m, c)); [done| |simpl; lia]. reflexivity.
Qed.

Lemma DST_APPEND_S_ok s l : ok s → tpost (DST_APPEND_S s l) ok.
Proof.
  revert s; induction l as [|ch l IH]; intros s Hs; cbn [DST_APPEND_S]; [done|].
  eapply tpost_bind; [by apply DST_APPEND_C_ok|]. apply IH.
Qed.

Lemma DST_MEMSET_ok s v len : ok s → - 2 ^ 31 ≤ len < 2 ^ 31 → tpost (DST_MEMSET fuel s v len) ok.
Proof.
  intros Hs Hlen. pose proof (sok_ram s Hs) as Hr. destruct s as [m c].
  pose proof Hs as (Hw & Hd & He & Hfl). unfold DST_MEMSET, DST_FREE_BYTES. simpl in *. rewrite c_min_spec.
  rewrite s32_id by lia. set (n := len `min` (dst_end c - dst c)).
  eapply tpost_bind; [apply (memset_tpost hi); [done|lia|apply u64_range]|].
  intros m' [Hw' Hb]. cbn. destruct (Z_lt_le_dec n 0) as [Hneg|Hpos].
  - assert (u64 n = 2 ^ 64 + n) as E.
    { unfold u64. rewrite <- (Z.mod_add n 1) by lia. rewrite Z.mod_small; lia. }
    rewrite E in Hb. destruct Hb; lia.
  - rewrite u64_id in Hw' by lia. apply (sok_step (m, c)); [done|done|simpl; lia].
Qed.

Lemma DST_MEMCPY_ok s src len : ok s → 0 ≤ len → tpost (DST_MEMCPY fuel s src len) ok.
Proof.
  intros Hs Hlen. pose proof (sok_ram s Hs) as Hr. destruct s as [m c].
  pose proof Hs as (Hw & Hd & He & Hfl). unfold DST_MEMCPY, DST_FREE_BYTES. simpl in *. rewrite c_min_spec.
  rewrite s32_id, u64_id by lia.
  eapply tpost_bind; [apply (memcpy_tpost hi); [done|lia|lia]|].
  intros m' Hw'. cbn. apply (sok_step (m, c)); [done|done|simpl; lia].
Qed.

(** Changes of the other fields. *)
Definition same_dst (c c' : printf_ctx) : Prop := dst c' = dst c ∧ dst_end c' = dst_end c.

Lemma sok_move m c c' : ok (m, c) → same_dst c c' → fl ≤ fmt c' → ok (m, c').
Proof. intros (Hw & Hd & He & Hfl) [E1 E2] ?. split; [done|]. simpl in *. rewrite E1, E2. lia. Qed.

Lemma sok_same m c c' : ok (m, c) → same_dst c c' → fmt c ≤ fmt c' → ok (m, c').
Proof. intros H ??. apply (sok_move m c c'); [done..|]. destruct H as (_ & _ & _ & ?). simpl in *. lia. Qed.

Lemma number_10_div_ok s w : ok s → tpost (__print_fn_number_10_div fuel s w) ok.
Proof.
  intros Hs. unfold __print_fn_number_10_div. eapply tpost_bind; [apply decimal_table_ok|].
  intros d [Hi ->]. eapply (tpost_loop _ (λ '(s, d), ok s ∧ 0 ≤ d)
    (λ '(_, d), Z.to_nat (Z.log2 (2 * d)))).
  - intros [s' d] [Hs' Hd]. unfold truth. destruct (Z.eqb_spec d 0); [done|]. cbn [negb].
    eapply tpost_bind; [by apply DST_APPEND_C_ok|]. intros [m c] Hok. cbn.
    pose proof (log2_10 d ltac:(lia)). pose proof (Z.log2_nonneg (2 * (d / 10))).
    split_and!; [by eapply sok_same|dlia|lia].
  - split; [done|]. apply Z.pow_nonneg. lia.
  - assert (Z.log2 (2 * 10 ^ (w - 1)) ≤ Z.log2 (2 * 10 ^ 19)) as Hl.
    { apply Z.log2_le_mono. assert (10 ^ (w - 1) ≤ 10 ^ 19) by (apply Z.pow_le_mono_r; lia). lia. }
    change (Z.log2 (2 * 10 ^ 19)) with 64 in Hl. lia.
Qed.
Lemma prep_spec_ok c neg : tpost (__print_fn_prep_spec fuel c neg)
  (λ sp, 0 ≤ space_padding sp < 2 ^ 31 ∧ 0 ≤ padding sp < 2 ^ 31).
Proof.
  unfold __print_fn_prep_spec. eapply tpost_bind; [apply closest_round_base10_div_ok; lia|].
  intros w _. cbn -[c_max]. rewrite !c_max_spec.
  pose proof (s32_range (width c - s32 (w + Z.lor (Z.lor neg (flag_plus c)) (flag_space c)))).
  match goal with |- context [s32 (?a - Z.max (s32 ?b) 0)] => pose proof (s32_range (a - Z.max (s32 b) 0)) end.
  destruct (truth (flag_zero c) && (precision c =? -1)); lia.
Qed.

Lemma number_10_ok s sp : ok s → 0 ≤ space_padding sp < 2 ^ 31 →
  tpost (__print_fn_number_10 fuel s sp) ok.
Proof.
  intros Hs Hsp. unfold __print_fn_number_10.
  eapply tpost_bind; [apply DST_MEMSET_ok; [done|lia]|]. intros s1 H1.
  eapply tpost_bind with (P := λ r, ok r.1).
  - repeat case_match; try (eapply tpost_bind; [by apply DST_APPEND_C_ok|by intros]); done.
  - intros [s2 w] H2. cbn [fst] in *.
    eapply tpost_bind; [apply DST_MEMSET_ok; [done|apply s32_range]|]. intros s3 H3.
    by apply number_10_div_ok.
Qed.

Lemma number_10_u_ok s : ok s → tpost (__print_fn_number_10_u fuel s) ok.
Proof.
  intros Hs. destruct s as [m c]. unfold __print_fn_number_10_u.
  eapply tpost_bind; [apply prep_spec_ok|]. intros sp [Hsp _]. apply number_10_ok; [|done].
  destruct (size c =? FMT_SIZE_NO); [by eapply sok_same|done].
Qed.

Lemma number_10_d_ok s : ok s → tpost (__print_fn_number_10_d fuel s) ok.
Proof.
  intros Hs. destruct s as [m c]. unfold __print_fn_number_10_d.
  eapply tpost_bind; [apply prep_spec_ok|]. intros sp [Hsp _]. apply number_10_ok; [|done].
  match goal with |- sok _ _ _ _ (_, if ?b then _ else _) => destruct b end; by eapply sok_same.
Qed.

Lemma number_16_ok s : ok s → tpost (__print_fn_number_16 fuel s) ok.
Proof.
  intros Hs. unfold __print_fn_number_16.
  eapply tpost_bind with (P := λ '(s', lz, mb), ok s' ∧ mb - lz - 1 ≤ 63).
  { pose proof (clz_range (arg s.2)). repeat case_match; simpl; try (split; [done|lia]).
    eapply tpost_bind; [by apply (DST_APPEND_S_ok s [60; 62])|]. intros s' Hs'. simpl. split; [done|lia]. }
  intros [[s1 lz] mb] [H1 Hb]. destruct s1 as [m c].
  set (rn := Z.quot (mb - lz - 1) 4). cbv zeta.
  set (pad := if truth (flag_hex_prefix c) then _ else _).
  assert (0 ≤ pad < 2 ^ 31) as Hpad.
  { unfold pad. rewrite !c_max_spec.
    pose proof (s32_range (Z.max (width c) (precision c) - (rn + 1))). destruct (truth _); lia. }
  clearbody pad. set (c' := if negb (precision c =? -1) then _ else c).
  assert (same_dst c c' ∧ fmt c ≤ fmt c') as [Hsame Hle] by (unfold c'; by destruct (negb _)). clearbody c'.
  eapply tpost_bind.
  { apply DST_MEMSET_ok; [by eapply sok_same|].
    repeat case_match; first [apply s32_range | lia]. }
  intros s2 H2. eapply tpost_bind with (P := ok).
  { destruct (truth _); [|done]. eapply tpost_bind; [by apply DST_APPEND_C_ok|].
    intros s3 H3. by apply DST_APPEND_C_ok. }
  intros s3 H3. eapply tpost_bind; [apply DST_MEMSET_ok; [done|apply s32_range]|].
  intros s4 H4. eapply (tpost_loop _ (λ '(s, _), ok s) (λ '(_, r), Z.to_nat (r + 1))); [|done|].
  - intros [s5 r] H5. destruct (Z.leb_spec 0 r); [|done].
    eapply tpost_bind; [by apply DST_APPEND_C_ok|]. intros s6 H6. cbn. split; [done|lia].
  - assert (rn ≤ 15); [|lia]. unfold rn. change 15 with (Z.quot 63 4). by apply Z.quot_le_mono.
Qed.

Lemma print_fn_string_ok s : ok s → tpost (__print_fn_string fuel s) ok.
Proof.
  intros Hs. pose proof (sok_ram s Hs) as Hr. destruct s as [m c].
  pose proof Hs as (Hw & Hd & He & Hfl). unfold __print_fn_string. simpl in *. rewrite s32_id by lia.
  eapply tpost_bind with (P := λ '(m', d), writes_in (dst c) d m m' ∧ dst c ≤ d ≤ e).
  - unfold __printf_strlcpy. eapply (tpost_loop _
      (λ '(m', d, src), writes_in (dst c) d m m' ∧ d - dst c = src - arg c ∧
         dst c ≤ d ≤ e) (λ '(_, _, src), Z.to_nat (hi - Z.max src 0))).
    + intros [[m' d] src] (Hw' & Heq & Hde). eapply tpost_bind; [apply tpost_load8|]. intros ch Hch.
      destruct (truth ch && negb (src =? arg c + (dst_end c - dst c))) eqn:E; [|done].
      apply andb_true_iff in E as [_ E%negb_true_iff%Z.eqb_neq].
      eapply tpost_bind; [apply tpost_store8|]. intros m'' [Hm ->]. cbn.
      pose proof (in_ram_writes _ _ _ _ _ Hr Hw' src (mk_is_Some _ _ Hch)).
      split_and!; try lia. transitivity m'; [by eapply writes_in_weaken; [done|lia|lia]|].
      apply (store8_writes _ _ m' d ch); [lia|]. by apply store8_returns.
    + split_and!; [reflexivity|lia..].
    + lia.
  - intros [m' d] [Hw' Hde].
    eapply tpost_bind with (P := λ _, True).
    + eapply (tpost_loop _ (λ _, True) (λ '(_, src), Z.to_nat (hi - Z.max src 0))); [|done|lia].
      intros [v src] _. eapply tpost_bind; [apply tpost_load8|]. intros ch Hch.
      destruct (truth ch); [|done]. cbn. split; [done|].
      assert (is_Some (m !! src)) as Hm by (rewrite <- (proj1 Hw'); exact (mk_is_Some _ _ Hch)).
      specialize (Hr _ Hm). lia.
    + intros v _. by apply (sok_step (m, c)).
Qed.

Lemma print_fn_char_ok s : ok s → tpost (__print_fn_char s) ok.
Proof.
  intros Hs. destruct s as [m c]. unfold __print_fn_char. pose proof Hs as (Hw & Hd & He & Hfl). simpl in *.
  destruct (Z.ltb_spec (dst c) (dst_end c)); [|done].
  eapply tpost_bind; [apply tpost_store8|]. intros m' [Hm ->]. cbn.
  apply (sok_step (m, c)); [done| |simpl; lia]. simpl.
  eapply (store8_writes _ _ m (dst c)); [lia|]. by apply store8_returns.
Qed.

Lemma fmt_print_type_ok s : ok s → tpost (fmt_print_type fuel s) ok.
Proof.
  intros Hs. unfold fmt_print_type. destruct (_ && _); [|done]. unfold __printf_fn_map, __print_fn_address.
  repeat case_match; auto using print_fn_char_ok, number_10_d_ok, print_fn_string_ok, number_10_u_ok, number_16_ok.
Qed.

(** The scanner moves the format pointer forward and leaves the output alone. *)
Definition fwd (k : Z) (c c' : printf_ctx) : Prop := same_dst c c' ∧ fmt c + k ≤ fmt c'.

Lemma find_special_ok m pos end_ : in_ram hi m →
  tpost (__find_special_or_null fuel m pos end_) (λ p, pos ≤ p).
Proof.
  intros Hr. unfold __find_special_or_null. eapply (tpost_loop _ (λ p, pos ≤ p)
    (λ p, Z.to_nat (hi - Z.max p 0))); [|lia|lia].
  intros p Hp. eapply tpost_bind with (P := λ q, p ≤ q).
  - unfold __mem_find_any_byte_of_2. eapply (tpost_loop _ (λ q, p ≤ q)
      (λ p, Z.to_nat (hi - Z.max p 0))); [|lia|lia].
    intros q Hq. destruct (q <? end_); [|done].
    eapply tpost_bind; [apply tpost_load8|]. intros t Ht.
    pose proof (Hr q (mk_is_Some _ _ Ht)). destruct (_ || _); cbn; lia.
  - intros q Hq. eapply tpost_bind; [apply tpost_load8|]. intros ch Hch.
    pose proof (Hr q (mk_is_Some _ _ Hch)). destruct (truth ch); [|cbn; lia].
    eapply tpost_bind; [apply tpost_load8|]. intros ch1 _. destruct (negb _); cbn; lia.
Qed.

Lemma fetch_ok m c : in_ram hi m →
  tpost (fmt_fetch_special m c) (λ r, same_dst c r.1 ∧ fmt r.1 = fmt c + 1 ∧ 0 ≤ fmt c + 1 < hi).
Proof.
  intros Hr. eapply tpost_bind; [apply tpost_load8|]. intros ch Hch. cbn.
  split; [done|]. split; [done|]. apply (Hr _ (mk_is_Some _ _ Hch)).
Qed.

Lemma skip_ok s : ok s → tpost (fmt_skip_to_special fuel s) (λ r, ok r.1 ∧ fmt s.2 ≤ fmt r.1.2).
Proof.
  intros Hs. unfold fmt_skip_to_special.
  eapply tpost_bind; [apply find_special_ok, sok_ram, Hs|]. intros p Hp.
  cbn in Hp. assert (fl ≤ p) by (destruct Hs as (_ & _ & _ & ?); lia).
  eapply tpost_bind; [apply DST_MEMCPY_ok; [done|lia]|]. intros [m c] H1. cbn [fst snd].
  eapply tpost_bind; [apply tpost_load8|]. intros ch _. destruct (ch =? 37).
  - eapply tpost_bind; [apply fetch_ok, (sok_ram _ H1)|]. intros [c' sp] (Hc & Hf & _). simpl in *.
    split; [eapply sok_move; [done|done|lia]|lia].
  - cbn. split; [by eapply sok_move|done].
Qed.

Definition pure_setter (set : printf_ctx → Z → printf_ctx) : Prop :=
  ∀ c v, same_dst c (set c v) ∧ fmt (set c v) = fmt c.

Lemma handle_flag_ok set m cs : in_ram hi m → pure_setter set →
  tpost (fmt_handle_flag set m cs) (λ r, fwd 0 cs.1 r.1).
Proof.
  intros Hr Hset. destruct cs as [c sp]. unfold fmt_handle_flag. unfold fwd, same_dst. cbn [fst].
  destruct (Hset c 0) as [[E1 E2] E3]. destruct (Hset (set c 0) 1) as [[E4 E5] E6].
  destruct (sp =? 48).
  - eapply tpost_mono; [by apply fetch_ok|]. intros [c' sp'] ((H1 & H2) & H3 & _). cbn in *.
    split; [split; congruence|lia].
  - cbn. split; [done|lia].
Qed.

Lemma star_or_digit_ok set m csa : in_ram hi m → pure_setter set →
  tpost (fmt_handle_star_or_digit set fuel m csa) (λ r, fwd 0 csa.1.1 r.1.1).
Proof.
  intros Hr Hset. destruct csa as [[c sp] args]. unfold fmt_handle_star_or_digit. unfold fwd, same_dst. cbn [fst].
  destruct (Hset c (-1)) as [[E1 E2] E3].
  destruct (sp =? 42); [|destruct (is_digit sp)].
  - eapply tpost_bind with (P := λ _, True); [by destruct args|]. intros [v args'] _.
    destruct (Hset (set c (-1)) v) as [[E4 E5] E6].
    eapply tpost_bind; [by apply fetch_ok|]. intros [c' sp'] ((H1 & H2) & H3 & _). cbn in *.
    split; [split; congruence|lia].
  - eapply tpost_bind.
    + apply (tpost_loop _ (λ '(c', _, _), fwd 0 c c') (λ '(c', _, _), Z.to_nat (hi - Z.max (fmt c' + 1) 0)))
        with (Q := λ '(c', _, _), fwd 0 c c').
      * intros [[c' sp'] dv] [[H1 H2] H3]. eapply tpost_bind; [by apply fetch_ok|].
        intros [c2 sp2] ((H4 & H5) & H6 & H7). cbn [fst] in *.
        destruct (is_digit sp2); cbn; unfold fwd, same_dst; repeat split; try congruence; try lia.
      * split; [done|lia].
      * lia.
    + intros [[c' sp'] dv] [[H1 H2] H3]. cbn. destruct (Hset c' dv) as [[E4 E5] E6].
      split; [split; congruence|lia].
  - cbn. split; [done|lia].
Qed.

Lemma handle_size_ok m cs : in_ram hi m → tpost (fmt_handle_size m cs) (λ r, fwd 0 cs.1 r.1).
Proof.
  intros Hr. destruct cs as [c sp]. unfold fmt_handle_size.
  match goal with |- context [fmt_fetch_special m ?x] => set (c1 := x) end.
  assert (same_dst c c1 ∧ fmt c - 1 ≤ fmt c1) as [[E1 E2] E3].
  { unfold c1. repeat case_match; split; try done; simpl; lia. }
  clearbody c1. unfold fwd, same_dst. cbn [fst].
  eapply tpost_bind; [by apply fetch_ok|]. intros [c2 sp2] ((H1 & H2) & H3 & _). cbn [fst] in *.
  assert (∀ v, tpost (fmt_fetch_special m (set_size c2 v))
    (λ r, (dst r.1 = dst c ∧ dst_end r.1 = dst_end c) ∧ fmt c + 0 ≤ fmt r.1)) as Hfetch.
  { intros v. eapply tpost_mono; [by apply fetch_ok|]. intros r ((H4 & H5) & H6 & _). simpl in *.
    split; [split; congruence|lia]. }
  repeat case_match; try apply Hfetch; cbn; (split; [split; congruence|lia]).
Qed.

Lemma parse_token_ok s args : ok s →
  tpost (fmt_parse_token fuel s args) (λ r, ok r.1.2 ∧ (r.1.1 = false → fmt s.2 < fmt r.1.2.2)).
Proof.
  intros Hs. unfold fmt_parse_token.
  eapply tpost_bind; [by apply skip_ok|]. intros [[m c0] sp0] [H0 F0]. cbn [fst snd] in *.
  destruct (negb (truth sp0)); [by cbn|].
  pose proof (sok_ram _ H0) as Hr. cbn [fst] in Hr.
  eapply tpost_bind; [by apply handle_flag_ok|]. intros cs1 H1.
  eapply tpost_bind; [by apply handle_flag_ok|]. intros cs2 H2.
  eapply tpost_bind; [by apply handle_flag_ok|]. intros cs3 H3.
  eapply tpost_bind; [by apply handle_flag_ok|]. intros [c4 sp4] H4.
  eapply tpost_bind; [by apply star_or_digit_ok|]. intros csa H5.
  eapply tpost_bind; [by apply star_or_digit_ok|]. intros [[c6 sp6] args6] H6.
  eapply tpost_bind; [by apply handle_size_ok|]. intros [c7 sp7] H7.
  eapply tpost_bind with (P := λ r, same_dst c7 r.1 ∧ fmt r.1 = fmt c7).
  { unfold arg_fetch. case_match; (destruct args6; [done|by cbn]). }
  intros [c8 args8] [[E1 E2] E3].
  destruct H1 as [[] ?], H2 as [[] ?], H3 as [[] ?], H4 as [[] ?], H5 as [[] ?], H6 as [[] ?], H7 as [[] ?].
  cbn in *. split; [|lia]. eapply sok_same; [exact H0|split; cbn; congruence|cbn; lia].
Qed.
End printers.

(** Whatever the format and the arguments are, a print into a buffer of
    [dst_len] bytes never runs for ever.  If it returns, it has written nothing
    outside the buffer, and left a NUL in it when [dst_len] is not 0.  It need not
    return: a format such as ["%*5p"] gives [__print_fn_number_16] a negative
    padding, and the [memset] of that length runs through memory. *)
Theorem vsnprintf_safe fuel hi m d dst_len fmt_ args :
  in_ram hi m → hi ≤ 2 ^ 63 → (Z.to_nat hi + 100 < fuel)%nat → 0 ≤ dst_len < 2 ^ 31 →
  terminates (__vsnprintf fuel m d dst_len fmt_ args) ∧
  ∀ m' r, __vsnprintf fuel m d dst_len fmt_ args = Ret (m', r) →
    writes_in d (d + dst_len) m m' ∧
    (0 < dst_len → ∃ q, d ≤ q < d + dst_len ∧ m' !! q = Some 0).
Proof.
  intros Hr Hhi Hf Hlen. set (Q := λ r : mem * Z, writes_in d (d + dst_len) m r.1 ∧
    (0 < dst_len → ∃ q, d ≤ q < d + dst_len ∧ r.1 !! q = Some 0)).
  enough (tpost (__vsnprintf fuel m d dst_len fmt_ args) Q) as H.
  { split; [by eapply tpost_terminates|]. intros m' r Hret. exact (tpost_post _ _ H _ Hret). }
  unfold __vsnprintf. eapply tpost_bind.
  - apply (tpost_loop _ (λ '(s, _), sok m d (d + dst_len) fmt_ s) (λ '(s, _), Z.to_nat (hi - Z.max (fmt s.2) 0)))
      with (Q := sok m d (d + dst_len) fmt_).
    + intros [s args'] Hs. eapply tpost_bind; [apply tpost_load8|]. intros ch Hch.
      pose proof (sok_ram hi d (d + dst_len) fmt_ m Hr s Hs _ (mk_is_Some _ _ Hch)) as Hb.
      pose proof (proj2 (proj2 (proj2 Hs))) as Hfl.
      destruct (truth ch); [|done].
      eapply tpost_bind; [apply (parse_token_ok hi d (d + dst_len) fmt_ m fuel); (done || lia)|]. intros [[[] s'] args2] [H1 H2]; [done|].
      cbn [fst snd] in *. specialize (H2 eq_refl).
      eapply tpost_bind.
      { apply (fmt_print_type_ok hi d (d + dst_len) (fmt s'.2) m fuel Hr Hhi ltac:(lia) Hf).
        destruct H1 as (? & ? & ? & _). split; [done|split; [done|split; [done|lia]]]. }
      intros s2 (? & ? & ? & ?). cbn. split; [split_and!; (done || lia)|]. lia.
    + split; [reflexivity|]. simpl. lia.
    + simpl. lia.
  - intros [m1 c1] (Hw & Hd & He & Hfl). cbn in *. unfold truth. destruct (Z.eqb_spec dst_len 0) as [->|].
    { cbn. split; [done|lia]. }
    cbn [negb]. eapply tpost_bind with (P := λ m', Q (m', 0)); [|done].
    rewrite He. destruct (Z.eqb_spec (dst c1) (d + dst_len));
      (eapply tpost_mono; [apply tpost_store8|]; intros m2 [Hm ->]; split; cbn [fst]).
    + transitivity m1; [done|]. eapply store8_writes; [|by apply store8_returns]. lia.
    + intros _. exists (dst c1 - 1). split; [lia|]. apply lookup_insert_eq.
    + transitivity m1; [done|]. eapply store8_writes; [|by apply store8_returns]. lia.
    + intros _. exists (dst c1). split; [lia|]. apply lookup_insert_eq.
Qed.

(** Witness: "%08d %s" with a buffer of 8 bytes. *)
Definition demo_mem : mem :=
  write_bytes (mem_of 0 (replicate 8 255)) 16 [37; 48; 56; 100; 32; 37; 115; 0; 97; 98; 0].

Lemma demo_mem_ram : in_ram 64 demo_mem.
Proof.
  intros q Hq. unfold demo_mem in Hq. rewrite write_bytes_lookup in Hq.
  case_decide as H; [simpl in H; lia|]. rewrite mem_of_lookup in Hq.
  case_decide as H'; [|by apply is_Some_None in Hq].
  apply lookup_lt_is_Some_1 in Hq. simpl in Hq. lia.
Qed.

Lemma vsnprintf_safe_witness : ∃ m', __vsnprintf 200 demo_mem 0 8 16 [-1; 24] = Ret (m', 10) ∧
  writes_in 0 8 demo_mem m' ∧ ∃ q, 0 ≤ q < 8 ∧ m' !! q = Some 0.
Proof.
  destruct (vsnprintf_safe 200 64 demo_mem 0 8 16 [-1; 24] demo_mem_ram) as [_ H]; [lia..|].
  destruct (__vsnprintf 200 demo_mem 0 8 16 [-1; 24]) as [[m' r]| | |] eqn:E; try (exfalso; by vm_compute in E).
  assert (r = 10) as -> by (vm_compute in E; congruence).
  exists m'. split; [done|]. destruct (H m' 10 eq_refl) as [H1 H2]. split; [done|]. apply H2. lia.
Defined.

(** ["%*5p"] with the arguments 1 and 1 leaves the buffer of eight bytes. *)
Lemma star_precision_faults : __vsnprintf 300 (write_bytes (mem_of 0 (replicate 8 255)) 16 [37; 42; 53; 112; 0]) 0 8 16 [1; 1] = Fault.
Proof. by vm_compute. Qed.

(** ** What the printers emit

    [emits s l s']: the text [l] was printed from [s] to [s'], cut at the end
    of the buffer; the virtual length counts all of it. *)
Definition free (s : pstate) : nat := Z.to_nat (dst_end s.2 - dst s.2).

Definition emits (s : pstate) (l : list Z) (s' : pstate) : Prop :=
  s'.1 = write_bytes s.1 (dst s.2) (take (free s) l) ∧
  dst s'.2 = dst s.2 + Z.of_nat (length (take (free s) l)) ∧
  dst_virt s'.2 = dst_virt s.2 + Z.of_nat (length l) ∧
  dst_end s'.2 = dst_end s.2 ∧ fmt s'.2 = fmt s.2.

(** The output buffer is mapped and of a size an int can count. *)
Definition room (s : pstate) : Prop :=
  0 ≤ dst_end s.2 - dst s.2 < 2 ^ 31 ∧ mapped s.1 (dst s.2) (dst_end s.2 - dst s.2).

Lemma emits_room s l s' : emits s l s' → room s → room s'.
Proof.
  intros (Em & Ed & _ & Ee & _) [Hr Hm]. unfold room. rewrite Ed, Ee, Em, length_take. unfold free.
  split; [lia|]. apply write_bytes_mapped. intros q Hq. apply Hm. lia.
Qed.

Lemma emits_nil s : emits s [] s.
Proof. unfold emits. rewrite take_nil. simpl. split_and!; (done || lia). Qed.

Lemma emits_app s l1 s1 l2 s2 : emits s l1 s1 → emits s1 l2 s2 → emits s (l1 ++ l2) s2.
Proof.
  intros (Em & Ed & Ev & Ee & Ef) (Em' & Ed' & Ev' & Ee' & Ef').
  assert (take (free s1) l2 = take (free s - length l1) l2 ∨ l2 = []) as Ht.
  { left. unfold free at 1. rewrite Ee, Ed, length_take. f_equal. unfold free. lia. }
  destruct Ht as [Ht| ->].
  - unfold emits. rewrite Em', Ed', Ev', Ee', Ef', Ht, Em, Ed, Ev, Ee, Ef.
    rewrite take_app, write_bytes_app, !length_app, !length_take. split_and!; (done || lia).
  - rewrite app_nil_r. unfold emits. rewrite Em', Ed', Ev', Ee', Ef', take_nil. simpl.
    rewrite Em, Ed, Ev, Ee, Ef. split_and!; (done || lia).
Qed.

Lemma emits_arg m c v l s' : emits (m, set_arg c v) l s' ↔ emits (m, c) l s'.
Proof. done. Qed.

Lemma append_c_emits s ch : room s → 0 ≤ ch < 2 ^ 8 →
  ∃ s', DST_APPEND_C s ch = Ret s' ∧ emits s [ch] s' ∧ s'.2 = set_dst s.2 (dst s'.2) (dst_virt s'.2).
Proof.
  intros [Hr Hm] Hch. destruct s as [m c]. unfold DST_APPEND_C, emits, free. simpl in *.
  destruct (Z.ltb_spec (dst c) (dst_end c)).
  - rewrite store8_returns by (apply Hm; lia). rewrite bind_ret. eexists. split; [done|]. simpl.
    destruct (Z.to_nat (dst_end c - dst c)) eqn:E; [lia|]. simpl. rewrite take_nil. simpl.
    rewrite u8_id by done. split_and!; (done || lia).
  - eexists. split; [done|]. simpl. replace (Z.to_nat (dst_end c - dst c)) with 0%nat by lia. simpl.
    split_and!; (done || lia).
Qed.

Lemma memset_emits fuel s v n : room s → (Z.of_nat n < 2 ^ 31) → (n < fuel)%nat →
  ∃ s', DST_MEMSET fuel s v (Z.of_nat n) = Ret s' ∧ emits s (replicate n (u8 v)) s' ∧
    s'.2 = set_dst s.2 (dst s'.2) (dst_virt s'.2).
Proof.
  intros [Hr Hm] Hn Hf. destruct s as [m c]. unfold DST_MEMSET, DST_FREE_BYTES, emits, free.
  cbn [fst snd] in *. rewrite c_min_spec, s32_id, u64_id by lia.
  set (k := (n `min` Z.to_nat (dst_end c - dst c))%nat).
  replace (Z.of_nat n `min` (dst_end c - dst c)) with (Z.of_nat k) by lia.
  rewrite memset_ok; [|intros q Hq; apply Hm; lia|lia]. rewrite bind_ret. eexists. split; [done|].
  cbn [fst snd dst dst_virt dst_end fmt set_dst].
  rewrite take_replicate, !length_replicate, Nat.min_comm. split_and!; done.
Qed.

(** The decimal digits of a number, most significant first. *)
Fixpoint digits (k : nat) (v : Z) : list Z :=
  match k with O => [] | S k => v / 10 ^ Z.of_nat k :: digits k (v mod 10 ^ Z.of_nat k) end.

Lemma length_digits k v : length (digits k v) = k.
Proof. revert v; induction k as [|k IH]; intros v; simpl; [done|]. by rewrite IH. Qed.

Lemma digits_ok k v : 0 ≤ v < 10 ^ Z.of_nat k → is_digits (digits k v) ∧ dec_val (digits k v) = v.
Proof.
  revert v; induction k as [|k IH]; intros v Hv.
  { simpl in *. split; [constructor|]. unfold dec_val. simpl. lia. }
  rewrite Nat2Z.inj_succ, Z.pow_succ_r in Hv by lia. assert (0 < 10 ^ Z.of_nat k) by lia.
  destruct (IH (v mod 10 ^ Z.of_nat k)) as [IH1 IH2]; [by apply Z.mod_pos_bound|].
  cbn [digits]. split.
  - constructor; [|done]. split; [apply Z.div_pos; lia|].
    enough (v / 10 ^ Z.of_nat k < 10) by lia. apply Z.div_lt_upper_bound; lia.
  - change (v / 10 ^ Z.of_nat k :: ?l) with ([v / 10 ^ Z.of_nat k] ++ l).
    rewrite dec_val_app, IH2, length_digits. unfold dec_val. cbn [foldl].
    rewrite (Z.div_mod v (10 ^ Z.of_nat k)) at 3 by lia. lia.
Qed.

(** The number of decimal digits of a value, for which the kernel's count is right. *)
Definition has_digits (val w : Z) : Prop := 1 ≤ w ∧ 0 ≤ val < 10 ^ w ∧ (w = 1 ∨ 10 ^ (w - 1) ≤ val).

Lemma closest_div_ok fuel val : 0 ≤ val < 10 ^ 19 → (20 < fuel)%nat →
  ∃ w, closest_round_base10_div fuel val = Ret w ∧ w ≤ 19 ∧ has_digits val w.
Proof.
  intros Hval Hf. unfold closest_round_base10_div.
  assert (∀ n k, 1 ≤ k ≤ 19 → (19 - Z.to_nat k < n)%nat → (k = 1 ∨ 10 ^ (k - 1) ≤ val) →
    ∃ w, loop n (λ '(divider, wordlen),
      if divider =? 0 then Fault else
      if truth (val / divider) then Ret (inl (u64 (divider * 10), wordlen + 1))
      else Ret (inr wordlen)) (10 ^ k, k) = Ret w ∧ w ≤ 19 ∧ has_digits val w) as H.
  { induction n as [|n IH]; intros k Hk Hn Hlow; [lia|]. cbn [loop].
    assert (0 < 10 ^ k) by (apply Z.pow_pos_nonneg; lia).
    destruct (Z.eqb_spec (10 ^ k) 0); [lia|]. unfold truth.
    destruct (Z.eqb_spec (val / 10 ^ k) 0) as [E|E]; cbn [negb].
    - rewrite bind_ret. exists k. split; [done|]. split; [lia|]. split; [lia|].
      apply Z.div_small_iff in E; [|lia]. split; [lia|done].
    - rewrite bind_ret. assert (10 ^ k ≤ val).
      { destruct (Z_lt_le_dec val (10 ^ k)); [|done]. by rewrite Z.div_small in E by lia. }
      assert (k < 19). { destruct (Z.eq_dec k 19) as [->|]; lia. }
      replace (u64 (10 ^ k * 10)) with (10 ^ (k + 1)).
      + apply IH; [lia|lia|]. right. by replace (k + 1 - 1) with k by lia.
      + rewrite Z.pow_add_r by lia. change (10 ^ 1) with 10. symmetry. apply u64_id.
        assert (10 ^ k ≤ 10 ^ 18) by (apply Z.pow_le_mono_r; lia). lia. }
  apply (H fuel 1); [lia|lia|by left].
Qed.

Lemma decimal_table_get i : 0 ≤ i < 20 → decimal_table i = Ret (10 ^ i).
Proof.
  intros Hi. pose proof (decimal_table_ok i) as H. unfold decimal_table in *.
  destruct (Z.leb_spec 0 i); [|lia].
  destruct (lookup_lt_is_Some_2 __decimal_table (Z.to_nat i)) as [d Hd]; [simpl; lia|].
  rewrite Hd in *. simpl in *. by destruct H as [_ ->].
Qed.

Lemma pow10_pos k : 0 < 10 ^ Z.of_nat k.
Proof. apply Z.pow_pos_nonneg; lia. Qed.

Lemma digit_div k v : 0 ≤ v < 10 ^ Z.of_nat (S k) → 0 ≤ v / 10 ^ Z.of_nat k ≤ 9.
Proof.
  intros Hv. rewrite Nat2Z.inj_succ, Z.pow_succ_r in Hv by lia. pose proof (pow10_pos k).
  split; [apply Z.div_pos; lia|].
  enough (v / 10 ^ Z.of_nat k < 10) by lia. apply Z.div_lt_upper_bound; lia.
Qed.

Lemma pow10_18 k : (k ≤ 18)%nat → 10 ^ Z.of_nat k ≤ 10 ^ 18.
Proof. intros. apply Z.pow_le_mono_r; lia. Qed.

(** The divider that prints the last [k] digits. *)
Definition divider_at (k : nat) : Z := match k with O => 0 | S k => 10 ^ Z.of_nat k end.

Lemma divider_next k : divider_at (S k) / 10 = divider_at k.
Proof.
  destruct k as [|k]; [done|]. cbn [divider_at]. rewrite Nat2Z.inj_succ, Z.pow_succ_r, Z.mul_comm by lia.
  by apply Z.div_mul.
Qed.

Lemma digits_loop k fuel s : room s → 0 ≤ arg s.2 < 10 ^ Z.of_nat k → arg s.2 < 2 ^ 63 →
  (k ≤ 19)%nat → (k < fuel)%nat →
  ∃ s', loop fuel (λ '(s, divider),
    if truth divider then
      let tmp := to_char_8_10 (s32 (DIV_LLD (arg s.2) divider)) 10 in
      s ← DST_APPEND_C s (u8 tmp);
      Ret (inl ((s.1, set_arg s.2 (arg s.2 mod divider)), divider / 10))
    else Ret (inr s)) (s, divider_at k) = Ret s' ∧ emits s (digit_chars (digits k (arg s.2))) s'.
Proof.
  revert fuel s; induction k as [|k IH]; intros [|fuel] s Hr Hv H63 Hk Hf; try lia; cbn [loop].
  - exists s. split; [done|]. apply emits_nil.
  - pose proof (pow10_pos k). pose proof (pow10_18 k ltac:(lia)). pose proof (digit_div k _ Hv) as Hd.
    rewrite (truth_nonzero (divider_at (S k))) by done. cbv zeta.
    assert (u8 (to_char_8_10 (s32 (DIV_LLD (arg s.2) (divider_at (S k)))) 10) = arg s.2 / 10 ^ Z.of_nat k + 48) as ->.
    { unfold DIV_LLD. cbn [divider_at]. rewrite (s64_id (arg s.2)), (s64_id (10 ^ _)) by lia.
      rewrite Z.quot_div_nonneg by lia. rewrite s64_id, s32_id by lia. unfold to_char_8_10.
      destruct (Z.leb_spec 10 (arg s.2 / 10 ^ Z.of_nat k)); [lia|]. by rewrite u8_id by lia. }
    destruct (append_c_emits s (arg s.2 / 10 ^ Z.of_nat k + 48)) as (s1 & E & He & Hs1); [done|lia|].
    rewrite E, !bind_ret, divider_next. assert (arg s1.2 = arg s.2) as Ha by (by rewrite Hs1).
    rewrite Ha. pose proof (Z.mod_pos_bound (arg s.2) (10 ^ Z.of_nat k) ltac:(lia)).
    destruct (IH fuel (s1.1, set_arg s1.2 (arg s.2 mod 10 ^ Z.of_nat k))) as (s' & E' & He'); simpl; try lia.
    { destruct s1. eapply emits_room; [|exact Hr]. exact He. }
    cbn [divider_at]. exists s'. split; [exact E'|]. simpl in He'.
    refine (emits_app s [_] s1 (digit_chars (digits k (arg s.2 mod _))) s' He _). destruct s1. exact He'.
Qed.

Lemma number_10_div_emits fuel s w : room s → has_digits (arg s.2) w → w ≤ 19 → arg s.2 < 2 ^ 63 →
  (20 < fuel)%nat →
  ∃ s', __print_fn_number_10_div fuel s w = Ret s' ∧ emits s (digit_chars (digits (Z.to_nat w) (arg s.2))) s'.
Proof.
  intros Hr (Hw & Hv & _) H19 H63 Hf. unfold __print_fn_number_10_div.
  rewrite decimal_table_get, bind_ret by lia.
  replace (10 ^ (w - 1)) with (divider_at (Z.to_nat w)).
  - apply digits_loop; [done| |lia..]. by rewrite Z2Nat.id by lia.
  - destruct (Z.to_nat w) as [|k] eqn:E; [lia|]. cbn [divider_at]. f_equal. lia.
Qed.

(** The text of a decimal number: sign, digits, and padding to the width. *)
Definition num_digits (v : Z) : Z :=
  match closest_round_base10_div 70 v with Ret w => w | _ => 0 end.

Definition dec_chars (v : Z) : list Z := digit_chars (digits (Z.to_nat (num_digits v)) v).

Definition dec_text (zero : bool) (width v : Z) : list Z :=
  let sign := if v <? 0 then [45] else [] in
  let ds := dec_chars (Z.abs v) in
  let pad := Z.to_nat (width - Z.of_nat (length (sign ++ ds))) in
  if zero then sign ++ replicate pad 48 ++ ds else replicate pad 32 ++ sign ++ ds.

Lemma num_digits_ok v : 0 ≤ v < 10 ^ 19 → has_digits v (num_digits v) ∧ num_digits v ≤ 19.
Proof.
  intros Hv. destruct (closest_div_ok 70 v Hv ltac:(lia)) as (w & E & ? & ?).
  unfold num_digits. by rewrite E.
Qed.

Lemma closest_div_num fuel v : 0 ≤ v < 10 ^ 19 → (20 < fuel)%nat →
  closest_round_base10_div fuel v = Ret (num_digits v).
Proof.
  intros Hv Hf. destruct (closest_div_ok 21 v Hv ltac:(lia)) as (w & E & _).
  unfold num_digits. unfold closest_round_base10_div in *.
  rewrite (loop_mono _ 21 70 _ w E) by lia. exact (loop_mono _ 21 fuel _ w E ltac:(lia)).
Qed.

Lemma dec_chars_length v : 0 ≤ v < 10 ^ 19 → Z.of_nat (length (dec_chars v)) = num_digits v.
Proof.
  intros Hv. destruct (num_digits_ok v Hv) as [[? _] _].
  unfold dec_chars, digit_chars. rewrite length_map, length_digits. lia.
Qed.

(** The padded print of a magnitude with its sign, without precision or the
    plus and space flags. *)
Lemma number_10_emits fuel m c neg v : room (m, c) → arg c = Z.abs v → Z.abs v < 2 ^ 63 →
  neg = (if v <? 0 then 1 else 0) → flag_plus c = 0 → flag_space c = 0 → precision c = -1 →
  - 1 ≤ width c < 2 ^ 31 → (Z.to_nat (width c) + 21 < fuel)%nat →
  ∃ s', (sp ← __print_fn_prep_spec fuel c neg; __print_fn_number_10 fuel (m, c) sp) = Ret s' ∧
    emits (m, c) (dec_text (truth (flag_zero c)) (width c) v) s'.
Proof.
  intros Hr Ha Hv Hneg Hp Hs Hprec Hw Hf.
  assert (0 ≤ Z.abs v < 10 ^ 19) as H19 by lia.
  destruct (num_digits_ok _ H19) as [Hd Hn19]. pose proof Hd as (Hn1 & _ & _).
  pose proof (dec_chars_length _ H19) as Hlen. set (n := num_digits (Z.abs v)) in *.
  unfold __print_fn_prep_spec. rewrite Ha, closest_div_num by (done || lia). fold n.
  rewrite bind_ret, Hp, Hs, Hprec, !Z.lor_0_r. change (-1 =? -1) with true. rewrite andb_true_r.
  rewrite !c_max_spec. change (-1 `max` 0) with 0.
  assert (neg = 0 ∨ neg = 1) as Hneg01 by (rewrite Hneg; destruct (v <? 0); auto).
  rewrite !(s32_id (n + neg)), !(s32_id (width c - _)), !(s32_id (0 - _)) by lia.
  replace ((0 - (n + neg)) `max` 0) with 0 by lia.
  set (pad := (width c - (n + neg)) `max` 0). rewrite (s32_id (pad - 0)) by lia. cbv zeta. rewrite bind_ret.
  replace ((pad - 0) `max` 0) with pad by lia.
  assert (Z.to_nat (width c - Z.of_nat (length ((if v <? 0 then [45] else []) ++ dec_chars (Z.abs v))))
          = Z.to_nat pad) as Hpad.
  { rewrite length_app, Nat2Z.inj_add, Hlen. destruct (v <? 0); simpl; lia. }
  unfold dec_text. cbv zeta. rewrite Hpad. set (zero := truth (flag_zero c)).
  unfold __print_fn_number_10. cbn [space_padding padding is_neg_sign wordlen].
  set (sp := if zero then 0 else pad).
  destruct (memset_emits fuel (m, c) 32 (Z.to_nat sp)) as (s1 & E1 & He1 & Hs1);
    [done|unfold sp; destruct zero; lia|unfold sp; destruct zero; lia|].
  replace (Z.of_nat (Z.to_nat sp)) with sp in E1 by (unfold sp; destruct zero; lia).
  rewrite E1, bind_ret. pose proof (emits_room _ _ _ He1 Hr) as Hr1.
  (* the sign *)
  assert (∃ s2, (if truth neg then s ← DST_APPEND_C s1 45; Ret (s, n + neg - 1)
       else if truth (flag_plus s1.2) then s ← DST_APPEND_C s1 43; Ret (s, n + neg - 1)
       else if truth (flag_space s1.2) then s ← DST_APPEND_C s1 32; Ret (s, n + neg - 1)
       else Ret (s1, n + neg)) = Ret (s2, n) ∧ emits s1 (if v <? 0 then [45] else []) s2 ∧
       arg s2.2 = Z.abs v) as (s2 & E2 & He2 & Ha2).
  { rewrite Hs1. cbn [flag_plus flag_space set_dst snd]. rewrite Hp, Hs, Hneg.
    destruct (v <? 0); cbn [truth Z.eqb negb].
    - destruct (append_c_emits s1 45) as (s2 & E2 & He2 & Hs2); [done|lia|].
      exists s2. rewrite E2, bind_ret. replace (n + 1 - 1) with n by lia.
      rewrite Hs2, Hs1. done.
    - exists s1. rewrite Z.add_0_r. split; [done|]. split; [apply emits_nil|]. by rewrite Hs1. }
  rewrite E2, bind_ret. pose proof (emits_room _ _ _ He2 Hr1) as Hr2.
  assert (s32 (pad - sp) = Z.of_nat (Z.to_nat (pad - sp))) as ->.
  { rewrite s32_id; unfold sp; destruct zero; lia. }
  destruct (memset_emits fuel s2 48 (Z.to_nat (pad - sp))) as (s3 & E3 & He3 & Hs3);
    [done|unfold sp; destruct zero; lia|unfold sp; destruct zero; lia|].
  rewrite E3, bind_ret. assert (arg s3.2 = Z.abs v) as Ha3 by (rewrite Hs3; done).
  destruct (number_10_div_emits fuel s3 n) as (s4 & E4 & He4);
    [by eapply emits_room|by rewrite Ha3|lia|lia|lia|].
  exists s4. split; [exact E4|]. rewrite Ha3 in He4. fold n in He4.
  pose proof (emits_app _ _ _ _ _ (emits_app _ _ _ _ _ (emits_app _ _ _ _ _ He1 He2) He3) He4) as He.
  unfold dec_chars. fold n. unfold sp in He. destruct zero.
  - rewrite Z.sub_0_r in He. simpl in He. rewrite <- app_assoc in He. exact He.
  - rewrite Z.sub_diag in He. simpl in He. rewrite app_nil_r, <- app_assoc in He. exact He.
Qed.

Lemma number_10_emits_arg fuel m c a neg v : room (m, c) → a = Z.abs v → Z.abs v < 2 ^ 63 →
  neg = (if v <? 0 then 1 else 0) → flag_plus c = 0 → flag_space c = 0 → precision c = -1 →
  - 1 ≤ width c < 2 ^ 31 → (Z.to_nat (width c) + 21 < fuel)%nat →
  ∃ s', (sp ← __print_fn_prep_spec fuel (set_arg c a) neg;
         __print_fn_number_10 fuel (m, set_arg c a) sp) = Ret s' ∧
    emits (m, c) (dec_text (truth (flag_zero c)) (width c) v) s'.
Proof.
  intros. destruct (number_10_emits fuel m (set_arg c a) neg v) as (s' & E & He); try done.
  exists s'. split; [exact E|]. by rewrite emits_arg in He.
Qed.

Lemma set_arg_twice c a b : set_arg (set_arg c a) b = set_arg c b.
Proof. done. Qed.

Lemma truth_land_pow2 x k : 0 ≤ k → truth (Z.land x (Z.shiftl 1 k)) = Z.testbit x k.
Proof.
  intros Hk. rewrite Z.shiftl_1_l. unfold truth. destruct (Z.testbit x k) eqn:E.
  - apply negb_true_iff, Z.eqb_neq. intros H0.
    assert (Z.testbit (Z.land x (2 ^ k)) k = true) as H1 by (by rewrite Z.land_spec, E, Z.pow2_bits_true).
    rewrite H0, Z.bits_0 in H1. done.
  - apply negb_false_iff, Z.eqb_eq. apply Z.bits_inj'. intros i Hi.
    rewrite Z.land_spec, Z.bits_0, testbit_pow2 by done. destruct (Z.eqb_spec i k) as [->|]; [by rewrite E|].
    apply andb_false_r.
Qed.

Lemma sign_bit x k : 0 ≤ k → 0 ≤ x < 2 ^ (k + 1) → Z.testbit x k = (2 ^ k <=? x).
Proof.
  intros Hk Hx. assert (0 < 2 ^ k) by (apply Z.pow_pos_nonneg; lia).
  rewrite Z.pow_add_r in Hx by lia. change (2 ^ 1) with 2 in Hx.
  rewrite Z.testbit_eqb by lia. destruct (Z.leb_spec (2 ^ k) x).
  - replace (x / 2 ^ k) with 1; [done|]. apply Z.div_unique with (x - 2 ^ k); lia.
  - by rewrite Z.div_small by lia.
Qed.

(** The magnitude and the sign the printer computes from the argument. *)
Lemma arg_magnitude w a : 1 ≤ w ≤ 64 →
  let x := a mod 2 ^ w in
  let v := (a + 2 ^ (w - 1)) mod 2 ^ w - 2 ^ (w - 1) in
  v ≠ - 2 ^ (w - 1) →
  (2 ^ (w - 1) <=? x) = (v <? 0) ∧
  (if v <? 0 then (u64 (u64 (Z.lnot x) + 1)) mod 2 ^ w else x) = Z.abs v.
Proof.
  intros Hw x v Hv. assert (0 < 2 ^ (w - 1)) by (apply Z.pow_pos_nonneg; lia).
  assert (2 ^ w = 2 * 2 ^ (w - 1)) as E.
  { rewrite <- Z.pow_succ_r by lia. f_equal. lia. }
  pose proof (Z.mod_pos_bound a (2 ^ w) ltac:(lia)) as Hx. fold x in Hx.
  assert (v = if 2 ^ (w - 1) <=? x then x - 2 ^ w else x) as Hvx.
  { unfold v. rewrite <- Zplus_mod_idemp_l. fold x. destruct (Z.leb_spec (2 ^ (w - 1)) x).
    - rewrite <- (Z.mod_add _ (-1)) by lia. rewrite Z.mod_small; lia.
    - rewrite Z.mod_small; lia. }
  rewrite Hvx in Hv. rewrite Hvx. clear Hvx. clearbody x. destruct (Z.leb_spec (2 ^ (w - 1)) x).
  - destruct (Z.ltb_spec (x - 2 ^ w) 0); [|lia]. split; [done|].
    assert (2 ^ 64 = 2 ^ (64 - w) * 2 ^ w) as E64 by (rewrite <- Z.pow_add_r by lia; f_equal; lia).
    assert (0 < 2 ^ (64 - w)) by (apply Z.pow_pos_nonneg; lia).
    replace (Z.lnot x) with (- x - 1) by (unfold Z.lnot; lia).
    unfold u64. rewrite Zplus_mod_idemp_l. replace (- x - 1 + 1) with (- x) by lia.
    rewrite <- (Z.mod_add (- x) 1 (2 ^ 64)) by lia. rewrite (Z.mod_small (- x + 1 * 2 ^ 64)) by nia.
    rewrite E64. replace (- x + 1 * (2 ^ (64 - w) * 2 ^ w)) with ((2 ^ w - x) + (2 ^ (64 - w) - 1) * 2 ^ w) by lia.
    rewrite Z.mod_add, Z.mod_small; lia.
  - destruct (Z.ltb_spec x 0); [lia|]. split; [done|lia].
Qed.

(** The argument as the conversion's C type. *)
Definition int_arg (c : printf_ctx) (v : Z) : Prop :=
  (size c = FMT_SIZE_NO ∧ v = s32 (arg c)) ∨
  ((size c = FMT_SIZE_LONG ∨ size c = FMT_SIZE_LLONG) ∧ v = s64 (arg c) ∧ v ≠ - 2 ^ 63).

Lemma pm_pow : (2 ^ 31 = 0x80000000) ∧ (2 ^ 32 - 1 = 0xffffffff).
Proof. done. Qed.

(** [%d] prints a signed number of any of its sizes as its decimal text:
    the exact digits without leading zeros, the minus sign, and blanks or
    zeros up to the width; the text is cut at the end of the buffer and fully
    counted. *)
Theorem number_10_d_text fuel m c v : room (m, c) → int_arg c v →
  flag_plus c = 0 → flag_space c = 0 → precision c = -1 → - 1 ≤ width c < 2 ^ 31 →
  (Z.to_nat (width c) + 21 < fuel)%nat →
  ∃ s', __print_fn_number_10_d fuel (m, c) = Ret s' ∧
    emits (m, c) (dec_text (truth (flag_zero c)) (width c) v) s'.
Proof.
  intros Hr Hv Hp Hs Hprec Hw Hf. unfold __print_fn_number_10_d.
  destruct Hv as [[Hsz Hv]|(Hsz & Hv & Hmin)].
  - rewrite Hsz. change (truth (Z.land FMT_SIZE_NO _)) with false. cbv zeta iota.
    change (31 =? 31) with true. cbv iota. rewrite !set_arg_twice. cbn [arg set_arg].
    rewrite !(truth_land_pow2 _ 31) by lia. change 0xffffffff with (Z.ones 32). rewrite !Z.land_ones by lia.
    rewrite sign_bit by (try lia; by apply Z.mod_pos_bound).
    destruct (Z.eq_dec v (- 2 ^ 31)) as [Hm31|Hm31].
    + (* the most negative int: its magnitude fits the 64-bit argument *)
      assert (arg c mod 2 ^ 32 = 2 ^ 31) as ->.
      { unfold s32 in Hv. pose proof (Z.mod_pos_bound (arg c) (2 ^ 32)). dlia. }
      change (2 ^ 31 <=? 2 ^ 31) with true. cbv iota.
      change (u64 (u64 (Z.lnot (2 ^ 31)) + 1) mod 2 ^ 32) with (2 ^ 31).
      apply (number_10_emits_arg fuel m c (2 ^ 31) 1 v); rewrite ?Hm31; done.
    + pose proof (arg_magnitude 32 (arg c) ltac:(lia)) as HM. cbv zeta in HM.
      change (32 - 1) with 31 in HM. fold (s32 (arg c)) in HM. rewrite <- Hv in HM.
      destruct (HM Hm31) as [-> Hmag]. pose proof (s32_range (arg c)).
      destruct (Z.ltb_spec v 0) as [Hn|Hn].
      * apply (number_10_emits_arg fuel m c _ 1 v); try done; [lia|]. by destruct (Z.ltb_spec v 0); [|lia].
      * apply (number_10_emits_arg fuel m c _ 0 v); try done; [lia|]. by destruct (Z.ltb_spec v 0); [lia|].
  - assert (truth (Z.land (size c) (Z.lor (Z.lor FMT_SIZE_LLONG FMT_SIZE_LONG) FMT_SIZE_INT64)) = true) as ->
      by (by destruct Hsz as [-> | ->]).
    cbv zeta iota. change (63 =? 31) with false. cbv iota. rewrite !set_arg_twice. cbn [arg set_arg].
    rewrite !(truth_land_pow2 _ 63) by lia. change 0xffffffffffffffff with (Z.ones 64). rewrite !Z.land_ones by lia.
    rewrite sign_bit by (try lia; by apply Z.mod_pos_bound).
    pose proof (arg_magnitude 64 (arg c) ltac:(lia)) as HM. cbv zeta in HM.
    change (64 - 1) with 63 in HM. fold (s64 (arg c)) in HM. rewrite <- Hv in HM.
    destruct (HM Hmin) as [-> Hmag]. assert (- 2 ^ 63 ≤ v < 2 ^ 63).
    { rewrite Hv. unfold s64. pose proof (Z.mod_pos_bound (arg c + 2 ^ 63) (2 ^ 64)). lia. }
    destruct (Z.ltb_spec v 0) as [Hn|Hn].
    + apply (number_10_emits_arg fuel m c _ 1 v); try done; [lia|]. by destruct (Z.ltb_spec v 0); [|lia].
    + apply (number_10_emits_arg fuel m c _ 0 v); try done; [lia|]. by destruct (Z.ltb_spec v 0); [lia|].
Qed.

(** Witness: [-42] in a field of 6 with zero padding, size [l]. *)
Lemma number_10_d_text_witness :
  ∃ s', __print_fn_number_10_d 30
      (mem_of 0 (replicate 8 255), PrintfCtx 50 0 0 8 0 0 1 0 0 6 (-1) FMT_SIZE_LONG 100 (u64 (-42))) = Ret s' ∧
    emits (mem_of 0 (replicate 8 255), PrintfCtx 50 0 0 8 0 0 1 0 0 6 (-1) FMT_SIZE_LONG 100 (u64 (-42)))
      [45; 48; 48; 48; 52; 50] s'.
Proof.
  apply (number_10_d_text 30 (mem_of 0 (replicate 8 255))
    (PrintfCtx 50 0 0 8 0 0 1 0 0 6 (-1) FMT_SIZE_LONG 100 (u64 (-42))) (-42)); try done.
  - split; [done|]. apply (bytes_at_mapped _ _ (replicate 8 255)), mem_of_bytes.
  - right. split; [by left|]. split; [done|]. simpl. lia.
  - simpl. lia.
Defined.

(** ** Printing and reading back *)
Lemma memcpy_0 fuel m dst src : (0 < fuel)%nat → memcpy fuel m dst src 0 = Ret m.
Proof.
  intros Hf. assert (∀ w, cpy_loop fuel w m dst src 0 0 = Ret m) as H by (intros w; by destruct fuel; [lia|]).
  unfold memcpy, memcpy_8aligned. change (u32 (0 / 4 * 4)) with 0. change (u32 (0 / 8 * 8)) with 0.
  change (0 / 8 * 8 / 8) with 0. change (0 / 4) with 0. change (truth (Z.rem (0 / 8 * 8) 8)) with false.
  destruct (negb (IS_ALIGNED dst 8) || negb (IS_ALIGNED src 8)); cbn [orb BUG].
  - destruct (_ || _); [by rewrite H|]. by rewrite !H, bind_ret, H.
  - by rewrite bind_ret, !H, bind_ret, H.
Qed.

Lemma find_special_here fuel m p end_ c : m !! p = Some 37 → m !! (p + 1) = Some c → c ≠ 37 →
  p < end_ → (0 < fuel)%nat → __find_special_or_null fuel m p end_ = Ret p.
Proof.
  intros H0 H1 Hc He Hf. destruct fuel as [|fuel]; [lia|].
  unfold __find_special_or_null, __mem_find_any_byte_of_2. cbn [loop].
  destruct (Z.ltb_spec p end_); [|lia]. rewrite (load8_at _ _ _ H0), bind_ret.
  change ((37 =? _) || (37 =? _)) with true. cbv iota. rewrite !bind_ret, (load8_at _ _ _ H0), bind_ret.
  change (truth 37) with true. cbv iota. rewrite (load8_at _ _ _ H1), bind_ret.
  destruct (Z.eqb_spec c 37); [done|]. done.
Qed.

Lemma s32_u64 z : s32 (u64 z) = s32 z.
Proof.
  unfold s32, u64. rewrite <- Zplus_mod_idemp_l, Z.mod_mod_divide, Zplus_mod_idemp_l; [done|].
  by exists (2 ^ 32).
Qed.

(** The handlers on the conversion character d alone. *)
Lemma flag_none set m c : fmt_handle_flag set m (c, 100) = Ret (set c 0, 100).
Proof. done. Qed.

Lemma star_none set fuel m c args : fmt_handle_star_or_digit set fuel m (c, 100, args) = Ret (set c (-1), 100, args).
Proof. done. Qed.

Lemma size_none m c : m !! (fmt c - 1 + 1) = Some 100 →
  fmt_handle_size m (c, 100) = Ret (set_fmt (set_size c FMT_SIZE_NO) (fmt c - 1 + 1), 100).
Proof.
  intros H. unfold fmt_handle_size. change (100 =? 99) with false. change (100 =? 108) with false.
  change (100 =? 104) with false. change (100 =? 106) with false. change (100 =? 122) with false.
  change (100 =? 116) with false. change (100 =? 76) with false. cbv iota zeta. unfold fmt_fetch_special.
  cbn [fmt set_fmt set_size]. by rewrite (load8_at _ _ _ H), !bind_ret.
Qed.

(** The scanner on ["%d"]. *)
Lemma parse_token_d fuel m c a args : bytes_at m (fmt c) [37; 100] → dst c ≤ dst_end c → (0 < fuel)%nat →
  ∃ c', fmt_parse_token fuel (m, c) (a :: args) = Ret (false, (m, c'), args) ∧
    same_dst c c' ∧ dst_virt c' = dst_virt c ∧ fmt c' = fmt c + 2 ∧ flag_plus c' = 0 ∧ flag_space c' = 0 ∧
    flag_zero c' = 0 ∧ width c' = -1 ∧ precision c' = -1 ∧ size c' = FMT_SIZE_NO ∧ type c' = 100 ∧
    arg c' = u64 (s32 a).
Proof.
  intros Hb He Hf. apply bytes_at_cons in Hb as [H0 [H1 _]%bytes_at_cons].
  unfold fmt_parse_token, fmt_skip_to_special. cbn [fst snd].
  rewrite (find_special_here fuel m _ _ 100) by (done || lia). rewrite bind_ret, Z.sub_diag.
  unfold DST_MEMCPY, DST_FREE_BYTES. rewrite c_min_spec, Z.min_l by lia.
  change (s32 0) with 0. change (u64 0) with 0. rewrite memcpy_0, !bind_ret by done. cbn [fst snd].
  rewrite (load8_at _ _ _ H0), bind_ret. change (37 =? 37) with true. cbv iota. unfold fmt_fetch_special.
  cbn [fmt set_fmt set_dst]. rewrite (load8_at _ _ _ H1), !bind_ret. change (negb (truth 100)) with false. cbv iota zeta.
  rewrite !flag_none, !bind_ret. repeat (rewrite flag_none, bind_ret).
  rewrite star_none, bind_ret, star_none, bind_ret.
  erewrite size_none; [|cbn; replace (fmt c + 1 - 1 + 1) with (fmt c + 1) by lia; exact H1]. rewrite bind_ret.
  unfold arg_fetch. cbn [size]. change ((FMT_SIZE_NO =? _) || (FMT_SIZE_NO =? _) || (FMT_SIZE_NO =? _)) with false. cbv iota.
  cbn [va_int]. rewrite !bind_ret. eexists. split; [reflexivity|]. cbn.
  split_and!; try done; try lia. split; cbn; lia.
Qed.

Lemma dec_chars_bytes v : 0 ≤ v < 10 ^ 19 → Forall (λ b, 0 < b < 2 ^ 8) (dec_chars v).
Proof.
  intros Hv. destruct (num_digits_ok v Hv) as [(Hn & Hv' & _) _].
  destruct (digits_ok (Z.to_nat (num_digits v)) v) as [Hd _]; [by rewrite Z2Nat.id by lia|].
  unfold dec_chars, digit_chars. apply Forall_map. eapply Forall_impl; [exact Hd|]. simpl. lia.
Qed.

Lemma room_dst m m' c c' : room (m, c) → m' = m → same_dst c c' → room (m', c').
Proof. intros [H1 H2] -> [E1 E2]. unfold room in *. simpl in *. by rewrite E1, E2. Qed.

Lemma num_digits_bound v k : 0 ≤ v < 10 ^ k → k ≤ 19 → 1 ≤ k → num_digits v ≤ k.
Proof.
  intros Hv Hk H1. destruct (num_digits_ok v) as [(Hn & _ & Hlow) _].
  { assert (10 ^ k ≤ 10 ^ 19) by (apply Z.pow_le_mono_r; lia). lia. }
  destruct Hlow as [->|Hlow]; [lia|]. destruct (Z_lt_le_dec k (num_digits v)); [|done].
  assert (10 ^ k ≤ 10 ^ (num_digits v - 1)) by (apply Z.pow_le_mono_r; lia). lia.
Qed.

(** C40: printing an int with ["%d"] into a buffer of at least 12 bytes returns,
    and gives a NUL-terminated text that [strtoll] reads back, up to its end, as
    the same number; the returned length is that of the text, of 1 to 11
    characters, and no byte but those of the text and the NUL is written. *)
Theorem snprintf_d_strtoll fuel m d len f a :
  mapped m d len → 12 ≤ len < 2 ^ 31 → bytes_at m f [37; 100; 0] →
  (f + 3 ≤ d ∨ d + len ≤ f) → (100 < fuel)%nat →
  ∃ m' n, snprintf fuel m d len f [a] = Ret (m', n) ∧ 1 ≤ n < 12 ∧
    m' !! (d + n) = Some 0 ∧ strtoll fuel m' d 10 = Ret (s32 a, d + n) ∧ writes_in d (d + n + 1) m m'.
Proof.
  intros Hm Hlen Hb Hdis Hf. pose proof Hb as Hb3. apply (bytes_at_app m f [37; 100] [0]) in Hb as [Hb H0].
  apply bytes_at_cons in H0 as [H0 _]. pose proof Hb as Hb2. apply bytes_at_cons in Hb2 as [Hpc _].
  set (c := PrintfCtx f d d (d + len) 0 0 0 0 0 0 0 0 0 0). set (v := s32 a).
  pose proof (s32_range a) as Hv. fold v in Hv.
  destruct (parse_token_d fuel m c a []) as (c1 & E1 & Hsame & Hvirt & Hfmt & Hp & Hs & Hz & Hw & Hprec & Hsz & Hty & Ha);
    [done|simpl; lia|lia|].
  assert (room (m, c)) as Hroom.
  { split; simpl; [lia|]. by replace (d + len - d) with len by lia. }
  destruct (number_10_d_text fuel m c1 v) as ([m2 c2] & E2 & He); try done.
  { by eapply room_dst. }
  { left. split; [done|]. rewrite Ha, s32_u64, s32_id; [done|apply s32_range]. }
  { rewrite Hw. lia. }
  { rewrite Hw. simpl. lia. }
  rewrite Hz, Hw in He. change (truth 0) with false in He.
  set (sign := if v <? 0 then [45] else []). set (ds := dec_chars (Z.abs v)).
  assert (dec_text false (-1) v = sign ++ ds) as Ht.
  { unfold dec_text. cbv zeta. fold sign ds.
    replace (Z.to_nat (-1 - Z.of_nat (length (sign ++ ds)))) with 0%nat by lia. done. }
  rewrite Ht in He. clear Ht. pose proof (dec_chars_length (Z.abs v) ltac:(lia)) as Hds. fold ds in Hds.
  pose proof (num_digits_bound (Z.abs v) 10 ltac:(lia) ltac:(lia) ltac:(lia)).
  destruct (num_digits_ok (Z.abs v) ltac:(lia)) as [(Hn1 & Hvd & _) _].
  assert (Z.of_nat (length (sign ++ ds)) ≤ 11 ∧ 1 ≤ Z.of_nat (length (sign ++ ds))) as Hl.
  { rewrite length_app, Nat2Z.inj_add, Hds. unfold sign. destruct (v <? 0); simpl; lia. }
  set (text := sign ++ ds) in *. destruct He as (Em & Ed & Ev & Ee & Ef). cbn [fst snd] in *.
  destruct Hsame as [Sd Se]. unfold free in Em, Ed. cbn [fst snd] in *. rewrite Sd, Se in *. cbn [dst dst_end c] in *.
  replace (d + len - d) with len in * by lia.
  rewrite take_ge in Em, Ed by lia.
  assert (m2 !! (f + 2) = Some 0) as H02.
  { rewrite Em, write_bytes_lookup, decide_False; [exact H0|]. lia. }
  exists (<[d + Z.of_nat (length text) := 0]> m2), (Z.of_nat (length text)).
  split; [|split; [lia|split; [by rewrite lookup_insert_eq|split]]].
  - unfold snprintf, __vsnprintf. fold c. rewrite loop_step by lia. cbn [fst snd]. change (fmt c) with f at 1.
    rewrite (load8_at _ _ _ Hpc), !bind_ret. change (truth 37) with true. cbv iota.
    rewrite E1, !bind_ret. cbv iota. unfold fmt_print_type. cbn [fst snd]. rewrite Hty.
    change ((97 <=? Z.lor 100 32) && (Z.lor 100 32 <=? 120)) with true. cbv iota zeta.
    change (Z.lor 100 32) with 100. unfold __printf_fn_map. cbn [Z.eqb Pos.eqb orb]. rewrite E2, !bind_ret. rewrite loop_step by lia. cbn [fst snd].
    rewrite Ef, Hfmt. change (fmt c) with f. rewrite (load8_at _ _ _ H02), !bind_ret.
    change (truth 0) with false. cbv iota. rewrite !bind_ret. rewrite truth_nonzero by lia.
    rewrite Ed, Ee. destruct (Z.eqb_spec (d + Z.of_nat (length text)) (d + len)); [lia|].
    rewrite store8_returns; [|rewrite Em; apply (write_bytes_mapped _ _ _ _ _ Hm); lia].
    rewrite bind_ret. change (u8 0) with 0. f_equal. f_equal. rewrite Ev, Hvirt. change (dst_virt c) with d.
    rewrite s32_id; lia.
  - assert (bytes_at m2 d text) as Hbt by (rewrite Em; apply write_bytes_at).
    destruct (digits_ok (Z.to_nat (num_digits (Z.abs v))) (Z.abs v)) as [Hd1 Hd2]; [by rewrite Z2Nat.id by lia|].
    set (dl := digits _ _) in *.
    assert (Z.of_nat (length dl) = num_digits (Z.abs v)) as Hdl by (unfold dl; rewrite length_digits; lia).
    assert (Z.of_nat (length text) = (if v <? 0 then 1 else 0) + Z.of_nat (length dl)) as Htl.
    { unfold text. rewrite length_app, Nat2Z.inj_add, Hds, Hdl. unfold sign. destruct (v <? 0); simpl; lia. }
    rewrite Htl, Z.add_assoc.
    etransitivity; [apply (strtoll_decimal fuel _ d (v <? 0) dl 0); try done; try lia|].
    3:{ rewrite Hd2. f_equal. f_equal. destruct (Z.ltb_spec v 0); lia. }
    + intros E. rewrite E in Hdl. simpl in Hdl. lia.
    + change (digit_chars dl) with ds. rewrite app_assoc. fold sign text.
      apply bytes_at_app. split.
      * intros i b Hi. rewrite lookup_insert_ne by (apply lookup_lt_Some in Hi; lia). by apply Hbt.
      * apply bytes_at_cons. split; [|apply bytes_at_nil]. rewrite Htl, Z.add_assoc. apply lookup_insert_eq.
  - assert (mapped m d (Z.of_nat (length text))) as Hmt by (intros q Hq; apply Hm; lia).
    split; intros q; [|intros Hq].
    + destruct (decide (q = d + Z.of_nat (length text))) as [->|Hne].
      * rewrite lookup_insert_eq. split; intros _; [apply Hm; lia|by eexists].
      * rewrite lookup_insert_ne, Em, write_bytes_lookup by done. case_decide; [|done].
        split; intros _; [apply Hm; lia|apply lookup_lt_is_Some_2; lia].
    + rewrite lookup_insert_ne, Em, write_bytes_lookup, decide_False; [done|lia|lia].
Qed.

(** Witness: [-2147483648] into a buffer of 12 bytes. *)
Definition demo_mem2 : mem := write_bytes (mem_of 100 [37; 100; 0]) 0 (replicate 12 0).

Lemma snprintf_d_strtoll_witness :
  ∃ m' n, snprintf 200 demo_mem2 0 12 100 [-2147483648] = Ret (m', n) ∧ 1 ≤ n < 12 ∧
    m' !! (0 + n) = Some 0 ∧ strtoll 200 m' 0 10 = Ret (-2147483648, 0 + n) ∧ writes_in 0 (0 + n + 1) demo_mem2 m'.
Proof.
  apply (snprintf_d_strtoll 200 demo_mem2 0 12 100 (-2147483648)); [|lia| |lia|lia].
  - intros q Hq. apply (bytes_at_mapped demo_mem2 0 (replicate 12 0)); [apply write_bytes_at|].
    rewrite length_replicate. lia.
  - apply write_bytes_bytes_at; [apply mem_of_bytes|]. rewrite length_replicate. lia.
Defined.

(** ** The division-free variants *)

(** The search only sees how the value compares with the powers of ten. *)
Lemma nodiv_ext fuel val val' : (∀ i d, decimal_table i = Ret d → (d <=? val) = (d <=? val')) →
  closest_round_base10_nodiv fuel val = closest_round_base10_nodiv fuel val'.
Proof.
  intros Heq. unfold closest_round_base10_nodiv.
  match goal with |- (loop _ ?b1 ?s ≫= ?f) = (loop _ ?b2 _ ≫= ?g) =>
    assert (∀ n st, loop n b1 st = loop n b2 st) as Hl; [|assert (∀ p, f p = g p) as Hf] end.
  - induction n as [|n IH]; intros [base delta]; [done|]. cbn [loop].
    destruct (decimal_table (base + delta)) as [d| | |] eqn:E; try done.
    rewrite !bind_ret, (Heq _ _ E). destruct (negb _ || _); [|done]. rewrite !bind_ret. apply IH.
  - intros p. cbv beta. destruct (p =? 0); [done|].
    destruct (decimal_table p) as [d| | |] eqn:E; try done. rewrite !bind_ret, (Heq _ _ E).
    destruct (d <=? val'); [|done]. destruct (p <=? 20 - 2); [|done].
    destruct (decimal_table (p + 1)) as [d1| | |] eqn:E1; try done. by rewrite !bind_ret, (Heq _ _ E1).
  - rewrite Hl. destruct (loop _ _ _); try done. rewrite !bind_ret. apply Hf.
Qed.

Lemma pow10_leb i k val : 0 ≤ i → 1 ≤ k → 10 ^ (k - 1) ≤ val < 10 ^ k → (10 ^ i <=? val) = (10 ^ i <=? 10 ^ (k - 1)).
Proof.
  intros Hi Hk Hv. destruct (Z_lt_le_dec (k - 1) i).
  - assert (10 ^ k ≤ 10 ^ i) by (apply Z.pow_le_mono_r; lia).
    transitivity false; [apply Z.leb_gt; lia|symmetry; apply Z.leb_gt].
    assert (10 ^ (k - 1) < 10 ^ i) by (apply Z.pow_lt_mono_r; lia). lia.
  - assert (10 ^ i ≤ 10 ^ (k - 1)) by (apply Z.pow_le_mono_r; lia).
    transitivity true; [apply Z.leb_le; lia|symmetry; apply Z.leb_le; lia].
Qed.

Lemma nodiv_count val w : has_digits val w → val < 2 ^ 64 → closest_round_base10_nodiv 10 val = Ret (w - 1).
Proof.
  intros (Hw & Hv & Hlow) H64.
  assert (∀ i d, decimal_table i = Ret d → 0 ≤ i < 20 ∧ d = 10 ^ i) as Htab.
  { intros i d E. pose proof (decimal_table_ok i) as H. by rewrite E in H. }
  assert (w ≤ 20) as Hw20.
  { destruct Hlow as [->|Hlow]; [lia|]. destruct (Z_lt_le_dec 20 w); [|done].
    assert (10 ^ 20 ≤ 10 ^ (w - 1)) by (apply Z.pow_le_mono_r; lia). lia. }
  destruct (Z.eq_dec val 0) as [->|Hnz].
  { destruct Hlow as [->|Hlow]; [by vm_compute|]. assert (0 < 10 ^ (w - 1)) by (apply Z.pow_pos_nonneg; lia). lia. }
  rewrite (nodiv_ext 10 val (10 ^ (w - 1))).
  - assert (w = 1 + Z.of_nat (Z.to_nat (w - 1))) as -> by lia. assert (Z.to_nat (w - 1) < 20)%nat as Hlt by lia.
    revert Hlt. generalize (Z.to_nat (w - 1)) as n. intros n Hn. clear -Hn.
    do 20 (destruct n as [|n]; [by vm_compute|]). lia.
  - intros i d [Hi ->]%Htab. apply pow10_leb; [lia|lia|].
    destruct Hlow as [->|Hlow]; [|lia]. simpl. lia.
Qed.

Lemma get_digit_ok num k : (k ≤ 18)%nat → 0 ≤ num < 10 ^ Z.of_nat (S k) →
  get_digit num (10 ^ Z.of_nat k) = Ret (num / 10 ^ Z.of_nat k, num / 10 ^ Z.of_nat k * 10 ^ Z.of_nat k).
Proof.
  intros Hk Hnum. pose proof (digit_div k num Hnum) as Hd. pose proof (pow10_pos k) as Hp.
  pose proof (pow10_18 k Hk) as Hp18. set (p := 10 ^ Z.of_nat k) in *.
  set (q := num / p) in *. assert (q * p ≤ num < q * p + p) as Hq.
  { pose proof (Z.div_mod num p ltac:(lia)). pose proof (Z.mod_pos_bound num p ltac:(lia)). lia. }
  unfold get_digit.
  assert (∀ n i, 1 ≤ i ≤ q + 1 → (Z.to_nat (11 - i) < n)%nat →
    loop n (λ '(i, cmp),
      if i <? 11 then
        if num <? cmp then Ret (inr (i - 1, u64 (cmp - p)))
        else Ret (inl (i + 1, u64 (cmp + p)))
      else Ret (inr (0, 0))) (i, i * p) = Ret (q, q * p)) as H.
  { induction n as [|n IH]; intros i Hi Hn; [lia|]. cbn [loop].
    destruct (Z.ltb_spec i 11); [|lia]. destruct (Z.ltb_spec num (i * p)).
    - assert (i = q + 1) as -> by nia. rewrite bind_ret. unfold u64. rewrite Z.mod_small by nia.
      f_equal. f_equal; lia.
    - assert (i ≤ q) by nia. rewrite bind_ret. unfold u64. rewrite Z.mod_small by nia.
      replace (i * p + p) with ((i + 1) * p) by lia. apply IH; lia. }
  rewrite <- (H 12%nat 1); [by rewrite Z.mul_1_l|lia|lia].
Qed.

(** the division-free printing used by the NODIV configuration agrees with
    the dividing one: its digit count is the same (less one), and both print
    the same decimal digits, for every value below [2^63]. *)
Theorem nodiv_equivalent fuel s w : room s → has_digits (arg s.2) w → arg s.2 < 2 ^ 63 → (20 < fuel)%nat →
  closest_round_base10_div fuel (arg s.2) = Ret w ∧
  closest_round_base10_nodiv 10 (arg s.2) = Ret (w - 1) ∧
  ∃ s1 s2, __print_fn_number_10_div fuel s w = Ret s1 ∧ __print_fn_number_10_nodiv fuel s w = Ret s2 ∧
    emits s (digit_chars (digits (Z.to_nat w) (arg s.2))) s1 ∧
    emits s (digit_chars (digits (Z.to_nat w) (arg s.2))) s2.
Proof.
  intros Hr Hd H63 Hf. pose proof Hd as (Hw & Hv & Hlow).
  assert (num_digits (arg s.2) = w ∧ w ≤ 19) as [Hnw Hw19].
  { destruct (num_digits_ok (arg s.2) ltac:(lia)) as [(Hn & Hv' & Hlow') Hn19]. split; [|].
    - destruct (Z.lt_trichotomy (num_digits (arg s.2)) w) as [Hlt|[?|Hlt]]; [|done|].
      + destruct Hlow as [->|Hlow]; [lia|].
        assert (10 ^ num_digits (arg s.2) ≤ 10 ^ (w - 1)) by (apply Z.pow_le_mono_r; lia). lia.
      + destruct Hlow' as [E|Hlow']; [lia|].
        assert (10 ^ w ≤ 10 ^ (num_digits (arg s.2) - 1)) by (apply Z.pow_le_mono_r; lia). lia.
    - destruct Hlow as [->|Hlow]; [lia|]. destruct (Z_lt_le_dec 19 w); [|done].
      assert (10 ^ 19 ≤ 10 ^ (w - 1)) by (apply Z.pow_le_mono_r; lia). lia. }
  split; [rewrite closest_div_num by (done || lia); by rewrite Hnw|].
  split; [apply nodiv_count; [done|lia]|].
  destruct (number_10_div_emits fuel s w) as (s1 & E1 & He1); try done.
  unfold __print_fn_number_10_nodiv.
  assert (∀ k n st v, room st → 0 ≤ v < 10 ^ Z.of_nat k → (k ≤ 19)%nat → (k < n)%nat →
    ∃ st' r, loop n (λ '(s, tmp_arg, wordlen),
      if 0 <? wordlen then
        d ← decimal_table (wordlen - 1);
        '(tmp_num, subtract_round) ← get_digit tmp_arg d;
        s ← DST_APPEND_C s (u8 (to_char_8_10 tmp_num 10));
        Ret (inl (s, u64 (tmp_arg - subtract_round), wordlen - 1))
      else Ret (inr (s, tmp_arg))) (st, v, Z.of_nat k) = Ret (st', r) ∧ emits st (digit_chars (digits k v)) st') as H.
  { induction k as [|k IH]; intros [|n] st v Hst Hvk Hk Hn; try lia; cbn [loop].
    - exists st, v. split; [done|]. apply emits_nil.
    - destruct (Z.ltb_spec 0 (Z.of_nat (S k))); [|lia].
      replace (Z.of_nat (S k) - 1) with (Z.of_nat k) by lia.
      rewrite decimal_table_get, bind_ret by lia. rewrite get_digit_ok, bind_ret by (lia || done).
      pose proof (digit_div k v Hvk) as Hdd. pose proof (pow10_pos k). pose proof (pow10_18 k ltac:(lia)).
      pose proof (Z.div_mod v (10 ^ Z.of_nat k) ltac:(lia)) as Hdm.
      pose proof (Z.mod_pos_bound v (10 ^ Z.of_nat k) ltac:(lia)) as Hmb.
      unfold to_char_8_10. destruct (Z.leb_spec 10 (v / 10 ^ Z.of_nat k)); [lia|]. rewrite u8_id by lia.
      destruct (append_c_emits st (v / 10 ^ Z.of_nat k + 48)) as (st1 & Ea & Hea & _); [done|lia|].
      rewrite Ea, !bind_ret. rewrite u64_id by lia.
      replace (v - v / 10 ^ Z.of_nat k * 10 ^ Z.of_nat k) with (v mod 10 ^ Z.of_nat k) by lia.
      destruct (IH n st1 (v mod 10 ^ Z.of_nat k)) as (st2 & r & E & He); [by eapply emits_room|lia|lia|lia|].
      exists st2, r. split; [exact E|]. by refine (emits_app _ [_] _ _ _ Hea He). }
  destruct (H (Z.to_nat w) fuel s (arg s.2)) as (s2 & r & E2 & He2); [done|by rewrite Z2Nat.id by lia|lia|lia|].
  rewrite Z2Nat.id in E2 by lia. rewrite E2, bind_ret. by exists s1, s2.
Qed.

(** Witness: 1234567 into a buffer of 8 bytes. *)
Lemma nodiv_equivalent_witness :
  closest_round_base10_div 30 1234567 = Ret 7 ∧ closest_round_base10_nodiv 10 1234567 = Ret 6.
Proof.
  destruct (nodiv_equivalent 30
    (mem_of 0 (replicate 8 255), PrintfCtx 50 0 0 8 0 0 0 0 0 (-1) (-1) 0 100 1234567) 7) as (H1 & H2 & _).
  - split; [done|]. apply (bytes_at_mapped _ _ (replicate 8 255)), mem_of_bytes.
  - by split; [|split; [|right]].
  - done.
  - lia.
  - done.
Defined.
