(* ===== verification/Kmalloc.v ===== *)
(** * Kmalloc: the kernel's size-class allocator

    Models kmalloc.c: twelve descriptors, each a bitmap over equal chunks of
    the static array [kernel_memory], the table from size logarithm to
    descriptor, and the operations [kmalloc_init], [kmalloc] and [kfree].
    The address of [kernel_memory] is a variable (the linker chooses it), and
    so is the descriptor object that precedes another one in memory, which
    [kfree] reaches by pointer arithmetic. *)
From S2P Require Import Prelude Bits Strings.

(** ** Error pointers (include/error.h) *)
Definition ERR_NO_RESOURCE : Z := -6.
Definition MAX_ERRNO : Z := 128.
Definition ERR_PTR (err : Z) : Z := u64 err.
Definition IS_ERR (ptr : Z) : bool := u64 (- MAX_ERRNO) <=? ptr.

(** ** Descriptors *)
Record kmalloc_descriptor := KmallocDescriptor {
  bitmap : list Z; num_entries : Z; chunk_size_log : Z; offset : Z
}.

Definition DECL_MALLOC_DESC (log entries : Z) : kmalloc_descriptor :=
  KmallocDescriptor (replicate (Z.to_nat (Z.shiftr entries BITS_PER_WORD_LOG)) 0) entries log 0.

Definition kmalloc_all_descriptors : list kmalloc_descriptor :=
  [DECL_MALLOC_DESC 3 4096; DECL_MALLOC_DESC 4 2048; DECL_MALLOC_DESC 5 1024;
   DECL_MALLOC_DESC 6 512; DECL_MALLOC_DESC 7 256; DECL_MALLOC_DESC 8 256;
   DECL_MALLOC_DESC 9 256; DECL_MALLOC_DESC 10 256; DECL_MALLOC_DESC 11 256;
   DECL_MALLOC_DESC 12 256; DECL_MALLOC_DESC 13 64; DECL_MALLOC_DESC 19 32].

(** By size logarithm: the position of the descriptor in the list above. *)
Definition kmalloc_descriptors : list nat :=
  [0; 0; 0; 0; 1; 2; 3; 4; 5; 6; 7; 8; 9; 10; 11; 11; 11; 11; 11; 11]%nat.

Definition GFP_ZERO : Z := 2.
Definition kernel_memory_size : Z := 16 * 1024 * 1024.

Definition set_bitmap (d : kmalloc_descriptor) (b : list Z) : kmalloc_descriptor :=
  KmallocDescriptor b (num_entries d) (chunk_size_log d) (offset d).
Definition set_offset (d : kmalloc_descriptor) (o : Z) : kmalloc_descriptor :=
  KmallocDescriptor (bitmap d) (num_entries d) (chunk_size_log d) o.

Fixpoint init_offsets (prev_d : option kmalloc_descriptor) (ds : list kmalloc_descriptor)
    : list kmalloc_descriptor :=
  match ds with
  | [] => []
  | d :: ds =>
      let d := match prev_d with
               | None => set_offset d 0
               | Some p => set_offset d (u64 (offset p + s32 (Z.shiftl (num_entries p) (chunk_size_log p))))
               end in
      d :: init_offsets (Some d) ds
  end.

Definition kmalloc_init (ds : list kmalloc_descriptor) : list kmalloc_descriptor := init_offsets None ds.

(** The start of the region of a descriptor and the address of its [k]-th chunk. *)
Definition chunk_addr (base : Z) (d : kmalloc_descriptor) (k : Z) : Z :=
  base + offset d + k * 2 ^ chunk_size_log d.

Section kmalloc.
Context (kernel_memory : Z) (prev_desc : nat → option nat).

Definition kmalloc_common (ds : list kmalloc_descriptor) (i : nat)
    : outcome (list kmalloc_descriptor * Z) :=
  d ← deref (ds !! i);
  let end_idx := num_entries d in
  '(bm, idx) ← bitmap_set_next_free 65 (bitmap d) end_idx;
  let ds := <[i := set_bitmap d bm]> ds in
  if idx =? end_idx then Ret (ds, ERR_PTR ERR_NO_RESOURCE)
  else Ret (ds, u64 (kernel_memory + offset d + s32 (Z.shiftl idx (chunk_size_log d)))).

Definition kmalloc (fuel : nat) (m : mem) (ds : list kmalloc_descriptor) (size flags : Z)
    : outcome (mem * list kmalloc_descriptor * Z) :=
  logsz ← get_biggest_log2 (s32 size);
  if Z.of_nat (length kmalloc_descriptors) <=? u64 logsz then Ret (m, ds, ERR_PTR ERR_NO_RESOURCE) else
  i ← deref (kmalloc_descriptors !! Z.to_nat logsz);
  '(ds, result) ← kmalloc_common ds i;
  if negb (IS_ERR result) then
    if truth (Z.land flags GFP_ZERO) then
      m ← memset fuel m result 0 size; Ret (m, ds, result)
    else Ret (m, ds, result)
  else Ret (m, ds, result).

Definition kfree_common (ds : list kmalloc_descriptor) (i : nat) (addr : Z)
    : outcome (list kmalloc_descriptor) :=
  d ← deref (ds !! i);
  let idx := s32 (Z.shiftl (addr - (kernel_memory + offset d)) (chunk_size_log d)) in
  set ← bitmap_bit_is_set (bitmap d) idx;
  _ ← BUG (negb set);
  bm ← bitmap_clear (bitmap d) idx;
  Ret (<[i := set_bitmap d bm]> ds).

Definition addr_in_range (addr start end_ : Z) : bool := (start <=? addr) && (addr <? end_).

(** The loop over the descriptors from index 1 on. *)
Definition kfree (ds : list kmalloc_descriptor) (addr : Z) : outcome (list kmalloc_descriptor) :=
  _ ← BUG (negb (addr_in_range addr kernel_memory (kernel_memory + kernel_memory_size)));
  i ← loop 13 (λ i,
    if Z.of_nat i <? Z.of_nat (length kmalloc_all_descriptors) then
      d ← deref (ds !! i);
      if addr <? kernel_memory + offset d then Ret (inr i) else Ret (inl (S i))
    else Ret (inr i)) 1%nat;
  _ ← BUG (Z.of_nat i =? Z.of_nat (length kmalloc_all_descriptors));
  p ← deref (prev_desc i);
  kfree_common ds p addr.
End kmalloc.

(** ** The initialised descriptors *)
Definition init_ds : list kmalloc_descriptor := kmalloc_init kmalloc_all_descriptors.

Lemma init_facts j d : init_ds !! j = Some d → (j < 11)%nat →
  3 ≤ chunk_size_log d ≤ 13 ∧ 64 ≤ num_entries d ∧ 0 ≤ offset d < 2 ^ 22 ∧
  ∃ n, bitmap d = 0 :: replicate n 0.
Proof.
  intros Hj Hlt. enough (3 ≤ chunk_size_log d ≤ 13 ∧ 64 ≤ num_entries d ∧ 0 ≤ offset d < 2 ^ 22 ∧
    bitmap d = 0 :: replicate (pred (length (bitmap d))) 0) by naive_solver.
  do 11 (destruct j as [|j]; [
    vm_compute in Hj; injection Hj as <-; cbn [chunk_size_log num_entries offset bitmap];
    split_and!; (lia || reflexivity)|]). lia.
Qed.

Lemma init_ds_lookup j : (j < 12)%nat → is_Some (init_ds !! j).
Proof. intros. by apply lookup_lt_is_Some_2. Qed.

(** The regions of the descriptors follow one another. *)
Lemma init_regions i j di dj : (i < j)%nat → init_ds !! i = Some di → init_ds !! j = Some dj →
  offset di + num_entries di * 2 ^ chunk_size_log di ≤ offset dj.
Proof.
  intros Hij Hi Hj. assert (j < 12)%nat as Hj12 by (apply lookup_lt_Some in Hj; exact Hj).
  assert (forallb (λ '(a, b), if (a <? b)%nat then
      match init_ds !! a, init_ds !! b with
      | Some x, Some y => offset x + num_entries x * 2 ^ chunk_size_log x <=? offset y
      | _, _ => true end else true)
      (list_prod (seq 0 12) (seq 0 12)) = true) as H by (by vm_compute).
  rewrite forallb_forall in H. specialize (H (i, j)).
  assert ((i <? j)%nat = true) as Hb by (by apply Nat.ltb_lt). cbv beta iota in H. rewrite Hb, Hi, Hj in H.
  apply Z.leb_le, H, in_prod; apply in_seq; lia.
Qed.

(** ** States reached from the initial one

    [kstate_ok ds ws]: descriptor [j] differs from its initial value only in
    the first word of its bitmap, which is [ws j]. *)
Definition kstate_ok (ds : list kmalloc_descriptor) (ws : nat → Z) : Prop :=
  length ds = 12%nat ∧
  ∀ j d0, (j < 11)%nat → init_ds !! j = Some d0 →
    ds !! j = Some (set_bitmap d0 (ws j :: tail (bitmap d0))).

Definition upd (ws : nat → Z) (j : nat) (v : Z) : nat → Z := λ k, if decide (k = j) then v else ws k.

Lemma kstate_init : kstate_ok init_ds (λ _, 0).
Proof.
  split; [done|]. intros j d0 Hj Hd. destruct (init_facts _ _ Hd Hj) as (_ & _ & _ & n & Hb).
  rewrite Hd. f_equal. rewrite Hb. simpl. destruct d0. simpl in *. by subst.
Qed.

Lemma kstate_upd ds ws j d0 v : kstate_ok ds ws → (j < 11)%nat → init_ds !! j = Some d0 →
  kstate_ok (<[j := set_bitmap d0 (v :: tail (bitmap d0))]> ds) (upd ws j v).
Proof.
  intros [Hl Hds] Hj Hd. split; [by rewrite length_insert|]. intros k d1 Hk Hd1. unfold upd.
  destruct (decide (k = j)) as [->|Hne].
  - rewrite list_lookup_insert_eq by lia. congruence.
  - rewrite list_lookup_insert_ne by done. by apply Hds.
Qed.

(** The chunks of the smallest class that fits have the least power of two that
    is at least 8 and at least the request. *)
Definition class_log (size : Z) : Z := Z.max 3 (Z.log2_up size).

Lemma class_log_least size l : 0 ≤ size → 3 ≤ l → size ≤ 2 ^ l ↔ class_log size ≤ l.
Proof.
  intros Hs Hl. unfold class_log. destruct (Z_lt_le_dec size 2) as [Hlt|Hge].
  - rewrite Z.log2_up_eqn0 by lia. pose proof (Z.pow_le_mono_r 2 3 l ltac:(lia) Hl). lia.
  - rewrite Z.log2_up_le_pow2 by lia. lia.
Qed.

(** The class of a size. *)
Lemma size_class size : 0 ≤ size ≤ 8192 →
  ∃ logsz j d0, get_biggest_log2 (s32 size) = Ret logsz ∧ u64 logsz < 20 ∧
    kmalloc_descriptors !! Z.to_nat logsz = Some j ∧ (j < 11)%nat ∧ init_ds !! j = Some d0 ∧
    chunk_size_log d0 = class_log size.
Proof.
  intros Hs. unfold class_log. rewrite s32_id by lia. destruct (Z_lt_le_dec size 2) as [Hlt|Hge].
  - assert (size = 0 ∨ size = 1) as [-> | ->] by lia; exists 1, 0%nat; eexists;
      (split_and!; [by vm_compute|by vm_compute|done|lia|by vm_compute|done]).
  - destruct (get_biggest_log2_bounds size) as [E [_ Hup]]; [lia|].
    assert (1 ≤ Z.log2_up size ≤ 13) as Hl.
    { split; [apply (Z.log2_up_le_mono 2); lia|]. apply (Z.log2_up_le_mono size 8192). lia. }
    revert E Hl. generalize (Z.log2_up size) as l. intros l E Hl. clear Hup.
    exists l. rewrite E. clear E.
    assert (∃ n, l = Z.of_nat (S n) ∧ (n < 13)%nat) as (n & -> & Hn) by (exists (Z.to_nat (l - 1)); lia).
    do 13 (destruct n as [|n]; [do 2 eexists;
      (split_and!; [done|by vm_compute|by vm_compute|lia|by vm_compute|done])|]). lia.
Qed.

Lemma low_byte_free_unique w i i' : low_byte_free w i → low_byte_free w i' → i = i'.
Proof.
  intros (Hi & Ha & Hb) (Hi' & Ha' & Hb'). destruct (Z.lt_trichotomy i i') as [Hlt|[?|Hlt]]; [|done|].
  - specialize (Ha' i ltac:(lia)). rewrite Hb in Ha' by lia. done.
  - specialize (Ha i' ltac:(lia)). rewrite Hb' in Ha by lia. done.
Qed.

(** The first word after [n] allocations from an empty class. *)
Definition word_after (n : nat) : Z := Z.ones (Z.of_nat n `min` 9).

Lemma word_after_free n : low_byte_free (word_after n) (Z.of_nat n `min` 8).
Proof.
  assert (Z.of_nat n `min` 9 = Z.of_nat (n `min` 9)) as E by lia. unfold word_after. rewrite E.
  split; [lia|]. split.
  - intros j Hj. rewrite testbit_ones by lia. apply Z.ltb_lt. lia.
  - intros Hlt. rewrite testbit_ones by lia. apply Z.ltb_ge. lia.
Qed.

Lemma word_after_S n : Z.lor (u8 (word_after n)) (2 ^ (Z.of_nat n `min` 8)) = word_after (S n).
Proof.
  unfold word_after. destruct (decide (n < 9)%nat) as [Hn|Hn].
  - do 9 (destruct n as [|n]; [done|]). lia.
  - rewrite !Z.min_r by lia. done.
Qed.

Section correctness.
Context (base : Z) (prev_desc : nat → option nat).
Context (Hbase : 0 ≤ base ∧ base + 2 ^ 26 ≤ 2 ^ 63).

Lemma kmalloc_common_ok ds ws j d0 : kstate_ok ds ws → (j < 11)%nat → init_ds !! j = Some d0 →
  ∃ i ds', low_byte_free (ws j) i ∧
    kmalloc_common base ds j = Ret (ds', chunk_addr base d0 i) ∧
    kstate_ok ds' (upd ws j (Z.lor (u8 (ws j)) (2 ^ i))).
Proof using Hbase.
  intros Hds Hj Hd. destruct (init_facts _ _ Hd Hj) as (Hlog & Hnum & Hoff & _).
  unfold kmalloc_common. rewrite (proj2 Hds j d0 Hj Hd). cbn [deref]. rewrite bind_ret.
  cbn [bitmap num_entries chunk_size_log offset set_bitmap].
  destruct (bitmap_low_byte 65 (ws j) (tail (bitmap d0)) (num_entries d0)) as (i & Hi & E); [lia|done|].
  rewrite E, bind_ret. pose proof Hi as (Hi8 & _ & _). destruct (Z.eqb_spec i (num_entries d0)); [lia|].
  exists i. eexists. split; [done|]. split.
  - f_equal. f_equal. unfold chunk_addr. rewrite Z.shiftl_mul_pow2 by lia.
    assert (2 ^ 3 ≤ 2 ^ chunk_size_log d0 ≤ 2 ^ 13) by (split; apply Z.pow_le_mono_r; lia).
    rewrite s32_id by nia. rewrite u64_id by nia. done.
  - exact (kstate_upd ds ws j d0 (Z.lor (u8 (ws j)) (2 ^ i)) Hds Hj Hd).
Qed.

Lemma chunk_in_memory j d0 i : (j < 11)%nat → init_ds !! j = Some d0 → 0 ≤ i ≤ 8 →
  base ≤ chunk_addr base d0 i ∧ chunk_addr base d0 i + 2 ^ chunk_size_log d0 ≤ base + kernel_memory_size.
Proof using.
  intros Hj Hd Hi. destruct (init_facts _ _ Hd Hj) as (Hlog & Hnum & Hoff & _).
  assert (2 ^ 3 ≤ 2 ^ chunk_size_log d0 ≤ 2 ^ 13) by (split; apply Z.pow_le_mono_r; lia).
  unfold chunk_addr, kernel_memory_size. nia.
Qed.

Lemma chunk_disjoint j d0 i j' d' : (j < 11)%nat → init_ds !! j = Some d0 → 0 ≤ i ≤ 8 → j' ≠ j → init_ds !! j' = Some d' →
  chunk_addr base d0 i + 2 ^ chunk_size_log d0 ≤ base + offset d' ∨ base + offset d' + num_entries d' * 2 ^ chunk_size_log d' ≤ chunk_addr base d0 i.
Proof using.
  intros Hj Hd Hi Hne Hd'. destruct (init_facts _ _ Hd Hj) as (Hlog & Hnum & _ & _). unfold chunk_addr.
  assert (2 ^ 3 ≤ 2 ^ chunk_size_log d0) by (apply Z.pow_le_mono_r; lia).
  destruct (decide (j < j')%nat); [pose proof (init_regions j j' d0 d' ltac:(lia) Hd Hd')|pose proof (init_regions j' j d' d0 ltac:(lia) Hd' Hd)]; nia.
Qed.

End correctness.

(** [n] requests of the same size, and their results. *)
Fixpoint kmalloc_seq (base : Z) (m : mem) (ds : list kmalloc_descriptor) (size : Z) (n : nat)
    : outcome (list kmalloc_descriptor * list Z) :=
  match n with
  | O => Ret (ds, [])
  | S n =>
      '(ds, ps) ← kmalloc_seq base m ds size n;
      '(_, ds, p) ← kmalloc base 0 m ds size 1;
      Ret (ds, ps ++ [p])
  end.

(** from the initial state, the requests of one size get distinct chunks
    only eight times: the [k]-th result is chunk [min k 8] of the class, so from
    the ninth request on every caller is handed the same memory. *)
Theorem kmalloc_aliases_after_eight base m size n logsz j d0 :
  0 ≤ base ∧ base + 2 ^ 26 ≤ 2 ^ 63 →
  get_biggest_log2 (s32 size) = Ret logsz → kmalloc_descriptors !! Z.to_nat logsz = Some j → 0 ≤ logsz ≤ 13 →
  init_ds !! j = Some d0 →
  ∃ ds', kmalloc_seq base m init_ds size n
    = Ret (ds', map (λ k, chunk_addr base d0 (Z.of_nat k `min` 8)) (seq 0 n)).
Proof.
  intros Hbase E1 E2 Hl Hd. assert (j < 11)%nat as Hj.
  { assert (Z.to_nat logsz < 14)%nat as Hn by lia. revert E2 Hn. generalize (Z.to_nat logsz) as k.
    intros k E2 Hn. do 14 (destruct k as [|k]; [injection E2 as <-; lia|]). lia. }
  assert (u64 logsz < 20) as Hlt by (rewrite u64_id; lia).
  enough (∃ ds', kmalloc_seq base m init_ds size n
    = Ret (ds', map (λ k, chunk_addr base d0 (Z.of_nat k `min` 8)) (seq 0 n)) ∧
    ∃ ws, kstate_ok ds' ws ∧ ws j = word_after n) as (ds' & ? & _) by (by exists ds').
  induction n as [|n (ds & E & ws & Hws & Hwj)].
  - exists init_ds. split; [done|]. exists (λ _, 0). split; [apply kstate_init|done].
  - cbn [kmalloc_seq]. rewrite E, bind_ret.
    destruct (kmalloc_common_ok base Hbase ds ws j d0 Hws Hj Hd) as (i & ds' & Hi & E3 & Hds').
    exists ds'. assert (i = Z.of_nat n `min` 8) as ->.
    { eapply low_byte_free_unique; [exact Hi|]. rewrite Hwj. apply word_after_free. }
    unfold kmalloc. rewrite E1, bind_ret. change (Z.of_nat (length kmalloc_descriptors)) with 20.
    destruct (Z.leb_spec 20 (u64 logsz)); [lia|]. rewrite E2. cbn [deref]. rewrite bind_ret, E3, bind_ret.
    change (truth (Z.land 1 GFP_ZERO)) with false. cbv iota.
    split.
    + destruct (negb _); rewrite bind_ret, seq_S, map_app; done.
    + eexists. split; [exact Hds'|]. unfold upd. rewrite decide_True by done. by rewrite Hwj, word_after_S.
Qed.

(** Witness: eleven requests of 100 bytes; the last three get the same chunk. *)
Lemma kmalloc_aliases_after_eight_witness :
  ∃ ds', kmalloc_seq 4096 ∅ init_ds 100 11
    = Ret (ds', map (λ k, chunk_addr 4096 (set_offset (DECL_MALLOC_DESC 7 256) 131072) (Z.of_nat k `min` 8)) (seq 0 11)).
Proof.
  apply (kmalloc_aliases_after_eight 4096 ∅ 100 11 7 4 (set_offset (DECL_MALLOC_DESC 7 256) 131072));
    [lia|by vm_compute|done|lia|by vm_compute].
Defined.


(** ** kfree *)
Section free.
Context (base : Z) (prev_desc : nat → option nat).
Context (Hbase : 0 ≤ base ∧ base + 2 ^ 26 ≤ 2 ^ 63).
(** The descriptor objects lie in memory in declaration order. *)
Context (Hprev : ∀ i, prev_desc (S i) = Some i).

Lemma kstate_offset ds ws i d0 : kstate_ok ds ws → (i < 11)%nat → init_ds !! i = Some d0 →
  ∃ d, ds !! i = Some d ∧ offset d = offset d0.
Proof using. intros [_ H] Hi Hd. eexists. by rewrite (H _ _ Hi Hd). Qed.

Lemma find_region ds ws j d0 addr n i :
  kstate_ok ds ws → (∃ d, ds !! 11%nat = Some d ∧ init_ds !! 11%nat = Some d) →
  (j < 11)%nat → init_ds !! j = Some d0 →
  base + offset d0 ≤ addr < base + offset d0 + num_entries d0 * 2 ^ chunk_size_log d0 →
  (1 ≤ i ≤ S j)%nat → (S j - i < n)%nat →
  loop n (λ i,
    if Z.of_nat i <? Z.of_nat (length kmalloc_all_descriptors) then
      d ← deref (ds !! i);
      if addr <? base + offset d then Ret (inr i) else Ret (inl (S i))
    else Ret (inr i)) i = Ret (S j).
Proof using.
  intros Hds (d11 & H11 & H11') Hj Hd Ha. revert i. induction n as [|n IH]; intros i Hi Hn; [lia|].
  cbn [loop]. change (Z.of_nat (length kmalloc_all_descriptors)) with 12.
  destruct (Z.ltb_spec (Z.of_nat i) 12); [|lia].
  destruct (init_ds_lookup i) as [di Hdi]; [lia|].
  assert (∃ d, ds !! i = Some d ∧ offset d = offset di) as (d & E & Eo).
  { destruct (decide (i = 11%nat)) as [->|]; [|eapply kstate_offset; (done || lia)].
    exists d11. split; [done|]. congruence. }
  rewrite E. cbn [deref]. rewrite bind_ret, Eo. destruct (decide (i = S j)) as [->|Hne].
  - pose proof (init_regions j (S j) d0 di ltac:(lia) Hd Hdi). destruct (Z.ltb_spec addr (base + offset di)); [done|lia].
  - assert (offset di ≤ offset d0).
    { destruct (decide (i = j)) as [->|]; [by simplify_eq|].
      pose proof (init_regions i j di d0 ltac:(lia) Hdi Hd) as Hr.
      destruct (init_facts i di Hdi ltac:(lia)) as (? & ? & ? & _).
      assert (0 < 2 ^ chunk_size_log di) by (apply Z.pow_pos_nonneg; lia). nia. }
    destruct (Z.ltb_spec addr (base + offset di)); [lia|]. rewrite bind_ret. apply IH; lia.
Qed.

(** [kfree] of the [k]-th chunk of a class reaches its descriptor with a bit
    index scaled up instead of down. *)
Lemma kfree_chunk ds ws j d0 k : kstate_ok ds ws →
  (∃ d, ds !! 11%nat = Some d ∧ init_ds !! 11%nat = Some d) →
  (j < 11)%nat → init_ds !! j = Some d0 → 0 ≤ k ≤ 8 →
  kfree base prev_desc ds (chunk_addr base d0 k) =
    (let b := ws j :: tail (bitmap d0) in
     set ← bitmap_bit_is_set b (k * 2 ^ (2 * chunk_size_log d0));
     _ ← BUG (negb set);
     bm ← bitmap_clear b (k * 2 ^ (2 * chunk_size_log d0));
     Ret (<[j := set_bitmap d0 bm]> ds)).
Proof using Hbase Hprev.
  intros Hds H11 Hj Hd Hk. destruct (init_facts _ _ Hd Hj) as (Hlog & Hnum & Hoff & _).
  destruct (chunk_in_memory base j d0 k Hj Hd Hk) as [Hlo Hhi].
  assert (2 ^ 3 ≤ 2 ^ chunk_size_log d0 ≤ 2 ^ 13) as Hp by (split; apply Z.pow_le_mono_r; lia).
  unfold kfree, addr_in_range. destruct (Z.leb_spec base (chunk_addr base d0 k)); [|lia].
  destruct (Z.ltb_spec (chunk_addr base d0 k) (base + kernel_memory_size)); [|lia].
  cbn [andb negb BUG]. rewrite bind_ret.
  rewrite (find_region ds ws j d0 _ 13 1 Hds H11 Hj Hd); [|unfold chunk_addr; nia|lia|lia].
  rewrite bind_ret. change (Z.of_nat (length kmalloc_all_descriptors)) with 12.
  destruct (Z.eqb_spec (Z.of_nat (S j)) 12); [lia|]. cbn [BUG]. rewrite bind_ret, Hprev. cbn [deref].
  rewrite bind_ret. unfold kfree_common. rewrite (proj2 Hds j d0 Hj Hd). cbn [deref]. rewrite bind_ret.
  cbn [bitmap num_entries chunk_size_log offset set_bitmap].
  replace (s32 (Z.shiftl (chunk_addr base d0 k - (base + offset d0)) (chunk_size_log d0)))
    with (k * 2 ^ (2 * chunk_size_log d0)); [done|].
  unfold chunk_addr. rewrite Z.shiftl_mul_pow2 by lia.
  replace (2 * chunk_size_log d0) with (chunk_size_log d0 + chunk_size_log d0) by lia.
  rewrite Z.pow_add_r, s32_id by nia. lia.
Qed.

(** freeing the chunk that [kmalloc] took from a class whose low byte of
    bits was empty of bit 0 gives the allocator its earlier state back. *)
Theorem kmalloc_kfree_roundtrip ds ws j d0 :
  kstate_ok ds ws → (∃ d, ds !! 11%nat = Some d ∧ init_ds !! 11%nat = Some d) →
  (j < 11)%nat → init_ds !! j = Some d0 → 0 ≤ ws j < 2 ^ 8 → Z.testbit (ws j) 0 = false →
  ∃ ds' p, kmalloc_common base ds j = Ret (ds', p) ∧ kfree base prev_desc ds' p = Ret ds.
Proof using Hbase Hprev.
  intros Hds H11 Hj Hd Hw Hb0.
  destruct (kmalloc_common_ok base Hbase ds ws j d0 Hds Hj Hd) as (i & ds' & Hi & E & Hds').
  assert (i = 0) as ->.
  { destruct Hi as (Hi & Hlow & _). destruct (Z.eq_dec i 0); [done|]. rewrite Hlow in Hb0 by lia. done. }
  exists ds', (chunk_addr base d0 0). split; [done|].
  assert (ds' = <[j := set_bitmap d0 (Z.lor (ws j) 1 :: tail (bitmap d0))]> ds) as Eds.
  { revert E. unfold kmalloc_common. rewrite (proj2 Hds j d0 Hj Hd). cbn [deref]. rewrite bind_ret.
    cbn [bitmap num_entries chunk_size_log offset set_bitmap]. destruct (init_facts _ _ Hd Hj) as (Hlog & Hnum & _ & _).
    destruct (bitmap_low_byte 65 (ws j) (tail (bitmap d0)) (num_entries d0)) as (i & Hi' & Eb); [lia|done|].
    rewrite (low_byte_free_unique _ _ _ Hi' Hi) in Eb. rewrite Eb, bind_ret.
    destruct (Z.eqb_spec 0 (num_entries d0)); [lia|]. rewrite u8_id by lia. intros E. by injection E as <- _. }
  rewrite (kfree_chunk ds' _ j d0 0 Hds'); [|rewrite Eds, list_lookup_insert_ne by lia; done|done|done|lia].
  rewrite Z.mul_0_l. cbv zeta. unfold upd. rewrite decide_True by done. rewrite u8_id by lia. change (2 ^ 0) with 1.
  unfold bitmap_bit_is_set, bitmap_clear. change (0 <? 0) with false. cbv iota.
  change (Z.to_nat (Z.shiftr 0 BITS_PER_WORD_LOG)) with 0%nat. cbn [lookup list_lookup deref]. rewrite bind_ret.
  change (Z.rem 0 BITS_PER_WORD) with 0. unfold bitword_bit_is_set. change (0 <? 32) with true. cbv iota.
  change (u64 (s32 (Z.shiftl 1 0))) with (Z.shiftl 1 0).
  rewrite !bind_ret. assert (truth (Z.land (Z.lor (ws j) 1) (Z.shiftl 1 0)) = true) as ->.
  { change (Z.shiftl 1 0) with 1. rewrite Z.land_lor_distr_l.
    unfold truth. apply negb_true_iff, Z.eqb_neq. intros H0. apply (f_equal (λ z, Z.testbit z 0)) in H0.
    rewrite Z.lor_spec, !Z.land_spec, Z.bits_0 in H0. change (Z.testbit 1 0) with true in H0.
    by rewrite orb_comm in H0. }
  cbn [negb BUG]. rewrite ?bind_ret. f_equal.
  cbn [insert list_insert]. rewrite Eds, list_insert_insert_eq.
  apply list_insert_id. rewrite (proj2 Hds j d0 Hj Hd). do 2 f_equal.
  unfold bitword_clear_bit. f_equal. apply Z.bits_inj'. intros q Hq.
  rewrite Z.land_spec, Z.lor_spec, testbit_u64, Z.lnot_spec, Z.shiftl_1_l, testbit_pow2 by lia.
  change 1 with (2 ^ 0) at 1. rewrite testbit_pow2 by lia.
  destruct (Z.eqb_spec q 0) as [->|]; [by rewrite Hb0|]. rewrite orb_false_r. cbn [negb].
  destruct (Z.ltb_spec q 64); cbn [andb]; [by rewrite andb_true_r|].
  rewrite (testbit_high (ws j) 8 q) by lia. done.
Qed.

(** a chunk other than the first of its class can never be freed: the
    call panics with a double free or reads beyond the bitmap. *)
Theorem kfree_other_chunk_fails ds ws j d0 k :
  kstate_ok ds ws → (∃ d, ds !! 11%nat = Some d ∧ init_ds !! 11%nat = Some d) →
  (j < 11)%nat → init_ds !! j = Some d0 → 1 ≤ k ≤ 8 →
  kfree base prev_desc ds (chunk_addr base d0 k) = Panic ∨
  kfree base prev_desc ds (chunk_addr base d0 k) = Fault.
Proof using Hbase Hprev.
  intros Hds H11 Hj Hd Hk. rewrite (kfree_chunk ds ws j d0 k Hds H11 Hj Hd) by lia. cbv zeta.
  destruct (init_facts _ _ Hd Hj) as (Hlog & Hnum & Hoff & n & Hb). rewrite Hb. cbn [tail].
  replace (k * 2 ^ (2 * chunk_size_log d0)) with (k * 2 ^ (2 * chunk_size_log d0 - 6) * 2 ^ 6).
  2:{ rewrite <- Z.mul_assoc, <- Z.pow_add_r by lia. do 2 f_equal. lia. }
  set (q := k * 2 ^ (2 * chunk_size_log d0 - 6)).
  assert (1 ≤ q) by (unfold q; assert (0 < 2 ^ (2 * chunk_size_log d0 - 6)) by (apply Z.pow_pos_nonneg; lia); nia).
  unfold bitmap_bit_is_set. destruct (Z.ltb_spec (q * 2 ^ 6) 0); [lia|]. change BITS_PER_WORD_LOG with 6.
  rewrite Z.shiftr_div_pow2, Z.div_mul by lia. change BITS_PER_WORD with (2 ^ 6). rewrite Z.rem_mul by lia.
  destruct (Z.to_nat q) as [|q'] eqn:Eq; [lia|]. cbn [lookup list_lookup].
  destruct (replicate n 0 !! q') as [w|] eqn:Ew; [|by right].
  apply lookup_replicate in Ew as [-> _]. left. done.
Qed.
End free.

Definition declaration_order (i : nat) : option nat := match i with O => None | S i => Some i end.

Lemma init_ds_last : ∃ d, init_ds !! 11%nat = Some d ∧ init_ds !! 11%nat = Some d.
Proof. unfold init_ds. vm_compute. by eexists. Qed.

Lemma init_ds_64 : init_ds !! 3%nat = Some (set_offset (DECL_MALLOC_DESC 6 512) 98304).
Proof. by vm_compute. Qed.

(** Witness: the 64-byte class of the initial state. *)
Lemma kmalloc_kfree_roundtrip_witness :
  ∃ ds' p, kmalloc_common 4096 init_ds 3 = Ret (ds', p) ∧ kfree 4096 declaration_order ds' p = Ret init_ds.
Proof.
  apply (kmalloc_kfree_roundtrip 4096 declaration_order ltac:(lia) ltac:(done) init_ds (λ _, 0) 3
    (set_offset (DECL_MALLOC_DESC 6 512) 98304)); [apply kstate_init|apply init_ds_last|lia|apply init_ds_64|lia|done].
Defined.

(** Witness: the second chunk of the 64-byte class. *)
Lemma kfree_other_chunk_fails_witness :
  kfree 4096 declaration_order init_ds (chunk_addr 4096 (set_offset (DECL_MALLOC_DESC 6 512) 98304) 1) = Panic ∨
  kfree 4096 declaration_order init_ds (chunk_addr 4096 (set_offset (DECL_MALLOC_DESC 6 512) 98304) 1) = Fault.
Proof.
  apply (kfree_other_chunk_fails 4096 declaration_order ltac:(lia) ltac:(done) init_ds (λ _, 0) 3);
    [apply kstate_init|apply init_ds_last|lia|apply init_ds_64|lia].
Defined.
