(* ===== verification/Sched.v ===== *)
(** * Sched: the task scheduler

    Models sched.c and the atomic operations of arch/armv8/armv8_lock.S it
    uses, on the pointer heap of Lists: the three queues of a scheduler are
    circular lists of the tasks' [schedlist] nodes, and a task is named by the
    address of that node.  Wait flags are words of a separate store.  The
    kernel runs these functions on one CPU with interrupts off, so each is one
    atomic step; the CPU counter is an argument. *)
From S2P Require Import Prelude Lists.

(** ** Data (include/sched.h) *)
Definition TASK_STATE_STOPPED : Z := 0.
Definition TASK_STATE_SCHEDULED : Z := 1.
Definition TASK_STATE_RUNNING : Z := 2.
Definition TASK_STATE_TIMEWAITING : Z := 3.
Definition TASK_STATE_FLAGWAITING : Z := 4.

Definition PREEMPT_TICKS : Z := 10.
Definition STACK_SIZE : Z := 1024 * 1024 * 1.
Definition NUM_STACKS : Z := 10.
Definition NUM_TASKS : Z := 40.

Record task := Task {
  pid : Z; name : list Z; stack_base : Z; ticks_left : Z; ticks_total : Z;
  task_state : Z; timer_wait_until : Z; waitflag : Z
}.

Record scheduler := Scheduler {
  waitflag_is_set : Z; running : Z; timer_waiting : Z; flag_waiting : Z; timer_interval_ms : Z
}.

(** The kernel state the scheduler works on.  [irq_on] is the CPU's interrupt
    mask, [words] the memory the wait flags live in. *)
Record kernel := Kernel {
  hp : heap; tasks : gmap Z task; words : gmap Z Z; sch : scheduler;
  current : Z; idle_task : Z; irq_on : bool;
  pid_counter : Z; task_idx : Z; stack_idx : Z; sched_num_switches : Z
}.

Definition with_hp (k : kernel) (σ : heap) : kernel :=
  Kernel σ (tasks k) (words k) (sch k) (current k) (idle_task k) (irq_on k)
    (pid_counter k) (task_idx k) (stack_idx k) (sched_num_switches k).
Definition with_tasks (k : kernel) (ts : gmap Z task) : kernel :=
  Kernel (hp k) ts (words k) (sch k) (current k) (idle_task k) (irq_on k)
    (pid_counter k) (task_idx k) (stack_idx k) (sched_num_switches k).
Definition with_words (k : kernel) (w : gmap Z Z) : kernel :=
  Kernel (hp k) (tasks k) w (sch k) (current k) (idle_task k) (irq_on k)
    (pid_counter k) (task_idx k) (stack_idx k) (sched_num_switches k).
Definition with_sch (k : kernel) (s : scheduler) : kernel :=
  Kernel (hp k) (tasks k) (words k) s (current k) (idle_task k) (irq_on k)
    (pid_counter k) (task_idx k) (stack_idx k) (sched_num_switches k).
Definition set_current (k : kernel) (t : Z) : kernel :=
  Kernel (hp k) (tasks k) (words k) (sch k) t (idle_task k) (irq_on k)
    (pid_counter k) (task_idx k) (stack_idx k) (sched_num_switches k).
Definition with_irq (k : kernel) (b : bool) : kernel :=
  Kernel (hp k) (tasks k) (words k) (sch k) (current k) (idle_task k) b
    (pid_counter k) (task_idx k) (stack_idx k) (sched_num_switches k).
Definition with_counters (k : kernel) (pidc ti si : Z) : kernel :=
  Kernel (hp k) (tasks k) (words k) (sch k) (current k) (idle_task k) (irq_on k)
    pidc ti si (sched_num_switches k).
Definition schedule_debug (k : kernel) : kernel :=
  Kernel (hp k) (tasks k) (words k) (sch k) (current k) (idle_task k) (irq_on k)
    (pid_counter k) (task_idx k) (stack_idx k) (s32 (sched_num_switches k + 1)).

Definition set_state (t : task) (v : Z) : task :=
  Task (pid t) (name t) (stack_base t) (ticks_left t) (ticks_total t) v (timer_wait_until t) (waitflag t).
Definition set_ticks_left (t : task) (v : Z) : task :=
  Task (pid t) (name t) (stack_base t) v (ticks_total t) (task_state t) (timer_wait_until t) (waitflag t).
Definition set_ticks_total (t : task) (v : Z) : task :=
  Task (pid t) (name t) (stack_base t) (ticks_left t) v (task_state t) (timer_wait_until t) (waitflag t).
Definition set_wait_until (t : task) (v : Z) : task :=
  Task (pid t) (name t) (stack_base t) (ticks_left t) (ticks_total t) (task_state t) v (waitflag t).
Definition set_waitflag (t : task) (v : Z) : task :=
  Task (pid t) (name t) (stack_base t) (ticks_left t) (ticks_total t) (task_state t) (timer_wait_until t) v.
Definition set_waitflag_count (s : scheduler) (v : Z) : scheduler :=
  Scheduler v (running s) (timer_waiting s) (flag_waiting s) (timer_interval_ms s).

Definition get_task (k : kernel) (t : Z) : outcome task := deref (tasks k !! t).
Definition put_task (k : kernel) (t : Z) (f : task → task) : outcome kernel :=
  x ← get_task k t; Ret (with_tasks k (<[t := f x]> (tasks k))).

(** ** Atomics (arch/armv8/armv8_lock.S)

    The exclusive load and store loops, which complete on one CPU with
    interrupts off. *)
Definition atomic_cmp_and_swap (w : gmap Z Z) (a expected_val new_val : Z) : outcome (gmap Z Z * Z) :=
  v ← deref (w !! a);
  if v =? expected_val then Ret (<[a := new_val]> w, expected_val) else Ret (w, v).
Definition atomic_inc (v : Z) : Z := u64 (v + 1).
Definition atomic_dec (v : Z) : Z := u64 (v - 1).

(** ** Queues *)
Definition pcpu_scheduler_init (σ : heap) (s : scheduler) : outcome (heap * scheduler) :=
  σ ← INIT_LIST_HEAD σ (running s);
  σ ← INIT_LIST_HEAD σ (timer_waiting s);
  σ ← INIT_LIST_HEAD σ (flag_waiting s);
  Ret (σ, Scheduler 0 (running s) (timer_waiting s) (flag_waiting s) 1000).

Definition queue_task (k : kernel) (t head state : Z) : outcome kernel :=
  σ ← (σ ← list_del_init (hp k) t; list_add_tail σ t head);
  put_task (with_hp k σ) t (λ x, set_state x state).

Definition sched_queue_runnable_task_noirq (k : kernel) (t : Z) : outcome kernel :=
  queue_task k t (running (sch k)) TASK_STATE_SCHEDULED.
Definition sched_queue_timewait_task_noirq (k : kernel) (t : Z) : outcome kernel :=
  queue_task k t (timer_waiting (sch k)) TASK_STATE_TIMEWAITING.
Definition sched_queue_flagwait_task_noirq (k : kernel) (t : Z) : outcome kernel :=
  queue_task k t (flag_waiting (sch k)) TASK_STATE_FLAGWAITING.

(** [disable_irq_save_flags .. restore_irq_flags] around [f]. *)
Definition irqs_saved (k : kernel) (f : kernel → outcome kernel) : outcome kernel :=
  let flags := irq_on k in
  k ← f (with_irq k false);
  Ret (with_irq k flags).

Definition sched_queue_runnable_task (k : kernel) (t : Z) : outcome kernel :=
  irqs_saved k (λ k, sched_queue_runnable_task_noirq k t).
Definition sched_queue_timewait_task (k : kernel) (t : Z) : outcome kernel :=
  irqs_saved k (λ k, sched_queue_timewait_task_noirq k t).
Definition sched_queue_flagwait_task (k : kernel) (t : Z) : outcome kernel :=
  irqs_saved k (λ k, sched_queue_flagwait_task_noirq k t).

(** ** The scheduler *)
Definition scheduler_pick_next_task (k : kernel) : outcome (kernel * Z) :=
  e ← list_empty (hp k) (running (sch k));
  if negb e then
    next_task ← list_first_entry (hp k) (running (sch k));
    k ← put_task k next_task (λ x, set_ticks_left x PREEMPT_TICKS);
    Ret (k, next_task)
  else Ret (k, NULL).

Definition schedule_handle_timer_waiting (fuel : nat) (now : Z) (k : kernel) : outcome kernel :=
  list_for_each_entry_safe hp fuel (timer_waiting (sch k)) (λ k t,
    x ← get_task k t;
    if timer_wait_until x <=? now then sched_queue_runnable_task_noirq k t else Ret k) k.

Definition schedule_handle_flag_waiting (fuel : nat) (k : kernel) : outcome kernel :=
  _ ← BUG (0xffffffffffff0000 <? waitflag_is_set (sch k));
  if truth (waitflag_is_set (sch k)) then
    list_for_each_entry_safe hp fuel (flag_waiting (sch k)) (λ k t,
      x ← get_task k t;
      _ ← BUG (waitflag x =? NULL);
      v ← deref (words k !! waitflag x);
      if truth v then
        let k := with_words k (<[waitflag x := 0]> (words k)) in
        k ← put_task k t (λ x, set_waitflag x NULL);
        k ← sched_queue_runnable_task_noirq k t;
        Ret (with_sch k (set_waitflag_count (sch k) (atomic_dec (waitflag_is_set (sch k)))))
      else Ret k) k
  else Ret k.

Definition schedule (fuel : nat) (now : Z) (k : kernel) : outcome kernel :=
  let k := schedule_debug k in
  let prev_task := current k in
  p ← get_task k prev_task;
  k ← (if task_state p =? TASK_STATE_TIMEWAITING then Ret k
       else if task_state p =? TASK_STATE_FLAGWAITING then Ret k
       else
         k ← put_task k prev_task
               (λ x, set_ticks_total x (s32 (ticks_total x + (PREEMPT_TICKS - ticks_left x))));
         sched_queue_runnable_task_noirq k prev_task);
  k ← schedule_handle_timer_waiting fuel now k;
  k ← schedule_handle_flag_waiting fuel k;
  '(k, next_task) ← scheduler_pick_next_task k;
  let next_task := if negb (truth next_task) then idle_task k else next_task in
  k ← put_task k next_task (λ x, set_state x TASK_STATE_RUNNING);
  _ ← BUG (negb (truth next_task));
  Ret (set_current k next_task).

(** The supervisor call [yield] makes is handled by [schedule] (exception.c). *)
Definition yield (fuel : nat) (now : Z) (k : kernel) : outcome kernel := schedule fuel now k.

(** [freq] is the frequency of the CPU counter; [now] and [now'] are its values
    at the call and at the reschedule. *)
Definition wait_on_timer_ms (fuel : nat) (now now' freq msec : Z) (k : kernel) : outcome kernel :=
  let cnt_per_msec := freq / 1000 in
  let until := u64 (now + cnt_per_msec * msec) in
  k ← put_task k (current k) (λ x, set_wait_until x until);
  k ← sched_queue_timewait_task k (current k);
  yield fuel now' k.

Definition wait_on_waitflag (fuel : nat) (now waitflag : Z) (k : kernel) : outcome kernel :=
  '(w, r) ← atomic_cmp_and_swap (words k) waitflag 1 0;
  let k := with_words k w in
  if r =? 1 then Ret (with_words k (<[waitflag := 0]> (words k))) else
  let t := current k in
  k ← put_task k t (λ x, set_waitflag x waitflag);
  k ← sched_queue_flagwait_task k t;
  yield fuel now k.

Definition wakeup_waitflag (waitflag : Z) (k : kernel) : outcome kernel :=
  irqs_saved k (λ k,
    _ ← deref (words k !! waitflag);
    let k := with_words k (<[waitflag := 1]> (words k)) in
    Ret (with_sch k (set_waitflag_count (sch k) (atomic_inc (waitflag_is_set (sch k)))))).

Definition needs_resched (k : kernel) (t : task) : bool :=
  if truth (waitflag_is_set (sch k)) then true
  else if truth (ticks_left t) then false else true.

(** The log level at which the queues are printed is not modelled. *)
Definition schedule_from_irq (fuel : nat) (now : Z) (k : kernel) : outcome kernel :=
  k ← put_task k (current k) (λ x, set_ticks_left x (s32 (ticks_left x - 1)));
  t ← get_task k (current k);
  if needs_resched k t then schedule fuel now k else Ret k.

Definition sched_timer_cb (fuel : nat) (now : Z) (k : kernel) : outcome kernel := schedule_from_irq fuel now k.

(** ** Task creation

    [tasks_base] and [stacks] are the addresses of the two static arrays; a
    [struct task] is 448 bytes and its list node is at offset 8. *)
Section create.
Context (tasks_base stacks : Z).

Definition task_node (i : Z) : Z := tasks_base + 448 * i + 8.

Definition alloc_task (k : kernel) : outcome (kernel * Z) :=
  if (0 <=? task_idx k) && (task_idx k <? NUM_TASKS) then
    Ret (with_counters k (pid_counter k) (s32 (task_idx k + 1)) (stack_idx k), task_node (task_idx k))
  else Fault.

(** [stack_idx] is a char; nothing checks it against [NUM_STACKS]. *)
Definition alloc_stack (k : kernel) : kernel * Z :=
  let si := u8 (stack_idx k + 1) in
  (with_counters k (pid_counter k) (task_idx k) si, stacks + si * STACK_SIZE).

(** [task_name] is the string without its NUL; the name field holds 64 bytes. *)
Definition task_create (k : kernel) (task_name : list Z) : outcome (kernel * option Z) :=
  '(k, t) ← alloc_task k;
  let new_pid := pid_counter k in
  let k := with_counters k (u64 (pid_counter k + 1)) (task_idx k) (stack_idx k) in
  k ← put_task k t (λ x, Task new_pid (name x) (stack_base x) PREEMPT_TICKS (ticks_total x)
                           (task_state x) (timer_wait_until x) (waitflag x));
  if 64 <? Z.of_nat (length task_name) then Ret (k, None) else
  if 64 <? Z.of_nat (length task_name) + 1 then Fault else
  k ← put_task k t (λ x, Task (pid x) task_name (stack_base x) (ticks_left x) (ticks_total x)
                           (task_state x) (timer_wait_until x) (waitflag x));
  let '(k, stack) := alloc_stack k in
  σ ← INIT_LIST_HEAD (hp k) t;
  let k := with_hp k σ in
  k ← put_task k t (λ x, Task (pid x) (name x) stack (ticks_left x) (ticks_total x)
                           TASK_STATE_STOPPED (timer_wait_until x) (waitflag x));
  Ret (k, Some t).
End create.

(** ** Start-up *)
Definition zero_task : task := Task 0 [] 0 0 0 0 0 0.

(** [memset(&tasks, 0, sizeof(tasks))]: the fields and the list nodes. *)
Definition clear_tasks (tasks_base : Z) (k : kernel) : kernel :=
  let nodes := map (λ i, task_node tasks_base (Z.of_nat i)) (seq 0 (Z.to_nat NUM_TASKS)) in
  with_hp (with_tasks k (foldr (λ n ts, <[n := zero_task]> ts) (tasks k) nodes))
    (foldr (λ n σ, <[n := ListHead NULL NULL]> σ) (hp k) nodes).

Definition set_idle (k : kernel) (t : Z) : kernel :=
  Kernel (hp k) (tasks k) (words k) (sch k) (current k) t (irq_on k)
    (pid_counter k) (task_idx k) (stack_idx k) (sched_num_switches k).

Definition idle_name : list Z := [105; 100; 108; 101].
Definition init_name : list Z := [105; 110; 105; 116].

(** The created task, or a fault: [task_create] returns an error pointer that
    the callers below would dereference. *)
Definition created (r : kernel * option Z) : outcome (kernel * Z) :=
  match r with (k, Some t) => Ret (k, t) | (_, None) => Fault end.

(** [interrupt_enable] is the result of the timer's callback, if it has one. *)
Definition scheduler_init (tasks_base stacks : Z) (interrupt_enable : option Z) (k : kernel) : outcome kernel :=
  '(σ, s) ← pcpu_scheduler_init (hp k) (sch k);
  let k := with_sch (with_hp k σ) s in
  let k := clear_tasks tasks_base (with_counters k (pid_counter k) 0 0) in
  '(k, idle) ← (r ← task_create tasks_base stacks k idle_name; created r);
  let k := set_idle k idle in
  k ← sched_queue_runnable_task k idle;
  '(k, init) ← (r ← task_create tasks_base stacks k init_name; created r);
  k ← sched_queue_runnable_task k init;
  _ ← BUG (match interrupt_enable with Some r => negb (r =? 0) | None => false end);
  Ret (with_irq (set_current k init) true).

(** ** Invariant

    [qinv k R T F]: the three queues hold the tasks [R], [T] and [F] in this
    order, and every task's state says which queue it is on. *)
Definition queues (k : kernel) (R T F : list Z) : list (Z * list Z) :=
  [(running (sch k), R); (timer_waiting (sch k), T); (flag_waiting (sch k), F)].

Definition runnable (t : task) : Prop := task_state t = TASK_STATE_SCHEDULED ∨ task_state t = TASK_STATE_RUNNING.
Definition on_timer (t : task) : Prop := task_state t = TASK_STATE_TIMEWAITING.
Definition on_flag (w : gmap Z Z) (t : task) : Prop :=
  task_state t = TASK_STATE_FLAGWAITING ∧ waitflag t ≠ NULL ∧ is_Some (w !! waitflag t).

Definition all_tasks (k : kernel) (P : task → Prop) (l : list Z) : Prop :=
  ∀ x, x ∈ l → ∃ t, tasks k !! x = Some t ∧ P t.

Record qinv (k : kernel) (R T F : list Z) : Prop := {
  q_rings : rings (hp k) (queues k R T F);
  q_null : hp k !! NULL = None;
  q_run : all_tasks k runnable R;
  q_timer : all_tasks k on_timer T;
  q_flag : all_tasks k (on_flag (words k)) F
}.

(** The number of flags that are set. *)
Definition set_count (w : gmap Z Z) : Z := Z.of_nat (size (filter (λ p : Z * Z, p.2 ≠ 0) w)).

(** The state between two scheduler calls: the running task and the idle task
    are runnable, and the counter is at least the number of set flags. *)
Record sched_inv (k : kernel) (R T F : list Z) : Prop := {
  s_q : qinv k R T F;
  s_cur : current k ∈ R ++ T ++ F;
  s_idle : idle_task k ∈ R;
  s_count : set_count (words k) ≤ waitflag_is_set (sch k) ≤ 0xffffffffffff0000
}.

(** ** Queueing *)
Lemma dring_next σ h xs x ys : dring σ h (xs ++ x :: ys) →
  next_of σ x = Some (match ys with [] => h | z :: _ => z end).
Proof.
  intros [_ Hp]. apply path_app in Hp as [_ Hp]. destruct ys; simpl in Hp; [by destruct Hp|].
  by destruct Hp as [[? _] _].
Qed.

Lemma dring_first σ h xs : dring σ h xs → next_of σ h = Some (match xs with [] => h | z :: _ => z end).
Proof. intros [_ Hp]. destruct xs; simpl in Hp; [by destruct Hp|]. by destruct Hp as [[? _] _]. Qed.

Lemma queues_lookup k R T F i p : queues k R T F !! i = Some p →
  (i = 0%nat ∧ p = (running (sch k), R)) ∨ (i = 1%nat ∧ p = (timer_waiting (sch k), T)) ∨
  (i = 2%nat ∧ p = (flag_waiting (sch k), F)).
Proof. destruct i as [|[|[|i]]]; intros E; simplify_eq/=; auto. Qed.

Lemma qinv_NoDup k R T F : qinv k R T F →
  (∀ x, x ∈ R → x ∉ T ∧ x ∉ F) ∧ (∀ x, x ∈ T → x ∉ R ∧ x ∉ F) ∧ (∀ x, x ∈ F → x ∉ R ∧ x ∉ T).
Proof.
  intros [[_ Hd] _ _ _ _].
  pose proof (Hd 0%nat 1%nat _ _ ltac:(done) eq_refl eq_refl) as H01.
  pose proof (Hd 0%nat 2%nat _ _ ltac:(done) eq_refl eq_refl) as H02.
  pose proof (Hd 1%nat 2%nat _ _ ltac:(done) eq_refl eq_refl) as H12.
  unfold rings_disjoint in *. simpl in *.
  split_and!; intros x Hx; split; intros Hx';
    first [apply (H01 x); set_solver|apply (H02 x); set_solver|apply (H12 x); set_solver].
Qed.

Lemma member_not_head k R T F x i p : rings (hp k) (queues k R T F) → x ∈ R ++ T ++ F →
  queues k R T F !! i = Some p → x ≠ p.1.
Proof.
  intros [Hr Hd] Hx Hi ->.
  assert (∃ j q, queues k R T F !! j = Some q ∧ p.1 ∈ q.2) as (j & q & Hj & Hq).
  { rewrite !elem_of_app in Hx. destruct Hx as [Hx|[Hx|Hx]]; [exists 0%nat|exists 1%nat|exists 2%nat];
      eexists; (split; [reflexivity|done]). }
  destruct (decide (i = j)) as [->|Hne].
  - simplify_eq. destruct (Hr _ _ Hi) as [Hnd _]. apply NoDup_cons in Hnd as [? _]. done.
  - apply (Hd i j _ _ Hne Hi Hj p.1); set_solver.
Qed.

Lemma queue_task_rings k R T F x t i h l state :
  rings (hp k) (queues k R T F) → hp k !! NULL = None → x ∈ R ++ T ++ F → tasks k !! x = Some t →
  queues k R T F !! i = Some (h, l) →
  ∃ σ', queue_task k x h state
      = Ret (with_tasks (with_hp k σ') (<[x := set_state t state]> (tasks k))) ∧
    rings σ' (<[i := (h, del x l ++ [x])]> (del_all x (queues k R T F))) ∧ σ' !! NULL = None.
Proof.
  intros Hr Hnull Hx Ht Hi. destruct (requeue_rings (hp k) (queues k R T F) x i h l Hr) as (σ' & E & Hr' & Hag).
  - intros j p Hj. by eapply member_not_head.
  - left. rewrite !elem_of_app in Hx. destruct Hx as [Hx|[Hx|Hx]]; [exists 0%nat|exists 1%nat|exists 2%nat];
      eexists; (split; [reflexivity|done]).
  - done.
  - exists σ'. unfold queue_task. rewrite E, bind_ret. unfold put_task, get_task. cbn [tasks with_hp]. rewrite Ht.
    split; [done|]. split; [done|]. apply eq_None_not_Some. rewrite (proj2 (Hag NULL)), Hnull.
    intros Hs. by apply is_Some_None in Hs.
Qed.

Lemma all_tasks_insert k k' P l l' x t : all_tasks k P l → tasks k' = <[x := t]> (tasks k) →
  (∀ y, y ∈ l' → y ≠ x → y ∈ l) → (x ∈ l' → P t) → all_tasks k' P l'.
Proof.
  intros H E Hsub Hx y Hy. rewrite E. destruct (decide (y = x)) as [->|Hne].
  - rewrite lookup_insert_eq. exists t. split; [done|auto].
  - rewrite lookup_insert_ne by done. auto.
Qed.

Lemma in_del x y l : y ∈ del x l → y ∈ l.
Proof. rewrite elem_of_del. tauto. Qed.

Lemma not_in_del x l : x ∉ del x l.
Proof. rewrite elem_of_del. tauto. Qed.

Lemma all_tasks_moved k k' P l x t : all_tasks k P l → tasks k' = <[x := t]> (tasks k) →
  all_tasks k' P (del x l).
Proof.
  intros H E. eapply all_tasks_insert; [done|exact E| |]; intros; [by eapply in_del|].
  exfalso. by eapply not_in_del.
Qed.

(** The three queue operations on a task of any queue. *)
Lemma queue_runnable_ok k R T F x : qinv k R T F → x ∈ R ++ T ++ F →
  ∃ t σ', tasks k !! x = Some t ∧
    let k' := with_tasks (with_hp k σ') (<[x := set_state t TASK_STATE_SCHEDULED]> (tasks k)) in
    sched_queue_runnable_task_noirq k x = Ret k' ∧ qinv k' (del x R ++ [x]) (del x T) (del x F).
Proof.
  intros Hq Hx. pose proof Hq as [Hr Hn HR HT HF].
  assert (∃ t, tasks k !! x = Some t) as [t Ht].
  { rewrite !elem_of_app in Hx. destruct Hx as [Hx|[Hx|Hx]];
      [destruct (HR x Hx) as (t & ? & _)|destruct (HT x Hx) as (t & ? & _)|destruct (HF x Hx) as (t & ? & _)];
      by exists t. }
  destruct (queue_task_rings k R T F x t 0 _ _ TASK_STATE_SCHEDULED Hr Hn Hx Ht eq_refl) as (σ' & E & Hr' & Hn').
  exists t, σ'. split; [done|]. cbv zeta. split; [exact E|]. split; [exact Hr'|exact Hn'| | |].
  - eapply all_tasks_insert; [exact HR|reflexivity| |by left]. intros y Hy Hne. cbn in Hy.
    rewrite elem_of_app, elem_of_del, list_elem_of_singleton in Hy. tauto.
  - by eapply all_tasks_moved.
  - by eapply all_tasks_moved.
Qed.

Lemma queue_timewait_ok k R T F x : qinv k R T F → x ∈ R ++ T ++ F →
  ∃ t σ', tasks k !! x = Some t ∧
    let k' := with_tasks (with_hp k σ') (<[x := set_state t TASK_STATE_TIMEWAITING]> (tasks k)) in
    sched_queue_timewait_task_noirq k x = Ret k' ∧ qinv k' (del x R) (del x T ++ [x]) (del x F).
Proof.
  intros Hq Hx. pose proof Hq as [Hr Hn HR HT HF].
  assert (∃ t, tasks k !! x = Some t) as [t Ht].
  { rewrite !elem_of_app in Hx. destruct Hx as [Hx|[Hx|Hx]];
      [destruct (HR x Hx) as (t & ? & _)|destruct (HT x Hx) as (t & ? & _)|destruct (HF x Hx) as (t & ? & _)];
      by exists t. }
  destruct (queue_task_rings k R T F x t 1 _ _ TASK_STATE_TIMEWAITING Hr Hn Hx Ht eq_refl) as (σ' & E & Hr' & Hn').
  exists t, σ'. split; [done|]. cbv zeta. split; [exact E|]. split; [exact Hr'|exact Hn'| | |].
  - by eapply all_tasks_moved.
  - eapply all_tasks_insert; [exact HT|reflexivity| |done]. intros y Hy Hne. cbn in Hy.
    rewrite elem_of_app, elem_of_del, list_elem_of_singleton in Hy. tauto.
  - by eapply all_tasks_moved.
Qed.

Lemma queue_flagwait_ok k R T F x t0 : qinv k R T F → x ∈ R ++ T ++ F → tasks k !! x = Some t0 →
  waitflag t0 ≠ NULL → is_Some (words k !! waitflag t0) →
  ∃ σ', let k' := with_tasks (with_hp k σ') (<[x := set_state t0 TASK_STATE_FLAGWAITING]> (tasks k)) in
    sched_queue_flagwait_task_noirq k x = Ret k' ∧ qinv k' (del x R) (del x T) (del x F ++ [x]).
Proof.
  intros Hq Hx Ht Hf Hw. pose proof Hq as [Hr Hn HR HT HF].
  destruct (queue_task_rings k R T F x t0 2 _ _ TASK_STATE_FLAGWAITING Hr Hn Hx Ht eq_refl) as (σ' & E & Hr' & Hn').
  exists σ'. cbv zeta. split; [exact E|]. split; [exact Hr'|exact Hn'| | |].
  - by eapply all_tasks_moved.
  - by eapply all_tasks_moved.
  - eapply all_tasks_insert; [exact HF|reflexivity| |done]. intros y Hy Hne. cbn in Hy.
    rewrite elem_of_app, elem_of_del, list_elem_of_singleton in Hy. tauto.
Qed.

(** Changing fields of a task other than its state. *)
Lemma qinv_put k R T F x t f : qinv k R T F → tasks k !! x = Some t →
  task_state (f t) = task_state t → (x ∈ F → waitflag (f t) = waitflag t) →
  put_task k x f = Ret (with_tasks k (<[x := f t]> (tasks k))) ∧
  qinv (with_tasks k (<[x := f t]> (tasks k))) R T F.
Proof.
  intros [Hr Hn HR HT HF] Ht Hs Hwf. unfold put_task, get_task. rewrite Ht. split; [done|].
  split; try done; (eapply all_tasks_insert; [eassumption|reflexivity|auto|]); intros Hx.
  - destruct (HR x Hx) as (t' & Ht' & Hp). simplify_eq. unfold runnable in *. by rewrite Hs.
  - destruct (HT x Hx) as (t' & Ht' & Hp). simplify_eq. unfold on_timer in *. by rewrite Hs.
  - destruct (HF x Hx) as (t' & Ht' & Hp). simplify_eq. unfold on_flag in *. by rewrite Hs, Hwf.
Qed.

(** ** The waiting queues *)
Definition until_of (k : kernel) (x : Z) : Z := match tasks k !! x with Some t => timer_wait_until t | None => 0 end.
Definition waitflag_of (k : kernel) (x : Z) : Z := match tasks k !! x with Some t => waitflag t | None => 0 end.

(** [k'] is [k] up to list links and task states. *)
Definition sframe (k k' : kernel) : Prop :=
  sch k' = sch k ∧ words k' = words k ∧ current k' = current k ∧ idle_task k' = idle_task k ∧
  ∀ y t, tasks k !! y = Some t → ∃ s, tasks k' !! y = Some (set_state t s).

Lemma set_state_id t : set_state t (task_state t) = t.
Proof. by destruct t. Qed.

Lemma sframe_refl k : sframe k k.
Proof. split_and!; try done. intros y t H. exists (task_state t). by rewrite set_state_id. Qed.

Lemma sframe_trans k1 k2 k3 : sframe k1 k2 → sframe k2 k3 → sframe k1 k3.
Proof.
  intros (A1 & A2 & A3 & A4 & A5) (B1 & B2 & B3 & B4 & B5). split_and!; try congruence.
  intros y t H. destruct (A5 y t H) as [s Hs]. destruct (B5 y _ Hs) as [s' Hs']. by exists s'.
Qed.

Lemma sframe_state k σ x t s : tasks k !! x = Some t →
  sframe k (with_tasks (with_hp k σ) (<[x := set_state t s]> (tasks k))).
Proof.
  intros Ht. split_and!; try done. intros y t' H. cbn. destruct (decide (y = x)) as [->|].
  - rewrite lookup_insert_eq. simplify_eq. by exists s.
  - rewrite lookup_insert_ne by done. exists (task_state t'). by rewrite set_state_id.
Qed.

Lemma sframe_fields k k' x t : sframe k k' → tasks k !! x = Some t →
  ∃ t', tasks k' !! x = Some t' ∧ timer_wait_until t' = timer_wait_until t ∧ waitflag t' = waitflag t.
Proof. intros (_ & _ & _ & _ & H) Ht. destruct (H x t Ht) as [s Hs]. by eexists. Qed.

Lemma qinv_dring k R T F : qinv k R T F →
  dring (hp k) (running (sch k)) R ∧ dring (hp k) (timer_waiting (sch k)) T ∧
  dring (hp k) (flag_waiting (sch k)) F.
Proof. intros [[Hr _] _ _ _ _]. split_and!; [exact (Hr 0%nat _ eq_refl)|exact (Hr 1%nat _ eq_refl)|exact (Hr 2%nat _ eq_refl)]. Qed.

Lemma dring_middle σ h xs x ys : dring σ h (xs ++ x :: ys) → x ∉ xs ∧ x ∉ ys.
Proof. intros H%dring_delete_NoDup. set_solver. Qed.

Lemma dring_first_entry σ h xs : dring σ h xs →
  list_first_entry σ h = Ret (match xs with [] => h | z :: _ => z end).
Proof. intros H. unfold list_first_entry. by apply get_next_ok, dring_first. Qed.

(** Expired timers: the queue is walked once, in order, and the tasks whose
    time has come go to the end of the run queue. *)
Lemma timer_loop fuel now k R T F : qinv k R T F → (length T < fuel)%nat →
  ∃ k', schedule_handle_timer_waiting fuel now k = Ret k' ∧
    qinv k' (R ++ filter (λ x, until_of k x ≤ now) T) (filter (λ x, ¬ until_of k x ≤ now) T) F ∧
    sframe k k'.
Proof.
  intros Hq Hf.
  set (I := λ rest k', ∃ d, T = d ++ rest ∧
    qinv k' (R ++ filter (λ x, until_of k x ≤ now) d) (filter (λ x, ¬ until_of k x ≤ now) d ++ rest) F ∧ sframe k k').
  assert (∀ rest s, I rest s → timer_waiting (sch s) = timer_waiting (sch k)) as Hsch.
  { intros rest s (d & _ & _ & (-> & _)). done. }
  destruct (list_for_each_entry_safe_ok hp (timer_waiting (sch k)) (λ k t,
      x ← get_task k t;
      if timer_wait_until x <=? now then sched_queue_runnable_task_noirq k t else Ret k) I)
    with (xs := T) (s := k) (fuel := fuel) as (k' & E & d & Ed & Hq' & Hfr).
  - intros rest s HI. pose proof (Hsch _ _ HI) as Es. destruct HI as (d & -> & Hs & _).
    apply qinv_dring in Hs as (_ & Ht & _). rewrite Es in Ht. split; [eexists; by eapply dring_first|].
    destruct Ht as [Hnd _]. apply NoDup_cons in Hnd as [Hnd _]. set_solver.
  - intros x rest s HI. pose proof (Hsch _ _ HI) as Es. destruct HI as (d & -> & Hs & _).
    apply qinv_dring in Hs as (_ & Ht & _). rewrite Es in Ht. by eapply dring_next.
  - intros x rest s HI. pose proof (Hsch _ _ HI) as Es. destruct HI as (d & -> & Hs & Hfr).
    pose proof (qinv_dring _ _ _ _ Hs) as (_ & Hdt & _). apply dring_middle in Hdt as [Hx1 Hx2].
    destruct (q_timer _ _ _ _ Hq x) as (t & Ht & _); [set_solver|].
    destruct (sframe_fields _ _ _ _ Hfr Ht) as (t' & Ht' & Hu & _). unfold get_task. rewrite Ht'. cbn [deref].
    rewrite bind_ret, Hu. assert (until_of k x = timer_wait_until t) as Eu by (unfold until_of; by rewrite Ht).
    destruct (Z.leb_spec (timer_wait_until t) now) as [Hle|Hgt].
    + destruct (queue_runnable_ok s _ _ _ x Hs ltac:(set_solver)) as (t2 & σ' & Ht2 & E & Hq2).
      eexists. split; [exact E|]. exists (d ++ [x]). rewrite <- app_assoc. split; [done|]. split.
      * rewrite !filter_app, !filter_cons, !filter_nil, decide_True, decide_False by (rewrite Eu; lia || (intros Hn; apply Hn; lia)).
        pose proof (qinv_NoDup _ _ _ _ Hs) as (_ & HT & _). destruct (HT x ltac:(set_solver)) as [HxR HxF].
        rewrite del_notin in Hq2 by done. rewrite del_split in Hq2 by done. rewrite (del_notin x F) in Hq2 by done.
        rewrite app_nil_r, app_assoc. exact Hq2.
      * eapply sframe_trans; [exact Hfr|]. by apply sframe_state.
    + exists s. split; [done|]. exists (d ++ [x]). rewrite <- app_assoc. split; [done|]. split; [|done].
      rewrite !filter_app, !filter_cons, !filter_nil, decide_False, decide_True by (rewrite Eu; lia).
      rewrite app_nil_r, <- app_assoc. exact Hs.
  - exists []. split; [done|]. split; [|apply sframe_refl]. rewrite !filter_nil. by rewrite app_nil_r.
  - apply dring_first_entry. by apply (qinv_dring _ _ _ _ Hq).
  - done.
  - rewrite app_nil_r in Ed. subst d. exists k'. split; [exact E|]. split; [|done]. by rewrite app_nil_r in Hq'.
Qed.

(** One task of the flag queue: woken if its flag is set, which clears it. *)
Definition wake_step (wf : Z → Z) (a : list Z * list Z * gmap Z Z) (x : Z) : list Z * list Z * gmap Z Z :=
  let '(woken, kept, w) := a in
  match w !! wf x with
  | Some v => if truth v then (woken ++ [x], kept, <[wf x := 0]> w) else (woken, kept ++ [x], w)
  | None => (woken, kept ++ [x], w)
  end.

Definition wake (wf : Z → Z) (w : gmap Z Z) (F : list Z) : list Z * list Z * gmap Z Z :=
  foldl (wake_step wf) ([], [], w) F.

Lemma wake_snoc wf w F x : wake wf w (F ++ [x]) = wake_step wf (wake wf w F) x.
Proof. unfold wake. by rewrite foldl_app. Qed.

Lemma set_count_nonneg w : 0 ≤ set_count w.
Proof. unfold set_count. lia. Qed.

Lemma set_count_clear w f v : w !! f = Some v → v ≠ 0 → set_count (<[f := 0]> w) = set_count w - 1.
Proof.
  intros Hf Hv. unfold set_count. rewrite map_filter_insert_False by (simpl; auto).
  rewrite map_filter_delete. assert (filter (λ p : Z * Z, p.2 ≠ 0) w !! f = Some v) as Hl.
  { by apply map_lookup_filter_Some. }
  rewrite map_size_delete_Some by done.
  assert (size (filter (λ p : Z * Z, p.2 ≠ 0) w) ≠ 0%nat); [|lia].
  intros H0%map_size_empty_inv. by rewrite H0, lookup_empty in Hl.
Qed.

Lemma set_count_zero_le w f : set_count (<[f := 0]> w) ≤ set_count w.
Proof.
  unfold set_count. rewrite map_filter_insert_False by (simpl; auto). rewrite map_filter_delete.
  destruct (filter (λ p : Z * Z, p.2 ≠ 0) w !! f) eqn:E.
  - rewrite map_size_delete_Some by done. lia.
  - rewrite delete_id by done. lia.
Qed.

Lemma set_count_set_le w f : set_count (<[f := 1]> w) ≤ set_count w + 1.
Proof.
  unfold set_count. rewrite map_filter_insert_True by (simpl; lia).
  destruct (filter (λ p : Z * Z, p.2 ≠ 0) w !! f) eqn:E.
  - rewrite map_size_insert_Some by done. lia.
  - rewrite map_size_insert_None by done. lia.
Qed.

(** [k'] is [k] up to links, states, flags of tasks, the flag words and the
    counter. *)
Definition same_heads (s s' : scheduler) : Prop :=
  running s' = running s ∧ timer_waiting s' = timer_waiting s ∧ flag_waiting s' = flag_waiting s.

Definition fframe (k k' : kernel) : Prop :=
  same_heads (sch k) (sch k') ∧ current k' = current k ∧ idle_task k' = idle_task k ∧
  ∀ y t, tasks k !! y = Some t → ∃ s f, tasks k' !! y = Some (set_waitflag (set_state t s) f).

Lemma all_tasks_mono k P Q l : all_tasks k P l → (∀ t, P t → Q t) → all_tasks k Q l.
Proof. intros H HPQ x Hx. destruct (H x Hx) as (t & ? & ?). exists t. auto. Qed.

Lemma qinv_words k R T F f v : qinv k R T F → qinv (with_words k (<[f := v]> (words k))) R T F.
Proof.
  intros [Hr Hn HR HT HF]. split; try done. eapply all_tasks_mono; [exact HF|].
  intros t (? & ? & ?). split_and!; try done. cbn. by apply lookup_insert_is_Some'; right.
Qed.

Lemma qinv_sch k R T F n : qinv k R T F → qinv (with_sch k (set_waitflag_count (sch k) n)) R T F.
Proof. by intros [Hr Hn HR HT HF]. Qed.

Lemma wake_none wf w F : set_count w = 0 → wake wf w F = ([], F, w).
Proof.
  intros H0. induction F as [|x F IH] using rev_ind; [done|]. rewrite wake_snoc, IH. unfold wake_step.
  destruct (w !! wf x) as [v|] eqn:E; [|done]. unfold truth. destruct (Z.eqb_spec v 0); [done|].
  exfalso. pose proof (set_count_clear w _ _ E n). pose proof (set_count_nonneg (<[wf x := 0]> w)). lia.
Qed.

Definition wake_inv (k : kernel) (R T F : list Z) (rest : list Z) (k' : kernel) : Prop :=
  ∃ d wk kept w, F = d ++ rest ∧ wake (waitflag_of k) (words k) d = (wk, kept, w) ∧
    qinv k' (R ++ wk) T (kept ++ rest) ∧ words k' = w ∧
    waitflag_is_set (sch k') = waitflag_is_set (sch k) - Z.of_nat (length wk) ∧
    set_count w ≤ waitflag_is_set (sch k') ∧ fframe k k' ∧
    (∀ y, y ∈ rest → waitflag_of k' y = waitflag_of k y).

Lemma wake_inv_step k R T F x rest s :
  waitflag_is_set (sch k) ≤ 0xffffffffffff0000 → NoDup F →
  wake_inv k R T F (x :: rest) s →
  ∃ s', (y ← get_task s x;
      _ ← BUG (waitflag y =? NULL);
      v ← deref (words s !! waitflag y);
      if truth v then
        let k := with_words s (<[waitflag y := 0]> (words s)) in
        k ← put_task k x (λ x, set_waitflag x NULL);
        k ← sched_queue_runnable_task_noirq k x;
        Ret (with_sch k (set_waitflag_count (sch k) (atomic_dec (waitflag_is_set (sch k)))))
      else Ret s) = Ret s' ∧ wake_inv k R T F rest s'.
Proof.
  intros Hlim HndF (d & wk & kept & w & -> & Ew & Hq & <- & Hc & Hcnt & Hfr & Hwf).
  pose proof (qinv_dring _ _ _ _ Hq) as (_ & _ & Hdf). apply dring_middle in Hdf as [Hx1 Hx2].
  pose proof (qinv_NoDup _ _ _ _ Hq) as (_ & _ & HFd). destruct (HFd x ltac:(set_solver)) as [HxR HxT].
  destruct (q_flag _ _ _ _ Hq x) as (t & Ht & Hst & Hnz & [v Hv]); [set_solver|].
  assert (waitflag_of k x = waitflag t) as Ewf.
  { rewrite <- Hwf by set_solver. unfold waitflag_of. by rewrite Ht. }
  assert (x ∉ kept ++ rest) as Hxk by (rewrite elem_of_app; tauto).
  assert (∀ y, y ∈ kept ++ rest → y ∈ kept ++ x :: rest) as Hsub.
  { intros y. rewrite !elem_of_app, elem_of_cons. tauto. }
  unfold get_task. rewrite Ht. cbn [deref]. rewrite bind_ret. destruct (Z.eqb_spec (waitflag t) NULL); [done|].
  cbn [BUG]. rewrite bind_ret, Hv. cbn [deref]. rewrite bind_ret.
  assert (∀ v', v' = v → wake (waitflag_of k) (words k) (d ++ [x]) =
    if truth v' then (wk ++ [x], kept, <[waitflag t := 0]> (words s)) else (wk, kept ++ [x], words s)) as Ew'.
  { intros v' ->. rewrite wake_snoc, Ew. unfold wake_step. by rewrite Ewf, Hv. }
  destruct (truth v) eqn:Ev.
  - assert (v ≠ 0) as Hv0. { unfold truth in Ev. by apply negb_true_iff, Z.eqb_neq in Ev. }
    pose proof (set_count_clear _ _ _ Hv Hv0) as Hclr. pose proof (set_count_nonneg (<[waitflag t := 0]> (words s))).
    set (s1 := with_words s (<[waitflag t := 0]> (words s))). pose proof (qinv_words _ _ _ _ (waitflag t) 0 Hq) as Hq1.
    fold s1 in Hq1. unfold put_task, get_task. change (tasks s1) with (tasks s). rewrite Ht. cbn [deref]. rewrite !bind_ret.
    set (s2 := with_tasks s1 (<[x := set_waitflag t NULL]> (tasks s))).
    (* the task is about to leave the flag queue, so its flag no longer matters there *)
    assert (∃ σ', let k' := with_tasks (with_hp s2 σ') (<[x := set_state (set_waitflag t NULL) TASK_STATE_SCHEDULED]> (tasks s2)) in
      sched_queue_runnable_task_noirq s2 x = Ret k' ∧ qinv k' ((R ++ wk) ++ [x]) T (kept ++ rest)) as (σ' & E & Hq2).
    { destruct Hq1 as [Hr Hn HR HT HF].
      destruct (queue_task_rings s2 _ _ _ x (set_waitflag t NULL) 0 (running (sch s2)) (R ++ wk) TASK_STATE_SCHEDULED Hr Hn)
        as (σ' & E & Hr' & Hn'); [set_solver|by apply lookup_insert_eq|done|].
      exists σ'. cbv zeta. split; [exact E|].
      assert (all_tasks s2 runnable (R ++ wk) ∧ all_tasks s2 on_timer T ∧
        all_tasks s2 (on_flag (words s2)) (kept ++ rest)) as (HR2 & HT2 & HF2).
      { split_and!.
        - eapply all_tasks_insert; [exact HR|reflexivity|by auto|by intros ?%HxR].
        - eapply all_tasks_insert; [exact HT|reflexivity|by auto|by intros ?%HxT].
        - eapply all_tasks_insert; [exact HF|reflexivity|by intros; apply Hsub|by intros ?%Hxk]. }
      assert (rings σ' (queues s2 ((R ++ wk) ++ [x]) T (kept ++ rest))) as Hr2.
      { revert Hr'. cbn [queues del_all map insert list_insert fst snd].
        rewrite (del_notin x (R ++ wk)), (del_notin x T), del_split by done. done. }
      split; [exact Hr2|exact Hn'| | |].
      - eapply all_tasks_insert; [exact HR2|reflexivity| |by left].
        intros y [Hy|Hy%list_elem_of_singleton]%elem_of_app Hne; [done|by subst].
      - eapply all_tasks_insert; [exact HT2|reflexivity|by auto|by intros ?%HxT].
      - eapply all_tasks_insert; [exact HF2|reflexivity|by auto|by intros ?%Hxk]. }
    rewrite E, bind_ret. eexists. split; [reflexivity|].
    assert (1 ≤ waitflag_is_set (sch s)) as Hc1 by lia.
    assert (atomic_dec (waitflag_is_set (sch s)) = waitflag_is_set (sch s) - 1) as Edec.
    { unfold atomic_dec. apply u64_id. lia. }
    exists (d ++ [x]), (wk ++ [x]), kept, (<[waitflag t := 0]> (words s)).
    split; [by rewrite <- app_assoc|]. split; [by rewrite (Ew' v), Ev|].
    split; [rewrite app_assoc; by apply qinv_sch|]. split; [done|].
    cbn [sch with_sch with_tasks with_hp with_words set_waitflag_count waitflag_is_set s2 s1].
    rewrite Edec. split; [rewrite length_app; simpl; lia|]. split; [lia|].
    destruct Hfr as ((A1 & A2 & A3) & B & C & D). split.
    + split; [done|]. split; [done|]. split; [done|]. intros y t' Hy. destruct (D y t' Hy) as (st & f & Hy').
      cbn. rewrite insert_insert_eq. destruct (decide (y = x)) as [->|].
      * rewrite lookup_insert_eq. simplify_eq. exists TASK_STATE_SCHEDULED, NULL. done.
      * rewrite lookup_insert_ne by done. by exists st, f.
    + intros y Hy. rewrite <- Hwf by set_solver. unfold waitflag_of. cbn.
      rewrite insert_insert_eq, lookup_insert_ne by set_solver. done.
  - exists s. split; [done|]. exists (d ++ [x]), wk, (kept ++ [x]), (words s).
    split; [by rewrite <- app_assoc|]. split; [by rewrite (Ew' v), Ev|]. rewrite <- app_assoc.
    split_and!; try done; try apply Hfr. intros y Hy. apply Hwf. set_solver.
Qed.

(** Set flags: the queue is walked once, in order; each task whose flag is set
    consumes the flag, goes to the end of the run queue and lowers the
    counter by one. *)
Lemma flag_loop fuel k R T F : qinv k R T F → (length F < fuel)%nat →
  set_count (words k) ≤ waitflag_is_set (sch k) ≤ 0xffffffffffff0000 →
  ∃ k' wk kept w, schedule_handle_flag_waiting fuel k = Ret k' ∧
    wake (waitflag_of k) (words k) F = (wk, kept, w) ∧ qinv k' (R ++ wk) T kept ∧ words k' = w ∧
    set_count w ≤ waitflag_is_set (sch k') ≤ 0xffffffffffff0000 ∧ fframe k k'.
Proof.
  intros Hq Hf Hcnt. unfold schedule_handle_flag_waiting.
  assert (0xffffffffffff0000 <? waitflag_is_set (sch k) = false) as -> by (apply Z.ltb_ge; lia).
  cbn [BUG]. rewrite bind_ret. pose proof (set_count_nonneg (words k)).
  assert (fframe k k) as Hrefl.
  { split; [done|]. split; [done|]. split; [done|]. intros y t Hy. exists (task_state t), (waitflag t). by destruct t. }
  unfold truth. destruct (Z.eqb_spec (waitflag_is_set (sch k)) 0) as [H0|Hnz]; cbn [negb].
  { exists k, [], F, (words k). rewrite wake_none by lia. rewrite app_nil_r.
    do 4 (split; [done|]). split; [lia|done]. }
  pose proof (qinv_dring _ _ _ _ Hq) as (_ & _ & HdF). pose proof HdF as [HndF%NoDup_cons _].
  assert (∀ rest s, wake_inv k R T F rest s → flag_waiting (sch s) = flag_waiting (sch k)) as Hsch.
  { intros rest s (d & wk & kept & w & _ & _ & _ & _ & _ & _ & ((_ & _ & E) & _) & _). done. }
  destruct (list_for_each_entry_safe_ok hp (flag_waiting (sch k)) (λ k t,
      y ← get_task k t;
      _ ← BUG (waitflag y =? NULL);
      v ← deref (words k !! waitflag y);
      if truth v then
        let k := with_words k (<[waitflag y := 0]> (words k)) in
        k ← put_task k t (λ x, set_waitflag x NULL);
        k ← sched_queue_runnable_task_noirq k t;
        Ret (with_sch k (set_waitflag_count (sch k) (atomic_dec (waitflag_is_set (sch k)))))
      else Ret k) (wake_inv k R T F))
    with (xs := F) (s := k) (fuel := fuel) as (k' & E & HI).
  - intros rest s HI. pose proof (Hsch _ _ HI) as Es. destruct HI as (d & wk & kept & w & -> & _ & Hs & _).
    apply qinv_dring in Hs as (_ & _ & Ht). rewrite Es in Ht. split; [eexists; by eapply dring_first|].
    destruct Ht as [Hnd _]. apply NoDup_cons in Hnd as [Hnd _]. rewrite elem_of_app in Hnd. tauto.
  - intros x rest s HI. pose proof (Hsch _ _ HI) as Es. destruct HI as (d & wk & kept & w & -> & _ & Hs & _).
    apply qinv_dring in Hs as (_ & _ & Ht). rewrite Es in Ht. by eapply dring_next.
  - intros x rest s HI. apply wake_inv_step; [lia|tauto|done].
  - exists [], [], [], (words k). rewrite app_nil_r, Z.sub_0_r. do 5 (split; [done|]). split; [lia|done].
  - by apply dring_first_entry.
  - done.
  - destruct HI as (d & wk & kept & w & Ed & Ew & Hs & Hw & Hc & Hcw & Hfr & _). rewrite app_nil_r in Ed. subst d.
    exists k', wk, kept, w. rewrite app_nil_r in Hs.
    split; [exact E|]. split; [done|]. split; [done|]. split; [done|]. split; [split; lia|done].
Qed.

(** ** What one call of the scheduler does *)
Definition waiting (k : kernel) (x : Z) : bool :=
  match tasks k !! x with
  | Some t => (task_state t =? TASK_STATE_TIMEWAITING) || (task_state t =? TASK_STATE_FLAGWAITING)
  | None => false
  end.

(** The run queue, the timer queue, the flag queue and the flag words after it. *)
Definition schedule_spec (now : Z) (k : kernel) (R T F : list Z) : list Z * list Z * list Z * gmap Z Z :=
  let R1 := if waiting k (current k) then R else del (current k) R ++ [current k] in
  let '(woken, kept, w) := wake (waitflag_of k) (words k) F in
  (R1 ++ filter (λ x, until_of k x ≤ now) T ++ woken, filter (λ x, ¬ until_of k x ≤ now) T, kept, w).

Lemma wake_ext wf wf' w F : (∀ x, x ∈ F → wf x = wf' x) → wake wf w F = wake wf' w F.
Proof.
  intros H. induction F as [|x F IH] using rev_ind; [done|]. rewrite !wake_snoc, IH by set_solver.
  destruct (wake wf' w F) as [[wk kept] w']. unfold wake_step. by rewrite H by set_solver.
Qed.

(** [schedule] on the state after the running task was put back. *)
Lemma schedule_tail fuel now k R T F : qinv k R T F → idle_task k ∈ R →
  set_count (words k) ≤ waitflag_is_set (sch k) ≤ 0xffffffffffff0000 →
  (length T < fuel)%nat → (length F < fuel)%nat →
  ∃ k' wk kept w n R',
    (k ← schedule_handle_timer_waiting fuel now k;
     k ← schedule_handle_flag_waiting fuel k;
     '(k, next_task) ← scheduler_pick_next_task k;
     let next_task := if negb (truth next_task) then idle_task k else next_task in
     k ← put_task k next_task (λ x, set_state x TASK_STATE_RUNNING);
     _ ← BUG (negb (truth next_task));
     Ret (set_current k next_task)) = Ret k' ∧
    wake (waitflag_of k) (words k) F = (wk, kept, w) ∧
    R ++ filter (λ x, until_of k x ≤ now) T ++ wk = n :: R' ∧
    sched_inv k' (n :: R') (filter (λ x, ¬ until_of k x ≤ now) T) kept ∧
    current k' = n ∧ words k' = w ∧ idle_task k' = idle_task k ∧
    (∃ t, tasks k' !! n = Some t ∧ task_state t = TASK_STATE_RUNNING ∧ ticks_left t = PREEMPT_TICKS).
Proof.
  intros Hq Hidle Hcnt HfT HfF. destruct (timer_loop fuel now k R T F Hq HfT) as (k1 & E1 & Hq1 & Hfr1).
  rewrite E1, bind_ret. pose proof Hfr1 as (Es & Ew & Ec & Ei & _).
  destruct (flag_loop fuel k1 _ _ F Hq1 HfF) as (k2 & wk & kept & w & E2 & Ewk & Hq2 & Hw2 & Hcnt2 & Hfr2).
  { by rewrite Ew, Es. }
  rewrite E2, bind_ret. rewrite <- app_assoc in Hq2.
  destruct (R ++ filter (λ x, until_of k x ≤ now) T ++ wk) as [|n R'] eqn:ER.
  { apply app_eq_nil in ER as [-> _]. set_solver. }
  pose proof (qinv_dring _ _ _ _ Hq2) as (Hd & _ & _). unfold scheduler_pick_next_task.
  rewrite (list_empty_ring _ _ _ Hd), bind_ret, bool_decide_false by done. cbn [negb].
  rewrite (dring_first_entry _ _ _ Hd), bind_ret.
  destruct (q_run _ _ _ _ Hq2 n ltac:(set_solver)) as (t & Ht & Hrun).
  destruct (qinv_put _ _ _ _ n t (λ x, set_ticks_left x PREEMPT_TICKS) Hq2 Ht eq_refl (λ _, eq_refl)) as [E3 Hq3].
  rewrite E3, !bind_ret. set (k3 := with_tasks _ _) in *.
  assert (n ≠ NULL) as Hn.
  { intros ->. pose proof (q_null _ _ _ _ Hq2) as H0. destruct (dring_mapped _ _ _ NULL Hd) as [e E]; [set_solver|]. congruence. }
  unfold truth. destruct (Z.eqb_spec n 0); [done|]. cbn [negb]. unfold put_task at 1, get_task.
  assert (tasks k3 !! n = Some (set_ticks_left t PREEMPT_TICKS)) as Et by apply lookup_insert_eq.
  rewrite Et. cbn [deref]. rewrite !bind_ret.
  destruct (Z.eqb_spec n 0); [done|]. cbn [negb BUG]. rewrite bind_ret. eexists. exists wk, kept, w, n, R'. split; [reflexivity|].
  assert (wake (waitflag_of k) (words k) F = (wk, kept, w)) as Ewk'.
  { rewrite <- Ewk, Ew. apply wake_ext. intros x Hx. destruct (q_flag _ _ _ _ Hq x Hx) as (t' & Ht' & _).
    destruct (sframe_fields _ _ _ _ Hfr1 Ht') as (t2 & Ht2 & _ & Ef). unfold waitflag_of. by rewrite Ht', Ht2. }
  destruct Hfr2 as (_ & Ec2 & Ei2 & _).
  split; [exact Ewk'|]. split; [done|]. split; [|split; [done|split; [done|split; [cbn; congruence|]]]].
  - split.
    + destruct Hq3 as [Hr Hnl HR HT HF]. split; [exact Hr|exact Hnl| | |].
      * eapply all_tasks_insert; [exact HR|reflexivity|by auto|by right].
      * eapply all_tasks_insert; [exact HT|reflexivity|by auto|]. intros Hx. exfalso.
        destruct (qinv_NoDup _ _ _ _ Hq2) as (HRd & _ & _). apply (HRd n); set_solver.
      * eapply all_tasks_insert; [exact HF|reflexivity|by auto|]. intros Hx. exfalso.
        destruct (qinv_NoDup _ _ _ _ Hq2) as (HRd & _ & _). apply (HRd n); set_solver.
    + cbn. set_solver.
    + cbn. rewrite Ei2, Ei, <- ER. set_solver.
    + cbn. by rewrite Hw2.
  - eexists. split; [cbn; apply lookup_insert_eq|]. done.
Qed.

Lemma not_waiting_run k R T F x : qinv k R T F → x ∈ R ++ T ++ F → waiting k x = false → x ∈ R.
Proof.
  intros [_ _ _ HT HF] Hx Hw. rewrite !elem_of_app in Hx. destruct Hx as [?|[Hx|Hx]]; [done| |]; exfalso.
  - destruct (HT x Hx) as (t & Ht & Hs). unfold waiting in Hw. rewrite Ht, Hs in Hw. done.
  - destruct (HF x Hx) as (t & Ht & Hs & _). unfold waiting in Hw. rewrite Ht, Hs in Hw. done.
Qed.

Lemma filter_until_ext k k' now (T : list Z) : (∀ x, x ∈ T → until_of k' x = until_of k x) →
  filter (λ x, until_of k' x ≤ now) T = filter (λ x, until_of k x ≤ now) T ∧
  filter (λ x, ¬ until_of k' x ≤ now) T = filter (λ x, ¬ until_of k x ≤ now) T.
Proof.
  intros H. induction T as [|x T IH]; [done|]. destruct IH as [IH1 IH2]; [set_solver|].
  rewrite !filter_cons, IH1, IH2. assert (until_of k' x = until_of k x) as E by (apply H; set_solver).
  split; repeat case_decide; (done || lia).
Qed.

Lemma schedule_ok fuel now k R T F R' T' F' w :
  sched_inv k R T F → (length T < fuel)%nat → (length F < fuel)%nat →
  schedule_spec now k R T F = (R', T', F', w) →
  ∃ k' n, schedule fuel now k = Ret k' ∧ sched_inv k' R' T' F' ∧ head R' = Some n ∧ current k' = n ∧
    words k' = w ∧ idle_task k' = idle_task k ∧
    ∃ t, tasks k' !! n = Some t ∧ task_state t = TASK_STATE_RUNNING ∧ ticks_left t = PREEMPT_TICKS.
Proof.
  intros [Hq Hcur Hidle Hcnt] HfT HfF Hspec. unfold schedule_spec in Hspec.
  assert (qinv (schedule_debug k) R T F) as Hq0 by (by destruct Hq).
  unfold schedule. set (k0 := schedule_debug k) in *.
  assert (∃ p, tasks k0 !! current k = Some p) as [p Hp].
  { destruct Hq as [_ _ HR HT HF]. rewrite !elem_of_app in Hcur. destruct Hcur as [Hx|[Hx|Hx]];
      [destruct (HR _ Hx) as (t & ? & _)|destruct (HT _ Hx) as (t & ? & _)|destruct (HF _ Hx) as (t & ? & _)]; by exists t. }
  unfold get_task at 1. change (current k0) with (current k). rewrite Hp. cbn [deref]. rewrite bind_ret.
  destruct (wake (waitflag_of k) (words k) F) as [[wk kept] w0] eqn:Ewk.
  assert (waiting k (current k) = (task_state p =? TASK_STATE_TIMEWAITING) || (task_state p =? TASK_STATE_FLAGWAITING)) as Ewt.
  { unfold waiting. change (tasks k) with (tasks k0). by rewrite Hp. }
  destruct (waiting k (current k)) eqn:Ew.
  - injection Hspec as <- <- <- <-.
    destruct (schedule_tail fuel now k0 R T F Hq0 Hidle Hcnt HfT HfF)
      as (k' & wk' & kept' & w' & n & R2 & E & Ewk' & ER & Hinv & Hn & Hw & Hi & Ht).
    assert (wake (waitflag_of k) (words k) F = (wk', kept', w')) as Ewk2 by exact Ewk'.
    rewrite Ewk in Ewk2. injection Ewk2 as <- <- <-.
    exists k', n. split.
    { destruct (task_state p =? TASK_STATE_TIMEWAITING); [exact E|]. destruct (task_state p =? TASK_STATE_FLAGWAITING); [exact E|done]. }
    change (until_of k) with (until_of k0) in *. rewrite ER. by split_and!.
  - symmetry in Ewt. apply orb_false_iff in Ewt as [-> ->].
    pose proof (not_waiting_run _ _ _ _ _ Hq Hcur Ew) as HcR.
    destruct (qinv_put k0 R T F (current k) p
      (λ x, set_ticks_total x (s32 (ticks_total x + (PREEMPT_TICKS - ticks_left x)))) Hq0 Hp eq_refl (λ _, eq_refl)) as [E1 Hq1].
    rewrite E1, !bind_ret. set (k1 := with_tasks k0 _) in *.
    destruct (queue_runnable_ok k1 R T F (current k) Hq1 Hcur) as (t1 & σ' & Ht1 & E2 & Hq2). cbv zeta in E2, Hq2.
    rewrite E2, bind_ret. set (k2 := with_tasks (with_hp k1 σ') _) in *.
    destruct (qinv_NoDup _ _ _ _ Hq) as (HRd & _ & _). destruct (HRd _ HcR) as [HcT HcF].
    rewrite (del_notin _ T), (del_notin _ F) in Hq2 by done.
    assert (∀ x, x ≠ current k → tasks k2 !! x = tasks k !! x) as Hother.
    { intros x Hx. unfold k2, k1. cbn. by rewrite !lookup_insert_ne by done. }
    destruct (schedule_tail fuel now k2 (del (current k) R ++ [current k]) T F Hq2)
      as (k' & wk' & kept' & w' & n & R2 & E & Ewk' & ER & Hinv & Hn & Hw & Hi & Ht).
    { change (idle_task k2) with (idle_task k). destruct (decide (idle_task k = current k)) as [->|].
      - set_solver.
      - rewrite elem_of_app, elem_of_del. by left. }
    { exact Hcnt. } { done. } { done. }
    destruct (filter_until_ext k k2 now T) as [Ef1 Ef2].
    { intros x Hx. unfold until_of. rewrite Hother; [done|]. by intros ->. }
    rewrite Ef1 in ER. rewrite Ef2 in Hinv.
    rewrite (wake_ext _ (waitflag_of k)) in Ewk'.
    2:{ intros x Hx. unfold waitflag_of. rewrite Hother; [done|]. by intros ->. }
    change (words k2) with (words k) in Ewk'. rewrite Ewk in Ewk'. injection Ewk' as <- <- <-.
    injection Hspec as <- <- <- <-. exists k', n. split; [exact E|]. rewrite ER. by split_and!.
Qed.

(** C2: one call of [schedule] never panics or faults.  It puts the running
    task at the end of the run queue unless it waits, appends the tasks whose
    timers expired and then those whose flags are set (consuming the flags),
    and runs the first task of the result with a full quantum; the queue
    invariant is kept. *)
Theorem schedule_refines fuel now k R T F R' T' F' w :
  sched_inv k R T F → (length T < fuel)%nat → (length F < fuel)%nat →
  schedule_spec now k R T F = (R', T', F', w) →
  ∃ k' n, schedule fuel now k = Ret k' ∧ sched_inv k' R' T' F' ∧ head R' = Some n ∧ current k' = n ∧
    words k' = w ∧
    ∃ t, tasks k' !! n = Some t ∧ task_state t = TASK_STATE_RUNNING ∧ ticks_left t = PREEMPT_TICKS.
Proof.
  intros H1 H2 H3 H4. destruct (schedule_ok fuel now k R T F R' T' F' w H1 H2 H3 H4)
    as (k' & n & ? & ? & ? & ? & ? & _ & ?). exists k', n. by split_and!.
Qed.

(** ** Every operation keeps the kernel schedulable *)

(** Between two operations the running task is the head of the run queue. *)
Definition running_inv (k : kernel) (R T F : list Z) : Prop :=
  sched_inv k R T F ∧ head R = Some (current k).

Inductive op : Type :=
| Op_wait_on_timer_ms (now now' freq msec : Z)
| Op_wait_on_waitflag (now flag : Z)
| Op_wakeup_waitflag (flag : Z)
| Op_timer_irq (now : Z)
| Op_yield (now : Z).

Definition run_op (fuel : nat) (o : op) (k : kernel) : outcome kernel :=
  match o with
  | Op_wait_on_timer_ms now now' freq msec => wait_on_timer_ms fuel now now' freq msec k
  | Op_wait_on_waitflag now flag => wait_on_waitflag fuel now flag k
  | Op_wakeup_waitflag flag => wakeup_waitflag flag k
  | Op_timer_irq now => sched_timer_cb fuel now k
  | Op_yield now => yield fuel now k
  end.

(** The idle task never waits, and flags are mapped words. *)
Definition op_ok (k : kernel) (o : op) : Prop :=
  match o with
  | Op_wait_on_timer_ms _ _ _ _ => current k ≠ idle_task k
  | Op_wait_on_waitflag _ f => current k ≠ idle_task k ∧ f ≠ NULL ∧ is_Some (words k !! f)
  | Op_wakeup_waitflag f => is_Some (words k !! f) ∧ waitflag_is_set (sch k) < 0xffffffffffff0000
  | _ => True
  end.

Lemma wake_length wf w F wk kept w' : wake wf w F = (wk, kept, w') → (length wk + length kept = length F)%nat.
Proof.
  revert wk kept w'. induction F as [|x F IH] using rev_ind; intros wk kept w' E.
  { injection E as <- <- _. done. }
  rewrite wake_snoc in E. destruct (wake wf w F) as [[a b] c]. specialize (IH a b c eq_refl). unfold wake_step in E.
  rewrite length_app. simpl. destruct (c !! wf x) as [v|]; [destruct (truth v)|];
    injection E as <- <- <-; rewrite length_app; simpl; lia.
Qed.

Lemma filter_length_split (P : Z → Prop) `{!∀ x, Decision (P x)} (l : list Z) :
  (length (filter P l) + length (filter (λ x, ¬ P x) l) = length l)%nat.
Proof.
  induction l as [|x l IH]; [done|]. rewrite !filter_cons.
  destruct (decide (P x)); [rewrite decide_False by tauto|rewrite decide_True by done]; simpl; lia.
Qed.

Lemma schedule_spec_lengths now k R T F R1 T' F' w R' :
  schedule_spec now k R T F = (R', T', F', w) →
  R1 = (if waiting k (current k) then R else del (current k) R ++ [current k]) →
  length (R' ++ T' ++ F') = (length R1 + length T + length F)%nat.
Proof.
  unfold schedule_spec. intros E ->. destruct (wake _ _ _) as [[wk kept] w0] eqn:Ew.
  apply wake_length in Ew. injection E as <- <- <- <-.
  pose proof (filter_length_split (λ x, until_of k x ≤ now) T). rewrite !length_app. lia.
Qed.

Lemma running_head k R T F : running_inv k R T F →
  ∃ rest, R = current k :: rest ∧ waiting k (current k) = false ∧ current k ∉ rest ∧
    del (current k) R = rest ∧ current k ∉ T ∧ current k ∉ F.
Proof.
  intros [[Hq _ _ _] Hh]. destruct R as [|c rest]; [done|]. injection Hh as ->. exists rest. split; [done|].
  destruct (q_run _ _ _ _ Hq (current k) ltac:(set_solver)) as (t & Ht & Hrun).
  pose proof (qinv_dring _ _ _ _ Hq) as (Hd & _ & _). destruct Hd as [[_ [Hc _]%NoDup_cons]%NoDup_cons _].
  pose proof (qinv_NoDup _ _ _ _ Hq) as (HR & _ & _). destruct (HR (current k) ltac:(set_solver)).
  split_and!; try done.
  - unfold waiting. rewrite Ht. by destruct Hrun as [-> | ->].
  - change (current k :: rest) with ([] ++ current k :: rest). by rewrite del_split by set_solver.
Qed.

(** A call of the scheduler by a runnable task. *)
Lemma yield_safe fuel now k R T F : running_inv k R T F → (length (R ++ T ++ F) < fuel)%nat →
  ∃ k' R' T' F', schedule fuel now k = Ret k' ∧ running_inv k' R' T' F' ∧
    length (R' ++ T' ++ F') = length (R ++ T ++ F) ∧ schedule_spec now k R T F = (R', T', F', words k') ∧
    idle_task k' = idle_task k.
Proof.
  intros Hi Hf. pose proof Hi as [Hs _]. rewrite !length_app in Hf.
  destruct (schedule_spec now k R T F) as [[[R' T'] F'] w] eqn:E.
  destruct (schedule_ok fuel now k R T F R' T' F' w Hs ltac:(lia) ltac:(lia) E)
    as (k' & n & E1 & Hs' & Hh & Hc & Hw & Hid & _).
  exists k', R', T', F'. split; [done|]. split; [split; [done|by rewrite Hc]|].
  rewrite (schedule_spec_lengths _ _ _ _ _ _ _ _ _ _ E eq_refl).
  destruct (running_head _ _ _ _ Hi) as (rest & ER & Hwt & _ & Hdel & _ & _).
  rewrite Hwt, Hdel, !length_app. rewrite ER at 1. cbn [length]. split; [lia|]. by rewrite Hw.
Qed.

(** A call of the scheduler by a task that has just queued itself to wait. *)
Lemma wait_safe fuel now k R T F : sched_inv k R T F → waiting k (current k) = true →
  (length (R ++ T ++ F) < fuel)%nat →
  ∃ k' R' T' F', schedule fuel now k = Ret k' ∧ running_inv k' R' T' F' ∧
    length (R' ++ T' ++ F') = length (R ++ T ++ F).
Proof.
  intros Hs Hwt Hf. rewrite !length_app in Hf. destruct (schedule_spec now k R T F) as [[[R' T'] F'] w] eqn:E.
  destruct (schedule_ok fuel now k R T F R' T' F' w Hs ltac:(lia) ltac:(lia) E)
    as (k' & n & E1 & Hs' & Hh & Hc & _).
  exists k', R', T', F'. split; [done|]. split; [split; [done|by rewrite Hc]|].
  rewrite (schedule_spec_lengths _ _ _ _ _ _ _ _ _ _ E eq_refl), Hwt, !length_app. lia.
Qed.

Lemma sched_inv_irq k R T F b : sched_inv (with_irq k b) R T F ↔ sched_inv k R T F.
Proof. split; intros [[H1 H2 H3 H4 H5] H6 H7 H8]; split; try done; by split. Qed.

Lemma waiting_irq k b x : waiting (with_irq k b) x = waiting k x.
Proof. done. Qed.

Lemma wakeup_ok f k R T F : running_inv k R T F → is_Some (words k !! f) →
  waitflag_is_set (sch k) < 0xffffffffffff0000 →
  ∃ k', wakeup_waitflag f k = Ret k' ∧ running_inv k' R T F ∧ words k' = <[f := 1]> (words k) ∧ tasks k' = tasks k ∧
    idle_task k' = idle_task k.
Proof.
  intros [[Hq Hcur Hidle Hcnt] Hh] [v Hv] Hlim. unfold wakeup_waitflag, irqs_saved. cbn [words with_irq]. rewrite Hv. cbn [deref].
  rewrite !bind_ret. eexists. split; [reflexivity|]. split; [|done]. split; [|exact Hh].
  apply sched_inv_irq. split; [|exact Hcur|exact Hidle|].
  - apply (qinv_sch (with_words (with_irq k false) (<[f := 1]> (words k)))).
    apply (qinv_words (with_irq k false)). by destruct Hq.
  - cbn. pose proof (set_count_set_le (words k) f). pose proof (set_count_nonneg (words k)).
    unfold atomic_inc. rewrite u64_id by lia. lia.
Qed.

(** Waiting on a flag that is not 1 switches the task out. *)
Lemma scheduler_wait_ok fuel now f k R T F v : running_inv k R T F → current k ≠ idle_task k → f ≠ NULL →
  words k !! f = Some v → v ≠ 1 → (length (R ++ T ++ F) < fuel)%nat →
  ∃ k' R' T' F', wait_on_waitflag fuel now f k = Ret k' ∧ running_inv k' R' T' F' ∧
    length (R' ++ T' ++ F') = length (R ++ T ++ F).
Proof.
  intros Hi Hne Hfn Hv Hv1 Hf. pose proof Hi as [Hs Hh].
  pose proof (running_head _ _ _ _ Hi) as (rest & ER & Hwt & Hcr & Hdel & HcT & HcF).
  pose proof Hs as [Hq Hcur Hidle Hcnt].
  destruct (q_run _ _ _ _ Hq (current k) ltac:(rewrite ER; set_solver)) as (t & Ht & Hrun).
  unfold wait_on_waitflag, atomic_cmp_and_swap. rewrite Hv. cbn [deref]. rewrite bind_ret.
  destruct (Z.eqb_spec v 1); [done|].
  rewrite bind_ret. destruct (Z.eqb_spec v 1); [done|]. cbn [words with_words].
  assert (qinv (with_words k (words k)) R T F) as Hqw by (by destruct Hq).
  destruct (qinv_put _ R T F (current k) t (λ x, set_waitflag x f) Hqw Ht eq_refl) as [E1 Hq1]; [done|].
  change (current (with_words k (words k))) with (current k). rewrite E1, bind_ret. set (k1 := with_tasks _ _) in *.
  unfold sched_queue_flagwait_task, irqs_saved.
  assert (qinv (with_irq k1 false) R T F) as Hq1' by (by destruct Hq1).
  destruct (queue_flagwait_ok _ R T F (current k) (set_waitflag t f) Hq1' Hcur) as (σ' & E2 & Hq2).
  { apply lookup_insert_eq. } { done. } { by exists v. }
  cbv zeta in E2, Hq2. rewrite E2, !bind_ret. rewrite Hdel, (del_notin _ T), (del_notin _ F) in Hq2 by done.
  destruct (wait_safe fuel now (with_irq (with_tasks (with_hp (with_irq k1 false) σ')
      (<[current k:=set_state (set_waitflag t f) TASK_STATE_FLAGWAITING]> (tasks (with_irq k1 false)))) (irq_on k1))
      rest T (F ++ [current k])) as (k' & R' & T' & F' & E & Hi' & Hl).
  - apply sched_inv_irq. split; [exact Hq2| | |exact Hcnt].
    + cbn. rewrite !elem_of_app. right. right. set_solver.
    + cbn. rewrite ER in Hidle. apply elem_of_cons in Hidle as [Hidle|Hidle]; [by destruct Hne|done].
  - rewrite waiting_irq. unfold waiting. cbn. by rewrite lookup_insert_eq.
  - rewrite !length_app in *. rewrite ER in Hf. simpl in *. lia.
  - exists k', R', T', F'. split; [exact E|]. split; [done|]. rewrite Hl, !length_app, ER. simpl. lia.
Qed.

(** C1: from a state where the queues are well formed, the running task heads
    the run queue and the counter covers the set flags, every scheduler
    operation (waiting on a timer or a flag, waking, the timer interrupt,
    yielding) returns without a panic or a bad access, loses no task, and
    leaves such a state again. *)
Theorem scheduler_op_safe fuel o k R T F :
  running_inv k R T F → op_ok k o → (length (R ++ T ++ F) < fuel)%nat →
  ∃ k' R' T' F', run_op fuel o k = Ret k' ∧ running_inv k' R' T' F' ∧
    length (R' ++ T' ++ F') = length (R ++ T ++ F).
Proof.
  intros Hi Hok Hf. pose proof Hi as [Hs Hh].
  pose proof (running_head _ _ _ _ Hi) as (rest & ER & Hwt & Hcr & Hdel & HcT & HcF).
  pose proof Hs as [Hq Hcur Hidle Hcnt].
  destruct (q_run _ _ _ _ Hq (current k) ltac:(rewrite ER; set_solver)) as (t & Ht & Hrun).
  destruct o as [now now' freq msec|now f|f|now|now]; cbn [run_op].
  - unfold wait_on_timer_ms. cbv zeta. set (until := u64 _).
    destruct (qinv_put k R T F (current k) t (λ x, set_wait_until x until) Hq Ht eq_refl (λ _, eq_refl)) as [E1 Hq1].
    rewrite E1, bind_ret. set (k1 := with_tasks _ _) in *. unfold sched_queue_timewait_task, irqs_saved.
    assert (qinv (with_irq k1 false) R T F) as Hq1' by (by destruct Hq1).
    destruct (queue_timewait_ok _ R T F (current k) Hq1' Hcur) as (t1 & σ' & Ht1 & E2 & Hq2). cbv zeta in E2, Hq2.
    change (current k1) with (current k). rewrite E2, !bind_ret.
    rewrite Hdel, (del_notin _ T), (del_notin _ F) in Hq2 by done.
    destruct (wait_safe fuel now' (with_irq (with_tasks (with_hp (with_irq k1 false) σ')
        (<[current k:=set_state t1 TASK_STATE_TIMEWAITING]> (tasks (with_irq k1 false)))) (irq_on k1))
        rest (T ++ [current k]) F) as (k' & R' & T' & F' & E & Hi' & Hl).
    + apply sched_inv_irq. split; [exact Hq2| | |exact Hcnt].
      * cbn. rewrite !elem_of_app. right. left. set_solver.
      * cbn. rewrite ER in Hidle. apply elem_of_cons in Hidle as [Hidle|Hidle]; [by destruct Hok|done].
    + rewrite waiting_irq. unfold waiting. cbn. by rewrite lookup_insert_eq.
    + rewrite !length_app in *. rewrite ER in Hf. simpl in *. lia.
    + exists k', R', T', F'. split; [exact E|]. split; [done|]. rewrite Hl, !length_app, ER. simpl. lia.
  - destruct Hok as (Hne & Hfn & [v Hv]). destruct (Z.eq_dec v 1) as [->|Hv1].
    + unfold wait_on_waitflag, atomic_cmp_and_swap. rewrite Hv. cbn [deref]. rewrite bind_ret.
      change (1 =? 1) with true. cbv iota. rewrite bind_ret. cbn [words with_words]. change (1 =? 1) with true. cbv iota.
      eexists _, R, T, F. split; [reflexivity|]. split; [|done]. split; [|exact Hh].
      split; [|exact Hcur|exact Hidle|].
      * exact (qinv_words (with_words k (<[f := 0]> (words k))) R T F f 0 (qinv_words k R T F f 0 Hq)).
      * cbn. rewrite insert_insert_eq. pose proof (set_count_zero_le (words k) f). lia.
    + exact (scheduler_wait_ok fuel now f k R T F v Hi Hne Hfn Hv Hv1 Hf).
  - destruct Hok as [Hv Hlim]. destruct (wakeup_ok f k R T F Hi Hv Hlim) as (k' & E & Hi' & _).
    by exists k', R, T, F.
  - unfold sched_timer_cb, schedule_from_irq.
    destruct (qinv_put k R T F (current k) t (λ x, set_ticks_left x (s32 (ticks_left x - 1))) Hq Ht eq_refl (λ _, eq_refl)) as [E1 Hq1].
    rewrite E1, bind_ret. set (k1 := with_tasks _ _) in *. unfold get_task. change (current k1) with (current k).
    assert (tasks k1 !! current k = Some (set_ticks_left t (s32 (ticks_left t - 1)))) as -> by apply lookup_insert_eq.
    cbn [deref]. rewrite bind_ret.
    assert (running_inv k1 R T F) as Hi1 by (split; [split; done|done]).
    destruct (needs_resched _ _).
    + destruct (yield_safe fuel now k1 R T F Hi1 Hf) as (k' & R' & T' & F' & ? & ? & ? & _). by exists k', R', T', F'.
    + exists k1, R, T, F. by split_and!.
  - destruct (yield_safe fuel now k R T F Hi Hf) as (k' & R' & T' & F' & ? & ? & ? & _). by exists k', R', T', F'.
Qed.

(** ** Fairness and wake-ups *)
Fixpoint run_schedules (fuel : nat) (nows : list Z) (k : kernel) : outcome kernel :=
  match nows with [] => Ret k | now :: nows => k ← schedule fuel now k; run_schedules fuel nows k end.

(** C12: round robin: the task at position [i] of the run queue runs after
    exactly [i] calls of the scheduler, whatever timers expire and flags are
    set meanwhile. *)
Theorem round_robin fuel k R T F i x nows :
  running_inv k R T F → (length (R ++ T ++ F) < fuel)%nat → R !! i = Some x → length nows = i →
  ∃ k' R' T' F', run_schedules fuel nows k = Ret k' ∧ running_inv k' R' T' F' ∧ current k' = x.
Proof.
  revert k R T F nows. induction i as [|i IH]; intros k R T F [|now nows] Hi Hf Hx Hl; simplify_eq/=.
  - exists k, R, T, F. split; [done|]. split; [done|]. destruct Hi as [_ Hh]. destruct R; simplify_eq/=. done.
  - destruct (yield_safe fuel now k R T F Hi Hf) as (k' & R' & T' & F' & E & Hi' & Hlen & Hsp & _). rewrite E, bind_ret.
    destruct (running_head _ _ _ _ Hi) as (rest & ER & Hwt & _ & Hdel & _ & _).
    apply (IH k' R' T' F'); [done|lia| |done].
    unfold schedule_spec in Hsp. rewrite Hwt, Hdel in Hsp. destruct (wake _ _ _) as [[wk kept] w].
    injection Hsp as <- _ _ _. rewrite ER in Hx. simpl in Hx.
    rewrite <- app_assoc. by apply lookup_app_l_Some.
Qed.

Lemma wake_step_mono wf w F a x : wake wf w F = a → x ∈ a.1.1 → ∀ G, x ∈ (wake wf w (F ++ G)).1.1.
Proof.
  intros Ea Hx G. induction G as [|y G IH] using rev_ind; [by rewrite app_nil_r, Ea|].
  rewrite app_assoc, wake_snoc. destruct (wake wf w (F ++ G)) as [[a1 b1] c1]. unfold wake_step. simpl in *.
  repeat case_match; simpl; set_solver.
Qed.

Lemma wake_other wf w F f : (∀ y, y ∈ F → wf y ≠ f) → (wake wf w F).2 !! f = w !! f.
Proof.
  intros H. induction F as [|y F IH] using rev_ind; [done|]. rewrite wake_snoc.
  specialize (IH ltac:(set_solver)). destruct (wake wf w F) as [[a b] c]. unfold wake_step. simpl in *.
  assert (wf y ≠ f) by (apply H; set_solver). repeat case_match; simpl; try done. by rewrite lookup_insert_ne.
Qed.

Lemma wake_first wf w pre x post v : w !! wf x = Some v → v ≠ 0 → (∀ y, y ∈ pre → wf y ≠ wf x) →
  x ∈ (wake wf w (pre ++ x :: post)).1.1.
Proof.
  intros Hv Hnz Hpre. replace (pre ++ x :: post) with ((pre ++ [x]) ++ post) by (by rewrite <- app_assoc).
  eapply wake_step_mono; [reflexivity|]. rewrite wake_snoc. pose proof (wake_other wf w pre (wf x) Hpre) as H.
  destruct (wake wf w pre) as [[a b] c]. unfold wake_step. simpl in *. rewrite H, Hv.
  unfold truth. destruct (Z.eqb_spec v 0); [done|]. simpl. set_solver.
Qed.

(** no wake-up is lost: after [wakeup_waitflag] on a flag, the next call of
    the scheduler moves the first task waiting for that flag to the run
    queue. *)
Theorem wakeup_wakes fuel now k R T pre x post f :
  running_inv k R T (pre ++ x :: post) → (length (R ++ T ++ pre ++ x :: post) < fuel)%nat →
  waitflag_of k x = f → (∀ y, y ∈ pre → waitflag_of k y ≠ f) →
  waitflag_is_set (sch k) < 0xffffffffffff0000 →
  ∃ k1 k2 R' T' F', wakeup_waitflag f k = Ret k1 ∧ schedule fuel now k1 = Ret k2 ∧
    running_inv k2 R' T' F' ∧ x ∈ R' ∧ x ∉ F'.
Proof.
  intros Hi Hf Hx Hpre Hlim. pose proof Hi as [[Hq _ _ _] _].
  destruct (q_flag _ _ _ _ Hq x ltac:(set_solver)) as (t & Ht & _ & _ & [v Hv]).
  assert (waitflag t = f) as Hft by (unfold waitflag_of in Hx; by rewrite Ht in Hx). rewrite Hft in Hv.
  destruct (wakeup_ok f k R T (pre ++ x :: post) Hi ltac:(by exists v) Hlim)
    as (k1 & E1 & Hi1 & Hw1 & Ht1 & _).
  exists k1. destruct (yield_safe fuel now k1 R T _ Hi1 Hf) as (k2 & R' & T' & F' & E2 & Hi2 & _ & Hsp & _).
  exists k2, R', T', F'. split; [done|]. split; [done|]. split; [done|].
  assert (x ∈ (wake (waitflag_of k1) (words k1) (pre ++ x :: post)).1.1) as Hin.
  { apply (wake_first _ _ pre x post 1).
    - rewrite Hw1. unfold waitflag_of. rewrite Ht1, Ht, Hft. apply lookup_insert_eq.
    - done.
    - intros y Hy. unfold waitflag_of. rewrite Ht1. fold (waitflag_of k y) (waitflag_of k x). rewrite Hx. by apply Hpre. }
  unfold schedule_spec in Hsp. destruct (wake _ _ _) as [[wk kept] w] eqn:Ew. simpl in Hin.
  injection Hsp as <- <- <- _. assert (x ∈ (if waiting k1 (current k1) then R else del (current k1) R ++ [current k1]) ++
    filter (λ x, until_of k1 x ≤ now) T ++ wk) as HxR by (rewrite !elem_of_app; auto).
  split; [exact HxR|]. destruct Hi2 as [[Hq2 _ _ _] _].
  destruct (qinv_NoDup _ _ _ _ Hq2) as (HR2 & _ & _). by destruct (HR2 x HxR).
Qed.

(** ** Witnesses

    A running task 20, the idle task 10 behind it, a task 40 waiting for time
    500 and a task 30 waiting for the flag at 900. *)
Definition demo_task (p st until flag : Z) : task := Task p [] 0 PREEMPT_TICKS 0 st until flag.

Definition demo_kernel : kernel := Kernel
  (list_to_map [(1, ListHead 20 10); (20, ListHead 10 1); (10, ListHead 1 20);
                (2, ListHead 40 40); (40, ListHead 2 2); (3, ListHead 30 30); (30, ListHead 3 3)])
  (list_to_map [(10, demo_task 0 1 0 0); (20, demo_task 1 2 0 0); (30, demo_task 2 4 0 900);
                (40, demo_task 3 3 500 0)])
  (list_to_map [(900, 0)]) (Scheduler 0 1 2 3 1000) 20 10 true 4 4 4 0.

Lemma demo_qinv : qinv demo_kernel [20; 10] [40] [30].
Proof.
  split.
  - split.
    + intros i p Hp. apply queues_lookup in Hp as [[-> ->]|[[-> ->]|[-> ->]]];
        (split; [by apply (bool_decide_unpack _); vm_compute|by repeat split]).
    + intros i j p q Hij Hp Hq.
      apply queues_lookup in Hp as [[-> ->]|[[-> ->]|[-> ->]]];
        apply queues_lookup in Hq as [[-> ->]|[[-> ->]|[-> ->]]]; try done;
        (intros z; simpl; set_solver).
  - done.
  - intros x Hx. rewrite !elem_of_cons in Hx. destruct Hx as [->|[->|Hx%not_elem_of_nil]]; [| |done];
      eexists; (split; [by vm_compute|]); [by right|by left].
  - intros x Hx. rewrite !elem_of_cons in Hx. destruct Hx as [->|Hx%not_elem_of_nil]; [|done].
    eexists; (split; [by vm_compute|done]).
  - intros x Hx. rewrite !elem_of_cons in Hx. destruct Hx as [->|Hx%not_elem_of_nil]; [|done].
    eexists. split; [by vm_compute|]. split; [done|]. split; [done|]. by eexists.
Qed.

Lemma demo_running : running_inv demo_kernel [20; 10] [40] [30].
Proof.
  split; [|done]. split; [exact demo_qinv|set_solver|set_solver|]. by vm_compute.
Qed.

Lemma schedule_refines_witness :
  ∃ k' n, schedule 9 600 demo_kernel = Ret k' ∧ sched_inv k' [10; 20; 40] [] [30] ∧
    head [10; 20; 40] = Some n ∧ current k' = n.
Proof.
  destruct (schedule_refines 9 600 demo_kernel [20; 10] [40] [30] [10; 20; 40] [] [30] (words demo_kernel))
    as (k' & n & ? & ? & ? & ? & _); [apply demo_running|simpl; lia|simpl; lia|by vm_compute|by exists k', n].
Defined.

(** The running task waits for the flag of task 30. *)
Lemma scheduler_op_safe_witness :
  ∃ k' R' T' F', run_op 9 (Op_wait_on_waitflag 100 900) demo_kernel = Ret k' ∧ running_inv k' R' T' F' ∧
    length (R' ++ T' ++ F') = 4%nat.
Proof.
  apply (scheduler_op_safe 9 (Op_wait_on_waitflag 100 900) demo_kernel [20; 10] [40] [30]);
    [apply demo_running|split; [done|split; [done|by eexists]]|simpl; lia].
Defined.

Lemma round_robin_witness :
  ∃ k' R' T' F', run_schedules 9 [600] demo_kernel = Ret k' ∧ running_inv k' R' T' F' ∧ current k' = 10.
Proof.
  apply (round_robin 9 demo_kernel [20; 10] [40] [30] 1 10 [600]); [apply demo_running|simpl; lia|done|done].
Defined.

Lemma wakeup_wakes_witness :
  ∃ k1 k2 R' T' F', wakeup_waitflag 900 demo_kernel = Ret k1 ∧ schedule 9 100 k1 = Ret k2 ∧
    running_inv k2 R' T' F' ∧ 30 ∈ R' ∧ 30 ∉ F'.
Proof.
  apply (wakeup_wakes 9 100 demo_kernel [20; 10] [40] [] 30 [] 900);
    [apply demo_running|simpl; lia|done|set_solver|done].
Defined.
