(* ===== verification/Semaphore.v ===== *)
(** * Semaphore: counting semaphores on top of the scheduler

    Models semaphore.c (with include/semaphore.h and include/spinlock.h) on
    the kernel state of Sched.  [semaphore_down] can block in the middle, so
    it is split where the task is switched out: [semaphore_down] runs to the
    first wait, [semaphore_down_resume] is what the task does when it runs
    again. *)
From S2P Require Import Prelude Lists Sched.

Record semaphore := Semaphore { lock : Z; count : Z; wait_list : Z }.

(** A waiter lives on the stack of its task and is named by its list node. *)
Record semaphore_waiter := SemaphoreWaiter { waiter_task : Z; flag : Z }.

Record sem_state := SemState { ker : kernel; sem : semaphore; waiters : gmap Z semaphore_waiter }.

Definition with_ker (s : sem_state) (k : kernel) : sem_state := SemState k (sem s) (waiters s).
Definition with_lock (s : sem_state) (v : Z) : sem_state :=
  SemState (ker s) (Semaphore v (count (sem s)) (wait_list (sem s))) (waiters s).
Definition with_count (s : sem_state) (v : Z) : sem_state :=
  SemState (ker s) (Semaphore (lock (sem s)) v (wait_list (sem s))) (waiters s).

Definition semaphore_init (s : sem_state) (val : Z) : outcome sem_state :=
  σ ← INIT_LIST_HEAD (hp (ker s)) (wait_list (sem s));
  Ret (SemState (with_hp (ker s) σ) (Semaphore 0 (u32 val) (wait_list (sem s))) (waiters s)).

(** On one CPU with interrupts off nobody can release a taken lock: the loop
    does not end. *)
Definition spinlock_lock_irq (s : sem_state) : outcome sem_state :=
  if lock (sem s) =? 0 then Ret (with_lock s 1) else NoFuel.
Definition spinlock_unlock_irq (s : sem_state) : outcome sem_state := Ret (with_lock s 0).

Definition spinlock_lock_disable_irq (s : sem_state) : outcome (sem_state * bool) :=
  let flags := irq_on (ker s) in
  s ← spinlock_lock_irq (with_ker s (with_irq (ker s) false));
  Ret (s, flags).
Definition spinlock_unlock_restore_irq (s : sem_state) (flags : bool) : outcome sem_state :=
  s ← spinlock_unlock_irq s;
  Ret (with_ker s (with_irq (ker s) flags)).

(** How far [semaphore_down] got. *)
Inductive down_result : Type := Acquired | Blocked.

(** The [while(1)] of [__semaphore_down]: the wait either returns at once (the
    flag was 1) or switches the task out. *)
Definition sem_wait_loop (fuel : nat) (now : Z) (w : semaphore_waiter) (s : sem_state)
    : outcome (sem_state * down_result) :=
  loop fuel (λ s,
    s ← spinlock_unlock_irq s;
    v ← deref (words (ker s) !! flag w);
    k ← wait_on_waitflag fuel now (flag w) (ker s);
    let s := with_ker s k in
    if v =? 1 then
      s ← spinlock_lock_irq s;
      v ← deref (words (ker s) !! flag w);
      if truth v then Ret (inr (s, Acquired)) else Ret (inl s)
    else Ret (inr (s, Blocked))) s.

(** [waitflag_init] assigns its own parameter: the flag keeps its old value. *)
Definition waitflag_init (k : kernel) (f : Z) : kernel := k.

Definition __semaphore_down (fuel : nat) (now : Z) (s : sem_state) (node : Z) (f : Z)
    : outcome (sem_state * down_result) :=
  σ ← list_add_tail (hp (ker s)) node (wait_list (sem s));
  let w := SemaphoreWaiter (current (ker s)) f in
  let k := waitflag_init (with_hp (ker s) σ) f in
  sem_wait_loop fuel now w (SemState k (sem s) (<[node := w]> (waiters s))).

(** [node] and [f] are the addresses of the waiter's list node and flag on the
    stack of the caller. *)
Definition semaphore_down (fuel : nat) (now : Z) (s : sem_state) (node f : Z)
    : outcome (sem_state * down_result) :=
  '(s, flags) ← spinlock_lock_disable_irq s;
  if 0 <? count (sem s) then
    s ← spinlock_unlock_restore_irq (with_count s (count (sem s) - 1)) flags;
    Ret (s, Acquired)
  else
    '(s, r) ← __semaphore_down fuel now s node f;
    match r with
    | Acquired => s ← spinlock_unlock_restore_irq s flags; Ret (s, Acquired)
    | Blocked => Ret (s, Blocked)
    end.

(** The waiter runs again, right after its [wait_on_waitflag]. *)
Definition semaphore_down_resume (fuel : nat) (now : Z) (s : sem_state) (w : semaphore_waiter) (flags : bool)
    : outcome (sem_state * down_result) :=
  s ← spinlock_lock_irq s;
  v ← deref (words (ker s) !! flag w);
  if truth v then
    s ← spinlock_unlock_restore_irq s flags; Ret (s, Acquired)
  else
    '(s, r) ← sem_wait_loop fuel now w s;
    match r with
    | Acquired => s ← spinlock_unlock_restore_irq s flags; Ret (s, Acquired)
    | Blocked => Ret (s, Blocked)
    end.

(** The waiter stays on the list. *)
Definition __semaphore_up (s : sem_state) : outcome sem_state :=
  node ← list_first_entry (hp (ker s)) (wait_list (sem s));
  w ← deref (waiters s !! node);
  k ← wakeup_waitflag (flag w) (ker s);
  Ret (with_ker s k).

Definition semaphore_up (s : sem_state) : outcome sem_state :=
  '(s, flags) ← spinlock_lock_disable_irq s;
  e ← list_empty (hp (ker s)) (wait_list (sem s));
  s ← (if e : bool then Ret (with_count s (u32 (count (sem s) + 1))) else __semaphore_up s);
  spinlock_unlock_restore_irq s flags.

(** [count] is a [uint64_t] holding a 32-bit unsigned difference. *)
Definition down_trylock (s : sem_state) : outcome (sem_state * Z) :=
  '(s, flags) ← spinlock_lock_disable_irq s;
  let c := u32 (count (sem s) - 1) in
  let s := if 0 <=? c then with_count s (u32 c) else s in
  s ← spinlock_unlock_restore_irq s flags;
  Ret (s, if c <? 0 then 1 else 0).

(** ** Properties *)

(** [down_trylock] never reports failure: on a semaphore whose count is 0 it
    returns success and sets the count to [2^32 - 1]. *)
Theorem down_trylock_never_fails s : lock (sem s) = 0 → 0 ≤ count (sem s) < 2 ^ 32 →
  down_trylock s = Ret (with_count s (if count (sem s) =? 0 then 2 ^ 32 - 1 else count (sem s) - 1), 0).
Proof.
  intros Hl Hc. unfold down_trylock, spinlock_lock_disable_irq, spinlock_lock_irq. cbn [sem with_ker]. rewrite Hl.
  change (0 =? 0) with true. cbv iota. rewrite !bind_ret. cbn [sem with_lock with_ker count].
  pose proof (u32_range (count (sem s) - 1)). destruct (Z.leb_spec 0 (u32 (count (sem s) - 1))); [|lia].
  unfold spinlock_unlock_restore_irq, spinlock_unlock_irq. rewrite !bind_ret.
  destruct (Z.ltb_spec (u32 (count (sem s) - 1)) 0); [lia|]. f_equal. f_equal.
  assert (u32 (u32 (count (sem s) - 1)) = if count (sem s) =? 0 then 2 ^ 32 - 1 else count (sem s) - 1) as ->.
  { destruct (Z.eqb_spec (count (sem s)) 0) as [->|]; [done|]. rewrite !u32_id; lia. }
  generalize (if count (sem s) =? 0 then 2 ^ 32 - 1 else count (sem s) - 1) as v. intros v.
  destruct s as [[? ? ? ? ? ? ? ? ? ? ?] [l c h] ws]. cbn in Hl. by subst l.
Qed.

Lemma wake_zero wf w F f : w !! f = Some 0 → (wake wf w F).2 !! f = Some 0.
Proof.
  intros H. induction F as [|y F IH] using rev_ind; [done|]. rewrite wake_snoc.
  destruct (wake wf w F) as [[a b] c]. unfold wake_step. simpl in *. repeat case_match; simpl; try done.
  destruct (decide (f = wf y)) as [->|]; [by rewrite lookup_insert_eq|by rewrite lookup_insert_ne by done].
Qed.

Lemma wake_clears wf w pre x post v : w !! wf x = Some v → v ≠ 0 → (∀ y, y ∈ pre → wf y ≠ wf x) →
  (wake wf w (pre ++ x :: post)).2 !! wf x = Some 0.
Proof.
  intros Hv Hnz Hpre. replace (pre ++ x :: post) with ((pre ++ [x]) ++ post) by (by rewrite <- app_assoc).
  unfold wake. rewrite foldl_app. fold (wake wf w (pre ++ [x])). rewrite wake_snoc.
  pose proof (wake_other wf w pre (wf x) Hpre) as H.
  destruct (wake wf w pre) as [[a b] c]. cbn [snd] in H.
  assert (wake_step wf (a, b, c) x = (a ++ [x], b, <[wf x := 0]> c)) as ->.
  { unfold wake_step. rewrite H, Hv. unfold truth. by destruct (Z.eqb_spec v 0). }
  assert (∀ G a b c, c !! wf x = Some 0 → (foldl (wake_step wf) (a, b, c) G).2 !! wf x = Some 0) as HG.
  { induction G as [|y G IH]; intros a0 b0 c0 Hc; [done|]. cbn [foldl].
    destruct (wake_step wf (a0, b0, c0) y) as [[a1 b1] c1] eqn:E. apply IH. revert E. unfold wake_step.
    destruct (c0 !! wf y) as [v'|]; [destruct (truth v')|]; intros E; injection E as _ _ <-; try done.
    destruct (decide (wf x = wf y)) as [->|]; [by rewrite lookup_insert_eq|by rewrite lookup_insert_ne by done]. }
  apply HG, lookup_insert_eq.
Qed.

Lemma run_schedules_zero fuel nows f : ∀ k R T F k', running_inv k R T F → (length (R ++ T ++ F) < fuel)%nat →
  words k !! f = Some 0 → run_schedules fuel nows k = Ret k' → words k' !! f = Some 0.
Proof.
  induction nows as [|now nows IH]; intros k R T F k' Hi Hf Hz E; cbn [run_schedules] in E; [by simplify_eq|].
  destruct (yield_safe fuel now k R T F Hi Hf) as (k1 & R1 & T1 & F1 & E1 & Hi1 & Hl & Hsp & _).
  rewrite E1, bind_ret in E. eapply (IH k1 R1 T1 F1); [done|lia| |done].
  unfold schedule_spec in Hsp. pose proof (wake_zero (waitflag_of k) (words k) F f Hz) as Hw.
  destruct (wake _ _ _) as [[wk kept] w]. injection Hsp as _ _ _ <-. exact Hw.
Qed.

(** a blocked [semaphore_down] is not released by one [semaphore_up]: the
    scheduler consumes the waiter's flag when it wakes the task, so when the
    task runs again it finds the flag clear and goes back to waiting. *)
Theorem semaphore_waiter_blocks_again fuel now0 nows now s R T pre x post node w flags k1 k2 k3 :
  running_inv (ker s) R T (pre ++ x :: post) → (length (R ++ T ++ pre ++ x :: post) < fuel)%nat →
  waiters s !! node = Some w → waitflag_of (ker s) x = flag w →
  (∀ y, y ∈ pre → waitflag_of (ker s) y ≠ flag w) → flag w ≠ NULL →
  waitflag_is_set (sch (ker s)) < 0xffffffffffff0000 → x ≠ idle_task (ker s) →
  wakeup_waitflag (flag w) (ker s) = Ret k1 → schedule fuel now0 k1 = Ret k2 →
  run_schedules fuel nows k2 = Ret k3 → current k3 = x → lock (sem s) = 0 →
  ∃ s' R' T' F', semaphore_down_resume fuel now (with_ker s k3) w flags = Ret (s', Blocked) ∧
    running_inv (ker s') R' T' F' ∧ lock (sem s') = 0.
Proof.
  intros Hi Hf Hw Hx Hpre Hnn Hlim Hidle E1 E2 E3 Hc Hl. pose proof Hi as [[Hq _ _ _] _].
  destruct (q_flag _ _ _ _ Hq x ltac:(set_solver)) as (t & Ht & _ & _ & [v Hv]).
  assert (waitflag t = flag w) as Hft by (unfold waitflag_of in Hx; by rewrite Ht in Hx). rewrite Hft in Hv.
  destruct (wakeup_ok (flag w) (ker s) R T _ Hi ltac:(by exists v) Hlim) as (k1' & E1' & Hi1 & Hw1 & Ht1 & Hid1).
  rewrite E1' in E1. injection E1 as ->.
  destruct (yield_safe fuel now0 k1 R T _ Hi1 Hf) as (k2' & R2 & T2 & F2 & E2' & Hi2 & Hl2 & Hsp & Hid2).
  rewrite E2' in E2. injection E2 as ->.
  assert (words k2 !! flag w = Some 0) as Hz2.
  { assert (waitflag_of k1 x = flag w) as Hx1 by (unfold waitflag_of; rewrite Ht1; exact Hx).
    pose proof (wake_clears (waitflag_of k1) (words k1) pre x post 1) as Hclr.
    rewrite Hx1 in Hclr. specialize (Hclr ltac:(rewrite Hw1; apply lookup_insert_eq) ltac:(done)).
    unfold schedule_spec in Hsp. destruct (wake _ _ _) as [[wk kept] w2]. injection Hsp as _ _ _ <-. apply Hclr.
    intros y Hy. unfold waitflag_of. rewrite Ht1. by apply Hpre. }
  pose proof (run_schedules_zero fuel nows (flag w) k2 R2 T2 F2 k3 Hi2 ltac:(lia) Hz2 E3) as Hz3.
  assert (∃ R3 T3 F3, running_inv k3 R3 T3 F3 ∧ (length (R3 ++ T3 ++ F3) < fuel)%nat ∧
    idle_task k3 = idle_task k2) as (R3 & T3 & F3 & Hi3 & Hf3 & Hid3).
  { clear -E3 Hi2 Hl2 Hf. rewrite <- Hl2 in Hf. clear Hl2. revert k2 R2 T2 F2 Hi2 Hf E3.
    induction nows as [|n nows IH]; intros k2 R2 T2 F2 Hi2 Hf E3; cbn [run_schedules] in E3.
    - simplify_eq. by exists R2, T2, F2.
    - destruct (yield_safe fuel n k2 R2 T2 F2 Hi2 Hf) as (k' & R' & T' & F' & E & Hi' & Hl' & _ & <-).
      rewrite E, bind_ret in E3. eapply (IH k' R' T' F'); [done|lia|done]. }
  destruct (scheduler_wait_ok fuel now (flag w) k3 R3 T3 F3 0 Hi3) as (k4 & R4 & T4 & F4 & E4 & Hi4);
    [congruence|done|done|done|done|].
  unfold semaphore_down_resume, spinlock_lock_irq. cbn [sem with_ker]. rewrite Hl. change (0 =? 0) with true. cbv iota.
  rewrite bind_ret. cbn [ker with_lock with_ker]. rewrite Hz3. cbn [deref]. rewrite bind_ret.
  change (truth 0) with false. cbv iota. unfold sem_wait_loop. rewrite loop_step by lia.
  unfold spinlock_unlock_irq. rewrite bind_ret. cbn [ker with_lock with_ker]. rewrite Hz3. cbn [deref]. rewrite bind_ret.
  rewrite E4, bind_ret. change (0 =? 1) with false. cbv iota. rewrite !bind_ret.
  eexists _, R4, T4, F4. split; [reflexivity|]. split; [exact (proj1 Hi4)|done].
Qed.

(** Witness: a semaphore of count 0. *)
Definition demo_sem : sem_state :=
  SemState demo_kernel (Semaphore 0 0 5) {[6 := SemaphoreWaiter 30 900]}.

Lemma down_trylock_never_fails_witness :
  down_trylock demo_sem = Ret (with_count demo_sem (2 ^ 32 - 1), 0).
Proof. apply (down_trylock_never_fails demo_sem); [done|simpl; lia]. Defined.

(** Witness: task 30 waits on the semaphore; after one up and two more
    reschedules it runs, and blocks again. *)
Lemma semaphore_waiter_blocks_again_witness :
  ∃ k3 s', semaphore_down_resume 9 0 (with_ker demo_sem k3) (SemaphoreWaiter 30 900) true = Ret (s', Blocked).
Proof.
  destruct (wakeup_waitflag 900 demo_kernel) as [k1| | |] eqn:E1; try (exfalso; by vm_compute in E1).
  destruct (schedule 9 0 k1) as [k2| | |] eqn:E2; try (exfalso; injection E1 as <-; by vm_compute in E2).
  destruct (run_schedules 9 [0; 0] k2) as [k3| | |] eqn:E3;
    try (exfalso; injection E1 as <-; vm_compute in E2; injection E2 as <-; by vm_compute in E3).
  assert (current k3 = 30) as Hc.
  { injection E1 as <-. vm_compute in E2. injection E2 as <-. vm_compute in E3. by injection E3 as <-. }
  destruct (semaphore_waiter_blocks_again 9 0 [0; 0] 0 demo_sem [20; 10] [40] [] 30 [] 6
    (SemaphoreWaiter 30 900) true k1 k2 k3) as (s' & _ & _ & _ & E & _);
    [exact demo_running|simpl; lia|done|done|set_solver|done|done|done|exact E1|exact E2|exact E3|exact Hc|done|].
  by exists k3, s'.
Defined.
