(* ===== verification/Ringbuf.v ===== *)
(** * Ring buffers and pipes (ringbuf.c, pipe.c)

    The ring buffer over the byte memory of the prelude, with the queue its
    pointers stand for; pipes add the scheduler's wait flag of Sched.v. *)

From S2P Require Import Prelude.

(** [ringbuf_t]: the pointers are byte addresses. *)
Record ringbuf := Ringbuf {
  buf : Z; buf_end : Z; write_ptr : Z; read_ptr : Z; read_is_ahead : bool }.

(** [ringbuf_init(r, buf, sz)]. *)
Definition ringbuf_init (b sz : Z) : ringbuf := Ringbuf b (b + sz) b b false.

Definition set_read_ptr (r : ringbuf) (p : Z) : ringbuf :=
  Ringbuf (buf r) (buf_end r) (write_ptr r) p (read_is_ahead r).
Definition set_write_ptr (r : ringbuf) (p : Z) : ringbuf :=
  Ringbuf (buf r) (buf_end r) p (read_ptr r) (read_is_ahead r).
Definition set_ahead (r : ringbuf) (a : bool) : ringbuf :=
  Ringbuf (buf r) (buf_end r) (write_ptr r) (read_ptr r) a.

(** The copy loop; [i < n] compares the counter with a [size_t]. *)
Definition ring_memcpy (fuel : nat) (m : mem) (dst src n : Z) : outcome mem :=
  loop fuel (λ '(m, d, s, i),
    if i <? u64 n then c ← load8 m s; m ← store8 m d c; Ret (inl (m, d + 1, s + 1, i + 1))
    else Ret (inr m)) (m, dst, src, 0).

(** Returns the memory, the buffer and the progress. *)
Definition ringbuf_read (fuel : nat) (m : mem) (r : ringbuf) (dst sz : Z) : outcome (mem * ringbuf * Z) :=
  if read_is_ahead r then
    let io_sz := c_min (buf_end r - read_ptr r) sz in
    m ← ring_memcpy fuel m dst (read_ptr r) io_sz;
    let progress := io_sz in
    let r := set_read_ptr r (read_ptr r + progress) in
    let io_sz := c_min (write_ptr r - buf r) (sz - progress) in
    if truth io_sz then
      let r := set_ahead r false in
      m ← ring_memcpy fuel m (dst + progress) (buf r) io_sz;
      Ret (m, set_read_ptr r (buf r + io_sz), progress + io_sz)
    else Ret (m, r, progress)
  else
    let io_sz := c_min (write_ptr r - read_ptr r) sz in
    m ← ring_memcpy fuel m dst (read_ptr r) io_sz;
    Ret (m, set_read_ptr r (read_ptr r + io_sz), io_sz).

Definition ringbuf_write (fuel : nat) (m : mem) (r : ringbuf) (src sz : Z) : outcome (mem * ringbuf * Z) :=
  if read_is_ahead r then
    let io_sz := c_min (read_ptr r - write_ptr r) sz in
    m ← ring_memcpy fuel m (write_ptr r) src io_sz;
    Ret (m, r, io_sz)
  else
    let io_sz := c_min (buf_end r - write_ptr r) sz in
    m ← ring_memcpy fuel m (write_ptr r) src io_sz;
    let r := set_write_ptr r (write_ptr r + io_sz) in
    let progress := io_sz in
    let io_sz := c_min (read_ptr r - buf r) (sz - progress) in
    if truth io_sz then
      m ← ring_memcpy fuel m (buf r) (src + progress) io_sz;
      Ret (m, set_ahead (set_write_ptr r (buf r + io_sz)) true, progress + io_sz)
    else Ret (m, r, progress).

(** ** The queue a ring buffer stands for *)

(** The [n] bytes from [p]. *)
Fixpoint read_bytes (n : nat) (m : mem) (p : Z) : list Z :=
  match n with O => [] | S n => default 0 (m !! p) :: read_bytes n m (p + 1) end.

Definition contents (m : mem) (r : ringbuf) : list Z :=
  if read_is_ahead r
  then read_bytes (Z.to_nat (buf_end r - read_ptr r)) m (read_ptr r)
    ++ read_bytes (Z.to_nat (write_ptr r - buf r)) m (buf r)
  else read_bytes (Z.to_nat (write_ptr r - read_ptr r)) m (read_ptr r).

(** Free space of the buffer. *)
Definition room (r : ringbuf) : Z :=
  if read_is_ahead r then read_ptr r - write_ptr r
  else (buf_end r - write_ptr r) + (read_ptr r - buf r).

Record ring_ok (m : mem) (r : ringbuf) : Prop := {
  ring_small : buf_end r - buf r < 2 ^ 31;
  ring_wp : buf r ≤ write_ptr r ≤ buf_end r;
  ring_rp : buf r ≤ read_ptr r ≤ buf_end r;
  ring_order : if read_is_ahead r then write_ptr r ≤ read_ptr r else read_ptr r ≤ write_ptr r;
  ring_bytes : ∀ q, buf r ≤ q < buf_end r → ∃ b, m !! q = Some b ∧ 0 ≤ b < 2 ^ 8 }.

(** ** The byte copy *)
Lemma read_bytes_length n m p : length (read_bytes n m p) = n.
Proof. revert p; induction n; intros p; simpl; auto. Qed.

Lemma read_bytes_app a b m p :
  read_bytes (a + b) m p = read_bytes a m p ++ read_bytes b m (p + Z.of_nat a).
Proof.
  revert p; induction a as [|a IH]; intros p; simpl; [by rewrite Z.add_0_r|].
  rewrite IH. do 3 f_equal. lia.
Qed.

Lemma read_bytes_ext n m m' p :
  (∀ q, p ≤ q < p + Z.of_nat n → m !! q = m' !! q) → read_bytes n m p = read_bytes n m' p.
Proof.
  revert p; induction n as [|n IH]; intros p H; simpl; [done|].
  rewrite (H p) by lia. f_equal. apply IH. intros; apply H; lia.
Qed.

Lemma read_bytes_at l m p : bytes_at m p l → read_bytes (length l) m p = l.
Proof.
  revert p; induction l as [|b l IH]; intros p H; simpl; [done|].
  apply bytes_at_cons in H as [-> H]. by rewrite IH.
Qed.

Lemma bytes_at_read n m p : mapped m p (Z.of_nat n) → bytes_at m p (read_bytes n m p).
Proof.
  revert p; induction n as [|n IH]; intros p H; simpl; [apply bytes_at_nil|].
  apply bytes_at_cons. destruct (H p) as [b Hb]; [lia|]. rewrite Hb. split; [done|].
  apply IH. intros q Hq. apply H. lia.
Qed.

Lemma ring_memcpy_ok fuel m dst src l :
  bytes_at m src l → is_bytes l → mapped m dst (Z.of_nat (length l)) →
  (src + Z.of_nat (length l) ≤ dst ∨ dst + Z.of_nat (length l) ≤ src) →
  Z.of_nat (length l) < 2 ^ 31 → (length l < fuel)%nat →
  ring_memcpy fuel m dst src (Z.of_nat (length l)) = Ret (write_bytes m dst l).
Proof.
  intros Hb Hl Hm Hd Hn Hf. unfold ring_memcpy. rewrite u64_id by lia.
  set (N := Z.of_nat (length l)) in *.
  assert (∀ l' m d s i fuel, N = i + Z.of_nat (length l') → bytes_at m s l' → is_bytes l' →
    mapped m d (Z.of_nat (length l')) →
    (s + Z.of_nat (length l') ≤ d ∨ d + Z.of_nat (length l) ≤ s + i) → s - src = i → d - dst = i →
    (length l' < fuel)%nat →
    loop fuel (λ '(m, d, s, i), if i <? N then c ← load8 m s; m ← store8 m d c; Ret (inl (m, d + 1, s + 1, i + 1))
      else Ret (inr m)) (m, d, s, i) = Ret (write_bytes m d l')) as H.
  { clear Hb Hl Hm Hf. induction l' as [|b l' IH]; intros m' d s i fu HN Hb Hl Hm Hd' Hs Hdd Hf;
      (destruct fu as [|fu]; [simpl in Hf; lia|]); cbn [loop]; cbn [length] in *.
    - destruct (Z.ltb_spec i N); [lia|done].
    - destruct (Z.ltb_spec i N); [|lia]. apply bytes_at_cons in Hb as [H0 Hb].
      apply Forall_cons in Hl as [Hb0 Hl].
      rewrite (load8_at _ _ _ H0), bind_ret, store8_write by (done || apply Hm; lia). rewrite !bind_ret.
      cbn [write_bytes]. apply (IH _ (d + 1) (s + 1) (i + 1)); try lia; try done.
      + change (<[d := b]> m') with (write_bytes m' d [b]).
        apply write_bytes_bytes_at; [done|]. simpl. lia.
      + change (<[d := b]> m') with (write_bytes m' d [b]).
        apply write_bytes_mapped. intros q Hq. apply Hm. lia. }
  apply H; try lia; try done.
Qed.

Lemma ring_memcpy_zero fuel m dst src : (0 < fuel)%nat → ring_memcpy fuel m dst src 0 = Ret m.
Proof. intros. destruct fuel; [lia|]. done. Qed.

(** ** Reading is a dequeue *)
Definition outside (r : ringbuf) (p n : Z) : Prop := p + n ≤ buf r ∨ buf_end r ≤ p.

Lemma ring_read_is_bytes m r n p : ring_ok m r → buf r ≤ p → p + Z.of_nat n ≤ buf_end r →
  is_bytes (read_bytes n m p).
Proof.
  intros Hr Hp. revert p Hp. induction n as [|n IH]; intros p Hp Hn; simpl; constructor.
  - destruct (ring_bytes _ _ Hr p) as (b & -> & Hb); [lia|done].
  - apply IH; lia.
Qed.

Lemma ring_mapped m r p n : ring_ok m r → buf r ≤ p → p + n ≤ buf_end r → mapped m p n.
Proof. intros Hr Hp Hn q Hq. destruct (ring_bytes _ _ Hr q) as (b & Hb & _); [lia|]. by exists b. Qed.

(** Copying out of the buffer. *)
Lemma ring_copy_out fuel m r dst p n :
  ring_ok m r → buf r ≤ p → p + Z.of_nat n ≤ buf_end r → outside r dst (Z.of_nat n) →
  mapped m dst (Z.of_nat n) → (n < fuel)%nat →
  ring_memcpy fuel m dst p (Z.of_nat n) = Ret (write_bytes m dst (read_bytes n m p)).
Proof.
  intros Hr Hp Hn Ho Hm Hf. pose proof (ring_small _ _ Hr).
  rewrite <- (read_bytes_length n m p) at 1. unfold outside in Ho.
  apply ring_memcpy_ok; rewrite ?read_bytes_length; try lia; try done.
  - apply bytes_at_read. by eapply ring_mapped.
  - by eapply ring_read_is_bytes.
Qed.

Lemma ring_ok_outside m r p l : ring_ok m r → outside r p (Z.of_nat (length l)) →
  ring_ok (write_bytes m p l) r.
Proof.
  intros [] Ho. unfold outside in Ho. split; try done. intros q Hq.
  rewrite write_bytes_lookup, decide_False by lia. auto.
Qed.

Lemma read_bytes_outside m r p l n q : outside r p (Z.of_nat (length l)) →
  buf r ≤ q → q + Z.of_nat n ≤ buf_end r → read_bytes n (write_bytes m p l) q = read_bytes n m q.
Proof.
  intros Ho Hq Hn. unfold outside in Ho. apply read_bytes_ext. intros x Hx.
  rewrite write_bytes_lookup, decide_False by lia. done.
Qed.

Lemma contents_length m r : ring_ok m r →
  Z.of_nat (length (contents m r)) = buf_end r - buf r - room r.
Proof.
  intros []. unfold contents, room. destruct (read_is_ahead r);
    rewrite ?length_app, !read_bytes_length; lia.
Qed.

Ltac ring_solve :=
  cbn [buf buf_end write_ptr read_ptr read_is_ahead set_read_ptr set_write_ptr set_ahead] in *;
  try lia.

(** A prefix and a suffix of a block of bytes, as blocks. *)
Lemma read_bytes_split a n m p : 0 ≤ a ≤ n →
  read_bytes (Z.to_nat a) m p = take (Z.to_nat a) (read_bytes (Z.to_nat n) m p) ∧
  read_bytes (Z.to_nat (n - a)) m (p + a) = drop (Z.to_nat a) (read_bytes (Z.to_nat n) m p).
Proof.
  intros Ha. replace (Z.to_nat n) with (Z.to_nat a + Z.to_nat (n - a))%nat by lia.
  rewrite read_bytes_app, take_app_length', drop_app_length' by by rewrite read_bytes_length.
  split; [done|]. f_equal. lia.
Qed.

Lemma ring_copy_out_Z fuel m r dst p n :
  ring_ok m r → buf r ≤ p → 0 ≤ n → p + n ≤ buf_end r → outside r dst n →
  mapped m dst n → n < Z.of_nat fuel →
  ring_memcpy fuel m dst p n = Ret (write_bytes m dst (read_bytes (Z.to_nat n) m p)).
Proof.
  intros. replace n with (Z.of_nat (Z.to_nat n)) at 1 by lia.
  apply (ring_copy_out fuel m r); try done; rewrite ?Z2Nat.id by lia; try done; lia.
Qed.

(** The memory after a copy to the caller's buffer, the new pointers and the
    number of bytes taken. *)
Definition dequeued (m : mem) (r : ringbuf) (dst n : Z) (m' : mem) (r' : ringbuf) : Prop :=
  m' = write_bytes m dst (take (Z.to_nat n) (contents m r)) ∧
  contents m' r' = drop (Z.to_nat n) (contents m r) ∧
  ring_ok m' r' ∧ buf r' = buf r ∧ buf_end r' = buf_end r.

Lemma ring_read_plain fuel m r dst sz :
  ring_ok m r → read_is_ahead r = false → 0 ≤ sz → mapped m dst sz → outside r dst sz →
  sz < Z.of_nat fuel →
  let n := Z.min sz (Z.of_nat (length (contents m r))) in
  ∃ m' r', ringbuf_read fuel m r dst sz = Ret (m', r', n) ∧ dequeued m r dst n m' r'.
Proof.
  intros Hr Ha Hsz Hm Ho Hf n. pose proof (contents_length m r Hr) as Hlen. unfold outside in Ho.
  assert (n = Z.min sz (buf_end r - buf r - room r)) as Hn by lia. clearbody n. clear Hlen.
  pose proof (ring_wp _ _ Hr). pose proof (ring_rp _ _ Hr). pose proof (ring_order _ _ Hr) as Hord.
  unfold ringbuf_read, dequeued. unfold contents, room in *. rewrite Ha in *.
  rewrite c_min_spec. assert (Z.min (write_ptr r - read_ptr r) sz = n) as -> by lia.
  destruct (read_bytes_split n (write_ptr r - read_ptr r) m (read_ptr r)) as [ET ED]; [lia|].
  rewrite (ring_copy_out_Z fuel m r); [|done|lia|lia|lia|unfold outside; lia|intros q Hq; apply Hm; lia|lia].
  rewrite bind_ret, <- ET, <- ED. eexists _, _. split; [done|].
  assert (outside r dst (Z.of_nat (length (read_bytes (Z.to_nat n) m (read_ptr r))))) as Hout
    by (rewrite read_bytes_length; unfold outside; lia).
  split; [done|]. ring_solve. rewrite Ha. split; [|split; [|done]].
  - rewrite (read_bytes_outside _ r) by (done || lia). f_equal. lia.
  - destruct (ring_ok_outside m r dst _ Hr Hout). split; ring_solve; rewrite ?Ha; try done; lia.
Qed.

(** With the reader ahead, when the bytes up to the end of the array satisfy
    the request. *)
Lemma ring_read_tail fuel m r dst sz :
  ring_ok m r → read_is_ahead r = true → 0 ≤ sz → mapped m dst sz → outside r dst sz →
  sz < Z.of_nat fuel → sz ≤ buf_end r - read_ptr r ∨ write_ptr r = buf r →
  let n := Z.min sz (Z.of_nat (length (contents m r))) in
  ∃ m' r', ringbuf_read fuel m r dst sz = Ret (m', r', n) ∧ dequeued m r dst n m' r'.
Proof.
  intros Hr Ha Hsz Hm Ho Hf Hc n. pose proof (contents_length m r Hr) as Hlen. unfold outside in Ho.
  assert (n = Z.min sz (buf_end r - buf r - room r)) as Hn by lia. clearbody n. clear Hlen.
  pose proof (ring_wp _ _ Hr). pose proof (ring_rp _ _ Hr). pose proof (ring_order _ _ Hr) as Hord.
  unfold ringbuf_read, dequeued. unfold contents, room in *. rewrite Ha in *.
  rewrite !c_min_spec. assert (Z.min (buf_end r - read_ptr r) sz = n) as -> by lia.
  destruct (read_bytes_split n (buf_end r - read_ptr r) m (read_ptr r)) as [ET ED]; [lia|].
  rewrite (ring_copy_out_Z fuel m r); [|done|lia|lia|lia|unfold outside; lia|intros q Hq; apply Hm; lia|lia].
  rewrite bind_ret, take_app_le, drop_app_le, <- ET, <- ED by (rewrite read_bytes_length; lia).
  cbn [set_read_ptr write_ptr buf]. replace (Z.min (write_ptr r - buf r) (sz - n)) with 0 by lia.
  change (truth 0) with false. eexists _, _. split; [done|].
  assert (outside r dst (Z.of_nat (length (read_bytes (Z.to_nat n) m (read_ptr r))))) as Hout
    by (rewrite read_bytes_length; unfold outside; lia).
  split; [done|]. ring_solve. rewrite Ha. split; [|split; [|done]].
  - rewrite !(read_bytes_outside _ r) by (done || lia). f_equal. f_equal. lia.
  - destruct (ring_ok_outside m r dst _ Hr Hout). split; ring_solve; rewrite ?Ha; try done; lia.
Qed.

(** With the reader ahead, when the request wraps around. *)
Lemma ring_read_wrap fuel m r dst sz :
  ring_ok m r → read_is_ahead r = true → 0 ≤ sz → mapped m dst sz → outside r dst sz →
  sz < Z.of_nat fuel → buf_end r - read_ptr r < sz → buf r < write_ptr r →
  let n := Z.min sz (Z.of_nat (length (contents m r))) in
  ∃ m' r', ringbuf_read fuel m r dst sz = Ret (m', r', n) ∧ dequeued m r dst n m' r'.
Proof.
  intros Hr Ha Hsz Hm Ho Hf Hc Hw n. pose proof (contents_length m r Hr) as Hlen. unfold outside in Ho.
  assert (n = Z.min sz (buf_end r - buf r - room r)) as Hn by lia. clearbody n. clear Hlen.
  pose proof (ring_wp _ _ Hr). pose proof (ring_rp _ _ Hr). pose proof (ring_order _ _ Hr) as Hord.
  unfold ringbuf_read, dequeued. unfold contents, room in *. rewrite Ha in *.
  rewrite !c_min_spec. set (a := buf_end r - read_ptr r) in *. replace (Z.min a sz) with a by lia.
  set (b := n - a). set (A := read_bytes (Z.to_nat a) m (read_ptr r)) in *.
  assert (length A = Z.to_nat a) as HA by apply read_bytes_length.
  destruct (read_bytes_split b (write_ptr r - buf r) m (buf r)) as [ET ED]; [lia|].
  rewrite (ring_copy_out_Z fuel m r); [|done|lia|lia|lia|unfold outside; lia|intros q Hq; apply Hm; lia|lia].
  fold A. rewrite bind_ret. cbn [set_read_ptr write_ptr buf].
  assert (Z.min (write_ptr r - buf r) (sz - a) = b) as -> by lia.
  assert (truth b = true) as -> by (unfold truth; destruct (Z.eqb_spec b 0); [lia|done]).
  assert (outside r dst (Z.of_nat (length A))) as HoA by (unfold outside; lia).
  cbn [set_ahead set_read_ptr buf buf_end write_ptr read_ptr read_is_ahead].
  rewrite (ring_copy_out_Z fuel _ r); [|by apply ring_ok_outside|lia|lia|lia|unfold outside; lia| |lia].
  2: { apply write_bytes_mapped. intros q Hq. apply Hm. lia. }
  rewrite bind_ret, (read_bytes_outside _ r) by (done || lia).
  rewrite take_app_ge, drop_app_ge by lia.
  replace (Z.to_nat n - length A)%nat with (Z.to_nat b) by lia. rewrite <- ET, <- ED.
  eexists _, _. split; [do 2 f_equal; lia|].
  rewrite write_bytes_app. replace (Z.of_nat (length A)) with a by lia. split; [done|].
  set (B := read_bytes (Z.to_nat b) m (buf r)).
  assert (outside r (dst + a) (Z.of_nat (length B))) as HoB by (unfold B; rewrite read_bytes_length; unfold outside; lia).
  ring_solve. split; [|split; [|done]].
  - rewrite !(read_bytes_outside _ r) by (done || lia). f_equal. lia.
  - destruct (ring_ok_outside _ r _ _ (ring_ok_outside m r dst _ Hr HoA) HoB). split; ring_solve; done.
Qed.

(** C19: [ringbuf_read] is a dequeue on every branch (linear, up to the end of
    the array, around the end): it returns the smaller of the request and the
    number of queued bytes, copies exactly the oldest bytes to the caller,
    leaves the queue without them and keeps the pointer invariant. *)
Theorem ringbuf_read_dequeues fuel m r dst sz :
  ring_ok m r → 0 ≤ sz → mapped m dst sz → outside r dst sz → sz < Z.of_nat fuel →
  let n := Z.min sz (Z.of_nat (length (contents m r))) in
  ∃ m' r', ringbuf_read fuel m r dst sz = Ret (m', r', n) ∧ dequeued m r dst n m' r'.
Proof.
  intros Hr Hsz Hm Ho Hf. destruct (read_is_ahead r) eqn:Ha; [|by apply ring_read_plain].
  pose proof (ring_wp _ _ Hr).
  destruct (Z_lt_le_dec (buf_end r - read_ptr r) sz); [|by apply ring_read_tail; auto].
  destruct (Z.eq_dec (write_ptr r) (buf r)); [by apply ring_read_tail; auto|].
  apply ring_read_wrap; auto; lia.
Qed.

(** ** Writing *)
Lemma ring_ok_write m r p l : ring_ok m r → is_bytes l → ring_ok (write_bytes m p l) r.
Proof.
  intros [] Hl. split; try done. intros q Hq. rewrite write_bytes_lookup. case_decide; [|auto].
  destruct (lookup_lt_is_Some_2 l (Z.to_nat (q - p))) as [b Hb]; [lia|].
  exists b. split; [done|]. unfold is_bytes in Hl. rewrite Forall_lookup in Hl. by eapply Hl.
Qed.

Lemma read_bytes_disj m p l n q : q + Z.of_nat n ≤ p ∨ p + Z.of_nat (length l) ≤ q →
  read_bytes n (write_bytes m p l) q = read_bytes n m q.
Proof.
  intros Hd. apply read_bytes_ext. intros x Hx. rewrite write_bytes_lookup, decide_False by lia. done.
Qed.

Lemma read_bytes_written m p l n : n = length l → read_bytes n (write_bytes m p l) p = l.
Proof. intros ->. apply read_bytes_at, write_bytes_at. Qed.

(** Copying the slice [[k, k+n)] of the caller's bytes into the buffer. *)
Lemma ring_copy_in fuel m r dst src l k n :
  ring_ok m r → bytes_at m src l → is_bytes l → 0 ≤ k → 0 ≤ n → k + n ≤ Z.of_nat (length l) →
  outside r src (Z.of_nat (length l)) → buf r ≤ dst → dst + n ≤ buf_end r → n < Z.of_nat fuel →
  ring_memcpy fuel m dst (src + k) n
  = Ret (write_bytes m dst (take (Z.to_nat n) (drop (Z.to_nat k) l))).
Proof.
  intros Hr Hb Hl Hk Hn Hkn Ho Hd Hdn Hf. pose proof (ring_small _ _ Hr). unfold outside in Ho.
  set (s := take (Z.to_nat n) (drop (Z.to_nat k) l)).
  assert (Z.of_nat (length s) = n) as Hs by (unfold s; rewrite length_take, length_drop; lia).
  rewrite <- Hs. apply ring_memcpy_ok; rewrite ?Hs; try lia.
  - intros i b Hi. unfold s in Hi. apply lookup_take_Some in Hi as [Hi _]. rewrite lookup_drop in Hi.
    rewrite <- (Hb _ _ Hi). f_equal. lia.
  - by apply Forall_take, Forall_drop.
  - apply (ring_mapped m r); (done || lia).
Qed.

Lemma is_bytes_slice l k n : is_bytes l → is_bytes (take n (drop k l)).
Proof. intros. by apply Forall_take, Forall_drop. Qed.

(** What a write leaves behind: in linear mode the queue with the accepted
    bytes at its end; with the reader ahead, the queue as it was. *)
Definition enqueued (m : mem) (r : ringbuf) (l : list Z) (n : Z) (m' : mem) (r' : ringbuf) : Prop :=
  contents m' r' = (if read_is_ahead r then contents m r else contents m r ++ take (Z.to_nat n) l) ∧
  ring_ok m' r' ∧ buf r' = buf r ∧ buf_end r' = buf_end r ∧ read_ptr r' = read_ptr r ∧ writes_in (buf r) (buf_end r) m m'.

(** A write within the array. *)
Lemma array_writes m r p l : ring_ok m r → buf r ≤ p → p + Z.of_nat (length l) ≤ buf_end r → writes_in (buf r) (buf_end r) m (write_bytes m p l).
Proof.
  intros Hr Hp Hl. eapply writes_in_weaken; [apply write_bytes_writes; by apply (ring_mapped m r)|lia|lia].
Qed.

Lemma ring_write_ahead fuel m r src l :
  ring_ok m r → bytes_at m src l → is_bytes l → outside r src (Z.of_nat (length l)) →
  Z.of_nat (length l) < Z.of_nat fuel → read_is_ahead r = true →
  let n := Z.min (Z.of_nat (length l)) (room r) in
  ∃ m' r', ringbuf_write fuel m r src (Z.of_nat (length l)) = Ret (m', r', n) ∧ enqueued m r l n m' r'.
Proof.
  intros Hr Hb Hl Ho Hf Ha n.
  pose proof (ring_wp _ _ Hr). pose proof (ring_rp _ _ Hr). pose proof (ring_order _ _ Hr) as Hord.
  assert (n = Z.min (read_ptr r - write_ptr r) (Z.of_nat (length l))) as Hn by (unfold n, room; rewrite Ha; lia).
  clearbody n. unfold ringbuf_write, enqueued. rewrite Ha in *. rewrite c_min_spec, <- Hn. cbv zeta.
  pose proof (ring_copy_in fuel m r (write_ptr r) src l 0 n) as E. rewrite Z.add_0_r in E.
  rewrite E by (done || lia). rewrite bind_ret.
  eexists _, _. split; [done|]. split; [|split; [|split_and!; [done..|]]].
  3: { apply array_writes; rewrite ?length_take, ?length_drop; (done || lia). }
  - unfold contents. rewrite Ha.
    rewrite !read_bytes_disj by (rewrite ?length_take, ?length_drop; lia). done.
  - apply ring_ok_write; [done|]. by apply is_bytes_slice.
Qed.

Lemma ring_write_linear fuel m r src l :
  ring_ok m r → bytes_at m src l → is_bytes l → outside r src (Z.of_nat (length l)) →
  Z.of_nat (length l) < Z.of_nat fuel → read_is_ahead r = false →
  let n := Z.min (Z.of_nat (length l)) (room r) in
  ∃ m' r', ringbuf_write fuel m r src (Z.of_nat (length l)) = Ret (m', r', n) ∧ enqueued m r l n m' r'.
Proof.
  intros Hr Hb Hl Ho Hf Ha n. set (sz := Z.of_nat (length l)) in *.
  pose proof (ring_wp _ _ Hr). pose proof (ring_rp _ _ Hr). pose proof (ring_order _ _ Hr) as Hord.
  assert (n = Z.min sz (buf_end r - write_ptr r + (read_ptr r - buf r))) as Hn by (unfold n, room; by rewrite Ha).
  clearbody n. unfold ringbuf_write, enqueued. rewrite Ha in *. rewrite !c_min_spec.
  set (a := Z.min (buf_end r - write_ptr r) sz).
  pose proof (ring_copy_in fuel m r (write_ptr r) src l 0 a) as E. rewrite Z.add_0_r in E. cbv zeta.
  rewrite E by (done || lia). rewrite bind_ret, drop_0.
  set (A := take (Z.to_nat a) l). assert (length A = Z.to_nat a) as HA by (unfold A; rewrite length_take; lia).
  cbn [set_write_ptr read_ptr buf]. set (b := Z.min (read_ptr r - buf r) (sz - a)).
  assert (ring_ok (write_bytes m (write_ptr r) A) r) as Hr1 by (apply ring_ok_write; [done|]; by apply Forall_take).
  assert (read_bytes (Z.to_nat (write_ptr r + a - read_ptr r)) (write_bytes m (write_ptr r) A) (read_ptr r)
          = contents m r ++ A) as EC.
  { unfold contents. rewrite Ha.
    replace (Z.to_nat (write_ptr r + a - read_ptr r)) with (Z.to_nat (write_ptr r - read_ptr r) + length A)%nat by lia.
    rewrite read_bytes_app, read_bytes_disj by lia. f_equal.
    rewrite Z2Nat.id by lia. replace (read_ptr r + (write_ptr r - read_ptr r)) with (write_ptr r) by lia.
    by apply read_bytes_written. }
  destruct (Z.eqb_spec b 0) as [Hb0|Hb0].
  - assert (truth b = false) as -> by (unfold truth; by rewrite Hb0). eexists _, _. split; [repeat f_equal; lia|].
    ring_solve. replace n with a by lia. split; [unfold contents at 1; ring_solve; by rewrite Ha, EC|].
    split; [|split_and!; [done..|apply array_writes; (done || lia)]]. destruct Hr1. split; ring_solve; rewrite ?Ha; try done; lia.
  - assert (truth b = true) as -> by (unfold truth; destruct (Z.eqb_spec b 0); [lia|done]).
    rewrite (ring_copy_in fuel _ r _ src l a b);
      [|done| |done|lia|lia|lia|done|lia|lia|lia].
    2: { apply write_bytes_bytes_at; [done|]. unfold outside in Ho. lia. }
    rewrite bind_ret. set (B := take (Z.to_nat b) (drop (Z.to_nat a) l)).
    assert (length B = Z.to_nat b) as HB by (unfold B; rewrite length_take, length_drop; lia).
    eexists _, _. split; [repeat f_equal; lia|]. ring_solve. split; [|split; [|split_and!; [done..|]]].
    3: { etransitivity; apply array_writes; (done || lia). }
    + unfold contents at 1. ring_solve. replace (buf_end r - read_ptr r) with (write_ptr r + a - read_ptr r) by lia.
      rewrite read_bytes_disj by lia. rewrite EC, read_bytes_written by lia. rewrite <- app_assoc. f_equal.
      unfold A, B. rewrite take_take_drop. f_equal. lia.
    + assert (ring_ok (write_bytes (write_bytes m (write_ptr r) A) (buf r) B) r) as []
        by (apply ring_ok_write; [done|]; by apply is_bytes_slice).
      split; ring_solve; done.
Qed.

(** While the reader is ahead, the write pointer is not advanced: the bytes that
    fit are copied and reported as written, but the queue is the one before the
    call. *)
Lemma ringbuf_write_ahead_lost fuel m r src l :
  ring_ok m r → bytes_at m src l → is_bytes l → outside r src (Z.of_nat (length l)) →
  Z.of_nat (length l) < Z.of_nat fuel → read_is_ahead r = true →
  let n := Z.min (Z.of_nat (length l)) (room r) in
  ∃ m' r', ringbuf_write fuel m r src (Z.of_nat (length l)) = Ret (m', r', n) ∧ contents m' r' = contents m r.
Proof.
  intros Hr Hb Hl Ho Hf Ha n. destruct (ring_write_ahead fuel m r src l Hr Hb Hl Ho Hf Ha) as (m' & r' & E & Hc & _).
  rewrite Ha in Hc. by exists m', r'.
Qed.

(** C18: while the reader is not ahead, [ringbuf_write] enqueues: it accepts the
    smaller of the request and the free space, [buf_end - write_ptr] bytes behind
    the queue and [read_ptr - buf] in front of it, and the accepted bytes are then
    at the end of the queue, also when they go around the end of the array.  The
    pointers stay in order, the reader's place does not move, and nothing outside
    the array is written. *)
Theorem ringbuf_write_enqueues fuel m r src l :
  ring_ok m r → bytes_at m src l → is_bytes l → outside r src (Z.of_nat (length l)) →
  Z.of_nat (length l) < Z.of_nat fuel → read_is_ahead r = false →
  let n := Z.min (Z.of_nat (length l)) ((buf_end r - write_ptr r) + (read_ptr r - buf r)) in
  ∃ m' r', ringbuf_write fuel m r src (Z.of_nat (length l)) = Ret (m', r', n) ∧
    contents m' r' = contents m r ++ take (Z.to_nat n) l ∧
    ring_ok m' r' ∧ buf r' = buf r ∧ buf_end r' = buf_end r ∧ read_ptr r' = read_ptr r ∧ writes_in (buf r) (buf_end r) m m'.
Proof.
  intros Hr Hb Hl Ho Hf Ha. destruct (ring_write_linear fuel m r src l Hr Hb Hl Ho Hf Ha) as (m' & r' & E & He).
  unfold enqueued, room in *. rewrite Ha in *. by exists m', r'.
Qed.

(** ** Witnesses *)

(** Ten bytes of memory: a four-byte array at 0, caller's buffers from 4 on. *)
Definition demo_mem : mem := mem_of 0 [65; 66; 67; 68; 1; 2; 3; 4; 5; 6].

Lemma demo_ring_ok w r (a : bool) : 0 ≤ w ≤ 4 → 0 ≤ r ≤ 4 → (if a then w ≤ r else r ≤ w) →
  ring_ok demo_mem (Ringbuf 0 4 w r a).
Proof.
  intros Hw Hr Hd. split; ring_solve; [by destruct a|]. intros q Hq.
  assert (q = 0 ∨ q = 1 ∨ q = 2 ∨ q = 3) as [-> | [-> | [-> | ->]]] by lia;
    (eexists; split; [vm_compute; reflexivity|lia]).
Qed.

Lemma demo_bytes l n : l = take n [1; 2; 3; 4; 5; 6] → bytes_at demo_mem 4 l.
Proof.
  intros ->. intros i b Hi. apply lookup_take_Some in Hi as [Hi _].
  pose proof (mem_of_bytes 0 [65; 66; 67; 68; 1; 2; 3; 4; 5; 6]) as H.
  apply (proj1 (bytes_at_app _ 0 [65; 66; 67; 68] [1; 2; 3; 4; 5; 6])) in H as [_ H]. by apply H.
Qed.

(** Witness: three bytes read around the end of the array. *)
Lemma ringbuf_read_dequeues_witness :
  ∃ m' r', ringbuf_read 4 demo_mem (Ringbuf 0 4 2 3 true) 4 3 = Ret (m', r', 3) ∧
    dequeued demo_mem (Ringbuf 0 4 2 3 true) 4 3 m' r'.
Proof.
  apply (ringbuf_read_dequeues 4 demo_mem (Ringbuf 0 4 2 3 true) 4 3); [by apply demo_ring_ok|done| |by right|done].
  apply (bytes_at_mapped demo_mem 4 [1; 2; 3]). by apply (demo_bytes _ 3).
Defined.

(** Witness: four bytes written around the end of the array, of five. *)
Lemma ringbuf_write_enqueues_witness :
  ∃ m' r', ringbuf_write 8 demo_mem (Ringbuf 0 4 3 3 false) 4 5 = Ret (m', r', 4) ∧ contents m' r' = [1; 2; 3; 4] ∧ read_is_ahead r' = true.
Proof.
  destruct (ringbuf_write_enqueues 8 demo_mem (Ringbuf 0 4 3 3 false) 4 [1; 2; 3; 4; 5]) as (m' & r' & E & Hc & _);
    [by apply demo_ring_ok|by apply (demo_bytes _ 5)| |by right|done|done|].
  - repeat constructor; lia.
  - exists m', r'. split; [exact E|]. split; [exact Hc|].
    apply (f_equal (λ o, match o with Ret (_, r, _) => read_is_ahead r | _ => false end)) in E. by vm_compute in E.
Defined.
