(* ===== verification/Pipe.v ===== *)
(** * Pipes (pipe.c)

    A ring buffer of characters whose reader waits on a flag of the scheduler. *)

From S2P Require Import Prelude Lists Sched Ringbuf.

(** The pipe's buffer, its memory, the flag's address and the kernel. *)
Record pipe_state := PipeState { pker : kernel; pmem : mem; pring : ringbuf }.

Definition pipe_init (b bufsize : Z) (s : pipe_state) : pipe_state :=
  PipeState (pker s) (pmem s) (ringbuf_init b bufsize).

(** [pc] is the address of the parameter [c]; the lock is free on one CPU with
    interrupts off. *)
Definition pipe_push (fuel : nat) (waitflag pc c : Z) (s : pipe_state) : outcome pipe_state :=
  m ← store8 (pmem s) pc c;
  '(m, r, _) ← ringbuf_write fuel m (pring s) pc 1;
  k ← wakeup_waitflag waitflag (pker s);
  Ret (PipeState k m r).

(** [pipe_pop] up to the point where it returns from [wait_on_waitflag] or is
    switched out. *)
Definition pipe_pop_wait (fuel : nat) (now waitflag : Z) (s : pipe_state) : outcome pipe_state :=
  k ← wait_on_waitflag fuel now waitflag (pker s);
  Ret (PipeState k (pmem s) (pring s)).

(** [pipe_pop] from there on. *)
Definition pipe_pop_take (fuel : nat) (pc : Z) (s : pipe_state) : outcome (pipe_state * Z) :=
  '(m, r, n) ← ringbuf_read fuel (pmem s) (pring s) pc 1;
  _ ← BUG (negb (n =? 1));
  c ← load8 m pc;
  Ret (PipeState (pker s) m r, c).

(** The queue of a pipe. *)
Definition pipe_contents (s : pipe_state) : list Z := contents (pmem s) (pring s).
