(* ===== verification/DmaMem.v ===== *)
(** * DMA memory (dma_memory.c, include/memory/chunk.h)

    Five areas of chunks, each with a free and a busy list of chunk headers.
    The addresses the linker chooses are the arguments [L] of the section. *)

From S2P Require Import Prelude Bits Lists Strings.

(** [struct chunk] is 24 bytes with its list node at offset 8; a chunk is named
    by the address of its node. *)
Definition chunk_node (table i : Z) : Z := table + 24 * i + 8.

Record chunk_area := ChunkArea {
  chunks_table : Z; chunks_mem : Z; chunk_sz_log : Z; num_chunks : Z; free_list : Z; busy_list : Z }.

(** The [__CHUNK] initialiser: the number of chunks is the length of the header
    array, which [__CHUNK_GROUP] declares as [1 << log]. *)
Definition CHUNK (log : Z) (table cmem free busy : Z) : chunk_area :=
  ChunkArea table cmem log (Z.shiftl 1 log) free busy.

(** Bytes of the array [chunk_mem_<log>] that [__CHUNK_GROUP] declares. *)
Definition chunk_mem_size (log num : Z) : Z := Z.shiftl 1 log * num.

(** What the linker places: the header array, the memory and the two list heads
    of each of the five groups, and the bounds of the section. *)
Record layout := Layout {
  l_table : Z → Z; l_mem : Z → Z; l_free : Z → Z; l_busy : Z → Z; l_start : Z; l_end : Z }.

Record dma_state := DmaState { dhp : heap; daddr : gmap Z Z; dmem : mem }.

Definition with_dhp (s : dma_state) (σ : heap) : dma_state := DmaState σ (daddr s) (dmem s).
Definition with_dmem (s : dma_state) (m : mem) : dma_state := DmaState (dhp s) (daddr s) m.

Definition logsize_to_area_idx : list Z := [0; 0; 1; 2; 2; 3; 3; 3; 4; 4; 4; 4; 4; 4].

Section dma.
Context (L : layout).

Definition dma_area (log : Z) : chunk_area := CHUNK log (l_table L log) (l_mem L log) (l_free L log) (l_busy L log).

Definition dma_chunk_areas : list chunk_area := [dma_area 6; dma_area 7; dma_area 9; dma_area 12; dma_area 19].

(** [logsz - 5] is converted to [size_t] by the comparison; a negative index
    is outside the table. *)
Definition chunk_area_get_by_sz (sz : Z) : outcome (option chunk_area) :=
  logsz ← get_biggest_log2 sz;
  if Z.of_nat (length logsize_to_area_idx) <? u64 (logsz - 5) then Ret None else
  let i := logsz - 5 - 1 in
  if i <? 0 then Fault else
  idx ← deref (logsize_to_area_idx !! Z.to_nat i);
  a ← deref (dma_chunk_areas !! Z.to_nat idx);
  Ret (Some a).

Definition dma_alloc (fuel : nat) (sz : Z) (s : dma_state) : outcome (dma_state * Z) :=
  a ← chunk_area_get_by_sz sz;
  match a with
  | None => Panic
  | Some a =>
      c ← list_first_entry (dhp s) (free_list a);
      σ ← list_del (dhp s) c;
      σ ← list_add_tail σ c (busy_list a);
      addr ← deref (daddr s !! c);
      m ← memset fuel (dmem s) addr 0 sz;
      Ret (DmaState σ (daddr s) m, addr)
  end.

(** The search for the area; [num_chunks << log] is an [int] shift. Without a
  break the loop leaves [d] at the last area. *)
Fixpoint find_area (ds : list chunk_area) (d : chunk_area) (addr base_addr : Z) : chunk_area :=
  match ds with
  | [] => d
  | d :: ds =>
    let base_addr := u64 (base_addr + s32 (Z.shiftl (num_chunks d) (chunk_sz_log d))) in
    if addr <=? base_addr then d else find_area ds d addr base_addr
  end.

Definition chunk_get_by_addr (s : dma_state) (addr : Z) : outcome (Z * chunk_area) :=
  _ ← BUG (addr <? l_start L);
  _ ← BUG (l_end L <=? addr);
  let d := find_area dma_chunk_areas (dma_area 6) addr (l_start L) in
  base_addr ← deref (daddr s !! chunk_node (chunks_table d) 0);
  let i := s32 (Z.shiftr (u64 (addr - base_addr)) (chunk_sz_log d)) in
  if (i <? 0) || (num_chunks d <=? i) then Fault
  else Ret (chunk_node (chunks_table d) i, d).

Definition dma_free (addr : Z) (s : dma_state) : outcome dma_state :=
  '(c, a) ← chunk_get_by_addr s addr;
  σ ← list_del (dhp s) c;
  σ ← list_add σ c (free_list a);
  Ret (with_dhp s σ).

(** The inner loop of [dma_memory_init]; [1 << chunk_sz_log] is an [int]. *)
Definition dma_init_area (fuel : nat) (ca : chunk_area) (s : dma_state) : outcome dma_state :=
  σ ← INIT_LIST_HEAD (dhp s) (free_list ca);
  σ ← INIT_LIST_HEAD σ (busy_list ca);
  loop fuel (λ '(s, i, chunk_mem),
  if i <? num_chunks ca then
    let c := chunk_node (chunks_table ca) i in
    σ ← INIT_LIST_HEAD (dhp s) c;
    σ ← list_add_tail σ c (free_list ca);
    Ret (inl (DmaState σ (<[c := chunk_mem]> (daddr s)) (dmem s), i + 1,
              chunk_mem + Z.shiftl 1 (chunk_sz_log ca)))
  else Ret (inr s)) (with_dhp s σ, 0, chunks_mem ca).

Definition dma_memory_init (fuel : nat) (s : dma_state) : outcome dma_state :=
  foldl (λ m ca, s ← m; dma_init_area fuel ca s) (Ret s) dma_chunk_areas.

(** ** Size classes *)

(** The area of a request of [sz] bytes. *)
Definition class_of (sz : Z) : Z :=
  if sz <=? 128 then 6 else if sz <=? 512 then (if sz <=? 256 then 7 else 9)
  else if sz <=? 1024 then 9 else if sz <=? 8192 then 12 else 19.

(** [log2_up] by comparison with the powers of two. *)
Lemma log2_up_class sz n : 2 ^ (n - 1) < sz ≤ 2 ^ n → 0 < n → Z.log2_up sz = n.
Proof. intros. apply Z.log2_up_unique; [done|]. by rewrite <- Z.sub_1_r. Qed.

Lemma class_by_sz sz : 33 ≤ sz ≤ 2 ^ 19 → chunk_area_get_by_sz sz = Ret (Some (dma_area (class_of sz))).
Proof.
  intros Hsz. unfold chunk_area_get_by_sz.
  destruct (get_biggest_log2_bounds sz) as [-> Hb]; [lia|]. rewrite bind_ret.
  assert (6 ≤ Z.log2_up sz ≤ 19) as Hl.
  { split; [change 6 with (Z.log2_up 33)|change 19 with (Z.log2_up (2 ^ 19))]; apply Z.log2_up_le_mono; lia. }
  remember (Z.log2_up sz) as g eqn:Eg. clear Eg.
  assert (g = 6 ∨ g = 7 ∨ g = 8 ∨ g = 9 ∨ g = 10 ∨ g = 11 ∨ g = 12 ∨ g = 13 ∨ g = 14 ∨ g = 15 ∨ g = 16 ∨ g = 17 ∨ g = 18 ∨ g = 19)
  as Hg by lia.
  repeat destruct Hg as [-> | Hg]; try subst g; cbn in Hb |- *; unfold class_of;
  repeat match goal with |- context [sz <=? ?k] => destruct (Z.leb_spec sz k); try lia end; done.
Qed.

(** [chunk_area_get_by_sz] picks, for every request of 33 to 524288 bytes,
  the area one class below the one its table documents; the chunk is too
  small exactly for 65..128 bytes (64-byte chunks), 129..256 (128-byte
  chunks), 513..1024 (512-byte chunks) and 4097..8192 (4096-byte chunks).
  Requests of 17..32 bytes index the table at -1, smaller ones are refused. *)
Theorem dma_size_classes sz :
  (33 ≤ sz ≤ 2 ^ 19 → ∃ a, chunk_area_get_by_sz sz = Ret (Some a) ∧
   (2 ^ chunk_sz_log a < sz ↔ 64 < sz ≤ 256 ∨ 512 < sz ≤ 1024 ∨ 4096 < sz ≤ 8192)) ∧
  (17 ≤ sz ≤ 32 → chunk_area_get_by_sz sz = Fault) ∧
  (2 ≤ sz ≤ 16 → chunk_area_get_by_sz sz = Ret None).
Proof.
  split; [|split]; intros Hsz.
  - eexists. split; [by apply class_by_sz|]. unfold class_of.
  repeat match goal with |- context [if sz <=? ?k then _ else _] => destruct (Z.leb_spec sz k) end; cbn; lia.
  - unfold chunk_area_get_by_sz. destruct (get_biggest_log2_bounds sz) as [-> _]; [lia|]. rewrite bind_ret.
  by rewrite (log2_up_class sz 5) by lia.
  - unfold chunk_area_get_by_sz. destruct (get_biggest_log2_bounds sz) as [-> Hb]; [lia|]. rewrite bind_ret.
  assert (1 ≤ Z.log2_up sz ≤ 4) as Hl.
  { split; [change 1 with (Z.log2_up 2)|change 4 with (Z.log2_up 16)]; apply Z.log2_up_le_mono; lia. }
  assert (u64 (Z.log2_up sz - 5) = Z.log2_up sz - 5 + 2 ^ 64) as ->.
  { unfold u64. symmetry. apply Z.mod_unique with (-1); lia. }
  cbn [length logsize_to_area_idx]. destruct (Z.ltb_spec (Z.of_nat 14) (Z.log2_up sz - 5 + 2 ^ 64)); [done|lia].
Qed.

(** ** Allocation and release *)

(** The lists of the area [log] are [free] and [busy], made of headers of its
    table that hold the address of their chunk. *)
Record area_ok (log : Z) (s : dma_state) (free busy : list Z) : Prop := {
  area_free : dring (dhp s) (l_free L log) free;
  area_busy : dring (dhp s) (l_busy L log) busy;
  area_disj : rings_disjoint (l_free L log) free (l_busy L log) busy;
  area_addr : ∀ c, c ∈ free ++ busy → ∃ i, 0 ≤ i < 2 ^ log ∧
    c = chunk_node (l_table L log) i ∧ daddr s !! c = Some (l_mem L log + i * 2 ^ log) }.

Lemma dma_alloc_ok fuel sz s c free busy :
  33 ≤ sz ≤ 2 ^ 19 → area_ok (class_of sz) s (c :: free) busy →
  (∀ a, daddr s !! c = Some a → mapped (dmem s) a sz) → sz < Z.of_nat fuel →
  ∃ s' addr, dma_alloc fuel sz s = Ret (s', addr) ∧ daddr s !! c = Some addr ∧ daddr s' = daddr s ∧
    area_ok (class_of sz) s' free (busy ++ [c]) ∧
    dmem s' = write_bytes (dmem s) addr (replicate (Z.to_nat sz) 0).
Proof.
  intros Hsz [Hf Hb Hd Ha] Hm Hfuel. destruct (Ha c ltac:(set_solver)) as (i & Hi & Hc & Hca).
  unfold dma_alloc. rewrite class_by_sz, bind_ret by done. cbn [dma_area CHUNK free_list busy_list].
  rewrite (list_first_ring _ _ _ Hf), bind_ret.
  destruct (move_rings (dhp s) (l_free L (class_of sz)) [] c free (l_busy L (class_of sz)) busy list_add_tail (λ l x, l ++ [x])) as (σ & E & Hf' & Hb' & _);
    [intros; by apply list_add_tail_ring|done..|].
  unfold list_del. apply bind_inv in E as (σ1 & -> & E). rewrite bind_ret, E, bind_ret, Hca. cbn [deref].
  rewrite bind_ret.
    pose proof (memset_ok fuel (dmem s) (l_mem L (class_of sz) + i * 2 ^ class_of sz) 0 (Z.to_nat sz)) as Ems.
    rewrite Z2Nat.id in Ems by lia. rewrite Ems; [|by apply Hm|lia]. rewrite bind_ret.
    eexists _, _. split; [done|]. split; [done|]. split; [done|]. split; [|done]. split; cbn [dhp daddr].
  - done.
  - done.
  - intros z Hz Hz'. destruct Hf as [Hnd _]. destruct (decide (z = c)) as [->|Hne].
    + apply NoDup_cons in Hnd as [Hh [Hn _]%NoDup_cons]. set_solver.
    + apply (Hd z); set_solver.
  - intros z Hz. apply Ha. set_solver.
Qed.

(** The linker places the 64-byte group at the start of the section. *)
Record first_group : Prop := {
  fg_mem : l_mem L 6 = l_start L;
  fg_start : 0 ≤ l_start L;
  fg_end : l_start L + chunk_mem_size 6 64 < l_end L;
  fg_wrap : l_end L < 2 ^ 63 }.

Lemma chunk_get_first s i : first_group → 0 ≤ i ≤ 64 → daddr s !! chunk_node (l_table L 6) 0 = Some (l_mem L 6) →
  chunk_get_by_addr s (l_mem L 6 + i * 2 ^ 6) =
  if i =? 64 then Fault else Ret (chunk_node (l_table L 6) i, dma_area 6).
Proof.
  intros [Hmem Hs He Hw] Hi H0. change (chunk_mem_size 6 64) with 4096 in He. change (2 ^ 6) with 64.
  assert (find_area dma_chunk_areas (dma_area 6) (l_mem L 6 + i * 64) (l_start L) = dma_area 6) as E6.
  { cbn [find_area dma_chunk_areas]. change (s32 (Z.shiftl (num_chunks (dma_area 6)) (chunk_sz_log (dma_area 6)))) with 4096.
    rewrite (u64_id (l_start L + 4096)) by lia. by destruct (Z.leb_spec (l_mem L 6 + i * 64) (l_start L + 4096)); [|lia]. }
  unfold chunk_get_by_addr. rewrite E6. destruct (Z.ltb_spec (l_mem L 6 + i * 64) (l_start L)); [lia|].
  destruct (Z.leb_spec (l_end L) (l_mem L 6 + i * 64)); [lia|]. cbn [BUG]. rewrite ?bind_ret.
  cbn [dma_area CHUNK chunks_table chunk_sz_log num_chunks]. rewrite H0. cbn [deref]. rewrite bind_ret.
  replace (l_mem L 6 + i * 64 - l_mem L 6) with (i * 64) by lia. rewrite u64_id by lia.
  rewrite Z.shiftr_div_pow2 by lia. change (2 ^ 6) with 64. rewrite Z.div_mul, s32_id by lia.
  change (Z.shiftl 1 6) with 64. zcases; try lia; done.
Qed.

Lemma dma_free_ok s i free xs ys :
  first_group → 0 ≤ i < 64 → daddr s !! chunk_node (l_table L 6) 0 = Some (l_mem L 6) →
  area_ok 6 s free (xs ++ chunk_node (l_table L 6) i :: ys) →
  ∃ s', dma_free (l_mem L 6 + i * 2 ^ 6) s = Ret s' ∧ area_ok 6 s' (chunk_node (l_table L 6) i :: free) (xs ++ ys) ∧
    daddr s' = daddr s ∧ dmem s' = dmem s.
Proof.
  intros HL Hi H0 [Hf Hb Hd Ha]. unfold dma_free. rewrite chunk_get_first by (done || lia).
  destruct (Z.eqb_spec i 64); [lia|]. rewrite bind_ret. set (c := chunk_node (l_table L 6) i) in *.
  destruct (list_move_ring (dhp s) (l_busy L 6) xs c ys (l_free L 6) free Hb Hf) as (σ & E & Hb' & Hf' & _); [by apply rings_disjoint_sym|].
  unfold list_move in E. apply bind_inv in E as (σ1 & E1 & E). unfold list_del. rewrite E1, bind_ret.
  cbn [dma_area CHUNK free_list]. rewrite E, bind_ret. eexists. split; [done|]. split; [|done].
  split; cbn [dhp daddr with_dhp].
  - done.
  - done.
  - pose proof (dring_delete_NoDup _ _ _ _ _ Hb) as Hc. intros z Hz Hz'. destruct (decide (z = c)) as [->|]; [set_solver|].
    apply (Hd z); set_solver.
  - intros z Hz. apply Ha. set_solver.
Qed.

(** in the 64-byte area the allocator and the release are inverse: a
    request of 33..128 bytes takes the first free chunk, zeroes [sz] bytes at
    its address and moves it to the end of the busy list; releasing the
    returned address puts exactly this header back at the front of the free
    list, so both lists are as before. *)
Theorem dma_alloc_free_roundtrip fuel sz s c free busy :
  first_group → 33 ≤ sz ≤ 128 → area_ok 6 s (c :: free) busy →
  daddr s !! chunk_node (l_table L 6) 0 = Some (l_mem L 6) →
  (∀ a, daddr s !! c = Some a → mapped (dmem s) a sz) → sz < Z.of_nat fuel →
  ∃ s1 s2 addr, dma_alloc fuel sz s = Ret (s1, addr) ∧ area_ok 6 s1 free (busy ++ [c]) ∧
    dmem s1 = write_bytes (dmem s) addr (replicate (Z.to_nat sz) 0) ∧
    dma_free addr s1 = Ret s2 ∧ area_ok 6 s2 (c :: free) busy ∧ dmem s2 = dmem s1.
Proof.
  intros HL Hsz Hok H0 Hm Hf. assert (class_of sz = 6) as Ec by (unfold class_of; destruct (Z.leb_spec sz 128); lia).
  pose proof Hok as [_ _ _ Haddr]. destruct (Haddr c ltac:(set_solver)) as (i & Hi & Hc & Ha).
  rewrite <- Ec in Hok. destruct (dma_alloc_ok fuel sz s c free busy) as (s1 & addr & E & Ha' & Hd & Hok1 & Hm1); [lia|done..|].
  rewrite Ec in Hok1. rewrite Ha in Ha'. injection Ha' as <-. subst c.
  destruct (dma_free_ok s1 i free busy [] HL Hi) as (s2 & E2 & Hok2 & _ & Hm2); [by rewrite Hd|done|].
  rewrite app_nil_r in Hok2. by exists s1, s2, (l_mem L 6 + i * 2 ^ 6).
Qed.

(** the address right after the 64-byte group, which is where the 128-byte
    group starts, cannot be released: the [<=] of the search still attributes
    it to the 64-byte area and the header index is 64, outside its table. *)
Theorem dma_free_boundary_faults s :
  first_group → l_mem L 7 = l_mem L 6 + chunk_mem_size 6 64 →
  daddr s !! chunk_node (l_table L 6) 0 = Some (l_mem L 6) →
  dma_free (l_mem L 7) s = Fault.
Proof.
  intros HL -> H0. unfold dma_free. change (chunk_mem_size 6 64) with (64 * 2 ^ 6).
  by rewrite chunk_get_first by (done || lia).
Qed.
End dma.

(** ** Witnesses *)

(** A section at 4096 with the lists at 100..; the first two chunks of the
    64-byte group are free. *)
Definition demo_layout : layout :=
  Layout (λ _, 1000) (λ log, if log =? 6 then 4096 else 8192) (λ _, 100) (λ _, 200) 4096 (2 ^ 26).

Definition demo_dma : dma_state := DmaState
  (<[100 := ListHead 1008 1032]> (<[1008 := ListHead 1032 100]> (<[1032 := ListHead 100 1008]>
    (<[200 := ListHead 200 200]> ∅))))
  (<[1008 := 4096]> (<[1032 := 4160]> ∅)) (mem_of 4096 (replicate 64 7)).

Lemma demo_first_group : first_group demo_layout.
Proof. by split. Qed.

Lemma demo_area_ok : area_ok demo_layout 6 demo_dma [1008; 1032] [].
Proof.
  split.
  - split; [by apply (bool_decide_unpack _); vm_compute|]. repeat split.
  - split; [by apply (bool_decide_unpack _); vm_compute|]. repeat split.
  - intros z Hz Hz'. cbn in *. set_solver.
  - intros c. rewrite app_nil_r, !elem_of_cons. intros [-> | [-> | []%not_elem_of_nil]].
    + exists 0. by repeat split.
    + exists 1. by repeat split.
Qed.

(** Witness: 64 bytes are taken from chunk 0 and given back. *)
Lemma dma_alloc_free_roundtrip_witness :
  ∃ s1 s2, dma_alloc demo_layout 65 64 demo_dma = Ret (s1, 4096) ∧ dma_free demo_layout 4096 s1 = Ret s2 ∧
    area_ok demo_layout 6 s2 [1008; 1032] [].
Proof.
  destruct (dma_alloc_free_roundtrip demo_layout 65 64 demo_dma 1008 [1032] []) as (s1 & s2 & a & E1 & _ & _ & E2 & H & _).
  - exact demo_first_group.
  - done.
  - exact demo_area_ok.
  - done.
  - intros a Ha. vm_compute in Ha. injection Ha as <-. intros q Hq.
    unfold demo_dma. cbn [dmem]. rewrite mem_of_lookup, decide_True by lia.
    apply lookup_lt_is_Some_2. rewrite length_replicate. lia.
  - done.
  - assert (match dma_alloc demo_layout 65 64 demo_dma with Ret (_, a) => a | _ => 0 end = 4096) as H1
      by (vm_compute; reflexivity).
    rewrite E1 in H1. subst a. exists s1, s2. split; [exact E1|split; [exact E2|exact H]].
Defined.

(** Witness: the first chunk of the 128-byte group at 8192. *)
Lemma dma_free_boundary_faults_witness : dma_free demo_layout 8192 demo_dma = Fault.
Proof. apply (dma_free_boundary_faults demo_layout demo_dma); [exact demo_first_group|done..]. Defined.
