(* ===== verification/Mmu.v ===== *)
(** * The MMU tables (arch/armv8/mmu.c, mmu_memattr.h)

    Building of the four levels of translation tables with a 4 KB granule, and
    the attribute register.  Table memory holds 64-bit entries at their byte
    addresses.  [walk] is the lookup the comment at the top of mmu.c describes
    (9 address bits per level); it is the specification the tables are proved
    against. *)

From S2P Require Import Prelude.

Abbreviation ptmem := (gmap Z Z).

(** ** Entries *)
Definition MMU_PAGE_GRANULE : Z := 4096.
Definition MMU_PTES_PER_LEVEL : Z := 512.

(** [BITS_AT_POS] and [BIT_AT_POS] of include/bits_api.h. *)
Definition BITS_AT_POS (bits pos mask : Z) : Z := Z.shiftl (Z.land bits mask) pos.
Definition BIT_AT_POS (bit pos : Z) : Z := BITS_AT_POS bit pos 1.

Definition PTE_OUT_ADDR (phys_page_idx : Z) : Z := BITS_AT_POS phys_page_idx 12 0xffffffffff.
Definition PTE_LO_ATTR (lo_attr : Z) : Z := BITS_AT_POS lo_attr 2 0x3ff.
Definition PTE_UP_ATTR (up_attr : Z) : Z := BITS_AT_POS up_attr 51 0x1fff.

Definition MAKE_PAGE_PTE (up_attr phys_page_idx lo_attr : Z) : Z :=
  Z.lor (Z.lor (Z.lor (PTE_UP_ATTR up_attr) (PTE_OUT_ADDR phys_page_idx)) (PTE_LO_ATTR lo_attr)) 3.

Definition MAKE_PAGE_PTE_LO_ATTR (attr_idx ns ap sh af ng : Z) : Z :=
  Z.lor (Z.lor (Z.lor (Z.lor (Z.lor (BITS_AT_POS attr_idx 0 7) (BIT_AT_POS ns 3)) (BITS_AT_POS ap 4 3))
    (BITS_AT_POS sh 6 3)) (BIT_AT_POS af 8)) (BIT_AT_POS ng 9).

Definition MAKE_TABLE_PTE (ns_table ap_table xn_table pxn_table next_lvl_table_page : Z) : Z :=
  Z.lor (Z.lor (Z.lor (Z.lor (Z.lor (BIT_AT_POS ns_table 63) (BITS_AT_POS ap_table 61 3)) (BIT_AT_POS xn_table 60))
    (BIT_AT_POS pxn_table 59)) (PTE_OUT_ADDR next_lvl_table_page)) 3.

Record pt_mem_range := PtMemRange {
  pa_start_page : Z; va_start_page : Z; num_pages : Z; mem_attr_idx : Z; sh_bits : Z }.

Record pt_config := PtConfig {
  base_address : Z; page_size : Z; num_entries_per_pt : Z; pa_start : Z; pa_end : Z;
  mem_ranges : list pt_mem_range }.

(** [pt[i] = v] for a table at [pt]. *)
Definition set_pte (m : ptmem) (pt i v : Z) : ptmem := <[pt + 8 * i := u64 v]> m.

(** ** Filling tables *)
Definition map_page_ptes (fuel : nat) (m : ptmem) (page_pte phys_page_idx num_pages mem_attr_idx sh_bits : Z)
    : outcome ptmem :=
  let up_attr := 0 in
  let lo_attr := MAKE_PAGE_PTE_LO_ATTR mem_attr_idx 1 0 sh_bits 1 0 in
  loop fuel (λ '(m, page_pte, phys_page_idx, i),
    if i <? num_pages then
      let pte := MAKE_PAGE_PTE up_attr phys_page_idx lo_attr in
      Ret (inl (set_pte m page_pte 0 pte, page_pte + 8, u64 (phys_page_idx + 1), i + 1))
    else Ret (inr m)) (m, page_pte, phys_page_idx, 0).

Definition map_table_ptes (fuel : nat) (m : ptmem) (pt pte_count next_level_pte : Z) (c : pt_config)
    : outcome ptmem :=
  let next_level_pt_page := next_level_pte / page_size c in
  loop fuel (λ '(m, next_level_pt_page, i),
    if i <? pte_count then
      Ret (inl (set_pte m pt i (MAKE_TABLE_PTE 0 0 0 0 next_level_pt_page), u64 (next_level_pt_page + 1), i + 1))
    else Ret (inr m)) (m, next_level_pt_page, 0).

Definition div_round_up (val by_ : Z) : Z := Z.quot (s32 (val + by_) - 1) by_.
Definition round_up_to (val to : Z) : Z := s32 (Z.quot (s32 (val + to) - 1) to * to).

(** The number of entries of the levels 3, 2, 1, 0. *)
Definition pte_counts (c : pt_config) : Z * Z * Z * Z :=
  let n := num_entries_per_pt c in
  let l3 := s32 (c_max (u64 (pa_end c - pa_start c) / page_size c) 1) in
  let l2 := c_max (div_round_up l3 n) 1 in
  let l1 := c_max (div_round_up l2 n) 1 in
  let l0 := c_max (div_round_up l1 n) 1 in
  (l3, l2, l1, l0).

(** The addresses of the tables of the levels 0, 1, 2, 3. *)
Definition pt_addrs (c : pt_config) : Z * Z * Z * Z :=
  let n := num_entries_per_pt c in
  let '(l3, l2, l1, l0) := pte_counts c in
  let l0_pt := base_address c in
  let l1_pt := l0_pt + 8 * round_up_to l0 n in
  let l2_pt := l1_pt + 8 * round_up_to l1 n in
  let l3_pt := l2_pt + 8 * round_up_to l2 n in
  (l0_pt, l1_pt, l2_pt, l3_pt).

Fixpoint map_ranges (fuel : nat) (m : ptmem) (l3_pt : Z) (rs : list pt_mem_range) : outcome ptmem :=
  match rs with
  | [] => Ret m
  | r :: rs =>
      m ← map_page_ptes fuel m (l3_pt + 8 * va_start_page r) (pa_start_page r) (num_pages r)
            (mem_attr_idx r) (sh_bits r);
      map_ranges fuel m l3_pt rs
  end.

Definition map_linear_range (fuel : nat) (m : ptmem) (c : pt_config) : outcome ptmem :=
  _ ← BUG (truth (pa_end c mod page_size c));
  let '(l3_pte_count, l2_pte_count, l1_pte_count, l0_pte_count) := pte_counts c in
  let '(l0_pt, l1_pt, l2_pt, l3_pt) := pt_addrs c in
  m ← map_table_ptes fuel m l0_pt l0_pte_count l1_pt c;
  m ← map_table_ptes fuel m l2_pt l2_pte_count l3_pt c;
  m ← map_table_ptes fuel m l1_pt l1_pte_count l2_pt c;
  map_ranges fuel m l3_pt (mem_ranges c).

(** ** Attributes and initialisation *)
Definition MEMATTR_IDX_NORMAL : Z := 0.
Definition MEMATTR_IDX_DEV_NGNRE : Z := 1.
Definition MEMATTR_IDX_NORMAL2 : Z := 2.
Definition MEMATTR_IDX_MMIO : Z := 3.
Definition SH_BITS_OUTER_SHAREABLE : Z := 2.

Definition MEMATTR_DEVICE_NGNRE : Z := 4.
Definition MEMATTR_WRITEBACK_NONTRANS (R W : Z) : Z :=
  Z.lor (Z.lor 12 (Z.shiftl (Z.land R 1) 1)) (Z.land W 1).
Definition MAKE_MEMATTR_NORMAL (oooo iiii : Z) : Z :=
  Z.lor (Z.shiftl (Z.land oooo 0xf) 4) (Z.land iiii 0xf).

Definition mair_repr_64_to_value (attrs : list Z) : Z :=
  u64 (foldr Z.lor 0 (imap (λ i a, Z.shiftl a (8 * Z.of_nat i)) attrs)).

Definition PERIPHERAL_ADDR_RANGE_START : Z := 0x3f000000.
Definition PERIPHERAL_ADDR_RANGE_END : Z := 0x40000000.
Definition LOCAL_PERIPH_ADDR_START : Z := 0x40000000.
Definition LOCAL_PERIPH_ADDR_END : Z := 0x40002000.

(** The registers of the MMU. *)
Record mmu_regs := MmuRegs { mair_el1 : Z; ttbr0_el1 : Z; ttbr1_el1 : Z; sctlr_m : bool }.

(** [struct mmu_info] with the table memory and the registers. *)
Record mmu_state := MmuState {
  config : pt_config; mair_repr : list Z; tables : ptmem; regs : mmu_regs }.

Definition enable_mmu (s : mmu_state) : mmu_state :=
  MmuState (config s) (mair_repr s) (tables s)
    (MmuRegs (mair_repr_64_to_value (mair_repr s)) (base_address (config s)) (base_address (config s)) true).

(** [DECL_RANGE(start, num, attr, sh)]: the page numbers are [int]s converted to
    [uint64_t]. *)
Definition DECL_RANGE (start num attr sh : Z) : pt_mem_range :=
  PtMemRange (u64 start) (u64 start) (u64 num) attr sh.

(** [table_base], [dma_start] and [dma_end] are addresses of the linker. *)
Definition mmu_init_config (table_base dma_start dma_end : Z) : pt_config :=
  let pg_norm_off := 0 in
  let pg_norm_num := s32 (dma_start / MMU_PAGE_GRANULE) in
  let pg_dma_off := pg_norm_num in
  let pg_dma_num := s32 (u64 (dma_end / MMU_PAGE_GRANULE - pg_dma_off)) in
  let pg_shar_off := s32 (pg_dma_off + pg_dma_num) in
  let pg_shar_num := s32 (PERIPHERAL_ADDR_RANGE_START / MMU_PAGE_GRANULE - pg_shar_off) in
  let pg_peri_off := PERIPHERAL_ADDR_RANGE_START / MMU_PAGE_GRANULE in
  let pg_peri_num := (PERIPHERAL_ADDR_RANGE_END - PERIPHERAL_ADDR_RANGE_START) / MMU_PAGE_GRANULE in
  let pg_locl_off := LOCAL_PERIPH_ADDR_START / MMU_PAGE_GRANULE in
  let pg_locl_num := (LOCAL_PERIPH_ADDR_END - LOCAL_PERIPH_ADDR_START) / MMU_PAGE_GRANULE in
  PtConfig table_base MMU_PAGE_GRANULE MMU_PTES_PER_LEVEL 0 LOCAL_PERIPH_ADDR_END
    [DECL_RANGE pg_norm_off pg_norm_num MEMATTR_IDX_NORMAL SH_BITS_OUTER_SHAREABLE;
     DECL_RANGE pg_dma_off pg_dma_num MEMATTR_IDX_MMIO SH_BITS_OUTER_SHAREABLE;
     DECL_RANGE pg_shar_off pg_shar_num MEMATTR_IDX_NORMAL2 SH_BITS_OUTER_SHAREABLE;
     DECL_RANGE pg_peri_off pg_peri_num MEMATTR_IDX_DEV_NGNRE SH_BITS_OUTER_SHAREABLE;
     DECL_RANGE pg_locl_off pg_locl_num MEMATTR_IDX_DEV_NGNRE SH_BITS_OUTER_SHAREABLE].

Definition mmu_memattrs : list Z :=
  let wb := MEMATTR_WRITEBACK_NONTRANS 1 1 in
  [MAKE_MEMATTR_NORMAL wb wb; MEMATTR_DEVICE_NGNRE; MAKE_MEMATTR_NORMAL wb wb; MEMATTR_DEVICE_NGNRE; 0; 0; 0; 0].

Definition mmu_init (fuel : nat) (table_base dma_start dma_end : Z) (s : mmu_state) : outcome mmu_state :=
  let c := mmu_init_config table_base dma_start dma_end in
  m ← map_linear_range fuel (tables s) c;
  Ret (enable_mmu (MmuState c mmu_memattrs m (regs s))).

Definition mmu_enable_configured (s : mmu_state) : outcome mmu_state :=
  _ ← BUG (negb (truth (base_address (config s))));
  Ret (enable_mmu s).

(** ** The table walk *)

(** The table a table descriptor points to, for a valid one. *)
Definition next_table (e : Z) : option Z :=
  if Z.land e 3 =? 3 then Some (Z.land e 0xfffffffff000) else None.

(** The entry of the last level for virtual page [v]. *)
Definition walk_pte (m : ptmem) (ttbr v : Z) : option Z :=
  e0 ← m !! (ttbr + 8 * ((v / 512 ^ 3) mod 512));
  t1 ← next_table e0;
  e1 ← m !! (t1 + 8 * ((v / 512 ^ 2) mod 512));
  t2 ← next_table e1;
  e2 ← m !! (t2 + 8 * ((v / 512) mod 512));
  t3 ← next_table e2;
  m !! (t3 + 8 * (v mod 512)).

(** A translation: physical page, attribute index, shareability. *)
Record translation := Translation { t_page : Z; t_attr : Z; t_sh : Z }.

(** Valid page descriptors with the access flag set, of non-global bit 0. *)
Definition decode_pte (e : Z) : option translation :=
  if (Z.land e 3 =? 3) && Z.testbit e 10 then
    Some (Translation (Z.shiftr (Z.land e 0xfffffffff000) 12) (Z.land (Z.shiftr e 2) 7) (Z.land (Z.shiftr e 8) 3))
  else None.

Definition walk (m : ptmem) (ttbr v : Z) : option translation := e ← walk_pte m ttbr v; decode_pte e.

(** ** Descriptors *)
Lemma lor_low p low : 0 ≤ low < 2 ^ 12 → Z.lor (Z.shiftl p 12) low = p * 2 ^ 12 + low.
Proof.
  intros Hl. assert (Z.land (Z.shiftl p 12) low = 0) as H0.
  { apply Z.bits_inj'. intros i Hi. rewrite Z.land_spec, Z.bits_0.
    destruct (Z_lt_le_dec i 12).
    - by rewrite Z.shiftl_spec_low by lia.
    - rewrite (testbit_high low 12) by lia. apply andb_false_r. }
  rewrite <- Z.lxor_lor, <- Z.add_nocarry_lxor, Z.shiftl_mul_pow2 by (done || lia). done.
Qed.

Lemma land_low e p low n : e = p * 2 ^ 12 + low → 0 ≤ n ≤ 12 → 0 ≤ low → Z.land e (Z.ones n) = low mod 2 ^ n.
Proof.
  intros -> Hn Hl. rewrite Z.land_ones by lia. replace 12 with ((12 - n) + n) by lia.
  rewrite Z.pow_add_r, Z.mul_assoc, Z.add_comm by lia. apply Z.mod_add. lia.
Qed.

Lemma land_addr e p low : e = p * 2 ^ 12 + low → 0 ≤ p < 2 ^ 36 → 0 ≤ low < 2 ^ 12 →
  Z.land e 0xfffffffff000 = p * 2 ^ 12.
Proof.
  intros -> Hp Hl. change 0xfffffffff000 with (Z.shiftl (Z.ones 36) 12).
  apply Z.bits_inj'. intros i Hi. rewrite Z.land_spec.
  destruct (Z_lt_le_dec i 12).
  - rewrite Z.shiftl_spec_low, Z.mul_pow2_bits_low by lia. apply andb_false_r.
  - rewrite Z.shiftl_spec, Z.mul_pow2_bits, testbit_ones by lia.
    replace (Z.testbit (p * 2 ^ 12 + low) i) with (Z.testbit p (i - 12)).
    + destruct (Z.ltb_spec (i - 12) 36); [by rewrite andb_true_r|].
      rewrite (testbit_high p 36) by lia. done.
    + replace i with (i - 12 + 12) at 2 by lia. rewrite <- Z.div_pow2_bits by lia.
      f_equal. rewrite Z.div_add_l, Z.div_small by lia. lia.
Qed.

Lemma land_40 p : 0 ≤ p < 2 ^ 36 → Z.land p 0xffffffffff = p.
Proof. intros. change 0xffffffffff with (Z.ones 40). rewrite Z.land_ones by lia. apply Z.mod_small. lia. Qed.

Lemma table_pte_val p : 0 ≤ p < 2 ^ 36 → u64 (MAKE_TABLE_PTE 0 0 0 0 p) = p * 2 ^ 12 + 3.
Proof.
  intros Hp. unfold MAKE_TABLE_PTE, PTE_OUT_ADDR, BITS_AT_POS. rewrite land_40 by done.
  change (BIT_AT_POS 0 63) with 0. change (BIT_AT_POS 0 60) with 0. change (BIT_AT_POS 0 59) with 0.
  change (Z.shiftl (Z.land 0 3) 61) with 0. rewrite !Z.lor_0_l, lor_low by lia. apply u64_id. lia.
Qed.

Lemma table_pte_next p : 0 ≤ p < 2 ^ 36 → next_table (u64 (MAKE_TABLE_PTE 0 0 0 0 p)) = Some (p * 2 ^ 12).
Proof.
  intros Hp. rewrite table_pte_val by done. unfold next_table.
  change 3 with (Z.ones 2) at 2. rewrite (land_low _ p 3) by lia. change (3 mod 2 ^ 2 =? 3) with true.
  f_equal. by apply (land_addr _ p 3).
Qed.

(** The low twelve bits of a page descriptor. *)
Definition page_low (attr sh : Z) : Z := attr * 4 + sh * 256 + 1024 + 32 + 3.

Lemma page_pte_val p attr sh : 0 ≤ p < 2 ^ 36 → 0 ≤ attr < 8 → 0 ≤ sh < 4 →
  u64 (MAKE_PAGE_PTE 0 p (MAKE_PAGE_PTE_LO_ATTR attr 1 0 sh 1 0)) = p * 2 ^ 12 + page_low attr sh.
Proof.
  intros Hp Ha Hs. unfold MAKE_PAGE_PTE. change (PTE_UP_ATTR 0) with 0.
  rewrite Z.lor_0_l, <- Z.lor_assoc. unfold PTE_OUT_ADDR at 1, BITS_AT_POS at 1. rewrite land_40 by done.
  assert (Z.lor (PTE_LO_ATTR (MAKE_PAGE_PTE_LO_ATTR attr 1 0 sh 1 0)) 3 = page_low attr sh) as ->.
  { assert (attr = 0 ∨ attr = 1 ∨ attr = 2 ∨ attr = 3 ∨ attr = 4 ∨ attr = 5 ∨ attr = 6 ∨ attr = 7) as Hc by lia.
    assert (sh = 0 ∨ sh = 1 ∨ sh = 2 ∨ sh = 3) as Hc' by lia.
    by repeat destruct Hc as [-> | Hc]; repeat destruct Hc' as [-> | Hc']; subst. }
  unfold page_low. rewrite lor_low by lia. apply u64_id. lia.
Qed.

Lemma page_pte_decode p attr sh : 0 ≤ p < 2 ^ 36 → 0 ≤ attr < 8 → 0 ≤ sh < 4 →
  decode_pte (u64 (MAKE_PAGE_PTE 0 p (MAKE_PAGE_PTE_LO_ATTR attr 1 0 sh 1 0))) = Some (Translation p attr sh).
Proof.
  intros Hp Ha Hs. rewrite page_pte_val by done.
  assert (0 ≤ page_low attr sh < 2 ^ 12) as Hl by (unfold page_low; lia). unfold decode_pte.
  change (Z.land (p * 2 ^ 12 + page_low attr sh) 3) with (Z.land (p * 2 ^ 12 + page_low attr sh) (Z.ones 2)).
  rewrite (land_low _ p (page_low attr sh) 2) by (done || lia).
  rewrite (land_addr _ p (page_low attr sh)) by done.
  change 7 with (Z.ones 3). change (Z.land (Z.shiftr (p * 2 ^ 12 + page_low attr sh) 8) 3) with
    (Z.land (Z.shiftr (p * 2 ^ 12 + page_low attr sh) 8) (Z.ones 2)).
  assert (Z.testbit (p * 2 ^ 12 + page_low attr sh) 10 = true) as ->.
  { apply Z.testbit_true; [lia|]. unfold page_low. dlia. }
  assert (page_low attr sh mod 2 ^ 2 = 3) as -> by (unfold page_low; dlia). cbn [Z.eqb Pos.eqb andb].
  rewrite !Z.land_ones, !Z.shiftr_div_pow2 by lia. do 2 f_equal; unfold page_low; dlia.
Qed.

(** ** Filling loops *)

(** [m'] is [m] with the entries [f 0 .. f (n-1)] at the table [pt]. *)
Definition wrote (m : ptmem) (pt n : Z) (f : Z → Z) (m' : ptmem) : Prop :=
  (∀ i, 0 ≤ i < n → m' !! (pt + 8 * i) = Some (f i)) ∧
  (∀ a, (∀ i, 0 ≤ i < n → a ≠ pt + 8 * i) → m' !! a = m !! a).

Lemma wrote_kept m pt n f m' a : wrote m pt n f m' → (a < pt ∨ pt + 8 * n ≤ a) → m' !! a = m !! a.
Proof. intros [_ H] Ha. apply H. intros i Hi ->. lia. Qed.

Lemma pte_fill_loop {St} (st : ptmem → Z → St) (body : St → outcome (St + ptmem)) n f pt m fuel :
  (∀ m i, 0 ≤ i < n → body (st m i) = Ret (inl (st (set_pte m pt i (f i)) (i + 1)))) →
  (∀ m, body (st m n) = Ret (inr m)) → 0 ≤ n < Z.of_nat fuel →
  ∃ m', loop fuel body (st m 0) = Ret m' ∧ wrote m pt n (λ i, u64 (f i)) m'.
Proof.
  intros Hstep Hend Hn.
  assert (∀ k fuel m0 i, Z.of_nat k = n - i → 0 ≤ i → (k < fuel)%nat → wrote m pt i (λ i, u64 (f i)) m0 →
    ∃ m', loop fuel body (st m0 i) = Ret m' ∧ wrote m pt n (λ i, u64 (f i)) m') as H.
  { induction k as [|k IH]; intros fu m0 i Hk Hi Hf Hw; (destruct fu as [|fu]; [lia|]); cbn [loop].
    - assert (i = n) as -> by lia. rewrite Hend, bind_ret. by exists m0.
    - rewrite Hstep, bind_ret by lia. apply IH; [lia..|]. destruct Hw as [Hw1 Hw2]. unfold set_pte. split.
      + intros j Hj. rewrite lookup_insert. case_decide as E; [by assert (i = j) as -> by lia|].
        apply Hw1. assert (j ≠ i) by congruence. lia.
      + intros a Ha. rewrite lookup_insert_ne; [|intros E; by apply (Ha i); lia]. apply Hw2. intros j Hj. apply Ha. lia. }
  apply (H (Z.to_nat n)); [lia..|]. split; [lia|done].
Qed.

Lemma map_table_ptes_ok fuel m pt n k c : page_size c = 4096 → 0 ≤ n < Z.of_nat fuel → 0 ≤ k → k + n < 2 ^ 36 →
  ∃ m', map_table_ptes fuel m pt n (k * 4096) c = Ret m' ∧
    wrote m pt n (λ i, u64 (MAKE_TABLE_PTE 0 0 0 0 (k + i))) m'.
Proof.
  intros Hp Hn Hk Hkn. unfold map_table_ptes. rewrite Hp, Z.div_mul by lia.
  replace (m, k, 0) with ((λ m i, (m, k + i, i)) m 0) by (do 2 f_equal; lia).
  apply (pte_fill_loop (λ m i, (m, k + i, i))); [| |done].
  - intros m' i Hi. destruct (Z.ltb_spec i n); [|lia]. rewrite u64_id by lia. do 4 f_equal. lia.
  - intros m'. destruct (Z.ltb_spec n n); [lia|done].
Qed.

Lemma map_page_ptes_ok fuel m pt p n attr sh : 0 ≤ n < Z.of_nat fuel → 0 ≤ p → p + n < 2 ^ 36 →
  ∃ m', map_page_ptes fuel m pt p n attr sh = Ret m' ∧
    wrote m pt n (λ i, u64 (MAKE_PAGE_PTE 0 (p + i) (MAKE_PAGE_PTE_LO_ATTR attr 1 0 sh 1 0))) m'.
Proof.
  intros Hn Hp Hpn. unfold map_page_ptes.
  replace (m, pt, p, 0) with ((λ m i, (m, pt + 8 * i, p + i, i)) m 0) by (repeat f_equal; lia).
  apply (pte_fill_loop (λ m i, (m, pt + 8 * i, p + i, i))); [| |done].
  - intros m' i Hi. destruct (Z.ltb_spec i n); [|lia]. rewrite u64_id by lia. unfold set_pte. rewrite Z.add_0_r.
    do 4 f_equal; [f_equal|]; lia.
  - intros m'. destruct (Z.ltb_spec n n); [lia|done].
Qed.

(** ** Ranges *)
Definition covers (r : pt_mem_range) (v : Z) : bool :=
  (va_start_page r <=? v) && (v <? va_start_page r + num_pages r).

(** The translation the ranges ask for: the last range that covers [v] wins. *)
Fixpoint range_at (rs : list pt_mem_range) (v : Z) : option translation :=
  match rs with
  | [] => None
  | r :: rs =>
      match range_at rs v with
      | Some t => Some t
      | None => if covers r v
                then Some (Translation (pa_start_page r + (v - va_start_page r)) (mem_attr_idx r) (sh_bits r))
                else None
      end
  end.

Record range_ok (n : Z) (r : pt_mem_range) : Prop := {
  r_va : 0 ≤ va_start_page r; r_num : 0 ≤ num_pages r; r_end : va_start_page r + num_pages r ≤ n;
  r_pa : 0 ≤ pa_start_page r; r_pa_end : pa_start_page r + num_pages r < 2 ^ 36;
  r_attr : 0 ≤ mem_attr_idx r < 8; r_sh : 0 ≤ sh_bits r < 4 }.

Lemma map_ranges_ok n fuel l3_pt rs m : Forall (range_ok n) rs → n < Z.of_nat fuel →
  ∃ m', map_ranges fuel m l3_pt rs = Ret m' ∧
    (∀ v, match range_at rs v with
          | Some t => ∃ e, m' !! (l3_pt + 8 * v) = Some e ∧ decode_pte e = Some t
          | None => m' !! (l3_pt + 8 * v) = m !! (l3_pt + 8 * v) end) ∧
    (∀ a, a < l3_pt ∨ l3_pt + 8 * n ≤ a → m' !! a = m !! a).
Proof.
  intros Hrs Hn. revert m; induction Hrs as [|r rs Hr _ IH]; intros m; cbn [map_ranges range_at]; [by exists m|].
  destruct Hr as [Hva Hnum Hend Hpa Hpae Hat Hsh].
  destruct (map_page_ptes_ok fuel m (l3_pt + 8 * va_start_page r) (pa_start_page r) (num_pages r)
    (mem_attr_idx r) (sh_bits r)) as (m1 & -> & Hw); [lia..|]. rewrite bind_ret.
  destruct (IH m1) as (m' & E & Hv & Hk). exists m'. split; [done|]. split.
  - intros v. specialize (Hv v). destruct (range_at rs v) as [t|]; [done|]. unfold covers.
    destruct (Z.leb_spec (va_start_page r) v); cbn [andb].
    + destruct (Z.ltb_spec v (va_start_page r + num_pages r)).
      * destruct Hw as [Hw _]. specialize (Hw (v - va_start_page r) ltac:(lia)).
        replace (l3_pt + 8 * va_start_page r + 8 * (v - va_start_page r)) with (l3_pt + 8 * v) in Hw by lia.
        rewrite Hv, Hw. eexists. split; [done|]. apply page_pte_decode; lia.
      * rewrite Hv. eapply wrote_kept; [exact Hw|lia].
    + rewrite Hv. eapply wrote_kept; [exact Hw|lia].
  - intros a Ha. rewrite Hk by done. eapply wrote_kept; [exact Hw|lia].
Qed.

(** ** The whole table *)

(** Configurations with the 4 KB granule that cover the first [n] pages. *)
Record config_ok (n : Z) (c : pt_config) : Prop := {
  c_page : page_size c = 4096; c_num : num_entries_per_pt c = 512;
  c_start : pa_start c = 0; c_end : pa_end c = 4096 * n; c_n : 1 ≤ n < 2 ^ 30;
  c_base : 0 ≤ base_address c; c_align : base_address c mod 4096 = 0;
  c_top : base_address c < 2 ^ 40;
  c_ranges : Forall (range_ok n) (mem_ranges c) }.

(** Tables needed at a level for [x] tables or pages of the level below. *)
Definition tbl (x : Z) : Z := (x + 511) / 512.

Lemma tbl_bounds x : 1 ≤ x → 1 ≤ tbl x ∧ x ≤ 512 * tbl x < x + 512.
Proof. unfold tbl. intros. dlia. Qed.

Lemma div_round_up_tbl x : 1 ≤ x < 2 ^ 30 → c_max (div_round_up x 512) 1 = tbl x.
Proof.
  intros Hx. pose proof (tbl_bounds x). unfold div_round_up. rewrite s32_id, Z.quot_div_nonneg by lia.
  replace (x + 512 - 1) with (x + 511) by lia. fold (tbl x). rewrite c_max_spec. lia.
Qed.

Lemma round_up_tbl x : 1 ≤ x < 2 ^ 30 → round_up_to x 512 = 512 * tbl x.
Proof.
  intros Hx. pose proof (tbl_bounds x). unfold round_up_to. rewrite (s32_id (x + 512)), Z.quot_div_nonneg by lia.
  replace (x + 512 - 1) with (x + 511) by lia. fold (tbl x). rewrite s32_id by lia. lia.
Qed.

Lemma config_layout n c : config_ok n c →
  let b := base_address c in let l2 := tbl n in let l1 := tbl l2 in let l0 := tbl l1 in
  pte_counts c = (n, l2, l1, l0) ∧
  pt_addrs c = (b, b + 4096 * tbl l0, b + 4096 * (tbl l0 + l0), b + 4096 * (tbl l0 + l0 + l1)).
Proof.
  intros [Hp Hn H0 He Hnn Hb _ _ _] b l2 l1 l0.
  pose proof (tbl_bounds n ltac:(lia)). pose proof (tbl_bounds (tbl n) ltac:(lia)).
  pose proof (tbl_bounds (tbl (tbl n)) ltac:(lia)). pose proof (tbl_bounds (tbl (tbl (tbl n))) ltac:(lia)).
  assert (pte_counts c = (n, l2, l1, l0)) as E.
  { unfold pte_counts. rewrite Hp, Hn, H0, He, Z.sub_0_r, u64_id, (Z.mul_comm 4096), Z.div_mul by lia.
    rewrite c_max_spec, Z.max_l, s32_id by lia. cbv zeta. rewrite !div_round_up_tbl by lia. done. }
  split; [done|]. unfold pt_addrs. rewrite E, Hn. cbv zeta. unfold l2, l1, l0, b.
  rewrite !round_up_tbl by (unfold l1, l2; lia). unfold l1, l2. f_equal; [f_equal; [f_equal|]|]; lia.
Qed.

(** Following one level: the entry [i] of the table at [pt] points to the table
    [i] of the next level, which starts at [nx]. *)
Lemma walk_level (m : ptmem) pt nx n i (F : Z → option Z) : nx mod 4096 = 0 → 0 ≤ nx → nx + 4096 * n < 2 ^ 48 →
  (∀ i, 0 ≤ i < n → m !! (pt + 8 * i) = Some (u64 (MAKE_TABLE_PTE 0 0 0 0 (nx / 4096 + i)))) →
  0 ≤ i < n →
  (e ← m !! (pt + 8 * i); t ← next_table e; F t) = F (nx + 4096 * i).
Proof.
  intros Ha H0 Ht Hm Hin. rewrite Hm by done. cbn [mbind option_bind].
  rewrite table_pte_next by dlia. cbn [mbind option_bind]. f_equal. clear Hm. dlia.
Qed.

(** Entry [v] of a level, counted over all its tables. *)
Lemma level_index nx v : nx + 4096 * (v / 512) + 8 * (v mod 512) = nx + 8 * v.
Proof. dlia. Qed.

Ltac mlia := repeat match goal with H : ∀ _, _ |- _ => clear H end; dlia.

Lemma walk_tables m c n v : config_ok n c → 0 ≤ v < n →
  let b := base_address c in let l2 := tbl n in let l1 := tbl l2 in let l0 := tbl l1 in
  (∀ i, 0 ≤ i < l0 → m !! (b + 8 * i) = Some (u64 (MAKE_TABLE_PTE 0 0 0 0 ((b + 4096 * tbl l0) / 4096 + i)))) →
  (∀ i, 0 ≤ i < l1 → m !! (b + 4096 * tbl l0 + 8 * i)
    = Some (u64 (MAKE_TABLE_PTE 0 0 0 0 ((b + 4096 * (tbl l0 + l0)) / 4096 + i)))) →
  (∀ i, 0 ≤ i < l2 → m !! (b + 4096 * (tbl l0 + l0) + 8 * i)
    = Some (u64 (MAKE_TABLE_PTE 0 0 0 0 ((b + 4096 * (tbl l0 + l0 + l1)) / 4096 + i)))) →
  walk_pte m b v = m !! (b + 4096 * (tbl l0 + l0 + l1) + 8 * v).
Proof.
  intros [Hp Hn H0 He Hnn Hb Hal Htop _] Hv b l2 l1 l0 M0 M1 M2.
  pose proof (tbl_bounds n ltac:(lia)). pose proof (tbl_bounds (tbl n) ltac:(lia)).
  pose proof (tbl_bounds (tbl (tbl n)) ltac:(lia)). pose proof (tbl_bounds (tbl (tbl (tbl n))) ltac:(lia)).
  fold b in Hb, Hal, Htop. fold l2 in H, H1, H2, H3. fold l1 in H1, H2, H3. fold l0 in H2, H3.
  clearbody b l0 l1 l2.
  unfold walk_pte. change (512 ^ 3) with 134217728. change (512 ^ 2) with 262144.
  rewrite (Z.mod_small (v / 134217728)) by mlia.
  replace (v / 134217728) with (v / 262144 / 512) by (rewrite Z.div_div by lia; done).
  rewrite (walk_level m b (b + 4096 * tbl l0) l0), level_index by (exact M0 || mlia).
  replace (v / 262144) with (v / 512 / 512) by (rewrite Z.div_div by lia; done).
  rewrite (walk_level m _ (b + 4096 * (tbl l0 + l0)) l1), level_index by (exact M1 || mlia).
  rewrite (walk_level m _ (b + 4096 * (tbl l0 + l0 + l1)) l2), level_index by (exact M2 || mlia). done.
Qed.

(** Bytes of table memory a configuration of [n] pages uses. *)
Definition table_bytes (n : Z) : Z :=
  let l2 := tbl n in let l1 := tbl l2 in let l0 := tbl l1 in 4096 * (tbl l0 + l0 + l1) + 8 * n.

Lemma map_linear_range_ok fuel m c n : config_ok n c → n < Z.of_nat fuel →
  ∃ m', map_linear_range fuel m c = Ret m' ∧
    (∀ v t, 0 ≤ v < n → range_at (mem_ranges c) v = Some t → walk m' (base_address c) v = Some t) ∧
    (∀ a, a < base_address c ∨ base_address c + table_bytes n ≤ a → m' !! a = m !! a).
Proof.
  intros Hc Hf. destruct (config_layout n c Hc) as [Ec Ea].
  pose proof (λ m v, walk_tables m c n v Hc) as Hw.
  pose proof Hc as [Hp Hn H0 He Hnn Hb Hal Htop Hr].
  pose proof (tbl_bounds n ltac:(lia)) as B0. pose proof (tbl_bounds (tbl n) ltac:(lia)) as B1.
  pose proof (tbl_bounds (tbl (tbl n)) ltac:(lia)) as B2. pose proof (tbl_bounds (tbl (tbl (tbl n))) ltac:(lia)) as B3.
  unfold table_bytes. unfold map_linear_range. rewrite Ec, Ea. cbv zeta in *.
  revert B0 B1 B2 B3 Hw. generalize (tbl n). intros l2. generalize (tbl l2). intros l1. generalize (tbl l1). intros l0.
  generalize (tbl l0). intros k0 B0 B1 B2 B3 Hw. clear Ec Ea Hc.
  assert (pa_end c mod page_size c = 0) as -> by (rewrite He, Hp; dlia). cbn [truth Z.eqb negb BUG]. rewrite bind_ret.
  set (b := base_address c) in *.
  set (a1 := b + 4096 * k0). set (a2 := b + 4096 * (k0 + l0)). set (a3 := b + 4096 * (k0 + l0 + l1)).
  destruct (map_table_ptes_ok fuel m b l0 (a1 / 4096) c Hp) as (m0 & E0 & W0); [dlia..|].
  destruct (map_table_ptes_ok fuel m0 a2 l2 (a3 / 4096) c Hp) as (m2 & E2 & W2); [dlia..|].
  destruct (map_table_ptes_ok fuel m2 a1 l1 (a2 / 4096) c Hp) as (m1 & E1 & W1); [dlia..|].
  replace (a1 / 4096 * 4096) with a1 in E0 by dlia. replace (a3 / 4096 * 4096) with a3 in E2 by dlia.
  replace (a2 / 4096 * 4096) with a2 in E1 by dlia.
  rewrite E0, bind_ret, E2, bind_ret, E1, bind_ret.
  destruct (map_ranges_ok n fuel a3 (mem_ranges c) m1 Hr Hf) as (m' & E & Hv & Hk).
  exists m'. split; [done|]. split.
  - intros v t Hvn Ht. specialize (Hv v). rewrite Ht in Hv. destruct Hv as (e & He1 & He2).
    unfold walk. rewrite (Hw m' v Hvn).
    + fold a3. rewrite He1. exact He2.
    + fold a1. intros i Hi. rewrite Hk by lia. rewrite (wrote_kept _ _ _ _ _ _ W1), (wrote_kept _ _ _ _ _ _ W2) by lia.
      by apply W0.
    + fold a1 a2. intros i Hi. rewrite Hk by lia. by apply W1.
    + fold a2 a3. intros i Hi. rewrite Hk by lia. rewrite (wrote_kept _ _ _ _ _ _ W1) by lia. by apply W2.
  - intros a Ha. rewrite Hk by lia. rewrite (wrote_kept _ _ _ _ _ _ W1), (wrote_kept _ _ _ _ _ _ W2) by lia.
    eapply wrote_kept; [exact W0|lia].
Qed.

(** C11: [map_linear_range] builds correct tables for every configuration with
    the 4 KB granule: walking the four levels from the base address takes
    every page of the covered space to the physical page, attribute index and
    shareability its range asks for, whatever the memory held before, and no
    memory outside the tables is written. *)
Theorem map_linear_range_walk fuel m c n : config_ok n c → n < Z.of_nat fuel →
  ∃ m', map_linear_range fuel m c = Ret m' ∧
    (∀ v t, 0 ≤ v < n → range_at (mem_ranges c) v = Some t → walk m' (base_address c) v = Some t) ∧
    (∀ a, a < base_address c ∨ base_address c + table_bytes n ≤ a → m' !! a = m !! a).
Proof. apply map_linear_range_ok. Qed.

(** ** The kernel's map *)

(** Attribute index of page [v]. *)
Definition region_attr (dma_start dma_end v : Z) : Z :=
  if v <? dma_start / 4096 then MEMATTR_IDX_NORMAL
  else if v <? dma_end / 4096 then MEMATTR_IDX_MMIO
  else if v <? 0x3f000 then MEMATTR_IDX_NORMAL2
  else MEMATTR_IDX_DEV_NGNRE.

Section kernel_map.
Context (base ds de : Z).
Hypothesis Hds : 0 ≤ ds ≤ de.
Hypothesis Hde : de < PERIPHERAL_ADDR_RANGE_START.
Hypothesis Hbase : 0 ≤ base < 2 ^ 40.
Hypothesis Halign : base mod 4096 = 0.

Definition kernel_ranges : list pt_mem_range :=
  let a := ds / 4096 in let b := de / 4096 in
  [PtMemRange 0 0 a 0 2; PtMemRange a a (b - a) 3 2; PtMemRange b b (0x3f000 - b) 2 2;
   PtMemRange 0x3f000 0x3f000 0x1000 1 2; PtMemRange 0x40000 0x40000 2 1 2].

Lemma mmu_init_ranges : mem_ranges (mmu_init_config base ds de) = kernel_ranges.
Proof using All.
  unfold PERIPHERAL_ADDR_RANGE_START in Hde. assert (0 ≤ ds / 4096 ≤ de / 4096 ∧ de / 4096 < 0x3f000) by dlia.
  unfold mmu_init_config, DECL_RANGE, kernel_ranges, MMU_PAGE_GRANULE. cbn [mem_ranges].
  change (PERIPHERAL_ADDR_RANGE_START / 4096) with 0x3f000.
  rewrite (s32_id (ds / 4096)), (u64_id (de / 4096 - ds / 4096)), (s32_id (de / 4096 - ds / 4096)) by lia.
  replace (ds / 4096 + (de / 4096 - ds / 4096)) with (de / 4096) by lia.
  rewrite (s32_id (de / 4096)), (s32_id (0x3f000 - de / 4096)) by lia. unwrap. done.
Qed.

Lemma mmu_init_config_ok : config_ok 0x40002 (mmu_init_config base ds de).
Proof using All.
  split; try done; try (cbn; lia). rewrite mmu_init_ranges. unfold PERIPHERAL_ADDR_RANGE_START in Hde.
  assert (0 ≤ ds / 4096 ≤ de / 4096 ∧ de / 4096 < 0x3f000) by dlia.
  unfold kernel_ranges. repeat constructor; cbn; lia.
Qed.

Lemma kernel_range_at v : 0 ≤ v < 0x40002 →
  range_at kernel_ranges v = Some (Translation v (region_attr ds de v) 2).
Proof using All.
  unfold PERIPHERAL_ADDR_RANGE_START in Hde. assert (0 ≤ ds / 4096 ≤ de / 4096 ∧ de / 4096 < 0x3f000) by dlia.
  intros Hv. unfold region_attr, kernel_ranges. cbn [range_at]. unfold covers.
  cbn [va_start_page num_pages pa_start_page mem_attr_idx sh_bits].
  generalize dependent (ds / 4096). generalize (de / 4096). intros b a H.
  destruct (Z.ltb_spec v a); [|destruct (Z.ltb_spec v b); [|destruct (Z.ltb_spec v 0x3f000);
    [|destruct (Z.ltb_spec v 0x40000)]]]; zdec; cbn [andb]; do 2 f_equal; lia.
Qed.
End kernel_map.

(** C4: after [mmu_init] the MMU is on with both base registers at the table,
    and every page of the covered space, 0 to 0x40001fff, is mapped to itself,
    with the attributes of its region: normal memory below the DMA section,
    device memory for the DMA section and the peripherals, normal memory in
    between; the attribute register holds 0xff for normal and 0x04 for device
    memory. *)
Theorem mmu_init_identity_map fuel base ds de s : 0 ≤ ds ≤ de → de < PERIPHERAL_ADDR_RANGE_START →
  0 ≤ base < 2 ^ 40 → base mod 4096 = 0 → 0x40002 < Z.of_nat fuel →
  ∃ s', mmu_init fuel base ds de s = Ret s' ∧ regs s' = MmuRegs 0x04ff04ff base base true ∧
    ∀ v, 0 ≤ v < 0x40002 →
      walk (tables s') (ttbr0_el1 (regs s')) v = Some (Translation v (region_attr ds de v) 2).
Proof.
  intros Hds Hde Hb Ha Hf. pose proof (mmu_init_config_ok base ds de Hds Hde Hb Ha) as Hc.
  destruct (map_linear_range_ok fuel (tables s) _ _ Hc Hf) as (m' & E & Hw & _).
  unfold mmu_init. rewrite E, bind_ret. eexists. split; [done|]. split; [done|].
  intros v Hv. cbn [enable_mmu tables regs config ttbr0_el1 base_address mmu_init_config]. apply (Hw v); [done|].
  rewrite mmu_init_ranges by done. by apply (kernel_range_at base).
Qed.

(** ** Witnesses *)
Definition demo_config : pt_config := PtConfig 0x10000 4096 512 0 (4096 * 600) [PtMemRange 7 5 10 3 2].

(** Witness: page 5 of a 600-page space is mapped to page 7. *)
Lemma map_linear_range_walk_witness :
  ∃ m', map_linear_range 601 ∅ demo_config = Ret m' ∧ walk m' 0x10000 5 = Some (Translation 7 3 2).
Proof.
  destruct (map_linear_range_walk 601 ∅ demo_config 600) as (m' & E & H & _).
  - split; try done. repeat constructor; done.
  - lia.
  - exists m'. split; [exact E|]. by apply (H 5).
Defined.

Definition demo_mmu : mmu_state := MmuState demo_config [] ∅ (MmuRegs 0 0 0 false).

(** Witness: the DMA section is at 0x200000..0x240000; its first page is device
    memory. *)
Lemma mmu_init_identity_map_witness :
  ∃ s', mmu_init (Z.to_nat 0x40003) 0x300000 0x200000 0x240000 demo_mmu = Ret s' ∧
    walk (tables s') (ttbr0_el1 (regs s')) 0x200 = Some (Translation 0x200 MEMATTR_IDX_MMIO 2).
Proof.
  destruct (mmu_init_identity_map (Z.to_nat 0x40003) 0x300000 0x200000 0x240000 demo_mmu) as (s' & E & _ & H);
    [lia|done|lia|done|lia|].
  exists s'. split; [exact E|]. rewrite (H 0x200 ltac:(lia)). reflexivity.
Defined.
