(* ===== verification/BlockDev.v ===== *)
(** * Block devices (block_device.h, partition_device.c, mem_access.h,
      partition_table.c, the eMMC device of fs.c)

    The interface [BlockDevice] is the [ops] table of [struct block_device]; the
    class [BlockDeviceOk] states what a client may rely on, with the sectors of
    the medium as its view.  Partitions and the eMMC device are instances. *)

From S2P Require Import Prelude.

(** ** Unaligned accesses (include/mem_access.h) *)

(** Byte [i] of a C object given by its bytes. *)
Definition GET_BYTE (l : list Z) (i : Z) : outcome Z := if i <? 0 then Fault else deref (l !! Z.to_nat i).

Definition get_unaligned_16_le (l : list Z) (a : Z) : outcome Z :=
  b1 ← GET_BYTE l (a + 1); b0 ← GET_BYTE l a;
  Ret (u16 (Z.lor (Z.shiftl b1 8) b0)).

Definition get_unaligned_32_le (l : list Z) (a : Z) : outcome Z :=
  b3 ← GET_BYTE l (a + 3); b2 ← GET_BYTE l (a + 2); b1 ← GET_BYTE l (a + 1); b0 ← GET_BYTE l a;
  Ret (u32 (Z.lor (Z.lor (Z.lor (Z.shiftl b3 24) (Z.shiftl b2 16)) (Z.shiftl b1 8)) b0)).

Definition BYTE_EXTRACT (v i : Z) : Z := Z.land (Z.shiftr v (i * 8)) 0xff.

Definition SET_BYTE (l : list Z) (i v : Z) : outcome (list Z) :=
  _ ← GET_BYTE l i; Ret (<[Z.to_nat i := u8 v]> l).

Definition set_unaligned_16_le (l : list Z) (a v : Z) : outcome (list Z) :=
  l ← SET_BYTE l (a + 0) (BYTE_EXTRACT v 1);
  SET_BYTE l (a + 1) (BYTE_EXTRACT v 0).

Definition set_unaligned_32_le (l : list Z) (a v : Z) : outcome (list Z) :=
  l ← SET_BYTE l (a + 0) (BYTE_EXTRACT v 3);
  l ← SET_BYTE l (a + 1) (BYTE_EXTRACT v 2);
  l ← SET_BYTE l (a + 2) (BYTE_EXTRACT v 1);
  SET_BYTE l (a + 3) (BYTE_EXTRACT v 0).

(** ** The interface *)

(** [ops.read(bdev, buf, bufsz, start_sector, num_sectors)] gives its return
    value and the bytes it put at the start of [buf]; [ops.write] the device and
    its return value. *)
Class BlockDevice (D : Type) := {
  dev_read : D → Z → Z → Z → Z * list Z;
  dev_write : D → list Z → Z → Z → Z → D * Z }.

(** The promise: [dev_sector d s] is the readable sector [s], 512 bytes; reading
    it alone gives 1 and its bytes, writing it alone gives 1 and changes this
    sector only. *)
Class BlockDeviceOk (D : Type) `{BlockDevice D} := {
  dev_sector : D → Z → option (list Z);
  dev_sector_size : ∀ d s l, dev_sector d s = Some l → length l = 512%nat ∧ is_bytes l;
  dev_read_ok : ∀ d bufsz s l, 512 ≤ bufsz → dev_sector d s = Some l → dev_read d bufsz s 1 = (1, l);
  dev_write_ok : ∀ d bufsz s l w, 512 ≤ bufsz → dev_sector d s = Some l →
    (512 ≤ length w)%nat → is_bytes w →
    ∃ d', dev_write d w bufsz s 1 = (d', 1) ∧
      ∀ s', dev_sector d' s' = if s' =? s then Some (take 512 w) else dev_sector d s' }.

(** ** Partitions *)
Record partition_device (D : Type) := PartitionDevice {
  disk_dev : D; start_sector : Z; end_sector : Z }.
Arguments PartitionDevice {D}.
Arguments disk_dev {D}.
Arguments start_sector {D}.
Arguments end_sector {D}.

Section partition.
Context {D : Type} `{BlockDevice D}.

Definition partition_device_read (pdev : partition_device D) (bufsz s n : Z) : Z * list Z :=
  dev_read (disk_dev pdev) bufsz (u64 (start_sector pdev + s)) n.

Definition partition_device_write (pdev : partition_device D) (buf : list Z) (bufsz s n : Z)
    : partition_device D * Z :=
  let '(d, r) := dev_write (disk_dev pdev) buf bufsz (u64 (start_sector pdev + s)) n in
  (PartitionDevice d (start_sector pdev) (end_sector pdev), r).

Definition partition_device_init (disk : D) (start end_ : Z) : partition_device D :=
  PartitionDevice disk start end_.

#[export] Instance partition_block_device : BlockDevice (partition_device D) :=
  {| dev_read := partition_device_read; dev_write := partition_device_write |}.

Context `{!BlockDeviceOk D}.

(** A partition gives sector [s] of the disk from its start on; its end is not
    checked. *)
Definition partition_sector (pdev : partition_device D) (s : Z) : option (list Z) :=
  if (0 <=? s) && (start_sector pdev + s <? 2 ^ 64) && (0 <=? start_sector pdev)
  then dev_sector (disk_dev pdev) (start_sector pdev + s) else None.

#[export] Program Instance partition_block_device_ok : BlockDeviceOk (partition_device D) :=
  {| dev_sector := partition_sector |}.
Next Obligation.
  intros d s l. unfold partition_sector. destruct (_ && _ && _); [|done]. apply dev_sector_size.
Qed.
Next Obligation.
  intros d bufsz s l Hb. unfold partition_sector. destruct (_ && _ && _) eqn:E; [|done]. intros Hl.
  rewrite !andb_true_iff, !Z.leb_le, Z.ltb_lt in E.
  cbn. unfold partition_device_read. rewrite u64_id by lia. by apply dev_read_ok.
Qed.
Next Obligation.
  intros d bufsz s l w Hb Hl Hw Hwb. unfold partition_sector in Hl. destruct (_ && _ && _) eqn:E; [|done].
  rewrite !andb_true_iff, !Z.leb_le, Z.ltb_lt in E.
  destruct (dev_write_ok (disk_dev d) bufsz _ l w Hb Hl Hw Hwb) as (d' & Ed & Hd').
  cbn. unfold partition_device_write. rewrite u64_id by lia. rewrite Ed. eexists. split; [done|].
  intros s'. unfold partition_sector at 1. cbn [start_sector disk_dev]. rewrite Hd'.
  destruct (Z.eqb_spec s' s) as [->|Hne].
  - rewrite Z.eqb_refl. destruct ((0 <=? s) && _ && _) eqn:E2; [done|].
    rewrite !andb_false_iff, !Z.leb_gt, Z.ltb_ge in E2. lia.
  - destruct (Z.eqb_spec (start_sector d + s') (start_sector d + s)); [lia|]. done.
Qed.
End partition.

(** ** The eMMC block device (fs.c) *)
Section emmc.
Context {E : Type} (emmc_read : E → Z → Z → Z * list Z) (emmc_write : E → Z → list Z → E * Z).

Definition emmc_sector_size : Z := 512.

(** [emmc_read(sector, 1, ptr, room)] gives an error code and the bytes it put
    at [ptr]; [acc] are the bytes already in [buf]. *)
Fixpoint emmc_read_loop (n : nat) (e : E) (acc : list Z) (ptr bufsz sector : Z) : option (list Z) :=
  match n with
  | O => Some acc
  | S n =>
      if bufsz <=? ptr then None else
      let '(err, l) := emmc_read e (u64 sector) (bufsz - ptr) in
      if truth err then None
      else emmc_read_loop n e (take (Z.to_nat ptr) acc ++ l) (ptr + emmc_sector_size) bufsz (sector + 1)
  end.

Definition emmc_block_device_read (e : E) (bufsz start num : Z) : Z * list Z :=
  match emmc_read_loop (Z.to_nat num) e [] 0 bufsz start with
  | Some l => (num, l)
  | None => (-1, [])
  end.

Fixpoint emmc_write_loop (n : nat) (e : E) (buf : list Z) (ptr bufsz sector : Z) : E * bool :=
  match n with
  | O => (e, true)
  | S n =>
      if bufsz <=? ptr then (e, false) else
      let '(e, err) := emmc_write e (u64 sector) (drop (Z.to_nat ptr) buf) in
      if truth err then (e, false)
      else emmc_write_loop n e buf (ptr + emmc_sector_size) bufsz (sector + 1)
  end.

Definition emmc_block_device_write (e : E) (buf : list Z) (bufsz start num : Z) : E * Z :=
  let '(e, ok) := emmc_write_loop (Z.to_nat num) e buf 0 bufsz start in
  (e, if ok then num else -1).

#[export] Instance emmc_block_device : BlockDevice E :=
  {| dev_read := emmc_block_device_read; dev_write := emmc_block_device_write |}.
End emmc.

(** ** The partition table (fs/partition_table.c) *)
Section mbr.
Context {D : Type} `{BlockDevice D}.

(** The result of [ops.read] is ignored; [old] are the bytes [mbr] had. *)
Definition mbr_read (b : D) (old : list Z) : list Z * Z :=
  let '(_, l) := dev_read b 512 0 1 in (l ++ drop (length l) old, 0).
End mbr.

(** Offset of entry [i] in [struct mbr]. *)
Definition mbr_entry (i : Z) : Z := 446 + 16 * i.
Definition mbr_partition_entry_get_lba (mbr : list Z) (e : Z) : outcome Z := get_unaligned_32_le mbr (e + 8).
Definition mbr_partition_entry_get_num_sectors (mbr : list Z) (e : Z) : outcome Z :=
  get_unaligned_32_le mbr (e + 12).
Definition mbr_get_part_by_idx (partition_idx : Z) : outcome Z :=
  _ ← BUG (3 <? partition_idx); Ret (mbr_entry partition_idx).
Definition mbr_part_get_lba (mbr : list Z) (partition_idx : Z) : outcome Z :=
  e ← mbr_get_part_by_idx partition_idx; mbr_partition_entry_get_lba mbr e.
Definition mbr_part_get_num_sectors (mbr : list Z) (partition_idx : Z) : outcome Z :=
  e ← mbr_get_part_by_idx partition_idx; mbr_partition_entry_get_num_sectors mbr e.

(** The first entry whose type byte is not 0. *)
Definition mbr_get_first_valid_partition (mbr : list Z) : outcome (option Z) :=
  loop 5 (λ i,
    if i <? 4 then
      t ← GET_BYTE mbr (mbr_entry i + 4);
      if truth t then Ret (inr (Some (mbr_entry i))) else Ret (inl (i + 1))
    else Ret (inr None)) 0.

(** ** Lemmas *)
Lemma GET_BYTE_lookup l i b : l !! i = Some b → GET_BYTE l (Z.of_nat i) = Ret b.
Proof. intros H. unfold GET_BYTE. destruct (Z.ltb_spec (Z.of_nat i) 0); [lia|]. by rewrite Nat2Z.id, H. Qed.

Lemma GET_BYTE_at l i : is_bytes l → 0 ≤ i < Z.of_nat (length l) →
  ∃ b, GET_BYTE l i = Ret b ∧ l !! Z.to_nat i = Some b ∧ 0 ≤ b < 2 ^ 8.
Proof.
  intros Hl Hi. destruct (lookup_lt_is_Some_2 l (Z.to_nat i)) as [b Hb]; [lia|]. exists b.
  split; [|split; [done|]].
  - rewrite <- (GET_BYTE_lookup l _ _ Hb). f_equal. lia.
  - unfold is_bytes in Hl. rewrite Forall_lookup in Hl. by eapply Hl.
Qed.

Lemma lor_shifted lo hi n : 0 ≤ n → 0 ≤ lo < 2 ^ n → Z.lor (Z.shiftl hi n) lo = hi * 2 ^ n + lo.
Proof.
  intros Hn Hl. assert (Z.land (Z.shiftl hi n) lo = 0) as H0.
  { apply Z.bits_inj'. intros i Hi. rewrite Z.land_spec, Z.bits_0.
    destruct (Z_lt_le_dec i n).
    - by rewrite Z.shiftl_spec_low by lia.
    - rewrite (testbit_high lo n) by lia. apply andb_false_r. }
  rewrite <- Z.add_nocarry_lor, Z.shiftl_mul_pow2 by done. done.
Qed.

Lemma get16_ok l a : is_bytes l → 0 ≤ a → a + 2 ≤ Z.of_nat (length l) →
  ∃ v, get_unaligned_16_le l a = Ret v ∧ v = le_val (take 2 (drop (Z.to_nat a) l)) ∧ 0 ≤ v < 2 ^ 16.
Proof.
  intros Hl Ha Hn. unfold get_unaligned_16_le.
  destruct (GET_BYTE_at l (a + 1) Hl) as (b1 & -> & L1 & B1); [lia|].
  destruct (GET_BYTE_at l a Hl) as (b0 & -> & L0 & B0); [lia|]. rewrite !bind_ret.
  rewrite lor_shifted, u16_id by lia. eexists. split; [done|].
  replace (Z.to_nat (a + 1)) with (S (Z.to_nat a)) in L1 by lia.
  rewrite (drop_S _ _ _ L0), (drop_S _ _ _ L1). cbn [take le_val]. rewrite take_0. cbn [le_val]. lia.
Qed.

Lemma get32_ok l a : is_bytes l → 0 ≤ a → a + 4 ≤ Z.of_nat (length l) →
  ∃ v, get_unaligned_32_le l a = Ret v ∧ v = le_val (take 4 (drop (Z.to_nat a) l)) ∧ 0 ≤ v < 2 ^ 32.
Proof.
  intros Hl Ha Hn. unfold get_unaligned_32_le.
  destruct (GET_BYTE_at l (a + 3) Hl) as (b3 & -> & L3 & B3); [lia|].
  destruct (GET_BYTE_at l (a + 2) Hl) as (b2 & -> & L2 & B2); [lia|].
  destruct (GET_BYTE_at l (a + 1) Hl) as (b1 & -> & L1 & B1); [lia|].
  destruct (GET_BYTE_at l a Hl) as (b0 & -> & L0 & B0); [lia|]. rewrite !bind_ret.
  rewrite <- !Z.lor_assoc. rewrite (lor_shifted b0 b1 8) by lia. rewrite (lor_shifted _ b2 16) by lia.
  rewrite (lor_shifted (b2 * 2 ^ 16 + (b1 * 2 ^ 8 + b0)) b3 24), u32_id by lia. eexists. split; [done|].
  replace (Z.to_nat (a + 1)) with (S (Z.to_nat a)) in L1 by lia.
  replace (Z.to_nat (a + 2)) with (S (S (Z.to_nat a))) in L2 by lia.
  replace (Z.to_nat (a + 3)) with (S (S (S (Z.to_nat a)))) in L3 by lia.
  rewrite (drop_S _ _ _ L0), (drop_S _ _ _ L1), (drop_S _ _ _ L2), (drop_S _ _ _ L3). cbn [take le_val]. rewrite take_0. cbn [le_val]. lia.
Qed.

(** ** A device in memory, to run the clients on *)
Definition ramdisk : Type := gmap Z (list Z).

Definition is_sector (l : list Z) : bool := (length l =? 512)%nat && forallb (λ b, (0 <=? b) && (b <? 2 ^ 8)) l.

Lemma is_sector_spec l : is_sector l = true ↔ length l = 512%nat ∧ is_bytes l.
Proof.
  unfold is_sector, is_bytes. rewrite andb_true_iff, Nat.eqb_eq, forallb_forall, List.Forall_forall.
  split; intros [Hl Hb]; (split; [done|]); intros b Hin.
  - specialize (Hb b Hin). rewrite andb_true_iff, Z.leb_le, Z.ltb_lt in Hb. lia.
  - rewrite andb_true_iff, Z.leb_le, Z.ltb_lt. specialize (Hb b Hin). lia.
Qed.

Definition ram_sector (d : ramdisk) (s : Z) : option (list Z) :=
  l ← (d : gmap Z (list Z)) !! s; if is_sector l then Some l else None.

Definition ram_read (d : ramdisk) (bufsz s n : Z) : Z * list Z :=
  if negb (n =? 1) || (bufsz <? 512) then (-1, []) else
  match ram_sector d s with Some l => (1, l) | None => (-1, []) end.

Definition ram_write (d : ramdisk) (buf : list Z) (bufsz s n : Z) : ramdisk * Z :=
  if negb (n =? 1) || (bufsz <? 512) then (d, -1) else
  match ram_sector d s with Some _ => (<[s := take 512 buf]> (d : gmap Z (list Z)), 1) | None => (d, -1) end.

#[export] Instance ram_block_device : BlockDevice ramdisk := {| dev_read := ram_read; dev_write := ram_write |}.

#[export] Program Instance ram_block_device_ok : BlockDeviceOk ramdisk := {| dev_sector := ram_sector |}.
Next Obligation.
  intros d s l. unfold ram_sector. destruct ((d : gmap Z (list Z)) !! s) as [l'|]; cbn; [|done].
  destruct (is_sector l') eqn:E; [|done]. intros [= <-]. by apply is_sector_spec.
Qed.
Next Obligation.
  intros d bufsz s l Hb Hl. cbn. unfold ram_read. rewrite Hl. by destruct (Z.ltb_spec bufsz 512); [lia|].
Qed.
Next Obligation.
  intros d bufsz s l w Hb Hl Hw Hwb. cbn. unfold ram_write. rewrite Hl. destruct (Z.ltb_spec bufsz 512); [lia|].
  eexists. split; [done|]. intros s'. unfold ram_sector at 1. rewrite lookup_insert.
  destruct (Z.eqb_spec s' s) as [->|Hne].
  - rewrite decide_True by done. cbn. assert (is_sector (take 512 w) = true) as ->; [|done].
    apply is_sector_spec. split; [rewrite length_take; lia|]. by apply Forall_take.
  - by rewrite decide_False by congruence.
Qed.
