(* ===== verification/Fat32.v ===== *)
(** * FAT32 (fs/fat32/fat32.c, include/fs/fat32.h)

    The file system over any device of the [BlockDevice] interface.  The boot
    sector and the FAT buffer are byte lists; the directory sector, the name
    buffers and the directory entries, whose addresses are passed around, are in
    the byte memory, at the addresses of a [frame]. *)

From S2P Require Import Prelude Strings BlockDev.

Definition FAT32_ENTRY_SIZE_LOG : Z := 2.
Definition FAT32_ENTRY_END_OF_CHAIN : Z := 0x0fffffff.
Definition FAT32_ENTRY_END_OF_CHAIN_ALT : Z := 0x0ffffff8.
Definition FAT_ENTRY_DELETED_MARK : Z := 0xe5.
Definition FAT32_DATA_FIRST_CLUSTER : Z := 2.
Definition FAT_FILE_ATTR_VFAT_LFN : Z := 0xf.
Definition ERR_OK : Z := 0.
Definition ERR_NOT_FOUND : Z := -7.

(** ** Directory entries

    [struct fat_dentry] and [struct vfat_lfn_entry] are 32 bytes; [d] and [le] are
    addresses. *)
Definition DENTRY_SIZE : Z := 32.

Definition load16 (m : mem) (a : Z) : outcome Z :=
  b1 ← load8 m (a + 1); b0 ← load8 m a; Ret (u16 (Z.lor (Z.shiftl b1 8) b0)).
Definition load32 (m : mem) (a : Z) : outcome Z :=
  b3 ← load8 m (a + 3); b2 ← load8 m (a + 2); b1 ← load8 m (a + 1); b0 ← load8 m a;
  Ret (u32 (Z.lor (Z.lor (Z.lor (Z.shiftl b3 24) (Z.shiftl b2 16)) (Z.shiftl b1 8)) b0)).

Definition fat32_dentry_get_cluster (m : mem) (d : Z) : outcome Z :=
  hi ← load16 m (d + 20); lo ← load16 m (d + 26); Ret (u32 (Z.lor (Z.shiftl hi 16) lo)).

Definition fat32_dentry_get_file_size (m : mem) (d : Z) : outcome Z := load32 m (d + 28).

Definition fat32_dentry_is_valid (m : mem) (d : Z) : outcome bool :=
  c ← load8 m d;
  if negb (truth c) then Ret false else
  sz ← fat32_dentry_get_file_size m d;
  if negb (truth sz) then Ret false else
  cl ← fat32_dentry_get_cluster m d;
  Ret (truth cl).

Definition fat32_dentry_is_deleted (m : mem) (d : Z) : outcome bool :=
  c ← load8 m d; Ret (c =? FAT_ENTRY_DELETED_MARK).

Definition fat32_dentry_is_vfat_lfn (m : mem) (d : Z) : outcome bool :=
  a ← load8 m (d + 11); Ret (a =? FAT_FILE_ATTR_VFAT_LFN).

Definition fat32_dentry_is_end_mark (m : mem) (d : Z) : outcome bool :=
  loop 33 (λ ptr,
    if ptr <? d + DENTRY_SIZE then
      c ← load8 m ptr; if truth c then Ret (inr false) else Ret (inl (ptr + 1))
    else Ret (inr true)) d.

(** Returns the next entry ([0] at the end mark) and [first_lfn]. *)
Definition fat32_dentry_next (fuel : nat) (m : mem) (d d_end first_lfn : Z) : outcome (Z * Z) :=
  loop fuel (λ '(d, first_lfn),
    if d =? d_end then Ret (inr (d, first_lfn)) else
    let d := d + DENTRY_SIZE in
    lfn ← fat32_dentry_is_vfat_lfn m d;
    if (lfn : bool) then Ret (inl (d, if truth first_lfn then first_lfn else d)) else
    del ← fat32_dentry_is_deleted m d;
    if (del : bool) then Ret (inl (d, 0)) else
    valid ← fat32_dentry_is_valid m d;
    if (valid : bool) then Ret (inr (d, first_lfn)) else
    e ← fat32_dentry_is_end_mark m d;
    if (e : bool) then Ret (inr (0, first_lfn)) else
    Ret (inl (d, 0))) (d, first_lfn).

(** ** Names *)

(** [LFN_UCS2_TO_ASCII] for the field of [sz] bytes at [fld]: [inr] leaves the
    enclosing loop. *)
Definition LFN_UCS2_TO_ASCII (fuel : nat) (m : mem) (dst_ptr end_ptr fld sz : Z) : outcome (mem * Z + mem * Z) :=
  '(m, num) ← wtomb fuel m dst_ptr (u64 (end_ptr - dst_ptr)) fld sz;
  if negb (truth num) then Ret (inr (m, dst_ptr)) else
  let dst_ptr := dst_ptr + num in
  if u64 num <? Z.shiftr sz 1 then Ret (inr (m, dst_ptr)) else Ret (inl (m, dst_ptr)).

Definition fat32_fill_filename_lfn (fuel : nat) (m : mem) (le dentry buf bufsz : Z) : outcome (mem * Z) :=
  let end_ := buf + bufsz - 1 in
  '(m, ptr) ← loop fuel (λ '(m, le, ptr),
    if le <? dentry then
      r ← LFN_UCS2_TO_ASCII fuel m ptr end_ (le + 1) 10;
      match r with
      | inr mp => Ret (inr mp)
      | inl (m, ptr) =>
          r ← LFN_UCS2_TO_ASCII fuel m ptr end_ (le + 15) 12;
          match r with
          | inr mp => Ret (inr mp)
          | inl (m, ptr) =>
              r ← LFN_UCS2_TO_ASCII fuel m ptr end_ (le + 29) 4;
              match r with
              | inr mp => Ret (inr mp)
              | inl (m, ptr) => Ret (inl (m, le + DENTRY_SIZE, ptr))
              end
          end
      end
    else Ret (inr (m, ptr))) (m, le, buf);
  m ← store8 m ptr 0;
  Ret (m, ptr).

Definition fat32_dentry_fill_name_short (m : mem) (d buf bufsz : Z) : outcome (mem * Z) :=
  let end_ := buf + bufsz in
  '(m, ptr) ← loop 9 (λ '(m, ptr, i),
    if (i <? 8) && (ptr <? end_) then
      c ← load8 m (d + i);
      if negb (truth c) then Ret (inr (m, ptr)) else
      m ← store8 m ptr c; Ret (inl (m, ptr + 1, i + 1))
    else Ret (inr (m, ptr))) (m, buf, 0);
  '(m, ptr) ← (if ptr <? end_ then
                 e ← load8 m (d + 8);
                 if truth e then m ← store8 m ptr 46; Ret (m, ptr + 1) else Ret (m, ptr)
               else Ret (m, ptr));
  '(m, ptr) ← loop 4 (λ '(m, ptr, i),
    if (i <? 3) && (ptr <? end_) then
      c ← load8 m (d + 8 + i);
      if truth c && negb (c =? 32) then m ← store8 m ptr c; Ret (inl (m, ptr + 1, i + 1))
      else Ret (inl (m, ptr, i + 1))
    else Ret (inr (m, ptr))) (m, ptr, 0);
  m ← store8 m ptr 0;
  Ret (m, ptr - buf).

Definition fat32_dentry_get_filename (fuel : nat) (m : mem) (d le buf bufsz : Z) : outcome mem :=
  if truth le then '(m, _) ← fat32_fill_filename_lfn fuel m le d buf bufsz; Ret m
  else '(m, _) ← fat32_dentry_fill_name_short m d buf bufsz; Ret m.

(** Returns the length and the new [*path]. *)
Definition filepath_get_next_element (fuel : nat) (m : mem) (path : Z) : outcome (Z * Z) :=
  p ← loop fuel (λ p,
    c ← load8 m p;
    if truth c && negb (c =? 47) then Ret (inl (p + 1)) else Ret (inr p)) path;
  Ret (p - path, p).

(** ** The file system *)
Record fat32_fs (D : Type) := Fat32Fs { bdev : D; boot_sector : list Z }.
Arguments Fat32Fs {D}.
Arguments bdev {D}.
Arguments boot_sector {D}.

(** Addresses of the local buffers: the sector buffer of
    [fat32_iterate_directory], the name buffers of the comparison and of the
    lookup, and [arg.dentry]. *)
Record frame := Frame { dirbuf : Z; cmp_namebuf : Z; lookup_namebuf : Z; arg_dentry : Z }.

Section fat32.
Context {D : Type} `{BlockDevice D}.
Implicit Types f : fat32_fs D.

Definition fat32_get_num_reserved_sectors f : outcome Z := get_unaligned_16_le (boot_sector f) 14.
Definition fat32_get_root_dir_cluster f : outcome Z := get_unaligned_32_le (boot_sector f) 44.
Definition fat32_get_logical_sector_size f : outcome Z := get_unaligned_16_le (boot_sector f) 11.
Definition fat32_get_sectors_per_cluster f : outcome Z := GET_BYTE (boot_sector f) 13.
Definition fat32_get_bytes_per_cluster f : outcome Z :=
  a ← fat32_get_logical_sector_size f; b ← fat32_get_sectors_per_cluster f; Ret (u32 (a * b)).
(** The field has 32 bits; 16 are read. *)
Definition fat32_get_sectors_per_fat f : outcome Z := get_unaligned_16_le (boot_sector f) 36.
Definition fat32_get_num_fats f : outcome Z := GET_BYTE (boot_sector f) 16.
Definition fat32_get_num_fat_sectors f : outcome Z :=
  a ← fat32_get_num_fats f; b ← fat32_get_sectors_per_fat f; Ret (u32 (a * b)).
Definition fat32_get_data_start_sector f : outcome Z :=
  a ← fat32_get_num_reserved_sectors f; b ← fat32_get_num_fat_sectors f; Ret (u32 (a + b)).

(** [fatbuf] is the static buffer; the bytes read replace its beginning. *)
Definition fat32_get_next_cluster_num f (fatbuf : list Z) (cluster_idx : Z) : outcome (Z * list Z) :=
  fat_start_sector ← fat32_get_num_reserved_sectors f;
  ss ← fat32_get_logical_sector_size f;
  let entries_per_sector := Z.shiftr ss FAT32_ENTRY_SIZE_LOG in
  if entries_per_sector =? 0 then Fault else
  let entry_sector := u32 (fat_start_sector + cluster_idx / entries_per_sector) in
  spf ← fat32_get_sectors_per_fat f;
  if spf <? entry_sector then Ret (FAT32_ENTRY_END_OF_CHAIN, fatbuf) else
  let offset_in_sector := cluster_idx mod entries_per_sector in
  let '(err, l) := dev_read (bdev f) 512 entry_sector 1 in
  let fatbuf := l ++ drop (length l) fatbuf in
  if err <? 0 then Ret (u32 err, fatbuf) else
  v ← get_unaligned_32_le fatbuf (4 * offset_in_sector);
  Ret (v, fatbuf).

(** Reads sector 0 into the boot sector. *)
Definition fat32_open (d : D) (old : list Z) : Z * fat32_fs D :=
  let '(err, l) := dev_read d 512 0 1 in
  let boot := l ++ drop (length l) old in
  (if err <? 0 then err else 0, Fat32Fs d boot).

(** ** Cluster and sector iterators *)
Record cluster_it := ClusterIt { ci_cluster : Z; ci_valid : bool; ci_fatbuf : list Z }.

Definition cluster_it_init (fatbuf : list Z) (start_cluster : Z) : cluster_it :=
  ClusterIt start_cluster true fatbuf.

Definition cluster_it_next f (ci : cluster_it) : outcome cluster_it :=
  '(c, fb) ← fat32_get_next_cluster_num f (ci_fatbuf ci) (ci_cluster ci);
  Ret (ClusterIt c (if (c =? FAT32_ENTRY_END_OF_CHAIN) || (c =? FAT32_ENTRY_END_OF_CHAIN_ALT) then false
                    else ci_valid ci) fb).

(** [sector_idx] and [end_sector_idx]. *)
Definition cl_sector_iter_init f (cluster_idx num_sectors : Z) : outcome (Z * Z) :=
  first_data_sector_idx ← fat32_get_data_start_sector f;
  spc ← fat32_get_sectors_per_cluster f;
  let data_sector_idx := u32 (u32 (cluster_idx - FAT32_DATA_FIRST_CLUSTER) * spc) in
  let sector_idx := u64 (first_data_sector_idx + data_sector_idx) in
  Ret (sector_idx, u64 (sector_idx + num_sectors)).

(** ** Directories *)
Section dir.
Context {A : Type} (F : frame) (fuel : nat).

(** A callback gets the memory, its argument and the addresses of the entry and
    of its first long-name entry; it answers whether to stop. *)
Context (cb : mem → A → Z → Z → outcome (mem * A * bool)).

(** The [while(1)] over the entries of a sector; the result is [true] for
    [goto stop_iter], [false] at the end of the sector. *)
Definition dir_sector_loop (m : mem) (a : A) (d d_end first_le : Z) : outcome (mem * A * bool) :=
  loop fuel (λ '(m, a, d, first_le),
    '(d, first_le) ← fat32_dentry_next fuel m d d_end first_le;
    if negb (truth d) then Ret (inr (m, a, true)) else
    if d =? d_end then Ret (inr (m, a, false)) else
    '(m, a, stop) ← cb m a d first_le;
    if (stop : bool) then Ret (inr (m, a, true)) else Ret (inl (m, a, d, 0))) (m, a, d, first_le).

(** One sector: read it, treat its first entry, then the others. *)
Definition dir_sector f (m : mem) (a : A) (sector_size sector_idx : Z) : outcome (mem * A * Z * bool) :=
  let '(err, l) := dev_read (bdev f) 512 sector_idx 1 in
  let m := write_bytes m (dirbuf F) l in
  if err <? 0 then Ret (m, a, err, true) else
  let d := dirbuf F in
  let d_end := dirbuf F + sector_size in
  lfn ← fat32_dentry_is_vfat_lfn m d;
  let first_le := if (lfn : bool) then d else 0 in
  valid ← (if (lfn : bool) then Ret false else fat32_dentry_is_valid m d);
  '(m, a, stop) ← (if (valid : bool) then cb m a d first_le else Ret (m, a, false));
  if (stop : bool) then Ret (m, a, ERR_OK, true) else
  '(m, a, stop) ← dir_sector_loop m a d d_end first_le;
  Ret (m, a, ERR_OK, stop).

Definition fat32_iterate_directory f (fatbuf : list Z) (m : mem) (a : A) (dir_start_cluster : Z)
    : outcome (mem * A * list Z * Z) :=
  sector_size ← fat32_get_logical_sector_size f;
  spc ← fat32_get_sectors_per_cluster f;
  loop fuel (λ '(m, a, ci, err, d_null),
    if ci_valid ci then
      '(sector_idx, end_idx) ← cl_sector_iter_init f (ci_cluster ci) spc;
      '(m, a, err, stop, d_null) ← loop fuel (λ '(m, a, s, err, d_null),
        if s <? end_idx then
          '(m, a, err, stop) ← dir_sector f m a sector_size s;
          if (stop : bool) then Ret (inr (m, a, err, true, false)) else Ret (inl (m, a, s + 1, err, false))
        else Ret (inr (m, a, err, false, d_null))) (m, a, sector_idx, err, d_null);
      if (stop : bool) || (d_null : bool) then Ret (inr (m, a, ci_fatbuf ci, err)) else
      ci ← cluster_it_next f ci;
      Ret (inl (m, a, ci, err, d_null))
    else Ret (inr (m, a, ci_fatbuf ci, err))) (m, a, cluster_it_init fatbuf dir_start_cluster, 0, true).
End dir.

(** ** Lookup *)

(** The state of the callback is [arg.err]. *)
Definition fat32_compare_filename_cb (F : frame) (fuel : nat) (filename : Z) (m : mem) (err : Z) (d le : Z)
    : outcome (mem * Z * bool) :=
  m ← fat32_dentry_get_filename fuel m d le (cmp_namebuf F) 128;
  c ← strcmp fuel m (cmp_namebuf F) filename;
  if c =? 0 then
    m ← memcpy fuel m (arg_dentry F) d DENTRY_SIZE;
    Ret (m, ERR_OK, true)
  else Ret (m, err, false).

Definition fat32_lookup (F : frame) (fuel : nat) f (fatbuf : list Z) (m : mem) (filepath out_dentry : Z)
    : outcome (mem * list Z * Z) :=
  c ← load8 m filepath;
  if negb (truth c) || negb (c =? 47) then Ret (m, fatbuf, -1) else
  dir_start_cluster_idx ← fat32_get_root_dir_cluster f;
  '(m, fatbuf, res) ← loop fuel (λ '(m, fatbuf, p),
    '(n, p) ← filepath_get_next_element fuel m p;
    if negb (truth n) then Ret (inr (m, fatbuf, None)) else
    m ← strncpy fuel m (lookup_namebuf F) (p - n) n;
    m ← store8 m (lookup_namebuf F + n) 0;
    c ← load8 m p;
    let p := if c =? 47 then p + 1 else p in
    '(m, err', fatbuf, err) ← fat32_iterate_directory F fuel
       (fat32_compare_filename_cb F fuel (lookup_namebuf F)) f fatbuf m ERR_NOT_FOUND dir_start_cluster_idx;
    if truth err then Ret (inr (m, fatbuf, Some err)) else
    if negb (err' =? ERR_OK) then Ret (inr (m, fatbuf, Some err)) else
    Ret (inl (m, fatbuf, p))) (m, fatbuf, filepath + 1);
  match res with
  | Some err => Ret (m, fatbuf, err)
  | None => m ← memcpy fuel m out_dentry (arg_dentry F) DENTRY_SIZE; Ret (m, fatbuf, 0)
  end.

(** ** The sectors of a file *)

(** One cluster of [fat32_iterate_file_sectors]. *)
Definition file_sectors_step {A} (fuel : nat) f (sectors_per_cluster : Z) (cb : A → Z → Z → outcome (A * bool))
    : A * cluster_it * Z → outcome (A * cluster_it * Z + A * Z) :=
  λ '(a, ci, size_sectors),
    if truth size_sectors && ci_valid ci then
      let num_sectors := if sectors_per_cluster <? size_sectors then sectors_per_cluster else size_sectors in
      '(s, e) ← cl_sector_iter_init f (ci_cluster ci) num_sectors;
      '(a, stop) ← loop fuel (λ '(a, s),
        if s <? e then
          '(a, r) ← cb a (ci_cluster ci) s;
          if (r : bool) then Ret (inr (a, true)) else Ret (inl (a, s + 1))
        else Ret (inr (a, false))) (a, s);
      if (stop : bool) then Ret (inr (a, ERR_OK)) else
      ci ← cluster_it_next f ci;
      Ret (inl (a, ci, u32 (size_sectors - num_sectors)))
    else Ret (inr (a, ERR_OK)).

Definition fat32_iterate_file_sectors {A} (fuel : nat) f (fatbuf : list Z) (m : mem) (d : Z)
    (cb : A → Z → Z → outcome (A * bool)) (a : A) : outcome (A * Z) :=
  sector_size ← fat32_get_logical_sector_size f;
  sectors_per_cluster ← fat32_get_sectors_per_cluster f;
  size_bytes ← fat32_dentry_get_file_size m d;
  if sector_size =? 0 then Fault else
  let size_sectors := u32 (size_bytes + sector_size - 1) / sector_size in
  c ← fat32_dentry_get_cluster m d;
  loop fuel (file_sectors_step fuel f sectors_per_cluster cb) (a, cluster_it_init fatbuf c, size_sectors).
End fat32.

(** ** Entries as byte lists *)
Definition e_byte (e : list Z) (i : nat) : Z := default 0 (e !! i).
Definition e16 (e : list Z) (i : nat) : Z := le_val (take 2 (drop i e)).
Definition e_size (e : list Z) : Z := le_val (take 4 (drop 28 e)).
Definition e_cluster (e : list Z) : Z := e16 e 20 * 2 ^ 16 + e16 e 26.
Definition e_lfn (e : list Z) : bool := e_byte e 11 =? FAT_FILE_ATTR_VFAT_LFN.
Definition e_deleted (e : list Z) : bool := e_byte e 0 =? FAT_ENTRY_DELETED_MARK.
Definition e_valid (e : list Z) : bool := truth (e_byte e 0) && truth (e_size e) && truth (e_cluster e).
Definition e_end (e : list Z) : bool := forallb (Z.eqb 0) e.

(** The entries a scan visits, with their first long-name entry (or 0): [es] are
    the entries after [d], [le] the pending long-name entry. *)
Fixpoint visits (es : list (list Z)) (d le : Z) : list (Z * Z) :=
  match es with
  | [] => []
  | e :: es =>
      let d := d + DENTRY_SIZE in
      if e_lfn e then visits es d (if truth le then le else d)
      else if e_deleted e then visits es d 0
      else if e_valid e then (d, le) :: visits es d 0
      else if e_end e then []
      else visits es d 0
  end.

(** The directory as a whole: its first entry is at [d]. *)
Definition dir_entries (es : list (list Z)) (d : Z) : list (Z * Z) :=
  match es with
  | [] => []
  | e :: es =>
      if e_lfn e then visits es d d
      else if e_valid e then (d, 0) :: visits es d 0
      else visits es d 0
  end.

Definition has_end (es : list (list Z)) : Prop := Exists (λ e, e_end e = true) es.

(** A sector of entries with an end mark after its first entry. *)
Definition dir_sector_ok (es : list (list Z)) : Prop :=
  Forall (λ e, length e = 32%nat ∧ is_bytes e) es ∧ has_end (tail es).

Section entry.
Context (m : mem) (d : Z) (e : list Z).
Hypothesis Hb : bytes_at m d e.
Hypothesis He : length e = 32%nat.
Hypothesis Hbytes : is_bytes e.

Lemma load8_entry i : 0 ≤ i < 32 → load8 m (d + i) = GET_BYTE e i.
Proof using Hb He.
  intros Hi. destruct (bytes_at_lookup m d e i Hb) as (b & Hl & Hm); [lia|].
  unfold load8, GET_BYTE. rewrite Hm, Hl. by destruct (Z.ltb_spec i 0); [lia|].
Qed.

Lemma load8_e_byte (i : nat) : (i < 32)%nat → load8 m (d + Z.of_nat i) = Ret (e_byte e i).
Proof using Hb He.
  intros Hi. rewrite load8_entry by lia. destruct (lookup_lt_is_Some_2 e i) as [b Hl]; [lia|].
  rewrite (GET_BYTE_lookup _ _ _ Hl). unfold e_byte. by rewrite Hl.
Qed.

Lemma load8_first : load8 m d = Ret (e_byte e 0).
Proof using Hb He. rewrite <- (load8_e_byte 0) by lia. f_equal. lia. Qed.

Lemma load16_entry (i : nat) : (i + 2 ≤ 32)%nat → load16 m (d + Z.of_nat i) = Ret (e16 e i).
Proof using All.
  intros Hi. unfold load16. rewrite <- Z.add_assoc, !load8_entry by lia.
  fold (get_unaligned_16_le e (Z.of_nat i)).
  destruct (get16_ok e (Z.of_nat i) Hbytes) as (v & -> & -> & _); [lia..|]. by rewrite Nat2Z.id.
Qed.

Lemma e16_range i : (i + 2 ≤ 32)%nat → 0 ≤ e16 e i < 2 ^ 16.
Proof using He Hbytes.
  intros Hi. destruct (get16_ok e (Z.of_nat i) Hbytes) as (v & _ & Hv & Hr); [lia..|].
  rewrite Nat2Z.id in Hv. unfold e16. by rewrite <- Hv.
Qed.

Lemma size_entry : fat32_dentry_get_file_size m d = Ret (e_size e).
Proof using All.
  unfold fat32_dentry_get_file_size, load32. rewrite <- !Z.add_assoc, !load8_entry by lia.
  change (28 + 3) with (28 + 3). fold (get_unaligned_32_le e 28).
  destruct (get32_ok e 28 Hbytes) as (v & -> & -> & _); [lia..|done].
Qed.

Lemma cluster_entry : fat32_dentry_get_cluster m d = Ret (e_cluster e).
Proof using All.
  unfold fat32_dentry_get_cluster. rewrite (load16_entry 20 ltac:(lia) : load16 m (d + 20) = _), bind_ret,
    (load16_entry 26 ltac:(lia) : load16 m (d + 26) = _), bind_ret.
  pose proof (e16_range 20 ltac:(lia)). pose proof (e16_range 26 ltac:(lia)).
  rewrite lor_shifted, u32_id by lia. done.
Qed.

Lemma valid_entry : fat32_dentry_is_valid m d = Ret (e_valid e).
Proof using All.
  unfold fat32_dentry_is_valid, e_valid. rewrite load8_first, bind_ret.
  destruct (truth (e_byte e 0)); [|done]. cbn [negb andb]. rewrite size_entry, bind_ret.
  destruct (truth (e_size e)); [|done]. cbn [negb andb]. by rewrite cluster_entry, bind_ret.
Qed.

Lemma deleted_entry : fat32_dentry_is_deleted m d = Ret (e_deleted e).
Proof using All.
  unfold fat32_dentry_is_deleted, e_deleted. by rewrite load8_first.
Qed.

Lemma lfn_entry : fat32_dentry_is_vfat_lfn m d = Ret (e_lfn e).
Proof using All. 
  unfold fat32_dentry_is_vfat_lfn, e_lfn. by rewrite (load8_e_byte 11 ltac:(lia) : load8 m (d + 11) = _).
 Qed.

Lemma end_entry : fat32_dentry_is_end_mark m d = Ret (e_end e).
Proof using All.
  unfold fat32_dentry_is_end_mark, e_end. change (d + DENTRY_SIZE) with (d + 32).
  assert (∀ l p n, bytes_at m p l → p + Z.of_nat (length l) = d + 32 → (length l < n)%nat →
    loop n (λ ptr, if ptr <? d + 32 then c ← load8 m ptr; if truth c then Ret (inr false) else Ret (inl (ptr + 1))
      else Ret (inr true)) p = Ret (forallb (Z.eqb 0) l)) as H.
  { induction l as [|b l IH]; intros p n Hbl Hp Hn; (destruct n as [|n]; [cbn in Hn; lia|]); cbn [loop length] in *.
    - destruct (Z.ltb_spec p (d + 32)); [lia|done].
    - destruct (Z.ltb_spec p (d + 32)); [|lia]. apply bytes_at_cons in Hbl as [H0 Hbl].
      rewrite (load8_at _ _ _ H0), bind_ret. cbn [forallb].
      destruct (Z.eqb_spec 0 b) as [<-|Hne]; cbn [andb].
      + change (truth 0) with false. cbv iota. rewrite bind_ret. apply IH; [done|lia..].
      + assert (truth b = true) as -> by (unfold truth; destruct (Z.eqb_spec b 0); [lia|done]). done. }
  apply H; [done|lia..].
Qed.
End entry.

(** ** Scanning a sector *)
Definition entries_at (m : mem) (d : Z) (es : list (list Z)) : Prop :=
  bytes_at m d (concat es) ∧ Forall (λ e, length e = 32%nat ∧ is_bytes e) es.

Lemma entries_at_cons m d e es : entries_at m d (e :: es) →
  bytes_at m d e ∧ length e = 32%nat ∧ is_bytes e ∧ entries_at m (d + DENTRY_SIZE) es.
Proof.
  intros [Hb He]. apply Forall_cons in He as [[Hl Hby] He]. cbn in Hb. apply bytes_at_app in Hb as [Hb1 Hb2].
  rewrite Hl in Hb2. done.
Qed.

Lemma end_byte e i : e_end e = true → (i < length e)%nat → e_byte e i = 0.
Proof.
  unfold e_end, e_byte. rewrite forallb_forall. intros He Hi.
  destruct (lookup_lt_is_Some_2 e i Hi) as [b Hb]. rewrite Hb. cbn. symmetry. apply Z.eqb_eq, He.
  apply list_elem_of_In. by eapply list_elem_of_lookup_2.
Qed.

(** An end mark is neither of the other kinds. *)
Lemma end_kinds e : e_end e = true → length e = 32%nat → e_lfn e = false ∧ e_deleted e = false ∧ e_valid e = false.
Proof.
  intros He Hl. unfold e_lfn, e_deleted, e_valid. by rewrite !(end_byte e) by (done || lia).
Qed.

(** The rest of a scan from [d]: [es] are the entries after it, up to [d_end]. *)
Definition rest_ok (m : mem) (d d_end : Z) (es : list (list Z)) : Prop :=
  entries_at m (d + DENTRY_SIZE) es ∧ d + DENTRY_SIZE * (Z.of_nat (length es) + 1) = d_end ∧ 0 < d.

(** [fat32_dentry_next] on a sector with an end mark ahead: it gives 0 when the
    reference scan is over, else the head of the scan. *)
Lemma dentry_next_ok m d_end es fuel d le : rest_ok m d d_end es → has_end es → (length es < fuel)%nat →
  ∃ d' le', fat32_dentry_next fuel m d d_end le = Ret (d', le') ∧
    ((d' = 0 ∧ visits es d le = []) ∨
     ∃ es', visits es d le = (d', le') :: visits es' d' 0 ∧ rest_ok m d' d_end es' ∧ has_end es' ∧
       (length es' < length es)%nat).
Proof.
  unfold fat32_dentry_next. revert fuel d le.
  induction es as [|e es IH]; intros fuel d le (Hat & Hd & Hpos) Hend Hf; [by inv Hend|].
  destruct fuel as [|fuel]; [cbn in Hf; lia|]. cbn [length] in *. unfold DENTRY_SIZE in Hd.
  apply entries_at_cons in Hat as (Hb & Hl & Hby & Hat). cbn [loop].
  assert ((d =? d_end) = false) as -> by (apply Z.eqb_neq; lia).
  assert (rest_ok m (d + DENTRY_SIZE) d_end es) as Hr by (split; [done|unfold DENTRY_SIZE; lia]).
  rewrite (lfn_entry _ _ _ Hb Hl Hby), bind_ret. cbn [visits].
  destruct (e_end e) eqn:Ee.
  - destruct (end_kinds e Ee Hl) as (El & Ed & Ev). rewrite El, Ed, Ev.
    rewrite (deleted_entry _ _ _ Hb Hl Hby), bind_ret, Ed, (valid_entry _ _ _ Hb Hl Hby), bind_ret, Ev,
      (end_entry _ _ _ Hb Hl Hby), bind_ret, Ee. cbn. exists 0, le. split; [done|]. by left.
  - assert (has_end es) as Hend' by (inv Hend; [congruence|done]).
    assert (∀ le, ∃ d' le', fat32_dentry_next fuel m (d + DENTRY_SIZE) d_end le = Ret (d', le') ∧
      ((d' = 0 ∧ visits es (d + DENTRY_SIZE) le = []) ∨
       ∃ es', visits es (d + DENTRY_SIZE) le = (d', le') :: visits es' d' 0 ∧ rest_ok m d' d_end es' ∧ has_end es' ∧
         (length es' < S (length es))%nat)) as IH'.
    { intros le0. destruct (IH fuel (d + DENTRY_SIZE) le0 Hr Hend' ltac:(lia)) as (d' & le' & E & Hv).
      exists d', le'. split; [exact E|]. destruct Hv as [?|(es' & ? & ? & ? & ?)]; [by left|]. right. exists es'.
      repeat split; try done; lia || apply H0. }
    unfold fat32_dentry_next in IH'.
    destruct (e_lfn e); cbn [mbind outcome_bind]; [apply IH'|].
    rewrite (deleted_entry _ _ _ Hb Hl Hby), bind_ret. destruct (e_deleted e); cbn [mbind outcome_bind]; [apply IH'|].
    rewrite (valid_entry _ _ _ Hb Hl Hby), bind_ret. destruct (e_valid e).
    + rewrite bind_ret. exists (d + DENTRY_SIZE), le. split; [done|]. right. exists es. split; [done|].
      split; [done|]. split; [done|lia].
    + rewrite (end_entry _ _ _ Hb Hl Hby), bind_ret, Ee. apply IH'.
Qed.

(** ** Iterating a directory *)
Section iterate.
Context {D A : Type} `{BlockDevice D, !BlockDeviceOk D} (F : frame) (fuel : nat).
Context (cb : mem → A → Z → Z → outcome (mem * A * bool)).

(** The reference: the callback on the given entries in order, until it asks to
    stop. *)
Fixpoint run_cb (l : list (Z * Z)) (m : mem) (a : A) : outcome (mem * A) :=
  match l with
  | [] => Ret (m, a)
  | (d, le) :: l =>
      '(m, a, stop) ← cb m a d le;
      if (stop : bool) then Ret (m, a) else run_cb l m a
  end.

(** The calls on the given entries do not write the sector buffer. *)
Definition cb_frame (l : list (Z * Z)) : Prop := ∀ d le, (d, le) ∈ l → ∀ m a m' a' stop, cb m a d le = Ret (m', a', stop) →
  ∀ q, dirbuf F ≤ q < dirbuf F + 512 → m' !! q = m !! q.

Lemma rest_ok_frame m m' d d_end es :
  (∀ q, dirbuf F ≤ q < dirbuf F + 512 → m' !! q = m !! q) →
  dirbuf F ≤ d → d_end ≤ dirbuf F + 512 → rest_ok m d d_end es → rest_ok m' d d_end es.
Proof using.
  intros Hq Hd Hde ([Hb He] & Hl & Hp). split; [|done]. split; [|done]. intros i b Hi.
  rewrite Hq; [by apply Hb|]. apply lookup_lt_Some in Hi.
  assert (length (concat es) = 32 * length es)%nat as E.
  { clear -He. induction He as [|e es [Hl _] _ IH]; [done|]. cbn. rewrite length_app. lia. }
  unfold DENTRY_SIZE in *. lia.
Qed.

Lemma dir_sector_loop_ok es n m a d le d_end : rest_ok m d d_end es → has_end es →
  dirbuf F ≤ d → d_end ≤ dirbuf F + 512 → (length es < n)%nat → (length es < fuel)%nat → cb_frame (visits es d le) →
  loop n (λ '(m, a, d, first_le),
    '(d, first_le) ← fat32_dentry_next fuel m d d_end first_le;
    if negb (truth d) then Ret (inr (m, a, true)) else
    if d =? d_end then Ret (inr (m, a, false)) else
    '(m, a, stop) ← cb m a d first_le;
    if (stop : bool) then Ret (inr (m, a, true)) else Ret (inl (m, a, d, 0))) (m, a, d, le)
  = ('(m, a) ← run_cb (visits es d le) m a; Ret (m, a, true)).
Proof using.
  revert es m a d le. induction n as [|n IH]; intros es m a d le Hr Hend Hd Hde Hn Hf Hcb; [lia|]. cbn [loop].
  destruct (dentry_next_ok m d_end es fuel d le Hr Hend Hf) as (d' & le' & -> & Hv). rewrite bind_ret.
  destruct Hv as [[-> ->]|(es' & Ev & Hr' & Hend' & Hlen)]; [done|]. rewrite Ev in *. cbn [run_cb].
  pose proof Hr' as (_ & Hl' & Hp'). unfold DENTRY_SIZE in Hl'.
  pose proof Hr as (_ & Hl & _). unfold DENTRY_SIZE in Hl.
  assert (truth d' = true) as -> by (unfold truth; destruct (Z.eqb_spec d' 0); [lia|done]).
  cbn [negb]. destruct (Z.eqb_spec d' d_end); [lia|].
  destruct (cb m a d' le') as [[[m' a'] []]| | |] eqn:E; try done.
  rewrite !bind_ret. apply IH; [|done|lia|done|lia|lia|intros ? ? Hin; apply Hcb; set_solver].
  eapply rest_ok_frame; [eapply Hcb; [|exact E]; set_solver|lia|done|done].
Qed.

(** A sector whose scan is over at its end mark: the whole directory. *)
Lemma dir_sector_visits f m a s es : 0 < dirbuf F → dev_sector (bdev f) s = Some (concat es) →
  dir_sector_ok es → (16 < fuel)%nat → cb_frame (dir_entries es (dirbuf F)) →
  dir_sector F fuel cb f m a 512 s
  = ('(m, a) ← run_cb (dir_entries es (dirbuf F)) (write_bytes m (dirbuf F) (concat es)) a; Ret (m, a, ERR_OK, true)).
Proof using All.
  intros Hpos Hs [He Hend] Hf Hcb. destruct (dev_sector_size _ _ _ Hs) as [Hlen Hby].
  assert (length es = 16)%nat as Hl16.
  { assert (length (concat es) = 32 * length es)%nat as E; [|lia].
    clear -He. induction He as [|e es [Hl _] _ IH]; [done|]. cbn. rewrite length_app. lia. }
  unfold dir_sector. rewrite (dev_read_ok (bdev f) 512 s _ ltac:(lia) Hs).
  change (1 <? 0) with false. cbv iota. set (m1 := write_bytes m (dirbuf F) (concat es)).
  destruct es as [|e es]; [done|]. cbn [tail head default] in *.
  assert (entries_at m1 (dirbuf F) (e :: es)) as Hat by (split; [apply write_bytes_at|done]).
  apply entries_at_cons in Hat as (Hb & Hl & Hbe & Hat). cbn [length] in Hl16.
  assert (rest_ok m1 (dirbuf F) (dirbuf F + 512) es) as Hr by (split; [done|unfold DENTRY_SIZE; lia]).
  assert (∀ m' a le, rest_ok m' (dirbuf F) (dirbuf F + 512) es → cb_frame (visits es (dirbuf F) le) →
    ('(m, a, stop) ← dir_sector_loop fuel cb m' a (dirbuf F) (dirbuf F + 512) le; Ret (m, a, ERR_OK, stop))
    = ('(m, a) ← run_cb (visits es (dirbuf F) le) m' a; Ret (m, a, ERR_OK, true))) as Hloop.
  { intros m' a' le Hr' Hk. unfold dir_sector_loop. rewrite (dir_sector_loop_ok es); [|done|done|lia|lia|lia|lia|done].
    by destruct (run_cb _ _ _) as [[? ?]| | |]. }
  rewrite (lfn_entry _ _ _ Hb Hl Hbe), bind_ret. cbn [dir_entries] in *. destruct (e_lfn e).
  - rewrite !bind_ret. by apply Hloop.
  - rewrite (valid_entry _ _ _ Hb Hl Hbe), bind_ret. destruct (e_valid e).
    + cbn [run_cb]. destruct (cb m1 a (dirbuf F) 0) as [[[m2 a2] []]| | |] eqn:E; try done. rewrite !bind_ret.
      apply Hloop; [|intros ? ? Hin; apply Hcb; set_solver].
      eapply rest_ok_frame; [eapply Hcb; [|exact E]; set_solver|lia|lia|done].
    + rewrite bind_ret. by apply Hloop.
Qed.
End iterate.

(** ** Geometry *)

(** What the boot sector says. *)
Record geometry := Geometry { g_reserved : Z; g_spc : Z; g_fats : Z; g_spf : Z; g_root : Z }.

Section geometry.
Context {D : Type} `{BlockDevice D, !BlockDeviceOk D}.
Implicit Types f : fat32_fs D.

Record geometry_ok f (g : geometry) : Prop := {
  geo_ss : fat32_get_logical_sector_size f = Ret 512;
  geo_reserved : fat32_get_num_reserved_sectors f = Ret (g_reserved g);
  geo_spc : fat32_get_sectors_per_cluster f = Ret (g_spc g);
  geo_fats : fat32_get_num_fats f = Ret (g_fats g);
  geo_spf : fat32_get_sectors_per_fat f = Ret (g_spf g);
  geo_root : fat32_get_root_dir_cluster f = Ret (g_root g);
  geo_bounds : 0 ≤ g_reserved g < 2 ^ 16 ∧ 1 ≤ g_spc g < 2 ^ 8 ∧ 0 ≤ g_fats g < 2 ^ 8 ∧ 0 ≤ g_spf g < 2 ^ 16 }.

(** First sector of cluster [c]. *)
Definition cluster_sector (g : geometry) (c : Z) : Z :=
  g_reserved g + g_fats g * g_spf g + (c - 2) * g_spc g.

(** Cluster numbers whose sectors are computed without overflow. *)
Definition cluster_ok (g : geometry) (c : Z) : Prop := 2 ≤ c < 2 ^ 32 ∧ (c - 2) * g_spc g < 2 ^ 32.

Lemma cl_sector_iter_ok f g c n : geometry_ok f g → cluster_ok g c → 0 ≤ n < 2 ^ 32 →
  cl_sector_iter_init f c n = Ret (cluster_sector g c, cluster_sector g c + n).
Proof.
  intros [_ Er Es Ef Ep _ (Br & Bs & Bf & Bp)] [Hc Ho] Hn.
  assert (0 ≤ g_fats g * g_spf g < 2 ^ 24) by nia. assert (0 ≤ (c - 2) * g_spc g) by nia.
  unfold cl_sector_iter_init, fat32_get_data_start_sector, fat32_get_num_fat_sectors.
  rewrite Er, bind_ret, Ef, bind_ret, Ep, !bind_ret, Es, bind_ret. unfold FAT32_DATA_FIRST_CLUSTER, cluster_sector.
  rewrite (u32_id (c - 2)), (u32_id (g_fats g * g_spf g)), (u32_id (_ + _)), (u32_id ((c - 2) * _)) by lia.
  rewrite !u64_id by lia. f_equal.
Qed.
End geometry.

(** ** Whole directories *)
Section directory.
Context {D A : Type} `{BlockDevice D, !BlockDeviceOk D} (F : frame) (fuel : nat).
Context (cb : mem → A → Z → Z → outcome (mem * A * bool)).

Lemma iterate_directory_ok f g fatbuf m a c es : cb_frame F cb (dir_entries es (dirbuf F)) → geometry_ok f g → cluster_ok g c →
  dev_sector (bdev f) (cluster_sector g c) = Some (concat es) → dir_sector_ok es → 0 < dirbuf F → (16 < fuel)%nat →
  fat32_iterate_directory F fuel cb f fatbuf m a c
  = ('(m, a) ← run_cb cb (dir_entries es (dirbuf F)) (write_bytes m (dirbuf F) (concat es)) a;
     Ret (m, a, fatbuf, 0)).
Proof.
  intros Hcb Hg Hc Hs He Hpos Hf. unfold fat32_iterate_directory.
  rewrite (geo_ss _ _ Hg), bind_ret, (geo_spc _ _ Hg), bind_ret. destruct (geo_bounds _ _ Hg) as (_ & Bs & _).
  destruct fuel as [|n] eqn:En; [lia|]. rewrite <- En in *. cbn [loop] in *.
  rewrite En at 1. cbn [loop]. cbn [ci_valid cluster_it_init ci_cluster].
  rewrite (cl_sector_iter_ok f g), bind_ret by (done || lia).
  rewrite (loop_step _ fuel) by lia. destruct (Z.ltb_spec (cluster_sector g c) (cluster_sector g c + g_spc g)); [|lia].
  rewrite (dir_sector_visits F fuel cb f m a _ es) by done.
  by destruct (run_cb _ _ _) as [[m' a']| | |].
Qed.

(** C20: on a directory whose first sector holds an end mark,
    [fat32_iterate_directory] calls the callback exactly on the entries of the
    reference scan, in order, each with the first of its long-name entries, up
    to the end mark or to the first stop, and returns 0. *)
Theorem fat32_iterate_directory_visits f g fatbuf m a c es : cb_frame F cb (dir_entries es (dirbuf F)) → geometry_ok f g → cluster_ok g c →
  dev_sector (bdev f) (cluster_sector g c) = Some (concat es) → dir_sector_ok es → 0 < dirbuf F → (16 < fuel)%nat →
  fat32_iterate_directory F fuel cb f fatbuf m a c
  = ('(m, a) ← run_cb cb (dir_entries es (dirbuf F)) (write_bytes m (dirbuf F) (concat es)) a;
     Ret (m, a, fatbuf, 0)).
Proof. apply iterate_directory_ok. Qed.
End directory.

(** ** Cluster chains *)
Section chain.
Context {D : Type} `{BlockDevice D, !BlockDeviceOk D}.
Context (f : fat32_fs D) (g : geometry) (Hg : geometry_ok f g).

(** The FAT entry of cluster [c] is [v]. *)
Definition fat_entry (c v : Z) : Prop :=
  0 ≤ c < 2 ^ 32 ∧ ∃ l, dev_sector (bdev f) (g_reserved g + c / 128) = Some l ∧
    v = le_val (take 4 (drop (Z.to_nat (4 * (c mod 128))) l)).

Lemma next_cluster_ok fatbuf c v : fat_entry c v →
  fat32_get_next_cluster_num f fatbuf c =
  if g_spf g <? g_reserved g + c / 128 then Ret (FAT32_ENTRY_END_OF_CHAIN, fatbuf)
  else (l ← deref (dev_sector (bdev f) (g_reserved g + c / 128)); Ret (v, l ++ drop 512 fatbuf)).
Proof using Hg.
  intros (Hc & l & Hl & ->). destruct (dev_sector_size _ _ _ Hl) as [Hlen Hby].
  destruct (geo_bounds _ _ Hg) as (Br & _ & _ & Bp).
  unfold fat32_get_next_cluster_num. rewrite (geo_reserved _ _ Hg), bind_ret, (geo_ss _ _ Hg), bind_ret.
  change (Z.shiftr 512 FAT32_ENTRY_SIZE_LOG) with 128. change (128 =? 0) with false. cbv iota.
  rewrite u32_id by dlia. rewrite (geo_spf _ _ Hg), bind_ret.
  destruct (Z.ltb_spec (g_spf g) (g_reserved g + c / 128)); [done|].
  rewrite (dev_read_ok (bdev f) 512 _ l ltac:(lia) Hl), Hl. cbn [deref]. rewrite bind_ret, Hlen.
  change (1 <? 0) with false. cbv iota.
  assert (∀ t, get_unaligned_32_le (l ++ t) (4 * (c mod 128)) = get_unaligned_32_le l (4 * (c mod 128))) as Eapp.
  { intros t. unfold get_unaligned_32_le, GET_BYTE.
    assert (0 ≤ c mod 128 < 128) by dlia. rewrite !lookup_app_l by lia. done. }
  rewrite Eapp. destruct (get32_ok l (4 * (c mod 128)) Hby) as (v & -> & -> & _); [dlia..|]. done.
Qed.

(** for a cluster whose FAT entry is readable, [fat32_get_next_cluster_num]
    returns this entry when the entry's sector, counted from the start of the
    partition, is at most the sectors of one FAT; above it the cluster is
    reported as the end of its chain, although the FAT, which starts after the
    reserved sectors, reaches that many sectors further. *)
Theorem fat32_get_next_cluster_num_spec fatbuf c v : fat_entry c v →
  fat32_get_next_cluster_num f fatbuf c =
  if g_spf g <? g_reserved g + c / 128 then Ret (FAT32_ENTRY_END_OF_CHAIN, fatbuf)
  else (l ← deref (dev_sector (bdev f) (g_reserved g + c / 128)); Ret (v, l ++ drop 512 fatbuf)).
Proof using Hg. apply next_cluster_ok. Qed.

Definition is_eoc (v : Z) : bool := (v =? FAT32_ENTRY_END_OF_CHAIN) || (v =? FAT32_ENTRY_END_OF_CHAIN_ALT).

(** The clusters from [c] on, all with entries below the bound above. *)
Inductive chain : Z → list Z → Prop :=
| chain_last c v : cluster_ok g c → fat_entry c v → g_reserved g + c / 128 ≤ g_spf g → is_eoc v = true → chain c [c]
| chain_next c v cs : cluster_ok g c → fat_entry c v → g_reserved g + c / 128 ≤ g_spf g → is_eoc v = false →
    chain v cs → chain c (c :: cs).

Definition next_fatbuf (c : Z) (fb : list Z) : list Z :=
  default [] (dev_sector (bdev f) (g_reserved g + c / 128)) ++ drop 512 fb.

Lemma cluster_it_next_ok c fb v : fat_entry c v → g_reserved g + c / 128 ≤ g_spf g →
  cluster_it_next f (ClusterIt c true fb) = Ret (ClusterIt v (negb (is_eoc v)) (next_fatbuf c fb)).
Proof using Hg.
  intros He Hb. unfold cluster_it_next. cbn [ci_cluster ci_fatbuf ci_valid]. rewrite (next_cluster_ok _ _ _ He).
  destruct (Z.ltb_spec (g_spf g) (g_reserved g + c / 128)); [lia|]. unfold next_fatbuf.
  destruct He as (_ & l & Hl & _). rewrite Hl. cbn [deref]. rewrite !bind_ret. fold (is_eoc v). by destruct (is_eoc v).
Qed.

(** ** The sectors of a file *)
Context {A : Type} (cb : A → Z → Z → outcome (A * bool)).

(** [n] sectors from [s] on, of cluster [c]. *)
Fixpoint sectors (c s : Z) (n : nat) : list (Z * Z) :=
  match n with O => [] | S n => (c, s) :: sectors c (s + 1) n end.

(** The first [n] sectors of the clusters [cs]. *)
Definition file_sectors (cs : list Z) (n : nat) : list (Z * Z) :=
  take n (concat (map (λ c, sectors c (cluster_sector g c) (Z.to_nat (g_spc g))) cs)).

(** The reference: the callback on the sectors in order until it stops. *)
Fixpoint run_sectors (l : list (Z * Z)) (a : A) : outcome (A * bool) :=
  match l with
  | [] => Ret (a, false)
  | (c, s) :: l => '(a, r) ← cb a c s; if (r : bool) then Ret (a, true) else run_sectors l a
  end.

Lemma run_sectors_app l1 l2 a :
  run_sectors (l1 ++ l2) a = ('(a, r) ← run_sectors l1 a; if (r : bool) then Ret (a, true) else run_sectors l2 a).
Proof using.
  revert a; induction l1 as [|[c s] l1 IH]; intros a; cbn; [done|].
  destruct (cb a c s) as [[a' []]| | |]; try done. cbn. apply IH.
Qed.

Lemma sectors_length c s n : length (sectors c s n) = n.
Proof using. revert s; induction n; intros s; cbn; auto. Qed.

Lemma sectors_take c s n k : take k (sectors c s n) = sectors c s (Nat.min k n).
Proof using. revert s n; induction k as [|k IH]; intros s [|n]; cbn; try done. by rewrite IH. Qed.

Lemma sector_loop_ok fuel n c s e a : e = s + Z.of_nat n → (n < fuel)%nat →
  loop fuel (λ '(a, s),
    if s <? e then
      '(a, r) ← cb a c s;
      if (r : bool) then Ret (inr (a, true)) else Ret (inl (a, s + 1))
    else Ret (inr (a, false))) (a, s) = run_sectors (sectors c s n) a.
Proof using.
  intros ->. revert fuel s a. induction n as [|n IH]; intros [|fuel] s a Hf; try lia; cbn [loop sectors run_sectors].
  - destruct (Z.ltb_spec s (s + Z.of_nat 0)); [lia|done].
  - destruct (Z.ltb_spec s (s + Z.of_nat (S n))); [|lia].
    destruct (cb a c s) as [[a' []]| | |]; try done. rewrite !bind_ret.
    replace (s + Z.of_nat (S n)) with (s + 1 + Z.of_nat n) by lia. apply IH. lia.
Qed.

Lemma file_step_ok fuel c v a fb k : cluster_ok g c → fat_entry c v → g_reserved g + c / 128 ≤ g_spf g →
  (256 < fuel)%nat → 0 < k < 2 ^ 32 →
  file_sectors_step fuel f (g_spc g) cb (a, ClusterIt c true fb, k) =
  ('(a, r) ← run_sectors (sectors c (cluster_sector g c) (Z.to_nat (Z.min (g_spc g) k))) a;
   Ret (if (r : bool) then inr (a, ERR_OK)
        else inl (a, ClusterIt v (negb (is_eoc v)) (next_fatbuf c fb), k - Z.min (g_spc g) k))).
Proof using Hg.
  intros Hc He Hb Hf Hk. destruct (geo_bounds _ _ Hg) as (Br & Bs & _ & Bp). unfold file_sectors_step.
  assert (truth k = true) as -> by (unfold truth; destruct (Z.eqb_spec k 0); [lia|done]). cbn [ci_valid andb].
  assert ((if g_spc g <? k then g_spc g else k) = Z.min (g_spc g) k) as -> by (zcases; lia).
  cbn [ci_cluster]. rewrite (cl_sector_iter_ok f g), bind_ret by (done || lia).
  rewrite (sector_loop_ok fuel (Z.to_nat (Z.min (g_spc g) k))) by lia.
  destruct (run_sectors _ _) as [[a' []]| | |]; try done. rewrite !bind_ret.
  rewrite (cluster_it_next_ok c fb v), bind_ret by done. by rewrite u32_id by lia.
Qed.

Lemma file_step_invalid fuel a v fb k :
  file_sectors_step fuel f (g_spc g) cb (a, ClusterIt v false fb, k) = Ret (inr (a, ERR_OK)).
Proof using. unfold file_sectors_step. cbn [ci_valid]. by rewrite andb_false_r. Qed.

Lemma file_loop_ok fuel c cs : chain c cs → (256 < fuel)%nat → ∀ n a k fb, (length cs < n)%nat → 0 ≤ k < 2 ^ 32 →
  loop n (file_sectors_step fuel f (g_spc g) cb) (a, ClusterIt c true fb, k)
  = ('(a, _) ← run_sectors (file_sectors cs (Z.to_nat k)) a; Ret (a, ERR_OK)).
Proof using Hg.
  intros Hch Hf. destruct (geo_bounds _ _ Hg) as (Br & Bs & _ & Bp).
  assert (∀ n a ci, (0 < n)%nat → loop n (file_sectors_step fuel f (g_spc g) cb) (a, ci, 0) = Ret (a, ERR_OK)) as Hz
    by (intros [|n] a ci Hn; [lia|done]).
  assert (∀ c rest k a, 0 < k → run_sectors (file_sectors (c :: rest) (Z.to_nat k)) a =
    ('(a, r) ← run_sectors (sectors c (cluster_sector g c) (Z.to_nat (Z.min (g_spc g) k))) a;
         if (r : bool) then Ret (a, true) else run_sectors (file_sectors rest (Z.to_nat (k - Z.min (g_spc g) k))) a)) as Hrun.
  { intros c' rest k a Hk. unfold file_sectors. cbn [map concat].
    rewrite take_app, sectors_take, sectors_length, run_sectors_app. replace (Nat.min (Z.to_nat k) (Z.to_nat (g_spc g))) with (Z.to_nat (Z.min (g_spc g) k)) by lia.
    by replace (Z.to_nat k - Z.to_nat (g_spc g))%nat with (Z.to_nat (k - Z.min (g_spc g) k)) by lia. }
  induction Hch as [c v Hc He Hb Hv|c v cs Hc He Hb Hv Hch IH]; intros n a k fb Hn Hk;
    (destruct (Z.eq_dec k 0) as [->|Hk0]; [by rewrite Hz by lia|]);
    (destruct n as [|n]; [cbn in Hn; lia|]); cbn [loop length] in *;
    rewrite (file_step_ok fuel c v) by (done || lia); rewrite Hrun, Hv by lia;
    destruct (run_sectors (sectors _ _ _) a) as [[a' []]| | |]; try done; rewrite !bind_ret; cbn [negb].
  - destruct n as [|n]; [lia|]. cbn [loop]. rewrite file_step_invalid, bind_ret.
    unfold file_sectors. cbn. by rewrite take_nil.
  - apply IH; lia.
Qed.

(** C10: on a file whose cluster chain is readable, [fat32_iterate_file_sectors]
    calls the callback exactly on the first [ceil(size / 512)] sectors of the
    chain, in order and with their clusters, until the callback stops or the
    chain ends, and returns 0. *)
Theorem fat32_iterate_file_sectors_visits fuel fatbuf m d e cs a :
  bytes_at m d e → length e = 32%nat → is_bytes e → e_size e + 511 < 2 ^ 32 →
  chain (e_cluster e) cs → (256 < fuel)%nat → (length cs < fuel)%nat →
  fat32_iterate_file_sectors fuel f fatbuf m d cb a
  = ('(a, _) ← run_sectors (file_sectors cs (Z.to_nat ((e_size e + 511) / 512))) a; Ret (a, ERR_OK)).
Proof using Hg.
  intros Hb Hl Hby Hsz Hch Hf Hf'. unfold fat32_iterate_file_sectors.
  rewrite (geo_ss _ _ Hg), bind_ret, (geo_spc _ _ Hg), bind_ret, (size_entry _ _ _ Hb Hl Hby), bind_ret.
  change (512 =? 0) with false. cbv iota. rewrite (cluster_entry _ _ _ Hb Hl Hby), bind_ret.
  assert (0 ≤ e_size e) as H0.
  { destruct (get32_ok e 28 Hby) as (v & _ & Hv & Hr); [lia..|]. unfold e_size. change (Z.to_nat 28) with 28%nat in Hv. lia. }
  replace (e_size e + 512 - 1) with (e_size e + 511) by lia. rewrite u32_id by lia.
  apply file_loop_ok; [done..|]. dlia.
Qed.
End chain.

(** ** Looking up a name *)

(** What follows the first element of a path: nothing or a slash. *)
Definition path_rest (rest : list Z) : Prop := rest = [] ∨ head rest = Some 47.

Lemma rest_head m q rest : cstr m q rest → path_rest rest →
  ∃ c, load8 m q = Ret c ∧ truth c && negb (c =? 47) = false.
Proof.
  intros Hs [->|Hr].
  - apply cstr_nil in Hs. exists 0. by rewrite (load8_at _ _ _ Hs).
  - destruct rest as [|c r]; [done|]. cbn in Hr. injection Hr as ->. apply cstr_cons in Hs as (Hc & _).
    exists 47. by rewrite (load8_at _ _ _ Hc).
Qed.

Lemma next_element_ok name rest m p fuel : cstr m p (name ++ rest) → Forall (λ c, c ≠ 47) name →
  path_rest rest → (length name < fuel)%nat →
  filepath_get_next_element fuel m p = Ret (Z.of_nat (length name), p + Z.of_nat (length name)).
Proof.
  intros Hs Hn Hr Hf. unfold filepath_get_next_element.
  assert (∀ name q n, cstr m q (name ++ rest) → Forall (λ c, c ≠ 47) name → (length name < n)%nat →
    loop n (λ p, c ← load8 m p; if truth c && negb (c =? 47) then Ret (inl (p + 1)) else Ret (inr p)) q
    = Ret (q + Z.of_nat (length name))) as H.
  { clear -Hr. induction name as [|c name IH]; intros q n Hs Hn Hf; (destruct n as [|n]; [cbn in Hf; lia|]);
      cbn [loop length app] in *.
    - destruct (rest_head m q rest Hs Hr) as (c & -> & Hc). rewrite bind_ret, Hc, bind_ret. f_equal. lia.
    - apply cstr_cons in Hs as (Hc & Hc0 & Hs). apply Forall_cons in Hn as [Hc47 Hn].
      rewrite (load8_at _ _ _ Hc), bind_ret. unfold truth. destruct (Z.eqb_spec c 0); [lia|].
      destruct (Z.eqb_spec c 47); [done|]. cbn [negb andb]. rewrite bind_ret, IH by (done || lia). f_equal. lia. }
  rewrite (H name p fuel), bind_ret by done. do 2 f_equal. lia.
Qed.

Lemma pad_to_prefix name rest : pad_to (length name) (name ++ rest) = name.
Proof. unfold pad_to. rewrite <- app_assoc. by rewrite take_app_length. Qed.

(** The copy of a path element into the name buffer. *)
Lemma copy_element fuel m q p name rest : cstr m p (name ++ rest) →
  mapped m q (Z.of_nat (S (length name))) →
  p + Z.of_nat (S (length (name ++ rest))) ≤ q ∨ q + Z.of_nat (S (length name)) ≤ p → (length name < fuel)%nat →
  (m ← strncpy fuel m q p (Z.of_nat (length name)); store8 m (q + Z.of_nat (length name)) 0)
  = Ret (write_bytes m q (name ++ [0])).
Proof.
  intros Hs Hm Hd Hf. rewrite (strncpy_ok fuel m q p _ (length name) Hs); [|intros x Hx; apply Hm; lia|lia|lia].
  rewrite bind_ret, pad_to_prefix, store8_write; [|lia|].
  - by rewrite write_bytes_app.
  - apply (write_bytes_mapped m q name _ _ Hm). lia.
Qed.

Section lookup.
Context {D : Type} `{BlockDevice D, !BlockDeviceOk D}.

(** looking up a name in a root directory whose scan shows no entry (an
    empty directory, or one with only deleted entries and subdirectories, whose
    size is 0) returns 0, the code of success; the memory differs from the one
    before the call only in the two local buffers, so the caller's entry is not
    filled in. *)
Theorem fat32_lookup_missing_succeeds F fuel (f : fat32_fs D) g fatbuf m filepath out_dentry name rest es :
  geometry_ok f g → cluster_ok g (g_root g) → dev_sector (bdev f) (cluster_sector g (g_root g)) = Some (concat es) →
  dir_sector_ok es → dir_entries es (dirbuf F) = [] → 0 < dirbuf F →
  cstr m filepath (47 :: name ++ rest) → name ≠ [] → Forall (λ c, c ≠ 47) name → path_rest rest →
  mapped m (lookup_namebuf F) (Z.of_nat (S (length name))) →
  filepath + Z.of_nat (2 + length (name ++ rest)) ≤ lookup_namebuf F ∨
    lookup_namebuf F + Z.of_nat (S (length name)) ≤ filepath →
  (16 < fuel)%nat → (length name < fuel)%nat →
  fat32_lookup F fuel f fatbuf m filepath out_dentry
  = Ret (write_bytes (write_bytes m (lookup_namebuf F) (name ++ [0])) (dirbuf F) (concat es), fatbuf, 0).
Proof.
  intros Hg Hroot Hs He Hnone Hpos Hp Hne Hn47 Hr Hm Hd Hf Hf'. apply cstr_cons in Hp as (Hp0 & _ & Hp).
  unfold fat32_lookup. rewrite (load8_at _ _ _ Hp0), bind_ret. change (negb (truth 47) || negb (47 =? 47)) with false.
  cbv iota. rewrite (geo_root _ _ Hg), bind_ret. rewrite (loop_step _ fuel) by lia.
  rewrite (next_element_ok name rest), bind_ret by done.
  assert (0 < length name)%nat by (destruct name; [done|cbn; lia]).
  assert (truth (Z.of_nat (length name)) = true) as -> by (unfold truth; destruct (Z.eqb_spec (Z.of_nat (length name)) 0); [lia|done]).
  cbn [negb]. rewrite Z.add_simpl_r.
  pose proof (copy_element fuel m (lookup_namebuf F) (filepath + 1) name rest Hp Hm ltac:(lia) Hf') as Ec.
  apply bind_inv in Ec as (m1 & -> & E2). rewrite bind_ret, E2, bind_ret.
  assert (cstr (write_bytes m (lookup_namebuf F) (name ++ [0])) (filepath + 1) (name ++ rest)) as Hp2
    by (apply cstr_write; [done|rewrite ?length_app in *; cbn [length]; lia]).
  destruct Hp2 as [Hb2 Hpos2]. rewrite <- app_assoc in Hb2. apply bytes_at_app in Hb2 as [_ Hb2].
  apply Forall_app in Hpos2 as [_ Hpos2].
  destruct (rest_head _ _ rest (conj Hb2 Hpos2) Hr) as (c & -> & _). rewrite bind_ret.
  rewrite (iterate_directory_ok F fuel _ f g fatbuf _ _ _ es); [|rewrite Hnone; by intros ? ? ?%not_elem_of_nil|done..].
  rewrite Hnone. cbn [run_cb]. rewrite !bind_ret. done.
Qed.
End lookup.

(** ** Witnesses

    A disk with one reserved sector, one FAT of two sectors, clusters of one
    sector and the root directory in cluster 2; it holds one file of 600 bytes in
    the clusters 3 and 4. *)
Definition set_bytes (l : list (nat * Z)) (n : nat) : list Z := foldr (λ p b, <[p.1 := p.2]> b) (replicate n 0) l.
Definition demo_boot : list Z :=
  set_bytes [(12%nat, 2); (13%nat, 1); (14%nat, 1); (16%nat, 1); (36%nat, 2); (44%nat, 2)] 512.
Definition demo_entry : list Z := set_bytes [(0%nat, 65); (26%nat, 3); (28%nat, 88); (29%nat, 2)] 32.
Definition demo_dir : list (list Z) := demo_entry :: replicate 15 (replicate 32 0).
Definition demo_empty : list (list Z) := replicate 16 (replicate 32 0).
Definition demo_fat : list Z :=
  set_bytes [(12%nat, 4); (16%nat, 255); (17%nat, 255); (18%nat, 255); (19%nat, 15)] 512.
Definition demo_disk (dir : list (list Z)) : ramdisk := <[3 := concat dir]> (<[1 := demo_fat]> ∅).
Definition demo_fs (dir : list (list Z)) : fat32_fs ramdisk := Fat32Fs (demo_disk dir) demo_boot.
Definition demo_geometry : geometry := Geometry 1 1 1 2 2.
Definition demo_frame : frame := Frame 1000 2000 3000 4000.

Lemma demo_entry_bytes : is_bytes demo_entry.
Proof. unfold is_bytes. apply (bool_decide_unpack _). vm_compute. done. Qed.

Lemma demo_geometry_ok dir : geometry_ok (demo_fs dir) demo_geometry.
Proof. by split. Qed.

Lemma demo_dirs_ok : dir_sector_ok demo_dir ∧ dir_sector_ok demo_empty.
Proof.
  assert (∀ n, Forall (λ e, length e = 32%nat ∧ is_bytes e) (replicate n (replicate 32 0))) as Hz.
  { intros n. apply Forall_replicate. split; [done|]. apply Forall_replicate. lia. }
  split; (split; [|by left]).
  - constructor; [|apply Hz]. split; [done|exact demo_entry_bytes].
  - apply (Hz 16%nat).
Qed.

(** Witness: the callback counts one entry. *)
Lemma fat32_iterate_directory_visits_witness :
  fat32_iterate_directory demo_frame 257 (λ m a d le, Ret (m, a + 1, false)) (demo_fs demo_dir) [] ∅ 0 2
  = Ret (write_bytes ∅ 1000 (concat demo_dir), 1, [], 0).
Proof.
  rewrite (fat32_iterate_directory_visits demo_frame 257 (λ m a d le, Ret (m, a + 1, false)) (demo_fs demo_dir)
    demo_geometry [] ∅ 0 2 demo_dir).
  - assert (dir_entries demo_dir (dirbuf demo_frame) = [(1000, 0)]) as -> by (vm_compute; reflexivity). reflexivity.
  - intros d le _ m a m' a' stop [= <- _ _]. done.
  - apply demo_geometry_ok.
  - done.
  - vm_compute. reflexivity.
  - apply demo_dirs_ok.
  - done.
  - apply Nat.ltb_lt. reflexivity.
Defined.

Lemma demo_fat_entry c v : c = 3 ∧ v = 4 ∨ c = 4 ∧ v = 0x0fffffff → fat_entry (demo_fs demo_dir) demo_geometry c v.
Proof. intros [[-> ->]|[-> ->]]; (split; [lia|]); exists demo_fat; split; vm_compute; reflexivity. Qed.

(** Witness: cluster 3 is followed by cluster 4. *)
Lemma fat32_get_next_cluster_num_spec_witness :
  fat32_get_next_cluster_num (demo_fs demo_dir) [] 3 = Ret (4, demo_fat).
Proof.
  rewrite (fat32_get_next_cluster_num_spec (demo_fs demo_dir) demo_geometry (demo_geometry_ok _) [] 3 4);
    [vm_compute; reflexivity|].
  apply demo_fat_entry. by left.
Defined.

(** Witness: the file's two sectors are 4 and 5. *)
Lemma fat32_iterate_file_sectors_visits_witness :
  fat32_iterate_file_sectors 257 (demo_fs demo_dir) [] (mem_of 1000 demo_entry) 1000
    (λ (a : list (Z * Z)) c s, Ret (a ++ [(c, s)], false)) [] = Ret ([(3, 4); (4, 5)], 0).
Proof.
  rewrite (fat32_iterate_file_sectors_visits (demo_fs demo_dir) demo_geometry (demo_geometry_ok _)
    (λ (a : list (Z * Z)) c s, Ret (a ++ [(c, s)], false)) 257 [] (mem_of 1000 demo_entry) 1000 demo_entry [3; 4] []).
  - vm_compute. reflexivity.
  - apply mem_of_bytes.
  - done.
  - exact demo_entry_bytes.
  - done.
  - apply (chain_next _ _ 3 4 [4]); [done|apply demo_fat_entry; by left|done|done|].
    apply (chain_last _ _ 4 0x0fffffff); [done|apply demo_fat_entry; by right|done|done].
  - apply Nat.ltb_lt. reflexivity.
  - apply Nat.ltb_lt. reflexivity.
Defined.

(** Witness: looking up "/a" in the empty directory. *)
Lemma fat32_lookup_missing_succeeds_witness : ∃ m,
  fat32_lookup demo_frame 257 (demo_fs demo_empty) [] (write_bytes (mem_of 10 [47; 97; 0]) 3000 [0; 0]) 10 20
  = Ret (m, [], 0).
Proof.
  eexists. apply (fat32_lookup_missing_succeeds demo_frame 257 (demo_fs demo_empty) demo_geometry [] _ 10 20 [97] [] demo_empty).
  - apply demo_geometry_ok.
  - done.
  - vm_compute. reflexivity.
  - apply demo_dirs_ok.
  - vm_compute. reflexivity.
  - done.
  - apply cstr_write; [|cbn; lia]. cbn [app]. rewrite !cstr_cons, cstr_nil. repeat split.
  - done.
  - by repeat constructor.
  - by left.
  - intros q Hq. cbn in Hq. rewrite write_bytes_lookup, decide_True by (cbn; lia).
    apply lookup_lt_is_Some_2. cbn. lia.
  - cbn. lia.
  - apply Nat.ltb_lt. reflexivity.
  - apply Nat.ltb_lt. reflexivity.
Defined.
