(* ===== verification/Rectangle.v ===== *)
(** * Rectangles (rectangle.c, include/rectangle.h)

    Clipping of segments and the 3 x 3 regions of a rectangle cut by a boundary
    rectangle. *)

From S2P Require Import Prelude.

(** [int offset; unsigned size]. *)
Record segment := Segment { offset : Z; size : Z }.
Record rect := Rect { rx : segment; ry : segment }.

(** Sums of an [int] and an [unsigned] are unsigned, and so are the
    comparisons. *)
Definition clip_segment (s0 s1 : segment) : Z * segment :=
  if (u32 (offset s1) <? u32 (offset s0 + size s0)) || (u32 (offset s1 + size s1) <? u32 (offset s0))
  then (-1, s0)
  else if offset s1 <? offset s0 then
    (1, if u32 (offset s1 + size s1) <? u32 (offset s0 + size s0)
        then Segment (offset s0) (u32 (offset s1 + size s1 - offset s0)) else s0)
  else if offset s0 <? offset s1 then
    (1, Segment (offset s1) (u32 (size s0 - (offset s1 - offset s0))))
  else (0, s0).

Record region := Region { rgn : rect; exists_ : bool }.

(** [intersection_regions_t]: the nine regions, [rgs[y * 3 + x]]. *)
Abbreviation regions := (list region).

Definition RGN (x y : nat) : nat := (y * 3 + x)%nat.
Definition zero_region : region := Region (Rect (Segment 0 0) (Segment 0 0)) false.
Definition get_rgn (rs : regions) (x y : nat) : region := default zero_region (rs !! RGN x y).

(** Writes to one field of a region. *)
Definition upd (f : region → region) (x y : nat) (rs : regions) : regions := alter f (RGN x y) rs.
Definition set_x (v : segment) (r : region) : region := Region (Rect v (ry (rgn r))) (exists_ r).
Definition set_y (v : segment) (r : region) : region := Region (Rect (rx (rgn r)) v) (exists_ r).
Definition set_exists (b : bool) (r : region) : region := Region (rgn r) b.

(** The column [x] is outside to the left or right, over [o, o + sz). *)
Definition cut_column (x : nat) (o sz : Z) (rs : regions) : regions :=
  upd (set_x (Segment o sz)) x 0 (upd (set_x (Segment o sz)) x 1 (upd (set_x (Segment o sz)) x 2
    (upd (set_exists true) x 0 (upd (set_exists true) x 1 (upd (set_exists true) x 2 rs))))).

(** The y segments of row [y]. *)
Definition cut_row (y : nat) (o sz : Z) (rs : regions) : regions :=
  upd (set_y (Segment o sz)) 0 y (upd (set_y (Segment o sz)) 1 y (upd (set_y (Segment o sz)) 2 y rs)).

Definition drop_row (y : nat) (rs : regions) : regions :=
  upd (set_exists false) 0 y (upd (set_exists false) 1 y (upd (set_exists false) 2 y rs)).

(** [RCT(1,1)->x.offset += d_off; RCT(1,1)->x.size -= d_size] and the same for y. *)
Definition shrink_x (d_off d_size : Z) (rs : regions) : regions :=
  upd (λ r, set_x (Segment (s32 (offset (rx (rgn r)) + d_off)) (u32 (size (rx (rgn r)) - d_size))) r) 1 1 rs.
Definition shrink_y (d_off d_size : Z) (rs : regions) : regions :=
  upd (λ r, set_y (Segment (s32 (offset (ry (rgn r)) + d_off)) (u32 (size (ry (rgn r)) - d_size))) r) 1 1 rs.

(** The result 0 leaves [rs] alone. *)
Definition get_intersection_regions (r0 r1 : rect) (rs : regions) : Z * regions :=
  let r0x0 := offset (rx r0) in
  let r0y0 := offset (ry r0) in
  let r1x0 := offset (rx r1) in
  let r1y0 := offset (ry r1) in
  let r0x1 := s32 (r0x0 + s32 (size (rx r0))) in
  let r0y1 := s32 (r0y0 + s32 (size (ry r0))) in
  let r1x1 := s32 (r1x0 + s32 (size (rx r1))) in
  let r1y1 := s32 (r1y0 + s32 (size (ry r1))) in
  if (r0x1 <=? r1x0) || (r1x1 <=? r0x0) || (r0y1 <=? r1y0) || (r1y1 <=? r0y0) then (0, rs) else
  let rs := replicate 9 zero_region in
  let rs := upd (set_exists true) 1 1 rs in
  let rs := upd (set_y (ry r0)) 1 1 (upd (set_x (rx r0)) 1 1 rs) in
  let rs := upd (set_x (rx r0)) 1 2 (upd (set_x (rx r0)) 1 0 rs) in
  let rs := upd (set_y (ry r0)) 0 1 (upd (set_y (ry r0)) 2 1 rs) in
  let rs := if r0x0 <? r1x0 then
              let rs := cut_column 0 r0x0 (u32 (r1x0 - r0x0)) rs in
              let d := size (rx (rgn (get_rgn rs 0 0))) in shrink_x d d rs
            else rs in
  let rs := if r1x1 <? r0x1 then
              let rs := cut_column 2 r1x1 (u32 (r0x1 - r1x1)) rs in
              shrink_x 0 (size (rx (rgn (get_rgn rs 2 0)))) rs
            else rs in
  let rs := if r0y0 <? r1y0 then
              let rs := cut_row 0 r0y0 (u32 (r1y0 - r0y0)) rs in
              let rs := upd (set_exists true) 1 0 rs in
              let d := size (ry (rgn (get_rgn rs 0 0))) in shrink_y d d rs
            else drop_row 0 rs in
  let rs := if r1y1 <? r0y1 then
              let rs := cut_row 2 r1y1 (u32 (r0y1 - r1y1)) rs in
              let rs := shrink_y 0 (size (ry (rgn (get_rgn rs 1 2)))) rs in
              upd (set_exists true) 1 2 rs
            else drop_row 2 rs in
  (1, rs).

(** ** Points *)
Definition in_seg (p : Z) (s : segment) : bool := (offset s <=? p) && (p <? offset s + size s).
Definition in_rect (x y : Z) (r : rect) : bool := in_seg x (rx r) && in_seg y (ry r).
Definition in_region (x y : Z) (r : region) : bool := exists_ r && in_rect x y (rgn r).

(** Rectangles within the range of [int]. *)
Definition seg_ok (s : segment) : Prop := - 2 ^ 31 ≤ offset s ∧ 0 ≤ size s < 2 ^ 31 ∧ offset s + size s < 2 ^ 31.
Definition rect_ok (r : rect) : Prop := seg_ok (rx r) ∧ seg_ok (ry r).

(** The part of [[a0, a1)] inside [[b0, b1)], as the code cuts it. *)
Definition inner (s0 s1 : segment) : segment :=
  let a0 := offset s0 in let a1 := a0 + size s0 in let b0 := offset s1 in let b1 := b0 + size s1 in
  Segment (Z.max a0 b0) (Z.min a1 b1 - Z.max a0 b0).

(** The nine regions, in closed form: the corners and the left and right columns
    as the boundary cuts them, the middle column with the whole width and the
    side regions with the whole height of [r0]. *)
Definition regions_spec (r0 r1 : rect) : regions :=
  let x0 := offset (rx r0) in let x1 := x0 + size (rx r0) in
  let y0 := offset (ry r0) in let y1 := y0 + size (ry r0) in
  let bx0 := offset (rx r1) in let bx1 := bx0 + size (rx r1) in
  let by0 := offset (ry r1) in let by1 := by0 + size (ry r1) in
  let left := x0 <? bx0 in let right := bx1 <? x1 in let top := y0 <? by0 in let bottom := by1 <? y1 in
  let L := if left then Segment x0 (bx0 - x0) else Segment 0 0 in
  let R := if right then Segment bx1 (x1 - bx1) else Segment 0 0 in
  let T := if top then Segment y0 (by0 - y0) else Segment 0 0 in
  let B := if bottom then Segment by1 (y1 - by1) else Segment 0 0 in
  [Region (Rect L T) (left && top); Region (Rect (rx r0) T) top; Region (Rect R T) (right && top);
   Region (Rect L (ry r0)) left; Region (Rect (inner (rx r0) (rx r1)) (inner (ry r0) (ry r1))) true;
   Region (Rect R (ry r0)) right;
   Region (Rect L B) (left && bottom); Region (Rect (rx r0) B) bottom; Region (Rect R B) (right && bottom)].

Lemma regions_closed_form r0 r1 rs : rect_ok r0 → rect_ok r1 →
  offset (rx r1) < offset (rx r0) + size (rx r0) → offset (rx r0) < offset (rx r1) + size (rx r1) →
  offset (ry r1) < offset (ry r0) + size (ry r0) → offset (ry r0) < offset (ry r1) + size (ry r1) →
  get_intersection_regions r0 r1 rs = (1, regions_spec r0 r1).
Proof.
  destruct r0 as [[x0 w0] [y0 h0]], r1 as [[x1 w1] [y1 h1]]. unfold rect_ok, seg_ok. cbn [rx ry offset size].
  intros (Hx0 & Hy0) (Hx1 & Hy1) H1 H2 H3 H4. unfold get_intersection_regions. cbn [rx ry offset size].
  rewrite !(s32_id w0), !(s32_id h0), !(s32_id w1), !(s32_id h1) by lia.
  rewrite !(s32_id (x0 + w0)), !(s32_id (y0 + h0)), !(s32_id (x1 + w1)), !(s32_id (y1 + h1)) by lia.
  destruct (Z.leb_spec (x0 + w0) x1); [lia|]. destruct (Z.leb_spec (x1 + w1) x0); [lia|].
  destruct (Z.leb_spec (y0 + h0) y1); [lia|]. destruct (Z.leb_spec (y1 + h1) y0); [lia|]. cbn [orb].
  unfold regions_spec, inner. cbn [rx ry offset size].
  destruct (Z.ltb_spec x0 x1), (Z.ltb_spec (x1 + w1) (x0 + w0)), (Z.ltb_spec y0 y1), (Z.ltb_spec (y1 + h1) (y0 + h0)).
  all: unfold cut_column, cut_row, drop_row, shrink_x, shrink_y, upd, set_x, set_y, set_exists, get_rgn, RGN.
  all: cbn; repeat f_equal; unwrap; lia.
Qed.

(** Two rectangles that the code takes to be apart. *)
Lemma no_intersection r0 r1 rs : rect_ok r0 → rect_ok r1 →
  offset (rx r0) + size (rx r0) ≤ offset (rx r1) ∨ offset (rx r1) + size (rx r1) ≤ offset (rx r0) ∨
  offset (ry r0) + size (ry r0) ≤ offset (ry r1) ∨ offset (ry r1) + size (ry r1) ≤ offset (ry r0) →
  get_intersection_regions r0 r1 rs = (0, rs).
Proof.
  destruct r0 as [[x0 w0] [y0 h0]], r1 as [[x1 w1] [y1 h1]]. unfold rect_ok, seg_ok. cbn [rx ry offset size].
  intros (Hx0 & Hy0) (Hx1 & Hy1) H. unfold get_intersection_regions. cbn [rx ry offset size].
  rewrite !(s32_id w0), !(s32_id h0), !(s32_id w1), !(s32_id h1) by lia.
  rewrite !(s32_id (x0 + w0)), !(s32_id (y0 + h0)), !(s32_id (x1 + w1)), !(s32_id (y1 + h1)) by lia.
  assert ((x0 + w0 <=? x1) || (x1 + w1 <=? x0) || (y0 + h0 <=? y1) || (y1 + h1 <=? y0) = true) as ->; [|done].
  rewrite !orb_true_iff, !Z.leb_le. lia.
Qed.

(** In each direction a point of [r0] is left of, inside, or right of the
    boundary. *)
Lemma in_seg_split p s0 s1 : in_seg p s0 = true →
  in_seg p s1 = negb ((offset s0 <? offset s1) && in_seg p (Segment (offset s0) (offset s1 - offset s0)))
             && negb ((offset s1 + size s1 <? offset s0 + size s0) &&
                      in_seg p (Segment (offset s1 + size s1) (offset s0 + size s0 - (offset s1 + size s1)))).
Proof. unfold in_seg. cbn [offset size]. rewrite andb_true_iff, Z.leb_le, Z.ltb_lt. intros H. zcases; cbn; lia || done. Qed.

Lemma in_inner p s0 s1 : in_seg p (inner s0 s1) = in_seg p s0 && in_seg p s1.
Proof. unfold in_seg, inner. cbn [offset size]. zcases; cbn; lia || done. Qed.

(** The segment left of the boundary, where it exists, is in [s0] and outside
    [s1]; so is the one to its right. *)
Lemma left_seg p s0 s1 : seg_ok s1 → offset s1 < offset s0 + size s0 →
  (offset s0 <? offset s1) && in_seg p (Segment (offset s0) (offset s1 - offset s0)) = true →
  in_seg p s0 = true ∧ in_seg p s1 = false.
Proof.
  unfold seg_ok, in_seg. cbn [offset size]. rewrite !andb_true_iff, !Z.leb_le, !Z.ltb_lt, andb_false_iff, Z.leb_gt.
  intros. lia.
Qed.

Lemma right_seg p s0 s1 : offset s0 < offset s1 + size s1 →
  (offset s1 + size s1 <? offset s0 + size s0) &&
    in_seg p (Segment (offset s1 + size s1) (offset s0 + size s0 - (offset s1 + size s1))) = true →
  in_seg p s0 = true ∧ in_seg p s1 = false.
Proof.
  unfold in_seg. cbn [offset size]. rewrite !andb_true_iff, !Z.leb_le, !Z.ltb_lt, andb_false_iff, Z.ltb_ge.
  intros. lia.
Qed.

Lemma in_seg_if p b s : in_seg p (if b : bool then s else Segment 0 0) = b && in_seg p s.
Proof. destruct b; [done|]. unfold in_seg. cbn. destruct (Z.leb_spec 0 p), (Z.ltb_spec p 0); done || lia. Qed.

(** Where a point is along one axis: in [r0], in [r1], in the part before and in
    the part after the boundary. *)
Record axis := Axis { a_in : bool; a_bound : bool; a_before : bool; a_after : bool }.

Definition axis_of (p : Z) (s0 s1 : segment) : axis := Axis (in_seg p s0) (in_seg p s1)
  ((offset s0 <? offset s1) && in_seg p (Segment (offset s0) (offset s1 - offset s0)))
  ((offset s1 + size s1 <? offset s0 + size s0) &&
    in_seg p (Segment (offset s1 + size s1) (offset s0 + size s0 - (offset s1 + size s1)))).

Definition axis_ok (a : axis) : bool :=
  implb (a_in a) (eqb (a_bound a) (negb (a_before a) && negb (a_after a))) &&
  implb (a_before a) (a_in a && negb (a_bound a)) && implb (a_after a) (a_in a && negb (a_bound a)).

Lemma axis_of_ok p s0 s1 : seg_ok s1 → offset s1 < offset s0 + size s0 → offset s0 < offset s1 + size s1 →
  axis_ok (axis_of p s0 s1) = true.
Proof.
  intros H1 Ha Hb. unfold axis_ok, axis_of. cbn [a_in a_bound a_before a_after].
  pose proof (in_seg_split p s0 s1) as S. pose proof (left_seg p s0 s1 H1 Ha) as L. pose proof (right_seg p s0 s1 Hb) as R.
  revert S L R. generalize (in_seg p s0), (in_seg p s1). intros X X'.
  generalize ((offset s0 <? offset s1) && in_seg p (Segment (offset s0) (offset s1 - offset s0))).
  generalize ((offset s1 + size s1 <? offset s0 + size s0) &&
    in_seg p (Segment (offset s1 + size s1) (offset s0 + size s0 - (offset s1 + size s1)))).
  intros [] [] S L R; destruct X, X'; cbn in *;
    repeat match goal with H : _ = _ → _ |- _ => specialize (H eq_refl) end; naive_solver.
Qed.

(** Membership in the nine regions, by the axes. *)
Lemma in_regions_spec x y r0 r1 :
  let a := axis_of x (rx r0) (rx r1) in let b := axis_of y (ry r0) (ry r1) in
  map (in_region x y) (regions_spec r0 r1) =
  [a_before a && a_before b; a_in a && a_before b; a_after a && a_before b;
   a_before a && a_in b; (a_in a && a_bound a) && (a_in b && a_bound b); a_after a && a_in b;
   a_before a && a_after b; a_in a && a_after b; a_after a && a_after b].
Proof.
  cbn. unfold in_region, in_rect. cbn. rewrite !in_seg_if, !in_inner.
  destruct (offset (rx r0) <? offset (rx r1)), (offset (ry r0) <? offset (ry r1)),
    (offset (rx r1) + size (rx r1) <? offset (rx r0) + size (rx r0)),
    (offset (ry r1) + size (ry r1) <? offset (ry r0) + size (ry r0)); cbn;
    rewrite ?andb_false_r; reflexivity.
Qed.

(** What nine regions with that membership amount to. *)
Lemma regions_by_axes rs x y a b :
  map (in_region x y) rs =
  [a_before a && a_before b; a_in a && a_before b; a_after a && a_before b;
   a_before a && a_in b; (a_in a && a_bound a) && (a_in b && a_bound b); a_after a && a_in b;
   a_before a && a_after b; a_in a && a_after b; a_after a && a_after b] →
  axis_ok a = true → axis_ok b = true →
  in_region x y (get_rgn rs 1 1) = (a_in a && a_in b) && (a_bound a && a_bound b) ∧
  existsb (in_region x y) rs = a_in a && a_in b ∧
  (∀ i, i ≠ RGN 1 1 → in_region x y (default zero_region (rs !! i)) && (a_bound a && a_bound b) = false).
Proof.
  intros E Ha Hb.
  destruct rs as [|r1 [|r2 [|r3 [|r4 [|r5 [|r6 [|r7 [|r8 [|r9 [|? ?]]]]]]]]]]; try discriminate E.
  cbn in E. injection E as E1 E2 E3 E4 E5 E6 E7 E8 E9. unfold get_rgn. cbn. rewrite E1, E2, E3, E4, E5, E6, E7, E8, E9.
  assert (∀ i, i ≠ RGN 1 1 → (λ q, in_region x y q && (a_bound a && a_bound b) = false)
    (default zero_region ([r1; r2; r3; r4; r5; r6; r7; r8; r9] !! i))) as Hi.
  { destruct a as [[] [] [] []], b as [[] [] [] []]; try discriminate Ha; try discriminate Hb; cbn in *;
    intros [|[|[|[|[|[|[|[|[|i]]]]]]]]] Hne; cbn; rewrite ?E1, ?E2, ?E3, ?E4, ?E6, ?E7, ?E8, ?E9; done. }
  split; [|split; [|exact Hi]];
    destruct a as [[] [] [] []], b as [[] [] [] []]; try discriminate Ha; try discriminate Hb; done.
Qed.

(** [get_intersection_regions] splits [r0] by the boundary [r1]. Result 0:
    no point is in both. Result 1: the centre region is exactly the
    intersection; a point is in some region exactly if it is in [r0]; and no
    region but the centre has a point of [r1]. *)
Theorem get_intersection_regions_splits r0 r1 rs : rect_ok r0 → rect_ok r1 →
  let '(ret, rs') := get_intersection_regions r0 r1 rs in
  if ret =? 0 then ∀ x y, in_rect x y r0 && in_rect x y r1 = false
  else ret = 1 ∧ ∀ x y,
    in_region x y (get_rgn rs' 1 1) = in_rect x y r0 && in_rect x y r1 ∧
    existsb (in_region x y) rs' = in_rect x y r0 ∧
    (∀ i, i ≠ RGN 1 1 → in_region x y (default zero_region (rs' !! i)) && in_rect x y r1 = false).
Proof.
  intros H0 H1.
  destruct (decide (offset (rx r0) + size (rx r0) ≤ offset (rx r1) ∨ offset (rx r1) + size (rx r1) ≤ offset (rx r0) ∨
    offset (ry r0) + size (ry r0) ≤ offset (ry r1) ∨ offset (ry r1) + size (ry r1) ≤ offset (ry r0))) as [Hd|Hd].
  - rewrite no_intersection by done. cbn [Z.eqb]. intros x y. unfold in_rect, in_seg. zcases; cbn; lia || done.
  - rewrite regions_closed_form by (done || lia). cbn [Z.eqb]. split; [done|]. intros x y.
    unfold rect_ok, seg_ok in *.
    pose proof (axis_of_ok x (rx r0) (rx r1) (proj1 H1) ltac:(lia) ltac:(lia)) as Ax.
    pose proof (axis_of_ok y (ry r0) (ry r1) (proj2 H1) ltac:(lia) ltac:(lia)) as Ay.
    pose proof (in_regions_spec x y r0 r1) as E. cbv zeta in E.
    change (in_rect x y r0) with (a_in (axis_of x (rx r0) (rx r1)) && a_in (axis_of y (ry r0) (ry r1))).
    change (in_rect x y r1) with (a_bound (axis_of x (rx r0) (rx r1)) && a_bound (axis_of y (ry r0) (ry r1))).
    revert E Ax Ay. generalize (axis_of x (rx r0) (rx r1)), (axis_of y (ry r0) (ry r1)). intros a b E Ax Ay.
    apply (regions_by_axes _ x y a b E Ax Ay).
Qed.

(** Witness: a 10 x 10 rectangle at the origin cut by [5, 15) x [0, 20): the
    centre has the point (7, 3), the left region the point (2, 3). *)
Lemma get_intersection_regions_splits_witness :
  let r0 := Rect (Segment 0 10) (Segment 0 10) in let r1 := Rect (Segment 5 10) (Segment 0 20) in
  let '(ret, rs) := get_intersection_regions r0 r1 [] in
  ret = 1 ∧ in_region 7 3 (get_rgn rs 1 1) = true ∧ existsb (in_region 2 3) rs = true.
Proof.
  intros r0 r1. pose proof (get_intersection_regions_splits r0 r1 []) as H.
  destruct (get_intersection_regions r0 r1 []) as [ret rs] eqn:E. assert (ret = 1) as -> by (vm_compute in E; congruence).
  destruct H as [_ H]; [by repeat split..|]. split; [done|].
  destruct (H 7 3) as (-> & _ & _), (H 2 3) as (_ & -> & _). by vm_compute.
Defined.

(** [clip_segment] reports as clipped away every segment that ends after the
    start of the boundary, so every one that overlaps it. *)
Lemma clip_segment_rejects_overlap s0 s1 : 0 ≤ offset s0 → 0 ≤ offset s1 → seg_ok s0 → seg_ok s1 →
  offset s1 < offset s0 + size s0 → clip_segment s0 s1 = (-1, s0).
Proof.
  unfold seg_ok, clip_segment. intros H0 H1 Hs0 Hs1 H. rewrite (u32_id (offset s1)), (u32_id (offset s0 + size s0)) by lia.
  by destruct (Z.ltb_spec (offset s1) (offset s0 + size s0)); [|lia].
Qed.

(** The regions overlap: with a boundary inside the rectangle the point (0, 0) is
    in the corner, in the top and in the left region. *)
Lemma regions_overlap :
  let '(_, rs) := get_intersection_regions (Rect (Segment 0 10) (Segment 0 10)) (Rect (Segment 5 2) (Segment 5 2)) [] in
  map (in_region 0 0) rs = [true; true; false; true; false; false; false; false; false].
Proof. vm_compute. done. Qed.
