(* ===== verification/Exceptions.v ===== *)
(** * Exceptions, interrupts and timers (exception.c, irq.c, intr_ctl.c, timer.c)

    The registries of callbacks and the dispatch of an exception to them.  A
    callback is named by its address (0 is NULL); running one is an event of
    the trace. *)

From S2P Require Import Prelude.
From stdpp Require Import strings.
Open Scope Z_scope.

Definition INTERRUPT_TYPE_SYNCHRONOUS : Z := 0.
Definition INTERRUPT_TYPE_IRQ : Z := 1.
Definition INTERRUPT_TYPE_FIQ : Z := 2.
Definition INTERRUPT_TYPE_SERROR : Z := 3.

Definition EXC_CLASS_UNKNOWN : Z := 0.
Definition EXC_CLASS_TRAPPED_WFI_WFE : Z := 1.
Definition EXC_CLASS_ILLEGAL_EXECUTION : Z := 14.
Definition EXC_CLASS_SVC_AARCH32 : Z := 17.
Definition EXC_CLASS_SVC_AARCH64 : Z := 21.
Definition EXC_CLASS_INST_ABRT_LO_EL : Z := 32.
Definition EXC_CLASS_INST_ABRT_EQ_EL : Z := 33.
Definition EXC_CLASS_INST_ALIGNMENT : Z := 34.
Definition EXC_CLASS_DATA_ABRT_LO_EL : Z := 36.
Definition EXC_CLASS_DATA_ABRT_EQ_EL : Z := 37.
Definition EXC_CLASS_STACK_ALIGN_FLT : Z := 38.
Definition EXC_CLASS_FLOATING_POINT : Z := 44.

Definition SVC_DO_NOTHING : Z := 0x999.
Definition SVC_PANIC : Z := 0x1000.
Definition SVC_YIELD : Z := 0x1002.

Definition ERR_OK : Z := 0.
Definition ERR_INVAL_ARG : Z := -1.
Definition ERR_NO_RESOURCE : Z := -6.
Definition ERR_BUSY : Z := -8.

(** ** State *)
Inductive event : Type :=
| PanicReporter (cb msg : Z)
| FatalHook (cb : Z)
| IrqCb (cb : Z)
| Schedule
| IrqHandler (cb : Z).

(** The static variables of exception.c; the arrays have 8 slots. *)
Record exc_state := ExcState {
  kernel_panic_msg : Z; elevel : Z;
  fatal_exception_hooks : list Z; fatal_exception_hooks_count : Z;
  kernel_panic_reporters : list Z; kernel_panic_reporters_count : Z;
  irq_cb : Z; fiq_cb : Z }.

Definition exc_init : exc_state := ExcState 0 0 (replicate 8 0%Z) 0 (replicate 8 0%Z) 0 0 0.

Definition with_reporters (s : exc_state) (l : list Z) (n : Z) : exc_state :=
  ExcState (kernel_panic_msg s) (elevel s) (fatal_exception_hooks s) (fatal_exception_hooks_count s) l n (irq_cb s) (fiq_cb s).
Definition with_hooks (s : exc_state) (l : list Z) (n : Z) : exc_state :=
  ExcState (kernel_panic_msg s) (elevel s) l n (kernel_panic_reporters s) (kernel_panic_reporters_count s) (irq_cb s) (fiq_cb s).
Definition with_elevel (s : exc_state) (n : Z) : exc_state :=
  ExcState (kernel_panic_msg s) n (fatal_exception_hooks s) (fatal_exception_hooks_count s)
    (kernel_panic_reporters s) (kernel_panic_reporters_count s) (irq_cb s) (fiq_cb s).
Definition set_irq_cb (s : exc_state) (cb : Z) : exc_state :=
  ExcState (kernel_panic_msg s) (elevel s) (fatal_exception_hooks s) (fatal_exception_hooks_count s)
    (kernel_panic_reporters s) (kernel_panic_reporters_count s) cb (fiq_cb s).
Definition set_fiq_cb (s : exc_state) (cb : Z) : exc_state :=
  ExcState (kernel_panic_msg s) (elevel s) (fatal_exception_hooks s) (fatal_exception_hooks_count s)
    (kernel_panic_reporters s) (kernel_panic_reporters_count s) (irq_cb s) cb.

(** [kernel_panic] up to its [svc #0x1000]. *)
Definition kernel_panic_set (s : exc_state) (msg : Z) : exc_state :=
  ExcState msg (elevel s) (fatal_exception_hooks s) (fatal_exception_hooks_count s)
    (kernel_panic_reporters s) (kernel_panic_reporters_count s) (irq_cb s) (fiq_cb s).

(** Array accesses of static arrays: outside is undefined. *)
Definition arr_get (l : list Z) (i : Z) : outcome Z := if i <? 0 then Fault else deref (l !! Z.to_nat i).
Definition arr_set (l : list Z) (i v : Z) : outcome (list Z) := _ ← arr_get l i; Ret (<[Z.to_nat i := v]> l).

(** ** Registration *)
Definition add_kernel_panic_reporter (s : exc_state) (cb : Z) : outcome (exc_state * Z) :=
  if kernel_panic_reporters_count s =? 8 then Ret (s, ERR_NO_RESOURCE) else
  l ← arr_set (kernel_panic_reporters s) (kernel_panic_reporters_count s) cb;
  Ret (with_reporters s l (kernel_panic_reporters_count s + 1), ERR_OK).

Definition add_unhandled_exception_hook (s : exc_state) (cb : Z) : outcome (exc_state * Z) :=
  if kernel_panic_reporters_count s =? 8 then Ret (s, ERR_NO_RESOURCE) else
  l ← arr_set (fatal_exception_hooks s) (fatal_exception_hooks_count s) cb;
  Ret (with_hooks s l (fatal_exception_hooks_count s + 1), ERR_OK).

(** ** Running the callbacks *)
Fixpoint exec_cbs (n : nat) (i : Z) (cbs : list Z) (ev : Z → event) : outcome (list event) :=
  match n with
  | O => Ret []
  | S n => cb ← arr_get cbs i; tr ← exec_cbs n (i + 1) cbs ev; Ret (ev cb :: tr)
  end.

Definition exec_kernel_panic_reporters (s : exc_state) (msg : Z) : outcome (list event) :=
  exec_cbs (Z.to_nat (kernel_panic_reporters_count s)) 0 (kernel_panic_reporters s) (λ cb, PanicReporter cb msg).
Definition exec_fatal_exception_hooks (s : exc_state) : outcome (list event) :=
  exec_cbs (Z.to_nat (fatal_exception_hooks_count s)) 0 (fatal_exception_hooks s) FatalHook.

(** How a handler ends: it returns, or enters its endless loop. *)
Inductive ending : Type := Returns | Halts.

Record exception_info := ExceptionInfo { esr : Z; etype : Z }.

Definition get_synchr_exception_class (esr : Z) : Z := Z.land (Z.shiftr esr 26) 0x7f.
Definition get_svc_id (esr : Z) : Z := Z.land esr 0xffff.

Definition __handle_data_abort (s : exc_state) : outcome (list event * ending) :=
  tr ← exec_fatal_exception_hooks s; Ret (tr, Halts).
Definition __handle_instr_abort (s : exc_state) : outcome (list event * ending) :=
  tr ← exec_fatal_exception_hooks s; Ret (tr, Halts).
Definition __handle_svc_32 : outcome (list event * ending) := Ret ([], Returns).

Definition __handle_svc_64 (s : exc_state) (e : exception_info) : outcome (list event * ending) :=
  let id := get_svc_id (esr e) in
  if id =? SVC_PANIC then tr ← exec_kernel_panic_reporters s (kernel_panic_msg s); Ret (tr, Halts)
  else if id =? SVC_DO_NOTHING then Ret ([], Returns)
  else if id =? SVC_YIELD then Ret ([Schedule], Returns)
  else Ret ([], Returns).

Definition __handle_interrupt_synchronous (s : exc_state) (e : exception_info) : outcome (list event * ending) :=
  let ec := u8 (get_synchr_exception_class (esr e)) in
  if (ec =? EXC_CLASS_DATA_ABRT_LO_EL) || (ec =? EXC_CLASS_DATA_ABRT_EQ_EL) then __handle_data_abort s
  else if (ec =? EXC_CLASS_INST_ABRT_LO_EL) || (ec =? EXC_CLASS_INST_ABRT_EQ_EL) then __handle_instr_abort s
  else if ec =? EXC_CLASS_INST_ALIGNMENT then Ret ([], Returns)
  else if ec =? EXC_CLASS_SVC_AARCH64 then __handle_svc_64 s e
  else if ec =? EXC_CLASS_SVC_AARCH32 then __handle_svc_32
  else Ret ([], Returns).

Definition __handle_interrupt_irq (s : exc_state) : list event := if truth (irq_cb s) then [IrqCb (irq_cb s)] else [].
Definition __handle_interrupt_serror : list event := [].

Definition __handle_interrupt (s : exc_state) (e : exception_info) : outcome (exc_state * list event * ending) :=
  let s := with_elevel s (s32 (elevel s + 1)) in
  '(tr, fin) ← (if etype e =? INTERRUPT_TYPE_IRQ then Ret (__handle_interrupt_irq s, Returns)
    else if etype e =? INTERRUPT_TYPE_FIQ then Ret (if truth (fiq_cb s) then [IrqCb (fiq_cb s)] else [], Returns)
    else if etype e =? INTERRUPT_TYPE_SYNCHRONOUS then __handle_interrupt_synchronous s e
    else if etype e =? INTERRUPT_TYPE_SERROR then Ret (__handle_interrupt_serror, Returns)
    else Ret ([], Returns));
  match fin with
  | Halts => Ret (s, tr, Halts)
  | Returns => Ret (with_elevel s (s32 (elevel s - 1)), tr, Returns)
  end.

(** ** Names of exceptions *)

Definition get_data_abort_string (esr : Z) : string :=
  let dfsc := Z.land esr 0x3f in
  match swicase (Z.land dfsc 0x3c)
    [(0, "DAT_ABRT_ADDR_SIZE"); (4, "DAT_ABRT_TRANSLATION"); (8, "DAT_ABRT_ACCESS_FLAG"); (12, "DAT_ABRT_PERM");
     (16, "DAT_ABRT_SYNCH_EXT"); (17, "DAT_ABRT_SYNCH_TAG_CHECK"); (20, "DAT_ABRT_SYNCH_EXT_TABLE_WALK");
     (24, "DAT_ABRT_SYNCH_MEMACCESS_PARITY_ECC"); (28, "DAT_ABRT_SYNCH_MEMACCESS_PARITY_ECC_TABLE_WALK")]%string with
  | Some n => n
  | None =>
      match swicase dfsc
        [(33, "DAT_ABRT_ALIGNMENT"); (49, "DAT_ABRT_UNSUP_ATOMIC_HARDWARE_UPDATE"); (48, "DAT_ABRT_TLB_CONFLICT");
         (61, "DAT_ABRT_SECTION_DOMAIN"); (62, "DAT_ABRT_PAGE_DOMAIN")]%string with
      | Some n => n
      | None => "DAT_ABRT_UNDEF"%string
      end
  end.

Definition get_exception_type_string (type : Z) : string :=
  default "Undefined"%string (swicase type
    [(INTERRUPT_TYPE_SYNCHRONOUS, "Synchronous"); (INTERRUPT_TYPE_IRQ, "IRQ"); (INTERRUPT_TYPE_FIQ, "FIQ");
     (INTERRUPT_TYPE_SERROR, "SError")]%string).

Definition get_synchr_exception_class_string (esr : Z) : string :=
  default "Unknown2"%string (swicase (get_synchr_exception_class esr)
    [(EXC_CLASS_UNKNOWN, "Unknown"); (EXC_CLASS_TRAPPED_WFI_WFE, "Trapped WFI/WFE");
     (EXC_CLASS_ILLEGAL_EXECUTION, "Illegal execution"); (EXC_CLASS_SVC_AARCH32, "System call 32bit");
     (EXC_CLASS_SVC_AARCH64, "System call 64bit"); (EXC_CLASS_INST_ABRT_LO_EL, "Instruction abort, lower EL");
     (EXC_CLASS_INST_ABRT_EQ_EL, "Instruction abort, same EL");
     (EXC_CLASS_INST_ALIGNMENT, "Instruction alignment fault"); (EXC_CLASS_DATA_ABRT_LO_EL, "Data abort, lower EL");
     (EXC_CLASS_DATA_ABRT_EQ_EL, "Data abort, same EL"); (EXC_CLASS_STACK_ALIGN_FLT, "Stack alignment fault");
     (EXC_CLASS_FLOATING_POINT, "Floating point")]%string).

Definition get_svc_aarch64_string (esr : Z) : string :=
  default "SYSCALL64_UNKNOWN"%string (swicase (get_svc_id esr) [(SVC_PANIC, "SVC_PANIC")]%string).

Definition get_synch_exception_detail_string (esr : Z) : string :=
  let c := get_synchr_exception_class esr in
  if (c =? EXC_CLASS_DATA_ABRT_LO_EL) || (c =? EXC_CLASS_DATA_ABRT_EQ_EL) then get_data_abort_string esr
  else if c =? EXC_CLASS_SVC_AARCH64 then get_svc_aarch64_string esr
  else ""%string.

(** ** IRQ tables (irq.c) *)
Definition NUM_IRQS : Z := 128.
Definition NUM_CORES : Z := 4.

(** The handler tables of the four CPUs, the local handlers and the hook. *)
Record irq_state := IrqState { percpu_irq_tables : list (list Z); local_irq_tables : list Z; irq_post_hook : Z }.

Definition irq_init (s : irq_state) : irq_state :=
  IrqState (replicate 4 (replicate 128 0%Z)) (local_irq_tables s) (irq_post_hook s).

Definition irq_set_post_hook (s : irq_state) (hook : Z) : irq_state :=
  IrqState (percpu_irq_tables s) (local_irq_tables s) hook.

Definition cpu_table (s : irq_state) (cpu : Z) : outcome (list Z) :=
  if cpu <? 0 then Fault else deref (percpu_irq_tables s !! Z.to_nat cpu).

Definition irq_set (s : irq_state) (cpu irqnr func : Z) : outcome (irq_state * Z) :=
  if NUM_IRQS <=? irqnr then Ret (s, ERR_INVAL_ARG) else
  t ← cpu_table s cpu;
  h ← arr_get t irqnr;
  if truth h then Ret (s, ERR_BUSY) else
  t ← arr_set t irqnr func;
  Ret (IrqState (<[Z.to_nat cpu := t]> (percpu_irq_tables s)) (local_irq_tables s) (irq_post_hook s), ERR_OK).

Definition irq_local_set (s : irq_state) (cpu func : Z) : outcome (irq_state * Z) :=
  l ← arr_set (local_irq_tables s) cpu func;
  Ret (IrqState (percpu_irq_tables s) l (irq_post_hook s), ERR_OK).

(** [__handle_irq_0] .. [__handle_irq_3]. *)
Definition __handle_irq (s : irq_state) (cpu irqnr : Z) : outcome (list event) :=
  if NUM_IRQS <=? irqnr then Ret [] else
  t ← cpu_table s cpu;
  h ← arr_get t irqnr;
  Ret ((if truth h then [IrqHandler h] else []) ++ (if truth (irq_post_hook s) then [IrqHandler (irq_post_hook s)] else [])).

Definition __handle_local_periph_irq (s : irq_state) (cpu_num : Z) : outcome (list event) :=
  h ← arr_get (local_irq_tables s) cpu_num;
  Ret (if truth h then [IrqHandler h] else []).

(** ** The interrupt controller (intr_ctl.c)

    A register write is its address and value. *)
Definition INTR_CTL_IRQ_GPU_MAX : Z := 63.
Definition INTR_CTL_IRQ_ARM_MAX : Z := 7.
Definition BCM2835_IC_BASE : Z := 0x3f000000 + 0xb200.
Definition BCM2835_IC_ENABLE_GPU_1 : Z := BCM2835_IC_BASE + 0x10.
Definition BCM2835_IC_ENABLE_GPU_2 : Z := BCM2835_IC_BASE + 0x14.
Definition BCM2835_IC_ENABLE_BASIC : Z := BCM2835_IC_BASE + 0x18.
Definition BCM2835_IC_DISABLE_GPU_1 : Z := BCM2835_IC_BASE + 0x1c.
Definition BCM2835_IC_DISABLE_GPU_2 : Z := BCM2835_IC_BASE + 0x20.
Definition BCM2835_IC_DISABLE_BASIC : Z := BCM2835_IC_BASE + 0x24.
Definition BCM2835_GPU_IRQ_USB : Z := 9.

(** [1 << n] for an [int]; a negative or too large [n] is undefined. *)
Definition BT (n : Z) : outcome Z := if (n <? 0) || (31 <? n) then Fault else Ret (u32 (Z.shiftl 1 n)).

Definition SET_ARM_IRQ (r irq_num : Z) : outcome (list (Z * Z) * Z) :=
  if INTR_CTL_IRQ_ARM_MAX <? irq_num then Ret ([], ERR_INVAL_ARG) else
  v ← BT irq_num; Ret ([(r, v)], ERR_OK).

Definition SET_GPU_IRQ (r irq_num : Z) : outcome (list (Z * Z) * Z) :=
  if INTR_CTL_IRQ_GPU_MAX <? irq_num then Ret ([], ERR_INVAL_ARG) else
  let '(dst, irq_num) := if 31 <? irq_num then (r + 4, irq_num - 32) else (r, irq_num) in
  v ← BT irq_num; Ret ([(dst, v)], ERR_OK).

Definition intr_ctl_arm_irq_enable (irq_num : Z) := SET_ARM_IRQ BCM2835_IC_ENABLE_BASIC irq_num.
Definition intr_ctl_arm_irq_disable (irq_num : Z) := SET_ARM_IRQ BCM2835_IC_DISABLE_BASIC irq_num.
Definition intr_ctl_arm_interrupt_enable (irq_num : Z) := SET_ARM_IRQ BCM2835_IC_ENABLE_BASIC irq_num.
Definition intr_ctl_arm_interrupt_disable (irq_num : Z) := SET_ARM_IRQ BCM2835_IC_DISABLE_BASIC irq_num.
Definition intr_ctl_gpu_irq_enable (irq_num : Z) := SET_GPU_IRQ BCM2835_IC_ENABLE_GPU_1 irq_num.
Definition intr_ctl_gpu_irq_disable (irq_num : Z) := SET_GPU_IRQ BCM2835_IC_DISABLE_GPU_1 irq_num.
Definition intr_ctl_enable_gpio_irq : list (Z * Z) := [(BCM2835_IC_ENABLE_GPU_2, Z.shiftl 1 17)].
Definition intr_ctl_disable_gpio_irq : list (Z * Z) := [(BCM2835_IC_DISABLE_GPU_2, Z.shiftl 1 17)].
Definition BCM2835_CORE_TIMER_IRQ_CONTROL (cpu : Z) : Z := 0x40000040 + cpu * 4.
Definition intr_ctl_arm_generic_timer_irq_enable (cpu : Z) : list (Z * Z) := [(BCM2835_CORE_TIMER_IRQ_CONTROL cpu, 0x0f)].
Definition intr_ctl_arm_generic_timer_irq_disable (cpu : Z) : list (Z * Z) := [(BCM2835_CORE_TIMER_IRQ_CONTROL cpu, 0)].
Definition intr_ctl_usb_irq_enable := intr_ctl_gpu_irq_enable BCM2835_GPU_IRQ_USB.
Definition intr_ctl_usb_irq_disable := intr_ctl_gpu_irq_disable BCM2835_GPU_IRQ_USB.

(** ** The timer registry (timer.c) *)
Definition MAX_TIMERS : Z := 8.

(** The used entries of [timers], as (id, timer) pairs. *)
Abbreviation timer_table := (list (Z * Z)).

Fixpoint timer_find (ts : timer_table) (timer_id : Z) : option Z :=
  match ts with [] => None | (id, t) :: ts => if id =? timer_id then Some t else timer_find ts timer_id end.

Definition timer_register (ts : timer_table) (t timer_id : Z) : timer_table * Z :=
  if timer_find ts timer_id then (ts, ERR_BUSY) else
  if Z.of_nat (length ts) =? MAX_TIMERS then (ts, ERR_NO_RESOURCE) else
  (ts ++ [(timer_id, t)], ERR_OK).

Definition timer_get (ts : timer_table) (timer_id : Z) : Z := default 0 (timer_find ts timer_id).

(** ** Array lemmas *)
Lemma arr_get_at l i v : l !! i = Some v → arr_get l (Z.of_nat i) = Ret v.
Proof. intros H. unfold arr_get. destruct (Z.ltb_spec (Z.of_nat i) 0); [lia|]. by rewrite Nat2Z.id, H. Qed.

Lemma arr_set_at l i v : (i < length l)%nat → arr_set l (Z.of_nat i) v = Ret (<[i := v]> l).
Proof.
  intros H. destruct (lookup_lt_is_Some_2 l i H) as [w Hw]. unfold arr_set.
  rewrite (arr_get_at _ _ _ Hw), bind_ret. by rewrite Nat2Z.id.
Qed.

Lemma arr_set_out l i v : (length l ≤ i)%nat → arr_set l (Z.of_nat i) v = Fault.
Proof.
  intros H. unfold arr_set, arr_get. destruct (Z.ltb_spec (Z.of_nat i) 0); [done|].
  by rewrite Nat2Z.id, (lookup_ge_None_2 l i H).
Qed.

(** ** Fatal exceptions *)

(** Registering the hooks [hs] one after the other, all accepted. *)
Definition add_hooks (s : exc_state) (hs : list Z) : outcome exc_state :=
  foldl (λ m h, s ← m; '(s, r) ← add_unhandled_exception_hook s h; if r =? ERR_OK then Ret s else Panic) (Ret s) hs.

(** The hooks [hs] are registered; no panic reporter is missing a slot. *)
Definition hooks_are (s : exc_state) (hs : list Z) : Prop :=
  fatal_exception_hooks_count s = Z.of_nat (length hs) ∧ length (fatal_exception_hooks s) = 8%nat ∧
  take (length hs) (fatal_exception_hooks s) = hs ∧ kernel_panic_reporters_count s ≠ 8.

Lemma add_hook_ok s hs h : hooks_are s hs → (length hs < 8)%nat →
  ∃ s', add_unhandled_exception_hook s h = Ret (s', ERR_OK) ∧ hooks_are s' (hs ++ [h]).
Proof.
  intros (Hc & Hl & Ht & Hr) Hn. unfold add_unhandled_exception_hook.
  destruct (Z.eqb_spec (kernel_panic_reporters_count s) 8); [done|].
  rewrite Hc, arr_set_at, bind_ret by lia. eexists. split; [done|].
  unfold hooks_are. cbn. rewrite length_app, length_insert. cbn. split; [lia|]. split; [done|]. split; [|done].
  rewrite Nat.add_comm. cbn [Nat.add].
  erewrite take_S_r by (apply list_lookup_insert_eq; lia). f_equal. by rewrite take_insert_ge by lia.
Qed.

Lemma add_hooks_ok hs s done_ : hooks_are s done_ → (length done_ + length hs ≤ 8)%nat →
  ∃ s', add_hooks s hs = Ret s' ∧ hooks_are s' (done_ ++ hs).
Proof.
  unfold add_hooks. revert s done_. induction hs as [|h hs IH]; intros s dn Hs Hn; cbn [foldl length] in *.
  - exists s. by rewrite app_nil_r.
  - destruct (add_hook_ok s dn h Hs ltac:(lia)) as (s1 & E & H1). rewrite bind_ret, E, bind_ret. cbn [Z.eqb].
    destruct (IH s1 (dn ++ [h]) H1) as (s' & E' & H'); [rewrite length_app; cbn; lia|].
    exists s'. split; [exact E'|]. by rewrite <- app_assoc in H'.
Qed.

Lemma exec_cbs_ok ev cbs hs n i : n = length hs → (∀ k h, hs !! k = Some h → cbs !! (i + k)%nat = Some h) →
  exec_cbs n (Z.of_nat i) cbs ev = Ret (map ev hs).
Proof.
  revert n i. induction hs as [|h hs IH]; intros n i -> Hk; [done|]. cbn [exec_cbs length].
  rewrite (arr_get_at _ _ h), bind_ret by (rewrite <- (Hk 0%nat h eq_refl); f_equal; lia).
  replace (Z.of_nat i + 1) with (Z.of_nat (S i)) by lia. rewrite IH; [done..|].
  intros k h' Hh. rewrite <- (Hk (S k) h' Hh). f_equal. lia.
Qed.

Lemma exec_hooks_ok s hs : hooks_are s hs → exec_fatal_exception_hooks s = Ret (map FatalHook hs).
Proof.
  intros (Hc & _ & Ht & _). unfold exec_fatal_exception_hooks. rewrite Hc, Nat2Z.id.
  apply (exec_cbs_ok FatalHook _ _ _ 0%nat eq_refl). intros k h Hk. rewrite <- Ht in Hk.
  apply lookup_take_Some in Hk as [Hk _]. done.
Qed.

(** Instruction and data aborts, from a lower or the same exception level. *)
Definition is_abort (e : exception_info) : Prop :=
  etype e = INTERRUPT_TYPE_SYNCHRONOUS ∧ ∃ ec iss, (ec = 32 ∨ ec = 33 ∨ ec = 36 ∨ ec = 37) ∧ 0 ≤ iss < 2 ^ 26 ∧
    esr e = ec * 2 ^ 26 + iss.

Lemma class_of_esr ec iss : 0 ≤ ec < 64 → 0 ≤ iss < 2 ^ 26 → get_synchr_exception_class (ec * 2 ^ 26 + iss) = ec.
Proof.
  intros He Hi. unfold get_synchr_exception_class. change 0x7f with (Z.ones 7).
  rewrite Z.land_ones, Z.shiftr_div_pow2, Z.div_add_l, Z.div_small, Z.add_0_r by lia. apply Z.mod_small. lia.
Qed.

Lemma abort_handled s hs e : hooks_are s hs → is_abort e →
  ∃ s', __handle_interrupt s e = Ret (s', map FatalHook hs, Halts).
Proof.
  intros Hs (Ht & ec & iss & Hec & Hiss & Hesr). unfold __handle_interrupt. rewrite Ht.
  set (s1 := with_elevel s (s32 (elevel s + 1))). assert (hooks_are s1 hs) as H1 by exact Hs.
  cbn [Z.eqb INTERRUPT_TYPE_SYNCHRONOUS INTERRUPT_TYPE_IRQ INTERRUPT_TYPE_FIQ].
  unfold __handle_interrupt_synchronous. rewrite Hesr, class_of_esr, u8_id by lia.
  unfold __handle_data_abort, __handle_instr_abort. rewrite (exec_hooks_ok _ _ H1).
  destruct Hec as [-> | [-> | [-> | ->]]]; by eexists.
Qed.

(** up to eight fatal-exception hooks can be registered while there are
    fewer than eight panic reporters, and an instruction or data abort then runs
    exactly these hooks, in the order of registration, before it halts; but the
    bound tested is that of the other registry, so a ninth hook is written past
    the end of the array. *)
Theorem fatal_hooks_registry hs e : is_abort e →
  ((length hs ≤ 8)%nat → ∃ s s', add_hooks exc_init hs = Ret s ∧
     __handle_interrupt s e = Ret (s', map FatalHook hs, Halts)) ∧
  (length hs = 9%nat → add_hooks exc_init hs = Fault).
Proof.
  intros He. assert (hooks_are exc_init []) as H0 by done. split; intros Hn.
  - destruct (add_hooks_ok hs exc_init [] H0) as (s & E & Hs); [cbn; lia|].
    destruct (abort_handled s hs e Hs He) as (s' & E'). by exists s, s'.
  - destruct (exists_last (l := hs)) as (pre & h & ->); [by destruct hs|]. rewrite length_app in Hn. cbn in Hn.
    unfold add_hooks. rewrite foldl_app. fold (add_hooks exc_init pre).
    destruct (add_hooks_ok pre exc_init [] H0) as (s & -> & (Hc & Hl & _ & Hr)); [cbn; lia|]. cbn [foldl]. rewrite bind_ret.
    unfold add_unhandled_exception_hook. destruct (Z.eqb_spec (kernel_panic_reporters_count s) 8); [done|].
    rewrite Hc, arr_set_out; [done|]. cbn [app]. lia.
Qed.

(** Witness: a data abort with two hooks. *)
Lemma fatal_hooks_registry_witness :
  let e := ExceptionInfo (37 * 2 ^ 26 + 5) 0 in
  is_abort e ∧ ∃ s s', add_hooks exc_init [100; 200] = Ret s ∧
    __handle_interrupt s e = Ret (s', [FatalHook 100; FatalHook 200], Halts).
Proof.
  intros e. assert (is_abort e) as He.
  { split; [done|]. exists 37, 5. split; [tauto|]. split; [lia|done]. }
  split; [exact He|]. destruct (fatal_hooks_registry [100; 200] e He) as [H _]. apply H. cbn. lia.
Defined.

(** ** Interrupt handlers *)
Definition irq_ok (s : irq_state) : Prop :=
  length (percpu_irq_tables s) = 4%nat ∧ Forall (λ t, length t = 128%nat) (percpu_irq_tables s).

(** The handler of a line of a CPU. *)
Definition handler_of (s : irq_state) (cpu irqnr : Z) : option Z :=
  if (cpu <? 0) || (irqnr <? 0) then None else
  percpu_irq_tables s !! Z.to_nat cpu ≫= (.!! Z.to_nat irqnr).

Lemma handler_of_some s cpu irqnr : irq_ok s → 0 ≤ cpu < 4 → 0 ≤ irqnr < 128 →
  ∃ t h, cpu_table s cpu = Ret t ∧ length t = 128%nat ∧ arr_get t irqnr = Ret h ∧ handler_of s cpu irqnr = Some h.
Proof.
  intros (Hl & Hf) Hc Hi. destruct (lookup_lt_is_Some_2 (percpu_irq_tables s) (Z.to_nat cpu)) as [t Ht]; [lia|].
  assert (length t = 128%nat) as Hn by exact (proj1 (Forall_lookup _ _) Hf _ _ Ht).
  destruct (lookup_lt_is_Some_2 t (Z.to_nat irqnr)) as [h Hh]; [lia|]. exists t, h. unfold cpu_table, handler_of, arr_get.
  destruct (Z.ltb_spec cpu 0), (Z.ltb_spec irqnr 0); try lia. cbn [orb]. rewrite Ht. cbn. by rewrite Hh.
Qed.

Lemma handle_irq_runs s cpu irqnr : irq_ok s → 0 ≤ cpu < 4 → 0 ≤ irqnr < 128 →
  ∃ h, handler_of s cpu irqnr = Some h ∧ __handle_irq s cpu irqnr =
    Ret ((if truth h then [IrqHandler h] else []) ++ (if truth (irq_post_hook s) then [IrqHandler (irq_post_hook s)] else [])).
Proof.
  intros Hs Hc Hi. destruct (handler_of_some s cpu irqnr Hs Hc Hi) as (t & h & E & _ & E' & Eh). exists h. split; [done|].
  unfold __handle_irq, NUM_IRQS. destruct (Z.leb_spec 128 irqnr); [lia|]. by rewrite E, bind_ret, E', bind_ret.
Qed.

Lemma handler_of_insert s cpu irqnr t func c i : 0 ≤ cpu → 0 ≤ irqnr → percpu_irq_tables s !! Z.to_nat cpu = Some t →
  (Z.to_nat irqnr < length t)%nat →
  handler_of (IrqState (<[Z.to_nat cpu := <[Z.to_nat irqnr := func]> t]> (percpu_irq_tables s)) (local_irq_tables s)
    (irq_post_hook s)) c i =
  if (c =? cpu) && (i =? irqnr) then Some func else handler_of s c i.
Proof.
  intros H1 H2 Ht Hl. unfold handler_of. cbn [percpu_irq_tables].
  assert (Z.to_nat cpu < length (percpu_irq_tables s))%nat by (by apply lookup_lt_is_Some_1; eexists).
  destruct (Z.ltb_spec c 0), (Z.ltb_spec i 0); cbn [orb].
  1-3: destruct (Z.eqb_spec c cpu), (Z.eqb_spec i irqnr); try lia; reflexivity.
  destruct (Z.eqb_spec c cpu) as [->|Hc]; cbn [andb].
  - rewrite list_lookup_insert_eq by done. cbn. rewrite Ht. cbn. destruct (Z.eqb_spec i irqnr) as [->|Hi].
    + by rewrite list_lookup_insert_eq by lia.
    + by rewrite list_lookup_insert_ne by lia.
  - by rewrite list_lookup_insert_ne by lia.
Qed.

(** [irq_set] installs a handler exactly where the line exists and is free;
    it fails with [ERR_INVAL_ARG] on a line past the table and with [ERR_BUSY] on
    a taken one, both leaving the tables alone.  The handler installed is the one
    the interrupt then runs, before the post hook, and every other line of every
    CPU keeps its own. *)
Theorem irq_set_dispatch s cpu irqnr func : irq_ok s → 0 ≤ cpu < 4 → 0 ≤ irqnr → func ≠ 0 →
  (128 ≤ irqnr → irq_set s cpu irqnr func = Ret (s, ERR_INVAL_ARG) ∧ __handle_irq s cpu irqnr = Ret []) ∧
  (irqnr < 128 → handler_of s cpu irqnr ≠ Some 0 → irq_set s cpu irqnr func = Ret (s, ERR_BUSY)) ∧
  (irqnr < 128 → handler_of s cpu irqnr = Some 0 → ∃ s', irq_set s cpu irqnr func = Ret (s', ERR_OK) ∧ irq_ok s' ∧
     __handle_irq s' cpu irqnr = Ret (IrqHandler func :: (if truth (irq_post_hook s) then [IrqHandler (irq_post_hook s)] else [])) ∧
     ∀ c i, 0 ≤ c < 4 → 0 ≤ i → c ≠ cpu ∨ i ≠ irqnr → __handle_irq s' c i = __handle_irq s c i).
Proof.
  intros Hs Hc Hi Hf. split; [|split]; [intros Hn|intros Hn Hh..]; unfold irq_set, NUM_IRQS.
  - unfold __handle_irq, NUM_IRQS. by destruct (Z.leb_spec 128 irqnr); [|lia].
  - destruct (handler_of_some s cpu irqnr Hs Hc (conj Hi Hn)) as (t & h & -> & _ & E' & Eh).
    destruct (Z.leb_spec 128 irqnr); [lia|]. rewrite bind_ret, E', bind_ret. unfold truth.
    destruct (Z.eqb_spec h 0) as [->|]; [done|]. reflexivity.
  - destruct (handler_of_some s cpu irqnr Hs Hc (conj Hi Hn)) as (t & h & E & Hl & E' & Eh). rewrite Hh in Eh. injection Eh as <-.
    destruct (Z.leb_spec 128 irqnr); [lia|]. rewrite E, bind_ret, E', bind_ret. cbn [truth Z.eqb negb].
    pose proof (arr_set_at t (Z.to_nat irqnr) func) as Ea. rewrite Z2Nat.id in Ea by lia.
    rewrite Ea, bind_ret by lia. eexists. split; [reflexivity|].
    unfold cpu_table in E. destruct (Z.ltb_spec cpu 0); [lia|]. destruct (percpu_irq_tables s !! Z.to_nat cpu) as [t'|] eqn:Et; [injection E as ->|discriminate].
    set (s' := IrqState _ _ _). assert (irq_ok s') as Hs'.
    { destruct Hs as (H4 & Hall). split; cbn; [by rewrite length_insert|]. apply Forall_insert; [done|].
      by rewrite length_insert. }
    assert (∀ c i, handler_of s' c i = if (c =? cpu) && (i =? irqnr) then Some func else handler_of s c i) as Hat
      by (intros c i; apply (handler_of_insert s cpu irqnr t func c i); lia || done).
    split; [done|]. split.
    + destruct (handle_irq_runs s' cpu irqnr Hs' Hc (conj Hi Hn)) as (h & Eh & ->). rewrite Hat, !Z.eqb_refl in Eh.
      injection Eh as <-. unfold truth at 1. destruct (Z.eqb_spec func 0); done.
    + intros c i Hc' Hi' Hne. destruct (Z.ltb_spec i 128) as [Hl'|Hl'].
      2: { unfold __handle_irq, NUM_IRQS. by destruct (Z.leb_spec 128 i); [|lia]. }
      destruct (handle_irq_runs s' c i Hs' Hc' (conj Hi' Hl')) as (h & Eh & ->).
      destruct (handle_irq_runs s c i Hs Hc' (conj Hi' Hl')) as (h' & Eh' & ->). rewrite Hat, Eh' in Eh.
      destruct (Z.eqb_spec c cpu), (Z.eqb_spec i irqnr); [lia|..]; by injection Eh as <-.
Qed.

(** Witness: line 9 of CPU 1 in empty tables. *)
Lemma irq_set_dispatch_witness :
  let s := irq_init (IrqState [] [] 7) in
  irq_ok s ∧ handler_of s 1 9 = Some 0 ∧ ∃ s', irq_set s 1 9 100 = Ret (s', ERR_OK) ∧
    __handle_irq s' 1 9 = Ret [IrqHandler 100; IrqHandler 7].
Proof.
  intros s. assert (irq_ok s) as Hs by (split; [done|]; by repeat constructor). split; [done|]. split; [done|].
  destruct (irq_set_dispatch s 1 9 100 Hs) as (_ & _ & H); [lia..|].
  destruct (H ltac:(lia) eq_refl) as (s' & E & _ & E' & _). by exists s'.
Defined.
