(* ===== verification/Vcanvas.v ===== *)
(** * The display (vcanvas.c, include/vcanvas.h)

    The canvas over the frame buffer, which is part of the byte memory, and the
    viewports: filling, glyphs, text and moving of rectangles.  Theorems are
    about the picture: the colour of every pixel of the screen. *)

From S2P Require Import Prelude Bits Strings Rectangle.

(** ** State *)
Record fb_t := Fb { addr : Z; width : Z; height : Z; pitch : Z; pixel_size : Z }.

Record vcanvas_t := Vcanvas {
  initialization_key : Z; fb : fb_t; fg_color : Z; bg_color : Z; tabwidth : Z }.

Definition VCANVAS_INITIALIZED_KEY : Z := s32 0xffaadead.
Definition MAX_VIEWPORTS : Z := 16.

Record viewport_t := Viewport { pos_x : Z; pos_y : Z; size_x : Z; size_y : Z }.

(** A loaded font: its address and its header. *)
Record psf_t := Psf { font_at : Z; headersize : Z; numglyph : Z; bytesperglyph : Z; fheight : Z; fwidth : Z }.

(** What [mbox_set_fb] fills in. *)
Record mbox_set_fb_res := MboxSetFbRes { fb_addr : Z; fb_width : Z; fb_height : Z; fb_pitch : Z; fb_pixel_size : Z }.

Definition vcanvas_is_initialized (v : vcanvas_t) : bool := initialization_key v =? VCANVAS_INITIALIZED_KEY.

Definition with_fb (v : vcanvas_t) (key : Z) (f : fb_t) (tab : Z) : vcanvas_t :=
  Vcanvas key f (fg_color v) (bg_color v) tab.

(** [res] is what the mailbox answers; a failure only prints.  The second result
    is the number of viewports, reset. *)
Definition vcanvas_init (res : mbox_set_fb_res) (v : vcanvas_t) : outcome (vcanvas_t * Z) :=
  if vcanvas_is_initialized v then Panic else
  Ret (with_fb v VCANVAS_INITIALIZED_KEY
    (Fb (fb_addr res) (fb_width res) (fb_height res) (fb_pitch res) (fb_pixel_size res)) 4, 0).

Definition vcanvas_get_width_height (v : vcanvas_t) : Z * Z := (width (fb v), height (fb v)).
Definition vcanvas_set_fg_color (v : vcanvas_t) (value : Z) : vcanvas_t :=
  Vcanvas (initialization_key v) (fb v) (u32 value) (bg_color v) (tabwidth v).
Definition vcanvas_set_bg_color (v : vcanvas_t) (value : Z) : vcanvas_t :=
  Vcanvas (initialization_key v) (fb v) (fg_color v) (u32 value) (tabwidth v).

(** [y * pitch] and [x * pixel_size] are 32-bit unsigned products. *)
Definition fb_get_pixel_addr (v : vcanvas_t) (x y : Z) : Z :=
  u64 (addr (fb v) + u32 (y * pitch (fb v)) + u32 (x * pixel_size (fb v))).

Definition put_pixel (m : mem) (p color : Z) : outcome mem := store_le 4 m p color.

(** ** Glyphs *)

(** [1 << n] of an [int]. *)
Definition shl1 (n : Z) : outcome Z := if (n <? 0) || (31 <? n) then Fault else Ret (s32 (Z.shiftl 1 n)).

Definition draw_line (v : vcanvas_t) (glyph x y_ limit_x fg bg : Z) (mask : Z) (m : mem) : outcome mem :=
  '(m, _) ← forZ 0 limit_x (λ _x '(m, mask),
    b ← load8 m glyph;
    m ← put_pixel m (fb_get_pixel_addr v (s32 (x + _x)) y_) (if truth (Z.land b mask) then fg else bg);
    Ret (m, Z.shiftr mask 1)) (m, mask);
  Ret m.

Definition vcanvas_draw_glyph (v : vcanvas_t) (font : psf_t) (glyph x y max_size_x max_size_y fg bg : Z)
    (m : mem) : outcome mem :=
  let limit_x := c_min (fwidth font) max_size_x in
  let limit_y := c_min (fheight font) max_size_y in
  let bytes_per_line := u32 (fwidth font + 7) / 8 in
  '(m, _) ← forZ 0 limit_y (λ _y '(m, glyph),
    mask ← shl1 (u32 (fwidth font - 1));
    m ← draw_line v glyph x (s32 (y + _y)) limit_x fg bg mask m;
    Ret (m, glyph + bytes_per_line)) (m, glyph);
  Ret m.

Definition font_get_glyph (font : psf_t) (c : Z) : Z :=
  font_at font + headersize font + u32 ((if c <? numglyph font then c else 0) * bytesperglyph font).

(** ** Console on the whole canvas *)
Definition CONSOLE_CHAR_BACKSPACE : Z := 8.
Definition CONSOLE_CHAR_HORIZONTAL_TAB : Z := 9.
Definition CONSOLE_CHAR_LINEFEED : Z := 10.
Definition CONSOLE_CHAR_CARRIAGE_RETURN : Z := 13.

(** The cursor and the memory. *)
Definition vcanvas_putc (v : vcanvas_t) (font : psf_t) (x y chr : Z) (m : mem) : outcome (Z * Z * mem) :=
  let glyph := font_get_glyph font chr in
  if chr =? CONSOLE_CHAR_CARRIAGE_RETURN then Ret (0, y, m)
  else if chr =? CONSOLE_CHAR_LINEFEED then Ret (0, s32 (y + 1), m)
  else if chr =? CONSOLE_CHAR_HORIZONTAL_TAB then Ret (s32 (x + tabwidth v), y, m)
  else if chr =? CONSOLE_CHAR_BACKSPACE then Ret (if 0 <? x then x - 1 else x, y, m)
  else
    m ← vcanvas_draw_glyph v font glyph (s32 (x * fwidth font)) (s32 (y * fheight font)) (fwidth font) (fheight font)
          (fg_color v) (bg_color v) m;
    Ret (s32 (x + 1), y, m).

(** Comparisons of the cursor with the limits are unsigned.  [x_y] is [None]
    where the pointers or the string are NULL. *)
Definition vcanvas_puts (fuel : nat) (v : vcanvas_t) (font : psf_t) (x_y : option (Z * Z)) (s : Z) (m : mem)
    : outcome (Z * Z * mem) :=
  match x_y with
  | None => Panic
  | Some (x, y) =>
      if s =? 0 then Panic else
      if (u32 (fwidth font + 1) =? 0) || (u32 (fheight font + 1) =? 0) then Fault else
      let width_limit := width (fb v) / u32 (fwidth font + 1) in
      let height_limit := height (fb v) / u32 (fheight font + 1) in
      loop fuel (λ '(x, y, s, m),
        c ← load8 m s;
        if negb (truth c) then Ret (inr (x, y, m)) else
        let wrap := u32 (width_limit - 1) <=? u32 x in
        if wrap && (u32 (height_limit - 1) <=? u32 y) then Ret (inr (x, y, m)) else
        let '(x, y) := if wrap then (0, s32 (y + 1)) else (x, y) in
        '(x, y, m) ← vcanvas_putc v font x y c m;
        Ret (inl (x, y, s + 1, m))) (x, y, s, m)
  end.

(** ** Rectangles *)
Definition vcanvas_fill_rect (v : vcanvas_t) (x y sx sy rgba : Z) (m : mem) : outcome mem :=
  let xend := s32 (c_min (u32 (x + sx)) (width (fb v))) in
  let yend := s32 (c_min (u32 (y + sy)) (height (fb v))) in
  forZ x xend (λ _x m, forZ y yend (λ _y m,
    put_pixel m (u64 (addr (fb v) + u32 (_x * pixel_size (fb v)) + u32 (_y * pitch (fb v)))) rgba) m) m.

(** The viewports made so far, at most 16; the result is NULL or the new one. *)
Definition vcanvas_make_viewport (vs : list viewport_t) (x y sx sy : Z) : list viewport_t * option viewport_t :=
  if MAX_VIEWPORTS <=? Z.of_nat (length vs) then (vs, None)
  else (vs ++ [Viewport x y sx sy], Some (Viewport x y sx sy)).

(** [x >= v->size_x || y >= v->size_y], unsigned. *)
Definition outside_viewport (w : viewport_t) (x y : Z) : bool := (size_x w <=? u32 x) || (size_y w <=? u32 y).

(** [(x + size > limit) ? limit - x : size]. *)
Definition clip_size (x size limit : Z) : Z := if limit <? u32 (x + size) then u32 (limit - x) else size.

Definition viewport_fill_rect (v : vcanvas_t) (w : viewport_t) (x y sx sy color : Z) (m : mem) : outcome mem :=
  if outside_viewport w x y then Ret m else
  vcanvas_fill_rect v (s32 (pos_x w + x)) (s32 (pos_y w + y)) (clip_size x sx (size_x w)) (clip_size y sy (size_y w)) color m.

Definition viewport_fill (v : vcanvas_t) (w : viewport_t) (color : Z) (m : mem) : outcome mem :=
  viewport_fill_rect v w 0 0 (size_x w) (size_y w) color m.

Definition viewport_draw_char (v : vcanvas_t) (font : psf_t) (w : viewport_t) (x y fg bg c : Z) (m : mem) : outcome mem :=
  if outside_viewport w x y then Ret m else
  vcanvas_draw_glyph v font (font_get_glyph font c) (s32 (pos_x w + x)) (s32 (pos_y w + y))
    (clip_size x (fwidth font) (size_x w)) (clip_size y (fheight font) (size_y w)) fg bg m.

(** [char_idx < textlen] is unsigned. *)
Definition viewport_draw_text (fuel : nat) (v : vcanvas_t) (font : psf_t) (w : viewport_t) (x y fg bg text textlen : Z)
    (m : mem) : outcome mem :=
  if outside_viewport w x y then Ret m else
  loop fuel (λ '(char_idx, c, m),
    b ← load8 m c;
    if negb (truth b && (char_idx <? u32 textlen)) then Ret (inr m) else
    let rx := s32 (x + char_idx * fwidth font) in
    if outside_viewport w rx y then Ret (inr m) else
    m ← viewport_draw_char v font w rx y fg bg b m;
    Ret (inl (u32 (char_idx + 1), c + 1, m))) (0, text, m).

Definition vcanvas_get_fontsize (font : option psf_t) : option (Z * Z) :=
  match font with None => None | Some f => Some (s32 (fwidth f), s32 (fheight f)) end.

(** [size_x * pixel_size] is the 32-bit byte count of a line. *)
Definition viewport_copy_rect_unsafe (fuel : nat) (v : vcanvas_t) (w : viewport_t) (x0 y0 sx sy x1 y1 : Z) (m : mem)
    : outcome mem :=
  let src := fb_get_pixel_addr v (s32 (pos_x w + x0)) (s32 (pos_y w + y0)) in
  let dst := fb_get_pixel_addr v (s32 (pos_x w + x1)) (s32 (pos_y w + y1)) in
  '(m, _, _) ← forZ 0 sy (λ _ '(m, src, dst),
    m ← memcpy fuel m dst src (u32 (sx * pixel_size (fb v)));
    Ret (m, src + pitch (fb v), dst + pitch (fb v))) (m, src, dst);
  Ret m.

(** [- x0 + x1] of a region, as an [int]. *)
Definition moved (o x0 x1 : Z) : Z := s32 (o - x0 + x1).

Definition fill_region (v : vcanvas_t) (w : viewport_t) (x0 y0 x1 y1 : Z) (r : region) (m : mem) : outcome mem :=
  let rx := rx (rgn r) in let ry := ry (rgn r) in
  if exists_ r && truth (size rx) && truth (size ry) then
    viewport_fill_rect v w (moved (offset rx) x0 x1) (moved (offset ry) y0 y1) (size rx) (size ry) (bg_color v) m
  else Ret m.

Definition viewport_copy_rect (fuel : nat) (v : vcanvas_t) (w : viewport_t) (x0 y0 sx sy x1 y1 : Z) (m : mem)
    : outcome mem :=
  let r0 := Rect (Segment x0 (u32 sx)) (Segment y0 (u32 sy)) in
  let r1 := Rect (Segment 0 (size_x w)) (Segment 0 (size_y w)) in
  let '(hit, rs) := get_intersection_regions r0 r1 [] in
  if hit =? 0 then viewport_fill_rect v w x1 y1 (u32 sx) (u32 sy) (bg_color v) m else
  m ← forZ 0 3 (λ yi m, forZ 0 3 (λ xi m,
    if (xi =? 1) && (yi =? 1) then Ret m
    else fill_region v w x0 y0 x1 y1 (get_rgn rs (Z.to_nat xi) (Z.to_nat yi)) m) m) m;
  let r := rgn (get_rgn rs 1 1) in
  viewport_copy_rect_unsafe fuel v w (offset (rx r)) (offset (ry r)) (s32 (size (rx r))) (s32 (size (ry r)))
    (moved (offset (rx r)) x0 x1) (moved (offset (ry r)) y0 y1) m.

(** ** Pictures

    A picture gives the colour of every pixel, as the number written to it. *)
Definition picture : Type := Z → Z → Z.

Definition paint (x y c : Z) (p : picture) : picture := λ px py, if (px =? x) && (py =? y) then c else p px py.

(** The picture with a rectangle replaced by another picture. *)
Definition in_box (x y sx sy px py : Z) : bool := (x <=? px) && (px <? x + sx) && (y <=? py) && (py <? y + sy).
Definition overlay (x y sx sy : Z) (q p : picture) : picture := λ px py, if in_box x y sx sy px py then q px py else p px py.

(** A box is its first rows and the next ones. *)
Lemma in_box_split x y sx i k px py : 0 ≤ i → 0 ≤ k →
  in_box x y sx (i + k) px py = in_box x (y + i) sx k px py || in_box x y sx i px py.
Proof.
  intros Hi Hk. unfold in_box. rewrite <- !andb_assoc, <- !andb_orb_distrib_r. do 2 f_equal. zcases; cbn; lia || done.
Qed.

Lemma in_box_rows x y sx i px py : 0 ≤ i →
  in_box x y sx (i + 1) px py = in_box x (y + i) sx 1 px py || in_box x y sx i px py.
Proof. intros. by apply in_box_split. Qed.

Lemma in_box_true x y sx sy px py : in_box x y sx sy px py = true ↔ x ≤ px < x + sx ∧ y ≤ py < y + sy.
Proof. unfold in_box. rewrite !andb_true_iff, !Z.leb_le, !Z.ltb_lt. lia. Qed.

Section screen.
Context (v : vcanvas_t).

Record canvas_ok : Prop := CanvasOk {
  co_addr : 0 ≤ addr (fb v) < 2 ^ 32;
  co_pixel : pixel_size (fb v) = 4;
  co_width : 0 ≤ width (fb v) < 2 ^ 29;
  co_height : 0 ≤ height (fb v) < 2 ^ 31;
  co_pitch : 4 * width (fb v) ≤ pitch (fb v) < 2 ^ 31;
  co_size : pitch (fb v) * height (fb v) < 2 ^ 32 }.

Definition on_screen (x y : Z) : Prop := 0 ≤ x < width (fb v) ∧ 0 ≤ y < height (fb v).
Definition pix (x y : Z) : Z := addr (fb v) + y * pitch (fb v) + x * 4.

(** The memory shows the picture. *)
Definition shows (m : mem) (p : picture) : Prop := ∀ x y, on_screen x y → bytes_at m (pix x y) (le_bytes 4 (p x y)).

(** An address that is no byte of a visible pixel. *)
Definition off_screen (a : Z) : Prop := ∀ x y, on_screen x y → ¬ (pix x y ≤ a < pix x y + 4).
Definition same_outside (m m' : mem) : Prop := ∀ a, off_screen a → m' !! a = m !! a.

(** [m] became [m'] by drawing the picture [p]. *)
Definition draws (m m' : mem) (p : picture) : Prop := shows m' p ∧ same_outside m m'.

#[export] Instance same_outside_preorder : PreOrder same_outside.
Proof.
  split; [by intros m a|]. intros m1 m2 m3 H1 H2 a Ha. rewrite H2 by done. by apply H1.
Qed.

Lemma shows_ext m p q : shows m p → (∀ x y, on_screen x y → p x y = q x y) → shows m q.
Proof. intros H E x y Hxy. rewrite <- E by done. by apply H. Qed.

Lemma draws_ext m m' p q : draws m m' p → (∀ x y, on_screen x y → p x y = q x y) → draws m m' q.
Proof. intros [H H'] E. split; [|done]. by eapply shows_ext. Qed.

Lemma draws_trans m m1 m2 p q : draws m m1 p → draws m1 m2 q → draws m m2 q.
Proof. intros [_ H1] [H2 H3]. split; [done|]. by transitivity m1. Qed.

Lemma shows_mapped m p x y : shows m p → on_screen x y → mapped m (pix x y) 4.
Proof. intros H Hxy. specialize (H x y Hxy). apply bytes_at_mapped in H. by rewrite le_bytes_length in H. Qed.

Context (Hv : canvas_ok).

Lemma pix_disjoint x y x' y' : on_screen x y → on_screen x' y' → (x, y) ≠ (x', y') →
  pix x y + 4 ≤ pix x' y' ∨ pix x' y' + 4 ≤ pix x y.
Proof using Hv.
  destruct Hv. unfold on_screen, pix. intros [Hx Hy] [Hx' Hy'] Hne. destruct (Z.lt_trichotomy y y') as [H | [-> | H]].
  - left. assert ((y + 1) * pitch (fb v) ≤ y' * pitch (fb v)) by (apply Z.mul_le_mono_nonneg_r; lia). lia.
  - assert (x ≠ x') by congruence. lia.
  - right. assert ((y' + 1) * pitch (fb v) ≤ y * pitch (fb v)) by (apply Z.mul_le_mono_nonneg_r; lia). lia.
Qed.

Lemma pix_range x y : on_screen x y → 0 ≤ y * pitch (fb v) ∧ y * pitch (fb v) + x * 4 + 4 ≤ pitch (fb v) * height (fb v).
Proof using Hv.
  destruct Hv. intros [Hx Hy]. split; [nia|].
  assert ((y + 1) * pitch (fb v) ≤ height (fb v) * pitch (fb v)) by (apply Z.mul_le_mono_nonneg_r; lia). lia.
Qed.

Lemma get_pixel_addr_ok x y : on_screen x y → fb_get_pixel_addr v x y = pix x y.
Proof using Hv.
  intros H. pose proof (pix_range x y H). destruct Hv, H. unfold fb_get_pixel_addr, pix. rewrite co_pixel0. unwrap. done.
Qed.

Lemma write_pixel_shows m p x y c : shows m p → on_screen x y →
  draws m (write_bytes m (pix x y) (le_bytes 4 c)) (paint x y c p).
Proof using Hv.
  intros H Hxy. split.
  - intros x' y' Hxy'. unfold paint. destruct (Z.eqb_spec x' x) as [->|]; destruct (Z.eqb_spec y' y) as [->|]; cbn [andb].
    1: apply write_bytes_at.
    all: apply write_bytes_bytes_at; [by apply H|]; rewrite !le_bytes_length; apply pix_disjoint; congruence.
  - intros a Ha. rewrite write_bytes_lookup, decide_False; [done|]. rewrite le_bytes_length. by apply Ha.
Qed.

Lemma put_pixel_ok m p x y c : shows m p → on_screen x y →
  ∃ m', put_pixel m (pix x y) c = Ret m' ∧ draws m m' (paint x y c p).
Proof using Hv.
  intros H Hxy. eexists. split; [|by apply write_pixel_shows]. unfold put_pixel. apply store_le_bytes. by eapply shows_mapped.
Qed.

(** *** Filling *)
Lemma fill_column m p x y ye c : shows m p → 0 ≤ x < width (fb v) → 0 ≤ y → ye ≤ height (fb v) →
  ∃ m', forZ y ye (λ _y m,
      put_pixel m (u64 (addr (fb v) + u32 (x * pixel_size (fb v)) + u32 (_y * pitch (fb v)))) c) m = Ret m' ∧
    draws m m' (overlay x y 1 (ye - y) (λ _ _, c) p).
Proof using Hv.
  intros H Hx Hy Hye.
  destruct (forZ_max (λ j m', draws m m' (overlay x y 1 (j - y) (λ _ _, c) p)) y ye (λ _y m,
    put_pixel m (u64 (addr (fb v) + u32 (x * pixel_size (fb v)) + u32 (_y * pitch (fb v)))) c) m) as (m' & E & Hm').
  - split; [|done]. eapply shows_ext; [exact H|]. intros px py _. unfold overlay, in_box. zcases; cbn; lia || done.
  - intros j m1 Hj [H1 H1']. assert (on_screen x j) as Hon by (split; lia).
    replace (u64 _) with (pix x j).
    2:{ rewrite <- get_pixel_addr_ok by done. unfold fb_get_pixel_addr. f_equal. lia. }
    destruct (put_pixel_ok m1 _ x j c H1 Hon) as (m2 & E2 & H2). exists m2. split; [done|].
    eapply draws_ext; [eapply draws_trans; [by split|exact H2]|].
    intros px py _. unfold paint, overlay, in_box. zcases; cbn; lia || done.
  - exists m'. split; [done|]. eapply draws_ext; [exact Hm'|].
    intros px py _. unfold overlay, in_box. zcases; cbn; lia || done.
Qed.

Lemma fill_rect_ok m p x y sx sy c : shows m p → 0 ≤ x → 0 ≤ y → 0 ≤ sx → 0 ≤ sy → x + sx < 2 ^ 32 → y + sy < 2 ^ 32 →
  ∃ m', vcanvas_fill_rect v x y sx sy c m = Ret m' ∧ draws m m' (overlay x y sx sy (λ _ _, c) p).
Proof using Hv.
  intros H Hx Hy Hsx Hsy Hex Hey. destruct Hv as [_ _ Hw Hh _ _]. unfold vcanvas_fill_rect. rewrite !c_min_spec.
  rewrite (u32_id (x + sx)), (u32_id (y + sy)) by lia.
  set (xe := s32 (Z.min (x + sx) (width (fb v)))). set (ye := s32 (Z.min (y + sy) (height (fb v)))).
  assert (xe = Z.min (x + sx) (width (fb v))) as Exe by (apply s32_id; lia).
  assert (ye = Z.min (y + sy) (height (fb v))) as Eye by (apply s32_id; lia). clearbody xe ye.
  destruct (forZ_max (λ i m', draws m m' (overlay x y (i - x) (ye - y) (λ _ _, c) p)) x xe (λ _x m,
    forZ y ye (λ _y m, put_pixel m (u64 (addr (fb v) + u32 (_x * pixel_size (fb v)) + u32 (_y * pitch (fb v)))) c) m) m)
    as (m' & E & Hm').
  - split; [|done]. eapply shows_ext; [exact H|]. intros px py _. unfold overlay, in_box. zcases; cbn; lia || done.
  - intros i m1 Hi H1. destruct (fill_column m1 _ i y ye c (proj1 H1)) as (m2 & E2 & H2); [lia..|].
    exists m2. split; [done|]. eapply draws_ext; [eapply draws_trans; [exact H1|exact H2]|].
    intros px py _. unfold overlay, in_box. zcases; cbn; lia || done.
  - exists m'. split; [done|]. eapply draws_ext; [exact Hm'|].
    intros px py [Hpx Hpy]. unfold overlay, in_box. zcases; cbn; lia || done.
Qed.
End screen.

(** *** Viewports *)
Section viewport.
Context (v : vcanvas_t) (Hv : canvas_ok v) (w : viewport_t).

Record viewport_ok : Prop := ViewportOk {
  vo_x : 0 ≤ pos_x w; vo_y : 0 ≤ pos_y w; vo_sx : 0 ≤ size_x w; vo_sy : 0 ≤ size_y w;
  vo_right : pos_x w + size_x w ≤ width (fb v); vo_bottom : pos_y w + size_y w ≤ height (fb v) }.

Context (Hw : viewport_ok).

(** A coordinate of the viewport, as the unsigned comparison sees it. *)
Definition in_viewport (x y : Z) : bool := (0 <=? x) && (x <? size_x w) && (0 <=? y) && (y <? size_y w).

Lemma unsigned_limit x n : - 2 ^ 31 ≤ x < 2 ^ 31 → 0 ≤ n < 2 ^ 31 → (n <=? u32 x) = negb ((0 <=? x) && (x <? n)).
Proof.
  intros Hx Hn. destruct (Z.leb_spec 0 x).
  - rewrite u32_id by lia. zcases; cbn; lia || done.
  - assert (u32 x = x + 2 ^ 32) as ->. { unfold u32. symmetry. apply (Z.mod_unique _ _ (-1)); lia. }
    zcases; cbn; lia || done.
Qed.

Lemma viewport_small : size_x w < 2 ^ 31 ∧ size_y w < 2 ^ 31.
Proof using Hv Hw. destruct Hv, Hw. lia. Qed.

Lemma outside_viewport_ok x y : - 2 ^ 31 ≤ x < 2 ^ 31 → - 2 ^ 31 ≤ y < 2 ^ 31 →
  outside_viewport w x y = negb (in_viewport x y).
Proof using Hv Hw.
  intros Hx Hy. pose proof viewport_small. destruct Hw. unfold outside_viewport, in_viewport.
  rewrite !unsigned_limit by lia. by rewrite <- !negb_andb, andb_assoc.
Qed.

Lemma clip_size_ok x n limit : 0 ≤ x < limit → limit < 2 ^ 31 → 0 ≤ n → x + n < 2 ^ 32 →
  clip_size x n limit = Z.min n (limit - x).
Proof. intros. unfold clip_size. rewrite (u32_id (x + n)), (u32_id (limit - x)) by lia. zcases; lia. Qed.

Lemma viewport_fill_rect_ok m p x y sx sy c : shows v m p → - 2 ^ 31 ≤ x < 2 ^ 31 → - 2 ^ 31 ≤ y < 2 ^ 31 →
  0 ≤ sx → 0 ≤ sy → x + sx < 2 ^ 32 → y + sy < 2 ^ 32 →
  ∃ m', viewport_fill_rect v w x y sx sy c m = Ret m' ∧
    draws v m m' (if in_viewport x y then
      overlay (pos_x w + x) (pos_y w + y) (Z.min sx (size_x w - x)) (Z.min sy (size_y w - y)) (λ _ _, c) p else p).
Proof using Hv Hw.
  intros H Hx Hy Hsx Hsy Hex Hey. pose proof viewport_small. unfold viewport_fill_rect. rewrite outside_viewport_ok by done.
  destruct (in_viewport x y) eqn:E; cbn [negb]; [|by exists m].
  unfold in_viewport in E. rewrite !andb_true_iff, !Z.leb_le, !Z.ltb_lt in E. destruct Hv, Hw.
  rewrite !s32_id, !clip_size_ok by lia. apply (fill_rect_ok v Hv); lia || done.
Qed.

(** *** Glyphs *)

(** The picture of a glyph at [x], [y]: its first byte on every line gives the
    colours, from the bit of the font's width down. *)
Definition glyph_picture (fw : Z) (rows : Z → Z) (x y fg bg : Z) : picture :=
  λ px py, if Z.testbit (rows (py - y)) (fw - 1 - (px - x)) then fg else bg.

(** The first bytes of the lines of a glyph, outside the screen. *)
Definition glyph_at (m : mem) (font : psf_t) (glyph : Z) (rows : Z → Z) : Prop :=
  ∀ r, 0 ≤ r < fheight font → let a := glyph + r * ((fwidth font + 7) / 8) in m !! a = Some (rows r) ∧ off_screen v a.

Lemma glyph_at_same m m' font glyph rows : same_outside v m m' → glyph_at m font glyph rows → glyph_at m' font glyph rows.
Proof. intros Hs H r Hr. destruct (H r Hr) as [E Ho]. split; [|done]. by rewrite Hs. Qed.

Record font_ok (font : psf_t) : Prop := FontOk {
  fo_width : 1 ≤ fwidth font ≤ 31; fo_height : 0 ≤ fheight font < 2 ^ 16 }.

Lemma draw_line_ok m p glyph b x y lx fw fg bg : shows v m p → m !! glyph = Some b → off_screen v glyph →
  0 ≤ x → 0 ≤ lx ≤ fw → fw ≤ 31 → x + lx ≤ width (fb v) → 0 ≤ y < height (fb v) →
  ∃ m', draw_line v glyph x y lx fg bg (2 ^ (fw - 1)) m = Ret m' ∧
    draws v m m' (overlay x y lx 1 (glyph_picture fw (λ _, b) x y fg bg) p).
Proof using Hv.
  intros H Hb Hoff Hx Hlx Hfw Hex Hy. unfold draw_line.
  match goal with |- context [forZ 0 lx ?f ?a] =>
    destruct (forZ_inv (λ i '(m', mask), draws v m m' (overlay x y i 1 (glyph_picture fw (λ _, b) x y fg bg) p) ∧
      mask = Z.shiftr (2 ^ (fw - 1)) i) 0 lx f a) as ([m' mask] & E & Hm' & _) end.
  - lia.
  - split; [|by rewrite Z.shiftr_0_r]. split; [|done]. eapply shows_ext; [exact H|].
    intros px py _. unfold overlay, in_box. zcases; cbn; lia || done.
  - intros i [m1 mask] Hi [H1 ->]. rewrite (load8_at _ _ b), bind_ret by (rewrite (proj2 H1); done).
    assert (on_screen v (x + i) y) as Hon by (split; lia). destruct Hv as [_ _ Hcw _ _ _]. rewrite s32_id, get_pixel_addr_ok by (done || lia).
    assert (truth (Z.land b (Z.shiftr (2 ^ (fw - 1)) i)) = Z.testbit b (fw - 1 - i)) as ->.
    { rewrite Z.shiftr_div_pow2, <- Z.pow_sub_r by lia. unfold truth. by rewrite land_pow2_eqb, negb_involutive by lia. }
    destruct (put_pixel_ok v Hv m1 _ (x + i) y (if Z.testbit b (fw - 1 - i) then fg else bg) (proj1 H1) Hon) as (m2 & -> & H2).
    rewrite bind_ret. eexists. split; [done|]. split.
    2: by rewrite Z.shiftr_shiftr by lia.
    eapply draws_ext; [eapply draws_trans; [exact H1|exact H2]|]. intros px py _. unfold paint, overlay, in_box, glyph_picture.
    destruct (Z.eqb_spec px (x + i)) as [->|]; [|zcases; cbn; lia || done].
    replace (x + i - x) with i by lia. zcases; cbn; lia || done.
  - rewrite E, bind_ret. by exists m'.
Qed.

Lemma draw_glyph_ok m p font glyph rows x y mx my fg bg : shows v m p → font_ok font → glyph_at m font glyph rows →
  0 ≤ x → 0 ≤ y → 0 ≤ mx → 0 ≤ my → x + Z.min (fwidth font) mx ≤ width (fb v) → y + Z.min (fheight font) my ≤ height (fb v) →
  ∃ m', vcanvas_draw_glyph v font glyph x y mx my fg bg m = Ret m' ∧
    draws v m m' (overlay x y (Z.min (fwidth font) mx) (Z.min (fheight font) my)
      (glyph_picture (fwidth font) rows x y fg bg) p).
Proof using Hv.
  intros H [Hfw Hfh] Hg Hx Hy Hmx Hmy Hex Hey. unfold vcanvas_draw_glyph. rewrite !c_min_spec.
  set (lx := Z.min (fwidth font) mx) in *. set (ly := Z.min (fheight font) my) in *.
  assert (0 ≤ lx ≤ fwidth font ∧ 0 ≤ ly ≤ fheight font) as Hl by lia. clearbody lx ly.
  rewrite (u32_id (fwidth font + 7)) by lia. set (bpl := (fwidth font + 7) / 8) in *.
  match goal with |- context [forZ 0 ly ?f ?a] =>
    destruct (forZ_inv (λ i '(m', g), draws v m m' (overlay x y lx i (glyph_picture (fwidth font) rows x y fg bg) p) ∧
      g = glyph + i * bpl) 0 ly f a) as ([m' g] & E & Hm' & _) end.
  - lia.
  - split; [|lia]. split; [|done]. eapply shows_ext; [exact H|].
    intros px py _. unfold overlay, in_box. zcases; cbn; lia || done.
  - intros i [m1 g] Hi [H1 ->]. unfold shl1. rewrite (u32_id (fwidth font - 1)) by lia. zdec. cbn [orb]. rewrite bind_ret.
    assert (s32 (Z.shiftl 1 (fwidth font - 1)) = 2 ^ (fwidth font - 1)) as ->.
    { rewrite Z.shiftl_1_l. apply s32_id. pose proof (Z.pow_le_mono_r 2 (fwidth font - 1) 30). lia. }
    destruct (glyph_at_same _ _ _ _ _ (proj2 H1) Hg i ltac:(lia)) as [Eb Hoff]. fold bpl in Eb, Hoff.
    rewrite (s32_id (y + i)) by (destruct Hv; lia).
    destruct (draw_line_ok m1 _ _ _ x (y + i) lx (fwidth font) fg bg (proj1 H1) Eb Hoff) as (m2 & -> & H2); [lia..|].
    rewrite bind_ret. eexists. split; [done|]. split; [|lia].
    eapply draws_ext; [eapply draws_trans; [exact H1|exact H2]|]. intros px py _. unfold overlay, in_box, glyph_picture.
    destruct (Z.eqb_spec py (y + i)) as [->|]; [|zcases; cbn; lia || done].
    replace (y + i - y) with i by lia. zcases; cbn; lia || done.
  - rewrite E, bind_ret. by exists m'.
Qed.

(** *** Text *)

(** The glyph the code draws for each character, outside the screen. *)
Definition glyphs_at (m : mem) (font : psf_t) (rows : Z → Z → Z) : Prop :=
  ∀ c, 0 ≤ c < 2 ^ 8 → glyph_at m font (font_get_glyph font c) (rows c).

(** A string outside the screen. *)
Definition text_at (m : mem) (text : Z) (s : list Z) : Prop :=
  cstr m text s ∧ ∀ i, 0 ≤ i ≤ Z.of_nat (length s) → off_screen v (text + i).

Lemma text_at_same m m' text s : same_outside v m m' → text_at m text s → text_at m' text s.
Proof.
  intros Hs [[Hb Hc] Ho]. split; [|done]. split; [|done]. intros i b Hi. rewrite Hs; [by apply Hb|].
  apply Ho. apply lookup_lt_Some in Hi. rewrite length_app in Hi. cbn in Hi. lia.
Qed.

Lemma text_byte m text s i : text_at m text s → (i ≤ length s)%nat → load8 m (text + Z.of_nat i) = Ret (nth i s 0).
Proof.
  intros [[Hb _] _] Hi. apply load8_at. apply Hb. destruct (decide (i = length s)) as [->|].
  - by rewrite lookup_app_r, Nat.sub_diag, nth_overflow by lia.
  - rewrite lookup_app_l by lia. destruct (lookup_lt_is_Some_2 s i) as [b Eb]; [lia|].
    by rewrite Eb, (nth_lookup_Some _ _ 0 _ Eb).
Qed.

Lemma draw_char_ok m p font rows x y fg bg c : shows v m p → font_ok font → glyphs_at m font rows →
  in_viewport x y = true → 0 ≤ c < 2 ^ 8 →
  ∃ m', viewport_draw_char v font w x y fg bg c m = Ret m' ∧
    draws v m m' (overlay (pos_x w + x) (pos_y w + y) (Z.min (fwidth font) (size_x w - x))
      (Z.min (fheight font) (size_y w - y)) (glyph_picture (fwidth font) (rows c) (pos_x w + x) (pos_y w + y) fg bg) p).
Proof using Hv Hw.
  intros H Hf Hg E Hc. pose proof E as E'. unfold in_viewport in E'. rewrite !andb_true_iff, !Z.leb_le, !Z.ltb_lt in E'.
  pose proof viewport_small. pose proof Hf as [? ?].
  unfold viewport_draw_char. rewrite outside_viewport_ok, E by lia. cbn [negb].
  rewrite !clip_size_ok by lia. destruct Hv, Hw. rewrite !s32_id by lia.
  destruct (draw_glyph_ok m p font _ (rows c) (pos_x w + x) (pos_y w + y) (Z.min (fwidth font) (size_x w - x))
    (Z.min (fheight font) (size_y w - y)) fg bg H Hf (Hg c Hc)) as (m' & Em & Hm'); [lia..|].
  exists m'. split; [exact Em|]. eapply draws_ext; [exact Hm'|]. intros px py _. unfold overlay, in_box. zcases; cbn; lia || done.
Qed.

(** A line of text at [x], [y] of the screen: column [px] belongs to character
    [(px - x) / width]. *)
Definition text_picture (font : psf_t) (rows : Z → Z → Z) (s : list Z) (x y fg bg : Z) : picture := λ px py,
  let k := (px - x) / fwidth font in
  glyph_picture (fwidth font) (rows (nth (Z.to_nat k) s 0)) (x + k * fwidth font) y fg bg px py.

(** One more character of the line. *)
Lemma text_step font rows s x y fg bg k lim h p px py : 1 ≤ fwidth font → 0 ≤ k → k * fwidth font < lim →
  overlay (x + k * fwidth font) y (Z.min (fwidth font) (lim - k * fwidth font)) h
    (glyph_picture (fwidth font) (rows (nth (Z.to_nat k) s 0)) (x + k * fwidth font) y fg bg)
    (overlay x y (Z.min (k * fwidth font) lim) h (text_picture font rows s x y fg bg) p) px py =
  overlay x y (Z.min ((k + 1) * fwidth font) lim) h (text_picture font rows s x y fg bg) p px py.
Proof.
  intros Hw1 Hk Hlim. unfold overlay. destruct (in_box (x + k * _) _ _ _ px py) eqn:E; unfold in_box in *.
  - rewrite !andb_true_iff, !Z.leb_le, !Z.ltb_lt in E. zdec. cbn [andb]. unfold text_picture.
    assert ((px - x) / fwidth font = k) as -> by (symmetry; apply (Z.div_unique_pos _ _ _ (px - x - k * fwidth font)); lia).
    done.
  - revert E. zcases; cbn; lia || done.
Qed.

Lemma draw_text_loop font rows s x y fg bg tl p : font_ok font → in_viewport x y = true → 0 ≤ tl < 2 ^ 31 →
  x + Z.of_nat (length s) * fwidth font < 2 ^ 31 →
  let n := Z.min (Z.of_nat (length s)) tl in
  ∀ fuel k m, n - k < Z.of_nat fuel → 0 ≤ k ≤ n → glyphs_at m font rows → ∀ text, text_at m text s →
  let area k := overlay (pos_x w + x) (pos_y w + y) (Z.min (k * fwidth font) (size_x w - x)) (Z.min (fheight font) (size_y w - y))
    (text_picture font rows s (pos_x w + x) (pos_y w + y) fg bg) p in
  shows v m (area k) →
  ∃ m', loop fuel (λ '(char_idx, c, m),
    b ← load8 m c;
    if negb (truth b && (char_idx <? u32 tl)) then Ret (inr m) else
    let rx := s32 (x + char_idx * fwidth font) in
    if outside_viewport w rx y then Ret (inr m) else
    m ← viewport_draw_char v font w rx y fg bg b m;
    Ret (inl (u32 (char_idx + 1), c + 1, m))) (k, text + k, m) = Ret m' ∧ draws v m m' (area n).
Proof using Hv Hw.
  intros Hf Hin Htl Hlen n. induction fuel as [|fuel IH]; intros k m Hfuel Hk Hg text Ht area Hs; [lia|].
  pose proof Hf as [Hfw _]. pose proof Hin as Hin'. unfold in_viewport in Hin'. rewrite !andb_true_iff, !Z.leb_le, !Z.ltb_lt in Hin'.
  rewrite loop_step by lia. cbn beta iota. replace (text + k) with (text + Z.of_nat (Z.to_nat k)) by lia.
  rewrite (text_byte _ _ _ _ Ht), bind_ret by lia. rewrite (u32_id tl) by lia.
  destruct (Z.eq_dec k n) as [->|Hne].
  { assert (truth (nth (Z.to_nat n) s 0) && (n <? tl) = false) as ->.
    { destruct (Z.ltb_spec n tl); [|by rewrite andb_false_r]. by rewrite nth_overflow by lia. }
    cbn [negb]. exists m. split; [done|]. by split. }
  assert (0 < nth (Z.to_nat k) s 0 < 2 ^ 8) as Hc.
  { destruct Ht as [[_ Hc] _]. apply (proj1 (Forall_nth _ 0 s) Hc). lia. }
  rewrite truth_nonzero by lia. zdec. cbn [andb negb]. cbv zeta. rewrite s32_id by nia.
  assert (0 ≤ k * fwidth font) by nia. assert (k * fwidth font ≤ Z.of_nat (length s) * fwidth font) by nia.
  pose proof viewport_small. rewrite outside_viewport_ok by lia.
  destruct (in_viewport (x + k * fwidth font) y) eqn:E; cbn [negb].
  2:{ exists m. split; [done|]. split; [|done]. eapply shows_ext; [exact Hs|]. intros px py _.
      assert (size_x w - x ≤ k * fwidth font) 
        by (apply Z.nlt_ge; intros Hlt; revert E; unfold in_viewport; zdec; done).
      unfold area. rewrite !(Z.min_r _ (size_x w - x)) by nia. done. }
  destruct (draw_char_ok m _ font rows (x + k * fwidth font) y fg bg (nth (Z.to_nat k) s 0) Hs Hf Hg E ltac:(lia)) as (m1 & -> & Hd1).
  rewrite bind_ret, (u32_id (k + 1)) by lia.
  destruct (IH (k + 1) m1 ltac:(lia) ltac:(lia)) with (text := text) as (m' & E' & Hm').
  - intros c Hc'. eapply glyph_at_same; [apply Hd1|by apply Hg].
  - eapply text_at_same; [apply Hd1|done].
  - eapply shows_ext; [apply Hd1|]. intros px py _.
    assert (k * fwidth font < size_x w - x) as Hk'
      by (unfold in_viewport in E; rewrite !andb_true_iff, !Z.leb_le, !Z.ltb_lt in E; lia).
    rewrite <- text_step by lia. unfold area. by rewrite (Z.add_assoc (pos_x w)), Z.sub_add_distr.
  - exists m'. replace (text + Z.of_nat (Z.to_nat k) + 1) with (text + (k + 1)) by lia.
    rewrite (u32_id tl) in E' by lia. rewrite bind_ret, Nat.sub_1_r. split; [exact E'|]. by eapply draws_trans.
Qed.

(** *** Moving rectangles *)

(** The bytes of [n] pixels from [x], [y] on. *)
Definition pixel_row (p : picture) (x y : Z) (n : nat) : list Z := flat_map (λ i, le_bytes 4 (p (x + Z.of_nat i) y)) (seq 0 n).

Lemma pixel_row_S p x y n : pixel_row p x y (S n) = pixel_row p x y n ++ le_bytes 4 (p (x + Z.of_nat n) y).
Proof. unfold pixel_row. rewrite seq_S, flat_map_app. cbn [flat_map Nat.add]. by rewrite app_nil_r. Qed.

Lemma pixel_row_length p x y n : length (pixel_row p x y n) = (4 * n)%nat.
Proof. induction n as [|n IH]; [done|]. rewrite pixel_row_S, length_app, le_bytes_length, IH. lia. Qed.

Lemma pixel_row_is_bytes p x y n : is_bytes (pixel_row p x y n).
Proof.
  induction n as [|n IH]; [constructor|]. rewrite pixel_row_S. apply Forall_app. split; [done|apply le_bytes_is_bytes].
Qed.

Lemma row_shown m p x y n : shows v m p → 0 ≤ x → x + Z.of_nat n ≤ width (fb v) → 0 ≤ y < height (fb v) →
  bytes_at m (pix v x y) (pixel_row p x y n).
Proof.
  intros H Hx Hn Hy. induction n as [|n IH]; [apply bytes_at_nil|]. rewrite pixel_row_S. apply bytes_at_app.
  split; [apply IH; lia|]. rewrite pixel_row_length. replace (pix v x y + _) with (pix v (x + Z.of_nat n) y) by (unfold pix; lia).
  apply H. split; lia.
Qed.

Lemma write_row_shows m p q x y x0 y0 n : shows v m p → 0 ≤ x → x + Z.of_nat n ≤ width (fb v) → 0 ≤ y < height (fb v) →
  draws v m (write_bytes m (pix v x y) (pixel_row q x0 y0 n)) (overlay x y (Z.of_nat n) 1 (λ px py, q (px - x + x0) y0) p).
Proof using Hv.
  intros H Hx Hn Hy. induction n as [|n IH].
  - split; [|done]. eapply shows_ext; [exact H|]. intros px py _. unfold overlay, in_box. zcases; cbn; lia || done.
  - specialize (IH ltac:(lia)). rewrite pixel_row_S, write_bytes_app, pixel_row_length.
    replace (pix v x y + _) with (pix v (x + Z.of_nat n) y) by (unfold pix; lia).
    eapply draws_ext; [eapply draws_trans; [exact IH|]; apply (write_pixel_shows v Hv); [apply IH|split; lia]|].
    intros px py _. unfold paint, overlay, in_box. destruct (Z.eqb_spec px (x + Z.of_nat n)) as [->|].
    + replace (x + Z.of_nat n - x + x0) with (x0 + Z.of_nat n) by lia. zcases; cbn; lia || done.
    + zcases; cbn; lia || done.
Qed.

Lemma rows_disjoint x y x' y' n : 0 ≤ x → x + n ≤ width (fb v) → 0 ≤ x' → x' + n ≤ width (fb v) → y ≠ y' →
  pix v x y + 4 * n ≤ pix v x' y' ∨ pix v x' y' + 4 * n ≤ pix v x y.
Proof using Hv.
  destruct Hv. unfold pix. intros ???? Hne. destruct (Z.lt_total y y') as [H' | [H' | H']]; [left|done|right].
  - assert ((y + 1) * pitch (fb v) ≤ y' * pitch (fb v)) by (apply Z.mul_le_mono_nonneg_r; lia). lia.
  - assert ((y' + 1) * pitch (fb v) ≤ y * pitch (fb v)) by (apply Z.mul_le_mono_nonneg_r; lia). lia.
Qed.

(** A rectangle of the viewport. *)
Definition box_ok (x y sx sy : Z) : Prop := 0 ≤ x ∧ 0 ≤ y ∧ 1 ≤ sx ∧ 1 ≤ sy ∧ x + sx ≤ size_x w ∧ y + sy ≤ size_y w.

Lemma copy_unsafe_ok fuel m p x0 y0 sx sy x1 y1 : shows v m p → box_ok x0 y0 sx sy → box_ok x1 y1 sx sy →
  y0 + sy ≤ y1 ∨ y1 + sy ≤ y0 → 4 * sx < Z.of_nat fuel →
  ∃ m', viewport_copy_rect_unsafe fuel v w x0 y0 sx sy x1 y1 m = Ret m' ∧
    draws v m m' (overlay (pos_x w + x1) (pos_y w + y1) sx sy (λ px py, p (px - x1 + x0) (py - y1 + y0)) p).
Proof using Hv Hw.
  intros H (? & ? & ? & ? & ? & ?) (? & ? & ? & ? & ? & ?) Hd Hf. unfold viewport_copy_rect_unsafe.
  pose proof Hv as [_ Hpx ? ? ? _]. pose proof Hw as [? ? ? ? ? ?].
  rewrite !(get_pixel_addr_ok v Hv), !s32_id by (rewrite ?s32_id by lia; split; lia).
  rewrite Hpx, u32_id by lia. set (X0 := pos_x w + x0). set (Y0 := pos_y w + y0). set (X1 := pos_x w + x1). set (Y1 := pos_y w + y1).
  set (q := λ px py, p (px - x1 + x0) (py - y1 + y0)).
  match goal with |- context [forZ 0 sy ?f ?a] =>
    destruct (forZ_inv (λ i '(m', src, dst), draws v m m' (overlay X1 Y1 sx i q p) ∧
      src = pix v X0 (Y0 + i) ∧ dst = pix v X1 (Y1 + i)) 0 sy f a) as ([[m' src] dst] & E & Hm' & _) end.
  - lia.
  - rewrite !Z.add_0_r. split; [|done]. split; [|done]. eapply shows_ext; [exact H|].
    intros px py _. unfold overlay, in_box. zcases; cbn; lia || done.
  - intros i [[m1 src] dst] Hi (Hd1 & -> & ->).
    pose proof (row_shown m1 _ X0 (Y0 + i) (Z.to_nat sx) (proj1 Hd1) ltac:(lia) ltac:(lia) ltac:(lia)) as Hrow.
    set (l := pixel_row _ X0 (Y0 + i) (Z.to_nat sx)) in Hrow.
    assert (Z.of_nat (length l) = sx * 4) as Hl by (unfold l; rewrite pixel_row_length; lia).
    rewrite <- Hl, memcpy_ok with (l := l).
    2: done.
    2: apply pixel_row_is_bytes.
    2:{ intros a Ha. pose proof (row_shown m1 _ X1 (Y1 + i) (Z.to_nat sx) (proj1 Hd1) ltac:(lia) ltac:(lia) ltac:(lia)) as Hr.
        apply bytes_at_mapped in Hr. apply Hr. rewrite pixel_row_length. lia. }
    2:{ rewrite Hl. pose proof (rows_disjoint X0 (Y0 + i) X1 (Y1 + i) sx). lia. }
    2-3: lia.
    rewrite bind_ret. eexists. split; [done|]. split; [|unfold pix; lia].
    eapply draws_ext; [eapply draws_trans; [exact Hd1|]; apply write_row_shows; [apply Hd1|lia..]|].
    intros px py _. rewrite Z2Nat.id by lia. unfold overlay. rewrite in_box_rows by lia.
    destruct (in_box X1 (Y1 + i) sx 1 px py) eqn:Eb; cbn [orb]; [|done]. apply in_box_true in Eb.
    assert (in_box X1 Y1 sx i (px - X1 + X0) (Y0 + i) = false) as ->
      by (apply not_true_is_false; rewrite in_box_true; lia).
    unfold q. f_equal; lia.
  - rewrite E, bind_ret. by exists m'.
Qed.

(** A rectangle inside the viewport is moved ... *)
Lemma copy_rect_inside fuel m p x0 y0 sx sy x1 y1 : shows v m p → box_ok x0 y0 sx sy → box_ok x1 y1 sx sy →
  y0 + sy ≤ y1 ∨ y1 + sy ≤ y0 → 4 * sx < Z.of_nat fuel →
  ∃ m', viewport_copy_rect fuel v w x0 y0 sx sy x1 y1 m = Ret m' ∧
    draws v m m' (overlay (pos_x w + x1) (pos_y w + y1) sx sy (λ px py, p (px - x1 + x0) (py - y1 + y0)) p).
Proof using Hv Hw.
  intros H H0 H1 Hd Hf. pose proof H0 as (? & ? & ? & ? & ? & ?). pose proof H1 as (? & ? & ? & ? & ? & ?).
  pose proof viewport_small. pose proof Hw as [? ? ? ? ? ?].
  unfold viewport_copy_rect. rewrite !u32_id by lia. rewrite regions_closed_form.
  2-3: unfold rect_ok, seg_ok; cbn [rx ry offset size]; lia.
  2-5: cbn [rx ry offset size]; lia.
  unfold regions_spec, inner. cbn [rx ry offset size Z.eqb]. zdec. cbn [andb].
  set (rs := [_; _; _; _; _; _; _; _; _]). assert (∀ i, i ≠ 4%nat → exists_ (default zero_region (rs !! i)) = false) as Hno.
  { intros i Hi. do 9 (destruct i as [|i]; [done|]). done. }
  destruct (forZ_inv (λ _ m', m' = m) 0 3 (λ yi m, forZ 0 3 (λ xi m, if (xi =? 1) && (yi =? 1) then Ret m
    else fill_region v w x0 y0 x1 y1 (get_rgn rs (Z.to_nat xi) (Z.to_nat yi)) m) m) m) as (m' & -> & ->); [lia|done|..].
  - intros yi ? Hyi ->. destruct (forZ_inv (λ _ m', m' = m) 0 3 (λ xi m, if (xi =? 1) && (yi =? 1) then Ret m
      else fill_region v w x0 y0 x1 y1 (get_rgn rs (Z.to_nat xi) (Z.to_nat yi)) m) m) as (m' & -> & ->); [lia|done|..].
    + intros xi ? Hxi ->. exists m. split; [|done]. destruct ((xi =? 1) && (yi =? 1)) eqn:E; [done|].
      unfold fill_region, get_rgn. rewrite Hno; [done|]. unfold RGN. revert E. zcases; cbn; intros; lia || done.
    + by exists m.
  - rewrite bind_ret. assert (get_rgn rs 1 1 = Region (Rect (Segment x0 sx) (Segment y0 sy)) true) as ->
      by (cbn; do 3 f_equal; lia). cbn [rgn rx ry offset size]. unfold moved.
    rewrite !Z.sub_diag, !Z.add_0_l, !s32_id by lia. by apply copy_unsafe_ok.
Qed.

(** ... and one below it is filled with the background. *)
Lemma copy_rect_below fuel m p x0 y0 sx sy x1 y1 : shows v m p → 0 ≤ x0 → 1 ≤ sx → x0 + sx < 2 ^ 31 →
  size_y w ≤ y0 → 1 ≤ sy → y0 + sy < 2 ^ 31 → box_ok x1 y1 sx sy →
  ∃ m', viewport_copy_rect fuel v w x0 y0 sx sy x1 y1 m = Ret m' ∧
    draws v m m' (overlay (pos_x w + x1) (pos_y w + y1) sx sy (λ _ _, bg_color v) p).
Proof using Hv Hw.
  intros H Hx Hsx Hxe Hy Hsy Hye (? & ? & ? & ? & ? & ?). pose proof viewport_small. pose proof Hw as [? ? ? ? ? ?].
  unfold viewport_copy_rect. rewrite !u32_id by lia. rewrite no_intersection.
  2-3: unfold rect_ok, seg_ok; cbn [rx ry offset size]; lia.
  2: cbn [rx ry offset size]; lia.
  cbn [Z.eqb]. destruct (viewport_fill_rect_ok m p x1 y1 sx sy (bg_color v) H) as (m' & E & Hm'); [lia..|].
  exists m'. split; [done|]. assert (in_viewport x1 y1 = true) as Ein by (unfold in_viewport; zdec; done). rewrite Ein in Hm'.
  eapply draws_ext; [exact Hm'|]. intros px py _. by rewrite !Z.min_l by lia.
Qed.
End viewport.

(** ** Theorems *)

(** filling a rectangle given in viewport coordinates paints exactly the
    pixels of the rectangle that lie inside the viewport, for every pair of
    coordinates, and writes no byte outside the visible pixels; a rectangle
    whose origin is outside the viewport, to the left or above included, paints
    nothing at all. *)
Theorem viewport_fill_rect_paints v w m p x y sx sy c : canvas_ok v → viewport_ok v w → shows v m p →
  - 2 ^ 31 ≤ x < 2 ^ 31 → - 2 ^ 31 ≤ y < 2 ^ 31 → 0 ≤ sx → 0 ≤ sy → x + sx < 2 ^ 32 → y + sy < 2 ^ 32 →
  ∃ m', viewport_fill_rect v w x y sx sy c m = Ret m' ∧
    draws v m m' (if in_viewport w x y then
      overlay (pos_x w + x) (pos_y w + y) (Z.min sx (size_x w - x)) (Z.min sy (size_y w - y)) (λ _ _, c) p else p).
Proof. intros Hv Hw. by apply viewport_fill_rect_ok. Qed.

(** The glyph table of a font file whose glyphs are 8 pixels wide: after the
    header [bytesperglyph] bytes for each glyph, the first [fheight] of them its
    lines from the top down, [rows g r] line [r] of glyph [g].  The table is
    outside the screen. *)
Definition glyph_table (v : vcanvas_t) (m : mem) (font : psf_t) (rows : Z → Z → Z) : Prop :=
  ∀ g r, 0 ≤ g < numglyph font → 0 ≤ r < fheight font →
    let a := font_at font + headersize font + g * bytesperglyph font + r in m !! a = Some (rows g r) ∧ off_screen v a.

Record byte_font (font : psf_t) : Prop := ByteFont {
  bf_width : fwidth font = 8; bf_height : 0 ≤ fheight font < 2 ^ 16;
  bf_count : 1 ≤ numglyph font; bf_bytes : 0 ≤ bytesperglyph font; bf_size : numglyph font * bytesperglyph font < 2 ^ 32 }.

(** The glyph of a character: its own, or the first where the font has none. *)
Definition glyph_index (font : psf_t) (c : Z) : Z := if c <? numglyph font then c else 0.

(** Eight pixels a character: pixel [(px, py)] of a text at [x], [y] is in line
    [py - y] of the glyph of character [(px - x) / 8], the leftmost of the
    eight being bit 7. *)
Definition byte_text (font : psf_t) (rows : Z → Z → Z) (s : list Z) (x y fg bg : Z) : picture := λ px py,
  let c := nth (Z.to_nat ((px - x) / 8)) s 0 in
  if Z.testbit (rows (glyph_index font c) (py - y)) (7 - (px - x) mod 8) then fg else bg.

Lemma glyph_table_glyphs v m font rows : byte_font font → glyph_table v m font rows →
  glyphs_at v m font (λ c, rows (glyph_index font c)).
Proof.
  intros [Hw Hh Hn Hb Hs] Ht c Hc r Hr. cbv zeta. unfold font_get_glyph, glyph_index. rewrite Hw.
  set (g := if c <? numglyph font then c else 0). assert (0 ≤ g < numglyph font) as Hg by (unfold g; zcases; lia).
  rewrite u32_id by nia. replace ((8 + 7) / 8) with 1 by done. rewrite Z.mul_1_r. exact (Ht g r Hg Hr).
Qed.

Lemma byte_text_picture font rows s x y fg bg px py : fwidth font = 8 →
  text_picture font (λ c, rows (glyph_index font c)) s x y fg bg px py = byte_text font rows s x y fg bg px py.
Proof.
  intros Hw. unfold text_picture, byte_text, glyph_picture. rewrite Hw.
  replace (8 - 1 - (px - (x + (px - x) / 8 * 8))) with (7 - (px - x) mod 8) by (rewrite Z.mod_eq by lia; lia). done.
Qed.

Lemma draw_text_shows v w font rows m p x y fg bg text s tl fuel :
  canvas_ok v → viewport_ok v w → font_ok font → shows v m p → glyphs_at v m font rows → text_at v m text s →
  - 2 ^ 31 ≤ x < 2 ^ 31 → - 2 ^ 31 ≤ y < 2 ^ 31 → 0 ≤ tl < 2 ^ 31 → x + Z.of_nat (length s) * fwidth font < 2 ^ 31 →
  Z.min (Z.of_nat (length s)) tl < Z.of_nat fuel →
  ∃ m', viewport_draw_text fuel v font w x y fg bg text tl m = Ret m' ∧
    draws v m m' (if in_viewport w x y then
      overlay (pos_x w + x) (pos_y w + y)
        (Z.min (Z.min (Z.of_nat (length s)) tl * fwidth font) (size_x w - x)) (Z.min (fheight font) (size_y w - y))
        (text_picture font rows s (pos_x w + x) (pos_y w + y) fg bg) p else p).
Proof.
  intros Hv Hw Hf Hs Hg Ht Hx Hy Htl Hlen Hfuel. unfold viewport_draw_text. rewrite (outside_viewport_ok v Hv w Hw) by done.
  destruct (in_viewport w x y) eqn:E; cbn [negb]; [|by exists m].
  destruct (draw_text_loop v Hv w Hw font rows s x y fg bg tl p Hf E Htl Hlen fuel 0 m ltac:(lia) ltac:(lia) Hg text Ht)
    as (m' & Em & Hm').
  - eapply shows_ext; [exact Hs|]. intros px py _. unfold overlay, in_box.
    unfold in_viewport in E. rewrite !andb_true_iff, !Z.leb_le, !Z.ltb_lt in E. zcases; cbn; lia || done.
  - exists m'. rewrite Z.add_0_r in Em. by split.
Qed.

(** C37: drawing a text in a viewport, with a font whose glyphs are 8 pixels
    wide, paints for the first [textlen] characters of the string the glyph of
    each at its column - the glyph with the character's number in the font's
    table, or glyph 0 where the font has fewer glyphs - pixel by pixel, the
    foreground colour where the bit of the glyph's line is set and the
    background colour where it is clear, cut at the right and lower edges of the
    viewport; no other pixel changes, and no byte outside the visible pixels.
    A text that starts outside the viewport paints nothing. *)
Theorem viewport_draw_text_paints fuel v w font rows m p x y fg bg text s tl :
  canvas_ok v → viewport_ok v w → byte_font font → shows v m p → glyph_table v m font rows → text_at v m text s →
  - 2 ^ 31 ≤ x < 2 ^ 31 → - 2 ^ 31 ≤ y < 2 ^ 31 → 0 ≤ tl < 2 ^ 31 → x + Z.of_nat (length s) * 8 < 2 ^ 31 →
  Z.min (Z.of_nat (length s)) tl < Z.of_nat fuel →
  ∃ m', viewport_draw_text fuel v font w x y fg bg text tl m = Ret m' ∧
    draws v m m' (if in_viewport w x y then
      overlay (pos_x w + x) (pos_y w + y)
        (Z.min (Z.min (Z.of_nat (length s)) tl * 8) (size_x w - x)) (Z.min (fheight font) (size_y w - y))
        (byte_text font rows s (pos_x w + x) (pos_y w + y) fg bg) p else p).
Proof.
  intros Hv Hw Hf Hs Hg Ht Hx Hy Htl Hlen Hfuel. pose proof Hf as [H8 ? ? ? ?]. rewrite <- H8 in Hlen |- *.
  destruct (draw_text_shows v w font _ m p x y fg bg text s tl fuel Hv Hw ltac:(split; lia) Hs
    (glyph_table_glyphs _ _ _ _ Hf Hg) Ht Hx Hy Htl Hlen Hfuel) as (m' & E & Hm').
  exists m'. split; [exact E|]. eapply draws_ext; [exact Hm'|]. intros px py _.
  destruct (in_viewport w x y); [|done]. unfold overlay. by rewrite byte_text_picture.
Qed.

(** ** Witnesses *)

(** A black screen of 12 by 4 pixels at 4096, with a viewport of 10 by 3 at
    (1, 1). *)
Definition demo_canvas : vcanvas_t := Vcanvas VCANVAS_INITIALIZED_KEY (Fb 4096 12 4 64 4) 7 0 4.
Definition demo_viewport : viewport_t := Viewport 1 1 10 3.
Definition demo_screen : mem :=
  mem_of 4096 (replicate 256 0).

Lemma demo_canvas_ok : canvas_ok demo_canvas.
Proof. split; cbn; lia. Qed.

Lemma demo_viewport_ok : viewport_ok demo_canvas demo_viewport.
Proof. split; cbn; lia. Qed.

Lemma demo_off a : a < 4096 → off_screen demo_canvas a.
Proof. intros Ha x y [Hx Hy]. unfold pix. cbn in *. lia. Qed.

Lemma demo_shows : shows demo_canvas demo_screen (λ _ _, 0).
Proof.
  intros x y [Hx Hy]. cbn in Hx, Hy. unfold demo_screen.
  intros i b Hi. rewrite mem_of_lookup. unfold pix. cbn [demo_canvas fb addr pitch].
  assert (i < 4)%nat by (apply lookup_lt_Some in Hi; by rewrite le_bytes_length in Hi).
  rewrite decide_True by lia. rewrite lookup_replicate_2 by lia. rewrite <- Hi. by do 4 (destruct i as [|i]; [done|]).
Qed.

(** Witness: a rectangle that reaches over the right edge of the viewport. *)
Lemma viewport_fill_rect_paints_witness :
  ∃ m', viewport_fill_rect demo_canvas demo_viewport 8 1 5 1 9 demo_screen = Ret m' ∧
    draws demo_canvas demo_screen m' (overlay 9 2 2 1 (λ _ _, 9) (λ _ _, 0)).
Proof.
  apply (viewport_fill_rect_paints demo_canvas demo_viewport demo_screen (λ _ _, 0) 8 1 5 1 9 demo_canvas_ok
    demo_viewport_ok demo_shows); lia.
Defined.

(** A screen of 28 by 4 pixels with a viewport of 20 by 3 at (1, 1), a font of
    three glyphs of 8 by 2 pixels at 64, with a header of 4 bytes, and a text
    with the characters 1, 2 and 65. *)
Definition text_canvas : vcanvas_t := Vcanvas VCANVAS_INITIALIZED_KEY (Fb 4096 28 4 128 4) 7 0 4.
Definition text_viewport : viewport_t := Viewport 1 1 20 3.
Definition text_font : psf_t := Psf 64 4 3 2 2 8.
Definition text_rows (g r : Z) : Z := nth (Z.to_nat (2 * g + r)) [0x3c; 0x42; 0x18; 0x7e; 0xff; 0x81] 0.
Definition text_screen : mem :=
  write_bytes (write_bytes (mem_of 4096 (replicate 512 0)) 68 [0x3c; 0x42; 0x18; 0x7e; 0xff; 0x81]) 80 [1; 2; 65; 0].

Lemma text_off a : a < 4096 → off_screen text_canvas a.
Proof. intros Ha x y [Hx Hy]. unfold pix. cbn in *. lia. Qed.

Lemma text_shows : shows text_canvas text_screen (λ _ _, 0).
Proof.
  intros x y [Hx Hy]. cbn in Hx, Hy. unfold text_screen.
  apply write_bytes_bytes_at; [apply write_bytes_bytes_at|]; [|unfold pix; cbn; lia..].
  intros i b Hi. rewrite mem_of_lookup. unfold pix. cbn [text_canvas fb addr pitch].
  assert (i < 4)%nat by (apply lookup_lt_Some in Hi; by rewrite le_bytes_length in Hi).
  rewrite decide_True by lia. rewrite lookup_replicate_2 by lia. rewrite <- Hi. by do 4 (destruct i as [|i]; [done|]).
Qed.

Lemma text_glyphs : glyph_table text_canvas text_screen text_font text_rows.
Proof.
  intros g r Hg Hr. cbn [text_font numglyph fheight] in Hg, Hr.
  assert (g = 0 ∨ g = 1 ∨ g = 2) as Hg' by lia. assert (r = 0 ∨ r = 1) as Hr' by lia.
  destruct Hg' as [-> | [-> | ->]], Hr' as [-> | ->]; (split; [by vm_compute|by apply text_off]).
Qed.

Lemma text_string : text_at text_canvas text_screen 80 [1; 2; 65].
Proof.
  split; [|intros i Hi; apply text_off; cbn in Hi; lia]. split; [apply write_bytes_at|repeat constructor].
Qed.

(** Witness: three characters at the origin of the viewport, the last one
    without a glyph of its own and cut to four columns. *)
Lemma viewport_draw_text_paints_witness :
  ∃ m', viewport_draw_text 4 text_canvas text_font text_viewport 0 0 7 0 80 5 text_screen = Ret m' ∧
    draws text_canvas text_screen m' (overlay 1 1 20 2 (byte_text text_font text_rows [1; 2; 65] 1 1 7 0) (λ _ _, 0)).
Proof.
  apply (viewport_draw_text_paints 4 text_canvas text_viewport text_font text_rows text_screen (λ _ _, 0) 0 0 7 0 80
    [1; 2; 65] 5); [split; cbn; lia|split; cbn; lia|split; cbn; lia|apply text_shows|apply text_glyphs|
    apply text_string|cbn; lia..].
Defined.
