(* ===== verification/Console.v ===== *)
(** * Consoles (console.c, viewport_console.c, video_console.c)

    The registry of console devices, the text console inside a viewport and the
    console on the whole canvas. *)

From S2P Require Import Prelude Bits Strings Rectangle Vcanvas.

(** ** The device registry (console.c) *)
Definition MAX_CONSOLE_DEVICES : Z := 4.
Definition MAX_DEVNAME_SIZE : Z := 14.

(** A device: its two functions, its name and whether it is enabled. *)
Record console_dev_ent := ConsoleDevEnt { puts_ : Z; putc_ : Z; dev_name : list Z; enabled : bool }.

(** The devices added so far; the other slots are disabled. *)
Definition console_init : list console_dev_ent := [].

(** [devname] is the string's bytes.  The result is 0 or -1. *)
Definition console_add_device (devs : list console_dev_ent) (puts putc : Z) (devname : list Z)
    : outcome (list console_dev_ent * Z) :=
  if MAX_CONSOLE_DEVICES <? Z.of_nat (length devs) then Panic else
  if Z.of_nat (length devs) =? MAX_CONSOLE_DEVICES then Ret (devs, -1) else
  if MAX_DEVNAME_SIZE <=? Z.of_nat (length devname) then Ret (devs, -1) else
  Ret (devs ++ [ConsoleDevEnt puts putc devname true], 0).

(** The device functions called for one character or string, in order. *)
Definition console_putc (devs : list console_dev_ent) : list Z := map putc_ (filter enabled devs).
Definition console_puts (devs : list console_dev_ent) : list Z := map puts_ (filter enabled devs).

(** ** The console on the canvas (video_console.c) *)
Record console_screen := ConsoleScreen { sc_x : Z; sc_y : Z; sc_width : Z; sc_height : Z }.

Definition video_console_init (v : vcanvas_t) (sc : console_screen) : console_screen * Z :=
  if negb (vcanvas_is_initialized v) then (sc, -1) else
  (ConsoleScreen 0 0 (s32 (width (fb v))) (s32 (height (fb v))), 0).

Definition sc_move (sc : console_screen) (x y : Z) : console_screen := ConsoleScreen x y (sc_width sc) (sc_height sc).

Definition video_console_puts (fuel : nat) (v : vcanvas_t) (font : psf_t) (sc : console_screen) (str : Z) (m : mem)
    : outcome (console_screen * mem) :=
  '(x, y, m) ← vcanvas_puts fuel v font (Some (sc_x sc, sc_y sc)) str m; Ret (sc_move sc x y, m).

Definition video_console_putc (v : vcanvas_t) (font : psf_t) (sc : console_screen) (chr : Z) (m : mem)
    : outcome (console_screen * mem) :=
  '(x, y, m) ← vcanvas_putc v font (sc_x sc) (sc_y sc) chr m; Ret (sc_move sc x y, m).

(** ** The console in a viewport (viewport_console.c) *)
Definition VIEWPORT_TEXTBUF_LEN : Z := 4096.

Record textviewport := TextViewport {
  maxchars_x : Z; maxchars_y : Z; textbuf : Z; textbufend : Z; textbuflast : Z;
  tv_viewport : viewport_t; text_wrapping : Z; tv_fg_color : Z; tv_bg_color : Z; fontsize_x : Z; fontsize_y : Z;
  charpos_x : Z; charpos_y : Z; linenum : Z; tv_tabwidth : Z }.

Definition tv_move (t : textviewport) (x y : Z) : textviewport :=
  TextViewport (maxchars_x t) (maxchars_y t) (textbuf t) (textbufend t) (textbuflast t) (tv_viewport t) (text_wrapping t)
    (tv_fg_color t) (tv_bg_color t) (fontsize_x t) (fontsize_y t) x y (linenum t) (tv_tabwidth t).
Definition tv_last (t : textviewport) (last : Z) : textviewport :=
  TextViewport (maxchars_x t) (maxchars_y t) (textbuf t) (textbufend t) last (tv_viewport t) (text_wrapping t)
    (tv_fg_color t) (tv_bg_color t) (fontsize_x t) (fontsize_y t) (charpos_x t) (charpos_y t) (linenum t) (tv_tabwidth t).

Section text.
Context (fuel : nat) (v : vcanvas_t) (font : psf_t).

(** [buf] is the address of [viewport_textbuf], [hello] of the string literal;
    the font's sizes stay 0 where there is no font, and the division by them is
    undefined. *)
Definition viewport_console_init (vs : list viewport_t) (ofont : option psf_t) (buf hello : Z) (m : mem)
    : outcome (list viewport_t * textviewport * mem) :=
  let '(vs, ow) := vcanvas_make_viewport vs 20 20 768 512 in
  w ← deref ow;
  let '(fx, fy) := default (0, 0) (vcanvas_get_fontsize ofont) in
  if (u32 fx =? 0) || (u32 fy =? 0) then Fault else
  let t := TextViewport (s32 (size_x w / u32 fx)) (s32 (size_y w / u32 fy)) buf (buf + VIEWPORT_TEXTBUF_LEN) buf w 1
             0x00ffffaa 0x00111111 fx fy 0 0 0 4 in
  m ← viewport_fill v w (tv_bg_color t) m;
  m ← viewport_draw_text fuel v font w 0 0 (tv_fg_color t) (tv_bg_color t) hello 5 m;
  Ret (vs, t, m).

Definition textviewport_print_char (t : textviewport) (c : Z) (m : mem) : outcome (textviewport * mem) :=
  m ← viewport_draw_char v font (tv_viewport t) (s32 (charpos_x t * fontsize_x t)) (s32 (charpos_y t * fontsize_y t))
        (tv_fg_color t) (tv_bg_color t) c m;
  Ret (tv_move t (s32 (charpos_x t + 1)) (charpos_y t), m).

(** The lines of the text moved up by one. *)
Definition scroll_line (t : textviewport) (m : mem) : outcome mem :=
  let sx := u32 (fontsize_x t * maxchars_x t) in
  let sy := u32 (fontsize_y t) in
  forZ 0 (u32 (maxchars_y t)) (λ i m,
    let pos_y0 := u32 (fontsize_y t * (i + 1)) in
    let pos_y1 := u32 (pos_y0 - sy) in
    viewport_copy_rect fuel v (tv_viewport t) 0 (s32 pos_y0) (s32 sx) (s32 sy) 0 (s32 pos_y1) m) m.

Definition textviewport_scrolldown (t : textviewport) (lines : Z) (m : mem) : outcome (textviewport * mem) :=
  loop fuel (λ '(t, lines, m),
    if truth (charpos_y t) && truth lines then
      m ← scroll_line t m;
      Ret (inl (tv_move t (charpos_x t) (s32 (charpos_y t - 1)), u32 (lines - 1), m))
    else Ret (inr (t, m))) (t, lines, m).

Definition textviewport_newline (t : textviewport) (m : mem) : outcome (textviewport * mem) :=
  let t := tv_move t 0 (s32 (charpos_y t + 1)) in
  if charpos_y t =? maxchars_y t then textviewport_scrolldown t 1 m else Ret (t, m).

Definition textviewport_backspace (t : textviewport) (m : mem) : outcome (textviewport * mem) :=
  if truth (charpos_x t) then
    let t := tv_move t (s32 (charpos_x t - 1)) (charpos_y t) in
    m ← viewport_fill_rect v (tv_viewport t) (s32 (charpos_x t * fontsize_x t)) (s32 (charpos_y t * fontsize_y t))
          (u32 (fontsize_x t)) (u32 (fontsize_y t)) (tv_bg_color t) m;
    Ret (t, m)
  else Ret (t, m).

(** [*(tv.textbuflast++) = c; *tv.textbuflast = 0]: nothing stops at
    [textbufend]. *)
Definition textbuf_push (t : textviewport) (c : Z) (m : mem) : outcome (textviewport * mem) :=
  m ← store8 m (textbuflast t) c;
  m ← store8 m (textbuflast t + 1) 0;
  Ret (tv_last t (textbuflast t + 1), m).

Definition viewport_console_putc (t : textviewport) (c : Z) (m : mem) : outcome (textviewport * mem) :=
  if c =? 9 then
    '(t, m) ← textbuf_push t c m;
    forZ 0 (tv_tabwidth t) (λ _ '(t, m), textviewport_print_char t 32 m) (t, m)
  else if c =? CONSOLE_CHAR_CARRIAGE_RETURN then Ret (t, m)
  else if c =? CONSOLE_CHAR_LINEFEED then
    '(t, m) ← textbuf_push t c m; textviewport_newline t m
  else if c =? CONSOLE_CHAR_BACKSPACE then
    m ← store8 m (textbuflast t) 0;
    textviewport_backspace (tv_last t (textbuflast t - 1)) m
  else
    '(t, m) ← textbuf_push t c m;
    '(t, m) ← (if maxchars_x t <=? charpos_x t then textviewport_newline t m else Ret (t, m));
    textviewport_print_char t c m.

Definition viewport_console_puts (t : textviewport) (str : Z) (m : mem) : outcome (textviewport * mem) :=
  loop fuel (λ '(t, ptr, m),
    c ← load8 m ptr;
    if negb (truth c) then Ret (inr (t, m)) else
    '(t, m) ← viewport_console_putc t c m;
    Ret (inl (t, ptr + 1, m))) (t, str, m).

(** ** Scrolling *)

(** The console fills the viewport with whole lines, each within the width. *)
Record console_ok (t : textviewport) : Prop := ConsoleOk {
  ko_viewport : viewport_ok v (tv_viewport t);
  ko_font : 1 ≤ fontsize_x t ∧ 1 ≤ fontsize_y t;
  ko_cols : 1 ≤ maxchars_x t ∧ fontsize_x t * maxchars_x t ≤ size_x (tv_viewport t);
  ko_rows : 2 ≤ maxchars_y t ∧ fontsize_y t * maxchars_y t = size_y (tv_viewport t) }.

(** The text moved up by a line, with a blank last line. *)
Definition scrolled (t : textviewport) (p : picture) : picture :=
  let w := tv_viewport t in
  overlay (pos_x w) (pos_y w) (fontsize_x t * maxchars_x t) (size_y w)
    (λ px py, if py + fontsize_y t <? pos_y w + size_y w then p px (py + fontsize_y t) else bg_color v) p.

Context (Hv : canvas_ok v).

Lemma scroll_line_ok t m p : console_ok t → shows v m p → 4 * (fontsize_x t * maxchars_x t) < Z.of_nat fuel →
  ∃ m', scroll_line t m = Ret m' ∧ draws v m m' (scrolled t p).
Proof using Hv.
  intros [Hw [Hfx Hfy] [Hc1 Hc2] [Hr1 Hr2]] H Hf. unfold scroll_line.
  pose proof (viewport_small v Hv _ Hw) as [Hsx Hsy]. pose proof Hw as [? ? ? ? ? ?].
  set (w := tv_viewport t) in *. set (fy := fontsize_y t) in *. set (sx := fontsize_x t * maxchars_x t) in *.
  assert (1 ≤ sx) by (unfold sx; nia). assert (size_y w < 2 ^ 30) by (destruct Hv; nia). assert (maxchars_y t ≤ size_y w) by nia.
  rewrite (u32_id sx), (u32_id fy), (u32_id (maxchars_y t)) by nia.
  match goal with |- context [forZ 0 _ ?f m] =>
    destruct (forZ_inv (λ i m', draws v m m' (overlay (pos_x w) (pos_y w) sx (i * fy)
      (λ px py, if py + fy <? pos_y w + size_y w then p px (py + fy) else bg_color v) p)) 0 (maxchars_y t) f m)
    as (m' & E & Hm') end.
  - lia.
  - split; [|done]. eapply shows_ext; [exact H|]. intros px py _. unfold overlay.
    by destruct (in_box _ _ _ _ px py) eqn:Eb; [apply in_box_true in Eb; lia|].
  - intros i m1 Hi Hd. cbv zeta. assert ((i + 1) * fy ≤ maxchars_y t * fy) by nia.
    rewrite (u32_id (fy * (i + 1))), (u32_id (fy * (i + 1) - fy)), !s32_id by nia.
    set (q := overlay _ _ _ _ _ _) in Hd.
    assert (∃ m2, viewport_copy_rect fuel v w 0 (fy * (i + 1)) sx fy 0 (fy * (i + 1) - fy) m1 = Ret m2 ∧
      draws v m1 m2 (overlay (pos_x w) (pos_y w + i * fy) sx fy
        (λ px py, if py + fy <? pos_y w + size_y w then p px (py + fy) else bg_color v) q)) as (m2 & E2 & Hd2).
    { destruct (Z.eq_dec (i + 1) (maxchars_y t)) as [El|].
      - destruct (copy_rect_below v Hv w Hw fuel m1 q 0 (fy * (i + 1)) sx fy 0 (fy * (i + 1) - fy) (proj1 Hd))
          as (m2 & E2 & Hd2); [lia|lia|lia|nia|lia|nia|unfold box_ok; repeat split; nia|].
        exists m2. split; [done|]. eapply draws_ext; [exact Hd2|]. intros px py _. unfold overlay.
        rewrite Z.add_0_r. replace (pos_y w + (fy * (i + 1) - fy)) with (pos_y w + i * fy) by lia.
        destruct (in_box (pos_x w) (pos_y w + i * fy) sx fy px py) eqn:Eb; [|done]. apply in_box_true in Eb. zdec. done.
      - assert ((i + 2) * fy ≤ maxchars_y t * fy) by nia.
        destruct (copy_rect_inside v Hv w Hw fuel m1 q 0 (fy * (i + 1)) sx fy 0 (fy * (i + 1) - fy) (proj1 Hd))
          as (m2 & E2 & Hd2); [unfold box_ok; repeat split; nia|unfold box_ok; repeat split; nia|lia|lia|].
        exists m2. split; [done|]. eapply draws_ext; [exact Hd2|]. intros px py _. unfold overlay.
        rewrite Z.add_0_r. replace (pos_y w + (fy * (i + 1) - fy)) with (pos_y w + i * fy) by lia.
        destruct (in_box (pos_x w) (pos_y w + i * fy) sx fy px py) eqn:Eb; [|done]. apply in_box_true in Eb. zdec.
        unfold q, overlay. replace (px - 0 + 0) with px by lia.
        replace (py - (fy * (i + 1) - fy) + fy * (i + 1)) with (py + fy) by lia.
        destruct (in_box (pos_x w) (pos_y w) sx (i * fy) px (py + fy)) eqn:Eb'; [|done]. apply in_box_true in Eb'. lia. }
    exists m2. split; [exact E2|]. eapply draws_ext; [eapply draws_trans; [exact Hd|exact Hd2]|].
    intros px py _. unfold q, overlay. replace ((i + 1) * fy) with (i * fy + fy) by lia. rewrite in_box_split by nia.
    by destruct (in_box (pos_x w) (pos_y w + i * fy) sx fy px py).
  - exists m'. split; [exact E|]. replace (maxchars_y t * fy) with (size_y w) in Hm' by lia. exact Hm'.
Qed.

(** a new line moves the cursor to the start of the next line; at the last
    line of the viewport it stays there and the text scrolls: every line shows
    what the line below it showed, the last one the canvas's background colour,
    and nothing else on the screen or in memory changes. *)
Theorem textviewport_newline_scrolls t m p : console_ok t → shows v m p → 0 ≤ charpos_y t < maxchars_y t →
  4 * (fontsize_x t * maxchars_x t) < Z.of_nat fuel →
  ∃ t' m', textviewport_newline t m = Ret (t', m') ∧ charpos_x t' = 0 ∧
    (charpos_y t + 1 < maxchars_y t → charpos_y t' = charpos_y t + 1 ∧ m' = m) ∧
    (charpos_y t + 1 = maxchars_y t → charpos_y t' = charpos_y t ∧ draws v m m' (scrolled t p)).
Proof using Hv.
  intros Hok H Hy Hf. pose proof Hok as [Hw ? ? ?]. pose proof (viewport_small v Hv _ Hw).
  assert (maxchars_y t ≤ size_y (tv_viewport t) ∧ 1 ≤ fontsize_x t * maxchars_x t) as [? ?] by nia.
  unfold textviewport_newline. rewrite (s32_id (charpos_y t + 1)) by lia. cbv zeta.
  set (t1 := tv_move t 0 (charpos_y t + 1)). change (charpos_y t1) with (charpos_y t + 1).
  change (maxchars_y t1) with (maxchars_y t). destruct (Z.eqb_spec (charpos_y t + 1) (maxchars_y t)) as [E|E].
  - destruct (scroll_line_ok t1 m p) as (m' & Em & Hm'); [by destruct Hok|done|done|].
    unfold textviewport_scrolldown. rewrite loop_step by lia. cbn beta iota. rewrite truth_nonzero by (cbn; lia).
    cbn [truth Z.eqb negb andb]. rewrite Em, !bind_ret. cbn beta iota. rewrite loop_step by lia. cbn beta iota.
    change (truth (u32 (1 - 1))) with false. rewrite andb_false_r, bind_ret. eexists _, _. split; [done|].
    cbn [charpos_x charpos_y tv_move t1]. rewrite Z.add_simpl_r, (s32_id (charpos_y t)) by lia. split; [done|]. split; [lia|].
    split; [lia|exact Hm'].
  - exists t1, m. split; [done|]. split; [done|]. split; [done|lia].
Qed.
End text.

(** Witness: five columns and three lines of 2 x 1 characters, the cursor on the
    last line. *)
Definition demo_console : textviewport :=
  TextViewport 5 3 0 0 0 demo_viewport 1 7 0 2 1 4 2 0 4.

Lemma textviewport_newline_scrolls_witness :
  ∃ t' m', textviewport_newline 50 demo_canvas demo_console demo_screen = Ret (t', m') ∧ charpos_y t' = 2 ∧
    draws demo_canvas demo_screen m' (scrolled demo_canvas demo_console (λ _ _, 0)).
Proof.
  destruct (textviewport_newline_scrolls 50 demo_canvas demo_canvas_ok demo_console demo_screen (λ _ _, 0))
    as (t' & m' & E & _ & _ & H); [|apply demo_shows|cbn; lia|cbn; lia|].
  - split; [apply demo_viewport_ok|cbn; lia..].
  - destruct (H eq_refl) as [H1 H2]. exists t', m'. split; [exact E|]. split; [exact H1|exact H2].
Defined.
