(* ===== verification/Hid.v ===== *)
(** * HID report descriptors (board/bcm2835/usb/hid_parser.c)

    The parser walks the items of a report descriptor and prints them; what it
    prints is the list of items. *)

From S2P Require Import Prelude.
From stdpp Require Import strings.
Open Scope Z_scope.

Definition HID_REPORT_ITEM_TYPE_MAIN : Z := 0.
Definition HID_REPORT_ITEM_TYPE_GLOBAL : Z := 1.
Definition HID_REPORT_ITEM_TYPE_LOCAL : Z := 2.

Definition name_of (cases : list (Z * string)) (v : Z) : string := default "UNKNOWN"%string (swicase v cases).

Definition hid_report_item_type_to_string : Z → string :=
  name_of [(HID_REPORT_ITEM_TYPE_MAIN, "MAIN"); (HID_REPORT_ITEM_TYPE_GLOBAL, "GLOBAL");
           (HID_REPORT_ITEM_TYPE_LOCAL, "LOCAL")]%string.

Definition hid_report_item_main_to_string : Z → string :=
  name_of [(0x80, "INPUT"); (0x90, "OUTPUT"); (0xb0, "FEATURE"); (0xa0, "COLLECTION"); (0xc0, "END_COLLECTION")]%string.

Definition hid_report_item_global_to_string : Z → string :=
  name_of [(0x04, "USAGE_PAGE"); (0x14, "USAGE_MIN"); (0x24, "USAGE_MAX"); (0x34, "PHYS_MIN"); (0x44, "PHYS_MAX");
           (0x54, "UNIT_EXP"); (0x64, "UNIT"); (0x74, "REPORT_SIZE"); (0x84, "REPORT_ID"); (0x94, "REPORT_COUNT");
           (0xa4, "PUSH"); (0xb4, "POP")]%string.

Definition hid_report_item_local_to_string : Z → string :=
  name_of [(0x08, "USAGE"); (0x18, "USAGE_MAX"); (0x28, "USAGE_MIN"); (0x38, "DESIGNATOR_INDEX");
           (0x48, "DESIGNATOR_MIN"); (0x58, "DESIGNATOR_MAX"); (0x78, "STRING_INDEX"); (0x88, "STRING_MIN");
           (0x98, "STRING_MAX"); (0xa8, "DELIMITER")]%string.

(** A printed item: its descriptor byte, the type, size and tag as the code
    computes them, the name if the type has one, and the data bytes printed. *)
Record item := Item { it_desc : Z; it_type : Z; it_size : Z; it_tag : Z; it_name : option string; it_data : list Z }.

Definition item_name (type desc : Z) : option string :=
  if type =? HID_REPORT_ITEM_TYPE_MAIN then Some (hid_report_item_main_to_string (Z.land desc 0xfc))
  else if type =? HID_REPORT_ITEM_TYPE_GLOBAL then Some (hid_report_item_global_to_string (Z.land desc 0xfc))
  else if type =? HID_REPORT_ITEM_TYPE_LOCAL then Some (hid_report_item_local_to_string (Z.land desc 0xfc))
  else None.

(** [PARSER_FETCH_CHAR]: [None] where the code leaves the function. *)
Definition fetch_char (m : mem) (ptr end_ : Z) : outcome (option (Z * Z)) :=
  if ptr <? end_ then c ← load8 m ptr; Ret (Some (c, ptr + 1)) else Ret None.

(** [for (; item_size; item_size--) PARSER_FETCH_CHAR(data)]: the bytes, the
    pointer and whether the buffer lasted. *)
Fixpoint fetch_data (n : nat) (m : mem) (ptr end_ : Z) : outcome (list Z * Z * bool) :=
  match n with
  | O => Ret ([], ptr, true)
  | S n =>
      r ← fetch_char m ptr end_;
      match r with
      | None => Ret ([], ptr, false)
      | Some (c, ptr) => '(l, ptr, ok) ← fetch_data n m ptr end_; Ret (c :: l, ptr, ok)
      end
  end.

(** The header of an item: descriptor byte, type, size, tag and pointer.  A long
    item leaves [item_type] as the item before left it; it has no value before
    the first short item. *)
Definition fetch_header (m : mem) (ptr end_ : Z) (type : option Z) : outcome (option (Z * option Z * Z * Z * Z)) :=
  r ← fetch_char m ptr end_;
  match r with
  | None => Ret None
  | Some (d, ptr) =>
      if d =? 0xfe then
        r ← fetch_char m ptr end_;
        match r with
        | None => Ret None
        | Some (sz, ptr) =>
            r ← fetch_char m ptr end_;
            match r with
            | None => Ret None
            | Some (tag, ptr) => Ret (Some (d, type, sz, tag, ptr))
            end
        end
      else Ret (Some (d, Some (Z.land (Z.shiftr d 2) 3), Z.land d 3, Z.land (Z.shiftr d 4) 0xf, ptr))
  end.

Definition usb_hid_parse_report_descriptor (fuel : nat) (m : mem) (buf bufsz : Z) : outcome (list item) :=
  let end_ := buf + bufsz in
  loop fuel (λ '(ptr, type, out),
    h ← fetch_header m ptr end_ type;
    match h with
    | None => Ret (inr (rev out))
    | Some (d, type, sz, tag, ptr) =>
        ty ← deref type;
        '(data, ptr, ok) ← fetch_data (Z.to_nat sz) m ptr end_;
        let out := Item d ty sz tag (item_name ty d) data :: out in
        if ok : bool then Ret (inl (ptr, type, out)) else Ret (inr (rev out))
    end) (buf, None, []).

(** ** The parser against the bytes of the buffer *)

(** The bytes an item was printed from. *)
Definition item_bytes (i : item) : list Z :=
  if it_desc i =? 0xfe then 0xfe :: it_size i :: it_tag i :: it_data i
  else it_size i + 4 * it_type i + 16 * it_tag i :: it_data i.

Lemma fetch_char_ok m ptr l end_ : bytes_at m ptr l → end_ = ptr + Z.of_nat (length l) →
  fetch_char m ptr end_ = Ret (match l with [] => None | c :: _ => Some (c, ptr + 1) end).
Proof.
  intros Hb ->. unfold fetch_char. destruct l as [|c l]; cbn [length]; [by zdec|]. zdec.
  by rewrite (load8_at _ _ c) by (by apply bytes_at_cons in Hb as [? _]).
Qed.

Lemma fetch_data_ok n m ptr l end_ : bytes_at m ptr l → end_ = ptr + Z.of_nat (length l) →
  fetch_data n m ptr end_ = Ret (take n l, ptr + Z.of_nat (length (take n l)), (n <=? length l)%nat).
Proof.
  revert ptr l; induction n as [|n IH]; intros ptr l Hb He; cbn [fetch_data take].
  { by rewrite Z.add_0_r. }
  rewrite (fetch_char_ok _ _ l), bind_ret by done. destruct l as [|c l]; cbn [length]; [by rewrite Z.add_0_r|].
  apply bytes_at_cons in Hb as [_ Hb]. rewrite (IH _ l), bind_ret by (done || (rewrite He; cbn [length]; lia)).
  cbn [length]. by replace (ptr + 1 + _) with (ptr + Z.of_nat (S (length (take n l)))) by lia.
Qed.

(** A descriptor byte is its three fields. *)
Lemma desc_fields d : 0 ≤ d < 2 ^ 8 →
  Z.land d 3 + 4 * Z.land (Z.shiftr d 2) 3 + 16 * Z.land (Z.shiftr d 4) 0xf = d.
Proof.
  intros Hd. change 3 with (Z.ones 2). change 0xf with (Z.ones 4). rewrite !Z.land_ones, !Z.shiftr_div_pow2 by lia.
  change (2 ^ 2) with 4. change (2 ^ 4) with 16. dlia.
Qed.

(** What one turn of the loop does with the rest [l] of the buffer. *)
Inductive turn (l : list Z) (type : option Z) : option (item * list Z * bool) → Prop :=
| turn_end : (length l ≤ 2)%nat → turn l type None
| turn_item i l' ok : l = item_bytes i ++ l' → (ok = false → l' = []) →
    (it_desc i ≠ 0xfe ∨ type = Some (it_type i)) → turn l type (Some (i, l', ok)).

Lemma item_bytes_nonempty i : (0 < length (item_bytes i))%nat.
Proof. unfold item_bytes. destruct (it_desc i =? 0xfe); cbn; lia. Qed.

Lemma parse_turn m ptr end_ type l out : bytes_at m ptr l → is_bytes l → end_ = ptr + Z.of_nat (length l) →
  (type = None → ∀ c, head l = Some c → c ≠ 0xfe) →
  ∃ r, turn l type r ∧
    (h ← fetch_header m ptr end_ type;
     match h with
     | None => Ret (inr (rev out))
     | Some (d, type, sz, tag, ptr) =>
         ty ← deref type;
         '(data, ptr, ok) ← fetch_data (Z.to_nat sz) m ptr end_;
         let out := Item d ty sz tag (item_name ty d) data :: out in
         if ok : bool then Ret (inl (ptr, type, out)) else Ret (inr (rev out))
     end) = Ret match r with
            | None => inr (rev out)
            | Some (i, l', true) => inl (ptr + Z.of_nat (length (item_bytes i)), Some (it_type i), i :: out)
            | Some (i, _, false) => inr (rev (i :: out))
            end.
Proof.
  intros Hb Hl He Hty. unfold fetch_header. rewrite (fetch_char_ok _ _ l), bind_ret by done.
  destruct l as [|d l]; [exists None; split; [constructor; cbn; lia|done]|].
  apply bytes_at_cons in Hb as [_ Hb]. apply Forall_cons in Hl as [Hd Hl]. cbn [length] in He.
  destruct (Z.eqb_spec d 0xfe) as [->|Hne].
  - destruct type as [ty|]; [|by destruct (Hty eq_refl _ eq_refl)].
    rewrite (fetch_char_ok _ _ l), bind_ret by (done || lia).
    destruct l as [|sz l]; [exists None; split; [constructor; cbn; lia|done]|].
    apply bytes_at_cons in Hb as [_ Hb]. cbn [length] in He.
    rewrite (fetch_char_ok _ _ l), bind_ret by (done || lia).
    destruct l as [|tag l]; [exists None; split; [constructor; cbn; lia|done]|].
    apply bytes_at_cons in Hb as [_ Hb]. cbn [length] in He. rewrite !bind_ret. cbn [deref]. rewrite bind_ret.
    rewrite (fetch_data_ok _ _ _ l), bind_ret by (done || lia). cbv zeta.
    set (i := Item 0xfe ty sz tag _ (take (Z.to_nat sz) l)). set (ok := (_ <=? _)%nat).
    exists (Some (i, drop (Z.to_nat sz) l, ok)). split.
    + constructor; [cbn; by rewrite take_drop| |by right]. unfold ok. intros H%Nat.leb_gt. apply drop_ge. lia.
    + destruct ok; [|done]. cbn. do 4 f_equal. lia.
  - rewrite bind_ret. cbn [deref]. rewrite bind_ret, (fetch_data_ok _ _ _ l), bind_ret by (done || lia). cbv zeta.
    set (sz := Z.land d 3). set (i := Item d _ sz _ _ (take (Z.to_nat sz) l)). set (ok := (_ <=? _)%nat).
    assert (item_bytes i = d :: take (Z.to_nat sz) l) as Ei.
    { unfold item_bytes. cbn [it_desc it_size it_type it_tag it_data i]. zdec. f_equal. by apply desc_fields. }
    exists (Some (i, drop (Z.to_nat sz) l, ok)). split.
    + constructor; [rewrite Ei; cbn; by rewrite take_drop| |by left]. unfold ok. intros H%Nat.leb_gt. apply drop_ge. lia.
    + destruct ok; [|done]. rewrite Ei. cbn. do 4 f_equal. lia.
Qed.

Lemma parse_loop m end_ : ∀ fuel l ptr type out, bytes_at m ptr l → is_bytes l → end_ = ptr + Z.of_nat (length l) →
  (type = None → ∀ c, head l = Some c → c ≠ 0xfe) → (length l < fuel)%nat →
  ∃ items rest, loop fuel (λ '(ptr, type, out),
    h ← fetch_header m ptr end_ type;
    match h with
    | None => Ret (inr (rev out))
    | Some (d, type, sz, tag, ptr) =>
        ty ← deref type;
        '(data, ptr, ok) ← fetch_data (Z.to_nat sz) m ptr end_;
        let out := Item d ty sz tag (item_name ty d) data :: out in
        if ok : bool then Ret (inl (ptr, type, out)) else Ret (inr (rev out))
    end) (ptr, type, out) = Ret (rev out ++ items) ∧ flat_map item_bytes items ++ rest = l ∧ (length rest ≤ 2)%nat.
Proof.
  induction fuel as [|fuel IH]; intros l ptr type out Hb Hl He Hty Hf; [lia|].
  rewrite loop_step by lia. cbn beta iota. destruct (parse_turn m ptr end_ type l out Hb Hl He Hty) as (r & Hr & ->).
  rewrite bind_ret. destruct Hr as [Hlen | i l' ok -> Hok _].
  - exists [], l. by rewrite app_nil_r.
  - pose proof (item_bytes_nonempty i). rewrite length_app in Hf, He. destruct ok.
    + apply bytes_at_app in Hb as [_ Hb]. apply Forall_app in Hl as [_ Hl]. rewrite Nat.sub_1_r. cbn [Nat.pred].
      destruct (IH l' _ (Some (it_type i)) (i :: out) Hb Hl) as (items & rest & E & Hi & Hr'); [lia|done|lia|].
      exists (i :: items), rest. cbn [rev flat_map] in *. rewrite <- app_assoc in E. split; [exact E|].
      by rewrite <- app_assoc, Hi.
    + rewrite (Hok eq_refl). exists [i], []. cbn. rewrite !app_nil_r. split; [done|]. split; [done|lia].
Qed.

(** The type of a long item is that of the item before it: in front of the first
    short item it is read uninitialised. *)
Lemma long_item_first_faults m buf size tag l fuel : bytes_at m buf (0xfe :: size :: tag :: l) → (0 < fuel)%nat →
  usb_hid_parse_report_descriptor fuel m buf (Z.of_nat (length (0xfe :: size :: tag :: l))) = Fault.
Proof.
  intros Hb Hf. unfold usb_hid_parse_report_descriptor. cbn [length]. rewrite loop_step by done. cbn beta iota.
  apply bytes_at_cons in Hb as [H0 Hb]. pose proof Hb as Hb1. apply bytes_at_cons in Hb1 as [H1 Hb2].
  assert (bytes_at m buf (0xfe :: size :: tag :: l)) as Hall by (apply bytes_at_cons; by split).
  unfold fetch_header. rewrite (fetch_char_ok _ _ _ _ Hall), bind_ret by done. zdec.
  rewrite (fetch_char_ok _ _ _ _ Hb), bind_ret by (cbn [length]; lia).
  rewrite (fetch_char_ok _ _ _ _ Hb2), bind_ret by (cbn [length]; lia). done.
Qed.

(** C38: on every buffer of [n] bytes that does not begin with the header of a
    long item (0xfe), the parser comes to an end in at most [n + 1] turns,
    without reading outside the buffer, and the items it prints are made of the
    bytes of the buffer, each printed once and in order, except for a cut
    long-item header of at most two bytes at the end.  A buffer that begins with
    a long item is excluded: its type is read uninitialised
    ([long_item_first_faults]). *)
Theorem usb_hid_parse_total m buf l fuel : bytes_at m buf l → is_bytes l → head l ≠ Some 0xfe → (length l < fuel)%nat →
  ∃ items rest, usb_hid_parse_report_descriptor fuel m buf (Z.of_nat (length l)) = Ret items ∧
    flat_map item_bytes items ++ rest = l ∧ (length rest ≤ 2)%nat.
Proof.
  intros Hb Hl Hh Hf. apply (parse_loop m _ fuel l buf None []); [done..| |done]. intros _ c Hc ->. by rewrite Hc in Hh.
Qed.

(** Witness: a usage page, a collection and a long item that the buffer cuts. *)
Lemma usb_hid_parse_total_witness :
  let l := [0x05; 0x01; 0xa1; 0x01; 0xfe; 0x02; 0x30; 0x07] in
  ∃ items rest, usb_hid_parse_report_descriptor 9 (mem_of 64 l) 64 8 = Ret items ∧
    flat_map item_bytes items ++ rest = l ∧ (length rest ≤ 2)%nat.
Proof.
  intros l. apply (usb_hid_parse_total (mem_of 64 l) 64 l 9); [apply mem_of_bytes| |done|cbn; lia].
  unfold is_bytes, l. rewrite !Forall_cons. repeat split; (lia || constructor).
Defined.
