(* ===== verification/Mmio.v ===== *)
(** * Memory-mapped registers (include/reg_access.h)

    A device is any state with reads and writes of 32-bit registers, both of
    which may change it; a driver function is a transformer of the device.
    Hardware is not part of the program: drivers are verified for every device,
    or for those that satisfy a stated law. *)

From S2P Require Import Prelude.

Class Mmio (D : Type) : Type := {
  mmio_read : Z → D → Z * D;
  mmio_write : Z → Z → D → D }.

(** A computation on a device. *)
Definition io (D A : Type) : Type := D → outcome (A * D).

#[export] Instance io_ret {D} : MRet (io D) := λ A a d, Ret (a, d).
#[export] Instance io_bind {D} : MBind (io D) := λ A B f m d, m d ≫= λ '(a, d), f a d.

Definition lift {D A} (m : outcome A) : io D A := λ d, m ≫= λ a, Ret (a, d).

Section access.
Context {D : Type} `{Mmio D}.

Definition read_reg (r : Z) : io D Z := λ d, Ret (mmio_read r d).
Definition write_reg (r v : Z) : io D unit := λ d, Ret (tt, mmio_write r (u32 v) d).

(** A loop over the device, [None] ending a turn without a result. *)
Definition io_loop {A} (fuel : nat) (body : io D (option A)) : io D A := λ d,
  loop fuel (λ d, body d ≫= λ '(o, d), Ret (match o with None => inl d | Some a => inr (a, d) end)) d.

(** Several writes, in order. *)
Definition writes (l : list (Z * Z)) (d : D) : D := foldl (λ d '(r, v), mmio_write r v d) d l.

Lemma io_bind_ret {A B} (f : A → io D B) (m : io D A) d a d' : m d = Ret (a, d') → (m ≫= f) d = f a d'.
Proof. unfold mbind, io_bind. intros ->. done. Qed.

Lemma read_reg_bind {B} r (f : Z → io D B) d : (read_reg r ≫= f) d = f (fst (mmio_read r d)) (snd (mmio_read r d)).
Proof. apply io_bind_ret. unfold read_reg. by rewrite <- surjective_pairing. Qed.

Lemma write_reg_bind {B} r v (f : unit → io D B) d : (write_reg r v ≫= f) d = f tt (mmio_write r (u32 v) d).
Proof. by apply io_bind_ret. Qed.
End access.

(** Registers that hold what is written to them. *)
Class PlainRegs (D : Type) `{Mmio D} (plain : Z → Prop) (get : D → Z → Z) : Prop := {
  plain_read r d : plain r → mmio_read r d = (get d r, d);
  plain_write r v d r' : plain r → plain r' → get (mmio_write r v d) r' = if decide (r' = r) then v else get d r' }.

(** A bank of plain registers. *)
Abbreviation bank := (gmap Z Z).
Definition bank_get (b : bank) (r : Z) : Z := default 0 (b !! r).

#[export] Instance bank_mmio : Mmio bank := {|
  mmio_read r b := (bank_get b r, b);
  mmio_write r v b := <[r := v]> b |}.

#[export] Instance bank_plain P : PlainRegs bank P bank_get.
Proof.
  split; [done|]. intros r v b r' _ _. cbn. unfold bank_get. case_decide as E.
  - by rewrite E, lookup_insert_eq.
  - by rewrite lookup_insert_ne.
Qed.
