(* ===== verification/GpioSet.v ===== *)
(** * Ownership of GPIO pins (gpio_set.c, include/gpio_set.h)

    Drivers claim sets of pins before they use them.  The spinlock is free on one
    CPU with interrupts off, so each operation is one step. *)

From S2P Require Import Prelude Exceptions.
Open Scope Z_scope.

Definition GPIO_SET_INVALID_HANDLE : Z := -1.
Definition GPIO_SET_OWNER_KEY_BUF_SZ : Z := 16.
Definition GPIO_SET_OWNER_KEY_LEN : Z := GPIO_SET_OWNER_KEY_BUF_SZ - 1.

Definition ERR_NOT_INIT : Z := -2.
Definition ERR_FATAL : Z := -4.
Definition ERR_NOT_FOUND : Z := -7.

Record gpio_set := GpioSet { active : bool; owner_key : list Z; pin_mask : Z }.

(** The static variables of gpio_set.c. *)
Record gpio_state := GpioState { gpio_sets : list gpio_set; active_count : Z; initialized : bool }.

Definition gpio_set_zero : gpio_set := GpioSet false (replicate 16 0) 0.
Definition gpio_boot : gpio_state := GpioState (replicate 32 gpio_set_zero) 0 false.

(** [gpio_set_init] clears only 32 bytes of the table: the first set and part of
    the second.  The table is all zero when it is first called, and only then
    does it get this far. *)
Definition gpio_set_init (s : gpio_state) : gpio_state * Z :=
  if initialized s then (s, ERR_FATAL) else (GpioState (gpio_sets s) 0 true, ERR_OK).

Definition overlaps (mask : Z) (g : gpio_set) : bool := active g && truth (Z.land (pin_mask g) mask).

(** The first set that satisfies [f]. *)
Fixpoint find_set (f : gpio_set → bool) (i : nat) (l : list gpio_set) : option nat :=
  match l with [] => None | g :: l => if f g then Some i else find_set f (S i) l end.

(** The key is the C string's bytes.  The result is the code and the handle
    written to [*out_handle]; no free set leaves [i] at 32, outside the table. *)
Definition gpio_set_request (s : gpio_state) (setmask : Z) (key : list Z) : outcome (gpio_state * Z * option Z) :=
  if negb (initialized s) then Ret (s, ERR_NOT_INIT, None) else
  if negb (Z.of_nat (length key) =? GPIO_SET_OWNER_KEY_LEN) then Ret (s, ERR_INVAL_ARG, None) else
  if active_count s =? 32 then Ret (s, ERR_NO_RESOURCE, None) else
  if find_set (overlaps setmask) 0 (gpio_sets s) then Ret (s, ERR_BUSY, None) else
  i ← deref (find_set (λ g, negb (active g)) 0 (gpio_sets s));
  Ret (GpioState (<[i := GpioSet true (key ++ [0]) setmask]> (gpio_sets s)) (active_count s + 1) true, ERR_OK,
       Some (Z.of_nat i)).

Definition gpio_set_get_by_handle (s : gpio_state) (handle : Z) : outcome (option gpio_set) :=
  if handle <? 0 then Fault else
  g ← deref (gpio_sets s !! Z.to_nat handle);
  Ret (if active g then Some g else None).

(** The key given is not looked at, and the count not lowered. *)
Definition gpio_set_release (s : gpio_state) (handle : Z) : outcome (gpio_state * Z) :=
  o ← gpio_set_get_by_handle s handle;
  match o with
  | None => Ret (s, ERR_NOT_FOUND)
  | Some g => Ret (GpioState (<[Z.to_nat handle := GpioSet false (owner_key g) (pin_mask g)]> (gpio_sets s))
                     (active_count s) (initialized s), ERR_OK)
  end.

(** Both look at the masks of all sets, active or not. *)
Definition gpio_set_get_num_owners (s : gpio_state) (setmask : Z) : Z :=
  if negb (initialized s) then ERR_NOT_INIT else
  Z.of_nat (length (filter (λ g, truth (Z.land (pin_mask g) setmask) = true) (gpio_sets s))).

(** [room] is how many records fit the buffer. *)
Definition gpio_set_get_owners (s : gpio_state) (setmask : Z) (room : nat) : Z * list gpio_set :=
  if negb (initialized s) then (ERR_NOT_INIT, []) else
  let out := take room (filter (λ g, truth (Z.land (pin_mask g) setmask) = true) (gpio_sets s)) in
  (Z.of_nat (length out), out).

(** [*mask |= (1 << gpio_num)]: the shift is of an [int], which is then
    sign-extended. *)
Definition gpio_set_mask_add (mask gpio_num : Z) : outcome Z :=
  if (gpio_num <? 0) || (31 <? gpio_num) then Fault else Ret (u64 (Z.lor mask (s32 (Z.shiftl 1 gpio_num)))).

Definition gpio_set_checked_request (s : gpio_state) (pins : Z) (key : list Z) : outcome (gpio_state * Z) :=
  '(s, r, h) ← gpio_set_request s pins key;
  if r =? ERR_OK then h ← deref h; Ret (s, h) else Ret (s, GPIO_SET_INVALID_HANDLE).

Definition mask_add_all (pins : list Z) (mask : Z) : outcome Z := foldl (λ m p, m ← m; gpio_set_mask_add m p) (Ret mask) pins.

Definition gpio_set_request_n_pins (s : gpio_state) (pins : list Z) (key : list Z) : outcome (gpio_state * Z) :=
  mask ← mask_add_all pins 0; gpio_set_checked_request s mask key.
Definition gpio_set_request_1_pins (s : gpio_state) (pin : Z) (key : list Z) : outcome (gpio_state * Z) :=
  mask ← gpio_set_mask_add 0 pin; gpio_set_checked_request s mask key.
Definition gpio_set_request_2_pins (s : gpio_state) (pin1 pin2 : Z) (key : list Z) : outcome (gpio_state * Z) :=
  mask ← gpio_set_mask_add 0 pin1; mask ← gpio_set_mask_add mask pin2; gpio_set_checked_request s mask key.

(** ** Exclusive ownership *)

(** What drivers do with the registry. *)
Inductive gpio_op : Type := Request (mask : Z) (key : list Z) | Release (handle : nat).

(** A step, with the code it returned. *)
Inductive gpio_step : gpio_state → gpio_op → Z → gpio_state → Prop :=
| step_request s mask key s' r h : gpio_set_request s mask key = Ret (s', r, h) → gpio_step s (Request mask key) r s'
| step_release s handle s' r : (handle < 32)%nat → gpio_set_release s (Z.of_nat handle) = Ret (s', r) →
    gpio_step s (Release handle) r s'.

(** States reachable after [n] granted requests. *)
Inductive gpio_reach : nat → gpio_state → Prop :=
| reach_init : gpio_reach 0 (fst (gpio_set_init gpio_boot))
| reach_step n s op r s' : gpio_reach n s → gpio_step s op r s' →
    gpio_reach (match op with Request _ _ => if r =? ERR_OK then S n else n | Release _ => n end) s'.

(** No pin has two owners. *)
Definition exclusive (l : list gpio_set) : Prop := ∀ i j g h, l !! i = Some g → l !! j = Some h → i ≠ j →
  active g = true → active h = true → Z.land (pin_mask g) (pin_mask h) = 0.

Definition num_active (l : list gpio_set) : nat := length (filter (λ g, active g = true) l).

Record gpio_inv (n : nat) (s : gpio_state) : Prop := GpioInv {
  gi_len : length (gpio_sets s) = 32%nat;
  gi_init : initialized s = true;
  gi_count : active_count s = Z.of_nat n;
  gi_most : (n ≤ 32)%nat;
  gi_active : (num_active (gpio_sets s) ≤ n)%nat;
  gi_exclusive : exclusive (gpio_sets s) }.

Lemma find_set_none f i l : find_set f i l = None ↔ ∀ g, g ∈ l → f g = false.
Proof.
  revert i; induction l as [|g l IH]; intros i; cbn [find_set]; [split; [by intros _ g ?%not_elem_of_nil|done]|].
  destruct (f g) eqn:E.
  - split; [done|]. intros H. rewrite H in E by left. done.
  - rewrite IH. split; intros H h; [intros [-> | ]%elem_of_cons; auto|intros; apply H; by right].
Qed.

Lemma find_set_some f i l k : find_set f i l = Some k → ∃ g, (i ≤ k)%nat ∧ l !! (k - i)%nat = Some g ∧ f g = true.
Proof.
  revert i; induction l as [|g l IH]; intros i; cbn [find_set]; [done|]. destruct (f g) eqn:E.
  - intros [= <-]. exists g. by rewrite Nat.sub_diag.
  - intros (h & Hk & Hh & Hf)%IH. exists h. split; [lia|]. split; [|done].
    by replace (k - i)%nat with (S (k - S i)) by lia.
Qed.

(** Fewer active sets than sets: one is free. *)
Lemma free_set_exists l : (num_active l < length l)%nat → is_Some (find_set (λ g, negb (active g)) 0 l).
Proof.
  intros H. destruct (find_set _ 0 l) eqn:E; [by eexists|]. exfalso. rewrite find_set_none in E.
  assert (num_active l = length l); [|lia]. unfold num_active. clear H. induction l as [|g l IH]; [done|].
  rewrite filter_cons. assert (active g = true) as Hg by (apply negb_false_iff, E; left). rewrite decide_True by done.
  cbn [length]. f_equal. apply IH. intros h Hh. apply E. by right.
Qed.

Lemma num_active_insert l i g h : l !! i = Some g →
  (num_active (<[i := h]> l) + (if active g then 1 else 0) = num_active l + (if active h then 1 else 0))%nat.
Proof.
  unfold num_active. revert i; induction l as [|x l IH]; intros [|i] Hi; [done..| |].
  - injection Hi as ->. cbn [insert list_insert]. rewrite !filter_cons.
    destruct (active g) eqn:Eg, (active h) eqn:Eh; repeat case_decide; try congruence; cbn [length]; lia.
  - cbn [insert list_insert]. rewrite !filter_cons. specialize (IH i Hi). repeat case_decide; cbn [length]; unfold insert in *; lia.
Qed.

Lemma exclusive_insert l i g h : exclusive l → l !! i = Some g →
  (active h = true → ∀ j k, l !! j = Some k → j ≠ i → active k = true → Z.land (pin_mask h) (pin_mask k) = 0) →
  exclusive (<[i := h]> l).
Proof.
  intros Hex Hi Hh a b x y Hx Hy Hab Hax Hay. assert (i < length l)%nat by (by apply lookup_lt_is_Some_1; eexists).
  destruct (decide (a = i)) as [->|Ha].
  - rewrite list_lookup_insert_eq in Hx by done. injection Hx as <-. rewrite list_lookup_insert_ne in Hy by done.
    by eapply Hh.
  - rewrite list_lookup_insert_ne in Hx by done. destruct (decide (b = i)) as [->|Hb].
    + rewrite list_lookup_insert_eq in Hy by done. injection Hy as <-. rewrite Z.land_comm. by eapply Hh.
    + rewrite list_lookup_insert_ne in Hy by done. by eapply Hex.
Qed.

Lemma truth_false z : truth z = false → z = 0.
Proof. unfold truth. by destruct (Z.eqb_spec z 0). Qed.

(** Every request returns; what it does in each case. *)
Lemma request_ok n s mask key : gpio_inv n s →
  ∃ s' r h, gpio_set_request s mask key = Ret (s', r, h) ∧ (r ≠ ERR_OK → s' = s) ∧ (r = ERR_OK → gpio_inv (S n) s').
Proof.
  intros [Hl Hi Hc Hm Ha Hex]. unfold gpio_set_request. rewrite Hi. cbn [negb].
  destruct (negb _); [by eexists _, _, _|]. rewrite Hc. destruct (Z.eqb_spec (Z.of_nat n) 32); [by eexists _, _, _|].
  destruct (find_set (overlaps mask) 0 _) eqn:Eb; [by eexists _, _, _|]. rewrite find_set_none in Eb.
  destruct (free_set_exists (gpio_sets s)) as [i Ei]; [lia|]. rewrite Ei. cbn [deref]. rewrite bind_ret.
  eexists _, _, _. split; [done|]. split; [done|]. intros _.
  apply find_set_some in Ei as (g & _ & Hg & Hf). rewrite Nat.sub_0_r in Hg. apply negb_true_iff in Hf.
  split; cbn [gpio_sets initialized active_count].
  - by rewrite length_insert.
  - done.
  - lia.
  - lia.
  - pose proof (num_active_insert _ i g (GpioSet true (key ++ [0]) mask) Hg) as Hn. rewrite Hf in Hn. cbn [active] in Hn. lia.
  - apply (exclusive_insert _ i g); [done|done|]. intros _ j k Hj Hji Hk. cbn [pin_mask].
    assert (overlaps mask k = false) as Ho by (apply Eb, list_elem_of_lookup_2 with j; done).
    unfold overlaps in Ho. rewrite Hk in Ho. rewrite Z.land_comm. by apply truth_false.
Qed.

Lemma release_ok n s handle : gpio_inv n s → (handle < 32)%nat →
  ∃ s' r, gpio_set_release s (Z.of_nat handle) = Ret (s', r) ∧ gpio_inv n s'.
Proof.
  intros Hinv Hh. pose proof Hinv as [Hl Hi Hc Hm Ha Hex]. unfold gpio_set_release, gpio_set_get_by_handle.
  zdec. rewrite Nat2Z.id. destruct (lookup_lt_is_Some_2 (gpio_sets s) handle) as [g Hg]; [lia|].
  rewrite Hg. cbn [deref]. rewrite !bind_ret. destruct (active g) eqn:Eg; [|by eexists _, _].
  eexists _, _. split; [done|]. split; cbn [gpio_sets initialized active_count]; try done.
  - by rewrite length_insert.
  - pose proof (num_active_insert _ handle g (GpioSet false (owner_key g) (pin_mask g)) Hg) as Hn.
    rewrite Eg in Hn. cbn [active] in Hn. lia.
  - by apply (exclusive_insert _ handle g).
Qed.

Lemma reach_inv n s : gpio_reach n s → gpio_inv n s.
Proof.
  induction 1 as [|n s op r s' _ IH Hs].
  - split; [done|done|done|lia|vm_compute; lia|]. intros i j g h Hg _ _ Hact. apply lookup_replicate in Hg as [-> _]. done.
  - destruct Hs as [s mask key s' r h E | s handle s' r Hh E].
    + destruct (request_ok n s mask key IH) as (s1 & r1 & h1 & E1 & Hno & Hok). rewrite E in E1. injection E1 as <- <- <-.
      destruct (Z.eqb_spec r ERR_OK); [by apply Hok|]. by rewrite Hno.
    + destruct (release_ok n s handle IH Hh) as (s1 & r1 & E1 & Hinv). rewrite E in E1. by injection E1 as <- <-.
Qed.

(** C21: whatever requests and releases the drivers make after initialisation, no
    GPIO pin ever has two owners: the masks of any two active sets are
    disjoint, and a further request of pins that an active set holds is turned
    away without a change. *)
Theorem gpio_pins_exclusive n s : gpio_reach n s →
  (∀ i j g h, gpio_sets s !! i = Some g → gpio_sets s !! j = Some h → i ≠ j → active g = true → active h = true →
     Z.land (pin_mask g) (pin_mask h) = 0) ∧
  (∀ i g mask key, gpio_sets s !! i = Some g → active g = true → Z.land (pin_mask g) mask ≠ 0 →
     ∃ r, gpio_set_request s mask key = Ret (s, r, None) ∧ r ≠ ERR_OK).
Proof.
  intros Hr%reach_inv. pose proof Hr as [Hl Hi Hc Hm Ha Hex]. split; [exact Hex|].
  intros i g mask key Hg Hact Hov. unfold gpio_set_request. rewrite Hi. cbn [negb].
  destruct (negb _); [by eexists|]. destruct (active_count s =? 32); [by eexists|].
  destruct (find_set (overlaps mask) 0 _) eqn:Eb; [by eexists|]. rewrite find_set_none in Eb.
  assert (overlaps mask g = false) as Ho by (apply Eb, list_elem_of_lookup_2 with i; done).
  unfold overlaps in Ho. rewrite Hact in Ho. by apply truth_false in Ho.
Qed.

(** a release never gives its slot back: after 32 granted requests every
    request fails with [ERR_NO_RESOURCE], even if all sets have been released
    again. *)
Theorem gpio_set_slots_leak s mask key : gpio_reach 32 s → length key = 15%nat →
  gpio_set_request s mask key = Ret (s, ERR_NO_RESOURCE, None).
Proof.
  intros Hr%reach_inv Hk. pose proof Hr as [Hl Hi Hc _ _ _]. unfold gpio_set_request. by rewrite Hi, Hk, Hc.
Qed.

(** Witness: one granted request and its release. *)
Definition demo_key : list Z := replicate 15 65.

Lemma demo_reach_1 : gpio_reach 1 (GpioState (<[0%nat := GpioSet true (demo_key ++ [0]) 6]> (replicate 32 gpio_set_zero)) 1 true).
Proof.
  refine (reach_step 0 _ (Request 6 demo_key) ERR_OK _ reach_init _). eapply step_request. by vm_compute.
Qed.

Lemma gpio_pins_exclusive_witness :
  ∃ r, gpio_set_request (GpioState (<[0%nat := GpioSet true (demo_key ++ [0]) 6]> (replicate 32 gpio_set_zero)) 1 true)
         4 demo_key
       = Ret (GpioState (<[0%nat := GpioSet true (demo_key ++ [0]) 6]> (replicate 32 gpio_set_zero)) 1 true, r, None) ∧
       r ≠ ERR_OK.
Proof.
  destruct (gpio_pins_exclusive 1 _ demo_reach_1) as [_ H].
  apply (H 0%nat (GpioSet true (demo_key ++ [0]) 6)); [reflexivity|reflexivity|discriminate].
Defined.

(** Claiming and releasing pin 1, [n] times over. *)
Lemma demo_reach_leak n : (n ≤ 32)%nat → ∃ s, gpio_reach n s ∧ active_count s = Z.of_nat n ∧
  gpio_sets s = match n with O => replicate 32 gpio_set_zero | _ => <[0%nat := GpioSet false (demo_key ++ [0]) 2]> (replicate 32 gpio_set_zero) end.
Proof.
  induction n as [|n IH]; intros Hn; [by eexists; split; [constructor|]|].
  destruct (IH ltac:(lia)) as (s & Hr & Hc & Hs). pose proof (reach_inv _ _ Hr) as [_ Hi _ _ _ _].
  destruct s as [l c b]. cbn [gpio_sets active_count initialized] in *. subst b c.
  set (l1 := <[0%nat := GpioSet true (demo_key ++ [0]) 2]> l).
  assert (gpio_reach (S n) (GpioState l1 (Z.of_nat n + 1) true)) as H1.
  { refine (reach_step n _ (Request 2 demo_key) ERR_OK _ Hr _). eapply step_request. unfold gpio_set_request.
    cbn [initialized active_count gpio_sets negb]. change (Z.of_nat (length demo_key) =? _) with true. cbn [negb].
    zdec. subst l l1. by destruct n. }
  assert (gpio_reach (S n) (GpioState (<[0%nat := GpioSet false (demo_key ++ [0]) 2]> l1) (Z.of_nat n + 1) true)) as H2.
  { refine (reach_step (S n) _ (Release 0) ERR_OK _ H1 _). apply step_release; [lia|]. subst l l1. by destruct n. }
  eexists. split; [exact H2|]. split; [cbn; lia|]. subst l l1. by destruct n.
Qed.

(** Witness: after 32 claims of pin 1, each released at once. *)
Lemma gpio_set_slots_leak_witness :
  ∃ s, gpio_reach 32 s ∧ num_active (gpio_sets s) = 0%nat ∧
    gpio_set_request s 2 demo_key = Ret (s, ERR_NO_RESOURCE, None).
Proof.
  destruct (demo_reach_leak 32 ltac:(lia)) as (s & Hr & _ & Hs). exists s. split; [exact Hr|]. split.
  - rewrite Hs. reflexivity.
  - apply gpio_set_slots_leak; [exact Hr|reflexivity].
Defined.
