(* ===== verification/Gpio.v ===== *)
(** * GPIO pins (board/bcm2835/bcm2835_gpio.c, bcm2835_gpio_access.S)

    Function selection, output, edge detection and pull-ups, for any device
    behind the GPIO registers. *)

From S2P Require Import Prelude Mmio.

Definition ERR_OK : Z := 0.
Definition GPIO_MAX_PIN_IDX : Z := 53.
Definition GPIO_BASE : Z := 0x3f200000.
Definition GPIO_REG_GPFSEL0 : Z := GPIO_BASE.
Definition GPIO_REG_GPSET0 : Z := GPIO_BASE + 0x1c.
Definition GPIO_REG_GPCLR0 : Z := GPIO_BASE + 0x28.
Definition GPIO_REG_GPLEV0 : Z := GPIO_BASE + 0x34.
Definition GPIO_REG_GPEDS0 : Z := GPIO_BASE + 0x40.
Definition GPIO_REG_GPREN0 : Z := GPIO_BASE + 0x4c.
Definition GPIO_REG_GPFEN0 : Z := GPIO_BASE + 0x58.
Definition GPIO_REG_GPHEN0 : Z := GPIO_BASE + 0x64.
Definition GPIO_REG_GPLEN0 : Z := GPIO_BASE + 0x70.
Definition GPIO_REG_GPAREN0 : Z := GPIO_BASE + 0x7c.
Definition GPIO_REG_GPAFEN0 : Z := GPIO_BASE + 0x88.
Definition GPIO_REG_GPPUD : Z := GPIO_BASE + 0x94.
Definition GPIO_REG_GPPUDCLK0 : Z := GPIO_BASE + 0x98.
Definition GPIO_REG_GPPUDCLK1 : Z := GPIO_BASE + 0x9c.

Definition GPIO_FUNC_IN : Z := 0.
Definition GPIO_FUNC_OUT : Z := 1.
Definition GPIO_FUNC_ALT_0 : Z := 4.
Definition GPIO_FUNC_ALT_5 : Z := 2.

Section gpio.
Context {D : Type} `{Mmio D}.

(** [div_by_10]: a 32 x 32 bit product shifted right by 35. *)
Definition div_by_10 (n : Z) : Z := Z.shiftr (u32 n * 0xcccccccd) 35.

(** The assembly works on 32-bit registers; a shift takes its count modulo 32. *)
Definition lsl32 (v n : Z) : Z := u32 (Z.shiftl v (n mod 32)).

Definition gpio_read_and_set_3 (addr gpio_num mode : Z) : io D unit :=
  let regidx := div_by_10 gpio_num in
  let regaddr := addr + Z.shiftl regidx 2 in
  let regidx := lsl32 (u32 (regidx + Z.shiftl regidx 2)) 1 in
  let bitpos := u32 (gpio_num - regidx) in
  let bitpos := u32 (bitpos + Z.shiftl bitpos 1) in
  let mode := lsl32 mode bitpos in
  let bitmask := lsl32 7 bitpos in
  regval ← read_reg regaddr;
  write_reg regaddr (Z.lor (Z.ldiff (u32 regval) bitmask) mode).

Definition gpio_read_and_set_64 (addr gpio_num : Z) : io D unit :=
  let addr := addr + Z.shiftl (Z.land (Z.shiftr (u32 gpio_num) 5) 1) 2 in
  let bit := lsl32 1 (Z.land gpio_num 0x1f) in
  v ← read_reg addr;
  write_reg addr (Z.lor (u32 v) bit).

Definition gpio_is_set (gpio_num : Z) : io D Z :=
  let regnum := Z.shiftr gpio_num 5 in
  v ← read_reg (GPIO_REG_GPLEV0 + Z.shiftl regnum 2);
  mret (Z.land 1 (Z.shiftr (u32 v) (gpio_num - Z.shiftl regnum 5))).

(** [GPIO_CHECK_GPIO_NUM]; pin numbers are unsigned. *)
Definition checked (gpio_num : Z) (m : io D Z) : io D Z := if GPIO_MAX_PIN_IDX <? gpio_num then mret (-1) else m.

Definition GPIO_32PIN_SET_CHEKCED (gpio_num reg0 : Z) : io D Z :=
  checked gpio_num (_ ← write_reg (reg0 + 4 * (gpio_num / 32)) (Z.shiftl 1 (gpio_num mod 32)); mret ERR_OK).

Definition gpio_set_function (gpio_num func : Z) : io D Z :=
  checked gpio_num (_ ← gpio_read_and_set_3 GPIO_REG_GPFSEL0 gpio_num (u32 func); mret ERR_OK).

Definition gpio_set_on (gpio_num : Z) : io D Z := GPIO_32PIN_SET_CHEKCED gpio_num GPIO_REG_GPSET0.
Definition gpio_set_off (gpio_num : Z) : io D Z := GPIO_32PIN_SET_CHEKCED gpio_num GPIO_REG_GPCLR0.
Definition gpio_set_detect_high (gpio_num : Z) : io D Z := GPIO_32PIN_SET_CHEKCED gpio_num GPIO_REG_GPHEN0.
Definition gpio_set_detect_low (gpio_num : Z) : io D Z := GPIO_32PIN_SET_CHEKCED gpio_num GPIO_REG_GPLEN0.

Definition gpio_set_detect (reg gpio_num : Z) : io D Z :=
  checked gpio_num (_ ← gpio_read_and_set_64 reg gpio_num; mret 0).
Definition gpio_set_detect_rising_edge : Z → io D Z := gpio_set_detect GPIO_REG_GPREN0.
Definition gpio_set_detect_falling_edge : Z → io D Z := gpio_set_detect GPIO_REG_GPFEN0.
Definition gpio_set_detect_async_rising_edge : Z → io D Z := gpio_set_detect GPIO_REG_GPAREN0.
Definition gpio_set_detect_async_falling_edge : Z → io D Z := gpio_set_detect GPIO_REG_GPAFEN0.

(** These two do not check the pin. *)
Definition gpio_pin_status_triggered (gpio_num : Z) : io D Z :=
  v ← read_reg (GPIO_REG_GPEDS0 + 4 * Z.shiftr gpio_num 5);
  mret (if truth (Z.land v (Z.shiftl 1 (gpio_num mod 32))) then 1 else 0).
Definition gpio_pin_status_clear (gpio_num : Z) : io D Z :=
  _ ← write_reg (GPIO_REG_GPEDS0 + 4 * Z.shiftr gpio_num 5) (Z.shiftl 1 (gpio_num mod 32)); mret ERR_OK.

Definition gpio_set_gppudclk (gpio_num : Z) : io D Z := GPIO_32PIN_SET_CHEKCED gpio_num GPIO_REG_GPPUDCLK0.

(** The waits of 150 turns have no effect on the device. *)
Definition gpio_set_pullupdown (gpio_num pullupdown : Z) : io D Z :=
  checked gpio_num (
    _ ← write_reg GPIO_REG_GPPUD pullupdown;
    _ ← gpio_set_gppudclk gpio_num;
    _ ← write_reg GPIO_REG_GPPUD 0;
    _ ← write_reg GPIO_REG_GPPUDCLK0 0;
    _ ← write_reg GPIO_REG_GPPUDCLK1 0;
    mret ERR_OK).

Definition gpio_power_off : io D unit :=
  _ ← write_reg GPIO_REG_GPFSEL0 0; _ ← write_reg (GPIO_REG_GPFSEL0 + 4) 0; _ ← write_reg (GPIO_REG_GPFSEL0 + 8) 0;
  _ ← write_reg (GPIO_REG_GPFSEL0 + 12) 0; _ ← write_reg (GPIO_REG_GPFSEL0 + 16) 0; _ ← write_reg (GPIO_REG_GPFSEL0 + 20) 0;
  _ ← write_reg GPIO_REG_GPPUD 0;
  _ ← write_reg GPIO_REG_GPPUDCLK0 0xffffffff;
  _ ← write_reg GPIO_REG_GPPUDCLK1 0xffffffff;
  write_reg GPIO_REG_GPPUDCLK0 0.
End gpio.

(** ** Function selection *)

(** The function-select registers. *)
Definition gpfsel (r : Z) : Prop := ∃ k, 0 ≤ k < 6 ∧ r = GPIO_REG_GPFSEL0 + 4 * k.

(** The function of a pin, three bits of its register. *)
Definition pin_function {D} (get : D → Z → Z) (d : D) (p : Z) : Z :=
  Z.land (Z.shiftr (get d (GPIO_REG_GPFSEL0 + 4 * (p / 10))) (3 * (p mod 10))) 7.

Lemma div_by_10_ok n : 0 ≤ n < 2 ^ 32 → div_by_10 n = n / 10.
Proof. intros Hn. unfold div_by_10. rewrite u32_id, Z.shiftr_div_pow2 by lia. change (2 ^ 35) with 34359738368. dlia. Qed.

(** Three bits of a word after three bits of it have been replaced. *)
Lemma replace_3_bits v f a b : 0 ≤ v → 0 ≤ f < 8 → 0 ≤ a → 0 ≤ b →
  Z.land (Z.shiftr (Z.lor (Z.ldiff v (Z.shiftl 7 (3 * a))) (Z.shiftl f (3 * a))) (3 * b)) 7 =
  if a =? b then f else Z.land (Z.shiftr v (3 * b)) 7.
Proof.
  intros Hv Hf Ha Hb. change 7 with (Z.ones 3). assert (0 ≤ Z.ones 3 < 2 ^ 3) as H7 by done. apply Z.bits_inj'. intros i Hi.
  rewrite Z.land_spec, Z.shiftr_spec, Z.lor_spec, Z.ldiff_spec, !Z.shiftl_spec by lia.
  destruct (Z.lt_ge_cases i 3) as [Hi3|Hi3].
  - rewrite (testbit_ones 3 i) by lia. zdec. cbn [andb]. rewrite andb_true_r.
    destruct (Z.eqb_spec a b) as [->|Hne].
    + replace (i + 3 * b - 3 * b) with i by lia. rewrite (testbit_ones 3 i) by lia. zdec. cbn [negb andb].
      by rewrite andb_false_r.
    + rewrite Z.land_spec, Z.shiftr_spec, (testbit_ones 3 i) by lia.
      assert (i + 3 * b - 3 * a < 0 ∨ 3 ≤ i + 3 * b - 3 * a) as [Ho|Ho] by lia.
      * rewrite (Z.testbit_neg_r f), (Z.testbit_neg_r (Z.ones 3)) by lia. cbn [negb]. rewrite orb_false_r. zdec. cbn [andb]. by rewrite !andb_true_r.
      * rewrite (testbit_high f 3), (testbit_high (Z.ones 3) 3) by lia. cbn [negb]. rewrite orb_false_r. zdec.
        cbn [andb]. by rewrite !andb_true_r.
  - rewrite (testbit_high (Z.ones 3) 3 i) by lia. rewrite andb_false_r. destruct (a =? b).
    + symmetry. by apply (testbit_high f 3).
    + by rewrite Z.land_spec, (testbit_high (Z.ones 3) 3 i), andb_false_r by lia.
Qed.

Lemma lsl32_small v a : 0 ≤ v < 8 → 0 ≤ a ≤ 9 → lsl32 v (3 * a) = Z.shiftl v (3 * a).
Proof.
  intros Hv Ha. unfold lsl32. rewrite (Z.mod_small (3 * a)) by lia. apply u32_id. rewrite Z.shiftl_mul_pow2 by lia.
  pose proof (Z.pow_le_mono_r 2 (3 * a) 27 ltac:(lia) ltac:(lia)). pose proof (Z.pow_pos_nonneg 2 (3 * a)). nia.
Qed.

Lemma pow_fields_u32 v f a : 0 ≤ v < 2 ^ 32 → 0 ≤ f < 8 → 0 ≤ a ≤ 9 →
  u32 (Z.lor (Z.ldiff v (Z.shiftl 7 (3 * a))) (Z.shiftl f (3 * a))) = Z.lor (Z.ldiff v (Z.shiftl 7 (3 * a))) (Z.shiftl f (3 * a)).
Proof.
  intros Hv Hf Ha. apply u32_id. apply bits_bound; [lia|]. split.
  - apply Z.lor_nonneg. split; [apply Z.ldiff_nonneg; lia|apply Z.shiftl_nonneg; lia].
  - intros i Hi. rewrite Z.lor_spec, Z.ldiff_spec, (testbit_high v 32 i), (Z.shiftl_spec f), (testbit_high f 3) by lia. done.
Qed.

(** selecting a function for a pin changes the three bits of that pin and no
    others: afterwards the pin has the function, every other pin the one it had,
    and a pin number above 53 is refused without touching the device.  The
    multiplication that stands for the division by ten is exact. *)
Theorem gpio_set_function_selects {D} `{PlainRegs D gpfsel get} (d : D) p f :
  (∀ r, gpfsel r → 0 ≤ get d r < 2 ^ 32) → 0 ≤ p < 2 ^ 32 → 0 ≤ f < 8 →
  (53 < p → gpio_set_function p f d = Ret (-1, d)) ∧
  (p ≤ 53 → ∃ d', gpio_set_function p f d = Ret (ERR_OK, d') ∧
     ∀ q, 0 ≤ q ≤ 53 → pin_function get d' q = if q =? p then f else pin_function get d q).
Proof.
  intros Hg Hp Hf. unfold gpio_set_function, checked, GPIO_MAX_PIN_IDX. split; intros Hle; zdec; [done|].
  assert (∀ q, 0 ≤ q ≤ 53 → gpfsel (GPIO_REG_GPFSEL0 + 4 * (q / 10))) as Hsel.
  { intros q Hq. exists (q / 10). split; [dlia|done]. }
  unfold gpio_read_and_set_3. rewrite div_by_10_ok by lia. cbv zeta.
  assert (0 ≤ p / 10 ≤ 5 ∧ 0 ≤ p mod 10 ≤ 9 ∧ p = 10 * (p / 10) + p mod 10) as (Hd & Hm & Hdm) by dlia.
  rewrite !(Z.shiftl_mul_pow2 (p / 10)) by lia. change (2 ^ 2) with 4.
  rewrite (u32_id (p / 10 + p / 10 * 4)) by lia.
  assert (lsl32 (p / 10 + p / 10 * 4) 1 = 10 * (p / 10)) as ->
    by (unfold lsl32; change (1 mod 32) with 1; rewrite Z.shiftl_mul_pow2, u32_id by lia; lia).
  replace (p - 10 * (p / 10)) with (p mod 10) by lia. rewrite !(u32_id (p mod 10)) by lia.
  rewrite !(Z.shiftl_mul_pow2 (p mod 10)) by lia. change (2 ^ 1) with 2.
  replace (p mod 10 + p mod 10 * 2) with (3 * (p mod 10)) by lia. rewrite !(u32_id (3 * (p mod 10))) by lia.
  rewrite (u32_id f), !lsl32_small by lia. replace (p / 10 * 4) with (4 * (p / 10)) by lia.
  set (r := GPIO_REG_GPFSEL0 + 4 * (p / 10)). assert (gpfsel r) as Hr by (apply Hsel; lia).
  unfold mbind at 1, io_bind at 1. rewrite read_reg_bind, (plain_read r d Hr). cbn [fst snd].
  unfold write_reg. rewrite (u32_id (get d r)), pow_fields_u32 by (auto || lia). rewrite bind_ret.
  eexists. split; [done|]. intros q Hq. unfold pin_function. fold r. rewrite (plain_write r) by auto.
  case_decide as Eq.
  - assert (q / 10 = p / 10) as Eqd by (unfold r in Eq; lia). rewrite replace_3_bits; [|apply Hg; auto|lia|lia|dlia].
    assert (q = 10 * (p / 10) + q mod 10) as Hqm by (rewrite <- Eqd; dlia).
    destruct (Z.eqb_spec (p mod 10) (q mod 10)), (Z.eqb_spec q p); try lia. by rewrite Eq.
  - destruct (Z.eqb_spec q p) as [->|]; [by destruct Eq|done].
Qed.

(** Witness: pin 14 becomes alternate function 0 among cleared registers. *)
Lemma gpio_set_function_selects_witness :
  ∃ b', gpio_set_function 14 4 (∅ : bank) = Ret (ERR_OK, b') ∧ pin_function bank_get b' 14 = 4 ∧
    pin_function bank_get b' 15 = 0.
Proof.
  destruct (gpio_set_function_selects (D := bank) (get := bank_get) ∅ 14 4) as [_ Hs]; [|lia|lia|].
  - intros r _. unfold bank_get. rewrite lookup_empty. cbn. lia.
  - destruct (Hs ltac:(lia)) as (b' & E & Hq). exists b'. split; [exact E|].
    split; [exact (Hq 14 ltac:(lia))|exact (Hq 15 ltac:(lia))].
Defined.
