(* ===== verification/Mbox.v ===== *)
(** * The VideoCore mailbox (mbox/mbox.c, mbox/mbox_props.c)

    Property messages to the firmware, in the one buffer of 36 words.  The
    firmware is a parameter: it rewrites the buffer in place and posts a word,
    which may or may not be the one sent. *)

From S2P Require Import Prelude.

Definition MBOX_REQUEST : Z := 0.
Definition MBOX_TAG_LAST : Z := 0.
Definition MBOX_TAG_GET_FIRMWARE_REV : Z := 0x00001.
Definition MBOX_TAG_GET_BOARD_MODEL : Z := 0x10001.
Definition MBOX_TAG_GET_BOARD_REV : Z := 0x10002.
Definition MBOX_TAG_GET_MAC_ADDR : Z := 0x10003.
Definition MBOX_TAG_GET_BOARD_SERIAL : Z := 0x10004.
Definition MBOX_TAG_GET_ARM_MEMORY : Z := 0x10005.
Definition MBOX_TAG_GET_VC_MEMORY : Z := 0x10006.
Definition MBOX_TAG_ALLOCATE_BUFFER : Z := 0x40001.
Definition MBOX_TAG_GET_POWER_STATE : Z := 0x20001.
Definition MBOX_TAG_SET_POWER_STATE : Z := 0x28001.
Definition MBOX_TAG_GET_CLOCK_STATE : Z := 0x30001.
Definition MBOX_TAG_SET_CLOCK_STATE : Z := 0x38001.
Definition MBOX_TAG_GET_CLOCK_RATE : Z := 0x30002.
Definition MBOX_TAG_GET_MAX_CLOCK_RATE : Z := 0x30004.
Definition MBOX_TAG_GET_MIN_CLOCK_RATE : Z := 0x30007.
Definition MBOX_TAG_SET_CLOCK_RATE : Z := 0x38002.
Definition MBOX_TAG_SET_PHYS_WIDTH_HEIGHT : Z := 0x48003.
Definition MBOX_TAG_GET_VIRT_WIDTH_HEIGHT : Z := 0x40004.
Definition MBOX_TAG_SET_VIRT_WIDTH_HEIGHT : Z := 0x48004.
Definition MBOX_TAG_SET_DEPTH : Z := 0x48005.
Definition MBOX_TAG_SET_PIXEL_ORDER : Z := 0x48006.
Definition MBOX_TAG_GET_PITCH : Z := 0x40008.
Definition MBOX_TAG_SET_VIRT_OFFSET : Z := 0x48009.
Definition MBOX_TAG_SET_VCHIQ_INIT : Z := 0x48010.

(** The words of the buffer. *)
Abbreviation words := (list Z).

(** [mbox_buffer] and, as a ghost, the messages handed to the firmware. *)
Record mbox := Mbox { mbox_buffer : words; sent : list words }.

Record set_fb_args := SetFbArgs {
  psize_x : Z; psize_y : Z; vsize_x : Z; vsize_y : Z; voffset_x : Z; voffset_y : Z; depth : Z; pixel_order : Z }.
Record set_fb_res := SetFbRes { fb_addr : Z; fb_width : Z; fb_height : Z; fb_pitch : Z; fb_pixel_size : Z }.

Section firmware.
(** The buffer after the call, and whether the word read back was the one sent. *)
Context (respond : words → words * bool).

Definition mbox_call_blocking (s : mbox) : mbox * Z :=
  let '(b, ours) := respond (mbox_buffer s) in
  (Mbox b (sent s ++ [mbox_buffer s]), if ours then 0 else 1).

Definition mbox_prop_call_no_lock (s : mbox) : outcome (mbox * Z) :=
  let '(s, ret) := mbox_call_blocking s in
  if truth ret then Panic else Ret (s, ret).

Definition mbox_prop_call (s : mbox) : outcome (mbox * Z) := mbox_prop_call_no_lock s.

(** Writing words from the start of the buffer; reading one. *)
Definition put_words (l : words) (s : mbox) : mbox := Mbox (l ++ drop (length l) (mbox_buffer s)) (sent s).
Definition word (s : mbox) (i : nat) : Z := default 0 (mbox_buffer s !! i).

(** [DECL_MBOX_MSG] with a union of [length req] words, the request's fields
    filled in. *)
Definition DECL_MBOX_MSG (tg : Z) (req : words) (s : mbox) : mbox :=
  let n := Z.of_nat (length req) in
  put_words ([4 * (6 + n); MBOX_REQUEST; tg; 4 * n; 0] ++ req ++ [MBOX_TAG_LAST]) s.

(** The requests written word by word, with the answer's length filled in. *)
Definition plain_msg (tg : Z) (n : nat) (s : mbox) : mbox :=
  put_words ([4 * (6 + Z.of_nat n); MBOX_REQUEST; tg; 4 * Z.of_nat n; 4 * Z.of_nat n] ++ replicate n 0 ++ [MBOX_TAG_LAST]) s.

(** [if (!mbox_prop_call(..)) { f } return -1]. *)
Definition on_success {A} (s : mbox) (f : mbox → A) (fail : A) : outcome (mbox * A) :=
  '(s, r) ← mbox_prop_call s; Ret (s, if truth r then fail else f s).

(** ** Operations; a result [None] is -1 with the out-parameters unchanged *)
Definition mbox_init_vchiq (vchiq_base : Z) (s : mbox) : outcome (mbox * option Z) :=
  on_success (DECL_MBOX_MSG MBOX_TAG_SET_VCHIQ_INIT [vchiq_base] s) (λ s, Some (word s 5)) None.

(** The first word of the answer, as an [int]. *)
Definition get_1 (tg : Z) (s : mbox) : outcome (mbox * Z) :=
  on_success (plain_msg tg 1 s) (λ s, s32 (word s 5)) (-1).
Definition mbox_get_firmware_rev : mbox → outcome (mbox * Z) := get_1 MBOX_TAG_GET_FIRMWARE_REV.
Definition mbox_get_board_model : mbox → outcome (mbox * Z) := get_1 MBOX_TAG_GET_BOARD_MODEL.
Definition mbox_get_board_rev : mbox → outcome (mbox * Z) := get_1 MBOX_TAG_GET_BOARD_REV.

(** The bytes of the two answer words, as many as fit between the pointers. *)
Definition mbox_get_mac_addr (room : nat) (s : mbox) : outcome (mbox * option (list Z)) :=
  on_success (DECL_MBOX_MSG MBOX_TAG_GET_MAC_ADDR [0; 0] s)
    (λ s, Some (take room (take 6 (le_bytes 4 (word s 5) ++ le_bytes 4 (word s 6))))) None.

(** No call is made. *)
Definition mbox_get_board_serial (s : mbox) : mbox * Z :=
  let s := plain_msg MBOX_TAG_GET_BOARD_SERIAL 2 s in
  (s, Z.lor (u64 (Z.shiftl (word s 5) 32)) (word s 6)).

Definition get_memory (tg : Z) (out_given : bool) (s : mbox) : outcome (mbox * option (Z * Z)) :=
  if negb out_given then Ret (s, None) else
  on_success (plain_msg tg 2 s) (λ s, Some (s32 (word s 5), s32 (word s 6))) None.
Definition mbox_get_arm_memory : bool → mbox → outcome (mbox * option (Z * Z)) := get_memory MBOX_TAG_GET_ARM_MEMORY.
Definition mbox_get_vc_memory : bool → mbox → outcome (mbox * option (Z * Z)) := get_memory MBOX_TAG_GET_VC_MEMORY.

(** Bit 0 of the state, and whether bit 1, "does not exist", is clear. *)
Definition state_bits (v : Z) : Z * Z := (Z.land v 1, if truth (Z.land (Z.shiftr v 1) 1) then 0 else 1).

Definition state_call (tg id st : Z) (s : mbox) : outcome (mbox * option (Z * Z)) :=
  on_success (DECL_MBOX_MSG tg [id; st] s) (λ s, Some (state_bits (word s 6))) None.

Definition mbox_get_power_state (device_id : Z) : mbox → outcome (mbox * option (Z * Z)) :=
  state_call MBOX_TAG_GET_POWER_STATE device_id 0.
Definition mbox_set_power_state (device_id power_on wait : Z) : mbox → outcome (mbox * option (Z * Z)) :=
  state_call MBOX_TAG_SET_POWER_STATE device_id (Z.lor (Z.land power_on 1) (Z.shiftl (Z.land wait 1) 1)).
Definition mbox_get_clock_state (clock_id : Z) : mbox → outcome (mbox * option (Z * Z)) :=
  state_call MBOX_TAG_GET_CLOCK_STATE clock_id 0.
Definition mbox_set_clock_state (clock_id enabled : Z) : mbox → outcome (mbox * option (Z * Z)) :=
  state_call MBOX_TAG_SET_CLOCK_STATE clock_id enabled.

Definition GET_CLOCK_RATE (tg clock_id : Z) (s : mbox) : outcome (mbox * option Z) :=
  on_success (DECL_MBOX_MSG tg [clock_id; 0] s) (λ s, if word s 5 =? clock_id then Some (word s 6) else None) None.
Definition mbox_get_clock_rate : Z → mbox → outcome (mbox * option Z) := GET_CLOCK_RATE MBOX_TAG_GET_CLOCK_RATE.
Definition mbox_get_min_clock_rate : Z → mbox → outcome (mbox * option Z) := GET_CLOCK_RATE MBOX_TAG_GET_MIN_CLOCK_RATE.
Definition mbox_get_max_clock_rate : Z → mbox → outcome (mbox * option Z) := GET_CLOCK_RATE MBOX_TAG_GET_MAX_CLOCK_RATE.

(** Here the call's result is not negated. *)
Definition mbox_set_clock_rate (clock_id clock_rate skip_turbo : Z) (s : mbox) : outcome (mbox * option Z) :=
  '(s, r) ← mbox_prop_call (DECL_MBOX_MSG MBOX_TAG_SET_CLOCK_RATE [clock_id; clock_rate; skip_turbo] s);
  Ret (s, if truth r && (word s 5 =? clock_id) then Some (word s 6) else None).

Definition mbox_get_virt_wh (s : mbox) : outcome (mbox * option (Z * Z)) :=
  on_success (DECL_MBOX_MSG MBOX_TAG_GET_VIRT_WIDTH_HEIGHT [0; 0] s) (λ s, Some (word s 5, word s 6)) None.

Definition fb_request (a : set_fb_args) : words :=
  [35 * 4; MBOX_REQUEST;
   MBOX_TAG_SET_PHYS_WIDTH_HEIGHT; 8; 8; psize_x a; psize_y a;
   MBOX_TAG_SET_VIRT_WIDTH_HEIGHT; 8; 8; vsize_x a; vsize_y a;
   MBOX_TAG_SET_VIRT_OFFSET; 8; 8; voffset_x a; voffset_y a;
   MBOX_TAG_SET_DEPTH; 4; 4; depth a;
   MBOX_TAG_SET_PIXEL_ORDER; 4; 4; pixel_order a;
   MBOX_TAG_ALLOCATE_BUFFER; 8; 8; 4096; 0;
   MBOX_TAG_GET_PITCH; 4; 4; 0;
   MBOX_TAG_LAST].

Definition mbox_set_fb (a : set_fb_args) (s : mbox) : outcome (mbox * option set_fb_res) :=
  on_success (put_words (fb_request a) s)
    (λ s, if negb (word s 20 =? 32) || (word s 28 =? 0) then None
          else Some (SetFbRes (Z.land (word s 28) 0x3fffffff) (word s 5) (word s 6) (word s 33) 4)) None.
End firmware.

(** ** Well-formed messages *)

(** Tags from the front of [l] to its end: an identifier, the two lengths, the
    value in whole words; the end tag is the last word. *)
Fixpoint tags_wf (fuel : nat) (l : words) : bool :=
  match fuel, l with
  | S fuel, id :: l =>
      if id =? MBOX_TAG_LAST then match l with [] => true | _ => false end else
      match l with
      | len :: rsp :: l =>
          (0 <? len) && (len mod 4 =? 0) && (Z.to_nat (len / 4) <=? length l)%nat && (0 <=? rsp) && (rsp <=? len) &&
          tags_wf fuel (drop (Z.to_nat (len / 4)) l)
      | _ => false
      end
  | _, _ => false
  end.

(** The size in the first word is in the buffer and the tags fill it exactly. *)
Definition message_wf (b : words) : bool :=
  match b with
  | size :: code :: l =>
      (12 <=? size) && (size mod 4 =? 0) && (size / 4 <=? Z.of_nat (length b)) && (code =? MBOX_REQUEST) &&
      tags_wf (length l) (take (Z.to_nat (size / 4) - 2) l)
  | _ => false
  end.

(** The operations with their arguments. *)
Inductive mbox_op : Type :=
| InitVchiq (base : Z) | FirmwareRev | BoardModel | BoardRev | MacAddr (room : nat) | BoardSerial
| ArmMemory (b : bool) | VcMemory (b : bool) | GetPower (id : Z) | SetPower (id on wait : Z)
| GetClock (id : Z) | SetClock (id on : Z) | ClockRate (id : Z) | MinClockRate (id : Z) | MaxClockRate (id : Z)
| SetClockRate (id rate turbo : Z) | VirtWh | SetFb (a : set_fb_args).

Definition mbox_run (respond : words → words * bool) (op : mbox_op) (s : mbox) : outcome mbox :=
  let fin {A} (m : outcome (mbox * A)) : outcome mbox := '(s, _) ← m; Ret s in
  match op with
  | InitVchiq base => fin (mbox_init_vchiq respond base s)
  | FirmwareRev => fin (mbox_get_firmware_rev respond s)
  | BoardModel => fin (mbox_get_board_model respond s)
  | BoardRev => fin (mbox_get_board_rev respond s)
  | MacAddr room => fin (mbox_get_mac_addr respond room s)
  | BoardSerial => Ret (fst (mbox_get_board_serial s))
  | ArmMemory b => fin (mbox_get_arm_memory respond b s)
  | VcMemory b => fin (mbox_get_vc_memory respond b s)
  | GetPower id => fin (mbox_get_power_state respond id s)
  | SetPower id on wait => fin (mbox_set_power_state respond id on wait s)
  | GetClock id => fin (mbox_get_clock_state respond id s)
  | SetClock id on => fin (mbox_set_clock_state respond id on s)
  | ClockRate id => fin (mbox_get_clock_rate respond id s)
  | MinClockRate id => fin (mbox_get_min_clock_rate respond id s)
  | MaxClockRate id => fin (mbox_get_max_clock_rate respond id s)
  | SetClockRate id rate turbo => fin (mbox_set_clock_rate respond id rate turbo s)
  | VirtWh => fin (mbox_get_virt_wh respond s)
  | SetFb a => fin (mbox_set_fb respond a s)
  end.

(** The buffer keeps its 36 words and only well-formed messages were sent. *)
Definition mbox_ok (s : mbox) : Prop := length (mbox_buffer s) = 36%nat ∧ Forall (λ b, message_wf b = true) (sent s).

Section wf.
Context (respond : words → words * bool).
Hypothesis respond_len : ∀ b, length (fst (respond b)) = length b.

(** A call of a well-formed message keeps [mbox_ok], or panics. *)
Lemma prop_call_ok s : mbox_ok s → message_wf (mbox_buffer s) = true →
  mbox_prop_call respond s = Panic ∨ ∃ s', mbox_prop_call respond s = Ret (s', 0) ∧ mbox_ok s'.
Proof using respond_len.
  intros [Hl Hs] Hw. unfold mbox_prop_call, mbox_prop_call_no_lock, mbox_call_blocking.
  pose proof (respond_len (mbox_buffer s)) as Hlen. destruct (respond (mbox_buffer s)) as [b []]; [right|by left].
  eexists. split; [done|]. split; cbn in *; [congruence|]. apply Forall_app. split; [done|]. by constructor.
Qed.

Lemma on_success_ok {A} s (f : mbox → A) fail : mbox_ok s → message_wf (mbox_buffer s) = true →
  on_success respond s f fail = Panic ∨ ∃ s', on_success respond s f fail = Ret (s', f s') ∧ mbox_ok s'.
Proof using respond_len.
  intros Hs Hw. unfold on_success. destruct (prop_call_ok s Hs Hw) as [-> | (s' & -> & Hok)]; [by left|].
  right. exists s'. by rewrite bind_ret.
Qed.

Lemma put_words_ok l s : mbox_ok s → (length l ≤ 36)%nat → mbox_ok (put_words l s).
Proof using.
  intros [Hl Hs] Hn. split; [|done]. unfold put_words. cbn. rewrite length_app, length_drop. lia.
Qed.

(** A message of one tag. *)
Lemma one_tag_wf tg len rsp v rest s : tg ≠ 0 → v ≠ [] → len = 4 * Z.of_nat (length v) → 0 ≤ rsp ≤ len →
  rest = [4 * (6 + Z.of_nat (length v)); MBOX_REQUEST; tg; len; rsp] ++ v ++ [MBOX_TAG_LAST] → (length v ≤ 30)%nat →
  mbox_ok s → message_wf (mbox_buffer (put_words rest s)) = true ∧ mbox_ok (put_words rest s).
Proof using.
  intros Htg Hv -> Hr -> Hn Hs. assert (0 < length v)%nat by (destruct v; [done|cbn; lia]). pose proof Hs as [Hl _]. split.
  - unfold put_words. cbn [mbox_buffer]. set (tl := drop _ _). cbn [app message_wf]. rewrite <- app_assoc.
    replace (4 * (6 + Z.of_nat (length v)) / 4) with (6 + Z.of_nat (length v)) by dlia.
    assert (length tl = 36 - (6 + length v))%nat as Htl by (unfold tl; rewrite length_drop, !length_app; cbn; lia).
    zdec. cbn [length]. rewrite !length_app. cbn [length app]. zdec. rewrite !andb_true_l.
    replace (Z.to_nat (6 + Z.of_nat (length v)) - 2)%nat with (S (S (S (S (length v))))) by lia. cbn [take].
    replace (S (length v)) with (length (v ++ [MBOX_TAG_LAST])) by (rewrite length_app; cbn; lia).
    replace (v ++ MBOX_TAG_LAST :: tl) with ((v ++ [MBOX_TAG_LAST]) ++ tl) by (by rewrite <- app_assoc).
    rewrite take_app_length.
    cbn [tags_wf length]. unfold MBOX_TAG_LAST at 1. zdec.
    replace (4 * Z.of_nat (length v) / 4) with (Z.of_nat (length v)) by dlia. rewrite Nat2Z.id, drop_app_length.
    replace (4 * Z.of_nat (length v) mod 4) with 0 by dlia. rewrite length_app. cbn [length].
    replace (length v <=? length v + 1)%nat with true by (symmetry; apply Nat.leb_le; lia). zdec. cbn [andb].
    by replace (4 * (6 + Z.of_nat (length v)) mod 4) with 0 by dlia.
  - apply put_words_ok; [done|]. rewrite !length_app. cbn. lia.
Qed.

Lemma decl_msg_wf tg req s : tg ≠ 0 → req ≠ [] → (length req ≤ 30)%nat → mbox_ok s →
  message_wf (mbox_buffer (DECL_MBOX_MSG tg req s)) = true ∧ mbox_ok (DECL_MBOX_MSG tg req s).
Proof using. intros. eapply one_tag_wf; [done|done|done| |done|done|done]. lia. Qed.

Lemma plain_msg_wf tg n s : tg ≠ 0 → (0 < n ≤ 30)%nat → mbox_ok s →
  message_wf (mbox_buffer (plain_msg tg n s)) = true ∧ mbox_ok (plain_msg tg n s).
Proof using.
  intros Ht Hn Hs. unfold plain_msg. eapply (one_tag_wf tg (4 * Z.of_nat n) (4 * Z.of_nat n) (replicate n 0)); try done.
  - by destruct n; [lia|].
  - by rewrite length_replicate.
  - lia.
  - by rewrite length_replicate.
  - rewrite length_replicate. lia.
Qed.

Lemma fb_request_wf a s : mbox_ok s →
  message_wf (mbox_buffer (put_words (fb_request a) s)) = true ∧ mbox_ok (put_words (fb_request a) s).
Proof using.
  intros Hs. split; [|apply put_words_ok; [done|cbn; lia]]. destruct Hs as [Hl _]. destruct s as [b sn]. cbn in Hl.
  do 36 (destruct b as [|? b]; [done|]). destruct b; [|done]. destruct a. by vm_compute.
Qed.
End wf.

(** C39: whatever the arguments and whatever the firmware answers, every message
    any operation of the interface hands to the firmware is well-formed: its
    size is that of its words and fits the buffer, its code is a request, its
    tags and value buffers fill it exactly and the end tag is its last word; the
    buffer keeps its 36 words, and an operation panics only where the mailbox
    word read back is not the one sent. *)
Theorem mbox_messages_wf respond op s : (∀ b, length (fst (respond b)) = length b) → mbox_ok s →
  (mbox_run respond op s = Panic ∧ ∃ b, snd (respond b) = false) ∨ ∃ s', mbox_run respond op s = Ret s' ∧ mbox_ok s'.
Proof.
  intros Hr Hs.
  assert (∀ {A} s (f : mbox → A) fail, mbox_ok s ∧ message_wf (mbox_buffer s) = true →
    ('(s, _) ← on_success respond s f fail; Ret s) = Panic ∧ (∃ b, snd (respond b) = false) ∨
    ∃ s', ('(s, _) ← on_success respond s f fail; Ret s) = Ret s' ∧ mbox_ok s') as Hcall.
  { intros A s0 f fail [Hs0 Hw]. destruct (on_success_ok respond Hr s0 f fail Hs0 Hw) as [E | (s' & -> & Hok)].
    - left. rewrite E. split; [done|]. exists (mbox_buffer s0).
      unfold on_success, mbox_prop_call, mbox_prop_call_no_lock, mbox_call_blocking in E.
      by destruct (respond (mbox_buffer s0)) as [b []].
    - right. rewrite bind_ret. by exists s'. }
  assert (∀ tg req, tg ≠ 0 → req ≠ [] → (length req ≤ 30)%nat →
    mbox_ok (DECL_MBOX_MSG tg req s) ∧ message_wf (mbox_buffer (DECL_MBOX_MSG tg req s)) = true) as Hd
    by (intros tg req H1 H2 H3; destruct (decl_msg_wf tg req s H1 H2 H3 Hs); done).
  assert (∀ tg n, tg ≠ 0 → (0 < n ≤ 30)%nat → mbox_ok (plain_msg tg n s) ∧ message_wf (mbox_buffer (plain_msg tg n s)) = true) as Hp
    by (intros tg n H1 H2; destruct (plain_msg_wf tg n s H1 H2 Hs); done).
  destruct op; cbn [mbox_run].
  all: try (apply Hcall; first [apply Hd; [done|done|cbn; lia]|apply Hp; [done|lia]]).
  - right. eexists. split; [done|]. apply Hp; [done|lia].
  - destruct b; cbn; [apply Hcall, Hp; [done|lia]|right; by exists s].
  - destruct b; cbn; [apply Hcall, Hp; [done|lia]|right; by exists s].
  - unfold mbox_set_clock_rate. rewrite bind_assoc. destruct (Hd MBOX_TAG_SET_CLOCK_RATE [id; rate; turbo]) as [H1 H2]; [done|done|cbn; lia|].
    destruct (prop_call_ok respond Hr _ H1 H2) as [E | (s' & -> & Hok)].
    + left. rewrite E. split; [done|]. unfold mbox_prop_call, mbox_prop_call_no_lock, mbox_call_blocking in E.
      eexists. destruct (respond _) as [b []] eqn:Er; [done|]. by rewrite Er.
    + right. exists s'. by rewrite !bind_ret.
  - apply Hcall. destruct (fb_request_wf a s Hs). done.
Qed.

(** setting a clock rate never reports success: when the firmware has
    carried out the request and answered with the clock's identifier and its
    new rate, the call still returns -1 and leaves the caller's rate alone. *)
Theorem mbox_set_clock_rate_never_succeeds respond id rate turbo s :
  (∀ b, snd (respond b) = true) →
  ∃ s', mbox_set_clock_rate respond id rate turbo s = Ret (s', None) ∧
    sent s' = sent s ++ [mbox_buffer (DECL_MBOX_MSG MBOX_TAG_SET_CLOCK_RATE [id; rate; turbo] s)].
Proof.
  intros Hr. unfold mbox_set_clock_rate, mbox_prop_call, mbox_prop_call_no_lock, mbox_call_blocking.
  set (s0 := DECL_MBOX_MSG _ _ s). pose proof (Hr (mbox_buffer s0)) as Hb. destruct (respond (mbox_buffer s0)) as [b ok].
  cbn in Hb. subst ok. eexists. split; reflexivity.
Qed.

(** A firmware that answers every request in place. *)
Definition demo_firmware (b : words) : words * bool := (<[1%nat := 0x80000000]> b, true).
Definition demo_mbox : mbox := Mbox (replicate 36 0) [].

Lemma demo_mbox_ok : mbox_ok demo_mbox.
Proof. split; [done|constructor]. Qed.

(** Witness: setting up a 640 by 480 frame buffer. *)
Lemma mbox_messages_wf_witness :
  ∃ s', mbox_run demo_firmware (SetFb (SetFbArgs 640 480 640 480 0 0 32 1)) demo_mbox = Ret s' ∧ mbox_ok s' ∧
    length (sent s') = 1%nat.
Proof.
  destruct (mbox_messages_wf demo_firmware (SetFb (SetFbArgs 640 480 640 480 0 0 32 1)) demo_mbox) as [[_ (b & Hb)] | (s' & E & Hok)].
  - intros b. apply length_insert.
  - apply demo_mbox_ok.
  - discriminate.
  - exists s'. split; [exact E|]. split; [exact Hok|]. revert E. vm_compute. by intros [= <-].
Defined.

(** Witness: the ARM clock. *)
Lemma mbox_set_clock_rate_never_succeeds_witness :
  ∃ s', mbox_set_clock_rate demo_firmware 3 600000000 0 demo_mbox = Ret (s', None) ∧ word s' 6 = 600000000.
Proof.
  destruct (mbox_set_clock_rate_never_succeeds demo_firmware 3 600000000 0 demo_mbox) as (s' & E & _); [done|].
  exists s'. split; [exact E|]. revert E. vm_compute. by intros [= <-].
Defined.
