(* ===== verification/Clocks.v ===== *)
(** * Clocks, PWM and timers (clock_manager.c, pwm.c, bcm2835_systimer.c, bcm2835_arm_timer.c)

    Drivers over memory-mapped registers, for any device behind them. *)

From S2P Require Import Prelude Mmio Gpio Mbox.

Definition PERIPHERAL_BASE_PHY : Z := 0x3f000000.
Definition ERR_INVAL_ARG : Z := -1.

(** ** The clock manager *)
Definition CM_CLK_ID_GP_0 : Z := 0.
Definition CM_CLK_ID_GP_1 : Z := 1.
Definition CM_CLK_ID_GP_2 : Z := 2.
Definition CM_CLK_ID_PWM : Z := 3.
Definition CM_SETCLK_ERR_OK : Z := 0.
Definition CM_SETCLK_ERR_INV : Z := -1.
Definition CM_SETCLK_ERR_BUSY : Z := -2.

Definition CM_GP0CTL : Z := PERIPHERAL_BASE_PHY + 0x00101070.
Definition CM_GP1CTL : Z := PERIPHERAL_BASE_PHY + 0x00101078.
Definition CM_GP2CTL : Z := PERIPHERAL_BASE_PHY + 0x00101080.
Definition CM_PWMCTL : Z := PERIPHERAL_BASE_PHY + 0x001010a0.
Definition CM_GP0DIV : Z := PERIPHERAL_BASE_PHY + 0x00101074.
Definition CM_GP1DIV : Z := PERIPHERAL_BASE_PHY + 0x0010107c.
Definition CM_GP2DIV : Z := PERIPHERAL_BASE_PHY + 0x00101084.
Definition CM_PWMDIV : Z := PERIPHERAL_BASE_PHY + 0x001010a4.

Definition CM_REG_PASSWD : Z := 0x5a000000.
Definition CM_CLK_REG_ENAB : Z := Z.shiftl 1 4.
Definition CM_CLK_REG_BUSY : Z := Z.shiftl 1 7.

(** The control and divisor registers of a clock. *)
Definition clock_regs (clock_id : Z) : option (Z * Z) :=
  if clock_id =? CM_CLK_ID_GP_0 then Some (CM_GP0CTL, CM_GP0DIV)
  else if clock_id =? CM_CLK_ID_GP_1 then Some (CM_GP1CTL, CM_GP1DIV)
  else if clock_id =? CM_CLK_ID_GP_2 then Some (CM_GP2CTL, CM_GP2DIV)
  else if clock_id =? CM_CLK_ID_PWM then Some (CM_PWMCTL, CM_PWMDIV)
  else None.

Section drivers.
Context {D : Type} `{Mmio D}.

Definition CM_CTL_REG_ENABLE (r : Z) : io D unit :=
  v ← read_reg r; write_reg r (Z.lor CM_REG_PASSWD (Z.lor v CM_CLK_REG_ENAB)).
Definition CM_CTL_REG_DISABLE (r : Z) : io D unit :=
  v ← read_reg r; write_reg r (Z.lor CM_REG_PASSWD (Z.ldiff v CM_CLK_REG_ENAB)).
Definition CM_CLK_REG_SET (r clock_src mash : Z) : io D unit :=
  write_reg r (Z.lor (Z.lor CM_REG_PASSWD clock_src) (Z.shiftl (Z.land mash 3) 9)).
Definition CM_DIV_REG_SET (r divi divf : Z) : io D unit :=
  write_reg r (Z.lor (Z.lor CM_REG_PASSWD (Z.shiftl (Z.land divi 0xfff) 12)) (Z.land divf 0xfff)).

(** [do .. while (cycles--)]: [cycles + 1] polls. *)
Fixpoint cm_clk_wait_nobusy (cm_ctl : Z) (cycles : nat) : io D Z :=
  v ← read_reg cm_ctl;
  if negb (truth (Z.land v CM_CLK_REG_BUSY)) then mret CM_SETCLK_ERR_OK else
  match cycles with O => mret CM_SETCLK_ERR_BUSY | S cycles => cm_clk_wait_nobusy cm_ctl cycles end.

Definition cm_set_clock (clock_id clock_src mash divi divf : Z) : io D Z :=
  match clock_regs clock_id with
  | None => mret CM_SETCLK_ERR_INV
  | Some (ctl, div) =>
      _ ← CM_CTL_REG_DISABLE ctl;
      st ← cm_clk_wait_nobusy ctl 1000;
      if truth st then mret st else
      _ ← CM_CLK_REG_SET ctl clock_src mash;
      _ ← CM_DIV_REG_SET div divi divf;
      st ← cm_clk_wait_nobusy ctl 1000;
      if truth st then mret st else
      _ ← CM_CTL_REG_ENABLE ctl;
      mret CM_SETCLK_ERR_OK
  end.

(** ** PWM channels *)
Definition PWM_BASE : Z := PERIPHERAL_BASE_PHY + 0x0020c000.
Definition PWM_CTL : Z := PWM_BASE.
Definition PWM_STA : Z := PWM_BASE + 0x04.
Definition PWM_RNG1 : Z := PWM_BASE + 0x10.
Definition PWM_DAT1 : Z := PWM_BASE + 0x14.
Definition PWM_STA_EMPT1 : Z := 1.
Definition PWM_STA_BERR : Z := 8.
Definition PWM_STA_STA1 : Z := 9.
Definition PWM_CTL_MSEN1 : Z := 7.
Definition PWM_CTL_PWEN1 : Z := 0.

Definition BIT_SET_U32 (v n : Z) : Z := Z.lor v (Z.shiftl 1 n).
Definition BIT_CLEAR_U32 (v n : Z) : Z := Z.ldiff v (Z.shiftl 1 n).

(** [do { write; wait; read } while (bus error)]: as long as the error bit is
    read. *)
Definition PWM_CTL_WRITE (fuel : nat) (x : Z) : io D unit :=
  io_loop fuel (
    _ ← write_reg PWM_CTL x;
    sta ← read_reg PWM_STA;
    mret (if truth (Z.land sta (Z.shiftl 1 PWM_STA_BERR)) then None else Some tt)).

(** Polls until the channel is idle; each turn reads the status twice when it
    is not. *)
Definition pwm_wait_idle (fuel : nat) (ch : Z) : io D unit :=
  io_loop fuel (
    sta ← read_reg PWM_STA;
    if truth (Z.land sta (Z.lor (Z.shiftl 1 PWM_STA_EMPT1) (Z.shiftl 1 (PWM_STA_STA1 + ch)))) then mret (Some tt) else
    _ ← read_reg PWM_STA;
    mret None).

Definition pwm_enable (fuel : nat) (ch ms_mode : Z) : io D Z :=
  let choff := Z.shiftl ch 3 in
  if negb (ch =? 0) && negb (ch =? 1) then mret ERR_INVAL_ARG else
  ctl ← read_reg PWM_CTL;
  let ctl := BIT_CLEAR_U32 ctl (PWM_CTL_PWEN1 + choff) in
  _ ← PWM_CTL_WRITE fuel ctl;
  _ ← pwm_wait_idle fuel ch;
  let ctl := if truth ms_mode then BIT_SET_U32 ctl (PWM_CTL_MSEN1 + choff) else BIT_CLEAR_U32 ctl (PWM_CTL_MSEN1 + choff) in
  let ctl := BIT_SET_U32 ctl (PWM_CTL_PWEN1 + choff) in
  _ ← PWM_CTL_WRITE fuel ctl;
  mret ERR_OK.

(** [ch << 2] counts words. *)
Definition pwm_set (ch range data : Z) : io D Z :=
  _ ← write_reg (PWM_RNG1 + 4 * Z.shiftl ch 2) range;
  _ ← write_reg (PWM_DAT1 + 4 * Z.shiftl ch 2) data;
  mret 0.
Definition pwm_bcm2835_set (channel range data : Z) : io D Z := pwm_set channel range data.
Definition pwm_bcm2835_set_range (channel range : Z) : io D Z :=
  _ ← write_reg (PWM_RNG1 + 4 * Z.shiftl channel 2) range; mret ERR_OK.
Definition pwm_bcm2835_set_data (channel data : Z) : io D Z :=
  _ ← write_reg (PWM_DAT1 + 4 * Z.shiftl channel 2) data; mret ERR_OK.

(** ** The system timer *)
Definition SYSTEM_TIMER_BASE : Z := PERIPHERAL_BASE_PHY + 0x3000.
Definition SYSTEM_TIMER_CS : Z := SYSTEM_TIMER_BASE.
Definition SYSTEM_TIMER_CLO : Z := SYSTEM_TIMER_BASE + 0x04.
Definition SYSTEM_TIMER_C1 : Z := SYSTEM_TIMER_BASE + 0x10.

Record systimer := Systimer { st_cb : Z; st_cb_arg : Z; st_period : Z }.

Definition bcm2835_systimer_info_reset : systimer := Systimer 0 0 0.
Definition bcm2835_systimer_info_set (cb cb_arg period : Z) : systimer := Systimer cb cb_arg period.

Definition bcm2835_systimer_clear_irq_1 : io D unit := write_reg SYSTEM_TIMER_CS (Z.shiftl 1 1).

Definition bcm2835_systimer_set (usec : Z) : io D Z :=
  clo ← read_reg SYSTEM_TIMER_CLO;
  _ ← write_reg SYSTEM_TIMER_C1 (u32 (clo + usec));
  _ ← write_reg SYSTEM_TIMER_CS 1;
  mret ERR_OK.

(** The timer's state and the callback run, if one is set. *)
Definition bcm2835_systimer_run_cb_1 (t : systimer) : option (Z * Z) :=
  if truth (st_cb t) then Some (st_cb t, st_cb_arg t) else None.
Definition bcm2835_systimer_cb_periodic_timer_1 (t : systimer) : io D (option (Z * Z)) :=
  _ ← bcm2835_systimer_clear_irq_1; mret (bcm2835_systimer_run_cb_1 t).
Definition irq_handler_systimer_1 (t : systimer) : io D (option (Z * Z)) :=
  _ ← bcm2835_systimer_clear_irq_1; mret (bcm2835_systimer_run_cb_1 t).

Definition bcm2835_systimer_set_periodic (usec cb cb_arg : Z) : io D (systimer * Z) :=
  let t := bcm2835_systimer_info_set cb cb_arg usec in r ← bcm2835_systimer_set usec; mret (t, r).
Definition bcm2835_systimer_set_oneshot (usec cb cb_arg : Z) : io D (systimer * Z) :=
  let t := bcm2835_systimer_info_set cb cb_arg 0 in r ← bcm2835_systimer_set usec; mret (t, r).

(** One sample: until the counter did not wrap around. *)
Definition min_set_sample (fuel : nat) (max_delta : Z) : io D Z :=
  io_loop fuel (
    t1 ← read_reg SYSTEM_TIMER_CLO;
    _ ← bcm2835_systimer_set 10;
    t2 ← read_reg SYSTEM_TIMER_CLO;
    _ ← write_reg SYSTEM_TIMER_CS 0;
    mret (if t1 <? t2 then Some (if max_delta <? t2 - t1 then t2 - t1 else max_delta) else None)).

Definition bcm2835_systimer_get_min_set_time (fuel : nat) : io D Z :=
  cs ← read_reg SYSTEM_TIMER_CS;
  if truth cs then lift Panic else
  (fix samples (n : nat) (max_delta : Z) : io D Z :=
     match n with O => mret max_delta | S n => max_delta ← min_set_sample fuel max_delta; samples n max_delta end) 8%nat 0.

(** ** The ARM timer *)
Definition ARM_TIMER_BASE : Z := PERIPHERAL_BASE_PHY + 0xb400.
Definition ARM_TIMER_LOAD_REG : Z := ARM_TIMER_BASE.
Definition ARM_TIMER_CONTROL_REG : Z := ARM_TIMER_BASE + 8.
Definition ARM_TIMER_IRQ_CLEAR_ACK_REG : Z := ARM_TIMER_BASE + 12.
Definition ARM_TIMER_RAW_IRQ_REG : Z := ARM_TIMER_BASE + 16.
Definition ARM_TIMER_PRE_DIVIDER_REG : Z := ARM_TIMER_BASE + 28.
Definition ARM_TIMER_CONTROL_REG_WIDTH : Z := Z.shiftl 1 1.
Definition ARM_TIMER_CONTROL_REG_ENABLE_IRQ : Z := Z.shiftl 1 5.
Definition ARM_TIMER_CONTROL_REG_ENABLE : Z := Z.shiftl 1 7.
Definition ARM_TIMER_CONTROL_REG_ENABLE_FREE : Z := Z.shiftl 1 9.
Definition BCM2835_IC_ENABLE_BASIC : Z := PERIPHERAL_BASE_PHY + 0xb200 + 0x18.

Record arm_timer := ArmTimer { at_cb : Z; at_cb_arg : Z; is_oneshot : bool; clock_rate : Z; predivider_clock : Z }.

Definition bcm2835_arm_timer_disable : io D unit :=
  v ← read_reg ARM_TIMER_CONTROL_REG; write_reg ARM_TIMER_CONTROL_REG (Z.ldiff v ARM_TIMER_CONTROL_REG_ENABLE).
Definition bcm2835_arm_timer_disable_freerunning : io D unit :=
  v ← read_reg ARM_TIMER_CONTROL_REG; write_reg ARM_TIMER_CONTROL_REG (Z.ldiff v ARM_TIMER_CONTROL_REG_ENABLE_FREE).

(** The callback that runs, with its argument. *)
Definition run_cb (t : arm_timer) : option (Z * Z) := if truth (at_cb t) then Some (at_cb t, at_cb_arg t) else None.

Definition irq_handler_arm_timer (t : arm_timer) : io D (option (Z * Z)) :=
  _ ← write_reg ARM_TIMER_IRQ_CLEAR_ACK_REG 0xffffffff; mret (run_cb t).

Definition timer_irq_callback (t : arm_timer) : io D (option (Z * Z)) :=
  raw ← read_reg ARM_TIMER_RAW_IRQ_REG;
  _ ← (if truth raw then write_reg ARM_TIMER_IRQ_CLEAR_ACK_REG 1 else mret tt);
  _ ← (if is_oneshot t then bcm2835_arm_timer_disable else mret tt);
  mret (run_cb t).

(** The last write unmasks the basic interrupt 0. *)
Definition bcm2835_arm_timer_set_and_enable (load_reg_value : Z) : io D Z :=
  _ ← write_reg ARM_TIMER_LOAD_REG load_reg_value;
  _ ← write_reg ARM_TIMER_CONTROL_REG (Z.lor (Z.lor ARM_TIMER_CONTROL_REG_WIDTH ARM_TIMER_CONTROL_REG_ENABLE_IRQ) ARM_TIMER_CONTROL_REG_ENABLE);
  _ ← write_reg ARM_TIMER_IRQ_CLEAR_ACK_REG 0xffffffff;
  _ ← write_reg BCM2835_IC_ENABLE_BASIC 1;
  mret ERR_OK.

(** 32-bit arithmetic, the divisions first. *)
Definition GET_COUNTER_VALUE (clock_rate predivider_clock usec : Z) : Z :=
  u32 (clock_rate / u32 (predivider_clock + 1) / 1000000 * usec).

(** [rate] is what the firmware answers for the ARM clock; a failed request
    panics before. *)
Definition bcm2835_arm_timer_set_periodic (rate usec cb cb_arg : Z) (t : arm_timer) : io D (arm_timer * Z) :=
  _ ← bcm2835_arm_timer_disable;
  pre ← read_reg ARM_TIMER_PRE_DIVIDER_REG;
  let t := ArmTimer cb cb_arg false (clock_rate t) (predivider_clock t) in
  r ← bcm2835_arm_timer_set_and_enable (GET_COUNTER_VALUE rate (Z.land pre 0x3ff) usec);
  mret (t, r).

Definition bcm2835_arm_timer_set_oneshot (usec cb cb_arg : Z) (t : arm_timer) : io D (arm_timer * Z) :=
  _ ← bcm2835_arm_timer_disable;
  let t := ArmTimer cb cb_arg true (clock_rate t) (predivider_clock t) in
  r ← bcm2835_arm_timer_set_and_enable (GET_COUNTER_VALUE (clock_rate t) (predivider_clock t) usec);
  mret (t, r).

(** After the registration, which [timer_register] models. *)
Definition bcm2835_arm_timer_init_regs (rate : Z) (t : arm_timer) : io D arm_timer :=
  _ ← bcm2835_arm_timer_disable;
  _ ← bcm2835_arm_timer_disable_freerunning;
  pre ← read_reg ARM_TIMER_PRE_DIVIDER_REG;
  mret (ArmTimer (at_cb t) (at_cb_arg t) (is_oneshot t) rate (Z.land pre 0x3ff)).
End drivers.

(** ** Setting a clock *)
Section clock.
Context {D : Type} `{Mmio D}.

Lemma wait_nobusy_ends r n (d : D) :
  ∃ st d', cm_clk_wait_nobusy r n d = Ret (st, d') ∧ (st = CM_SETCLK_ERR_OK ∨ st = CM_SETCLK_ERR_BUSY).
Proof.
  revert d; induction n as [|n IH]; intros d; cbn [cm_clk_wait_nobusy]; rewrite read_reg_bind.
  - destruct (negb _); eexists _, _; (split; [reflexivity|auto]).
  - destruct (negb _); [eexists _, _; split; [reflexivity|auto]|]. apply IH.
Qed.

(** Reads of the control register until one shows the busy flag clear. *)
Inductive idle (r : Z) : D → D → Prop :=
| idle_now d : Z.land (fst (mmio_read r d)) CM_CLK_REG_BUSY = 0 → idle r d (snd (mmio_read r d))
| idle_later d d' : Z.land (fst (mmio_read r d)) CM_CLK_REG_BUSY ≠ 0 → idle r (snd (mmio_read r d)) d' → idle r d d'.

Lemma wait_nobusy_idle r n (d : D) d' : cm_clk_wait_nobusy r n d = Ret (CM_SETCLK_ERR_OK, d') → idle r d d'.
Proof.
  revert d; induction n as [|n IH]; intros d; cbn [cm_clk_wait_nobusy]; rewrite read_reg_bind; unfold truth.
  all: destruct (Z.eqb_spec (Z.land (fst (mmio_read r d)) CM_CLK_REG_BUSY) 0); cbn [negb].
  - intros [= <-]. by constructor.
  - done.
  - intros [= <-]. by constructor.
  - intros E. by apply idle_later, IH.
Qed.
End clock.

(** setting a clock ends for every device, whatever its registers read: an
    unknown clock is refused without an access; otherwise the clock is first
    disabled, and the result is success or "busy".  Where it is success, the
    source and the divisor were written between two waits that saw the busy
    flag clear, and the clock enabled last; the password is in every write. *)
Theorem cm_set_clock_ends {D} `{Mmio D} clock_id src mash divi divf (d : D) :
  (clock_regs clock_id = None → cm_set_clock clock_id src mash divi divf d = Ret (CM_SETCLK_ERR_INV, d)) ∧
  (∀ ctl div, clock_regs clock_id = Some (ctl, div) → ∃ st d', cm_set_clock clock_id src mash divi divf d = Ret (st, d') ∧
     (st = CM_SETCLK_ERR_BUSY ∨ st = CM_SETCLK_ERR_OK ∧ ∃ d1 d2 d3,
        let off := mmio_read ctl d in
        d1 = mmio_write ctl (u32 (Z.lor CM_REG_PASSWD (Z.ldiff (fst off) CM_CLK_REG_ENAB))) (snd off) ∧
        idle ctl d1 d2 ∧
        idle ctl (writes [(ctl, u32 (Z.lor (Z.lor CM_REG_PASSWD src) (Z.shiftl (Z.land mash 3) 9)));
                            (div, u32 (Z.lor (Z.lor CM_REG_PASSWD (Z.shiftl (Z.land divi 0xfff) 12)) (Z.land divf 0xfff)))] d2) d3 ∧
        let on := mmio_read ctl d3 in
        d' = mmio_write ctl (u32 (Z.lor CM_REG_PASSWD (Z.lor (fst on) CM_CLK_REG_ENAB))) (snd on))).
Proof.
  unfold cm_set_clock. split; [by intros ->|]. intros ctl div ->.
  unfold CM_CTL_REG_DISABLE. rewrite (io_bind_ret _ _ _ tt _ (read_reg_bind _ _ _)).
  set (d1 := mmio_write ctl _ _). destruct (wait_nobusy_ends ctl 1000 d1) as (st & d2 & E & Hst).
  rewrite (io_bind_ret _ _ _ _ _ E). destruct Hst as [-> | ->]; [|eexists _, _; split; [reflexivity|by left]].
  cbn [truth Z.eqb negb CM_SETCLK_ERR_OK]. unfold CM_CLK_REG_SET, CM_DIV_REG_SET. rewrite !write_reg_bind.
  set (d3 := mmio_write div _ _). destruct (wait_nobusy_ends ctl 1000 d3) as (st & d4 & E' & Hst).
  rewrite (io_bind_ret _ _ _ _ _ E'). destruct Hst as [-> | ->]; [|eexists _, _; split; [reflexivity|by left]].
  cbn [truth Z.eqb negb CM_SETCLK_ERR_OK]. unfold CM_CTL_REG_ENABLE.
  rewrite (io_bind_ret _ _ _ tt _ (read_reg_bind _ _ _)). eexists _, _. split; [reflexivity|]. right. split; [done|].
  exists d1, d2, d4. split; [done|]. split; [by eapply wait_nobusy_idle|]. split; [by eapply wait_nobusy_idle|done].
Qed.

(** Witness: the PWM clock of a device whose busy flag is clear. *)
Lemma cm_set_clock_ends_witness :
  ∃ st b', cm_set_clock CM_CLK_ID_PWM 1 0 192 0 (∅ : bank) = Ret (st, b') ∧ (st = CM_SETCLK_ERR_BUSY ∨ st = CM_SETCLK_ERR_OK).
Proof.
  destruct (cm_set_clock_ends CM_CLK_ID_PWM 1 0 192 0 (∅ : bank)) as [_ Hs].
  destruct (Hs CM_PWMCTL CM_PWMDIV eq_refl) as (st & b' & E & [Hb | [Hok _]]); exists st, b'; (split; [exact E|]);
    [left; exact Hb|right; exact Hok].
Defined.
