(* ===== verification/Rings.v ===== *)
(** * Rings: many circular lists in one heap

    The lists of include/list.h that a component keeps, as a finite map from
    list heads to members.  Unlike the fixed queues of the scheduler, such a
    map can grow and shrink: a USB job chain brings two list heads of its own.
    Every operation of Lists.v is an update of the map. *)

From S2P Require Import Prelude Lists.

Abbreviation ringmap := (gmap Z (list Z)).

(** Every entry is a circular list, no two share a node, and NULL is no node. *)
Record ringm (σ : heap) (M : ringmap) : Prop := {
  ringm_null : σ !! NULL = None;
  ringm_ring h l : M !! h = Some l → dring σ h l;
  ringm_disjoint h1 l1 h2 l2 : M !! h1 = Some l1 → M !! h2 = Some l2 → h1 ≠ h2 → rings_disjoint h1 l1 h2 l2 }.

(** [x] is on no list and no list head. *)
Definition outside (M : ringmap) (x : Z) : Prop := ∀ h l, M !! h = Some l → x ∉ h :: l.

Lemma agree_off_dom X σ σ' : agree_off X σ σ' → dom σ' = dom σ.
Proof. intros H. apply set_eq. intros x. rewrite !elem_of_dom. apply H. Qed.

Lemma same_dom_mapped (σ σ' : heap) x : dom σ' = dom σ → is_Some (σ !! x) → is_Some (σ' !! x).
Proof. intros E. by rewrite <- !elem_of_dom, E. Qed.

Lemma outside_insert M h l x : outside M x → x ∉ h :: l → outside (<[h := l]> M) x.
Proof.
  intros Ho Hx h' l'. destruct (decide (h' = h)) as [->|Hne].
  - rewrite lookup_insert_eq. by intros [= <-].
  - rewrite lookup_insert_ne by done. apply Ho.
Qed.

Lemma outside_delete M h x : outside M x → outside (delete h M) x.
Proof. intros Ho h' l' Hl. apply lookup_delete_Some in Hl as [_ Hl]. by eapply Ho. Qed.

(** A member is on one list only, and no list head. *)
Lemma ringm_member σ M h l x : ringm σ M → M !! h = Some l → x ∈ l → x ≠ h ∧ outside (delete h M) x.
Proof.
  intros HM Hl Hx. split.
  - intros ->. destruct (ringm_ring _ _ HM _ _ Hl) as [Hn _]. by apply NoDup_cons in Hn as [? _].
  - intros h' l' [Hne Hl']%lookup_delete_Some Hx'. apply (ringm_disjoint _ _ HM h l h' l' Hl Hl' ltac:(done) x); set_solver.
Qed.

Lemma ringm_NoDup σ M h l : ringm σ M → M !! h = Some l → NoDup l.
Proof. intros HM Hl. destruct (ringm_ring _ _ HM _ _ Hl) as [Hn _]. by apply NoDup_cons in Hn as [_ ?]. Qed.

Lemma ringm_delete σ M h : ringm σ M → ringm σ (delete h M).
Proof.
  intros []. split; [done| |].
  - intros h' l [_ Hl]%lookup_delete_Some. eauto.
  - intros h1 l1 h2 l2 [_ H1]%lookup_delete_Some [_ H2]%lookup_delete_Some. eauto.
Qed.

(** An operation that works on one list and one node [x] replaces the entry. *)
Lemma ringm_update σ σ' M h l l' x : ringm σ M → M !! h = Some l → agree_off (x :: h :: l) σ σ' → dring σ' h l' →
  (∀ z, z ∈ l' → z ∈ l ∨ z = x) → (x ∈ l ∨ outside M x) → ringm σ' (<[h := l']> M).
Proof.
  intros HM Hl Hag Hd Hsub Hx. assert (∀ h' k, M !! h' = Some k → h' ≠ h → ∀ z, z ∈ h' :: k → z ∉ x :: h :: l) as Hoff.
  { intros h' k Hk Hne z Hz Hz'. apply elem_of_cons in Hz' as [->|Hz'].
    - destruct Hx as [Hx|Ho]; [|by eapply Ho]. apply (ringm_disjoint _ _ HM h' k h l Hk Hl Hne x); set_solver.
    - by apply (ringm_disjoint _ _ HM h' k h l Hk Hl Hne z). }
  assert (∀ h' k, M !! h' = Some k → h' ≠ h → rings_disjoint h' k h l') as Hdis.
  { intros h' k Hk Hne z Hz Hz'. apply (Hoff h' k Hk Hne z Hz). apply elem_of_cons in Hz' as [->|Hz']; [set_solver|].
    destruct (Hsub z Hz') as [?| ->]; set_solver. }
  split.
  - apply eq_None_not_Some. rewrite (proj2 (Hag NULL)), (ringm_null _ _ HM). apply is_Some_None.
  - intros h' k. destruct (decide (h' = h)) as [->|Hne]; [rewrite lookup_insert_eq; by intros [= <-]|].
    rewrite lookup_insert_ne by done. intros Hk. eapply dring_frame; [exact Hag|by eapply Hoff|by eapply ringm_ring].
  - intros h1 l1 h2 l2. rewrite !lookup_insert_Some. intros [[<- <-]|[N1 H1]] [[<- <-]|[N2 H2]] Hne; try done.
    + apply rings_disjoint_sym. by apply Hdis.
    + by apply Hdis.
    + by eapply ringm_disjoint.
Qed.

Lemma ringm_del σ M h l x : ringm σ M → M !! h = Some l → x ∈ l →
  ∃ σ', __list_del σ x = Ret σ' ∧ ringm σ' (<[h := del x l]> M) ∧ dom σ' = dom σ.
Proof.
  intros HM Hl Hx. pose proof (ringm_ring _ _ HM _ _ Hl) as Hr. pose proof Hx as (xs & ys & ->)%list_elem_of_split.
  pose proof (dring_delete_NoDup _ _ _ _ _ Hr) as Hnx. destruct (list_del_ring _ _ _ _ _ Hr) as (σ' & E & H1 & _ & _ & Hag).
  exists σ'. split; [done|]. rewrite del_split by set_solver. split; [|by eapply agree_off_dom].
  eapply (ringm_update σ σ' M h _ _ x); [done|done| |done|set_solver|by left].
  eapply agree_off_mono; [exact Hag|set_solver].
Qed.

Lemma ringm_add_tail σ M h l x : ringm σ M → M !! h = Some l → outside M x → is_Some (σ !! x) →
  ∃ σ', list_add_tail σ x h = Ret σ' ∧ ringm σ' (<[h := l ++ [x]]> M) ∧ dom σ' = dom σ.
Proof.
  intros HM Hl Ho Hm. destruct (list_add_tail_ring σ h l x (ringm_ring _ _ HM _ _ Hl) (Ho _ _ Hl) Hm) as (σ' & E & Hr & Hag).
  exists σ'. split; [done|]. split; [|by eapply agree_off_dom].
  eapply (ringm_update σ σ' M h l _ x); [done|done|done|done|set_solver|by right].
Qed.

Lemma ringm_add σ M h l x : ringm σ M → M !! h = Some l → outside M x → is_Some (σ !! x) →
  ∃ σ', list_add σ x h = Ret σ' ∧ ringm σ' (<[h := x :: l]> M) ∧ dom σ' = dom σ.
Proof.
  intros HM Hl Ho Hm. destruct (list_add_ring σ h l x (ringm_ring _ _ HM _ _ Hl) (Ho _ _ Hl) Hm) as (σ' & E & Hr & Hag).
  exists σ'. split; [done|]. split; [|by eapply agree_off_dom].
  eapply (ringm_update σ σ' M h l _ x); [done|done|done|done|set_solver|by right].
Qed.

(** A new list head. *)
Lemma ringm_new σ σ' M x : ringm σ M → outside M x → agree_off [x] σ σ' → dring σ' x [] → ringm σ' (<[x := []]> M).
Proof.
  intros HM Ho Hag Hr. assert (∀ h l, M !! h = Some l → rings_disjoint h l x []) as Hdis.
  { intros h l Hl z Hz ->%list_elem_of_singleton. by eapply Ho. }
  split.
  - apply eq_None_not_Some. rewrite (proj2 (Hag NULL)), (ringm_null _ _ HM). apply is_Some_None.
  - intros h l. rewrite lookup_insert_Some. intros [[<- <-]|[_ Hl]]; [done|].
    eapply dring_frame; [exact Hag| |by eapply ringm_ring]. intros z Hz. by apply (Hdis _ _ Hl).
  - intros h1 l1 h2 l2. rewrite !lookup_insert_Some. intros [[<- <-]|[_ H1]] [[<- <-]|[_ H2]] Hne; try done.
    + apply rings_disjoint_sym. by apply Hdis.
    + by apply Hdis.
    + by eapply ringm_disjoint.
Qed.

Lemma ringm_init σ M x : ringm σ M → outside M x → is_Some (σ !! x) →
  ∃ σ', INIT_LIST_HEAD σ x = Ret σ' ∧ ringm σ' (<[x := []]> M) ∧ dom σ' = dom σ.
Proof.
  intros HM Ho Hm. destruct (INIT_LIST_HEAD_ring σ x Hm) as (σ' & E & Hr & Hag). exists σ'.
  split; [done|]. split; [by eapply ringm_new|by eapply agree_off_dom].
Qed.

(** [list_del_init] of a member: the node becomes a list of its own. *)
Lemma ringm_del_init σ M h l x : ringm σ M → M !! h = Some l → x ∈ l →
  ∃ σ', list_del_init σ x = Ret σ' ∧ ringm σ' (<[h := del x l]> M) ∧ dom σ' = dom σ.
Proof.
  intros HM Hl Hx. pose proof (ringm_ring _ _ HM _ _ Hl) as Hr. pose proof Hx as (xs & ys & ->)%list_elem_of_split.
  pose proof (dring_delete_NoDup _ _ _ _ _ Hr) as Hnx. destruct (list_del_init_ring _ _ _ _ _ Hr) as (σ' & E & H1 & _ & Hag).
  exists σ'. split; [done|]. rewrite del_split by set_solver. split; [|by eapply agree_off_dom].
  eapply (ringm_update σ σ' M h _ _ x); [done|done| |done|set_solver|by left].
  eapply agree_off_mono; [exact Hag|set_solver].
Qed.

(** The map without [x] on the list of [h]; [x] is then outside. *)
Lemma outside_deleted σ M h l x : ringm σ M → M !! h = Some l → x ∈ l → outside (<[h := del x l]> M) x.
Proof.
  intros HM Hl Hx. destruct (ringm_member _ _ _ _ _ HM Hl Hx) as [Hne Ho]. rewrite <- insert_delete_eq.
  apply outside_insert; [done|]. rewrite elem_of_cons, elem_of_del. tauto.
Qed.

(** Moving a member to the front or the end of a list, the same or another. *)
Lemma ringm_move σ M h1 l1 h2 l2 x : ringm σ M → M !! h1 = Some l1 → x ∈ l1 → <[h1 := del x l1]> M !! h2 = Some l2 →
  ∃ σ', list_move σ x h2 = Ret σ' ∧ ringm σ' (<[h2 := x :: l2]> (<[h1 := del x l1]> M)) ∧ dom σ' = dom σ.
Proof.
  intros HM H1 Hx H2. destruct (ringm_del _ _ _ _ _ HM H1 Hx) as (σ1 & E1 & HM1 & D1). unfold list_move. rewrite E1, bind_ret.
  destruct (ringm_add σ1 _ h2 l2 x HM1 H2) as (σ2 & E2 & HM2 & D2); [by eapply outside_deleted| |].
  - apply (same_dom_mapped σ); [done|]. eapply dring_mapped; [by eapply ringm_ring|set_solver].
  - exists σ2. split; [done|]. split; [done|congruence].
Qed.

Lemma ringm_move_tail σ M h1 l1 h2 l2 x : ringm σ M → M !! h1 = Some l1 → x ∈ l1 → <[h1 := del x l1]> M !! h2 = Some l2 →
  ∃ σ', list_move_tail σ x h2 = Ret σ' ∧ ringm σ' (<[h2 := l2 ++ [x]]> (<[h1 := del x l1]> M)) ∧ dom σ' = dom σ.
Proof.
  intros HM H1 Hx H2. destruct (ringm_del _ _ _ _ _ HM H1 Hx) as (σ1 & E1 & HM1 & D1). unfold list_move_tail. rewrite E1, bind_ret.
  destruct (ringm_add_tail σ1 _ h2 l2 x HM1 H2) as (σ2 & E2 & HM2 & D2); [by eapply outside_deleted| |].
  - apply (same_dom_mapped σ); [done|]. eapply dring_mapped; [by eapply ringm_ring|set_solver].
  - exists σ2. split; [done|]. split; [done|congruence].
Qed.

Lemma ringm_empty σ M h l : ringm σ M → M !! h = Some l → list_empty σ h = Ret (bool_decide (l = [])).
Proof. intros HM Hl. apply list_empty_ring. by eapply ringm_ring. Qed.

Lemma ringm_first σ M h l : ringm σ M → M !! h = Some l →
  list_first_entry σ h = Ret (match l with [] => h | x :: _ => x end).
Proof. intros HM Hl. apply list_first_ring. by eapply ringm_ring. Qed.

(** A pool whose free and active slots are lists of the map. *)
Lemma ringm_alloc σ M p x F A : ringm σ M → M !! slot_free p = Some (x :: F) → M !! slot_active p = Some A →
  slot_free p ≠ slot_active p →
  ∃ σ', slot_alloc σ p = Ret (σ', x) ∧ ringm σ' (<[slot_active p := x :: A]> (<[slot_free p := F]> M)) ∧ dom σ' = dom σ.
Proof.
  intros HM HF HA Hne. pose proof (ringm_ring _ _ HM _ _ HF) as Hr. unfold slot_alloc.
  rewrite (list_next_or_null_ring σ (slot_free p) _ Hr), bind_ret.
  assert (truth x = true) as ->.
  { unfold truth. destruct (Z.eqb_spec x 0) as [->|]; [|done]. destruct (dring_mapped _ _ _ 0 Hr ltac:(set_solver)) as [? E].
    pose proof (ringm_null _ _ HM) as En. unfold NULL in En. congruence. }
  assert (del x (x :: F) = F) as Ed.
  { apply (del_split x [] F); [set_solver|]. pose proof (ringm_NoDup _ _ _ _ HM HF) as [? _]%NoDup_cons. done. }
  destruct (ringm_move σ M (slot_free p) (x :: F) (slot_active p) A x HM HF) as (σ' & E & HM' & HD); [set_solver| |].
  { by rewrite lookup_insert_ne. }
  rewrite E, bind_ret. rewrite Ed in HM'. by exists σ'.
Qed.

Lemma ringm_release σ M p x F A : ringm σ M → M !! slot_free p = Some F → M !! slot_active p = Some A → x ∈ A →
  slot_free p ≠ slot_active p →
  ∃ σ', slot_release σ p x = Ret σ' ∧ ringm σ' (<[slot_free p := x :: F]> (<[slot_active p := del x A]> M)) ∧ dom σ' = dom σ.
Proof.
  intros HM HF HA Hx Hne. unfold slot_release. apply (ringm_move σ M (slot_active p) A); [done|done|done|].
  by rewrite lookup_insert_ne.
Qed.

(** Lists given explicitly, no node named twice. *)
Lemma ringm_of_list σ (L : list (Z * list Z)) : σ !! NULL = None → NoDup (concat (map (λ p, p.1 :: p.2) L)) →
  Forall (λ p, path σ p.1 p.2 p.1) L → ringm σ (list_to_map L).
Proof.
  intros Hnull Hnd Hp.
  assert (∀ h l, (list_to_map L : ringmap) !! h = Some l → ∃ i, L !! i = Some (h, l)) as Hin.
  { intros h l Hl. by apply elem_of_list_to_map_2, list_elem_of_lookup_1 in Hl. }
  assert (∀ (L : list (Z * list Z)) i p, L !! i = Some p → ∃ A B, concat (map (λ p, p.1 :: p.2) L) = A ++ (p.1 :: p.2) ++ B ∧
    (∀ j q, L !! j = Some q → j ≠ i → ∀ z, z ∈ q.1 :: q.2 → z ∈ A ∨ z ∈ B)) as Hsplit.
  { clear. induction L as [|p0 L IH]; intros [|i] p Hi; try done.
    - injection Hi as ->. exists [], (concat (map (λ p, p.1 :: p.2) L)). split; [done|].
      intros [|j] q Hj Hne z Hz; [done|]. right. cbn in Hj. clear -Hj Hz. revert j Hj; induction L as [|p1 L IH]; intros [|j] Hj; try done.
      + injection Hj as ->. cbn [map concat]. apply elem_of_app. by left.
      + cbn [map concat]. apply elem_of_app. right. by eapply IH.
    - destruct (IH i p Hi) as (A & B & E & Hz). exists ((p0.1 :: p0.2) ++ A), B. split.
      + cbn [map concat]. by rewrite E, <- !app_assoc.
      + intros [|j] q Hj Hne z Hzq; [injection Hj as ->; left; apply elem_of_app; by left|].
        destruct (Hz j q Hj ltac:(lia) z Hzq); [left; apply elem_of_app; by right|by right]. }
  split; [done| |].
  - intros h l Hl. destruct (Hin h l Hl) as [i Hi]. split; [|exact (Forall_lookup_1 _ _ _ _ Hp Hi)].
    destruct (Hsplit _ _ _ Hi) as (A & B & E & _). rewrite E in Hnd. apply NoDup_app in Hnd as (_ & _ & Hnd).
    by apply NoDup_app in Hnd as (? & _).
  - intros h1 l1 h2 l2 H1 H2 Hne z Hz1 Hz2. destruct (Hin _ _ H1) as [i Hi], (Hin _ _ H2) as [j Hj].
    destruct (decide (j = i)) as [->|Hji]; [congruence|].
    destruct (Hsplit _ _ _ Hi) as (A & B & E & Hz). rewrite E in Hnd. cbn [fst snd] in *.
    apply NoDup_app in Hnd as (_ & HA & (_ & HB & _)%NoDup_app).
    destruct (Hz j _ Hj Hji z Hz2) as [HzA|HzB]; [apply (HA z HzA); apply elem_of_app; by left|by apply (HB z Hz1)].
Qed.

Lemma outside_of_list (L : list (Z * list Z)) x : Forall (λ p, x ∉ p.1 :: p.2) L → outside (list_to_map L) x.
Proof. intros HF h l Hl%elem_of_list_to_map_2. by apply (proj1 (Forall_forall _ _) HF (h, l)). Qed.

(** [INIT_LIST_HEAD] of a node that stays on no list. *)
Lemma ringm_init_outside σ M x : ringm σ M → outside M x → is_Some (σ !! x) →
  ∃ σ', INIT_LIST_HEAD σ x = Ret σ' ∧ ringm σ' M ∧ dom σ' = dom σ.
Proof.
  intros HM Ho Hm. destruct (ringm_init _ _ _ HM Ho Hm) as (σ' & E & HM' & HD). exists σ'. split; [done|]. split; [|done].
  rewrite <- (delete_insert_id M x []); [by apply ringm_delete|]. destruct (M !! x) as [l|] eqn:El; [|done].
  exfalso. apply (Ho x l El). set_solver.
Qed.

(** A list head is outside the rest of the map. *)
Lemma ringm_head_outside σ M x l : ringm σ M → M !! x = Some l → outside (delete x M) x.
Proof.
  intros HM Hx h' l' [Hne Hl]%lookup_delete_Some Hin. by apply (ringm_disjoint _ _ HM h' l' x l Hl Hx ltac:(done) x); [|set_solver].
Qed.

(** [list_del_init] of a node that is a list of its own. *)
Lemma ringm_del_init_self σ M x : ringm σ M → M !! x = Some [] → ∃ σ', list_del_init σ x = Ret σ' ∧ ringm σ' M ∧ dom σ' = dom σ.
Proof.
  intros HM Hx. destruct (list_del_init_self σ x (ringm_ring _ _ HM _ _ Hx)) as (σ' & E & Hr & Hag).
  exists σ'. split; [done|]. split; [|by eapply agree_off_dom].
  rewrite <- (insert_id M x []), <- insert_delete_eq by done. apply (ringm_new σ); [by apply ringm_delete| |done|done].
  by apply (ringm_head_outside σ _ _ []).
Qed.
