(* ===== verification/Dwc2.v ===== *)
(** * The USB host controller (board/bcm2835/usb/dwc2_channel.c, dwc2_xfer_control.c, dwc2_transfer.c, dwc2.c)

    The DWC2 controller has six host channels.  A transfer binds a channel to a
    pipe (the endpoint) and to a transfer control block, programs the registers
    of the channel and is finished by the interrupt handler, which restarts the
    channel or calls the completion function.  The device behind the registers
    is a parameter; so is the state [C] of the client and what a completion
    function does to it (UsbQueue.v has the real one).  Waits and log output
    have no effect on the state. *)

From S2P Require Import Prelude Bits Lists Mmio.

(** ** Registers *)
Definition USB_BASE : Z := 0x3f980000.
Definition USB_GOTGCTL : Z := USB_BASE.
Definition USB_GOTGINT : Z := USB_BASE + 0x4.
Definition USB_GAHBCFG : Z := USB_BASE + 0x8.
Definition USB_GUSBCFG : Z := USB_BASE + 0xc.
Definition USB_GRSTCTL : Z := USB_BASE + 0x10.
Definition USB_GINTSTS : Z := USB_BASE + 0x14.
Definition USB_GINTMSK : Z := USB_BASE + 0x18.
Definition USB_GRXSTSP : Z := USB_BASE + 0x20.
Definition USB_GRXFSIZ : Z := USB_BASE + 0x24.
Definition USB_GNPTXFSIZ : Z := USB_BASE + 0x28.
Definition USB_GUID : Z := USB_BASE + 0x3c.
Definition USB_GSNPSID : Z := USB_BASE + 0x40.
Definition USB_GHWCFG2 : Z := USB_BASE + 0x48.
Definition USB_HPTXFSIZ : Z := USB_BASE + 0x100.
Definition USB_HCFG : Z := USB_BASE + 0x400.
Definition USB_HAINT : Z := USB_BASE + 0x414.
Definition USB_HAINTMSK : Z := USB_BASE + 0x418.
Definition USB_HPRT : Z := USB_BASE + 0x440.
Definition USB_PCGCR : Z := USB_BASE + 0xe00.
Definition USB_HCCHAR0 : Z := USB_BASE + 0x500.
Definition USB_HCSPLT0 : Z := USB_BASE + 0x504.
Definition USB_HCINT0 : Z := USB_BASE + 0x508.
Definition USB_HCINTMSK0 : Z := USB_BASE + 0x50c.
Definition USB_HCTSIZ0 : Z := USB_BASE + 0x510.
Definition USB_HCDMA0 : Z := USB_BASE + 0x514.

(** The fields of the channel registers. *)
Definition USB_HOST_CHAR_GET_CHAN_ENABLE (v : Z) : Z := BF_EXTRACT v 31 1.
Definition USB_HOST_CHAR_CLR_SET_MAX_PACK_SZ (v x : Z) : Z := BF_CLEAR_AND_SET v x 0 11.
Definition USB_HOST_CHAR_CLR_SET_EP (v x : Z) : Z := BF_CLEAR_AND_SET v x 11 4.
Definition USB_HOST_CHAR_CLR_SET_EP_DIR (v x : Z) : Z := BF_CLEAR_AND_SET v x 15 1.
Definition USB_HOST_CHAR_CLR_SET_IS_LOW (v x : Z) : Z := BF_CLEAR_AND_SET v x 17 1.
Definition USB_HOST_CHAR_CLR_SET_EP_TYPE (v x : Z) : Z := BF_CLEAR_AND_SET v x 18 2.
Definition USB_HOST_CHAR_CLR_SET_PACK_PER_FRM (v x : Z) : Z := BF_CLEAR_AND_SET v x 20 2.
Definition USB_HOST_CHAR_CLR_SET_DEV_ADDR (v x : Z) : Z := BF_CLEAR_AND_SET v x 22 7.
Definition USB_HOST_CHAR_CLR_SET_CHAN_DISABLE (v x : Z) : Z := BF_CLEAR_AND_SET v x 30 1.
Definition USB_HOST_CHAR_CLR_SET_CHAN_ENABLE (v x : Z) : Z := BF_CLEAR_AND_SET v x 31 1.
Definition USB_HOST_CHAR_CLR_CHAN_DISABLE (v : Z) : Z := BF_CLEAR v 30 1.
Definition USB_HOST_CHAR_CLR_CHAN_ENABLE (v : Z) : Z := BF_CLEAR v 31 1.
Definition USB_HOST_SPLT_GET_SPLT_ENABLE (v : Z) : Z := BF_EXTRACT v 31 1.
Definition USB_HOST_SPLT_CLR_SET_PORT_ADDR (v x : Z) : Z := BF_CLEAR_AND_SET v x 0 7.
Definition USB_HOST_SPLT_CLR_SET_HUB_ADDR (v x : Z) : Z := BF_CLEAR_AND_SET v x 7 7.
Definition USB_HOST_SPLT_CLR_SET_COMPLETE_SPLIT (v x : Z) : Z := BF_CLEAR_AND_SET v x 16 1.
Definition USB_HOST_SPLT_CLR_SET_SPLT_ENABLE (v x : Z) : Z := BF_CLEAR_AND_SET v x 31 1.
Definition USB_HOST_SPLT_CLR_COMPLETE_SPLIT (v : Z) : Z := BF_CLEAR v 16 1.
Definition USB_HOST_SIZE_GET_SIZE (v : Z) : Z := BF_EXTRACT v 0 19.
Definition USB_HOST_SIZE_GET_PACKET_COUNT (v : Z) : Z := BF_EXTRACT v 19 10.
Definition USB_HOST_SIZE_GET_PID (v : Z) : Z := BF_EXTRACT v 29 2.
Definition USB_HOST_SIZE_CLR_SET_SIZE (v x : Z) : Z := BF_CLEAR_AND_SET v x 0 19.
Definition USB_HOST_SIZE_CLR_SET_PACKET_COUNT (v x : Z) : Z := BF_CLEAR_AND_SET v x 19 10.
Definition USB_HOST_SIZE_CLR_SET_PID (v x : Z) : Z := BF_CLEAR_AND_SET v x 29 2.

(** The interrupts of a channel, by bit. *)
Definition XFER_COMPLETE : Z := 0.
Definition HALT : Z := 1.
Definition AHB_ERR : Z := 2.
Definition STALL : Z := 3.
Definition NAK : Z := 4.
Definition ACK : Z := 5.
Definition NYET : Z := 6.
Definition TRNSERR : Z := 7.
Definition BABBLERR : Z := 8.
Definition FRMOVRN : Z := 9.
Definition DATTGGLERR : Z := 10.
Definition INTR_GET (v bit : Z) : bool := truth (BF_EXTRACT v bit 1).
Definition INTR_CLR (v bit : Z) : Z := BF_CLEAR v bit 1.
Definition INTR_SET (v bit : Z) : Z := BF_CLEAR_AND_SET v 1 bit 1.

(** ** Data *)
Definition USB_PID_DATA0 : Z := 0.
Definition USB_PID_DATA1 : Z := 1.
Definition USB_PID_DATA2 : Z := 2.
Definition USB_PID_MDATA : Z := 3.
Definition USB_PID_SETUP : Z := 4.
Definition USB_PID_UNSET : Z := 0xff.

Definition usb_pid_to_dwc_pid (pid : Z) : Z :=
  if pid =? USB_PID_DATA0 then 0 else if pid =? USB_PID_DATA1 then 2
  else if pid =? USB_PID_DATA2 then 1 else if pid =? USB_PID_SETUP then 3 else 0xff.

Definition dwc_pid_to_usb_pid (pid : Z) : Z :=
  if pid =? 0 then USB_PID_DATA0 else if pid =? 2 then USB_PID_DATA1
  else if pid =? 1 then USB_PID_DATA2 else if pid =? 3 then USB_PID_SETUP else 0xff.

Definition USB_SPEED_HIGH : Z := 0.
Definition USB_SPEED_FULL : Z := 1.
Definition USB_SPEED_LOW : Z := 2.
Definition USB_ENDPOINT_TYPE_CONTROL : Z := 0.
Definition USB_ENDPOINT_TYPE_ISOCHRONOUS : Z := 1.
Definition USB_ENDPOINT_TYPE_BULK : Z := 2.
Definition USB_ENDPOINT_TYPE_INTERRUPT : Z := 3.
Definition USB_DIRECTION_OUT : Z := 0.
Definition USB_DIRECTION_IN : Z := 1.

Definition usb_is_periodic_ep_type (ep_type : Z) : bool :=
  (ep_type =? USB_ENDPOINT_TYPE_ISOCHRONOUS) || (ep_type =? USB_ENDPOINT_TYPE_INTERRUPT).

(** The statuses of a transfer (dwc2.h); [STARTED] is the value of ACK. *)
Definition DWC2_STATUS_ACK : Z := 0.
Definition DWC2_STATUS_NAK : Z := 1.
Definition DWC2_STATUS_NYET : Z := 2.
Definition DWC2_STATUS_TIMEOUT : Z := 4.
Definition DWC2_STATUS_ERR : Z := 5.
Definition DWC2_STATUS_HALTED : Z := 6.
Definition DWC2_TRANSFER_STATUS_STARTED : Z := 0.

Definition ERR_OK : Z := 0.
Definition ERR_FATAL : Z := -4.
Definition ERR_RETRY : Z := -12.

Record usb_hcd_pipe := UsbPipe {
  device_address : Z; device_speed : Z; endpoint_num : Z; endpoint_type : Z; endpoint_dir : Z;
  max_packet_size : Z; ls_hub_port : Z; ls_hub_address : Z; next_pid : Z }.

Definition set_pid (p : usb_hcd_pipe) (pid : Z) : usb_hcd_pipe :=
  UsbPipe (device_address p) (device_speed p) (endpoint_num p) (endpoint_type p) (endpoint_dir p)
    (max_packet_size p) (ls_hub_port p) (ls_hub_address p) pid.

(** [ctl_c] is the channel of the block; a completion of 0 is NULL. *)
Record dwc2_xfer_control := XferControl {
  ctl_c : option Z; status : Z; direction : Z; transfer_size : Z; split_start : bool; first_packet : bool;
  dma_addr_base : Z; dma_addr : Z; completion : Z; completion_arg : Z }.

Definition set_status (x : dwc2_xfer_control) (v : Z) : dwc2_xfer_control :=
  XferControl (ctl_c x) v (direction x) (transfer_size x) (split_start x) (first_packet x) (dma_addr_base x)
    (dma_addr x) (completion x) (completion_arg x).
Definition set_ctl_c (x : dwc2_xfer_control) (c : option Z) : dwc2_xfer_control :=
  XferControl c (status x) (direction x) (transfer_size x) (split_start x) (first_packet x) (dma_addr_base x)
    (dma_addr x) (completion x) (completion_arg x).
Definition set_split_start (x : dwc2_xfer_control) (b : bool) : dwc2_xfer_control :=
  XferControl (ctl_c x) (status x) (direction x) (transfer_size x) b (first_packet x) (dma_addr_base x)
    (dma_addr x) (completion x) (completion_arg x).
Definition set_dma (x : dwc2_xfer_control) (a : Z) (first : bool) : dwc2_xfer_control :=
  XferControl (ctl_c x) (status x) (direction x) (transfer_size x) (split_start x) first (dma_addr_base x)
    a (completion x) (completion_arg x).
Definition set_job (x : dwc2_xfer_control) (addr dir sz : Z) : dwc2_xfer_control :=
  XferControl (ctl_c x) (status x) dir sz (split_start x) (first_packet x) addr (dma_addr x)
    (completion x) (completion_arg x).
Definition set_completion (x : dwc2_xfer_control) (fn arg : Z) : dwc2_xfer_control :=
  XferControl (ctl_c x) (status x) (direction x) (transfer_size x) (split_start x) (first_packet x)
    (dma_addr_base x) (dma_addr x) fn arg.

(** A channel; its pipe and its control block are addresses, 0 for NULL. *)
Record dwc2_channel := Dwc2Channel { id : Z; pipe : Z; ctl : Z }.

(** A transfer job (usb_xfer_queue.h); [jc] is the job chain it belongs to. *)
Record usb_xfer_job := XferJob {
  j_direction : Z; j_addr : Z; j_transfer_size : Z; j_next_pid : Z; j_err : Z; j_completion : Z;
  j_completion_arg : Z; j_completed : bool; j_jc : Z }.

(** Everything the controller's code works on.  A channel pointer is the index
    of the channel; a control block is named by its address, which is that of
    the list node of its slot. *)
Record usb (D C : Type) := Usb {
  dev : D; channels_bitmap : Z; channels : list dwc2_channel; ctls : gmap Z dwc2_xfer_control;
  pipes : gmap Z usb_hcd_pipe; lists : heap; ctl_pool : slot_pool; irq_num : Z; port_status_changed_cb : Z; client : C }.
Arguments Usb {D C}.
Arguments dev {D C}.
Arguments channels_bitmap {D C}.
Arguments channels {D C}.
Arguments ctls {D C}.
Arguments pipes {D C}.
Arguments lists {D C}.
Arguments ctl_pool {D C}.
Arguments irq_num {D C}.
Arguments port_status_changed_cb {D C}.
Arguments client {D C}.

Definition with_dev {D C} (s : usb D C) (d : D) : usb D C :=
  Usb d (channels_bitmap s) (channels s) (ctls s) (pipes s) (lists s) (ctl_pool s) (irq_num s) (port_status_changed_cb s) (client s).
Definition with_channels_bitmap {D C} (s : usb D C) (b : Z) : usb D C :=
  Usb (dev s) b (channels s) (ctls s) (pipes s) (lists s) (ctl_pool s) (irq_num s) (port_status_changed_cb s) (client s).
Definition with_channels {D C} (s : usb D C) (l : list dwc2_channel) : usb D C :=
  Usb (dev s) (channels_bitmap s) l (ctls s) (pipes s) (lists s) (ctl_pool s) (irq_num s) (port_status_changed_cb s) (client s).
Definition with_ctls {D C} (s : usb D C) (m : gmap Z dwc2_xfer_control) : usb D C :=
  Usb (dev s) (channels_bitmap s) (channels s) m (pipes s) (lists s) (ctl_pool s) (irq_num s) (port_status_changed_cb s) (client s).
Definition with_pipes {D C} (s : usb D C) (m : gmap Z usb_hcd_pipe) : usb D C :=
  Usb (dev s) (channels_bitmap s) (channels s) (ctls s) m (lists s) (ctl_pool s) (irq_num s) (port_status_changed_cb s) (client s).
Definition with_lists {D C} (s : usb D C) (σ : heap) : usb D C :=
  Usb (dev s) (channels_bitmap s) (channels s) (ctls s) (pipes s) σ (ctl_pool s) (irq_num s) (port_status_changed_cb s) (client s).
Definition with_irq_num {D C} (s : usb D C) (n : Z) : usb D C :=
  Usb (dev s) (channels_bitmap s) (channels s) (ctls s) (pipes s) (lists s) (ctl_pool s) n (port_status_changed_cb s) (client s).
Definition with_port_cb {D C} (s : usb D C) (fn : Z) : usb D C :=
  Usb (dev s) (channels_bitmap s) (channels s) (ctls s) (pipes s) (lists s) (ctl_pool s) (irq_num s) fn (client s).
Definition with_client {D C} (s : usb D C) (c : C) : usb D C :=
  Usb (dev s) (channels_bitmap s) (channels s) (ctls s) (pipes s) (lists s) (ctl_pool s) (irq_num s) (port_status_changed_cb s) c.

(** The registers of the device are reached through the whole state. *)
#[export] Instance usb_mmio {D C} `{Mmio D} : Mmio (usb D C) := {|
  mmio_read r s := (fst (mmio_read r (dev s)), with_dev s (snd (mmio_read r (dev s))));
  mmio_write r v s := with_dev s (mmio_write r v (dev s)) |}.

Definition bool_z (b : bool) : Z := if b then 1 else 0.

Section dwc2.
Context {D C : Type} `{Mmio D}.

(** ** Access to the state *)
Definition gets {A} (f : usb D C → A) : io (usb D C) A := λ s, Ret (f s, s).
Definition modify (f : usb D C → usb D C) : io (usb D C) unit := λ s, Ret (tt, f s).
Definition when (b : bool) (m : io (usb D C) unit) : io (usb D C) unit := if b then m else mret tt.
Definition BUG_ON (b : bool) : io (usb D C) unit := lift (BUG b).
(** [while (1);] *)
Definition hang {A} : io (usb D C) A := λ _, NoFuel.

(** The channel [c] points to; a NULL channel pointer is [None]. *)
Definition get_channel (c : Z) : io (usb D C) dwc2_channel := λ s, ch ← deref (channels s !! Z.to_nat c); Ret (ch, s).
Definition put_channel (c : Z) (ch : dwc2_channel) : io (usb D C) unit :=
  modify (λ s, with_channels s (<[Z.to_nat c := ch]> (channels s))).
Definition get_xctl (a : Z) : io (usb D C) dwc2_xfer_control := λ s, x ← deref (ctls s !! a); Ret (x, s).
Definition get_pipe (a : Z) : io (usb D C) usb_hcd_pipe := λ s, p ← deref (pipes s !! a); Ret (p, s).
Definition put_xctl (a : Z) (x : dwc2_xfer_control) : io (usb D C) unit :=
  modify (λ s, with_ctls s (<[a := x]> (ctls s))).
Definition upd_xctl (a : Z) (f : dwc2_xfer_control → dwc2_xfer_control) : io (usb D C) unit :=
  x ← get_xctl a; put_xctl a (f x).
(** [c->ctl] of a channel, read and written. *)
Definition channel_ctl (c : Z) : io (usb D C) dwc2_xfer_control := ch ← get_channel c; get_xctl (ctl ch).
Definition upd_channel_ctl (c : Z) (f : dwc2_xfer_control → dwc2_xfer_control) : io (usb D C) unit :=
  ch ← get_channel c; upd_xctl (ctl ch) f.

(** ** dwc2_channel.h *)
Definition dwc2_channel_get_pipe_safe (c : Z) : io (usb D C) usb_hcd_pipe :=
  ch ← get_channel c;
  _ ← BUG_ON (pipe ch =? NULL);
  get_pipe (pipe ch).
Definition dwc2_channel_get_max_packet_size (c : Z) : io (usb D C) Z :=
  p ← dwc2_channel_get_pipe_safe c; mret (max_packet_size p).
Definition dwc2_channel_get_ep_num (c : Z) : io (usb D C) Z :=
  p ← dwc2_channel_get_pipe_safe c; mret (endpoint_num p).
Definition dwc2_channel_get_ep_type (c : Z) : io (usb D C) Z :=
  p ← dwc2_channel_get_pipe_safe c; mret (endpoint_type p).
Definition dwc2_channel_get_device_address (c : Z) : io (usb D C) Z :=
  p ← dwc2_channel_get_pipe_safe c; mret (device_address p).
Definition dwc2_channel_is_speed_high (c : Z) : io (usb D C) bool :=
  p ← dwc2_channel_get_pipe_safe c; mret (device_speed p =? USB_SPEED_HIGH).
Definition dwc2_channel_is_speed_low (c : Z) : io (usb D C) bool :=
  p ← dwc2_channel_get_pipe_safe c; mret (device_speed p =? USB_SPEED_LOW).
Definition dwc2_channel_get_next_pid (c : Z) : io (usb D C) Z :=
  p ← dwc2_channel_get_pipe_safe c; mret (next_pid p).
Definition dwc2_channel_set_next_pid (c pid : Z) : io (usb D C) unit :=
  p ← dwc2_channel_get_pipe_safe c;
  ch ← get_channel c;
  modify (λ s, with_pipes s (<[pipe ch := set_pid p pid]> (pipes s))).
Definition dwc2_channel_split_mode (c : Z) : io (usb D C) bool :=
  h ← dwc2_channel_is_speed_high c; mret (negb h).

(** ** dwc2_channel.c *)

(** The scan of the bitmap. *)
Fixpoint free_channel (n : nat) (bitmap ch : Z) : Z :=
  match n with
  | O => ch
  | S n => if truth (Z.land bitmap (Z.shiftl 1 ch)) then free_channel n bitmap (ch + 1) else ch
  end.

Definition dwc2_channel_create : io (usb D C) (option Z) :=
  let num_channels := 6 in
  bitmap ← gets channels_bitmap;
  let ch := free_channel 6 bitmap 0 in
  if ch <? num_channels then
    _ ← modify (λ s, with_channels_bitmap s (u8 (Z.lor bitmap (Z.shiftl 1 ch))));
    mret (Some ch)
  else mret None.

Definition dwc2_channel_destroy (c : Z) : io (usb D C) unit :=
  bitmap ← gets channels_bitmap;
  ch ← get_channel c;
  _ ← BUG_ON (BIT_IS_CLEAR bitmap (id ch));
  modify (λ s, with_channels_bitmap s (BIT_CLEAR bitmap (id ch))).

Definition dwc2_channel_get_by_id (ch_id : Z) : io (usb D C) (option Z) :=
  bitmap ← gets channels_bitmap;
  mret (if truth (BIT_IS_SET bitmap ch_id) then Some ch_id else None).

(** Dereferencing the result of the lookup. *)
Definition not_null {A} (o : option A) : io (usb D C) A := lift (deref o).

Definition dwc2_channel_init : io (usb D C) unit :=
  modify (λ s, with_channels s (imap (λ i _, Dwc2Channel (Z.of_nat i) NULL NULL) (channels s))).

Definition dwc2_channel_bind_xfer_control (c a : Z) : io (usb D C) unit :=
  ch ← get_channel c;
  _ ← put_channel c (Dwc2Channel (id ch) (pipe ch) a);
  upd_xctl a (λ x, set_ctl_c x (Some c)).

Definition dwc2_channel_unbind_xfer_control (c : Z) : io (usb D C) unit :=
  ch ← get_channel c;
  _ ← BUG_ON (ctl ch =? NULL);
  _ ← upd_xctl (ctl ch) (λ x, set_ctl_c x None);
  put_channel c (Dwc2Channel (id ch) (pipe ch) NULL).

(** ** dwc2_xfer_control.c *)
Definition dwc2_xfer_control_create : io (usb D C) Z := λ s,
  '(σ, a) ← slot_alloc (lists s) (ctl_pool s); Ret (a, with_lists s σ).
Definition dwc2_xfer_control_destroy (a : Z) : io (usb D C) unit := λ s,
  σ ← slot_release (lists s) (ctl_pool s) a; Ret (tt, with_lists s σ).
Definition dwc2_xfer_control_init : io (usb D C) unit := λ s,
  σ ← STATIC_SLOT_INIT_FREE (lists s) (ctl_pool s);
  Ret (tt, with_ctls (with_lists s σ)
    (foldr (λ a, <[a := XferControl None 0 0 0 false false 0 0 0 0]>) (ctls s) (slot_nodes (ctl_pool s)))).

(** ** Channel registers (dwc2_reg_access.h): eight words per channel *)
Definition __read_ch_reg (reg chan : Z) : io (usb D C) Z := read_reg (reg + 4 * (chan * 8)).
Definition __write_ch_reg (reg chan val : Z) : io (usb D C) unit := write_reg (reg + 4 * (chan * 8)) val.
Definition CLEAR_INTR (ch_id : Z) : io (usb D C) unit := __write_ch_reg USB_HCINT0 ch_id 0xffffffff.
Definition CLEAR_INTRMSK (ch_id : Z) : io (usb D C) unit := __write_ch_reg USB_HCINTMSK0 ch_id 0.
Definition SET_INTR (ch_id v : Z) : io (usb D C) unit := __write_ch_reg USB_HCINT0 ch_id v.
Definition SET_INTRMSK (ch_id v : Z) : io (usb D C) unit := __write_ch_reg USB_HCINTMSK0 ch_id v.
Definition SET_SPLT (ch_id v : Z) : io (usb D C) unit := __write_ch_reg USB_HCSPLT0 ch_id v.
Definition SET_CHAR (ch_id v : Z) : io (usb D C) unit := __write_ch_reg USB_HCCHAR0 ch_id v.
Definition SET_SIZ (ch_id v : Z) : io (usb D C) unit := __write_ch_reg USB_HCTSIZ0 ch_id v.
Definition SET_DMA (ch_id v : Z) : io (usb D C) unit := __write_ch_reg USB_HCDMA0 ch_id v.
Definition GET_CHAR (ch_id : Z) : io (usb D C) Z := __read_ch_reg USB_HCCHAR0 ch_id.
Definition GET_SIZ (ch_id : Z) : io (usb D C) Z := __read_ch_reg USB_HCTSIZ0 ch_id.
Definition GET_SPLT (ch_id : Z) : io (usb D C) Z := __read_ch_reg USB_HCSPLT0 ch_id.
Definition GET_INTR (ch_id : Z) : io (usb D C) Z := __read_ch_reg USB_HCINT0 ch_id.
Definition GET_INTRMSK (ch_id : Z) : io (usb D C) Z := __read_ch_reg USB_HCINTMSK0 ch_id.

(** ** Channel interrupts of the core (dwc2.c) *)
Definition dwc2_enable_channel_int (ch_id : Z) : io (usb D C) unit :=
  haintmsk ← read_reg USB_HAINTMSK;
  write_reg USB_HAINTMSK (Z.lor haintmsk (Z.shiftl 1 ch_id)).
Definition dwc2_disable_channel_int (ch_id : Z) : io (usb D C) unit :=
  haintmsk ← read_reg USB_HAINTMSK;
  write_reg USB_HAINTMSK (Z.land haintmsk (u32 (Z.lnot (u32 (Z.shiftl 1 ch_id))))).
Definition dwc2_channel_enable (ch_id : Z) : io (usb D C) unit := dwc2_enable_channel_int ch_id.
Definition dwc2_channel_disable (ch_id : Z) : io (usb D C) unit := dwc2_disable_channel_int ch_id.

(** ** Transfers (dwc2_transfer.c) *)

(** Signed division rounds to zero; a zero packet size is a [Fault]. *)
Definition dwc2_channel_calc_num_packets (c : Z) : io (usb D C) Z :=
  mps ← dwc2_channel_get_max_packet_size c;
  low ← dwc2_channel_is_speed_low c;
  let mps := if (low : bool) then 8 else mps in
  x ← channel_ctl c;
  if mps =? 0 then lift Fault else
  let num_packets := Z.quot (s32 (s32 (transfer_size x + mps) - 1)) mps in
  mret (if num_packets =? 0 then 1 else num_packets).

Definition dwc2_wait_halted (fuel : nat) (ch_id : Z) : io (usb D C) Z :=
  intr ← io_loop fuel (
    intr ← GET_INTR ch_id;
    mret (if INTR_GET intr HALT || INTR_GET intr NAK then Some intr else None));
  _ ← SET_INTR ch_id intr;
  mret (if INTR_GET intr XFER_COMPLETE then DWC2_STATUS_ACK
        else if INTR_GET intr ACK then DWC2_STATUS_ACK
        else if INTR_GET intr NAK then DWC2_STATUS_NAK
        else if INTR_GET intr NYET then DWC2_STATUS_NYET
        else DWC2_STATUS_ERR).

Definition dwc2_channel_ensure_disabled (fuel : nat) (c : Z) : io (usb D C) Z :=
  ch ← get_channel c;
  let ch_id := id ch in
  chr ← GET_CHAR ch_id;
  _ ← when (truth (USB_HOST_CHAR_GET_CHAN_ENABLE chr)) (
    _ ← SET_CHAR ch_id (USB_HOST_CHAR_CLR_CHAN_ENABLE (USB_HOST_CHAR_CLR_SET_CHAN_DISABLE chr 1));
    io_loop fuel (
      intr ← GET_INTR ch_id;
      _ ← SET_INTR ch_id intr;
      if INTR_GET intr HALT then mret (Some tt) else
      _ ← BUG_ON (truth (INTR_CLR intr HALT));
      mret None));
  chr ← GET_CHAR ch_id;
  _ ← BUG_ON (truth (USB_HOST_CHAR_GET_CHAN_ENABLE chr));
  mret chr.

Definition dwc2_channel_program_char (fuel : nat) (c : Z) : io (usb D C) unit :=
  ch ← get_channel c;
  chr ← dwc2_channel_ensure_disabled fuel c;
  mps ← dwc2_channel_get_max_packet_size c;
  let chr := USB_HOST_CHAR_CLR_SET_MAX_PACK_SZ chr mps in
  ep ← dwc2_channel_get_ep_num c;
  let chr := USB_HOST_CHAR_CLR_SET_EP chr ep in
  x ← channel_ctl c;
  let chr := USB_HOST_CHAR_CLR_SET_EP_DIR chr (direction x) in
  low ← dwc2_channel_is_speed_low c;
  let chr := USB_HOST_CHAR_CLR_SET_IS_LOW chr (bool_z low) in
  ty ← dwc2_channel_get_ep_type c;
  let chr := USB_HOST_CHAR_CLR_SET_EP_TYPE chr ty in
  addr ← dwc2_channel_get_device_address c;
  let chr := USB_HOST_CHAR_CLR_SET_DEV_ADDR chr addr in
  let chr := USB_HOST_CHAR_CLR_SET_PACK_PER_FRM chr 1 in
  SET_CHAR (id ch) chr.

Definition dwc2_channel_program_split (c : Z) : io (usb D C) unit :=
  ch ← get_channel c;
  split ← dwc2_channel_split_mode c;
  if (split : bool) then
    p ← dwc2_channel_get_pipe_safe c;
    let splt := USB_HOST_SPLT_CLR_SET_SPLT_ENABLE 0 1 in
    let splt := USB_HOST_SPLT_CLR_SET_HUB_ADDR splt (ls_hub_address p) in
    let splt := USB_HOST_SPLT_CLR_SET_PORT_ADDR splt (ls_hub_port p) in
    SET_SPLT (id ch) splt
  else SET_SPLT (id ch) 0.

Definition dwc2_channel_program_tsize (c : Z) : io (usb D C) unit :=
  ch ← get_channel c;
  num_packets ← dwc2_channel_calc_num_packets c;
  x ← channel_ctl c;
  p ← dwc2_channel_get_pipe_safe c;
  let siz := USB_HOST_SIZE_CLR_SET_SIZE 0 (transfer_size x) in
  let siz := USB_HOST_SIZE_CLR_SET_PACKET_COUNT siz num_packets in
  let siz := USB_HOST_SIZE_CLR_SET_PID siz (usb_pid_to_dwc_pid (next_pid p)) in
  SET_SIZ (id ch) siz.

Definition dwc2_channel_set_split_start (c : Z) : io (usb D C) unit :=
  ch ← get_channel c;
  splt ← GET_SPLT (id ch);
  SET_SPLT (id ch) (USB_HOST_SPLT_CLR_COMPLETE_SPLIT splt).

Definition RAM_PHY_TO_BUS_UNCACHED (x : Z) : Z := Z.lor (u32 x) 0xc0000000.

(** [dcache_flush] has no effect on the state modelled. *)
Definition dwc2_channel_set_dma_addr (c : Z) : io (usb D C) unit :=
  ch ← get_channel c;
  x ← channel_ctl c;
  _ ← BUG_ON (first_packet x && truth (Z.land (dma_addr x) 3));
  when (truth (dma_addr x)) (SET_DMA (id ch) (RAM_PHY_TO_BUS_UNCACHED (dma_addr x))).

Definition dwc2_channel_set_split_complete (c : Z) : io (usb D C) unit :=
  ch ← get_channel c;
  splt ← GET_SPLT (id ch);
  SET_SPLT (id ch) (USB_HOST_SPLT_CLR_SET_COMPLETE_SPLIT splt 1).

Definition dwc2_channel_set_intmsk (c : Z) : io (usb D C) unit :=
  ch ← get_channel c;
  ep_type ← dwc2_channel_get_ep_type c;
  is_split ← dwc2_channel_split_mode c;
  let msk := INTR_SET (INTR_SET 0 HALT) XFER_COMPLETE in
  let msk := INTR_SET (INTR_SET (INTR_SET msk AHB_ERR) STALL) FRMOVRN in
  let msk := INTR_SET (INTR_SET (INTR_SET msk TRNSERR) BABBLERR) DATTGGLERR in
  let msk := if usb_is_periodic_ep_type ep_type || is_split
             then INTR_SET (INTR_SET (INTR_SET msk ACK) NAK) NYET else msk in
  SET_INTRMSK (id ch) msk.

Definition dwc2_channel_start_transmit (c : Z) : io (usb D C) unit :=
  ch ← get_channel c;
  chr ← GET_CHAR (id ch);
  let chr := USB_HOST_CHAR_CLR_CHAN_DISABLE chr in
  let chr := USB_HOST_CHAR_CLR_SET_CHAN_ENABLE chr 1 in
  _ ← SET_CHAR (id ch) chr;
  _ ← dwc2_channel_set_intmsk c;
  dwc2_channel_enable (id ch).

Definition dwc2_channel_is_split_enabled (c : Z) : io (usb D C) bool :=
  ch ← get_channel c;
  splt ← GET_SPLT (id ch);
  mret (truth (USB_HOST_SPLT_GET_SPLT_ENABLE splt)).

Definition dwc2_channel_clear_pending (c : Z) : io (usb D C) unit :=
  ch ← get_channel c;
  _ ← CLEAR_INTR (id ch);
  CLEAR_INTRMSK (id ch).

Definition dwc2_transfer_prepare (fuel : nat) (c : Z) : io (usb D C) unit :=
  ch ← get_channel c;
  _ ← dwc2_channel_get_ep_num c;
  _ ← dwc2_channel_get_next_pid c;
  x ← channel_ctl c;
  _ ← BUG_ON (truth (Z.land (dma_addr_base x) 3));
  _ ← dwc2_channel_disable (id ch);
  _ ← dwc2_channel_clear_pending c;
  _ ← upd_channel_ctl c (λ x, set_status x DWC2_TRANSFER_STATUS_STARTED);
  _ ← dwc2_channel_program_char fuel c;
  _ ← dwc2_channel_program_split c;
  _ ← dwc2_channel_program_tsize c;
  split ← dwc2_channel_split_mode c;
  _ ← when split (upd_channel_ctl c (λ x, set_split_start x true));
  upd_channel_ctl c (λ x, set_dma x (dma_addr_base x) true).

Definition dwc2_transfer_retry (c : Z) : io (usb D C) Z :=
  _ ← dwc2_channel_start_transmit c; mret ERR_OK.

Definition dwc2_transfer_stop (c : Z) : io (usb D C) Z :=
  ch ← get_channel c;
  chr ← GET_CHAR (id ch);
  _ ← SET_CHAR (id ch) (USB_HOST_CHAR_CLR_CHAN_DISABLE chr);
  intr ← GET_INTR (id ch);
  _ ← SET_INTR (id ch) (INTR_CLR intr NAK);
  mret ERR_OK.

Definition dwc2_transfer_start (c : Z) : io (usb D C) Z :=
  split ← dwc2_channel_split_mode c;
  _ ← (if (split : bool) then
         x ← channel_ctl c;
         _ ← (if split_start x then
                _ ← dwc2_channel_set_split_start c; dwc2_channel_set_dma_addr c
              else dwc2_channel_set_split_complete c);
         upd_channel_ctl c (λ x, set_split_start x (negb (split_start x)))
       else dwc2_channel_set_dma_addr c);
  _ ← dwc2_channel_start_transmit c;
  mret ERR_OK.

(** The argument is a control block; its channel is [ctl_c]. *)
Definition dwc2_transfer_recalc_next (a : Z) : io (usb D C) bool :=
  x ← get_xctl a;
  c ← not_null (ctl_c x);
  ch ← get_channel c;
  siz ← GET_SIZ (id ch);
  _ ← dwc2_channel_get_ep_num c;
  _ ← dwc2_channel_set_next_pid c (dwc_pid_to_usb_pid (USB_HOST_SIZE_GET_PID siz));
  if direction x =? USB_DIRECTION_IN then
    let bytes_left := USB_HOST_SIZE_GET_SIZE siz in
    let packets_left := USB_HOST_SIZE_GET_PACKET_COUNT siz in
    if truth packets_left then
      _ ← upd_xctl a (λ x, set_dma x (u64 (dma_addr_base x + transfer_size x - bytes_left)) false);
      mret true
    else mret false
  else mret false.
(** [dwc2_xfer_one_job] of a job whose chain has channel [c]. *)
Definition dwc2_xfer_one_job (fuel : nat) (c : Z) (j : usb_xfer_job) : io (usb D C) Z :=
  _ ← upd_channel_ctl c (λ x, set_job x (j_addr j) (j_direction j) (j_transfer_size j));
  _ ← when (negb (j_next_pid j =? USB_PID_UNSET)) (dwc2_channel_set_next_pid c (j_next_pid j));
  _ ← upd_channel_ctl c (λ x, set_completion x (j_completion j) (j_completion_arg j));
  _ ← dwc2_transfer_prepare fuel c;
  dwc2_transfer_start c.

(** One turn of the loop below: [None] to go round again, the status with which
    the loop is left otherwise. *)
Definition transfer_blocking_turn (fuel : nat) (c : Z) : io (usb D C) (option Z) :=
  ch ← get_channel c;
  let failed status := mret (if (status =? DWC2_STATUS_NYET) || (status =? DWC2_STATUS_ERR) then None else Some status) in
  _ ← dwc2_channel_clear_pending c;
  _ ← dwc2_transfer_start c;
  status ← dwc2_wait_halted fuel (id ch);
  if negb (status =? DWC2_STATUS_ACK) then failed status else
  split ← dwc2_channel_is_split_enabled c;
  status ← (if (split : bool) then
              _ ← dwc2_channel_clear_pending c;
              _ ← dwc2_transfer_start c;
              dwc2_wait_halted fuel (id ch)
            else mret status);
  if negb (status =? DWC2_STATUS_ACK) then failed status else
  more ← dwc2_transfer_recalc_next (ctl ch);
  mret (if (more : bool) then None else Some status).

(** The status and the number of bytes transferred. *)
Definition dwc2_transfer_blocking (fuel : nat) (c : Z) : io (usb D C) (Z * Z) :=
  _ ← dwc2_transfer_prepare fuel c;
  status ← io_loop fuel (transfer_blocking_turn fuel c);
  ch ← get_channel c;
  siz ← GET_SIZ (id ch);
  x ← channel_ctl c;
  _ ← dwc2_channel_set_next_pid c (dwc_pid_to_usb_pid (USB_HOST_SIZE_GET_PID siz));
  mret (status, if direction x =? USB_DIRECTION_IN then s32 (transfer_size x - USB_HOST_SIZE_GET_SIZE siz)
                else transfer_size x).

Definition dwc2_hwcfg_get_num_host_channels : io (usb D C) Z :=
  hwcfg ← read_reg USB_GHWCFG2; mret (BF_EXTRACT hwcfg 14 4).

(** The loop bodies of [dwc2_init_channels] for channel [i]. *)
Definition init_channel_disable (i : Z) : io (usb D C) unit :=
  v ← __read_ch_reg USB_HCCHAR0 i;
  let v := USB_HOST_CHAR_CLR_CHAN_ENABLE v in
  let v := USB_HOST_CHAR_CLR_SET_CHAN_DISABLE v 1 in
  __write_ch_reg USB_HCCHAR0 i (USB_HOST_CHAR_CLR_SET_EP_DIR v USB_DIRECTION_IN).
Definition init_channel_enable (fuel : nat) (i : Z) : io (usb D C) unit :=
  v ← __read_ch_reg USB_HCCHAR0 i;
  let v := USB_HOST_CHAR_CLR_SET_CHAN_ENABLE v 1 in
  let v := USB_HOST_CHAR_CLR_SET_CHAN_DISABLE v 1 in
  _ ← __write_ch_reg USB_HCCHAR0 i (USB_HOST_CHAR_CLR_SET_EP_DIR v USB_DIRECTION_IN);
  io_loop fuel (
    v ← __read_ch_reg USB_HCCHAR0 i;
    mret (if truth (USB_HOST_CHAR_GET_CHAN_ENABLE v) then None else Some tt)).

(** [for (i = 0; i < n; ++i) body] *)
Fixpoint for_channels (n : nat) (i : Z) (body : Z → io (usb D C) unit) : io (usb D C) unit :=
  match n with O => mret tt | S n => _ ← body i; for_channels n (i + 1) body end.

Definition dwc2_init_channels (fuel : nat) : io (usb D C) Z :=
  num_channels ← dwc2_hwcfg_get_num_host_channels;
  _ ← for_channels (Z.to_nat num_channels) 0 init_channel_disable;
  _ ← for_channels (Z.to_nat num_channels) 0 (init_channel_enable fuel);
  mret ERR_OK.

(** ** The core (dwc2.c) *)
Definition BIT_CLEAR_U32 (v n : Z) : Z := Z.land v (u32 (Z.lnot (BT n))).
Definition BIT_SET_U32 (v n : Z) : Z := Z.lor v (BT n).
(** [reg = f(reg)] *)
Definition update_reg (r : Z) (f : Z → Z) : io (usb D C) unit := v ← read_reg r; write_reg r (f v).
(** [do { v = read(r); } while (c(v))] *)
Definition poll_while (fuel : nat) (r : Z) (c : Z → bool) : io (usb D C) Z :=
  io_loop fuel (v ← read_reg r; mret (if c v then None else Some v)).

Definition USB_GUSBCFG_PHY_IF : Z := 3.
Definition USB_GUSBCFG_ULPI_UTMI_SEL : Z := 4.
Definition USB_GUSBCFG_SRP_CAP : Z := 8.
Definition USB_GUSBCFG_HNP_CAP : Z := 9.
Definition USB_GUSBCFG_ULPI_FS_LS : Z := 17.
Definition USB_GUSBCFG_ULPI_CLK_SUS_M : Z := 19.
Definition USB_GUSBCFG_ULPI_EXT_VBUS_DRV : Z := 20.
Definition USB_GUSBCFG_TERM_SEL_DL_PULSE : Z := 22.
Definition USB_GOTGCTL_HST_SET_HNP_EN : Z := 10.
(** All but the bits that are cleared by writing one. *)
Definition USB_HPRT_WRITE_MASK : Z := u32 (Z.lnot 0x2e).

Definition dwc2_start_vbus : io (usb D C) unit :=
  update_reg USB_GUSBCFG (λ v, BIT_CLEAR_U32 (BIT_CLEAR_U32 v USB_GUSBCFG_ULPI_EXT_VBUS_DRV) USB_GUSBCFG_TERM_SEL_DL_PULSE).

Definition dwc2_reset (fuel : nat) : io (usb D C) unit :=
  rst ← poll_while fuel USB_GRSTCTL (λ v, negb (truth (BF_EXTRACT v 31 1)));
  _ ← write_reg USB_GRSTCTL (BF_CLEAR_AND_SET rst 1 0 1);
  _ ← poll_while fuel USB_GRSTCTL (λ v, negb (truth (BF_EXTRACT v 31 1)) || truth (BF_EXTRACT v 0 1));
  mret tt.

Definition dwc2_reset_clock_root : io (usb D C) unit :=
  _ ← update_reg USB_PCGCR (λ v, BF_CLEAR (BF_CLEAR v 5 1) 0 1);
  write_reg USB_PCGCR 0.

Definition dwc2_port_reset : io (usb D C) unit :=
  update_reg USB_HPRT (λ v, BF_CLEAR_AND_SET (Z.land v USB_HPRT_WRITE_MASK) 1 8 1).
Definition dwc2_port_reset_clear : io (usb D C) unit :=
  update_reg USB_HPRT (λ v, BF_CLEAR (Z.land v USB_HPRT_WRITE_MASK) 8 1).
Definition dwc2_set_ulpi_no_phy : io (usb D C) unit :=
  update_reg USB_GUSBCFG (λ v, BIT_CLEAR_U32 (BIT_CLEAR_U32 v USB_GUSBCFG_ULPI_UTMI_SEL) USB_GUSBCFG_PHY_IF).
Definition dwc2_get_vendor_id : io (usb D C) Z := read_reg USB_GSNPSID.
Definition dwc2_get_user_id : io (usb D C) Z := read_reg USB_GUID.
Definition dwc2_get_hs_iface : io (usb D C) Z := v ← read_reg USB_GHWCFG2; mret (BF_EXTRACT v 6 2).
Definition dwc2_get_fs_iface : io (usb D C) Z := v ← read_reg USB_GHWCFG2; mret (BF_EXTRACT v 8 2).
Definition dwc2_get_op_mode : io (usb D C) Z := v ← read_reg USB_GHWCFG2; mret (BF_EXTRACT v 0 3).

Definition dwc2_set_fsls_config (enabled : Z) : io (usb D C) unit :=
  update_reg USB_GUSBCFG (λ v,
    if truth enabled then BIT_SET_U32 (BIT_SET_U32 v USB_GUSBCFG_ULPI_FS_LS) USB_GUSBCFG_ULPI_CLK_SUS_M
    else BIT_CLEAR_U32 (BIT_CLEAR_U32 v USB_GUSBCFG_ULPI_FS_LS) USB_GUSBCFG_ULPI_CLK_SUS_M).

(** The capabilities NONE, SRP and HNP_SRP are 0, 1 and 2. *)
Definition dwc2_set_otg_cap (cap : Z) : io (usb D C) unit :=
  update_reg USB_GUSBCFG (λ v,
    if cap =? 0 then BIT_CLEAR_U32 (BIT_CLEAR_U32 v USB_GUSBCFG_HNP_CAP) USB_GUSBCFG_SRP_CAP
    else if cap =? 1 then BIT_SET_U32 (BIT_CLEAR_U32 v USB_GUSBCFG_HNP_CAP) USB_GUSBCFG_SRP_CAP
    else if cap =? 2 then BIT_SET_U32 (BIT_SET_U32 v USB_GUSBCFG_HNP_CAP) USB_GUSBCFG_SRP_CAP
    else v).

Definition dwc2_power_clock_off : io (usb D C) unit := write_reg USB_PCGCR 0.
Definition dwc2_is_ulpi_fs_ls_only : io (usb D C) bool :=
  v ← read_reg USB_GUSBCFG; mret (truth (BIT_IS_SET v USB_GUSBCFG_ULPI_FS_LS)).
Definition dwc2_set_host_speed (speed : Z) : io (usb D C) unit := update_reg USB_HCFG (λ v, BF_CLEAR_AND_SET v speed 0 2).
Definition dwc2_set_host_ls_support : io (usb D C) unit := update_reg USB_HCFG (λ v, BF_CLEAR_AND_SET v 1 2 1).

Definition dwc2_setup_fifo_sizes (rx_fifo_sz non_periodic_fifo_sz periodic_fifo_sz : Z) : io (usb D C) unit :=
  _ ← write_reg USB_GRXFSIZ rx_fifo_sz;
  _ ← write_reg USB_GNPTXFSIZ (Z.lor (Z.shiftl rx_fifo_sz 16) non_periodic_fifo_sz);
  write_reg USB_HPTXFSIZ (Z.lor (Z.shiftl periodic_fifo_sz 16) (rx_fifo_sz + non_periodic_fifo_sz)).

Definition dwc2_clear_otg_hnp : io (usb D C) unit := update_reg USB_GOTGCTL (λ v, BIT_CLEAR_U32 v USB_GOTGCTL_HST_SET_HNP_EN).

Definition dwc2_tx_fifo_flush (fuel : nat) (fifonum : Z) : io (usb D C) unit :=
  _ ← update_reg USB_GRSTCTL (λ v, BF_CLEAR_AND_SET (BF_CLEAR_AND_SET v 1 5 1) fifonum 6 5);
  _ ← poll_while fuel USB_GRSTCTL (λ v, truth (BF_EXTRACT v 5 1));
  mret tt.
Definition dwc2_rx_fifo_flush (fuel : nat) : io (usb D C) unit :=
  _ ← update_reg USB_GRSTCTL (λ v, BF_CLEAR_AND_SET v 1 4 1);
  _ ← poll_while fuel USB_GRSTCTL (λ v, truth (BF_EXTRACT v 4 1));
  mret tt.

Definition dwc2_is_dma_enabled : io (usb D C) bool := v ← read_reg USB_HCFG; mret (truth (BF_EXTRACT v 23 1)).
Definition dwc2_is_port_pwr_enabled : io (usb D C) bool := v ← read_reg USB_HPRT; mret (truth (BF_EXTRACT v 12 1)).
Definition dwc2_port_set_pwr_enabled (enabled : bool) : io (usb D C) unit :=
  update_reg USB_HPRT (λ v, BF_CLEAR_AND_SET (Z.land v USB_HPRT_WRITE_MASK) (bool_z enabled) 12 1).
Definition dwc2_wait_axi_writes : io (usb D C) unit := update_reg USB_GAHBCFG (λ v, Z.lor v (Z.shiftl 1 4)).
Definition dwc2_enable_ahb_interrupts : io (usb D C) unit := update_reg USB_GAHBCFG (λ v, BF_CLEAR_AND_SET v 1 0 1).
Definition dwc2_unmask_all_interrupts : io (usb D C) unit := write_reg USB_GINTMSK (BF_CLEAR_AND_SET 0 1 25 1).
Definition dwc2_enable_channel_interrupts : io (usb D C) unit :=
  _ ← write_reg USB_HAINTMSK 0;
  _ ← write_reg USB_HAINT 0xffffffff;
  update_reg USB_GINTMSK (λ v, BF_CLEAR_AND_SET v 1 25 1).
Definition dwc2_unmask_port_interrupts : io (usb D C) unit := write_reg USB_GINTMSK (BF_CLEAR_AND_SET 0 1 24 1).
Definition dwc2_clear_all_interrupts : io (usb D C) unit := write_reg USB_GINTSTS 0xffffffff.
Definition dwc2_disable_ahb_interrupts : io (usb D C) unit := update_reg USB_GAHBCFG (λ v, BF_CLEAR v 0 1).
Definition dwc2_init_channel_int (ch_id : Z) : io (usb D C) unit := SET_INTR ch_id 0xffffffff.
Definition dwc2_deinit_channel_int (ch_id : Z) : io (usb D C) unit := CLEAR_INTR ch_id.
Definition dwc2_set_port_status_changed_cb (fn : Z) : io (usb D C) unit := modify (λ s, with_port_cb s fn).
Definition dwc2_init : io (usb D C) unit := _ ← dwc2_channel_init; dwc2_xfer_control_init.

Definition dwc2_init_core (fuel : nat) : io (usb D C) unit :=
  _ ← dwc2_start_vbus;
  _ ← dwc2_reset fuel;
  _ ← update_reg USB_GUSBCFG (λ v, BIT_CLEAR_U32 (BIT_CLEAR_U32 v USB_GUSBCFG_ULPI_UTMI_SEL) USB_GUSBCFG_PHY_IF);
  _ ← update_reg USB_GUSBCFG (λ v, BIT_CLEAR_U32 (BIT_CLEAR_U32 v USB_GUSBCFG_ULPI_FS_LS) USB_GUSBCFG_ULPI_CLK_SUS_M);
  _ ← update_reg USB_GAHBCFG (λ v, Z.lor (BF_CLEAR (BF_CLEAR_AND_SET v 1 5 1) 23 1) (Z.shiftl 1 4));
  update_reg USB_GUSBCFG (λ v, BIT_CLEAR_U32 (BIT_CLEAR_U32 v USB_GUSBCFG_HNP_CAP) USB_GUSBCFG_SRP_CAP).

(** ** Interrupts (dwc2.c)

    Handlers that only write to the log are left out.  [call] runs a completion
    function, [port_cb] the port status callback. *)
Section irq.
Context (call : Z → Z → io (usb D C) unit) (port_cb : Z → Z → Z → io (usb D C) unit).

(** [if (c->ctl->completion) c->ctl->completion(c->ctl->completion_arg)] *)
Definition complete (c : Z) : io (usb D C) unit :=
  x ← channel_ctl c;
  when (truth (completion x)) (call (completion x) (completion_arg x)).

Definition dwc2_irq_handle_channel_ahb_err (c : Z) : io (usb D C) unit := _ ← dwc2_transfer_start c; mret tt.

Definition dwc2_irq_handle_channel_nak (c : Z) : io (usb D C) unit :=
  split ← dwc2_channel_split_mode c;
  if (split : bool) then _ ← dwc2_transfer_start c; mret tt else
  ep_type ← dwc2_channel_get_ep_type c;
  if ep_type =? USB_ENDPOINT_TYPE_CONTROL then _ ← dwc2_transfer_start c; mret tt
  else if ep_type =? USB_ENDPOINT_TYPE_BULK then _ ← dwc2_transfer_start c; mret tt
  else
    _ ← upd_channel_ctl c (λ x, set_status x DWC2_STATUS_NAK);
    complete c.

(** What follows the [return] is not reached. *)
Definition dwc2_irq_handle_channel_nyet (c : Z) : io (usb D C) unit :=
  _ ← dwc2_channel_get_next_pid c;
  _ ← dwc2_transfer_retry c;
  mret tt.

Definition dwc2_irq_handle_channel_halt (c old_intr : Z) : io (usb D C) unit :=
  ch ← get_channel c;
  _ ← dwc2_channel_get_ep_type c;
  _ ← GET_INTR (id ch);
  _ ← GET_SIZ (id ch);
  let xfer_complete := INTR_GET old_intr XFER_COMPLETE in
  go ← (if xfer_complete then mret true else dwc2_channel_is_split_enabled c);
  if negb (go : bool) then mret tt else
  restart ← (if INTR_GET old_intr ACK && negb xfer_complete then
               split ← dwc2_channel_is_split_enabled c;
               _ ← BUG_ON (negb split);
               _ ← dwc2_transfer_start c;
               mret true
             else mret false);
  if (restart : bool) then mret tt else
  _ ← when (INTR_GET old_intr NYET) (dwc2_irq_handle_channel_nyet c);
  _ ← when (INTR_GET old_intr NAK) (dwc2_irq_handle_channel_nak c);
  ch ← get_channel c;
  more ← dwc2_transfer_recalc_next (ctl ch);
  if (more : bool) then _ ← dwc2_transfer_start c; mret tt else complete c.

Definition dwc2_irq_handle_channel_data_toggle_err (c : Z) : io (usb D C) unit :=
  _ ← dwc2_channel_get_next_pid c; hang.

Definition dwc2_irq_handle_channel_int_one_dbg (ch_id intr : Z) : io (usb D C) unit :=
  _ ← GET_INTRMSK ch_id;
  n ← gets irq_num;
  _ ← modify (λ s, with_irq_num s (s32 (n + 1)));
  if n =? 40000 then hang else mret tt.

Definition dwc2_irq_handle_channel_int_one (ch_id : Z) : io (usb D C) unit :=
  c ← dwc2_channel_get_by_id ch_id;
  intr ← GET_INTR ch_id;
  _ ← SET_INTR ch_id intr;
  _ ← dwc2_irq_handle_channel_int_one_dbg ch_id intr;
  if INTR_GET intr HALT then c ← not_null c; dwc2_irq_handle_channel_halt c intr else
  _ ← when (INTR_GET intr NAK) (c ← not_null c; dwc2_irq_handle_channel_nak c);
  let intr := if INTR_GET intr NAK then INTR_CLR intr NAK else intr in
  _ ← when (INTR_GET intr AHB_ERR) (c ← not_null c; dwc2_irq_handle_channel_ahb_err c);
  let intr := if INTR_GET intr AHB_ERR then INTR_CLR intr AHB_ERR else intr in
  _ ← when (INTR_GET intr DATTGGLERR) (c ← not_null c; dwc2_irq_handle_channel_data_toggle_err c);
  let intr := if INTR_GET intr DATTGGLERR then INTR_CLR intr DATTGGLERR else intr in
  if truth (Z.land intr (u32 (Z.lnot 0x23))) then hang else mret tt.

Definition dwc2_irq_handle_channel_int : io (usb D C) unit :=
  haint ← read_reg USB_HAINT;
  haintmsk ← read_reg USB_HAINTMSK;
  let masked := Z.land haint haintmsk in
  _ ← write_reg USB_HAINT masked;
  for_channels 6 0 (λ i, when (truth (Z.land (Z.shiftl 1 i) masked)) (dwc2_irq_handle_channel_int_one i)).

(** The two halves of [struct usb_hub_port_status] as 16-bit words. *)
Definition dwc2_hprt_to_port_status (hprt : Z) : Z * Z :=
  let spd := BF_EXTRACT hprt 17 2 in
  (Z.lor (BF_EXTRACT hprt 0 1) (Z.lor (Z.shiftl (BF_EXTRACT hprt 2 1) 1) (Z.lor (Z.shiftl (BF_EXTRACT hprt 7 1) 2)
     (Z.lor (Z.shiftl (BF_EXTRACT hprt 4 1) 3) (Z.lor (Z.shiftl (BF_EXTRACT hprt 8 1) 4)
     (Z.lor (Z.shiftl (BF_EXTRACT hprt 12 1) 8) (Z.lor (Z.shiftl (bool_z (spd =? USB_SPEED_LOW)) 9)
     (Z.shiftl (bool_z (spd =? USB_SPEED_HIGH)) 10))))))),
   Z.lor (BF_EXTRACT hprt 1 1) (Z.lor (Z.shiftl (BF_EXTRACT hprt 3 1) 1) (Z.shiftl (BF_EXTRACT hprt 5 1) 3))).

(** [msk] keeps the bits it acknowledged before: the port is enabled as read. *)
Definition dwc2_irq_handle_port_intr : io (usb D C) unit :=
  hprt ← read_reg USB_HPRT;
  let msk := BF_CLEAR (BF_CLEAR (BF_CLEAR (BF_CLEAR hprt 2 1) 1 1) 3 1) 5 1 in
  let det := truth (BF_EXTRACT hprt 1 1) in
  let msk1 := if det then BF_CLEAR_AND_SET msk 1 1 1 else msk in
  _ ← when det (write_reg USB_HPRT msk1);
  let chng := truth (BF_EXTRACT hprt 3 1) in
  let msk2 := if chng then BF_CLEAR_AND_SET msk1 1 3 1 else msk1 in
  _ ← when chng (write_reg USB_HPRT msk2);
  let ovr := truth (BF_EXTRACT hprt 5 1) in
  let msk3 := if ovr then BF_CLEAR_AND_SET msk2 1 5 1 else msk2 in
  _ ← when ovr (write_reg USB_HPRT msk3);
  fn ← gets port_status_changed_cb;
  let '(st, chg) := dwc2_hprt_to_port_status hprt in
  when (truth fn) (port_cb fn st chg).

Definition dwc2_irq_handle_rx_fifo_lvl_intr : io (usb D C) unit := _ ← read_reg USB_GRXSTSP; mret tt.
Definition dwc2_irq_handle_otgint : io (usb D C) unit :=
  otgint ← read_reg USB_GOTGINT;
  _ ← read_reg USB_GOTGCTL;
  write_reg USB_GOTGINT otgint.

Definition dwc2_irq_cb : io (usb D C) unit :=
  intsts ← read_reg USB_GINTSTS;
  intmsk ← read_reg USB_GINTMSK;
  let masked := Z.land intsts intmsk in
  _ ← write_reg USB_GINTSTS masked;
  _ ← when (truth (BF_EXTRACT masked 25 1)) dwc2_irq_handle_channel_int;
  _ ← when (truth (BF_EXTRACT masked 2 1)) dwc2_irq_handle_otgint;
  _ ← when (truth (BF_EXTRACT masked 4 1)) dwc2_irq_handle_rx_fifo_lvl_intr;
  when (truth (BF_EXTRACT masked 24 1)) dwc2_irq_handle_port_intr.
End irq.
End dwc2.

(** ** Running the code on a bound channel *)

Section run.
Context {D C : Type} `{Mmio D}.
Implicit Types (s : usb D C) (d : D).

Lemma with_dev_id s : with_dev s (dev s) = s.
Proof. by destruct s. Qed.

(** Channel [c] is number [c], bound to the pipe [P] at [p] and the control
    block [X] at [a]. *)
Record bound s (c p a : Z) (P : usb_hcd_pipe) (X : dwc2_xfer_control) : Prop := {
  bound_chan : channels s !! Z.to_nat c = Some (Dwc2Channel c p a);
  bound_pipe : pipes s !! p = Some P;
  bound_nonnull : p ≠ NULL;
  bound_ctl : ctls s !! a = Some X }.

Section steps.
Context {s : usb D C} {c p a : Z} {P : usb_hcd_pipe} {X : dwc2_xfer_control}.
Hypothesis Hb : bound s c p a P X.

Lemma get_channel_ok : get_channel c s = Ret (Dwc2Channel c p a, s).
Proof using Hb. unfold get_channel. by rewrite (bound_chan _ _ _ _ _ _ Hb). Qed.

Lemma get_pipe_safe_ok : dwc2_channel_get_pipe_safe c s = Ret (P, s).
Proof using Hb.
  unfold dwc2_channel_get_pipe_safe. rewrite (io_bind_ret _ _ _ _ _ get_channel_ok). cbn [pipe].
  unfold BUG_ON, BUG, lift. destruct (Z.eqb_spec p NULL) as [E|E]; [by destruct (bound_nonnull _ _ _ _ _ _ Hb)|].
  unfold mbind at 1, io_bind. rewrite !bind_ret. unfold get_pipe. by rewrite (bound_pipe _ _ _ _ _ _ Hb).
Qed.

(** A getter of the pipe. *)
Lemma pipe_getter_ok {A} (f : usb_hcd_pipe → A) : (p ← dwc2_channel_get_pipe_safe c; mret (f p)) s = Ret (f P, s).
Proof using Hb. by rewrite (io_bind_ret _ _ _ _ _ get_pipe_safe_ok). Qed.

Lemma split_mode_ok : dwc2_channel_split_mode c s = Ret (negb (device_speed P =? USB_SPEED_HIGH), s).
Proof using Hb.
  unfold dwc2_channel_split_mode.
  by rewrite (io_bind_ret _ _ _ _ _ (pipe_getter_ok (λ p, device_speed p =? USB_SPEED_HIGH))).
Qed.

Lemma channel_ctl_ok : channel_ctl c s = Ret (X, s).
Proof using Hb.
  unfold channel_ctl. rewrite (io_bind_ret _ _ _ _ _ get_channel_ok). unfold get_xctl. cbn [ctl].
  by rewrite (bound_ctl _ _ _ _ _ _ Hb).
Qed.

Lemma upd_channel_ctl_ok f : upd_channel_ctl c f s = Ret (tt, with_ctls s (<[a := f X]> (ctls s))).
Proof using Hb.
  unfold upd_channel_ctl. rewrite (io_bind_ret _ _ _ _ _ get_channel_ok). unfold upd_xctl. cbn [ctl].
  rewrite (io_bind_ret _ _ s X s); [done|]. unfold get_xctl. by rewrite (bound_ctl _ _ _ _ _ _ Hb).
Qed.

Lemma set_next_pid_ok pid : dwc2_channel_set_next_pid c pid s = Ret (tt, with_pipes s (<[p := set_pid P pid]> (pipes s))).
Proof using Hb.
  unfold dwc2_channel_set_next_pid. rewrite (io_bind_ret _ _ _ _ _ get_pipe_safe_ok).
  by rewrite (io_bind_ret _ _ _ _ _ get_channel_ok).
Qed.

Lemma bound_dev d : bound (with_dev s d) c p a P X.
Proof using Hb. destruct Hb. by split. Qed.

Lemma bound_with_ctl f : bound (with_ctls s (<[a := f X]> (ctls s))) c p a P (f X).
Proof using Hb. destruct Hb. split; try done. cbn. by rewrite lookup_insert_eq. Qed.

Lemma bound_with_pid pid : bound (with_pipes s (<[p := set_pid P pid]> (pipes s))) c p a (set_pid P pid) X.
Proof using Hb. destruct Hb. split; try done. cbn. by rewrite lookup_insert_eq. Qed.
End steps.

Lemma __write_ch_reg_ok r c v s :
  __write_ch_reg r c v s = Ret (tt, with_dev s (mmio_write (r + 4 * (c * 8)) (u32 v) (dev s))).
Proof. done. Qed.
End run.

(** ** What a transfer programs *)

Definition ch_reg (r c : Z) : Z := r + 4 * (c * 8).

(** The registers that hold what is written to them: the interrupt mask of the
    channels and all channel registers but the interrupt register. *)
Definition plain_ch_regs : list Z := [USB_HCCHAR0; USB_HCSPLT0; USB_HCINTMSK0; USB_HCTSIZ0; USB_HCDMA0].
Definition usb_plain (r : Z) : Prop := r = USB_HAINTMSK ∨ ∃ r0 c, r0 ∈ plain_ch_regs ∧ 0 ≤ c < 6 ∧ r = ch_reg r0 c.

Class UsbRegs (D : Type) `{Mmio D} (get : D → Z → Z) : Prop := {
  usb_plain_regs :: PlainRegs D usb_plain get;
  usb_intr_write c v d r : 0 ≤ c < 6 → usb_plain r → get (mmio_write (ch_reg USB_HCINT0 c) v d) r = get d r;
  usb_intr_read c d r : 0 ≤ c < 6 → usb_plain r → get (snd (mmio_read (ch_reg USB_HCINT0 c) d)) r = get d r }.

#[export] Instance bank_usb_regs : UsbRegs bank bank_get.
Proof.
  split; [apply _| |done]. intros c v d r Hc Hr. cbn. unfold bank_get. rewrite lookup_insert_ne; [done|].
  unfold ch_reg, USB_HCINT0. destruct Hr as [->|(r0 & c' & Hr & Hc' & ->)]; [unfold USB_HAINTMSK; lia|].
  unfold plain_ch_regs, ch_reg in *. rewrite !elem_of_cons in Hr.
  unfold USB_HCCHAR0, USB_HCSPLT0, USB_HCINTMSK0, USB_HCTSIZ0, USB_HCDMA0 in Hr. set_solver by lia.
Qed.

(** The words programmed. *)
Definition char_word (v : Z) (P : usb_hcd_pipe) (dir : Z) : Z :=
  USB_HOST_CHAR_CLR_SET_PACK_PER_FRM (USB_HOST_CHAR_CLR_SET_DEV_ADDR (USB_HOST_CHAR_CLR_SET_EP_TYPE
    (USB_HOST_CHAR_CLR_SET_IS_LOW (USB_HOST_CHAR_CLR_SET_EP_DIR (USB_HOST_CHAR_CLR_SET_EP
      (USB_HOST_CHAR_CLR_SET_MAX_PACK_SZ v (max_packet_size P)) (endpoint_num P)) dir)
        (bool_z (device_speed P =? USB_SPEED_LOW))) (endpoint_type P)) (device_address P)) 1.
Definition splt_word (P : usb_hcd_pipe) : Z :=
  if device_speed P =? USB_SPEED_HIGH then 0 else
  USB_HOST_SPLT_CLR_SET_PORT_ADDR (USB_HOST_SPLT_CLR_SET_HUB_ADDR (USB_HOST_SPLT_CLR_SET_SPLT_ENABLE 0 1)
    (ls_hub_address P)) (ls_hub_port P).
Definition siz_word (P : usb_hcd_pipe) (size packets : Z) : Z :=
  USB_HOST_SIZE_CLR_SET_PID (USB_HOST_SIZE_CLR_SET_PACKET_COUNT (USB_HOST_SIZE_CLR_SET_SIZE 0 size) packets)
    (usb_pid_to_dwc_pid (next_pid P)).
Definition intmsk_word (P : usb_hcd_pipe) : Z :=
  let msk := INTR_SET (INTR_SET 0 HALT) XFER_COMPLETE in
  let msk := INTR_SET (INTR_SET (INTR_SET msk AHB_ERR) STALL) FRMOVRN in
  let msk := INTR_SET (INTR_SET (INTR_SET msk TRNSERR) BABBLERR) DATTGGLERR in
  if usb_is_periodic_ep_type (endpoint_type P) || negb (device_speed P =? USB_SPEED_HIGH)
  then INTR_SET (INTR_SET (INTR_SET msk ACK) NAK) NYET else msk.
Definition go_word (v : Z) : Z := USB_HOST_CHAR_CLR_SET_CHAN_ENABLE (USB_HOST_CHAR_CLR_CHAN_DISABLE v) 1.

(** The packets of a transfer: at least one, low-speed packets of 8 bytes. *)
Definition packet_size (P : usb_hcd_pipe) : Z := if device_speed P =? USB_SPEED_LOW then 8 else max_packet_size P.
Definition packets (P : usb_hcd_pipe) (size : Z) : Z := Z.max 1 ((size + packet_size P - 1) / packet_size P).

Lemma char_in : USB_HCCHAR0 ∈ plain_ch_regs.
Proof. set_solver. Qed.
Lemma splt_in : USB_HCSPLT0 ∈ plain_ch_regs.
Proof. set_solver. Qed.

Lemma siz_in : USB_HCTSIZ0 ∈ plain_ch_regs.
Proof. set_solver. Qed.
Lemma intmsk_in : USB_HCINTMSK0 ∈ plain_ch_regs.
Proof. set_solver. Qed.

Section program.
Context {D C : Type} `{UsbRegs D get}.
Context {s : usb D C} {c p a : Z} {P : usb_hcd_pipe} {X : dwc2_xfer_control}.
Hypothesis Hc : 0 ≤ c < 6.
Hypothesis Hb : bound s c p a P X.

Lemma plain_ch r0 : r0 ∈ plain_ch_regs → usb_plain (ch_reg r0 c).
Proof using Hc. intros Hr. right. by exists r0, c. Qed.

Lemma read_ch_ok r0 (s' : usb D C) : r0 ∈ plain_ch_regs → __read_ch_reg r0 c s' = Ret (get (dev s') (ch_reg r0 c), s').
Proof using Hc H H0.
  intros Hr. unfold __read_ch_reg, read_reg. cbn. fold (ch_reg r0 c).
  rewrite plain_read by (by apply plain_ch). cbn. by rewrite with_dev_id.
Qed.

Lemma calc_num_packets_ok : 0 < packet_size P → 0 ≤ transfer_size X < 2 ^ 19 → max_packet_size P < 2 ^ 11 →
  dwc2_channel_calc_num_packets c s = Ret (packets P (transfer_size X), s).
Proof using Hb.
  intros Hp Hs Hm. unfold dwc2_channel_calc_num_packets.
  rewrite (io_bind_ret _ _ _ _ _ (pipe_getter_ok Hb max_packet_size)).
  rewrite (io_bind_ret _ _ _ _ _ (pipe_getter_ok Hb (λ p, device_speed p =? USB_SPEED_LOW))).
  rewrite (io_bind_ret _ _ _ _ _ (channel_ctl_ok Hb)). cbv zeta. fold (packet_size P).
  assert (packet_size P < 2 ^ 11) by (unfold packet_size; destruct (_ =? _); lia).
  zdec. rewrite (s32_id (transfer_size X + packet_size P)), s32_id, Z.quot_div_nonneg by lia.
  unfold packets. set (q := (transfer_size X + packet_size P - 1) / packet_size P).
  assert (0 ≤ q) by (apply Z.div_pos; lia). unfold mret, io_ret. destruct (Z.eqb_spec q 0) as [E|E].
  - by rewrite E.
  - by rewrite Z.max_r by lia.
Qed.

(** The device after each step. *)
Definition wr (r0 v : Z) (d : D) : D := mmio_write (ch_reg r0 c) (u32 v) d.
Definition masked_off (d : D) : D :=
  mmio_write USB_HAINTMSK (u32 (Z.land (get d USB_HAINTMSK) (u32 (Z.lnot (u32 (Z.shiftl 1 c)))))) d.
Definition masked_on (d : D) : D := mmio_write USB_HAINTMSK (u32 (Z.lor (get d USB_HAINTMSK) (Z.shiftl 1 c))) d.
Definition started (d : D) : D :=
  masked_on (wr USB_HCINTMSK0 (intmsk_word P) (wr USB_HCCHAR0 (go_word (get d (ch_reg USB_HCCHAR0 c))) d)).

Lemma read_haintmsk_ok (s' : usb D C) : read_reg USB_HAINTMSK s' = Ret (get (dev s') USB_HAINTMSK, s').
Proof using H H0. unfold read_reg. cbn. rewrite plain_read by by left. cbn. by rewrite with_dev_id. Qed.

Lemma channel_disable_ok : dwc2_channel_disable c s = Ret (tt, with_dev s (masked_off (dev s))).
Proof using H H0. unfold dwc2_channel_disable, dwc2_disable_channel_int. by rewrite (io_bind_ret _ _ _ _ _ (read_haintmsk_ok _)). Qed.

Lemma channel_enable_ok : dwc2_channel_enable c s = Ret (tt, with_dev s (masked_on (dev s))).
Proof using H H0. unfold dwc2_channel_enable, dwc2_enable_channel_int. by rewrite (io_bind_ret _ _ _ _ _ (read_haintmsk_ok _)). Qed.

Lemma clear_pending_ok :
  dwc2_channel_clear_pending c s = Ret (tt, with_dev s (wr USB_HCINTMSK0 0 (wr USB_HCINT0 0xffffffff (dev s)))).
Proof using Hb. unfold dwc2_channel_clear_pending. by rewrite (io_bind_ret _ _ _ _ _ (get_channel_ok Hb)). Qed.

Lemma ensure_disabled_ok fuel : USB_HOST_CHAR_GET_CHAN_ENABLE (get (dev s) (ch_reg USB_HCCHAR0 c)) = 0 →
  dwc2_channel_ensure_disabled fuel c s = Ret (get (dev s) (ch_reg USB_HCCHAR0 c), s).
Proof using Hc Hb H H0.
  intros He. unfold dwc2_channel_ensure_disabled, GET_CHAR. rewrite (io_bind_ret _ _ _ _ _ (get_channel_ok Hb)). cbn [id].
  rewrite (io_bind_ret _ _ _ _ _ (read_ch_ok _ _ char_in)), He. cbn [truth negb when].
  rewrite (io_bind_ret _ _ _ _ _ eq_refl), (io_bind_ret _ _ _ _ _ (read_ch_ok _ _ char_in)), He.
  by rewrite (io_bind_ret _ _ _ _ _ eq_refl).
Qed.

Lemma program_char_ok fuel : USB_HOST_CHAR_GET_CHAN_ENABLE (get (dev s) (ch_reg USB_HCCHAR0 c)) = 0 →
  dwc2_channel_program_char fuel c s =
    Ret (tt, with_dev s (wr USB_HCCHAR0 (char_word (get (dev s) (ch_reg USB_HCCHAR0 c)) P (direction X)) (dev s))).
Proof using Hc Hb H H0.
  intros He. unfold dwc2_channel_program_char. rewrite (io_bind_ret _ _ _ _ _ (get_channel_ok Hb)).
  rewrite (io_bind_ret _ _ _ _ _ (ensure_disabled_ok fuel He)).
  rewrite (io_bind_ret _ _ _ _ _ (pipe_getter_ok Hb max_packet_size)).
  rewrite (io_bind_ret _ _ _ _ _ (pipe_getter_ok Hb endpoint_num)).
  rewrite (io_bind_ret _ _ _ _ _ (channel_ctl_ok Hb)).
  rewrite (io_bind_ret _ _ _ _ _ (pipe_getter_ok Hb (λ p, device_speed p =? USB_SPEED_LOW))).
  rewrite (io_bind_ret _ _ _ _ _ (pipe_getter_ok Hb endpoint_type)).
  by rewrite (io_bind_ret _ _ _ _ _ (pipe_getter_ok Hb device_address)).
Qed.

Lemma program_split_ok : dwc2_channel_program_split c s = Ret (tt, with_dev s (wr USB_HCSPLT0 (splt_word P) (dev s))).
Proof using Hb.
  unfold dwc2_channel_program_split. rewrite (io_bind_ret _ _ _ _ _ (get_channel_ok Hb)).
  rewrite (io_bind_ret _ _ _ _ _ (split_mode_ok Hb)). unfold splt_word.
  destruct (device_speed P =? USB_SPEED_HIGH); cbn [negb]; [done|]. by rewrite (io_bind_ret _ _ _ _ _ (get_pipe_safe_ok Hb)).
Qed.

Lemma program_tsize_ok : 0 < packet_size P → 0 ≤ transfer_size X < 2 ^ 19 → max_packet_size P < 2 ^ 11 →
  dwc2_channel_program_tsize c s =
    Ret (tt, with_dev s (wr USB_HCTSIZ0 (siz_word P (transfer_size X) (packets P (transfer_size X))) (dev s))).
Proof using Hb.
  intros. unfold dwc2_channel_program_tsize. rewrite (io_bind_ret _ _ _ _ _ (get_channel_ok Hb)).
  rewrite (io_bind_ret _ _ _ _ _ (calc_num_packets_ok ltac:(done) ltac:(done) ltac:(done))).
  rewrite (io_bind_ret _ _ _ _ _ (channel_ctl_ok Hb)). by rewrite (io_bind_ret _ _ _ _ _ (get_pipe_safe_ok Hb)).
Qed.

Lemma set_split_start_ok : dwc2_channel_set_split_start c s =
  Ret (tt, with_dev s (wr USB_HCSPLT0 (USB_HOST_SPLT_CLR_COMPLETE_SPLIT (get (dev s) (ch_reg USB_HCSPLT0 c))) (dev s))).
Proof using Hb Hc H H0.
  unfold dwc2_channel_set_split_start, GET_SPLT. rewrite (io_bind_ret _ _ _ _ _ (get_channel_ok Hb)). cbn [id].
  by rewrite (io_bind_ret _ _ _ _ _ (read_ch_ok _ _ splt_in)).
Qed.

Lemma set_dma_addr_ok : first_packet X && truth (Z.land (dma_addr X) 3) = false → dma_addr X ≠ 0 →
  dwc2_channel_set_dma_addr c s = Ret (tt, with_dev s (wr USB_HCDMA0 (RAM_PHY_TO_BUS_UNCACHED (dma_addr X)) (dev s))).
Proof using Hb.
  intros Ha Hn. unfold dwc2_channel_set_dma_addr. rewrite (io_bind_ret _ _ _ _ _ (get_channel_ok Hb)).
  rewrite (io_bind_ret _ _ _ _ _ (channel_ctl_ok Hb)), Ha.
  rewrite (io_bind_ret _ _ _ _ _ eq_refl). unfold truth. by destruct (Z.eqb_spec (dma_addr X) 0).
Qed.

Lemma set_intmsk_ok : dwc2_channel_set_intmsk c s = Ret (tt, with_dev s (wr USB_HCINTMSK0 (intmsk_word P) (dev s))).
Proof using Hb.
  unfold dwc2_channel_set_intmsk. rewrite (io_bind_ret _ _ _ _ _ (get_channel_ok Hb)).
  rewrite (io_bind_ret _ _ _ _ _ (pipe_getter_ok Hb endpoint_type)). by rewrite (io_bind_ret _ _ _ _ _ (split_mode_ok Hb)).
Qed.
End program.

Section program2.
Context {D C : Type} `{UsbRegs D get}.
Context {s : usb D C} {c p a : Z} {P : usb_hcd_pipe} {X : dwc2_xfer_control}.
Hypothesis Hc : 0 ≤ c < 6.
Hypothesis Hb : bound s c p a P X.

Lemma start_transmit_ok :
  dwc2_channel_start_transmit c s = Ret (tt, with_dev s (started (get := get) (c := c) (P := P) (dev s))).
Proof using Hc Hb H H0.
  unfold dwc2_channel_start_transmit, GET_CHAR, SET_CHAR. rewrite (io_bind_ret _ _ _ _ _ (get_channel_ok Hb)). cbn [id].
  rewrite (io_bind_ret _ _ _ _ _ (read_ch_ok Hc _ _ char_in)), (io_bind_ret _ _ _ _ _ (__write_ch_reg_ok _ _ _ _)).
  rewrite (io_bind_ret _ _ _ _ _ (set_intmsk_ok (bound_dev Hb _))). by rewrite channel_enable_ok.
Qed.
End program2.

(** A state that differs from [s] in the pipe, the control block and the device. *)
Definition at_job {D C} (s : usb D C) (p a : Z) (P : usb_hcd_pipe) (X : dwc2_xfer_control) (d : D) : usb D C :=
  with_dev (with_ctls (with_pipes s (<[p := P]> (pipes s))) (<[a := X]> (ctls s))) d.

Lemma at_job_self {D C} (s : usb D C) c p a P X : bound s c p a P X → s = at_job s p a P X (dev s).
Proof.
  intros Hb. unfold at_job. rewrite (insert_id (pipes s)) by apply Hb. destruct s; cbn in *.
  rewrite insert_id by apply Hb. done.
Qed.

Lemma at_job_bound {D C} (s : usb D C) c p a P X P' X' d : bound s c p a P X →
  bound (at_job s p a P' X' d) c p a P' X'.
Proof. intros []. split; cbn; [done| |done|]; by rewrite lookup_insert_eq. Qed.

Lemma at_job_ctl {D C} (s : usb D C) p a P X X' d :
  with_ctls (at_job s p a P X d) (<[a := X']> (ctls (at_job s p a P X d))) = at_job s p a P X' d.
Proof. unfold at_job, with_ctls, with_dev. cbn. by rewrite insert_insert_eq. Qed.

Lemma at_job_pipe {D C} (s : usb D C) p a P P' X d :
  with_pipes (at_job s p a P X d) (<[p := P']> (pipes (at_job s p a P X d))) = at_job s p a P' X d.
Proof. unfold at_job, with_pipes, with_dev. cbn. by rewrite insert_insert_eq. Qed.

(** The control block once a transfer is prepared, and once it has been started. *)
Definition prepared_ctl (P : usb_hcd_pipe) (X : dwc2_xfer_control) : dwc2_xfer_control :=
  set_dma (set_split_start (set_status X DWC2_TRANSFER_STATUS_STARTED)
             (split_start X || negb (device_speed P =? USB_SPEED_HIGH))) (dma_addr_base X) true.
Definition started_ctl (P : usb_hcd_pipe) (X : dwc2_xfer_control) : dwc2_xfer_control :=
  if device_speed P =? USB_SPEED_HIGH then X else set_split_start X (negb (split_start X)).

Section transfer.
Context {D C : Type} `{UsbRegs D get}.
Context (s : usb D C) (c p a : Z) (P0 : usb_hcd_pipe) (X0 : dwc2_xfer_control).
Hypothesis Hc : 0 ≤ c < 6.
Hypothesis Hb : bound s c p a P0 X0.
Implicit Types (P : usb_hcd_pipe) (X : dwc2_xfer_control) (d : D).
Local Abbreviation st := (at_job s p a).

Definition prepared_dev P X d : D :=
  let d := wr (c := c) USB_HCINTMSK0 0 (wr (c := c) USB_HCINT0 0xffffffff (masked_off (get := get) (c := c) d)) in
  let d := wr (c := c) USB_HCCHAR0 (char_word (get d (ch_reg USB_HCCHAR0 c)) P (direction X)) d in
  wr (c := c) USB_HCTSIZ0 (siz_word P (transfer_size X) (packets P (transfer_size X))) (wr (c := c) USB_HCSPLT0 (splt_word P) d).

Definition started_dev P X d : D :=
  let d := if device_speed P =? USB_SPEED_HIGH then d
           else wr (c := c) USB_HCSPLT0 (USB_HOST_SPLT_CLR_COMPLETE_SPLIT (get d (ch_reg USB_HCSPLT0 c))) d in
  started (get := get) (c := c) (P := P) (wr (c := c) USB_HCDMA0 (RAM_PHY_TO_BUS_UNCACHED (dma_addr X)) d).

Lemma st_bound P X d : bound (st P X d) c p a P X.
Proof using Hb. by eapply at_job_bound. Qed.

Lemma upd_ctl_at f P X d : upd_channel_ctl c f (st P X d) = Ret (tt, st P (f X) d).
Proof using Hb. by rewrite (upd_channel_ctl_ok (st_bound P X d)), at_job_ctl. Qed.

Lemma get_other r v d : usb_plain r → usb_plain (ch_reg USB_HCCHAR0 c) → r ≠ ch_reg USB_HCCHAR0 c →
  get (mmio_write r v d) (ch_reg USB_HCCHAR0 c) = get d (ch_reg USB_HCCHAR0 c).
Proof using H H0. intros Hr Hr' Hne. rewrite plain_write by done. by case_decide. Qed.

Lemma transfer_prepare_at fuel P X d :
  USB_HOST_CHAR_GET_CHAN_ENABLE (get d (ch_reg USB_HCCHAR0 c)) = 0 →
  0 < packet_size P → max_packet_size P < 2 ^ 11 → 0 ≤ transfer_size X < 2 ^ 19 → Z.land (dma_addr_base X) 3 = 0 →
  dwc2_transfer_prepare fuel c (st P X d) = Ret (tt, st P (prepared_ctl P X) (prepared_dev P X d)).
Proof using Hc Hb H H0.
  intros He Hp Hm Hs Ha. unfold dwc2_transfer_prepare. rewrite (io_bind_ret _ _ _ _ _ (get_channel_ok (st_bound P X d))).
  rewrite (io_bind_ret _ _ _ _ _ (pipe_getter_ok (st_bound P X d) endpoint_num)).
  rewrite (io_bind_ret _ _ _ _ _ (pipe_getter_ok (st_bound P X d) next_pid)).
  rewrite (io_bind_ret _ _ _ _ _ (channel_ctl_ok (st_bound P X d))), Ha. cbn [id].
  rewrite (io_bind_ret _ _ _ _ _ eq_refl), (io_bind_ret _ _ _ _ _ channel_disable_ok).
  rewrite (io_bind_ret _ _ _ _ _ (clear_pending_ok (bound_dev (st_bound P X d) _))).
  match goal with |- context [with_dev (with_dev _ _) ?d'] => set (d1 := d') end.
  change (with_dev (with_dev (st P X d) _) d1) with (st P X d1).
  rewrite (io_bind_ret _ _ _ _ _ (upd_ctl_at _ P X d1)).
  assert (get d1 (ch_reg USB_HCCHAR0 c) = get d (ch_reg USB_HCCHAR0 c)) as Eg.
  { unfold d1, wr, masked_off. cbn [dev with_dev at_job].
    assert (usb_plain (ch_reg USB_HCCHAR0 c)) by (apply plain_ch; [done|apply char_in]).
    rewrite get_other, usb_intr_write, get_other; try done; try (by left); try (apply plain_ch; [done|set_solver]);
      unfold ch_reg, USB_HCINTMSK0, USB_HCCHAR0, USB_HAINTMSK; lia. }
  rewrite (io_bind_ret _ _ _ _ _ (program_char_ok Hc (st_bound P _ d1) fuel ltac:(cbn; by rewrite Eg))).
  rewrite (io_bind_ret _ _ _ _ _ (program_split_ok (bound_dev (st_bound P _ d1) _))).
  rewrite (io_bind_ret _ _ _ _ _ (program_tsize_ok (bound_dev (bound_dev (st_bound P (set_status X DWC2_TRANSFER_STATUS_STARTED) d1) _) _) Hp Hs Hm)).
  match goal with |- context [with_dev (with_dev (with_dev _ _) _) ?d'] => set (d2 := d') end.
  change (with_dev (with_dev (with_dev (st P (set_status X DWC2_TRANSFER_STATUS_STARTED) d1) _) _) d2)
    with (st P (set_status X DWC2_TRANSFER_STATUS_STARTED) d2).
  rewrite (io_bind_ret _ _ _ _ _ (split_mode_ok (st_bound P _ d2))).
  assert (d2 = prepared_dev P X d) as <- by done.
  unfold prepared_ctl. destruct (device_speed P =? USB_SPEED_HIGH); cbn [negb when].
  - rewrite (io_bind_ret _ _ _ _ _ eq_refl), upd_ctl_at, orb_false_r. by destruct X.
  - by rewrite (io_bind_ret _ _ _ _ _ (upd_ctl_at _ P _ d2)), upd_ctl_at, orb_true_r.
Qed.

Lemma transfer_start_at P X d :
  first_packet X && truth (Z.land (dma_addr X) 3) = false → dma_addr X ≠ 0 → (device_speed P = USB_SPEED_HIGH ∨ split_start X = true) →
  dwc2_transfer_start c (st P X d) = Ret (ERR_OK, st P (started_ctl P X) (started_dev P X d)).
Proof using Hc Hb H H0.
  intros Ha Hn Hsp. unfold dwc2_transfer_start, started_dev, started_ctl.
  rewrite (io_bind_ret _ _ _ _ _ (split_mode_ok (st_bound P X d))).
  destruct (Z.eqb_spec (device_speed P) USB_SPEED_HIGH) as [E|E]; cbn [negb].
  - rewrite (io_bind_ret _ _ _ _ _ (set_dma_addr_ok (st_bound P X d) Ha Hn)).
    by rewrite (io_bind_ret _ _ _ _ _ (start_transmit_ok Hc (bound_dev (st_bound P X d) _))).
  - destruct Hsp as [|Hsp]; [done|]. unfold mbind at 1, io_bind at 1.
    rewrite (io_bind_ret _ _ _ _ _ (channel_ctl_ok (st_bound P X d))), Hsp.
    unfold mbind at 2, io_bind at 1. unfold mbind at 3, io_bind at 1.
    rewrite (io_bind_ret _ _ _ _ _ (set_split_start_ok Hc (st_bound P X d))).
    rewrite (set_dma_addr_ok (bound_dev (st_bound P X d) _) Ha Hn), bind_ret.
    match goal with |- context [with_dev (with_dev (st P X d) _) ?d'] => set (d1 := d') end.
    change (with_dev (with_dev (st P X d) _) d1) with (st P X d1). rewrite upd_ctl_at, bind_ret.
    by rewrite (start_transmit_ok Hc (st_bound P _ d1)), bind_ret, Hsp.
Qed.
End transfer.

(** ** Reading the registers back *)
Lemma go_char_word v P dir : 0 ≤ v < 2 ^ 32 →
  let w := go_word (char_word v P dir) in
  0 ≤ w < 2 ^ 32 ∧ BF_EXTRACT w 0 11 = max_packet_size P mod 2 ^ 11 ∧ BF_EXTRACT w 11 4 = endpoint_num P mod 2 ^ 4 ∧
  BF_EXTRACT w 15 1 = dir mod 2 ^ 1 ∧ BF_EXTRACT w 17 1 = bool_z (device_speed P =? USB_SPEED_LOW) mod 2 ^ 1 ∧
  BF_EXTRACT w 18 2 = endpoint_type P mod 2 ^ 2 ∧ BF_EXTRACT w 22 7 = device_address P mod 2 ^ 7 ∧
  BF_EXTRACT w 30 1 = 0 ∧ BF_EXTRACT w 31 1 = 1.
Proof.
  intros Hv. unfold go_word, char_word, USB_HOST_CHAR_CLR_SET_PACK_PER_FRM, USB_HOST_CHAR_CLR_SET_DEV_ADDR,
    USB_HOST_CHAR_CLR_SET_EP_TYPE, USB_HOST_CHAR_CLR_SET_IS_LOW, USB_HOST_CHAR_CLR_SET_EP_DIR, USB_HOST_CHAR_CLR_SET_EP,
    USB_HOST_CHAR_CLR_SET_MAX_PACK_SZ, USB_HOST_CHAR_CLR_CHAN_DISABLE, USB_HOST_CHAR_CLR_SET_CHAN_ENABLE.
  cbv zeta. split_and!; try by (bf_range; lia).
  all: bf_read; done.
Qed.

Lemma siz_word_fields P size n :
  let w := siz_word P size n in
  0 ≤ w < 2 ^ 32 ∧ USB_HOST_SIZE_GET_SIZE w = size mod 2 ^ 19 ∧ USB_HOST_SIZE_GET_PACKET_COUNT w = n mod 2 ^ 10 ∧
  USB_HOST_SIZE_GET_PID w = usb_pid_to_dwc_pid (next_pid P) mod 2 ^ 2.
Proof.
  unfold siz_word, USB_HOST_SIZE_CLR_SET_PID, USB_HOST_SIZE_CLR_SET_PACKET_COUNT, USB_HOST_SIZE_CLR_SET_SIZE,
    USB_HOST_SIZE_GET_SIZE, USB_HOST_SIZE_GET_PACKET_COUNT, USB_HOST_SIZE_GET_PID.
  cbv zeta. split_and!; try by (bf_range; lia). all: bf_read; done.
Qed.

Lemma splt_word_fields P :
  let w := USB_HOST_SPLT_CLR_COMPLETE_SPLIT (splt_word P) in
  0 ≤ w < 2 ^ 32 ∧ 0 ≤ splt_word P < 2 ^ 32 ∧ (device_speed P = USB_SPEED_HIGH → splt_word P = 0) ∧
  (device_speed P ≠ USB_SPEED_HIGH → BF_EXTRACT w 31 1 = 1 ∧ BF_EXTRACT w 7 7 = ls_hub_address P mod 2 ^ 7 ∧
     BF_EXTRACT w 0 7 = ls_hub_port P mod 2 ^ 7 ∧ BF_EXTRACT w 16 1 = 0).
Proof.
  unfold splt_word, USB_HOST_SPLT_CLR_COMPLETE_SPLIT, USB_HOST_SPLT_CLR_SET_PORT_ADDR, USB_HOST_SPLT_CLR_SET_HUB_ADDR,
    USB_HOST_SPLT_CLR_SET_SPLT_ENABLE. cbv zeta.
  destruct (Z.eqb_spec (device_speed P) USB_SPEED_HIGH) as [E|E].
  - split_and!; try by (bf_range; lia).
  - split_and!; try by (bf_range; lia). intros _. split_and!; bf_read; done.
Qed.

Lemma usb_pid_roundtrip pid : pid = USB_PID_DATA0 ∨ pid = USB_PID_DATA1 ∨ pid = USB_PID_DATA2 ∨ pid = USB_PID_SETUP →
  dwc_pid_to_usb_pid (usb_pid_to_dwc_pid pid mod 2 ^ 2) = pid.
Proof. by intros [->|[->|[->| ->]]]. Qed.

Lemma plain_neq r0 c : 0 ≤ c < 6 → r0 ∈ plain_ch_regs → ch_reg r0 c ≠ USB_HAINTMSK.
Proof.
  intros Hc Hr. unfold plain_ch_regs in Hr. rewrite !elem_of_cons in Hr. unfold ch_reg, USB_HAINTMSK, USB_HCCHAR0, USB_HCSPLT0,
    USB_HCINTMSK0, USB_HCTSIZ0, USB_HCDMA0 in *. set_solver by lia.
Qed.

Section get_regs.
Context {D : Type} `{UsbRegs D get}.
Context (c : Z).
Hypothesis Hc : 0 ≤ c < 6.
Implicit Types (d : D).

(** Reading a plain register [r] after the write of channel register [r0]. *)
Lemma get_wr r0 v d r : r0 ∈ plain_ch_regs → usb_plain r →
  get (wr (c := c) r0 v d) r = if decide (r = ch_reg r0 c) then u32 v else get d r.
Proof using Hc H H0. intros Hr Hp. unfold wr. rewrite plain_write; [done|by apply plain_ch|done]. Qed.

Lemma get_wr_intr v d r : usb_plain r → get (wr (c := c) USB_HCINT0 v d) r = get d r.
Proof using Hc H H0. intros Hp. unfold wr. by rewrite usb_intr_write. Qed.

Lemma get_masked_off d r : usb_plain r → r ≠ USB_HAINTMSK → get (masked_off (get := get) (c := c) d) r = get d r.
Proof using H H0. intros Hp Hn. unfold masked_off. rewrite plain_write by (done || by left). by case_decide. Qed.

Lemma get_masked_on d r : usb_plain r → r ≠ USB_HAINTMSK → get (masked_on (get := get) (c := c) d) r = get d r.
Proof using H H0. intros Hp Hn. unfold masked_on. rewrite plain_write by (done || by left). by case_decide. Qed.

(** The device after a transfer has been prepared and started. *)
Definition job_dev P X d : D :=
  started_dev (get := get) c P (prepared_ctl P X) (prepared_dev (get := get) c P X d).

Lemma job_dev_regs P X d :
  let d' := job_dev P X d in
  get d' (ch_reg USB_HCCHAR0 c) = u32 (go_word (u32 (char_word (get d (ch_reg USB_HCCHAR0 c)) P (direction X)))) ∧
  get d' (ch_reg USB_HCTSIZ0 c) = u32 (siz_word P (transfer_size X) (packets P (transfer_size X))) ∧
  get d' (ch_reg USB_HCDMA0 c) = u32 (RAM_PHY_TO_BUS_UNCACHED (dma_addr_base X)) ∧
  get d' (ch_reg USB_HCINTMSK0 c) = u32 (intmsk_word P) ∧
  get d' (ch_reg USB_HCSPLT0 c) = (if device_speed P =? USB_SPEED_HIGH then u32 (splt_word P)
                                  else u32 (USB_HOST_SPLT_CLR_COMPLETE_SPLIT (u32 (splt_word P)))) ∧
  (∀ r, usb_plain r → r ≠ USB_HAINTMSK → (∀ r0, r0 ∈ plain_ch_regs → r ≠ ch_reg r0 c) → get d' r = get d r).
Proof using Hc H H0.
  assert (∀ r0, r0 ∈ plain_ch_regs → usb_plain (ch_reg r0 c)) as Hpl by (intros; by apply plain_ch).
  assert (∀ r0 r1, r0 ≠ r1 → ch_reg r0 c ≠ ch_reg r1 c) as Hne by (unfold ch_reg; lia).
  unfold job_dev, started_dev, prepared_dev, started, prepared_ctl. cbn [dma_addr set_dma]. cbv zeta.
  assert (USB_HCCHAR0 ∈ plain_ch_regs ∧ USB_HCSPLT0 ∈ plain_ch_regs ∧ USB_HCINTMSK0 ∈ plain_ch_regs ∧
    USB_HCTSIZ0 ∈ plain_ch_regs ∧ USB_HCDMA0 ∈ plain_ch_regs) as (H1 & H2 & H3 & H4 & H5) by set_solver.
  split_and!.
  6: { intros r Hr Hn Hall.
       destruct (device_speed P =? USB_SPEED_HIGH);
         rewrite get_masked_on by done; rewrite !(get_wr _ _ _ r) by done; rewrite !decide_False by auto;
         rewrite get_wr_intr, get_masked_off by done; done. }
  all: rewrite get_masked_on by (auto using plain_neq); destruct (device_speed P =? USB_SPEED_HIGH);
    repeat first [rewrite get_wr by auto | rewrite get_wr_intr by auto | rewrite get_masked_off by (auto using plain_neq)];
    repeat first [rewrite (decide_True (P := _)) by done | rewrite (decide_False (P := _)) by (by apply Hne)];
    try done.
Qed.
End get_regs.

Lemma job_dev_haintmsk {D} `{UsbRegs D get} c P X (d : D) i : 0 ≤ c < 6 → 0 ≤ i < 32 →
  Z.testbit (get (job_dev (get := get) c P X d) USB_HAINTMSK) i = (i =? c) || Z.testbit (get d USB_HAINTMSK) i.
Proof.
  intros Hc Hi. assert (usb_plain USB_HAINTMSK) as Hp by by left.
  assert (∀ r0 v (d' : D), r0 ∈ plain_ch_regs → get (wr (c := c) r0 v d') USB_HAINTMSK = get d' USB_HAINTMSK) as Hw.
  { intros r0 v d' Hr. rewrite (get_wr c Hc) by done. rewrite decide_False; [done|]. intros E. symmetry in E. by apply plain_neq in E. }
  unfold job_dev, started_dev, started, masked_on. rewrite plain_write by done. rewrite decide_True by done.
  rewrite !Hw by set_solver. unfold prepared_ctl. cbn [dma_addr set_dma].
  match goal with |- context [if ?b then ?x else ?y] =>
    assert (get (if b then x else y) USB_HAINTMSK = get x USB_HAINTMSK) as -> by (destruct b; [done|by rewrite Hw by set_solver]) end.
  unfold prepared_dev. rewrite !Hw by set_solver. rewrite (get_wr_intr c Hc) by done. unfold masked_off.
  rewrite plain_write by done. rewrite decide_True by done.
  rewrite testbit_u32, Z.lor_spec, testbit_u32, Z.land_spec, testbit_u32, Z.lnot_spec, testbit_u32, !Z.shiftl_spec by lia.
  zdec. cbn [andb]. destruct (Z.eqb_spec i c) as [->|Hne].
  - rewrite Z.sub_diag. cbn. by rewrite orb_true_r.
  - replace (Z.testbit 1 (i - c)) with false; [by rewrite orb_false_r, andb_true_r|].
    destruct (Z.lt_ge_cases (i - c) 0); [by rewrite Z.testbit_neg_r|]. change 1 with (2 ^ 0). by rewrite Z.pow2_bits_false by lia.
Qed.

(** The pipe and the job are values the register fields can hold. *)
Record pipe_ok (P : usb_hcd_pipe) : Prop := {
  pipe_mps : 0 < max_packet_size P < 2 ^ 11;
  pipe_ep : 0 ≤ endpoint_num P < 2 ^ 4;
  pipe_ty : 0 ≤ endpoint_type P < 2 ^ 2;
  pipe_dev : 0 ≤ device_address P < 2 ^ 7;
  pipe_hub : 0 ≤ ls_hub_address P < 2 ^ 7;
  pipe_port : 0 ≤ ls_hub_port P < 2 ^ 7 }.
Definition valid_pid (pid : Z) : Prop :=
  pid = USB_PID_DATA0 ∨ pid = USB_PID_DATA1 ∨ pid = USB_PID_DATA2 ∨ pid = USB_PID_SETUP.
Record job_ok (P : usb_hcd_pipe) (j : usb_xfer_job) : Prop := {
  job_size : 0 ≤ j_transfer_size j < 2 ^ 19;
  job_packets : packets P (j_transfer_size j) < 2 ^ 10;
  job_dir : j_direction j = USB_DIRECTION_OUT ∨ j_direction j = USB_DIRECTION_IN;
  job_addr : 0 < j_addr j < 2 ^ 32;
  job_aligned : Z.land (j_addr j) 3 = 0;
  job_pid : valid_pid (if j_next_pid j =? USB_PID_UNSET then next_pid P else j_next_pid j) }.

(** The pipe of a job once its packet identifier is set. *)
Definition job_pipe (P : usb_hcd_pipe) (j : usb_xfer_job) : usb_hcd_pipe :=
  if j_next_pid j =? USB_PID_UNSET then P else set_pid P (j_next_pid j).

(** The registers of channel [c] describe the transfer of [j] over [P].  The mask
    has the interrupts of completion, halt and the errors (bits 0 to 3 and 7 to
    10), and for a periodic (1, 3) or split transfer also NAK, ACK and NYET. *)
Record describes {D} (get : D → Z → Z) (d : D) (c : Z) (P : usb_hcd_pipe) (j : usb_xfer_job) : Prop := {
  chr_mps : BF_EXTRACT (get d (ch_reg USB_HCCHAR0 c)) 0 11 = max_packet_size P;
  chr_ep : BF_EXTRACT (get d (ch_reg USB_HCCHAR0 c)) 11 4 = endpoint_num P;
  chr_dir : BF_EXTRACT (get d (ch_reg USB_HCCHAR0 c)) 15 1 = j_direction j;
  chr_low : BF_EXTRACT (get d (ch_reg USB_HCCHAR0 c)) 17 1 = bool_z (device_speed P =? USB_SPEED_LOW);
  chr_type : BF_EXTRACT (get d (ch_reg USB_HCCHAR0 c)) 18 2 = endpoint_type P;
  chr_dev : BF_EXTRACT (get d (ch_reg USB_HCCHAR0 c)) 22 7 = device_address P;
  chr_not_disabled : BF_EXTRACT (get d (ch_reg USB_HCCHAR0 c)) 30 1 = 0;
  chr_enabled : BF_EXTRACT (get d (ch_reg USB_HCCHAR0 c)) 31 1 = 1;
  siz_size : USB_HOST_SIZE_GET_SIZE (get d (ch_reg USB_HCTSIZ0 c)) = j_transfer_size j;
  siz_packets : USB_HOST_SIZE_GET_PACKET_COUNT (get d (ch_reg USB_HCTSIZ0 c)) = packets P (j_transfer_size j);
  siz_pid : USB_HOST_SIZE_GET_PID (get d (ch_reg USB_HCTSIZ0 c)) =
    (if next_pid P =? USB_PID_DATA0 then 0 else if next_pid P =? USB_PID_DATA1 then 2 else if next_pid P =? USB_PID_DATA2 then 1 else 3);
  dma_bus : get d (ch_reg USB_HCDMA0 c) = Z.lor (j_addr j) 0xc0000000;
  splt_off : device_speed P = USB_SPEED_HIGH → get d (ch_reg USB_HCSPLT0 c) = 0;
  splt_on : device_speed P ≠ USB_SPEED_HIGH →
    BF_EXTRACT (get d (ch_reg USB_HCSPLT0 c)) 31 1 = 1 ∧ BF_EXTRACT (get d (ch_reg USB_HCSPLT0 c)) 16 1 = 0 ∧
    BF_EXTRACT (get d (ch_reg USB_HCSPLT0 c)) 7 7 = ls_hub_address P ∧
    BF_EXTRACT (get d (ch_reg USB_HCSPLT0 c)) 0 7 = ls_hub_port P;
  int_mask : get d (ch_reg USB_HCINTMSK0 c) =
    if (endpoint_type P =? 1) || (endpoint_type P =? 3) || negb (device_speed P =? USB_SPEED_HIGH) then 0x7ff else 0x78f }.

Lemma dma_u32 a : 0 < a < 2 ^ 32 → u32 (RAM_PHY_TO_BUS_UNCACHED a) = Z.lor a 0xc0000000.
Proof.
  intros Ha. unfold RAM_PHY_TO_BUS_UNCACHED. rewrite (u32_id a) by lia. apply u32_id. apply bits_bound; [lia|]. split.
  - apply Z.lor_nonneg; lia.
  - intros i Hi. by rewrite Z.lor_spec, (testbit_high a 32), (testbit_high 0xc0000000 32) by lia.
Qed.

Lemma packet_size_pos P : pipe_ok P → 0 < packet_size P.
Proof. intros HP. unfold packet_size. destruct (_ =? _); [lia|]. apply HP. Qed.

(** The registers after [job_dev] describe the job. *)
Lemma job_dev_describes {D} `{UsbRegs D get} c P X j (d : D) : 0 ≤ c < 6 → pipe_ok P → job_ok P j →
  (∀ r, usb_plain r → 0 ≤ get d r < 2 ^ 32) → direction X = j_direction j → transfer_size X = j_transfer_size j →
  dma_addr_base X = j_addr j → next_pid P = (if j_next_pid j =? USB_PID_UNSET then next_pid P else j_next_pid j) →
  describes get (job_dev (get := get) c P X d) c P j.
Proof.
  intros Hc HP Hj Hr Hd Hs Ha Hpid. destruct (job_dev_regs c Hc P X d) as (E1 & E2 & E3 & E4 & E5 & _).
  rewrite Hd in E1. rewrite Hs in E2. rewrite Ha in E3. rewrite dma_u32 in E3 by apply Hj.
  pose proof (Hr (ch_reg USB_HCCHAR0 c) (plain_ch Hc _ char_in)) as Hv.
  assert (0 ≤ char_word (get d (ch_reg USB_HCCHAR0 c)) P (j_direction j) < 2 ^ 32) as Hcw by (unfold char_word; bf_range).
  rewrite (u32_id (char_word _ _ _)) in E1 by done. destruct (go_char_word _ P (j_direction j) Hv) as (Hw & F).
  rewrite u32_id in E1 by done. destruct (siz_word_fields P (j_transfer_size j) (packets P (j_transfer_size j))) as (Hz & G).
  rewrite u32_id in E2 by done. destruct (splt_word_fields P) as (Hs1 & Hs2 & Hs3 & Hs4).
  rewrite (u32_id (splt_word P)), u32_id in E5 by done. destruct HP, Hj, F as (F1 & F2 & F3 & F4 & F5 & F6 & F7 & F8).
  assert (0 ≤ packets P (j_transfer_size j)) by (unfold packets; lia).
  split; rewrite ?E1, ?E2, ?E3, ?E4, ?E5; rewrite ?F1, ?F2, ?F3, ?F4, ?F5, ?F6; try (apply Z.mod_small; lia); try done.
  - apply Z.mod_small. destruct job_dir0 as [->| ->]; done.
  - by destruct (device_speed P =? USB_SPEED_LOW).
  - destruct G as (-> & _). by apply Z.mod_small.
  - destruct G as (_ & -> & _). by apply Z.mod_small.
  - destruct G as (_ & _ & ->). rewrite <- Hpid in job_pid0. by destruct job_pid0 as [->|[->|[->| ->]]].
  - intros E. rewrite E. cbn. auto.
  - intros E. destruct (Z.eqb_spec (device_speed P) USB_SPEED_HIGH); [done|]. destruct (Hs4 E) as (-> & -> & -> & ->).
    split_and!; [done|done|by apply Z.mod_small|by apply Z.mod_small].
  - unfold intmsk_word, usb_is_periodic_ep_type. change USB_ENDPOINT_TYPE_ISOCHRONOUS with 1. change USB_ENDPOINT_TYPE_INTERRUPT with 3.
    by destruct (_ || _).
Qed.

Lemma xfer_one_job_ok {D C} `{UsbRegs D get} fuel (s : usb D C) c p a P X j :
  0 ≤ c < 6 → bound s c p a P X → pipe_ok P → job_ok P j → (∀ r, usb_plain r → 0 ≤ get (dev s) r < 2 ^ 32) →
  USB_HOST_CHAR_GET_CHAN_ENABLE (get (dev s) (ch_reg USB_HCCHAR0 c)) = 0 →
  ∃ d' X', dwc2_xfer_one_job fuel c j s = Ret (ERR_OK, at_job s p a (job_pipe P j) X' d') ∧
    describes get d' c (job_pipe P j) j ∧
    status X' = DWC2_TRANSFER_STATUS_STARTED ∧ direction X' = j_direction j ∧ transfer_size X' = j_transfer_size j ∧
    dma_addr_base X' = j_addr j ∧ completion X' = j_completion j ∧ completion_arg X' = j_completion_arg j ∧
    ctl_c X' = ctl_c X ∧
    (∀ i, 0 ≤ i < 32 → Z.testbit (get d' USB_HAINTMSK) i = (i =? c) || Z.testbit (get (dev s) USB_HAINTMSK) i) ∧
    (∀ r0 c', r0 ∈ plain_ch_regs → 0 ≤ c' < 6 → c' ≠ c → get d' (ch_reg r0 c') = get (dev s) (ch_reg r0 c')).
Proof.
  intros Hc Hb HP Hj Hr He.
  assert (dwc2_xfer_one_job fuel c j s = dwc2_xfer_one_job fuel c j (at_job s p a P X (dev s))) as Es
    by (f_equal; by apply (at_job_self s c)).
  set (X1 := set_completion (set_job X (j_addr j) (j_direction j) (j_transfer_size j)) (j_completion j) (j_completion_arg j)).
  set (P' := job_pipe P j). exists (job_dev (get := get) c P' X1 (dev s)), (started_ctl P' (prepared_ctl P' X1)).
  assert (packet_size P' = packet_size P ∧ max_packet_size P' = max_packet_size P ∧
    (∀ n, packets P' n = packets P n) ∧ device_speed P' = device_speed P) as (Eps & Emp & Epk & Esp)
    by (unfold P', job_pipe, packets, packet_size; by destruct (j_next_pid j =? USB_PID_UNSET)).
  split.
  - rewrite Es. unfold dwc2_xfer_one_job. rewrite (io_bind_ret _ _ _ _ _ (upd_ctl_at s c p a P X Hb _ P X (dev s))).
    assert (when (negb (j_next_pid j =? USB_PID_UNSET)) (dwc2_channel_set_next_pid c (j_next_pid j))
      (at_job s p a P (set_job X (j_addr j) (j_direction j) (j_transfer_size j)) (dev s)) =
      Ret (tt, at_job s p a P' (set_job X (j_addr j) (j_direction j) (j_transfer_size j)) (dev s))) as Ew.
    { unfold P', job_pipe. destruct (j_next_pid j =? USB_PID_UNSET); cbn [negb when]; [done|].
      by rewrite (set_next_pid_ok (st_bound s c p a P X Hb _ _ _)), at_job_pipe. }
    rewrite (io_bind_ret _ _ _ _ _ Ew), (io_bind_ret _ _ _ _ _ (upd_ctl_at s c p a P X Hb _ P' _ (dev s))). fold X1.
    pose proof (packet_size_pos P HP). destruct HP, Hj.
    rewrite (io_bind_ret _ _ _ _ _ (transfer_prepare_at s c p a P X Hc Hb fuel P' X1 (dev s) He
      ltac:(lia) ltac:(lia) ltac:(done) ltac:(done))).
    apply (transfer_start_at s c p a P X Hc Hb); [cbn; by rewrite job_aligned0|cbn; lia|].
    unfold prepared_ctl. cbn [split_start set_dma set_split_start].
    destruct (Z.eqb_spec (device_speed P') USB_SPEED_HIGH); [by left|right; by rewrite orb_true_r].
  - split_and!; try (unfold started_ctl; by destruct (_ =? _)).
    + apply job_dev_describes; try done.
      * unfold P', job_pipe. destruct (j_next_pid j =? USB_PID_UNSET); [done|]. by destruct HP.
      * destruct Hj. split; rewrite ?Epk; try done. unfold P', job_pipe. destruct (j_next_pid j =? USB_PID_UNSET) eqn:E; done.
      * unfold P', job_pipe. by destruct (j_next_pid j =? USB_PID_UNSET).
    + intros i Hi. by apply job_dev_haintmsk.
    + intros r0 c' Hr0 Hc' Hne. destruct (job_dev_regs c Hc P' X1 (dev s)) as (_ & _ & _ & _ & _ & F).
      apply F; [right; by exists r0, c'|by apply plain_neq|]. intros r1 Hr1. unfold plain_ch_regs in *.
      rewrite !elem_of_cons in *. unfold ch_reg, USB_HCCHAR0, USB_HCSPLT0, USB_HCINTMSK0, USB_HCTSIZ0, USB_HCDMA0 in *.
      set_solver by lia.
Qed.

(** C13: starting a job programs its channel for exactly the transfer of the job.
    On an idle channel bound to a pipe, [dwc2_xfer_one_job] returns [ERR_OK];
    the channel registers then hold the endpoint, device address, direction and
    packet size of the pipe, the byte count, the number of packets and the
    packet identifier of the transfer, the bus address of the buffer and, below
    high speed, the hub and port of the split; the channel is enabled and its
    interrupt unmasked, and the channel's own mask has exactly the interrupts of
    completion, halt and errors, with NAK, ACK and NYET for a periodic or split
    transfer.  The control block is started
    with the job's completion.  No register of another channel, no interrupt
    mask bit of another channel and no other pipe or control block changes. *)
Theorem dwc2_xfer_one_job_programs {D C} `{UsbRegs D get} fuel (s : usb D C) c p a P X j :
  0 ≤ c < 6 → bound s c p a P X → pipe_ok P → job_ok P j → (∀ r, usb_plain r → 0 ≤ get (dev s) r < 2 ^ 32) →
  USB_HOST_CHAR_GET_CHAN_ENABLE (get (dev s) (ch_reg USB_HCCHAR0 c)) = 0 →
  ∃ d' X', dwc2_xfer_one_job fuel c j s = Ret (ERR_OK, at_job s p a (job_pipe P j) X' d') ∧
    describes get d' c (job_pipe P j) j ∧
    status X' = DWC2_TRANSFER_STATUS_STARTED ∧ direction X' = j_direction j ∧ transfer_size X' = j_transfer_size j ∧
    dma_addr_base X' = j_addr j ∧ completion X' = j_completion j ∧ completion_arg X' = j_completion_arg j ∧
    ctl_c X' = ctl_c X ∧
    (∀ i, 0 ≤ i < 32 → Z.testbit (get d' USB_HAINTMSK) i = (i =? c) || Z.testbit (get (dev s) USB_HAINTMSK) i) ∧
    (∀ r0 c', r0 ∈ plain_ch_regs → 0 ≤ c' < 6 → c' ≠ c → get d' (ch_reg r0 c') = get (dev s) (ch_reg r0 c')).
Proof. apply xfer_one_job_ok. Qed.

(** Witness: a bulk read of 512 bytes by device 3 on channel 2 of an idle controller. *)
Definition demo_pipe : usb_hcd_pipe := UsbPipe 3 USB_SPEED_HIGH 1 USB_ENDPOINT_TYPE_BULK USB_DIRECTION_IN 512 0 0 USB_PID_DATA1.
Definition demo_ctl : dwc2_xfer_control := XferControl (Some 2) 0 0 0 false false 0 0 0 0.
Definition demo_usb : usb bank unit :=
  Usb ∅ 4 (imap (λ i _, Dwc2Channel (Z.of_nat i) 100 200) (replicate 6 tt)) {[200 := demo_ctl]} {[100 := demo_pipe]} ∅
    (SlotPool 1 2 []) 0 0 tt.
Definition demo_job : usb_xfer_job := XferJob USB_DIRECTION_IN 0x8000 512 USB_PID_UNSET 0 7 8 false 0.

Lemma demo_usb_bound : bound demo_usb 2 100 200 demo_pipe demo_ctl.
Proof. by split. Qed.

Lemma dwc2_xfer_one_job_programs_witness : ∃ d' X',
  dwc2_xfer_one_job 1 2 demo_job demo_usb = Ret (ERR_OK, at_job demo_usb 100 200 demo_pipe X' d') ∧
  describes bank_get d' 2 demo_pipe demo_job.
Proof.
  destruct (dwc2_xfer_one_job_programs (get := bank_get) 1 demo_usb 2 100 200 demo_pipe demo_ctl demo_job) as (d' & X' & E & Hd & _).
  - lia.
  - exact demo_usb_bound.
  - by split.
  - split; try done; [by right|by right; left].
  - intros r _. cbn. unfold bank_get. rewrite lookup_empty. cbn. lia.
  - done.
  - exists d', X'. split; [exact E|exact Hd].
Defined.

(** ** The halt interrupt *)
Lemma bound_irq_num {D C} (s : usb D C) c p a P X n : bound s c p a P X → bound (with_irq_num s n) c p a P X.
Proof. intros []. by split. Qed.

Section halted.
Context {D C : Type} `{UsbRegs D get}.
Context (call : Z → Z → io (usb D C) unit).
Context (c p a : Z) (P : usb_hcd_pipe) (X : dwc2_xfer_control).
Hypothesis Hc : 0 ≤ c < 6.
Implicit Types (s : usb D C) (d : D).

(** Devices that agree on the registers that hold what is written. *)
Definition same_plain d d' : Prop := ∀ r, usb_plain r → get d' r = get d r.

Lemma get_intr_ok s : ∃ d, GET_INTR c s = Ret (fst (mmio_read (ch_reg USB_HCINT0 c) (dev s)), with_dev s d) ∧ same_plain (dev s) d.
Proof using Hc H H0. eexists. split; [done|]. intros r Hr. by apply usb_intr_read. Qed.

(** The prefix of the handler: reading, acknowledging and counting the interrupt. *)
Lemma int_one_prefix s : bound s c p a P X → truth (BIT_IS_SET (channels_bitmap s) c) = true → irq_num s ≠ 40000 →
  let intr := fst (mmio_read (ch_reg USB_HCINT0 c) (dev s)) in
  INTR_GET intr HALT = true →
  ∃ d1, same_plain (dev s) d1 ∧
    dwc2_irq_handle_channel_int_one call c s =
      dwc2_irq_handle_channel_halt call c intr (with_irq_num (with_dev s d1) (s32 (irq_num s + 1))).
Proof using Hc H H0.
  intros Hb Hset Hn intr Hh. unfold dwc2_irq_handle_channel_int_one.
  rewrite (io_bind_ret _ _ s (Some c) s) by (unfold dwc2_channel_get_by_id; by rewrite (io_bind_ret _ _ _ _ _ eq_refl), Hset).
  destruct (get_intr_ok s) as (d & E & Hd). rewrite (io_bind_ret _ _ _ _ _ E). fold intr. unfold SET_INTR.
  rewrite (io_bind_ret _ _ _ _ _ (__write_ch_reg_ok _ _ _ _)). cbn [dev with_dev]. fold (ch_reg USB_HCINT0 c).
  set (d1 := mmio_write (ch_reg USB_HCINT0 c) (u32 intr) d).
  change (with_dev (with_dev s d) d1) with (with_dev s d1). exists d1. split.
  { intros r Hr. unfold d1. rewrite usb_intr_write by done. by apply Hd. }
  assert (dwc2_irq_handle_channel_int_one_dbg c intr (with_dev s d1) =
    Ret (tt, with_irq_num (with_dev s d1) (s32 (irq_num s + 1)))) as Ed.
  { unfold dwc2_irq_handle_channel_int_one_dbg, GET_INTRMSK.
    rewrite (io_bind_ret _ _ _ _ _ (read_ch_ok Hc _ _ intmsk_in)), (io_bind_ret _ _ _ _ _ eq_refl), (io_bind_ret _ _ _ _ _ eq_refl).
    cbn [irq_num with_dev]. by destruct (Z.eqb_spec (irq_num s) 40000). }
  rewrite (io_bind_ret _ _ _ _ _ Ed), Hh. by rewrite (io_bind_ret _ _ _ _ _ eq_refl).
Qed.

Lemma split_enabled_ok s : bound s c p a P X →
  dwc2_channel_is_split_enabled c s = Ret (truth (USB_HOST_SPLT_GET_SPLT_ENABLE (get (dev s) (ch_reg USB_HCSPLT0 c))), s).
Proof using Hc H H0.
  intros Hb. unfold dwc2_channel_is_split_enabled, GET_SPLT. rewrite (io_bind_ret _ _ _ _ _ (get_channel_ok Hb)). cbn [id].
  by rewrite (io_bind_ret _ _ _ _ _ (read_ch_ok Hc _ _ splt_in)).
Qed.

Lemma recalc_next_ok s : bound s c p a P X → ctl_c X = Some c →
  let siz := get (dev s) (ch_reg USB_HCTSIZ0 c) in
  let P' := set_pid P (dwc_pid_to_usb_pid (USB_HOST_SIZE_GET_PID siz)) in
  let more := (direction X =? USB_DIRECTION_IN) && truth (USB_HOST_SIZE_GET_PACKET_COUNT siz) in
  let X' := set_dma X (u64 (dma_addr_base X + transfer_size X - USB_HOST_SIZE_GET_SIZE siz)) false in
  dwc2_transfer_recalc_next a s = Ret (more, at_job s p a P' (if more then X' else X) (dev s)).
Proof using Hc H H0.
  intros Hb Hcc siz P' more X'. assert (dwc2_transfer_recalc_next a s =
    dwc2_transfer_recalc_next a (at_job s p a P X (dev s))) as -> by (f_equal; by apply (at_job_self s c)).
  pose proof (at_job_bound s c p a P X P X (dev s) Hb) as Hb1. unfold dwc2_transfer_recalc_next.
  assert (get_xctl a (at_job s p a P X (dev s)) = Ret (X, at_job s p a P X (dev s))) as Ex
    by (unfold get_xctl; by rewrite (bound_ctl _ _ _ _ _ _ Hb1)).
  rewrite (io_bind_ret _ _ _ _ _ Ex), Hcc, (io_bind_ret _ _ _ _ _ eq_refl), (io_bind_ret _ _ _ _ _ (get_channel_ok Hb1)).
  unfold GET_SIZ. rewrite (io_bind_ret _ _ _ _ _ (read_ch_ok Hc _ _ siz_in)).
  cbn [id]. change (dev (at_job s p a P X (dev s))) with (dev s). fold siz.
  rewrite (io_bind_ret _ _ _ _ _ (pipe_getter_ok Hb1 endpoint_num)), (io_bind_ret _ _ _ _ _ (set_next_pid_ok Hb1 _)), at_job_pipe.
  fold P'. unfold more. destruct (direction X =? USB_DIRECTION_IN); cbn [andb]; [|done].
  destruct (truth (USB_HOST_SIZE_GET_PACKET_COUNT siz)); cbn [andb]; [|done].
  assert (upd_xctl a (λ x, set_dma x (u64 (dma_addr_base x + transfer_size x - USB_HOST_SIZE_GET_SIZE siz)) false)
    (at_job s p a P' X (dev s)) = Ret (tt, at_job s p a P' X' (dev s))) as Eu.
  { unfold upd_xctl. rewrite (io_bind_ret _ _ (at_job s p a P' X (dev s)) X (at_job s p a P' X (dev s))).
    - unfold put_xctl, modify. by rewrite at_job_ctl.
    - unfold get_xctl. cbn. by rewrite lookup_insert_eq. }
  by rewrite (io_bind_ret _ _ _ _ _ Eu).
Qed.

(** The handler up to its first decision. *)
Lemma halt_head s intr : bound s c p a P X → ∃ d, same_plain (dev s) d ∧
  (INTR_GET intr XFER_COMPLETE = false → USB_HOST_SPLT_GET_SPLT_ENABLE (get (dev s) (ch_reg USB_HCSPLT0 c)) = 0 →
     dwc2_irq_handle_channel_halt call c intr s = Ret (tt, with_dev s d)) ∧
  (INTR_GET intr XFER_COMPLETE = true → INTR_GET intr NYET = false → INTR_GET intr NAK = false →
     dwc2_irq_handle_channel_halt call c intr s =
       (more ← dwc2_transfer_recalc_next a; if (more : bool) then _ ← dwc2_transfer_start c; mret tt else complete call c)
         (with_dev s d)).
Proof using Hc H H0.
  intros Hb. destruct (get_intr_ok s) as (d & E & Hd). exists d. split; [done|].
  pose proof (bound_dev Hb d) as Hb'. unfold dwc2_irq_handle_channel_halt, GET_SIZ.
  rewrite (io_bind_ret _ _ _ _ _ (get_channel_ok Hb)), (io_bind_ret _ _ _ _ _ (pipe_getter_ok Hb endpoint_type)).
  cbn [id]. rewrite (io_bind_ret _ _ _ _ _ E), (io_bind_ret _ _ _ _ _ (read_ch_ok Hc _ _ siz_in)). split.
  - intros Hx Hsp. rewrite Hx, (io_bind_ret _ _ _ _ _ (split_enabled_ok _ Hb')). cbn [dev with_dev].
    by rewrite Hd, Hsp by (apply plain_ch; [done|apply splt_in]).
  - intros Hx Hny Hna. rewrite Hx, Hny, Hna. cbn [negb]. rewrite andb_false_r. cbn [when].
    rewrite (io_bind_ret _ _ _ _ _ eq_refl). cbn [negb]. do 3 rewrite (io_bind_ret _ _ _ _ _ eq_refl). by rewrite (io_bind_ret _ _ _ _ _ (get_channel_ok Hb')).
Qed.
End halted.

(** what a halt interrupt of a busy channel does.  If the controller
    reports the transfer complete, the pipe takes over the packet identifier of
    the size register; an unfinished read is started again at the address that
    follows the bytes received, otherwise the completion function is called,
    exactly once.  If it does not report completion and the channel is not in
    split mode, whatever error it reports, nothing happens: the transfer stays
    started for ever and its completion is never called. *)
Theorem dwc2_halt_interrupt {D C} `{UsbRegs D get} (call : Z → Z → io (usb D C) unit) (s : usb D C) c p a P X :
  0 ≤ c < 6 → bound s c p a P X → truth (BIT_IS_SET (channels_bitmap s) c) = true → irq_num s ≠ 40000 → ctl_c X = Some c →
  let intr := fst (mmio_read (ch_reg USB_HCINT0 c) (dev s)) in
  let siz := get (dev s) (ch_reg USB_HCTSIZ0 c) in
  let s1 := with_irq_num s (s32 (irq_num s + 1)) in
  let P' := set_pid P (dwc_pid_to_usb_pid (USB_HOST_SIZE_GET_PID siz)) in
  let next := u64 (dma_addr_base X + transfer_size X - USB_HOST_SIZE_GET_SIZE siz) in
  INTR_GET intr HALT = true →
  (INTR_GET intr XFER_COMPLETE = false → USB_HOST_SPLT_GET_SPLT_ENABLE (get (dev s) (ch_reg USB_HCSPLT0 c)) = 0 →
     ∃ d', dwc2_irq_handle_channel_int_one call c s = Ret (tt, with_dev s1 d')) ∧
  (INTR_GET intr XFER_COMPLETE = true → INTR_GET intr NYET = false → INTR_GET intr NAK = false →
     (direction X = USB_DIRECTION_IN → USB_HOST_SIZE_GET_PACKET_COUNT siz ≠ 0 → device_speed P = USB_SPEED_HIGH → next ≠ 0 →
        ∃ d', dwc2_irq_handle_channel_int_one call c s = Ret (tt, at_job s1 p a P' (set_dma X next false) d') ∧
          get d' (ch_reg USB_HCDMA0 c) = u32 (RAM_PHY_TO_BUS_UNCACHED next)) ∧
     (direction X ≠ USB_DIRECTION_IN ∨ USB_HOST_SIZE_GET_PACKET_COUNT siz = 0 →
        ∃ d', dwc2_irq_handle_channel_int_one call c s =
          (if truth (completion X) then call (completion X) (completion_arg X) else mret tt) (at_job s1 p a P' X d'))).
Proof.
  intros Hc Hb Hset Hn Hcc intr siz s1 P' next Hh.
  destruct (int_one_prefix call c p a P X Hc s Hb Hset Hn Hh) as (d1 & Hd1 & ->). fold intr.
  set (s2 := with_irq_num (with_dev s d1) (s32 (irq_num s + 1))).
  assert (bound s2 c p a P X) as Hb2 by (by apply bound_irq_num, bound_dev).
  destruct (halt_head call c p a P X Hc s2 intr Hb2) as (d2 & Hd2 & Hno & Hyes).
  assert (get d2 (ch_reg USB_HCTSIZ0 c) = siz) as Esiz
    by (rewrite Hd2, Hd1 by (apply plain_ch; [done|apply siz_in]); done).
  split; [intros Hx Hsp|intros Hx Hny Hna].
  - exists d2. rewrite Hno; [done|done|]. unfold s2. cbn [dev with_irq_num with_dev].
    by rewrite Hd1 by (apply plain_ch; [done|apply splt_in]).
  - rewrite (Hyes Hx Hny Hna). clear Hno Hyes. pose proof (bound_dev Hb2 d2) as Hb3.
    pose proof (recalc_next_ok c p a P X Hc _ Hb3 Hcc) as Er. cbv zeta in Er. cbn [dev with_dev] in Er.
    rewrite Esiz in Er. fold P' in Er. fold next in Er. rewrite (io_bind_ret _ _ _ _ _ Er). clear Er. split.
    + intros Hdir Hpk Hsp Hnx. rewrite Hdir. change (USB_DIRECTION_IN =? USB_DIRECTION_IN) with true. cbn [andb].
      assert (truth (USB_HOST_SIZE_GET_PACKET_COUNT siz) = true) as -> by (unfold truth; by zdec).
      change (at_job (with_dev s2 d2) p a P' (set_dma X next false) d2) with (at_job s1 p a P' (set_dma X next false) d2).
      assert (bound s1 c p a P X) as Hb1 by (by apply bound_irq_num).
      rewrite (io_bind_ret _ _ _ _ _ (transfer_start_at s1 c p a P X Hc Hb1 P' (set_dma X next false) d2
        ltac:(done) Hnx ltac:(left; exact Hsp))).
      unfold started_ctl, started_dev, started. change (device_speed P') with (device_speed P). rewrite Hsp. cbn [Z.eqb].
      eexists. split; [done|]. assert (USB_HCDMA0 ∈ plain_ch_regs) as Hin by (unfold plain_ch_regs; set_solver).
      change (USB_SPEED_HIGH =? USB_SPEED_HIGH) with true. cbn iota. cbn [dma_addr set_dma].
      rewrite (get_masked_on c) by (first [by apply plain_ch|by apply plain_neq]).
      rewrite !(get_wr c Hc) by (first [by apply plain_ch|apply intmsk_in|apply char_in|done]).
      rewrite !decide_False by (unfold ch_reg, USB_HCDMA0, USB_HCINTMSK0, USB_HCCHAR0; lia). 
      rewrite (get_wr c Hc) by (done || by apply plain_ch). by rewrite decide_True.
    + intros Hdone. assert ((direction X =? USB_DIRECTION_IN) && truth (USB_HOST_SIZE_GET_PACKET_COUNT siz) = false) as ->.
      { destruct Hdone as [Hdir|Hpk]; [|by rewrite Hpk, andb_false_r]. by destruct (Z.eqb_spec (direction X) USB_DIRECTION_IN). }
      exists d2. change (at_job (with_dev s2 d2) p a P' X d2) with (at_job s1 p a P' X d2).
      assert (bound s1 c p a P X) as Hb1 by (by apply bound_irq_num). unfold complete.
      rewrite (io_bind_ret _ _ _ _ _ (channel_ctl_ok (at_job_bound s1 c p a P X P' X d2 Hb1))).
      unfold when. by destruct (truth (completion X)).
Qed.

(** Witness: channel 2 halts, first with the transfer complete, then with a
    stall; the completion function 7 adds its argument to the client's count. *)
Definition halted_usb (intr : Z) : usb bank Z :=
  Usb {[ch_reg USB_HCINT0 2 := intr]} 4 (channels demo_usb) {[200 := set_completion demo_ctl 7 5]} (pipes demo_usb) ∅
    (SlotPool 1 2 []) 0 0 0.
Definition demo_call (fn arg : Z) : io (usb bank Z) unit := λ s, Ret (tt, with_client s (client s + arg)).

Lemma halted_usb_bound intr : bound (halted_usb intr) 2 100 200 demo_pipe (set_completion demo_ctl 7 5).
Proof. by split. Qed.

Lemma dwc2_halt_interrupt_witness :
  (∃ s', dwc2_irq_handle_channel_int_one demo_call 2 (halted_usb 3) = Ret (tt, s') ∧ client s' = 5) ∧
  (∃ s', dwc2_irq_handle_channel_int_one demo_call 2 (halted_usb 0xa) = Ret (tt, s') ∧ client s' = 0).
Proof.
  split.
  - destruct (dwc2_halt_interrupt (get := bank_get) demo_call (halted_usb 3) 2 100 200 demo_pipe (set_completion demo_ctl 7 5)
      ltac:(lia) (halted_usb_bound 3) eq_refl ltac:(done) eq_refl eq_refl) as [_ Hy].
    destruct (Hy eq_refl eq_refl eq_refl) as [_ Hd]. destruct (Hd ltac:(right; vm_compute; reflexivity)) as (d' & E).
    eexists. split; [exact E|done].
  - destruct (dwc2_halt_interrupt (get := bank_get) demo_call (halted_usb 0xa) 2 100 200 demo_pipe (set_completion demo_ctl 7 5)
      ltac:(lia) (halted_usb_bound 0xa) eq_refl ltac:(done) eq_refl eq_refl) as [Hn _].
    destruct (Hn eq_refl eq_refl) as (d' & E). eexists. split; [exact E|done].
Defined.
