(* ===== verification/UsbQueue.v ===== *)
(** * USB transfers (board/bcm2835/usb/usb_xfer_queue.c, hcd_transfer.c)

    A transfer is a chain of jobs.  Chains wait in the pending queue; a task
    starts the first job of a chain on a channel of the controller (Dwc2.v), the
    completion interrupt marks the job, and the task then starts the next job or
    ends the chain.  Chains and jobs come from static pools (Lists.v); the queue
    task sleeps on a wait flag of the scheduler (Sched.v). *)

From S2P Require Import Prelude Bits Lists Rings Sched Mmio Dwc2.

(** ** Layout

    A job is named by its address, which is that of its slot node; its [jobs]
    node is 80 bytes further.  A chain is named likewise; its nodes [list],
    [jobs] and [completed_jobs] are at 16, 56 and 72. *)
Definition job_node (j : Z) : Z := j + 80.
Definition node_job (x : Z) : Z := x - 80.
Definition chain_node (jc : Z) : Z := jc + 16.
Definition node_chain (x : Z) : Z := x - 16.
Definition chain_jobs (jc : Z) : Z := jc + 56.
Definition chain_completed (jc : Z) : Z := jc + 72.

(** The data of a chain; [jc_channel] is its channel while it runs. *)
Record usb_xfer_jobchain := JobChain {
  nak_retries : Z; wait_interval_ms : Z; jc_err : Z; hcd_pipe : Z; jc_completed : Z; completed_arg : Z;
  jc_channel : option Z }.

Definition new_chain : usb_xfer_jobchain := JobChain 0 0 0 NULL 0 0 None.
Definition set_jc_err (k : usb_xfer_jobchain) (e : Z) : usb_xfer_jobchain :=
  JobChain (nak_retries k) (wait_interval_ms k) e (hcd_pipe k) (jc_completed k) (completed_arg k) (jc_channel k).
Definition set_jc_channel (k : usb_xfer_jobchain) (c : option Z) : usb_xfer_jobchain :=
  JobChain (nak_retries k) (wait_interval_ms k) (jc_err k) (hcd_pipe k) (jc_completed k) (completed_arg k) c.
Definition set_nak_retries (k : usb_xfer_jobchain) (n : Z) : usb_xfer_jobchain :=
  JobChain n (wait_interval_ms k) (jc_err k) (hcd_pipe k) (jc_completed k) (completed_arg k) (jc_channel k).

(** The state of the queue, as the client of the controller: the objects, the
    scheduler with the wait flag [has_work], and the completions signalled, as
    function, argument and the error of the chain, latest first. *)
Record queue := Queue {
  jobs : gmap Z usb_xfer_job; chains : gmap Z usb_xfer_jobchain; job_pool : slot_pool; chain_pool : slot_pool;
  jobchains_pending : Z; jobs_running : Z; has_work : Z; kern : kernel; signalled : list (Z * Z * Z) }.

Definition with_jobs (q : queue) (m : gmap Z usb_xfer_job) : queue :=
  Queue m (chains q) (job_pool q) (chain_pool q) (jobchains_pending q) (jobs_running q) (has_work q) (kern q) (signalled q).
Definition with_chains (q : queue) (m : gmap Z usb_xfer_jobchain) : queue :=
  Queue (jobs q) m (job_pool q) (chain_pool q) (jobchains_pending q) (jobs_running q) (has_work q) (kern q) (signalled q).
Definition with_kern (q : queue) (k : kernel) : queue :=
  Queue (jobs q) (chains q) (job_pool q) (chain_pool q) (jobchains_pending q) (jobs_running q) (has_work q) k (signalled q).
Definition with_signalled (q : queue) (l : list (Z * Z * Z)) : queue :=
  Queue (jobs q) (chains q) (job_pool q) (chain_pool q) (jobchains_pending q) (jobs_running q) (has_work q) (kern q) l.

(** The only completion function of jobs: [usb_xfer_handle_completed]. *)
Definition HANDLE_COMPLETED : Z := 1.

(** Slots are zeroed when the pools are set up. *)
Definition zero_job : usb_xfer_job := XferJob 0 0 0 0 0 0 0 false 0.

Definition CONTROL_CHAIN_SIGNAL_COMPLETED : Z := 2.
Definition ERR_MEMALLOC : Z := -5.
Definition ERR_GENERIC : Z := -9.

(** Updates of a job. *)
Definition job_completed (x : usb_xfer_job) (err : Z) : usb_xfer_job :=
  XferJob (j_direction x) (j_addr x) (j_transfer_size x) (j_next_pid x) err (j_completion x) (j_completion_arg x) true (j_jc x).
Definition job_armed (x : usb_xfer_job) (j : Z) : usb_xfer_job :=
  XferJob (j_direction x) (j_addr x) (j_transfer_size x) (j_next_pid x) ERR_OK HANDLE_COMPLETED j false (j_jc x).

Section queue.
Context {D : Type} `{Mmio D}.
Abbreviation S := (usb D queue).

Definition get_job (j : Z) : io S usb_xfer_job := λ s, x ← deref (jobs (client s) !! j); Ret (x, s).
Definition put_job (j : Z) (x : usb_xfer_job) : io S unit :=
  modify (λ s, with_client s (with_jobs (client s) (<[j := x]> (jobs (client s))))).
Definition get_chain (jc : Z) : io S usb_xfer_jobchain := λ s, x ← deref (chains (client s) !! jc); Ret (x, s).
Definition put_chain (jc : Z) (x : usb_xfer_jobchain) : io S unit :=
  modify (λ s, with_client s (with_chains (client s) (<[jc := x]> (chains (client s))))).
(** A list operation on the shared heap of list nodes. *)
Definition on_lists (f : heap → outcome heap) : io S unit := λ s, σ ← f (lists s); Ret (tt, with_lists s σ).
Definition upd_lists (f : S → outcome heap) : io S unit := λ s, σ ← f s; Ret (tt, with_lists s σ).
Definition ask_lists {A} (f : heap → outcome A) : io S A := λ s, a ← f (lists s); Ret (a, s).
Definition pool_take (pool : S → slot_pool) : io S Z := λ s,
  '(σ, x) ← slot_alloc (lists s) (pool s); Ret (x, with_lists s σ).
Definition for_each_safe (fuel : nat) (head : Z) (body : Z → io S unit) : io S unit := λ s,
  s ← list_for_each_entry_safe lists fuel head (λ s x, '(_, s) ← body x s; Ret s) s; Ret (tt, s).
Definition wakeup_has_work : io S unit := λ s,
  k ← wakeup_waitflag (has_work (client s)) (kern (client s)); Ret (tt, with_client s (with_kern (client s) k)).

(** ** Jobs and chains

    [*_alloc] returns NULL when the pool is exhausted, which [IS_ERR] does not
    recognise: the initialisation then writes through NULL. *)
Definition usb_xfer_job_create : io S Z :=
  j ← pool_take (λ s, job_pool (client s));
  _ ← on_lists (λ σ, INIT_LIST_HEAD σ (job_node j));
  mret j.

Definition usb_xfer_job_destroy (j : Z) : io S unit :=
  upd_lists (λ s, slot_release (lists s) (job_pool (client s)) j).

Definition usb_xfer_jobchain_create : io S Z :=
  jc ← pool_take (λ s, chain_pool (client s));
  _ ← on_lists (λ σ, INIT_LIST_HEAD σ (chain_node jc));
  _ ← on_lists (λ σ, INIT_LIST_HEAD σ (chain_jobs jc));
  _ ← on_lists (λ σ, INIT_LIST_HEAD σ (chain_completed jc));
  mret jc.

Definition destroy_listed_job (x : Z) : io S unit :=
  _ ← on_lists (λ σ, list_del_init σ x); usb_xfer_job_destroy (node_job x).

Definition usb_xfer_jobchain_destroy (fuel : nat) (jc : Z) : io S unit :=
  _ ← for_each_safe fuel (chain_jobs jc) destroy_listed_job;
  _ ← for_each_safe fuel (chain_completed jc) destroy_listed_job;
  upd_lists (λ s, slot_release (lists s) (chain_pool (client s)) jc).

(** ** The pending queue *)
Definition usb_xfer_jobchain_enqueue (jc : Z) : io S unit :=
  _ ← upd_lists (λ s, list_add_tail (lists s) (chain_node jc) (jobchains_pending (client s)));
  wakeup_has_work.

Definition usb_xfer_jobchain_dequeue_locked : io S (option Z) :=
  h ← gets (λ s : S, jobchains_pending (client s));
  e ← ask_lists (λ σ, list_empty σ h);
  if negb (e : bool) then
    x ← ask_lists (λ σ, list_first_entry σ h);
    _ ← on_lists (λ σ, list_del_init σ x);
    mret (Some (node_chain x))
  else mret None.
Definition usb_xfer_jobchain_dequeue : io S (option Z) := usb_xfer_jobchain_dequeue_locked.

(** ** Running jobs *)
Definition usb_xfer_handle_completed (arg : Z) : io S unit :=
  let j := arg in
  x ← get_job j;
  k ← get_chain (j_jc x);
  c ← not_null (jc_channel k);
  ct ← channel_ctl c;
  err ← (if status ct =? DWC2_STATUS_NAK then
           _ ← when (0 <? nak_retries k) (put_chain (j_jc x) (set_nak_retries k (nak_retries k - 1)));
           mret ERR_RETRY
         else if status ct =? DWC2_STATUS_HALTED then mret ERR_FATAL
         else mret ERR_OK);
  _ ← put_job j (job_completed x err);
  wakeup_has_work.

(** The completion call of the interrupt handler. *)
Definition call_completion (fn arg : Z) : io S unit :=
  if fn =? HANDLE_COMPLETED then usb_xfer_handle_completed arg else lift Fault.

Definition usb_xfer_job_set_running (fuel : nat) (j : Z) : io S unit :=
  x ← get_job j;
  let x := job_armed x j in
  _ ← put_job j x;
  k ← get_chain (j_jc x);
  c ← not_null (jc_channel k);
  err ← dwc2_xfer_one_job fuel c x;
  _ ← BUG_ON (negb (err =? ERR_OK));
  r ← gets (λ s : S, jobs_running (client s));
  on_lists (λ σ, list_move_tail σ (job_node j) r).

Definition usb_xfer_jobchain_start (fuel : nat) (jc : Z) : io S unit :=
  o ← dwc2_channel_create;
  _ ← BUG_ON (match o with None => true | Some _ => false end);
  c ← not_null o;
  a ← dwc2_xfer_control_create;
  ch ← get_channel c;
  _ ← put_channel c (Dwc2Channel (id ch) (pipe ch) a);
  _ ← upd_xctl a (λ x, set_ctl_c x (Some c));
  _ ← BUG_ON (a =? NULL);
  k ← get_chain jc;
  ch ← get_channel c;
  _ ← put_channel c (Dwc2Channel (id ch) (hcd_pipe k) (ctl ch));
  _ ← BUG_ON (hcd_pipe k =? NULL);
  _ ← put_chain jc (set_jc_err (set_jc_channel k (Some c)) ERR_OK);
  e ← ask_lists (λ σ, list_empty σ (chain_jobs jc));
  _ ← BUG_ON e;
  x ← ask_lists (λ σ, list_first_entry σ (chain_jobs jc));
  usb_xfer_job_set_running fuel (node_job x).

Definition usb_xfer_process_pending (fuel : nat) : io S unit :=
  o ← usb_xfer_jobchain_dequeue;
  match o with Some jc => usb_xfer_jobchain_start fuel jc | None => mret tt end.

(** [jc->completed(jc->completed_arg)]: the flag of the waiting transfer is set. *)
Definition signal_completed (jc : Z) : io S unit :=
  k ← get_chain jc;
  modify (λ s, with_client s (with_signalled (client s) ((jc_completed k, completed_arg k, jc_err k) :: signalled (client s)))).

(** The end of a chain. *)
Definition finish_chain (fuel : nat) (jc : Z) : io S unit :=
  k ← get_chain jc;
  c ← not_null (jc_channel k);
  _ ← put_chain jc (set_jc_channel k None);
  _ ← signal_completed jc;
  ch ← get_channel c;
  _ ← dwc2_xfer_control_destroy (ctl ch);
  ch ← get_channel c;
  _ ← put_channel c (Dwc2Channel (id ch) (pipe ch) NULL);
  _ ← dwc2_channel_destroy c;
  usb_xfer_jobchain_destroy fuel jc.

(** The body of the loop of [usb_xfer_process_running]; the wait between jobs
    has no effect on the state. *)
Definition process_running_job (fuel : nat) (node : Z) : io S unit :=
  let j := node_job node in
  x ← get_job j;
  if negb (j_completed x) then mret tt else
  let jc := j_jc x in
  k ← get_chain jc;
  c ← not_null (jc_channel k);
  ct ← channel_ctl c;
  if status ct =? DWC2_STATUS_NYET then usb_xfer_job_set_running fuel j else
  _ ← on_lists (λ σ, list_move_tail σ (job_node j) (chain_completed jc));
  failed ← (if negb (j_err x =? ERR_OK) then
              _ ← when (j_err x =? ERR_RETRY) (_ ← dwc2_transfer_stop c; mret tt);
              k ← get_chain jc;
              _ ← put_chain jc (set_jc_err k (j_err x));
              mret true
            else mret false);
  e ← ask_lists (λ σ, list_empty σ (chain_jobs jc));
  if negb (failed || e) then
    n ← ask_lists (λ σ, list_first_entry σ (chain_jobs jc));
    usb_xfer_job_set_running fuel (node_job n)
  else finish_chain fuel jc.

Definition usb_xfer_process_running (fuel : nat) : io S unit :=
  h ← gets (λ s : S, jobs_running (client s));
  for_each_safe fuel h (process_running_job fuel).

(** A turn of the loop of [usb_xfer_queue_run] after the wait for [has_work]. *)
Definition usb_xfer_queue_turn (fuel : nat) : io S unit :=
  _ ← usb_xfer_process_pending fuel; usb_xfer_process_running fuel.

(** The lists and pools of [usb_xfer_queue_init]; the task is created after. *)
Definition usb_xfer_queue_init : io S unit :=
  _ ← upd_lists (λ s, STATIC_SLOT_INIT_FREE (lists s) (job_pool (client s)));
  _ ← upd_lists (λ s, STATIC_SLOT_INIT_FREE (lists s) (chain_pool (client s)));
  _ ← modify (λ s : S, with_client s (with_jobs (with_chains (client s) ∅) ∅));
  p ← gets (λ s : S, jobchains_pending (client s));
  _ ← on_lists (λ σ, INIT_LIST_HEAD σ p);
  r ← gets (λ s : S, jobs_running (client s));
  on_lists (λ σ, INIT_LIST_HEAD σ r).

(** ** Control, bulk and interrupt transfers (hcd_transfer.c) *)
Definition usb_xfer_job_prep (jc dir addr transfer_size next_pid : Z) : io S Z :=
  j ← usb_xfer_job_create;
  _ ← BUG_ON (j =? NULL);
  x ← gets (λ s : S, default zero_job (jobs (client s) !! j));
  _ ← put_job j (XferJob dir addr transfer_size next_pid (j_err x) (j_completion x) (j_completion_arg x) (j_completed x) jc);
  mret j.

(** One job of a chain: prepared, and put at the end of the chain's list. *)
Definition add_job (jc dir addr transfer_size next_pid : Z) : io S unit :=
  j ← usb_xfer_job_prep jc dir addr transfer_size next_pid;
  on_lists (λ σ, list_add_tail σ (job_node j) (chain_jobs jc)).

(** The stages of a control transfer: SETUP, DATA when there is a buffer, and
    the status stage in the other direction. *)
Definition usb_xfer_jobchain_prep_control (request direction addr transfer_size : Z) : io S Z :=
  jc ← usb_xfer_jobchain_create;
  k ← gets (λ s : S, default new_chain (chains (client s) !! jc));
  _ ← put_chain jc (JobChain 100 0 (jc_err k) (hcd_pipe k) (jc_completed k) (completed_arg k) (jc_channel k));
  _ ← add_job jc USB_DIRECTION_OUT request 8 USB_PID_SETUP;
  _ ← when (truth addr) (add_job jc direction addr transfer_size USB_PID_DATA1);
  let ack_direction := if truth addr && (direction =? USB_DIRECTION_IN) then USB_DIRECTION_OUT else USB_DIRECTION_IN in
  _ ← add_job jc ack_direction NULL 0 USB_PID_DATA1;
  mret jc.
(** [hcd_transfer_control] up to the wait for [completed], for a pipe that is
    not the root hub's; [flag] is the address of [completed], [rqbuf] that of the
    request.  The result is the chain. *)
Definition hcd_transfer_control_begin (pipe_addr direction addr transfer_size rqbuf flag : Z) : io S Z :=
  jc ← usb_xfer_jobchain_prep_control rqbuf direction addr transfer_size;
  k ← get_chain jc;
  _ ← put_chain jc (JobChain (nak_retries k) 0 (jc_err k) pipe_addr CONTROL_CHAIN_SIGNAL_COMPLETED flag (jc_channel k));
  _ ← usb_xfer_jobchain_enqueue jc;
  mret jc.
(** What it returns once [completed] is set; the chain may be in use again. *)
Definition hcd_transfer_control_end (jc : Z) : io S Z := k ← get_chain jc; mret (jc_err k).

Definition hcd_transfer_bulk_begin (pipe_addr direction addr transfer_size flag : Z) : io S Z :=
  jc ← usb_xfer_jobchain_create;
  k ← gets (λ s : S, default new_chain (chains (client s) !! jc));
  _ ← put_chain jc (set_nak_retries k 0);
  _ ← add_job jc direction addr transfer_size USB_PID_UNSET;
  k ← get_chain jc;
  _ ← put_chain jc (JobChain (nak_retries k) (wait_interval_ms k) (jc_err k) pipe_addr CONTROL_CHAIN_SIGNAL_COMPLETED flag (jc_channel k));
  _ ← usb_xfer_jobchain_enqueue jc;
  mret jc.
(** The wait ends with the flag set, or after 201 turns without it: then the
    error of the chain is overwritten with [ERR_OK].  A failed chain is destroyed,
    which the queue has done already. *)
Definition hcd_transfer_bulk_end (fuel : nat) (jc : Z) (timed_out : bool) : io S Z :=
  _ ← when timed_out (k ← get_chain jc; put_chain jc (set_jc_err k ERR_OK));
  k ← get_chain jc;
  if negb (jc_err k =? ERR_OK) then _ ← usb_xfer_jobchain_destroy fuel jc; mret (jc_err k) else mret ERR_OK.

(** ** Blocking transfers *)
Definition hcd_transfer_packet_blocking (fuel : nat) (c : Z) : io S (Z * Z) :=
  io_loop fuel (
    '(status, num_bytes) ← dwc2_transfer_blocking fuel c;
    mret (if status =? DWC2_STATUS_ACK then Some (ERR_OK, num_bytes)
          else if status =? DWC2_STATUS_NAK then None
          else if status =? DWC2_STATUS_NYET then None
          else Some (ERR_GENERIC, num_bytes))).

(** A channel with a control block, or the error to return. *)
Definition hcd_open_channel (pipe_addr : Z) : io S (option Z * Z) :=
  o ← dwc2_channel_create;
  match o with
  | None => mret (None, ERR_RETRY)
  | Some c =>
      a ← dwc2_xfer_control_create;
      ch ← get_channel c;
      _ ← put_channel c (Dwc2Channel (id ch) (pipe ch) a);
      if a =? NULL then mret (Some c, ERR_MEMALLOC) else
      _ ← put_channel c (Dwc2Channel (id ch) pipe_addr a);
      mret (Some c, ERR_OK)
  end.
(** [out_err]. *)
Definition hcd_close_channel (o : option Z) : io S unit :=
  match o with
  | None => mret tt
  | Some c =>
      ch ← get_channel c;
      _ ← dwc2_channel_disable (id ch);
      _ ← when (negb (ctl ch =? NULL)) (dwc2_xfer_control_destroy (ctl ch));
      dwc2_channel_destroy c
  end.

(** One packet of a control transfer. *)
Definition hcd_control_stage (fuel : nat) (c pid addr size dir : Z) : io S (Z * Z) :=
  _ ← dwc2_channel_set_next_pid c pid;
  _ ← upd_channel_ctl c (λ x, set_job x addr dir size);
  hcd_transfer_packet_blocking fuel c.

(** For a pipe that is not the root hub's; the result is the error and the
    bytes of the data stage. *)
Definition hcd_transfer_control_blocking (fuel : nat) (pipe_addr direction addr transfer_size rqbuf : Z) : io S (Z * Z) :=
  '(o, err) ← hcd_open_channel pipe_addr;
  r ← (if negb (err =? ERR_OK) then mret (err, 0) else
       c ← not_null o;
       '(err, _) ← hcd_control_stage fuel c USB_PID_SETUP rqbuf 8 USB_DIRECTION_OUT;
       if negb (err =? ERR_OK) then mret (err, 0) else
       '(err, n) ← (if truth addr then hcd_control_stage fuel c USB_PID_DATA1 addr transfer_size direction
                    else mret (ERR_OK, 0));
       if negb (err =? ERR_OK) then mret (err, n) else
       let dir := if negb (truth addr) || (direction =? USB_DIRECTION_OUT) then USB_DIRECTION_IN else USB_DIRECTION_OUT in
       '(err, _) ← hcd_control_stage fuel c USB_PID_DATA1 0 0 dir;
       mret (err, n));
  _ ← hcd_close_channel o;
  mret r.

Definition status_err (status : Z) : Z :=
  if status =? DWC2_STATUS_ACK then ERR_OK else if status =? DWC2_STATUS_NAK then ERR_RETRY else ERR_GENERIC.

Definition hcd_transfer_interrupt (fuel : nat) (pipe_addr addr transfer_size : Z) : io S (Z * Z) :=
  '(o, err) ← hcd_open_channel pipe_addr;
  r ← (if negb (err =? ERR_OK) then mret (err, 0) else
       c ← not_null o;
       _ ← dwc2_channel_set_next_pid c USB_PID_DATA0;
       _ ← upd_channel_ctl c (λ x, set_job x addr USB_DIRECTION_OUT transfer_size);
       '(status, n) ← dwc2_transfer_blocking fuel c;
       mret (status_err status, n));
  _ ← hcd_close_channel o;
  mret r.

(** The channel is not released. *)
Definition hcd_transfer_bulk_blocking (fuel : nat) (pipe_addr direction addr transfer_size : Z) : io S (Z * Z) :=
  '(o, err) ← hcd_open_channel pipe_addr;
  if negb (err =? ERR_OK) then mret (err, 0) else
  c ← not_null o;
  _ ← upd_channel_ctl c (λ x, set_job x addr direction transfer_size);
  '(status, n) ← dwc2_transfer_blocking fuel c;
  mret (status_err status, n).
End queue.

(** ** Releasing jobs *)
Lemma next_of_first σ M h l : ringm σ M → M !! h = Some l → next_of σ h = Some (match l with [] => h | x :: _ => x end).
Proof.
  intros HM Hl. pose proof (ringm_ring _ _ HM _ _ Hl) as [_ Hp]. destruct l as [|x l]; [apply Hp|by destruct Hp as [[? _] _]].
Qed.

Lemma next_of_member σ M h x l : ringm σ M → M !! h = Some (x :: l) →
  next_of σ x = Some (match l with [] => h | z :: _ => z end).
Proof.
  intros HM Hl. pose proof (ringm_ring _ _ HM _ _ Hl) as [_ [_ Hp]]. destruct l as [|z l]; [apply Hp|by destruct Hp as [[? _] _]].
Qed.

(** The active slots once the jobs [l] are released. *)
Definition dels (l A : list Z) : list Z := foldl (λ A j, del j A) A l.

Lemma dels_snoc l j A : dels (l ++ [j]) A = del j (dels l A).
Proof. unfold dels. by rewrite foldl_app. Qed.

Lemma elem_of_dels l A y : y ∈ dels l A ↔ y ∈ A ∧ y ∉ l.
Proof.
  revert A; induction l as [|j l IH]; intros A; cbn [dels foldl]; [set_solver|].
  fold (dels l (del j A)). rewrite IH, elem_of_del. set_solver.
Qed.

Lemma job_node_inj : Inj eq eq job_node.
Proof. intros x y. unfold job_node. lia. Qed.
Lemma node_job_node j : node_job (job_node j) = j.
Proof. unfold node_job, job_node. lia. Qed.

Section release.
Context {D : Type} `{Mmio D}.
Implicit Types (s : usb D queue).

(** The pool [p] of [M] has free slots [F] and active slots [A]. *)
Definition pool_in (M : ringmap) (p : slot_pool) (F A : list Z) : Prop :=
  M !! slot_free p = Some F ∧ M !! slot_active p = Some A ∧ slot_free p ≠ slot_active p.

Lemma destroy_listed_job_ok s M head j rest F A : ringm (lists s) M → M !! head = Some (job_node j :: rest) →
  pool_in M (job_pool (client s)) F A → j ∈ A → head ≠ slot_free (job_pool (client s)) → head ≠ slot_active (job_pool (client s)) →
  ∃ σ, destroy_listed_job (job_node j) s = Ret (tt, with_lists s σ) ∧ dom σ = dom (lists s) ∧
    ringm σ (<[slot_free (job_pool (client s)) := j :: F]> (<[slot_active (job_pool (client s)) := del j A]> (<[head := rest]> M))).
Proof.
  intros HM Hh (HF & HA & Hne) Hj H1 H2. unfold destroy_listed_job, on_lists.
  destruct (ringm_del_init _ _ _ _ (job_node j) HM Hh) as (σ1 & E1 & HM1 & D1); [set_solver|].
  rewrite (io_bind_ret _ _ s tt (with_lists s σ1)) by (by rewrite E1).
  assert (del (job_node j) (job_node j :: rest) = rest) as Ed.
  { apply (del_split _ [] rest); [set_solver|]. by pose proof (ringm_NoDup _ _ _ _ HM Hh) as [? _]%NoDup_cons. }
  rewrite Ed in HM1. rewrite node_job_node. unfold usb_xfer_job_destroy, upd_lists.
  change (lists (with_lists s σ1)) with σ1. change (client (with_lists s σ1)) with (client s).
  destruct (ringm_release σ1 _ (job_pool (client s)) j F A HM1) as (σ2 & E2 & HM2 & D2); try done.
  { by rewrite lookup_insert_ne. } { by rewrite lookup_insert_ne. }
  rewrite E2, bind_ret. exists σ2. split; [done|]. split; [congruence|done].
Qed.

Lemma destroy_jobs_ok s M head todo F A fuel : ringm (lists s) M → M !! head = Some (map job_node todo) →
  pool_in M (job_pool (client s)) F A → (∀ j, j ∈ todo → j ∈ A) →
  head ≠ slot_free (job_pool (client s)) → head ≠ slot_active (job_pool (client s)) → (length todo < fuel)%nat →
  ∃ σ, for_each_safe fuel head destroy_listed_job s = Ret (tt, with_lists s σ) ∧ dom σ = dom (lists s) ∧
    ringm σ (<[slot_free (job_pool (client s)) := rev todo ++ F]>
              (<[slot_active (job_pool (client s)) := dels todo A]> (<[head := []]> M))).
Proof.
  intros HM Hh HP Hin H1 H2 Hf. set (p := job_pool (client s)) in *.
  set (Mat := λ pre rest, <[slot_free p := rev pre ++ F]> (<[slot_active p := dels pre A]> (<[head := map job_node rest]> M))).
  set (I := λ l s', ∃ pre rest σ, todo = pre ++ rest ∧ l = map job_node rest ∧ s' = with_lists s σ ∧ ringm σ (Mat pre rest) ∧
    dom σ = dom (lists s)).
  assert (∀ pre rest, Mat pre rest !! head = Some (map job_node rest)) as Hhead
    by (intros; unfold Mat; by rewrite !lookup_insert_ne, lookup_insert_eq by done).
  destruct HP as (HF & HA & Hne). assert (NoDup todo) as Hnd.
  { apply (NoDup_fmap_1 job_node). eapply ringm_NoDup; [exact HM|exact Hh]. }
  destruct (list_for_each_entry_safe_ok (lists (C := queue)) head (λ s x, '(_, s) ← destroy_listed_job x s; Ret s) I) with
    (xs := map job_node todo) (s := s) (fuel := fuel) as (s' & E & pre & rest & σ & Ht & Hr & -> & HM' & HD).
  - intros l s' (pre & rest & σ & -> & -> & -> & HM' & _). cbn. split.
    + rewrite (next_of_first _ _ _ _ HM' (Hhead _ _)). by eexists.
    + destruct (ringm_ring _ _ HM' _ _ (Hhead _ _)) as [Hn _]. by apply NoDup_cons in Hn as [? _].
  - intros x l s' (pre & rest & σ & _ & Hl & -> & HM' & _). cbn. destruct rest as [|j rest]; [done|].
    cbn in Hl. injection Hl as -> ->. exact (next_of_member _ _ _ _ _ HM' (Hhead _ _)).
  - intros x l s' (pre & rest & σ & Hpre & Hl & -> & HM' & HD). destruct rest as [|j rest]; [done|].
    cbn in Hl. injection Hl as -> ->. rewrite Hpre in Hnd. apply NoDup_app in Hnd as (_ & Hd1 & _).
    destruct (destroy_listed_job_ok (with_lists s σ) (Mat pre (j :: rest)) head j (map job_node rest) (rev pre ++ F) (dels pre A))
      as (σ' & E & HD' & HM''); [done|by rewrite Hhead| | |done|done|].
    + split_and!; [|unfold Mat|done]; cbn; fold p; unfold Mat.
      * by rewrite lookup_insert_eq.
      * by rewrite lookup_insert_ne, lookup_insert_eq.
    + rewrite elem_of_dels. split; [apply Hin; rewrite Hpre; set_solver|]. intros Hj. apply (Hd1 j Hj). set_solver.
    + exists (with_lists s σ'). rewrite E, bind_ret. split; [done|]. exists (pre ++ [j]), rest, σ'.
      split_and!; [by rewrite Hpre, <- app_assoc|done|done| |cbn in HD'; congruence].
      replace (Mat (pre ++ [j]) rest) with
        (<[slot_free p := j :: rev pre ++ F]> (<[slot_active p := del j (dels pre A)]> (<[head := map job_node rest]> (Mat pre (j :: rest)))));
        [exact HM''|]. unfold Mat. rewrite rev_app_distr, dels_snoc. cbn [rev app].
      apply map_eq. intros h. destruct (decide (h = slot_free p)) as [->|]; [by rewrite !lookup_insert_eq|].
      rewrite !(lookup_insert_ne _ (slot_free p)) by done. destruct (decide (h = slot_active p)) as [->|]; [by rewrite !lookup_insert_eq|].
      rewrite !(lookup_insert_ne _ (slot_active p)) by done. destruct (decide (h = head)) as [->|]; [by rewrite !lookup_insert_eq|].
      by rewrite !lookup_insert_ne by done.
  - exists [], todo, (lists s). split_and!; [done|done|by destruct s| |done]. unfold Mat. cbn [rev app dels foldl].
    rewrite (insert_id M head), (insert_id M (slot_active p)), (insert_id M (slot_free p)) by done. done.
  - rewrite (ringm_first _ _ _ _ HM Hh). done.
  - by rewrite length_map.
  - unfold for_each_safe. rewrite E, bind_ret. exists σ. split; [done|]. split; [done|].
    destruct rest as [|j rest]; [|done]. rewrite app_nil_r in Ht. by subst pre.
Qed.
End release.

(** ** A turn of the queue on one job *)
Lemma bound_client {D} (s : usb D queue) c p a P X q : bound s c p a P X → bound (with_client s q) c p a P X.
Proof. intros []. by split. Qed.
Lemma bound_lists {D} (s : usb D queue) c p a P X σ : bound s c p a P X → bound (with_lists s σ) c p a P X.
Proof. intros []. by split. Qed.

(** [transfer_stop] only touches the device. *)
Lemma transfer_stop_ok {D C} `{Mmio D} (s : usb D C) c p a P X : bound s c p a P X →
  ∃ d, dwc2_transfer_stop c s = Ret (ERR_OK, with_dev s d).
Proof.
  intros Hb. unfold dwc2_transfer_stop. rewrite (io_bind_ret _ _ _ _ _ (get_channel_ok Hb)). by eexists.
Qed.

Section turn.
Context {D : Type} `{UsbRegs D get}.
Implicit Types (s : usb D queue).

(** Channel [c] can take job [y] over pipe [P]: it is idle and the values fit
    its registers. *)
Record startable s (c : Z) (P : usb_hcd_pipe) (y : usb_xfer_job) : Prop := {
  st_channel : 0 ≤ c < 6;
  st_pipe : pipe_ok P;
  st_job : job_ok P y;
  st_range r : usb_plain r → 0 ≤ get (dev s) r < 2 ^ 32;
  st_idle : USB_HOST_CHAR_GET_CHAN_ENABLE (get (dev s) (ch_reg USB_HCCHAR0 c)) = 0 }.

Lemma set_running_ok fuel s M h l j jc c p a P X y k run :
  ringm (lists s) M → M !! h = Some l → job_node j ∈ l → M !! jobs_running (client s) = Some run →
  jobs (client s) !! j = Some y → j_jc y = jc → chains (client s) !! jc = Some k → jc_channel k = Some c →
  bound s c p a P X → startable s c P (job_armed y j) →
  let M1 := <[h := del (job_node j) l]> M in
  let run1 := default [] (M1 !! jobs_running (client s)) in
  ∃ d' X' σ', usb_xfer_job_set_running fuel j s =
      Ret (tt, with_lists (at_job (with_client s (with_jobs (client s) (<[j := job_armed y j]> (jobs (client s)))))
                                  p a (job_pipe P (job_armed y j)) X' d') σ') ∧
    describes get d' c (job_pipe P (job_armed y j)) (job_armed y j) ∧ status X' = DWC2_TRANSFER_STATUS_STARTED ∧
    ringm σ' (<[jobs_running (client s) := run1 ++ [job_node j]]> M1).
Proof.
  intros HM Hh Hjl Hrun Hj Hjc Hk Hc Hb [Hc6 HP HJ Hr Hidle] M1 run1. unfold usb_xfer_job_set_running.
  assert (get_job j s = Ret (y, s)) as Eg by (unfold get_job; by rewrite Hj).
  rewrite (io_bind_ret _ _ _ _ _ Eg). cbv zeta. unfold put_job. rewrite (io_bind_ret _ _ _ _ _ eq_refl).
  set (s1 := with_client s (with_jobs (client s) (<[j := job_armed y j]> (jobs (client s))))).
  assert (get_chain (j_jc (job_armed y j)) s1 = Ret (k, s1)) as Ek.
  { unfold get_chain. change (chains (client s1)) with (chains (client s)). change (j_jc (job_armed y j)) with (j_jc y).
    by rewrite Hjc, Hk. }
  rewrite (io_bind_ret _ _ _ _ _ Ek), Hc. rewrite (io_bind_ret _ _ s1 c s1) by done.
  pose proof (bound_client s c p a P X (client s1) Hb) as Hb1. change (with_client s (client s1)) with s1 in Hb1.
  destruct (xfer_one_job_ok (get := get) fuel s1 c p a P X (job_armed y j) Hc6 Hb1 HP HJ Hr Hidle)
    as (d' & X' & Ex & Hd & Hst & _).
  rewrite (io_bind_ret _ _ _ _ _ Ex). set (s2 := at_job s1 p a (job_pipe P (job_armed y j)) X' d').
  rewrite (io_bind_ret _ _ s2 tt s2), (io_bind_ret _ _ s2 (jobs_running (client s)) s2) by done.
  destruct (ringm_move_tail (lists s) M h l (jobs_running (client s)) run1 (job_node j) HM Hh Hjl) as (σ' & Em & HM' & _).
  { fold M1. unfold run1. destruct (M1 !! jobs_running (client s)) as [r|] eqn:E; [done|]. exfalso. revert E. unfold M1.
    destruct (decide (jobs_running (client s) = h)) as [->|]; [by rewrite lookup_insert_eq|by rewrite lookup_insert_ne, Hrun]. }
  exists d', X', σ'. split; [|split; [done|split; [done|exact HM']]].
  unfold on_lists. change (lists s2) with (lists s). by rewrite Em.
Qed.
End turn.

(** List heads that are pairwise distinct. *)
Ltac heads := solve [tauto | let E := fresh in intros E; symmetry in E; tauto].

Section finish.
Context {D : Type} `{Mmio D}.
Implicit Types (s : usb D queue).

(** The three pools and what the chain [jc] with control block [a] holds of them. *)
Record chain_holds s (M : ringmap) (jc a : Z) (held : list Z) (FJ AJ FC AC FT AT : list Z) : Prop := {
  h_jobs : pool_in M (job_pool (client s)) FJ AJ;
  h_chains : pool_in M (chain_pool (client s)) FC AC;
  h_ctls : pool_in M (ctl_pool s) FT AT;
  h_held j : j ∈ held → j ∈ AJ;
  h_chain : jc ∈ AC;
  h_ctl : a ∈ AT;
  h_heads : NoDup [chain_jobs jc; chain_completed jc; slot_free (job_pool (client s)); slot_active (job_pool (client s));
                   slot_free (chain_pool (client s)); slot_active (chain_pool (client s)); slot_free (ctl_pool s);
                   slot_active (ctl_pool s)] }.

(** The map of lists once the chain is gone. *)
Definition released s (M : ringmap) (jc a : Z) (todo fin FJ AJ FC AC FT AT : list Z) : ringmap :=
  let M := <[slot_free (ctl_pool s) := a :: FT]> (<[slot_active (ctl_pool s) := del a AT]> M) in
  let M := <[slot_free (job_pool (client s)) := rev todo ++ FJ]>
             (<[slot_active (job_pool (client s)) := dels todo AJ]> (<[chain_jobs jc := []]> M)) in
  let M := <[slot_free (job_pool (client s)) := rev fin ++ rev todo ++ FJ]>
             (<[slot_active (job_pool (client s)) := dels fin (dels todo AJ)]> (<[chain_completed jc := []]> M)) in
  <[slot_free (chain_pool (client s)) := jc :: FC]> (<[slot_active (chain_pool (client s)) := del jc AC]> M).

Lemma finish_chain_ok fuel s M jc c p a P X k todo fin FJ AJ FC AC FT AT :
  ringm (lists s) M → M !! chain_jobs jc = Some (map job_node todo) → M !! chain_completed jc = Some (map job_node fin) →
  chains (client s) !! jc = Some k → jc_channel k = Some c → bound s c p a P X → 0 ≤ c →
  chain_holds s M jc a (todo ++ fin) FJ AJ FC AC FT AT → truth (BIT_IS_SET (channels_bitmap s) c) = true →
  (length todo < fuel)%nat → (length fin < fuel)%nat →
  ∃ σ, finish_chain fuel jc s = Ret (tt,
      with_lists (with_channels_bitmap (with_channels
        (with_client s (with_signalled (with_chains (client s) (<[jc := set_jc_channel k None]> (chains (client s))))
                          ((jc_completed k, completed_arg k, jc_err k) :: signalled (client s))))
        (<[Z.to_nat c := Dwc2Channel c p NULL]> (channels s))) (BIT_CLEAR (channels_bitmap s) c)) σ) ∧
    ringm σ (released s M jc a todo fin FJ AJ FC AC FT AT).
Proof.
  intros HM Htodo Hfin Hk Hc Hb Hc0 [HJ HC HT Hheld Hjc Ha Hnd] Hbit Hf1 Hf2. unfold finish_chain.
    pose proof Hnd as Hne. rewrite !NoDup_cons in Hne. rewrite !elem_of_cons in Hne.
  assert (get_chain jc s = Ret (k, s)) as Ek by (unfold get_chain; by rewrite Hk).
  rewrite (io_bind_ret _ _ _ _ _ Ek), Hc. rewrite (io_bind_ret _ _ s c s) by done.
  unfold put_chain. rewrite (io_bind_ret _ _ _ _ _ eq_refl).
  set (s1 := with_client s (with_chains (client s) (<[jc := set_jc_channel k None]> (chains (client s))))).
  assert (signal_completed jc s1 = Ret (tt, with_client s1 (with_signalled (client s1)
    ((jc_completed k, completed_arg k, jc_err k) :: signalled (client s1))))) as Es.
  { unfold signal_completed. rewrite (io_bind_ret _ _ s1 (set_jc_channel k None) s1); [done|].
    unfold get_chain. cbn. by rewrite lookup_insert_eq. }
  rewrite (io_bind_ret _ _ _ _ _ Es). set (s2 := with_client s1 _).
  assert (bound s2 c p a P X) as Hb2 by (by apply bound_client, bound_client).
  rewrite (io_bind_ret _ _ _ _ _ (get_channel_ok Hb2)). cbn [ctl]. destruct HT as (HFT & HAT & HTne).
  destruct (ringm_release (lists s) M (ctl_pool s) a FT AT HM HFT HAT Ha HTne) as (σ1 & E1 & HM1 & _).
  set (M1 := <[slot_free (ctl_pool s) := a :: FT]> (<[slot_active (ctl_pool s) := del a AT]> M)) in *.
  rewrite (io_bind_ret _ _ s2 tt (with_lists s2 σ1)) by (unfold dwc2_xfer_control_destroy; cbn; by rewrite E1).
  pose proof (bound_lists s2 c p a P X σ1 Hb2) as Hb3.
  rewrite (io_bind_ret _ _ _ _ _ (get_channel_ok Hb3)). cbn [id pipe].
  unfold put_channel. rewrite (io_bind_ret _ _ _ _ _ eq_refl).
  set (s3 := with_channels (with_lists s2 σ1) _).
  assert (dwc2_channel_destroy c s3 = Ret (tt, with_channels_bitmap s3 (BIT_CLEAR (channels_bitmap s) c))) as Ed.
  { unfold dwc2_channel_destroy. rewrite (io_bind_ret _ _ _ _ _ eq_refl).
    assert (get_channel c s3 = Ret (Dwc2Channel c p NULL, s3)) as Eg.
    { unfold get_channel. cbn. rewrite list_lookup_insert_eq; [done|]. apply lookup_lt_Some with (1 := bound_chan _ _ _ _ _ _ Hb). }
    rewrite (io_bind_ret _ _ _ _ _ Eg). cbn [id]. change (channels_bitmap s3) with (channels_bitmap s).
    unfold BUG_ON, BIT_IS_CLEAR. rewrite Hbit. by rewrite (io_bind_ret _ _ _ _ _ eq_refl). }
  rewrite (io_bind_ret _ _ _ _ _ Ed). set (s4 := with_channels_bitmap s3 _).
  unfold usb_xfer_jobchain_destroy.
  assert (M1 !! chain_jobs jc = Some (map job_node todo)) as Ht1.
  { unfold M1. rewrite !lookup_insert_ne by heads. done. }
  assert (pool_in M1 (job_pool (client s)) FJ AJ) as HJ1.
  { destruct HJ as (? & ? & ?). unfold M1. split_and!; [| |done]; by rewrite !lookup_insert_ne by heads. }
  destruct (destroy_jobs_ok s4 M1 (chain_jobs jc) todo FJ AJ fuel HM1 Ht1 HJ1) as (σ2 & E2 & D2 & HM2);
    [set_solver|heads|heads|done|].
  rewrite (io_bind_ret _ _ _ _ _ E2). change (job_pool (client s4)) with (job_pool (client s)) in HM2.
  set (M2 := <[slot_free (job_pool (client s)) := rev todo ++ FJ]>
     (<[slot_active (job_pool (client s)) := dels todo AJ]> (<[chain_jobs jc := []]> M1))) in *.
  assert (M2 !! chain_completed jc = Some (map job_node fin)) as Hf2'.
  { unfold M2, M1. rewrite !lookup_insert_ne by heads. done. }
  assert (pool_in M2 (job_pool (client s)) (rev todo ++ FJ) (dels todo AJ)) as HJ2.
  { destruct HJ as (? & ? & Hx). unfold M2. split_and!; [by rewrite lookup_insert_eq|by rewrite lookup_insert_ne, lookup_insert_eq|done]. }
  assert (NoDup (todo ++ fin)) as Hall.
  { apply NoDup_app. split_and!.
    - apply (NoDup_fmap_1 job_node). exact (ringm_NoDup _ _ _ _ HM Htodo).
    - intros j Hj1 Hj2. apply (ringm_disjoint _ _ HM _ _ _ _ Htodo Hfin ltac:(heads) (job_node j)).
      + apply elem_of_cons. right. by apply list_elem_of_fmap_2.
      + apply elem_of_cons. right. by apply list_elem_of_fmap_2.
    - apply (NoDup_fmap_1 job_node). exact (ringm_NoDup _ _ _ _ HM Hfin). }
  destruct (destroy_jobs_ok (with_lists s4 σ2) M2 (chain_completed jc) fin (rev todo ++ FJ) (dels todo AJ) fuel HM2 Hf2' HJ2)
    as (σ3 & E3 & D3 & HM3); [|heads|heads|done|].
  { intros j Hj. rewrite elem_of_dels. split; [apply Hheld; set_solver|].
    intros Hj'. apply NoDup_app in Hall as (_ & Hd & _). by apply (Hd j). }
  rewrite (io_bind_ret _ _ _ _ _ E3). change (job_pool (client (with_lists s4 σ2))) with (job_pool (client s)) in HM3.
  destruct HC as (HFC & HAC & HCne). unfold upd_lists. cbn [lists client with_lists].
  destruct (ringm_release σ3 _ (chain_pool (client s)) jc FC AC HM3) as (σ4 & E4 & HM4 & _); try done.
  { unfold M2, M1. rewrite !lookup_insert_ne by heads. done. }
  { unfold M2, M1. rewrite !lookup_insert_ne by heads. done. }
  exists σ4. split; [|exact HM4].
  match goal with |- context [slot_release ?x ?y ?z] => change (slot_release x y z) with (slot_release σ3 (chain_pool (client s)) jc) end.
  rewrite E4, bind_ret. done.
Qed.
End finish.

(** Job [j] of chain [jc] is on the running list [run]; the chain has [todo]
    still to run and [fin] behind it, and channel [c]. *)
Record running_job {D} (s : usb D queue) (M : ringmap) (j jc c p a : Z) (P : usb_hcd_pipe) (X : dwc2_xfer_control)
    (y : usb_xfer_job) (k : usb_xfer_jobchain) (todo fin run : list Z) : Prop := {
  rj_rings : ringm (lists s) M;
  rj_run : M !! jobs_running (client s) = Some run;
  rj_in : job_node j ∈ run;
  rj_todo : M !! chain_jobs jc = Some (map job_node todo);
  rj_fin : M !! chain_completed jc = Some (map job_node fin);
  rj_ne1 : jobs_running (client s) ≠ chain_jobs jc;
  rj_ne2 : jobs_running (client s) ≠ chain_completed jc;
  rj_job : jobs (client s) !! j = Some y;
  rj_jc : j_jc y = jc;
  rj_chain : chains (client s) !! jc = Some k;
  rj_channel : jc_channel k = Some c;
  rj_bound : bound s c p a P X }.

(** The lists once [j] has moved from the running list to the finished ones. *)
Definition retired {D} (s : usb D queue) (M : ringmap) (j jc : Z) (fin run : list Z) : ringmap :=
  <[chain_completed jc := map job_node (fin ++ [j])]> (<[jobs_running (client s) := del (job_node j) run]> M).

Section step.
Context {D : Type} `{Mmio D}.
Context {s : usb D queue} {M : ringmap} {j jc c p a : Z} {P : usb_hcd_pipe} {X : dwc2_xfer_control}.
Context {y : usb_xfer_job} {k : usb_xfer_jobchain} {todo fin run : list Z}.
Hypothesis HR : running_job s M j jc c p a P X y k todo fin run.

(** The body up to the test of the status. *)
Lemma process_job_head fuel : process_running_job fuel (job_node j) s =
  (if negb (j_completed y) then mret tt else
   if status X =? DWC2_STATUS_NYET then usb_xfer_job_set_running fuel j else
   _ ← on_lists (λ σ, list_move_tail σ (job_node j) (chain_completed jc));
   failed ← (if negb (j_err y =? ERR_OK) then
               _ ← when (j_err y =? ERR_RETRY) (_ ← dwc2_transfer_stop c; mret tt);
               k ← get_chain jc;
               _ ← put_chain jc (set_jc_err k (j_err y));
               mret true
             else mret false);
   e ← ask_lists (λ σ, list_empty σ (chain_jobs jc));
   if negb (failed || e) then
     n ← ask_lists (λ σ, list_first_entry σ (chain_jobs jc));
     usb_xfer_job_set_running fuel (node_job n)
   else finish_chain fuel jc) s.
Proof using HR.
  unfold process_running_job. rewrite node_job_node. destruct HR.
  assert (get_job j s = Ret (y, s)) as Eg by (unfold get_job; by rewrite rj_job0).
  rewrite (io_bind_ret _ _ _ _ _ Eg). destruct (j_completed y); cbn [negb]; [|done]. rewrite rj_jc0.
  assert (get_chain jc s = Ret (k, s)) as Ek by (unfold get_chain; by rewrite rj_chain0).
  rewrite (io_bind_ret _ _ _ _ _ Ek), rj_channel0. rewrite (io_bind_ret _ _ s c s) by done.
  by rewrite (io_bind_ret _ _ _ _ _ (channel_ctl_ok rj_bound0)).
Qed.

Lemma retire_ok : ∃ σ, on_lists (λ σ, list_move_tail σ (job_node j) (chain_completed jc)) s = Ret (tt, with_lists s σ) ∧
  ringm σ (retired s M j jc fin run).
Proof using HR.
  destruct HR. destruct (ringm_move_tail (lists s) M _ run (chain_completed jc) (map job_node fin) (job_node j) rj_rings0 rj_run0)
    as (σ & E & HM & _); [done|by rewrite lookup_insert_ne|].
  exists σ. unfold on_lists. rewrite E, bind_ret. split; [done|]. unfold retired. rewrite map_app. exact HM.
Qed.

Lemma retired_todo : retired s M j jc fin run !! chain_jobs jc = Some (map job_node todo).
Proof using HR.
  destruct HR. unfold retired. rewrite !lookup_insert_ne; [done|done|]. unfold chain_completed, chain_jobs. lia.
Qed.

(** The end of a chain, reached with the job retired and its error noted. *)
Lemma end_chain_ok fuel (s1 : usb D queue) k1 : ringm (lists s1) (retired s M j jc fin run) → bound s1 c p a P X →
  chains (client s1) !! jc = Some k1 → jc_channel k1 = Some c → 0 ≤ c →
  job_pool (client s1) = job_pool (client s) → chain_pool (client s1) = chain_pool (client s) → ctl_pool s1 = ctl_pool s →
  channels_bitmap s1 = channels_bitmap s → truth (BIT_IS_SET (channels_bitmap s) c) = true →
  (S (length todo + length fin) < fuel)%nat → ∀ FJ AJ FC AC FT AT,
  chain_holds s (retired s M j jc fin run) jc a (todo ++ fin ++ [j]) FJ AJ FC AC FT AT →
  ∃ s', finish_chain fuel jc s1 = Ret (tt, s') ∧
    ringm (lists s') (released s (retired s M j jc fin run) jc a todo (fin ++ [j]) FJ AJ FC AC FT AT) ∧
    signalled (client s') = (jc_completed k1, completed_arg k1, jc_err k1) :: signalled (client s1) ∧
    chains (client s') = <[jc := set_jc_channel k1 None]> (chains (client s1)) ∧ jobs (client s') = jobs (client s1) ∧
    channels s' = <[Z.to_nat c := Dwc2Channel c p NULL]> (channels s1) ∧
    channels_bitmap s' = BIT_CLEAR (channels_bitmap s) c ∧ ctls s' = ctls s1 ∧ pipes s' = pipes s1 ∧ dev s' = dev s1.
Proof using HR.
  intros HM Hb Hk Hc Hc0 Ej Ec Et Ebm Hbit Hf FJ AJ FC AC FT AT Hh.
  destruct (finish_chain_ok fuel s1 (retired s M j jc fin run) jc c p a P X k1 todo (fin ++ [j]) FJ AJ FC AC FT AT)
    as (σ & E & HM'); try done.
  - apply retired_todo.
  - unfold retired. by rewrite lookup_insert_eq.
  - destruct Hh. rewrite <- Ej, <- Ec, <- Et in *. by split.
  - by rewrite Ebm.
  - lia.
  - rewrite length_app. cbn. lia.
  - eexists. split; [exact E|]. cbn. unfold released in *. rewrite Ej, Ec, Et in HM'. by rewrite Ebm.
Qed.
End step.

(** A job that succeeded, with more to run. *)
Lemma step_next_ok {D} `{UsbRegs D get} fuel (s : usb D queue) M j jc c p a P X y k todo fin run :
  running_job s M j jc c p a P X y k todo fin run →
  j_completed y = true → status X ≠ DWC2_STATUS_NYET → j_err y = ERR_OK → ∀ n rest z, todo = n :: rest →
     jobs (client s) !! n = Some z → j_jc z = jc → startable (get := get) s c P (job_armed z n) →
     ∃ s' M', process_running_job fuel (job_node j) s = Ret (tt, s') ∧ ringm (lists s') M' ∧
       M' !! jobs_running (client s) = Some (del (job_node j) run ++ [job_node n]) ∧
       M' !! chain_jobs jc = Some (map job_node rest) ∧ M' !! chain_completed jc = Some (map job_node (fin ++ [j])) ∧
       (∀ h, h ≠ jobs_running (client s) → h ≠ chain_jobs jc → h ≠ chain_completed jc → M' !! h = M !! h) ∧
       describes get (dev s') c (job_pipe P (job_armed z n)) (job_armed z n) ∧ jobs (client s') !! n = Some (job_armed z n) ∧
       signalled (client s') = signalled (client s).
Proof.
  intros HR. rewrite (process_job_head HR). pose proof HR as [].
  intros -> Hny -> n rest z -> Hn Hz Hst. cbn [negb]. destruct (Z.eqb_spec (status X) DWC2_STATUS_NYET); [done|].
  destruct (retire_ok HR) as (σ & E & HM). rewrite (io_bind_ret _ _ _ _ _ E).
  change (ERR_OK =? ERR_OK) with true. cbn [negb].
  rewrite (io_bind_ret _ _ (with_lists s σ) false (with_lists s σ)) by done.
  assert (∀ {A} (f : heap → outcome A) v, f σ = Ret v → ask_lists f (with_lists s σ) = Ret (v, with_lists s σ)) as Hask.
  { intros A f v Ef. unfold ask_lists. cbn. by rewrite Ef. }
  rewrite (io_bind_ret _ _ _ _ _ (Hask _ _ _ (ringm_empty _ _ _ _ HM (retired_todo HR)))). cbn [map].
  rewrite bool_decide_eq_false_2 by done. cbn [orb negb].
  rewrite (io_bind_ret _ _ _ _ _ (Hask _ _ _ (ringm_first _ _ _ _ HM (retired_todo HR)))). cbn [map]. rewrite node_job_node.
  assert (retired s M j jc fin run !! jobs_running (client s) = Some (del (job_node j) run)) as Hrun'.
  { unfold retired. by rewrite lookup_insert_ne, lookup_insert_eq by done. }
  destruct (set_running_ok (get := get) fuel (with_lists s σ) _ _ _ n jc c p a P X z k _ HM (retired_todo HR) ltac:(left) Hrun'
    Hn Hz rj_chain0 rj_channel0 (bound_lists _ _ _ _ _ _ _ rj_bound0)) as (d' & X' & σ' & E' & Hd & _ & HM').
  { destruct Hst. by split. }
  rewrite E'. assert (del (job_node n) (map job_node (n :: rest)) = map job_node rest) as Ed.
  { apply (del_split (job_node n) [] (map job_node rest)); [set_solver|].
    by pose proof (ringm_NoDup _ _ _ _ rj_rings0 rj_todo0) as [Hnd _]%NoDup_cons. }
  rewrite Ed in HM'.
  cbn [app client with_lists] in HM'. rewrite (lookup_insert_ne _ (chain_jobs jc)), Hrun' in HM' by done. cbn [default] in HM'.
  eexists _, _. split; [done|]. split; [exact HM'|].
  assert (chain_jobs jc ≠ chain_completed jc) by (unfold chain_jobs, chain_completed; lia).
  split_and!.
  + by rewrite lookup_insert_eq.
  + by rewrite lookup_insert_ne, lookup_insert_eq by done.
  + rewrite !lookup_insert_ne by done. unfold retired. by rewrite lookup_insert_eq.
  + intros h N1 N2 N3. rewrite !lookup_insert_ne by done. unfold retired. by rewrite !lookup_insert_ne.
  + exact Hd.
  + cbn. by rewrite lookup_insert_eq.
  + done.
Qed.

(** The error of a failed job is noted in its chain; a job to be retried stops its channel. *)
Lemma note_error_ok {D} `{Mmio D} (s : usb D queue) c p a P X jc k e : bound s c p a P X → chains (client s) !! jc = Some k →
  ∃ d, (_ ← when (e =? ERR_RETRY) (_ ← dwc2_transfer_stop c; mret tt);
      k ← get_chain jc; _ ← put_chain jc (set_jc_err k e); mret true) s =
    Ret (true, with_client (with_dev s d) (with_chains (client s) (<[jc := set_jc_err k e]> (chains (client s))))).
Proof.
  intros Hb Hk. destruct (transfer_stop_ok s c p a P X Hb) as (d & Ed).
  assert (∃ d, when (e =? ERR_RETRY) (_ ← dwc2_transfer_stop c; mret tt) s = Ret (tt, with_dev s d)) as (d1 & E1).
  { destruct (e =? ERR_RETRY); cbn [when].
    - exists d. by rewrite (io_bind_ret _ _ _ _ _ Ed).
    - exists (dev s). by rewrite with_dev_id. }
  exists d1. rewrite (io_bind_ret _ _ _ _ _ E1). rewrite (io_bind_ret _ _ (with_dev s d1) k (with_dev s d1)); [done|].
  unfold get_chain. cbn. by rewrite Hk.
Qed.

(** The end of a chain. *)
Lemma step_end_ok {D} `{UsbRegs D get} fuel (s : usb D queue) M j jc c p a P X y k todo fin run :
  running_job s M j jc c p a P X y k todo fin run → 0 ≤ c → (S (length todo + length fin) < fuel)%nat →
  j_completed y = true → status X ≠ DWC2_STATUS_NYET → j_err y ≠ ERR_OK ∨ todo = [] → ∀ FJ AJ FC AC FT AT,
     chain_holds s (retired s M j jc fin run) jc a (todo ++ fin ++ [j]) FJ AJ FC AC FT AT →
     truth (BIT_IS_SET (channels_bitmap s) c) = true →
     ∃ s', process_running_job fuel (job_node j) s = Ret (tt, s') ∧
       ringm (lists s') (released s (retired s M j jc fin run) jc a todo (fin ++ [j]) FJ AJ FC AC FT AT) ∧
       signalled (client s') = (jc_completed k, completed_arg k, if j_err y =? ERR_OK then jc_err k else j_err y)
                               :: signalled (client s) ∧
       (∃ k', chains (client s') !! jc = Some k' ∧ jc_channel k' = None) ∧
       channels_bitmap s' = BIT_CLEAR (channels_bitmap s) c.
Proof.
  intros HR Hc0 Hfuel. rewrite (process_job_head HR). pose proof HR as [].
  intros -> Hny Hend FJ AJ FC AC FT AT Hh Hbit. cbn [negb]. destruct (Z.eqb_spec (status X) DWC2_STATUS_NYET); [done|].
  destruct (retire_ok HR) as (σ & E & HM). rewrite (io_bind_ret _ _ _ _ _ E).
  set (s1 := with_lists s σ). assert (bound s1 c p a P X) as Hb1 by (by apply bound_lists).
  destruct (Z.eqb_spec (j_err y) ERR_OK) as [Eok|Eok]; cbn [negb].
  + destruct Hend as [|Etodo]; [done|].
    rewrite (io_bind_ret _ _ s1 false s1) by done.
    assert (ask_lists (λ σ, list_empty σ (chain_jobs jc)) s1 = Ret (true, s1)) as Ee.
    { unfold ask_lists. cbn. rewrite (ringm_empty _ _ _ _ HM (retired_todo HR)), Etodo. by rewrite bool_decide_eq_true_2. }
    rewrite (io_bind_ret _ _ _ _ _ Ee). cbn [orb negb].
    destruct (end_chain_ok HR fuel s1 k HM Hb1 rj_chain0 rj_channel0 Hc0 eq_refl eq_refl eq_refl eq_refl Hbit Hfuel _ _ _ _ _ _ Hh)
      as (s' & -> & HM' & Hs & Hch & _ & _ & Hbm & _).
    exists s'. split_and!; [done|done|done| |done]. rewrite Hch. eexists. split; [by rewrite lookup_insert_eq|done].
  + destruct (note_error_ok s1 c p a P X jc k (j_err y) Hb1 rj_chain0) as (d & Ef).
    rewrite (io_bind_ret _ _ _ _ _ Ef). set (s2 := with_client _ _).
    assert (ask_lists (λ σ, list_empty σ (chain_jobs jc)) s2 = Ret (bool_decide (map job_node todo = []), s2)) as Ee.
    { unfold ask_lists. cbn. by rewrite (ringm_empty _ _ _ _ HM (retired_todo HR)). }
    rewrite (io_bind_ret _ _ _ _ _ Ee). cbn [orb negb].
    destruct (end_chain_ok HR fuel s2 (set_jc_err k (j_err y)) HM) with (FJ := FJ) (AJ := AJ) (FC := FC) (AC := AC) (FT := FT) (AT := AT)
      as (s' & -> & HM' & Hs & Hch & _ & _ & Hbm & _); try done.
    * by apply bound_client, bound_dev.
    * cbn. by rewrite lookup_insert_eq.
    * exists s'. split_and!; [done|done|exact Hs| |done]. rewrite Hch. eexists. split; [by rewrite lookup_insert_eq|done].
Qed.

(** C7: one step of the transfer queue, on every branch.  A running job that is
    not completed is left alone.  A completed one whose channel answered NYET is
    started again and goes to the end of the running list.  Otherwise the job
    moves to the finished jobs of its chain; if it succeeded and the chain has
    more jobs, the next one is started on the same channel and joins the running
    list.  If it failed, or was the last, the chain ends: its completion is
    signalled exactly once, with the error of the job (whatever the error: a
    chain that should be retried ends as well), its jobs and the chain go back
    to their pools, the control block to its own, and the channel is free. *)
Theorem process_running_job_step {D} `{UsbRegs D get} fuel (s : usb D queue) M j jc c p a P X y k todo fin run :
  running_job s M j jc c p a P X y k todo fin run → 0 ≤ c → (S (length todo + length fin) < fuel)%nat →
  (j_completed y = false → process_running_job fuel (job_node j) s = Ret (tt, s)) ∧
  (j_completed y = true → status X = DWC2_STATUS_NYET → startable (get := get) s c P (job_armed y j) →
     ∃ s', process_running_job fuel (job_node j) s = Ret (tt, s') ∧
       ringm (lists s') (<[jobs_running (client s) := del (job_node j) run ++ [job_node j]]> M) ∧
       describes get (dev s') c (job_pipe P (job_armed y j)) (job_armed y j) ∧ jobs (client s') !! j = Some (job_armed y j)) ∧
  (j_completed y = true → status X ≠ DWC2_STATUS_NYET → j_err y = ERR_OK → ∀ n rest z, todo = n :: rest →
     jobs (client s) !! n = Some z → j_jc z = jc → startable (get := get) s c P (job_armed z n) →
     ∃ s' M', process_running_job fuel (job_node j) s = Ret (tt, s') ∧ ringm (lists s') M' ∧
       M' !! jobs_running (client s) = Some (del (job_node j) run ++ [job_node n]) ∧
       M' !! chain_jobs jc = Some (map job_node rest) ∧ M' !! chain_completed jc = Some (map job_node (fin ++ [j])) ∧
       (∀ h, h ≠ jobs_running (client s) → h ≠ chain_jobs jc → h ≠ chain_completed jc → M' !! h = M !! h) ∧
       describes get (dev s') c (job_pipe P (job_armed z n)) (job_armed z n) ∧ jobs (client s') !! n = Some (job_armed z n) ∧
       signalled (client s') = signalled (client s)) ∧
  (j_completed y = true → status X ≠ DWC2_STATUS_NYET → j_err y ≠ ERR_OK ∨ todo = [] → ∀ FJ AJ FC AC FT AT,
     chain_holds s (retired s M j jc fin run) jc a (todo ++ fin ++ [j]) FJ AJ FC AC FT AT →
     truth (BIT_IS_SET (channels_bitmap s) c) = true →
     ∃ s', process_running_job fuel (job_node j) s = Ret (tt, s') ∧
       ringm (lists s') (released s (retired s M j jc fin run) jc a todo (fin ++ [j]) FJ AJ FC AC FT AT) ∧
       signalled (client s') = (jc_completed k, completed_arg k, if j_err y =? ERR_OK then jc_err k else j_err y)
                               :: signalled (client s) ∧
       (∃ k', chains (client s') !! jc = Some k' ∧ jc_channel k' = None) ∧
       channels_bitmap s' = BIT_CLEAR (channels_bitmap s) c).
Proof.
  intros HR Hc0 Hfuel. split_and!; [| |by eapply step_next_ok|by eapply step_end_ok].
  all: rewrite (process_job_head HR); pose proof HR as [].
  - by intros ->.
  - intros -> -> Hst. cbn [negb]. change (DWC2_STATUS_NYET =? DWC2_STATUS_NYET) with true. cbn iota.
    destruct (set_running_ok (get := get) fuel s M _ run j jc c p a P X y k run rj_rings0 rj_run0 rj_in0 rj_run0 rj_job0 rj_jc0 rj_chain0
      rj_channel0 rj_bound0 Hst) as (d' & X' & σ' & E & Hd & _ & HM').
    rewrite E. eexists. split; [done|]. cbn. split; [|split; [exact Hd|by rewrite lookup_insert_eq]].
    cbv zeta in HM'. rewrite lookup_insert_eq in HM'. cbn in HM'. by rewrite insert_insert_eq in HM'.
Qed.

(** Witness: the only job of a chain has completed; the chain ends with [ERR_OK],
    and with [ERR_RETRY] when the job was not accepted. *)
Definition demo_rings : list (Z * list Z) :=
  [(8, [1080]); (2056, []); (2072, []); (1, []); (2, [1000]); (3, []); (4, [2000]); (5, []); (6, [200])].
Definition demo_queue_heap : heap := list_to_map
  [(8, ListHead 1080 1080); (1080, ListHead 8 8); (2056, ListHead 2056 2056); (2072, ListHead 2072 2072); (1, ListHead 1 1);
   (2, ListHead 1000 1000); (1000, ListHead 2 2); (3, ListHead 3 3); (4, ListHead 2000 2000); (2000, ListHead 4 4);
   (5, ListHead 5 5); (6, ListHead 200 200); (200, ListHead 6 6)].
Definition demo_done_job (err : Z) : usb_xfer_job := XferJob USB_DIRECTION_IN 0x8000 512 USB_PID_UNSET err 1 1000 true 2000.
Definition demo_chain : usb_xfer_jobchain := JobChain 100 0 0 100 CONTROL_CHAIN_SIGNAL_COMPLETED 77 (Some 2).
Definition demo_kernel : kernel := Kernel ∅ ∅ ∅ (Scheduler 0 0 0 0 0) 0 0 true 0 0 0 0.
Definition demo_queue (err : Z) : usb bank queue :=
  Usb ∅ 4 (channels demo_usb) {[200 := demo_ctl]} (pipes demo_usb) demo_queue_heap (SlotPool 5 6 []) 0 0
    (Queue {[1000 := demo_done_job err]} {[2000 := demo_chain]} (SlotPool 1 2 []) (SlotPool 3 4 []) 7 8 9 demo_kernel []).

Lemma demo_queue_running err : running_job (demo_queue err) (list_to_map demo_rings) 1000 2000 2 100 200 demo_pipe demo_ctl
  (demo_done_job err) demo_chain [] [] [1080].
Proof.
  split; try done.
  - apply ringm_of_list; [done|apply (bool_decide_eq_true_1 (NoDup _)); vm_compute; reflexivity|]. by repeat constructor.
  - cbn. set_solver.
Qed.

Lemma demo_queue_holds err : chain_holds (demo_queue err) (retired (demo_queue err) (list_to_map demo_rings) 1000 2000 [] [1080])
  2000 200 [1000] [] [1000] [] [2000] [] [200].
Proof. split; try done; try set_solver. apply (bool_decide_eq_true_1 (NoDup _)); vm_compute; reflexivity. Qed.

Lemma process_running_job_step_witness :
  (∃ s', process_running_job 3 1080 (demo_queue ERR_OK) = Ret (tt, s') ∧
     signalled (client s') = [(CONTROL_CHAIN_SIGNAL_COMPLETED, 77, ERR_OK)]) ∧
  (∃ s', process_running_job 3 1080 (demo_queue ERR_RETRY) = Ret (tt, s') ∧
     signalled (client s') = [(CONTROL_CHAIN_SIGNAL_COMPLETED, 77, ERR_RETRY)]).
Proof.
  split.
  - destruct (process_running_job_step (get := bank_get) 3 (demo_queue ERR_OK) _ 1000 2000 2 100 200 _ _ _ _ [] [] [1080]
      (demo_queue_running ERR_OK) ltac:(lia) ltac:(cbn; lia)) as (_ & _ & _ & He).
    destruct (He eq_refl ltac:(done) ltac:(by right) _ _ _ _ _ _ (demo_queue_holds ERR_OK) eq_refl) as (s' & E & _ & Hs & _).
    exists s'. split; [exact E|exact Hs].
  - destruct (process_running_job_step (get := bank_get) 3 (demo_queue ERR_RETRY) _ 1000 2000 2 100 200 _ _ _ _ [] [] [1080]
      (demo_queue_running ERR_RETRY) ltac:(lia) ltac:(cbn; lia)) as (_ & _ & _ & He).
    destruct (He eq_refl ltac:(done) ltac:(by right) _ _ _ _ _ _ (demo_queue_holds ERR_RETRY) eq_refl) as (s' & E & _ & Hs & _).
    exists s'. split; [exact E|exact Hs].
Defined.

(** ** The stages of a control transfer *)
Section stages.
Context {D : Type} `{Mmio D}.
Implicit Types (s : usb D queue).

(** A node that a new list or a new member can use. *)
Definition fresh_node s (M : ringmap) (x : Z) : Prop := is_Some (lists s !! x) ∧ outside M x.

Definition with_job s j x := with_client s (with_jobs (client s) (<[j := x]> (jobs (client s)))).

Lemma add_job_ok s M jc j F A L dir addr sz pid : ringm (lists s) M → pool_in M (job_pool (client s)) (j :: F) A →
  M !! chain_jobs jc = Some L → chain_jobs jc ≠ slot_free (job_pool (client s)) →
  chain_jobs jc ≠ slot_active (job_pool (client s)) → fresh_node s M (job_node j) → job_node j ≠ j →
  let old := default zero_job (jobs (client s) !! j) in
  let y := XferJob dir addr sz pid (j_err old) (j_completion old) (j_completion_arg old) (j_completed old) jc in
  ∃ σ M', add_job jc dir addr sz pid s = Ret (tt, with_lists (with_job s j y) σ) ∧ ringm σ M' ∧ dom σ = dom (lists s) ∧
    pool_in M' (job_pool (client s)) F (j :: A) ∧ M' !! chain_jobs jc = Some (L ++ [job_node j]) ∧
    (∀ x, x ≠ job_node j → outside M x → outside M' x).
Proof.
  intros HM (HF & HA & Hne) HL N1 N2 [Hmap Hout] Hjj old y. unfold add_job, usb_xfer_job_prep, usb_xfer_job_create.
  destruct (ringm_alloc _ _ _ _ _ _ HM HF HA Hne) as (σ1 & E1 & HM1 & D1). set (p := job_pool (client s)) in *.
  set (M1 := <[slot_active p := j :: A]> (<[slot_free p := F]> M)) in *.
  assert (j ≠ NULL) as Hj0.
  { intros ->. destruct (dring_mapped _ _ _ NULL (ringm_ring _ _ HM _ _ HF) ltac:(set_solver)) as [? E].
    rewrite (ringm_null _ _ HM) in E. done. }
  assert (∀ x, outside M x → x ≠ j → outside M1 x) as Ho1.
  { intros x Hx Hxj. unfold M1. pose proof (Hx _ _ HF). pose proof (Hx _ _ HA).
    apply outside_insert; [apply outside_insert; [done|set_solver]|set_solver]. }
  destruct (INIT_LIST_HEAD_ring σ1 (job_node j)) as (σ2 & E2 & _ & Hag); [by apply (same_dom_mapped (lists s))|].
  assert (ringm σ2 M1) as HM2.
  { destruct (ringm_init σ1 M1 (job_node j) HM1) as (σ2' & E2' & HMi & _);
      [by apply Ho1|by apply (same_dom_mapped (lists s))|]. rewrite E2 in E2'. injection E2' as <-.
    assert (M1 !! job_node j = None) as En.
    { destruct (M1 !! job_node j) as [l|] eqn:E; [|done]. destruct (Ho1 _ Hout Hjj _ _ E). set_solver. }
    pose proof (ringm_delete σ2 _ (job_node j) HMi) as Hd. by rewrite delete_insert_id in Hd. }
  assert (usb_xfer_job_create s = Ret (j, with_lists s σ2)) as Ec.
  { unfold usb_xfer_job_create. rewrite (io_bind_ret _ _ s j (with_lists s σ1)) by (unfold pool_take; cbv beta; fold p; by rewrite E1).
    unfold on_lists. rewrite (io_bind_ret _ _ (with_lists s σ1) tt (with_lists s σ2)); [done|]. cbn. by rewrite E2. }
  assert (usb_xfer_job_prep jc dir addr sz pid s = Ret (j, with_lists (with_job s j y) σ2)) as Ep.
  { unfold usb_xfer_job_prep. rewrite (io_bind_ret _ _ _ _ _ Ec). unfold BUG_ON.
    destruct (Z.eqb_spec j NULL); [done|]. rewrite (io_bind_ret _ _ _ _ _ eq_refl), (io_bind_ret _ _ _ _ _ eq_refl).
    unfold put_job. by rewrite (io_bind_ret _ _ _ _ _ eq_refl). }
  unfold usb_xfer_job_prep, usb_xfer_job_create in Ep. rewrite (io_bind_ret _ _ _ _ _ Ep). clear Ep Ec.
  assert (M1 !! chain_jobs jc = Some L) as HL1 by (unfold M1; by rewrite !lookup_insert_ne by done).
  assert (is_Some (σ2 !! job_node j)) as Hm2.
  { apply (same_dom_mapped σ1); [by eapply agree_off_dom|]. by apply (same_dom_mapped (lists s)). }
  destruct (ringm_add_tail σ2 M1 (chain_jobs jc) L (job_node j) HM2 HL1 ltac:(by apply Ho1) Hm2) as (σ3 & E3 & HM3 & D3).
  exists σ3, (<[chain_jobs jc := L ++ [job_node j]]> M1). unfold on_lists.
  change (lists (with_lists (with_job s j y) σ2)) with σ2. rewrite E3, bind_ret. split; [done|]. split; [done|].
  split; [apply agree_off_dom in Hag; congruence|]. unfold pool_in. split_and!.
  - rewrite lookup_insert_ne by done. unfold M1. by rewrite lookup_insert_ne, lookup_insert_eq by done.
  - rewrite lookup_insert_ne by done. unfold M1. by rewrite lookup_insert_eq.
  - done.
  - by rewrite lookup_insert_eq.
  - intros x Hx Ho. destruct (decide (x = j)) as [->|Hxj].
    + destruct (Ho _ _ HF). set_solver.
    + apply outside_insert; [by apply Ho1|]. assert (M !! chain_jobs jc = Some L) as HL' by done.
      pose proof (Ho _ _ HL'). set_solver.
Qed.

(** A stage: direction, buffer, size and packet identifier. *)
Definition stage : Type := Z * Z * Z * Z.
Definition is_stage (jc : Z) (m : gmap Z usb_xfer_job) (j : Z) (st : stage) : Prop :=
  ∃ y, m !! j = Some y ∧ st = (j_direction y, j_addr y, j_transfer_size y, j_next_pid y) ∧ j_jc y = jc.

Lemma is_stage_insert jc m js sts j y : Forall2 (is_stage jc m) js sts → j ∉ js → Forall2 (is_stage jc (<[j := y]> m)) js sts.
Proof using Type.
  induction 1 as [|j' st js sts (y' & Hy' & E) _ IH]; intros Hj; constructor; [|apply IH; set_solver].
  exists y'. by rewrite lookup_insert_ne by set_solver.
Qed.

(** Chain [jc] of [s] has the jobs [js], one for each of [sts]; the pool starts
    with [free], whose nodes are unused.  The rest is as in [s0]. *)
Record staged (s0 s : usb D queue) (jc : Z) (js : list Z) (sts : list stage) (free F A : list Z) : Prop := {
  sg_lists : ∃ M, ringm (lists s) M ∧ pool_in M (job_pool (client s0)) (free ++ F) A ∧
    M !! chain_jobs jc = Some (map job_node js) ∧ ∀ j, j ∈ free → fresh_node s M (job_node j);
  sg_stages : Forall2 (is_stage jc (jobs (client s))) js sts;
  sg_new : ∀ j, j ∈ js → j ∉ free;
  sg_same : ∃ σ m, s = with_lists (with_client s0 (with_jobs (client s0) m)) σ }.

Lemma stage_ok s0 s jc js sts j free F A dir addr sz pid :
  staged s0 s jc js sts (j :: free) F A → NoDup (j :: free) → chain_jobs jc ≠ slot_free (job_pool (client s0)) →
  chain_jobs jc ≠ slot_active (job_pool (client s0)) →
  ∃ s', add_job jc dir addr sz pid s = Ret (tt, s') ∧
    staged s0 s' jc (js ++ [j]) (sts ++ [(dir, addr, sz, pid)]) free F (j :: A).
Proof.
  intros [(M & HM & HP & HL & Hfr) Hst Hnew (σ0 & m & Es)] Hnd N1 N2. apply NoDup_cons in Hnd as [Hj Hnd].
  assert (job_pool (client s) = job_pool (client s0)) as Ep by (by rewrite Es). rewrite <- Ep in *.
  destruct (add_job_ok s M jc j (free ++ F) A _ dir addr sz pid HM HP HL N1 N2) as (σ & M' & E & HM' & HD & HP' & HL' & Ho);
    [apply Hfr; by left|unfold job_node; lia|]. cbv zeta in E.
  set (y := XferJob dir addr sz pid _ _ _ _ jc) in E. eexists. split; [exact E|]. split.
  - exists M'. cbn. rewrite <- Ep. split_and!; [done|done|by rewrite map_app|].
    intros j' Hj'. destruct (Hfr j' ltac:(by right)) as [Hm Hout]. split.
    + cbn. by apply (same_dom_mapped (lists s)).
    + apply Ho; [|done]. intros Eq%job_node_inj. by subst j'.
  - cbn. apply Forall2_app; [|constructor; [|done]].
    + apply is_stage_insert; [done|]. intros Hin. by apply (Hnew j Hin); left.
    + exists y. by rewrite lookup_insert_eq.
  - intros j' [Hj'|Hj']%elem_of_app; [|apply list_elem_of_singleton in Hj'; by subst j'].
    intros Hin. apply (Hnew j' Hj'). by right.
  - exists σ, (<[j := y]> m). rewrite Es. done.
Qed.

(** Creating a chain takes the first slot of the pool and makes its three nodes
    empty lists. *)
Lemma chain_create_ok s M jc FC AC : ringm (lists s) M → pool_in M (chain_pool (client s)) (jc :: FC) AC →
  fresh_node s M (chain_node jc) → fresh_node s M (chain_jobs jc) → fresh_node s M (chain_completed jc) →
  ∃ σ M', usb_xfer_jobchain_create s = Ret (jc, with_lists s σ) ∧ ringm σ M' ∧ dom σ = dom (lists s) ∧
    M' !! chain_jobs jc = Some [] ∧
    (∀ h, h ∉ [slot_free (chain_pool (client s)); slot_active (chain_pool (client s)); chain_node jc; chain_jobs jc; chain_completed jc] →
       M' !! h = M !! h) ∧
    (∀ x, outside M x → x ∉ [chain_node jc; chain_jobs jc; chain_completed jc] → outside M' x).
Proof.
  intros HM (HF & HA & Hne) [Hm1 Ho1] [Hm2 Ho2] [Hm3 Ho3]. unfold usb_xfer_jobchain_create, on_lists, pool_take.
  set (p := chain_pool (client s)) in *. destruct (ringm_alloc _ _ _ _ _ _ HM HF HA Hne) as (σ0 & E0 & HM0 & D0).
  set (M0 := <[slot_active p := jc :: AC]> (<[slot_free p := FC]> M)) in *.
  assert (∀ x, outside M x → outside M0 x) as Hout.
  { intros x Hx. pose proof (Hx _ _ HF). pose proof (Hx _ _ HA). unfold M0.
    apply outside_insert; [apply outside_insert; [done|set_solver]|set_solver]. }
  rewrite (io_bind_ret _ _ s jc (with_lists s σ0)) by (cbv beta; fold p; by rewrite E0).
  assert (∀ σ x, dom σ = dom (lists s) → is_Some (lists s !! x) → is_Some (σ !! x)) as Hdom by (intros; by eapply same_dom_mapped).
  assert (chain_node jc ≠ chain_jobs jc ∧ chain_node jc ≠ chain_completed jc ∧ chain_jobs jc ≠ chain_completed jc) as (N1 & N2 & N3)
    by (unfold chain_node, chain_jobs, chain_completed; lia).
  destruct (ringm_init σ0 M0 (chain_node jc) HM0) as (σ1 & E1 & HM1 & D1); [by apply Hout|by apply Hdom|].
  rewrite (io_bind_ret _ _ (with_lists s σ0) tt (with_lists s σ1)) by (cbn; by rewrite E1).
  destruct (ringm_init σ1 _ (chain_jobs jc) HM1) as (σ2 & E2 & HM2 & D2);
    [apply outside_insert; [by apply Hout|set_solver]|apply Hdom; [congruence|done]|].
  rewrite (io_bind_ret _ _ (with_lists s σ1) tt (with_lists s σ2)) by (cbn; by rewrite E2).
  destruct (ringm_init σ2 _ (chain_completed jc) HM2) as (σ3 & E3 & HM3 & D3);
    [apply outside_insert; [apply outside_insert; [by apply Hout|]|]; set_solver|apply Hdom; [congruence|done]|].
  rewrite (io_bind_ret _ _ (with_lists s σ2) tt (with_lists s σ3)) by (cbn; by rewrite E3).
  eexists σ3, _. split; [done|]. split; [exact HM3|]. split; [congruence|]. split_and!.
  - by rewrite lookup_insert_ne, lookup_insert_eq by done.
  - intros h Hh. rewrite !not_elem_of_cons in Hh. unfold M0. by rewrite !lookup_insert_ne by naive_solver.
  - intros x Hx Hn. rewrite !not_elem_of_cons in Hn. do 3 (apply outside_insert; [|set_solver]). by apply Hout.
Qed.

(** The stages the USB specification asks for: a SETUP packet with the 8 bytes
    of the request, the data if there is any, and an empty packet in the
    direction opposite to the data, inwards if there is none. *)
Definition opposite (direction : Z) : Z := if direction =? USB_DIRECTION_OUT then USB_DIRECTION_IN else USB_DIRECTION_OUT.
Definition control_stages (request direction addr size : Z) : list stage :=
  if addr =? NULL then [(USB_DIRECTION_OUT, request, 8, USB_PID_SETUP); (USB_DIRECTION_IN, NULL, 0, USB_PID_DATA1)]
  else [(USB_DIRECTION_OUT, request, 8, USB_PID_SETUP); (direction, addr, size, USB_PID_DATA1);
        (opposite direction, NULL, 0, USB_PID_DATA1)].

(** What preparing a control transfer needs: a free chain and three free jobs,
    whose nodes no list uses. *)
Record can_prepare s M jc FC AC j1 j2 j3 F A : Prop := {
  cp_rings : ringm (lists s) M;
  cp_chain : pool_in M (chain_pool (client s)) (jc :: FC) AC;
  cp_jobs : pool_in M (job_pool (client s)) (j1 :: j2 :: j3 :: F) A;
  cp_new : NoDup [j1; j2; j3];
  cp_nodes : ∀ x, x ∈ [chain_node jc; chain_jobs jc; chain_completed jc; job_node j1; job_node j2; job_node j3] → fresh_node s M x;
  cp_apart : ∀ x, x ∈ [slot_free (job_pool (client s)); slot_active (job_pool (client s)); job_node j1; job_node j2; job_node j3] →
    x ∉ [slot_free (chain_pool (client s)); slot_active (chain_pool (client s)); chain_node jc; chain_jobs jc; chain_completed jc] }.

Lemma chain_staged s M jc FC AC j1 j2 j3 F A : can_prepare s M jc FC AC j1 j2 j3 F A →
  ∃ s1, usb_xfer_jobchain_create s = Ret (jc, s1) ∧ client s1 = client s ∧ ∀ k,
    staged (with_client s (with_chains (client s) (<[jc := k]> (chains (client s)))))
      (with_client s1 (with_chains (client s1) (<[jc := k]> (chains (client s1))))) jc [] [] [j1; j2; j3] F A.
Proof.
  intros []. destruct (chain_create_ok s M jc FC AC cp_rings0 cp_chain0) as (σ & M' & E & HM & HD & HL & Hsame & Hout);
    try (apply cp_nodes0; set_solver).
  exists (with_lists s σ). split; [done|]. split; [done|]. intros k. split.
  - exists M'. cbn. split_and!; [done| |done|].
    + destruct cp_jobs0 as (H1 & H2 & H3). split_and!; [| |done]; rewrite Hsame; try done; apply cp_apart0; set_solver.
    + intros j Hj. assert (job_node j ∈ [job_node j1; job_node j2; job_node j3]) as Hin
        by (rewrite !elem_of_cons in Hj; destruct Hj as [->|[->|[->|Hj]]]; set_solver).
      destruct (cp_nodes0 (job_node j)) as [Hmap Ho]; [set_solver|]. split; [cbn; by apply (same_dom_mapped (lists s))|].
      apply Hout; [done|]. pose proof (cp_apart0 (job_node j) ltac:(set_solver)). set_solver.
  - constructor.
  - set_solver.
  - by exists σ, (jobs (client s)).
Qed.

(** preparing a control transfer makes a chain of exactly the stages of the
    USB specification, in order, each a job of the chain that comes from the
    pool: SETUP from the host, the data in its direction when there is a buffer,
    and the status packet in the opposite direction ([IN] without data); the
    chain allows 100 NAK answers, and everything outside the lists, the jobs and
    the chains is as before. *)
Theorem prep_control_stages s M jc FC AC j1 j2 j3 F A request direction addr size :
  can_prepare s M jc FC AC j1 j2 j3 F A → direction = USB_DIRECTION_IN ∨ direction = USB_DIRECTION_OUT →
  ∃ s' js M' k, usb_xfer_jobchain_prep_control request direction addr size s = Ret (jc, s') ∧
    ringm (lists s') M' ∧ M' !! chain_jobs jc = Some (map job_node js) ∧ (js = [j1; j2] ∨ js = [j1; j2; j3]) ∧
    Forall2 (is_stage jc (jobs (client s'))) js (control_stages request direction addr size) ∧
    chains (client s') !! jc = Some k ∧ nak_retries k = 100 ∧
    (∃ σ m n, s' = with_lists (with_client s (with_jobs (with_chains (client s) n) m)) σ).
Proof.
  intros HC Hdir. destruct (chain_staged s M jc FC AC j1 j2 j3 F A HC) as (s1 & E & Ec & Hs). destruct HC.
  unfold usb_xfer_jobchain_prep_control. rewrite (io_bind_ret _ _ _ _ _ E), (io_bind_ret _ _ _ _ _ eq_refl). unfold put_chain.
  rewrite (io_bind_ret _ _ _ _ _ eq_refl). set (k := JobChain 100 0 _ _ _ _ _). specialize (Hs k).
  assert (chain_jobs jc ≠ slot_free (job_pool (client s)) ∧ chain_jobs jc ≠ slot_active (job_pool (client s))) as [N1 N2].
  { pose proof (cp_apart0 (slot_free (job_pool (client s))) ltac:(set_solver)).
    pose proof (cp_apart0 (slot_active (job_pool (client s))) ltac:(set_solver)). set_solver. }
  set (s0 := with_client s _) in Hs. set (s2 := with_client s1 _) in *.
  pose proof cp_new0 as [_ Hn2]%NoDup_cons. pose proof Hn2 as [_ Hn3]%NoDup_cons.
  destruct (stage_ok s0 s2 jc [] [] j1 [j2; j3] F A USB_DIRECTION_OUT request 8 USB_PID_SETUP Hs cp_new0 N1 N2) as (s3 & E3 & H3).
  rewrite (io_bind_ret _ _ _ _ _ E3). unfold truth, control_stages. change NULL with 0. destruct (Z.eqb_spec addr 0) as [Ea|Ea]; cbn [negb when].
  - rewrite (io_bind_ret _ _ _ _ _ eq_refl). cbn [andb].
    destruct (stage_ok s0 s3 jc _ _ j2 [j3] F _ USB_DIRECTION_IN 0 0 USB_PID_DATA1 H3 Hn2 N1 N2) as (s4 & E4 & H4).
    rewrite (io_bind_ret _ _ _ _ _ E4). destruct H4 as [(M' & HM & _ & HL & _) Hst _ (σ & m & Es)].
    exists s4, [j1; j2], M', k. split_and!; [done|done|done|by left|done| |done|eexists σ, m, _; exact Es].
    rewrite Es. cbn. by rewrite lookup_insert_eq.
  - destruct (stage_ok s0 s3 jc _ _ j2 [j3] F _ direction addr size USB_PID_DATA1 H3 Hn2 N1 N2) as (s4 & E4 & H4).
    rewrite (io_bind_ret _ _ _ _ _ E4).
    destruct (stage_ok s0 s4 jc _ _ j3 [] F _ (opposite direction) 0 0 USB_PID_DATA1 H4 Hn3 N1 N2) as (s5 & E5 & H5).
    assert ((if true && (direction =? USB_DIRECTION_IN) then USB_DIRECTION_OUT else USB_DIRECTION_IN) = opposite direction) as ->
      by (by destruct Hdir as [-> | ->]).
    rewrite (io_bind_ret _ _ _ _ _ E5). destruct H5 as [(M' & HM & _ & HL & _) Hst _ (σ & m & Es)].
    exists s5, [j1; j2; j3], M', k. split_and!; [done|done|done|by right|done| |done|eexists σ, m, _; exact Es].
    rewrite Es. cbn. by rewrite lookup_insert_eq.
Qed.
End stages.

(** Witness: a control read of 18 bytes with three jobs left in the pool. *)
Definition demo_idle_heap : heap := list_to_map
  [(1, ListHead 1000 1400); (1000, ListHead 1200 1); (1200, ListHead 1400 1000); (1400, ListHead 1 1200); (2, ListHead 2 2);
   (3, ListHead 2000 2000); (2000, ListHead 3 3); (4, ListHead 4 4); (1080, ListHead 0 0); (1280, ListHead 0 0);
   (1480, ListHead 0 0); (2016, ListHead 0 0); (2056, ListHead 0 0); (2072, ListHead 0 0)].
Definition demo_idle_rings : list (Z * list Z) := [(1, [1000; 1200; 1400]); (2, []); (3, [2000]); (4, [])].
Definition demo_idle : usb bank queue :=
  Usb ∅ 0 [] ∅ ∅ demo_idle_heap (SlotPool 5 6 []) 0 0
    (Queue ∅ ∅ (SlotPool 1 2 []) (SlotPool 3 4 []) 7 8 9 demo_kernel []).

Lemma demo_idle_can_prepare : can_prepare demo_idle (list_to_map demo_idle_rings) 2000 [] [] 1000 1200 1400 [] [].
Proof.
  split.
  - apply ringm_of_list; [done|apply (bool_decide_eq_true_1 (NoDup _)); vm_compute; reflexivity|]. by repeat constructor.
  - done.
  - done.
  - apply (bool_decide_eq_true_1 (NoDup _)); vm_compute; reflexivity.
  - apply Forall_forall. repeat (apply Forall_cons; split); [..|by apply Forall_nil].
    all: split; [by eexists|apply (outside_of_list demo_idle_rings), (bool_decide_eq_true_1 (Forall _ _)); vm_compute; reflexivity].
  - apply Forall_forall, (bool_decide_eq_true_1 (Forall _ _)). vm_compute. reflexivity.
Qed.

Lemma prep_control_stages_witness : ∃ s' js M', usb_xfer_jobchain_prep_control 500 USB_DIRECTION_IN 800 18 demo_idle = Ret (2000, s') ∧
  (M' : ringmap) !! chain_jobs 2000 = Some (map job_node js) ∧
  Forall2 (is_stage 2000 (jobs (client s'))) js
    [(USB_DIRECTION_OUT, 500, 8, USB_PID_SETUP); (USB_DIRECTION_IN, 800, 18, USB_PID_DATA1); (USB_DIRECTION_OUT, 0, 0, USB_PID_DATA1)].
Proof.
  destruct (prep_control_stages demo_idle _ 2000 [] [] 1000 1200 1400 [] [] 500 USB_DIRECTION_IN 800 18 demo_idle_can_prepare
    ltac:(by left)) as (s' & js & M' & k & E & _ & HL & _ & Hst & _).
  exists s', js, M'. split; [exact E|]. split; [exact HL|]. exact Hst.
Defined.

(** When the job pool is exhausted, preparing a job faults: the address NULL that
    the allocation returns is not an error pointer, and its list node is written. *)
Lemma job_create_exhausted {D} `{Mmio D} (s : usb D queue) M A : ringm (lists s) M → pool_in M (job_pool (client s)) [] A →
  lists s !! job_node NULL = None → usb_xfer_job_create s = Fault.
Proof.
  intros HM (HF & _ & _) Hn. unfold usb_xfer_job_create, pool_take, slot_alloc.
  assert (on_lists (λ σ, INIT_LIST_HEAD σ (job_node NULL)) s = Fault) as E
    by (unfold on_lists, INIT_LIST_HEAD, set_next; by rewrite Hn).
  rewrite (io_bind_ret _ _ s NULL s); [unfold mbind, io_bind at 1; by rewrite E|].
  cbv beta. rewrite (list_next_or_null_ring (lists s) _ [] (ringm_ring _ _ HM _ _ HF)). cbn. by destruct s.
Qed.
