(* ===== verification/Trace.v ===== *)
(** * Traces of events

    A specification of what a driver does on a bus: [does] relates a computation
    to the events it adds to a log, whatever the other side answers.  Logs are
    described by predicates put together with [+++].  The events are register
    accesses here ([traced D] is the device [D] with a log of the accesses made
    to it) and USB transfers in the files above. *)

From S2P Require Import Prelude Mmio.

Inductive access := Rd (r v : Z) | Wr (r v : Z).

Record traced (D : Type) := Traced { tr_dev : D; tr_log : list access }.
Arguments Traced {D}.
Arguments tr_dev {D}.
Arguments tr_log {D}.

#[export] Instance traced_mmio {D} `{Mmio D} : Mmio (traced D) := {|
  mmio_read r d := let '(v, d') := mmio_read r (tr_dev d) in (v, Traced d' (tr_log d ++ [Rd r v]));
  mmio_write r v d := Traced (mmio_write r v (tr_dev d)) (tr_log d ++ [Wr r v]) |}.

(** ** Languages of logs *)
Definition lang_of (E : Type) : Type := list E → Prop.
Abbreviation lang := (lang_of access).
Definition nothing {E} : lang_of E := λ l, l = [].
Definition one {E} (a : E) : lang_of E := λ l, l = [a].
Definition seqt {E} (P Q : lang_of E) : lang_of E := λ l, ∃ l1 l2, l = l1 ++ l2 ∧ P l1 ∧ Q l2.
Definition maybe {E} (P : lang_of E) : lang_of E := λ l, l = [] ∨ P l.
(** At most [n] times [P]. *)
Definition repeated {E} (n : nat) (P : lang_of E) : lang_of E := λ l, ∃ ls, l = concat ls ∧ (length ls ≤ n)%nat ∧ Forall P ls.
Declare Scope lang_scope.
Delimit Scope lang_scope with lang.
Bind Scope lang_scope with lang_of.
Infix "+++" := seqt (at level 60, right associativity) : lang_scope.

(** Some word read from register [r] that satisfies [c]. *)
Definition some_read (r : Z) (c : Z → Prop) : lang := λ l, ∃ v, l = [Rd r v] ∧ c v.

(** Reads of [r], at most [n], all but the last of which fail [c]. *)
Definition polls (n : nat) (r : Z) (c : Z → bool) (v : Z) : lang := λ l,
  ∃ vs, l = map (Rd r) vs ++ [Rd r v] ∧ (length vs < n)%nat ∧ Forall (λ x, c x = false) vs ∧ c v = true.
(** Exactly [n] reads of [r] that fail [c]. *)
Definition polls_fail (n : nat) (r : Z) (c : Z → bool) : lang := λ l,
  ∃ vs, l = map (Rd r) vs ∧ length vs = n ∧ Forall (λ x, c x = false) vs.

(** Logs of at most [n] accesses. *)
Definition at_most (n : nat) : lang := λ l, (length l ≤ n)%nat.

(** ** States with a log *)
Class Logged (S E : Type) : Type := log_of : S → list E.

Section does.
Context {S E : Type} `{Logged S E}.

(** [m] returns from [s], and its result, the state it leaves and the events
    it causes satisfy [Q]. *)
Definition does {A} (m : io S A) (s : S) (Q : A → S → lang_of E) : Prop :=
  ∃ a s' l, m s = Ret (a, s') ∧ log_of s' = log_of s ++ l ∧ Q a s' l.

Lemma does_ret {A} (a : A) s (Q : A → S → lang_of E) : Q a s [] → does (mret a) s Q.
Proof. intros HQ. exists a, s, []. by rewrite app_nil_r. Qed.

Lemma does_mono {A} (m : io S A) s (P Q : A → S → lang_of E) : does m s P → (∀ a s' l, P a s' l → Q a s' l) → does m s Q.
Proof. intros (a & s' & l & Em & El & HP) HPQ. exists a, s', l. auto. Qed.

Lemma does_bind {A B} (m : io S A) (f : A → io S B) s (P : A → S → lang_of E) (Q : B → S → lang_of E) :
  does m s P → (∀ a s' l, P a s' l → does (f a) s' (λ b s'' l', Q b s'' (l ++ l'))) → does (m ≫= f) s Q.
Proof.
  intros (a & s' & l & Em & El & HP) Hf. destruct (Hf a s' l HP) as (b & s'' & l' & E' & El' & HQ).
  exists b, s'', (l ++ l'). rewrite (io_bind_ret _ _ _ _ _ Em). split; [done|]. split; [|done]. by rewrite El', El, app_assoc.
Qed.

(** A step that causes no event. *)
Lemma does_quiet {A B} (m : io S A) (f : A → io S B) s a s' (Q : B → S → lang_of E) :
  m s = Ret (a, s') → log_of s' = log_of s → does (f a) s' Q → does (m ≫= f) s Q.
Proof.
  intros Em El (b & s'' & l & E' & El' & HQ). exists b, s'', l. rewrite (io_bind_ret _ _ _ _ _ Em). by rewrite El', El.
Qed.

Lemma does_lift {A} (m : outcome A) a s (Q : A → S → lang_of E) : m = Ret a → Q a s [] → does (lift m) s Q.
Proof. intros -> HQ. exists a, s, []. by rewrite app_nil_r. Qed.
End does.

(** A state that contains a traced device: an access appends to the log, and
    relates the states by [hw_only], "nothing but the device has changed". *)
Class TracedState (S : Type) `{Mmio S} : Type := {
  ts_log :: Logged S access;
  hw_only : S → S → Prop;
  hw_only_preorder :: PreOrder hw_only;
  ts_read r s : log_of (snd (mmio_read r s)) = log_of s ++ [Rd r (fst (mmio_read r s))] ∧ hw_only s (snd (mmio_read r s));
  ts_write r v s : log_of (mmio_write r v s) = log_of s ++ [Wr r v] ∧ hw_only s (mmio_write r v s) }.

#[export] Program Instance traced_state {D} `{Mmio D} : TracedState (traced D) := {|
  ts_log := tr_log; hw_only := λ _ _, True |}.
Next Obligation. by split. Qed.
Next Obligation. intros D ? r [d l]. cbn. by destruct (mmio_read r d). Qed.
Next Obligation. by intros D ? r v [d l]. Qed.

Section accesses.
Context {S : Type} `{TracedState S}.

Lemma does_read r s (Q : Z → S → lang) : (∀ v s', hw_only s s' → Q v s' [Rd r v]) → does (read_reg r) s Q.
Proof.
  intros HQ. destruct (ts_read r s) as [El Hh]. exists (fst (mmio_read r s)), (snd (mmio_read r s)), [Rd r (fst (mmio_read r s))].
  split; [unfold read_reg; by rewrite <- surjective_pairing|]. split; [exact El|]. by apply HQ.
Qed.

Lemma does_write r v s (Q : unit → S → lang) : (∀ s', hw_only s s' → Q tt s' [Wr r (u32 v)]) → does (write_reg r v) s Q.
Proof. intros HQ. destruct (ts_write r (u32 v) s) as [El Hh]. eexists _, _, _. split; [done|]. split; [exact El|]. by apply HQ. Qed.

Lemma does_read_bind {A} r (f : Z → io S A) s (Q : A → S → lang) :
  (∀ v s', hw_only s s' → does (f v) s' (λ a s'' l, Q a s'' (Rd r v :: l))) → does (read_reg r ≫= f) s Q.
Proof.
  intros Hf. eapply does_bind; [apply (does_read r s (λ v s' l, hw_only s s' ∧ l = [Rd r v])); auto|].
  intros v s' l [Hh ->]. by apply Hf.
Qed.

Lemma does_write_bind {A} r v (f : unit → io S A) s (Q : A → S → lang) :
  (∀ s', hw_only s s' → does (f tt) s' (λ a s'' l, Q a s'' (Wr r (u32 v) :: l))) → does (write_reg r v ≫= f) s Q.
Proof.
  intros Hf. eapply does_bind; [apply (does_write r v s (λ _ s' l, hw_only s s' ∧ l = [Wr r (u32 v)])); auto|].
  intros [] s' l [Hh ->]. by apply Hf.
Qed.
End accesses.

(** The next access of a computation, or its end. *)
Ltac does_step :=
  first [ apply does_read_bind; intros ? ? ? | apply does_write_bind; intros ? ?
        | apply does_read; intros ? ? ? | apply does_write; intros ? ? | apply does_ret ].

(** ** Putting logs together *)
Lemma seqt_app {E} (P Q : lang_of E) l1 l2 : P l1 → Q l2 → (P +++ Q)%lang (l1 ++ l2).
Proof. intros. by exists l1, l2. Qed.

Lemma seqt_one {E} (a : E) (Q : lang_of E) l : Q l → (one a +++ Q)%lang (a :: l).
Proof. intros. by exists [a], l. Qed.

Lemma seqt_assoc {E} (P Q R : lang_of E) l : ((P +++ Q) +++ R)%lang l → (P +++ Q +++ R)%lang l.
Proof. intros (? & l3 & -> & (l1 & l2 & -> & HP & HQ) & HR). exists l1, (l2 ++ l3). split; [by rewrite app_assoc|]. split; [done|]. by exists l2, l3. Qed.

Lemma seqt_mono_r {E} (P Q R : lang_of E) l : (∀ l, Q l → R l) → (P +++ Q)%lang l → (P +++ R)%lang l.
Proof. intros HQR (l1 & l2 & -> & HP & HQ). exists l1, l2. auto. Qed.

Lemma seqt_mono_l {E} (P Q R : lang_of E) l : (∀ l, P l → Q l) → (P +++ R)%lang l → (Q +++ R)%lang l.
Proof. intros HPQ (l1 & l2 & -> & HP & HQ). exists l1, l2. auto. Qed.

Lemma repeated_nil {E} n (P : lang_of E) : repeated n P [].
Proof. exists []. split; [done|]. split; [cbn; lia|constructor]. Qed.

Lemma repeated_cons {E} n (P : lang_of E) l1 l2 : P l1 → repeated n P l2 → repeated (S n) P (l1 ++ l2).
Proof. intros HP (ls & -> & Hn & HF). exists (l1 :: ls). split; [done|]. split; [cbn; lia|by constructor]. Qed.

Lemma polls_length n r c v l : polls n r c v l → (length l ≤ n)%nat.
Proof. intros (vs & -> & Hn & _). rewrite length_app, length_map. cbn. lia. Qed.

Lemma polls_fail_length n r c l : polls_fail n r c l → length l = n.
Proof. intros (vs & -> & Hn & _). by rewrite length_map. Qed.

Lemma polls_here n r (c : Z → bool) v : c v = true → polls (S n) r c v [Rd r v].
Proof. intros. exists []. cbn. split_and!; [done|lia|constructor|done]. Qed.

Lemma polls_next n r (c : Z → bool) x v l : c x = false → polls n r c v l → polls (S n) r c v (Rd r x :: l).
Proof. intros Hx (vs & -> & Hn & Hvs & Hv). exists (x :: vs). cbn. split_and!; [done|lia|by constructor|done]. Qed.

Lemma polls_fail_next n r (c : Z → bool) x l : c x = false → polls_fail n r c l → polls_fail (S n) r c (Rd r x :: l).
Proof. intros Hx (vs & -> & Hn & Hvs). exists (x :: vs). cbn. split_and!; [done|lia|by constructor]. Qed.

(** A device that answers reads from a list, and ignores writes. *)
Record script := Script { answers : list Z }.
#[export] Instance script_mmio : Mmio script := {|
  mmio_read _ d := match answers d with [] => (0, d) | v :: l => (v, Script l) end;
  mmio_write _ _ d := d |}.
