(* ===== verification/Emmc.v ===== *)
(** * The SD card controller (board/bcm2835/emmc/)

    The controller is a block of registers of an arbitrary device; the driver
    sends a command, polls the interrupt register and moves the words of a data
    command between the data port and byte memory.  All waits are bounded by a
    time-out. *)

From S2P Require Import Prelude Bits Mmio Mbox Trace.

Definition ERR_OK : Z := 0.
Definition ERR_NOT_IMPLEMENTED : Z := -3.
Definition ERR_GENERIC : Z := -9.
Definition ERR_TIMEOUT : Z := -11.

(** ** Registers (emmc_regs.h, emmc_regs_bits.h) *)
Definition EMMC_BASE : Z := 0x3f300000.
Definition EMMC_BLKSIZECNT : Z := EMMC_BASE + 0x4.
Definition EMMC_ARG1 : Z := EMMC_BASE + 0x8.
Definition EMMC_CMDTM : Z := EMMC_BASE + 0xc.
Definition EMMC_RESP0 : Z := EMMC_BASE + 0x10.
Definition EMMC_RESP1 : Z := EMMC_BASE + 0x14.
Definition EMMC_RESP2 : Z := EMMC_BASE + 0x18.
Definition EMMC_RESP3 : Z := EMMC_BASE + 0x1c.
Definition EMMC_DATA : Z := EMMC_BASE + 0x20.
Definition EMMC_STATUS : Z := EMMC_BASE + 0x24.
Definition EMMC_CONTROL0 : Z := EMMC_BASE + 0x28.
Definition EMMC_CONTROL1 : Z := EMMC_BASE + 0x2c.
Definition EMMC_INTERRUPT : Z := EMMC_BASE + 0x30.
Definition EMMC_IRPT_MASK : Z := EMMC_BASE + 0x34.
Definition EMMC_IRPT_EN : Z := EMMC_BASE + 0x38.
Definition EMMC_CONTROL2 : Z := EMMC_BASE + 0x3c.

Definition EMMC_RESPONSE_TYPE_NONE : Z := 0.
Definition EMMC_RESPONSE_TYPE_136_BITS : Z := 1.
Definition EMMC_RESPONSE_TYPE_48_BITS : Z := 2.
Definition EMMC_RESPONSE_TYPE_48_BITS_BUSY : Z := 3.

Definition EMMC_BLKSIZECNT_CLR_SET_BLKSIZE (v x : Z) : Z := BF_CLEAR_AND_SET v x 0 10.
Definition EMMC_BLKSIZECNT_CLR_SET_BLKCNT (v x : Z) : Z := BF_CLEAR_AND_SET v x 16 16.
Definition EMMC_CMDTM_GET_TM_DAT_DIR (v : Z) : Z := BF_EXTRACT v 4 1.
Definition EMMC_CMDTM_GET_CMD_RSPNS_TYPE (v : Z) : Z := BF_EXTRACT v 16 2.
Definition EMMC_CMDTM_GET_CMD_ISDATA (v : Z) : Z := BF_EXTRACT v 21 1.
Definition EMMC_STATUS_GET_CMD_INHIBIT (v : Z) : Z := BF_EXTRACT v 0 1.
Definition EMMC_STATUS_GET_DAT_INHIBIT (v : Z) : Z := BF_EXTRACT v 1 1.
Definition EMMC_CONTROL0_CLR_SET_HCTL_DWIDTH (v x : Z) : Z := BF_CLEAR_AND_SET v x 1 1.
Definition EMMC_CONTROL1_GET_SRST_HC (v : Z) : Z := BF_EXTRACT v 24 1.
Definition EMMC_CONTROL1_CLR_SET_CLK_INTLEN (v x : Z) : Z := BF_CLEAR_AND_SET v x 0 1.
Definition EMMC_CONTROL1_CLR_SET_CLK_EN (v x : Z) : Z := BF_CLEAR_AND_SET v x 2 1.
Definition EMMC_CONTROL1_CLR_SET_DATA_TOUNIT (v x : Z) : Z := BF_CLEAR_AND_SET v x 16 4.
Definition EMMC_CONTROL1_CLR_SET_SRST_HC (v x : Z) : Z := BF_CLEAR_AND_SET v x 24 1.
Definition EMMC_CONTROL1_CLR_SET_SRST_CMD (v x : Z) : Z := BF_CLEAR_AND_SET v x 25 1.
Definition EMMC_CONTROL1_CLR_CLK_INTLEN (v : Z) : Z := BF_CLEAR v 0 1.
Definition EMMC_CONTROL1_CLR_CLK_EN (v : Z) : Z := BF_CLEAR v 2 1.
Definition EMMC_CONTROL1_MASK_CLK_STABLE : Z := BF_MASK_AT_32 1 1.
Definition EMMC_CONTROL1_MASK_SRST_CMD : Z := BF_MASK_AT_32 25 1.
Definition EMMC_INTERRUPT_GET_ERR (v : Z) : Z := BF_EXTRACT v 15 1.
Definition EMMC_INTERRUPT_GET_CTO_ERR (v : Z) : Z := BF_EXTRACT v 16 1.
Definition EMMC_INTERRUPT_CLR_SET_DATA_DONE (v x : Z) : Z := BF_CLEAR_AND_SET v x 1 1.
Definition EMMC_INTERRUPT_CLR_SET_WRITE_RDY (v x : Z) : Z := BF_CLEAR_AND_SET v x 4 1.
Definition EMMC_INTERRUPT_CLR_SET_READ_RDY (v x : Z) : Z := BF_CLEAR_AND_SET v x 5 1.
Definition EMMC_INTERRUPT_CLR_SET_ERR (v x : Z) : Z := BF_CLEAR_AND_SET v x 15 1.
Definition EMMC_INTERRUPT_CLR_SET_CTO_ERR (v x : Z) : Z := BF_CLEAR_AND_SET v x 16 1.
Definition EMMC_INTERRUPT_MASK_CMD_DONE : Z := BF_MASK_AT_32 0 1.
Definition EMMC_INTERRUPT_MASK_DATA_DONE : Z := BF_MASK_AT_32 1 1.
Definition EMMC_INTERRUPT_MASK_ERR : Z := BF_MASK_AT_32 15 1.

(** ** Commands (emmc_cmd.h, emmc_cmd.c) *)
Definition EMMC_CMD0 : Z := 0.
Definition EMMC_CMD2 : Z := 2.
Definition EMMC_CMD3 : Z := 3.
Definition EMMC_CMD5 : Z := 5.
Definition EMMC_CMD7 : Z := 7.
Definition EMMC_CMD8 : Z := 8.
Definition EMMC_CMD8_ARG : Z := 0x1aa.
Definition EMMC_CMD8_VALID_RESP : Z := EMMC_CMD8_ARG.
Definition EMMC_CMD13 : Z := 0xd.
Definition EMMC_CMD17 : Z := 0x11.
Definition EMMC_CMD24 : Z := 0x18.
Definition EMMC_CMD55 : Z := 0x37.
Definition ACMD_BIT : Z := 31.
Definition EMMC_ACMD6 : Z := 0x80000006.
Definition EMMC_ACMD41 : Z := 0x80000029.
Definition EMMC_ACMD51 : Z := 0x80000033.
Definition EMMC_BUS_WIDTH_4BITS : Z := 2.
Definition EMMC_BLOCK_SIZE : Z := 1024.
Definition EMMC_WAIT_TIMEOUT_USEC : Z := 1000000.
Definition EMMC_CMD_IS_ACMD (cmd : Z) : bool := truth (Z.land cmd (Z.shiftl 1 ACMD_BIT)).

(** The statuses of a command; [emmc_do_issue_cmd] also returns -1, which the
    unsigned enumeration holds as [0xffffffff]. *)
Definition EMMC_CMD_OK : Z := 0.
Definition EMMC_CMD_ERR : Z := 1.
Definition EMMC_CMD_TIMEOUT : Z := 2.
Definition EMMC_CMD_MINUS_1 : Z := u32 (-1).

(** [l[i]] of a constant array. *)
Definition table_read (l : list Z) (i : Z) : outcome Z :=
  if (0 <=? i) && (i <? Z.of_nat (length l)) then deref (l !! Z.to_nat i) else Fault.

Definition emmc_cmd_status_to_err (status : Z) : outcome Z := table_read [ERR_OK; ERR_GENERIC; ERR_TIMEOUT] status.

Definition RESP_TYPE_R1 : Z := EMMC_RESPONSE_TYPE_48_BITS.
Definition RESP_TYPE_R1b : Z := EMMC_RESPONSE_TYPE_48_BITS_BUSY.
Definition RESP_TYPE_R2 : Z := EMMC_RESPONSE_TYPE_136_BITS.
Definition RESP_TYPE_R3 : Z := EMMC_RESPONSE_TYPE_48_BITS.
Definition RESP_TYPE_R6 : Z := EMMC_RESPONSE_TYPE_48_BITS.
Definition RESP_TYPE_R7 : Z := EMMC_RESPONSE_TYPE_48_BITS.
Definition RESP_TYPE_NA : Z := EMMC_RESPONSE_TYPE_NONE.
Definition EMMC_TRANS_TYPE_DATA_HOST_TO_CARD : Z := 0.
Definition EMMC_TRANS_TYPE_DATA_NA : Z := 0.
Definition EMMC_TRANS_TYPE_DATA_CARD_TO_HOST : Z := 1.

Definition CMDTM_GEN (idx resp crc_enable trans is_data : Z) : Z :=
  Z.lor (Z.shiftl idx 24) (Z.lor (Z.shiftl resp 16) (Z.lor (Z.shiftl crc_enable 19) (Z.lor (Z.shiftl trans 4) (Z.shiftl is_data 21)))).

(** The commands without data: [R idx crc] has response type [R]. *)
Definition cmd_plain (idx resp crc : Z) : Z := CMDTM_GEN idx resp crc EMMC_TRANS_TYPE_DATA_NA 0.

Definition sd_commands : list Z := [
  cmd_plain 0 RESP_TYPE_NA 0; cmd_plain 1 RESP_TYPE_NA 0; cmd_plain 2 RESP_TYPE_R2 1; cmd_plain 3 RESP_TYPE_R6 1;
  cmd_plain 4 RESP_TYPE_NA 0; cmd_plain 5 RESP_TYPE_R2 0; cmd_plain 6 RESP_TYPE_NA 0; cmd_plain 7 RESP_TYPE_R1b 1;
  cmd_plain 8 RESP_TYPE_R7 1; cmd_plain 9 RESP_TYPE_R2 0; cmd_plain 10 RESP_TYPE_R2 0; cmd_plain 11 RESP_TYPE_R1 1;
  cmd_plain 12 RESP_TYPE_R1b 1; cmd_plain 13 RESP_TYPE_R1 1; cmd_plain 14 RESP_TYPE_NA 0; cmd_plain 15 RESP_TYPE_NA 0;
  cmd_plain 16 RESP_TYPE_R1 1; CMDTM_GEN 17 RESP_TYPE_R1 1 EMMC_TRANS_TYPE_DATA_CARD_TO_HOST 1;
  cmd_plain 18 RESP_TYPE_R1 1; cmd_plain 19 RESP_TYPE_R1 1; cmd_plain 20 RESP_TYPE_R1b 1; cmd_plain 21 RESP_TYPE_R1 1;
  cmd_plain 22 RESP_TYPE_R1 1; cmd_plain 23 RESP_TYPE_R1 1; CMDTM_GEN 24 RESP_TYPE_R1 1 EMMC_TRANS_TYPE_DATA_HOST_TO_CARD 1;
  cmd_plain 25 RESP_TYPE_R1 1; cmd_plain 26 RESP_TYPE_NA 0; cmd_plain 27 RESP_TYPE_R1 1; cmd_plain 28 RESP_TYPE_R1b 1;
  cmd_plain 29 RESP_TYPE_R1b 1; cmd_plain 30 RESP_TYPE_R1 1; cmd_plain 31 RESP_TYPE_NA 0; cmd_plain 32 RESP_TYPE_R1 1;
  cmd_plain 33 RESP_TYPE_R1 1; cmd_plain 34 RESP_TYPE_NA 0; cmd_plain 35 RESP_TYPE_NA 0; cmd_plain 36 RESP_TYPE_NA 0;
  cmd_plain 37 RESP_TYPE_NA 0; cmd_plain 38 RESP_TYPE_R1b 1; cmd_plain 39 RESP_TYPE_NA 0; cmd_plain 40 RESP_TYPE_R1 1;
  cmd_plain 41 RESP_TYPE_NA 0; cmd_plain 42 RESP_TYPE_R1 1; cmd_plain 43 RESP_TYPE_NA 0; cmd_plain 44 RESP_TYPE_NA 0;
  cmd_plain 45 RESP_TYPE_NA 0; cmd_plain 46 RESP_TYPE_NA 0; cmd_plain 47 RESP_TYPE_NA 0; cmd_plain 48 RESP_TYPE_NA 0;
  cmd_plain 49 RESP_TYPE_NA 0; cmd_plain 50 RESP_TYPE_NA 0; cmd_plain 51 RESP_TYPE_NA 0; cmd_plain 52 RESP_TYPE_NA 0;
  cmd_plain 53 RESP_TYPE_NA 0; cmd_plain 54 RESP_TYPE_NA 0; cmd_plain 55 RESP_TYPE_R1 1; cmd_plain 56 RESP_TYPE_R1 1;
  cmd_plain 57 RESP_TYPE_NA 0; cmd_plain 58 RESP_TYPE_NA 0; cmd_plain 59 RESP_TYPE_NA 0 ].

Definition acmd_none (lo : Z) (n : nat) : list Z := map (λ i, cmd_plain (lo + Z.of_nat i) RESP_TYPE_NA 0) (seq 0 n).

Definition sd_acommands : list Z :=
  acmd_none 0 6 ++ [cmd_plain 6 RESP_TYPE_R1 1] ++ acmd_none 7 34 ++ [cmd_plain 41 RESP_TYPE_R3 0] ++ acmd_none 42 8 ++
  [cmd_plain 50 RESP_TYPE_R1 1; CMDTM_GEN 51 RESP_TYPE_R1 1 EMMC_TRANS_TYPE_DATA_CARD_TO_HOST 1] ++ acmd_none 52 8.

Record emmc_cmd_t := EmmcCmd {
  cmd_idx : Z; arg : Z; block_size : Z; num_blocks : Z; rca : Z; resp0 : Z; resp1 : Z; resp2 : Z; resp3 : Z; databuf : Z }.

Definition emmc_cmd_init (idx a : Z) : emmc_cmd_t := EmmcCmd (u32 idx) (u32 a) 0 0 0 0 0 0 0 0.
Definition set_blocks (c : emmc_cmd_t) (size num : Z) : emmc_cmd_t :=
  EmmcCmd (cmd_idx c) (arg c) size num (rca c) (resp0 c) (resp1 c) (resp2 c) (resp3 c) (databuf c).
Definition set_databuf (c : emmc_cmd_t) (buf : Z) : emmc_cmd_t :=
  EmmcCmd (cmd_idx c) (arg c) (block_size c) (num_blocks c) (rca c) (resp0 c) (resp1 c) (resp2 c) (resp3 c) buf.
Definition set_rca (c : emmc_cmd_t) (a : Z) : emmc_cmd_t :=
  EmmcCmd (cmd_idx c) (arg c) (block_size c) (num_blocks c) a (resp0 c) (resp1 c) (resp2 c) (resp3 c) (databuf c).
Definition set_resp (c : emmc_cmd_t) (r0 r1 r2 r3 : Z) : emmc_cmd_t :=
  EmmcCmd (cmd_idx c) (arg c) (block_size c) (num_blocks c) (rca c) r0 r1 r2 r3 (databuf c).

(** The driver's state: the controller, byte memory, the mailbox and the two
    variables. *)
Record emmc (D : Type) := Emmc { hw : D; ram : mem; mb : mbox; emmc_rca : Z; emmc_is_initialized : bool }.
Arguments Emmc {D}.
Arguments hw {D}.
Arguments ram {D}.
Arguments mb {D}.
Arguments emmc_rca {D}.
Arguments emmc_is_initialized {D}.

Definition with_hw {D} (s : emmc D) (d : D) : emmc D := Emmc d (ram s) (mb s) (emmc_rca s) (emmc_is_initialized s).
Definition with_ram {D} (s : emmc D) (m : mem) : emmc D := Emmc (hw s) m (mb s) (emmc_rca s) (emmc_is_initialized s).
Definition with_mb {D} (s : emmc D) (b : mbox) : emmc D := Emmc (hw s) (ram s) b (emmc_rca s) (emmc_is_initialized s).

#[export] Instance emmc_mmio {D} `{Mmio D} : Mmio (emmc D) := {|
  mmio_read r s := (fst (mmio_read r (hw s)), with_hw s (snd (mmio_read r (hw s))));
  mmio_write r v s := with_hw s (mmio_write r v (hw s)) |}.

Section emmc.
Context {D : Type} `{Mmio D}.
Abbreviation S := (emmc D).

Definition load (n : nat) (p : Z) : io S Z := λ s, v ← load_le n (ram s) p; Ret (v, s).
Definition store (n : nat) (p v : Z) : io S unit := λ s, m ← store_le n (ram s) p v; Ret (tt, with_ram s m).

Definition get_var {A} (f : S → A) : io S A := λ s, Ret (f s, s).
Definition set_rca_var (v : Z) : io S unit := λ s, Ret (tt, Emmc (hw s) (ram s) (mb s) v (emmc_is_initialized s)).
Definition set_initialized : io S unit := λ s, Ret (tt, Emmc (hw s) (ram s) (mb s) (emmc_rca s) true).

(** ** Waiting (emmc_utils.h)

    A turn of the loop takes 100 microseconds off the time left; [None] is
    [ERR_TIMEOUT], [Some v] is [ERR_OK] with the value read. *)
Definition wait_step_usec : Z := 100.
Definition reg_value_good (mask value regval : Z) : bool :=
  if truth mask then Z.land regval mask =? value else truth (Z.land regval value).

(** [n] turns of: read [r]; stop when [good]. *)
Fixpoint poll_reg (n : nat) (r : Z) (good : Z → bool) : io S (option Z) :=
  match n with
  | O => mret None
  | Datatypes.S n => v ← read_reg r; if good v then mret (Some v) else poll_reg n r good
  end.

Definition emmc_wait_reg_value (regaddr mask value timeout_usec : Z) : io S (option Z) :=
  poll_reg (Z.to_nat (timeout_usec / wait_step_usec)) regaddr (reg_value_good mask value).

Definition emmc_interrupt_wait_done_or_err (timeout_usec : Z) (waitcmd waitdat : bool) : io S (option Z) :=
  let intmask := EMMC_INTERRUPT_MASK_ERR in
  let intmask := if waitcmd then Z.lor intmask EMMC_INTERRUPT_MASK_CMD_DONE else intmask in
  let intmask := if waitdat then Z.lor intmask EMMC_INTERRUPT_MASK_DATA_DONE else intmask in
  emmc_wait_reg_value EMMC_INTERRUPT 0 intmask timeout_usec.

(** The three status waits poll a thousand times; [false] is the return of -1. *)
Definition wait_status (good : Z → bool) : io S bool :=
  o ← poll_reg 1000 EMMC_STATUS good; mret (match o with Some _ => true | None => false end).
Definition emmc_wait_cmd_dat_ready : io S bool :=
  wait_status (λ v, negb (truth (EMMC_STATUS_GET_CMD_INHIBIT v) || truth (EMMC_STATUS_GET_DAT_INHIBIT v))).
Definition emmc_wait_cmd_inhibit : io S bool := wait_status (λ v, negb (truth (EMMC_STATUS_GET_CMD_INHIBIT v))).
Definition emmc_wait_dat_inhibit : io S bool := wait_status (λ v, negb (truth (EMMC_STATUS_GET_DAT_INHIBIT v))).

(** ** One command (emmc_cmd.c) *)

(** [n] words from [ptr] on. *)
Fixpoint write_data (n : nat) (ptr : Z) : io S unit :=
  match n with O => mret tt | Datatypes.S n => v ← load 4 ptr; _ ← write_reg EMMC_DATA v; write_data n (ptr + 4) end.
Fixpoint read_data (n : nat) (ptr : Z) : io S unit :=
  match n with O => mret tt | Datatypes.S n => v ← read_reg EMMC_DATA; _ ← store 4 ptr v; read_data n (ptr + 4) end.

Definition emmc_cmd_process_single_block (buf size : Z) (is_write : bool) : io S Z :=
  let n := Z.to_nat (u64 size / 4) in
  _ ← (if is_write then write_data n buf else read_data n buf);
  mret EMMC_CMD_OK.

Definition emmc_wait_process_interrupts (intbits timeout_usec : Z) : io S Z :=
  o ← emmc_wait_reg_value EMMC_INTERRUPT 0 intbits timeout_usec;
  match o with
  | None => mret EMMC_CMD_TIMEOUT
  | Some intval =>
      _ ← write_reg EMMC_INTERRUPT intval;
      mret (if truth (EMMC_INTERRUPT_GET_ERR intval)
            then (if truth (EMMC_INTERRUPT_GET_CTO_ERR intval) then EMMC_CMD_TIMEOUT else EMMC_CMD_ERR)
            else EMMC_CMD_OK)
  end.

(** Block [block] and the [n - 1] after it. *)
Fixpoint process_blocks (n : nat) (block intbits timeout_usec : Z) (is_write : bool) (c : emmc_cmd_t) : io S Z :=
  match n with
  | O => mret EMMC_CMD_OK
  | Datatypes.S n =>
      status ← emmc_wait_process_interrupts intbits timeout_usec;
      if negb (status =? EMMC_CMD_OK) then mret status else
      let buf := databuf c + u32 (block * block_size c) in
      status ← emmc_cmd_process_single_block buf (s32 (block_size c)) is_write;
      if negb (status =? EMMC_CMD_OK) then mret status else
      process_blocks n (block + 1) intbits timeout_usec is_write c
  end.

Definition emmc_cmd_process_data (c : emmc_cmd_t) (cmdreg timeout_usec : Z) : io S Z :=
  let is_write := EMMC_CMDTM_GET_TM_DAT_DIR cmdreg =? EMMC_TRANS_TYPE_DATA_HOST_TO_CARD in
  let intbits := EMMC_INTERRUPT_CLR_SET_ERR 0 1 in
  let intbits := if is_write then EMMC_INTERRUPT_CLR_SET_WRITE_RDY intbits 1 else EMMC_INTERRUPT_CLR_SET_READ_RDY intbits 1 in
  status ← process_blocks (Z.to_nat (num_blocks c)) 0 intbits timeout_usec is_write c;
  if negb (status =? EMMC_CMD_OK) then mret status else
  let intbits := EMMC_INTERRUPT_CLR_SET_DATA_DONE (EMMC_INTERRUPT_CLR_SET_ERR 0 1) 1 in
  emmc_wait_process_interrupts intbits timeout_usec.

(** The response registers of a command that has been answered. *)
Definition read_response (response_type : Z) (c : emmc_cmd_t) : io S emmc_cmd_t :=
  if response_type =? EMMC_RESPONSE_TYPE_NONE then mret c
  else if response_type =? EMMC_RESPONSE_TYPE_136_BITS then
    r0 ← read_reg EMMC_RESP0; r1 ← read_reg EMMC_RESP1; r2 ← read_reg EMMC_RESP2; r3 ← read_reg EMMC_RESP3;
    mret (set_resp c r0 r1 r2 r3)
  else
    r0 ← read_reg EMMC_RESP0;
    mret (set_resp c r0 (resp1 c) (resp2 c) (resp3 c)).

Definition emmc_do_issue_cmd (c : emmc_cmd_t) (cmdreg timeout_usec : Z) : io S (Z * emmc_cmd_t) :=
  ok ← emmc_wait_cmd_inhibit;
  if negb (ok : bool) then mret (EMMC_CMD_MINUS_1, c) else
  ok ← emmc_wait_dat_inhibit;
  if negb (ok : bool) then mret (EMMC_CMD_MINUS_1, c) else
  let blksizecnt := EMMC_BLKSIZECNT_CLR_SET_BLKSIZE 0 (block_size c) in
  let blksizecnt := EMMC_BLKSIZECNT_CLR_SET_BLKCNT blksizecnt (num_blocks c) in
  _ ← write_reg EMMC_BLKSIZECNT blksizecnt;
  _ ← write_reg EMMC_ARG1 (arg c);
  _ ← write_reg EMMC_CMDTM cmdreg;
  o ← emmc_interrupt_wait_done_or_err timeout_usec true false;
  match o with
  | None => mret (EMMC_CMD_TIMEOUT, c)
  | Some intval =>
      if truth (EMMC_INTERRUPT_GET_ERR intval) then
        _ ← write_reg EMMC_INTERRUPT intval;
        let intval_cmp := EMMC_INTERRUPT_CLR_SET_ERR (EMMC_INTERRUPT_CLR_SET_CTO_ERR 0 1) 1 in
        mret (if truth (EMMC_INTERRUPT_GET_CTO_ERR intval) && (intval_cmp =? intval) then EMMC_CMD_TIMEOUT else EMMC_CMD_ERR, c)
      else
        _ ← write_reg EMMC_INTERRUPT 0xffff0001;
        let response_type := EMMC_CMDTM_GET_CMD_RSPNS_TYPE cmdreg in
        c ← read_response response_type c;
        data_status ← (if truth (EMMC_CMDTM_GET_CMD_ISDATA cmdreg) then emmc_cmd_process_data c cmdreg timeout_usec
                       else mret EMMC_CMD_OK);
        if negb (data_status =? EMMC_CMD_OK) then mret (data_status, c) else
        if response_type =? EMMC_RESPONSE_TYPE_48_BITS_BUSY then
          _ ← read_reg EMMC_INTERRUPT;
          o ← emmc_interrupt_wait_done_or_err timeout_usec false true;
          match o with
          | None => mret (EMMC_CMD_TIMEOUT, c)
          | Some _ => _ ← write_reg EMMC_INTERRUPT 0xffff0002; mret (EMMC_CMD_OK, c)
          end
        else mret (EMMC_CMD_OK, c)
  end.

(** Interrupts left over are acknowledged first.  The index of an application
    command keeps its bit 31 when the table is read. *)
Definition emmc_cmd (c : emmc_cmd_t) (timeout_usec : Z) : io S (Z * emmc_cmd_t) :=
  intval ← read_reg EMMC_INTERRUPT;
  _ ← (if truth intval then write_reg EMMC_INTERRUPT intval else mret tt);
  if EMMC_CMD_IS_ACMD (cmd_idx c) then
    let tmp_cmd := set_blocks (emmc_cmd_init EMMC_CMD55 (Z.shiftl (rca c) 16)) (block_size c) (num_blocks c) in
    reg55 ← lift (table_read sd_commands EMMC_CMD55);
    '(tmp_status, _) ← emmc_do_issue_cmd tmp_cmd reg55 timeout_usec;
    if negb (tmp_status =? EMMC_CMD_OK) then mret (tmp_status, c) else
    cmdreg ← lift (table_read sd_acommands (cmd_idx c));
    emmc_do_issue_cmd c cmdreg timeout_usec
  else
    cmdreg ← lift (table_read sd_commands (cmd_idx c));
    emmc_do_issue_cmd c cmdreg timeout_usec.

(** [emmc_cmd_status_to_err(emmc_cmd(&c, timeout))], with the command after it. *)
Definition run_cmd (c : emmc_cmd_t) (timeout_usec : Z) : io S (Z * emmc_cmd_t) :=
  '(status, c) ← emmc_cmd c timeout_usec;
  err ← lift (emmc_cmd_status_to_err status);
  mret (err, c).

Definition emmc_reset_cmd : io S Z :=
  control1 ← read_reg EMMC_CONTROL1;
  _ ← write_reg EMMC_CONTROL1 (EMMC_CONTROL1_CLR_SET_SRST_CMD control1 1);
  o ← emmc_wait_reg_value EMMC_CONTROL1 EMMC_CONTROL1_MASK_SRST_CMD 0 EMMC_WAIT_TIMEOUT_USEC;
  mret (match o with None => ERR_TIMEOUT | Some _ => ERR_OK end).

(** ** The commands used *)
Definition err_only (m : io S (Z * emmc_cmd_t)) : io S Z := '(err, _) ← m; mret err.

Definition emmc_cmd0 : io S Z := err_only (run_cmd (emmc_cmd_init EMMC_CMD0 0) EMMC_WAIT_TIMEOUT_USEC).
(** The identifier goes to the four words at [device_id]. *)
Definition emmc_cmd2 (device_id : Z) : io S Z :=
  '(err, c) ← run_cmd (emmc_cmd_init EMMC_CMD2 0) EMMC_WAIT_TIMEOUT_USEC;
  if negb (err =? ERR_OK) then mret err else
  _ ← store 4 device_id (resp0 c); _ ← store 4 (device_id + 4) (resp1 c);
  _ ← store 4 (device_id + 8) (resp2 c); _ ← store 4 (device_id + 12) (resp3 c);
  mret ERR_OK.
(** The card's address, when the error bit of the answer is clear. *)
Definition emmc_cmd3 : io S Z :=
  '(err, c) ← run_cmd (emmc_cmd_init EMMC_CMD3 0) EMMC_WAIT_TIMEOUT_USEC;
  if negb (err =? ERR_OK) then mret err else
  if truth (BF_EXTRACT (resp0 c) 13 1) then mret ERR_GENERIC else
  _ ← set_rca_var (BF_EXTRACT (resp0 c) 16 16);
  mret ERR_OK.
Definition emmc_cmd5 : io S Z := err_only (run_cmd (emmc_cmd_init EMMC_CMD5 0) 2000).
Definition emmc_cmd7 (rca : Z) : io S Z := err_only (run_cmd (emmc_cmd_init EMMC_CMD7 (Z.shiftl rca 16)) EMMC_WAIT_TIMEOUT_USEC).
Definition emmc_cmd8 : io S Z :=
  '(err, c) ← run_cmd (emmc_cmd_init EMMC_CMD8 EMMC_CMD8_ARG) EMMC_WAIT_TIMEOUT_USEC;
  if negb (err =? ERR_OK) then mret err else
  mret (if negb (resp0 c =? EMMC_CMD8_VALID_RESP) then ERR_GENERIC else ERR_OK).
Definition emmc_cmd13 (rca : Z) : io S (Z * option Z) :=
  '(err, c) ← run_cmd (emmc_cmd_init EMMC_CMD13 (Z.shiftl rca 16)) EMMC_WAIT_TIMEOUT_USEC;
  mret (if negb (err =? ERR_OK) then (err, None) else (ERR_OK, Some (resp0 c))).
Definition emmc_cmd17 (block_idx dstbuf : Z) : io S Z :=
  err_only (run_cmd (set_blocks (set_databuf (emmc_cmd_init EMMC_CMD17 block_idx) dstbuf) 512 1) EMMC_WAIT_TIMEOUT_USEC).
Definition emmc_cmd24 (block_idx srcbuf : Z) : io S Z :=
  err_only (run_cmd (set_blocks (set_databuf (emmc_cmd_init EMMC_CMD24 block_idx) srcbuf) 512 1) EMMC_WAIT_TIMEOUT_USEC).
Definition emmc_acmd6 (rca bus_width_bit : Z) : io S Z :=
  err_only (run_cmd (set_rca (emmc_cmd_init EMMC_ACMD6 bus_width_bit) rca) EMMC_WAIT_TIMEOUT_USEC).
(** [None] leaves the answer as it was. *)
Definition emmc_acmd41 (a : Z) : io S (Z * option Z) :=
  '(err, c) ← run_cmd (emmc_cmd_init EMMC_ACMD41 a) EMMC_WAIT_TIMEOUT_USEC;
  mret (if negb (err =? ERR_OK) then (err, None) else (ERR_OK, Some (resp0 c))).
Definition emmc_acmd51 (rca scrbuf scrbuf_len : Z) : io S Z :=
  if scrbuf_len <? 8 then mret (-1) else
  if truth (Z.land scrbuf 3) then mret (-1) else
  err_only (run_cmd (set_databuf (set_rca (set_blocks (emmc_cmd_init EMMC_ACMD51 0) 8 1) rca) scrbuf) (EMMC_WAIT_TIMEOUT_USEC * 4)).

(** ** Reading and writing a block (emmc.c); the number of blocks is not used *)
Definition emmc_read (first_block_idx num_blocks buf bufsz : Z) : io S Z :=
  cmd_err ← emmc_cmd17 (u32 first_block_idx) buf; mret (if truth cmd_err then -1 else 0).
Definition emmc_write (first_block_idx num_blocks buf bufsz : Z) : io S Z :=
  cmd_err ← emmc_cmd24 (u32 first_block_idx) buf; mret (if truth cmd_err then -1 else 0).

(** ** The clock (emmc_utils.c); [firmware] answers the mailbox *)
Section init.
Context (firmware : list Z → list Z * bool).

Definition mbox_op {A} (f : mbox → outcome (mbox * A)) : io S A := λ s, '(b, a) ← f (mb s); Ret (a, with_mb s b).

Definition MBOX_CLOCK_ID_EMMC : Z := 1.
Definition MBOX_DEVICE_ID_SD : Z := 0.
Definition EMMC_CLOCK_HZ_SETUP : Z := 400000.
Definition EMMC_CLOCK_HZ_NORMAL : Z := 25000000.

Definition emmc_get_clock_div (target_clock : Z) : io S Z :=
  rate ← mbox_op (mbox_get_clock_rate firmware MBOX_CLOCK_ID_EMMC);
  mret (match rate with
        | None => u32 (-1)
        | Some base_clock =>
            if base_clock =? 200000000 then
              if target_clock =? EMMC_CLOCK_HZ_SETUP then 64 else if target_clock =? EMMC_CLOCK_HZ_NORMAL then 4 else 0
            else 0
        end).

Definition emmc_wait_clock_stabilized (timeout_usec : Z) : io S (option Z) :=
  emmc_wait_reg_value EMMC_CONTROL1 EMMC_CONTROL1_MASK_CLK_STABLE EMMC_CONTROL1_MASK_CLK_STABLE timeout_usec.

(** The log reads the status. *)
Definition emmc_set_clock (target_hz : Z) : io S Z :=
  div ← emmc_get_clock_div target_hz;
  if div =? 0 then mret ERR_GENERIC else
  ok ← emmc_wait_cmd_dat_ready;
  if negb (ok : bool) then mret ERR_GENERIC else
  _ ← read_reg EMMC_STATUS;
  control1 ← read_reg EMMC_CONTROL1;
  let control1 := EMMC_CONTROL1_CLR_SET_DATA_TOUNIT control1 0xb in
  let control1 := EMMC_CONTROL1_CLR_SET_CLK_INTLEN control1 1 in
  _ ← write_reg EMMC_CONTROL1 (Z.lor control1 div);
  o ← emmc_wait_clock_stabilized 1000;
  mret (match o with None => ERR_TIMEOUT | Some _ => ERR_OK end).

(** ** Initialisation (emmc_initialize.c) *)
Definition emmc_set_block_size (block_size : Z) : io S unit :=
  regval ← read_reg EMMC_BLKSIZECNT;
  write_reg EMMC_BLKSIZECNT (Z.lor (Z.land regval 0xffff) block_size).

(** [if (err != ERR_OK) return err]. *)
Definition EMMC_CHECK_ERR (m : io S Z) (k : io S Z) : io S Z := err ← m; if negb (err =? ERR_OK) then mret err else k.

(** The first four bytes of the SCR are its upper word. *)
Definition emmc_reset_handle_scr (rca scr : Z) : io S Z :=
  s0 ← load 1 scr; s1 ← load 1 (scr + 1); s2 ← load 1 (scr + 2); s3 ← load 1 (scr + 3);
  let scr_le32 := u32 (Z.lor (Z.shiftl s0 24) (Z.lor (Z.shiftl s1 16) (Z.lor (Z.shiftl s2 8) s3))) in
  let bus_width := BF_EXTRACT scr_le32 16 4 in
  let done := _ ← write_reg EMMC_INTERRUPT 0xffffffff; mret ERR_OK in
  if truth (Z.land bus_width 4) then
    EMMC_CHECK_ERR (emmc_acmd6 rca EMMC_BUS_WIDTH_4BITS) (
      control0 ← read_reg EMMC_CONTROL0;
      _ ← write_reg EMMC_CONTROL0 (EMMC_CONTROL0_CLR_SET_HCTL_DWIDTH control0 1);
      done)
  else done.

(** [emmc_device_id] is the address of the array of that name, declared a
    pointer here; [scr] is the address of the local buffer. *)
Context (emmc_device_id scr : Z).

(** From the identification of the card on. *)
Definition emmc_reset_identify : io S Z :=
  EMMC_CHECK_ERR (emmc_set_clock EMMC_CLOCK_HZ_NORMAL) (
  EMMC_CHECK_ERR (p ← load 8 emmc_device_id; emmc_cmd2 p) (
  EMMC_CHECK_ERR emmc_cmd3 (
  rca ← get_var emmc_rca;
  EMMC_CHECK_ERR (emmc_cmd7 rca) (
  EMMC_CHECK_ERR ('(err, _) ← emmc_cmd13 rca; mret err) (
  _ ← emmc_set_block_size EMMC_BLOCK_SIZE;
  EMMC_CHECK_ERR (emmc_acmd51 rca scr 8) (
  EMMC_CHECK_ERR (emmc_reset_handle_scr rca scr) (mret ERR_OK))))))).

(** The voltage negotiation: ACMD41 until bit 31 of the answer is set; the
    errors of the repeated commands are not looked at. *)
Fixpoint acmd41_wait (fuel : nat) (r : Z) : io S Z :=
  if BIT_IS_CLEAR r 31 then
    match fuel with
    | O => lift NoFuel
    | Datatypes.S fuel =>
        '(_, o) ← emmc_acmd41 (Z.lor 0xff8000 (Z.lor (Z.shiftl 1 28) (Z.shiftl 1 30)));
        acmd41_wait fuel (default r o)
    end
  else mret ERR_OK.
Definition emmc_reset_negotiate (fuel : nat) : io S Z :=
  '(err, resp) ← emmc_acmd41 0;
  if negb (err =? ERR_OK) then mret err else acmd41_wait fuel (default 0 resp).

Definition emmc_reset (fuel : nat) : io S Z :=
  _ ← write_reg EMMC_CONTROL0 0;
  _ ← mbox_op (mbox_get_power_state firmware MBOX_DEVICE_ID_SD);
  control1 ← read_reg EMMC_CONTROL1;
  _ ← write_reg EMMC_CONTROL1 (EMMC_CONTROL1_CLR_CLK_EN (EMMC_CONTROL1_CLR_CLK_INTLEN (EMMC_CONTROL1_CLR_SET_SRST_HC control1 1)));
  o ← poll_reg 1000 EMMC_CONTROL1 (λ v, negb (truth (EMMC_CONTROL1_GET_SRST_HC v)));
  match o with
  | None => mret ERR_TIMEOUT
  | Some _ =>
      _ ← write_reg EMMC_CONTROL2 0;
      EMMC_CHECK_ERR (emmc_set_clock EMMC_CLOCK_HZ_SETUP) (
      _ ← read_reg EMMC_STATUS;
      control1 ← read_reg EMMC_CONTROL1;
      _ ← write_reg EMMC_CONTROL1 (EMMC_CONTROL1_CLR_SET_CLK_EN control1 1);
      _ ← write_reg EMMC_IRPT_EN 0;
      _ ← write_reg EMMC_INTERRUPT 0xffffffff;
      _ ← write_reg EMMC_IRPT_MASK 0xfffffeff;
      EMMC_CHECK_ERR emmc_cmd0 (
      EMMC_CHECK_ERR emmc_cmd8 (
      err ← emmc_cmd5;
      if err =? ERR_OK then mret ERR_NOT_IMPLEMENTED else
      if negb (err =? ERR_TIMEOUT) then mret err else
      EMMC_CHECK_ERR emmc_reset_cmd (
      EMMC_CHECK_ERR (emmc_reset_negotiate fuel) emmc_reset_identify))))
  end.

Definition emmc_init (fuel : nat) : io S Z :=
  done ← get_var emmc_is_initialized;
  if (done : bool) then mret ERR_OK else
  EMMC_CHECK_ERR (emmc_reset fuel) (_ ← set_initialized; mret ERR_OK).
End init.
End emmc.

(** ** Logs of the driver

    [hw_only] of the driver's state: only the controller has changed. *)
#[export] Program Instance emmc_traced {D} `{Mmio D} : TracedState (emmc (traced D)) := {|
  ts_log s := tr_log (hw s); hw_only s s' := s' = with_hw s (hw s') |}.
Next Obligation.
  intros D ?. split.
  - by intros [].
  - intros [] s2 s3. cbn. by intros -> ->.
Qed.
Next Obligation. intros D ? r [[d l] ????]. cbn. by destruct (mmio_read r d). Qed.
Next Obligation. by intros D ? r v [[d l] ????]. Qed.

Lemma bit_extract v i : 0 ≤ i → truth (BF_EXTRACT v i 1) = Z.testbit v i.
Proof. intros. rewrite BF_EXTRACT_spec, <- Z.testbit_spec' by lia. by destruct (Z.testbit v i). Qed.

Lemma land_two_bits v i j : 0 ≤ i → 0 ≤ j → Z.testbit v i = false → truth (Z.land v (Z.lor (2 ^ i) (2 ^ j))) = true → Z.testbit v j = true.
Proof.
  intros Hi Hj Ei Hg. destruct (Z.testbit v j) eqn:Ej; [done|]. exfalso.
  assert (Z.land v (Z.lor (2 ^ i) (2 ^ j)) = 0) as E; [|by rewrite E in Hg].
  apply Z.bits_inj'; intros k Hk. rewrite Z.bits_0, Z.land_spec, Z.lor_spec, !testbit_pow2 by done.
  destruct (Z.eqb_spec k i) as [->|]; [by rewrite Ei|]. destruct (Z.eqb_spec k j) as [->|]; [by rewrite Ej|]. apply andb_false_r.
Qed.

(** The interrupt register is polled until bit [b] or the error bit is set, and
    what was read is written back: bit [b] was set, and the error bit was not. *)
Definition acked (n : nat) (b : Z) : lang := λ l, ∃ v c,
  (polls n EMMC_INTERRUPT c v +++ one (Wr EMMC_INTERRUPT (u32 v)))%lang l ∧ Z.testbit v b = true ∧ Z.testbit v 15 = false.

(** The card answers a command: neither line is inhibited, the command words are
    written, and its completion is polled and acknowledged. *)
Definition status_free (bit : Z) : lang := λ l, ∃ v c, polls 1000 EMMC_STATUS c v l ∧ Z.testbit v bit = false.
Definition issued (n : nat) (blksizecnt a cmdreg : Z) : lang :=
  (status_free 0 +++ status_free 1 +++ one (Wr EMMC_BLKSIZECNT blksizecnt) +++ one (Wr EMMC_ARG1 a) +++ one (Wr EMMC_CMDTM cmdreg) +++
   (λ l, ∃ v c, polls n EMMC_INTERRUPT c v l ∧ Z.testbit v 0 = true ∧ Z.testbit v 15 = false) +++
   one (Wr EMMC_INTERRUPT 0xffff0001))%lang.

(** Interrupts left over are acknowledged. *)
Definition cleared : lang := λ l, ∃ v, (one (Rd EMMC_INTERRUPT v) +++ (if truth v then one (Wr EMMC_INTERRUPT (u32 v)) else nothing))%lang l.

(** The words [ws] of a block go over the data port. *)
Definition words_in (ws : list Z) : lang := λ l, l = map (Rd EMMC_DATA) ws.
Definition words_out (ws : list Z) : lang := λ l, l = map (Wr EMMC_DATA) ws.

(** The number of polls before the time-out of a command. *)
Definition patience : nat := Z.to_nat (EMMC_WAIT_TIMEOUT_USEC / wait_step_usec).

(** A block command that succeeds: bit [rdy] announces the block. *)
Definition block_command (cmdreg block rdy : Z) (data : lang) : lang :=
  (cleared +++ issued patience 0x10200 block (u32 cmdreg) +++ some_read EMMC_RESP0 (λ _, True) +++ acked patience rdy +++ data +++ acked patience 1)%lang.

Lemma block_command_mono reg block rdy (P Q : lang) l : (∀ l, P l → Q l) → block_command reg block rdy P l → block_command reg block rdy Q l.
Proof.
  intros HPQ. do 4 (apply seqt_mono_r; intros ?). by apply seqt_mono_l.
Qed.

Lemma block_command_data reg block rdy (P : lang) l : block_command reg block rdy P l → ∃ l', P l'.
Proof.
  intros (? & ? & _ & _ & ? & ? & _ & _ & ? & ? & _ & _ & ? & ? & _ & _ & l' & ? & _ & HP & _). by exists l'.
Qed.

(** The controller never lets a command through: one of the lines is inhibited
    each of the thousand times it is looked at. *)
Definition status_busy (bit : Z) : lang := λ l, ∃ vs, l = map (Rd EMMC_STATUS) vs ∧ length vs = 1000%nat ∧
  Forall (λ v, Z.testbit v bit = true) vs.
Definition inhibited : lang := λ l, status_busy 0 l ∨ (status_free 0 +++ status_busy 1)%lang l.

(** Only the controller and memory have changed. *)
Definition ram_only {D} (s s' : emmc D) : Prop := s' = with_ram (with_hw s (hw s')) (ram s').

Definition cmd_status (st : Z) : Prop := st = EMMC_CMD_OK ∨ st = EMMC_CMD_ERR ∨ st = EMMC_CMD_TIMEOUT.

Section logs.
Context {D : Type} `{Mmio D}.
Implicit Types (s : emmc (traced D)).

Lemma poll_reg_does n r good s : does (poll_reg n r good) s (λ o s' l, hw_only s s' ∧
  match o with Some v => polls n r good v l | None => polls_fail n r good l end).
Proof.
  revert s; induction n as [|n IH]; intros s; cbn [poll_reg].
  - apply does_ret. split; [done|]. by exists [].
  - does_step. destruct (good v) eqn:Eg.
    + apply does_ret. split; [done|]. by apply polls_here.
    + eapply does_mono; [apply IH|]. intros o s2 l [Hh Ho]. split; [by etransitivity|].
      destruct o; [by apply polls_next|by apply polls_fail_next].
Qed.

Lemma wait_status_does good s : does (wait_status good) s (λ ok s' l, hw_only s s' ∧
  if ok then ∃ v, polls 1000 EMMC_STATUS good v l else polls_fail 1000 EMMC_STATUS good l).
Proof.
  eapply does_bind; [apply poll_reg_does|]. intros o s' l [Hh Ho]. apply does_ret. rewrite app_nil_r. split; [done|].
  destruct o; [by eexists|done].
Qed.

Lemma store_does n p v s : mapped (ram s) p (Z.of_nat n) →
  does (store n p v) s (λ _ s' l, l = [] ∧ s' = with_ram s (write_bytes (ram s) p (le_bytes n v))).
Proof.
  intros Hm. eexists tt, _, []. rewrite app_nil_r. split; [|split; [|done]]; [|done].
  unfold store. by rewrite store_le_bytes.
Qed.

Lemma load_does n p v s : bytes_at (ram s) p (le_bytes n v) →
  does (load n p) s (λ w s' l, l = [] ∧ s' = s ∧ w = v mod 2 ^ (8 * Z.of_nat n)).
Proof.
  intros Hb. eexists _, s, []. rewrite app_nil_r. split; [|done]. unfold load. by rewrite (load_le_bytes n _ _ v Hb).
Qed.

(** The words of a block. *)
Lemma read_data_does n ptr s : mapped (ram s) ptr (4 * Z.of_nat n) → does (read_data n ptr) s (λ _ s' l, ∃ ws,
  length ws = n ∧ words_in ws l ∧ s' = with_ram (with_hw s (hw s')) (write_bytes (ram s) ptr (concat (map (le_bytes 4) ws)))).
Proof.
  revert ptr s; induction n as [|n IH]; intros ptr s Hm; cbn [read_data].
  - apply does_ret. exists []. split_and!; [done|done|]. by destruct s.
  - does_step. cbn in H0. assert (ram s' = ram s) as Er by (by rewrite H0). eapply does_bind.
    + apply store_does. rewrite Er. intros q Hq. apply Hm. lia.
    + intros [] s2 l [-> ->]. cbn [app]. eapply does_mono; [apply IH|].
      * rewrite Er. change (mapped (write_bytes (ram s) ptr (le_bytes 4 v)) (ptr + 4) (4 * Z.of_nat n)).
        apply write_bytes_mapped. intros q Hq. apply Hm. lia.
      * intros [] s3 l3 (ws & Hlen & Hl & E3). exists (v :: ws). split_and!; [by rewrite <- Hlen|by rewrite Hl|].
        rewrite E3, H0. cbn [map concat]. by rewrite (write_bytes_app _ _ (le_bytes 4 v)), le_bytes_length.
Qed.

Lemma write_data_does ws ptr s : bytes_at (ram s) ptr (concat (map (le_bytes 4) ws)) → Forall (λ w, 0 ≤ w < 2 ^ 32) ws →
  does (write_data (length ws) ptr) s (λ _ s' l, words_out ws l ∧ hw_only s s').
Proof.
  revert ptr s; induction ws as [|w ws IH]; intros ptr s Hb Hws; cbn [write_data length].
  - by apply does_ret.
  - apply Forall_cons in Hws as [Hw Hws]. cbn [map concat] in Hb. apply bytes_at_app in Hb as [Hb Hbs].
    rewrite le_bytes_length in Hbs. eapply does_bind.
    + apply (load_does 4 ptr w), Hb.
    + intros v s2 l (-> & -> & ->). cbn [app]. does_step. eapply does_mono; [apply IH|].
      * rewrite H0. cbn. replace (ptr + 4) with (ptr + Z.of_nat 4) by lia. exact Hbs.
      * done.
      * intros [] s3 l3 [Hl Hh]. split; [|by etransitivity]. unfold words_out. rewrite Hl. cbn [map]. by rewrite (Z.mod_small w), u32_id by lia.
Qed.

Lemma wait_intr_does b T s : 0 ≤ b → let n := Z.to_nat (T / 100) in
  does (emmc_wait_process_interrupts (Z.lor (2 ^ 15) (2 ^ b)) T) s (λ st s' l,
    hw_only s s' ∧ (length l ≤ n + 1)%nat ∧ cmd_status st ∧ (st = EMMC_CMD_OK → acked n b l)).
Proof.
  intros Hb n. eapply does_bind; [apply poll_reg_does|]. intros [v|] s' l [Hh Hp].
  - does_step. does_step. rewrite length_app. pose proof (polls_length _ _ _ _ _ Hp). cbn [length].
    split; [by etransitivity|]. split; [unfold n, wait_step_usec in *; lia|].
    unfold EMMC_INTERRUPT_GET_ERR, EMMC_INTERRUPT_GET_CTO_ERR. rewrite !bit_extract by lia.
    destruct (Z.testbit v 15) eqn:E15; [destruct (Z.testbit v 16); (split; [unfold cmd_status; tauto|done])|].
    split; [by left|]. intros _. exists v, (reg_value_good 0 (Z.lor (2 ^ 15) (2 ^ b))). split; [by apply seqt_app|].
    split; [|done]. destruct Hp as (vs & _ & _ & _ & Hg). apply (land_two_bits v 15 b); [lia|done|done|exact Hg].
  - does_step. pose proof (polls_fail_length _ _ _ _ Hp). rewrite app_nil_r. split; [done|].
    split; [unfold n, wait_step_usec in *; lia|]. split; [right; by right|done].
Qed.

Lemma wait_inhibit_does bit s : 0 ≤ bit → does (wait_status (λ v, negb (truth (BF_EXTRACT v bit 1)))) s (λ ok s' l,
  hw_only s s' ∧ (length l ≤ 1000)%nat ∧ if ok then status_free bit l else status_busy bit l).
Proof.
  intros Hb. eapply does_mono; [apply wait_status_does|]. intros ok s' l [Hh Hp]. split; [done|]. destruct ok.
  - destruct Hp as [v Hp]. split; [by eapply polls_length|]. exists v. eexists. split; [exact Hp|].
    destruct Hp as (_ & _ & _ & _ & Hv). rewrite bit_extract in Hv by done. by destruct (Z.testbit v bit).
  - pose proof (polls_fail_length _ _ _ _ Hp). split; [lia|]. destruct Hp as (vs & El & Hn & Hvs). exists vs. split_and!; [done|done|].
    eapply Forall_impl; [exact Hvs|]. cbn. intros v Hv. rewrite bit_extract in Hv by done. by destruct (Z.testbit v bit).
Qed.

(** Waiting for the completion of the command itself. *)
Lemma wait_cmd_done_does T s : let n := Z.to_nat (T / 100) in does (emmc_interrupt_wait_done_or_err T true false) s (λ o s' l,
  hw_only s s' ∧ (length l ≤ n)%nat ∧
  match o with None => True | Some v => Z.testbit v 15 = false → ∃ c, polls n EMMC_INTERRUPT c v l ∧ Z.testbit v 0 = true end).
Proof.
  intros n. eapply does_mono; [apply poll_reg_does|]. fold n. intros [v|] s' l [Hh Hp].
  - split; [done|]. split; [by eapply polls_length|]. intros E15. eexists. split; [exact Hp|]. destruct Hp as (_ & _ & _ & _ & Hg).
    by apply (land_two_bits v 15 0).
  - split; [done|]. pose proof (polls_fail_length _ _ _ _ Hp). split; [unfold n, wait_step_usec in *; lia|done].
Qed.

(** A command with one block of 512 bytes, in either direction: [moved m l] says
    that the block went over the data port with the accesses [l] and left the
    memory [m]; the memory before is [m0]. *)
Section block_command.
Context (reg rdy : Z) (is_write : bool) (m0 : mem) (moved : mem → lang) (c : emmc_cmd_t).
Hypothesis Hdir : (EMMC_CMDTM_GET_TM_DAT_DIR reg =? EMMC_TRANS_TYPE_DATA_HOST_TO_CARD) = is_write.
Hypothesis Hbits : (if is_write then EMMC_INTERRUPT_CLR_SET_WRITE_RDY (EMMC_INTERRUPT_CLR_SET_ERR 0 1) 1
  else EMMC_INTERRUPT_CLR_SET_READ_RDY (EMMC_INTERRUPT_CLR_SET_ERR 0 1) 1) = Z.lor (2 ^ 15) (2 ^ rdy).
Hypothesis Hrdy : 0 ≤ rdy.
Hypothesis Hblocks : num_blocks c = 1 ∧ block_size c = 512.
Hypothesis Hmove : ∀ s, ram s = m0 → does (emmc_cmd_process_single_block (databuf c) 512 is_write) s (λ st s' l,
  st = EMMC_CMD_OK ∧ ram_only s s' ∧ length l = 128%nat ∧ moved (ram s') l).

(** What the memory is afterwards: untouched, or with the block moved. *)
Definition moved_or_not (m : mem) : Prop := m = m0 ∨ ∃ l, moved m l.

Lemma process_data_does r0 r1 r2 r3 T s : ram s = m0 → let n := Z.to_nat (T / 100) in
  does (emmc_cmd_process_data (set_resp c r0 r1 r2 r3) reg T) s (λ st s' l, ram_only s s' ∧ (length l ≤ 2 * n + 130)%nat ∧ cmd_status st ∧
    moved_or_not (ram s') ∧ (st = EMMC_CMD_OK → (acked n rdy +++ moved (ram s') +++ acked n 1)%lang l)).
Proof using All.
  intros Hm n. unfold emmc_cmd_process_data. rewrite Hdir, Hbits. destruct Hblocks as [Hn Hs]. change (num_blocks (set_resp c r0 r1 r2 r3)) with (num_blocks c). rewrite Hn.
  change (Z.to_nat 1) with 1%nat. cbn [process_blocks]. change (block_size (set_resp c r0 r1 r2 r3)) with (block_size c).
  change (databuf (set_resp c r0 r1 r2 r3)) with (databuf c). rewrite Hs.
  eapply does_bind with (P := λ st s' l, ram_only s s' ∧ (length l ≤ n + 129)%nat ∧ cmd_status st ∧ moved_or_not (ram s') ∧
    (st = EMMC_CMD_OK → (acked n rdy +++ moved (ram s'))%lang l)).
  - eapply does_bind; [by apply wait_intr_does|]. intros st s1 l1 (Hh & Hl & Hst & Hok). fold n in Hl, Hok.
    destruct (Z.eqb_spec st EMMC_CMD_OK) as [->|Hne]; cbn [negb].
    + rewrite Z.mul_0_l. change (u32 0) with 0. rewrite Z.add_0_r. change (s32 512) with 512.
      eapply does_bind; [apply Hmove; by rewrite Hh|]. intros st2 s2 l2 (-> & Hr & Hl2 & Hmv). change (EMMC_CMD_OK =? EMMC_CMD_OK) with true.
      cbn [negb]. apply does_ret. rewrite app_nil_r, length_app. split; [rewrite Hr, Hh; done|]. split; [lia|].
      split; [by left|]. split; [right; by eexists|]. intros _. apply seqt_app; [by apply Hok|done].
    + apply does_ret. rewrite app_nil_r. split; [rewrite Hh; by destruct s|]. split; [lia|]. split; [done|].
      split; [left; by rewrite Hh|done].
  - intros st s1 l1 (Hr & Hl & Hst & Hmv & Hok). destruct (Z.eqb_spec st EMMC_CMD_OK) as [->|Hne]; cbn [negb].
    + change (EMMC_INTERRUPT_CLR_SET_DATA_DONE (EMMC_INTERRUPT_CLR_SET_ERR 0 1) 1) with (Z.lor (2 ^ 15) (2 ^ 1)).
      eapply does_mono; [by apply wait_intr_does|]. intros st2 s2 l2 (Hh & Hl2 & Hst2 & Hok2). fold n in Hl2, Hok2.
      assert (ram s2 = ram s1) as Er by (by rewrite Hh).
      rewrite length_app. split; [rewrite Hh, Hr; done|]. split; [lia|]. split; [done|]. rewrite Er. split; [done|].
      intros E. apply seqt_assoc, seqt_app; auto.
    + apply does_ret. rewrite app_nil_r. split_and!; [done|lia|done|done|done].
Qed.

Hypothesis Hdata : EMMC_CMDTM_GET_CMD_ISDATA reg = 1.
Hypothesis Hresp : EMMC_CMDTM_GET_CMD_RSPNS_TYPE reg = EMMC_RESPONSE_TYPE_48_BITS.

(** From the answer to the command on. *)
Lemma answered_does T s : ram s = m0 → let n := Z.to_nat (T / 100) in
  does (c ← read_response (EMMC_CMDTM_GET_CMD_RSPNS_TYPE reg) c;
        data_status ← (if truth (EMMC_CMDTM_GET_CMD_ISDATA reg) then emmc_cmd_process_data c reg T else mret EMMC_CMD_OK);
        if negb (data_status =? EMMC_CMD_OK) then mret (data_status, c) else
        if EMMC_CMDTM_GET_CMD_RSPNS_TYPE reg =? EMMC_RESPONSE_TYPE_48_BITS_BUSY then
          _ ← read_reg EMMC_INTERRUPT;
          o ← emmc_interrupt_wait_done_or_err T false true;
          match o with
          | None => mret (EMMC_CMD_TIMEOUT, c)
          | Some _ => _ ← write_reg EMMC_INTERRUPT 0xffff0002; mret (EMMC_CMD_OK, c)
          end
        else mret (EMMC_CMD_OK, c)) s (λ r s' l, ram_only s s' ∧ (length l ≤ 2 * n + 131)%nat ∧ cmd_status (fst r) ∧
    moved_or_not (ram s') ∧ (fst r = EMMC_CMD_OK →
      (some_read EMMC_RESP0 (λ _, True) +++ acked n rdy +++ moved (ram s') +++ acked n 1)%lang l)).
Proof using All.
  intros Hm n. rewrite Hdata, Hresp. unfold read_response.
  change (EMMC_RESPONSE_TYPE_48_BITS =? EMMC_RESPONSE_TYPE_NONE) with false.
  change (EMMC_RESPONSE_TYPE_48_BITS =? EMMC_RESPONSE_TYPE_136_BITS) with false. change (truth 1) with true. cbn iota.
  eapply does_bind with (P := λ c' s' l, hw_only s s' ∧ (∃ v, l = [Rd EMMC_RESP0 v] ∧ c' = set_resp c v (resp1 c) (resp2 c) (resp3 c))).
  { does_step. apply does_ret. split; [done|]. by eexists. }
  intros c' s1 l1 [Hh (v & -> & ->)]. set (c' := set_resp c _ _ _ _). assert (ram s1 = m0) as Hm1 by (by rewrite Hh).
  eapply does_bind; [exact (process_data_does _ _ _ _ T s1 Hm1)|]. fold n. intros st s2 l2 (Hr & Hl & Hst & Hmv & Hok).
  assert (ram_only s s2) as Hr2 by (rewrite Hr, Hh; by destruct s).
  change (EMMC_RESPONSE_TYPE_48_BITS =? EMMC_RESPONSE_TYPE_48_BITS_BUSY) with false.
  destruct (Z.eqb_spec st EMMC_CMD_OK) as [->|Hne]; cbn [negb]; apply does_ret; rewrite app_nil_r; cbn [app length fst];
    (split; [done|]; split; [lia|]; split; [done|]; split; [done|]); [|done].
  intros _. apply (seqt_app _ _ [_]); [by exists v|auto].
Qed.

(** One command issued. *)
Definition block_outcome (n : nat) (st : Z) (m : mem) (l : list access) : Prop :=
  st = EMMC_CMD_MINUS_1 ∧ inhibited l ∧ m = m0 ∨
  cmd_status st ∧ moved_or_not m ∧ (st = EMMC_CMD_OK →
    (issued n 0x10200 (u32 (arg c)) (u32 reg) +++ some_read EMMC_RESP0 (λ _, True) +++ acked n rdy +++ moved m +++ acked n 1)%lang l).

Lemma issue_does T s : ram s = m0 → let n := Z.to_nat (T / 100) in
  does (emmc_do_issue_cmd c reg T) s (λ r s' l, ram_only s s' ∧ (length l ≤ 3 * n + 2135)%nat ∧ block_outcome n (fst r) (ram s') l).
Proof using All.
  intros Hm n. destruct Hblocks as [En Es].
  eapply does_bind; [by apply (wait_inhibit_does 0)|]. intros ok s1 l1 (H1 & Hl1 & Hok1). destruct ok; cbn [negb]; cycle 1.
  { apply does_ret. rewrite app_nil_r. split; [rewrite H1; by destruct s|]. split; [lia|]. left. split_and!; [done|by left|by rewrite H1]. }
  eapply does_bind; [by apply (wait_inhibit_does 1)|]. intros ok s2 l2 (H2 & Hl2 & Hok2). assert (hw_only s s2) as H02 by (by etransitivity).
  destruct ok; cbn [negb]; cycle 1.
  { apply does_ret. rewrite app_nil_r, length_app. split; [rewrite H02; by destruct s|]. split; [lia|]. left.
    split_and!; [done|right; by apply seqt_app|by rewrite H02]. }
  rewrite En, Es. apply does_write_bind; intros s3 H3. apply does_write_bind; intros s4 H4. apply does_write_bind; intros s5 H5.
  eapply does_bind; [apply wait_cmd_done_does|]. intros o s6 l6 (H6 & Hl6 & Hok6). fold n in Hl6, Hok6.
  assert (hw_only s s6) as H06 by (repeat (etransitivity; [eassumption|]); reflexivity).
  destruct o as [v|]; cycle 1.
  { apply does_ret. rewrite !length_app. cbn [length]. rewrite length_app. cbn [length]. split; [rewrite H06; by destruct s|]. split; [lia|]. right.
    split; [right; by right|]. split; [left; by rewrite H06|done]. }
  unfold EMMC_INTERRUPT_GET_ERR, EMMC_INTERRUPT_GET_CTO_ERR. rewrite !bit_extract by lia. destruct (Z.testbit v 15) eqn:E15.
  { apply does_write_bind; intros s7 H7. assert (hw_only s s7) as H07 by (by etransitivity). apply does_ret.
    rewrite !length_app. cbn [length]. rewrite length_app. cbn [length]. split; [rewrite H07; by destruct s|]. split; [lia|]. right.
    destruct (_ && _); cbn [fst]; (split; [unfold cmd_status; tauto|]; split; [left; by rewrite H07|done]). }
  apply does_write_bind; intros s7 H7. assert (hw_only s s7) as H07 by (by etransitivity).
  eapply does_mono; [apply answered_does; by rewrite H07|]. fold n. intros r s8 l8 (Hr & Hl8 & Hst & Hmv & Hok8).
  rewrite !length_app. cbn [length]. rewrite length_app. cbn [length]. split; [rewrite Hr, H07; by destruct s|]. split; [lia|]. right.
  split; [done|]. split; [done|]. intros E. destruct (Hok6 eq_refl) as (cnd & Hp & E0).
  exists (l1 ++ l2 ++ [Wr EMMC_BLKSIZECNT 0x10200] ++ [Wr EMMC_ARG1 (u32 (arg c))] ++ [Wr EMMC_CMDTM (u32 reg)] ++ l6 ++ [Wr EMMC_INTERRUPT 0xffff0001]), l8.
  split; [by rewrite <- !app_assoc|]. split; [|auto]. apply seqt_app; [done|]. apply seqt_app; [done|]. do 3 apply seqt_one.
  apply seqt_app; [by exists v, cnd|done].
Qed.

Hypothesis Hcmd : EMMC_CMD_IS_ACMD (cmd_idx c) = false.
Hypothesis Hreg : table_read sd_commands (cmd_idx c) = Ret reg.

Lemma cmd_does T s : ram s = m0 → let n := Z.to_nat (T / 100) in
  does (emmc_cmd c T) s (λ r s' l, ram_only s s' ∧ (length l ≤ 3 * n + 2137)%nat ∧
    ∃ l1 l2, l = l1 ++ l2 ∧ cleared l1 ∧ block_outcome n (fst r) (ram s') l2).
Proof using All.
  intros Hm n. unfold emmc_cmd. rewrite Hcmd, Hreg. apply does_read_bind; intros v s1 H1.
  eapply does_bind with (P := λ _ s' l, hw_only s s' ∧ (length l ≤ 1)%nat ∧ cleared (Rd EMMC_INTERRUPT v :: l)).
  { destruct (truth v) eqn:Ev.
    - does_step. split; [by etransitivity|]. split; [done|]. exists v. rewrite Ev. by apply seqt_one.
    - does_step. split; [done|]. split; [cbn; lia|]. exists v. rewrite Ev. by apply seqt_one. }
  intros [] s2 l2 (H2 & Hl2 & Hc).
  eapply does_bind; [apply (does_lift (Ret reg) reg s2 (λ r s' l, r = reg ∧ s' = s2 ∧ l = [])); done|].
  intros r s3 l3 (-> & -> & ->). eapply does_mono; [apply issue_does; by rewrite H2|]. fold n.
  intros r s3 l3 (Hr & Hl3 & Ho). cbn [app length]. rewrite length_app. split; [rewrite Hr, H2; by destruct s|].
  split; [lia|]. by exists (Rd EMMC_INTERRUPT v :: l2), l3.
Qed.

(** The transfer as [emmc_read] and [emmc_write] make it. *)
Definition transfer : io (emmc (traced D)) Z :=
  cmd_err ← err_only (run_cmd c EMMC_WAIT_TIMEOUT_USEC); mret (if truth cmd_err then -1 else 0).

Lemma transfer_does s : ram s = m0 →
  (∃ r s' l1 l2, emmc_cmd c EMMC_WAIT_TIMEOUT_USEC s = Ret (r, s') ∧ log_of s' = log_of s ++ l1 ++ l2 ∧ cleared l1 ∧ inhibited l2 ∧
     transfer s = Fault) ∨
  does transfer s (λ r s' l, ram_only s s' ∧ Z.of_nat (length l) ≤ 32137 ∧
    (r = 0 ∧ block_command reg (u32 (arg c)) rdy (moved (ram s')) l ∨ r = -1 ∧ moved_or_not (ram s'))).
Proof using All.
  intros Hm. destruct (cmd_does EMMC_WAIT_TIMEOUT_USEC s Hm) as ([st c'] & s' & l & E & El & Hr & Hl & l1 & l2 & -> & Hc & Ho).
  cbn [fst] in Ho. assert (Z.of_nat (length (l1 ++ l2)) ≤ 32137) as Hlen by (change (Z.to_nat (EMMC_WAIT_TIMEOUT_USEC / 100)) with (Z.to_nat 10000) in Hl; lia).
  assert (∀ o, emmc_cmd_status_to_err st = o → transfer s = (err ← o; Ret (if truth err then -1 else 0, s'))) as Ht.
  { intros o Eo. unfold transfer, err_only, run_cmd, mbind, io_bind. rewrite E. cbn [outcome_bind mbind]. unfold lift, mbind. rewrite Eo.
    by destruct o. }
  destruct Ho as [(-> & Hi & _)|(Hst & Hmv & Hok)].
  { left. exists (EMMC_CMD_MINUS_1, c'), s', l1, l2. split_and!; [done|done|done|done|]. rewrite (Ht Fault); [done|]. by vm_compute. }
  right. destruct Hst as [->|Hst].
  - eexists 0, s', _. split; [by rewrite (Ht (Ret 0))|]. split; [exact El|]. split; [done|]. split; [exact Hlen|]. left. split; [done|].
    exists l1, l2. split; [done|]. split; [done|]. by apply Hok.
  - eexists (-1), s', _. split; [destruct Hst as [-> | ->]; by rewrite (Ht _ eq_refl)|]. split; [exact El|]. split; [done|]. split; [exact Hlen|by right].
Qed.
End block_command.

Lemma words_bytes ws : length (concat (map (le_bytes 4) ws)) = (4 * length ws)%nat.
Proof. induction ws as [|w ws IH]; [done|]. cbn [map concat length]. rewrite length_app, le_bytes_length, IH. lia. Qed.

(** C5: reading a block, whatever the controller answers.  The driver always
    comes back, after at most 32137 accesses to it.  It returns 0 or -1, except
    when the controller stays inhibited: then it reads outside its table of
    errors.  When it returns 0, the log of the bus is a block command CMD17 for
    the sector, each wait of which saw its bit without the error bit, and the 512
    bytes at the buffer are the 128 words that came over the data port, in order;
    nothing else in memory has changed.  When it returns -1 the buffer is as it
    was, or holds a block that came over the port before the transfer failed. *)
Theorem emmc_read_block s sector num buf bufsz : mapped (ram s) buf 512 →
  let c := set_blocks (set_databuf (emmc_cmd_init EMMC_CMD17 (u32 sector)) buf) 512 1 in
  let filled m l := ∃ ws, length ws = 128%nat ∧ words_in ws l ∧ m = write_bytes (ram s) buf (concat (map (le_bytes 4) ws)) in
  (∃ r s' l1 l2, emmc_cmd c EMMC_WAIT_TIMEOUT_USEC s = Ret (r, s') ∧ log_of s' = log_of s ++ l1 ++ l2 ∧ cleared l1 ∧ inhibited l2 ∧
     emmc_read sector num buf bufsz s = Fault) ∨
  does (emmc_read sector num buf bufsz) s (λ r s' l, ram_only s s' ∧ Z.of_nat (length l) ≤ 32137 ∧
    (r = 0 ∧ block_command 0x112a0010 (u32 sector) 5 (filled (ram s')) l ∨ r = -1 ∧ (ram s' = ram s ∨ ∃ l, filled (ram s') l))).
Proof.
  intros Hm c filled. assert (u32 sector = u32 (arg c)) as -> by (cbn; by rewrite !u32_u32).
  apply (transfer_does 0x112a0010 5 false (ram s) filled c); try done.
  intros s1 E1. eapply does_bind; [apply (read_data_does 128 buf s1); by rewrite E1|].
  intros [] s2 l2 (ws & Hn & Hl & E2). apply does_ret. rewrite app_nil_r. split; [done|].
  split; [by rewrite E2|]. split; [by rewrite Hl, length_map|]. exists ws. by rewrite E2, <- E1.
Qed.

(** writing a block, whatever the controller answers: as for reading, with
    CMD24; when it returns 0 the 128 words at the buffer went over the data port,
    in order, and memory has not changed in any case. *)
Theorem emmc_write_block s sector num buf bufsz ws : bytes_at (ram s) buf (concat (map (le_bytes 4) ws)) → length ws = 128%nat →
  Forall (λ w, 0 ≤ w < 2 ^ 32) ws →
  let c := set_blocks (set_databuf (emmc_cmd_init EMMC_CMD24 (u32 sector)) buf) 512 1 in
  (∃ r s' l1 l2, emmc_cmd c EMMC_WAIT_TIMEOUT_USEC s = Ret (r, s') ∧ log_of s' = log_of s ++ l1 ++ l2 ∧ cleared l1 ∧ inhibited l2 ∧
     emmc_write sector num buf bufsz s = Fault) ∨
  does (emmc_write sector num buf bufsz) s (λ r s' l, hw_only s s' ∧ Z.of_nat (length l) ≤ 32137 ∧
    (r = 0 ∧ block_command 0x182a0000 (u32 sector) 4 (words_out ws) l ∨ r = -1)).
Proof.
  intros Hb Hn Hws c. assert (u32 sector = u32 (arg c)) as -> by (cbn; by rewrite !u32_u32).
  destruct (transfer_does 0x182a0000 4 true (ram s) (λ m l, m = ram s ∧ words_out ws l) c) with (s := s) as [Hf|Hd]; try done; cycle 1.
  - by left.
  - right. eapply does_mono; [exact Hd|]. intros r s' l (Hr & Hl & Ho). assert (ram s' = ram s) as Er.
    { destruct Ho as [[_ Ho]|[_ [E | (l' & E & _)]]]; [|done|done]. by destruct (block_command_data _ _ _ _ _ Ho) as (l' & E & _). }
    split; [unfold ram_only in Hr; rewrite Er in Hr; by destruct s|]. split; [done|]. destruct Ho as [[-> Ho]|[-> _]]; [left|by right].
    split; [done|]. eapply block_command_mono; [|exact Ho]. by intros l' [_ ?].
  - intros s1 E1. unfold emmc_cmd_process_single_block. change (Z.to_nat (u64 512 / 4)) with 128%nat. rewrite <- Hn.
    eapply does_bind; [apply (write_data_does ws buf s1); [by rewrite E1|done]|].
    intros [] s2 l2 (Hl & H2). apply does_ret. rewrite app_nil_r. split; [done|].
    split; [rewrite H2; by destruct s1|]. rewrite Hn. split; [by rewrite Hl, length_map|]. by rewrite H2.
Qed.
End logs.

(** Witness: a card that answers at once, and sends the words 0 to 127. *)
Definition demo_ram : mem := mem_of 4096 (repeat 0 512).
Definition demo_card (rdy : Z) (ws : list Z) : emmc (traced script) :=
  Emmc (Traced (Script ([0; 0; 0; 1; 0x900; rdy] ++ ws ++ [2])) []) demo_ram (Mbox [] []) 0 false.

(** Whether a call returned 0, without its state. *)
Definition returned_0 {S} (m : outcome (Z * S)) : bool := match m with Ret (r, _) => r =? 0 | _ => false end.

Lemma demo_ram_mapped : mapped demo_ram 4096 512.
Proof. apply (bytes_at_mapped _ _ (repeat 0 512)), mem_of_bytes. Qed.

Lemma emmc_read_block_witness : ∃ s', emmc_read 7 1 4096 512 (demo_card 0x20 (map Z.of_nat (seq 0 128))) = Ret (0, s') ∧
  ram_only (demo_card 0x20 (map Z.of_nat (seq 0 128))) s'.
Proof.
  destruct (emmc_read_block (demo_card 0x20 (map Z.of_nat (seq 0 128))) 7 1 4096 512 demo_ram_mapped)
    as [(r & s' & l1 & l2 & _ & _ & _ & _ & E) | (r & s' & l & E & _ & Hr & _ & Ho)]; [apply (f_equal returned_0) in E; vm_compute in E; discriminate E|].
  destruct Ho as [[E0 _] | [E0 _]]; rewrite E0 in E; [exists s'; exact (conj E Hr)|apply (f_equal returned_0) in E; vm_compute in E; discriminate E].
Defined.

Lemma emmc_write_block_witness : ∃ s', emmc_write 7 1 4096 512 (demo_card 0x10 []) = Ret (0, s') ∧ hw_only (demo_card 0x10 []) s'.
Proof.
  destruct (emmc_write_block (demo_card 0x10 []) 7 1 4096 512 (repeat 0 128) ltac:(exact (mem_of_bytes 4096 (repeat 0 512)))
    eq_refl ltac:(exact (Forall_replicate (λ w, 0 ≤ w < 2 ^ 32) 128 0 (conj (Z.le_refl 0) eq_refl))))
    as [(r & s' & l1 & l2 & _ & _ & _ & _ & E) | (r & s' & l & E & _ & Hr & _ & Ho)]; [apply (f_equal returned_0) in E; vm_compute in E; discriminate E|].
  destruct Ho as [[E0 _] | E0]; rewrite E0 in E; [exists s'; exact (conj E Hr)|apply (f_equal returned_0) in E; vm_compute in E; discriminate E].
Defined.

(** ** Application commands

    The index of an application command carries bit 31, and is used with it to
    read [sd_acommands]. *)
Section acmd.
Context {D : Type} `{Mmio D} (firmware : list Z → list Z * bool).
Implicit Types (s : emmc D).

Lemma is_acmd c : 2 ^ 31 ≤ c < 2 ^ 32 → EMMC_CMD_IS_ACMD c = true.
Proof.
  intros Hc. unfold EMMC_CMD_IS_ACMD, truth. destruct (Z.eqb_spec (Z.land c (Z.shiftl 1 ACMD_BIT)) 0) as [E|]; [|done].
  apply (f_equal (λ z, Z.testbit z 31)) in E. rewrite Z.land_spec in E. change (Z.testbit (Z.shiftl 1 ACMD_BIT) 31) with true in E.
  rewrite andb_true_r, Z.bits_0 in E. apply (f_equal Z.b2z) in E. rewrite Z.testbit_spec' in E by lia. change (Z.b2z false) with 0 in E. dlia.
Qed.

Lemma acmd_never c T s r s' : 2 ^ 31 ≤ cmd_idx c < 2 ^ 32 → emmc_cmd c T s = Ret (r, s') → fst r ≠ EMMC_CMD_OK.
Proof.
  intros Hc. unfold emmc_cmd. rewrite read_reg_bind, is_acmd by done. intros E. apply bind_inv in E as ([[] s1] & _ & E).
  apply bind_inv in E as ([reg s2] & _ & E). apply bind_inv in E as ([[st c'] s3] & _ & E).
  destruct (Z.eqb_spec st EMMC_CMD_OK) as [|Hne]; cbn [negb] in E; [|by injection E as <- <-].
  apply bind_inv in E as (a & E & _). unfold lift, table_read in E.
  rewrite (proj2 (Z.ltb_ge (cmd_idx c) _)), andb_false_r in E; [done|]. change (Z.of_nat (length sd_acommands)) with 60. lia.
Qed.

Lemma run_acmd_never c T s r s' : 2 ^ 31 ≤ cmd_idx c < 2 ^ 32 → run_cmd c T s = Ret (r, s') → fst r ≠ ERR_OK.
Proof.
  intros Hc E. unfold run_cmd in E. apply bind_inv in E as ([[st c'] s1] & E1 & E). apply acmd_never in E1; [|done]. cbn in E1.
  apply bind_inv in E as ([err s2] & E2 & E). injection E as <- <-. cbn [fst]. intros ->. apply bind_inv in E2 as (err & E2 & [= -> _]).
  apply E1. unfold emmc_cmd_status_to_err, table_read in E2. destruct (0 <=? st) eqn:Hlo; [|done].
  destruct (Z.ltb_spec st (Z.of_nat (length [ERR_OK; ERR_GENERIC; ERR_TIMEOUT]))) as [Hhi|]; [|done]. cbn [length] in Hhi.
  apply Z.leb_le in Hlo. assert (st = 0 ∨ st = 1 ∨ st = 2) as [->|[->| ->]] by lia; done.
Qed.

Lemma check_err_ok m k s s' : EMMC_CHECK_ERR m k s = Ret (ERR_OK, s') → ∃ s1, m s = Ret (ERR_OK, s1) ∧ k s1 = Ret (ERR_OK, s').
Proof.
  intros E. apply bind_inv in E as ([err s1] & E1 & E). destruct (Z.eqb_spec err ERR_OK) as [->|Hne]; cbn [negb] in E; [by exists s1|].
  injection E as E _. done.
Qed.

Lemma negotiate_never fuel s s' : emmc_reset_negotiate fuel s ≠ Ret (ERR_OK, s').
Proof.
  unfold emmc_reset_negotiate. intros E. apply bind_inv in E as ([[err o] s1] & E1 & E).
  unfold emmc_acmd41 in E1. apply bind_inv in E1 as ([[err' c] s2] & E1 & E2). apply run_acmd_never in E1; [|done]. cbn [fst] in E1.
  destruct (Z.eqb_spec err' ERR_OK); [done|]. cbn [negb] in E2. injection E2 as -> <- <-.
  destruct (Z.eqb_spec err ERR_OK); [done|]. cbn [negb] in E. by injection E as E _.
Qed.

(** the initialisation never succeeds, whatever the card and the firmware
    answer and however long it waits: a result other than [ERR_OK], or no result
    (a fault, or waiting for ever).  The first ACMD41 that gets through to the
    card is looked up in [sd_acommands] with its marker bit, far outside the
    table. *)
Theorem emmc_init_never_succeeds emmc_device_id scr fuel s : emmc_is_initialized s = false →
  ∀ s', emmc_init firmware emmc_device_id scr fuel s ≠ Ret (ERR_OK, s').
Proof.
  intros Hi s' E. unfold emmc_init in E. rewrite (io_bind_ret _ _ s false s) in E by (unfold get_var; by rewrite Hi). cbn iota in E.
  apply check_err_ok in E as (s1 & E & _). unfold emmc_reset in E.
  do 4 (apply bind_inv in E as ([? ?] & _ & E)). apply bind_inv in E as ([res s2] & _ & E). destruct res; [|done].
  apply bind_inv in E as ([[] s3] & _ & E). apply check_err_ok in E as (s4 & _ & E).
  do 6 (apply bind_inv in E as ([? ?] & _ & E)). apply check_err_ok in E as (s5 & _ & E). apply check_err_ok in E as (s6 & _ & E).
  apply bind_inv in E as ([err s7] & _ & E). destruct (Z.eqb_spec err ERR_OK); [done|].
  destruct (Z.eqb_spec err ERR_TIMEOUT); cbn [negb] in E; [|by injection E as E _].
  apply check_err_ok in E as (s8 & _ & E). apply check_err_ok in E as (s9 & E & _). by apply negotiate_never in E.
Qed.
End acmd.

(** Witness: a card that answers every poll with all bits clear. *)
Lemma emmc_init_never_succeeds_witness : returned_0 (emmc_init (λ b, (b, true)) 0 0 5 (demo_card 0 [])) = false.
Proof.
  destruct (emmc_init (λ b, (b, true)) 0 0 5 (demo_card 0 [])) as [[r s']| | |] eqn:E; [|reflexivity..].
  apply Z.eqb_neq. intros Hr. rewrite Hr in E. exact (emmc_init_never_succeeds (λ b, (b, true)) 0 0 5 (demo_card 0 []) eq_refl s' E).
Defined.
