(* ===== verification/UsbTypes.v ===== *)
(** * USB data types (include/usb/usb.h, include/drivers/usb/)

    Requests packed into 64 bits, descriptors as the bytes a device sends,
    port status words, and the interface between the drivers and the transfers
    below them.  A buffer is passed by value: the transfer gives it back with
    the bytes that arrived. *)

From S2P Require Import Prelude Bits Mmio Dwc2.

Definition ERR_INVAL_ARG : Z := -1.
Definition ERR_NOT_IMPLEMENTED : Z := -3.
Definition ERR_BUSY : Z := -8.
Definition ERR_GENERIC : Z := -9.
Definition ERR_TIMEOUT : Z := -11.

(** ** usb.h *)
Definition USB_DEFAULT_ADDRESS : Z := 0.
Definition USB_DEFAULT_PACKET_SIZE : Z := 8.
Definition USB_RQ_TYPE_GET_DESCRIPTOR : Z := 0x80.
Definition USB_RQ_TYPE_GET_INTERFACE : Z := 0x81.
Definition USB_RQ_TYPE_SET_ADDRESS : Z := 0.
Definition USB_RQ_TYPE_SET_CONFIGURATION : Z := 0.
Definition USB_RQ_TYPE_CLASS_SET_INTERFACE : Z := 0x21.
Definition USB_RQ_TYPE_ENDPOINT_GET_STATUS : Z := 0x82.
Definition USB_RQ_TYPE_ENDPOINT_CLEAR_FEATURE : Z := 2.
Definition USB_RQ_TYPE_ENDPOINT_SET_FEATURE : Z := 2.
Definition USB_RQ_TYPE_HUB_GET_HUB_DESCRIPTOR : Z := 0xa0.
Definition USB_RQ_TYPE_HUB_GET_HUB_STATUS : Z := 0xa0.
Definition USB_RQ_TYPE_HUB_GET_PORT_STATUS : Z := 0xa3.
Definition USB_RQ_TYPE_HUB_SET_HUB_FEATURE : Z := 0x20.
Definition USB_RQ_TYPE_HUB_SET_PORT_FEATURE : Z := 0x23.
Definition USB_RQ_GET_STATUS : Z := 0.
Definition USB_RQ_CLEAR_FEATURE : Z := 1.
Definition USB_RQ_SET_FEATURE : Z := 3.
Definition USB_RQ_SET_ADDRESS : Z := 5.
Definition USB_RQ_GET_DESCRIPTOR : Z := 6.
Definition USB_RQ_SET_DESCRIPTOR : Z := 7.
Definition USB_RQ_GET_CONFIGURATION : Z := 8.
Definition USB_RQ_SET_CONFIGURATION : Z := 9.
Definition USB_RQ_GET_INTERFACE : Z := 0xa.
Definition USB_RQ_SET_INTERFACE : Z := 0xb.
Definition USB_RQ_SYNCH_FRAME : Z := 0xc.
Definition USB_RQ_HID_SET_IDLE : Z := 0xa.
Definition USB_ENDPOINT_FEATURE_HALT : Z := 0.
Definition USB_HUB_FEATURE_ENABLE : Z := 1.
Definition USB_HUB_FEATURE_RESET : Z := 4.
Definition USB_HUB_FEATURE_PORT_POWER : Z := 8.
Definition USB_HUB_FEATURE_CONNECTION_CHANGE : Z := 0x10.
Definition USB_HUB_FEATURE_ENABLE_CHANGE : Z := 0x11.
Definition USB_HUB_FEATURE_SUSPEND_CHANGE : Z := 0x12.
Definition USB_HUB_FEATURE_OVERCURRENT_CHANGE : Z := 0x13.
Definition USB_HUB_FEATURE_RESET_CHANGE : Z := 0x14.
Definition USB_DEVICE_CLASS_HUB : Z := 9.
Definition USB_DESCRIPTOR_TYPE_DEVICE : Z := 1.
Definition USB_DESCRIPTOR_TYPE_CONFIGURATION : Z := 2.
Definition USB_DESCRIPTOR_TYPE_STRING : Z := 3.
Definition USB_DESCRIPTOR_TYPE_INTERFACE : Z := 4.
Definition USB_DESCRIPTOR_TYPE_ENDPOINT : Z := 5.
Definition USB_DESCRIPTOR_TYPE_HID : Z := 0x21.
Definition USB_DESCRIPTOR_TYPE_HID_REPORT : Z := 0x22.
Definition USB_DESCRIPTOR_TYPE_HUB : Z := 0x29.
Definition USB_PORT_STATUS_CH_BIT_CONNECTED_CHANGED : Z := 0.
Definition USB_INTERFACE_CLASS_HID : Z := 3.
Definition USB_INTERFACE_CLASS_MASSSTORAGE : Z := 8.
Definition USB_INTERFACE_CLASS_HUB : Z := 9.

(** ** Requests (usb_dev_rq.h)

    Every request code is below 256, although its mask is 16 bits wide. *)
Definition PUTBITS64 (val mask shift : Z) : Z := u64 (Z.shiftl (Z.land (u64 val) mask) shift).

Definition USB_DEV_RQ_MAKE (type rq val idx len : Z) : Z :=
  Z.lor (PUTBITS64 type 0xff 0) (Z.lor (PUTBITS64 rq 0xffff 8)
    (Z.lor (PUTBITS64 val 0xffff 16) (Z.lor (PUTBITS64 idx 0xffff 32) (PUTBITS64 len 0xffff 48)))).

Definition descriptor_value (desc_type desc_idx : Z) : Z :=
  Z.lor (Z.shiftl (Z.land desc_type 0xff) 8) (Z.land desc_idx 0xff).
Definition USB_DEV_RQ_MAKE_GET_DESCRIPTOR (desc_type desc_idx idx len : Z) : Z :=
  USB_DEV_RQ_MAKE USB_RQ_TYPE_GET_DESCRIPTOR USB_RQ_GET_DESCRIPTOR (descriptor_value desc_type desc_idx) idx len.
Definition USB_DEV_HUB_RQ_MAKE_GET_DESCRIPTOR (desc_type desc_idx idx len : Z) : Z :=
  USB_DEV_RQ_MAKE USB_RQ_TYPE_HUB_GET_HUB_DESCRIPTOR USB_RQ_GET_DESCRIPTOR (descriptor_value desc_type desc_idx) idx len.

Definition USB_DEV_RQ_GET_TYPE (r : Z) : Z := Z.land r 0xff.
Definition USB_DEV_RQ_GET_RQ (r : Z) : Z := Z.land (Z.shiftr r 8) 0xff.
Definition USB_DEV_RQ_GET_VALUE (r : Z) : Z := Z.land (Z.shiftr r 16) 0xffff.
Definition USB_DEV_RQ_GET_INDEX (r : Z) : Z := Z.land (Z.shiftr r 32) 0xffff.
Definition USB_DEV_RQ_GET_LENGTH (r : Z) : Z := Z.land (Z.shiftr r 48) 0xffff.

(** [struct usb_device_request] and its [raw] word. *)
Record usb_device_request := UsbRequest { request_type : Z; request : Z; value : Z; index : Z; length_ : Z }.
Definition request_bytes (r : usb_device_request) : list Z :=
  le_bytes 1 (request_type r) ++ le_bytes 1 (request r) ++ le_bytes 2 (value r) ++ le_bytes 2 (index r) ++ le_bytes 2 (length_ r).
Definition raw (r : usb_device_request) : Z := le_val (request_bytes r).

(** ** Descriptors

    A descriptor is kept as the bytes of its packed structure; a field is read
    at its offset. *)
Definition byte_at (l : list Z) (i : nat) : Z := nth i l 0.
Definition half_at (l : list Z) (i : nat) : Z := byte_at l i + 2 ^ 8 * byte_at l (i + 1).

Definition sizeof_descriptor_header : Z := 2.
Definition sizeof_device_descriptor : Z := 18.
Definition sizeof_configuration_descriptor : Z := 9.
Definition sizeof_interface_descriptor : Z := 9.
Definition sizeof_endpoint_descriptor : Z := 7.
Definition sizeof_hid_descriptor : Z := 9.
Definition sizeof_hub_descriptor : Z := 9.

Definition header_length (l : list Z) : Z := byte_at l 0.
Definition header_descriptor_type (l : list Z) : Z := byte_at l 1.
Definition device_class (l : list Z) : Z := byte_at l 4.
Definition max_packet_size_0 (l : list Z) : Z := byte_at l 7.
Definition id_vendor (l : list Z) : Z := half_at l 8.
Definition id_product (l : list Z) : Z := half_at l 10.
Definition i_manufacturer (l : list Z) : Z := byte_at l 14.
Definition i_product (l : list Z) : Z := byte_at l 15.
Definition i_serial_number (l : list Z) : Z := byte_at l 16.
Definition total_length (l : list Z) : Z := half_at l 2.
Definition configuration_value (l : list Z) : Z := byte_at l 5.
Definition iconfiguration (l : list Z) : Z := byte_at l 6.
Definition endpoint_count (l : list Z) : Z := byte_at l 4.
Definition interface_class (l : list Z) : Z := byte_at l 5.
Definition port_count (l : list Z) : Z := byte_at l 2.
Definition power_good_delay (l : list Z) : Z := byte_at l 5.

Definition usb_endpoint_descriptor_get_number (l : list Z) : Z := Z.land (byte_at l 2) 0xf.
Definition usb_endpoint_descriptor_get_direction (l : list Z) : Z := Z.land (Z.shiftr (byte_at l 2) 7) 1.
Definition usb_endpoint_descriptor_get_type (l : list Z) : Z := Z.land (byte_at l 3) 3.
Definition usb_endpoint_descriptor_get_max_packet_size (l : list Z) : Z := half_at l 4.
Definition hid_descriptor_length (l : list Z) : Z := half_at l 7.

(** ** Port status: the words [status.raw] and [change.raw] *)
Record usb_hub_port_status := PortStatus { status_raw : Z; change_raw : Z }.
Definition connected (s : usb_hub_port_status) : bool := Z.testbit (status_raw s) 0.
Definition enabled (s : usb_hub_port_status) : bool := Z.testbit (status_raw s) 1.
Definition reset (s : usb_hub_port_status) : bool := Z.testbit (status_raw s) 4.
Definition powered (s : usb_hub_port_status) : bool := Z.testbit (status_raw s) 8.
Definition low_speed (s : usb_hub_port_status) : bool := Z.testbit (status_raw s) 9.
Definition high_speed (s : usb_hub_port_status) : bool := Z.testbit (status_raw s) 10.
Definition connected_changed (s : usb_hub_port_status) : bool := Z.testbit (change_raw s) 0.
Definition enabled_changed (s : usb_hub_port_status) : bool := Z.testbit (change_raw s) 1.
Definition suspended_changed (s : usb_hub_port_status) : bool := Z.testbit (change_raw s) 2.
Definition overcurrent_changed (s : usb_hub_port_status) : bool := Z.testbit (change_raw s) 3.
Definition reset_changed (s : usb_hub_port_status) : bool := Z.testbit (change_raw s) 4.

Definition sizeof_port_status : Z := 4.
Definition port_status_bytes (s : usb_hub_port_status) : list Z := le_bytes 2 (status_raw s) ++ le_bytes 2 (change_raw s).
Definition port_status_of (l : list Z) : usb_hub_port_status := PortStatus (half_at l 0) (half_at l 2).

(** ** Buffers

    [blit buf l] writes [l] at the start of [buf], whose length is the size of
    the C object; writing past its end is undefined. *)
Definition blit (buf l : list Z) : outcome (list Z) :=
  if (length l <=? length buf)%nat then Ret (l ++ drop (length l) buf) else Fault.

(** ** Transfers

    What the code above hcd_transfer.c gets from a transfer: an error, the
    number of bytes reported, the buffer, and the next PID of the pipe. *)
Record xfer_result := XferResult { x_err : Z; x_num_bytes : Z; x_buf : list Z; x_pid : Z }.

(** The transfers to devices on the bus, for any state [B] of the bus and of
    the controller; a call may also wait for ever. *)
Class UsbTransport (B : Type) : Type := {
  bus_control : usb_hcd_pipe → Z → list Z → Z → Z → io B xfer_result;
  bus_bulk : usb_hcd_pipe → Z → list Z → Z → io B xfer_result }.

(** ** Lemmas *)
Lemma blit_small buf l : (length l ≤ length buf)%nat → blit buf l = Ret (l ++ drop (length l) buf).
Proof. intros Hl. unfold blit. by rewrite (proj2 (Nat.leb_le _ _) Hl). Qed.

Lemma blit_length buf l buf' : blit buf l = Ret buf' → length buf' = length buf.
Proof.
  unfold blit. destruct (Nat.leb_spec (length l) (length buf)) as [Hl|]; [|done]. intros [= <-].
  rewrite length_app, length_drop. lia.
Qed.

Lemma PUTBITS64_place v w k : 0 ≤ w → 0 ≤ k → w + k ≤ 64 →
  PUTBITS64 v (Z.ones w) k = 2 ^ k * (v mod 2 ^ w).
Proof.
  intros Hw Hk Hwk. unfold PUTBITS64. rewrite Z.land_ones, Z.shiftl_mul_pow2, Z.mul_comm by lia.
  assert (u64 v mod 2 ^ w = v mod 2 ^ w) as ->.
  { unfold u64. symmetry. apply Znumtheory.Zmod_div_mod; [lia|lia|]. exists (2 ^ (64 - w)). rewrite <- Z.pow_add_r by lia. f_equal; lia. }
  apply u64_id. pose proof (Z.mod_pos_bound v (2 ^ w) ltac:(lia)). split; [nia|].
  apply (Z.lt_le_trans _ (2 ^ k * 2 ^ w)); [nia|]. rewrite <- Z.pow_add_r by lia. apply Z.pow_le_mono_r; lia.
Qed.

Lemma lor_above a b k : 0 ≤ k → 0 ≤ a < 2 ^ k → Z.lor a (2 ^ k * b) = a + 2 ^ k * b.
Proof.
  intros Hk Ha. rewrite <- (Z.add_lor_land a), (Z.bits_inj' (Z.land a (2 ^ k * b)) 0), Z.add_0_r; [done|].
  intros i Hi. rewrite Z.land_spec, Z.bits_0. destruct (Z.ltb_spec i k).
  - rewrite (Z.mul_comm (2 ^ k)), Z.mul_pow2_bits_low by lia. apply andb_false_r.
  - by rewrite (testbit_high a k) by lia.
Qed.

(** The word a request is packed into, as a sum. *)
Lemma rq_make_sum type rq val idx len : 0 ≤ type < 2 ^ 8 → 0 ≤ rq < 2 ^ 8 → 0 ≤ val < 2 ^ 16 → 0 ≤ idx < 2 ^ 16 → 0 ≤ len < 2 ^ 16 →
  USB_DEV_RQ_MAKE type rq val idx len = type + 2 ^ 8 * (rq + 2 ^ 8 * (val + 2 ^ 16 * (idx + 2 ^ 16 * len))).
Proof.
  intros Ht Hr Hv Hi Hl. unfold USB_DEV_RQ_MAKE.
  change 0xffff with (Z.ones 16). change 0xff with (Z.ones 8). rewrite !PUTBITS64_place, !Z.mod_small by lia.
  rewrite Z.pow_0_r, Z.mul_1_l, !Z.lor_assoc.
  rewrite (lor_above type rq), (lor_above _ val), (lor_above _ idx), (lor_above _ len) by lia. lia.
Qed.

(** The 64-bit word keeps every field of a request: packing it and
    taking a field gives the field back, and the word is the one the structure
    [usb_device_request] overlays. *)
Lemma rq_fields type rq val idx len : 0 ≤ type < 2 ^ 8 → 0 ≤ rq < 2 ^ 8 → 0 ≤ val < 2 ^ 16 → 0 ≤ idx < 2 ^ 16 → 0 ≤ len < 2 ^ 16 →
  let r := USB_DEV_RQ_MAKE type rq val idx len in
  USB_DEV_RQ_GET_TYPE r = type ∧ USB_DEV_RQ_GET_RQ r = rq ∧ USB_DEV_RQ_GET_VALUE r = val ∧
  USB_DEV_RQ_GET_INDEX r = idx ∧ USB_DEV_RQ_GET_LENGTH r = len ∧ raw (UsbRequest type rq val idx len) = r.
Proof.
  intros Ht Hr Hv Hi Hl r. unfold r. rewrite rq_make_sum by done.
  unfold USB_DEV_RQ_GET_TYPE, USB_DEV_RQ_GET_RQ, USB_DEV_RQ_GET_VALUE, USB_DEV_RQ_GET_INDEX, USB_DEV_RQ_GET_LENGTH.
  change 0xffff with (Z.ones 16). change 0xff with (Z.ones 8). rewrite !Z.land_ones, !Z.shiftr_div_pow2 by lia.
  split_and!; [dlia..|]. unfold raw, request_bytes. cbn [le_bytes le_val app request_type request value index length_].
  unfold u8. dlia.
Qed.
