(* ===== verification/RootHub.v ===== *)
(** * The root hub (board/bcm2835/usb/root_hub.c)

    The hub behind the controller's one port is emulated: its requests are
    answered from constant descriptors and from the port register HPRT.  The
    specification is a port as the USB specification describes it, on which the
    feature requests act. *)

From S2P Require Import Prelude Bits Lists Mmio Dwc2 UsbTypes.

Definition USB_ROOT_HUB_STRING_IDX_PRODUCT : Z := 1.
Definition USB_ROOT_HUB_STRING_IDX_MANUFACTURER : Z := 2.
Definition USB_ROOT_HUB_STRING_IDX_SERIAL : Z := 3.

(** ** The descriptors *)
Definition usb_root_hub_descriptor : list Z := [9; USB_DESCRIPTOR_TYPE_HUB; 1; 0; 0; 100; 0; 2; 0x1b].

Definition usb_root_hub_configuration : list Z :=
  [9; USB_DESCRIPTOR_TYPE_CONFIGURATION; 25; 0; 1; 1; 2; 0x40; 0] ++
  [9; USB_DESCRIPTOR_TYPE_INTERFACE; 0; 0; 1; USB_INTERFACE_CLASS_HUB; 0; 0; 0] ++
  [7; USB_DESCRIPTOR_TYPE_ENDPOINT; 0x81; 3; 64; 0; 0xff].

Definition usb_root_hub_device_descriptor : list Z :=
  [18; USB_DESCRIPTOR_TYPE_DEVICE; 0; 2; USB_DEVICE_CLASS_HUB; 0; 0; 64; 0; 0; 0; 0; 0; 1;
   USB_ROOT_HUB_STRING_IDX_MANUFACTURER; USB_ROOT_HUB_STRING_IDX_PRODUCT; USB_ROOT_HUB_STRING_IDX_SERIAL; 1].

Definition usb_rh_string0 : list Z := [4; USB_DESCRIPTOR_TYPE_STRING; 0x09; 0x04].

(** A string literal of 16-bit characters with its terminator, which the
    length counts. *)
Definition string_descriptor (s : list Z) : list Z :=
  [2 * (Z.of_nat (length s) + 1) + 2; USB_DESCRIPTOR_TYPE_STRING] ++ concat (map (λ c, [c; 0]) (s ++ [0])).
Definition usb_rh_string_product : list Z := string_descriptor [82; 79; 79; 84; 95; 72; 85; 66].
Definition usb_rh_string_manufact : list Z := string_descriptor [66; 82; 79; 65; 68; 67; 79; 77].
Definition usb_rh_string_serial : list Z := string_descriptor [49; 50; 51; 45; 49; 50; 51; 45; 57; 57; 57].

(** ** State: the controller and the address of the root hub *)
Record rh (D C : Type) := Rh { ctrl : usb D C; usb_root_hub_device_number : Z }.
Arguments Rh {D C}.
Arguments ctrl {D C}.
Arguments usb_root_hub_device_number {D C}.

#[export] Instance rh_mmio {D C} `{Mmio D} : Mmio (rh D C) := {|
  mmio_read r s := (fst (mmio_read r (ctrl s)), Rh (snd (mmio_read r (ctrl s))) (usb_root_hub_device_number s));
  mmio_write r v s := Rh (mmio_write r v (ctrl s)) (usb_root_hub_device_number s) |}.

Definition USB_HPRT_CONN_DET : Z := 1.
Definition USB_HPRT_ENA : Z := 2.
Definition USB_HPRT_EN_CHNG : Z := 3.
Definition USB_HPRT_OVRCURR_CHNG : Z := 5.
Definition USB_HPRT_RES : Z := 6.
Definition USB_HPRT_SUSP : Z := 7.
Definition USB_HPRT_PWR : Z := 12.

(** A word with the given bits. *)
Definition bits_word (l : list (Z * bool)) : Z := foldr (λ '(i, b) w, Z.lor (Z.shiftl (bool_z b) i) w) 0 l.

(** ** Requests *)
Section root_hub.
Context {D C : Type} `{Mmio D}.
Abbreviation S := (rh D C).

(** [memcpy] of a negative size copies up to the end of memory. *)
Definition usb_root_hub_reply (dst : list Z) (dst_sz : Z) (reply : list Z) (reply_sz : Z) : outcome (list Z * Z) :=
  if truth reply_sz then
    let reply_sz := if reply_sz >? dst_sz then dst_sz else reply_sz in
    if reply_sz <? 0 then Fault else
    dst ← blit dst (take (Z.to_nat reply_sz) reply); Ret (dst, reply_sz)
  else Ret (dst, reply_sz).

(** The error and the reply to a request for a descriptor. *)
Definition rh_descriptor (desc_type desc_idx : Z) : Z * list Z :=
  if desc_type =? USB_DESCRIPTOR_TYPE_HUB then (ERR_OK, usb_root_hub_descriptor)
  else if desc_type =? USB_DESCRIPTOR_TYPE_STRING then
    if desc_idx =? 0 then (ERR_OK, usb_rh_string0)
    else if desc_idx =? USB_ROOT_HUB_STRING_IDX_PRODUCT then (ERR_OK, usb_rh_string_product)
    else if desc_idx =? USB_ROOT_HUB_STRING_IDX_MANUFACTURER then (ERR_OK, usb_rh_string_manufact)
    else if desc_idx =? USB_ROOT_HUB_STRING_IDX_SERIAL then (ERR_OK, usb_rh_string_serial)
    else (ERR_INVAL_ARG, [])
  else if desc_type =? USB_DESCRIPTOR_TYPE_DEVICE then (ERR_OK, usb_root_hub_device_descriptor)
  else if desc_type =? USB_DESCRIPTOR_TYPE_CONFIGURATION then (ERR_OK, usb_root_hub_configuration)
  else (ERR_INVAL_ARG, []).

(** The answers give the error, the buffer and the number of bytes. *)
Definition answer (err : Z) (buf : list Z) (buf_sz : Z) (reply : list Z) : io S (Z * list Z * Z) :=
  '(buf, n) ← lift (usb_root_hub_reply buf buf_sz reply (Z.of_nat (length reply))); mret (err, buf, n).

Definition usb_rh_get_descriptor (rq : Z) (buf : list Z) (buf_sz : Z) : io S (Z * list Z * Z) :=
  let rq_value := USB_DEV_RQ_GET_VALUE rq in
  let '(err, reply) := rh_descriptor (Z.land (Z.shiftr rq_value 8) 0xff) (Z.land rq_value 0xff) in
  answer err buf buf_sz reply.

Definition root_hub_get_port_status : io S usb_hub_port_status :=
  r ← read_reg USB_HPRT;
  let bit i := Z.testbit r i in
  let speed := BF_EXTRACT r 17 2 in
  mret (PortStatus
    (bits_word [(0, bit 0); (1, bit 2); (2, bit 7); (3, bit 4); (4, bit 8); (8, bit 12);
      (9, speed =? USB_SPEED_LOW); (10, speed =? USB_SPEED_HIGH)])
    (bits_word [(0, bit 1); (1, bit 3); (3, bit 5)])).

Definition usb_rh_get_status (rq : Z) (buf : list Z) (buf_sz : Z) : io S (Z * list Z * Z) :=
  let type := USB_DEV_RQ_GET_TYPE rq in
  let index := USB_DEV_RQ_GET_INDEX rq in
  if type =? USB_RQ_TYPE_HUB_GET_HUB_STATUS then answer ERR_OK buf buf_sz [1; 0; 0; 0]
  else if type =? USB_RQ_TYPE_HUB_GET_PORT_STATUS then
    if index =? 1 then s ← root_hub_get_port_status; answer ERR_OK buf buf_sz (port_status_bytes s)
    else answer ERR_OK buf buf_sz []
  else answer ERR_INVAL_ARG buf buf_sz [].

Definition usb_rh_rq_set_addr (rq : Z) : io S Z := λ s, Ret (ERR_OK, Rh (ctrl s) (USB_DEV_RQ_GET_VALUE rq)).

(** A read of the port register, changed and written back; the bits that a
    written one clears are masked out first. *)
Definition change_hprt (f : Z → Z) : io S unit :=
  r ← read_reg USB_HPRT; write_reg USB_HPRT (f (Z.land r USB_HPRT_WRITE_MASK)).
Definition on_ctrl {A} (m : io (usb D C) A) : io S A := λ s,
  '(a, u) ← m (ctrl s); Ret (a, Rh u (usb_root_hub_device_number s)).

(** The inner switches of the two feature requests. *)
Definition set_port_feature (value : Z) : io S unit :=
  if value =? USB_HUB_FEATURE_PORT_POWER then change_hprt (λ r, BIT_SET_U32 r USB_HPRT_PWR)
  else if value =? USB_HUB_FEATURE_RESET then on_ctrl dwc2_port_reset
  else mret tt.

Definition clear_port_feature (value : Z) : io S unit :=
  if value =? USB_HUB_FEATURE_PORT_POWER then change_hprt (λ r, BIT_CLEAR_U32 r USB_HPRT_PWR)
  else if value =? USB_HUB_FEATURE_ENABLE then change_hprt (λ r, BIT_SET_U32 r USB_HPRT_ENA)
  else if value =? USB_HUB_FEATURE_ENABLE_CHANGE then change_hprt (λ r, BIT_SET_U32 r USB_HPRT_EN_CHNG)
  else if value =? USB_HUB_FEATURE_RESET_CHANGE then _ ← read_reg USB_HPRT; mret tt
  else if value =? USB_HUB_FEATURE_RESET then change_hprt (λ r, BF_CLEAR r 8 1)
  else if value =? USB_HUB_FEATURE_SUSPEND_CHANGE then
    _ ← write_reg USB_PCGCR 0;
    _ ← change_hprt (λ r, BIT_SET_U32 r USB_HPRT_RES);
    change_hprt (λ r, BIT_CLEAR_U32 (BIT_CLEAR_U32 r USB_HPRT_SUSP) USB_HPRT_RES)
  else if value =? USB_HUB_FEATURE_OVERCURRENT_CHANGE then change_hprt (λ r, BIT_SET_U32 r USB_HPRT_OVRCURR_CHNG)
  else if (value =? USB_HUB_FEATURE_CONNECTION_CHANGE) || (value =? USB_PORT_STATUS_CH_BIT_CONNECTED_CHANGED) then
    change_hprt (λ r, BIT_SET_U32 r USB_HPRT_CONN_DET)
  else mret tt.

(** Hub features are skipped; other types of request are logged. *)
Definition usb_rh_rq_set_feature (rq : Z) : io S Z :=
  _ ← (if USB_DEV_RQ_GET_TYPE rq =? USB_RQ_TYPE_HUB_SET_PORT_FEATURE then set_port_feature (USB_DEV_RQ_GET_VALUE rq) else mret tt);
  mret ERR_OK.
Definition usb_rh_rq_clear_feature (rq : Z) : io S Z :=
  _ ← (if USB_DEV_RQ_GET_TYPE rq =? USB_RQ_TYPE_HUB_SET_PORT_FEATURE then clear_port_feature (USB_DEV_RQ_GET_VALUE rq) else mret tt);
  mret ERR_OK.

Definition usb_root_hub_process_req (rq : Z) (buf : list Z) (buf_sz : Z) : io S (Z * list Z * Z) :=
  let request := USB_DEV_RQ_GET_RQ rq in
  let no_data (m : io S Z) : io S (Z * list Z * Z) := err ← m; mret (err, buf, 0) in
  if request =? USB_RQ_GET_STATUS then usb_rh_get_status rq buf buf_sz
  else if request =? USB_RQ_SET_FEATURE then no_data (usb_rh_rq_set_feature rq)
  else if request =? USB_RQ_CLEAR_FEATURE then no_data (usb_rh_rq_clear_feature rq)
  else if request =? USB_RQ_SET_ADDRESS then no_data (usb_rh_rq_set_addr rq)
  else if request =? USB_RQ_GET_DESCRIPTOR then usb_rh_get_descriptor rq buf buf_sz
  else if request =? USB_RQ_SET_CONFIGURATION then no_data (mret ERR_OK)
  else if (request =? USB_RQ_SET_DESCRIPTOR) || (request =? USB_RQ_GET_CONFIGURATION) || (request =? USB_RQ_GET_INTERFACE) ||
          (request =? USB_RQ_SET_INTERFACE) || (request =? USB_RQ_SYNCH_FRAME) then no_data (mret ERR_NOT_IMPLEMENTED)
  else no_data (mret ERR_INVAL_ARG).
End root_hub.

(** ** Specification: the port of the hub *)
Record port := Port {
  p_connected : bool; p_connection_change : bool; p_enabled : bool; p_enable_change : bool; p_overcurrent : bool;
  p_overcurrent_change : bool; p_reset : bool; p_power : bool }.

(** What the port register shows. *)
Definition port_of (v : Z) : port :=
  Port (Z.testbit v 0) (Z.testbit v 1) (Z.testbit v 2) (Z.testbit v 3) (Z.testbit v 4) (Z.testbit v 5) (Z.testbit v 8) (Z.testbit v 12).

(** A host port behind register accesses, as dwc2_regs.h and the register's write
    mask have it: the bits 1, 2, 3 and 5 are cleared by writing one and only so;
    reset (8) and power (12) are as written; any other bit keeps its value if that
    is what is written to it.  [written] is the word a register was last written. *)
Class HostPort (D : Type) `{Mmio D} : Type := {
  hprt : D → Z;
  written : D → Z → Z;
  hprt_read d : mmio_read USB_HPRT d = (hprt d, d);
  hprt_clears v d i : i ∈ [1; 2; 3; 5] → Z.testbit (hprt (mmio_write USB_HPRT v d)) i = Z.testbit (hprt d) i && negb (Z.testbit v i);
  hprt_sets v d i : i ∈ [8; 12] → Z.testbit (hprt (mmio_write USB_HPRT v d)) i = Z.testbit v i;
  hprt_keeps v d i : 0 ≤ i < 32 → i ∉ [1; 2; 3; 5; 8; 12] → Z.testbit v i = Z.testbit (hprt d) i →
    Z.testbit (hprt (mmio_write USB_HPRT v d)) i = Z.testbit (hprt d) i;
  hprt_other r v d : r ≠ USB_HPRT → hprt (mmio_write r v d) = hprt d;
  written_other r v d r' : r' ≠ r → written (mmio_write r v d) r' = written d r' }.

(** The effect of the feature requests on the bits of the port register: the bit
    and the value it takes.  SetPortFeature: power and reset.  ClearPortFeature:
    enable, reset, power, and the changes of connection (by either of two
    numbers), enable and overcurrent.  Clearing the suspend change resumes the
    port, and leaves open what becomes of the bits of resume and suspend. *)
Definition feature_effect (set : bool) (feature : Z) : list (Z * option bool) :=
  match set, feature with
  | true, 4 => [(8, Some true)]
  | true, 8 => [(12, Some true)]
  | false, 1 => [(2, Some false)]
  | false, 4 => [(8, Some false)]
  | false, 8 => [(12, Some false)]
  | false, (0 | 16) => [(1, Some false)]
  | false, 17 => [(3, Some false)]
  | false, 18 => [(6, None); (7, None)]
  | false, 19 => [(5, Some false)]
  | _, _ => []
  end.

(** The word [v] became [w] with this effect: every bit not named is as it was. *)
Definition follows (e : list (Z * option bool)) (v w : Z) : Prop := ∀ i, 0 ≤ i < 32 →
  match find (λ p, p.1 =? i) e with
  | Some (_, Some b) => Z.testbit w i = b
  | Some (_, None) => True
  | None => Z.testbit w i = Z.testbit v i
  end.

Definition feature_rq (set : bool) (feature index len : Z) : Z :=
  USB_DEV_RQ_MAKE USB_RQ_TYPE_HUB_SET_PORT_FEATURE (if set then USB_RQ_SET_FEATURE else USB_RQ_CLEAR_FEATURE) feature index len.

Lemma set_bit_at v n i : 0 ≤ i < 32 → 0 ≤ n → Z.testbit (BIT_SET_U32 v n) i = Z.testbit v i || (i =? n).
Proof.
  intros. unfold BIT_SET_U32, BT. rewrite Z.shiftl_mul_pow2, Z.mul_1_l by lia. testbits. rewrite testbit_pow2 by lia.
  rewrite ?(proj2 (Z.ltb_lt i 32)) by lia. by rewrite ?andb_true_r.
Qed.

Lemma clear_bit_at v n i : 0 ≤ i < 32 → 0 ≤ n → Z.testbit (BIT_CLEAR_U32 v n) i = Z.testbit v i && negb (i =? n).
Proof.
  intros. unfold BIT_CLEAR_U32, BT. rewrite Z.shiftl_mul_pow2, Z.mul_1_l by lia. testbits. rewrite testbit_pow2 by lia.
  rewrite ?(proj2 (Z.ltb_lt i 32)) by lia. by rewrite ?andb_true_r.
Qed.
#[local] Arguments Z.testbit : simpl never.

Section port_spec.
Context {D C : Type} `{HostPort D}.

Definition port_word (s : rh D C) : Z := hprt (dev (ctrl s)).
Definition port_at (s : rh D C) : port := port_of (port_word s).

(** [s'] differs from [s] in the device only. *)
Definition device_only (s s' : rh D C) : Prop :=
  s' = Rh (with_dev (ctrl s) (dev (ctrl s'))) (usb_root_hub_device_number s).

(** No register but those of [l] was written. *)
Definition writes_only (l : list Z) (s s' : rh D C) : Prop := ∀ r, r ∉ l → written (dev (ctrl s')) r = written (dev (ctrl s)) r.

(** [m] returns, writes registers of [l] only, and has the effect [e] on the port register. *)
Definition acts (m : io (rh D C) unit) (l : list Z) (e : list (Z * option bool)) : Prop := ∀ s, ∃ s',
  m s = Ret (tt, s') ∧ device_only s s' ∧ writes_only l s s' ∧ follows e (port_word s) (port_word s').

(** What is left of the word read after masking: nothing that clears a bit. *)
Lemma masked_at v i : 0 ≤ i < 32 → Z.testbit (Z.land v USB_HPRT_WRITE_MASK) i = Z.testbit v i && negb (i =? 1) && negb (i =? 2) && negb (i =? 3) && negb (i =? 5).
Proof.
  intros Hi. rewrite Z.land_spec. destruct (Z.testbit v i); cbn [andb]; [|done].
  assert (i ∈ seqZ 0 32) as Hin by (apply elem_of_seqZ; lia). revert i Hi Hin.
  assert (Forall (λ i, Z.testbit USB_HPRT_WRITE_MASK i = negb (i =? 1) && negb (i =? 2) && negb (i =? 3) && negb (i =? 5)) (seqZ 0 32)) as HF.
  { by vm_compute; repeat constructor. }
  intros i _ Hin. exact (proj1 (Forall_forall _ _) HF i Hin).
Qed.

(** [f] gives the bit [n] the value [b] and leaves the others. *)
Definition sets_bit (n : Z) (b : bool) (f : Z → Z) : Prop := ∀ v i, 0 ≤ i < 32 →
  Z.testbit (u32 (f v)) i = if i =? n then b else Z.testbit v i.

Lemma sets_bit_set n : 0 ≤ n → sets_bit n true (λ v, BIT_SET_U32 v n).
Proof. intros Hn v i Hi. rewrite testbit_u32, set_bit_at, (proj2 (Z.ltb_lt i 32)) by lia. cbn [andb]. by destruct (i =? n); rewrite ?orb_true_r, ?orb_false_r. Qed.
Lemma sets_bit_clear n : 0 ≤ n → sets_bit n false (λ v, BIT_CLEAR_U32 v n).
Proof. intros Hn v i Hi. rewrite testbit_u32, clear_bit_at, (proj2 (Z.ltb_lt i 32)) by lia. cbn [andb]. destruct (i =? n); cbn [negb]; by rewrite ?andb_true_r, ?andb_false_r. Qed.
Lemma sets_bit_field : sets_bit 8 false (λ v, BF_CLEAR v 8 1).
Proof.
  intros v i Hi. rewrite testbit_u32, testbit_clear, (proj2 (Z.ltb_lt i 32)) by lia. cbn [andb]. destruct (Z.eqb_spec i 8) as [->|Hne]; [by rewrite andb_false_r|].
  destruct (Z.leb_spec 8 i), (Z.ltb_spec i (8 + 1)); try lia; cbn; by rewrite andb_true_r.
Qed.

(** The access to the port register of every request. *)
Lemma change_acts (f : Z → Z) e :
  (∀ v w, (∀ i, i ∈ [1; 2; 3; 5] → Z.testbit w i = Z.testbit v i && negb (Z.testbit (u32 (f (Z.land v USB_HPRT_WRITE_MASK))) i)) →
    (∀ i, i ∈ [8; 12] → Z.testbit w i = Z.testbit (u32 (f (Z.land v USB_HPRT_WRITE_MASK))) i) →
    (∀ i, 0 ≤ i < 32 → i ∉ [1; 2; 3; 5; 8; 12] → Z.testbit (u32 (f (Z.land v USB_HPRT_WRITE_MASK))) i = Z.testbit v i →
      Z.testbit w i = Z.testbit v i) → follows e v w) →
  acts (change_hprt f) [USB_HPRT] e.
Proof.
  intros Hf s. unfold change_hprt. rewrite read_reg_bind. unfold write_reg. destruct s as [u n], u. cbn -[USB_HPRT USB_HPRT_WRITE_MASK].
  rewrite hprt_read. eexists. split; [reflexivity|]. split; [done|]. unfold writes_only, port_word. cbn -[USB_HPRT USB_HPRT_WRITE_MASK].
  split; [intros r Hr; apply written_other; intros ->; apply Hr; by left|].
  apply Hf; [apply hprt_clears|apply hprt_sets|apply hprt_keeps].
Qed.

#[local] Ltac split_cases := repeat rewrite ?elem_of_cons, ?elem_of_nil in *;
  repeat match goal with H : _ ∨ _ |- _ => destruct H | H : _ ∧ _ |- _ => destruct H | H : False |- _ => destruct H end; subst.

(** Setting a bit that a one clears clears it, and reset and power become what is
    written; nothing else happens. *)
Lemma change_bit f n b e : sets_bit n b f → n ∈ [1; 2; 3; 5] ∧ b = true ∧ e = [(n, Some false)] ∨ n ∈ [8; 12] ∧ e = [(n, Some b)] →
  acts (change_hprt f) [USB_HPRT] e.
Proof.
  intros Hf Hcase. apply change_acts. intros v w Hc Hs Hk i Hi.
  assert (∀ j, 0 ≤ j < 32 → Z.testbit (u32 (f (Z.land v USB_HPRT_WRITE_MASK))) j =
    if j =? n then b else Z.testbit v j && negb (j =? 1) && negb (j =? 2) && negb (j =? 3) && negb (j =? 5)) as Hw.
  { intros j Hj. rewrite Hf by done. destruct (j =? n); [done|by rewrite masked_at]. }
  destruct (decide (i ∈ [1; 2; 3; 5])) as [H1|H1]; [specialize (Hc i H1); rewrite Hw in Hc by done|
    destruct (decide (i ∈ [8; 12])) as [H2|H2]; [specialize (Hs i H2); rewrite Hw in Hs by done|]].
  - clear Hs Hk Hw Hf. split_cases; rewrite Hc; cbn; by repeat match goal with |- context [Z.testbit v ?j] => destruct (Z.testbit v j) end.
  - clear Hc Hk Hw Hf. split_cases; rewrite Hs; cbn; by repeat match goal with |- context [Z.testbit v ?j] => destruct (Z.testbit v j) end.
  - assert (i ≠ 1 ∧ i ≠ 2 ∧ i ≠ 3 ∧ i ≠ 5 ∧ i ≠ 8 ∧ i ≠ 12) as Hi' by (split_and!; intros ->; first [apply H1; set_solver|apply H2; set_solver]).
    specialize (Hk i Hi ltac:(set_solver)). rewrite Hw in Hk by done. clear Hc Hs Hw Hf H1 H2.
    destruct (decide (i = n)) as [E|Hn].
    + clear Hk. destruct Hi' as (?&?&?&?&?&?). split_cases; try lia; done.
    + rewrite (proj2 (Z.eqb_neq i n) Hn) in Hk. destruct Hi' as (?&?&?&?&?&?).
      rewrite Hk; [|by rewrite !(proj2 (Z.eqb_neq i _)), ?andb_true_r by lia].
      split_cases; cbn [find fst]; rewrite ?(proj2 (Z.eqb_neq _ i)) by lia; try done; by repeat case_match.
Qed.

(** A change of the bits of resume and suspend alone. *)
Lemma change_resume f : (∀ v i, 0 ≤ i < 32 → i ≠ 6 → i ≠ 7 → Z.testbit (u32 (f v)) i = Z.testbit v i) →
  acts (change_hprt f) [USB_HPRT] [(6, None); (7, None)].
Proof.
  intros Hf. apply change_acts. intros v w Hc Hs Hk i Hi. cbn [find fst].
  destruct (Z.eqb_spec 6 i) as [E|H6]; [done|]. destruct (Z.eqb_spec 7 i) as [E|H7]; [done|].
  assert (Z.testbit (u32 (f (Z.land v USB_HPRT_WRITE_MASK))) i = Z.testbit v i && negb (i =? 1) && negb (i =? 2) && negb (i =? 3) && negb (i =? 5))
    as Hw by (rewrite Hf by lia; by apply masked_at).
  destruct (decide (i ∈ [1; 2; 3; 5])) as [H1|H1]; [|destruct (decide (i ∈ [8; 12])) as [H2|H2]].
  - rewrite (Hc i H1), Hw. clear -H1. split_cases; cbn; by repeat match goal with |- context [Z.testbit v ?j] => destruct (Z.testbit v j) end.
  - rewrite (Hs i H2), Hw. clear -H2. split_cases; cbn; by rewrite !andb_true_r.
  - apply Hk; [done|set_solver|]. rewrite Hw, !(proj2 (Z.eqb_neq i _)), ?andb_true_r; [done|..]; intros ->; apply H1; set_solver.
Qed.

Lemma follows_twice e u v w : Forall (λ p, p.2 = None) e → follows e u v → follows e v w → follows e u w.
Proof.
  intros He Hv Hw i Hi. specialize (Hv i Hi). specialize (Hw i Hi). destruct (find _ e) as [[j o]|] eqn:E; [|by rewrite Hw].
  apply find_some in E as [Hin _]. apply list_elem_of_In in Hin. apply (proj1 (Forall_forall _ _) He) in Hin. cbn in Hin. by rewrite Hin.
Qed.

Lemma follows_refl v : follows [] v v.
Proof. by intros i _. Qed.

Lemma acts_skip l : acts (mret tt) l [].
Proof. intros s. exists s. destruct s as [[] ?]. split_and!; [done|done|by intros r _|apply follows_refl]. Qed.

Lemma device_only_trans (s1 s2 s3 : rh D C) : device_only s1 s2 → device_only s2 s3 → device_only s1 s3.
Proof. unfold device_only. intros -> E. rewrite E at 1. by destruct s1 as [[] ?], s3 as [[] ?]. Qed.

Lemma acts_bind (m1 m2 : io (rh D C) unit) l e1 e2 : acts m1 l e1 → acts m2 l e2 →
  (∀ u v w, follows e1 u v → follows e2 v w → follows e2 u w) → acts (_ ← m1; m2) l e2.
Proof.
  intros H1 H2 Hf s. destruct (H1 s) as (s1 & E1 & D1 & W1 & F1), (H2 s1) as (s2 & E2 & D2 & W2 & F2). exists s2.
  rewrite (io_bind_ret _ _ _ _ _ E1). split_and!; [done|by eapply device_only_trans| |by eapply Hf].
  intros r Hr. by rewrite (W2 r Hr), (W1 r Hr).
Qed.

Lemma acts_more m l l' e : acts m l e → l ⊆ l' → acts m l' e.
Proof.
  intros Hm Hl s. destruct (Hm s) as (s' & E & Hd & Hw & Hf). exists s'. split_and!; [done|done| |done].
  intros r Hr. apply Hw. intros Hin. by apply Hr, Hl.
Qed.

Lemma acts_other r v : r ≠ USB_HPRT → acts (write_reg r v) [r] [].
Proof.
  intros Hr s. eexists. split; [reflexivity|]. destruct s as [[] ?]. split; [done|]. unfold writes_only, port_word. cbn.
  split; [intros r' Hr'; apply written_other; intros ->; apply Hr'; by left|]. rewrite hprt_other by done. apply follows_refl.
Qed.

Lemma acts_read l : acts (_ ← read_reg USB_HPRT; mret tt) l [].
Proof.
  intros s. rewrite read_reg_bind. exists s. destruct s as [[] ?]. cbn -[USB_HPRT]. rewrite hprt_read.
  split_and!; [done|done|by intros r _|apply follows_refl].
Qed.

(** The controller's own reset of the port is such a change. *)
Lemma reset_change : on_ctrl (D := D) (C := C) dwc2_port_reset = change_hprt (λ v, BF_CLEAR_AND_SET v 1 8 1).
Proof. done. Qed.

Lemma sets_bit_reset : sets_bit 8 true (λ v, BF_CLEAR_AND_SET v 1 8 1).
Proof.
  intros v i Hi. unfold BF_CLEAR_AND_SET, BF_ORR. rewrite testbit_u32, Z.lor_spec, testbit_clear, testbit_place, (proj2 (Z.ltb_lt i 32)) by lia.
  destruct (Z.eqb_spec i 8) as [->|Hne]; [cbn; by rewrite orb_true_r|].
  destruct (Z.leb_spec 8 i), (Z.ltb_spec i (8 + 1)); try lia; cbn; by rewrite andb_true_r, orb_false_r.
Qed.

#[local] Ltac change_one H := eapply change_bit; [apply H; done|]; split_cases; set_solver.

Lemma set_feature_acts value : acts (set_port_feature value) [USB_HPRT] (feature_effect true value).
Proof.
  unfold set_port_feature.
  destruct (Z.eqb_spec value USB_HUB_FEATURE_PORT_POWER) as [->|H1]; [change_one sets_bit_set|].
  destruct (Z.eqb_spec value USB_HUB_FEATURE_RESET) as [->|H2]; [rewrite reset_change; change_one sets_bit_reset|].
  replace (feature_effect true value) with (@nil (Z * option bool)); [apply acts_skip|].
  unfold feature_effect. by repeat case_match.
Qed.

Lemma suspend_acts : acts
  (_ ← write_reg USB_PCGCR 0;
   _ ← change_hprt (λ r, BIT_SET_U32 r USB_HPRT_RES);
   change_hprt (λ r, BIT_CLEAR_U32 (BIT_CLEAR_U32 r USB_HPRT_SUSP) USB_HPRT_RES)) [USB_HPRT; USB_PCGCR] [(6, None); (7, None)].
Proof.
  eapply acts_bind; [eapply acts_more; [by apply acts_other|set_solver]| |].
  - eapply acts_more; [|apply (list_subseteq_skip USB_HPRT), list_subseteq_nil]. eapply acts_bind; [apply change_resume..|intros u v w; apply follows_twice; by repeat constructor].
    + intros v i Hi H6 H7. rewrite (sets_bit_set 6) by done. by rewrite (proj2 (Z.eqb_neq i 6)).
    + intros v i Hi H6 H7. rewrite (sets_bit_clear 6) by done. rewrite (proj2 (Z.eqb_neq i 6)) by done.
      rewrite clear_bit_at, (proj2 (Z.eqb_neq i USB_HPRT_SUSP)) by done. apply andb_true_r.
  - intros u v w H1 H2 i Hi. specialize (H1 i Hi). specialize (H2 i Hi). cbn [find] in H1. rewrite <- H1. exact H2.
Qed.

Lemma clear_feature_acts value : acts (clear_port_feature value) (if value =? 18 then [USB_HPRT; USB_PCGCR] else [USB_HPRT]) (feature_effect false value).
Proof.
  unfold clear_port_feature.
  destruct (Z.eqb_spec value USB_HUB_FEATURE_PORT_POWER) as [->|H1]; [change_one sets_bit_clear|].
  destruct (Z.eqb_spec value USB_HUB_FEATURE_ENABLE) as [->|H2]; [change_one sets_bit_set|].
  destruct (Z.eqb_spec value USB_HUB_FEATURE_ENABLE_CHANGE) as [->|H3]; [change_one sets_bit_set|].
  destruct (Z.eqb_spec value USB_HUB_FEATURE_RESET_CHANGE) as [->|H4]; [apply acts_read|].
  destruct (Z.eqb_spec value USB_HUB_FEATURE_RESET) as [->|H5]; [change_one sets_bit_field|].
  destruct (Z.eqb_spec value USB_HUB_FEATURE_SUSPEND_CHANGE) as [->|H6]; [apply suspend_acts|].
  destruct (Z.eqb_spec value USB_HUB_FEATURE_OVERCURRENT_CHANGE) as [->|H7]; [change_one sets_bit_set|].
  destruct (Z.eqb_spec value USB_HUB_FEATURE_CONNECTION_CHANGE) as [->|H8]; [change_one sets_bit_set|].
  destruct (Z.eqb_spec value USB_PORT_STATUS_CH_BIT_CONNECTED_CHANGED) as [->|H9]; [change_one sets_bit_set|].
  cbn [orb]. replace (feature_effect false value) with (@nil (Z * option bool)); [apply acts_skip|].
  unfold feature_effect. by repeat case_match.
Qed.

(** The dispatch of the feature requests of a port. *)
Lemma process_feature (set : bool) rq buf buf_sz : USB_DEV_RQ_GET_TYPE rq = USB_RQ_TYPE_HUB_SET_PORT_FEATURE →
  USB_DEV_RQ_GET_RQ rq = (if set then USB_RQ_SET_FEATURE else USB_RQ_CLEAR_FEATURE) →
  usb_root_hub_process_req (D := D) (C := C) rq buf buf_sz =
  (err ← (_ ← (if set then set_port_feature else clear_port_feature) (USB_DEV_RQ_GET_VALUE rq); mret ERR_OK); mret (err, buf, 0)).
Proof. intros Ht Hr. unfold usb_root_hub_process_req, usb_rh_rq_set_feature, usb_rh_rq_clear_feature. rewrite Ht, Hr. by destruct set. Qed.

(** C8: A SetPortFeature or ClearPortFeature request to the root hub is always
    answered with success and no data.  Over every port register that clears its
    change bits and the enable bit on a written one, the bit that the feature
    names takes its value (power and reset set or cleared, enable and the changes
    of connection, enable and overcurrent cleared), and each of the other 32 bits
    stays as it was: no request loses a change that another should see, and none
    but a clear of ENABLE disables the port.  A feature the hub does not have
    changes no bit; clearing the suspend change may change the bits of resume and
    suspend, and it alone writes a register other than HPRT, PCGCR. *)
Theorem root_hub_port_feature set feature index len buf buf_sz s : 0 ≤ feature < 2 ^ 16 → 0 ≤ index < 2 ^ 16 → 0 ≤ len < 2 ^ 16 →
  ∃ s', usb_root_hub_process_req (feature_rq set feature index len) buf buf_sz s = Ret ((ERR_OK, buf, 0), s') ∧
    device_only s s' ∧ follows (feature_effect set feature) (port_word s) (port_word s') ∧
    writes_only (if negb set && (feature =? 18) then [USB_HPRT; USB_PCGCR] else [USB_HPRT]) s s'.
Proof.
  intros Hf Hi Hl. destruct (rq_fields USB_RQ_TYPE_HUB_SET_PORT_FEATURE (if set then USB_RQ_SET_FEATURE else USB_RQ_CLEAR_FEATURE) feature
    index len ltac:(done) ltac:(by destruct set) Hf Hi Hl) as (Ht & Hr & Hv & _). fold (feature_rq set feature index len) in Ht, Hr, Hv.
  assert (acts ((if set then set_port_feature else clear_port_feature) feature)
    (if negb set && (feature =? 18) then [USB_HPRT; USB_PCGCR] else [USB_HPRT]) (feature_effect set feature)) as Ha
    by (destruct set; [apply set_feature_acts|apply clear_feature_acts]).
  destruct (Ha s) as (s' & E & Hd & Hw & Hb). exists s'. split; [|done]. rewrite (process_feature set _ _ _ Ht Hr), Hv.
  rewrite (io_bind_ret _ _ s ERR_OK s'); [done|]. by rewrite (io_bind_ret _ _ _ _ _ E).
Qed.

(** ** Replies *)
Lemma reply_truncates (dst reply : list Z) dst_sz : length dst = Z.to_nat dst_sz → 0 ≤ dst_sz →
  let n := (length reply `min` length dst)%nat in
  usb_root_hub_reply dst dst_sz reply (Z.of_nat (length reply)) = Ret (take n reply ++ drop n dst, Z.of_nat n).
Proof.
  intros Hd Hsz n. unfold usb_root_hub_reply, truth. destruct (Z.eqb_spec (Z.of_nat (length reply)) 0) as [E|E]; cbn [negb].
  - unfold n. destruct reply; [|cbn in E; lia]. by rewrite Nat.min_0_l, drop_0.
  - rewrite Z.gtb_ltb. destruct (Z.ltb_spec dst_sz (Z.of_nat (length reply))).
    + zdec. rewrite blit_small by (rewrite length_take; lia). cbn. unfold n. rewrite length_take.
      rewrite (Nat.min_r (length reply)) by lia. rewrite Hd, Nat.min_l by lia. f_equal. f_equal. lia.
    + zdec. rewrite Nat2Z.id, blit_small by (rewrite length_take; lia). cbn. unfold n. rewrite length_take, Nat.min_id.
      by rewrite (Nat.min_l (length reply)) by lia.
Qed.

Lemma answer_truncates err (buf reply : list Z) buf_sz (s : rh D C) : length buf = Z.to_nat buf_sz → 0 ≤ buf_sz →
  let n := (length reply `min` length buf)%nat in
  answer err buf buf_sz reply s = Ret ((err, take n reply ++ drop n buf, Z.of_nat n), s).
Proof. intros Hb Hsz n. unfold answer, lift, mbind, io_bind, mret, io_ret. rewrite reply_truncates by done. done. Qed.

(** The size a descriptor announces; a configuration's counts what follows it. *)
Definition descriptor_size (d : list Z) : Z :=
  if header_descriptor_type d =? USB_DESCRIPTOR_TYPE_CONFIGURATION then total_length d else header_length d.

(** A descriptor announces its size and its type. *)
Lemma rh_descriptor_header desc_type desc_idx d : rh_descriptor desc_type desc_idx = (ERR_OK, d) →
  descriptor_size d = Z.of_nat (length d) ∧ header_descriptor_type d = desc_type.
Proof.
  unfold rh_descriptor.
  repeat match goal with |- context [?a =? ?b] => destruct (Z.eqb_spec a b) as [->|] end;
    intros E; vm_compute in E; first [discriminate E|injection E as <-; by vm_compute].
Qed.

(** A GetDescriptor request to the root hub copies as much of the
    descriptor as the buffer holds and reports that many bytes, leaves the rest
    of the buffer and the hub alone, and refuses a descriptor it does not have;
    what it copies announces its own size and type. *)
Theorem root_hub_get_descriptor hub desc_type desc_idx lang len buf s : 0 ≤ desc_type < 2 ^ 8 → 0 ≤ desc_idx < 2 ^ 8 →
  0 ≤ lang < 2 ^ 16 → 0 ≤ len < 2 ^ 16 →
  let make := if hub : bool then USB_DEV_HUB_RQ_MAKE_GET_DESCRIPTOR else USB_DEV_RQ_MAKE_GET_DESCRIPTOR in
  let '(err, d) := rh_descriptor desc_type desc_idx in
  let n := (length d `min` length buf)%nat in
  usb_root_hub_process_req (make desc_type desc_idx lang len) buf (Z.of_nat (length buf)) s =
    Ret ((err, take n d ++ drop n buf, Z.of_nat n), s : rh D C) ∧
  (err = ERR_OK ∧ descriptor_size d = Z.of_nat (length d) ∧ header_descriptor_type d = desc_type ∨ err = ERR_INVAL_ARG ∧ d = []).
Proof.
  intros Ht Hi Hla Hle make. destruct (rh_descriptor desc_type desc_idx) as [err d] eqn:E. cbv zeta. split.
  - assert (0 ≤ descriptor_value desc_type desc_idx < 2 ^ 16 ∧ Z.land (Z.shiftr (descriptor_value desc_type desc_idx) 8) 0xff = desc_type ∧
      Z.land (descriptor_value desc_type desc_idx) 0xff = desc_idx) as (Hv & Et & Ei).
    { unfold descriptor_value. change 0xff with (Z.ones 8). rewrite !Z.land_ones, Z.shiftl_mul_pow2, !Z.shiftr_div_pow2 by lia.
      rewrite !(Z.mod_small _ (2 ^ 8)) by lia. rewrite Z.lor_comm, (Z.mul_comm desc_type), lor_above by lia. split_and!; dlia. }
    assert (∀ ty, 0 ≤ ty < 2 ^ 8 → let rq := USB_DEV_RQ_MAKE ty USB_RQ_GET_DESCRIPTOR (descriptor_value desc_type desc_idx) lang len in
      USB_DEV_RQ_GET_RQ rq = USB_RQ_GET_DESCRIPTOR ∧ USB_DEV_RQ_GET_VALUE rq = descriptor_value desc_type desc_idx) as Hrq.
    { intros ty Hty. destruct (rq_fields ty USB_RQ_GET_DESCRIPTOR _ lang len Hty ltac:(done) Hv Hla Hle) as (_ & ? & ? & _). done. }
    assert (USB_DEV_RQ_GET_RQ (make desc_type desc_idx lang len) = USB_RQ_GET_DESCRIPTOR ∧
      USB_DEV_RQ_GET_VALUE (make desc_type desc_idx lang len) = descriptor_value desc_type desc_idx) as [Er Ev].
    { unfold make. destruct hub; apply Hrq; done. }
    unfold usb_root_hub_process_req. rewrite Er. cbn [Z.eqb]. unfold usb_rh_get_descriptor. rewrite Ev, Et, Ei, E.
    apply answer_truncates; lia.
  - destruct (decide (err = ERR_OK)) as [->|Hne]; [left; destruct (rh_descriptor_header _ _ _ E) as (? & ?); done|right].
    revert E. unfold rh_descriptor. repeat case_match; intros [= <- <-]; done.
Qed.

(** What a status reply says of the port. *)
Definition reports (st : usb_hub_port_status) (p : port) : Prop :=
  connected st = p_connected p ∧ enabled st = p_enabled p ∧ reset st = p_reset p ∧ powered st = p_power p ∧
  connected_changed st = p_connection_change p ∧ enabled_changed st = p_enable_change p ∧
  overcurrent_changed st = p_overcurrent_change p ∧ suspended_changed st = false ∧ reset_changed st = false.

Lemma bits_word_at l i : 0 ≤ i → Forall (λ p, 0 ≤ p.1) l → Z.testbit (bits_word l) i = existsb (λ '(j, b), (j =? i) && b) l.
Proof.
  intros Hi. induction 1 as [|[j b] l Hj _ IH]; [apply Z.testbit_0_l|]. cbn in Hj. cbn [bits_word foldr existsb].
  rewrite Z.lor_spec, Z.shiftl_spec by lia. fold (bits_word l). rewrite IH. f_equal.
  destruct (Z.eqb_spec j i) as [->|Hne]; [rewrite Z.sub_diag; by destruct b|].
  destruct b; [|apply Z.testbit_0_l]. cbn [bool_z andb]. destruct (Z.ltb_spec i j); [by apply Z.testbit_neg_r; lia|].
  apply (testbit_high 1 1); lia.
Qed.

Lemma port_status_reports s : ∃ st, root_hub_get_port_status s = Ret (st, s) ∧ reports st (port_at s).
Proof.
  unfold root_hub_get_port_status. rewrite read_reg_bind. destruct s as [[] n]. cbn -[USB_HPRT bits_word]. rewrite hprt_read.
  eexists. split; [reflexivity|]. unfold reports, port_at, port_word, port_of, connected, enabled, reset, powered, connected_changed,
    enabled_changed, overcurrent_changed, suspended_changed, reset_changed. cbn -[bits_word].
  rewrite !bits_word_at by first [lia | by repeat constructor]. cbn -[Z.testbit]. by rewrite !orb_false_r.
Qed.
End port_spec.

(** A port that answers as documented: the state of the register, and the words
    written to the others. *)
Record test_port := TestPort { reg : Z; words : Z → Z }.
#[local] Instance test_port_mmio : Mmio test_port := {|
  mmio_read r d := (if r =? USB_HPRT then reg d else 0, d);
  mmio_write r v d := if r =? USB_HPRT
    then TestPort (Z.lor (Z.land (reg d) (Z.land (Z.lnot v) 0x2e)) (Z.lor (Z.land v 0x1100) (Z.land (reg d) 0xffffeed1))) (words d)
    else TestPort (reg d) (λ r', if r' =? r then v else words d r') |}.

Lemma test_port_bit w v i : 0 ≤ i < 32 →
  Z.testbit (Z.lor (Z.land w (Z.land (Z.lnot v) 0x2e)) (Z.lor (Z.land v 0x1100) (Z.land w 0xffffeed1))) i =
    if bool_decide (i ∈ [1; 2; 3; 5]) then Z.testbit w i && negb (Z.testbit v i) else if bool_decide (i ∈ [8; 12]) then Z.testbit v i else Z.testbit w i.
Proof.
  intros Hi. assert (i ∈ seqZ 0 32) as Hin by (apply elem_of_seqZ; lia).
  assert (Forall (λ i, ∀ a b, (a && (negb b && Z.testbit 0x2e i)) || ((b && Z.testbit 0x1100 i) || (a && Z.testbit 0xffffeed1 i)) =
    if bool_decide (i ∈ [1; 2; 3; 5]) then a && negb b else if bool_decide (i ∈ [8; 12]) then b else a) (seqZ 0 32)) as HF.
  { by vm_compute; repeat constructor; intros [] []. }
  rewrite !Z.lor_spec, !Z.land_spec, Z.lnot_spec by lia. exact (proj1 (Forall_forall _ _) HF i Hin _ _).
Qed.

#[local] Instance test_port_law : HostPort test_port.
Proof.
  refine {| hprt := reg; written := words |}; unfold mmio_write; cbn [test_port_mmio mmio_read]; rewrite ?Z.eqb_refl.
  - done.
  - intros v d i Hi. cbn [reg]. rewrite test_port_bit, bool_decide_eq_true_2 by (first [done|set_unfold; lia]). done.
  - intros v d i Hi. cbn [reg]. rewrite test_port_bit by (set_unfold; lia). rewrite bool_decide_eq_false_2 by (set_unfold; lia).
    by rewrite bool_decide_eq_true_2.
  - intros v d i Hi Hn _. cbn [reg]. rewrite test_port_bit, !bool_decide_eq_false_2 by (first [done|set_solver]). done.
  - intros r v d Hr. by rewrite (proj2 (Z.eqb_neq _ _) Hr).
  - intros r v d r' Hr. destruct (r =? USB_HPRT); [done|]. cbn [words]. by rewrite (proj2 (Z.eqb_neq _ _) Hr).
Defined.

Definition demo_rh (v : Z) : rh test_port unit := Rh (Usb (TestPort v (λ _, 0)) 0 [] ∅ ∅ ∅ (SlotPool 0 0 []) 0 0 tt) 1.

(** The connection change of a port in high speed, enabled and with an enable
    change, is cleared. *)
Lemma root_hub_port_feature_witness : ∃ s',
  usb_root_hub_process_req (feature_rq false USB_HUB_FEATURE_CONNECTION_CHANGE 1 0) [] 0 (demo_rh 0x100f) = Ret ((ERR_OK, [], 0), s') ∧
  follows [(1, Some false)] 0x100f (port_word s').
Proof.
  destruct (root_hub_port_feature (D := test_port) (C := unit) false USB_HUB_FEATURE_CONNECTION_CHANGE 1 0 [] 0 (demo_rh 0x100f)) as (s' & E & _ & P & _).
  - vm_compute; split; congruence.
  - lia.
  - lia.
  - exists s'. split; [exact E|exact P].
Defined.

Lemma root_hub_get_descriptor_witness :
  usb_root_hub_process_req (USB_DEV_HUB_RQ_MAKE_GET_DESCRIPTOR USB_DESCRIPTOR_TYPE_HUB 0 0 2) [0xaa; 0xaa; 0xaa] 3 (demo_rh 0) =
    Ret ((ERR_OK, [9; 41; 1], 3), demo_rh 0).
Proof.
  exact (proj1 (root_hub_get_descriptor (D := test_port) (C := unit) true USB_DESCRIPTOR_TYPE_HUB 0 0 2 [0xaa; 0xaa; 0xaa] (demo_rh 0)
    ltac:(vm_compute; split; congruence) ltac:(lia) ltac:(lia) ltac:(lia))).
Defined.
