(* ===== verification/Hcd.v ===== *)
(** * USB devices (board/bcm2835/usb/hcd.c, include/drivers/usb/hcd.h)

    Devices and their class objects come from static pools and are kept on
    lists; requests go through any [UsbTransport].  A device moves through the
    states of the USB specification as it is enumerated. *)

From S2P Require Import Prelude Bits Lists Rings Strings Mmio Dwc2 UsbTypes.

Definition USB_HCD_DEVICE_CLASS_UNDEFINED : Z := 0.
Definition USB_HCD_DEVICE_CLASS_HUB : Z := 1.
Definition USB_HCD_DEVICE_CLASS_HID : Z := 2.
Definition USB_HCD_DEVICE_CLASS_MASS : Z := 3.
Definition USB_MAX_INTERFACES_PER_DEVICE : Z := 8.
Definition USB_MAX_ENDPOINTS_PER_DEVICE : Z := 16.
Definition USB_DEVICE_STATE_DETACHED : Z := 0.
Definition USB_DEVICE_STATE_ATTACHED : Z := 1.
Definition USB_DEVICE_STATE_POWERED : Z := 2.
Definition USB_DEVICE_STATE_DEFAULT : Z := 3.
Definition USB_DEVICE_STATE_ADDRESSED : Z := 4.
Definition USB_DEVICE_STATE_CONFIGURED : Z := 5.

(** ** Objects

    A device, a class object or a HID interface is named by its address, which
    is that of its slot node; the other list nodes are at fixed offsets. *)
Record usb_hcd_endpoint := Endpoint { ep_descriptor : list Z; ep_pipe : usb_hcd_pipe }.
Record usb_hcd_interface := Interface { i_descriptor : list Z; i_endpoints : list usb_hcd_endpoint }.

Record usb_hcd_device := HcdDevice {
  address : Z; state : Z; configuration : Z; configuration_string : Z; location_hub : Z; hub_port : Z;
  pipe0 : usb_hcd_pipe; descriptor : list Z; num_interfaces : Z; interfaces : list usb_hcd_interface; class : Z;
  string_product : list Z; string_manufacturer : list Z; string_serial : list Z; string_configuration : list Z }.

Definition dev_usb_devices (d : Z) : Z := d + 16.
Definition dev_hub_children (d : Z) : Z := d + 104.
Definition node_usb_device (x : Z) : Z := x - 16.
Definition node_hub_child (x : Z) : Z := x - 104.
Definition hub_children_head (h : Z) : Z := h + 40.
Definition hid_interfaces_head (h : Z) : Z := h + 32.
Definition hid_interface_node (i : Z) : Z := i + 16.
Definition node_hid_interface (x : Z) : Z := x - 16.

Definition zero_pipe : usb_hcd_pipe := UsbPipe 0 0 0 0 0 0 0 0 0.
Definition zero_endpoint : usb_hcd_endpoint := Endpoint (repeat 0 7) zero_pipe.
Definition zero_interface : usb_hcd_interface := Interface (repeat 0 9) (repeat zero_endpoint 16).
(** A slot before its first use. *)
Definition zero_device : usb_hcd_device :=
  HcdDevice 0 0 0 0 NULL 0 zero_pipe (repeat 0 18) 0 (repeat zero_interface 8) NULL (repeat 0 64) (repeat 0 64) (repeat 0 64) (repeat 0 64).

(** The endpoint a pointer of a driver points to. *)
Record ep_ref := EpRef { er_device : Z; er_interface : nat; er_endpoint : nat }.

(** The object behind [d->class]: the constructor is [base.device_class]. *)
Inductive class_obj :=
| ClassHub (h_d : Z) (h_descriptor : list Z)
| ClassHid (hid_d : Z)
| ClassMass (m_d : Z) (ep_out ep_in : option ep_ref).
Definition device_class_of (c : class_obj) : Z :=
  match c with
  | ClassHub _ _ => USB_HCD_DEVICE_CLASS_HUB
  | ClassHid _ => USB_HCD_DEVICE_CLASS_HID
  | ClassMass _ _ _ => USB_HCD_DEVICE_CLASS_MASS
  end.

(** ** State *)
Record hcd (B : Type) := HcdState {
  bus : B; devices : gmap Z usb_hcd_device; classes : gmap Z class_obj; hid_descriptors : gmap Z (list Z); nodes : heap;
  device_pool : slot_pool; hub_pool : slot_pool; hid_pool : slot_pool; hid_interface_pool : slot_pool; mass_pool : slot_pool;
  usb_devices : Z; root_hub : Z; usb_hcd_unique_device_address : Z; tag : Z }.
Arguments HcdState {B}.
Arguments bus {B}.
Arguments devices {B}.
Arguments classes {B}.
Arguments hid_descriptors {B}.
Arguments nodes {B}.
Arguments device_pool {B}.
Arguments hub_pool {B}.
Arguments hid_pool {B}.
Arguments hid_interface_pool {B}.
Arguments mass_pool {B}.
Arguments usb_devices {B}.
Arguments root_hub {B}.
Arguments usb_hcd_unique_device_address {B}.
Arguments tag {B}.

Section updates.
Context {B : Type}.
Implicit Types s : hcd B.
Definition with_bus s (b : B) : hcd B := HcdState b (devices s) (classes s) (hid_descriptors s) (nodes s) (device_pool s) (hub_pool s)
  (hid_pool s) (hid_interface_pool s) (mass_pool s) (usb_devices s) (root_hub s) (usb_hcd_unique_device_address s) (tag s).
Definition with_devices s (m : gmap Z usb_hcd_device) : hcd B := HcdState (bus s) m (classes s) (hid_descriptors s) (nodes s) (device_pool s)
  (hub_pool s) (hid_pool s) (hid_interface_pool s) (mass_pool s) (usb_devices s) (root_hub s) (usb_hcd_unique_device_address s) (tag s).
Definition with_classes s (m : gmap Z class_obj) : hcd B := HcdState (bus s) (devices s) m (hid_descriptors s) (nodes s) (device_pool s)
  (hub_pool s) (hid_pool s) (hid_interface_pool s) (mass_pool s) (usb_devices s) (root_hub s) (usb_hcd_unique_device_address s) (tag s).
Definition with_hid_descriptors s (m : gmap Z (list Z)) : hcd B := HcdState (bus s) (devices s) (classes s) m (nodes s) (device_pool s)
  (hub_pool s) (hid_pool s) (hid_interface_pool s) (mass_pool s) (usb_devices s) (root_hub s) (usb_hcd_unique_device_address s) (tag s).
Definition with_nodes s (σ : heap) : hcd B := HcdState (bus s) (devices s) (classes s) (hid_descriptors s) σ (device_pool s) (hub_pool s)
  (hid_pool s) (hid_interface_pool s) (mass_pool s) (usb_devices s) (root_hub s) (usb_hcd_unique_device_address s) (tag s).
Definition with_root_hub s (d : Z) : hcd B := HcdState (bus s) (devices s) (classes s) (hid_descriptors s) (nodes s) (device_pool s) (hub_pool s)
  (hid_pool s) (hid_interface_pool s) (mass_pool s) (usb_devices s) d (usb_hcd_unique_device_address s) (tag s).
Definition with_unique s (a : Z) : hcd B := HcdState (bus s) (devices s) (classes s) (hid_descriptors s) (nodes s) (device_pool s) (hub_pool s)
  (hid_pool s) (hid_interface_pool s) (mass_pool s) (usb_devices s) (root_hub s) a (tag s).
Definition with_tag s (t : Z) : hcd B := HcdState (bus s) (devices s) (classes s) (hid_descriptors s) (nodes s) (device_pool s) (hub_pool s)
  (hid_pool s) (hid_interface_pool s) (mass_pool s) (usb_devices s) (root_hub s) (usb_hcd_unique_device_address s) t.
End updates.

(** Updates of a pipe and of a device. *)
Definition set_pipe_address (p : usb_hcd_pipe) (a : Z) : usb_hcd_pipe :=
  UsbPipe a (device_speed p) (endpoint_num p) (endpoint_type p) (endpoint_dir p) (max_packet_size p) (ls_hub_port p) (ls_hub_address p) (next_pid p).
Definition set_pipe_mps (p : usb_hcd_pipe) (n : Z) : usb_hcd_pipe :=
  UsbPipe (device_address p) (device_speed p) (endpoint_num p) (endpoint_type p) (endpoint_dir p) n (ls_hub_port p) (ls_hub_address p) (next_pid p).
Definition set_pipe_speed (p : usb_hcd_pipe) (sp : Z) : usb_hcd_pipe :=
  UsbPipe (device_address p) sp (endpoint_num p) (endpoint_type p) (endpoint_dir p) (max_packet_size p) (ls_hub_port p) (ls_hub_address p) (next_pid p).
Definition set_pipe_ls_hub (p : usb_hcd_pipe) (a port : Z) : usb_hcd_pipe :=
  UsbPipe (device_address p) (device_speed p) (endpoint_num p) (endpoint_type p) (endpoint_dir p) (max_packet_size p) port a (next_pid p).

Definition set_pipe0 (x : usb_hcd_device) (p : usb_hcd_pipe) : usb_hcd_device :=
  HcdDevice (address x) (state x) (configuration x) (configuration_string x) (location_hub x) (hub_port x) p (descriptor x)
    (num_interfaces x) (interfaces x) (class x) (string_product x) (string_manufacturer x) (string_serial x) (string_configuration x).
Definition set_state (x : usb_hcd_device) (st : Z) : usb_hcd_device :=
  HcdDevice (address x) st (configuration x) (configuration_string x) (location_hub x) (hub_port x) (pipe0 x) (descriptor x)
    (num_interfaces x) (interfaces x) (class x) (string_product x) (string_manufacturer x) (string_serial x) (string_configuration x).
Definition set_address (x : usb_hcd_device) (a : Z) : usb_hcd_device :=
  HcdDevice a (state x) (configuration x) (configuration_string x) (location_hub x) (hub_port x) (pipe0 x) (descriptor x)
    (num_interfaces x) (interfaces x) (class x) (string_product x) (string_manufacturer x) (string_serial x) (string_configuration x).
Definition set_location (x : usb_hcd_device) (hub port : Z) : usb_hcd_device :=
  HcdDevice (address x) (state x) (configuration x) (configuration_string x) hub port (pipe0 x) (descriptor x)
    (num_interfaces x) (interfaces x) (class x) (string_product x) (string_manufacturer x) (string_serial x) (string_configuration x).
Definition set_descriptor (x : usb_hcd_device) (l : list Z) : usb_hcd_device :=
  HcdDevice (address x) (state x) (configuration x) (configuration_string x) (location_hub x) (hub_port x) (pipe0 x) l
    (num_interfaces x) (interfaces x) (class x) (string_product x) (string_manufacturer x) (string_serial x) (string_configuration x).
Definition set_class (x : usb_hcd_device) (c : Z) : usb_hcd_device :=
  HcdDevice (address x) (state x) (configuration x) (configuration_string x) (location_hub x) (hub_port x) (pipe0 x) (descriptor x)
    (num_interfaces x) (interfaces x) c (string_product x) (string_manufacturer x) (string_serial x) (string_configuration x).
Definition set_interfaces (x : usb_hcd_device) (n : Z) (l : list usb_hcd_interface) : usb_hcd_device :=
  HcdDevice (address x) (state x) (configuration x) (configuration_string x) (location_hub x) (hub_port x) (pipe0 x) (descriptor x)
    n l (class x) (string_product x) (string_manufacturer x) (string_serial x) (string_configuration x).
Definition set_configuration (x : usb_hcd_device) (c : Z) : usb_hcd_device :=
  HcdDevice (address x) (state x) c (configuration_string x) (location_hub x) (hub_port x) (pipe0 x) (descriptor x)
    (num_interfaces x) (interfaces x) (class x) (string_product x) (string_manufacturer x) (string_serial x) (string_configuration x).
Definition set_configuration_string (x : usb_hcd_device) (c : Z) : usb_hcd_device :=
  HcdDevice (address x) (state x) (configuration x) c (location_hub x) (hub_port x) (pipe0 x) (descriptor x)
    (num_interfaces x) (interfaces x) (class x) (string_product x) (string_manufacturer x) (string_serial x) (string_configuration x).
Definition set_strings (x : usb_hcd_device) (p m n c : list Z) : usb_hcd_device :=
  HcdDevice (address x) (state x) (configuration x) (configuration_string x) (location_hub x) (hub_port x) (pipe0 x) (descriptor x)
    (num_interfaces x) (interfaces x) (class x) p m n c.

Section hcd.
Context {B : Type} `{UsbTransport B}.
Abbreviation S := (hcd B).

Definition getv {A} (f : S → A) : io S A := λ s, Ret (f s, s).
Definition modv (f : S → S) : io S unit := λ s, Ret (tt, f s).
Definition BUG_IF (b : bool) : io S unit := lift (BUG b).
Definition get_device (d : Z) : io S usb_hcd_device := λ s, x ← deref (devices s !! d); Ret (x, s).
Definition put_device (d : Z) (x : usb_hcd_device) : io S unit := modv (λ s, with_devices s (<[d := x]> (devices s))).
Definition upd_device (d : Z) (f : usb_hcd_device → usb_hcd_device) : io S unit := x ← get_device d; put_device d (f x).
Definition get_class (c : Z) : io S class_obj := λ s, x ← deref (classes s !! c); Ret (x, s).
Definition put_class (c : Z) (x : class_obj) : io S unit := modv (λ s, with_classes s (<[c := x]> (classes s))).
Definition on_nodes (f : heap → outcome heap) : io S unit := λ s, σ ← f (nodes s); Ret (tt, with_nodes s σ).
Definition pool_alloc (pool : S → slot_pool) : io S Z := λ s, '(σ, x) ← slot_alloc (nodes s) (pool s); Ret (x, with_nodes s σ).
Definition pool_release (pool : S → slot_pool) (x : Z) : io S unit := λ s, σ ← slot_release (nodes s) (pool s) x; Ret (tt, with_nodes s σ).
(** [CHECK_ERR]: [goto out_err] with the error. *)
Definition check_err (m k : io S Z) : io S Z := err ← m; if negb (err =? ERR_OK) then mret err else k.

(** ** Devices

    The pool is empty: [ERR_PTR(ERR_BUSY)], [None] here. *)
Definition fresh_device (x : usb_hcd_device) : usb_hcd_device :=
  set_pipe0 (set_class (set_location (set_state (set_address x 0) USB_DEVICE_STATE_ATTACHED) NULL 0) NULL) (set_pipe_address (pipe0 x) 0).

Definition usb_hcd_allocate_device : io S (option Z) :=
  d ← pool_alloc device_pool;
  if d =? NULL then mret None else
  x ← getv (λ s, default zero_device (devices s !! d));
  _ ← put_device d (fresh_device x);
  _ ← on_nodes (λ σ, INIT_LIST_HEAD σ (dev_hub_children d));
  _ ← on_nodes (λ σ, INIT_LIST_HEAD σ (dev_usb_devices d));
  h ← getv usb_devices;
  _ ← on_nodes (λ σ, list_add_tail σ (dev_usb_devices d) h);
  mret (Some d).

(** [usb_hcd_deallocate_device] and [usb_hcd_hub_destroy] (hcd_hub.c) call each
    other; the fuel bounds the depth of hubs. *)
Fixpoint usb_hcd_deallocate_device (fuel : nat) (d : Z) : io S unit :=
  match fuel with
  | O => λ _, NoFuel
  | Datatypes.S n =>
    let usb_hcd_hub_destroy (h : Z) : io S unit :=
      _ ← (λ s : S, s ← list_for_each_entry_safe nodes fuel (hub_children_head h)
        (λ s x, '(_, s) ← (_ ← on_nodes (λ σ, list_del_init σ x); usb_hcd_deallocate_device n (node_hub_child x)) s; Ret s) s; Ret (tt, s));
      pool_release hub_pool h in
    _ ← on_nodes (λ σ, list_del_init σ (dev_usb_devices d));
    _ ← on_nodes (λ σ, list_del_init σ (dev_hub_children d));
    x ← get_device d;
    _ ← (if class x =? NULL then mret tt else
         c ← get_class (class x);
         match c with ClassHub _ _ => usb_hcd_hub_destroy (class x) | _ => mret tt end);
    pool_release device_pool d
  end.

Definition hcd_device_set_speed (d speed : Z) : io S unit :=
  x ← get_device d;
  let p := set_pipe_speed (pipe0 x) speed in
  if negb (speed =? USB_SPEED_HIGH) then
    if negb (location_hub x =? NULL) then
      hub ← get_device (location_hub x);
      put_device d (set_pipe0 x (set_pipe_ls_hub p (address hub) (hub_port x)))
    else put_device d (set_pipe0 x p)
  else put_device d (set_pipe0 x (set_pipe_ls_hub p 0 0)).

(** [usb_hcd_iter_devices]: the devices [fn] is called on, and its state. *)
Definition USB_HCD_ITER_STOP : Z := 1.
Definition usb_hcd_iter_devices {T} (fuel : nat) (fn : Z → T → io S (Z * T)) (t : T) : io S T := λ s,
  pos ← list_first_entry (nodes s) (usb_devices s);
  loop fuel (λ '(s, pos, t),
    if pos =? usb_devices s then Ret (inr (t, s)) else
    '((r, t), s) ← fn (node_usb_device pos) t s;
    if r =? USB_HCD_ITER_STOP then Ret (inr (t, s)) else
    pos ← get_next (nodes s) pos; Ret (inl (s, pos, t))) (s, pos, t).

(** ** Control transfers

    The transfer over [&d->pipe0]: the error, the number of bytes and the
    buffer, which only a transfer to the host changes.  A transfer that writes
    more than the buffer holds is undefined. *)
Definition HCD_TRANSFER_CONTROL (d dir : Z) (buf : list Z) (size rq : Z) : io S (Z * Z * list Z) := λ s,
  x ← deref (devices s !! d);
  '(r, b) ← bus_control (pipe0 x) dir buf size rq (bus s);
  let buf' := if dir =? USB_DIRECTION_IN then x_buf r else buf in
  if negb (length buf' =? length buf)%nat then Fault else
  Ret ((x_err r, x_num_bytes r, buf'), with_devices (with_bus s b) (<[d := set_pipe0 x (set_pid (pipe0 x) (x_pid r))]> (devices s))).

Definition control_out (d rq : Z) : io S Z := '(err, _, _) ← HCD_TRANSFER_CONTROL d USB_DIRECTION_OUT [] 0 rq; mret err.

(** The header is read first; [header.length] is cut to the size of [buf].  The
    result is the error, the byte count and the buffer. *)
Definition usb_hcd_get_descriptor (d desc_type desc_idx lang_id : Z) (buf : list Z) : io S (Z * Z * list Z) :=
  let make := if negb (desc_type =? USB_DESCRIPTOR_TYPE_HUB) then USB_DEV_RQ_MAKE_GET_DESCRIPTOR else USB_DEV_HUB_RQ_MAKE_GET_DESCRIPTOR in
  let buf_sz := Z.of_nat (length buf) in
  '(err, num_bytes, header) ← HCD_TRANSFER_CONTROL d USB_DIRECTION_IN [0; 0] sizeof_descriptor_header
    (make desc_type desc_idx lang_id sizeof_descriptor_header);
  if truth err then mret (err, num_bytes, buf) else
  if negb (header_descriptor_type header =? desc_type) then mret (ERR_GENERIC, num_bytes, buf) else
  let len := if buf_sz <? header_length header then u8 buf_sz else header_length header in
  HCD_TRANSFER_CONTROL d USB_DIRECTION_IN buf len (make desc_type desc_idx lang_id len).

(** [GET_DESC]: a wrong type in the reply is an error too. *)
Definition GET_DESC (d desc_type desc_idx idx : Z) (dst : list Z) : io S (Z * list Z) :=
  '(err, _, buf) ← usb_hcd_get_descriptor d desc_type desc_idx idx dst;
  if negb (err =? ERR_OK) then mret (err, buf) else
  if negb (header_descriptor_type buf =? desc_type) then mret (ERR_GENERIC, buf) else mret (ERR_OK, buf).

(** [wtomb] between two buffers of the stack. *)
Definition wtomb_buffers (dst src : list Z) (src_sz : Z) : outcome (list Z) :=
  let at_dst := 0x10000 in let at_src := 0x20000 in
  '(m, _) ← wtomb (Z.to_nat src_sz + 2) (write_bytes (mem_of at_dst dst) at_src src) at_dst (Z.of_nat (length dst)) (at_src + 2) src_sz;
  Ret (map (λ i, default 0 (m !! (at_dst + Z.of_nat i))) (seq 0 (length dst))).

Definition usb_hcd_read_string_descriptor (d string_index : Z) (buf : list Z) : io S (Z * list Z) :=
  '(err, _) ← GET_DESC d USB_DESCRIPTOR_TYPE_STRING 0 0 (repeat 0 192);
  if negb (err =? ERR_OK) then mret (err, buf) else
  '(err, desc_buffer) ← GET_DESC d USB_DESCRIPTOR_TYPE_STRING string_index 0x409 (repeat 0 256);
  if negb (err =? ERR_OK) then mret (err, buf) else
  buf ← lift (wtomb_buffers buf desc_buffer (header_length desc_buffer - 2));
  mret (ERR_OK, buf).

(** ** The configuration descriptor *)
Definition usb_hcd_allocate_hid : io S Z :=
  h ← pool_alloc hid_pool;
  _ ← (if h =? NULL then lift Fault else mret tt);
  _ ← put_class h (ClassHid NULL);
  _ ← on_nodes (λ σ, INIT_LIST_HEAD σ (hid_interfaces_head h));
  mret h.

Definition usb_hcd_allocate_hid_interface : io S Z :=
  i ← pool_alloc hid_interface_pool;
  if i =? NULL then mret NULL else
  _ ← modv (λ s, with_hid_descriptors s (<[i := repeat 0 9]> (hid_descriptors s)));
  _ ← on_nodes (λ σ, INIT_LIST_HEAD σ (hid_interface_node i));
  mret i.

Definition usb_hcd_parse_handle_hid (d : Z) (hid_desc : list Z) : io S Z :=
  x ← get_device d;
  h ← (if class x =? NULL then
         h ← usb_hcd_allocate_hid;
         _ ← put_class h (ClassHid d);
         _ ← put_device d (set_class x h);
         mret h
       else mret (class x));
  c ← get_class h;
  if negb (device_class_of c =? USB_HCD_DEVICE_CLASS_HID) then mret ERR_BUSY else
  i ← usb_hcd_allocate_hid_interface;
  if i =? NULL then mret ERR_BUSY else
  _ ← on_nodes (λ σ, list_add_tail σ (hid_interface_node i) (hid_interfaces_head h));
  _ ← modv (λ s, with_hid_descriptors s (<[i := hid_desc]> (hid_descriptors s)));
  mret ERR_OK.

(** [n] bytes of a buffer at an offset; reading past its end is undefined. *)
Definition bytes_of (cfg : list Z) (pos n : Z) : outcome (list Z) :=
  if pos + n <=? Z.of_nat (length cfg) then Ret (take (Z.to_nat n) (drop (Z.to_nat pos) cfg)) else Fault.

Definition new_endpoint (x : usb_hcd_device) (ed : list Z) : usb_hcd_endpoint :=
  Endpoint ed (UsbPipe (address x) (device_speed (pipe0 x)) (usb_endpoint_descriptor_get_number ed)
    (usb_endpoint_descriptor_get_type ed) (usb_endpoint_descriptor_get_direction ed) (usb_endpoint_descriptor_get_max_packet_size ed)
    (ls_hub_port (pipe0 x)) (ls_hub_address (pipe0 x)) USB_PID_DATA0).

Definition set_endpoint (x : usb_hcd_device) (i e : nat) (ep : usb_hcd_endpoint) : usb_hcd_device :=
  set_interfaces x (num_interfaces x)
    (alter (λ itf, Interface (i_descriptor itf) (<[e := ep]> (i_endpoints itf))) i (interfaces x)).
Definition set_interface_descriptor (x : usb_hcd_device) (i : nat) (l : list Z) : usb_hcd_device :=
  set_interfaces x (num_interfaces x) (alter (λ itf, Interface l (i_endpoints itf)) i (interfaces x)).

(** One descriptor at [pos]: the interface and endpoint being filled, if any.
    The result tells whether to go on.  An unknown type hangs. *)
Definition parse_descriptor (d : Z) (cfg : list Z) (pos : Z) (cur : option (nat * nat)) : io S (bool * option (nat * nat) * Z) :=
  ty ← lift (bytes_of cfg (pos + 1) 1);
  let ty := byte_at ty 0 in
  if ty =? USB_DESCRIPTOR_TYPE_INTERFACE then
    x ← get_device d;
    let i := num_interfaces x in
    _ ← put_device d (set_interfaces x (i + 1) (interfaces x));
    if i >=? USB_MAX_INTERFACES_PER_DEVICE then mret (false, cur, ERR_OK) else
    l ← lift (bytes_of cfg pos sizeof_interface_descriptor);
    _ ← upd_device d (λ x, set_interface_descriptor x (Z.to_nat i) l);
    mret (true, Some (Z.to_nat i, O), ERR_OK)
  else if ty =? USB_DESCRIPTOR_TYPE_ENDPOINT then
    match cur with
    | None => mret (false, None, ERR_GENERIC)
    | Some (i, e) =>
      if Z.of_nat e >=? USB_MAX_ENDPOINTS_PER_DEVICE then mret (true, cur, ERR_OK) else
      l ← lift (bytes_of cfg pos sizeof_endpoint_descriptor);
      _ ← upd_device d (λ x, set_endpoint x i e (new_endpoint x l));
      mret (true, Some (i, Datatypes.S e), ERR_OK)
    end
  else if ty =? USB_DESCRIPTOR_TYPE_HID then
    l ← lift (bytes_of cfg pos sizeof_hid_descriptor);
    _ ← usb_hcd_parse_handle_hid d l;
    mret (true, cur, ERR_OK)
  else if ty =? USB_DESCRIPTOR_TYPE_CONFIGURATION then mret (true, cur, ERR_OK)
  else λ _, NoFuel.

(** [cfgbuf_sz] bytes of the buffer [cfg].  A descriptor of length 0 is parsed
    for ever, unless it is an interface, of which there are at most eight. *)
Definition parse_turn (d : Z) (cfg : list Z) (cfgbuf_sz : Z) : S * Z * option (nat * nat) * Z →
    outcome (S * Z * option (nat * nat) * Z + Z * S) := λ '(s, pos, cur, err),
  if cfgbuf_sz <=? pos then Ret (inr (err, s)) else
  '((go, cur, err), s) ← parse_descriptor d cfg pos cur s;
  len ← bytes_of cfg pos 1;
  let pos := pos + byte_at len 0 in
  if go : bool then Ret (inl (s, pos, cur, err)) else Ret (inr (err, s)).

Definition usb_hcd_parse_configuration (fuel : nat) (d : Z) (cfg : list Z) (cfgbuf_sz : Z) : io S Z := λ s,
  loop fuel (parse_turn d cfg cfgbuf_sz) (s, 0, None, ERR_OK).

(** ** Enumeration steps

    A step that needs another state of the device fails with [ERR_INVAL_ARG].  Callers that want
    no byte count pass NULL for it; the store goes to address 0 and is not modelled. *)
Definition assert_state (d from : Z) (k : io S Z) : io S Z :=
  x ← get_device d; if negb (state x =? from) then mret ERR_INVAL_ARG else k.

Definition usb_hcd_get_descriptor_first (d : Z) : io S Z :=
  _ ← upd_device d (λ x, set_pipe0 x (set_pipe_mps (set_pipe_address (pipe0 x) USB_DEFAULT_ADDRESS)
    (if device_speed (pipe0 x) =? USB_SPEED_HIGH then 64 else USB_DEFAULT_PACKET_SIZE)));
  assert_state d USB_DEVICE_STATE_POWERED (
    '(err, num_bytes, desc) ← HCD_TRANSFER_CONTROL d USB_DIRECTION_IN (repeat 0 18) 8 (USB_DEV_RQ_MAKE_GET_DESCRIPTOR USB_DESCRIPTOR_TYPE_DEVICE 0 0 8);
    if negb (err =? ERR_OK) then mret err else
    if negb (num_bytes =? 8) then mret ERR_GENERIC else
    _ ← upd_device d (λ x, set_state (set_pipe0 x (set_pipe_mps (pipe0 x) (max_packet_size_0 desc))) USB_DEVICE_STATE_DEFAULT);
    mret ERR_OK).

Definition usb_hcd_allocate_device_address : io S Z := λ s,
  Ret (usb_hcd_unique_device_address s, with_unique s (s32 (usb_hcd_unique_device_address s + 1))).

Definition usb_hcd_set_address (d a : Z) : io S Z :=
  control_out d (USB_DEV_RQ_MAKE USB_RQ_TYPE_SET_ADDRESS USB_RQ_SET_ADDRESS a 0 0).

Definition usb_hcd_to_addressed_state (d : Z) : io S Z :=
  assert_state d USB_DEVICE_STATE_DEFAULT (
    device_address ← usb_hcd_allocate_device_address;
    check_err (usb_hcd_set_address d device_address) (
      _ ← upd_device d (λ x, set_state (set_address (set_pipe0 x (set_pipe_address (pipe0 x) device_address)) device_address) USB_DEVICE_STATE_ADDRESSED);
      mret ERR_OK)).

(** The reply lands in [dev->descriptor] whether or not it is accepted. *)
Definition usb_hcd_get_descriptor_second (d : Z) : io S Z :=
  x ← get_device d;
  '(err, buf) ← GET_DESC d USB_DESCRIPTOR_TYPE_DEVICE 0 0 (descriptor x);
  _ ← upd_device d (λ x, set_descriptor x buf);
  mret err.

Definition usb_hcd_set_configuration (d c : Z) : io S Z :=
  control_out d (USB_DEV_RQ_MAKE USB_RQ_TYPE_SET_CONFIGURATION USB_RQ_SET_CONFIGURATION c 0 0).

(** [READ_STRING]: a string index of 0 means no string. *)
Definition READ_STRING (d idx : Z) (get : usb_hcd_device → list Z) (set : usb_hcd_device → list Z → usb_hcd_device) (k : io S Z) : io S Z :=
  if truth idx then
    x ← get_device d;
    '(err, buf) ← usb_hcd_read_string_descriptor d idx (get x);
    _ ← upd_device d (λ x, set x buf);
    if negb (err =? ERR_OK) then mret err else k
  else k.

Definition config_buffer_size : nat := 1024.

Definition usb_hcd_to_configured_state (fuel : nat) (d : Z) : io S Z :=
  assert_state d USB_DEVICE_STATE_ADDRESSED (
    '(err, config_desc) ← GET_DESC d USB_DESCRIPTOR_TYPE_CONFIGURATION 0 0 (repeat 0xfc 9);
    if negb (err =? ERR_OK) then mret err else
    _ ← upd_device d (λ x, set_configuration_string x (iconfiguration config_desc));
    let config_num := configuration_value config_desc in
    let total := total_length config_desc in
    '(err, num_bytes, config_buffer) ← HCD_TRANSFER_CONTROL d USB_DIRECTION_IN (repeat 0xfc config_buffer_size) total
      (USB_DEV_RQ_MAKE_GET_DESCRIPTOR USB_DESCRIPTOR_TYPE_CONFIGURATION 0 0 total);
    if negb (err =? ERR_OK) then mret err else
    if negb (num_bytes =? total) then mret ERR_GENERIC else
    check_err (usb_hcd_parse_configuration fuel d config_buffer total) (
    check_err (usb_hcd_set_configuration d config_num) (
    _ ← upd_device d (λ x, set_state (set_configuration x config_num) USB_DEVICE_STATE_CONFIGURED);
    x ← get_device d;
    READ_STRING d (i_product (descriptor x)) string_product
      (λ x l, set_strings x l (string_manufacturer x) (string_serial x) (string_configuration x)) (
    READ_STRING d (i_manufacturer (descriptor x)) string_manufacturer
      (λ x l, set_strings x (string_product x) l (string_serial x) (string_configuration x)) (
    READ_STRING d (i_serial_number (descriptor x)) string_serial
      (λ x l, set_strings x (string_product x) (string_manufacturer x) l (string_configuration x)) (
    READ_STRING d (configuration_string x) string_configuration
      (λ x l, set_strings x (string_product x) (string_manufacturer x) (string_serial x) l) (mret ERR_OK))))))).

(** ** Endpoints *)
Definition get_endpoint (r : ep_ref) : io S usb_hcd_endpoint :=
  x ← get_device (er_device r);
  i ← lift (deref (interfaces x !! er_interface r));
  lift (deref (i_endpoints i !! er_endpoint r)).

(** A request of the structure form to the device of an endpoint. *)
Definition endpoint_rq (r : ep_ref) (ty rq val len : Z) : io S Z :=
  ep ← get_endpoint r;
  mret (raw (UsbRequest ty rq (u16 val) (usb_endpoint_descriptor_get_number (ep_descriptor ep)) len)).
Definition hcd_endpoint_get_status (r : ep_ref) (status : list Z) : io S (Z * list Z) :=
  rq ← endpoint_rq r USB_RQ_TYPE_ENDPOINT_GET_STATUS USB_RQ_GET_STATUS 0 2;
  '(err, _, buf) ← HCD_TRANSFER_CONTROL (er_device r) USB_DIRECTION_IN status 2 rq; mret (err, buf).
Definition hcd_endpoint_clear_feature (r : ep_ref) (feature : Z) : io S Z :=
  rq ← endpoint_rq r USB_RQ_TYPE_ENDPOINT_CLEAR_FEATURE USB_RQ_CLEAR_FEATURE feature 0; control_out (er_device r) rq.
Definition hcd_endpoint_set_feature (r : ep_ref) (feature : Z) : io S Z :=
  rq ← endpoint_rq r USB_RQ_TYPE_ENDPOINT_SET_FEATURE USB_RQ_SET_FEATURE feature 0; control_out (er_device r) rq.

(** [hcd_transfer_bulk] over the pipe of an endpoint. *)
Definition hcd_transfer_bulk (r : ep_ref) (buf : list Z) (size : Z) : io S (Z * Z * list Z) := λ s,
  '(ep, s) ← get_endpoint r s;
  x ← deref (devices s !! er_device r);
  let dir := usb_endpoint_descriptor_get_direction (ep_descriptor ep) in
  '(t, b) ← bus_bulk (ep_pipe ep) dir buf size (bus s);
  let buf' := if dir =? USB_DIRECTION_IN then x_buf t else buf in
  if negb (length buf' =? length buf)%nat then Fault else
  Ret ((x_err t, x_num_bytes t, buf'), with_devices (with_bus s b)
    (<[er_device r := set_endpoint x (er_interface r) (er_endpoint r) (Endpoint (ep_descriptor ep) (set_pid (ep_pipe ep) (x_pid t)))]> (devices s))).
End hcd.

(** ** Specification of the configuration descriptor

    A configuration as a device sends it: its own descriptor, and for every
    interface the interface descriptor followed by those of its endpoints.  A
    descriptor may be longer than the structure it is read into. *)
Record interface_spec := InterfaceSpec { is_bytes : list Z; is_endpoints : list (list Z) }.

Definition wf_descriptor (ty size : Z) (b : list Z) : Prop :=
  header_length b = Z.of_nat (length b) ∧ header_descriptor_type b = ty ∧ size ≤ Z.of_nat (length b) ∧ 2 ≤ Z.of_nat (length b).

Definition serialize_interface (i : interface_spec) : list Z := is_bytes i ++ concat (is_endpoints i).
Definition serialize (cfg : list Z) (l : list interface_spec) : list Z := cfg ++ concat (map serialize_interface l).

Definition wf_interface (i : interface_spec) : Prop :=
  wf_descriptor USB_DESCRIPTOR_TYPE_INTERFACE sizeof_interface_descriptor (is_bytes i) ∧
  Forall (wf_descriptor USB_DESCRIPTOR_TYPE_ENDPOINT sizeof_endpoint_descriptor) (is_endpoints i) ∧ (length (is_endpoints i) ≤ 16)%nat.

(** The device with the endpoints of an interface filled in, and with interfaces. *)
Definition add_endpoint (i : nat) (x : usb_hcd_device) (e : nat) (b : list Z) : usb_hcd_device :=
  set_endpoint x i e (new_endpoint x (take 7 b)).
Definition add_interface (x : usb_hcd_device) (i : interface_spec) : usb_hcd_device :=
  let n := Z.to_nat (num_interfaces x) in
  let x := set_interface_descriptor (set_interfaces x (num_interfaces x + 1) (interfaces x)) n (take 9 (is_bytes i)) in
  snd (foldl (λ '(e, x) b, (Datatypes.S e, add_endpoint n x e b)) (O, x) (is_endpoints i)).

Section parse.
Context {B : Type} `{UsbTransport B}.
Abbreviation S := (hcd B).
Implicit Types (s : S) (x : usb_hcd_device).

Definition with_device s (d : Z) (x : usb_hcd_device) : S := with_devices s (<[d := x]> (devices s)).

Lemma bytes_of_at pre b post n : 0 ≤ n ≤ Z.of_nat (length b) →
  bytes_of (pre ++ b ++ post) (Z.of_nat (length pre)) n = Ret (take (Z.to_nat n) b).
Proof.
  intros Hn. unfold bytes_of. rewrite !length_app. zdec. rewrite Nat2Z.id, drop_app_length, take_app_le by lia. done.
Qed.

Lemma bytes_of_type pre b post ty size : wf_descriptor ty size b →
  ∃ l, bytes_of (pre ++ b ++ post) (Z.of_nat (length pre) + 1) 1 = Ret l ∧ byte_at l 0 = ty.
Proof.
  intros (_ & Ht & _ & Hl). destruct b as [|b0 [|b1 b]]; cbn in Hl; try lia. unfold header_descriptor_type, byte_at in Ht. cbn in Ht. subst.
  exists [ty]. split; [|done]. pose proof (bytes_of_at (pre ++ [b0]) (ty :: b) post 1 ltac:(cbn; lia)) as E.
  rewrite length_app in E. cbn [length] in E. rewrite Nat2Z.inj_add in E. rewrite <- app_assoc in E. exact E.
Qed.

Lemma bytes_of_length pre b post ty size : wf_descriptor ty size b →
  ∃ l, bytes_of (pre ++ b ++ post) (Z.of_nat (length pre)) 1 = Ret l ∧ byte_at l 0 = Z.of_nat (length b).
Proof.
  intros (Hh & _ & _ & Hl). exists (take 1 b). split; [apply bytes_of_at; lia|]. rewrite <- Hh.
  destruct b; [cbn in Hl; lia|done].
Qed.

(** What a turn does when it recognises a descriptor that it goes past. *)
Lemma turn_past d pre b post sz s cur err s' cur' err' ty size : wf_descriptor ty size b → Z.of_nat (length pre) < sz →
  parse_descriptor d (pre ++ b ++ post) (Z.of_nat (length pre)) cur s = Ret ((true, cur', err'), s') →
  parse_turn d (pre ++ b ++ post) sz (s, Z.of_nat (length pre), cur, err) = Ret (inl (s', Z.of_nat (length (pre ++ b)), cur', err')).
Proof.
  intros Hw Hsz Ed. unfold parse_turn. zdec. rewrite Ed, bind_ret. destruct (bytes_of_length pre b post ty size Hw) as (l & El & Hl).
  rewrite El, bind_ret, Hl, length_app, Nat2Z.inj_add. done.
Qed.

Lemma turn_configuration d pre b post sz s cur err : wf_descriptor USB_DESCRIPTOR_TYPE_CONFIGURATION 9 b → Z.of_nat (length pre) < sz →
  parse_turn d (pre ++ b ++ post) sz (s, Z.of_nat (length pre), cur, err) = Ret (inl (s, Z.of_nat (length (pre ++ b)), cur, ERR_OK)).
Proof.
  intros Hw Hsz. eapply turn_past; [done|done|]. unfold parse_descriptor. destruct (bytes_of_type pre b post _ _ Hw) as (l & El & Hl).
  unfold lift, mbind, io_bind. rewrite El. cbn [mbind outcome_bind]. by rewrite Hl.
Qed.

Lemma with_device_lookup s d x : devices (with_device s d x) !! d = Some x.
Proof. apply lookup_insert_eq. Qed.

Lemma with_device_twice s d x y : with_device (with_device s d x) d y = with_device s d y.
Proof. unfold with_device. cbn. by rewrite insert_insert_eq. Qed.

Lemma get_device_at s d x : devices s !! d = Some x → get_device d s = Ret (x, s).
Proof. intros E. unfold get_device. by rewrite E. Qed.

Lemma turn_interface d pre b post sz s x cur err : wf_descriptor USB_DESCRIPTOR_TYPE_INTERFACE 9 b → Z.of_nat (length pre) < sz →
  devices s !! d = Some x → num_interfaces x < 8 →
  parse_turn d (pre ++ b ++ post) sz (s, Z.of_nat (length pre), cur, err) =
    Ret (inl (with_device s d (set_interface_descriptor (set_interfaces x (num_interfaces x + 1) (interfaces x)) (Z.to_nat (num_interfaces x)) (take 9 b)),
      Z.of_nat (length (pre ++ b)), Some (Z.to_nat (num_interfaces x), O), ERR_OK)).
Proof.
  intros Hw Hsz Hd Hn. eapply turn_past; [done|done|]. unfold parse_descriptor. destruct (bytes_of_type pre b post _ _ Hw) as (l & El & Hl).
  rewrite (io_bind_ret _ _ s l s) by (unfold lift; by rewrite El). rewrite Hl. cbv zeta.
  change (USB_DESCRIPTOR_TYPE_INTERFACE =? USB_DESCRIPTOR_TYPE_INTERFACE) with true. cbv iota.
  rewrite (io_bind_ret _ _ _ _ _ (get_device_at _ _ _ Hd)). cbv zeta.
  rewrite (io_bind_ret _ _ _ tt (with_device s d (set_interfaces x (num_interfaces x + 1) (interfaces x)))) by done.
  rewrite Z.geb_leb. unfold USB_MAX_INTERFACES_PER_DEVICE. zdec.
  rewrite (io_bind_ret _ _ _ (take 9 b) (with_device s d (set_interfaces x (num_interfaces x + 1) (interfaces x)))).
  2: { unfold lift. rewrite bytes_of_at by (destruct Hw as (_ & _ & ? & _); unfold sizeof_interface_descriptor; lia). done. }
  unfold upd_device. erewrite io_bind_ret; [|erewrite io_bind_ret; [|apply get_device_at, with_device_lookup]; reflexivity].
  cbn [mret io_ret]. unfold mret, io_ret. f_equal. f_equal. apply with_device_twice.
Qed.

Lemma turn_endpoint d pre b post sz s x i e err : wf_descriptor USB_DESCRIPTOR_TYPE_ENDPOINT 7 b → Z.of_nat (length pre) < sz →
  devices s !! d = Some x → (e < 16)%nat →
  parse_turn d (pre ++ b ++ post) sz (s, Z.of_nat (length pre), Some (i, e), err) =
    Ret (inl (with_device s d (add_endpoint i x e b), Z.of_nat (length (pre ++ b)), Some (i, Datatypes.S e), ERR_OK)).
Proof.
  intros Hw Hsz Hd He. eapply turn_past; [done|done|]. unfold parse_descriptor. destruct (bytes_of_type pre b post _ _ Hw) as (l & El & Hl).
  rewrite (io_bind_ret _ _ s l s) by (unfold lift; by rewrite El). rewrite Hl. cbv zeta.
  change (USB_DESCRIPTOR_TYPE_ENDPOINT =? USB_DESCRIPTOR_TYPE_INTERFACE) with false.
  change (USB_DESCRIPTOR_TYPE_ENDPOINT =? USB_DESCRIPTOR_TYPE_ENDPOINT) with true. cbv iota.
  rewrite Z.geb_leb. unfold USB_MAX_ENDPOINTS_PER_DEVICE. zdec.
  rewrite (io_bind_ret _ _ _ (take 7 b) s).
  2: { unfold lift. rewrite bytes_of_at by (destruct Hw as (_ & _ & ? & _); unfold sizeof_endpoint_descriptor; lia). done. }
  unfold upd_device. erewrite io_bind_ret; [|erewrite io_bind_ret; [|apply get_device_at, Hd]; reflexivity]. done.
Qed.

Lemma with_device_same s d x : devices s !! d = Some x → with_device s d x = s.
Proof. intros Hd. unfold with_device. rewrite insert_id by done. by destruct s. Qed.

Lemma parse_endpoints d i bs post sz n : ∀ pre s x e, Forall (wf_descriptor USB_DESCRIPTOR_TYPE_ENDPOINT 7) bs →
  devices s !! d = Some x → (e + length bs ≤ 16)%nat → Z.of_nat (length (pre ++ concat bs)) ≤ sz →
  loop (length bs + n) (parse_turn d (pre ++ concat bs ++ post) sz) (s, Z.of_nat (length pre), Some (i, e), ERR_OK) =
  loop n (parse_turn d (pre ++ concat bs ++ post) sz)
    (with_device s d (snd (foldl (λ '(e, x) b, (Datatypes.S e, add_endpoint i x e b)) (e, x) bs)), Z.of_nat (length (pre ++ concat bs)),
      Some (i, (e + length bs)%nat), ERR_OK).
Proof.
  induction bs as [|b bs IH]; intros pre s x e Hwf Hd He Hsz.
  - cbn [concat app length foldl snd Nat.add]. rewrite app_nil_r, Nat.add_0_r, with_device_same by done. done.
  - apply Forall_cons in Hwf as [Hb Hbs]. cbn [concat length Nat.add] in *. rewrite !length_app in Hsz. cbn [loop].
    rewrite <- (app_assoc b). rewrite (turn_endpoint d pre b (concat bs ++ post) sz s x i e); [|done| |done|lia].
    2: { destruct Hb as (_ & _ & _ & ?). lia. }
    rewrite bind_ret. replace (pre ++ b ++ concat bs ++ post) with ((pre ++ b) ++ concat bs ++ post) by (by rewrite <- app_assoc).
    rewrite (IH (pre ++ b) _ (add_endpoint i x e b)); [|done|by rewrite with_device_lookup|lia|rewrite !length_app; lia].
    rewrite with_device_twice. cbn [foldl]. rewrite <- !app_assoc. replace (e + Datatypes.S (length bs))%nat with (Datatypes.S e + length bs)%nat by lia. done.
Qed.

Lemma foldl_endpoints_num i bs : ∀ e x, num_interfaces (snd (foldl (λ '(e, x) b, (Datatypes.S e, add_endpoint i x e b)) (e, x) bs)) = num_interfaces x.
Proof. induction bs as [|b bs IH]; intros e x; [done|]. cbn [foldl]. by rewrite IH. Qed.

Lemma add_interface_num x i : num_interfaces (add_interface x i) = num_interfaces x + 1.
Proof. unfold add_interface. by rewrite foldl_endpoints_num. Qed.

(** The descriptors of some interfaces. *)
Definition count_descriptors (l : list interface_spec) : nat := sum_list (map (λ i, Datatypes.S (length (is_endpoints i))) l).

Lemma parse_interfaces d l post sz n : ∀ pre s x cur, Forall wf_interface l → devices s !! d = Some x →
  num_interfaces x + Z.of_nat (length l) ≤ 8 → Z.of_nat (length (pre ++ concat (map serialize_interface l))) ≤ sz →
  ∃ cur', loop (count_descriptors l + n) (parse_turn d (pre ++ concat (map serialize_interface l) ++ post) sz) (s, Z.of_nat (length pre), cur, ERR_OK) =
  loop n (parse_turn d (pre ++ concat (map serialize_interface l) ++ post) sz)
    (with_device s d (foldl add_interface x l), Z.of_nat (length (pre ++ concat (map serialize_interface l))), cur', ERR_OK).
Proof.
  induction l as [|i l IH]; intros pre s x cur Hwf Hd Hn Hsz.
  - exists cur. cbn. by rewrite app_nil_r, with_device_same by done.
  - apply Forall_cons in Hwf as [(Hi & He & Hne) Hl]. cbn [length] in Hn. set (R := concat (map serialize_interface l)) in *.
    assert (concat (map serialize_interface (i :: l)) = is_bytes i ++ concat (is_endpoints i) ++ R) as E.
    { cbn [map concat]. unfold serialize_interface at 1. by rewrite <- app_assoc. }
    rewrite E in *. rewrite !length_app in Hsz.
    assert (count_descriptors (i :: l) + n = Datatypes.S (length (is_endpoints i) + (count_descriptors l + n)))%nat as -> by (unfold count_descriptors; cbn; lia).
    cbn [loop]. rewrite <- (app_assoc (is_bytes i)), <- (app_assoc (concat _)).
    rewrite (turn_interface d pre (is_bytes i) (concat (is_endpoints i) ++ R ++ post) sz s x cur); [|done| |done|lia].
    2: { destruct Hi as (_ & _ & _ & ?). lia. }
    rewrite bind_ret. replace (pre ++ is_bytes i ++ concat (is_endpoints i) ++ R ++ post) with ((pre ++ is_bytes i) ++ concat (is_endpoints i) ++ R ++ post) by (by rewrite <- app_assoc).
    rewrite (parse_endpoints d _ (is_endpoints i) (R ++ post) sz _ (pre ++ is_bytes i) _ _ 0 He (with_device_lookup _ _ _)); [|lia|rewrite !length_app; lia].
    rewrite with_device_twice. fold (add_interface x i).
    replace ((pre ++ is_bytes i) ++ concat (is_endpoints i) ++ R ++ post) with (((pre ++ is_bytes i) ++ concat (is_endpoints i)) ++ R ++ post) by (by rewrite <- !app_assoc).
    destruct (IH ((pre ++ is_bytes i) ++ concat (is_endpoints i)) (with_device s d (add_interface x i)) (add_interface x i)
      (Some (Z.to_nat (num_interfaces x), (0 + length (is_endpoints i))%nat)) Hl (with_device_lookup _ _ _)) as [cur' Ecur].
    { rewrite add_interface_num. lia. }
    { fold R. rewrite !length_app. lia. }
    exists cur'. fold R in Ecur. etransitivity; [exact Ecur|]. rewrite with_device_twice. cbn [foldl]. by rewrite <- !app_assoc.
Qed.

Lemma parse_configuration_fills fuel d cfg l post s x : wf_descriptor USB_DESCRIPTOR_TYPE_CONFIGURATION 9 cfg → Forall wf_interface l →
  devices s !! d = Some x → num_interfaces x + Z.of_nat (length l) ≤ 8 → (count_descriptors l + 2 ≤ fuel)%nat →
  usb_hcd_parse_configuration fuel d (serialize cfg l ++ post) (Z.of_nat (length (serialize cfg l))) s =
    Ret (ERR_OK, with_device s d (foldl add_interface x l)).
Proof.
  intros Hc Hl Hd Hn Hf. unfold usb_hcd_parse_configuration. eapply loop_mono; [|exact Hf].
  replace (count_descriptors l + 2)%nat with (Datatypes.S (count_descriptors l + 1)) by lia. cbn [loop].
  unfold serialize. rewrite <- app_assoc. set (sz := Z.of_nat (length (cfg ++ concat (map serialize_interface l)))).
  assert (0 < sz) as Hsz by (destruct Hc as (_ & _ & _ & ?); unfold sz; rewrite length_app; lia).
  pose proof (turn_configuration d [] cfg (concat (map serialize_interface l) ++ post) sz s None ERR_OK Hc Hsz) as E0.
  cbn [app length] in E0. change (Z.of_nat 0) with 0 in E0. rewrite E0, bind_ret.
  destruct (parse_interfaces d l post sz 1 cfg s x None Hl Hd Hn (Z.le_refl sz)) as [cur' E].
  etransitivity; [exact E|]. cbn [loop]. unfold parse_turn at 1. zdec. done.
Qed.

(** *** The device after it

    The arrays of a device have their full size. *)
Definition full_device x : Prop := length (interfaces x) = 8%nat ∧ Forall (λ i, length (i_endpoints i) = 16%nat) (interfaces x).

(** The pipe of an endpoint, from the bytes of its descriptor (USB 2.0, 9.6.6): the
    number is the low half of byte 2 and the direction its top bit, the transfer
    type is the low two bits of byte 3, the packet size is in bytes 4 and 5.  The
    address, the speed and the hub are those of the device's control pipe. *)
Definition endpoint_pipe x (b : list Z) : usb_hcd_pipe := {|
  device_address := address x;
  device_speed := device_speed (pipe0 x);
  endpoint_num := nth 2 b 0 mod 16;
  endpoint_type := nth 3 b 0 mod 4;
  endpoint_dir := (nth 2 b 0 / 128) mod 2;
  max_packet_size := nth 4 b 0 + 256 * nth 5 b 0;
  ls_hub_port := ls_hub_port (pipe0 x);
  ls_hub_address := ls_hub_address (pipe0 x);
  next_pid := 0 |}.

(** An interface as it is filled in; the unused endpoints stay. *)
Definition filled x (i : interface_spec) (old : usb_hcd_interface) : usb_hcd_interface :=
  Interface (take 9 (is_bytes i))
    (map (λ b, Endpoint (take 7 b) (endpoint_pipe x b)) (is_endpoints i) ++ drop (length (is_endpoints i)) (i_endpoints old)).

Lemma new_endpoint_pipe x b : new_endpoint x (take 7 b) = Endpoint (take 7 b) (endpoint_pipe x b).
Proof.
  unfold new_endpoint, endpoint_pipe, usb_endpoint_descriptor_get_number, usb_endpoint_descriptor_get_type,
    usb_endpoint_descriptor_get_direction, usb_endpoint_descriptor_get_max_packet_size, half_at, byte_at.
  assert (∀ i, (i < 7)%nat → nth i (take 7 b) 0 = nth i b 0) as Hn.
  { intros i Hi. rewrite !nth_lookup. by rewrite lookup_take_lt. }
  rewrite !Hn by lia. change 0xf with (Z.ones 4). change (Z.land ?a 3) with (Z.land a (Z.ones 2)). change (Z.land ?a 1) with (Z.land a (Z.ones 1)).
  rewrite !Z.land_ones, Z.shiftr_div_pow2 by lia. done.
Qed.

Lemma new_endpoint_interfaces x n l b : new_endpoint (set_interfaces x n l) b = new_endpoint x b.
Proof. done. Qed.

Lemma foldl_endpoints i bs : ∀ e x itf, interfaces x !! i = Some itf → (e + length bs ≤ length (i_endpoints itf))%nat →
  snd (foldl (λ '(e, x) b, (Datatypes.S e, add_endpoint i x e b)) (e, x) bs) =
  set_interfaces x (num_interfaces x) (<[i := Interface (i_descriptor itf)
    (take e (i_endpoints itf) ++ map (λ b, new_endpoint x (take 7 b)) bs ++ drop (e + length bs) (i_endpoints itf))]> (interfaces x)).
Proof.
  induction bs as [|b bs IH]; intros e x itf Hi Hlen.
  - cbn [foldl snd map app length]. rewrite Nat.add_0_r, take_drop, list_insert_id by (by destruct itf). by destruct x.
  - cbn [foldl length] in *. unfold add_endpoint at 2, set_endpoint.
    rewrite (IH (Datatypes.S e) _ (Interface (i_descriptor itf) (<[e := new_endpoint x (take 7 b)]> (i_endpoints itf)))).
    + unfold set_interfaces; cbn [num_interfaces interfaces address state configuration configuration_string location_hub hub_port pipe0
        descriptor class string_product string_manufacturer string_serial string_configuration i_descriptor i_endpoints]. f_equal.
      apply list_eq. intros k. destruct (decide (k = i)) as [->|Hk].
      * rewrite !list_lookup_insert_eq by (rewrite ?length_alter; by eapply lookup_lt_Some). do 2 f_equal.
        rewrite (take_S_r _ e (new_endpoint x (take 7 b))) by (apply list_lookup_insert_eq; lia).
        rewrite take_insert_ge by lia. rewrite drop_insert_lt by lia. cbn [map]. rewrite <- app_assoc. cbn [app].
        replace (Datatypes.S e + length bs)%nat with (e + Datatypes.S (length bs))%nat by lia. done.
      * rewrite !list_lookup_insert_ne by done. by apply list_lookup_alter_ne.
    + cbn. by rewrite list_lookup_alter_eq, Hi.
    + cbn. rewrite length_insert. lia.
Qed.

Lemma filled_like x y i old : address y = address x → pipe0 y = pipe0 x → filled y i old = filled x i old.
Proof. intros Ha Hp. unfold filled, endpoint_pipe. by rewrite Ha, Hp. Qed.

Lemma add_interface_filled x i old : interfaces x !! Z.to_nat (num_interfaces x) = Some old → (length (is_endpoints i) ≤ length (i_endpoints old))%nat →
  add_interface x i = set_interfaces x (num_interfaces x + 1) (<[Z.to_nat (num_interfaces x) := filled x i old]> (interfaces x)).
Proof.
  intros Hi Hlen. unfold add_interface. rewrite (foldl_endpoints _ _ 0 _ (Interface (take 9 (is_bytes i)) (i_endpoints old))); [|cbn; by rewrite list_lookup_alter_eq, Hi|done].
  unfold set_interfaces, set_interface_descriptor; cbn [num_interfaces interfaces address state configuration configuration_string location_hub hub_port
    pipe0 descriptor class string_product string_manufacturer string_serial string_configuration i_descriptor i_endpoints set_interfaces take app Nat.add].
  f_equal. apply list_eq. intros k. destruct (decide (k = Z.to_nat (num_interfaces x))) as [->|Hk].
  - rewrite !list_lookup_insert_eq by (rewrite ?length_alter; by eapply lookup_lt_Some). unfold filled.
    rewrite (map_ext (λ b, Endpoint (take 7 b) (endpoint_pipe x b)) (λ b, new_endpoint x (take 7 b))) by (intros b; by rewrite new_endpoint_pipe). done.
  - rewrite !list_lookup_insert_ne by done. by apply list_lookup_alter_ne.
Qed.

Lemma filled_length x i old : (length (is_endpoints i) ≤ 16)%nat → length (i_endpoints old) = 16%nat → length (i_endpoints (filled x i old)) = 16%nat.
Proof. intros. unfold filled. cbn. rewrite length_app, length_map, length_drop. lia. Qed.

(** The device [x'] is [x] with the interfaces [l] added. *)
Definition configured x (l : list interface_spec) x' : Prop :=
  num_interfaces x' = num_interfaces x + Z.of_nat (length l) ∧ set_interfaces x' 0 [] = set_interfaces x 0 [] ∧
  let n := Z.to_nat (num_interfaces x) in
  (∀ j i, l !! j = Some i → ∃ old, interfaces x !! (n + j)%nat = Some old ∧ interfaces x' !! (n + j)%nat = Some (filled x i old)) ∧
  (∀ k, (k < n ∨ n + length l ≤ k)%nat → interfaces x' !! k = interfaces x !! k).

Lemma configured_foldl l : ∀ x, full_device x → Forall (λ i, (length (is_endpoints i) ≤ 16)%nat) l →
  0 ≤ num_interfaces x → num_interfaces x + Z.of_nat (length l) ≤ 8 → configured x l (foldl add_interface x l).
Proof.
  induction l as [|i l IH]; intros x [H8 H16] Hl H0 Hn.
  - split; [cbn; lia|]. split; [done|]. by split.
  - apply Forall_cons in Hl as [Hi Hl]. cbn [length foldl] in *. set (n := Z.to_nat (num_interfaces x)).
    destruct (lookup_lt_is_Some_2 (interfaces x) n ltac:(lia)) as [old Hold].
    assert (length (i_endpoints old) = 16)%nat as Ho by exact (Forall_lookup_1 _ _ _ _ H16 Hold).
    assert (add_interface x i = set_interfaces x (num_interfaces x + 1) (<[n := filled x i old]> (interfaces x))) as E.
    { apply add_interface_filled; [done|lia]. }
    destruct (IH (add_interface x i)) as (En & Es & Hj & Hk).
    + rewrite E. split; cbn; [by rewrite length_insert|]. apply Forall_insert; [done|]. by apply filled_length.
    + done.
    + rewrite add_interface_num. lia.
    + rewrite add_interface_num. lia.
    + rewrite E in Es, Hj, Hk. rewrite add_interface_num in En. cbn [set_interfaces num_interfaces] in Hj, Hk.
      replace (Z.to_nat (num_interfaces x + 1)) with (Datatypes.S n) in Hj, Hk by lia.
      rewrite <- E in Es, Hj, Hk. split; [cbn [length]; lia|]. split; [etransitivity; [exact Es|by rewrite E]|]. split.
      * intros [|j] k Ek.
        -- injection Ek as <-. exists old. rewrite Nat.add_0_r. split; [done|]. rewrite Hk by lia. rewrite E. cbn. apply list_lookup_insert_eq. lia.
        -- destruct (Hj j k Ek) as (o & Eo & Eo'). exists o. change (Z.to_nat (num_interfaces x)) with n. replace (n + Datatypes.S j)%nat with (Datatypes.S n + j)%nat by lia.
           assert (interfaces (add_interface x i) !! (Datatypes.S n + j)%nat = interfaces x !! (Datatypes.S n + j)%nat) as <-
             by (rewrite E; apply list_lookup_insert_ne; lia). split; [exact Eo|].
           rewrite Eo'. f_equal. by rewrite E.
      * intros k Hk'. rewrite Hk by (cbn [length] in Hk'; lia). rewrite E. cbn. apply list_lookup_insert_ne. cbn [length] in Hk'. lia.
Qed.

(** C17: Parsing the configuration a device sends recovers it: for every
    well-formed list of interfaces with their endpoints that fits the arrays of
    the device, the parser consumes exactly the bytes of the configuration,
    whatever follows them in the buffer, gives the device these interfaces, with
    their descriptors and the pipes of their endpoints in order, after those it
    has, and changes nothing else. *)
Theorem usb_hcd_parse_configuration_roundtrip fuel d cfg l post s x : wf_descriptor USB_DESCRIPTOR_TYPE_CONFIGURATION 9 cfg → Forall wf_interface l →
  devices s !! d = Some x → full_device x → 0 ≤ num_interfaces x → num_interfaces x + Z.of_nat (length l) ≤ 8 →
  (count_descriptors l + 2 ≤ fuel)%nat →
  ∃ x', usb_hcd_parse_configuration fuel d (serialize cfg l ++ post) (Z.of_nat (length (serialize cfg l))) s =
    Ret (ERR_OK, with_device s d x') ∧ configured x l x'.
Proof.
  intros Hc Hl Hd Hx H0 Hn Hf. eexists. split; [by apply parse_configuration_fills|]. apply configured_foldl; [done| |done|done].
  eapply Forall_impl; [exact Hl|]. by intros i (_ & _ & ?).
Qed.
End parse.

(** A disk: one interface with two bulk endpoints. *)
Definition demo_configuration : list Z := [9; 2; 32; 0; 1; 1; 0; 0x80; 50].
Definition demo_interfaces : list interface_spec :=
  [InterfaceSpec [9; 4; 0; 0; 2; 8; 6; 80; 0] [[7; 5; 0x81; 2; 0; 2; 0]; [7; 5; 0x02; 2; 0; 2; 0]]].

(** A bus that refuses every transfer. *)
Definition refuse (buf : list Z) (b : unit) : outcome (xfer_result * unit) := Ret (XferResult ERR_GENERIC 0 buf 0, b).
#[local] Instance refusing_bus : UsbTransport unit := {|
  bus_control _ _ buf _ _ := refuse buf; bus_bulk _ _ buf _ := refuse buf |}.

Definition demo_hcd (m : gmap Z usb_hcd_device) : hcd unit :=
  HcdState tt m ∅ ∅ ∅ (SlotPool 0 0 []) (SlotPool 0 0 []) (SlotPool 0 0 []) (SlotPool 0 0 []) (SlotPool 0 0 []) 0 0 1 0.

Lemma usb_hcd_parse_configuration_roundtrip_witness : ∃ x',
  usb_hcd_parse_configuration 6 100 (serialize demo_configuration demo_interfaces ++ [0xfc; 0xfc]) 32 (demo_hcd {[ 100 := zero_device ]}) =
    Ret (ERR_OK, with_device (demo_hcd {[ 100 := zero_device ]}) 100 x') ∧
  num_interfaces x' = 1 ∧ configured zero_device demo_interfaces x'.
Proof.
  destruct (usb_hcd_parse_configuration_roundtrip (B := unit) 6 100 demo_configuration demo_interfaces [0xfc; 0xfc] (demo_hcd {[ 100 := zero_device ]}) zero_device)
    as (x' & E & C).
  - split_and!; done.
  - repeat constructor; vm_compute; congruence.
  - reflexivity.
  - split; [done|]. by repeat constructor.
  - done.
  - done.
  - vm_compute. lia.
  - exists x'. split; [exact E|]. split; [exact (proj1 C)|exact C].
Defined.
