(* ===== verification/UsbLog.v ===== *)
(** * Logs of USB transfers

    A bus with a log of the transfers made over it, and the rules that say which
    transfers a driver makes.  Of the devices only the PIDs of the pipes change
    with a transfer. *)

From S2P Require Import Prelude Lists Mmio Dwc2 UsbTypes Hcd Trace.

(** A transfer: device address, endpoint, direction; the bytes sent or received,
    the size asked for, the error and the byte count reported. *)
Inductive usb_event :=
| EvControl (addr dir rq size err n : Z) (got : list Z)
| EvBulk (addr ep dir : Z) (sent : list Z) (size err n : Z) (got : list Z).

Record logged (B : Type) := LoggedBus { lb_bus : B; lb_log : list usb_event }.
Arguments LoggedBus {B}.
Arguments lb_bus {B}.
Arguments lb_log {B}.

(** The bytes that move to the host, and from it. *)
Definition incoming (dir : Z) (l : list Z) : list Z := if dir =? USB_DIRECTION_IN then l else [].
Definition outgoing (dir : Z) (l : list Z) : list Z := if dir =? USB_DIRECTION_IN then [] else l.

#[export] Instance logged_transport {B} `{UsbTransport B} : UsbTransport (logged B) := {|
  bus_control p dir buf size rq b :=
    '(r, b') ← bus_control p dir buf size rq (lb_bus b);
    Ret (r, LoggedBus b' (lb_log b ++ [EvControl (device_address p) dir rq size (x_err r) (x_num_bytes r) (incoming dir (x_buf r))]));
  bus_bulk p dir buf size b :=
    '(r, b') ← bus_bulk p dir buf size (lb_bus b);
    Ret (r, LoggedBus b' (lb_log b ++
      [EvBulk (device_address p) (endpoint_num p) dir (outgoing dir buf) size (x_err r) (x_num_bytes r) (incoming dir (x_buf r))])) |}.

#[export] Instance hcd_logged {B} : Logged (hcd (logged B)) usb_event := λ s, lb_log (bus s).

(** A bus on which every transfer ends, and stays within its buffer. *)
Class LiveBus (B : Type) `{UsbTransport B} : Prop := {
  live_control p dir buf size rq b : size ≤ Z.of_nat (length buf) →
    ∃ r b', bus_control p dir buf size rq b = Ret (r, b') ∧ length (x_buf r) = length buf;
  live_bulk p dir buf size b : size ≤ Z.of_nat (length buf) →
    ∃ r b', bus_bulk p dir buf size b = Ret (r, b') ∧ length (x_buf r) = length buf }.

(** ** What a transfer leaves alone *)
Definition erase_endpoint (e : usb_hcd_endpoint) : usb_hcd_endpoint := Endpoint (ep_descriptor e) (set_pid (ep_pipe e) 0).
Definition erase_interface (i : usb_hcd_interface) : usb_hcd_interface := Interface (i_descriptor i) (map erase_endpoint (i_endpoints i)).
(** A device without the PIDs of its pipes. *)
Definition erase_pids (x : usb_hcd_device) : usb_hcd_device :=
  set_pipe0 (set_interfaces x (num_interfaces x) (map erase_interface (interfaces x))) (set_pid (pipe0 x) 0).

(** Only the bus and the PIDs of pipes have changed. *)
Definition pids_only {B} (s s' : hcd B) : Prop :=
  s' = with_devices (with_bus s (bus s')) (devices s') ∧ erase_pids <$> devices s' = erase_pids <$> devices s.

#[export] Instance pids_only_preorder {B} : PreOrder (@pids_only B).
Proof.
  split.
  - intros s. split; [by destruct s|done].
  - intros s1 s2 s3 [E1 D1] [E2 D2]. split; [|by rewrite D2, D1]. rewrite E2 at 1. rewrite E1. done.
Qed.

(** What a driver knows of an endpoint: descriptor, device address and number. *)
Definition ep_sig_dev (x : usb_hcd_device) (r : ep_ref) : option (list Z * Z * Z) :=
  i ← interfaces x !! er_interface r; e ← i_endpoints i !! er_endpoint r;
  Some (ep_descriptor e, device_address (ep_pipe e), endpoint_num (ep_pipe e)).
Definition ep_sig {B} (s : hcd B) (r : ep_ref) : option (list Z * Z * Z) :=
  x ← devices s !! er_device r; ep_sig_dev x r.
Definition dev_addr {B} (s : hcd B) (d : Z) : option Z := (λ x, device_address (pipe0 x)) <$> devices s !! d.

Lemma ep_sig_erase x r : ep_sig_dev (erase_pids x) r = ep_sig_dev x r.
Proof.
  unfold ep_sig_dev, erase_pids. cbn. rewrite list_lookup_fmap. destruct (interfaces x !! er_interface r) as [i|]; [|done]. cbn.
  rewrite list_lookup_fmap. by destruct (i_endpoints i !! er_endpoint r).
Qed.

Lemma pids_only_lookup {B} (s s' : hcd B) d : pids_only s s' → erase_pids <$> devices s' !! d = erase_pids <$> devices s !! d.
Proof. intros [_ E]. by rewrite <- !lookup_fmap, E. Qed.

Lemma pids_only_sig {B} (s s' : hcd B) r : pids_only s s' → ep_sig s' r = ep_sig s r.
Proof.
  intros Hp. pose proof (pids_only_lookup _ _ (er_device r) Hp) as E. unfold ep_sig.
  destruct (devices s' !! er_device r) as [x'|], (devices s !! er_device r) as [x|]; try done. cbn [fmap option_fmap option_map] in E.
  assert (erase_pids x' = erase_pids x) as Ex by congruence. cbn. by rewrite <- ep_sig_erase, Ex, ep_sig_erase.
Qed.

Lemma pids_only_addr {B} (s s' : hcd B) d : pids_only s s' → dev_addr s' d = dev_addr s d.
Proof.
  intros Hp. pose proof (pids_only_lookup _ _ d Hp) as E. unfold dev_addr.
  destruct (devices s' !! d) as [x'|], (devices s !! d) as [x|]; try done. cbn in E |- *.
  assert (erase_pids x' = erase_pids x) as Ex by congruence. by apply (f_equal (λ x, device_address (pipe0 x))) in Ex; cbn in Ex; rewrite Ex.
Qed.

Lemma pids_only_classes {B} (s s' : hcd B) : pids_only s s' → classes s' = classes s.
Proof. by intros [-> _]. Qed.

(** ** What the transfers of hcd.c do on a live bus *)
Section transfers.
Context {B : Type} `{LiveBus B}.
Abbreviation S := (hcd (logged B)).

Lemma erase_set_pid x pid : erase_pids (set_pipe0 x (set_pid (pipe0 x) pid)) = erase_pids x.
Proof. done. Qed.

Lemma insert_same_erase (m : gmap Z usb_hcd_device) d x x' : m !! d = Some x → erase_pids x' = erase_pids x →
  erase_pids <$> <[d := x']> m = erase_pids <$> m.
Proof. intros Hd Hx. rewrite fmap_insert, Hx. apply insert_id. by rewrite lookup_fmap, Hd. Qed.

Lemma control_does d dir buf size rq (s : S) a : dev_addr s d = Some a → size ≤ Z.of_nat (length buf) →
  does (HCD_TRANSFER_CONTROL d dir buf size rq) s (λ '(err, n, buf') s' l, pids_only s s' ∧ length buf' = length buf ∧
    (dir ≠ USB_DIRECTION_IN → buf' = buf) ∧ l = [EvControl a dir rq size err n (incoming dir buf')]).
Proof.
  unfold dev_addr. destruct (devices s !! d) as [x|] eqn:Ed; [|done]. intros [= <-] Hsz. 
  destruct (live_control (pipe0 x) dir buf size rq (lb_bus (bus s)) Hsz) as (r & b' & Eb & Hlen).
  unfold does, HCD_TRANSFER_CONTROL. rewrite Ed. cbn [deref]. rewrite bind_ret. unfold bus_control at 1. cbn [logged_transport]. rewrite Eb, !bind_ret.
  unfold incoming. destruct (Z.eqb_spec dir USB_DIRECTION_IN) as [->|Hd].
  - rewrite Hlen, Nat.eqb_refl. cbn [negb]. eexists _, _, _. split; [reflexivity|]. split; [reflexivity|].
    split; [split; [done|by eapply insert_same_erase]|]. by rewrite Hlen.
  - rewrite Nat.eqb_refl. cbn [negb]. eexists _, _, _. split; [reflexivity|]. split; [reflexivity|].
    split; [split; [done|by eapply insert_same_erase]|]. done.
Qed.
Lemma erase_endpoint_pid x i e itf ep pid : interfaces x !! i = Some itf → i_endpoints itf !! e = Some ep →
  erase_pids (set_endpoint x i e (Endpoint (ep_descriptor ep) (set_pid (ep_pipe ep) pid))) = erase_pids x.
Proof.
  intros Hi He. unfold erase_pids, set_endpoint. cbn. f_equal. unfold set_interfaces. cbn. f_equal.
  apply list_eq. intros j. rewrite !list_lookup_fmap. destruct (decide (j = i)) as [->|Hne].
  - rewrite list_lookup_alter_eq, Hi. cbn. f_equal. unfold erase_interface. cbn. f_equal.
    apply list_eq. intros k. rewrite !list_lookup_fmap. destruct (decide (k = e)) as [->|Hke].
    + rewrite list_lookup_insert_eq by (by eapply lookup_lt_Some). by rewrite He.
    + by rewrite list_lookup_insert_ne.
  - by rewrite list_lookup_alter_ne.
Qed.

Lemma bulk_does r buf size (s : S) ed a n : ep_sig s r = Some (ed, a, n) → size ≤ Z.of_nat (length buf) →
  let dir := usb_endpoint_descriptor_get_direction ed in
  does (hcd_transfer_bulk r buf size) s (λ '(err, k, buf') s' l, pids_only s s' ∧ length buf' = length buf ∧
    (dir ≠ USB_DIRECTION_IN → buf' = buf) ∧ l = [EvBulk a n dir (outgoing dir buf) size err k (incoming dir buf')]).
Proof.
  unfold ep_sig, ep_sig_dev. destruct (devices s !! er_device r) as [x|] eqn:Ed; [|done]. cbn [mbind option_bind].
  destruct (interfaces x !! er_interface r) as [itf|] eqn:Ei; [|done]. cbn.
  destruct (i_endpoints itf !! er_endpoint r) as [ep|] eqn:Ee; [|done]. intros [= <- <- <-] Hsz. set (dir := usb_endpoint_descriptor_get_direction (ep_descriptor ep)).
  destruct (live_bulk (ep_pipe ep) dir buf size (lb_bus (bus s)) Hsz) as (t & b' & Eb & Hlen).
  assert (get_endpoint r s = Ret (ep, s)) as Eg.
  { unfold get_endpoint, get_device, lift, mbind, io_bind. rewrite Ed. cbn. rewrite Ei. cbn. by rewrite Ee. }
  unfold does, hcd_transfer_bulk. rewrite Eg. rewrite bind_ret, Ed. cbn [deref]. rewrite bind_ret. fold dir.
  unfold bus_bulk at 1. cbn [logged_transport]. rewrite Eb, !bind_ret.
  unfold incoming. destruct (Z.eqb_spec dir USB_DIRECTION_IN) as [Hd|Hd].
  - rewrite Hlen, Nat.eqb_refl. cbn [negb]. eexists _, _, _. split; [reflexivity|]. split; [reflexivity|].
    split; [split; [done|eapply insert_same_erase; [done|by eapply erase_endpoint_pid]]|]. by rewrite Hlen.
  - rewrite Nat.eqb_refl. cbn [negb]. eexists _, _, _. split; [reflexivity|]. split; [reflexivity|].
    split; [split; [done|eapply insert_same_erase; [done|by eapply erase_endpoint_pid]]|]. done.
Qed.
End transfers.

(** A bus that answers from a list of errors and replies; a reply of another
    length than the buffer leaves the buffer. *)
Record script_bus := ScriptBus { replies : list (Z * list Z) }.
Definition script_answer (buf : list Z) (size : Z) (b : script_bus) : outcome (xfer_result * script_bus) :=
  match replies b with
  | [] => Ret (XferResult ERR_GENERIC 0 buf 0, b)
  | (e, d) :: l => Ret (XferResult e size (if (length d =? length buf)%nat then d else buf) 0, ScriptBus l)
  end.
#[export] Instance script_transport : UsbTransport script_bus := {|
  bus_control p dir buf size rq b := script_answer buf size b;
  bus_bulk p dir buf size b := script_answer buf size b |}.

Lemma script_answer_length buf size b : ∃ r b', script_answer buf size b = Ret (r, b') ∧ length (x_buf r) = length buf.
Proof.
  unfold script_answer. destruct (replies b) as [|[e d] l]; eexists _, _; (split; [reflexivity|]); [done|]. cbn.
  by destruct (Nat.eqb_spec (length d) (length buf)).
Qed.

#[export] Instance script_live : LiveBus script_bus.
Proof. split; intros; apply script_answer_length. Qed.
