(* ===== verification/HcdPool.v ===== *)
(** * Devices: allocation and release on the lists of hcd.c

    The pool of device slots and the list of devices as a map of rings
    (Rings.v). *)

From S2P Require Import Prelude Lists Rings Mmio Dwc2 UsbTypes Hcd.

(** The lists that hold devices: [d :: F] is the pool, [A] the slots in use,
    [U] the device list; the other nodes of [d] are on no list. *)
Record device_lists {B} (s : hcd B) (M : ringmap) (F A U : list Z) : Prop := {
  dl_rings : ringm (nodes s) M;
  dl_free : M !! slot_free (device_pool s) = Some F;
  dl_active : M !! slot_active (device_pool s) = Some A;
  dl_devices : M !! usb_devices s = Some U;
  dl_heads : NoDup [slot_free (device_pool s); slot_active (device_pool s); usb_devices s];
  dl_parked d : d ∈ F → ∀ x, x ∈ [dev_hub_children d; dev_usb_devices d] → outside M x ∧ is_Some (nodes s !! x) }.

Section pool.
Context {B : Type} `{UsbTransport B}.
Abbreviation S := (hcd B).
Implicit Types s : S.

(** The map after a slot is taken and before it is linked. *)
Definition taken (s : S) (M : ringmap) (d : Z) (F A : list Z) : ringmap :=
  <[slot_active (device_pool s) := d :: A]> (<[slot_free (device_pool s) := F]> M).
Definition allocated (s : S) (M : ringmap) (d : Z) (F A U : list Z) : ringmap :=
  <[usb_devices s := U ++ [dev_usb_devices d]]> (<[dev_hub_children d := []]> (taken s M d F A)).

Lemma on_nodes_ok (f : heap → outcome heap) s σ : f (nodes s) = Ret σ → on_nodes f s = Ret (tt, with_nodes s σ).
Proof. intros E. unfold on_nodes. by rewrite E. Qed.

Lemma outside_taken s M d F A x : outside M x → d ∈ d :: F → x ≠ d → M !! slot_free (device_pool s) = Some (d :: F) →
  M !! slot_active (device_pool s) = Some A → outside (taken s M d F A) x.
Proof.
  intros Ho _ Hx HF HA. pose proof (Ho _ _ HF). pose proof (Ho _ _ HA). unfold taken.
  apply outside_insert; [apply outside_insert; [done|]|]; set_solver.
Qed.

(** Allocation takes the first free slot, fills it in, and puts it on the list
    of devices. *)
Lemma allocate_device_ok s M d F A U : device_lists s M (d :: F) A U →
  ∃ σ, usb_hcd_allocate_device s = Ret (Some d, with_nodes (with_devices s (<[d := fresh_device (default zero_device (devices s !! d))]> (devices s))) σ) ∧
    ringm σ (allocated s M d F A U) ∧ dom σ = dom (nodes s).
Proof.
  intros [HM HF HA HU Hh Hp]. apply NoDup_cons in Hh as [Hfa [Hau _]%NoDup_cons].
  destruct (Hp d ltac:(set_solver) (dev_hub_children d) ltac:(set_solver)) as [Hoc Hmc].
  destruct (Hp d ltac:(set_solver) (dev_usb_devices d) ltac:(set_solver)) as [Hou Hmu].
  assert (dev_hub_children d ≠ d ∧ dev_usb_devices d ≠ d ∧ dev_usb_devices d ≠ dev_hub_children d) as (N1 & N2 & N3)
    by (unfold dev_hub_children, dev_usb_devices; lia).
  destruct (ringm_alloc (nodes s) M (device_pool s) d F A HM HF HA ltac:(set_solver)) as (σ1 & E1 & HM1 & D1). fold (taken s M d F A) in HM1.
  assert (d ≠ NULL) as Hd.
  { intros ->. pose proof (ringm_null _ _ HM) as En. destruct (dring_mapped _ _ _ NULL (ringm_ring _ _ HM _ _ HF) ltac:(set_solver)). congruence. }
  destruct (ringm_init σ1 _ (dev_hub_children d) HM1) as (σ2 & E2 & HM2 & D2); [by apply outside_taken; [|set_solver|..]|by eapply same_dom_mapped|].
  assert (outside (<[dev_hub_children d := []]> (taken s M d F A)) (dev_usb_devices d)) as Ho2.
  { apply outside_insert; [by apply outside_taken; [|set_solver|..]|]. set_solver. }
  destruct (ringm_init_outside σ2 _ (dev_usb_devices d) HM2 Ho2) as (σ3 & E3 & HM3 & D3); [eapply same_dom_mapped; [|done]; congruence|].
  destruct (ringm_add_tail σ3 _ (usb_devices s) U (dev_usb_devices d) HM3) as (σ4 & E4 & HM4 & D4).
  { rewrite lookup_insert_ne by (intros E; apply (Hoc _ _ HU); set_solver). unfold taken. rewrite !lookup_insert_ne by set_solver. done. }
  { done. }
  { eapply same_dom_mapped; [|done]. congruence. }
  exists σ4. split; [|split; [done|congruence]]. unfold usb_hcd_allocate_device.
  rewrite (io_bind_ret _ _ _ d (with_nodes s σ1)) by (unfold pool_alloc; by rewrite E1).
  rewrite (proj2 (Z.eqb_neq d NULL)) by done.
  repeat (erewrite io_bind_ret; [|first [reflexivity|apply on_nodes_ok; eassumption]]). reflexivity.
Qed.

(** Release of a device without children: off the device list and off its
    hub's list, and its slot is the first free one. *)
Lemma deallocate_device_ok fuel s M d x F A U : ringm (nodes s) M → devices s !! d = Some x → class x = NULL →
  M !! slot_free (device_pool s) = Some F → M !! slot_active (device_pool s) = Some A → M !! usb_devices s = Some U →
  NoDup [slot_free (device_pool s); slot_active (device_pool s); usb_devices s] →
  d ∈ A → dev_usb_devices d ∈ U → M !! dev_hub_children d = Some [] →
  ∃ σ, usb_hcd_deallocate_device (Datatypes.S fuel) d s = Ret (tt, with_nodes s σ) ∧
    ringm σ (<[slot_free (device_pool s) := d :: F]> (<[slot_active (device_pool s) := del d A]> (<[usb_devices s := del (dev_usb_devices d) U]> M))) ∧
    dom σ = dom (nodes s).
Proof.
  intros HM Hd Hc HF HA HU Hh HdA HdU Hdc. apply NoDup_cons in Hh as [Hfa [Hau _]%NoDup_cons].
  destruct (ringm_del_init (nodes s) M (usb_devices s) U (dev_usb_devices d) HM HU HdU) as (σ1 & E1 & HM1 & D1).
  assert (dev_hub_children d ≠ usb_devices s) as Hne by (intros E; rewrite E, HU in Hdc; set_solver).
  destruct (ringm_del_init_self σ1 _ (dev_hub_children d) HM1) as (σ2 & E2 & HM2 & D2); [by rewrite lookup_insert_ne|].
  destruct (ringm_release σ2 _ (device_pool s) d F A HM2) as (σ3 & E3 & HM3 & D3); [by rewrite lookup_insert_ne by set_solver..|done|set_solver|].
  exists σ3. split; [|split; [done|congruence]]. cbn [usb_hcd_deallocate_device].
  erewrite io_bind_ret; [|by apply on_nodes_ok]. erewrite io_bind_ret; [|by apply on_nodes_ok].
  erewrite io_bind_ret; [|apply get_device_at; exact Hd]. rewrite Hc. cbv zeta. change (NULL =? NULL) with true. cbv iota.
  erewrite io_bind_ret; [|reflexivity]. unfold pool_release. cbn [nodes with_nodes device_pool]. rewrite E3. reflexivity.
Qed.

Lemma not_eq_heads (x y : Z) l : NoDup (x :: y :: l) → x ≠ y.
Proof. intros [Hn _]%NoDup_cons ->. set_solver. Qed.

(** The lists of a fresh device, and what its release makes of them. *)
Lemma allocated_at s M d F A U : NoDup [slot_free (device_pool s); slot_active (device_pool s); usb_devices s] →
  dev_hub_children d ∉ [slot_free (device_pool s); slot_active (device_pool s); usb_devices s] →
  allocated s M d F A U !! slot_free (device_pool s) = Some F ∧ allocated s M d F A U !! slot_active (device_pool s) = Some (d :: A) ∧
  allocated s M d F A U !! usb_devices s = Some (U ++ [dev_usb_devices d]) ∧ allocated s M d F A U !! dev_hub_children d = Some [].
Proof.
  unfold allocated, taken. generalize (slot_free (device_pool s)) (slot_active (device_pool s)) (usb_devices s) (dev_hub_children d).
  intros f a u c. rewrite !NoDup_cons, !not_elem_of_cons. intros ((? & ? & _) & (? & _) & _) (? & ? & ? & _).
  split_and!; repeat (rewrite lookup_insert_eq || rewrite lookup_insert_ne by congruence); done.
Qed.

Lemma released_restores s M d F A U : M !! slot_free (device_pool s) = Some (d :: F) → M !! slot_active (device_pool s) = Some A →
  M !! usb_devices s = Some U → M !! dev_hub_children d = None → d ∉ A → dev_usb_devices d ∉ U →
  delete (dev_hub_children d) (<[slot_free (device_pool s) := d :: F]> (<[slot_active (device_pool s) := del d (d :: A)]>
    (<[usb_devices s := del (dev_usb_devices d) (U ++ [dev_usb_devices d])]> (allocated s M d F A U)))) = M.
Proof.
  intros HF HA HU Hc HdA HdU. pose proof (del_split d [] A ltac:(set_solver) HdA) as E1. cbn [app] in E1.
  pose proof (del_split (dev_usb_devices d) U [] HdU ltac:(set_solver)) as E2. rewrite app_nil_r in E2. rewrite E1, E2. clear E1 E2.
  unfold allocated, taken. revert HF HA HU Hc. cbn [app].
  generalize (slot_free (device_pool s)) (slot_active (device_pool s)) (usb_devices s) (dev_hub_children d). intros f a u c HF HA HU Hc.
  apply map_eq. intros k. destruct (decide (k = c)) as [->|]; [by rewrite lookup_delete_eq|]. rewrite lookup_delete_ne by done.
  destruct (decide (k = f)) as [->|]; [by rewrite lookup_insert_eq|]. rewrite lookup_insert_ne by done.
  destruct (decide (k = a)) as [->|]; [by rewrite lookup_insert_eq|]. rewrite lookup_insert_ne by done.
  destruct (decide (k = u)) as [->|]; [by rewrite lookup_insert_eq|]. by rewrite !lookup_insert_ne by done.
Qed.

(** Devices come from the pool and go back to it: as long as a slot is free,
    allocation takes the first one, gives an attached device at address 0
    without parent and class, and appends it to the list of devices; releasing
    that device restores every list of the system.  With no free slot allocation
    fails and changes nothing. *)
Theorem usb_hcd_device_roundtrip fuel s M L A U : device_lists s M L A U →
  match L with
  | [] => usb_hcd_allocate_device s = Ret (None, s)
  | d :: F => ∃ s1 s2 x, usb_hcd_allocate_device s = Ret (Some d, s1) ∧ devices s1 !! d = Some x ∧
      address x = 0 ∧ state x = USB_DEVICE_STATE_ATTACHED ∧ location_hub x = NULL ∧ class x = NULL ∧
      ringm (nodes s1) (allocated s M d F A U) ∧
      usb_hcd_deallocate_device (Datatypes.S fuel) d s1 = Ret (tt, s2) ∧ ringm (nodes s2) M
  end.
Proof.
  intros Hl. destruct L as [|d F].
  - unfold usb_hcd_allocate_device, pool_alloc, slot_alloc, mbind, io_bind. destruct Hl as [HM HF _ _ _ _].
    rewrite (list_next_or_null_ring _ _ _ (ringm_ring _ _ HM _ _ HF)). cbn. by destruct s.
  - destruct (allocate_device_ok s M d F A U Hl) as (σ & E & HM & D). destruct Hl as [HM0 HF HA HU Hh Hp].
    destruct (Hp d ltac:(set_solver) (dev_hub_children d) ltac:(set_solver)) as [Hoc _].
    assert (dev_hub_children d ∉ [slot_free (device_pool s); slot_active (device_pool s); usb_devices s]) as Hn.
    { rewrite !not_elem_of_cons. pose proof (Hoc _ _ HF). pose proof (Hoc _ _ HA). pose proof (Hoc _ _ HU). set_solver. }
    assert (M !! dev_hub_children d = None) as HN by (apply eq_None_not_Some; intros [l Hl]; apply (Hoc _ _ Hl); set_solver).
    assert (d ∉ A) as HdA by (intros Hd; apply (ringm_disjoint _ _ HM0 _ _ _ _ HF HA (not_eq_heads _ _ _ Hh) d); set_solver).
    assert (dev_usb_devices d ∉ U) as HdU by (intros Hd; apply (proj1 (Hp d ltac:(set_solver) (dev_usb_devices d) ltac:(set_solver)) _ _ HU); set_solver).
    destruct (allocated_at s M d F A U Hh Hn) as (LF & LA & LU & LC). set (x := fresh_device (default zero_device (devices s !! d))) in E.
    set (s1 := with_nodes (with_devices s (<[d := x]> (devices s))) σ) in E.
    destruct (deallocate_device_ok fuel s1 (allocated s M d F A U) d x F (d :: A) (U ++ [dev_usb_devices d]) HM) as (σ2 & E2 & HM2 & D2);
      [apply lookup_insert_eq|done|done|done|done|done|set_solver|set_solver|done|].
    exists s1, (with_nodes s1 σ2), x. split; [exact E|]. split; [apply lookup_insert_eq|]. split_and!; try done.
    cbn [nodes with_nodes]. rewrite <- (released_restores s M d F A U HF HA HU HN HdA HdU). by apply ringm_delete.
Qed.
End pool.

(** Witness: a device slot is free, another is in use. *)
Definition demo_pool : list (Z * list Z) := [(1, [1000]); (2, [2000]); (3, [2016])].
Definition demo_pool_heap : heap := list_to_map
  [(1, ListHead 1000 1000); (1000, ListHead 1 1); (2, ListHead 2000 2000); (2000, ListHead 2 2); (3, ListHead 2016 2016); (2016, ListHead 3 3);
   (1016, ListHead 0 0); (1104, ListHead 0 0)].
Definition demo_pool_hcd : hcd unit :=
  HcdState tt ∅ ∅ ∅ demo_pool_heap (SlotPool 1 2 []) (SlotPool 0 0 []) (SlotPool 0 0 []) (SlotPool 0 0 []) (SlotPool 0 0 []) 3 0 1 0.

Lemma usb_hcd_device_roundtrip_witness : device_lists demo_pool_hcd (list_to_map demo_pool) [1000] [2000] [2016] ∧
  ∃ s1, usb_hcd_allocate_device demo_pool_hcd = Ret (Some 1000, s1) ∧
    ∃ s2, usb_hcd_deallocate_device 1 1000 s1 = Ret (tt, s2) ∧ ringm (nodes s2) (list_to_map demo_pool).
Proof.
  assert (device_lists demo_pool_hcd (list_to_map demo_pool) [1000] [2000] [2016]) as Hl.
  { split; try done.
    - apply ringm_of_list; [done|apply (bool_decide_eq_true_1 (NoDup _)); vm_compute; reflexivity|]. by repeat constructor.
    - apply (bool_decide_eq_true_1 (NoDup _)); vm_compute; reflexivity.
    - intros d ->%list_elem_of_singleton x Hx. split.
      + apply outside_of_list. rewrite !elem_of_cons, elem_of_nil in Hx. destruct Hx as [-> |[-> |[]]];
          repeat constructor; rewrite !not_elem_of_cons; (split_and!; [vm_compute; congruence..|set_solver]).
      + rewrite !elem_of_cons, elem_of_nil in Hx. by destruct Hx as [-> |[-> |[]]]. }
  split; [exact Hl|]. destruct (usb_hcd_device_roundtrip 0 _ _ _ _ _ Hl) as (s1 & s2 & x & E1 & _ & _ & _ & _ & _ & _ & E2 & HM).
  exists s1. split; [exact E1|]. exists s2. split; [exact E2|exact HM].
Defined.
