(* ===== verification/Mass.v ===== *)
(** * USB mass storage (board/bcm2835/usb/hcd_mass_storage.c, usb_mass_cbw.h)

    SCSI commands over bulk transfers: a command block goes out, data may move,
    and a status block comes back.  A transfer that asks for a retry restarts
    the command, at most five times.  The specification is a grammar of the
    transfers a command may make. *)

From S2P Require Import Prelude Bits Lists Mmio Dwc2 UsbTypes Hcd Trace UsbLog.

(** ** Command and status blocks (usb_mass_cbw.h) *)
Definition CBW_SIGNATURE : Z := 0x43425355.
Definition CSW_SIGNATURE : Z := 0x53425355.
Definition CSW_STATUS_GOOD : Z := 0.
Definition CSW_STATUS_FAILED : Z := 1.
Definition CSW_STATUS_PHASE_ERR : Z := 2.
Definition CSW_STATUS_CHECK_CONDITION : Z := 1.
Definition sizeof_cbw : Z := 31.
Definition sizeof_csw : Z := 13.

Record cbw := Cbw {
  cbw_signature : Z; cbw_tag : Z; cbw_data_length : Z; cbw_flags : Z; cbw_lun : Z; cbw_length : Z; cbw_block : list Z }.
(** The bytes of the packed structure; the bit fields are cut to their width. *)
Definition cbw_bytes (c : cbw) : list Z :=
  le_bytes 4 (cbw_signature c) ++ le_bytes 4 (cbw_tag c) ++ le_bytes 4 (cbw_data_length c) ++
  [u8 (cbw_flags c); cbw_lun c mod 2 ^ 4; cbw_length c mod 2 ^ 5] ++ cbw_block c.

Definition cbw_make_flags (direction : Z) : Z := Z.shiftl (Z.land direction 1) 7.
Definition cbw_get_direction (c : cbw) : Z := if truth (BIT_IS_SET (cbw_flags c) 7) then 1 else 0.

(** The fields of a status block, from its bytes. *)
Definition csw_signature (l : list Z) : Z := le_val (take 4 l).
Definition csw_tag (l : list Z) : Z := le_val (take 4 (drop 4 l)).
Definition csw_data_residue (l : list Z) : Z := le_val (take 4 (drop 8 l)).
Definition csw_status (l : list Z) : Z := byte_at l 12.

Definition is_csw_valid (csw : list Z) (size tag_in_cbw : Z) : bool :=
  (size =? sizeof_csw) && (csw_signature csw =? CSW_SIGNATURE) && (csw_tag csw =? u32 tag_in_cbw).
Definition is_csw_meaningful (csw : list Z) (transfer_length : Z) : bool :=
  ((csw_status csw =? CSW_STATUS_GOOD) || (csw_status csw =? CSW_STATUS_FAILED)) && (csw_data_residue csw <=? u32 transfer_length) ||
  (csw_status csw =? CSW_STATUS_PHASE_ERR).

(** ** SCSI commands (include/scsi/scsi_opcode.h) *)
Definition SCSI_OPCODE_TEST_UNIT_READY : Z := 0x00.
Definition SCSI_OPCODE_REQUEST_SENSE : Z := 0x03.
Definition SCSI_OPCODE_INQUIRY : Z := 0x12.
Definition SCSI_OPCODE_READ_CAPACITY_10 : Z := 0x25.
Definition SCSI_OPCODE_READ_10 : Z := 0x28.
Definition SCSI_OPCODE_WRITE_10 : Z := 0x2a.

(** The bytes [set_unaligned_32_le] and [set_unaligned_16_le] store: the highest first. *)
Definition unaligned_32 (v : Z) : list Z := [BYTE_EXTRACT (u32 v) 3; BYTE_EXTRACT (u32 v) 2; BYTE_EXTRACT (u32 v) 1; BYTE_EXTRACT (u32 v) 0].
Definition unaligned_16 (v : Z) : list Z := [BYTE_EXTRACT (u16 v) 1; BYTE_EXTRACT (u16 v) 0].

Definition scsi_rw_10 (opcode lba transfer_len : Z) : list Z := [opcode; 0] ++ unaligned_32 lba ++ [0] ++ unaligned_16 transfer_len ++ [0].
Definition scsi_read_capacity_10 : list Z := [SCSI_OPCODE_READ_CAPACITY_10; 0; 0; 0; 0; 0; 0; 0; 0; 0].
Definition scsi_test_unit_ready : list Z := [SCSI_OPCODE_TEST_UNIT_READY; 0; 0; 0; 0; 0].
Definition scsi_request_sense (alloc_length : Z) : list Z := [SCSI_OPCODE_REQUEST_SENSE; 0; 0; 0; u8 alloc_length; 0].
Definition scsi_fill_cmd_inquiry (evpd page_code allocation_length : Z) : list Z :=
  [SCSI_OPCODE_INQUIRY; evpd mod 2; u8 page_code] ++ unaligned_16 allocation_length ++ [0].

Definition MASS_REQUEST_RESET : Z := 0xff.
Definition MASS_REQUEST_GET_MAX_LUN : Z := 0xfe.

Section mass.
Context {B : Type} `{UsbTransport B}.
Abbreviation S := (hcd B).

(** [m->ep_out], [m->ep_in]; following a NULL pointer is undefined. *)
Definition mass_endpoint (m : Z) (dir : Z) : io S ep_ref :=
  c ← get_class m;
  match c with
  | ClassMass _ o i => lift (deref (if dir =? USB_DIRECTION_OUT then o else i))
  | _ => lift Fault
  end.
Definition mass_device (m : Z) : io S Z :=
  c ← get_class m; match c with ClassMass d _ _ => mret d | _ => lift Fault end.

Definition usb_mass_reset_recovery (m : Z) : io S Z :=
  ep ← mass_endpoint m USB_DIRECTION_IN;
  check_err (hcd_endpoint_clear_feature ep USB_ENDPOINT_FEATURE_HALT) (
    ep ← mass_endpoint m USB_DIRECTION_OUT;
    hcd_endpoint_clear_feature ep USB_ENDPOINT_FEATURE_HALT).

Definition usb_mass_reset (m : Z) : io S Z :=
  d ← mass_device m;
  control_out d (raw (UsbRequest USB_RQ_TYPE_CLASS_SET_INTERFACE MASS_REQUEST_RESET 0 0 0)).

(** One pass from the label [retry]: the failed transfer's error, or the status
    block with the byte count of its transfer.  The data buffer is given back. *)
Definition cbw_attempt (m : Z) (cbw : list Z) (data_direction : Z) (data : option (list Z)) (datasz : Z) :
    io S ((Z + list Z * Z) * option (list Z)) :=
  ep ← mass_endpoint m USB_DIRECTION_OUT;
  '(err, _, _) ← hcd_transfer_bulk ep cbw sizeof_cbw;
  if negb (err =? ERR_OK) then mret (inl err, data) else
  '(err, data) ← match data with
    | Some l =>
      if truth datasz then
        ep ← mass_endpoint m (if data_direction =? USB_DIRECTION_OUT then USB_DIRECTION_OUT else USB_DIRECTION_IN);
        '(err, _, l) ← hcd_transfer_bulk ep l datasz;
        mret (err, Some l)
      else mret (ERR_OK, data)
    | None => mret (ERR_OK, data)
    end;
  if negb (err =? ERR_OK) then mret (inl err, data) else
  ep ← mass_endpoint m USB_DIRECTION_IN;
  '(err, num_bytes, status) ← hcd_transfer_bulk ep (repeat 0 13) sizeof_csw;
  if negb (err =? ERR_OK) then mret (inl err, data) else
  mret (inr (status, num_bytes), data).

(** What [usb_cbw_transfer] makes of the status block: the error, and the status stored
    through [csw_status] on success. *)
Definition check_csw (m : Z) (status : list Z) (num_bytes last_tag datasz : Z) : io S (Z * option Z) :=
  if negb (is_csw_valid status num_bytes last_tag) || negb (is_csw_meaningful status datasz) ||
     (csw_status status =? CSW_STATUS_PHASE_ERR) then
    err ← usb_mass_reset_recovery m;
    mret (if negb (err =? ERR_OK) then err else ERR_RETRY, None)
  else mret (ERR_OK, Some (csw_status status)).

(** The loop of the label [retry]; every turn uses up a retry. *)
Fixpoint cbw_loop (retries : nat) (m : Z) (cbw : list Z) (last_tag data_direction : Z) (data : option (list Z)) (datasz : Z) :
    io S (Z * option Z * option (list Z)) :=
  '(r, data) ← cbw_attempt m cbw data_direction data datasz;
  match r with
  | inl err =>
    if err =? ERR_RETRY then
      match retries with
      | O => mret (err, None, data)
      | Datatypes.S n => cbw_loop n m cbw last_tag data_direction data datasz
      end
    else mret (err, None, data)
  | inr (status, num_bytes) => '(err, st) ← check_csw m status num_bytes last_tag datasz; mret (err, st, data)
  end.

Definition cbw_retries : nat := 5.

Definition usb_cbw_transfer (m lun : Z) (cmd : list Z) (data_direction : Z) (data : option (list Z)) (datasz : Z) :
    io S (Z * option Z * option (list Z)) :=
  last_tag ← getv tag;
  _ ← modv (λ s, with_tag s (s32 (tag s + 1)));
  let cmdsz := Z.of_nat (length cmd) in
  _ ← BUG_IF (cmdsz >? 16);
  let c := Cbw CBW_SIGNATURE last_tag datasz (cbw_make_flags data_direction) lun cmdsz (cmd ++ repeat 0 (16 - length cmd)) in
  cbw_loop cbw_retries m (cbw_bytes c) last_tag data_direction data datasz.

(** ** Commands: the error of the transfer, and what it brought *)
Definition usb_mass_read_capacity10 (m lun : Z) : io S (Z * option (list Z)) :=
  '(err, _, param) ← usb_cbw_transfer m lun scsi_read_capacity_10 USB_DIRECTION_IN (Some (repeat 0 8)) 8; mret (err, param).

Definition usb_mass_read10 (m lun : Z) (dst : list Z) (offset size : Z) : io S (Z * option (list Z)) :=
  '(err, _, data) ← usb_cbw_transfer m lun (scsi_rw_10 SCSI_OPCODE_READ_10 (u32 offset / 512) (Z.quot size 512)) USB_DIRECTION_IN (Some dst) size;
  mret (err, data).

(** The offset is used as it is, unlike that of a read. *)
Definition usb_mass_write10 (m lun offset : Z) (data_dst : list Z) (data_sz : Z) : io S Z :=
  '(err, _, _) ← usb_cbw_transfer m lun (scsi_rw_10 SCSI_OPCODE_WRITE_10 offset (Z.quot data_sz 512)) USB_DIRECTION_OUT (Some data_dst) data_sz;
  mret err.

Definition usb_mass_test_unit_ready (m lun : Z) : io S (Z * option Z) :=
  '(err, st, _) ← usb_cbw_transfer m lun scsi_test_unit_ready USB_DIRECTION_IN None 0; mret (err, st).

Definition usb_mass_request_sense (m lun : Z) : io S (Z * option Z) :=
  '(err, st, _) ← usb_cbw_transfer m lun (scsi_request_sense 18) USB_DIRECTION_IN (Some (repeat 0 18)) 18; mret (err, st).

Definition usb_mass_inquiry (m lun : Z) : io S Z :=
  '(err, _, _) ← usb_cbw_transfer m lun (scsi_fill_cmd_inquiry 0 0 36) USB_DIRECTION_IN (Some (repeat 0 128)) 36; mret err.

Definition usb_mass_get_max_lun (d : Z) : io S (Z * Z) :=
  '(err, _, max_lun) ← HCD_TRANSFER_CONTROL d USB_DIRECTION_IN [0] 1 (raw (UsbRequest 0xa1 MASS_REQUEST_GET_MAX_LUN 0 0 1));
  mret (err, byte_at max_lun 0).

Definition usb_mass_read (m : Z) (dst : list Z) (offset size : Z) : io S (Z * option (list Z)) := usb_mass_read10 m 0 dst offset size.

(** ** The class object

    The pool returns NULL when it is exhausted, which [IS_ERR] does not see: the
    class is then written through NULL.  The endpoints of a reused slot stay. *)
Definition usb_hcd_allocate_mass : io S Z :=
  m ← pool_alloc mass_pool;
  if m =? NULL then lift Fault else
  c ← getv (λ s, classes s !! m);
  _ ← put_class m (match c with Some (ClassMass d o i) => ClassMass d o i | _ => ClassMass NULL None None end);
  mret m.
Definition usb_hcd_deallocate_mass (m : Z) : io S unit := pool_release mass_pool m.

Definition set_mass_endpoint (m : Z) (r : ep_ref) : io S unit :=
  ep ← get_endpoint r;
  c ← get_class m;
  match c with
  | ClassMass d o i =>
    put_class m (if usb_endpoint_descriptor_get_direction (ep_descriptor ep) =? USB_DIRECTION_OUT then ClassMass d (Some r) i else ClassMass d o (Some r))
  | _ => lift Fault
  end.

(** The first two endpoints of the first interface.  [inr] is the object, [inl] the error. *)
Definition usb_mass_init_class (d : Z) : io S (Z + Z) :=
  m ← usb_hcd_allocate_mass;
  x ← get_device d;
  i ← (if num_interfaces x <=? 0 then lift Fault else lift (deref (interfaces x !! O)));
  let fail : io S (Z + Z) := _ ← usb_hcd_deallocate_mass m; mret (inl ERR_GENERIC) in
  if endpoint_count (i_descriptor i) <=? 0 then fail else
  _ ← set_mass_endpoint m (EpRef d 0 0);
  if endpoint_count (i_descriptor i) <=? 1 then fail else
  _ ← set_mass_endpoint m (EpRef d 0 1);
  _ ← mass_endpoint m USB_DIRECTION_OUT;
  _ ← mass_endpoint m USB_DIRECTION_IN;
  c ← get_class m;
  _ ← (match c with ClassMass _ o i => put_class m (ClassMass d o i) | _ => lift Fault end);
  _ ← upd_device d (λ x, set_class x m);
  mret (inr m).

(** After an error of a command the code prints for ever. *)
Definition hang_up : io S Z := λ _, NoFuel.
Definition or_hang (m k : io S Z) : io S Z := err ← m; if negb (err =? ERR_OK) then hang_up else k.

Definition usb_mass_init (d : Z) : io S Z :=
  r ← usb_mass_init_class d;
  match r with
  | inl err => hang_up
  | inr m =>
    _ ← usb_mass_reset m;
    or_hang ('(err, _) ← usb_mass_get_max_lun d; mret err) (
    or_hang (usb_mass_inquiry m 0) (
    '(err, st) ← usb_mass_test_unit_ready m 0;
    if negb (err =? ERR_OK) then hang_up else
    _ ← (if default 0 st =? CSW_STATUS_CHECK_CONDITION then '(err, _) ← usb_mass_request_sense m 0; mret err else mret ERR_OK);
    or_hang ('(err, _) ← usb_mass_read_capacity10 m 0; mret err) (mret ERR_OK)))
  end.

Definition usb_hcd_mass_init : io S unit := λ s, σ ← STATIC_SLOT_INIT_FREE (nodes s) (mass_pool s); Ret (tt, with_nodes s σ).
End mass.

(** ** Specification: the transfers of a command

    [out] and [inp] are the bulk endpoints of the disk [m], at the addresses and
    numbers the bus sees. *)
Section session.
Context (oa on ia inn : Z) (rq_in rq_out : Z) (da_in da_out : Z).
Context (block : list Z) (last_tag dir size : Z).
Abbreviation log := (lang_of usb_event).

Definition cbw_event (e n : Z) : usb_event := EvBulk oa on USB_DIRECTION_OUT block 31 e n [].
Definition data_event (b : list Z) (e n : Z) (b' : list Z) : usb_event :=
  if dir =? USB_DIRECTION_OUT then EvBulk oa on USB_DIRECTION_OUT b size e n [] else EvBulk ia inn USB_DIRECTION_IN [] size e n b'.
Definition csw_event (e n : Z) (csw : list Z) : usb_event := EvBulk ia inn USB_DIRECTION_IN [] 13 e n csw.

(** The data stage, if there is one: its error, and the buffer after it. *)
Definition data_stage (data : option (list Z)) (e : Z) (data' : option (list Z)) : log := λ l,
  match data with
  | Some b => if negb (size =? 0)
              then ∃ n b', data' = Some b' ∧ length b' = length b ∧ (dir = USB_DIRECTION_OUT → b' = b) ∧ l = [data_event b e n b']
              else e = ERR_OK ∧ data' = data ∧ l = []
  | None => e = ERR_OK ∧ data' = data ∧ l = []
  end.

(** One attempt: it stops at the first stage that fails, or brings a status block. *)
Inductive attempt (data : option (list Z)) : Z + list Z * Z → option (list Z) → log :=
| attempt_cbw e n : e ≠ ERR_OK → attempt data (inl e) data [cbw_event e n]
| attempt_data e n data' l : e ≠ ERR_OK → data_stage data e data' l → attempt data (inl e) data' (cbw_event ERR_OK n :: l)
| attempt_csw e n data' l n' csw : e ≠ ERR_OK → data_stage data ERR_OK data' l →
    attempt data (inl e) data' (cbw_event ERR_OK n :: l ++ [csw_event e n' csw])
| attempt_done n data' l n' csw : length csw = 13%nat → data_stage data ERR_OK data' l →
    attempt data (inr (csw, n')) data' (cbw_event ERR_OK n :: l ++ [csw_event ERR_OK n' csw]).

(** The halt of both endpoints is cleared; the error if that fails, else [ERR_RETRY]. *)
Inductive recovery : Z → log :=
| recovery_in e n : e ≠ ERR_OK → recovery e [EvControl da_in USB_DIRECTION_OUT rq_in 0 e n []]
| recovery_out e n n' : recovery (if e =? ERR_OK then ERR_RETRY else e)
    [EvControl da_in USB_DIRECTION_OUT rq_in 0 ERR_OK n []; EvControl da_out USB_DIRECTION_OUT rq_out 0 e n' []].

(** The status blocks that answer the command (Bulk-Only Transport, 6.3 and 6.4):
    thirteen bytes that begin with the signature and the command's tag, with a
    residue within the length asked for and the status passed or failed. *)
Definition csw_accepted (csw : list Z) (n : Z) : bool :=
  (n =? 13) && (le_val (take 4 csw) =? 0x53425355) && (le_val (take 4 (drop 4 csw)) =? last_tag mod 2 ^ 32) &&
  (le_val (take 4 (drop 8 csw)) <=? size mod 2 ^ 32) && ((nth 12 csw 0 =? 0) || (nth 12 csw 0 =? 1)).

(** A command with [n] retries left, its error, the status reported, and the data. *)
Inductive session : nat → option (list Z) → Z → option Z → option (list Z) → log :=
| session_retry n data data1 err st data' l1 l2 : attempt data (inl ERR_RETRY) data1 l1 → session n data1 err st data' l2 →
    session (Datatypes.S n) data err st data' (l1 ++ l2)
| session_exhausted data data' l : attempt data (inl ERR_RETRY) data' l → session 0 data ERR_RETRY None data' l
| session_failed n data e data' l : e ≠ ERR_RETRY → attempt data (inl e) data' l → session n data e None data' l
| session_good n data csw k data' l : attempt data (inr (csw, k)) data' l → csw_accepted csw k = true →
    session n data ERR_OK (Some (nth 12 csw 0)) data' l
| session_bad n data csw k err data' l1 l2 : attempt data (inr (csw, k)) data' l1 → csw_accepted csw k = false →
    recovery err l2 → session n data err None data' (l1 ++ l2).
End session.

(** The object [m] and its two endpoints, as the bus sees them. *)
Record disk {B} (m : Z) (od : list Z) (oa on : Z) (idesc : list Z) (ia inn : Z) (da_in da_out : Z) (s : hcd B) : Prop := {
  disk_refs : ∃ d out inp, classes s !! m = Some (ClassMass d (Some out) (Some inp)) ∧
    ep_sig s out = Some (od, oa, on) ∧ ep_sig s inp = Some (idesc, ia, inn) ∧
    dev_addr s (er_device inp) = Some da_in ∧ dev_addr s (er_device out) = Some da_out;
  disk_out : usb_endpoint_descriptor_get_direction od = USB_DIRECTION_OUT;
  disk_in : usb_endpoint_descriptor_get_direction idesc = USB_DIRECTION_IN }.

Lemma disk_pids {B} m od oa on idesc ia inn a b (s s' : hcd B) : pids_only s s' →
  disk m od oa on idesc ia inn a b s → disk m od oa on idesc ia inn a b s'.
Proof.
  intros Hp [(d & out & inp & Hc & Ho & Hi & Ha & Hb) Hdo Hdi]. split; [|done|done]. exists d, out, inp.
  rewrite (pids_only_classes _ _ Hp), !(pids_only_sig _ _ _ Hp), !(pids_only_addr _ _ _ Hp). done.
Qed.

Section session_proof.
Context {B : Type} `{LiveBus B}.
Context (m : Z) (od : list Z) (oa on : Z) (idesc : list Z) (ia inn da_in da_out : Z).
Abbreviation S := (hcd (logged B)).
Abbreviation ok := (disk m od oa on idesc ia inn da_in da_out).

Lemma mass_endpoint_out (s : S) : ok s → ∃ r, mass_endpoint m USB_DIRECTION_OUT s = Ret (r, s) ∧ ep_sig s r = Some (od, oa, on) ∧
  dev_addr s (er_device r) = Some da_out.
Proof.
  intros [(d & out & inp & Hc & Ho & _ & _ & Hb) _ _]. exists out. split; [|done].
  unfold mass_endpoint, get_class, lift, mbind, io_bind. rewrite Hc. done.
Qed.

Lemma mass_endpoint_in (s : S) dir : ok s → dir ≠ USB_DIRECTION_OUT → ∃ r, mass_endpoint m dir s = Ret (r, s) ∧
  ep_sig s r = Some (idesc, ia, inn) ∧ dev_addr s (er_device r) = Some da_in.
Proof.
  intros [(d & out & inp & Hc & _ & Hi & Ha & _) _ _] Hd. exists inp. split; [|done].
  unfold mass_endpoint, get_class, lift, mbind, io_bind. rewrite Hc. cbn. by rewrite (proj2 (Z.eqb_neq _ _) Hd).
Qed.

(** A bulk transfer to the disk, and from it. *)
Lemma bulk_out_does (s : S) buf size {A} (f : Z * Z * list Z → io S A) (Q : A → S → lang_of usb_event) : ok s → size ≤ Z.of_nat (length buf) →
  (∀ e n s', pids_only s s' → ok s' → does (f (e, n, buf)) s' (λ a s'' l, Q a s'' (EvBulk oa on USB_DIRECTION_OUT buf size e n [] :: l))) →
  does (ep ← mass_endpoint m USB_DIRECTION_OUT; x ← hcd_transfer_bulk ep buf size; f x) s Q.
Proof.
  intros Hok Hsz Hf. destruct (mass_endpoint_out s Hok) as (r & E & Hs & _). eapply does_quiet; [exact E|done|].
  eapply does_bind; [by eapply bulk_does|]. intros [[e n] buf'] s' l (Hp & Hlen & Hb & ->). rewrite (disk_out _ _ _ _ _ _ _ _ _ _ Hok) in *.
  rewrite Hb by done. apply Hf; [done|]. by eapply disk_pids.
Qed.

Lemma bulk_in_does (s : S) dir buf size {A} (f : Z * Z * list Z → io S A) (Q : A → S → lang_of usb_event) : ok s → dir ≠ USB_DIRECTION_OUT →
  size ≤ Z.of_nat (length buf) →
  (∀ e n buf' s', pids_only s s' → ok s' → length buf' = length buf →
    does (f (e, n, buf')) s' (λ a s'' l, Q a s'' (EvBulk ia inn USB_DIRECTION_IN [] size e n buf' :: l))) →
  does (ep ← mass_endpoint m dir; x ← hcd_transfer_bulk ep buf size; f x) s Q.
Proof.
  intros Hok Hd Hsz Hf. destruct (mass_endpoint_in s dir Hok Hd) as (r & E & Hs & _). eapply does_quiet; [exact E|done|].
  eapply does_bind; [by eapply bulk_does|]. intros [[e n] buf'] s' l (Hp & Hlen & _ & ->). rewrite (disk_in _ _ _ _ _ _ _ _ _ _ Hok).
  apply Hf; [done|by eapply disk_pids|done].
Qed.

Context (block : list Z) (last_tag dir size : Z) (Hblock : length block = 31%nat).
Abbreviation attempt_ := (attempt oa on ia inn block dir size).

Definition fits (data : option (list Z)) : Prop := match data with Some b => size ≤ Z.of_nat (length b) | None => True end.

(** The data stage as the code has it. *)
Lemma data_stage_does (s : S) (data : option (list Z)) : ok s → fits data →
  does (match data with
    | Some l =>
      if truth size then
        ep ← mass_endpoint m (if dir =? USB_DIRECTION_OUT then USB_DIRECTION_OUT else USB_DIRECTION_IN);
        '(err, _, l) ← hcd_transfer_bulk ep l size;
        mret (err, Some l)
      else mret (ERR_OK, data)
    | None => mret (ERR_OK, data)
    end) s (λ '(e, data') s' l, pids_only s s' ∧ ok s' ∧ fits data' ∧ data_stage oa on ia inn dir size data e data' l).
Proof.
  intros Hok Hfit. unfold data_stage. change (negb (size =? 0)) with (truth size). destruct data as [b|]; [|apply does_ret; done]. cbn in Hfit.
  destruct (truth size); [|apply does_ret; done]. unfold data_event. destruct (Z.eqb_spec dir USB_DIRECTION_OUT) as [->|Hd].
  - apply bulk_out_does; [done|done|]. intros e n s' Hp Hok'. apply does_ret. split_and!; [done|done|done|].
    exists n, b. done.
  - apply bulk_in_does; [done|done|done|]. intros e n b' s' Hp Hok' Hlen. apply does_ret. split_and!; [done|done|cbn; lia|].
    exists n, b'. done.
Qed.

Lemma attempt_does (s : S) (data : option (list Z)) : ok s → fits data →
  does (cbw_attempt m block dir data size) s (λ '(r, data') s' l, pids_only s s' ∧ ok s' ∧ fits data' ∧ attempt_ data r data' l).
Proof.
  intros Hok Hfit. unfold cbw_attempt. apply bulk_out_does; [done|by rewrite Hblock|]. intros e n s1 Hp1 Hok1.
  destruct (Z.eqb_spec e ERR_OK) as [->|He]; cbn [negb]; [|apply does_ret; split_and!; [done..|by constructor]].
  eapply does_bind; [by apply data_stage_does|]. intros [e2 data'] s2 l2 (Hp2 & Hok2 & Hfit2 & Hst).
  assert (pids_only s s2) by (by etransitivity).
  destruct (Z.eqb_spec e2 ERR_OK) as [->|He]; cbn [negb].
  2: { apply does_ret. split_and!; [done..|]. rewrite app_nil_r. by apply attempt_data. }
  apply bulk_in_does; [done|done|done|]. intros e3 k csw s3 Hp3 Hok3 Hlen.
  destruct (Z.eqb_spec e3 ERR_OK) as [->|He]; cbn [negb]; apply does_ret; (split_and!; [by etransitivity|done|done|]).
  - by apply attempt_done.
  - by apply attempt_csw.
Qed.

(** The eight bytes of the request that clears the halt of the endpoint with the
    descriptor [ed], as a little-endian word: recipient endpoint (02), CLEAR_FEATURE
    (01), the feature ENDPOINT_HALT (0), the endpoint's number, and no data. *)
Definition clear_halt_rq (ed : list Z) : Z :=
  2 ^ 32 * (nth 2 ed 0 mod 2 ^ 4) + 0x0102.

Lemma clear_halt_raw ed :
  raw (UsbRequest USB_RQ_TYPE_ENDPOINT_CLEAR_FEATURE USB_RQ_CLEAR_FEATURE (u16 USB_ENDPOINT_FEATURE_HALT) (usb_endpoint_descriptor_get_number ed) 0) =
  clear_halt_rq ed.
Proof.
  unfold clear_halt_rq, usb_endpoint_descriptor_get_number, byte_at. change 0xf with (Z.ones 4). rewrite Z.land_ones by lia.
  unfold raw, request_bytes. cbn [le_bytes le_val app request_type request value index length_].
  unfold USB_RQ_TYPE_ENDPOINT_CLEAR_FEATURE, USB_RQ_CLEAR_FEATURE, USB_ENDPOINT_FEATURE_HALT, u16. dlia.
Qed.

Lemma clear_halt_does (s : S) r ed a n c : ep_sig s r = Some (ed, a, n) → dev_addr s (er_device r) = Some c →
  does (hcd_endpoint_clear_feature r USB_ENDPOINT_FEATURE_HALT) s (λ e s' l, pids_only s s' ∧
    ∃ n, l = [EvControl c USB_DIRECTION_OUT (clear_halt_rq ed) 0 e n []]).
Proof.
  intros Hs Ha. unfold hcd_endpoint_clear_feature.
  eapply (does_quiet _ _ _ (clear_halt_rq ed) s); [|done|].
  - rewrite <- clear_halt_raw. unfold endpoint_rq, get_endpoint, get_device, lift, mbind, io_bind. unfold ep_sig, ep_sig_dev in Hs.
    destruct (devices s !! er_device r) as [x|]; [|done]. cbn in Hs |- *. destruct (interfaces x !! er_interface r) as [i|]; [|done]. cbn in Hs |- *.
    destruct (i_endpoints i !! er_endpoint r) as [e|]; [|done]. cbn in Hs |- *. by injection Hs as <- _ _.
  - unfold control_out. eapply does_bind; [by apply control_does|]. intros [[e k] b] s' l (Hp & _ & _ & ->).
    apply does_ret. split; [done|]. by exists k.
Qed.

Abbreviation recovery_ := (recovery (clear_halt_rq idesc) (clear_halt_rq od) da_in da_out).

Lemma recovery_does (s : S) : ok s → does (usb_mass_reset_recovery m) s
  (λ e s' l, pids_only s s' ∧ recovery_ (if negb (e =? ERR_OK) then e else ERR_RETRY) l).
Proof.
  intros Hok. unfold usb_mass_reset_recovery. destruct (mass_endpoint_in s USB_DIRECTION_IN Hok ltac:(done)) as (r & E & Hs & Ha).
  eapply does_quiet; [exact E|done|]. unfold check_err. eapply does_bind; [by eapply clear_halt_does|].
  intros e s1 l1 (Hp1 & n1 & ->). destruct (Z.eqb_spec e ERR_OK) as [->|He]; cbn [negb].
  - assert (ok s1) as Hok1 by (by eapply disk_pids). destruct (mass_endpoint_out s1 Hok1) as (r' & E' & Hs' & Ha').
    eapply does_quiet; [exact E'|done|]. eapply does_mono; [by eapply clear_halt_does|]. intros e s2 l2 (Hp2 & n2 & ->).
    split; [by etransitivity|]. destruct (e =? ERR_OK) eqn:Ee.
    + apply Z.eqb_eq in Ee as ->. apply (recovery_out _ _ _ _ ERR_OK).
    + cbn [negb]. pose proof (recovery_out (clear_halt_rq idesc) (clear_halt_rq od) da_in da_out e n1 n2) as Hr. by rewrite Ee in Hr.
  - apply does_ret. split; [done|]. rewrite (proj2 (Z.eqb_neq _ _) He). cbn [negb]. by constructor.
Qed.

(** The code's checks are those of the class specification. *)
Lemma csw_accepted_code csw k :
  csw_accepted last_tag size csw k = is_csw_valid csw k last_tag && is_csw_meaningful csw size && negb (csw_status csw =? CSW_STATUS_PHASE_ERR).
Proof.
  unfold csw_accepted, is_csw_valid, is_csw_meaningful, csw_signature, csw_tag, csw_data_residue, csw_status, byte_at.
  change sizeof_csw with 13. change CSW_SIGNATURE with 0x53425355. unfold u32, CSW_STATUS_GOOD, CSW_STATUS_FAILED, CSW_STATUS_PHASE_ERR.
  destruct (k =? 13), (le_val (take 4 csw) =? _), (le_val (take 4 (drop 4 csw)) =? _), (_ <=? _); cbn [andb orb]; try done.
  all: destruct (Z.eqb_spec (nth 12 csw 0) 2) as [->|]; [done|]; cbn [negb]; by rewrite ?orb_false_r, ?andb_true_r, ?andb_false_r.
Qed.

(** What follows a complete attempt. *)
Lemma checked n (s0 s : S) (data data1 : option (list Z)) csw k l1 : pids_only s0 s → ok s → attempt_ data (inr (csw, k)) data1 l1 →
  does ('(err, st) ← check_csw m csw k last_tag size; mret (err, st, data1)) s (λ '(err, st, data') s' l, pids_only s0 s' ∧
    session oa on ia inn (clear_halt_rq idesc) (clear_halt_rq od) da_in da_out block last_tag dir size n data err st data' (l1 ++ l)).
Proof.
  intros Hp Hok Hat. unfold check_csw. destruct (csw_accepted last_tag size csw k) eqn:Ea; pose proof Ea as Ea'; rewrite csw_accepted_code in Ea'.
  - assert (negb (is_csw_valid csw k last_tag) || negb (is_csw_meaningful csw size) || (csw_status csw =? CSW_STATUS_PHASE_ERR) = false) as ->.
    { destruct (is_csw_valid _ _ _), (is_csw_meaningful _ _), (csw_status csw =? _); done. }
    eapply does_quiet; [done|done|]. apply does_ret. rewrite app_nil_r. split; [done|]. by eapply session_good.
  - assert (negb (is_csw_valid csw k last_tag) || negb (is_csw_meaningful csw size) || (csw_status csw =? CSW_STATUS_PHASE_ERR) = true) as ->.
    { destruct (is_csw_valid _ _ _), (is_csw_meaningful _ _), (csw_status csw =? _); done. }
    eapply (does_bind _ _ _ (λ '(e, st) s' l, pids_only s s' ∧ st = None ∧ recovery_ e l)).
    + eapply does_bind; [by apply recovery_does|]. intros e s1 l2 [Hp1 Hr]. apply does_ret. by rewrite app_nil_r.
    + intros [e st] s1 l2 (Hp1 & -> & Hr). apply does_ret. rewrite app_nil_r. split; [by etransitivity|]. by eapply session_bad.
Qed.

Lemma cbw_loop_does n (s : S) (data : option (list Z)) : ok s → fits data →
  does (cbw_loop n m block last_tag dir data size) s (λ '(err, st, data') s' l, pids_only s s' ∧
    session oa on ia inn (clear_halt_rq idesc) (clear_halt_rq od) da_in da_out block last_tag dir size n data err st data' l).
Proof.
  revert s data. induction n as [|n IH]; intros s data Hok Hfit; cbn [cbw_loop];
    (eapply does_bind; [by apply attempt_does|]); intros [[e|[csw k]] data1] s1 l1 (Hp1 & Hok1 & Hfit1 & Hat).
  - destruct (Z.eqb_spec e ERR_RETRY) as [->|He]; apply does_ret; rewrite app_nil_r; (split; [done|]); by constructor.
  - eapply does_mono; [eapply (checked _ s s1 data data1 csw k l1 Hp1 Hok1 Hat)|]. by intros [[err st] data'] s2 l2 ?.
  - destruct (Z.eqb_spec e ERR_RETRY) as [->|He].
    + eapply does_mono; [by apply IH|]. intros [[err st] data'] s2 l2 [Hp2 Hs]. split; [by etransitivity|]. by eapply session_retry.
    + apply does_ret. rewrite app_nil_r. split; [done|]. by constructor.
  - eapply does_mono; [eapply (checked _ s s1 data data1 csw k l1 Hp1 Hok1 Hat)|]. by intros [[err st] data'] s2 l2 ?.
Qed.
End session_proof.

(** The 31 bytes of a command block (Bulk-Only Transport, 5.1). *)
Definition command_block (t datasz dir lun : Z) (cmd : list Z) : list Z :=
  [0x55; 0x53; 0x42; 0x43] ++ le_bytes 4 t ++ le_bytes 4 datasz ++ [128 * (dir mod 2); lun mod 16; Z.of_nat (length cmd)] ++
  cmd ++ repeat 0 (16 - length cmd).

Lemma command_block_bytes t datasz dir lun cmd : (length cmd ≤ 16)%nat →
  cbw_bytes (Cbw CBW_SIGNATURE t datasz (cbw_make_flags dir) lun (Z.of_nat (length cmd)) (cmd ++ repeat 0 (16 - length cmd))) =
  command_block t datasz dir lun cmd.
Proof.
  intros Hc. unfold cbw_bytes, command_block. cbn [cbw_signature cbw_tag cbw_data_length cbw_flags cbw_lun cbw_length cbw_block].
  change (le_bytes 4 CBW_SIGNATURE) with [0x55; 0x53; 0x42; 0x43]. do 3 f_equal.
  rewrite (Z.mod_small (Z.of_nat _)) by lia. unfold cbw_make_flags, u8. change 1 with (Z.ones 1) at 1. rewrite Z.land_ones, Z.shiftl_mul_pow2 by lia.
  do 2 f_equal. dlia.
Qed.

Lemma usb_cbw_transfer_aux {B} `{LiveBus B} m od oa on idesc ia inn da_in da_out (s : hcd (logged B)) lun cmd dir data size :
  disk m od oa on idesc ia inn da_in da_out s → (length cmd ≤ 16)%nat → fits size data →
  does (usb_cbw_transfer m lun cmd dir data size) s (λ '(err, st, data') s' l,
    pids_only (with_tag s (s32 (tag s + 1))) s' ∧
    session oa on ia inn (clear_halt_rq idesc) (clear_halt_rq od) da_in da_out (command_block (tag s) size dir lun cmd) (tag s) dir size
      5 data err st data' l).
Proof.
  intros Hd Hc Hf. unfold usb_cbw_transfer. eapply does_quiet; [done|done|]. eapply does_quiet; [done|done|].
  rewrite Z.gtb_ltb. zdec. eapply does_quiet; [done|done|]. rewrite command_block_bytes by done. apply cbw_loop_does; [| |done].
  - unfold command_block. rewrite !length_app, !le_bytes_length, repeat_length. cbn [length]. lia.
  - destruct Hd as [Hr Ho Hi]. by split.
Qed.

(** C6: On every bus whose transfers end, a SCSI command ends, and the transfers
    it makes are one of its sessions: at most six attempts, each the same 31 bytes
    of command block, then the data stage, then thirteen bytes of status, repeated
    only after a transfer asked for a retry; the command succeeds exactly if a
    status block came back that carries the class's signature and the command's
    tag, leaves no more data than asked for and says passed or failed, and it
    reports that status and the data of that attempt; any other status block
    makes it clear the halt of both endpoints, by number.  The tag is used up,
    and of the devices only PIDs change. *)
Theorem usb_cbw_transfer_session {B} `{LiveBus B} m od oa on idesc ia inn da_in da_out (s : hcd (logged B)) lun cmd dir data size :
  disk m od oa on idesc ia inn da_in da_out s → (length cmd ≤ 16)%nat → fits size data →
  does (usb_cbw_transfer m lun cmd dir data size) s (λ '(err, st, data') s' l,
    pids_only (with_tag s (s32 (tag s + 1))) s' ∧
    session oa on ia inn (clear_halt_rq idesc) (clear_halt_rq od) da_in da_out (command_block (tag s) size dir lun cmd) (tag s) dir size
      5 data err st data' l).
Proof. apply usb_cbw_transfer_aux. Qed.

(** ** Reading *)
Definition be_val (l : list Z) : Z := foldl (λ v b, 2 ^ 8 * v + b) 0 l.

Lemma unaligned_32_be v : be_val (unaligned_32 v) = u32 v.
Proof.
  unfold unaligned_32, be_val, BYTE_EXTRACT, u8. cbn [foldl]. change 0xff with (Z.ones 8).
  rewrite !Z.land_ones, !Z.shiftr_div_pow2 by lia. pose proof (u32_range v). set (w := u32 v) in *. dlia.
Qed.

Lemma unaligned_16_be v : be_val (unaligned_16 v) = u16 v.
Proof.
  unfold unaligned_16, be_val, BYTE_EXTRACT, u8. cbn [foldl]. change 0xff with (Z.ones 8).
  rewrite !Z.land_ones, !Z.shiftr_div_pow2 by lia. pose proof (u16_range v). set (w := u16 v) in *. dlia.
Qed.

Lemma attempt_length oa on ia inn block dir size data r data' l :
  attempt oa on ia inn block dir size data r data' l → length <$> data' = length <$> data.
Proof.
  assert (∀ e data' l, data_stage oa on ia inn dir size data e data' l → length <$> data' = length <$> data) as Hst.
  { intros e d l'. unfold data_stage. destruct data as [b|]; [|by intros (_ & -> & _)]. destruct (negb (size =? 0)); [|by intros (_ & -> & _)].
    intros (n & b' & -> & Hl & _). cbn. by rewrite Hl. }
  destruct 1; eauto.
Qed.

(** A disk with the bytes [contents], seen from the bus: a command block for a READ
    makes it send the sectors in the next transfer from it, and report success in
    the one after that.  A command block drops the command before it, and a transfer that
    fails leaves the disk in any phase.  A disk that is not [steady] may miss a
    command, say because it is still busy with an older one: then it sends
    whatever it has, and status blocks of any kind but with the signature and the
    tag of the command it missed.  After a block that is no READ of its sectors,
    or a transfer of another size than it has to send, nothing is known about what
    it sends. *)
Section flash.
Context (contents : list Z) (oa on ia inn : Z) (steady : bool).

Inductive disk_phase := Ready | Sending (tag lba count : Z) | Reporting (tag : Z) | Missed (tag : Z) | Confused.

(** The tag, first sector and number of sectors of a READ(10), from its block: 31
    bytes with the signature, a length of as many bytes as the sectors have, the
    direction towards the host, unit 0, and a command of at least 10 bytes with the
    operation code 28, whose sector and count have their highest byte first. *)
Definition decode_read (b : list Z) : option (Z * Z * Z) :=
  let count := be_val (take 2 (drop 22 b)) in
  if bool_decide (length b = 31%nat) && bool_decide (take 4 b = [0x55; 0x53; 0x42; 0x43]) &&
     (le_val (take 4 (drop 8 b)) =? 512 * count) && (nth 12 b 0 =? 0x80) && (nth 13 b 0 =? 0) && (10 <=? nth 14 b 0) && (nth 15 b 0 =? 0x28)
  then Some (le_val (take 4 (drop 4 b)), be_val (take 4 (drop 17 b)), count) else None.

Definition bytes_of (first size : Z) : list Z := take (Z.to_nat size) (drop (Z.to_nat first) contents).

Definition disk_step (ph : disk_phase) (ev : usb_event) (ph' : disk_phase) : Prop :=
  match ev with
  | EvControl _ _ _ _ _ _ _ => ph' = ph
  | EvBulk a n d sent len e k got =>
    if negb (e =? 0) then True
    else if (a =? oa) && (n =? on) && (d =? 0) then
      match decode_read sent with
      | Some (tag, lba, count) =>
        if (len =? 31) && (512 * (lba + count) <=? Z.of_nat (length contents)) then ph' = Sending tag lba count ∨ steady = false ∧ ph' = Missed tag
        else ph' = Confused
      | None => ph' = Confused
      end
    else if (a =? ia) && (n =? inn) then
      match ph with
      | Sending tag lba count =>
        if len =? 512 * count then take (Z.to_nat len) got = bytes_of (512 * lba) len ∧ ph' = Reporting tag else ph' = Confused
      | Reporting tag =>
        if len =? 13 then k = 13 ∧ got = [0x55; 0x53; 0x42; 0x53] ++ le_bytes 4 tag ++ [0; 0; 0; 0] ++ [0] ∧ ph' = Ready else ph' = Confused
      | Missed tag => ph' = Missed tag ∧ (len = 13 → ¬ (le_val (take 4 got) = 0x53425355 ∧ le_val (take 4 (drop 4 got)) = tag))
      | Ready | Confused => ph' = Confused
      end
    else ph' = ph
  end.

Inductive disk_trace : disk_phase → list usb_event → disk_phase → Prop :=
| trace_nil ph : disk_trace ph [] ph
| trace_cons ph ev ph1 l ph2 : disk_step ph ev ph1 → disk_trace ph1 l ph2 → disk_trace ph (ev :: l) ph2.

Lemma disk_trace_app ph l1 l2 ph' : disk_trace ph (l1 ++ l2) ph' → ∃ ph1, disk_trace ph l1 ph1 ∧ disk_trace ph1 l2 ph'.
Proof.
  revert ph. induction l1 as [|ev l1 IH]; intros ph; cbn [app]; [intros H; exists ph; by split; [constructor|]|].
  intros H. inversion H as [|? ? ph1 ? ? Hs Ht]; subst. destruct (IH _ Ht) as (ph2 & H1 & H2). exists ph2. split; [by econstructor|done].
Qed.
End flash.

(** The errors of the transfers that failed. *)
Definition event_err (ev : usb_event) : Z := match ev with EvControl _ _ _ _ e _ _ => e | EvBulk _ _ _ _ _ e _ _ => e end.
Definition troubles (l : list usb_event) : list Z := filter (λ e, e ≠ 0) (map event_err l).

Lemma troubles_app l1 l2 : troubles (l1 ++ l2) = troubles l1 ++ troubles l2.
Proof. unfold troubles. by rewrite map_app, filter_app. Qed.

(** The block that asks for [count] sectors from [lba]. *)
Definition read_block (tag lba count : Z) : list Z := command_block tag (512 * count) 1 0 (scsi_rw_10 SCSI_OPCODE_READ_10 lba count).

Lemma decode_read_block tag lba count : 0 ≤ lba < 2 ^ 32 → 0 ≤ count < 2 ^ 16 →
  decode_read (read_block tag lba count) = Some (u32 tag, lba, count).
Proof.
  intros Hl Hc. unfold decode_read, read_block, command_block, scsi_rw_10. rewrite app_assoc.
  pose proof (le_val_bytes 4 tag) as Ht. pose proof (le_val_bytes 4 (512 * count)) as Hd.
  pose proof (unaligned_32_be lba) as Hu. pose proof (unaligned_16_be count) as Hv.
  rewrite u32_id in Hu by done. rewrite u16_id in Hv by done. unfold unaligned_32, unaligned_16 in *.
  cbn [le_bytes app length repeat take drop nth Nat.sub] in *. rewrite Ht, Hd, Hu, Hv.
  rewrite !bool_decide_eq_true_2 by done. cbn [andb]. change (8 * Z.of_nat 4) with 32. rewrite (Z.mod_small (512 * count)), Z.eqb_refl by lia. done.
Qed.

(** After a recovery the command has failed. *)
Lemma recovery_fails rq_in rq_out da_in da_out err l : recovery rq_in rq_out da_in da_out err l → err ≠ ERR_OK.
Proof. intros [e n He|e n n']; [done|]. destruct (Z.eqb_spec e ERR_OK); done. Qed.

Section reading.
Context (contents : list Z) (oa on ia inn : Z) (steady : bool) (rq_in rq_out da_in da_out : Z).
Context (tag lba count : Z) (Hl : 0 ≤ lba < 2 ^ 32) (Hc : 0 < count < 2 ^ 16) (Hin : 512 * (lba + count) ≤ Z.of_nat (length contents)).
Abbreviation runs := (disk_trace contents oa on ia inn steady).
Abbreviation sector_bytes := (bytes_of contents (512 * lba) (512 * count)).

Lemma read_stage e b data' l : data_stage oa on ia inn 1 (512 * count) (Some b) e data' l →
  ∃ n b', data' = Some b' ∧ length b' = length b ∧ l = [EvBulk ia inn USB_DIRECTION_IN [] (512 * count) e n b'].
Proof.
  unfold data_stage, data_event. rewrite (proj2 (Z.eqb_neq (512 * count) 0)) by lia. cbn [negb].
  intros (n & b' & -> & Hb & _ & ->). by exists n, b'.
Qed.

(** What a disk does with the command, the data and the status. *)
Lemma disk_serves ph ph' n n' k buf csw :
  runs ph [EvBulk oa on 0 (read_block tag lba count) 31 0 n []; EvBulk ia inn 1 [] (512 * count) 0 n' buf; EvBulk ia inn 1 [] 13 0 k csw] ph' →
  take (Z.to_nat (512 * count)) buf = sector_bytes ∧ k = 13 ∧ csw = [0x55; 0x53; 0x42; 0x53] ++ le_bytes 4 (u32 tag) ++ [0; 0; 0; 0] ++ [0] ∨
  steady = false ∧ csw_accepted tag (512 * count) csw k = false.
Proof.
  intros H. inversion H as [|? ? ph1 ? ? H1 T1]; subst. inversion T1 as [|? ? ph2 ? ? H2 T2]; subst. inversion T2 as [|? ? ph3 ? ? H3 _]; subst.
  unfold disk_step in *. rewrite !Z.eqb_refl in *. cbn [negb andb Z.eqb] in *. rewrite decode_read_block in H1 by lia.
  rewrite (proj2 (Z.leb_le _ _) Hin) in H1. rewrite andb_false_r in H2, H3. cbn in H1.
  destruct H1 as [-> | [Hst ->]]; [left|right; split; [exact Hst|]].
  - rewrite Z.eqb_refl in H2. destruct H2 as [Hb ->]. by destruct H3 as (-> & -> & _).
  - destruct H2 as [-> _]. destruct H3 as [_ Hcsw]. specialize (Hcsw eq_refl). unfold csw_accepted.
    destruct (Z.eqb_spec (le_val (take 4 csw)) 0x53425355) as [E1|]; [|by rewrite andb_false_r].
    destruct (Z.eqb_spec (le_val (take 4 (drop 4 csw))) (tag mod 2 ^ 32)) as [E2|]; [|by rewrite andb_false_r]. by exfalso; apply Hcsw.
Qed.

(** An attempt over the disk fails with the error of its one failing transfer, or
    brings the sectors and a status that is accepted; one that missed the command
    sends none that is. *)
Lemma attempt_disk ph ph' b r data' l : attempt oa on ia inn (read_block tag lba count) 1 (512 * count) (Some b) r data' l → runs ph l ph' →
  match r with
  | inl e => troubles l = [e]
  | inr (csw, k) => troubles l = [] ∧
    (csw_accepted tag (512 * count) csw k = true ∧ (∃ buf, data' = Some buf ∧ take (Z.to_nat (512 * count)) buf = sector_bytes) ∨
     steady = false ∧ csw_accepted tag (512 * count) csw k = false)
  end.
Proof.
  intros Ha Hr. destruct Ha as [e n He|e n data' l He Hst|e n data' l n' csw He Hst|n data' l n' csw Hlen Hst];
    [|apply read_stage in Hst as (n2 & b' & -> & _ & ->); unfold troubles, cbw_event, csw_event; cbn [map event_err app]..].
  1: unfold troubles; cbn [map event_err cbw_event].
  1-3: rewrite ?(filter_cons_False _ ERR_OK) by (by intros []); rewrite filter_cons_True by done; done.
  destruct (disk_serves _ _ _ _ _ _ _ Hr) as [(Hb & -> & ->)|Hmiss]; [split; [done|left; split; [|by exists b']]|split; [done|by right]].
  unfold csw_accepted. pose proof (le_val_bytes 4 (u32 tag)) as Ht. pose proof (u32_range tag). change (8 * Z.of_nat 4) with 32 in Ht.
  rewrite (Z.mod_small (u32 tag)) in Ht by done. cbn [le_bytes app take drop nth] in *. rewrite Ht. unfold u32. rewrite !Z.eqb_refl.
  rewrite (proj2 (Z.leb_le _ _)); [done|]. cbn [le_val]. dlia.
Qed.

(** A session over the disk brings the sectors when it succeeds, and succeeds when
    no more transfers fail than it has retries. *)
Lemma session_disk ph ph' n b err st data' l :
  session oa on ia inn rq_in rq_out da_in da_out (read_block tag lba count) tag 1 (512 * count) n (Some b) err st data' l → runs ph l ph' →
  (err = ERR_OK → ∃ buf, data' = Some buf ∧ length buf = length b ∧ take (Z.to_nat (512 * count)) buf = sector_bytes) ∧
  (steady = true → Forall (λ e, e = ERR_RETRY) (troubles l) → (length (troubles l) ≤ n)%nat → err = ERR_OK).
Proof.
  intros Hs. remember (Some b) as data eqn:Ed. revert ph b Ed.
  induction Hs as [n data data1 err st data' l1 l2 Ha Hs IH|data data' l Ha|n data e data' l He Ha|n data csw k data' l Ha Hacc|
    n data csw k err data' l1 l2 Ha Hacc Hr]; intros ph b -> Hr0; pose proof (attempt_length _ _ _ _ _ _ _ _ _ _ _ Ha) as Hlen.
  - apply disk_trace_app in Hr0 as (ph1 & H1 & H2). pose proof (attempt_disk _ _ _ _ _ _ Ha H1) as Ht. cbn in Ht.
    destruct data1 as [b1|]; [|done]. cbn in Hlen. destruct (IH ph1 b1 eq_refl H2) as [Hok Hend].
    split; [intros He; destruct (Hok He) as (buf & -> & Hb & Hk); exists buf; split_and!; [done|congruence|done]|].
    rewrite troubles_app, Ht. intros Hst Hf Hn. apply Hend; [done|by inversion Hf|]. cbn in Hn. lia.
  - split; [done|]. pose proof (attempt_disk _ _ _ _ _ _ Ha Hr0) as ->. cbn. lia.
  - pose proof (attempt_disk _ _ _ _ _ _ Ha Hr0) as ->. split; [|intros _ Hf; by inversion Hf].
    intros ->. inversion Ha; congruence.
  - destruct (attempt_disk _ _ _ _ _ _ Ha Hr0) as (_ & [(_ & buf & -> & Hb)|[_ Hno]]); [|congruence]. split; [|done]. intros _. exists buf. cbn in Hlen.
    split_and!; [done|congruence|done].
  - apply disk_trace_app in Hr0 as (ph1 & H1 & _). destruct (attempt_disk _ _ _ _ _ _ Ha H1) as (_ & [[Hacc' _]|[-> _]]); [congruence|]. split; [|done].
    intros ->. by apply recovery_fails in Hr.
Qed.
End reading.

(** C15: A read of whole sectors of a disk ends, on every bus whose transfers end.
    Whatever transfers fail on the way, and also where the disk misses the command
    and answers with data and status blocks of another, if the disk at the
    endpoints is one with the bytes [contents], and the range lies on it, then a
    read that reports success has brought the bytes of the range to the front of
    the buffer; and it reports success if the disk is steady and at most five
    transfers failed, each with a request to retry.
    Of the devices only PIDs change, and one tag is used. *)
Theorem usb_mass_read_reads {B} `{LiveBus B} m od oa on idesc ia inn da_in da_out (s : hcd (logged B)) contents dst offset size :
  disk m od oa on idesc ia inn da_in da_out s → 0 ≤ offset < 2 ^ 32 → 0 < size < 2 ^ 25 → size ≤ Z.of_nat (length dst) →
  offset mod 512 = 0 → size mod 512 = 0 → offset + size ≤ Z.of_nat (length contents) →
  does (usb_mass_read m dst offset size) s (λ '(err, data) s' l, pids_only (with_tag s (s32 (tag s + 1))) s' ∧
    ∀ steady ph ph', disk_trace contents oa on ia inn steady ph l ph' →
      (err = ERR_OK → ∃ buf, data = Some buf ∧ length buf = length dst ∧
        take (Z.to_nat size) buf = take (Z.to_nat size) (drop (Z.to_nat offset) contents)) ∧
      (steady = true → Forall (λ e, e = ERR_RETRY) (troubles l) → (length (troubles l) ≤ 5)%nat → err = ERR_OK)).
Proof.
  intros Hd Ho Hs Hdst Hom Hsm Hin. unfold usb_mass_read, usb_mass_read10. rewrite (u32_id offset), Z.quot_div_nonneg by lia.
  eapply does_bind; [apply (usb_cbw_transfer_aux m od oa on idesc ia inn da_in da_out); [done|cbn; lia|exact Hdst]|].
  intros [[err st] data'] s' l [Hp Hses]. apply does_ret. rewrite app_nil_r. split; [done|]. intros steady ph ph' Hr.
  assert (offset = 512 * (offset / 512)) as Eo by dlia. assert (size = 512 * (size / 512)) as Es by dlia.
  set (lba := offset / 512) in *. set (count := size / 512) in *. rewrite Es in Hses.
  destruct (session_disk contents oa on ia inn steady _ _ _ _ (tag s) lba count ltac:(lia) ltac:(lia) ltac:(lia) _ _ _ _ _ _ _ _ Hses Hr) as [Hok Hend].
  split; [|done]. intros He. rewrite Es, Eo. exact (Hok He).
Qed.

(** A disk with the bulk endpoints 2 (to the disk) and 1 (from it). *)
Definition demo_disk : usb_hcd_device :=
  set_interfaces zero_device 1 [Interface [9; 4; 0; 0; 2; 8; 6; 80; 0]
    [Endpoint [7; 5; 0x02; 2; 0; 2; 0] (UsbPipe 4 0 2 2 0 512 0 0 0); Endpoint [7; 5; 0x81; 2; 0; 2; 0] (UsbPipe 4 0 1 2 1 512 0 0 0)]].
Definition demo_mass (l : list (Z * list Z)) : hcd (logged script_bus) :=
  HcdState (LoggedBus (ScriptBus l) []) {[ 100 := demo_disk ]} {[ 500 := ClassMass 100 (Some (EpRef 100 0 0)) (Some (EpRef 100 0 1)) ]} ∅ ∅
    (SlotPool 0 0 []) (SlotPool 0 0 []) (SlotPool 0 0 []) (SlotPool 0 0 []) (SlotPool 0 0 []) 0 0 1 7.

Lemma demo_disk_ok l : disk 500 [7; 5; 0x02; 2; 0; 2; 0] 4 2 [7; 5; 0x81; 2; 0; 2; 0] 4 1 0 0 (demo_mass l).
Proof. split; [|done|done]. by exists 100, (EpRef 100 0 0), (EpRef 100 0 1). Qed.

(** The status block of tag 7. *)
Definition demo_csw (st : Z) : list Z := [0x55; 0x53; 0x42; 0x53; 7; 0; 0; 0; 0; 0; 0; 0; st].

(** The first command block is refused once, then the disk answers. *)
Lemma usb_cbw_transfer_session_witness :
  does (usb_cbw_transfer 500 0 scsi_test_unit_ready USB_DIRECTION_IN None 0) (demo_mass [(ERR_RETRY, []); (ERR_OK, []); (ERR_OK, demo_csw 0)])
    (λ '(err, st, data') s' l, err = ERR_OK ∧ st = Some CSW_STATUS_GOOD).
Proof.
  pose proof (usb_cbw_transfer_session 500 _ _ _ _ _ _ _ _ (demo_mass [(ERR_RETRY, []); (ERR_OK, []); (ERR_OK, demo_csw 0)]) 0
    scsi_test_unit_ready USB_DIRECTION_IN None 0 (demo_disk_ok _) ltac:(cbn; lia) I) as (((err & st) & data') & s' & l & E & El & _).
  exists (err, st, data'), s', l. split; [exact E|]. split; [exact El|].
  apply (f_equal (λ o, match o with Ret ((e, t, _), _) => (e, t) | _ => (1, None) end)) in E. vm_compute in E. by injection E as <- <-.
Defined.

(** A disk of two sectors, of which the second is read; the first command block is
    refused once. *)
Definition demo_sector : list Z := repeat 0x5a 512.
Definition demo_contents : list Z := repeat 0x11 512 ++ demo_sector.
Definition demo_read : hcd (logged script_bus) :=
  demo_mass [(ERR_RETRY, []); (ERR_OK, []); (ERR_OK, demo_sector); (ERR_OK, demo_csw 0)].

Lemma demo_trace : disk_trace demo_contents 4 2 4 1 true Ready
  [EvBulk 4 2 0 (read_block 7 1 1) 31 ERR_RETRY 31 []; EvBulk 4 2 0 (read_block 7 1 1) 31 ERR_OK 31 [];
   EvBulk 4 1 1 [] 512 ERR_OK 512 demo_sector; EvBulk 4 1 1 [] 13 ERR_OK 13 (demo_csw 0)] Ready.
Proof.
  apply (trace_cons _ _ _ _ _ _ _ _ Ready); [done|]. apply (trace_cons _ _ _ _ _ _ _ _ (Sending 7 1 1)); [left; by vm_compute|].
  apply (trace_cons _ _ _ _ _ _ _ _ (Reporting 7)); [by vm_compute|]. apply (trace_cons _ _ _ _ _ _ _ _ Ready); [by vm_compute|]. constructor.
Qed.

Lemma usb_mass_read_reads_witness :
  does (usb_mass_read 500 (repeat 0 512) 512 512) demo_read (λ '(err, data) s' l, err = ERR_OK ∧ data = Some demo_sector ∧ length l = 4%nat).
Proof.
  pose proof (usb_mass_read_reads 500 _ _ _ _ _ _ _ _ demo_read demo_contents (repeat 0 512) 512 512
    (demo_disk_ok _) ltac:(lia) ltac:(lia) ltac:(by rewrite repeat_length) eq_refl eq_refl ltac:(by vm_compute)) as ((err & data) & s' & l & E & El & _ & H).
  exists (err, data), s', l. split; [exact E|]. split; [exact El|].
  assert (l = [EvBulk 4 2 0 (read_block 7 1 1) 31 ERR_RETRY 31 []; EvBulk 4 2 0 (read_block 7 1 1) 31 ERR_OK 31 [];
    EvBulk 4 1 1 [] 512 ERR_OK 512 demo_sector; EvBulk 4 1 1 [] 13 ERR_OK 13 (demo_csw 0)]) as ->.
  { apply (f_equal (λ o, match o with Ret (_, s) => lb_log (bus s) | _ => [] end)) in E. change (log_of s' = log_of demo_read ++ l) in El. change (lb_log (bus s')) with (log_of s') in E. rewrite El in E. change (log_of demo_read) with (@nil usb_event) in E. cbn [app] in E. rewrite <- E. by vm_compute. }
  destruct (H _ _ _ demo_trace) as [Hok Hend]. specialize (Hend eq_refl ltac:(by repeat constructor) ltac:(apply Nat.leb_le; by vm_compute)) as ->.
  destruct (Hok eq_refl) as (buf & -> & Hl & Hb). split_and!; [done| |done]. f_equal.
  rewrite repeat_length in Hl. rewrite take_ge in Hb by (rewrite Hl; done). rewrite Hb. by vm_compute.
Defined.
