(* ===== verification/HcdHid.v ===== *)
(** * HID devices (board/bcm2835/usb/hcd_hid.c)

    The report descriptor of every HID interface is read and parsed (Hid.v). *)

From S2P Require Import Prelude Lists Mmio Dwc2 UsbTypes Hcd Hid.

Section hcd_hid.
Context {B : Type} `{UsbTransport B}.
Abbreviation S := (hcd B).

(** The buffer is filled with 0xff first; a length beyond it overruns it. *)
Definition usb_hid_get_desc (d hid_index : Z) (descriptor_buf : list Z) (descriptor_length : Z) : io S (Z * list Z) :=
  let n := Z.to_nat descriptor_length in
  buf ← lift (blit descriptor_buf (repeat 0xff n));
  '(err, _, buf) ← HCD_TRANSFER_CONTROL d USB_DIRECTION_IN buf descriptor_length
    (USB_DEV_RQ_MAKE USB_RQ_TYPE_GET_INTERFACE USB_RQ_GET_DESCRIPTOR (Z.shiftl USB_DESCRIPTOR_TYPE_HID_REPORT 8) hid_index descriptor_length);
  mret (err, buf).

Definition usb_hid_set_idle (d idx : Z) : io S Z :=
  control_out d (USB_DEV_RQ_MAKE USB_RQ_TYPE_CLASS_SET_INTERFACE USB_RQ_HID_SET_IDLE 0 0 0).

Definition hid_buffer_size : nat := 256.

(** The result is the error of the last interface. *)
Definition usb_hid_enumerate (fuel : nat) (d : Z) : io S Z := λ s,
  x ← deref (devices s !! d);
  let h := class x in
  pos ← list_first_entry (nodes s) (hid_interfaces_head h);
  loop fuel (λ '(s, pos, buf, hid_index, err),
    if pos =? hid_interfaces_head h then Ret (inr (err, s)) else
    desc ← deref (hid_descriptors s !! node_hid_interface pos);
    let desc_length := hid_descriptor_length desc in
    '((err, buf), s) ← usb_hid_get_desc d hid_index buf desc_length s;
    _ ← (if err =? ERR_OK then _ ← usb_hid_parse_report_descriptor (Z.to_nat desc_length + 1) (mem_of 0 buf) 0 desc_length; Ret tt else Ret tt);
    pos ← get_next (nodes s) pos;
    Ret (inl (s, pos, buf, hid_index + 1, err))) (s, pos, repeat 0xfc hid_buffer_size, 0, ERR_OK).

Definition usb_hcd_deallocate_hid (h : Z) : io S unit := pool_release hid_pool h.
Definition usb_hcd_hid_init : io S unit := λ s,
  σ ← STATIC_SLOT_INIT_FREE (nodes s) (hid_pool s);
  σ ← STATIC_SLOT_INIT_FREE σ (hid_interface_pool s); Ret (tt, with_nodes s σ).
End hcd_hid.
