(* ===== verification/Hub.v ===== *)
(** * USB hubs (board/bcm2835/usb/hcd_hub.c, include/drivers/usb/hcd_hub.h)

    Ports are powered, reset and enumerated by requests to the hub.  The
    enumeration of a port is a state machine with a bounded number of resets; a
    hub found on a port is enumerated in turn. *)

From S2P Require Import Prelude Lists Mmio Dwc2 UsbTypes Hcd HcdHid Mass.

Definition REQUEST_PROCESS_TIMEOUT : Z := 5000.
Definition MAX_RESET_RETRIES : Z := 3.
Definition HUB_PORT_RESET_STATUS_SUCCESS : Z := 0.
Definition HUB_PORT_RESET_STATUS_TIMEOUT : Z := 1.
Definition HUB_PORT_RESET_STATUS_ERROR : Z := 2.

(** What else the code depends on: the clock, and the value of an [int] that was
    never assigned ([usb_hub_port_clear_changed] and [usb_hcd_configure_class]
    return one when they have nothing to do). *)
Class HubEnv (B : Type) : Type := {
  get_boottime_msec : io B Z;
  unassigned_int : io B Z }.

Definition hub_port_status_to_speed (st : usb_hub_port_status) : Z :=
  if high_speed st then USB_SPEED_HIGH else if low_speed st then USB_SPEED_LOW else USB_SPEED_FULL.

(** The states of the enumeration of a port. *)
Inductive enum_state :=
| ENUM_STATE_STABILIZATION_DEBOUNCE
| ENUM_STATE_FIRST_PORT_RESET
| ENUM_STATE_FIRST_DESCRIPTOR_REQUEST
| ENUM_STATE_SECOND_PORT_RESET
| ENUM_STATE_SET_ADDRESS
| ENUM_STATE_SECOND_DESCRIPTOR_REQUEST
| ENUM_STATE_CONFIGURATION_DESCRIPTOR_REQUEST
| ENUM_STATE_CONFIGURE_CLASS
| ENUM_STATE_REPORT_TO_TREE.

Section hub.
Context {B : Type} `{UsbTransport B} `{!HubEnv B}.
Abbreviation S := (hcd B).

Definition on_bus {A} (m : io B A) : io S A := λ s, '(a, b) ← m (bus s); Ret (a, with_bus s b).

(** [h->d] and [h->descriptor]. *)
Definition hub_device (h : Z) : io S Z := c ← get_class h; match c with ClassHub d _ => mret d | _ => lift Fault end.
Definition hub_descriptor (h : Z) : io S (list Z) := c ← get_class h; match c with ClassHub _ l => mret l | _ => lift Fault end.
Definition hub_port_count (h : Z) : io S Z := l ← hub_descriptor h; mret (port_count l).

(** ** Requests: [HUBFN] *)
Definition HUBFN (h dir rq_type rq rq_value rq_index rq_size : Z) (buf : list Z) : io S (Z * list Z) :=
  d ← hub_device h;
  '(err, num_bytes, buf) ← HCD_TRANSFER_CONTROL d dir buf rq_size (USB_DEV_RQ_MAKE rq_type rq rq_value rq_index rq_size);
  mret (if negb (err =? ERR_OK) then ERR_GENERIC else if negb (num_bytes =? rq_size) then ERR_GENERIC else err, buf).

Definition hub_rq (h rq_type rq rq_value rq_index : Z) : io S Z :=
  '(err, _) ← HUBFN h USB_DIRECTION_OUT rq_type rq rq_value rq_index 0 []; mret err.
Definition usb_hub_set_feature (h feature : Z) : io S Z := hub_rq h USB_RQ_TYPE_HUB_SET_HUB_FEATURE USB_RQ_SET_FEATURE feature 0.
Definition usb_hub_clear_feature (h feature : Z) : io S Z := hub_rq h USB_RQ_TYPE_HUB_SET_HUB_FEATURE USB_RQ_CLEAR_FEATURE feature 0.
Definition usb_hub_get_status (h : Z) : io S (Z * list Z) :=
  HUBFN h USB_DIRECTION_IN USB_RQ_TYPE_HUB_GET_HUB_STATUS USB_RQ_GET_STATUS 0 0 4 [0; 0; 0; 0].

(** Ports count from 0 here and from 1 on the bus. *)
Definition BASE0_TO_BASE1 (port : Z) : Z := port + 1.
Definition usb_hub_port_set_feature (h port feature : Z) : io S Z :=
  hub_rq h USB_RQ_TYPE_HUB_SET_PORT_FEATURE USB_RQ_SET_FEATURE feature (BASE0_TO_BASE1 port).
Definition usb_hub_port_clear_feature (h port feature : Z) : io S Z :=
  hub_rq h USB_RQ_TYPE_HUB_SET_PORT_FEATURE USB_RQ_CLEAR_FEATURE feature (BASE0_TO_BASE1 port).
Definition usb_hub_port_get_status (h port : Z) (st : usb_hub_port_status) : io S (Z * usb_hub_port_status) :=
  '(err, buf) ← HUBFN h USB_DIRECTION_IN USB_RQ_TYPE_HUB_GET_PORT_STATUS USB_RQ_GET_STATUS 0 (BASE0_TO_BASE1 port) sizeof_port_status
    (port_status_bytes st);
  mret (err, port_status_of buf).
Definition usb_hub_port_power_on (h port : Z) : io S Z := usb_hub_port_set_feature h port USB_HUB_FEATURE_PORT_POWER.
Definition usb_hub_port_power_off (h port : Z) : io S Z := usb_hub_port_clear_feature h port USB_HUB_FEATURE_PORT_POWER.

(** ** The hub object *)
Definition usb_hcd_hub_create : io S Z :=
  h ← pool_alloc hub_pool;
  if h =? NULL then mret NULL else
  c ← getv (λ s, classes s !! h);
  _ ← put_class h (ClassHub (match c with Some (ClassHub d _) => d | _ => NULL end) (repeat 0 9));
  _ ← on_nodes (λ σ, INIT_LIST_HEAD σ (hub_children_head h));
  mret h.

Definition usb_hcd_hub_destroy (fuel : nat) (h : Z) : io S unit :=
  _ ← (λ s : S, s ← list_for_each_entry_safe nodes fuel (hub_children_head h)
    (λ s x, '(_, s) ← (_ ← on_nodes (λ σ, list_del_init σ x); usb_hcd_deallocate_device fuel (node_hub_child x)) s; Ret s) s; Ret (tt, s));
  pool_release hub_pool h.

(** The first child at [port]; [NULL] if there is none. *)
Definition usb_hub_get_device_at_port (fuel : nat) (h port : Z) : io S Z := λ s,
  pos ← list_first_entry (nodes s) (hub_children_head h);
  loop fuel (λ pos,
    if pos =? hub_children_head h then Ret (inr (NULL, s)) else
    x ← deref (devices s !! node_hub_child pos);
    if hub_port x =? port then Ret (inr (node_hub_child pos, s)) else
    pos ← get_next (nodes s) pos; Ret (inl pos)) pos.

Definition hub_port_status_updated (d : Z) (st : usb_hub_port_status) : io S unit := hcd_device_set_speed d (hub_port_status_to_speed st).

(** ** Status changes *)
Fixpoint clear_changes (h port : Z) (l : list (bool * Z)) (err : io S Z) : io S Z :=
  match l with
  | [] => err
  | (true, feature) :: l =>
    e ← usb_hub_port_clear_feature h port feature;
    if negb (e =? ERR_OK) then mret e else clear_changes h port l (mret e)
  | (false, _) :: l => clear_changes h port l err
  end.
(** The change bits and the features that clear them. *)
Definition change_features (st : usb_hub_port_status) : list (bool * Z) :=
  [(connected_changed st, USB_HUB_FEATURE_CONNECTION_CHANGE); (enabled_changed st, USB_HUB_FEATURE_ENABLE_CHANGE);
   (suspended_changed st, USB_HUB_FEATURE_SUSPEND_CHANGE); (overcurrent_changed st, USB_HUB_FEATURE_OVERCURRENT_CHANGE);
   (reset_changed st, USB_HUB_FEATURE_RESET_CHANGE)].
Definition usb_hub_port_clear_changed (h port : Z) (st : usb_hub_port_status) : io S Z :=
  clear_changes h port (change_features st) (on_bus unassigned_int).

Definition usb_hub_read_port_status (h port : Z) (clear_change : bool) (st : usb_hub_port_status) : io S (Z * usb_hub_port_status) :=
  '(err, st) ← usb_hub_port_get_status h port st;
  if negb (err =? ERR_OK) then mret (err, st) else
  if clear_change then err ← usb_hub_port_clear_changed h port st; mret (err, st) else mret (err, st).

Definition usb_hub_read_all_port_status (h : Z) : io S Z :=
  l ← hub_descriptor h;
  foldl (λ (m : io S Z) port, _ ← m; '(err, _) ← usb_hub_read_port_status h port false (PortStatus 0 0); mret err)
    (on_bus unassigned_int) (seqZ 0 (port_count l)).

(** ** Reset

    The result is a reset status.  The loop goes on only after the time-out is
    over, so that it is left after the first turn in practice. *)
Definition port_reset_turn (h port : Z) (port_dev : Z) (tnow : Z) (st : usb_hub_port_status) : io S (option Z * usb_hub_port_status) :=
  let failed (st : usb_hub_port_status) : io S (option Z * usb_hub_port_status) := mret (Some HUB_PORT_RESET_STATUS_ERROR, st) in
  '(err, st) ← usb_hub_read_port_status h port true st;
  if negb (err =? ERR_OK) then failed st else
  if enabled_changed st || reset st || enabled st then
    '(err, st) ← (if reset st then
        err ← usb_hub_port_clear_feature h port USB_HUB_FEATURE_RESET;
        if negb (err =? ERR_OK) then mret (err, st) else usb_hub_read_port_status h port true st
      else mret (ERR_OK, st));
    if negb (err =? ERR_OK) then failed st else
    err ← (if enabled_changed st then usb_hub_port_clear_feature h port USB_HUB_FEATURE_ENABLE_CHANGE else mret ERR_OK);
    if negb (err =? ERR_OK) then failed st else
    _ ← (if port_dev =? NULL then mret tt else hub_port_status_updated port_dev st);
    '(err, st) ← usb_hub_read_port_status h port true st;
    if negb (err =? ERR_OK) then failed st else
    _ ← BUG_IF (reset st);
    mret (Some HUB_PORT_RESET_STATUS_SUCCESS, st)
  else
    now ← on_bus get_boottime_msec;
    mret (if tnow + REQUEST_PROCESS_TIMEOUT <? now then None else Some HUB_PORT_RESET_STATUS_TIMEOUT, st).

Definition port_reset_loop (fuel : nat) (h port port_dev tnow : Z) : io S Z := λ s,
  loop fuel (λ '(s, st), '((o, st), s) ← port_reset_turn h port port_dev tnow st s;
    Ret (match o with None => inl (s, st) | Some r => inr (r, s) end)) (s, PortStatus 0 0).

Definition usb_hub_port_reset (fuel : nat) (h port port_dev : Z) : io S Z :=
  err ← usb_hub_port_set_feature h port USB_HUB_FEATURE_RESET;
  if negb (err =? ERR_OK) then mret HUB_PORT_RESET_STATUS_ERROR else
  tnow ← on_bus get_boottime_msec;
  port_reset_loop fuel h port port_dev tnow.

(** ** Power

    The result is the error and [*connected].  Errors while waiting do not end
    the wait; the last one counts. *)
Definition powering_loop (fuel : nat) (h port tnow delay_msec : Z) : io S (Z * usb_hub_port_status) := λ s,
  loop fuel (λ '(s, st),
    '((err, st), s) ← usb_hub_read_port_status h port true st s;
    if connected st then Ret (inr ((err, st), s)) else
    '(now, s) ← on_bus get_boottime_msec s;
    if now <? tnow + delay_msec then Ret (inl (s, st)) else Ret (inr ((err, st), s))) (s, PortStatus 0 0).

Definition usb_hub_port_ensure_powered (fuel : nat) (h port port_dev : Z) : io S (Z * bool) :=
  l ← hub_descriptor h;
  let delay_msec := power_good_delay l * 2 + 510 in
  '(err, st) ← usb_hub_read_port_status h port true (PortStatus 0 0);
  if negb (err =? ERR_OK) then mret (err, false) else
  '(err, stop, st) ← (if negb (powered st) && negb (connected st) then
      tnow ← on_bus get_boottime_msec;
      err ← usb_hub_port_power_on h port;
      if negb (err =? ERR_OK) then mret (err, true, st) else
      '(err, st) ← powering_loop fuel h port tnow delay_msec; mret (err, false, st)
    else mret (err, false, st));
  if stop : bool then mret (err, connected st) else
  _ ← (if err =? ERR_OK then
      _ ← upd_device port_dev (λ x, set_state x USB_DEVICE_STATE_POWERED);
      hub_port_status_updated port_dev st
    else mret tt);
  mret (err, connected st).

(** ** Enumeration of a port

    [configure] is [usb_hcd_configure_class].  A time-out of either reset goes back to the first reset. *)
Section enumerate.
Context (configure : Z → io S Z) (fuel : nat).

(** One turn of the state machine: the next state with the number of retries, or
    the end with an error. *)
Definition enum_next (m : io S Z) (next : enum_state) (num_retries : Z) : io S (enum_state * Z + Z) :=
  err ← m; mret (if negb (err =? ERR_OK) then inr err else inl (next, num_retries)).
Definition enum_reset (h port port_dev : Z) (next : enum_state) (num_retries : Z) : io S (enum_state * Z + Z) :=
  rst_status ← usb_hub_port_reset fuel h port port_dev;
  mret (if rst_status =? HUB_PORT_RESET_STATUS_ERROR then inr ERR_GENERIC
        else if rst_status =? HUB_PORT_RESET_STATUS_TIMEOUT then
          if num_retries =? MAX_RESET_RETRIES then inr ERR_TIMEOUT else inl (ENUM_STATE_FIRST_PORT_RESET, num_retries + 1)
        else inl (next, num_retries)).

Definition enum_turn (h port port_dev : Z) (st : enum_state) (num_retries : Z) : io S (enum_state * Z + Z) :=
  match st with
  | ENUM_STATE_STABILIZATION_DEBOUNCE =>
    '(err, connected) ← usb_hub_port_ensure_powered fuel h port port_dev;
    if negb (err =? ERR_OK) then mret (inr err) else
    if connected : bool then mret (inl (ENUM_STATE_FIRST_PORT_RESET, num_retries)) else
    _ ← usb_hcd_deallocate_device fuel port_dev; mret (inr ERR_OK)
  | ENUM_STATE_FIRST_PORT_RESET => enum_reset h port port_dev ENUM_STATE_FIRST_DESCRIPTOR_REQUEST num_retries
  | ENUM_STATE_FIRST_DESCRIPTOR_REQUEST => enum_next (usb_hcd_get_descriptor_first port_dev) ENUM_STATE_SECOND_PORT_RESET num_retries
  | ENUM_STATE_SECOND_PORT_RESET => enum_reset h port port_dev ENUM_STATE_SET_ADDRESS num_retries
  | ENUM_STATE_SET_ADDRESS => enum_next (usb_hcd_to_addressed_state port_dev) ENUM_STATE_SECOND_DESCRIPTOR_REQUEST num_retries
  | ENUM_STATE_SECOND_DESCRIPTOR_REQUEST =>
    enum_next (usb_hcd_get_descriptor_second port_dev) ENUM_STATE_CONFIGURATION_DESCRIPTOR_REQUEST num_retries
  | ENUM_STATE_CONFIGURATION_DESCRIPTOR_REQUEST =>
    enum_next (usb_hcd_to_configured_state fuel port_dev) ENUM_STATE_CONFIGURE_CLASS num_retries
  | ENUM_STATE_CONFIGURE_CLASS => enum_next (configure port_dev) ENUM_STATE_REPORT_TO_TREE num_retries
  | ENUM_STATE_REPORT_TO_TREE =>
    _ ← on_nodes (λ σ, list_add σ (dev_hub_children port_dev) (hub_children_head h)); mret (inr ERR_OK)
  end.

(** The states, run to the end; a failed port gives its device back. *)
Fixpoint enum_loop (turns : nat) (h port port_dev : Z) (st : enum_state) (num_retries : Z) : io S Z :=
  match turns with
  | O => λ _, NoFuel
  | Datatypes.S n =>
    r ← enum_turn h port port_dev st num_retries;
    match r with inl (st, num_retries) => enum_loop n h port port_dev st num_retries | inr err => mret err end
  end.

(** Nine states, and at most three turns for each of three retries. *)
Definition enum_turns : nat := 19.

Definition usb_hub_enumerate_port (h port : Z) : io S Z :=
  o ← usb_hcd_allocate_device;
  port_dev ← lift (deref o);
  d ← hub_device h;
  _ ← upd_device port_dev (λ x, set_location x d port);
  err ← enum_loop enum_turns h port port_dev ENUM_STATE_STABILIZATION_DEBOUNCE 0;
  _ ← (if negb (err =? ERR_OK) then usb_hcd_deallocate_device fuel port_dev else mret tt);
  mret err.

(** A hub has at most 255 ports. *)
Definition port_fuel : nat := 256.

(** The error is that of the last port; a time-out is none. *)
Fixpoint enumerate_ports_loop (n : nat) (h port err : Z) : io S Z :=
  match n with
  | O => λ _, NoFuel
  | Datatypes.S n =>
    count ← hub_port_count h;
    if count <=? port then mret err else
    err ← usb_hub_enumerate_port h port;
    enumerate_ports_loop n h (port + 1) (if err =? ERR_TIMEOUT then ERR_OK else err)
  end.
Definition usb_hub_enumerate_ports (h : Z) : io S Z :=
  '(err, _) ← usb_hub_get_status h;
  enumerate_ports_loop port_fuel h 0 err.

Definition usb_hub_enumerate (d : Z) : io S Z :=
  h ← usb_hcd_hub_create;
  if h =? NULL then mret ERR_BUSY else
  _ ← put_class h (ClassHub d (repeat 0 9));
  _ ← upd_device d (λ x, set_class x h);
  '(err, desc) ← GET_DESC d USB_DESCRIPTOR_TYPE_HUB 0 0 (repeat 0 9);
  _ ← put_class h (ClassHub d desc);
  err ← (if negb (err =? ERR_OK) then mret err else
    '(err, _) ← usb_hub_get_status h;
    if negb (err =? ERR_OK) then mret err else usb_hub_enumerate_ports h);
  _ ← (if negb (err =? ERR_OK) then
      _ ← upd_device d (λ x, set_class x NULL);
      usb_hcd_hub_destroy fuel h
    else mret tt);
  mret err.
End enumerate.

(** [usb_hcd_configure_class] of hcd.c; [depth] bounds the hubs behind hubs. *)
Definition usb_hcd_get_interface_class (x : usb_hcd_device) (n : nat) : Z :=
  if num_interfaces x <=? Z.of_nat n then -1 else default (-1) (interface_class ∘ i_descriptor <$> interfaces x !! n).
Fixpoint usb_hcd_configure_class (depth fuel : nat) (d : Z) : io S Z :=
  match depth with
  | O => λ _, NoFuel
  | Datatypes.S n =>
    x ← get_device d;
    c ← (if class x =? NULL then mret None else c ← get_class (class x); mret (Some c));
    if device_class (descriptor x) =? USB_INTERFACE_CLASS_HUB then usb_hub_enumerate (usb_hcd_configure_class n fuel) fuel d
    else if default false ((λ c, device_class_of c =? USB_HCD_DEVICE_CLASS_HID) <$> c) then usb_hid_enumerate fuel d
    else if usb_hcd_get_interface_class x 0 =? USB_INTERFACE_CLASS_MASSSTORAGE then _ ← usb_mass_init d; on_bus unassigned_int
    else on_bus unassigned_int
  end.

(** ** Changes at a port of a hub in use

    The status of the reset is taken for an error. *)
Definition connected_speed (x : usb_hcd_device) (hub_addr port : Z) (st : usb_hub_port_status) : usb_hcd_device :=
  let p := set_pipe_speed (pipe0 x) (hub_port_status_to_speed st) in
  set_pipe0 x (if negb (high_speed st) then set_pipe_ls_hub p hub_addr port else p).

Definition usb_hub_port_connected (fuel : nat) (h port : Z) : io S Z :=
  '(err, st) ← usb_hub_port_get_status h port (PortStatus 0 0);
  if negb (err =? ERR_OK) then mret err else
  check_err (usb_hub_port_clear_feature h port USB_HUB_FEATURE_CONNECTION_CHANGE) (
  check_err (usb_hub_port_reset fuel h port NULL) (
    o ← usb_hcd_allocate_device;
    port_dev ← lift (deref o);
    d ← hub_device h;
    hub ← get_device d;
    _ ← upd_device port_dev (λ x, set_location (set_state x USB_DEVICE_STATE_POWERED) d port);
    '(err, st) ← usb_hub_port_get_status h port st;
    if negb (err =? ERR_OK) then _ ← usb_hcd_deallocate_device fuel port_dev; mret err else
    _ ← upd_device port_dev (λ x, connected_speed x (address hub) port st);
    _ ← on_nodes (λ σ, list_add σ (dev_hub_children port_dev) (hub_children_head h));
    mret ERR_OK)).

Definition usb_hub_port_disconnected (fuel : nat) (h port : Z) : io S Z :=
  '(err, _) ← usb_hub_port_get_status h port (PortStatus 0 0);
  _ ← BUG_IF (negb (err =? ERR_OK));
  err ← usb_hub_port_clear_feature h port USB_HUB_FEATURE_CONNECTION_CHANGE;
  _ ← BUG_IF (negb (err =? ERR_OK));
  port_dev ← usb_hub_get_device_at_port fuel h port;
  _ ← BUG_IF (port_dev =? NULL);
  _ ← usb_hcd_deallocate_device fuel port_dev;
  mret err.

Definition usb_hub_port_check_connection (fuel : nat) (h port : Z) : io S Z :=
  '(err, st) ← usb_hub_port_get_status h port (PortStatus 0 0);
  if negb (err =? ERR_OK) then mret err else
  check_err (if connected_changed st then
      if connected st then usb_hub_port_connected fuel h port else usb_hub_port_disconnected fuel h port
    else mret ERR_OK)
  (clear_changes h port (drop 1 (change_features st)) (mret ERR_OK)).

(** A port that fails is skipped. *)
Fixpoint probe_ports_loop (n fuel : nat) (h port err : Z) : io S Z :=
  match n with
  | O => λ _, NoFuel
  | Datatypes.S n =>
    count ← hub_port_count h;
    if count <=? port then mret err else
    _ ← usb_hub_port_check_connection fuel h port;
    probe_ports_loop n fuel h (port + 1) ERR_OK
  end.
Definition usb_hub_probe_ports (fuel : nat) (h : Z) : io S Z :=
  err ← on_bus unassigned_int; probe_ports_loop port_fuel fuel h 0 err.

Definition usb_hcd_hub_init : io S unit := λ s, σ ← STATIC_SLOT_INIT_FREE (nodes s) (hub_pool s); Ret (tt, with_nodes s σ).
End hub.

(** ** Termination of the enumeration

    Every turn goes on to a later state, or counts a retry. *)
Section termination.
Context {B : Type} `{UsbTransport B} `{!HubEnv B}.
Context (configure : Z → io (hcd B) Z) (fuel : nat) (h port port_dev : Z).
Abbreviation turn := (enum_turn configure fuel h port port_dev).
Abbreviation run := (λ n, enum_loop configure fuel n h port port_dev).

Definition enum_rank (st : enum_state) : Z :=
  match st with
  | ENUM_STATE_STABILIZATION_DEBOUNCE => 9
  | ENUM_STATE_FIRST_PORT_RESET => 8
  | ENUM_STATE_FIRST_DESCRIPTOR_REQUEST => 7
  | ENUM_STATE_SECOND_PORT_RESET => 6
  | ENUM_STATE_SET_ADDRESS => 5
  | ENUM_STATE_SECOND_DESCRIPTOR_REQUEST => 4
  | ENUM_STATE_CONFIGURATION_DESCRIPTOR_REQUEST => 3
  | ENUM_STATE_CONFIGURE_CLASS => 2
  | ENUM_STATE_REPORT_TO_TREE => 1
  end.
Definition enum_measure (st : enum_state) (num_retries : Z) : Z := enum_rank st + 3 * (MAX_RESET_RETRIES - num_retries).

Lemma enum_next_inl (m : io (hcd B) Z) next k s st' k' s' : enum_next m next k s = Ret (inl (st', k'), s') → st' = next ∧ k' = k.
Proof. unfold enum_next, mbind, io_bind. destruct (m s) as [[e s1]| | |]; cbn; [|done..]. by destruct (e =? ERR_OK); intros [= <- <- <-]. Qed.

Lemma enum_reset_inl next k s st' k' s' : enum_reset fuel h port port_dev next k s = Ret (inl (st', k'), s') →
  (st' = next ∧ k' = k) ∨ (st' = ENUM_STATE_FIRST_PORT_RESET ∧ k' = k + 1 ∧ k ≠ MAX_RESET_RETRIES).
Proof.
  unfold enum_reset, mbind, io_bind. destruct (usb_hub_port_reset _ _ _ _ s) as [[e s1]| | |]; cbn; [|done..].
  destruct (e =? HUB_PORT_RESET_STATUS_ERROR); [done|]. destruct (e =? HUB_PORT_RESET_STATUS_TIMEOUT); [|intros [= <- <- <-]; by left].
  destruct (Z.eqb_spec k MAX_RESET_RETRIES); [done|]. intros [= <- <- <-]. by right.
Qed.

Lemma enum_turn_decreases st k s st' k' s' : turn st k s = Ret (inl (st', k'), s') → k ≤ MAX_RESET_RETRIES →
  k' ≤ MAX_RESET_RETRIES ∧ enum_measure st' k' < enum_measure st k.
Proof.
  unfold enum_measure, MAX_RESET_RETRIES. intros E Hk. destruct st; cbn [enum_turn] in E;
    try (apply enum_next_inl in E as [-> ->]; cbn; lia);
    try (apply enum_reset_inl in E as [[-> ->]|(-> & -> & ?)]; unfold MAX_RESET_RETRIES in *; cbn; lia).
  - unfold mbind, io_bind in E. destruct (usb_hub_port_ensure_powered _ _ _ _ s) as [[[e c] s1]| | |]; cbn in E; [|done..].
    destruct (negb (e =? ERR_OK)); [done|]. destruct c; [injection E as <- <- <-; cbn; lia|].
    by destruct (usb_hcd_deallocate_device _ _ _) as [[[] s2]| | |].
  - unfold mbind, io_bind in E. by destruct (on_nodes _ s) as [[[] s2]| | |].
Qed.

(** The states a run goes through, with what it comes to.  A turn that does not
    come to a next state ends the run: with an error code, or because the turn
    itself panics, faults or never ends. *)
Inductive enum_path : enum_state → Z → hcd B → list enum_state → outcome (Z * hcd B) → Prop :=
| path_next st k s st' k' s' l o : turn st k s = Ret (inl (st', k'), s') → enum_path st' k' s' l o → enum_path st k s (st :: l) o
| path_end st k s err s' : turn st k s = Ret (inr err, s') → enum_path st k s [st] (Ret (err, s'))
| path_panic st k s : turn st k s = Panic → enum_path st k s [st] Panic
| path_fault st k s : turn st k s = Fault → enum_path st k s [st] Fault
| path_waits st k s : turn st k s = NoFuel → enum_path st k s [st] NoFuel.

(** The order of the states: one after the other, or back to the first reset from a
    reset that timed out. *)
Definition goes_on (a b : enum_state) : bool :=
  match a, b with
  | ENUM_STATE_STABILIZATION_DEBOUNCE, ENUM_STATE_FIRST_PORT_RESET
  | ENUM_STATE_FIRST_PORT_RESET, (ENUM_STATE_FIRST_PORT_RESET | ENUM_STATE_FIRST_DESCRIPTOR_REQUEST)
  | ENUM_STATE_FIRST_DESCRIPTOR_REQUEST, ENUM_STATE_SECOND_PORT_RESET
  | ENUM_STATE_SECOND_PORT_RESET, (ENUM_STATE_FIRST_PORT_RESET | ENUM_STATE_SET_ADDRESS)
  | ENUM_STATE_SET_ADDRESS, ENUM_STATE_SECOND_DESCRIPTOR_REQUEST
  | ENUM_STATE_SECOND_DESCRIPTOR_REQUEST, ENUM_STATE_CONFIGURATION_DESCRIPTOR_REQUEST
  | ENUM_STATE_CONFIGURATION_DESCRIPTOR_REQUEST, ENUM_STATE_CONFIGURE_CLASS
  | ENUM_STATE_CONFIGURE_CLASS, ENUM_STATE_REPORT_TO_TREE => true
  | _, _ => false
  end.
Fixpoint in_order (l : list enum_state) : bool :=
  match l with a :: (b :: _) as l => goes_on a b && in_order l | _ => true end.
Definition is_first_reset (st : enum_state) : bool := match st with ENUM_STATE_FIRST_PORT_RESET => true | _ => false end.
Definition first_resets (l : list enum_state) : nat := length (List.filter is_first_reset l).
Definition may_succeed (st : enum_state) : bool :=
  match st with ENUM_STATE_STABILIZATION_DEBOUNCE | ENUM_STATE_REPORT_TO_TREE => true | _ => false end.

Lemma enum_turn_order st k s st' k' s' : turn st k s = Ret (inl (st', k'), s') → goes_on st st' = true.
Proof.
  intros E. destruct st; cbn [enum_turn] in E; try (by apply enum_next_inl in E as [-> _]);
    try (by apply enum_reset_inl in E as [[-> _]|(-> & _)]).
  - unfold mbind, io_bind in E. destruct (usb_hub_port_ensure_powered _ _ _ _ s) as [[[e c] s1]| | |]; cbn in E; [|done..].
    destruct (negb (e =? ERR_OK)); [done|]. destruct c; [by injection E as <- _ _|].
    by destruct (usb_hcd_deallocate_device _ _ _) as [[[] s2]| | |].
  - unfold mbind, io_bind in E. by destruct (on_nodes _ s) as [[[] s2]| | |].
Qed.

Lemma enum_turn_success st k s s' : turn st k s = Ret (inr ERR_OK, s') → may_succeed st = true.
Proof.
  assert (∀ m next, enum_next m next k s = Ret (inr ERR_OK, s') → False) as Hn.
  { intros m next. unfold enum_next, mbind, io_bind. destruct (m s) as [[e s1]| | |]; cbn; [|done..].
    destruct (Z.eqb_spec e ERR_OK); [done|]. by intros [= ? _]. }
  assert (∀ next, enum_reset fuel h port port_dev next k s = Ret (inr ERR_OK, s') → False) as Hr.
  { intros next. unfold enum_reset, mbind, io_bind. destruct (usb_hub_port_reset _ _ _ _ s) as [[e s1]| | |]; cbn; [|done..].
    by repeat case_match; intros [=]. }
  by intros E; destruct st; cbn [enum_turn] in E; try (by apply Hn in E); try (by apply Hr in E).
Qed.

(** The first resets that are left in a state. *)
Definition resets_left (st : enum_state) (k : Z) : Z := (if 8 <=? enum_rank st then 1 else 0) + (MAX_RESET_RETRIES - k).

Lemma enum_turn_moves st k s st' k' s' : turn st k s = Ret (inl (st', k'), s') → 0 ≤ k ≤ MAX_RESET_RETRIES →
  0 ≤ k' ≤ MAX_RESET_RETRIES ∧ (if is_first_reset st then 1 else 0) + resets_left st' k' ≤ resets_left st k.
Proof.
  unfold resets_left, MAX_RESET_RETRIES. intros E Hk. destruct st; cbn [enum_turn] in E;
    try (apply enum_next_inl in E as [-> ->]; cbn; lia);
    try (apply enum_reset_inl in E as [[-> ->]|(-> & -> & ?)]; unfold MAX_RESET_RETRIES in *; cbn; lia).
  - unfold mbind, io_bind in E. destruct (usb_hub_port_ensure_powered _ _ _ _ s) as [[[e c] s1]| | |]; cbn in E; [|done..].
    destruct (negb (e =? ERR_OK)); [done|]. destruct c; [injection E as <- <- <-; cbn; lia|].
    by destruct (usb_hcd_deallocate_device _ _ _) as [[[] s2]| | |].
  - unfold mbind, io_bind in E. by destruct (on_nodes _ s) as [[[] s2]| | |].
Qed.

Lemma enum_run_path n : ∀ st k s, 0 ≤ k ≤ MAX_RESET_RETRIES → enum_measure st k ≤ Z.of_nat n →
  ∃ l, enum_path st k s (st :: l) (run n st k s) ∧ Z.of_nat (length (st :: l)) ≤ enum_measure st k ∧ in_order (st :: l) = true ∧
    Z.of_nat (first_resets (st :: l)) ≤ resets_left st k ∧
    (∀ s', run n st k s = Ret (ERR_OK, s') → ∃ x, last (st :: l) = Some x ∧ may_succeed x = true).
Proof.
  induction n as [|n IH]; intros st k s Hk Hm.
  { exfalso. unfold enum_measure, MAX_RESET_RETRIES in *. destruct st; cbn in Hm; lia. }
  assert (1 ≤ enum_measure st k ∧ Z.of_nat (first_resets [st]) ≤ resets_left st k) as [H1 H0].
  { unfold enum_measure, resets_left, MAX_RESET_RETRIES in *. destruct st; cbn in *; lia. }
  cbn [enum_loop]. unfold mbind, io_bind. destruct (turn st k s) as [[[[st' k']|err] s']| | |] eqn:E; cbn [mbind outcome_bind].
  - destruct (enum_turn_decreases _ _ _ _ _ _ E ltac:(lia)) as [_ Hlt]. destruct (enum_turn_moves _ _ _ _ _ _ E Hk) as [Hk' Hres].
    destruct (IH st' k' s' Hk' ltac:(lia)) as (l & Hp & Hlen & Hord & Hfr & Hok). exists (st' :: l).
    split; [by eapply path_next|]. split; [cbn [length] in *; lia|].
    split; [cbn [in_order] in *; by rewrite (enum_turn_order _ _ _ _ _ _ E)|].
    split; [|exact Hok]. unfold first_resets in *. cbn [List.filter] in *. destruct (is_first_reset st); cbn [length] in *; lia.
  - exists []. split; [by eapply path_end|]. split; [cbn; lia|]. split; [done|]. split; [done|].
    intros s'' [= -> ->]. exists st. split; [done|]. by eapply enum_turn_success.
  - exists []. split; [by apply path_panic|]. split; [cbn; lia|]. by split.
  - exists []. split; [by apply path_fault|]. split; [cbn; lia|]. by split.
  - exists []. split; [by apply path_waits|]. split; [cbn; lia|]. by split.
Qed.

(** C32: The state machine that enumerates a hub port makes at most 18 turns,
    whatever the port, its device and the bus answer.  A run goes through the
    states in their order, back to the first reset only after a reset that timed
    out, and enters the first reset at most four times; it comes to an error code,
    or to what a turn of it comes to that panics, faults or waits for ever (the
    loops inside a turn that wait for power and for a reset end by the clock, and
    are not part of the statement).  It reports success only from its last state,
    or from the first, where the port turned out to have no device. *)
Theorem enum_loop_terminates s :
  let start := ENUM_STATE_STABILIZATION_DEBOUNCE in
  ∃ l, enum_path start 0 s (start :: l) (run enum_turns start 0 s) ∧ (length (start :: l) ≤ 18)%nat ∧ in_order (start :: l) = true ∧
    (first_resets (start :: l) ≤ 4)%nat ∧
    (∀ s', run enum_turns start 0 s = Ret (ERR_OK, s') → ∃ x, last (start :: l) = Some x ∧ may_succeed x = true).
Proof.
  intros start. destruct (enum_run_path enum_turns start 0 s) as (l & Hp & Hlen & Hord & Hfr & Hok).
  - unfold MAX_RESET_RETRIES. lia.
  - by vm_compute.
  - exists l. assert (enum_measure start 0 = 18 ∧ resets_left start 0 = 4) as [Em Er] by done. rewrite Em in Hlen. rewrite Er in Hfr.
    split; [exact Hp|]. split; [lia|]. split; [exact Hord|]. split; [lia|exact Hok].
Qed.
End termination.

(** A bus that refuses every transfer: the run is over after its first turn. *)
Module hub_witness.
#[local] Instance refusing_bus : UsbTransport unit := {|
  bus_control _ _ buf _ _ := λ b, Ret (XferResult ERR_GENERIC 0 buf 0, b); bus_bulk _ _ buf _ := λ b, Ret (XferResult ERR_GENERIC 0 buf 0, b) |}.
#[local] Instance still_clock : HubEnv unit := {| get_boottime_msec := λ b, Ret (0, b); unassigned_int := λ b, Ret (0, b) |}.
Definition hub0 : hcd unit :=
  HcdState tt {[ 100 := zero_device ]} {[ 500 := ClassHub 100 [9; 41; 1; 0; 0; 100; 0; 2; 0x1b] ]} ∅ ∅
    (SlotPool 0 0 []) (SlotPool 0 0 []) (SlotPool 0 0 []) (SlotPool 0 0 []) (SlotPool 0 0 []) 0 0 1 0.

Lemma enum_loop_terminates_witness : ∃ l s',
  enum_path (λ _, mret ERR_OK) 5 500 0 100 ENUM_STATE_STABILIZATION_DEBOUNCE 0 hub0 (ENUM_STATE_STABILIZATION_DEBOUNCE :: l) (Ret (ERR_GENERIC, s')) ∧
  (length l ≤ 17)%nat.
Proof.
  destruct (enum_loop_terminates (B := unit) (λ _, mret ERR_OK) 5 500 0 100 hub0) as (l & Hp & Hl & _).
  destruct (enum_loop _ _ _ _ _ _ _ _ hub0) as [[e s']| | |] eqn:E; [|by vm_compute in E..].
  exists l, s'. cbn [length] in Hl. split; [|lia].
  apply (f_equal (λ o, match o with Ret (e, _) => e | _ => 0 end)) in E. vm_compute in E. by subst e.
Defined.
End hub_witness.
