(* ===== verification/SpiEmu.v ===== *)
(** * Emulated SPI (spi/spi_emulated.c)

    SPI over GPIO pins: the master drives clock and data pin by pin, the slave
    samples the level register.  Both sides are translated, and the main theorem
    runs one against the other. *)

From S2P Require Import Prelude Lists Exceptions Mmio GpioSet Gpio Trace.

Definition SPI_ERR_NOT_INITIALIZED : Z := -3.
Definition SPI_EMU_MODE_MASTER : Z := 0.
Definition SPI_EMU_MODE_SLAVE : Z := 1.
Definition SPIDEV_MAXNAMELEN : nat := 15.
Definition ERR_NOT_IMPLEMENTED : Z := -3.
Definition GPIO_PULLUPDOWN_EN_PULLDOWN : Z := 1.

(** A device; [ops] is [None] until the transfer functions are set. *)
Record spi_emulated_dev := SpiDev {
  name : list Z; ops : option Z;
  sclk_gpio_pin : Z; mosi_gpio_pin : Z; miso_gpio_pin : Z; ce0_gpio_pin : Z; ce1_gpio_pin : Z;
  clk_half_period : Z; gpio_set_handle : Z; gpio_set_key : list Z; mode : Z }.
Definition zero_spi_dev : spi_emulated_dev := SpiDev [] None 0 0 0 0 0 0 0 [] 0.

(** ** Transfers

    Half-periods are waits and have no effect on the pins.  [unassigned k] is the
    value of the variable [c] for bit [k] when nothing is stored to it. *)
Section xmit.
Context {D : Type} `{Mmio D} (unassigned : Z → Z).
Implicit Types d : spi_emulated_dev.

Definition gpio_read_level_reg (gpio_num : Z) : io D Z := read_reg (GPIO_REG_GPLEV0 + Z.shiftl (Z.shiftr gpio_num 5) 2).

Definition unless_unused (pin : Z) (m : io D unit) : io D unit := if pin =? -1 then mret tt else m.
Definition set_pin (pin : Z) (v : bool) : io D unit := _ ← (if v then gpio_set_on else gpio_set_off) (u32 pin); mret tt.

Definition spi_emulated_ce0_set d : io D unit := unless_unused (ce0_gpio_pin d) (set_pin (ce0_gpio_pin d) true).
Definition spi_emulated_ce0_clear d : io D unit := unless_unused (ce0_gpio_pin d) (set_pin (ce0_gpio_pin d) false).

Definition PULSE_SCLK d (bit_out : Z) : io D Z :=
  _ ← set_pin (sclk_gpio_pin d) true;
  bit_out ← (if miso_gpio_pin d =? -1 then mret bit_out else gpio_is_set (miso_gpio_pin d));
  _ ← set_pin (sclk_gpio_pin d) false;
  mret bit_out.

Definition spi_emulated_xmit_bit d (bit_in bit_out : Z) : io D Z :=
  _ ← unless_unused (mosi_gpio_pin d) (set_pin (mosi_gpio_pin d) (truth bit_in));
  PULSE_SCLK d bit_out.

(** Bits [n - 1] to 0 of [byte_in], shifted into [out]. *)
Fixpoint xmit_bits (n : nat) d (byte_in out : Z) : io D Z :=
  match n with
  | O => mret out
  | S k =>
    c ← spi_emulated_xmit_bit d (Z.land (Z.shiftr byte_in (Z.of_nat k)) 1) (unassigned (Z.of_nat k));
    xmit_bits k d byte_in (u8 (Z.lor (Z.shiftl out 1) c))
  end.

Definition spi_emulated_xmit_byte d (byte_in : Z) : io D (Z * Z) :=
  _ ← spi_emulated_ce0_clear d;
  out ← xmit_bits 8 d byte_in 0;
  _ ← spi_emulated_ce0_set d;
  mret (ERR_OK, out).

Fixpoint xmit_bytes d (bytes_in : list Z) (out : Z) : io D (list Z) :=
  match bytes_in with
  | [] => mret []
  | b :: bytes_in =>
    out ← xmit_bits 8 d b out;
    outs ← xmit_bytes d bytes_in out;
    mret (out :: outs)
  end.
Definition spi_emulated_xmit d (bytes_in : list Z) : io D (Z * list Z) :=
  _ ← spi_emulated_ce0_clear d;
  outs ← xmit_bytes d bytes_in (unassigned 8);
  _ ← spi_emulated_ce0_set d;
  mret (ERR_OK, outs).

Definition spi_emulated_xmit_dma : Z := ERR_NOT_IMPLEMENTED.
Definition spi_emulated_slave_xmit_dma : Z := ERR_NOT_IMPLEMENTED.

(** ** The slave *)
Definition STATE_WAIT_CE0 : Z := 0.
Definition STATE_EXPECT_SCLK_DROP : Z := 1.
Definition STATE_EXPECT_SCLK_RIZE : Z := 2.

(** [1 << pin]. *)
Definition pin_mask_of (pin : Z) : outcome Z := if (pin <? 0) || (31 <? pin) then Fault else Ret (Z.shiftl 1 pin).

Record slave_state := SlaveState { sl_state : Z; sl_byte : Z; sl_i : Z }.

(** One turn of the loop for the level word [lv]. *)
Definition slave_turn (mask_ce0 mask_sclk mosi_shift lv : Z) (st : slave_state) : slave_state + Z :=
  if truth (Z.land lv mask_ce0) then inl (if truth (sl_i st) then SlaveState (sl_state st) 0 0 else st) else
  let st :=
    if sl_state st =? STATE_WAIT_CE0 then
      SlaveState (if truth (Z.land lv mask_sclk) then STATE_EXPECT_SCLK_DROP else STATE_EXPECT_SCLK_RIZE) (sl_byte st) (sl_i st)
    else if sl_state st =? STATE_EXPECT_SCLK_RIZE then
      if truth (Z.land lv mask_sclk) then
        SlaveState STATE_EXPECT_SCLK_DROP
          (u8 (Z.lor (sl_byte st) (Z.shiftl (Z.land (Z.shiftr lv mosi_shift) 1) (7 - sl_i st)))) (sl_i st + 1)
      else st
    else if truth (Z.land lv mask_sclk) then st else SlaveState STATE_EXPECT_SCLK_RIZE (sl_byte st) (sl_i st) in
  if sl_i st =? 8 then inr (sl_byte st) else inl st.

Definition spi_emulated_slave_xmit_byte (fuel : nat) d : io D (Z * Z) := λ s,
  mask_ce0 ← pin_mask_of (ce0_gpio_pin d);
  mask_sclk ← pin_mask_of (sclk_gpio_pin d);
  '(byte, s) ← loop fuel (λ '(st, s),
    '(lv, s) ← gpio_read_level_reg (ce0_gpio_pin d) s;
    Ret (match slave_turn mask_ce0 mask_sclk (mosi_gpio_pin d) (u32 lv) st with inl st => inl (st, s) | inr b => inr (b, s) end))
    (SlaveState STATE_WAIT_CE0 0 0, s);
  Ret ((ERR_OK, byte), s).

(** [spi_emulated_slave_xmit] drives the data pin it should sample, and waits for
    the chip select to go high. *)
Definition spi_emulated_slave_xmit_bit d (bit_in bit_out : Z) : io D Z :=
  bit_out ← (if mosi_gpio_pin d =? -1 then mret bit_out else
    v ← gpio_is_set (mosi_gpio_pin d); mret (if truth v then 1 else 0));
  _ ← unless_unused (miso_gpio_pin d) (set_pin (mosi_gpio_pin d) (truth bit_in));
  mret bit_out.

Definition spi_emulated_slave_wait_ce0 (fuel : nat) d : io D unit :=
  io_loop fuel (v ← gpio_is_set (ce0_gpio_pin d); mret (if truth v then Some tt else None)).

Fixpoint slave_bits (n : nat) d (byte_in out : Z) : io D Z :=
  match n with
  | O => mret out
  | S k =>
    c ← spi_emulated_slave_xmit_bit d (Z.land (Z.shiftr byte_in (Z.of_nat k)) 1) (unassigned (Z.of_nat k));
    slave_bits k d byte_in (u8 (Z.lor (Z.shiftl out 1) c))
  end.
Fixpoint slave_bytes (fuel : nat) d (bytes_in : list Z) (out : Z) : io D (list Z) :=
  match bytes_in with
  | [] => mret []
  | b :: bytes_in =>
    _ ← spi_emulated_slave_wait_ce0 fuel d;
    out ← slave_bits 8 d b out;
    outs ← slave_bytes fuel d bytes_in out;
    mret (out :: outs)
  end.
Definition spi_emulated_slave_xmit (fuel : nat) d (bytes_in : list Z) : io D (Z * list Z) :=
  outs ← slave_bytes fuel d bytes_in (unassigned 8); mret (ERR_OK, outs).

(** [spidev.xmit] and [spidev.xmit_byte]; a call through a null pointer faults. *)
Definition spidev_xmit (fuel : nat) d (bytes_in : list Z) : io D (Z * list Z) :=
  match ops d with
  | None => lift Fault
  | Some m => if m =? SPI_EMU_MODE_MASTER then spi_emulated_xmit d bytes_in else spi_emulated_slave_xmit fuel d bytes_in
  end.
Definition spidev_xmit_byte (fuel : nat) d (byte_in : Z) : io D (Z * Z) :=
  match ops d with
  | None => lift Fault
  | Some m => if m =? SPI_EMU_MODE_MASTER then spi_emulated_xmit_byte d byte_in else spi_emulated_slave_xmit_byte fuel d
  end.
End xmit.

(** ** Allocation

    The slots are a pool on the intrusive lists; a slot's node stands for the
    device.  [init_counter] numbers the keys of the pin sets. *)
Record spie (D : Type) := Spie {
  gpio : D; gpio_owners : gpio_state; spi_nodes : heap; spi_devs : gmap Z spi_emulated_dev; spi_pool : slot_pool;
  init_counter : Z; spi_emulated_initialized : Z }.
Arguments Spie {D}.
Arguments gpio {D}.
Arguments gpio_owners {D}.
Arguments spi_nodes {D}.
Arguments spi_devs {D}.
Arguments spi_pool {D}.
Arguments init_counter {D}.
Arguments spi_emulated_initialized {D}.

#[export] Instance spie_mmio {D} `{Mmio D} : Mmio (spie D) := {|
  mmio_read r s := let '(v, g) := mmio_read r (gpio s) in
    (v, Spie g (gpio_owners s) (spi_nodes s) (spi_devs s) (spi_pool s) (init_counter s) (spi_emulated_initialized s));
  mmio_write r v s :=
    Spie (mmio_write r v (gpio s)) (gpio_owners s) (spi_nodes s) (spi_devs s) (spi_pool s) (init_counter s) (spi_emulated_initialized s) |}.

Section alloc.
Context {D : Type} `{Mmio D}.
Abbreviation S := (spie D).
Implicit Types s : S.

Definition with_owners s g : S := Spie (gpio s) g (spi_nodes s) (spi_devs s) (spi_pool s) (init_counter s) (spi_emulated_initialized s).
Definition with_spi_nodes s σ : S := Spie (gpio s) (gpio_owners s) σ (spi_devs s) (spi_pool s) (init_counter s) (spi_emulated_initialized s).
Definition with_spi_devs s m : S := Spie (gpio s) (gpio_owners s) (spi_nodes s) m (spi_pool s) (init_counter s) (spi_emulated_initialized s).
Definition with_init s c i : S := Spie (gpio s) (gpio_owners s) (spi_nodes s) (spi_devs s) (spi_pool s) c i.

Definition __spi_emulated_alloc : io S Z := λ s, '(σ, dev) ← slot_alloc (spi_nodes s) (spi_pool s); Ret (dev, with_spi_nodes s σ).
Definition __spi_emulated_release (dev : Z) : io S unit := λ s, σ ← slot_release (spi_nodes s) (spi_pool s) dev; Ret (tt, with_spi_nodes s σ).

(** "SPI_EMU_GPIO_K0" to "SPI_EMU_GPIO_K5"; none is left after six calls. *)
Definition spie_gpio_set_key (k : Z) : list Z := [83; 80; 73; 95; 69; 77; 85; 95; 71; 80; 73; 79; 95; 75; 48 + k].
Definition spi_emulated_get_gpioset_key : io S (option (list Z)) := λ s,
  let c := init_counter s in
  Ret (if (0 <=? c) && (c <=? 5) then Some (spie_gpio_set_key c) else None, with_init s (s32 (c + 1)) (spi_emulated_initialized s)).

Definition spi_gpio_set_master (sclk_pin mosi_pin miso_pin ce0_pin ce1_pin : Z) : io S unit :=
  _ ← gpio_set_function (u32 sclk_pin) GPIO_FUNC_OUT;
  _ ← unless_unused mosi_pin (_ ← gpio_set_function (u32 mosi_pin) GPIO_FUNC_OUT; mret tt);
  _ ← unless_unused miso_pin (_ ← gpio_set_function (u32 miso_pin) GPIO_FUNC_IN; mret tt);
  _ ← unless_unused ce0_pin (_ ← gpio_set_function (u32 ce0_pin) GPIO_FUNC_OUT; set_pin ce0_pin true);
  _ ← unless_unused ce1_pin (_ ← gpio_set_function (u32 ce1_pin) GPIO_FUNC_OUT; set_pin ce1_pin true);
  _ ← set_pin sclk_pin false;
  set_pin mosi_pin false.

Definition set_input_down (pin : Z) : io S unit :=
  _ ← gpio_set_function (u32 pin) GPIO_FUNC_IN; _ ← gpio_set_pullupdown (u32 pin) GPIO_PULLUPDOWN_EN_PULLDOWN; mret tt.
Definition spi_gpio_set_slave (sclk_pin mosi_pin miso_pin ce0_pin ce1_pin : Z) : io S unit :=
  _ ← set_input_down sclk_pin;
  _ ← unless_unused mosi_pin (set_input_down mosi_pin);
  _ ← unless_unused miso_pin (_ ← gpio_set_function (u32 miso_pin) GPIO_FUNC_OUT; mret tt);
  _ ← unless_unused ce0_pin (set_input_down ce0_pin);
  unless_unused ce1_pin (set_input_down ce1_pin).

Definition request_pins (pins key : list Z) : io S Z := λ s,
  '(g, h) ← gpio_set_request_n_pins (gpio_owners s) pins key; Ret (h, with_owners s g).
Definition put_spi_dev (dev : Z) (x : spi_emulated_dev) : io S unit := λ s, Ret (tt, with_spi_devs s (<[dev := x]> (spi_devs s))).

(** [inr]: the device; [inl]: the error. *)
Definition spi_allocate_emulated (name_ : list Z) (sclk_pin mosi_pin miso_pin ce0_pin ce1_pin mode_ : Z) : io S (Z + Z) :=
  if negb (mode_ =? SPI_EMU_MODE_MASTER) && negb (mode_ =? SPI_EMU_MODE_SLAVE) then mret (inl ERR_INVAL_ARG) else
  spidev ← __spi_emulated_alloc;
  if spidev =? NULL then mret (inl ERR_NO_RESOURCE) else
  let pins := sclk_pin :: filter (λ p, p ≠ -1) [mosi_pin; miso_pin; ce0_pin; ce1_pin] in
  key ← spi_emulated_get_gpioset_key;
  match key with
  | None => _ ← __spi_emulated_release spidev; mret (inl ERR_NO_RESOURCE)
  | Some key =>
    handle ← request_pins pins key;
    if handle =? GPIO_SET_INVALID_HANDLE then _ ← __spi_emulated_release spidev; mret (inl ERR_BUSY) else
    _ ← (if mode_ =? SPI_EMU_MODE_MASTER then spi_gpio_set_master else spi_gpio_set_slave) sclk_pin mosi_pin miso_pin ce0_pin ce1_pin;
    _ ← put_spi_dev spidev (SpiDev (take SPIDEV_MAXNAMELEN name_) (Some mode_) sclk_pin mosi_pin miso_pin ce0_pin ce1_pin 1 handle key mode_);
    mret (inr spidev)
  end.

Definition SPI_GPIO_OFF (pin : Z) : io S unit :=
  unless_unused pin (_ ← set_pin pin false; _ ← gpio_set_function (u32 pin) GPIO_FUNC_OUT; mret tt).

Definition get_spi_dev (dev : Z) : io S spi_emulated_dev := λ s, x ← deref (spi_devs s !! dev); Ret (x, s).
Definition release_pins (handle : Z) : io S Z := λ s, '(g, err) ← gpio_set_release (gpio_owners s) handle; Ret (err, with_owners s g).

Definition spi_deallocate_emulated (dev : Z) : io S Z :=
  x ← get_spi_dev dev;
  _ ← SPI_GPIO_OFF (sclk_gpio_pin x);
  _ ← SPI_GPIO_OFF (mosi_gpio_pin x);
  _ ← SPI_GPIO_OFF (miso_gpio_pin x);
  _ ← SPI_GPIO_OFF (ce0_gpio_pin x);
  _ ← SPI_GPIO_OFF (ce1_gpio_pin x);
  err ← release_pins (gpio_set_handle x);
  if negb (err =? ERR_OK) then mret err else
  _ ← __spi_emulated_release dev;
  mret ERR_OK.

(** The four slots, cleared, each put at the head of the free list. *)
Definition spi_emulated_init : io S unit := λ s,
  σ ← zero_slots (spi_nodes s) (slot_nodes (spi_pool s));
  σ ← foldl (λ m d, σ ← m; list_add σ d (slot_free (spi_pool s))) (Ret σ) (slot_nodes (spi_pool s));
  Ret (tt, with_init (with_spi_devs (with_spi_nodes s σ) (foldr (λ d, <[d := zero_spi_dev]>) (spi_devs s) (slot_nodes (spi_pool s)))) 0 1).

Definition spi_emulated_set_clk (dev val : Z) : io S unit :=
  x ← get_spi_dev dev;
  put_spi_dev dev (SpiDev (name x) (ops x) (sclk_gpio_pin x) (mosi_gpio_pin x) (miso_gpio_pin x) (ce0_gpio_pin x) (ce1_gpio_pin x)
    val (gpio_set_handle x) (gpio_set_key x) (mode x)).
End alloc.

(** ** The wire

    The levels of the pins follow from the accesses of the master: [wave w l] are
    the level words after each write of [l] that starts at [w]. *)
Definition drive (w : Z) (a : access) : Z :=
  match a with
  | Wr r v => if r =? GPIO_REG_GPSET0 then Z.lor w v else if r =? GPIO_REG_GPCLR0 then Z.ldiff w v else w
  | Rd _ _ => w
  end.
Fixpoint wave (w : Z) (l : list access) : list Z :=
  match l with
  | [] => []
  | Rd _ _ :: l => wave w l
  | a :: l => drive w a :: wave (drive w a) l
  end.

(** What the slave reads: every level at least once, any number of times, with
    anything on the pins that are not in [P]. *)
Definition sees (P : list Z) (w v : Z) : Prop := ∀ p, p ∈ P → Z.testbit (u32 v) p = Z.testbit w p.
Inductive sampled (P : list Z) : list Z → list Z → Prop :=
| sampled_nil : sampled P [] []
| sampled_one w v ws vs : sees P w v → sampled P ws vs → sampled P (w :: ws) (v :: vs)
| sampled_again w v ws vs : sees P w v → sampled P (w :: ws) vs → sampled P (w :: ws) (v :: vs).

(** Bytes received one call after the other. *)
Fixpoint receive (fuel n : nat) (d : spi_emulated_dev) : io script (list Z) :=
  match n with
  | O => mret []
  | S n => '(_, b) ← spi_emulated_slave_xmit_byte fuel d; bs ← receive fuel n d; mret (b :: bs)
  end.

(** The bits of a byte, the highest first, and those a log reads from a pin. *)
Definition msb_first (b : Z) : list bool := map (Z.testbit b) [7; 6; 5; 4; 3; 2; 1; 0].
Fixpoint read_bits (pin : Z) (l : list access) : list bool :=
  match l with
  | [] => []
  | Rd _ v :: l => Z.testbit (u32 v) pin :: read_bits pin l
  | Wr _ _ :: l => read_bits pin l
  end.

Lemma read_bits_app p l1 l2 : read_bits p (l1 ++ l2) = read_bits p l1 ++ read_bits p l2.
Proof. induction l1 as [|[r v|r v] l1 IH]; cbn; [done|by rewrite IH|done]. Qed.

Lemma land_1_bit b k : 0 ≤ k → Z.land (Z.shiftr b k) 1 = Z.b2z (Z.testbit b k).
Proof. intros Hk. change 1 with (Z.ones 1). by rewrite Z.land_ones, Z.shiftr_div_pow2, Z.testbit_spec' by lia. Qed.

Definition shift_in (o : Z) (c : bool) : Z := u8 (Z.lor (Z.shiftl o 1) (Z.b2z c)).

Lemma shift_in_0 o c : Z.testbit (shift_in o c) 0 = c.
Proof.
  unfold shift_in, u8. change 256 with (2 ^ 8). rewrite Z.mod_pow2_bits_low, Z.lor_spec, Z.shiftl_spec, Z.testbit_neg_r by lia. by destruct c.
Qed.

Lemma shift_in_S o c k j : 0 ≤ j < 7 → k = j + 1 → Z.testbit (shift_in o c) k = Z.testbit o j.
Proof.
  intros Hj ->. unfold shift_in, u8. change 256 with (2 ^ 8). rewrite Z.mod_pow2_bits_low, Z.lor_spec, Z.shiftl_spec, orb_comm by lia.
  replace (j + 1 - 1) with j by lia. destruct c; cbn [Z.b2z]; [|by rewrite Z.bits_0]. change 1 with (2 ^ 0). by rewrite Z.pow2_bits_false by lia.
Qed.

(** Eight bits shifted into a byte are its bits. *)
Lemma msb_first_shifted l o : length l = 8%nat → msb_first (foldl shift_in o l) = l.
Proof.
  intros Hl. do 8 (destruct l as [|? l]; [done|]). destruct l; [|done]. unfold msb_first. cbn [foldl map].
  repeat first [ rewrite shift_in_0 | rewrite (shift_in_S _ _ 1 0) by lia | rewrite (shift_in_S _ _ 2 1) by lia | rewrite (shift_in_S _ _ 3 2) by lia
    | rewrite (shift_in_S _ _ 4 3) by lia | rewrite (shift_in_S _ _ 5 4) by lia | rewrite (shift_in_S _ _ 6 5) by lia | rewrite (shift_in_S _ _ 7 6) by lia ].
  reflexivity.
Qed.

Lemma msb_first_inj a b : 0 ≤ a < 256 → 0 ≤ b < 256 → msb_first a = msb_first b → a = b.
Proof.
  unfold msb_first. cbn [map]. intros Ha Hb [= E7 E6 E5 E4 E3 E2 E1 E0]. apply Z.bits_inj'. intros n Hn.
  assert (n < 8 ∨ 8 ≤ n) as [Hn8|Hn8] by lia.
  - assert (n = 0 ∨ n = 1 ∨ n = 2 ∨ n = 3 ∨ n = 4 ∨ n = 5 ∨ n = 6 ∨ n = 7) as H by lia. by destruct_or! H; subst n.
  - replace a with (a mod 2 ^ 8) by (rewrite Z.mod_small; lia). replace b with (b mod 2 ^ 8) by (rewrite Z.mod_small; lia).
    by rewrite !Z.mod_pow2_bits_high by lia.
Qed.

Lemma shifted_byte o byte : 0 ≤ byte < 256 → foldl shift_in o (msb_first byte) = byte.
Proof.
  intros Hb. apply msb_first_inj; [|done|by apply msb_first_shifted].
  unfold msb_first. cbn [map foldl]. apply u8_range.
Qed.

Section link.
Context (d : spi_emulated_dev).
Abbreviation pins := [ce0_gpio_pin d; sclk_gpio_pin d; mosi_gpio_pin d].

(** Three different pins of the first level register. *)
Definition link_pins : Prop := NoDup pins ∧ Forall (λ p, 0 ≤ p < 32) pins ∧ (miso_gpio_pin d = -1 ∨ 0 ≤ miso_gpio_pin d < 32).
Context (Hd : link_pins).

(** A level word, as far as the link is concerned. *)
Definition view (w : Z) : bool * bool * bool :=
  (Z.testbit w (ce0_gpio_pin d), Z.testbit w (sclk_gpio_pin d), Z.testbit w (mosi_gpio_pin d)).
Definition pin_access (p : Z) (v : bool) : access := Wr (if v then GPIO_REG_GPSET0 else GPIO_REG_GPCLR0) (2 ^ p).

Lemma pin_bounds : 0 ≤ ce0_gpio_pin d < 32 ∧ 0 ≤ sclk_gpio_pin d < 32 ∧ 0 ≤ mosi_gpio_pin d < 32.
Proof. destruct Hd as (_ & Hr & _). rewrite !Forall_cons in Hr. naive_solver. Qed.

Lemma drive_pin w p v q : 0 ≤ p → 0 ≤ q → Z.testbit (drive w (pin_access p v)) q = if q =? p then v else Z.testbit w q.
Proof.
  intros Hp Hq. unfold drive, pin_access. destruct v.
  - change (GPIO_REG_GPSET0 =? GPIO_REG_GPSET0) with true. cbv iota. rewrite Z.lor_spec, Z.pow2_bits_eqb, (Z.eqb_sym p q) by lia.
    destruct (q =? p); [by rewrite orb_true_r|by rewrite orb_false_r].
  - change (GPIO_REG_GPCLR0 =? GPIO_REG_GPSET0) with false. change (GPIO_REG_GPCLR0 =? GPIO_REG_GPCLR0) with true. cbv iota.
    rewrite Z.ldiff_spec, Z.pow2_bits_eqb, (Z.eqb_sym p q) by lia. destruct (q =? p); cbn; [by rewrite andb_false_r|by rewrite andb_true_r].
Qed.

(** [l] takes the pins from view [v] through the views [ws] to [v']. *)
Definition draws (v : bool * bool * bool) (l : list access) (ws : list (bool * bool * bool)) (v' : bool * bool * bool) : Prop :=
  ∀ w, view w = v → map view (wave w l) = ws ∧ view (foldl drive w l) = v'.

Lemma wave_app w l1 l2 : wave w (l1 ++ l2) = wave w l1 ++ wave (foldl drive w l1) l2.
Proof. revert w; induction l1 as [|[r v|r v] l1 IH]; intros w; [done|apply IH|]. cbn [app wave foldl]. by rewrite IH. Qed.

Lemma draws_app v l1 ws1 v1 l2 ws2 v2 : draws v l1 ws1 v1 → draws v1 l2 ws2 v2 → draws v (l1 ++ l2) (ws1 ++ ws2) v2.
Proof.
  intros H1 H2 w Hw. destruct (H1 w Hw) as [E1 V1], (H2 _ V1) as [E2 V2]. by rewrite wave_app, map_app, E1, E2, foldl_app.
Qed.

Lemma draws_nil v : draws v [] [] v.
Proof. by intros w Hw. Qed.

Lemma draws_read v r x : draws v [Rd r x] [] v.
Proof. by intros w Hw. Qed.

Lemma view_drive w p v : 0 ≤ p → view (drive w (pin_access p v)) =
  (if ce0_gpio_pin d =? p then v else Z.testbit w (ce0_gpio_pin d), if sclk_gpio_pin d =? p then v else Z.testbit w (sclk_gpio_pin d),
   if mosi_gpio_pin d =? p then v else Z.testbit w (mosi_gpio_pin d)).
Proof. destruct pin_bounds as (? & ? & ?). intros Hp. unfold view. by rewrite !drive_pin by lia. Qed.

Lemma draws_pin c s m p v v' : 0 ≤ p →
  v' = (if ce0_gpio_pin d =? p then v else c, if sclk_gpio_pin d =? p then v else s, if mosi_gpio_pin d =? p then v else m) →
  draws (c, s, m) [pin_access p v] [v'] v'.
Proof.
  intros Hp -> w Hw. assert (wave w [pin_access p v] = [drive w (pin_access p v)]) as -> by by destruct v.
  cbn [map foldl]. rewrite view_drive by done. unfold view in Hw. by injection Hw as -> -> ->.
Qed.

Lemma pin_ineqs : ce0_gpio_pin d ≠ sclk_gpio_pin d ∧ ce0_gpio_pin d ≠ mosi_gpio_pin d ∧ sclk_gpio_pin d ≠ mosi_gpio_pin d.
Proof. destruct Hd as (Hn & _ & _). rewrite !NoDup_cons, !not_elem_of_cons in Hn. naive_solver. Qed.

Lemma draws_pins c s m v :
  draws (c, s, m) [pin_access (ce0_gpio_pin d) v] [(v, s, m)] (v, s, m) ∧
  draws (c, s, m) [pin_access (sclk_gpio_pin d) v] [(c, v, m)] (c, v, m) ∧
  draws (c, s, m) [pin_access (mosi_gpio_pin d) v] [(c, s, v)] (c, s, v).
Proof.
  destruct pin_ineqs as (N1 & N2 & N3). destruct pin_bounds as (? & ? & ?).
  split_and!; (apply draws_pin; [lia|]); rewrite ?Z.eqb_refl; by repeat (rewrite (proj2 (Z.eqb_neq _ _)) by congruence).
Qed.

(** ** The master *)
Section master.
Context {D : Type} `{Mmio D} {T : TracedState D} (unassigned : Z → Z).

Lemma set_pin_does p v (s : D) : 0 ≤ p < 32 → does (set_pin p v) s (λ _ _ l, l = [pin_access p v]).
Proof.
  intros Hp. unfold set_pin, pin_access. rewrite u32_id by lia.
  assert (p / 32 = 0 ∧ p mod 32 = p) as [E1 E2] by dlia.
  destruct v; unfold gpio_set_on, gpio_set_off, GPIO_32PIN_SET_CHEKCED, checked, GPIO_MAX_PIN_IDX; zdec;
    rewrite E1, E2, Z.shiftl_1_l;
    (eapply (does_bind _ _ _ (λ _ _ l, l = [_])); [do 2 does_step; reflexivity|]); intros a s' l ->; does_step;
    rewrite u32_id by (pose proof (Z.pow_le_mono_r 2 p 31); pose proof (Z.pow_pos_nonneg 2 p); lia); done.
Qed.

Definition bit_wave (b : bool) : list (bool * bool * bool) := [(false, false, b); (false, true, b); (false, false, b)].
Definition byte_wave (b : Z) : list (bool * bool * bool) := concat (map bit_wave (msb_first b)).

Lemma xmit_bit_does bit c0 m (s : D) : does (spi_emulated_xmit_bit d bit c0) s (λ c _ l,
  draws (false, false, m) l (bit_wave (truth bit)) (false, false, truth bit) ∧
  (miso_gpio_pin d ≠ -1 → ∃ b : bool, c = Z.b2z b ∧ read_bits (miso_gpio_pin d) l = [b])).
Proof.
  destruct pin_bounds as (? & ? & ?). destruct Hd as (_ & _ & Hm). unfold spi_emulated_xmit_bit, PULSE_SCLK, unless_unused.
  rewrite (proj2 (Z.eqb_neq (mosi_gpio_pin d) (-1))) by lia.
  eapply does_bind; [apply set_pin_does; lia|]. intros _ s1 l ->. eapply does_bind; [apply set_pin_does; lia|]. intros _ s2 l ->.
  destruct (draws_pins false false m (truth bit)) as (_ & _ & D1). destruct (draws_pins false false (truth bit) true) as (_ & D2 & _).
  destruct (draws_pins false true (truth bit) false) as (_ & D3 & _).
  destruct (Z.eqb_spec (miso_gpio_pin d) (-1)) as [E|E].
  - eapply (does_bind _ _ _ (λ _ _ l, l = [])); [by apply does_ret|]. intros c s3 l ->. eapply does_bind; [apply set_pin_does; lia|]. intros _ s4 l ->. apply does_ret.
    split; [|done]. apply (draws_app _ _ [_] _ _ _ _ D1). apply (draws_app _ _ [_] _ _ _ _ D2 D3).
  - assert (0 ≤ miso_gpio_pin d < 32) as Hmi by lia. clear Hm. unfold gpio_is_set.
    eapply (does_bind _ _ _ (λ c _ l, ∃ v, l = [Rd _ v] ∧ c = Z.b2z (Z.testbit (u32 v) (miso_gpio_pin d)))).
    + does_step. apply does_ret. eexists. split; [done|].
      assert (Z.shiftr (miso_gpio_pin d) 5 = 0) as -> by (rewrite Z.shiftr_div_pow2 by lia; change (2 ^ 5) with 32; dlia).
      cbn [Z.shiftl]. rewrite Z.sub_0_r, Z.land_comm. apply land_1_bit. lia.
    + intros c s3 l (v & -> & ->). eapply does_bind; [apply set_pin_does; lia|]. intros _ s4 l ->. apply does_ret.
      split; [|intros _; eexists; split; [done|by destruct (truth bit)]].
      apply (draws_app _ _ [_] _ _ _ _ D1). apply (draws_app _ _ [_] _ _ _ _ D2). apply (draws_app _ [Rd _ _] [] _ _ _ _ (draws_read _ _ _) D3).
Qed.

Lemma truth_bit b k : 0 ≤ k → truth (Z.land (Z.shiftr b k) 1) = Z.testbit b k.
Proof. intros Hk. rewrite land_1_bit by done. by destruct (Z.testbit b k). Qed.

Lemma xmit_bits_does n b out m (s : D) : does (xmit_bits unassigned n d b out) s (λ out' _ l,
  ∃ m', draws (false, false, m) l (concat (map (λ k, bit_wave (Z.testbit b (Z.of_nat k))) (rev (seq 0 n)))) (false, false, m') ∧
  (miso_gpio_pin d ≠ -1 → length (read_bits (miso_gpio_pin d) l) = n ∧
     out' = foldl shift_in out (read_bits (miso_gpio_pin d) l))).
Proof.
  revert out m s. induction n as [|n IH]; intros out m s; cbn [xmit_bits].
  - apply does_ret. exists m. split; [apply draws_nil|done].
  - eapply does_bind; [apply (xmit_bit_does _ _ m)|]. intros c s1 l [Hdr Hc]. rewrite truth_bit in Hdr by lia.
    eapply does_mono; [apply (IH _ (Z.testbit b (Z.of_nat n)))|]. intros out' s2 l' (m' & Hdr' & Ho). exists m'.
    rewrite seq_S, rev_app_distr. cbn [rev app map concat]. split; [exact (draws_app _ _ _ _ _ _ _ Hdr Hdr')|].
    intros Hne. destruct (Hc Hne) as (bb & -> & E1), (Ho Hne) as [L2 ->]. rewrite read_bits_app, E1. cbn [app length foldl]. by rewrite L2.
Qed.

Definition duplex (outs : list Z) (l : list access) : Prop :=
  miso_gpio_pin d ≠ -1 → concat (map msb_first outs) = read_bits (miso_gpio_pin d) l.

Lemma xmit_byte_does b out m (s : D) : does (xmit_bits unassigned 8 d b out) s (λ out' _ l,
  ∃ m', draws (false, false, m) l (byte_wave b) (false, false, m') ∧ duplex [out'] l).
Proof.
  eapply does_mono; [apply (xmit_bits_does 8 b out m)|]. intros out' s' l (m' & Hdr & Ho). exists m'. split; [exact Hdr|].
  intros Hne. destruct (Ho Hne) as [Hl ->]. cbn [map concat]. rewrite app_nil_r. by apply msb_first_shifted.
Qed.

Lemma xmit_bytes_does bs out m (s : D) : does (xmit_bytes unassigned d bs out) s (λ outs _ l,
  ∃ m', draws (false, false, m) l (concat (map byte_wave bs)) (false, false, m') ∧ length outs = length bs ∧ duplex outs l).
Proof.
  revert out m s. induction bs as [|b bs IH]; intros out m s; cbn [xmit_bytes].
  - apply does_ret. exists m. split; [apply draws_nil|done].
  - eapply does_bind; [apply (xmit_byte_does _ _ m)|]. intros o s1 l (m1 & Hd1 & Hr1).
    eapply does_bind; [apply (IH _ m1)|]. intros outs s2 l2 (m2 & Hd2 & Hl & Hr2). apply does_ret. exists m2. rewrite app_nil_r.
    split; [exact (draws_app _ _ _ _ _ _ _ Hd1 Hd2)|]. split; [cbn; congruence|]. intros Hne.
    rewrite read_bits_app, <- (Hr1 Hne), <- (Hr2 Hne). cbn [map concat]. by rewrite app_nil_r.
Qed.

Lemma ce0_does v m (s : D) c : does (unless_unused (ce0_gpio_pin d) (set_pin (ce0_gpio_pin d) v)) s (λ _ _ l,
  draws (c, false, m) l [(v, false, m)] (v, false, m) ∧ read_bits (miso_gpio_pin d) l = []).
Proof.
  destruct pin_bounds as (? & _). unfold unless_unused. rewrite (proj2 (Z.eqb_neq (ce0_gpio_pin d) (-1))) by lia.
  eapply does_mono; [by apply set_pin_does|]. intros _ _ l ->. split; [apply draws_pins|by destruct v].
Qed.

Lemma xmit_does bs m (s : D) : does (spi_emulated_xmit unassigned d bs) s (λ r _ l,
  ∃ m', draws (true, false, m) l ((false, false, m) :: concat (map byte_wave bs) ++ [(true, false, m')]) (true, false, m') ∧
  r.1 = ERR_OK ∧ length r.2 = length bs ∧ duplex r.2 l).
Proof.
  unfold spi_emulated_xmit, spi_emulated_ce0_clear, spi_emulated_ce0_set.
  eapply does_bind; [apply (ce0_does false m _ true)|]. intros _ s1 l1 [D1 R1].
  eapply does_bind; [apply (xmit_bytes_does bs _ m)|]. intros outs s2 l2 (m2 & D2 & Hl & R2).
  eapply does_bind; [apply (ce0_does true m2 _ false)|]. intros _ s3 l3 [D3 R3]. apply does_ret. exists m2.
  rewrite app_nil_r. split; [exact (draws_app _ _ [_] _ _ _ _ D1 (draws_app _ _ _ _ _ _ _ D2 D3))|]. split_and!; [done|done|].
  intros Hne. rewrite !read_bits_app, R1, R3, app_nil_r. by apply R2.
Qed.
End master.
End link.

(** ** The slave

    It depends on the views of the words it reads; [feed] runs it on a list. *)
Section slave.
Context (d : spi_emulated_dev) (Hd : link_pins d).

Definition view_turn (v : bool * bool * bool) (st : slave_state) : slave_state + Z :=
  let '(c, s, m) := v in
  if c : bool then inl (if truth (sl_i st) then SlaveState (sl_state st) 0 0 else st) else
  let st :=
    if sl_state st =? STATE_WAIT_CE0 then SlaveState (if s : bool then STATE_EXPECT_SCLK_DROP else STATE_EXPECT_SCLK_RIZE) (sl_byte st) (sl_i st)
    else if sl_state st =? STATE_EXPECT_SCLK_RIZE then
      if s : bool then SlaveState STATE_EXPECT_SCLK_DROP (u8 (Z.lor (sl_byte st) (Z.shiftl (Z.b2z m) (7 - sl_i st)))) (sl_i st + 1) else st
    else if s : bool then st else SlaveState STATE_EXPECT_SCLK_RIZE (sl_byte st) (sl_i st) in
  if sl_i st =? 8 then inr (sl_byte st) else inl st.

Fixpoint feed (st : slave_state) (l : list (bool * bool * bool)) : option (Z * list (bool * bool * bool)) :=
  match l with
  | [] => None
  | v :: l => match view_turn v st with inl st => feed st l | inr b => Some (b, l) end
  end.

Lemma truth_mask v p : 0 ≤ p → truth (Z.land v (Z.shiftl 1 p)) = Z.testbit v p.
Proof.
  intros Hp. rewrite Z.shiftl_1_l. unfold truth. destruct (Z.testbit v p) eqn:E.
  - destruct (Z.eqb_spec (Z.land v (2 ^ p)) 0) as [Hz|]; [|done]. exfalso.
    assert (Z.testbit (Z.land v (2 ^ p)) p = true) as Ht by (by rewrite Z.land_spec, E, Z.pow2_bits_true). by rewrite Hz, Z.bits_0 in Ht.
  - assert (Z.land v (2 ^ p) = 0) as ->; [|done]. apply Z.bits_inj'. intros i Hi. rewrite Z.land_spec, Z.pow2_bits_eqb, Z.bits_0 by lia.
    destruct (Z.eqb_spec p i) as [<-|]; [by rewrite E|by rewrite andb_false_r].
Qed.

Lemma slave_turn_view v st : slave_turn (Z.shiftl 1 (ce0_gpio_pin d)) (Z.shiftl 1 (sclk_gpio_pin d)) (mosi_gpio_pin d) v st = view_turn (view d v) st.
Proof.
  destruct (pin_bounds d Hd) as (? & ? & ?). unfold slave_turn, view_turn, view. by rewrite !truth_mask, land_1_bit by lia.
Qed.

Lemma slave_byte_feed fuel vs b rest : feed (SlaveState STATE_WAIT_CE0 0 0) (map (λ v, view d (u32 v)) vs) = Some (b, rest) →
  (length vs ≤ fuel)%nat → ∃ vs', spi_emulated_slave_xmit_byte fuel d (Script vs) = Ret ((ERR_OK, b), Script vs') ∧
    map (λ v, view d (u32 v)) vs' = rest ∧ (length vs' ≤ length vs)%nat.
Proof.
  destruct (pin_bounds d Hd) as (Hb1 & Hb2 & _). unfold spi_emulated_slave_xmit_byte, pin_mask_of. zdec. cbn [orb]. rewrite !bind_ret.
  generalize (SlaveState STATE_WAIT_CE0 0 0). revert fuel. induction vs as [|v vs IH]; intros fuel st Hf Hl; [done|].
  destruct fuel as [|fuel]; [cbn in Hl; lia|]. cbn [loop]. cbn [map feed] in Hf. unfold gpio_read_level_reg, read_reg. cbn [mmio_read script_mmio answers].
  rewrite !bind_ret, slave_turn_view. destruct (view_turn (view d (u32 v)) st) as [st'|b'].
  - destruct (IH fuel st' Hf) as (vs' & E & Hm & Hl'); [cbn in Hl; lia|]. exists vs'. split; [exact E|]. split; [done|]. cbn. lia.
  - injection Hf as -> <-. exists vs. split; [done|]. split; [done|]. cbn. lia.
Qed.

(** [vs] is [ws] with every view repeated. *)
Inductive stutters : list (bool * bool * bool) → list (bool * bool * bool) → Prop :=
| stutters_nil : stutters [] []
| stutters_one w ws vs : stutters ws vs → stutters (w :: ws) (w :: vs)
| stutters_again w ws vs : stutters (w :: ws) vs → stutters (w :: ws) (w :: vs).

Lemma sees_view w v : sees [ce0_gpio_pin d; sclk_gpio_pin d; mosi_gpio_pin d] w v → view d (u32 v) = view d w.
Proof. intros Hs. unfold view. by rewrite !Hs by set_solver. Qed.

Lemma sampled_stutters ws vs : sampled [ce0_gpio_pin d; sclk_gpio_pin d; mosi_gpio_pin d] ws vs →
  stutters (map (view d) ws) (map (λ v, view d (u32 v)) vs).
Proof. induction 1 as [|w v ws vs Hs _ IH|w v ws vs Hs _ IH]; cbn [map]; rewrite ?(sees_view _ _ Hs); by constructor. Qed.

(** Views that leave the slave as it is. *)
Definition ignores (st : slave_state) (v : bool * bool * bool) : Prop := view_turn v st = inl st.

Lemma feed_through st st' w ws vs : stutters (w :: ws) vs → view_turn w st = inl st' → ignores st' w →
  ∃ vs', stutters ws vs' ∧ feed st vs = feed st' vs'.
Proof.
  intros Hs. remember (w :: ws) as l eqn:El. revert st w ws El. induction Hs as [|w0 ws0 vs Hs _|w0 ws0 vs Hs IH]; intros st w ws El Ht Hi.
  - done.
  - injection El as -> ->. exists vs. split; [done|]. cbn [feed]. by rewrite Ht.
  - injection El as -> ->. cbn [feed]. rewrite Ht. by apply (IH st' w ws eq_refl Hi Hi).
Qed.

Lemma feed_end st b w ws vs : stutters (w :: ws) vs → view_turn w st = inr b →
  ∃ vs', (stutters ws vs' ∨ stutters (w :: ws) vs') ∧ feed st vs = Some (b, vs').
Proof. intros Hs Ht. inversion Hs; subst; cbn [feed]; rewrite Ht; eauto. Qed.

Definition rize (byte : Z) (i : Z) : slave_state := SlaveState STATE_EXPECT_SCLK_RIZE byte i.
Definition drop_state (byte : Z) (i : Z) : slave_state := SlaveState STATE_EXPECT_SCLK_DROP byte i.
Definition with_bit (byte i : Z) (m : bool) : Z := u8 (Z.lor byte (Z.shiftl (Z.b2z m) (7 - i))).

(** A bit that is not the last. *)
Lemma feed_bit byte i b ws vs : 0 ≤ i < 7 → stutters (bit_wave b ++ ws) vs →
  ∃ vs', stutters ws vs' ∧ feed (rize byte i) vs = feed (rize (with_bit byte i b) (i + 1)) vs'.
Proof.
  intros Hi Hs. assert (i =? 8 = false ∧ i + 1 =? 8 = false) as [N1 N2] by lia. unfold bit_wave in Hs. cbn [app] in Hs.
  destruct (feed_through (rize byte i) (rize byte i) _ _ _ Hs) as (vs1 & H1 & ->); [unfold ignores; cbn; by rewrite N1..|].
  destruct (feed_through (rize byte i) (drop_state (with_bit byte i b) (i + 1)) _ _ _ H1) as (vs2 & H2 & ->); [unfold ignores; cbn; by rewrite N2..|].
  destruct (feed_through (drop_state (with_bit byte i b) (i + 1)) (rize (with_bit byte i b) (i + 1)) _ _ _ H2) as (vs3 & H3 & ->);
    [unfold ignores; cbn; by rewrite N2..|]. eauto.
Qed.

(** The last bit ends the byte; some of its views are left. *)
Definition leftover (b : bool) (ws vs : list (bool * bool * bool)) : Prop :=
  stutters ((false, false, b) :: ws) vs ∨ stutters ((false, true, b) :: (false, false, b) :: ws) vs.

Lemma feed_last byte b ws vs : stutters (bit_wave b ++ ws) vs →
  ∃ vs', leftover b ws vs' ∧ feed (rize byte 7) vs = Some (with_bit byte 7 b, vs').
Proof.
  intros Hs. unfold bit_wave in Hs. cbn [app] in Hs.
  destruct (feed_through (rize byte 7) (rize byte 7) _ _ _ Hs) as (vs1 & H1 & ->); [done..|].
  destruct (feed_end (rize byte 7) (with_bit byte 7 b) _ _ _ H1) as (vs2 & H2 & ->); [done|]. by exists vs2.
Qed.

Fixpoint bits_into (byte i : Z) (l : list bool) : Z :=
  match l with [] => byte | m :: l => bits_into (with_bit byte i m) (i + 1) l end.

Lemma feed_bits l byte i ws vs : 0 ≤ i → i + Z.of_nat (length l) ≤ 7 → stutters (concat (map bit_wave l) ++ ws) vs →
  ∃ vs', stutters ws vs' ∧ feed (rize byte i) vs = feed (rize (bits_into byte i l) (i + Z.of_nat (length l))) vs'.
Proof.
  revert byte i vs. induction l as [|m l IH]; intros byte i vs Hi Hl Hs; cbn [map concat bits_into length] in *.
  - exists vs. rewrite Z.add_0_r. by split.
  - rewrite <- app_assoc in Hs. destruct (feed_bit byte i m _ _ ltac:(lia) Hs) as (v1 & H1 & ->).
    destruct (IH (with_bit byte i m) (i + 1) v1) as (v2 & H2 & ->); [lia|lia|done|]. exists v2. split; [done|].
    by replace (i + 1 + Z.of_nat (length l)) with (i + Z.of_nat (S (length l))) by lia.
Qed.

Lemma byte_of_bits b : 0 ≤ b < 256 → with_bit (bits_into 0 0 (map (Z.testbit b) [7; 6; 5; 4; 3; 2; 1])) 7 (Z.testbit b 0) = b.
Proof.
  intros Hb. assert (forallb (λ n, let b := Z.of_nat n in with_bit (bits_into 0 0 (map (Z.testbit b) [7; 6; 5; 4; 3; 2; 1])) 7 (Z.testbit b 0) =? b)
    (seq 0 256) = true) as HF by (vm_compute; reflexivity).
  rewrite forallb_forall in HF. rewrite <- (Z2Nat.id b) by lia. apply Z.eqb_eq, HF, in_seq. lia.
Qed.

Lemma feed_byte b ws vs : 0 ≤ b < 256 → stutters (byte_wave b ++ ws) vs →
  ∃ vs', leftover (Z.testbit b 0) ws vs' ∧ feed (rize 0 0) vs = Some (b, vs').
Proof.
  intros Hb Hs.
  assert (byte_wave b = concat (map bit_wave (map (Z.testbit b) [7; 6; 5; 4; 3; 2; 1])) ++ bit_wave (Z.testbit b 0)) as E by done.
  rewrite E, <- app_assoc in Hs. destruct (feed_bits (map (Z.testbit b) [7; 6; 5; 4; 3; 2; 1]) 0 0 _ _ ltac:(lia) ltac:(cbn; lia) Hs) as (v1 & H1 & ->).
  destruct (feed_last (bits_into 0 0 (map (Z.testbit b) [7; 6; 5; 4; 3; 2; 1])) _ _ _ H1) as (v2 & H2 & E2).
  exists v2. split; [done|]. rewrite byte_of_bits in E2 by done. exact E2.
Qed.

(** A slave that starts at [vs] soon waits for the first bit of [ws]. *)
Definition ready (ws vs : list (bool * bool * bool)) : Prop :=
  ∃ vs', stutters ws vs' ∧ feed (SlaveState STATE_WAIT_CE0 0 0) vs = feed (rize 0 0) vs'.

Lemma ready_low m ws vs : stutters ((false, false, m) :: ws) vs → ready ws vs.
Proof. intros Hs. by apply (feed_through _ _ _ _ _ Hs). Qed.

Lemma ready_idle s m m' ws vs : stutters ((true, s, m) :: (false, false, m') :: ws) vs → ready ws vs.
Proof.
  intros Hs. destruct (feed_through (SlaveState STATE_WAIT_CE0 0 0) _ _ _ _ Hs eq_refl eq_refl) as (vs' & H1 & E).
  destruct (ready_low _ _ _ H1) as (vs'' & H2 & E2). exists vs''. split; [done|]. by rewrite E.
Qed.

Lemma ready_leftover b ws vs : leftover b ws vs → ready ws vs.
Proof.
  intros [Hs|Hs]; [by eapply ready_low|].
  destruct (feed_through (SlaveState STATE_WAIT_CE0 0 0) (drop_state 0 0) _ _ _ Hs eq_refl eq_refl) as (v1 & H1 & E1).
  destruct (feed_through (drop_state 0 0) (rize 0 0) _ _ _ H1 eq_refl eq_refl) as (v2 & H2 & E2). exists v2. split; [done|]. by rewrite E1.
Qed.

Lemma receive_ok bs ws fuel vs : Forall (λ b, 0 ≤ b < 256) bs → (length vs ≤ fuel)%nat →
  ready (concat (map byte_wave bs) ++ ws) (map (λ v, view d (u32 v)) vs) →
  ∃ rest, receive fuel (length bs) d (Script vs) = Ret (bs, Script rest).
Proof.
  intros HF. revert vs. induction HF as [|b bs Hb _ IH]; intros vs Hl Hr; cbn [length receive]; [by exists vs|].
  destruct Hr as (v0 & Hs & E0). cbn [map concat] in Hs. rewrite <- app_assoc in Hs.
  destruct (feed_byte b _ _ Hb Hs) as (v1 & Hlo & E1). rewrite E1 in E0.
  destruct (slave_byte_feed fuel vs b v1 E0 Hl) as (vs1 & E & Em & Hl1).
  destruct (IH vs1) as (rest & E2); [lia|rewrite Em; by apply ready_leftover in Hlo|]. exists rest.
  rewrite (io_bind_ret _ _ _ _ _ E). by rewrite (io_bind_ret _ _ _ _ _ E2).
Qed.
End slave.

(** C28: A message that the emulated master sends arrives at the emulated slave,
    whatever their relative speed: for every device behind the pins, the accesses
    of [spi_emulated_xmit] move chip select, clock and data so that a slave that
    sees every level at least once, however often, reads back exactly the bytes
    sent, one call per byte.  In the other direction the bytes the master returns
    are the bits it read from its input pin, the highest first. *)
Theorem spi_emulated_link {D} `{TracedState D} unassigned d bs (s : D) w :
  link_pins d → Forall (λ b, 0 ≤ b < 256) bs → Z.testbit w (ce0_gpio_pin d) = true → Z.testbit w (sclk_gpio_pin d) = false →
  does (spi_emulated_xmit unassigned d bs) s (λ r _ l,
    r.1 = ERR_OK ∧ length r.2 = length bs ∧
    (miso_gpio_pin d ≠ -1 → concat (map msb_first r.2) = read_bits (miso_gpio_pin d) l) ∧
    ∀ vs, sampled [ce0_gpio_pin d; sclk_gpio_pin d; mosi_gpio_pin d] (w :: wave w l) vs →
      ∃ rest, receive (length vs) (length bs) d (Script vs) = Ret (bs, Script rest)).
Proof.
  intros Hd Hbs Hc Hk. eapply does_mono; [apply (xmit_does d Hd unassigned bs (Z.testbit w (mosi_gpio_pin d)))|].
  intros r s' l (m' & Hdr & Hok & Hlen & Hrd). split_and!; [done..|]. intros vs Hv.
  destruct (Hdr w) as [Hw _]; [unfold view; by rewrite Hc, Hk|]. apply sampled_stutters in Hv; [|done]. cbn [map] in Hv. rewrite Hw in Hv.
  unfold view in Hv at 1. rewrite Hc, Hk in Hv. apply (receive_ok d Hd bs [(true, false, m')] _ _ Hbs); [done|]. by eapply ready_idle.
Qed.

(** Witness: two bytes over pins 8 to 11, sampled once per level. *)
Definition demo_spi : spi_emulated_dev := SpiDev [] (Some SPI_EMU_MODE_MASTER) 11 10 9 8 (-1) 1 0 [] SPI_EMU_MODE_MASTER.

Lemma sampled_self P ws : Forall (λ p, 0 ≤ p < 32) P → sampled P ws ws.
Proof.
  intros HP. induction ws as [|w ws IH]; constructor; [|done]. intros p Hp. rewrite Forall_forall in HP. pose proof (HP p Hp).
  unfold u32. change 4294967296 with (2 ^ 32). by rewrite Z.mod_pow2_bits_low by lia.
Qed.

Lemma spi_emulated_link_witness : link_pins demo_spi ∧ ∃ l rest,
  receive (length (2 ^ 8 :: wave (2 ^ 8) l)) 2 demo_spi (Script (2 ^ 8 :: wave (2 ^ 8) l)) = Ret ([0xa5; 0x3c], Script rest).
Proof.
  assert (link_pins demo_spi) as Hd.
  { split; [apply (bool_decide_eq_true_1 (NoDup _)); vm_compute; reflexivity|]. split; [repeat constructor; vm_compute; congruence|]. right. by cbn. }
  split; [exact Hd|].
  destruct (spi_emulated_link (λ _, 0) demo_spi [0xa5; 0x3c] (Traced (∅ : bank) []) (2 ^ 8) Hd) as (r & s' & l & _ & _ & _ & _ & _ & Hl).
  - repeat constructor; lia.
  - reflexivity.
  - reflexivity.
  - exists l. apply (Hl (2 ^ 8 :: wave (2 ^ 8) l)). apply sampled_self. repeat constructor; vm_compute; congruence.
Defined.
