(* ===== verification/Spi.v ===== *)
(** * SPI devices (include/spi.h, spi/spi.c, dma.c)

    The interface of an SPI device as a class; the polled transfers of the
    controller SPI0 for every device behind its registers; its DMA transfers on
    the control blocks of dma.c and the allocator of [DmaMem].  The emulated
    device of [SpiEmu] is an instance of the class. *)

From S2P Require Import Prelude Lists Strings DmaMem Exceptions Mmio GpioSet Gpio SpiEmu.

Definition SPI_TYPE_SPI0 : Z := 0.
Definition SPI_TYPE_SPI1 : Z := 1.
Definition SPI_TYPE_SPI2 : Z := 2.
Definition SPI_TYPE_EMULATED : Z := 3.
Definition SPI_TYPE_UNKNOWN : Z := 0xff.

(** [struct spi_dev]: the transfers of the device at a pointer.  [spi_xmit] gives
    the code and the bytes received. *)
Class SpiBus (B : Type) : Type := {
  spi_xmit : Z → list Z → io B (Z * list Z);
  spi_xmit_byte : Z → Z → io B (Z * Z) }.

#[export] Instance spie_bus {D} `{Mmio D} (unassigned : Z → Z) (fuel : nat) : SpiBus (spie D) := {|
  spi_xmit dev bytes := x ← get_spi_dev dev; spidev_xmit unassigned fuel x bytes;
  spi_xmit_byte dev byte := x ← get_spi_dev dev; spidev_xmit_byte unassigned fuel x byte |}.

(** ** The DMA controller *)
Definition DMA_BASE : Z := 0x3f007000.
Definition DMA_CH_BASE (channel : Z) : Z := DMA_BASE + channel * 0x100.
Definition DMA_CS (channel : Z) : Z := DMA_CH_BASE channel.
Definition DMA_CONBLK_AD (channel : Z) : Z := DMA_CH_BASE channel + 0x04.
Definition DMA_TI (channel : Z) : Z := DMA_CH_BASE channel + 0x08.
Definition DMA_ENABLE : Z := DMA_BASE + 0xff0.
Definition DMA_CS_ACTIVE : Z := Z.shiftl 1 0.
Definition DMA_CS_END : Z := Z.shiftl 1 1.
Definition DMA_CS_INT : Z := Z.shiftl 1 2.
Definition DMA_CS_ERROR : Z := Z.shiftl 1 8.
Definition DMA_CS_WAIT_FOR_OUTSTANDING_WRITES : Z := Z.shiftl 1 28.
Definition DMA_CS_RESET : Z := Z.shiftl 1 31.
Definition DMA_TI_WAIT_RESP : Z := Z.shiftl 1 3.
Definition DMA_TI_DEST_INC : Z := Z.shiftl 1 4.
Definition DMA_TI_DEST_WIDTH : Z := Z.shiftl 1 5.
Definition DMA_TI_DEST_DREQ : Z := Z.shiftl 1 6.
Definition DMA_TI_DEST_IGNORE : Z := Z.shiftl 1 7.
Definition DMA_TI_SRC_INC : Z := Z.shiftl 1 8.
Definition DMA_TI_SRC_WIDTH : Z := Z.shiftl 1 9.
Definition DMA_TI_SRC_DREQ : Z := Z.shiftl 1 10.
Definition DMA_TI_SRC_IGNORE : Z := Z.shiftl 1 11.
Definition DMA_TI_PERMAP (x : Z) : Z := Z.shiftl (Z.land x 0x1f) 16.
Definition DMA_TI_NO_WIDE_BURSTS : Z := Z.shiftl 1 26.
Definition DMA_TRANSFER_WIDTH_32BIT : Z := 0.
Definition DMA_TRANSFER_WIDTH_128BIT : Z := 1.
Definition DMA_DREQ_NONE : Z := 0.
Definition DMA_DREQ_SPI_TX : Z := 6.
Definition DMA_DREQ_SPI_RX : Z := 7.
Definition RAM_PHY_TO_BUS_UNCACHED (x : Z) : Z := Z.lor (u32 x) 0xC0000000.

Inductive dma_ti_dreq_type_t := DMA_TI_DREQ_T_NONE | DMA_TI_DREQ_T_SRC | DMA_TI_DREQ_T_DST.
Inductive dma_addr_type_t := DMA_TI_ADDR_TYPE_IGNOR | DMA_TI_ADDR_TYPE_INC_Y | DMA_TI_ADDR_TYPE_INC_N.

Definition dma_make_ti_value (dreq : Z) (dreq_type : dma_ti_dreq_type_t) (src_addr_type dst_addr_type : dma_addr_type_t)
    (wait_resp : bool) : Z :=
  let value := match src_addr_type with
    DMA_TI_ADDR_TYPE_IGNOR => DMA_TI_SRC_IGNORE | DMA_TI_ADDR_TYPE_INC_Y => DMA_TI_SRC_INC | DMA_TI_ADDR_TYPE_INC_N => 0 end in
  let value := Z.lor value (match dst_addr_type with
    DMA_TI_ADDR_TYPE_IGNOR => DMA_TI_DEST_IGNORE | DMA_TI_ADDR_TYPE_INC_Y => DMA_TI_DEST_INC | DMA_TI_ADDR_TYPE_INC_N => 0 end) in
  let value := Z.lor value (match dreq_type with
    DMA_TI_DREQ_T_SRC => DMA_TI_SRC_DREQ | DMA_TI_DREQ_T_DST => DMA_TI_DEST_DREQ | DMA_TI_DREQ_T_NONE => 0 end) in
  let value := Z.lor value (DMA_TI_PERMAP dreq) in
  let value := Z.lor value DMA_TI_NO_WIDE_BURSTS in
  if wait_resp then Z.lor value DMA_TI_WAIT_RESP else value.

Record dma_ch_opts_t := DmaOpts {
  channel : Z; o_src : Z; src_inc : Z; src_ign : Z; src_dreq : Z; o_dst : Z; dst_inc : Z; dst_ign : Z; dst_dreq : Z; o_len : Z }.

(** [struct dma_control_block]: eight words. *)
Definition sizeof_control_block : Z := 32.
Definition control_block_words (ti src dst len next : Z) : list Z := [ti; src; dst; len; 0; next; 0; 0].

(** Registers and the memory the control blocks are allocated in. *)
Record dma_drv (D : Type) := DmaDrv { dregs : D; dstate : dma_state }.
Arguments DmaDrv {D}.
Arguments dregs {D}.
Arguments dstate {D}.

#[export] Instance dma_drv_mmio {D} `{Mmio D} : Mmio (dma_drv D) := {|
  mmio_read r s := let '(v, d) := mmio_read r (dregs s) in (v, DmaDrv d (dstate s));
  mmio_write r v s := DmaDrv (mmio_write r v (dregs s)) (dstate s) |}.

Section dma.
Context {D : Type} `{Mmio D} (L : layout) (fuel : nat).
Abbreviation S := (dma_drv D).

Definition change_reg (r : Z) (f : Z → Z) : io S unit := v ← read_reg r; write_reg r (f (u32 v)).

Definition dma_set_transfer_width (channel width : Z) : io S Z :=
  ti ← read_reg (DMA_TI channel);
  let ti := u32 ti in
  if width =? DMA_TRANSFER_WIDTH_32BIT then
    _ ← write_reg (DMA_TI channel) (Z.ldiff (Z.ldiff ti DMA_TI_SRC_WIDTH) DMA_TI_DEST_WIDTH); mret ERR_OK
  else if width =? DMA_TRANSFER_WIDTH_128BIT then
    _ ← write_reg (DMA_TI channel) (Z.lor (Z.lor ti DMA_TI_SRC_WIDTH) DMA_TI_DEST_WIDTH); mret ERR_OK
  else mret ERR_INVAL_ARG.

Definition dma_set_control_block (channel cb : Z) : io S Z :=
  _ ← write_reg (DMA_CONBLK_AD channel) (RAM_PHY_TO_BUS_UNCACHED cb); mret ERR_OK.
Definition dma_set_active (channel : Z) : io S Z :=
  _ ← change_reg (DMA_CS channel) (λ cs, Z.lor (Z.lor cs DMA_CS_ACTIVE) DMA_CS_WAIT_FOR_OUTSTANDING_WRITES); mret ERR_OK.
Definition dma_enable (channel : Z) : io S Z := _ ← change_reg DMA_ENABLE (λ v, Z.lor v (Z.shiftl 1 channel)); mret ERR_OK.
Definition dma_reset (channel : Z) : io S Z := _ ← change_reg (DMA_CS channel) (λ v, Z.lor v DMA_CS_RESET); mret ERR_OK.

Definition dma_ti_of (o : dma_ch_opts_t) : Z :=
  let flag c v := if c : bool then v else 0 in
  foldl Z.lor (DMA_TI_PERMAP (Z.lor (src_dreq o) (dst_dreq o)))
    [flag (truth (src_inc o)) DMA_TI_SRC_INC; flag (truth (src_ign o)) DMA_TI_DEST_IGNORE; flag (negb (src_dreq o =? DMA_DREQ_NONE)) DMA_TI_SRC_DREQ;
     flag (truth (dst_inc o)) DMA_TI_DEST_INC; flag (truth (dst_ign o)) DMA_TI_DEST_IGNORE; flag (negb (dst_dreq o =? DMA_DREQ_NONE)) DMA_TI_DEST_DREQ;
     DMA_TI_NO_WIDE_BURSTS; DMA_TI_WAIT_RESP].

Definition alloc_control_block : io S Z := λ s, '(d, cb) ← dma_alloc L fuel sizeof_control_block (dstate s); Ret (cb, DmaDrv (dregs s) d).
Definition store_words (p : Z) (l : list Z) : io S unit := λ s,
  m ← store_le (4 * length l) (dmem (dstate s)) p (foldr (λ w v, u32 w + 2 ^ 32 * v) 0 l); Ret (tt, DmaDrv (dregs s) (with_dmem (dstate s) m)).

Definition dma_setup (o : dma_ch_opts_t) : io S Z :=
  cb ← alloc_control_block;
  _ ← store_words cb (control_block_words (dma_ti_of o) (o_src o) (o_dst o) (o_len o) 0);
  _ ← dma_set_control_block (channel o) cb;
  mret ERR_OK.

Definition dma_clear_end_flag (channel : Z) : io S Z := _ ← change_reg (DMA_CS channel) (λ v, Z.lor v DMA_CS_END); mret ERR_OK.
Definition dma_transfer_is_done (channel : Z) : io S Z := v ← read_reg (DMA_CS channel); mret (Z.land (u32 v) DMA_CS_END).
Definition dma_transfer_error (channel : Z) : io S Z := v ← read_reg (DMA_CS channel); mret (Z.land (u32 v) DMA_CS_ERROR).
(** Writing a set flag back clears it. *)
Definition dma_clear_transfer (channel : Z) : io S Z :=
  _ ← change_reg (DMA_CS channel) (λ cs,
    let cs := if truth (Z.land cs DMA_CS_END) then Z.lor cs DMA_CS_END else cs in
    if truth (Z.land cs DMA_CS_INT) then Z.lor cs DMA_CS_INT else cs);
  mret ERR_OK.
End dma.

(** ** SPI0 *)
Definition SPI_BASE : Z := 0x3f204000.
Definition SPI_CS : Z := SPI_BASE.
Definition SPI_FIFO : Z := SPI_BASE + 0x4.
Definition SPI_CLK : Z := SPI_BASE + 0x8.
Definition SPI_DLEN : Z := SPI_BASE + 0xc.
Definition SPI_CS_CLEAR : Z := Z.shiftl 3 4.
Definition SPI_CS_TA : Z := Z.shiftl 1 7.
Definition SPI_CS_DMAEN : Z := Z.shiftl 1 8.
Definition SPI_CS_ADCS : Z := Z.shiftl 1 11.
Definition SPI_CS_DONE : Z := Z.shiftl 1 16.
Definition SPI_CS_RXD : Z := Z.shiftl 1 17.
Definition SPI_CS_TXD : Z := Z.shiftl 1 18.
Definition SPI_CS_RXR : Z := Z.shiftl 1 19.
Definition DMA_CHANNEL_SPI_TX : Z := 0.
Definition DMA_CHANNEL_SPI_RX : Z := 1.
Definition SPI_FIFO_BUS : Z := 0x7E204004.

(** The pins of SPI0 and their function. *)
Definition gpio_get_role_spi0 : list (Z * Z) := [(7, GPIO_FUNC_ALT_0); (8, GPIO_FUNC_ALT_0); (9, GPIO_FUNC_ALT_0); (10, GPIO_FUNC_ALT_0); (11, GPIO_FUNC_ALT_0)].

(** [while (!(read_reg(r) & mask));], a turn per fuel. *)
Definition wait_set {D} `{Mmio D} (fuel : nat) (r mask : Z) : io D unit :=
  io_loop fuel (v ← read_reg r; mret (if truth (Z.land (u32 v) mask) then Some tt else None)).

Section spi0.
Context {D : Type} `{Mmio D} (fuel : nat).

Fixpoint spi_init_gpio_loop (l : list (Z * Z)) : io D unit :=
  match l with [] => mret tt | (num, fun_) :: l => _ ← gpio_set_function num fun_; spi_init_gpio_loop l end.
Definition spi_init_gpio : io D Z := _ ← spi_init_gpio_loop gpio_get_role_spi0; mret ERR_OK.

(** What the controller received is read and dropped. *)
Definition drain_rx : io D unit :=
  io_loop fuel (cs ← read_reg SPI_CS;
    if truth (Z.land (u32 cs) SPI_CS_RXD) then _ ← read_reg SPI_FIFO; mret None else mret (Some tt)).
Definition spi0_send (byte_in : Z) : io D unit :=
  _ ← wait_set fuel SPI_CS SPI_CS_TXD;
  _ ← drain_rx;
  _ ← write_reg SPI_FIFO byte_in;
  wait_set fuel SPI_CS SPI_CS_DONE.
Fixpoint spi0_send_all (bytes_in : list Z) : io D unit :=
  match bytes_in with [] => mret tt | b :: bytes_in => _ ← spi0_send b; spi0_send_all bytes_in end.

(** Nothing is stored to the output buffer. *)
Definition spi0_xmit_byte (byte_in : Z) : io D Z :=
  _ ← write_reg SPI_CS SPI_CS_CLEAR;
  _ ← write_reg SPI_CS SPI_CS_TA;
  _ ← spi0_send byte_in;
  _ ← write_reg SPI_CS 0;
  mret ERR_OK.
Definition spi0_xmit (bytes_in : list Z) : io D Z :=
  _ ← write_reg SPI_CS SPI_CS_CLEAR;
  _ ← write_reg SPI_CS SPI_CS_TA;
  _ ← spi0_send_all bytes_in;
  _ ← write_reg SPI_CS 0;
  mret ERR_OK.
End spi0.

Section spi0_dma.
Context {D : Type} `{Mmio D} (L : layout) (fuel : nat).
Abbreviation S := (dma_drv D).

(** [RET_IF_ERR]. *)
Definition ret_if_err (m k : io S Z) : io S Z := err ← m; if negb (err =? ERR_OK) then mret err else k.

Definition spi0_init_dma : io S Z :=
  ret_if_err (dma_reset DMA_CHANNEL_SPI_TX) (ret_if_err (dma_reset DMA_CHANNEL_SPI_RX)
    (ret_if_err (dma_enable DMA_CHANNEL_SPI_TX) (ret_if_err (dma_enable DMA_CHANNEL_SPI_RX) (mret ERR_OK)))).

(** [data_out], [data_in] and the addresses of the two stubs on the stack.  The
    first word of the output buffer is overwritten; without an output buffer the
    length of the outgoing transfer stays 0. *)
Definition spi0_xmit_dma (stub_in stub_out data_out data_in bytelen : Z) : io S Z :=
  if (data_out =? NULL) && (data_in =? NULL) then mret ERR_INVAL_ARG else
  _ ← change_reg SPI_CS (λ v, Z.lor v (Z.lor (Z.lor SPI_CS_CLEAR SPI_CS_DMAEN) SPI_CS_ADCS));
  _ ← (if data_out =? NULL then mret tt else store_words data_out [Z.lor (Z.shiftl bytelen 16) SPI_CS_TA]);
  _ ← dma_setup L fuel (if data_out =? NULL
    then DmaOpts DMA_CHANNEL_SPI_TX (RAM_PHY_TO_BUS_UNCACHED stub_out) 0 0 DMA_DREQ_NONE SPI_FIFO_BUS 0 0 DMA_DREQ_SPI_TX 0
    else DmaOpts DMA_CHANNEL_SPI_TX (RAM_PHY_TO_BUS_UNCACHED data_out) 1 0 DMA_DREQ_NONE SPI_FIFO_BUS 0 0 DMA_DREQ_SPI_TX (u32 (bytelen + 4)));
  _ ← dma_setup L fuel (if data_in =? NULL
    then DmaOpts DMA_CHANNEL_SPI_RX SPI_FIFO_BUS 0 0 DMA_DREQ_SPI_RX (RAM_PHY_TO_BUS_UNCACHED stub_in) 0 0 DMA_DREQ_NONE bytelen
    else DmaOpts DMA_CHANNEL_SPI_RX SPI_FIFO_BUS 0 0 DMA_DREQ_SPI_RX (RAM_PHY_TO_BUS_UNCACHED data_in) 1 0 DMA_DREQ_NONE bytelen);
  _ ← dma_set_active DMA_CHANNEL_SPI_TX;
  _ ← dma_set_active DMA_CHANNEL_SPI_RX;
  _ ← dma_clear_transfer DMA_CHANNEL_SPI_TX;
  _ ← dma_clear_transfer DMA_CHANNEL_SPI_RX;
  mret ERR_OK.

Definition spi0_init : io S Z :=
  _ ← spi_init_gpio;
  _ ← write_reg SPI_CLK 32;
  _ ← write_reg SPI_CS SPI_CS_CLEAR;
  _ ← read_reg SPI_CS;
  spi0_init_dma.

(** The control block of a transfer is 32 bytes, a request for which the
    allocator reads outside its table. *)
Lemma dma_setup_faults o (s : S) : dma_setup L fuel o s = Fault.
Proof. done. Qed.
End spi0_dma.

(** The three controllers; only SPI0 is ever initialised. *)
Definition spi_get_dev (spi0_dev spi1_dev spi2_dev : Z) (init0 init1 init2 : bool) (type : Z) : Z :=
  if type =? SPI_TYPE_SPI0 then (if init0 then spi0_dev else 0)
  else if type =? SPI_TYPE_SPI1 then (if init1 then spi1_dev else 0)
  else if type =? SPI_TYPE_SPI2 then (if init2 then spi2_dev else 0) else 0.

(** [!strncmp(word, string, len)] for a C string given by its bytes. *)
Fixpoint same_prefix (len : nat) (a b : list Z) : bool :=
  match len with
  | O => true
  | Datatypes.S len => let x := default 0 (head a) in let y := default 0 (head b) in
    (x =? y) && ((x =? 0) || same_prefix len (tail a) (tail b))
  end.
Definition spi_type_from_string (string : list Z) (len : nat) : Z :=
  if same_prefix len [115; 112; 105; 48] string then SPI_TYPE_SPI0
  else if same_prefix len [115; 112; 105; 49] string then SPI_TYPE_SPI1
  else if same_prefix len [115; 112; 105; 50] string then SPI_TYPE_SPI2
  else if same_prefix len [115; 112; 105; 95; 101; 109; 117; 108; 97; 116; 101; 100] string || same_prefix len [101; 109; 117; 108; 97; 116; 101; 100] string
  then SPI_TYPE_EMULATED else SPI_TYPE_UNKNOWN.
