(* ===== verification/Avr.v ===== *)
(** * The AVR programmer (drivers/atmega8a/atmega8a.c, avr_update.c)

    Commands of four bytes to a microcontroller on an SPI bus: reading and
    writing its flash page by page, and downloading a firmware. *)

From S2P Require Import Prelude Lists Bits Exceptions Mmio GpioSet Gpio SpiEmu Spi.

Definition ATMEGA8A_PAGES_PER_FLASH : Z := 128.
Definition ATMEGA8A_BYTES_PER_WORD : Z := 2.
Definition ATMEGA8A_FLASH_WORDS_PER_PAGE : Z := 32.
Definition ATMEGA8A_FLASH_BYTES_PER_PAGE : Z := ATMEGA8A_FLASH_WORDS_PER_PAGE * ATMEGA8A_BYTES_PER_WORD.
Definition ATMEGA8A_FLASH_BYTES_TOTAL : Z := ATMEGA8A_FLASH_BYTES_PER_PAGE * ATMEGA8A_PAGES_PER_FLASH.
Definition ERR_GENERIC : Z := -9.

(** [atmega8a_dev], with the bus and the pin registry it works on. *)
Record avr_drv (B : Type) := AvrDrv { hw : B; owners : gpio_state; dev_spi : Z; gpio_pin_reset : Z; dev_gpio_set_handle : Z }.
Arguments AvrDrv {B}.
Arguments hw {B}.
Arguments owners {B}.
Arguments dev_spi {B}.
Arguments gpio_pin_reset {B}.
Arguments dev_gpio_set_handle {B}.

Section avr.
Context {B : Type} `{Mmio B} `{!SpiBus B} (spi_deallocate : Z → io B Z).
Abbreviation S := (avr_drv B).

Definition on_hw {A} (m : io B A) : io S A := λ s,
  '(a, b) ← m (hw s); Ret (a, AvrDrv b (owners s) (dev_spi s) (gpio_pin_reset s) (dev_gpio_set_handle s)).
Definition the_spi : io S Z := λ s, Ret (dev_spi s, s).

(** A call through a null device pointer faults. *)
Definition atmega8a_cmd (spidev : Z) (cmd : list Z) : io S (Z * list Z) :=
  if spidev =? NULL then lift Fault else on_hw (spi_xmit spidev cmd).

(** A command on [atmega8a_dev.spi], and byte [k] of the answer. *)
Definition dev_cmd (cmd : list Z) (k : nat) : io S (option Z) :=
  spi ← the_spi; '(err, res) ← atmega8a_cmd spi cmd;
  if negb (err =? ERR_OK) then mret None else x ← lift (deref (res !! k)); mret (Some x).

(** ** Start and end *)
Fixpoint read_signature_loop (spidev : Z) (n : nat) (i tmp : Z) : io S (option Z) :=
  match n with
  | O => mret (Some tmp)
  | Datatypes.S n =>
    '(err, res) ← atmega8a_cmd spidev [0x30; 0; Z.land i 3; 0];
    if negb (err =? ERR_OK) then mret None else
    x ← lift (deref (res !! 3%nat));
    read_signature_loop spidev n (i + 1) (u32 (Z.lor (Z.shiftl tmp 8) x))
  end.
Definition atmega8a_read_signature (spidev : Z) : io S (option Z) := read_signature_loop spidev 3 0 0.

(** "ATMEGA8_GPIO_RS" *)
Definition atmega8a_reset_key : list Z := [65; 84; 77; 69; 71; 65; 56; 95; 71; 80; 73; 79; 95; 82; 83].
Definition request_pin (pin : Z) (key : list Z) : io S Z := λ s,
  '(g, h) ← gpio_set_request_1_pins (owners s) pin key; Ret (h, AvrDrv (hw s) g (dev_spi s) (gpio_pin_reset s) (dev_gpio_set_handle s)).
Definition release_pin (handle : Z) : io S Z := λ s,
  '(g, err) ← gpio_set_release (owners s) handle; Ret (err, AvrDrv (hw s) g (dev_spi s) (gpio_pin_reset s) (dev_gpio_set_handle s)).
Definition set_device (spi pin handle : Z) : io S unit := λ s, Ret (tt, AvrDrv (hw s) (owners s) spi pin handle).
Definition pin_on (pin : Z) : io S unit := _ ← on_hw (gpio_set_on (u32 pin)); mret tt.
Definition pin_off (pin : Z) : io S unit := _ ← on_hw (gpio_set_off (u32 pin)); mret tt.

Definition atmega8a_init (spidev pin : Z) : io S Z :=
  handle ← request_pin pin atmega8a_reset_key;
  if handle =? GPIO_SET_INVALID_HANDLE then mret ERR_BUSY else
  _ ← on_hw (gpio_set_function (u32 pin) GPIO_FUNC_OUT);
  _ ← pin_off pin;
  _ ← pin_on pin; _ ← pin_off pin; _ ← pin_on pin; _ ← pin_off pin;
  '(err, res) ← atmega8a_cmd spidev [0xac; 0x53; 0; 0];
  if negb (err =? ERR_OK) then mret ERR_FATAL else
  x ← lift (deref (res !! 2%nat));
  if negb (x =? 0x53) then mret ERR_FATAL else
  sig ← atmega8a_read_signature spidev;
  match sig with
  | None => mret ERR_FATAL
  | Some _ => _ ← set_device spidev pin handle; mret ERR_OK
  end.

(** The pointer stays set after the device is released. *)
Definition atmega8a_drop_spi : io S Z :=
  spi ← the_spi; if spi =? NULL then mret ERR_OK else on_hw (spi_deallocate spi).
Definition atmega8a_deinit : io S Z :=
  err ← atmega8a_drop_spi;
  if truth err then mret err else
  pin ← (λ s, Ret (gpio_pin_reset s, s)); handle ← (λ s, Ret (dev_gpio_set_handle s, s));
  _ ← pin_off pin;
  _ ← on_hw (gpio_set_function (u32 pin) GPIO_FUNC_OUT);
  release_pin handle.
Definition atmega8a_reset : io S Z :=
  spi ← the_spi; if spi =? NULL then mret ERR_NOT_INIT else
  pin ← (λ s, Ret (gpio_pin_reset s, s));
  _ ← pin_on pin; _ ← pin_off pin; _ ← pin_on pin; mret ERR_OK.

(** ** Flash *)

(** [src] are the bytes from the source pointer on. *)
Fixpoint page_fill_loop (n : nat) (wordaddr : Z) (src : list Z) : io S Z :=
  match n with
  | O => mret ERR_OK
  | Datatypes.S n =>
    lo ← lift (deref (src !! 0%nat));
    r ← dev_cmd [0x40; 0; Z.land wordaddr 0x1f; lo] 0;
    if negb (bool_decide (is_Some r)) then mret ERR_FATAL else
    hi ← lift (deref (src !! 1%nat));
    r ← dev_cmd [0x48; 0; Z.land wordaddr 0x1f; hi] 0;
    if negb (bool_decide (is_Some r)) then mret ERR_FATAL else
    page_fill_loop n (wordaddr + 1) (drop 2 src)
  end.
Definition atmega8a_flash_page_fill (src : list Z) : io S Z := page_fill_loop 32 0 src.

(** The 64 attempts to see the value written. *)
Fixpoint page_write_check (n : nat) (cmd : list Z) (check_value : Z) : io S Z :=
  match n with
  | O => mret ERR_FATAL
  | Datatypes.S n =>
    r ← dev_cmd cmd 3;
    match r with
    | None => mret ERR_FATAL
    | Some x => if x =? check_value then mret ERR_OK else page_write_check n cmd check_value
    end
  end.

Definition atmega8a_flash_page_write (page check_value check_addr : Z) : io S Z :=
  if ATMEGA8A_PAGES_PER_FLASH <=? page then mret ERR_INVAL_ARG else
  if negb (check_value =? 0xff) && (ATMEGA8A_FLASH_BYTES_TOTAL <? check_addr) then mret ERR_FATAL else
  r ← dev_cmd [0x4c; Z.land (Z.shiftr page 3) 0xf; u8 (Z.shiftl (Z.land page 7) 5); 0] 0;
  if negb (bool_decide (is_Some r)) then mret ERR_FATAL else
  if check_value =? 0xff then mret ERR_OK else
  let high := Z.land check_addr 1 in
  let check_addr := Z.quot (check_addr + page * ATMEGA8A_FLASH_BYTES_PER_PAGE) ATMEGA8A_BYTES_PER_WORD in
  page_write_check 64 [Z.lor 0x20 (Z.shiftl high 3); Z.land (Z.shiftr check_addr 8) 0xf; Z.land check_addr 0xff; 0] check_value.

(** The first of [n] bytes that is not [fill_value], from index [i]; -1 if none. *)
Fixpoint find_first_not (n : nat) (buf : list Z) (fill_value i : Z) : outcome Z :=
  match n with
  | O => Ret (-1)
  | Datatypes.S n => x ← deref (head buf); if negb (x =? fill_value) then Ret i else find_first_not n (tail buf) fill_value (i + 1)
  end.
Definition mem_find_first_not (buf : list Z) (sz fill_value : Z) : outcome Z := find_first_not (Z.to_nat sz) buf fill_value 0.

Definition atmega8a_write_flash_check (start_page end_page buf_sz : Z) : Z :=
  if ATMEGA8A_PAGES_PER_FLASH <=? start_page then ERR_INVAL_ARG else
  if ATMEGA8A_PAGES_PER_FLASH <=? end_page then ERR_INVAL_ARG else
  if truth (Z.rem buf_sz ATMEGA8A_FLASH_BYTES_PER_PAGE) then ERR_INVAL_ARG else ERR_OK.

Definition write_flash_page (page : Z) (src : list Z) : io S Z :=
  check_addr ← lift (mem_find_first_not src ATMEGA8A_FLASH_BYTES_PER_PAGE 0xff);
  if check_addr =? -1 then mret ERR_OK else
  check_value ← lift (deref (src !! Z.to_nat check_addr));
  err ← atmega8a_flash_page_fill src;
  if negb (err =? ERR_OK) then mret ERR_FATAL else
  err ← atmega8a_flash_page_write page check_value check_addr;
  mret (if negb (err =? ERR_OK) then ERR_FATAL else ERR_OK).
(** Pages [page] to [page + n - 1]. *)
Fixpoint write_flash_loop (n : nat) (page : Z) (src : list Z) : io S Z :=
  match n with
  | O => mret ERR_OK
  | Datatypes.S n =>
    err ← write_flash_page page src;
    if negb (err =? ERR_OK) then mret err else write_flash_loop n (page + 1) (drop 64 src)
  end.
Definition atmega8a_write_flash (buf : list Z) (sz from_page : Z) : io S Z :=
  let num_pages := Z.quot sz ATMEGA8A_FLASH_BYTES_PER_PAGE in
  let ret := atmega8a_write_flash_check from_page (from_page + num_pages) sz in
  if negb (ret =? ERR_OK) then mret ret else write_flash_loop (Z.to_nat num_pages) from_page buf.

(** The bytes read, with the code. *)
Fixpoint read_flash_loop (n : nat) (wordaddr high : Z) (got : list Z) : io S (Z * list Z) :=
  match n with
  | O => mret (ERR_OK, got)
  | Datatypes.S n =>
    r ← dev_cmd [Z.lor 0x20 (Z.shiftl high 3); Z.land (Z.shiftr wordaddr 8) 0xf; Z.land wordaddr 0xff; 0] 3;
    match r with
    | None => mret (ERR_FATAL, got)
    | Some x => read_flash_loop n (u16 (wordaddr + high)) (Z.lxor high 1) (got ++ [x])
    end
  end.
Definition atmega8a_read_flash_memory (sz byte_addr : Z) : io S (Z * list Z) :=
  read_flash_loop (Z.to_nat sz) (u16 (Z.quot byte_addr 2)) (Z.land byte_addr 1) [].

(** ** EEPROM, fuses and lock bits *)
Fixpoint write_eeprom_loop (n : nat) (byte_addr : Z) (src : list Z) : io S Z :=
  match n with
  | O => mret ERR_OK
  | Datatypes.S n =>
    x ← lift (deref (head src));
    r ← dev_cmd [0xc0; Z.land (Z.shiftr byte_addr 8) 1; Z.land byte_addr 0xff; x] 0;
    if negb (bool_decide (is_Some r)) then mret ERR_FATAL else write_eeprom_loop n (byte_addr + 1) (tail src)
  end.
Definition atmega8a_write_eeprom (buf : list Z) (sz byte_addr : Z) : io S Z := write_eeprom_loop (Z.to_nat sz) byte_addr buf.

Fixpoint read_eeprom_loop (n : nat) (addr : Z) (got : list Z) : io S (Z * list Z) :=
  match n with
  | O => mret (ERR_OK, got)
  | Datatypes.S n =>
    r ← dev_cmd [0xa0; Z.land (Z.shiftr addr 8) 1; Z.land addr 0xff; 0] 3;
    match r with None => mret (ERR_FATAL, got) | Some x => read_eeprom_loop n (addr + 1) (got ++ [x]) end
  end.
Definition atmega8a_read_eeprom_memory (sz addr : Z) : io S (Z * list Z) := read_eeprom_loop (Z.to_nat sz) addr [].

Definition code_only (cmd : list Z) : io S Z := r ← dev_cmd cmd 0; mret (if bool_decide (is_Some r) then ERR_OK else ERR_FATAL).
Definition atmega8a_write_fuse_bits_low (fuse_low : Z) : io S Z := code_only [0xac; 0xa0; 0; fuse_low].
Definition atmega8a_read_fuse_bits : io S (Z * option Z * option Z) :=
  low ← dev_cmd [0x50; 0; 0; 0] 3;
  match low with
  | None => mret (ERR_FATAL, None, None)
  | Some _ => high ← dev_cmd [0x58; 0x80; 0; 0] 3; mret (if bool_decide (is_Some high) then ERR_OK else ERR_FATAL, low, high)
  end.
Definition atmega8a_get_flash_size : Z := ATMEGA8A_FLASH_BYTES_TOTAL.
Definition atmega8a_get_eeprom_size : Z := 512.
Definition atmega8a_chip_erase : io S Z := code_only [0xac; 0x80; 0; 0].
Definition atmega8a_read_lock_bits : io S (Z * option Z) :=
  r ← dev_cmd [0x58; 0; 0; 0] 3; mret (if bool_decide (is_Some r) then ERR_OK else ERR_FATAL, r).
(** The value to write is never put into the command. *)
Definition atmega8a_write_lock_bits (lock_bits : Z) : io S Z := code_only [0x5c; 0; 0; 0].

(** ** avr_update.c *)
Definition atmega8a_download (bin : list Z) (bin_size : Z) : io S Z :=
  if 8192 <? bin_size then mret ERR_GENERIC else
  let padded := truth (Z.rem bin_size 64) in
  let binary_size := if padded then (Z.quot bin_size 64 + 1) * 64 else bin_size in
  let binary := if padded then take (Z.to_nat bin_size) bin ++ replicate (Z.to_nat 8192 - Z.to_nat bin_size) 0xee else bin in
  err ← atmega8a_chip_erase;
  if negb (err =? ERR_OK) then mret err else
  err ← atmega8a_write_flash binary binary_size 0;
  if negb (err =? ERR_OK) then mret err else
  '(err, membuf) ← atmega8a_read_flash_memory bin_size 0;
  if negb (err =? ERR_OK) then mret err else
  mret (if bool_decide (membuf = take (Z.to_nat bin_size) bin) then ERR_OK else ERR_GENERIC).

(** Four bytes at an address, the lowest first. *)
Definition unaligned_read32 (l : list Z) : outcome Z :=
  b0 ← deref (l !! 0%nat); b1 ← deref (l !! 1%nat); b2 ← deref (l !! 2%nat); b3 ← deref (l !! 3%nat);
  Ret (u32 (Z.lor (Z.shiftl (u32 (Z.lor (Z.shiftl (u32 (Z.lor (Z.shiftl b3 8) b2)) 8) b1)) 8) b0)).

Definition ATMEGA8A_FUSE_CPU_FREQ_MASK : Z := 0xf.
Definition ATMEGA8A_FUSE_CPU_FREQ_8MHZ : Z := 0x4.
Definition avr_program : io S Z := atmega8a_write_fuse_bits_low (Z.lor 0xe0 (Z.land ATMEGA8A_FUSE_CPU_FREQ_8MHZ ATMEGA8A_FUSE_CPU_FREQ_MASK)).
Definition avr_dump_firmware : io S (Z * list Z) := atmega8a_read_flash_memory (c_min atmega8a_get_flash_size 8192) 0.

(** "ATMGBIN8" and "ATMGEND0". *)
Definition ATMEGA_FIRMWARE_HEADER : list Z := [65; 84; 77; 71; 66; 73; 78; 56].
Definition ATMEGA_FIRMWARE_HEADER_END : list Z := [65; 84; 77; 71; 69; 78; 68; 48].

(** [bin] is the image linked into the kernel; its footer of 20 bytes holds the
    checksum between two markers. *)
Definition avr_update (bin : list Z) : io S Z :=
  let binsz := Z.of_nat (length bin) in
  let footer_offset := binsz - 8 - 8 - 4 in
  if footer_offset <? 0 then lift Fault else
  let footer := drop (Z.to_nat footer_offset) bin in
  if negb (same_prefix 8 footer ATMEGA_FIRMWARE_HEADER) then mret ERR_INVAL_ARG else
  if negb (same_prefix 8 (drop 12 footer) ATMEGA_FIRMWARE_HEADER_END) then mret ERR_INVAL_ARG else
  new_checksum ← lift (unaligned_read32 (drop 8 footer));
  '(err, old) ← atmega8a_read_flash_memory 4 (footer_offset + 8);
  if negb (err =? ERR_OK) then mret err else
  old_checksum ← lift (unaligned_read32 old);
  _ ← (if new_checksum =? old_checksum then mret ERR_OK else _ ← avr_program; atmega8a_download bin binsz);
  atmega8a_reset.

(** [ret], then the fuse and lock bits are read for the log. *)
Definition init_atmega8a (spidev : Z + Z) : io S Z :=
  match spidev with
  | inl _ => mret ERR_GENERIC
  | inr spidev =>
    ret ← atmega8a_init spidev 26;
    if negb (ret =? ERR_OK) then mret ERR_GENERIC else
    '(err, _, _) ← atmega8a_read_fuse_bits;
    if negb (err =? ERR_OK) then mret ERR_GENERIC else
    '(err, _) ← atmega8a_read_lock_bits;
    mret (if negb (err =? ERR_OK) then ERR_GENERIC else ERR_OK)
  end.
End avr.

(** ** The microcontroller

    The serial programming instructions of the data sheet: 8192 bytes of flash
    in pages of 64, a page buffer, and a time after a write and after an erase
    during which the flash reads as 0xff and other instructions are ignored: it
    lasts [write_time] and [erase_time] instructions.  Programming clears bits
    only. *)
Record avr := Avr { flash : list Z; page_buf : list Z; busy : nat }.

Definition avr_erase (erase_time : nat) : avr := Avr (replicate (Z.to_nat 8192) 0xff) (replicate 64 0xff) erase_time.
Definition avr_load (c : avr) (a x : Z) : avr := Avr (flash c) (<[Z.to_nat a := x]> (page_buf c)) (busy c).
Definition program_page (p : nat) (buf l : list Z) : list Z :=
  take (64 * p) l ++ zip_with Z.land buf (take 64 (drop (64 * p) l)) ++ drop (64 * p + 64) l.
Definition avr_write (write_time : nat) (c : avr) (p : Z) : avr :=
  Avr (program_page (Z.to_nat p) (page_buf c) (flash c)) (replicate 64 0xff) write_time.
Definition avr_read (c : avr) (a : Z) : avr * Z :=
  match busy c with
  | O => (c, default 0xff (flash c !! Z.to_nat a))
  | Datatypes.S n => (Avr (flash c) (page_buf c) n, 0xff)
  end.

(** The chip after an instruction, and the last byte it answers. *)
Definition avr_exec (write_time erase_time : nat) (c : avr) (c0 c1 c2 c3 : Z) : avr * Z :=
  let high := c0 `div` 8 `mod` 2 in
  if (c0 =? 0x20) || (c0 =? 0x28) then avr_read c (2 * (256 * (c1 `mod` 16) + c2) + high) else
  if bool_decide (busy c ≠ 0%nat) then (Avr (flash c) (page_buf c) (pred (busy c)), 0) else
  if (c0 =? 0x40) || (c0 =? 0x48) then (avr_load c (2 * (c2 `mod` 32) + high) c3, 0) else
  if c0 =? 0x4c then (avr_write write_time c (8 * (c1 `mod` 16) + c2 `div` 32), 0) else
  if (c0 =? 0xac) && (c1 =? 0x80) then (avr_erase erase_time, 0) else (c, 0).

Abbreviation bytes := (Forall (λ x, 0 ≤ x < 256)).

(** A bus with the chip at [avr_spi]; the chip echoes the bytes it gets, one byte late. *)
Class AvrBus (B : Type) `{SpiBus B} (write_time erase_time : nat) : Type := {
  avr_spi : Z;
  avr_chip : B → avr;
  avr_spi_set : avr_spi ≠ NULL;
  avr_xmit c0 c1 c2 c3 b : bytes [c0; c1; c2; c3] →
    ∃ b', spi_xmit avr_spi [c0; c1; c2; c3] b = Ret ((ERR_OK, [0; c0; c1; snd (avr_exec write_time erase_time (avr_chip b) c0 c1 c2 c3)]), b') ∧
      avr_chip b' = fst (avr_exec write_time erase_time (avr_chip b) c0 c1 c2 c3) }.

Ltac byte_list := repeat (apply Forall_cons; split); [lia..|apply Forall_nil; exact I].

Section chip.
Context {B : Type} `{SpiBus B} {write_time erase_time : nat} `{!AvrBus B write_time erase_time}.
Implicit Types (s : avr_drv B) (l : list Z).

Definition at_chip s c : Prop := dev_spi s = avr_spi ∧ avr_chip (hw s) = c.
(** [m] returns [a] and takes the chip from [c] to [c']. *)
Definition drives {A} (m : io (avr_drv B) A) c (a : A) c' : Prop := ∀ s, at_chip s c → ∃ s', m s = Ret (a, s') ∧ at_chip s' c'.

Lemma drives_ret {A} (a : A) c : drives (mret a) c a c.
Proof. intros s Hs. by exists s. Qed.

Lemma drives_bind {A A'} (m : io (avr_drv B) A) (f : A → io (avr_drv B) A') c a c' a' c'' :
  drives m c a c' → drives (f a) c' a' c'' → drives (m ≫= f) c a' c''.
Proof.
  intros Hm Hf s Hs. destruct (Hm s Hs) as (s1 & E1 & H1). destruct (Hf s1 H1) as (s2 & E2 & H2).
  exists s2. split; [|done]. unfold mbind, io_bind. by rewrite E1.
Qed.

Lemma drives_lift {A A'} (m : outcome A) a (f : A → io (avr_drv B) A') c a' c' :
  m = Ret a → drives (f a) c a' c' → drives (lift m ≫= f) c a' c'.
Proof. intros -> Hf s Hs. destruct (Hf s Hs) as (s' & E & Hs'). by exists s'. Qed.

Lemma drives_cmd c c0 c1 c2 c3 : bytes [c0; c1; c2; c3] →
  drives (atmega8a_cmd avr_spi [c0; c1; c2; c3]) c (ERR_OK, [0; c0; c1; snd (avr_exec write_time erase_time c c0 c1 c2 c3)]) (fst (avr_exec write_time erase_time c c0 c1 c2 c3)).
Proof.
  intros Hb s [Hs Hc]. unfold atmega8a_cmd. destruct (Z.eqb_spec avr_spi NULL) as [E|_]; [by destruct (avr_spi_set E)|].
  destruct (avr_xmit c0 c1 c2 c3 (hw s) Hb) as (b & E & Hb'). rewrite Hc in E, Hb'.
  eexists. split; [unfold on_hw; rewrite E; done|]. split; [done|]. by cbn.
Qed.

Lemma drives_dev_cmd {A} c c0 c1 c2 c3 k x (f : option Z → io (avr_drv B) A) a c' :
  bytes [c0; c1; c2; c3] → [0; c0; c1; snd (avr_exec write_time erase_time c c0 c1 c2 c3)] !! k = Some x →
  drives (f (Some x)) (fst (avr_exec write_time erase_time c c0 c1 c2 c3)) a c' → drives (dev_cmd [c0; c1; c2; c3] k ≫= f) c a c'.
Proof.
  intros Hb Hx Hf. eapply drives_bind; [|exact Hf].
  intros s Hs. destruct (drives_cmd c c0 c1 c2 c3 Hb s Hs) as (s' & E & Hs').
  exists s'. split; [|done]. unfold dev_cmd, the_spi. destruct Hs as [Hs _]. unfold mbind, io_bind. cbn [mbind outcome_bind].
  rewrite Hs, E. cbn -[lookup]. by rewrite Hx.
Qed.

(** ** The page buffer *)
Lemma load_page_byte c c0 w x pre y post : busy c = 0%nat → 0 ≤ w < 32 → c0 = 0x40 ∨ c0 = 0x48 →
  page_buf c = pre ++ y :: post → Z.of_nat (length pre) = 2 * w + c0 `div` 8 `mod` 2 →
  avr_exec write_time erase_time c c0 0 (Z.land w 0x1f) x = (Avr (flash c) (pre ++ x :: post) 0, 0).
Proof.
  intros Hb Hw Hc0 Hp Hl. change 0x1f with (Z.ones 5). rewrite Z.land_ones, (Z.mod_small w) by lia. unfold avr_exec.
  rewrite (bool_decide_eq_false_2 (busy c ≠ 0%nat)) by tauto.
  rewrite (Z.mod_small w) by lia. rewrite <- Hl.
  unfold avr_load. rewrite Nat2Z.id, Hp, Hb, insert_app_r_alt, Nat.sub_diag by lia. destruct Hc0 as [-> | ->]; done.
Qed.

Lemma page_fill_loop_fills n : ∀ w src c pre rest, busy c = 0%nat → 0 ≤ w → w + Z.of_nat n = 32 → bytes src → (2 * n ≤ length src)%nat →
  page_buf c = pre ++ rest → Z.of_nat (length pre) = 2 * w → length rest = (2 * n)%nat →
  drives (page_fill_loop n w src) c ERR_OK (Avr (flash c) (pre ++ take (2 * n) src) 0).
Proof.
  induction n as [|n IH]; intros w src c pre rest Hb Hw Hn Hsrc Hl Hp Hpre Hrest.
  { destruct rest; [|done]. destruct c; cbn in *; subst. apply drives_ret. }
  destruct src as [|lo [|hi src]]; cbn in Hl; [lia..|]. destruct rest as [|y1 [|y2 rest]]; cbn in Hrest; [lia..|].
  apply Forall_cons in Hsrc as [Hlo Hsrc]. apply Forall_cons in Hsrc as [Hhi Hsrc].
  assert (0 ≤ Z.land w 0x1f < 256) by (change 0x1f with (Z.ones 5); rewrite Z.land_ones by lia; dlia).
  cbn [page_fill_loop]. eapply drives_lift; [done|].
  assert (E1 : avr_exec write_time erase_time c 0x40 0 (Z.land w 0x1f) lo = (Avr (flash c) (pre ++ lo :: y2 :: rest) 0, 0))
    by (apply (load_page_byte c 0x40 w lo pre y1); auto; dlia).
  eapply drives_dev_cmd; [byte_list|done|]. rewrite E1. cbn [fst negb bool_decide is_Some_dec].
  eapply drives_lift; [done|].
  assert (E2 : avr_exec write_time erase_time (Avr (flash c) (pre ++ lo :: y2 :: rest) 0) 0x48 0 (Z.land w 0x1f) hi =
    (Avr (flash c) (pre ++ lo :: hi :: rest) 0, 0)).
  { rewrite (load_page_byte _ 0x48 w hi (pre ++ [lo]) y2 rest); [by rewrite <- app_assoc|done|lia|auto|by cbn; rewrite <- app_assoc|].
    rewrite length_app. cbn. dlia. }
  eapply drives_dev_cmd; [byte_list|done|]. rewrite E2. cbn [fst negb bool_decide is_Some_dec drop].
  replace (pre ++ take (2 * Datatypes.S n) (lo :: hi :: src)) with ((pre ++ [lo; hi]) ++ take (2 * n) src)
    by (rewrite <- app_assoc; replace (2 * Datatypes.S n)%nat with (Datatypes.S (Datatypes.S (2 * n))) by lia; done).
  apply (IH (w + 1) src (Avr (flash c) (pre ++ lo :: hi :: rest) 0) (pre ++ [lo; hi]) rest); [done|lia|lia|done|lia|by cbn; rewrite <- app_assoc| |lia].
  rewrite length_app. cbn. lia.
Qed.

(** ** Writing a page *)
Lemma land_ff_bytes l : bytes l → zip_with Z.land l (replicate (length l) 0xff) = l.
Proof.
  induction 1 as [|x l Hx Hl IH]; [done|]. cbn [length replicate zip_with]. rewrite IH. change 0xff with (Z.ones 8). by rewrite Z.land_ones, Z.mod_small by lia.
Qed.

Lemma program_page_erased p (W buf : list Z) k : length W = (64 * p)%nat → (64 ≤ k)%nat → length buf = 64%nat → bytes buf →
  program_page p buf (W ++ replicate k 0xff) = (W ++ buf) ++ replicate (k - 64) 0xff.
Proof.
  intros HW Hk Hb Hbytes. unfold program_page. rewrite <- HW, take_app_length, drop_app_length, take_replicate, Nat.min_l by lia.
  rewrite <- Hb at 1. rewrite land_ff_bytes by done. rewrite drop_app_ge, drop_replicate by lia.
  rewrite <- app_assoc. do 3 f_equal. lia.
Qed.

Lemma find_first_not_spec n buf (fill i : Z) : (n ≤ length buf)%nat →
  (find_first_not n buf fill i = Ret (-1) ∧ take n buf = replicate n fill) ∨
  (∃ j x, find_first_not n buf fill i = Ret (i + Z.of_nat j) ∧ (j < n)%nat ∧ buf !! j = Some x ∧ x ≠ fill).
Proof.
  revert buf i. induction n as [|n IH]; intros buf i Hn; [by left|]. destruct buf as [|y buf]; cbn in Hn; [lia|].
  cbn [find_first_not head deref mbind outcome_bind tail]. destruct (Z.eqb_spec y fill) as [->|Hy]; cbn [negb].
  - destruct (IH buf (i + 1)) as [[E T]|(j & x & E & Hj & Hx & Hne)]; [lia| |].
    + left. split; [done|]. cbn. by rewrite T.
    + right. exists (Datatypes.S j), x. split; [rewrite E; f_equal; lia|]. split; [lia|done].
  - right. exists 0%nat, y. split; [f_equal; lia|]. split; [lia|done].
Qed.

(** Byte [a] of the flash, as the driver addresses it. *)
Lemma exec_read c (a w h : Z) : a = 2 * w + h → 0 ≤ w < 4096 → 0 ≤ h < 2 →
  avr_exec write_time erase_time c (Z.lor 0x20 (Z.shiftl h 3)) (Z.land (Z.shiftr w 8) 0xf) (Z.land w 0xff) 0 = avr_read c a.
Proof.
  intros -> Hw Hh. change 0xff with (Z.ones 8). change 0xf with (Z.ones 4). rewrite !Z.land_ones, Z.shiftr_div_pow2 by lia.
  replace (2 * w + h) with (2 * (256 * ((w `div` 2 ^ 8) `mod` 2 ^ 4 `mod` 16) + w `mod` 2 ^ 8) + h) by (change (2^8) with 256; change (2^4) with 16; dlia).
  assert (h = 0 ∨ h = 1) as [-> | ->] by lia; done.
Qed.

Lemma read_cmd_bytes (w h : Z) : 0 ≤ h < 2 → bytes [Z.lor 0x20 (Z.shiftl h 3); Z.land (Z.shiftr w 8) 0xf; Z.land w 0xff; 0].
Proof.
  intros Hh. change 0xff with (Z.ones 8). change 0xf with (Z.ones 4). rewrite !Z.land_ones by lia.
  assert (0 ≤ Z.lor 32 (Z.shiftl h 3) < 256) by (assert (h = 0 ∨ h = 1) as [-> | ->] by lia; done).
  pose proof (Z.mod_pos_bound (Z.shiftr w 8) (2 ^ 4)). pose proof (Z.mod_pos_bound w (2 ^ 8)). byte_list.
Qed.

Lemma page_write_check_sees n c (a w h x : Z) : a = 2 * w + h → 0 ≤ w < 4096 → 0 ≤ h < 2 → x ≠ 0xff →
  flash c !! Z.to_nat a = Some x → (busy c < n)%nat →
  drives (page_write_check n [Z.lor 0x20 (Z.shiftl h 3); Z.land (Z.shiftr w 8) 0xf; Z.land w 0xff; 0] x) c ERR_OK (Avr (flash c) (page_buf c) 0).
Proof.
  intros Ha Hw Hh Hx. revert c. induction n as [|n IH]; intros c Hat Hn; [lia|].
  pose proof (exec_read c a w h Ha Hw Hh) as E. unfold avr_read in E. cbn [page_write_check].
  destruct c as [fl pb [|b]]; cbn [busy flash page_buf] in *; rewrite ?Hat in E; cbn [default] in E.
  - eapply (drives_dev_cmd _ _ _ _ _ 3); [by apply read_cmd_bytes|done|]. rewrite E. cbn [fst snd]. rewrite Z.eqb_refl. apply drives_ret.
  - eapply (drives_dev_cmd _ _ _ _ _ 3); [by apply read_cmd_bytes|done|]. rewrite E. cbn [fst snd].
    destruct (Z.eqb_spec 0xff x) as [Ex|_]; [by destruct Hx|]. apply (IH (Avr fl pb b)); [done|cbn; lia].
Qed.

(** The chip with [l] programmed into its first bytes and the rest erased. *)
Definition holds (l : list Z) (c : avr) : Prop :=
  flash c = l ++ replicate (Z.to_nat 8192 - length l) 0xff ∧ length (page_buf c) = 64%nat ∧ busy c = 0%nat.

Lemma page_address (p : Z) (j : nat) : 0 ≤ p → (j < 64)%nat →
  let q := Z.quot (Z.of_nat j + p * ATMEGA8A_FLASH_BYTES_PER_PAGE) ATMEGA8A_BYTES_PER_WORD in
  let h := Z.land (Z.of_nat j) 1 in Z.of_nat (64 * Z.to_nat p + j) = 2 * q + h ∧ 0 ≤ h < 2.
Proof.
  intros Hp Hj. change 1 with (Z.ones 1). rewrite Z.land_ones by lia. unfold ATMEGA8A_FLASH_BYTES_PER_PAGE, ATMEGA8A_BYTES_PER_WORD,
    ATMEGA8A_FLASH_WORDS_PER_PAGE, ATMEGA8A_BYTES_PER_WORD. rewrite Z.quot_div_nonneg by lia. cbv zeta. change (2 ^ 1) with 2. dlia.
Qed.

Lemma page_write_done p (W buf : list Z) c (x : Z) j : 0 ≤ p < 128 → (write_time < 64)%nat → Z.of_nat (length W) = 64 * p → holds W c →
  page_buf c = buf → bytes buf → buf !! j = Some x → x ≠ 0xff →
  drives (atmega8a_flash_page_write p x (Z.of_nat j)) c ERR_OK (Avr ((W ++ buf) ++ replicate (Z.to_nat 8192 - length (W ++ buf)) 0xff) (replicate 64 0xff) 0).
Proof.
  intros Hp Ht HW (Hf & Hl & Hb) Hbuf Hbytes Hj Hx. rewrite Hbuf in Hl. pose proof (lookup_lt_Some _ _ _ Hj) as Hj64.
  unfold atmega8a_flash_page_write. unfold ATMEGA8A_PAGES_PER_FLASH, ATMEGA8A_FLASH_BYTES_TOTAL. zdec.
  destruct (Z.eqb_spec x 0xff) as [|_]; [done|]. change (ATMEGA8A_FLASH_BYTES_PER_PAGE * ATMEGA8A_PAGES_PER_FLASH) with 8192. zdec. cbn [negb andb].
  set (c1 := Z.land (Z.shiftr p 3) 0xf). set (c2 := u8 _).
  assert (c1 = p `div` 8 ∧ c2 = 32 * (p `mod` 8)) as [E1 E2].
  { unfold c1, c2. change 0xf with (Z.ones 4). change 7 with (Z.ones 3). rewrite !Z.land_ones, Z.shiftr_div_pow2, Z.shiftl_mul_pow2 by lia.
    unfold u8. change (2 ^ 3) with 8. change (2 ^ 4) with 16. change (2 ^ 5) with 32. change (2 ^ 8) with 256. split; dlia. }
  clearbody c1 c2. assert (0 ≤ c1 < 256 ∧ 0 ≤ c2 < 256) as [Hc1 Hc2] by (subst; dlia).
  assert (E : avr_exec write_time erase_time c 0x4c c1 c2 0 =
    (Avr ((W ++ buf) ++ replicate (Z.to_nat 8192 - length (W ++ buf)) 0xff) (replicate 64 0xff) write_time, 0)).
  { unfold avr_exec. rewrite (bool_decide_eq_false_2 (busy c ≠ 0%nat)) by tauto. cbn [orb Z.eqb Pos.eqb]. unfold avr_write.
    replace (8 * (c1 mod 16) + c2 / 32) with p by (rewrite E1, E2; dlia).
    rewrite Hf, Hbuf, program_page_erased by (done || lia). rewrite length_app, Hl. do 4 f_equal. lia. }
  eapply (drives_dev_cmd _ _ _ _ _ 0); [byte_list|done|]. rewrite E. cbn [fst negb bool_decide is_Some_dec].
  destruct (page_address p j) as [Ha Hh]; [lia|lia|]. eapply page_write_check_sees; [exact Ha| |exact Hh|done| |done].
  - dlia.
  - cbn [flash]. rewrite Nat2Z.id, <- app_assoc, lookup_app_r, lookup_app_l by lia. rewrite <- Hj. f_equal. lia.
Qed.

Lemma write_flash_page_writes p (W src : list Z) c : (write_time < 64)%nat → 0 ≤ p < 128 → Z.of_nat (length W) = 64 * p → holds W c →
  (64 ≤ length src)%nat → bytes src → ∃ c', drives (write_flash_page p src) c ERR_OK c' ∧ holds (W ++ take 64 src) c'.
Proof.
  intros Ht Hp HW Hc Hl Hsrc. pose proof Hc as (Hf & Hpb & Hb). unfold write_flash_page, mem_find_first_not.
  change (Z.to_nat ATMEGA8A_FLASH_BYTES_PER_PAGE) with 64%nat.
  assert (length (take 64 src) = 64%nat) as Ht64 by (rewrite length_take; lia).
  destruct (find_first_not_spec 64 src 0xff 0 Hl) as [[E T]|(j & x & E & Hj & Hx & Hne)].
  - exists c. split; [eapply drives_lift; [exact E|]; apply drives_ret|]. split; [|done].
    rewrite Hf, length_app, Ht64, T, <- app_assoc, <- replicate_add. do 2 f_equal. lia.
  - eexists. split.
    + eapply drives_lift; [exact E|]. rewrite Z.add_0_l. destruct (Z.eqb_spec (Z.of_nat j) (-1)); [lia|].
      eapply drives_lift; [by rewrite Nat2Z.id, Hx|].
      eapply drives_bind; [eapply (page_fill_loop_fills 32 0 src c [] (page_buf c)); auto; lia|]. cbn [negb Z.eqb ERR_OK].
      eapply (drives_bind _ _ _ ERR_OK); [|apply drives_ret]. cbn [app Nat.mul].
      eapply (page_write_done p W (take 64 src)); [done..| |done|by apply Forall_take|by rewrite lookup_take_lt|done].
      split; [done|]. split; [done|done].
    + split; [done|]. done.
Qed.

Lemma write_flash_loop_writes n : ∀ p (W src : list Z) c, (write_time < 64)%nat → 0 ≤ p → p + Z.of_nat n ≤ 128 →
  Z.of_nat (length W) = 64 * p → holds W c → (64 * n ≤ length src)%nat → bytes src →
  ∃ c', drives (write_flash_loop n p src) c ERR_OK c' ∧ holds (W ++ take (64 * n) src) c'.
Proof.
  induction n as [|n IH]; intros p W src c Ht Hp Hn HW Hc Hl Hsrc.
  { exists c. split; [apply drives_ret|]. by rewrite take_0, app_nil_r. }
  destruct (write_flash_page_writes p W src c) as (c1 & D1 & H1); [done|lia|done|done|lia|done|].
  destruct (IH (p + 1) (W ++ take 64 src) (drop 64 src) c1) as (c2 & D2 & H2);
    [done|lia|lia|rewrite length_app, length_take; lia|done|rewrite length_drop; lia|by apply Forall_drop|].
  exists c2. split; [eapply drives_bind; [exact D1|exact D2]|].
  replace (64 * Datatypes.S n)%nat with (64 + 64 * n)%nat by lia. by rewrite <- take_take_drop, app_assoc.
Qed.

(** ** Reading back *)
Lemma read_flash_loop_reads n : ∀ (w h : Z) got c, busy c = 0%nat → 0 ≤ w → 0 ≤ h < 2 → 2 * w + h + Z.of_nat n ≤ 8192 → length (flash c) = Z.to_nat 8192 →
  drives (read_flash_loop n w h got) c (ERR_OK, got ++ take n (drop (Z.to_nat (2 * w + h)) (flash c))) c.
Proof.
  induction n as [|n IH]; intros w h got c Hb Hw Hh Hn Hl.
  { rewrite take_0, app_nil_r. apply drives_ret. }
  destruct (lookup_lt_is_Some_2 (flash c) (Z.to_nat (2 * w + h))) as [x Hx]; [lia|].
  pose proof (exec_read c _ w h eq_refl ltac:(lia) Hh) as E. unfold avr_read in E. rewrite Hb, Hx in E. cbn [default id] in E.
  cbn [read_flash_loop]. eapply (drives_dev_cmd _ _ _ _ _ 3); [by apply read_cmd_bytes|done|]. rewrite E. cbn [fst snd].
  unfold u16. rewrite Z.mod_small by lia. specialize (IH (w + h) (1 - h) (got ++ [x]) c Hb).
  replace (Z.lxor h 1) with (1 - h) by (assert (h = 0 ∨ h = 1) as [-> | ->] by lia; done).
  replace (2 * (w + h) + (1 - h)) with (2 * w + h + 1) in IH by lia. rewrite (drop_S _ _ _ Hx). cbn [take].
  rewrite (cons_middle x got (take n _)), (app_assoc got [x]).
  replace (Datatypes.S (Z.to_nat (2 * w + h))) with (Z.to_nat (2 * w + h + 1)) by lia. apply IH; lia.
Qed.

(** *** Programming a chip that is ready *)

(** C31: on a bus with a chip that obeys the serial programming instructions and
    finishes a page within the driver's 64 polls, [atmega8a_write_flash] of whole
    pages behind the bytes [W] of a chip that is ready, the rest of its flash
    erased, and short of the last page, returns [ERR_OK] and leaves the flash with
    [W], the pages and the rest erased; [atmega8a_read_flash_memory] of any range
    of it then returns its bytes and changes nothing. *)
Theorem atmega8a_flash_programs (W pages : list Z) from_page addr size s c : (write_time < 64)%nat → at_chip s c → holds W c →
  Z.of_nat (length W) = 64 * from_page → Z.of_nat (length pages) mod 64 = 0 → bytes pages → 64 * from_page + Z.of_nat (length pages) < 8192 →
  0 ≤ addr → 0 ≤ size → addr + size ≤ 8192 →
  ∃ s' s'' c', atmega8a_write_flash pages (Z.of_nat (length pages)) from_page s = Ret (ERR_OK, s') ∧
    atmega8a_read_flash_memory size addr s' = Ret (ERR_OK, take (Z.to_nat size) (drop (Z.to_nat addr) (flash c')), s'') ∧ at_chip s'' c' ∧
    flash c' = W ++ pages ++ replicate (Z.to_nat 8192 - length (W ++ pages)) 0xff.
Proof.
  intros Ht Hs Hc HW Hm Hb Hlen Ha Hsz Hend. set (n := Z.of_nat (length pages) / 64).
  assert (Z.of_nat (length pages) = 64 * n ∧ 0 ≤ n) as [En Hn] by (unfold n; dlia). clearbody n.
  destruct (write_flash_loop_writes (Z.to_nat n) from_page W pages c) as (c2 & D2 & H2); [done|lia|lia|done|done|lia|done|].
  rewrite take_ge in H2 by lia. destruct (D2 s Hs) as (s' & E & Hs'). destruct H2 as (Hf & _ & Hb2).
  assert (length (flash c2) = Z.to_nat 8192) as Hl by (rewrite Hf, !length_app, length_replicate; lia).
  pose proof (read_flash_loop_reads (Z.to_nat size) (addr / 2) (addr mod 2) [] c2 Hb2) as D3.
  destruct (D3 ltac:(dlia) ltac:(dlia) ltac:(dlia) Hl s' Hs') as (s'' & R & Hs''). exists s', s'', c2.
  split; [|split; [|split; [exact Hs''|by rewrite Hf, <- app_assoc]]].
  - unfold atmega8a_write_flash. change ATMEGA8A_FLASH_BYTES_PER_PAGE with 64. rewrite En, (Z.mul_comm 64 n), Z.quot_mul by lia.
    unfold atmega8a_write_flash_check. change ATMEGA8A_FLASH_BYTES_PER_PAGE with 64. rewrite Z.rem_mul by lia. change (truth 0) with false. cbv iota.
    unfold ATMEGA8A_PAGES_PER_FLASH. zdec. exact E.
  - replace (2 * (addr / 2) + addr mod 2) with addr in R by dlia. cbn [app] in R. unfold atmega8a_read_flash_memory.
    change 1 with (Z.ones 1). rewrite Z.land_ones, Z.quot_div_nonneg by lia. unfold u16. change (2 ^ 1) with 2.
    rewrite (Z.mod_small (addr / 2)) by dlia. exact R.
Qed.

(** An erase that is over when the next instruction comes. *)
Lemma erase_drives c : erase_time = 0%nat → busy c = 0%nat → drives atmega8a_chip_erase c ERR_OK (avr_erase 0) ∧ holds [] (avr_erase 0).
Proof.
  intros He Hb. split; [|split; [by rewrite Nat.sub_0_r|]; by split].
  assert (E : avr_exec write_time erase_time c 0xac 0x80 0 0 = (avr_erase 0, 0))
    by (rewrite He; unfold avr_exec; by rewrite (bool_decide_eq_false_2 (busy c ≠ 0%nat)) by tauto).
  eapply (drives_dev_cmd _ _ _ _ _ 0); [byte_list|done|]. rewrite E. apply drives_ret.
Qed.

(** ** The download *)
Definition padded (bin : list Z) : list Z := bin ++ replicate (Z.to_nat ((- Z.of_nat (length bin)) mod 64)) 0xee.
Definition image (bin : list Z) : list Z * Z :=
  let bin_size := Z.of_nat (length bin) in let padded := truth (Z.rem bin_size 64) in
  (if padded then take (Z.to_nat bin_size) bin ++ replicate (Z.to_nat 8192 - Z.to_nat bin_size) 0xee else bin,
   if padded then (Z.quot bin_size 64 + 1) * 64 else bin_size).

Lemma image_padded bin : (Z.of_nat (length bin) ≤ 8192) → bytes bin → ∃ n rest, fst (image bin) = padded bin ++ rest ∧ snd (image bin) = 64 * Z.of_nat n ∧
  length (padded bin) = (64 * n)%nat ∧ bytes (fst (image bin)) ∧ (Z.of_nat n < 128 ↔ Z.of_nat (length bin) ≤ 8128).
Proof.
  intros Hl Hb. unfold image, padded, truth. rewrite Z.rem_mod_nonneg, Z.quot_div_nonneg by lia. set (sz := Z.of_nat (length bin)) in *.
  assert (0 ≤ sz) by lia. destruct (Z.eqb_spec (sz mod 64) 0) as [E|E]; cbn [negb fst snd].
  - exists (Z.to_nat (sz / 64)), []. replace ((- sz) mod 64) with 0 by dlia. rewrite !app_nil_r.
    split; [done|]. split; [dlia|]. split; [unfold sz in *; dlia|]. split; [done|]. dlia.
  - exists (Z.to_nat (sz / 64 + 1)), (replicate (Z.to_nat 8192 - 64 * Z.to_nat (sz / 64 + 1)) 0xee).
    replace (Z.to_nat sz) with (length bin) by (unfold sz; lia). rewrite firstn_all, <- app_assoc, <- replicate_add, length_app, length_replicate.
    split; [do 2 f_equal; unfold sz in *; dlia|]. split; [dlia|]. split; [unfold sz in *; dlia|].
    split; [|dlia]. apply Forall_app. split; [done|]. apply Forall_replicate. lia.
Qed.

(** On a chip whose erase takes no time, [atmega8a_download] of a firmware of at
    most 8128 bytes erases the flash, writes the firmware (padded with 0xee to a
    page) and reads it back: it returns [ERR_OK] and every other byte of the flash
    is 0xff.  A firmware that needs the last page is refused, with the flash
    erased; one over 8192 bytes is refused at once.  The code does not wait for an
    erase that takes time: [chip_witness.download_while_erasing]. *)
Lemma atmega8a_download_programs (bin : list Z) s c : (write_time < 64)%nat → erase_time = 0%nat → at_chip s c → busy c = 0%nat → bytes bin →
  let size := Z.of_nat (length bin) in
  ∃ s' c', at_chip s' c' ∧
    if 8192 <? size then atmega8a_download bin size s = Ret (ERR_GENERIC, s') ∧ s' = s
    else if 8128 <? size then atmega8a_download bin size s = Ret (ERR_INVAL_ARG, s') ∧ flash c' = replicate (Z.to_nat 8192) 0xff
    else atmega8a_download bin size s = Ret (ERR_OK, s') ∧
      flash c' = padded bin ++ replicate (Z.to_nat 8192 - length (padded bin)) 0xff.
Proof.
  intros Ht He0 Hs Hb Hbin size. unfold atmega8a_download. destruct (Z.ltb_spec 8192 size) as [Hbig|Hsz]; [by exists s, c|].
  destruct (image_padded bin Hsz Hbin) as (n & rest & E1 & E2 & Hlp & Hbytes & Hn).
  unfold image in E1, E2, Hbytes. cbv zeta in E1, E2, Hbytes. cbn [fst snd] in E1, E2, Hbytes. rewrite E1 in Hbytes. fold size in E1, E2.
  cbv zeta. rewrite E1, E2. clear E1 E2. destruct (erase_drives c He0 Hb) as [De He]. set (c1 := avr_erase 0) in *.
  unfold atmega8a_write_flash. change ATMEGA8A_FLASH_BYTES_PER_PAGE with 64. rewrite (Z.mul_comm 64 (Z.of_nat n)), Z.quot_mul, Nat2Z.id by lia.
  unfold atmega8a_write_flash_check. change ATMEGA8A_FLASH_BYTES_PER_PAGE with 64. rewrite Z.rem_mul by lia. cbn [truth negb Z.eqb].
  unfold ATMEGA8A_PAGES_PER_FLASH. change (128 <=? 0) with false. rewrite Z.add_0_l.
  destruct (Z.ltb_spec 8128 size) as [Hlast|Hok].
  { destruct (Z.leb_spec 128 (Z.of_nat n)) as [_|]; [|lia]. destruct (De s Hs) as (s' & E & Hs'). exists s', c1. split; [done|]. split; [|apply He].
    unfold mbind, io_bind. by rewrite E. }
  destruct (Z.leb_spec 128 (Z.of_nat n)) as [|_]; [lia|]. cbn [negb Z.eqb ERR_OK].
  destruct (write_flash_loop_writes n 0 [] (padded bin ++ rest) c1) as (c2 & D2 & H2); [done|lia|lia|done|done|rewrite length_app; lia|done|].
  rewrite take_app_le, <- Hlp, firstn_all, app_nil_l in H2 by lia. destruct H2 as (Hf & _ & Hb2).
  assert (Hsz0 : length (padded bin) = (length bin + Z.to_nat ((- size) mod 64))%nat) by (unfold padded; by rewrite length_app, length_replicate).
  pose proof (read_flash_loop_reads (Z.to_nat size) 0 0 [] c2 Hb2) as D3.
  rewrite Hf in D3. change (Z.to_nat (2 * 0 + 0)) with 0%nat in D3. rewrite drop_0 in D3.
  enough (drives _ c ERR_OK c2) as D by (destruct (D s Hs) as (s' & E & Hs'); exists s', c2; split; [exact Hs'|split; [exact E|exact Hf]]).
  eapply drives_bind; [exact De|]. cbn [negb Z.eqb ERR_OK].
  eapply drives_bind; [exact D2|]. cbn [negb Z.eqb ERR_OK].
  eapply drives_bind; [apply D3; [lia|lia|lia|rewrite length_app, length_replicate; lia]|].
  cbn [negb Z.eqb ERR_OK]. rewrite bool_decide_eq_true_2; [apply drives_ret|]. unfold size, padded. rewrite Nat2Z.id, <- app_assoc.
  by rewrite take_app_length, firstn_all.
Qed.
End chip.

(** A chip that takes three instructions to program a page and one to erase, alone
    on its bus. *)
Module chip_witness.
#[local] Instance chip_bus : SpiBus avr := {|
  spi_xmit dev cmd := λ c, match cmd with
    | [c0; c1; c2; c3] => let '(c', x) := avr_exec 3 1 c c0 c1 c2 c3 in Ret ((ERR_OK, [0; c0; c1; x]), c')
    | _ => Ret ((ERR_INVAL_ARG, []), c)
    end;
  spi_xmit_byte dev x := λ c, Ret ((ERR_OK, 0), c) |}.
#[local] Instance chip_avr : AvrBus avr 3 1.
Proof.
  refine {| avr_spi := 1; avr_chip c := c |}; [done|].
  intros c0 c1 c2 c3 b _. cbn. destruct (avr_exec 3 1 b c0 c1 c2 c3) as [c' x]. by exists c'.
Defined.
Definition ready : avr := Avr (replicate (Z.to_nat 8192) 0xff) (replicate 64 0xff) 0.
Definition drv0 : avr_drv avr := AvrDrv ready gpio_boot 1 26 0.
Definition page0 : list Z := [0x12; 0xff; 0x34] ++ replicate 61 0xee.

(** A page is written to the erased chip, and its first bytes are read back. *)
Lemma atmega8a_flash_programs_witness : ∃ s' s'', atmega8a_write_flash page0 64 0 drv0 = Ret (ERR_OK, s') ∧
  atmega8a_read_flash_memory 4 0 s' = Ret (ERR_OK, [0x12; 0xff; 0x34; 0xee], s'').
Proof.
  destruct (atmega8a_flash_programs (write_time := 3) (erase_time := 1) [] page0 0 0 4 drv0 ready) as (s' & s'' & c' & E & R & _ & F);
    [lia|by split|by split| |done| |done|lia|lia|lia|].
  - done.
  - repeat (apply Forall_cons; split; [lia|]); apply Forall_nil; exact I.
  - exists s', s''. split; [exact E|]. rewrite F in R. exact R.
Defined.

(** While the erase lasts, the first byte of the page is dropped, and the driver
    gives up waiting for it. *)
Lemma download_while_erasing : ∃ s', atmega8a_download [0x12; 0xff; 0x34] 3 drv0 = Ret (ERR_FATAL, s').
Proof. eexists. by vm_compute. Qed.
End chip_witness.
