(* ===== verification/Uart.v ===== *)
(** * The serial console (uart/pl011_uart.c, uart/uart.c, uart/mini_uart.c)

    Blocking output, and input from the receive interrupt through a pipe to the
    thread that calls the subscribers.  The theorems are proved for every device
    that obeys the law [Pl011] of the UART's data, flag and interrupt registers. *)

From S2P Require Import Prelude Lists Bits Sched Exceptions Ringbuf Pipe Mmio GpioSet Gpio Mbox.

Definition PL011_UART_BASE : Z := 0x3f201000.
Definition PL011_UARTDR : Z := PL011_UART_BASE + 0x00.
Definition PL011_UARTFR : Z := PL011_UART_BASE + 0x18.
Definition PL011_UARTIBRD : Z := PL011_UART_BASE + 0x24.
Definition PL011_UARTFBRD : Z := PL011_UART_BASE + 0x28.
Definition PL011_UARTLCR_H : Z := PL011_UART_BASE + 0x2c.
Definition PL011_UARTCR : Z := PL011_UART_BASE + 0x30.
Definition PL011_UARTIMSC : Z := PL011_UART_BASE + 0x38.
Definition PL011_UARTRIS : Z := PL011_UART_BASE + 0x3c.
Definition PL011_UARTMIS : Z := PL011_UART_BASE + 0x40.
Definition PL011_UARTICR : Z := PL011_UART_BASE + 0x44.
Definition PL011_UARTCR_UARTEN : Z := 1.
Definition PL011_UARTCR_TXE : Z := Z.shiftl 1 8.
Definition PL011_UARTCR_RXE : Z := Z.shiftl 1 9.
Definition PL011_UARTLCR_H_WLEN_8BITS : Z := Z.shiftl 3 5.
Definition PL011_UARTFR_BUSY : Z := Z.shiftl 1 3.
Definition PL011_UARTFR_RXFE : Z := Z.shiftl 1 4.
Definition PL011_UARTFR_TXFF : Z := Z.shiftl 1 5.
Definition PL011_UARTRXINTR : Z := Z.shiftl 1 4.
Definition PL011_UARTDR_GET_FE (v : Z) : Z := BF_EXTRACT v 8 1.
Definition PL011_UARTDR_GET_PE (v : Z) : Z := BF_EXTRACT v 9 1.
Definition PL011_UARTDR_GET_BE (v : Z) : Z := BF_EXTRACT v 10 1.
Definition PL011_UARTDR_GET_OE (v : Z) : Z := BF_EXTRACT v 11 1.
Definition PL011_UARTMIS_GET_RXMIS (v : Z) : Z := BF_EXTRACT v 4 1.
Definition INTR_CTL_IRQ_GPU_UART0 : Z := 57.
Definition MBOX_CLOCK_ID_UART : Z := 2.
Definition ARM_IRQ_UART : Z := 64 + 19.
(** "PL011_GPIO_SET_" *)
Definition pl011_gpio_set_key : list Z := [80; 76; 48; 49; 49; 95; 71; 80; 73; 79; 95; 83; 69; 84; 95].

(** ** Output *)
Section output.
Context {D : Type} `{Mmio D} (fuel : nat).

(** [while (read_reg(r) & mask);] *)
Definition wait_clear (r mask : Z) : io D unit :=
  io_loop fuel (v ← read_reg r; mret (if truth (Z.land v mask) then None else Some tt)).
Definition pl011_uart_putchar (c : Z) : io D unit := _ ← wait_clear PL011_UARTFR PL011_UARTFR_TXFF; write_reg PL011_UARTDR c.
Definition pl011_uart_send (c : Z) : io D unit := pl011_uart_putchar (Z.land c 0xff).
Fixpoint send_buf_loop (l : list Z) : io D unit :=
  match l with
  | [] => mret tt
  | b :: l => _ ← wait_clear PL011_UARTFR PL011_UARTFR_TXFF; _ ← write_reg PL011_UARTDR b; send_buf_loop l
  end.
(** [l] are the [n] bytes of the buffer. *)
Definition pl011_uart_send_buf (l : list Z) : io D Z := _ ← send_buf_loop l; mret (Z.of_nat (length l)).
Definition pl011_uart_getc : io D Z := _ ← wait_clear PL011_UARTFR PL011_UARTFR_RXFE; v ← read_reg PL011_UARTDR; mret (u8 v).
(** A string is its bytes up to and with the final zero, as in the functions below. *)
Fixpoint puts_loop (s : list Z) : io D unit :=
  match s with
  | [] => lift Fault
  | c :: s => if c =? 0 then mret tt else _ ← pl011_uart_putchar c; puts_loop s
  end.
Definition pl011_putc_blocking (c : Z) : io D unit := pl011_uart_putchar c.
Definition pl011_puts_blocking (s : list Z) : io D unit := puts_loop s.
Definition pl011_uart_rx_not_empty : io D Z := v ← read_reg PL011_UARTFR; mret (if truth (Z.land v PL011_UARTFR_RXFE) then 0 else 1).

(** uart.c over the PL011; its lock is free on one CPU with interrupts off. *)
Definition uart_putc (c : Z) : io D Z := _ ← pl011_uart_send c; mret ERR_OK.
Definition uart_getc : io D Z := r ← pl011_uart_getc; mret (if r =? 13 then 10 else r).
Fixpoint uart_puts (s : list Z) : io D Z :=
  match s with
  | [] => lift Fault
  | c :: s => if c =? 0 then mret ERR_OK else
    _ ← (if c =? 10 then pl011_uart_send 13 else mret tt); _ ← pl011_uart_send c; uart_puts s
  end.
Fixpoint uart_hex_loop (n : nat) (c d : Z) : io D unit :=
  match n with
  | O => mret tt
  | Datatypes.S n => let x := Z.land (Z.shiftr d c) 0xf in
    _ ← pl011_uart_send (x + (if 9 <? x then 0x37 else 0x30)); uart_hex_loop n (c - 4) d
  end.
Definition uart_hex (d : Z) : io D unit := uart_hex_loop 8 28 d.
Definition uart_send_buf (l : list Z) : io D Z := pl011_uart_send_buf l.

(** mini_uart.c *)
Definition AUX_BASE : Z := 0x3f215000.
Definition AUX_ENABLE : Z := AUX_BASE + 0x04.
Definition AUX_MU_IO : Z := AUX_BASE + 0x40.
Definition AUX_MU_IER : Z := AUX_BASE + 0x44.
Definition AUX_MU_IIR : Z := AUX_BASE + 0x48.
Definition AUX_MU_LCR : Z := AUX_BASE + 0x4c.
Definition AUX_MU_MCR : Z := AUX_BASE + 0x50.
Definition AUX_MU_LSR : Z := AUX_BASE + 0x54.
Definition AUX_MU_CNTL : Z := AUX_BASE + 0x60.
Definition AUX_MU_BAUD : Z := AUX_BASE + 0x68.
Definition wait_set (r mask : Z) : io D unit :=
  io_loop fuel (v ← read_reg r; mret (if truth (Z.land v mask) then Some tt else None)).
Definition get_baud_reg_value (target_baudrate system_clock : Z) : outcome Z :=
  if target_baudrate =? 0 then Fault else Ret (Z.quot (Z.quot system_clock target_baudrate) 8 - 1).
Definition mini_uart_init (baudrate system_clock : Z) : io D unit :=
  v ← read_reg AUX_ENABLE; _ ← write_reg AUX_ENABLE (Z.lor v 1);
  _ ← write_reg AUX_MU_CNTL 0; _ ← write_reg AUX_MU_LCR 3; _ ← write_reg AUX_MU_MCR 0; _ ← write_reg AUX_MU_IER 0;
  _ ← write_reg AUX_MU_IIR (Z.shiftl 3 6);
  b ← lift (get_baud_reg_value baudrate system_clock);
  _ ← write_reg AUX_MU_BAUD b;
  _ ← gpio_set_function 14 GPIO_FUNC_ALT_5; _ ← gpio_set_function 15 GPIO_FUNC_ALT_5;
  _ ← gpio_set_pullupdown 14 0; _ ← gpio_set_pullupdown 15 0;
  write_reg AUX_MU_CNTL (Z.lor 1 2).
Definition mini_uart_send (c : Z) : io D unit := _ ← wait_set AUX_MU_LSR (Z.shiftl 1 5); write_reg AUX_MU_IO c.
Definition mini_uart_getc : io D Z := _ ← wait_set AUX_MU_LSR 1; v ← read_reg AUX_MU_IO; mret (u8 v).
End output.

(** ** Start and input *)

(** The integral part and the first decimal digit of the divisor; [None] where
    [*idiv] and [*fdiv] are left as they are. *)
Definition pl011_calc_divisor (baudrate clock_hz : Z) : outcome (option (Z * Z)) :=
  if negb (s32 (16 * baudrate) =? 16 * baudrate) || (baudrate =? 0) then Fault else
  let div := u64 (clock_hz * 10) / u64 (16 * baudrate) in
  let i := u32 (div / 10) in let f := u32 (div mod 10) in
  if 0xffff <? i then Ret None else Ret (Some (i, if 0x1f <? f then 0x1f else f)).

(** The static variables of pl011_uart.c and what the driver works on. *)
Record uart_drv (D : Type) := UartDrv {
  uregs : D; upins : gpio_state; umbox : mbox; uirqs : irq_state; rx_pipe : pipe_state;
  rx_subscribers : list (Z * Z); pl011_uart_initialized : Z }.
Arguments UartDrv {D}.
Arguments uregs {D}.
Arguments upins {D}.
Arguments umbox {D}.
Arguments uirqs {D}.
Arguments rx_pipe {D}.
Arguments rx_subscribers {D}.
Arguments pl011_uart_initialized {D}.

#[export] Instance uart_mmio {D} `{Mmio D} : Mmio (uart_drv D) := {|
  mmio_read r s := let '(v, d) := mmio_read r (uregs s) in
    (v, UartDrv d (upins s) (umbox s) (uirqs s) (rx_pipe s) (rx_subscribers s) (pl011_uart_initialized s));
  mmio_write r v s := UartDrv (mmio_write r v (uregs s)) (upins s) (umbox s) (uirqs s) (rx_pipe s) (rx_subscribers s) (pl011_uart_initialized s) |}.

Section driver.
Context {D : Type} `{Mmio D} (fuel : nat) (respond : Mbox.words → Mbox.words * bool) (unassigned : Z).
(** The addresses of [pl011_rx_buf], of the pipe's wait flag, of the parameter
    of [pipe_push] and of the variable of [pipe_pop]; the handler's address. *)
Context (pl011_rx_buf waitflag pc pv pl011_uart_handle_interrupt_ptr : Z).
Abbreviation S := (uart_drv D).

Definition with_pins (s : S) (g : gpio_state) : S := UartDrv (uregs s) g (umbox s) (uirqs s) (rx_pipe s) (rx_subscribers s) (pl011_uart_initialized s).
Definition with_pipe (s : S) (p : pipe_state) : S := UartDrv (uregs s) (upins s) (umbox s) (uirqs s) p (rx_subscribers s) (pl011_uart_initialized s).
Definition with_subs (s : S) (l : list (Z * Z)) : S := UartDrv (uregs s) (upins s) (umbox s) (uirqs s) (rx_pipe s) l (pl011_uart_initialized s).

Definition pl011_uart_gpio_init : io S Z :=
  handle ← (λ s, '(g, h) ← gpio_set_request_2_pins (upins s) 14 15 pl011_gpio_set_key; Ret (h, with_pins s g));
  if handle =? GPIO_SET_INVALID_HANDLE then mret ERR_BUSY else
  _ ← gpio_set_function 14 GPIO_FUNC_ALT_0; _ ← gpio_set_function 15 GPIO_FUNC_ALT_0;
  _ ← gpio_set_pullupdown 15 0; mret ERR_OK.

Definition uart_clock_rate : io S Z := λ s,
  '(mb, r) ← mbox_get_clock_rate respond MBOX_CLOCK_ID_UART (umbox s);
  Ret (default unassigned r, UartDrv (uregs s) (upins s) mb (uirqs s) (rx_pipe s) (rx_subscribers s) (pl011_uart_initialized s)).

(** [debug_event_1] for another clock than 48 MHz blinks a LED. *)
Definition pl011_uart_init (baudrate _not_used : Z) : io S unit :=
  _ ← write_reg PL011_UARTCR 0;
  _ ← wait_clear fuel PL011_UARTFR (Z.lor PL011_UARTFR_BUSY PL011_UARTFR_TXFF);
  _ ← pl011_uart_gpio_init;
  hz ← uart_clock_rate;
  _ ← write_reg PL011_UARTICR 0x7ff;
  d ← lift (pl011_calc_divisor baudrate hz);
  let '(idiv, fdiv) := default (unassigned, unassigned) d in
  _ ← write_reg PL011_UARTIBRD idiv; _ ← write_reg PL011_UARTFBRD fdiv;
  _ ← write_reg PL011_UARTLCR_H PL011_UARTLCR_H_WLEN_8BITS;
  write_reg PL011_UARTCR (Z.lor (Z.lor PL011_UARTCR_UARTEN PL011_UARTCR_TXE) PL011_UARTCR_RXE).
Definition uart_init (baudrate system_clock : Z) : io S unit := pl011_uart_init baudrate system_clock.

Definition pl011_rx_pipe_init : io S unit := λ s, Ret (tt, with_pipe s (pipe_init pl011_rx_buf 8 (rx_pipe s))).
Definition pl011_rx_pipe_push (c : Z) : io S unit := λ s, p ← pipe_push fuel waitflag pc c (rx_pipe s); Ret (tt, with_pipe s p).
(** [pipe_pop]; where the flag is not set the wait switches to another thread,
    and the rest runs when this one is switched to again. *)
Definition pl011_rx_pipe_pop (now : Z) : io S Z := λ s,
  p ← pipe_pop_wait fuel now waitflag (rx_pipe s);
  '(p, c) ← pipe_pop_take fuel pv p; Ret (c, with_pipe s p).

(** The code after the first [return] is dead; the log level is 0. *)
Definition push_if (b c : Z) : io S unit := if truth b then pl011_rx_pipe_push c else mret tt.
Definition pl011_uart_handle_interrupt : io S unit :=
  mis ← read_reg PL011_UARTMIS;
  _ ← write_reg PL011_UARTICR mis;
  if truth (PL011_UARTMIS_GET_RXMIS mis) then
    dr ← read_reg PL011_UARTDR;
    _ ← (if negb (Z.land dr 0xff =? dr) then
      _ ← push_if (PL011_UARTDR_GET_FE dr) 46; _ ← push_if (PL011_UARTDR_GET_PE dr) 44;
      _ ← push_if (PL011_UARTDR_GET_BE dr) 33; push_if (PL011_UARTDR_GET_OE dr) 36
    else mret tt);
    pl011_rx_pipe_push (Z.land dr 0xff)
  else mret tt.

Definition uart_irq_set (cpu irqnr func : Z) : io S Z := λ s,
  '(q, r) ← irq_set (uirqs s) cpu irqnr func;
  Ret (r, UartDrv (uregs s) (upins s) (umbox s) q (rx_pipe s) (rx_subscribers s) (pl011_uart_initialized s)).
Definition irq_writes (m : outcome (list (Z * Z) * Z)) : io S Z := λ s, '(l, r) ← m; Ret (r, writes l s).
Definition pl011_uart_set_interrupt_mode : io S unit :=
  _ ← pl011_rx_pipe_init;
  _ ← irq_writes (intr_ctl_gpu_irq_enable INTR_CTL_IRQ_GPU_UART0);
  _ ← uart_irq_set 0 ARM_IRQ_UART pl011_uart_handle_interrupt_ptr;
  _ ← write_reg PL011_UARTICR 0x7ff;
  _ ← write_reg PL011_UARTIMSC PL011_UARTRXINTR;
  write_reg PL011_UARTCR (Z.lor (Z.lor PL011_UARTCR_UARTEN PL011_UARTCR_TXE) PL011_UARTCR_RXE).

(** ** Subscribers *)
Definition rx_subscribers_init : io S unit := λ s, Ret (tt, with_subs s (replicate 8 (0, 0))).
(** The first free slot of the array is taken; a full array is not an error. *)
Fixpoint occupy_free_slot (cb cb_arg : Z) (l : list (Z * Z)) : list (Z * Z) :=
  match l with [] => [] | x :: l => if fst x =? 0 then (cb, cb_arg) :: l else x :: occupy_free_slot cb cb_arg l end.
Definition pl011_uart_subscribe_to_rx_event (cb cb_arg : Z) : io S Z := λ s, Ret (ERR_OK, with_subs s (occupy_free_slot cb cb_arg (rx_subscribers s))).
Definition uart_subscribe_to_rx_event (cb priv : Z) : io S Z := pl011_uart_subscribe_to_rx_event cb priv.
Definition uart_is_initialized : io S Z := λ s, Ret (pl011_uart_initialized s, s).

(** A callback with its arguments. *)
Record rx_call := RxCall { called : Z; with_arg : Z; with_char : Z }.
Definition call_subscribers (c : Z) (l : list (Z * Z)) : list rx_call :=
  flat_map (λ '(cb, arg), if truth cb then [RxCall cb arg c] else []) l.

(** "interrupt mode set" *)
Definition interrupt_mode_set : list Z := [105; 110; 116; 101; 114; 114; 117; 112; 116; 32; 109; 111; 100; 101; 32; 115; 101; 116; 0].

(** [pl011_io_thread] up to its loop, and a turn of the loop. *)
Definition pl011_io_thread_start : io S unit :=
  _ ← rx_subscribers_init;
  _ ← (λ s, Ret (tt, UartDrv (uregs s) (upins s) (umbox s) (uirqs s) (rx_pipe s) (rx_subscribers s) 1));
  _ ← pl011_uart_set_interrupt_mode;
  pl011_puts_blocking fuel interrupt_mode_set.
Definition pl011_io_thread_turn (now : Z) : io S (list rx_call) :=
  λ s, '(c, s) ← pl011_rx_pipe_pop now s; Ret (call_subscribers c (rx_subscribers s), s).
End driver.

(** ** The device

    [line]: the bytes that have gone out; [inbox]: the words of the receive FIFO
    still to be read, the character in the low byte and the error flags above;
    [full_for]: how many more reads of the flag register find the transmit FIFO
    full, at most [maxw]; [unmasked]: the receive interrupt is enabled.  [rest]
    is what accesses do not touch. *)
Class Pl011 (D : Type) `{Mmio D} (maxw : nat) : Type := {
  line : D → list Z;
  inbox : D → list Z;
  full_for : D → nat;
  unmasked : D → bool;
  Rest : Type;
  rest : D → Rest;
  pl_full d : (full_for d ≤ maxw)%nat;
  pl_flag d : truth (Z.land (fst (mmio_read PL011_UARTFR d)) PL011_UARTFR_TXFF) = negb (full_for d =? 0)%nat;
  pl_mis d : truth (PL011_UARTMIS_GET_RXMIS (fst (mmio_read PL011_UARTMIS d))) = unmasked d && negb (bool_decide (inbox d = []));
  pl_data d c l : inbox d = c :: l → fst (mmio_read PL011_UARTDR d) = c;
  pl_read r d d' : d' = snd (mmio_read r d) →
    line d' = line d ∧ inbox d' = (if r =? PL011_UARTDR then tail (inbox d) else inbox d) ∧
    full_for d' = (if r =? PL011_UARTFR then pred (full_for d) else full_for d) ∧ unmasked d' = unmasked d ∧ rest d' = rest d;
  pl_write r v d d' : d' = mmio_write r v d →
    line d' = (if (r =? PL011_UARTDR) && (full_for d =? 0)%nat then line d ++ [v] else line d) ∧ inbox d' = inbox d ∧
    unmasked d' = (if r =? PL011_UARTIMSC then Z.testbit v 4 else unmasked d) ∧ rest d' = rest d }.

(** The driver's state is such a device; the rest is its other fields. *)
#[export] Program Instance uart_pl011 {D} `{Mmio D} {maxw} `{!Pl011 D maxw} : Pl011 (uart_drv D) maxw := {|
  line s := line (uregs s); inbox s := inbox (uregs s); full_for s := full_for (uregs s); unmasked s := unmasked (uregs s);
  rest s := (upins s, umbox s, uirqs s, rx_pipe s, rx_subscribers s) |}.
Next Obligation. intros D ? maxw ? s. apply pl_full. Qed.
Next Obligation. intros D ? maxw ? s. pose proof (pl_flag (uregs s)) as E. cbn [mmio_read uart_mmio]. by destruct (mmio_read _ _). Qed.
Next Obligation. intros D ? maxw ? s. pose proof (pl_mis (uregs s)) as E. cbn [mmio_read uart_mmio]. by destruct (mmio_read _ _). Qed.
Next Obligation. intros D ? maxw ? s c l Hl. cbn in Hl. pose proof (pl_data _ _ _ Hl) as E. cbn [mmio_read uart_mmio]. by destruct (mmio_read _ _). Qed.
Next Obligation.
  intros D ? maxw ? r s s'. cbn [mmio_read uart_mmio]. destruct (mmio_read r (uregs s)) as [v d'] eqn:E. intros ->. cbn.
  destruct (pl_read r (uregs s) d') as (? & ? & ? & ? & _); [by rewrite E|]. done.
Qed.
Next Obligation. intros D ? maxw ? r v s s' ->. cbn. by destruct (pl_write r v (uregs s) _ eq_refl) as (? & ? & ? & _). Qed.

(** ** What is sent *)
Section sends.
Context {D : Type} `{Mmio D} {maxw : nat} `{!Pl011 D maxw} (fuel : nat).

Definition sent_on (l : list Z) (d d' : D) : Prop :=
  line d' = line d ++ l ∧ inbox d' = inbox d ∧ unmasked d' = unmasked d ∧ rest d' = rest d.
Definition sends {A} (m : io D A) (a : A) (l : list Z) : Prop := ∀ d, ∃ d', m d = Ret (a, d') ∧ sent_on l d d'.

Lemma sends_ret {A} (a : A) : sends (mret a) a [].
Proof. intros d. exists d. split; [done|]. split; [by rewrite app_nil_r|done]. Qed.

Lemma sends_bind {A B} (m : io D A) (f : A → io D B) a b l l' : sends m a l → sends (f a) b l' → sends (m ≫= f) b (l ++ l').
Proof.
  intros Hm Hf d. destruct (Hm d) as (d1 & E1 & L1 & I1 & U1 & R1). destruct (Hf d1) as (d2 & E2 & L2 & I2 & U2 & R2).
  exists d2. split; [unfold mbind, io_bind; by rewrite E1|]. split; [by rewrite L2, L1, app_assoc|]. split_and!; congruence.
Qed.

Lemma wait_not_full d : (full_for d < fuel)%nat →
  ∃ d', wait_clear fuel PL011_UARTFR PL011_UARTFR_TXFF d = Ret (tt, d') ∧ full_for d' = 0%nat ∧ sent_on [] d d'.
Proof.
  unfold wait_clear, io_loop. revert d. induction fuel as [|n IH]; intros d Hd; [lia|]. cbn [loop]. rewrite read_reg_bind.
  rewrite pl_flag. destruct (pl_read PL011_UARTFR d _ eq_refl) as (L & I & F & U & R). rewrite Z.eqb_refl in F.
  change (PL011_UARTFR =? PL011_UARTDR) with false in I. cbv iota in F, I. set (d1 := snd (mmio_read PL011_UARTFR d)) in *.
  destruct (Nat.eqb_spec (full_for d) 0) as [E|E]; cbn [negb mret io_ret mbind outcome_bind].
  - exists d1. split; [done|]. split; [rewrite F, E; done|]. split; [by rewrite app_nil_r|done].
  - destruct (IH d1) as (d2 & E2 & F2 & L2 & I2 & U2 & R2); [lia|]. exists d2. split; [exact E2|]. split; [done|].
    rewrite app_nil_r in L2. split; [rewrite app_nil_r; congruence|]. split_and!; congruence.
Qed.

Lemma sends_byte c : (maxw < fuel)%nat → 0 ≤ c < 256 → sends (pl011_uart_putchar fuel c) tt [c].
Proof.
  intros Hf Hc d. pose proof (pl_full d). destruct (wait_not_full d) as (d1 & E1 & F1 & L1 & I1 & U1 & R1); [lia|].
  set (d2 := mmio_write PL011_UARTDR (u32 c) d1). destruct (pl_write PL011_UARTDR (u32 c) d1 d2 eq_refl) as (L2 & I2 & U2 & R2).
  exists d2. split; [unfold pl011_uart_putchar, mbind, io_bind; by rewrite E1|].
  rewrite F1, u32_id, L1, app_nil_r in L2 by lia. split; [exact L2|]. split_and!; [by rewrite I2|by rewrite U2|by rewrite R2].
Qed.

Lemma sends_send c : (maxw < fuel)%nat → 0 ≤ c < 256 → sends (pl011_uart_send fuel c) tt [c].
Proof.
  intros Hf Hc. unfold pl011_uart_send. change 0xff with (Z.ones 8). rewrite Z.land_ones, Z.mod_small by lia. by apply sends_byte.
Qed.

Abbreviation chars := (Forall (λ c, 0 < c < 256)).

Lemma puts_loop_sends s : (maxw < fuel)%nat → chars s → sends (puts_loop fuel (s ++ [0])) tt s.
Proof.
  intros Hf. induction 1 as [|c s Hc Hs IH]; [apply sends_ret|]. cbn [app puts_loop]. destruct (Z.eqb_spec c 0); [lia|].
  apply (sends_bind _ _ tt tt [c] s); [apply sends_byte; [done|lia]|exact IH].
Qed.

(** The bytes of a string on the wire: a carriage return before a line feed. *)
Definition crlf (s : list Z) : list Z := flat_map (λ c, if c =? 10 then [13; 10] else [c]) s.

Lemma uart_puts_loop s : (maxw < fuel)%nat → chars s → sends (uart_puts fuel (s ++ [0])) ERR_OK (crlf s).
Proof.
  intros Hf. induction 1 as [|c s Hc Hs IH]; [apply sends_ret|]. cbn [app uart_puts crlf flat_map]. destruct (Z.eqb_spec c 0); [lia|].
  assert (sends (if c =? 10 then pl011_uart_send fuel 13 else mret tt) tt (if c =? 10 then [13] else [])) as H13
    by (destruct (c =? 10); [apply sends_send; [done|lia]|apply sends_ret]).
  replace ((if c =? 10 then [13; 10] else [c]) ++ flat_map _ s) with ((if c =? 10 then [13] else []) ++ [c] ++ crlf s)
    by (destruct (Z.eqb_spec c 10) as [->|]; done).
  eapply sends_bind; [exact H13|]. eapply sends_bind; [apply sends_send; [done|lia]|exact IH].
Qed.

Lemma send_buf_loop_sends l : (maxw < fuel)%nat → Forall (λ c, 0 ≤ c < 256) l → sends (send_buf_loop fuel l) tt l.
Proof.
  intros Hf. induction 1 as [|c s Hc Hs IH]; [apply sends_ret|]. cbn [send_buf_loop].
  intros d. destruct (sends_bind (pl011_uart_putchar fuel c) (λ _, send_buf_loop fuel s) tt tt [c] s (sends_byte c Hf Hc) IH d) as (d' & E & Hd').
  exists d'. split; [|exact Hd']. rewrite <- E. unfold pl011_uart_putchar, mbind, io_bind. by destruct (wait_clear _ _ _ d) as [[]| | |].
Qed.
End sends.

(** ** A byte through the ring *)
Lemma ring_memcpy_1 fuel m dst src c : (2 ≤ fuel)%nat → m !! src = Some c → is_Some (m !! dst) →
  ring_memcpy fuel m dst src 1 = Ret (<[dst := u8 c]> m).
Proof.
  intros Hf Hc Hd. destruct fuel as [|[|fuel]]; [lia..|]. unfold ring_memcpy. cbn [loop]. change (0 <? u64 1) with true. cbv iota.
  rewrite (load8_at _ _ _ Hc), bind_ret, store8_returns by done. done.
Qed.

Lemma ring_memcpy_0 fuel m dst src : (1 ≤ fuel)%nat → ring_memcpy fuel m dst src 0 = Ret m.
Proof. intros. destruct fuel; [lia|done]. Qed.

Definition same_domain (m m' : mem) : Prop := ∀ p, is_Some (m !! p) → is_Some (m' !! p).

Lemma same_domain_insert m p v : same_domain m (<[p := v]> m).
Proof. intros q Hq. destruct (decide (q = p)) as [->|]; [by rewrite lookup_insert_eq|by rewrite lookup_insert_ne]. Qed.

(** A ring of eight bytes at [b] with the characters [q], its pointers at the
    offsets [r] and [w]. *)
Record ring_of (b : Z) (q : list Z) (r w : Z) (ahead : bool) (m : mem) (x : ringbuf) : Prop := {
  ro_ring : x = Ringbuf b (b + 8) (b + w) (b + r) ahead;
  ro_bounds : 0 ≤ r ≤ 8 ∧ 0 ≤ w ≤ 8;
  ro_length : Z.of_nat (length q) = (if ahead then 8 + w else w) - r;
  ro_chars : ∀ i c, q !! i = Some c → 0 ≤ c < 256 ∧ m !! (b + (r + Z.of_nat i) mod 8) = Some c }.

Lemma ring_of_same b q r w a m m' x : ring_of b q r w a m x → (∀ p, b ≤ p < b + 8 → m' !! p = m !! p) → ring_of b q r w a m' x.
Proof. intros [E B L C] Hm. split; [done..|]. intros i c Hi. destruct (C i c Hi) as [? Hc]. split; [done|]. rewrite Hm; [done|]. dlia. Qed.

(** The character that comes next goes where the queue ends. *)
Lemma ring_of_snoc b q r w a m x c w' (a' : bool) : ring_of b q r w a m x → 0 ≤ c < 256 → 0 ≤ w' ≤ 8 → Z.of_nat (length q) < 8 →
  (if a' then 8 + w' else w') = (if a then 8 + w else w) + 1 →
  ring_of b (q ++ [c]) r w' a' (<[b + (r + Z.of_nat (length q)) mod 8 := c]> m) (Ringbuf b (b + 8) (b + w') (b + r) a').
Proof.
  intros [E B L C] Hc Hw Hq Ha. split; [done|lia|rewrite length_app; cbn; lia|].
  intros i d Hi. destruct (decide (i < length q)%nat) as [Hlt|Hge].
  - rewrite lookup_app_l in Hi by done. destruct (C i d Hi) as [? Hd]. split; [done|]. rewrite lookup_insert_ne; [done|]. dlia.
  - rewrite lookup_app_r in Hi by lia. destruct (i - length q)%nat eqn:Ei; [|done]. injection Hi as <-. split; [done|].
    replace i with (length q) by lia. apply lookup_insert_eq.
Qed.

Lemma ring_of_tail b q r w a m x c r' (a' : bool) : ring_of b (c :: q) r w a m x → 0 ≤ r' ≤ 8 → (r' - (r + 1)) mod 8 = 0 →
  (if a' then 8 + w else w) - r' = (if a then 8 + w else w) - (r + 1) → ring_of b q r' w a' m (Ringbuf b (b + 8) (b + w) (b + r') a').
Proof.
  intros [E B L C] Hr Hm Ha. split; [done|lia|cbn [length] in L; lia|]. intros i d Hi. destruct (C (Datatypes.S i) d Hi) as [? Hd].
  split; [done|]. replace ((r' + Z.of_nat i) mod 8) with ((r + Z.of_nat (Datatypes.S i)) mod 8) by dlia. done.
Qed.

(** Where the pointers of the ring are after a write of one byte, while the reader
    is not ahead and there is room. *)
Definition arrive (r w : Z) : option (Z * bool) := if w <? 8 then Some (w + 1, false) else if 0 <? r then Some (1, true) else None.
(** And after a read of one byte. *)
Definition take_one (r w : Z) (a : bool) : Z * bool := if a && (r =? 8) then (1, false) else (r + 1, a).

Lemma write_one fuel m x b pc c q r w w' a' : (2 ≤ fuel)%nat → ring_of b q r w false m x → mapped m b 8 → m !! pc = Some c → 0 ≤ c < 256 →
  (pc < b ∨ b + 8 ≤ pc) → r ≤ w → arrive r w = Some (w', a') →
  ∃ m' x', ringbuf_write fuel m x pc 1 = Ret (m', x', 1) ∧ ring_of b (q ++ [c]) r w' a' m' x' ∧ same_domain m m'.
Proof.
  intros Hf Hr Hm Hc Hb Hpc Hrw Hw'. pose proof (ro_ring _ _ _ _ _ _ _ Hr) as ->. pose proof (ro_bounds _ _ _ _ _ _ _ Hr) as [Br Bw].
  pose proof (ro_length _ _ _ _ _ _ _ Hr) as L. cbn in L. unfold arrive in Hw'.
  unfold ringbuf_write. cbn [read_is_ahead buf buf_end write_ptr read_ptr]. rewrite !c_min_spec.
  destruct (Z.ltb_spec w 8); [|destruct (Z.ltb_spec 0 r); [|done]]; injection Hw' as <- <-.
  - replace (Z.min (b + 8 - (b + w)) 1) with 1 by lia. rewrite (ring_memcpy_1 _ _ _ _ c) by (done || (apply Hm; lia)).
    rewrite bind_ret, u8_id by lia. cbn [set_write_ptr write_ptr read_ptr buf]. replace (Z.min (b + r - b) (1 - 1)) with 0 by lia. change (truth 0) with false. cbv iota.
    pose proof (ring_of_snoc b q r w false m _ c (w + 1) false Hr Hb ltac:(lia) ltac:(lia) eq_refl) as Hs.
    replace (b + (r + Z.of_nat (length q)) mod 8) with (b + w) in Hs by dlia. replace (b + (w + 1)) with (b + w + 1) in Hs by lia.
    eexists _, _. split; [done|]. split; [exact Hs|apply same_domain_insert].
  - replace w with 8 in * by lia. replace (Z.min (b + 8 - (b + 8)) 1) with 0 by lia. rewrite ring_memcpy_0, bind_ret by lia. cbn [set_write_ptr write_ptr read_ptr buf buf_end].
    replace (Z.min (b + r - b) (1 - 0)) with 1 by lia. change (truth 1) with true. cbv iota.
    rewrite !Z.add_0_r, (ring_memcpy_1 _ _ _ _ c) by (done || (apply Hm; lia)). rewrite bind_ret, u8_id by lia.
    pose proof (ring_of_snoc b q r 8 false m _ c 1 true Hr Hb ltac:(lia) ltac:(lia) eq_refl) as Hs.
    replace (b + (r + Z.of_nat (length q)) mod 8) with b in Hs by dlia.
    eexists _, _. split; [done|]. split; [exact Hs|apply same_domain_insert].
Qed.

Lemma read_one fuel m x b pv c q r w a : (2 ≤ fuel)%nat → ring_of b (c :: q) r w a m x → is_Some (m !! pv) → (pv < b ∨ b + 8 ≤ pv) →
  ∃ x', ringbuf_read fuel m x pv 1 = Ret (<[pv := c]> m, x', 1) ∧ ring_of b q (take_one r w a).1 w (take_one r w a).2 (<[pv := c]> m) x'.
Proof.
  intros Hf Hr Hv Hpv. pose proof (ro_ring _ _ _ _ _ _ _ Hr) as ->. pose proof (ro_bounds _ _ _ _ _ _ _ Hr) as [Br Bw].
  pose proof (ro_length _ _ _ _ _ _ _ Hr) as L. cbn [length] in L. destruct (ro_chars _ _ _ _ _ _ _ Hr 0%nat c eq_refl) as [Hc Hm].
  assert (∀ p, b ≤ p < b + 8 → <[pv := c]> m !! p = m !! p) as Hsame by (intros p Hp; rewrite lookup_insert_ne; [done|lia]).
  unfold ringbuf_read, take_one. cbn [read_is_ahead buf buf_end write_ptr read_ptr]. rewrite !c_min_spec. destruct a; cbn [andb].
  - destruct (Z.eqb_spec r 8) as [->|Hr8].
    + replace (Z.min (b + 8 - (b + 8)) 1) with 0 by lia. rewrite ring_memcpy_0, bind_ret by lia. cbn [set_read_ptr write_ptr read_ptr buf buf_end].
      replace (Z.min (b + w - b) (1 - 0)) with 1 by lia. change (truth 1) with true. cbv iota.
      change ((8 + Z.of_nat 0) mod 8) with 0 in Hm. rewrite Z.add_0_r in Hm.
      rewrite !Z.add_0_r, (ring_memcpy_1 _ _ _ _ c), bind_ret, u8_id by (done || lia). eexists. split; [done|].
      eapply ring_of_same; [|exact Hsame]. eapply (ring_of_tail b q 8 w true); [exact Hr|cbn; lia|done|cbn; lia].
    + replace (Z.min (b + 8 - (b + r)) 1) with 1 by lia. rewrite Z.mod_small, Z.add_0_r in Hm by lia.
      rewrite (ring_memcpy_1 _ _ _ _ c), bind_ret, u8_id by (done || lia). cbn [set_read_ptr write_ptr read_ptr buf buf_end].
      replace (Z.min (b + w - b) (1 - 1)) with 0 by lia. change (truth 0) with false. cbv iota. eexists. split; [done|].
      eapply ring_of_same; [|exact Hsame]. replace (b + r + 1) with (b + (r + 1)) by lia.
      eapply (ring_of_tail b q r w true); [exact Hr|cbn; lia|by rewrite Z.sub_diag|cbn; lia].
  - replace (Z.min (b + w - (b + r)) 1) with 1 by lia. rewrite Z.mod_small, Z.add_0_r in Hm by lia.
    rewrite (ring_memcpy_1 _ _ _ _ c), bind_ret, u8_id by (done || lia). eexists. split; [done|].
    eapply ring_of_same; [|exact Hsame]. cbn [set_read_ptr write_ptr read_ptr buf buf_end]. replace (b + r + 1) with (b + (r + 1)) by lia.
    eapply (ring_of_tail b q r w false); [exact Hr|cbn; lia|by rewrite Z.sub_diag|cbn; lia].
Qed.

Lemma ring_of_contents b q r w (a : bool) m x : ring_of b q r w a m x → (if a then True else r ≤ w) → contents m x = q.
Proof.
  intros [-> [Br Bw] L C] Ho. unfold contents. cbn [read_is_ahead buf buf_end write_ptr read_ptr].
  assert (∀ k n p, (∀ i : nat, (k ≤ i < k + n)%nat → (r + Z.of_nat i) mod 8 = p + Z.of_nat i - Z.of_nat k) → (k + n ≤ length q)%nat →
    read_bytes n m (b + p) = take n (drop k q)) as Hpart.
  { intros k n p Hk Hn. transitivity (read_bytes (length (take n (drop k q))) m (b + p)); [f_equal; rewrite length_take, length_drop; lia|].
    apply read_bytes_at. intros i c Hi. apply lookup_take_Some in Hi as [Hi Hlt]. rewrite lookup_drop in Hi. destruct (C _ _ Hi) as [_ Hc].
    rewrite Hk in Hc by lia. rewrite <- Hc. f_equal. lia. }
  destruct a.
  - replace (b + 8 - (b + r)) with (8 - r) by lia. replace (b + w - b) with w by lia.
    rewrite (Hpart 0%nat (Z.to_nat (8 - r)) r) by (intros; dlia || lia).
    pose proof (Hpart (Z.to_nat (8 - r)) (Z.to_nat w) 0) as H2. rewrite Z.add_0_r in H2. rewrite H2 by (intros; dlia || lia).
    rewrite drop_0, (take_ge (drop _ q)) by (rewrite length_drop; lia). apply take_drop.
  - replace (b + w - (b + r)) with (w - r) by lia. rewrite (Hpart 0%nat (Z.to_nat (w - r)) r) by (intros; dlia || lia).
    rewrite drop_0. apply take_ge. lia.
Qed.

(** ** The receive path *)
Section receive.
Context {D : Type} `{Mmio D} {maxw : nat} `{!Pl011 D maxw} (fuel : nat).
Context (pl011_rx_buf waitflag pc pv handler_ptr : Z).
Abbreviation S := (uart_drv D).
Implicit Types s : uart_drv D.

(** The pipe holds the characters [q], its pointers at the offsets [r] and [w]; its
    memory and flag are there, and the flag is set only while it holds one. *)
Record rx_holds (p : pipe_state) (q : list Z) (r w : Z) (ahead flag : bool) : Prop := {
  rh_ring : ring_of pl011_rx_buf q r w ahead (pmem p) (pring p);
  rh_order : if ahead then True else r ≤ w;
  rh_mem : mapped (pmem p) pl011_rx_buf 8;
  rh_pc : is_Some (pmem p !! pc);
  rh_pv : is_Some (pmem p !! pv);
  rh_word : is_Some (Sched.words (pker p) !! waitflag);
  rh_flag : flag = true → Sched.words (pker p) !! waitflag = Some 1 ∧ q ≠ [] }.

(** The parameter of [pipe_push] and the variable of [pipe_pop] are not in the buffer. *)
Hypothesis Hpc : pc < pl011_rx_buf ∨ pl011_rx_buf + 8 ≤ pc.
Hypothesis Hpv : pv < pl011_rx_buf ∨ pl011_rx_buf + 8 ≤ pv.

Lemma wakeup_sets k : is_Some (Sched.words k !! waitflag) →
  ∃ k', wakeup_waitflag waitflag k = Ret k' ∧ Sched.words k' !! waitflag = Some 1.
Proof. intros [v Hv]. unfold wakeup_waitflag, irqs_saved. cbn. rewrite Hv. eexists. split; [done|]. cbn. apply lookup_insert_eq. Qed.

Lemma wait_takes now k : Sched.words k !! waitflag = Some 1 →
  ∃ k', wait_on_waitflag fuel now waitflag k = Ret k' ∧ is_Some (Sched.words k' !! waitflag).
Proof.
  intros Hv. unfold wait_on_waitflag, atomic_cmp_and_swap. rewrite Hv. cbn. eexists. split; [done|]. cbn. by rewrite lookup_insert_eq.
Qed.

Lemma push_holds p q r w w' a' flag c : (2 ≤ fuel)%nat → rx_holds p q r w false flag → arrive r w = Some (w', a') → 0 ≤ c < 256 →
  ∃ p', pipe_push fuel waitflag pc c p = Ret p' ∧ rx_holds p' (q ++ [c]) r w' a' true.
Proof using Hpc.
  intros Hf [Hr Ho Hm Hc Hv Hw _] Ha Hb. unfold pipe_push. rewrite store8_returns, u8_id, bind_ret by (done || lia).
  assert (same_domain (pmem p) (<[pc := c]> (pmem p))) as D1 by apply same_domain_insert.
  destruct (write_one fuel (<[pc := c]> (pmem p)) (pring p) pl011_rx_buf pc c q r w w' a') as (m' & x' & E & Hr' & D2);
    [done| |intros z Hz; apply D1, Hm, Hz|apply lookup_insert_eq|done|done|done|done|].
  { eapply ring_of_same; [exact Hr|]. intros z Hz. rewrite lookup_insert_ne; [done|lia]. }
  rewrite E, bind_ret. destruct (wakeup_sets (pker p) Hw) as (k & Ek & Hk). rewrite Ek, bind_ret. eexists. split; [done|].
  split; cbn [pker pmem pring]; [done| |intros z Hz; apply D2, D1, Hm, Hz|by apply D2, D1|by apply D2, D1|by eexists|].
  - unfold arrive in Ha. pose proof (ro_bounds _ _ _ _ _ _ _ Hr). destruct (w <? 8); [|destruct (0 <? r); [|done]]; injection Ha as <- <-; [lia|done].
  - intros _. split; [done|]. by destruct q.
Qed.

Lemma pop_holds now p c q r w a : (2 ≤ fuel)%nat → rx_holds p (c :: q) r w a true →
  ∃ p1 p2, pipe_pop_wait fuel now waitflag p = Ret p1 ∧ pipe_pop_take fuel pv p1 = Ret (p2, c) ∧
    rx_holds p2 q (take_one r w a).1 w (take_one r w a).2 false.
Proof using Hpv.
  intros Hf [Hr Ho Hm Hc Hv Hw Hfl]. destruct (Hfl eq_refl) as [H1 _].
  destruct (wait_takes now (pker p) H1) as (k & Ek & Hk). destruct (read_one fuel _ _ _ pv c q r w a Hf Hr Hv Hpv) as (x & E & Hr').
  unfold pipe_pop_wait. rewrite Ek, bind_ret. eexists _, _. split; [done|]. unfold pipe_pop_take. cbn [pker pmem pring].
  rewrite E, bind_ret. change (1 =? 1) with true. cbn [negb]. rewrite BUG_false, bind_ret, (load8_at _ _ c) by apply lookup_insert_eq. rewrite bind_ret.
  split; [reflexivity|]. assert (same_domain (pmem p) (<[pv := c]> (pmem p))) as D1 by apply same_domain_insert.
  split; cbn [pker pmem pring]; [done| |intros z Hz; apply D1, Hm, Hz|by apply D1|by apply D1|done|done].
  unfold take_one. pose proof (ro_bounds _ _ _ _ _ _ _ Hr). pose proof (ro_length _ _ _ _ _ _ _ Hr) as L. cbn [length] in L.
  destruct a; cbn [andb]; [destruct (Z.eqb_spec r 8); cbn; [|done]|cbn; lia]. lia.
Qed.

Lemma no_error_bits c : 0 ≤ c < 256 → Z.land c 0xff = c.
Proof. intros. change 0xff with (Z.ones 8). by rewrite Z.land_ones, Z.mod_small by lia. Qed.

(** An interrupt moves a character from the receive FIFO to the pipe. *)
Lemma interrupt_holds s q r w w' a' flag c l : (2 ≤ fuel)%nat → rx_holds (rx_pipe s) q r w false flag → unmasked s = true →
  arrive r w = Some (w', a') → inbox s = c :: l → 0 ≤ c < 256 →
  ∃ s', pl011_uart_handle_interrupt fuel waitflag pc s = Ret (tt, s') ∧ rx_holds (rx_pipe s') (q ++ [c]) r w' a' true ∧
    unmasked s' = true ∧ inbox s' = l ∧ rx_subscribers s' = rx_subscribers s.
Proof using Hpc.
  intros Hf Hh Hu Ha Hin Hc. unfold pl011_uart_handle_interrupt.
  pose proof (pl_mis s) as Hmis. rewrite Hu, bool_decide_eq_false_2 in Hmis by by rewrite Hin.
  destruct (pl_read PL011_UARTMIS s _ eq_refl) as (_ & I1 & _ & U1 & R1). change (PL011_UARTMIS =? PL011_UARTDR) with false in I1. cbv iota in I1.
  destruct (mmio_read PL011_UARTMIS s) as [mis s1] eqn:E1. cbn [fst snd] in Hmis, I1, U1, R1.
  set (s2 := mmio_write PL011_UARTICR (u32 mis) s1).
  destruct (pl_write PL011_UARTICR (u32 mis) s1 s2 eq_refl) as (_ & I2 & U2 & R2). change (PL011_UARTICR =? PL011_UARTIMSC) with false in U2. cbv iota in U2.
  rewrite I1, Hin in I2. pose proof (pl_data s2 c l I2) as Hdr.
  destruct (pl_read PL011_UARTDR s2 _ eq_refl) as (_ & I3 & _ & U3 & R3). rewrite Z.eqb_refl, I2 in I3. cbn [tail] in I3.
  destruct (mmio_read PL011_UARTDR s2) as [dr s3] eqn:E3. cbn [fst snd] in Hdr, I3, U3, R3. subst dr.
  assert (rest s3 = rest s) as R by congruence. cbn [rest uart_pl011] in R. injection R as _ _ _ Hp Hs.
  destruct (push_holds (rx_pipe s) q r w w' a' flag c Hf Hh Ha Hc) as (p1 & Ep1 & Hp1).
  exists (with_pipe s3 p1). split; [|split; [exact Hp1|change (unmasked (with_pipe s3 p1)) with (unmasked s3); split; [congruence|split; [exact I3|exact Hs]]]].
  rewrite read_reg_bind, E1. cbn [fst snd]. rewrite write_reg_bind. fold s2.
  replace (truth (PL011_UARTMIS_GET_RXMIS mis)) with true by (symmetry; exact Hmis). cbv iota. rewrite read_reg_bind, E3. cbn [fst snd].
  rewrite (no_error_bits c Hc), Z.eqb_refl. cbn [negb]. rewrite (io_bind_ret _ _ _ tt s3) by done.
  unfold pl011_rx_pipe_push. by rewrite Hp, Ep1.
Qed.

(** A turn of the thread hands the oldest character on. *)
Lemma thread_holds now s c q r w a : (2 ≤ fuel)%nat → rx_holds (rx_pipe s) (c :: q) r w a true →
  ∃ s', pl011_io_thread_turn fuel waitflag pv now s = Ret (call_subscribers c (rx_subscribers s), s') ∧
    rx_holds (rx_pipe s') q (take_one r w a).1 w (take_one r w a).2 false ∧
    unmasked s' = unmasked s ∧ inbox s' = inbox s ∧ rx_subscribers s' = rx_subscribers s.
Proof using Hpv.
  intros Hf Hh. destruct (pop_holds now _ c q r w a Hf Hh) as (p1 & p2 & E1 & E2 & H2). exists (with_pipe s p2).
  unfold pl011_io_thread_turn, pl011_rx_pipe_pop. rewrite E1. cbn [mbind outcome_bind]. rewrite E2. done.
Qed.

(** ** Interrupts and turns of the thread, in any order

    The receive interrupt is taken, or the thread, whose flag is set, is run. *)
Inductive rx_event := Arrives | Thread (now : Z).
Fixpoint rx_run (l : list rx_event) : io S (list rx_call) :=
  match l with
  | [] => mret []
  | Arrives :: l => _ ← pl011_uart_handle_interrupt fuel waitflag pc; rx_run l
  | Thread now :: l => calls ← pl011_io_thread_turn fuel waitflag pv now; calls' ← rx_run l; mret (calls ++ calls')
  end.

Fixpoint arrivals (l : list rx_event) : nat := match l with [] => 0 | Arrives :: l => Datatypes.S (arrivals l) | Thread _ :: l => arrivals l end.
Fixpoint turns (l : list rx_event) : nat := match l with [] => 0 | Arrives :: l => turns l | Thread _ :: l => Datatypes.S (turns l) end.

(** The order of events that the pipe carries.  From the offsets [r] of the reader
    and [w] of the writer in its eight bytes: a character may arrive unless the
    writer has gone round the end before the reader ([ahead]) or the array is full,
    and the thread may run once after each arrival, or several. *)
Fixpoint carried (flag : bool) (r w : Z) (ahead : bool) (l : list rx_event) : bool :=
  match l with
  | [] => true
  | Arrives :: l => negb ahead && match arrive r w with Some (w, ahead) => carried true r w ahead l | None => false end
  | Thread _ :: l => flag && carried false (take_one r w ahead).1 w (take_one r w ahead).2 l
  end.

Lemma rx_run_delivers evs : ∀ s q r w a flag cs l, (2 ≤ fuel)%nat → rx_holds (rx_pipe s) q r w a flag → unmasked s = true →
  carried flag r w a evs = true → inbox s = cs ++ l → length cs = arrivals evs → Forall (λ c, 0 ≤ c < 256) cs →
  ∃ s', rx_run evs s = Ret (flat_map (λ c, call_subscribers c (rx_subscribers s)) (take (turns evs) (q ++ cs)), s') ∧
    pipe_contents (rx_pipe s') = drop (turns evs) (q ++ cs) ∧ inbox s' = l.
Proof using Hpc Hpv.
  induction evs as [|[|now] evs IH]; intros s q r w a flag cs l Hf Hh Hu Ht Hin Hl Hcs; cbn [carried arrivals turns] in *.
  - destruct cs; [|done]. exists s. rewrite app_nil_r, drop_0. split; [done|]. split; [|done].
    destruct Hh as [Hr Ho _ _ _ _ _]. by eapply ring_of_contents.
  - destruct cs as [|c cs]; [done|]. injection Hl as Hl. apply Forall_cons in Hcs as [Hc Hcs].
    destruct a; [done|]. cbn [negb andb] in Ht. destruct (arrive r w) as [[w' a']|] eqn:Ea; [|done].
    destruct (interrupt_holds s q r w w' a' flag c (cs ++ l) Hf Hh Hu Ea Hin Hc) as (s1 & E1 & H1 & U1 & I1 & S1).
    destruct (IH s1 (q ++ [c]) r w' a' true cs l Hf H1 U1 Ht I1 Hl Hcs) as (s2 & E2 & C2 & I2).
    exists s2. cbn [rx_run]. rewrite (io_bind_ret _ _ _ _ _ E1), E2, S1. rewrite <- (app_assoc q [c] cs) in *. done.
  - destruct flag; [|done]. cbn [andb] in Ht. destruct (rh_flag _ _ _ _ _ _ Hh eq_refl) as [_ Hq]. destruct q as [|c q]; [done|].
    destruct (thread_holds now s c q r w a Hf Hh) as (s1 & E1 & H1 & U1 & I1 & S1).
    destruct (IH s1 q _ w _ false cs l Hf H1 ltac:(congruence) Ht ltac:(congruence) Hl Hcs) as (s2 & E2 & C2 & I2).
    exists s2. cbn [rx_run]. rewrite (io_bind_ret _ _ _ _ _ E1), (io_bind_ret _ _ _ _ _ E2), S1. done.
Qed.

(** ** The start of the thread, and subscriptions *)
Fixpoint subscribe_all (subs : list (Z * Z)) : io S unit :=
  match subs with [] => mret tt | (cb, arg) :: subs => _ ← uart_subscribe_to_rx_event cb arg; subscribe_all subs end.

Lemma occupy_next cb arg l n : Forall (λ x, fst x ≠ 0) l →
  occupy_free_slot cb arg (l ++ replicate (Datatypes.S n) (0, 0)) = (l ++ [(cb, arg)]) ++ replicate n (0, 0).
Proof.
  induction 1 as [|x l Hx Hl IH]; [done|]. cbn [app occupy_free_slot]. destruct (Z.eqb_spec (fst x) 0); [done|]. by rewrite IH.
Qed.

Lemma subscribe_all_adds subs : ∀ s l, Forall (λ x, fst x ≠ 0) subs → Forall (λ x, fst x ≠ 0) l → (length l + length subs ≤ 8)%nat →
  rx_subscribers s = l ++ replicate (8 - length l) (0, 0) →
  subscribe_all subs s = Ret (tt, with_subs s ((l ++ subs) ++ replicate (8 - length (l ++ subs)) (0, 0))).
Proof.
  induction subs as [|[cb arg] subs IH]; intros s l Hsubs Hl Hn Hs.
  - rewrite app_nil_r, <- Hs. by destruct s.
  - apply Forall_cons in Hsubs as [Hcb Hsubs]. cbn [length] in Hn. cbn [subscribe_all].
    erewrite io_bind_ret by done. rewrite Hs. replace (8 - length l)%nat with (Datatypes.S (8 - length (l ++ [(cb, arg)]))) by (rewrite length_app; cbn; lia).
    rewrite occupy_next by done. rewrite (IH _ (l ++ [(cb, arg)])); [by rewrite <- (app_assoc l [(cb, arg)] subs)|done|apply Forall_app_2; [done|by repeat constructor]|rewrite length_app; cbn; lia|done].
Qed.

Lemma call_subscribed c subs n : Forall (λ x, fst x ≠ 0) subs →
  call_subscribers c (subs ++ replicate n (0, 0)) = map (λ '(cb, arg), RxCall cb arg c) subs.
Proof.
  intros Hs. unfold call_subscribers. rewrite flat_map_app.
  assert (flat_map (λ '(cb, arg), if truth cb then [RxCall cb arg c] else []) (replicate n (0, 0)) = []) as -> by (induction n; done).
  rewrite app_nil_r. induction Hs as [|[cb arg] subs Hcb Hs IH]; [done|]. cbn [flat_map map]. rewrite IH. unfold truth. cbn in Hcb.
  by destruct (Z.eqb_spec cb 0).
Qed.

(** What the start needs: handler tables, and the memory of the pipe. *)
Record rx_boot s : Prop := {
  rb_irqs : irq_ok (uirqs s);
  rb_mem : mapped (pmem (rx_pipe s)) pl011_rx_buf 8;
  rb_pc : is_Some (pmem (rx_pipe s) !! pc);
  rb_pv : is_Some (pmem (rx_pipe s) !! pv);
  rb_flag : is_Some (Sched.words (pker (rx_pipe s)) !! waitflag) }.

Lemma irq_set_returns q cpu irqnr func : irq_ok q → 0 ≤ cpu < 4 → 0 ≤ irqnr < 128 → ∃ r, irq_set q cpu irqnr func = Ret r.
Proof.
  intros Hq Hc Hi. destruct (handler_of_some q cpu irqnr Hq Hc Hi) as (t & h & Et & Hlt & Eh & _). unfold irq_set, NUM_IRQS.
  destruct (Z.leb_spec 128 irqnr); [lia|]. rewrite Et, bind_ret, Eh, bind_ret. destruct (truth h); [by eexists|].
  replace irqnr with (Z.of_nat (Z.to_nat irqnr)) by lia. rewrite arr_set_at by lia. by eexists.
Qed.

(** A register write away from the data and mask registers. *)
Lemma other_write r v s : r ≠ PL011_UARTDR → r ≠ PL011_UARTIMSC → let s' := mmio_write r v s in
  line s' = line s ∧ inbox s' = inbox s ∧ unmasked s' = unmasked s ∧ rest s' = rest s.
Proof.
  intros H1 H2 s'. destruct (pl_write r v s s' eq_refl) as (L & I & U & R).
  destruct (Z.eqb_spec r PL011_UARTDR); [done|]. destruct (Z.eqb_spec r PL011_UARTIMSC); [done|]. by rewrite L, I, U, R.
Qed.

Lemma set_interrupt_mode_ready s : rx_boot s → ∃ s', pl011_uart_set_interrupt_mode pl011_rx_buf handler_ptr s = Ret (tt, s') ∧
  (rx_holds (rx_pipe s') [] 0 0 false false ∧ unmasked s' = true) ∧ inbox s' = inbox s ∧ rx_subscribers s' = rx_subscribers s ∧ line s' = line s.
Proof.
  intros [Hq Hm Hmc Hmv Hfl]. unfold pl011_uart_set_interrupt_mode. erewrite io_bind_ret by done.
  set (s0 := with_pipe s _). assert (intr_ctl_gpu_irq_enable INTR_CTL_IRQ_GPU_UART0 = Ret ([(0x3f00b214, 2 ^ 25)], ERR_OK)) as E by (by vm_compute).
  set (s1 := mmio_write 0x3f00b214 (2 ^ 25) s0).
  rewrite (io_bind_ret _ _ _ ERR_OK s1) by (unfold irq_writes; by rewrite E).
  destruct (other_write 0x3f00b214 (2 ^ 25) s0) as (L1 & I1 & U1 & R1); [done|done|]. fold s1 in L1, I1, U1, R1.
  destruct (irq_set_returns (uirqs s) 0 ARM_IRQ_UART handler_ptr Hq) as [[q r] Eq]; [lia|done|].
  assert (Hq1 : uirqs s1 = uirqs s) by done.
  set (s2 := UartDrv (uregs s1) (upins s1) (umbox s1) q (rx_pipe s1) (rx_subscribers s1) (pl011_uart_initialized s1)).
  rewrite (io_bind_ret _ _ _ r s2) by (unfold uart_irq_set; rewrite Hq1; by rewrite Eq).
  rewrite write_reg_bind. set (s3 := mmio_write PL011_UARTICR _ s2).
  destruct (other_write PL011_UARTICR (u32 0x7ff) s2) as (L3 & I3 & U3 & R3); [done|done|]. fold s3 in L3, I3, U3, R3.
  rewrite write_reg_bind. set (s4 := mmio_write PL011_UARTIMSC _ s3).
  destruct (pl_write PL011_UARTIMSC (u32 PL011_UARTRXINTR) s3 s4 eq_refl) as (L4 & I4 & U4 & R4).
  change (PL011_UARTIMSC =? PL011_UARTDR) with false in L4. cbn [andb] in L4. change (PL011_UARTIMSC =? PL011_UARTIMSC) with true in U4.
  eexists. split; [done|]. set (s5 := mmio_write PL011_UARTCR _ s4).
  destruct (other_write PL011_UARTCR (u32 (Z.lor (Z.lor PL011_UARTCR_UARTEN PL011_UARTCR_TXE) PL011_UARTCR_RXE)) s4) as (L5 & I5 & U5 & R5);
    [done|done|]. fold s5 in L5, I5, U5, R5.
  split; [|split; [rewrite I5, I4, I3; exact I1|split; [done|rewrite L5, L4, L3; exact L1]]].
  split; [|rewrite U5, U4; by vm_compute]. assert (Hp : rx_pipe s5 = pipe_init pl011_rx_buf 8 (rx_pipe s)) by done. rewrite Hp. split; cbn; try done.
  split; [cbn; by rewrite Z.add_0_r|lia|done|by intros].
Qed.

Lemma io_thread_start_ready s : (maxw < fuel)%nat → rx_boot s → ∃ s', pl011_io_thread_start fuel pl011_rx_buf handler_ptr s = Ret (tt, s') ∧
  (rx_holds (rx_pipe s') [] 0 0 false false ∧ unmasked s' = true) ∧ inbox s' = inbox s ∧ rx_subscribers s' = replicate 8 (0, 0).
Proof.
  intros Hf Hb. unfold pl011_io_thread_start. do 2 erewrite io_bind_ret by done.
  match goal with |- context [(_ ≫= _) ?s0] => destruct (set_interrupt_mode_ready s0) as (s1 & E1 & [Hi1 Hu1] & I1 & S1 & L1) end.
  { by destruct Hb. }
  rewrite (io_bind_ret _ _ _ _ _ E1). unfold pl011_puts_blocking.
  destruct (puts_loop_sends (D := S) fuel (removelast interrupt_mode_set) Hf ltac:(repeat constructor) s1) as (s2 & E2 & L2 & I2 & U2 & R2).
  exists s2. cbn [rest uart_pl011] in R2. injection R2 as _ _ _ Hp Hs. split; [exact E2|].
  split; [split; [by rewrite Hp|by rewrite U2]|]. split; [by rewrite I2, I1|by rewrite Hs, S1].
Qed.

(** C26: from the start of the input thread to its subscribers: the thread starts
    on any device that obeys the UART's law, up to eight callbacks subscribe, and
    then receive interrupts and turns of the thread follow in any order that the
    pipe of eight bytes carries (no character arrives while the pipe is full or its
    writer has gone round before its reader, and the thread runs when its flag has
    been set).  Then no character without error flags is lost, repeated or
    reordered: each turn hands the oldest character of the pipe to every
    subscriber, and what arrived and was not yet handed on is in the pipe. *)
Theorem uart_rx_delivers (subs : list (Z * Z)) evs cs l s : (2 ≤ fuel)%nat → (maxw < fuel)%nat → rx_boot s →
  (length subs ≤ 8)%nat → Forall (λ x, fst x ≠ 0) subs → carried false 0 0 false evs = true →
  inbox s = cs ++ l → Forall (λ c, 0 ≤ c < 256) cs → length cs = arrivals evs →
  ∃ s', (_ ← pl011_io_thread_start fuel pl011_rx_buf handler_ptr; _ ← subscribe_all subs; rx_run evs) s =
      Ret (flat_map (λ c, map (λ '(cb, arg), RxCall cb arg c) subs) (take (turns evs) cs), s') ∧
    pipe_contents (rx_pipe s') = drop (turns evs) cs ∧ inbox s' = l.
Proof using Hpc Hpv.
  intros Hf Hw Hb Hn Hsubs Ht Hin Hcs Hl. destruct (io_thread_start_ready s Hw Hb) as (s1 & E1 & [Hi1 Hu1] & I1 & S1).
  rewrite (io_bind_ret _ _ _ _ _ E1).
  rewrite (io_bind_ret _ _ _ _ _ (subscribe_all_adds subs s1 [] Hsubs ltac:(constructor) Hn S1)). cbn [app].
  set (s2 := with_subs s1 _).
  destruct (rx_run_delivers evs s2 [] 0 0 false false cs l Hf Hi1 Hu1 Ht ltac:(by rewrite <- Hin, <- I1) Hl Hcs) as (s3 & E3 & C3 & I3).
  exists s3. split; [|done]. rewrite E3. do 2 f_equal. apply flat_map_ext. intros c. cbn [s2 with_subs rx_subscribers]. by apply call_subscribed.
Qed.

(** The flag does not count: after two characters have arrived the thread hands on
    the first, and the second stays in the pipe until a third arrives. *)
Lemma backlog_stays now now' : carried false 0 0 false [Arrives; Arrives; Thread now; Thread now'] = false ∧
  carried false 0 0 false [Arrives; Arrives; Thread now; Arrives; Thread now'] = true.
Proof. done. Qed.
End receive.

Section sends_strings.
Context {D : Type} `{Mmio D} {maxw : nat} `{!Pl011 D maxw}.

(** [uart_puts], polling a flag register that may find the FIFO full
    before any character, sends the string with a carriage return before each
    line feed, every byte once; [uart_send_buf] sends its bytes as they are. *)
Theorem uart_output_sent (fuel : nat) (s buf : list Z) d : (maxw < fuel)%nat →
  Forall (λ c, 0 < c < 256) s → Forall (λ c, 0 ≤ c < 256) buf →
  (∃ d', uart_puts fuel (s ++ [0]) d = Ret (ERR_OK, d') ∧ sent_on (crlf s) d d') ∧
  (∃ d', uart_send_buf fuel buf d = Ret (Z.of_nat (length buf), d') ∧ sent_on buf d d').
Proof.
  intros Hf Hs Hb. split; [by apply uart_puts_loop|]. destruct (send_buf_loop_sends fuel buf Hf Hb d) as (d' & E & Hd').
  exists d'. split; [|done]. unfold uart_send_buf, pl011_uart_send_buf. by rewrite (io_bind_ret _ _ _ _ _ E).
Qed.
End sends_strings.

(** ** A device: the FIFO is full for one read after each byte *)
Module pl011_witness.
Record chip := Chip { c_line : list Z; c_inbox : list Z; c_full : bool; c_unmasked : bool }.
Definition chip_read (r : Z) (d : chip) : Z * chip :=
  if r =? PL011_UARTFR then (if c_full d then 32 else 0, Chip (c_line d) (c_inbox d) false (c_unmasked d))
  else if r =? PL011_UARTDR then (default 0 (head (c_inbox d)), Chip (c_line d) (tail (c_inbox d)) (c_full d) (c_unmasked d))
  else if r =? PL011_UARTMIS then (if c_unmasked d && negb (bool_decide (c_inbox d = [])) then 16 else 0, d) else (0, d).
Definition chip_write (r v : Z) (d : chip) : chip :=
  if r =? PL011_UARTDR then (if c_full d then d else Chip (c_line d ++ [v]) (c_inbox d) true (c_unmasked d))
  else if r =? PL011_UARTIMSC then Chip (c_line d) (c_inbox d) (c_full d) (Z.testbit v 4) else d.
#[local] Instance chip_mmio : Mmio chip := {| mmio_read := chip_read; mmio_write := chip_write |}.
#[local] Instance chip_pl011 : Pl011 chip 1.
Proof.
  refine {| line := c_line; inbox := c_inbox; full_for d := if c_full d then 1%nat else 0%nat; unmasked := c_unmasked; rest d := tt |}.
  - intros [? ? [] ?]; cbn; lia.
  - by intros [? ? [] ?].
  - by intros [? [|] ? []].
  - intros [? i ? ?] c l. cbn. by intros ->.
  - intros r [? ? f ?] d' ->. cbn [mmio_read chip_mmio]. unfold chip_read.
    destruct (Z.eqb_spec r PL011_UARTFR) as [->|]; [by destruct f|]. destruct (Z.eqb_spec r PL011_UARTDR) as [->|]; [done|].
    by destruct (r =? PL011_UARTMIS).
  - intros r v [? ? f ?] d' ->. cbn [mmio_write chip_mmio]. unfold chip_write. destruct (Z.eqb_spec r PL011_UARTDR) as [->|]; [by destruct f|].
    by destruct (r =? PL011_UARTIMSC).
Defined.

Lemma uart_output_sent_witness : let d := Chip [] [] true false in
  (∃ d', uart_puts 2 ([72; 105; 10] ++ [0]) d = Ret (ERR_OK, d') ∧ sent_on [72; 105; 13; 10] d d') ∧
  (∃ d', uart_send_buf 2 [0; 255] d = Ret (2, d') ∧ sent_on [0; 255] d d').
Proof.
  intros d. apply (uart_output_sent 2 [72; 105; 10] [0; 255] d); [lia| |]; repeat (apply Forall_cons; split; [lia|]); apply Forall_nil; exact I.
Defined.

(** Two subscribers and four characters, of which two arrive before the thread first
    runs and one stays in the pipe; the device holds a fifth. *)
Definition kernel0 : Sched.kernel := Sched.with_words Sched.demo_kernel {[500 := 0]}.
Definition drv0 : uart_drv chip := UartDrv (Chip [] [65; 66; 67; 68; 69] false false) gpio_boot (Mbox [] []) (irq_init (IrqState [] (replicate 4 0) 0))
  (PipeState kernel0 (mem_of 100 [0; 0; 0; 0; 0; 0; 0; 0; 0; 0]) (Ringbuf 0 0 0 0 false)) [] 0.

Lemma uart_rx_delivers_witness : ∃ s',
  (_ ← pl011_io_thread_start 2 100 7; _ ← subscribe_all [(11, 1); (12, 2)];
   rx_run 2 500 108 109 [Arrives; Arrives; Thread 0; Arrives; Thread 0; Arrives; Thread 0]) drv0 =
    Ret ([RxCall 11 1 65; RxCall 12 2 65; RxCall 11 1 66; RxCall 12 2 66; RxCall 11 1 67; RxCall 12 2 67], s') ∧
  pipe_contents (rx_pipe s') = [68] ∧ inbox s' = [69].
Proof.
  apply (uart_rx_delivers 2 100 500 108 109 7 ltac:(lia) ltac:(lia) [(11, 1); (12, 2)] [Arrives; Arrives; Thread 0; Arrives; Thread 0; Arrives; Thread 0]
    [65; 66; 67; 68] [69] drv0); [lia|lia| |cbn; lia| |done|done| |done].
  - split; [split; [done|by repeat constructor]| |by eexists|by eexists|by eexists].
    intros q Hq. assert (q = 100 ∨ q = 101 ∨ q = 102 ∨ q = 103 ∨ q = 104 ∨ q = 105 ∨ q = 106 ∨ q = 107) as Hq' by lia.
    destruct_or! Hq'; subst q; by eexists.
  - by repeat constructor.
  - repeat (apply Forall_cons; split; [lia|]); apply Forall_nil; exact I.
Defined.
End pl011_witness.
