(* ===== verification/Leds.v ===== *)
(** * LED displays (shiftreg.c, drivers/f5161ah/f5161ah.c, drivers/max7219/max7219.c)

    A shift register driven pin by pin, the seven-segment display behind it, and
    the MAX7219 on an SPI bus.  What the display shows is stated with a model of
    the shift register chip fed with the accesses the driver makes. *)

From S2P Require Import Prelude Exceptions Mmio GpioSet Gpio Trace SpiEmu Spi.

(** ** shiftreg.c *)
Record shiftreg_t := ShiftReg { ser : Z; srclk : Z; rclk : Z; srclr : Z; ce : Z; delay_ms : Z }.
Definition SHIFTREG_INIT_PIN_DISABLED : Z := -1.

(** The static variables of shiftreg.c and f5161ah.c, and the registers. *)
Record led_drv (D : Type) := LedDrv {
  led_regs : D; shiftreg : shiftreg_t; shiftreg_initialized : bool; dev_sr : Z; dev_f5161ah_initialized : bool }.
Arguments LedDrv {D}.
Arguments led_regs {D}.
Arguments shiftreg {D}.
Arguments shiftreg_initialized {D}.
Arguments dev_sr {D}.
Arguments dev_f5161ah_initialized {D}.

#[export] Instance led_mmio {D} `{Mmio D} : Mmio (led_drv D) := {|
  mmio_read r s := let '(v, d) := mmio_read r (led_regs s) in
    (v, LedDrv d (shiftreg s) (shiftreg_initialized s) (dev_sr s) (dev_f5161ah_initialized s));
  mmio_write r v s := LedDrv (mmio_write r v (led_regs s)) (shiftreg s) (shiftreg_initialized s) (dev_sr s) (dev_f5161ah_initialized s) |}.

Section shiftreg.
Context {D : Type} `{Mmio D} (shiftreg_ptr : Z).
Abbreviation S := (led_drv D).

Definition change (f : S → S) : io S unit := λ s, Ret (tt, f s).
Definition shiftreg_init (clk_wait ser srclk rclk srclr ce : Z) : io S Z :=
  if (ser =? SHIFTREG_INIT_PIN_DISABLED) || (srclk =? SHIFTREG_INIT_PIN_DISABLED) || (rclk =? SHIFTREG_INIT_PIN_DISABLED) then mret 0 else
  _ ← change (λ s, LedDrv (led_regs s) (ShiftReg ser srclk rclk srclr ce (delay_ms (shiftreg s))) (shiftreg_initialized s) (dev_sr s) (dev_f5161ah_initialized s));
  _ ← gpio_set_function (u32 ser) GPIO_FUNC_OUT;
  _ ← gpio_set_function (u32 rclk) GPIO_FUNC_OUT;
  _ ← gpio_set_function (u32 srclk) GPIO_FUNC_OUT;
  _ ← set_pin ser false; _ ← set_pin rclk false; _ ← set_pin rclk false;
  _ ← change (λ s, LedDrv (led_regs s) (ShiftReg ser srclk rclk srclr ce clk_wait) true (dev_sr s) (dev_f5161ah_initialized s));
  mret shiftreg_ptr.

(** [CHECK_INITIALIZED(sr)]; the only object [sr] can point to is the static one. *)
Definition check_initialized (sr : Z) (m : shiftreg_t → io S Z) : io S Z := λ s,
  if negb (shiftreg_initialized s) || (sr =? 0) then Ret (-1, s)
  else if sr =? shiftreg_ptr then m (shiftreg s) s else Fault.
Definition PUSH_BIT (x : shiftreg_t) (b : Z) : io S unit :=
  _ ← set_pin (ser x) (truth b); _ ← set_pin (srclk x) true; set_pin (srclk x) false.
Definition RCLK_PULSE (x : shiftreg_t) : io S unit := _ ← set_pin (rclk x) false; set_pin (rclk x) true.

Definition shiftreg_push_bit (sr bit : Z) : io S Z := check_initialized sr (λ x, _ ← PUSH_BIT x bit; mret 0).
Fixpoint push_bits (n : nat) (x : shiftreg_t) (i byte : Z) : io S unit :=
  match n with
  | O => mret tt
  | Datatypes.S n => _ ← PUSH_BIT x (Z.land (Z.shiftr byte (7 - i)) 1); push_bits n x (i + 1) byte
  end.
Definition shiftreg_push_byte (sr byte : Z) : io S Z := check_initialized sr (λ x, _ ← push_bits 8 x 0 byte; mret 0).
Definition shiftreg_pulse_rclk (sr : Z) : io S Z := check_initialized sr (λ x, _ ← RCLK_PULSE x; mret 0).

(** ** f5161ah.c *)
Definition F5161AH_SEG_PIN_A : Z := Z.shiftl 1 6.
Definition F5161AH_SEG_PIN_B : Z := Z.shiftl 1 7.
Definition F5161AH_SEG_PIN_C : Z := Z.shiftl 1 2.
Definition F5161AH_SEG_PIN_D : Z := Z.shiftl 1 1.
Definition F5161AH_SEG_PIN_E : Z := Z.shiftl 1 0.
Definition F5161AH_SEG_PIN_F : Z := Z.shiftl 1 5.
Definition F5161AH_SEG_PIN_G : Z := Z.shiftl 1 4.
Definition F5161AH_SEG_PIN_DP : Z := Z.shiftl 1 3.

(** The segments lit for a digit; nothing for another character. *)
Definition f5161ah_segments (ch : Z) : list Z :=
  let A := F5161AH_SEG_PIN_A in let B := F5161AH_SEG_PIN_B in let C := F5161AH_SEG_PIN_C in let D := F5161AH_SEG_PIN_D in
  let E := F5161AH_SEG_PIN_E in let F := F5161AH_SEG_PIN_F in let G := F5161AH_SEG_PIN_G in
  if ch =? 0 then [A; B; C; D; E; F] else if ch =? 1 then [B; C] else if ch =? 2 then [A; B; G; E; D]
  else if ch =? 3 then [A; B; G; C; D] else if ch =? 4 then [F; G; B; C] else if ch =? 5 then [A; F; G; C; D]
  else if ch =? 6 then [A; F; G; C; E; D] else if ch =? 7 then [A; B; C] else if ch =? 8 then [A; B; C; D; E; F; G]
  else if ch =? 9 then [A; F; B; G; C; D] else [].
Definition f5161ah_encode_char (ch : Z) : Z := foldl Z.lor 0 (f5161ah_segments ch).

Definition the_sr : io S Z := λ s, Ret (dev_sr s, s).
Definition push_and_latch (byte : Z) (done : io S Z) : io S Z :=
  sr ← the_sr; st ← shiftreg_push_byte sr byte;
  if truth st then mret (-1) else
  sr ← the_sr; st ← shiftreg_pulse_rclk sr;
  if truth st then mret (-1) else done.
Definition f5161ah_init (sr : Z) : io S Z :=
  if sr =? 0 then mret (-1) else
  _ ← change (λ s, LedDrv (led_regs s) (shiftreg s) (shiftreg_initialized s) sr (dev_f5161ah_initialized s));
  push_and_latch 0 (_ ← change (λ s, LedDrv (led_regs s) (shiftreg s) (shiftreg_initialized s) (dev_sr s) true); mret 0).
Definition f5161ah_display_char (ch dot : Z) : io S Z := λ s,
  if negb (dev_f5161ah_initialized s) then Ret (-1, s) else
  push_and_latch (Z.lor (f5161ah_encode_char ch) (if truth dot then F5161AH_SEG_PIN_DP else 0)) (mret 0) s.
End shiftreg.

(** ** max7219.c *)
Definition MAX7219_ADDR_DECODE_MODE : Z := 0x09.
Definition MAX7219_ADDR_INTENSITY : Z := 0x0a.
Definition MAX7219_ADDR_SCAN_LIMIT : Z := 0x0b.
Definition MAX7219_ADDR_SHUTDOWN : Z := 0x0c.
Definition MAX7219_ADDR_DISPLAY_TEST : Z := 0x0f.

(** The bus and the static [spidev]. *)
Record max7219_drv (B : Type) := MaxDrv { max_bus : B; spidev : Z }.
Arguments MaxDrv {B}.
Arguments max_bus {B}.
Arguments spidev {B}.

Section max7219.
Context {B : Type} `{SpiBus B}.
Abbreviation S := (max7219_drv B).

Definition max7219_store (addr data : Z) : io S Z := λ s,
  '(err, _, b) ← spi_xmit (spidev s) [u8 addr; u8 data] (max_bus s); Ret (err, MaxDrv b (spidev s)).
Definition max7219_set_spi_dev (spi_dev : Z) : io S Z := λ s,
  if spi_dev =? 0 then Ret (-1, s) else Ret (0, MaxDrv (max_bus s) spi_dev).
(** [DECL_CHECKED_FUNC]. *)
Definition max_checked (m : io S Z) : io S Z := λ s, if spidev s =? 0 then Ret (-1, s) else m s.

Definition max7219_set_shutdown_mode_on : io S Z := max_checked (max7219_store MAX7219_ADDR_SHUTDOWN 0).
Definition max7219_set_shutdown_mode_off : io S Z := max_checked (max7219_store MAX7219_ADDR_SHUTDOWN 1).
Definition max7219_set_test_mode_on : io S Z := max_checked (max7219_store MAX7219_ADDR_DISPLAY_TEST 1).
Definition max7219_set_test_mode_off : io S Z := max_checked (max7219_store MAX7219_ADDR_DISPLAY_TEST 0).
Definition max7219_set_intensity (value : Z) : io S Z := max_checked (
  if 0xf <? value then mret (-1) else max7219_store MAX7219_ADDR_INTENSITY (Z.land value 0x0f)).
Definition max7219_set_decode_mode (value : Z) : io S Z := max_checked (
  if negb (value =? 0) && negb (value =? 1) && negb (value =? 0xf) && negb (value =? 0xff) then mret (-1)
  else max7219_store MAX7219_ADDR_DECODE_MODE value).
Definition max7219_set_scan_limit (value : Z) : io S Z := max_checked (
  if 7 <? value then mret (-1) else max7219_store MAX7219_ADDR_SCAN_LIMIT value).
Definition max7219_set_digit (digit_idx value : Z) : io S Z := max_checked (
  if 7 <? digit_idx then mret (-1) else max7219_store (Z.shiftl (digit_idx + 1) 8) value).
Definition max7219_set_raw (value : Z) : io S Z := max_checked (max7219_store (Z.land (Z.shiftr value 8) 0xff) (Z.land value 0xff)).
Definition max7219_row_on (row_index : Z) : io S Z := max_checked (
  if 7 <? row_index then mret (-1) else max7219_store (Z.land (row_index + 1) 0xff) 0xff).
Definition max7219_row_off (row_index : Z) : io S Z := max_checked (
  if 7 <? row_index then mret (-1) else max7219_store (Z.land (row_index + 1) 0xff) 0).
Fixpoint column_loop (n : nat) (i column_index : Z) : io S Z :=
  match n with
  | O => mret 0
  | Datatypes.S n => st ← max7219_store (Z.shiftr i 4) column_index; if truth st then mret st else column_loop n (i + 1) column_index
  end.
Definition max7219_column_on (column_index : Z) : io S Z := max_checked (
  if 7 <? column_index then mret (-1) else column_loop 8 0 column_index).
Definition max7219_column_off (column_index : Z) : io S Z := max_checked (if 7 <? column_index then mret (-1) else mret 0).

(** The address of a digit is lost: every digit and column goes to register 0,
    the no-op. *)
Lemma max7219_set_digit_noop digit_idx value s : max7219_set_digit digit_idx value s =
  (max_checked (if 7 <? digit_idx then mret (-1) else max7219_store 0 value)) s.
Proof.
  unfold max7219_set_digit, max_checked, max7219_store. destruct (spidev s =? 0); [done|]. destruct (7 <? digit_idx); [done|].
  unfold u8. rewrite Z.shiftl_mul_pow2, Z.mod_mul by lia. done.
Qed.
End max7219.

(** ** The shift register chip (74HC595)

    It samples its data pin at a rising edge of the shift clock, and shows the
    stored byte from a rising edge of the latch clock on. *)
Record hc595 := Hc595 { levels : Z; stage : Z; latched : Z }.
Definition rises (p w w' : Z) : bool := negb (Z.testbit w p) && Z.testbit w' p.
Definition hc595_step (x : shiftreg_t) (c : hc595) (a : access) : hc595 :=
  let w := drive (levels c) a in
  Hc595 w (if rises (srclk x) (levels c) w then shift_in (stage c) (Z.testbit w (ser x)) else stage c)
    (if rises (rclk x) (levels c) w then stage c else latched c).
Definition hc595_run (x : shiftreg_t) (c : hc595) (l : list access) : hc595 := foldl (hc595_step x) c l.

(** Three different pins of the first register. *)
Definition wired (x : shiftreg_t) : Prop :=
  0 ≤ ser x < 32 ∧ 0 ≤ srclk x < 32 ∧ 0 ≤ rclk x < 32 ∧ ser x ≠ srclk x ∧ ser x ≠ rclk x ∧ srclk x ≠ rclk x.

#[export] Program Instance led_traced {D} `{Mmio D} : TracedState (led_drv (traced D)) := {|
  ts_log s := tr_log (led_regs s);
  hw_only s s' := s' = LedDrv (led_regs s') (shiftreg s) (shiftreg_initialized s) (dev_sr s) (dev_f5161ah_initialized s) |}.
Next Obligation. intros D ?. split; [by intros []|]. intros [] [] [] E1 E2. cbn in *. congruence. Qed.
Next Obligation. intros D ? r [[d l] ? ? ? ?]. cbn. by destruct (mmio_read r d). Qed.
Next Obligation. by intros D ? r v [[d l] ? ? ? ?]. Qed.

Lemma hc595_run_app x c l1 l2 : hc595_run x c (l1 ++ l2) = hc595_run x (hc595_run x c l1) l2.
Proof. apply foldl_app. Qed.

Section shows.
Context (x : shiftreg_t) (Hx : wired x).

Lemma run_ser c v : ∃ w, hc595_run x c [pin_access (ser x) v] = Hc595 w (stage c) (latched c) ∧
  Z.testbit w (ser x) = v ∧ Z.testbit w (srclk x) = Z.testbit (levels c) (srclk x) ∧ Z.testbit w (rclk x) = Z.testbit (levels c) (rclk x).
Proof.
  destruct Hx as (? & ? & ? & N1 & N2 & N3). eexists. unfold hc595_run, hc595_step, rises. cbn [foldl]. rewrite !drive_pin by lia.
  rewrite Z.eqb_refl, (proj2 (Z.eqb_neq (srclk x) (ser x))), (proj2 (Z.eqb_neq (rclk x) (ser x))) by lia.
  split; [by destruct (Z.testbit (levels c) (srclk x)), (Z.testbit (levels c) (rclk x))|]. rewrite !drive_pin by lia.
  by rewrite Z.eqb_refl, (proj2 (Z.eqb_neq (srclk x) (ser x))), (proj2 (Z.eqb_neq (rclk x) (ser x))) by lia.
Qed.

Lemma run_srclk c v : ∃ w, hc595_run x c [pin_access (srclk x) v] =
    Hc595 w (if negb (Z.testbit (levels c) (srclk x)) && v then shift_in (stage c) (Z.testbit (levels c) (ser x)) else stage c) (latched c) ∧
  Z.testbit w (ser x) = Z.testbit (levels c) (ser x) ∧ Z.testbit w (srclk x) = v ∧ Z.testbit w (rclk x) = Z.testbit (levels c) (rclk x).
Proof.
  destruct Hx as (? & ? & ? & N1 & N2 & N3). eexists. unfold hc595_run, hc595_step, rises. cbn [foldl]. rewrite !drive_pin by lia.
  rewrite Z.eqb_refl, (proj2 (Z.eqb_neq (ser x) (srclk x))), (proj2 (Z.eqb_neq (rclk x) (srclk x))) by lia.
  split; [by destruct (Z.testbit (levels c) (rclk x))|]. rewrite !drive_pin by lia.
  by rewrite Z.eqb_refl, (proj2 (Z.eqb_neq (ser x) (srclk x))), (proj2 (Z.eqb_neq (rclk x) (srclk x))) by lia.
Qed.

Lemma run_rclk c v : ∃ w, hc595_run x c [pin_access (rclk x) v] =
    Hc595 w (stage c) (if negb (Z.testbit (levels c) (rclk x)) && v then stage c else latched c) ∧
  Z.testbit w (srclk x) = Z.testbit (levels c) (srclk x) ∧ Z.testbit w (rclk x) = v.
Proof.
  destruct Hx as (? & ? & ? & N1 & N2 & N3). eexists. unfold hc595_run, hc595_step, rises. cbn [foldl]. rewrite !drive_pin by lia.
  rewrite Z.eqb_refl, (proj2 (Z.eqb_neq (srclk x) (rclk x))) by lia.
  split; [by destruct (Z.testbit (levels c) (srclk x))|]. rewrite !drive_pin by lia.
  by rewrite Z.eqb_refl, (proj2 (Z.eqb_neq (srclk x) (rclk x))) by lia.
Qed.

Definition push_log (b : bool) : list access := [pin_access (ser x) b; pin_access (srclk x) true; pin_access (srclk x) false].

(** A bit is shifted in where the clock was low before; it is low afterwards. *)
Lemma run_push c b : ∃ w, hc595_run x c (push_log b) =
    Hc595 w (if Z.testbit (levels c) (srclk x) then stage c else shift_in (stage c) b) (latched c) ∧ Z.testbit w (srclk x) = false.
Proof.
  change (push_log b) with ([pin_access (ser x) b] ++ [pin_access (srclk x) true] ++ [pin_access (srclk x) false]). rewrite !hc595_run_app.
  destruct (run_ser c b) as (w1 & -> & S1 & C1 & _).
  destruct (run_srclk (Hc595 w1 (stage c) (latched c)) true) as (w2 & -> & S2 & C2 & _). cbn [levels stage latched] in *. rewrite C1, S1.
  edestruct run_srclk as (w3 & -> & _ & C3 & _). cbn [levels stage latched] in *. rewrite C2. exists w3. split; [|done].
  by destruct (Z.testbit (levels c) (srclk x)).
Qed.

Lemma run_pushes bs : ∀ c, Z.testbit (levels c) (srclk x) = false → ∃ w, hc595_run x c (concat (map push_log bs)) =
    Hc595 w (foldl shift_in (stage c) bs) (latched c) ∧ Z.testbit w (srclk x) = false.
Proof.
  induction bs as [|b bs IH]; intros c Hc; [destruct c as [w ? ?]; by exists w|]. cbn [map concat]. rewrite hc595_run_app.
  destruct (run_push c b) as (w1 & -> & C1). rewrite Hc. destruct (IH (Hc595 w1 (shift_in (stage c) b) (latched c)) C1) as (w2 & -> & C2). by exists w2.
Qed.

Lemma run_pushes_low bs c : bs ≠ [] → Z.testbit (levels (hc595_run x c (concat (map push_log bs)))) (srclk x) = false.
Proof.
  destruct bs as [|b bs]; [done|]. intros _. cbn [map concat]. rewrite hc595_run_app. destruct (run_push c b) as (w1 & -> & C1).
  by edestruct (run_pushes bs) as (w2 & -> & C2).
Qed.

(** The accesses that send a byte and latch it, and what they show. *)
Definition byte_log (byte : Z) : list access :=
  concat (map push_log (msb_first byte)) ++ [pin_access (rclk x) false; pin_access (rclk x) true].

Lemma run_byte_low byte c : Z.testbit (levels (hc595_run x c (byte_log byte))) (srclk x) = false.
Proof.
  unfold byte_log. rewrite hc595_run_app. pose proof (run_pushes_low (msb_first byte) c ltac:(done)) as C. set (c1 := hc595_run x c _) in *.
  change [?a; ?b] with ([a] ++ [b]). rewrite hc595_run_app. destruct (run_rclk c1 false) as (w2 & -> & C2 & _).
  edestruct run_rclk as (w3 & -> & C3 & _). cbn [levels] in *. congruence.
Qed.

Lemma run_byte_shows byte c : 0 ≤ byte < 256 → Z.testbit (levels c) (srclk x) = false → latched (hc595_run x c (byte_log byte)) = byte.
Proof.
  intros Hb Hc. unfold byte_log. rewrite hc595_run_app. destruct (run_pushes (msb_first byte) c Hc) as (w1 & -> & C1).
  change [?a; ?b] with ([a] ++ [b]). rewrite hc595_run_app, shifted_byte by done.
  destruct (run_rclk (Hc595 w1 byte (latched c)) false) as (w2 & -> & _ & R2). edestruct run_rclk as (w3 & -> & _). cbn [levels stage latched] in *.
  by rewrite R2.
Qed.
End shows.

(** ** What the driver sends *)
Section sends.
Context {D : Type} `{Mmio D} (ptr : Z) (Hptr : ptr ≠ 0).
Abbreviation S := (led_drv (traced D)).
Implicit Types s : led_drv (traced D).

Lemma pin32_does reg p s : 0 ≤ p < 32 → does (GPIO_32PIN_SET_CHEKCED p reg) s (λ _ s' l, hw_only s s' ∧ l = [Wr reg (2 ^ p)]).
Proof.
  intros Hp. unfold GPIO_32PIN_SET_CHEKCED, checked, GPIO_MAX_PIN_IDX. zdec.
  rewrite Z.div_small, Z.mod_small, Z.mul_0_r, Z.add_0_r, Z.shiftl_1_l by lia. apply does_write_bind. intros s1 H1. apply does_ret.
  split; [exact H1|]. rewrite u32_id; [done|]. split; [lia|apply Z.pow_lt_mono_r; lia].
Qed.

Lemma set_pin_hw p v s : 0 ≤ p < 32 → does (set_pin p v) s (λ _ s' l, hw_only s s' ∧ l = [pin_access p v]).
Proof.
  intros Hp. unfold set_pin. rewrite u32_id by lia. destruct v; (eapply does_bind; [by apply pin32_does|]);
    intros _ s1 l (H1 & ->); apply does_ret; done.
Qed.

Lemma hw_trans s1 s2 s3 : hw_only s1 s2 → hw_only s2 s3 → hw_only s1 s3.
Proof. intros. by etransitivity. Qed.

Context (x : shiftreg_t) (Hx : wired x).

Lemma PUSH_BIT_does b s : does (PUSH_BIT x b) s (λ _ s' l, hw_only s s' ∧ l = push_log x (truth b)).
Proof.
  destruct Hx as (Hx1 & Hx2 & Hx3 & _). unfold PUSH_BIT. eapply does_bind; [apply set_pin_hw; lia|]. intros _ s1 l1 (H1 & ->).
  eapply does_bind; [apply set_pin_hw; lia|]. intros _ s2 l2 (H2 & ->). eapply does_mono; [apply set_pin_hw; lia|].
  intros _ s3 l3 (H3 & ->). split; [|done]. eauto using hw_trans.
Qed.

Lemma push_bits_does byte n : ∀ i s, Z.of_nat n + i = 8 → 0 ≤ i → does (push_bits n x i byte) s (λ _ s' l, hw_only s s' ∧
  l = concat (map (push_log x) (map (λ k, Z.testbit byte (Z.of_nat k)) (rev (seq 0 n))))).
Proof.
  induction n as [|n IH]; intros i s Hn Hi; [by apply does_ret|]. cbn [push_bits]. eapply does_bind; [apply PUSH_BIT_does|].
  intros _ s1 l1 (H1 & ->). eapply does_mono; [apply (IH (i + 1) s1); lia|]. intros _ s2 l2 (H2 & ->). split; [eauto using hw_trans|].
  rewrite seq_S, rev_app_distr. cbn [rev app map concat]. rewrite land_1_bit by lia. replace (7 - i) with (Z.of_nat n) by lia.
  cbn [Nat.add]. by destruct (Z.testbit byte (Z.of_nat n)).
Qed.

(** The register and display are set up. *)
Definition ready s : Prop := shiftreg_initialized s = true ∧ shiftreg s = x ∧ dev_sr s = ptr.

Lemma ready_hw s s' : ready s → hw_only s s' → ready s' ∧ dev_f5161ah_initialized s' = dev_f5161ah_initialized s.
Proof. intros Hr E. cbn in E. rewrite E. done. Qed.

Lemma check_initialized_does m s (Q : Z → S → lang) : ready s → does (m x) s Q → does (check_initialized ptr ptr m) s Q.
Proof.
  intros (H1 & H2 & _) Hm. unfold check_initialized. destruct Hm as (a & s' & l & E & El & HQ). exists a, s', l. split; [|done].
  rewrite H1, Z.eqb_refl, H2. destruct (Z.eqb_spec ptr 0); [done|]. exact E.
Qed.

Lemma push_and_latch_does byte done_ s (Q : Z → S → lang) : ready s →
  (∀ s', hw_only s s' → does done_ s' (λ r s'' l, Q r s'' (byte_log x byte ++ l))) → does (push_and_latch ptr byte done_) s Q.
Proof.
  destruct Hx as (Hx1 & Hx2 & Hrc & _). intros Hr Hd. unfold push_and_latch.
  eapply does_quiet; [done|done|]. rewrite (proj2 (proj2 Hr)).
  eapply (does_bind _ _ _ (λ r s' l, r = 0 ∧ hw_only s s' ∧ l = concat (map (push_log x) (msb_first byte)))).
  { apply check_initialized_does; [done|]. eapply does_bind; [apply (push_bits_does byte 8); lia|]. intros _ s1 l1 (H1 & ->). apply does_ret.
    split; [done|]. split; [done|]. by rewrite app_nil_r. }
  intros r s1 l1 (-> & H1 & ->). cbn [truth negb Z.eqb]. destruct (ready_hw s s1 Hr H1) as [Hr1 _].
  eapply does_quiet; [done|done|]. rewrite (proj2 (proj2 Hr1)).
  eapply (does_bind _ _ _ (λ r s' l, r = 0 ∧ hw_only s s' ∧ l = [pin_access (rclk x) false; pin_access (rclk x) true])).
  { apply check_initialized_does; [done|]. unfold RCLK_PULSE. eapply (does_bind _ _ _ (λ _ s' l, hw_only s s' ∧ l = [pin_access (rclk x) false; pin_access (rclk x) true])).
    - eapply does_bind; [apply set_pin_hw; lia|]. intros _ s2 l2 (H2 & ->). eapply does_mono; [apply set_pin_hw; lia|].
      intros _ s3 l3 (H3 & ->). split; [|done]. eauto using hw_trans.
    - intros _ s2 l2 (H2 & ->). apply does_ret. done. }
  intros r s2 l2 (-> & H2 & ->). cbn [truth negb Z.eqb]. eapply does_mono; [by apply Hd|]. intros r s3 l3 HQ.
  unfold byte_log in HQ. by rewrite <- app_assoc in HQ.
Qed.

(** The byte shown for a digit. *)
Definition shown (ch dot : Z) : Z := Z.lor (f5161ah_encode_char ch) (if truth dot then F5161AH_SEG_PIN_DP else 0).

Lemma shown_byte ch dot : 0 ≤ shown ch dot < 256.
Proof.
  unfold shown, f5161ah_encode_char, f5161ah_segments. set (d := if truth dot then _ else _).
  assert (d = 0 ∨ d = 8) as Hd by (unfold d; destruct (truth dot); auto).
  repeat (destruct (ch =? _)); destruct Hd as [-> | ->]; vm_compute; split; congruence.
Qed.

Lemma display_shows_aux ch dot s : shiftreg_initialized s = true → shiftreg s = x →
  does (_ ← f5161ah_init ptr ptr; f5161ah_display_char ptr ch dot) s (λ r _ l, r = 0 ∧ ∀ c, latched (hc595_run x c l) = shown ch dot).
Proof.
  intros Hi Hs. eapply (does_bind _ _ _ (λ _ s' l, ready s' ∧ dev_f5161ah_initialized s' = true ∧ l = byte_log x 0)).
  - unfold f5161ah_init. destruct (Z.eqb_spec ptr 0); [done|]. eapply does_quiet; [done|done|].
    apply push_and_latch_does; [done|]. intros s1 H1. cbn in H1. eapply does_quiet; [done|by rewrite H1|]. apply does_ret. rewrite app_nil_r. split; [|done].
    by rewrite H1.
  - intros _ s1 l1 (Hr & Hf & ->). unfold f5161ah_display_char.
    assert (does (push_and_latch ptr (shown ch dot) (mret 0)) s1 (λ r _ l, r = 0 ∧ ∀ c, latched (hc595_run x c (byte_log x 0 ++ l)) = shown ch dot)) as Hd.
    { apply push_and_latch_does; [done|]. intros s2 H2. apply does_ret. split; [done|]. intros c. rewrite app_nil_r, hc595_run_app.
      apply run_byte_shows; [done|apply shown_byte|by apply run_byte_low]. }
    destruct Hd as (a & s2 & l & E & El & HQ). exists a, s2, l. rewrite Hf. done.
Qed.

Lemma gpio_set_function_does p f s : 0 ≤ p < 32 → does (gpio_set_function p f) s (λ _ s' _, hw_only s s').
Proof.
  intros Hp. unfold gpio_set_function, checked, GPIO_MAX_PIN_IDX, gpio_read_and_set_3. zdec. eapply (does_bind _ _ _ (λ _ s' _, hw_only s s')).
  - apply does_read_bind. intros v s1 H1. apply does_write. intros s2 H2. eauto using hw_trans.
  - intros _ s1 _ H1. by apply does_ret.
Qed.
End sends.

(** the shift register is set up, the display initialised and a digit shown,
    on any registers, whatever levels the three pins and whatever bytes the chip
    had before: a 74HC595 that sees the accesses ends up showing the segments of
    the digit, and the dot if asked for. *)
Theorem f5161ah_display_shows {D} `{Mmio D} ptr clk_wait ser srclk rclk srclr ce ch dot (s : led_drv (traced D)) :
  ptr ≠ 0 → let x := ShiftReg ser srclk rclk srclr ce clk_wait in wired x →
  does (sr ← shiftreg_init ptr clk_wait ser srclk rclk srclr ce; _ ← f5161ah_init ptr sr; f5161ah_display_char ptr ch dot) s
    (λ r _ l, r = 0 ∧ ∀ c, latched (hc595_run x c l) = Z.lor (foldl Z.lor 0 (f5161ah_segments ch)) (if truth dot then F5161AH_SEG_PIN_DP else 0)).
Proof.
  intros Hptr x Hx. pose proof Hx as (H1 & H2 & H3 & _). cbn in H1, H2, H3.
  eapply (does_bind _ _ _ (λ sr s' l, sr = ptr ∧ shiftreg_initialized s' = true ∧ shiftreg s' = x)).
  - unfold shiftreg_init, SHIFTREG_INIT_PIN_DISABLED. do 3 (rewrite (proj2 (Z.eqb_neq _ (-1))) by lia). cbn [orb].
    eapply does_quiet; [done|done|]. rewrite !u32_id by lia.
    do 3 (eapply does_bind; [apply gpio_set_function_does; lia|]; intros _ ? ? _).
    do 3 (eapply does_bind; [apply set_pin_hw; lia|]; intros _ ? ? _).
    eapply does_quiet; [done|done|]. by apply does_ret.
  - intros sr s1 l1 (-> & Hi & Hs). eapply does_mono; [by apply (display_shows_aux ptr Hptr x Hx ch dot s1)|].
    intros r s2 l2 (Hr & Hl). split; [done|]. intros c. by rewrite hc595_run_app, Hl.
Qed.

(** The digit 7 with its dot, with the clock high at the start. *)
Lemma f5161ah_display_shows_witness : let x := ShiftReg 16 21 20 12 (-1) 1 in
  ∃ r s' l, (sr ← shiftreg_init 9 1 16 21 20 12 (-1); _ ← f5161ah_init 9 sr; f5161ah_display_char 9 7 1)
      (LedDrv (Traced (∅ : bank) []) (ShiftReg 0 0 0 0 0 0) false 0 false) = Ret (r, s') ∧ r = 0 ∧
    latched (hc595_run x (Hc595 (2 ^ 21) 0x5a 0xff) l) = 0xcc.
Proof.
  intros x. destruct (f5161ah_display_shows 9 1 16 21 20 12 (-1) 7 1 (LedDrv (Traced (∅ : bank) []) (ShiftReg 0 0 0 0 0 0) false 0 false))
    as (r & s' & l & E & _ & Hr & Hl); [done|unfold wired; cbn; lia|]. exists r, s', l. split; [exact E|]. split; [exact Hr|]. apply Hl.
Defined.
