(* ===== verification/Nokia.v ===== *)
(** * The Nokia 5110 display (drivers/nokia5110/nokia5110.c, nokia5110_console.c)

    Commands and data to a PCD8544 controller over an SPI bus and the D/C pin,
    text drawn into a canvas of 504 bytes, and the console on it.  Fonts (tables
    generated by a tool) are values of [font_desc]. *)

From S2P Require Import Prelude Bits Exceptions Mmio GpioSet Gpio Trace SpiEmu Spi.

Definition NOKIA5110_WIDTH : Z := 84.
Definition NOKIA5110_HEIGHT : Z := 48.
Definition NOKIA5110_PIXELS_PER_BYTE_LOG : Z := 3.
Definition NOKIA5110_CANVAS_SIZE : Z := 504.
Definition NOKIA5110_ROW_MAX : Z := 5.
Definition NOKIA5110_COLUMN_MAX : Z := 83.
Definition NOKIA5110_BIAS_MAX : Z := 7.
Definition NOKIA5110_TEMP_COEFF_MAX : Z := 3.
Definition DISPLAY_MODE_MAX : Z := 3.
Definition NOKIA5110_FUNCTION_SET (PD V H : Z) : Z := Z.lor (Z.lor (Z.lor 0x20 (Z.shiftl PD 2)) (Z.shiftl V 1)) H.
Definition NOKIA5110_DISPLAY_CONTROL (D E : Z) : Z := Z.lor (Z.lor 8 (Z.shiftl D 2)) E.
Definition NOKIA5110_TEMP_CONTROL (value : Z) : Z := Z.lor 4 (Z.land value 3).
Definition NOKIA5110_BIAS_SYSTEM (value : Z) : Z := Z.lor 0x10 (Z.land value 7).
Definition NOKIA5110_SET_VOP (value : Z) : Z := Z.lor 0x80 (Z.land value 0x7f).
Definition NOKIA5110_CANVAS_OFFSET (x y : Z) : Z := x + NOKIA5110_WIDTH * Z.shiftr y NOKIA5110_PIXELS_PER_BYTE_LOG.
(** "NOKIA5110_GPIO0" *)
Definition nokia5110_gpio_set_key : list Z := [78; 79; 75; 73; 65; 53; 49; 49; 48; 95; 71; 80; 73; 79; 48].

(** ** Fonts (include/font.h) *)
Record glyph_metrics := GlyphMetrics {
  g_pos_x : Z; g_pos_y : Z; bound_x : Z; bound_y : Z; bearing_x : Z; bearing_y : Z; advance_x : Z; advance_y : Z }.
(** The bitmap's bytes and the metrics of the characters from 0x20 on. *)
Record font_desc := FontDesc { bitmap : list Z; glyphs : list glyph_metrics; glyph_stride : Z }.

(** An element of an array. *)
Definition at_index {A} (l : list A) (i : Z) : outcome A := if i <? 0 then Fault else deref (l !! Z.to_nat i).

Definition font_get_glyph_metrics (f : font_desc) (c : Z) : outcome glyph_metrics :=
  let idx := c - 0x20 in at_index (glyphs f) (if idx <? 0 then 46 - 0x20 else idx).
Definition glyph_metrics_get_offset (f : font_desc) (gm : glyph_metrics) : Z :=
  (g_pos_y gm - bound_y gm + 1) * glyph_stride f + Z.shiftr (g_pos_x gm) 3.
Definition glyph_metrics_get_cursor_step_x (gm : glyph_metrics) : Z := bearing_x gm + bound_x gm + advance_x gm.

(** ** The canvas *)
Record canvas_control := CanvasControl { canvas : list Z; cursor_x : Z; cursor_y : Z; font : option font_desc }.

(** A store outside the canvas is undefined. *)
Definition NOKIA5110_CANVAS_SET_XY (c : canvas_control) (x y v : Z) : outcome canvas_control :=
  l ← arr_set (canvas c) (NOKIA5110_CANVAS_OFFSET x y) v; Ret (CanvasControl l (cursor_x c) (cursor_y c) (font c)).
Definition __nokia5110_canvas_set_cursor (c : canvas_control) (x y : Z) : canvas_control :=
  if (x =? -1) && (y =? -1) then c else
  CanvasControl (canvas c) (if NOKIA5110_WIDTH <=? x then NOKIA5110_WIDTH - 1 else x) (if NOKIA5110_HEIGHT <=? y then 0 else y) (font c).
Definition nokia5110_canvas_set_newline (c : canvas_control) : canvas_control :=
  __nokia5110_canvas_set_cursor c (cursor_x c) (cursor_y c + Z.shiftl 1 NOKIA5110_PIXELS_PER_BYTE_LOG).
Definition nokia5110_canvas_set_carr_return (c : canvas_control) : canvas_control := CanvasControl (canvas c) 0 (cursor_y c) (font c).
(** The old value of the cursor is compared. *)
Definition nokia5110_canvas_cursor_set (c : canvas_control) (value : Z) : outcome canvas_control :=
  c ← NOKIA5110_CANVAS_SET_XY c (cursor_x c) (cursor_y c) value;
  let x := cursor_x c in
  let c := CanvasControl (canvas c) (x + 1) (cursor_y c) (font c) in
  Ret (if x =? NOKIA5110_WIDTH then nokia5110_canvas_set_newline (CanvasControl (canvas c) 0 (cursor_y c) (font c)) else c).

Fixpoint blank_loop (n : nat) (i : Z) (c : canvas_control) : outcome canvas_control :=
  match n with O => Ret c | Datatypes.S n => c ← NOKIA5110_CANVAS_SET_XY c (cursor_x c + i) (cursor_y c) 0; blank_loop n (i + 1) c end.
Definition nokia5110_canvas_blank_char (c : canvas_control) (gm : glyph_metrics) : outcome canvas_control :=
  blank_loop (Z.to_nat (glyph_metrics_get_cursor_step_x gm)) 0 c.

Fixpoint bearing_loop (n : nat) (c : canvas_control) : outcome canvas_control :=
  match n with O => Ret c | Datatypes.S n => c ← nokia5110_canvas_cursor_set c 0; bearing_loop n c end.

(** The byte of column [gx], from row [gy] on; a negative shift is undefined. *)
Fixpoint column_loop (n : nat) (f : font_desc) (gm : glyph_metrics) (glyph gx gy tmp : Z) : outcome Z :=
  match n with
  | O => Ret tmp
  | Datatypes.S n =>
    line ← at_index (bitmap f) (glyph + gy * glyph_stride f);
    let is_set := if truth (Z.land line (Z.shiftl 1 gx)) then 1 else 0 in
    let v := gy + 8 - bound_y gm - bearing_y gm in
    if v <? 0 then Fault else
    column_loop n f gm glyph gx (gy + 1) (u8 (Z.lor tmp (Z.shiftl is_set v)))
  end.
Fixpoint columns_loop (n : nat) (f : font_desc) (gm : glyph_metrics) (glyph gx : Z) (c : canvas_control) : outcome canvas_control :=
  match n with
  | O => Ret c
  | Datatypes.S n =>
    tmp ← column_loop (Z.to_nat (bound_y gm)) f gm glyph gx 0 0;
    c ← nokia5110_canvas_cursor_set c tmp;
    columns_loop n f gm glyph (gx + 1) c
  end.

Definition nokia5110_canvas_draw_char (c : canvas_control) (ch : Z) : outcome canvas_control :=
  f ← deref (font c);
  gm ← font_get_glyph_metrics f ch;
  let glyph_step_x := glyph_metrics_get_cursor_step_x gm in
  let c := if NOKIA5110_WIDTH <=? cursor_x c + glyph_step_x
           then nokia5110_canvas_set_newline (nokia5110_canvas_set_carr_return c) else c in
  c ← nokia5110_canvas_blank_char c gm;
  c ← bearing_loop (Z.to_nat (bearing_x gm)) c;
  columns_loop (Z.to_nat (bound_x gm)) f gm (glyph_metrics_get_offset f gm) 0 c.

(** ** The device *)
Record nokia5110_dev := NokiaDev { spi : Z; dc : Z; rst : Z; gpioset : Z }.

(** The bus, the pin registry and the static variables; [None] for a null [nokia5110_dev]. *)
Record nokia_drv (B : Type) := NokiaDrv {
  nbus : B; npins : gpio_state; ndev : option nokia5110_dev; nokia5110_font : option font_desc; nokia5110_canvas_control : canvas_control }.
Arguments NokiaDrv {B}.
Arguments nbus {B}.
Arguments npins {B}.
Arguments ndev {B}.
Arguments nokia5110_font {B}.
Arguments nokia5110_canvas_control {B}.

Section nokia.
Context {B : Type} `{Mmio B} `{!SpiBus B} (spi_xmit_dma : Z → list Z → io B Z).
Abbreviation S := (nokia_drv B).

Definition on_bus {A} (m : io B A) : io S A := λ s,
  '(a, b) ← m (nbus s); Ret (a, NokiaDrv b (npins s) (ndev s) (nokia5110_font s) (nokia5110_canvas_control s)).
Definition on_canvas {A} (m : canvas_control → outcome (A * canvas_control)) : io S A := λ s,
  '(a, c) ← m (nokia5110_canvas_control s); Ret (a, NokiaDrv (nbus s) (npins s) (ndev s) (nokia5110_font s) c).

(** [RET_IF_ERR]. *)
Definition ret_if_err (m k : io S Z) : io S Z := err ← m; if truth err then mret err else k.
(** [DECL_FUNC_CHECK_INIT]; without the check a null pointer is followed. *)
Definition checked_func (m : nokia5110_dev → io S Z) : io S Z := λ s, match ndev s with None => Ret (ERR_NOT_INIT, s) | Some d => m d s end.
Definition with_dev (m : nokia5110_dev → io S Z) : io S Z := λ s, match ndev s with None => Fault | Some d => m d s end.

Definition send_byte (d : nokia5110_dev) (c : Z) : io S Z := '(err, _) ← on_bus (spi_xmit_byte (spi d) (u8 c)); mret err.
Definition send_bytes (d : nokia5110_dev) (l : list Z) : io S Z := '(err, _) ← on_bus (spi_xmit (spi d) l); mret err.
Definition SEND_CMD (d : nokia5110_dev) (c : Z) (k : io S Z) : io S Z :=
  ret_if_err (on_bus (gpio_set_off (dc d))) (ret_if_err (send_byte d c) k).
Definition SEND_DATA (d : nokia5110_dev) (l : list Z) (k : io S Z) : io S Z :=
  ret_if_err (on_bus (gpio_set_on (dc d))) (ret_if_err (send_bytes d l) k).

Definition nokia5110_send_data (data : list Z) : io S Z := with_dev (λ d, _ ← on_bus (gpio_set_on (dc d)); send_bytes d data).
Definition nokia5110_send_data_dma (data : list Z) : io S Z := with_dev (λ d, _ ← on_bus (gpio_set_on (dc d)); on_bus (spi_xmit_dma (spi d) data)).

Definition nokia5110_set_function (function_flags : Z) : io S Z := checked_func (λ d, SEND_CMD d (Z.lor 0x20 function_flags) (mret ERR_OK)).
Definition nokia5110_set_display_mode (display_mode : Z) : io S Z := checked_func (λ d,
  if DISPLAY_MODE_MAX <? display_mode then mret ERR_INVAL_ARG else
  SEND_CMD d (Z.lor (Z.lor 8 (Z.shiftl (Z.land (Z.shiftr display_mode 1) 1) 2)) (Z.land display_mode 1)) (mret ERR_OK)).
Definition nokia5110_set_temperature_coeff (coeff : Z) : io S Z := checked_func (λ d,
  if NOKIA5110_TEMP_COEFF_MAX <? coeff then mret ERR_INVAL_ARG else SEND_CMD d (Z.lor 4 coeff) (mret ERR_OK)).
(** Without the opcode of the bias command. *)
Definition nokia5110_set_bias (bias : Z) : io S Z := checked_func (λ d,
  if NOKIA5110_BIAS_MAX <? bias then mret ERR_INVAL_ARG else SEND_CMD d bias (mret ERR_OK)).
Definition nokia5110_reset : io S Z := checked_func (λ d,
  ret_if_err (on_bus (gpio_set_off (rst d))) (ret_if_err (on_bus (gpio_set_on (rst d))) (mret ERR_OK))).
Definition nokia5110_set_y_addr (y : Z) : io S Z := checked_func (λ d,
  if NOKIA5110_ROW_MAX <? y then mret ERR_INVAL_ARG else SEND_CMD d (Z.lor 0x40 y) (mret ERR_OK)).
Definition nokia5110_set_cursor (x y : Z) : io S Z := checked_func (λ d,
  if NOKIA5110_ROW_MAX <? y then mret ERR_INVAL_ARG else
  if NOKIA5110_COLUMN_MAX <? x then mret ERR_INVAL_ARG else
  SEND_CMD d (Z.lor 0x40 y) (SEND_CMD d (Z.lor 0x80 x) (mret ERR_OK))).

Definition request_rst_dc (rst_pin dc_pin : Z) : io S Z := λ s,
  '(g, h) ← gpio_set_request_n_pins (npins s) [rst_pin; dc_pin] nokia5110_gpio_set_key;
  Ret (h, NokiaDrv (nbus s) g (ndev s) (nokia5110_font s) (nokia5110_canvas_control s)).
Definition set_dev (d : nokia5110_dev) : io S unit := λ s, Ret (tt, NokiaDrv (nbus s) (npins s) (Some d) (nokia5110_font s) (nokia5110_canvas_control s)).
Definition set_static_font (f : option font_desc) : io S unit := λ s, Ret (tt, NokiaDrv (nbus s) (npins s) (ndev s) f (nokia5110_canvas_control s)).

(** [function_flags] and [display_mode] are not used. *)
Definition nokia5110_init (spidev rst_pin dc_pin function_flags display_mode : Z) : io S Z :=
  if spidev =? 0 then mret ERR_INVAL_ARG else
  handle ← request_rst_dc rst_pin dc_pin;
  if handle =? GPIO_SET_INVALID_HANDLE then mret ERR_BUSY else
  ret_if_err (on_bus (gpio_set_function rst_pin GPIO_FUNC_OUT)) (ret_if_err (on_bus (gpio_set_function dc_pin GPIO_FUNC_OUT)) (
  let d := NokiaDev spidev dc_pin rst_pin handle in
  _ ← set_dev d;
  ret_if_err (on_bus (gpio_set_on rst_pin)) (ret_if_err (on_bus (gpio_set_off dc_pin)) (ret_if_err nokia5110_reset (
  SEND_CMD d (NOKIA5110_FUNCTION_SET 0 0 1) (
  SEND_CMD d (NOKIA5110_SET_VOP 0x39) (
  SEND_CMD d (NOKIA5110_TEMP_CONTROL 0) (
  SEND_CMD d (NOKIA5110_BIAS_SYSTEM 4) (
  SEND_CMD d (NOKIA5110_FUNCTION_SET 0 0 0) (
  SEND_CMD d (NOKIA5110_DISPLAY_CONTROL 1 0) (
  ret_if_err (nokia5110_set_cursor 0 0) (_ ← set_static_font None; mret ERR_OK)))))))))))).

Definition nokia5110_draw_dot (x y : Z) : io S Z := checked_func (λ d,
  ret_if_err (nokia5110_set_cursor x (Z.quot y 8)) (
  if Z.rem y 8 <? 0 then lift Fault else SEND_DATA d [u8 (Z.shiftl 1 (Z.rem y 8))] (mret ERR_OK))).
Fixpoint draw_line_loop (n : nat) (x x0 y0 : Z) : io S Z :=
  match n with O => mret ERR_OK | Datatypes.S n => ret_if_err (nokia5110_draw_dot (x0 + x) (y0 + x)) (draw_line_loop n (x + 1) x0 y0) end.
(** The end point is not used. *)
Definition nokia5110_draw_line (x0 y0 x1 y1 : Z) : io S Z := checked_func (λ _, draw_line_loop 84 0 x0 y0).
Definition nokia5110_draw_rect (x y sx sy : Z) : io S Z := checked_func (λ _, mret ERR_OK).

Definition the_canvas : io S (list Z) := λ s, Ret (canvas (nokia5110_canvas_control s), s).
Definition set_canvas (l : list Z) : io S unit :=
  on_canvas (λ c, Ret (tt, CanvasControl l (cursor_x c) (cursor_y c) (font c))).
Definition nokia5110_blank_screen : io S Z :=
  _ ← nokia5110_set_cursor 0 0;
  _ ← set_canvas (replicate (Z.to_nat NOKIA5110_CANVAS_SIZE) 0);
  l ← the_canvas; _ ← nokia5110_send_data l; mret ERR_OK.

(** A failure also blinks a LED. *)
Definition nokia5110_canvas_redraw_locked : io S Z :=
  err ← nokia5110_set_cursor 0 0;
  if truth err then mret err else l ← the_canvas; nokia5110_send_data l.

Definition draw_on_canvas (ch : Z) : io S unit := on_canvas (λ c, c ← nokia5110_canvas_draw_char c ch; Ret (tt, c)).
(** The text's bytes up to and with the final zero. *)
Fixpoint draw_text_loop (text : list Z) : io S unit :=
  match text with
  | [] => lift Fault
  | ch :: text => if ch =? 0 then mret tt else _ ← draw_on_canvas ch; draw_text_loop text
  end.
(** The coordinates are not used. *)
Definition nokia5110_draw_text (text : list Z) (x y : Z) : io S Z :=
  f ← (λ s, Ret (nokia5110_font s, s));
  if negb (bool_decide (is_Some f)) then mret ERR_NOT_INIT else
  _ ← draw_text_loop text; nokia5110_canvas_redraw_locked.
Definition nokia5110_draw_char (ch : Z) : io S Z := _ ← draw_on_canvas ch; nokia5110_canvas_redraw_locked.
Definition nokia5110_canvas_set_cursor (x y : Z) : io S Z := on_canvas (λ c, Ret (ERR_OK, __nokia5110_canvas_set_cursor c x y)).
Definition nokia5110_canvas_get_cursor : io S (Z * Z) := on_canvas (λ c, Ret ((cursor_x c, cursor_y c), c)).
Definition nokia5110_set_font (f : font_desc) : io S unit :=
  _ ← set_static_font (Some f); on_canvas (λ c, Ret (tt, CanvasControl (canvas c) (cursor_x c) (cursor_y c) (Some f))).

(** ** The console *)
Definition nokia5110_term_new_line : io S Z := '(x, y) ← nokia5110_canvas_get_cursor; _ ← nokia5110_canvas_set_cursor x (y + 1); mret ERR_OK.
Definition nokia5110_term_carriage_return : io S Z := '(x, y) ← nokia5110_canvas_get_cursor; _ ← nokia5110_canvas_set_cursor 0 y; mret ERR_OK.
Definition nokia5110_putc (c : Z) : io S Z :=
  if c =? 10 then nokia5110_term_new_line else if c =? 13 then nokia5110_term_carriage_return else nokia5110_draw_char c.
Fixpoint nokia5110_puts (s : list Z) : io S Z :=
  match s with
  | [] => lift Fault
  | c :: s => if c =? 0 then mret ERR_OK else ret ← nokia5110_putc c; if truth ret then mret ret else nokia5110_puts s
  end.
End nokia.

(** ** What a character puts on the canvas *)

(** The byte with the bits of [p]. *)
Definition byte_of (p : Z → bool) : Z := foldl shift_in 0 (map p [7; 6; 5; 4; 3; 2; 1; 0]).

(** Row [gy] of a glyph, and column [gx] of its picture: the rows from the top,
    the last one [bearing_y] above the bottom of the eight. *)
Definition glyph_row (f : font_desc) (gm : glyph_metrics) (gy : Z) : Z :=
  default 0 (bitmap f !! Z.to_nat (glyph_metrics_get_offset f gm + gy * glyph_stride f)).
Definition column (f : font_desc) (gm : glyph_metrics) (gx : Z) : Z := byte_of (λ k,
  let gy := k - 8 + bound_y gm + bearing_y gm in (0 <=? gy) && (gy <? bound_y gm) && Z.testbit (glyph_row f gm gy) gx).
Definition char_cells (f : font_desc) (gm : glyph_metrics) : list Z :=
  replicate (Z.to_nat (bearing_x gm)) 0 ++ map (λ gx, column f gm (Z.of_nat gx)) (seq 0 (Z.to_nat (bound_x gm))) ++ replicate (Z.to_nat (advance_x gm)) 0.

(** The place of a character of that many columns, and the canvas with it. *)
Definition char_place (c : canvas_control) (step : Z) : Z * Z :=
  if 84 <=? cursor_x c + step then (0, if 48 <=? cursor_y c + 8 then 0 else cursor_y c + 8) else (cursor_x c, cursor_y c).
Definition draw_char_spec (f : font_desc) (c : canvas_control) (gm : glyph_metrics) : canvas_control :=
  let '(x, y) := char_place c (glyph_metrics_get_cursor_step_x gm) in
  let off := Z.to_nat (x + 84 * (y / 8)) in let cells := char_cells f gm in
  CanvasControl (take off (canvas c) ++ cells ++ drop (off + length cells) (canvas c)) (x + bearing_x gm + bound_x gm) y (font c).

(** Metrics that fit the eight rows, and a picture inside the bitmap. *)
Record glyph_ok (f : font_desc) (gm : glyph_metrics) : Prop := {
  go_bearing : 0 ≤ bearing_x gm; go_bound : 0 ≤ bound_x gm; go_advance : 0 ≤ advance_x gm;
  go_step : glyph_metrics_get_cursor_step_x gm < 84;
  go_rows : 0 ≤ bound_y gm; go_top : bound_y gm + bearing_y gm ≤ 8;
  go_bitmap : ∀ gy, 0 ≤ gy < bound_y gm → 0 ≤ glyph_metrics_get_offset f gm + gy * glyph_stride f < Z.of_nat (length (bitmap f)) }.

Abbreviation bytes := (Forall (λ x, 0 ≤ x < 256)).
Record canvas_ok (c : canvas_control) : Prop := {
  co_size : length (canvas c) = Z.to_nat 504; co_bytes : bytes (canvas c); co_x : 0 ≤ cursor_x c < 84; co_y : 0 ≤ cursor_y c < 48 }.

Lemma at_row f gm gy : glyph_ok f gm → 0 ≤ gy < bound_y gm →
  at_index (bitmap f) (glyph_metrics_get_offset f gm + gy * glyph_stride f) = Ret (glyph_row f gm gy).
Proof.
  intros Hg Hy. pose proof (go_bitmap _ _ Hg gy Hy) as Hb. unfold at_index, glyph_row.
  destruct (Z.ltb_spec (glyph_metrics_get_offset f gm + gy * glyph_stride f) 0); [lia|].
  destruct (lookup_lt_is_Some_2 (bitmap f) (Z.to_nat (glyph_metrics_get_offset f gm + gy * glyph_stride f))) as [b Hb']; [lia|]. by rewrite Hb'.
Qed.

Lemma testbit_column tmp v b k : 0 ≤ v → 0 ≤ k < 8 →
  Z.testbit (u8 (Z.lor tmp (Z.shiftl (if b : bool then 1 else 0) v))) k = Z.testbit tmp k || (b && (k =? v)).
Proof.
  intros Hv Hk. unfold u8. change 256 with (2 ^ 8). rewrite Z.mod_pow2_bits_low, Z.lor_spec, Z.shiftl_spec by lia. f_equal.
  destruct b; cbn [andb]; [|by rewrite Z.bits_0]. change 1 with (2 ^ 0). rewrite Z.pow2_bits_eqb by lia.
  destruct (Z.eqb_spec 0 (k - v)), (Z.eqb_spec k v); (done || lia).
Qed.

Lemma column_loop_bits f gm gx n : ∀ gy tmp, glyph_ok f gm → 0 ≤ gx → 0 ≤ gy → gy + Z.of_nat n = bound_y gm → 0 ≤ tmp < 256 →
  ∃ r, column_loop n f gm (glyph_metrics_get_offset f gm) gx gy tmp = Ret r ∧ 0 ≤ r < 256 ∧ ∀ k, 0 ≤ k < 8 → Z.testbit r k =
    Z.testbit tmp k || (let g := k - 8 + bound_y gm + bearing_y gm in (gy <=? g) && (g <? bound_y gm) && Z.testbit (glyph_row f gm g) gx).
Proof.
  induction n as [|n IH]; intros gy tmp Hg Hx Hy Hn Ht.
  { exists tmp. split; [done|]. split; [done|]. intros k Hk. cbv zeta. zcases; cbn [andb]; rewrite ?orb_false_r; (done || lia). }
  cbn [column_loop]. rewrite at_row, bind_ret by (done || lia). pose proof (go_top _ _ Hg).
  destruct (Z.ltb_spec (gy + 8 - bound_y gm - bearing_y gm) 0); [lia|].
  destruct (IH (gy + 1) (u8 (Z.lor tmp (Z.shiftl (if truth (Z.land (glyph_row f gm gy) (Z.shiftl 1 gx)) then 1 else 0)
    (gy + 8 - bound_y gm - bearing_y gm))))) as (r & E & Hr & Hbits); [done|done|lia|lia|apply u8_range|].
  exists r. split; [exact E|]. split; [done|]. intros k Hk. rewrite (Hbits k Hk), testbit_column by lia. rewrite Z.shiftl_1_l.
  assert (truth (Z.land (glyph_row f gm gy) (2 ^ gx)) = Z.testbit (glyph_row f gm gy) gx) as ->
    by (unfold truth; rewrite land_pow2_eqb, negb_involutive by lia; done).
  rewrite <- orb_assoc. f_equal. cbv zeta. set (g := k - 8 + bound_y gm + bearing_y gm).
  destruct (Z.eqb_spec k (gy + 8 - bound_y gm - bearing_y gm)) as [->|Hne].
  - replace g with gy by lia. rewrite Z.leb_refl. zcases; try lia. cbn [andb]. by rewrite andb_true_r, orb_false_r.
  - rewrite andb_false_r. cbn [orb]. zcases; try lia; done.
Qed.

Lemma column_loop_column f gm gx : glyph_ok f gm → 0 ≤ gx →
  column_loop (Z.to_nat (bound_y gm)) f gm (glyph_metrics_get_offset f gm) gx 0 0 = Ret (column f gm gx).
Proof.
  intros Hg Hx. pose proof (go_rows _ _ Hg).
  destruct (column_loop_bits f gm gx (Z.to_nat (bound_y gm)) 0 0) as (r & E & Hr & Hbits); [done|done|lia|lia|lia|].
  rewrite E. f_equal. rewrite <- (shifted_byte 0 r Hr). unfold column, byte_of, msb_first. f_equal.
  apply map_ext_in. intros k Hk. rewrite Hbits; [by rewrite Z.bits_0|]. cbn in Hk. lia.
Qed.

(** ** Drawing on the canvas *)

(** [c] with byte list [l] and column [x]. *)
Definition with_cells (c : canvas_control) (l : list Z) (x : Z) : canvas_control := CanvasControl l x (cursor_y c) (font c).

Lemma canvas_offset x y : NOKIA5110_CANVAS_OFFSET x y = x + 84 * (y / 8).
Proof. unfold NOKIA5110_CANVAS_OFFSET. by rewrite Z.shiftr_div_pow2. Qed.

Lemma set_xy_middle c x P o R v : Z.of_nat (length P) = x + 84 * (cursor_y c / 8) → canvas c = P ++ o :: R →
  NOKIA5110_CANVAS_SET_XY c x (cursor_y c) v = Ret (with_cells c (P ++ v :: R) (cursor_x c)).
Proof.
  intros HP Hc. unfold NOKIA5110_CANVAS_SET_XY. rewrite canvas_offset, <- HP, Hc, arr_set_at by (rewrite length_app; cbn; lia).
  by rewrite insert_app_r_alt, Nat.sub_diag by lia.
Qed.

Lemma blank_loop_ok n : ∀ i c P old R, Z.of_nat (length P) = cursor_x c + i + 84 * (cursor_y c / 8) → canvas c = P ++ old ++ R → length old = n →
  blank_loop n i c = Ret (with_cells c (P ++ replicate n 0 ++ R) (cursor_x c)).
Proof.
  induction n as [|n IH]; intros i c P old R HP Hc Hn.
  { destruct old; [|done]. cbn [blank_loop replicate app]. by destruct c; cbn in *; subst. }
  destruct old as [|o old]; [done|]. injection Hn as Hn. cbn [blank_loop]. rewrite (set_xy_middle c _ P o (old ++ R)) by done. rewrite bind_ret.
  rewrite (IH _ _ (P ++ [0]) old R); cbn [with_cells cursor_x cursor_y canvas]; [by rewrite <- app_assoc|rewrite length_app; cbn; lia|by rewrite <- app_assoc|done].
Qed.

Lemma cursor_set_middle c P o R v : Z.of_nat (length P) = cursor_x c + 84 * (cursor_y c / 8) → canvas c = P ++ o :: R → cursor_x c < 84 →
  nokia5110_canvas_cursor_set c v = Ret (with_cells c (P ++ v :: R) (cursor_x c + 1)).
Proof.
  intros HP Hc Hx. unfold nokia5110_canvas_cursor_set, NOKIA5110_WIDTH. rewrite (set_xy_middle c _ P o R) by done. rewrite bind_ret.
  cbn [with_cells cursor_x cursor_y canvas font]. destruct (Z.eqb_spec (cursor_x c) 84); [lia|done].
Qed.

Lemma bearing_loop_ok n : ∀ c P old R, Z.of_nat (length P) = cursor_x c + 84 * (cursor_y c / 8) → canvas c = P ++ old ++ R → length old = n →
  cursor_x c + Z.of_nat n ≤ 84 → bearing_loop n c = Ret (with_cells c (P ++ replicate n 0 ++ R) (cursor_x c + Z.of_nat n)).
Proof.
  induction n as [|n IH]; intros c P old R HP Hc Hn Hx.
  { destruct old; [|done]. cbn [bearing_loop replicate app]. rewrite Z.add_0_r. by destruct c; cbn in *; subst. }
  destruct old as [|o old]; [done|]. injection Hn as Hn. cbn [bearing_loop]. rewrite (cursor_set_middle c P o (old ++ R)) by (done || lia). rewrite bind_ret.
  rewrite (IH _ (P ++ [0]) old R); cbn [with_cells cursor_x cursor_y canvas]; [|rewrite length_app; cbn; lia|by rewrite <- app_assoc|done|lia].
  unfold with_cells. cbn [cursor_y font]. rewrite <- app_assoc. do 2 f_equal. lia.
Qed.

Lemma columns_loop_ok f gm n : ∀ gx c P old R, glyph_ok f gm → Z.of_nat (length P) = cursor_x c + 84 * (cursor_y c / 8) → canvas c = P ++ old ++ R →
  length old = n → cursor_x c + Z.of_nat n ≤ 84 → columns_loop n f gm (glyph_metrics_get_offset f gm) (Z.of_nat gx) c =
    Ret (with_cells c (P ++ map (λ gx, column f gm (Z.of_nat gx)) (seq gx n) ++ R) (cursor_x c + Z.of_nat n)).
Proof.
  induction n as [|n IH]; intros gx c P old R Hg HP Hc Hn Hx.
  { destruct old; [|done]. cbn [columns_loop seq map app]. rewrite Z.add_0_r. by destruct c; cbn in *; subst. }
  destruct old as [|o old]; [done|]. injection Hn as Hn. cbn [columns_loop]. rewrite column_loop_column, bind_ret by (done || lia).
  rewrite (cursor_set_middle c P o (old ++ R)) by (done || lia). rewrite bind_ret. replace (Z.of_nat gx + 1) with (Z.of_nat (S gx)) by lia.
  rewrite (IH _ _ (P ++ [column f gm (Z.of_nat gx)]) old R); cbn [with_cells cursor_x cursor_y canvas]; [|done|rewrite length_app; cbn; lia|by rewrite <- app_assoc|done|lia].
  unfold with_cells. cbn [cursor_y font seq map]. rewrite <- app_assoc. do 2 f_equal. lia.
Qed.

Lemma char_cells_length f gm : glyph_ok f gm → Z.of_nat (length (char_cells f gm)) = glyph_metrics_get_cursor_step_x gm.
Proof.
  intros []. unfold char_cells, glyph_metrics_get_cursor_step_x. rewrite !length_app, !length_replicate, length_map, length_seq. lia.
Qed.

Lemma char_cells_bytes f gm : bytes (char_cells f gm).
Proof.
  unfold char_cells. apply Forall_app_2; [apply Forall_replicate; lia|]. apply Forall_app_2; [|apply Forall_replicate; lia].
  apply Forall_map, Forall_true. intros x. unfold column, byte_of. cbn [map foldl]. apply u8_range.
Qed.

Lemma char_place_ok c step : canvas_ok c → 0 ≤ step < 84 → let '(x, y) := char_place c step in 0 ≤ x ∧ x + step < 84 ∧ 0 ≤ y < 48.
Proof. intros [_ _ Hx Hy] Hs. unfold char_place. zcases; lia. Qed.

(** A list around the [n] elements at [k]. *)
Lemma split_at {A} (l : list A) k n : (k + n ≤ length l)%nat →
  l = take k l ++ take n (drop k l) ++ drop (k + n) l ∧ length (take k l) = k ∧ length (take n (drop k l)) = n.
Proof.
  intros Hk. rewrite !length_take, length_drop. split; [|lia]. rewrite <- drop_drop, take_drop, take_drop. done.
Qed.

Lemma draw_char_draws f c ch gm : canvas_ok c → font c = Some f → font_get_glyph_metrics f ch = Ret gm → glyph_ok f gm →
  nokia5110_canvas_draw_char c ch = Ret (draw_char_spec f c gm) ∧ canvas_ok (draw_char_spec f c gm).
Proof.
  intros Hc Hf Hgm Hg. pose proof (char_cells_length f gm Hg) as Hlen. pose proof Hg as [G1 G2 G3 G4 _ _ _].
  unfold glyph_metrics_get_cursor_step_x in *. set (step := bearing_x gm + bound_x gm + advance_x gm) in *.
  pose proof (char_place_ok c step Hc ltac:(lia)) as Hp. unfold draw_char_spec, glyph_metrics_get_cursor_step_x. fold step.
  assert (∃ x y, char_place c step = (x, y)) as (x & y & Exy) by (by destruct (char_place c step) as [x y]; exists x, y). rewrite Exy in Hp |- *.
  set (off := Z.to_nat (x + 84 * (y / 8))). assert (0 ≤ y / 8 < 6) as Hy8 by (split; [apply Z.div_pos; lia|apply Z.div_lt_upper_bound; lia]).
  destruct (split_at (canvas c) off (Z.to_nat step)) as (Ec & LP & LO); [rewrite (co_size _ Hc); unfold off; lia|].
  set (P := take off (canvas c)) in *. set (O := take _ (drop off (canvas c))) in *. set (R := drop (off + Z.to_nat step) (canvas c)) in *.
  assert (Z.of_nat (length P) = x + 84 * (y / 8)) as HP by (rewrite LP; unfold off; lia).
  assert (drop (off + length (char_cells f gm)) (canvas c) = R) as -> by (unfold R; do 2 f_equal; lia).
  split; [|split; cbn; [| |lia|lia]].
  3: { apply Forall_app_2; [apply Forall_take, (co_bytes _ Hc)|]. apply Forall_app_2; [apply char_cells_bytes|apply Forall_drop, (co_bytes _ Hc)]. }
  2: { rewrite !length_app. assert (Hs := co_size _ Hc). rewrite Ec, !length_app in Hs. lia. }
  unfold nokia5110_canvas_draw_char. rewrite Hf. cbn [deref]. rewrite bind_ret, Hgm, bind_ret.
  unfold glyph_metrics_get_cursor_step_x. fold step. unfold NOKIA5110_WIDTH.
  set (c1 := if 84 <=? cursor_x c + step then _ else c).
  assert (c1 = with_cells (CanvasControl (canvas c) x y (font c)) (canvas c) x) as ->.
  { unfold c1, char_place in *. destruct (84 <=? cursor_x c + step); injection Exy as <- <-; [|by destruct c].
    unfold nokia5110_canvas_set_newline, nokia5110_canvas_set_carr_return, __nokia5110_canvas_set_cursor. cbn [cursor_x cursor_y canvas font].
    change (0 =? -1) with false. cbn [andb]. unfold NOKIA5110_WIDTH, NOKIA5110_HEIGHT. change (84 <=? 0) with false. done. }
  unfold nokia5110_canvas_blank_char, glyph_metrics_get_cursor_step_x. fold step. set (c2 := with_cells _ _ _).
  rewrite (blank_loop_ok _ 0 c2 P O R), bind_ret by (cbn; done || lia).
  replace (Z.to_nat step) with (Z.to_nat (bearing_x gm) + (Z.to_nat (bound_x gm) + Z.to_nat (advance_x gm)))%nat by lia.
  rewrite !replicate_add, <- !app_assoc. unfold c2, with_cells. cbn [cursor_x cursor_y canvas font].
  rewrite (bearing_loop_ok _ _ P (replicate (Z.to_nat (bearing_x gm)) 0) (replicate (Z.to_nat (bound_x gm)) 0 ++ replicate (Z.to_nat (advance_x gm)) 0 ++ R)), bind_ret;
    cbn [with_cells cursor_x cursor_y canvas font]; [|lia|done|by rewrite length_replicate|lia].
  pose proof (columns_loop_ok f gm (Z.to_nat (bound_x gm)) 0
    (CanvasControl (P ++ replicate (Z.to_nat (bearing_x gm)) 0 ++ replicate (Z.to_nat (bound_x gm)) 0 ++ replicate (Z.to_nat (advance_x gm)) 0 ++ R)
       (x + Z.of_nat (Z.to_nat (bearing_x gm))) y (font c)) (P ++ replicate (Z.to_nat (bearing_x gm)) 0)
    (replicate (Z.to_nat (bound_x gm)) 0) (replicate (Z.to_nat (advance_x gm)) 0 ++ R) Hg) as E.
  cbn [cursor_x cursor_y canvas font] in E. change (Z.of_nat 0) with 0 in E.
  unfold with_cells at 1. cbn [cursor_y font]. rewrite E; [|rewrite length_app, length_replicate; lia|by rewrite <- app_assoc|by rewrite length_replicate|lia].
  unfold with_cells, char_cells. cbn [cursor_y font]. rewrite <- !app_assoc. do 2 f_equal; [lia|done].
Qed.

(** ** The controller (PCD8544)

    Its memory of 84 by 6 bytes, the address of the next byte, the instruction
    set and the addressing mode chosen, the level of the D/C pin, and whether it is
    powered down and what it displays (the bits D and E: 0 blank, 4 normal, 1 all
    segments on, 5 inverse). *)
Record lcd := Lcd { ram : list Z; lx : Z; ly : Z; ext : bool; vert : bool; dc_high : bool; asleep : bool; display : Z }.

Definition lcd_data (l : lcd) (c : Z) : lcd :=
  let '(x, y) := if vert l then (if ly l =? 5 then (if lx l =? 83 then 0 else lx l + 1, 0) else (lx l, ly l + 1))
                 else (if lx l =? 83 then (0, if ly l =? 5 then 0 else ly l + 1) else (lx l + 1, ly l)) in
  Lcd (<[Z.to_nat (lx l + 84 * ly l) := c]> (ram l)) x y (ext l) (vert l) (dc_high l) (asleep l) (display l).
Definition lcd_command (l : lcd) (c : Z) : lcd :=
  if 0x80 <=? c then (if ext l then l else Lcd (ram l) (if c <? 0x80 + 84 then c - 0x80 else lx l) (ly l) (ext l) (vert l) (dc_high l) (asleep l) (display l))
  else if 0x40 <=? c then (if ext l then l else Lcd (ram l) (lx l) (if c <? 0x40 + 6 then c - 0x40 else ly l) (ext l) (vert l) (dc_high l) (asleep l) (display l))
  else if 0x20 <=? c then Lcd (ram l) (lx l) (ly l) (Z.testbit c 0) (Z.testbit c 1) (dc_high l) (Z.testbit c 2) (display l)
  else if (0x08 <=? c) && (c <? 0x10) && negb (ext l) then Lcd (ram l) (lx l) (ly l) (ext l) (vert l) (dc_high l) (asleep l) (c - 0x08)
  else l.
Definition lcd_byte (l : lcd) (c : Z) : lcd := if dc_high l then lcd_data l c else lcd_command l c.

(** The D/C pin follows the set and clear registers of the pins. *)
Definition lcd_pins (dcp r v : Z) (l : lcd) : lcd :=
  Lcd (ram l) (lx l) (ly l) (ext l) (vert l)
    (if (r =? GPIO_REG_GPSET0) && Z.testbit v dcp then true else if (r =? GPIO_REG_GPCLR0) && Z.testbit v dcp then false else dc_high l) (asleep l) (display l).

(** A bus with the display at [dev], its pins D/C and RST wired to [dcp] and
    [rstp].  A reset leaves anything in the memory. *)
Class Pcd8544 (B : Type) `{Mmio B} `{!SpiBus B} (dev dcp rstp : Z) : Type := {
  lcd_of : B → lcd;
  lcd_read r b : lcd_of (snd (mmio_read r b)) = lcd_of b;
  lcd_write r v b : r ≠ GPIO_REG_GPCLR0 ∨ Z.testbit v rstp = false → lcd_of (mmio_write r v b) = lcd_pins dcp r v (lcd_of b);
  lcd_reset v b : Z.testbit v rstp = true → ∃ l, length l = Z.to_nat 504 ∧
    lcd_of (mmio_write GPIO_REG_GPCLR0 v b) = Lcd l 0 0 false false (dc_high (lcd_pins dcp GPIO_REG_GPCLR0 v (lcd_of b))) true 0;
  lcd_xmit_byte c b : 0 ≤ c < 256 → ∃ out b', spi_xmit_byte dev c b = Ret ((ERR_OK, out), b') ∧ lcd_of b' = lcd_byte (lcd_of b) c;
  lcd_xmit l b : bytes l → ∃ out b', spi_xmit dev l b = Ret ((ERR_OK, out), b') ∧ lcd_of b' = foldl lcd_byte (lcd_of b) l }.

(** A screen of data from the first address on. *)
Lemma lcd_fill l : ∀ d P R, ram d = P ++ R → length l = length R → l ≠ [] → Z.of_nat (length (P ++ R)) = 504 →
  lx d + 84 * ly d = Z.of_nat (length P) → 0 ≤ lx d < 84 → 0 ≤ ly d → vert d = false → dc_high d = true →
  foldl lcd_byte d l = Lcd (P ++ l) 0 0 (ext d) false true (asleep d) (display d).
Proof.
  induction l as [|c l IH]; intros d P R HR Hl Hne Hn HP Hx Hy Hv Hdc; [done|]. destruct R as [|r R]; [done|]. injection Hl as Hl.
  rewrite length_app in Hn. cbn [length] in Hn. cbn [foldl]. unfold lcd_byte at 2. rewrite Hdc. unfold lcd_data. rewrite Hv, HR, HP, Nat2Z.id, insert_app_r_alt, Nat.sub_diag by lia.
  cbn [list_insert]. rewrite Hdc. destruct l as [|c' l].
  - destruct R; [|done]. cbn [length] in Hn. assert (lx d = 83 ∧ ly d = 5) as [-> ->] by lia. done.
  - assert (length (c' :: l) ≠ 0%nat) by done. change (<[0%nat := c]> (r :: R)) with (c :: R).
    replace (P ++ c :: c' :: l) with ((P ++ [c]) ++ c' :: l) by (by rewrite <- app_assoc).
    destruct (Z.eqb_spec (lx d) 83) as [E83|E83]; [destruct (Z.eqb_spec (ly d) 5); [lia|]|];
      (rewrite (IH _ (P ++ [c]) R); cbn [ram lx ly ext vert dc_high asleep display]; [done|by rewrite <- app_assoc|done|done|rewrite !length_app; cbn; lia|rewrite length_app; cbn; lia|lia|lia|done|done]).
Qed.

(** ** What the driver does to the display *)
Section display.
Context {B : Type} `{Mmio B} `{!SpiBus B} (dev dcp rstp : Z) `{!Pcd8544 B dev dcp rstp}.
Context (Hdc : 0 ≤ dcp < 32) (Hrst : 0 ≤ rstp < 32) (Hne : dcp ≠ rstp).
Implicit Types s : nokia_drv B.

Definition shown s : lcd := lcd_of (nbus s).
Definition bus_only s s' : Prop := s' = NokiaDrv (nbus s') (npins s) (ndev s) (nokia5110_font s) (nokia5110_canvas_control s).
Definition with_dc (l : lcd) (v : bool) : lcd := Lcd (ram l) (lx l) (ly l) (ext l) (vert l) v (asleep l) (display l).

Lemma bus_only_trans s1 s2 s3 : bus_only s1 s2 → bus_only s2 s3 → bus_only s1 s3.
Proof. unfold bus_only. intros -> ->. done. Qed.

Lemma on_bus_ret {A A'} (m : io B A) (f : A → io (nokia_drv B) A') s a b (Q : outcome (A' * nokia_drv B) → Prop) : m (nbus s) = Ret (a, b) →
  (∀ s', bus_only s s' → nbus s' = b → Q (f a s')) → Q ((on_bus m ≫= f) s).
Proof. intros E HQ. unfold mbind, io_bind, on_bus. rewrite E. cbn [mbind outcome_bind]. by apply HQ. Qed.

(** A level on a pin other than a reset. *)
Lemma set_level p (v : bool) s k (Q : outcome (Z * nokia_drv B) → Prop) : 0 ≤ p < 32 → p ≠ rstp ∨ v = true →
  (∀ s', bus_only s s' → shown s' = (if p =? dcp then with_dc (shown s) v else shown s) → Q (k s')) →
  Q (ret_if_err (on_bus ((if v then gpio_set_on else gpio_set_off) p)) k s).
Proof.
  intros Hp Hv HQ. unfold ret_if_err. set (r := if v then GPIO_REG_GPSET0 else GPIO_REG_GPCLR0).
  apply (on_bus_ret _ _ _ ERR_OK (mmio_write r (2 ^ p) (nbus s))).
  - unfold r. destruct v; unfold gpio_set_on, gpio_set_off, GPIO_32PIN_SET_CHEKCED, checked, GPIO_MAX_PIN_IDX; zdec;
      rewrite Z.div_small, Z.mod_small, Z.mul_0_r, Z.add_0_r, Z.shiftl_1_l by lia; rewrite write_reg_bind, u32_id; try done;
      (split; [lia|apply Z.pow_lt_mono_r; lia]).
  - intros s' Hs' Hb. apply HQ; [done|]. unfold shown. rewrite Hb, lcd_write.
    + unfold lcd_pins, with_dc. rewrite Z.pow2_bits_eqb by lia. unfold r. destruct v, (Z.eqb_spec p dcp); cbn [andb]; by destruct (lcd_of (nbus s)).
    + rewrite Z.pow2_bits_eqb by lia. destruct Hv as [Hv| ->]; [right; by apply Z.eqb_neq|by left].
Qed.

Lemma send_cmd d c k s (Q : outcome (Z * nokia_drv B) → Prop) : dc d = dcp → spi d = dev → 0 ≤ c < 256 →
  (∀ s', bus_only s s' → shown s' = lcd_command (with_dc (shown s) false) c → Q (k s')) → Q (SEND_CMD d c k s).
Proof.
  intros Ed Es Hc HQ. unfold SEND_CMD. rewrite Ed. apply (set_level dcp false); [done|by left|]. intros s1 H1 E1. rewrite Z.eqb_refl in E1.
  destruct (lcd_xmit_byte c (nbus s1) Hc) as (out & b & E & Eb). unfold ret_if_err, send_byte. rewrite Es, u8_id by lia.
  rewrite (io_bind_ret _ _ _ ERR_OK (NokiaDrv b (npins s1) (ndev s1) (nokia5110_font s1) (nokia5110_canvas_control s1))).
  - cbn [truth negb Z.eqb ERR_OK]. apply HQ; [by eapply bus_only_trans|]. unfold shown in E1 |- *. cbn [nbus]. by rewrite Eb, E1.
  - unfold on_bus, mbind, io_bind. by rewrite E.
Qed.

Definition attached s : Prop := ∃ h, ndev s = Some (NokiaDev dev dcp rstp h).

Lemma attached_bus s s' : attached s → bus_only s s' → attached s'.
Proof. unfold bus_only. intros Hs ->. done. Qed.

(** In the basic instruction set. *)
Lemma set_cursor_moves x y s (Q : outcome (Z * nokia_drv B) → Prop) : attached s → ext (shown s) = false → 0 ≤ x < 84 → 0 ≤ y < 6 →
  (∀ s', bus_only s s' → shown s' = Lcd (ram (shown s)) x y false (vert (shown s)) false (asleep (shown s)) (display (shown s)) → Q (Ret (ERR_OK, s'))) → Q (nokia5110_set_cursor x y s).
Proof.
  intros [h Hd] He Hx Hy HQ. unfold nokia5110_set_cursor, checked_func, NOKIA5110_ROW_MAX, NOKIA5110_COLUMN_MAX. rewrite Hd. zdec.
  assert (Z.lor 0x40 y = 0x40 + y) as ->.
  { assert (y = 0 ∨ y = 1 ∨ y = 2 ∨ y = 3 ∨ y = 4 ∨ y = 5) as Hy' by lia. by destruct_or! Hy'; subst. }
  assert (Z.lor 0x80 x = 0x80 + x) as ->.
  { pose proof (shiftl_lor_add 1 x 7 ltac:(lia) ltac:(lia)) as E. exact E. }
  apply send_cmd; [done|done|lia|]. intros s1 H1 E1. apply send_cmd; [done|done|lia|]. intros s2 H2 E2. apply HQ; [by eapply bus_only_trans|].
  rewrite E2, E1. unfold lcd_command, with_dc. cbn [ram lx ly ext vert dc_high asleep display]. rewrite He. zdec. cbn [ram lx ly ext vert dc_high asleep display]. f_equal; lia.
Qed.

Lemma send_data_fills data s (Q : outcome (Z * nokia_drv B) → Prop) : attached s → bytes data → length data = Z.to_nat 504 → length (ram (shown s)) = Z.to_nat 504 →
  lx (shown s) = 0 → ly (shown s) = 0 → vert (shown s) = false →
  (∀ s', bus_only s s' → shown s' = Lcd data 0 0 (ext (shown s)) false true (asleep (shown s)) (display (shown s)) → Q (Ret (ERR_OK, s'))) → Q (nokia5110_send_data data s).
Proof.
  intros [h Hd] Hb Hl Hr Hx Hy Hv HQ. unfold nokia5110_send_data, with_dev. rewrite Hd. cbn [dc].
  pose proof (set_level dcp true s (send_bytes (NokiaDev dev dcp rstp h) data) Q Hdc ltac:(by right)) as Hs. rewrite Z.eqb_refl in Hs.
  unfold ret_if_err in Hs. cbn [dc spi].
  assert (∀ m, (on_bus (gpio_set_on dcp) ≫= λ err, if truth err then mret err else m) s = (on_bus (gpio_set_on dcp) ≫= λ _, m) s) as Eq.
  { intros m. unfold mbind, io_bind, on_bus, gpio_set_on, GPIO_32PIN_SET_CHEKCED, checked, GPIO_MAX_PIN_IDX. by zdec. }
  rewrite <- Eq. apply Hs. intros s1 H1 E1. destruct (lcd_xmit data (nbus s1) Hb) as (out & b & E & Eb).
  unfold send_bytes, on_bus, mbind, io_bind. cbn [spi]. rewrite E. cbn. apply HQ; [by eapply bus_only_trans|]. unfold shown in *. cbn [nbus].
  rewrite Eb, E1. apply (lcd_fill data (with_dc (lcd_of (nbus s)) true) [] (ram (lcd_of (nbus s)))); cbn; try done; try lia.
  intros ->. done.
Qed.

(** The canvas as it is sent. *)
Lemma redraw_shows s (Q : outcome (Z * nokia_drv B) → Prop) : attached s → ext (shown s) = false → vert (shown s) = false →
  length (ram (shown s)) = Z.to_nat 504 → length (canvas (nokia5110_canvas_control s)) = Z.to_nat 504 → bytes (canvas (nokia5110_canvas_control s)) →
  (∀ s', bus_only s s' → shown s' = Lcd (canvas (nokia5110_canvas_control s)) 0 0 false false true (asleep (shown s)) (display (shown s)) → Q (Ret (ERR_OK, s'))) → Q (nokia5110_canvas_redraw_locked s).
Proof.
  intros Ha He Hv Hr Hl Hb HQ. unfold nokia5110_canvas_redraw_locked.
  enough (∃ s1, nokia5110_set_cursor 0 0 s = Ret (ERR_OK, s1) ∧ bus_only s s1 ∧ shown s1 = Lcd (ram (shown s)) 0 0 false (vert (shown s)) false (asleep (shown s)) (display (shown s))) as (s1 & E & H1 & E1).
  { rewrite (io_bind_ret _ _ _ _ _ E). cbn [truth negb Z.eqb ERR_OK]. erewrite io_bind_ret by done.
    assert (nokia5110_canvas_control s1 = nokia5110_canvas_control s) as Ec by (by rewrite H1).
    rewrite Ec. apply send_data_fills; [by eapply attached_bus|done|done|by rewrite E1|by rewrite E1|by rewrite E1|by rewrite E1|].
    intros s2 H2 E2. apply HQ; [by eapply bus_only_trans|]. by rewrite E2, E1. }
  apply set_cursor_moves; [done|done|lia|lia|]. intros s1 H1 E1. by exists s1.
Qed.

Lemma gpio_set_function_unseen p f s k (Q : outcome (Z * nokia_drv B) → Prop) : 0 ≤ p < 32 →
  (∀ s', bus_only s s' → shown s' = shown s → Q (k s')) → Q (ret_if_err (on_bus (gpio_set_function p f)) k s).
Proof.
  intros Hp HQ. unfold ret_if_err. set (r := GPIO_REG_GPFSEL0 + Z.shiftl (div_by_10 p) 2).
  assert (0 ≤ div_by_10 p < 4) as Hd.
  { unfold div_by_10. rewrite u32_id, Z.shiftr_div_pow2 by lia. split; [apply Z.div_pos; lia|apply Z.div_lt_upper_bound; lia]. }
  assert (r < GPIO_REG_GPSET0) as Hr by (unfold r, GPIO_REG_GPFSEL0, GPIO_REG_GPSET0; rewrite Z.shiftl_mul_pow2; lia).
  assert (∃ v, gpio_set_function p f (nbus s) = Ret (ERR_OK, mmio_write r (u32 v) (snd (mmio_read r (nbus s))))) as [v E].
  { unfold gpio_set_function, checked, GPIO_MAX_PIN_IDX, gpio_read_and_set_3. zdec. fold r. eexists.
    erewrite io_bind_ret; [done|]. rewrite read_reg_bind. done. }
  apply (on_bus_ret _ _ _ _ _ _ E). intros s' Hs' Hb. apply HQ; [done|]. unfold shown. rewrite Hb, lcd_write.
  - unfold lcd_pins. destruct (Z.eqb_spec r GPIO_REG_GPSET0); [lia|]. destruct (Z.eqb_spec r GPIO_REG_GPCLR0); [unfold GPIO_REG_GPSET0, GPIO_REG_GPCLR0 in *; lia|].
    cbn [andb]. rewrite lcd_read. by destruct (lcd_of (nbus s)).
  - left. unfold GPIO_REG_GPSET0, GPIO_REG_GPCLR0 in *. lia.
Qed.

Lemma reset_clears s k (Q : outcome (Z * nokia_drv B) → Prop) : attached s → dc_high (shown s) = false →
  (∀ s' l, bus_only s s' → length l = Z.to_nat 504 → shown s' = Lcd l 0 0 false false false true 0 → Q (k s')) → Q (ret_if_err nokia5110_reset k s).
Proof.
  intros [h Hd] Hl HQ. destruct (lcd_reset (2 ^ rstp) (nbus s)) as (l & Hlen & El); [by rewrite Z.pow2_bits_eqb, Z.eqb_refl by lia|].
  set (s1 := NokiaDrv (mmio_write GPIO_REG_GPCLR0 (2 ^ rstp) (nbus s)) (npins s) (ndev s) (nokia5110_font s) (nokia5110_canvas_control s)).
  assert (on_bus (gpio_set_off rstp) s = Ret (ERR_OK, s1)) as E1.
  { unfold on_bus, gpio_set_off, GPIO_32PIN_SET_CHEKCED, checked, GPIO_MAX_PIN_IDX. zdec.
    rewrite Z.div_small, Z.mod_small, Z.mul_0_r, Z.add_0_r, Z.shiftl_1_l, write_reg_bind, u32_id by (lia || (split; [lia|apply Z.pow_lt_mono_r; lia])). done. }
  assert (dc_high (lcd_pins dcp GPIO_REG_GPCLR0 (2 ^ rstp) (lcd_of (nbus s))) = false) as Ed.
  { unfold lcd_pins. cbn [dc_high]. rewrite Z.pow2_bits_eqb, (proj2 (Z.eqb_neq rstp dcp)), !andb_false_r by lia. exact Hl. }
  enough (∃ s2, nokia5110_reset s = Ret (ERR_OK, s2) ∧ bus_only s s2 ∧ shown s2 = Lcd l 0 0 false false false true 0) as (s2 & E2 & H2 & El2).
  { unfold ret_if_err. rewrite (io_bind_ret _ _ _ _ _ E2). cbn [truth negb Z.eqb ERR_OK]. by apply (HQ s2 l). }
  unfold nokia5110_reset, checked_func. rewrite Hd. cbn [rst]. unfold ret_if_err at 1. rewrite (io_bind_ret _ _ _ _ _ E1). cbn [truth negb Z.eqb ERR_OK].
  apply (set_level rstp true s1); [done|by right|]. intros s2 H2 E2. exists s2. split; [done|]. split; [exact H2|].
  rewrite E2, (proj2 (Z.eqb_neq rstp dcp)) by lia. unfold shown, s1. cbn [nbus]. by rewrite El, Ed.
Qed.

(** The display in use: its instruction set and addressing are the basic ones. *)
Definition display_ready s : Prop := attached s ∧ ext (shown s) = false ∧ vert (shown s) = false ∧ length (ram (shown s)) = Z.to_nat 504 ∧
  asleep (shown s) = false ∧ display (shown s) = 4.

Lemma init_ready s g h function_flags display_mode : gpio_set_request_n_pins (npins s) [rstp; dcp] nokia5110_gpio_set_key = Ret (g, h) →
  h ≠ GPIO_SET_INVALID_HANDLE → dev ≠ 0 → ∃ s', nokia5110_init dev rstp dcp function_flags display_mode s = Ret (ERR_OK, s') ∧
    display_ready s' ∧ nokia5110_canvas_control s' = nokia5110_canvas_control s.
Proof.
  intros Eg Hh Hdev. unfold nokia5110_init. destruct (Z.eqb_spec dev 0); [done|].
  set (s0 := NokiaDrv (nbus s) g (ndev s) (nokia5110_font s) (nokia5110_canvas_control s)).
  rewrite (io_bind_ret _ _ _ h s0) by (unfold request_rst_dc; by rewrite Eg). destruct (Z.eqb_spec h GPIO_SET_INVALID_HANDLE); [done|].
  apply gpio_set_function_unseen; [done|]. intros s1 H1 E1. apply gpio_set_function_unseen; [done|]. intros s2 H2 E2.
  cbv zeta. erewrite io_bind_ret by done. set (s3 := NokiaDrv (nbus s2) (npins s2) _ _ _).
  assert (nokia5110_canvas_control s3 = nokia5110_canvas_control s) as C3 by (cbn; rewrite H2; cbn; by rewrite H1).
  assert (attached s3) as A3 by (by eexists). clearbody s3. clear s0 s1 H1 E1 s2 H2 E2.
  apply (set_level rstp true); [done|by right|]. intros s4 H4 _. apply (set_level dcp false); [done|by left|]. intros s5 H5 E5. rewrite Z.eqb_refl in E5.
  assert (bus_only s3 s5) as H35 by (by eapply bus_only_trans).
  apply reset_clears; [by eapply attached_bus|by rewrite E5|]. intros s6 l H6 Hl E6.
  apply send_cmd; [done|done|by vm_compute|]. intros s7 H7 E7. apply send_cmd; [done|done|by vm_compute|]. intros s8 H8 E8.
  apply send_cmd; [done|done|by vm_compute|]. intros s9 H9 E9. apply send_cmd; [done|done|by vm_compute|]. intros s10 H10 E10.
  apply send_cmd; [done|done|by vm_compute|]. intros s11 H11 E11. apply send_cmd; [done|done|by vm_compute|]. intros s12 H12 E12.
  assert (shown s12 = Lcd l 0 0 false false false false 4) as F12 by (rewrite E12, E11, E10, E9, E8, E7, E6; reflexivity).
  assert (bus_only s3 s12) as H312 by (repeat (eapply bus_only_trans; [eassumption|]); unfold bus_only; by destruct s12).
  enough (∃ s13, nokia5110_set_cursor 0 0 s12 = Ret (ERR_OK, s13) ∧ bus_only s12 s13 ∧ shown s13 = Lcd l 0 0 false false false false 4) as (s13 & E & H13 & E13).
  { unfold ret_if_err. rewrite (io_bind_ret _ _ _ _ _ E). cbn [truth negb Z.eqb ERR_OK]. eexists. split; [done|].
    assert (bus_only s3 s13) as H313 by (by eapply bus_only_trans). assert (attached s13) as A13 by (by eapply attached_bus).
    split; [split; [exact A13|]; unfold shown in *; cbn [nbus]; by rewrite E13|]. cbn. by rewrite H313. }
  apply set_cursor_moves; [by eapply attached_bus|by rewrite F12|lia|lia|]. intros s13 H13 E13. exists s13. by rewrite E13, F12.
Qed.

(** ** Text *)

(** Characters of the font, and what a text leaves on the canvas. *)
Definition in_font (f : font_desc) (ch : Z) : Prop := 0 < ch < 256 ∧ ∃ gm, font_get_glyph_metrics f ch = Ret gm ∧ glyph_ok f gm.
Definition draw_step (f : font_desc) (c : canvas_control) (ch : Z) : canvas_control :=
  match font_get_glyph_metrics f ch with Ret gm => draw_char_spec f c gm | _ => c end.
(** The console moves the cursor at a line feed and a carriage return. *)
Definition console_step (f : font_desc) (c : canvas_control) (ch : Z) : canvas_control :=
  if ch =? 10 then CanvasControl (canvas c) (cursor_x c) (if 48 <=? cursor_y c + 1 then 0 else cursor_y c + 1) (font c)
  else if ch =? 13 then CanvasControl (canvas c) 0 (cursor_y c) (font c)
  else draw_step f c ch.

(** The canvas [c], in use with the font [f] on a ready display. *)
Definition in_use (f : font_desc) (c : canvas_control) s : Prop :=
  display_ready s ∧ canvas_ok c ∧ font c = Some f ∧ nokia5110_canvas_control s = c ∧ nokia5110_font s = Some f.

Lemma draw_step_ok f c ch : canvas_ok c → font c = Some f → in_font f ch →
  nokia5110_canvas_draw_char c ch = Ret (draw_step f c ch) ∧ canvas_ok (draw_step f c ch) ∧ font (draw_step f c ch) = Some f.
Proof.
  intros Hc Hf (_ & gm & Egm & Hg). unfold draw_step. rewrite Egm. destruct (draw_char_draws f c ch gm Hc Hf Egm Hg) as [E Hok].
  split; [done|]. split; [done|]. unfold draw_char_spec. by destruct (char_place _ _).
Qed.

Lemma draw_on_canvas_ok f c ch s : in_use f c s → in_font f ch → ∃ s', draw_on_canvas ch s = Ret (tt, s') ∧ in_use f (draw_step f c ch) s' ∧ shown s' = shown s.
Proof.
  intros (Hr & Hc & Hf & Ec & En) Hch. destruct (draw_step_ok f c ch Hc Hf Hch) as (E & Hok & Hf').
  eexists. split; [unfold draw_on_canvas, on_canvas; rewrite Ec, E; done|]. split; [|done]. split; [exact Hr|]. done.
Qed.

Lemma draw_text_loop_ok f text : ∀ c s, in_use f c s → Forall (in_font f) text →
  ∃ s', draw_text_loop (text ++ [0]) s = Ret (tt, s') ∧ in_use f (foldl (draw_step f) c text) s'.
Proof.
  induction text as [|ch text IH]; intros c s Hs Ht; [by exists s|]. apply Forall_cons in Ht as [Hch Ht].
  destruct (draw_on_canvas_ok f c ch s Hs Hch) as (s1 & E1 & H1 & _). destruct (IH _ s1 H1 Ht) as (s2 & E2 & H2). exists s2. split; [|done].
  cbn [app draw_text_loop]. destruct Hch as [Hch _]. destruct (Z.eqb_spec ch 0); [lia|]. by rewrite (io_bind_ret _ _ _ _ _ E1).
Qed.

Lemma redraw_in_use f c s : in_use f c s → ∃ s', nokia5110_canvas_redraw_locked s = Ret (ERR_OK, s') ∧ in_use f c s' ∧ ram (shown s') = canvas c.
Proof.
  intros ((Ha & He & Hv & Hl & Hs & Hm) & Hc & Hf & Ec & En).
  apply redraw_shows; [done|done|done|done|rewrite Ec; apply (co_size _ Hc)|rewrite Ec; apply (co_bytes _ Hc)|].
  intros s' H' E'. exists s'. split; [done|]. rewrite Ec in E'.
  split; [|by rewrite E']. split; [|split_and!; [done|done|by rewrite H'|by rewrite H']].
  split; [by eapply attached_bus|]. rewrite E'. split_and!; [done|done|apply (co_size _ Hc)|done|done].
Qed.

Lemma putc_ok f c ch s : in_use f c s → ram (shown s) = canvas c → ch = 10 ∨ ch = 13 ∨ in_font f ch →
  ∃ s', nokia5110_putc ch s = Ret (ERR_OK, s') ∧ in_use f (console_step f c ch) s' ∧ ram (shown s') = canvas (console_step f c ch).
Proof.
  intros Hs Hram Hch. pose proof Hs as (Hr & Hc & Hf & Ec & En). unfold nokia5110_putc, console_step. pose proof Hc as [C1 C2 C3 C4].
  destruct (Z.eqb_spec ch 10) as [->|N10]; [|destruct (Z.eqb_spec ch 13) as [->|N13]].
  - unfold nokia5110_term_new_line. eexists. split; [unfold mbind, io_bind, nokia5110_canvas_get_cursor, nokia5110_canvas_set_cursor, on_canvas; cbn; done|].
    rewrite Ec. unfold __nokia5110_canvas_set_cursor, NOKIA5110_WIDTH, NOKIA5110_HEIGHT.
    rewrite (proj2 (Z.eqb_neq (cursor_x c) (-1))), (proj2 (Z.leb_gt 84 (cursor_x c))) by lia. cbn [andb].
    split; [|exact Hram]. split; [exact Hr|]. split; [split; cbn; [done|done|done|zcases; lia]|done].
  - unfold nokia5110_term_carriage_return. eexists. split; [unfold mbind, io_bind, nokia5110_canvas_get_cursor, nokia5110_canvas_set_cursor, on_canvas; cbn; done|].
    rewrite Ec. unfold __nokia5110_canvas_set_cursor, NOKIA5110_WIDTH, NOKIA5110_HEIGHT.
    change (0 =? -1) with false. change (84 <=? 0) with false. rewrite (proj2 (Z.leb_gt 48 (cursor_y c))) by lia. cbn [andb].
    split; [|exact Hram]. split; [exact Hr|]. split; [split; cbn; [done|done|lia|done]|done].
  - destruct Hch as [?|[?|Hch]]; [done|done|]. destruct (draw_on_canvas_ok f c ch s Hs Hch) as (s1 & E1 & H1 & _).
    destruct (redraw_in_use _ _ _ H1) as (s2 & E2 & H2 & R2). exists s2. split; [|done]. unfold nokia5110_draw_char. by rewrite (io_bind_ret _ _ _ _ _ E1).
Qed.

Lemma puts_ok f str : ∀ c s, in_use f c s → ram (shown s) = canvas c → Forall (λ ch, ch = 10 ∨ ch = 13 ∨ in_font f ch) str →
  ∃ s', nokia5110_puts (str ++ [0]) s = Ret (ERR_OK, s') ∧ in_use f (foldl (console_step f) c str) s' ∧ ram (shown s') = canvas (foldl (console_step f) c str).
Proof.
  induction str as [|ch str IH]; intros c s Hs Hram Ht; [by exists s|]. apply Forall_cons in Ht as [Hch Ht].
  destruct (putc_ok f c ch s Hs Hram Hch) as (s1 & E1 & H1 & R1). destruct (IH _ s1 H1 R1 Ht) as (s2 & E2 & H2 & R2). exists s2. split; [|done].
  cbn [app nokia5110_puts]. assert (ch ≠ 0) by (destruct Hch as [->|[->|[? _]]]; lia). destruct (Z.eqb_spec ch 0); [done|].
  rewrite (io_bind_ret _ _ _ _ _ E1). exact E2.
Qed.

Lemma shows_text s g h f text str :
  gpio_set_request_n_pins (npins s) [rstp; dcp] nokia5110_gpio_set_key = Ret (g, h) → h ≠ GPIO_SET_INVALID_HANDLE → dev ≠ 0 →
  canvas_ok (nokia5110_canvas_control s) → Forall (in_font f) text → Forall (λ ch, ch = 10 ∨ ch = 13 ∨ in_font f ch) str →
  let c := nokia5110_canvas_control s in
  let c' := foldl (console_step f) (foldl (draw_step f) (CanvasControl (canvas c) (cursor_x c) (cursor_y c) (Some f)) text) str in
  ∃ s', ret_if_err (nokia5110_init dev rstp dcp 0 1)
      (_ ← nokia5110_set_font f; ret_if_err (nokia5110_draw_text (text ++ [0]) (cursor_x c) (cursor_y c)) (nokia5110_puts (str ++ [0]))) s = Ret (ERR_OK, s') ∧
    nokia5110_canvas_control s' = c' ∧ canvas_ok c' ∧ ram (lcd_of (nbus s')) = canvas c' ∧
    asleep (lcd_of (nbus s')) = false ∧ display (lcd_of (nbus s')) = 4.
Proof.
  intros Eg Hh Hdev Hc Ht Hstr c. destruct (init_ready s g h 0 1 Eg Hh Hdev) as (s1 & E1 & Hr1 & C1).
  unfold ret_if_err at 1. rewrite (io_bind_ret _ _ _ _ _ E1). cbn [truth negb Z.eqb ERR_OK].
  set (c0 := CanvasControl (canvas c) (cursor_x c) (cursor_y c) (Some f)).
  set (s2 := NokiaDrv (nbus s1) (npins s1) (ndev s1) (Some f) c0).
  rewrite (io_bind_ret _ _ _ tt s2) by (unfold s2, c0, c; by rewrite <- C1).
  assert (in_use f c0 s2) as H2 by (split; [exact Hr1|]; split; [by destruct Hc|done]).
  destruct (draw_text_loop_ok f text c0 s2 H2 Ht) as (s3 & E3 & H3). destruct (redraw_in_use _ _ _ H3) as (s4 & E4 & H4 & R4).
  destruct (puts_ok f str _ s4 H4 R4 Hstr) as (s5 & E5 & ((_ & _ & _ & _ & Hs5 & Hm5) & Hc5 & _ & Ec5 & _) & R5). exists s5. split; [|done].
  unfold ret_if_err. rewrite (io_bind_ret _ _ _ ERR_OK s4).
  - cbn [truth negb Z.eqb ERR_OK]. exact E5.
  - unfold nokia5110_draw_text. erewrite io_bind_ret by done. cbn [nokia5110_font s2]. rewrite bool_decide_eq_true_2 by (by eexists). cbn [negb].
    rewrite (io_bind_ret _ _ _ _ _ E3). exact E4.
Qed.
(** A character of the font whose glyph has no advance. *)
Definition flush (f : font_desc) (ch : Z) : Prop := in_font f ch ∧ ∀ gm, font_get_glyph_metrics f ch = Ret gm → advance_x gm = 0.

(** A line feed goes one pixel down, not one row of eight. *)
Lemma line_feed_one_pixel f c s : in_use f c s → ram (shown s) = canvas c → cursor_y c + 1 < 48 →
  ∃ s', nokia5110_putc 10 s = Ret (ERR_OK, s') ∧
    in_use f (CanvasControl (canvas c) (cursor_x c) (cursor_y c + 1) (font c)) s' ∧ ram (shown s') = canvas c.
Proof.
  intros Hs Hram Hy. destruct (putc_ok f c 10 s Hs Hram ltac:(auto)) as (s' & E & H' & R').
  exists s'. revert H' R'. unfold console_step. cbn [Z.eqb Pos.eqb canvas].
  destruct (Z.leb_spec 48 (cursor_y c + 1)); [lia|]. auto.
Qed.

End display.

(** ** A display alone on its bus, and a font of one picture *)
Module nokia_witness.
#[local] Instance panel_mmio : Mmio lcd := {|
  mmio_read r l := (0, l);
  mmio_write r v l := if (r =? GPIO_REG_GPCLR0) && Z.testbit v 24
    then Lcd (replicate (Z.to_nat 504) 0x55) 0 0 false false (dc_high (lcd_pins 23 r v l)) true 0 else lcd_pins 23 r v l |}.
#[local] Instance panel_bus : SpiBus lcd := {|
  spi_xmit dev bs := λ l, Ret ((ERR_OK, []), foldl lcd_byte l bs);
  spi_xmit_byte dev c := λ l, Ret ((ERR_OK, 0), lcd_byte l c) |}.
#[local] Instance panel : Pcd8544 lcd 1 23 24.
Proof.
  refine {| lcd_of l := l |}; [done| | | |].
  - intros r v b Hr. cbn [mmio_write panel_mmio]. destruct (Z.eqb_spec r GPIO_REG_GPCLR0) as [->|]; [|done]. destruct Hr as [|Hr]; [done|]. by rewrite Hr.
  - intros v b Hv. cbn [mmio_write panel_mmio]. rewrite Z.eqb_refl, Hv. cbn [andb]. exists (replicate (Z.to_nat 504) 0x55). split; [by rewrite length_replicate|done].
  - intros c b _. by exists 0, (lcd_byte b c).
  - intros l b _. by exists [], (foldl lcd_byte b l).
Defined.

(** Three columns of five rows after a blank column. *)
Definition metrics : glyph_metrics := GlyphMetrics 0 7 3 5 1 1 0 0.
Definition font0 : font_desc := FontDesc [0; 0; 0; 2; 5; 7; 5; 5] (replicate 96 metrics) 1.
Definition canvas0 : canvas_control := CanvasControl (replicate (Z.to_nat 504) 0) 0 0 None.
Definition drv0 : nokia_drv lcd := NokiaDrv (Lcd (replicate (Z.to_nat 504) 0xff) 7 3 true true true true 3) (fst (gpio_set_init gpio_boot)) None None canvas0.

Lemma font0_ok ch : ch = 65 ∨ ch = 66 → flush font0 ch.
Proof.
  intros Hch. split; [|destruct Hch as [-> | ->]; by intros gm [= <-]]. split; [lia|]. exists metrics. split; [by destruct Hch as [-> | ->]|].
  split; [done|done|done|by vm_compute|done|done|]. intros gy Hgy. change (glyph_metrics_get_offset font0 metrics) with 3. cbn in Hgy |- *. lia.
Qed.

End nokia_witness.
