(* ===== verification/Vchiq.v ===== *)
(** * Message queues to the VideoCore (board/bcm2835/vchiq/vchiq_2835_arm.c)

    Two processors share a memory of slots of 4096 bytes.  Each side has a
    shared state with the position of its next message and a circular queue of
    slot indices; the other side reads the messages and puts a slot it is done
    with back into that queue.  The model has the slots as bytes, the shared
    states and the private state as records; the wait flags and the semaphore
    are those of Sched.v and Semaphore.v, and what a service does with a
    message is a parameter. *)

From S2P Require Import Prelude Lists Exceptions Sched Semaphore.

(** ** Messages *)
Definition VCHIQ_SLOT_SIZE : Z := 4096.
Definition VCHIQ_SLOT_MASK : Z := VCHIQ_SLOT_SIZE - 1.
Definition VCHIQ_MAX_SLOTS_PER_SIDE : Z := 64.
Definition VCHIQ_SLOT_QUEUE_MASK : Z := VCHIQ_MAX_SLOTS_PER_SIDE - 1.
Definition VCHIQ_MSG_PADDING : Z := 0.
Definition VCHIQ_MSG_CONNECT : Z := 1.
Definition VCHIQ_MSG_OPEN : Z := 2.
Definition VCHIQ_MSG_OPENACK : Z := 3.
Definition VCHIQ_MSG_DATA : Z := 5.
Definition VCHIQ_MAKE_MSG (type srcport dstport : Z) : Z := Z.lor (Z.lor (Z.shiftl type 24) (Z.shiftl srcport 12)) (Z.shiftl dstport 0).
Definition VCHIQ_MSG_TYPE (msgid : Z) : Z := Z.shiftr (u32 msgid) 24.
Definition VCHIQ_MSG_SRCPORT (msgid : Z) : Z := Z.land (Z.shiftr (u32 msgid) 12) 0xfff.
Definition VCHIQ_MSG_DSTPORT (msgid : Z) : Z := Z.land (u16 msgid) 0xfff.
Definition VCHIQ_MSGID_PADDING : Z := VCHIQ_MAKE_MSG VCHIQ_MSG_PADDING 0 0.
Definition VCHIQ_CONNSTATE_DISCONNECTED : Z := 0.
Definition VCHIQ_CONNSTATE_CONNECTED : Z := 2.
Definition ERR_GENERIC : Z := -9.

(** [struct vchiq_header_struct]: an identifier and a size, then the data. *)
Definition sizeof_header : Z := 8.
Definition header_msgid (m : mem) (h : Z) : outcome Z := load_le 4 m h.
Definition header_size (m : mem) (h : Z) : outcome Z := load_le 4 m (h + 4).

Definition vchiq_calc_stride (size : Z) : Z :=
  let size := s32 (size + sizeof_header) in
  s32 (Z.land (size + sizeof_header - 1) (Z.lnot (sizeof_header - 1))).

(** [memcpy] from a C object whose bytes are [l]. *)
Fixpoint copy_in (m : mem) (p : Z) (l : list Z) : outcome mem :=
  match l with [] => Ret m | b :: l => m ← store8 m p b; copy_in m (p + 1) l end.

(** ** The state of a side *)
Record remote_event := RemoteEvent { armed : Z; fired : Z }.

(** [struct vchiq_shared_state_struct]; the address an event stands for is
    read by nobody here. *)
Record shared_state := SharedState {
  initialised : Z; slot_first : Z; slot_last : Z; slot_sync : Z;
  trigger : remote_event; tx_pos : Z; recycle : remote_event; slot_queue_recycle : Z;
  sync_trigger : remote_event; sync_release : remote_event; slot_queue : list Z }.

Definition set_trigger (x : shared_state) (e : remote_event) : shared_state :=
  SharedState (initialised x) (slot_first x) (slot_last x) (slot_sync x) e (tx_pos x) (recycle x) (slot_queue_recycle x) (sync_trigger x) (sync_release x) (slot_queue x).
Definition set_recycle (x : shared_state) (e : remote_event) : shared_state :=
  SharedState (initialised x) (slot_first x) (slot_last x) (slot_sync x) (trigger x) (tx_pos x) e (slot_queue_recycle x) (sync_trigger x) (sync_release x) (slot_queue x).
Definition set_tx_pos (x : shared_state) (v : Z) : shared_state :=
  SharedState (initialised x) (slot_first x) (slot_last x) (slot_sync x) (trigger x) v (recycle x) (slot_queue_recycle x) (sync_trigger x) (sync_release x) (slot_queue x).
Definition set_queue (x : shared_state) (r : Z) (q : list Z) : shared_state :=
  SharedState (initialised x) (slot_first x) (slot_last x) (slot_sync x) (trigger x) (tx_pos x) (recycle x) r (sync_trigger x) (sync_release x) q.

(** [struct vchiq_service_common]; the state it points to is the one there is. *)
Record service := Service { fourcc : Z; opened : bool; remoteport : Z; localport : Z; data_callback : Z }.

(** The addresses of the wait flags of [vchiq_state]. *)
Record waitflags := WaitFlags {
  trigger_waitflag : Z; recycle_waitflag : Z; sync_trigger_waitflag : Z; sync_release_waitflag : Z; state_waitflag : Z }.

(** [struct vchiq_state_struct] with the slots, both shared states, the service
    map (NULL for a free entry), the services at their addresses, the kernel
    and the state [C] of the services' clients; [rings] counts the writes to
    the doorbell of the other side. *)
Record vchiq_state (C : Type) := VState {
  vmem : mem; slot_data : Z; local : shared_state; remote : shared_state;
  local_tx_pos : Z; rx_pos : Z; slot_queue_available : Z; conn_state : Z;
  slot_available_event : semaphore; slot_waiters : gmap Z semaphore_waiter;
  vflags : waitflags; vker : kernel; rings : Z;
  service_map : list Z; services : gmap Z service; client : C }.
Arguments VState {C}. Arguments vmem {C}. Arguments slot_data {C}. Arguments local {C}. Arguments remote {C}.
Arguments local_tx_pos {C}. Arguments rx_pos {C}. Arguments slot_queue_available {C}. Arguments conn_state {C}.
Arguments slot_available_event {C}. Arguments slot_waiters {C}. Arguments vflags {C}. Arguments vker {C}. Arguments rings {C}.
Arguments service_map {C}. Arguments services {C}. Arguments client {C}.

(** What the data callback [fn] of a service does with the message at [h]. *)
Class VchiqClient (C : Type) : Type := {
  on_data : Z → Z → mem → Z → kernel * C → outcome (kernel * C) }.

Section vchiq.
Context {C : Type} `{VchiqClient C}.
Abbreviation S := (vchiq_state C).
Implicit Types (s : S) (m : mem).

Definition with_mem s m : S := VState m (slot_data s) (local s) (remote s) (local_tx_pos s) (rx_pos s) (slot_queue_available s)
  (conn_state s) (slot_available_event s) (slot_waiters s) (vflags s) (vker s) (rings s) (service_map s) (services s) (client s).
Definition with_local s x : S := VState (vmem s) (slot_data s) x (remote s) (local_tx_pos s) (rx_pos s) (slot_queue_available s)
  (conn_state s) (slot_available_event s) (slot_waiters s) (vflags s) (vker s) (rings s) (service_map s) (services s) (client s).
Definition with_remote s x : S := VState (vmem s) (slot_data s) (local s) x (local_tx_pos s) (rx_pos s) (slot_queue_available s)
  (conn_state s) (slot_available_event s) (slot_waiters s) (vflags s) (vker s) (rings s) (service_map s) (services s) (client s).
Definition with_local_tx_pos s v : S := VState (vmem s) (slot_data s) (local s) (remote s) v (rx_pos s) (slot_queue_available s)
  (conn_state s) (slot_available_event s) (slot_waiters s) (vflags s) (vker s) (rings s) (service_map s) (services s) (client s).
Definition with_rx_pos s v : S := VState (vmem s) (slot_data s) (local s) (remote s) (local_tx_pos s) v (slot_queue_available s)
  (conn_state s) (slot_available_event s) (slot_waiters s) (vflags s) (vker s) (rings s) (service_map s) (services s) (client s).
Definition with_available s v : S := VState (vmem s) (slot_data s) (local s) (remote s) (local_tx_pos s) (rx_pos s) v
  (conn_state s) (slot_available_event s) (slot_waiters s) (vflags s) (vker s) (rings s) (service_map s) (services s) (client s).
Definition with_conn_state s v : S := VState (vmem s) (slot_data s) (local s) (remote s) (local_tx_pos s) (rx_pos s) (slot_queue_available s)
  v (slot_available_event s) (slot_waiters s) (vflags s) (vker s) (rings s) (service_map s) (services s) (client s).
Definition with_sem s (x : sem_state) : S := VState (vmem s) (slot_data s) (local s) (remote s) (local_tx_pos s) (rx_pos s) (slot_queue_available s)
  (conn_state s) (sem x) (waiters x) (vflags s) (ker x) (rings s) (service_map s) (services s) (client s).
Definition with_vker s k : S := VState (vmem s) (slot_data s) (local s) (remote s) (local_tx_pos s) (rx_pos s) (slot_queue_available s)
  (conn_state s) (slot_available_event s) (slot_waiters s) (vflags s) k (rings s) (service_map s) (services s) (client s).
Definition with_rings s v : S := VState (vmem s) (slot_data s) (local s) (remote s) (local_tx_pos s) (rx_pos s) (slot_queue_available s)
  (conn_state s) (slot_available_event s) (slot_waiters s) (vflags s) (vker s) v (service_map s) (services s) (client s).
Definition with_services s l x : S := VState (vmem s) (slot_data s) (local s) (remote s) (local_tx_pos s) (rx_pos s) (slot_queue_available s)
  (conn_state s) (slot_available_event s) (slot_waiters s) (vflags s) (vker s) (rings s) l x (client s).
Definition with_client s k c : S := VState (vmem s) (slot_data s) (local s) (remote s) (local_tx_pos s) (rx_pos s) (slot_queue_available s)
  (conn_state s) (slot_available_event s) (slot_waiters s) (vflags s) k (rings s) (service_map s) (services s) c.

(** ** Positions *)

(** The slot a position lies in, by the queue of a shared state. *)
Definition slot_of (x : shared_state) (pos : Z) : outcome Z :=
  deref (slot_queue x !! Z.to_nat (Z.land (s32 (u32 pos / VCHIQ_SLOT_SIZE)) VCHIQ_SLOT_QUEUE_MASK)).
Definition slot_addr s (slot_index : Z) : Z := slot_data s + VCHIQ_SLOT_SIZE * slot_index.

(** ** Sending *)

(** The padding written when the message does not fit what is left of the slot. *)
Definition prep_padding s (pos slot_space : Z) : outcome S :=
  slot_index ← slot_of (local s) pos;
  let h := slot_addr s slot_index + Z.land pos VCHIQ_SLOT_MASK in
  m ← store_le 4 (vmem s) h VCHIQ_MSGID_PADDING;
  m ← store_le 4 m (h + 4) (u32 (slot_space - sizeof_header));
  Ret (with_local_tx_pos (with_mem s m) (s32 (local_tx_pos s + slot_space))).

(** The header's address.  The new position is visible to the other side
    before the header and the data are written. *)
Definition vchiq_prep_next_header_tx s (msg_size : Z) : outcome (Z * S) :=
  let pos := local_tx_pos s in
  let stride := vchiq_calc_stride msg_size in
  let slot_space := VCHIQ_SLOT_SIZE - Z.land pos VCHIQ_SLOT_MASK in
  '(s, pos) ← (if slot_space <? stride then s ← prep_padding s pos slot_space; Ret (s, s32 (pos + slot_space)) else Ret (s, pos));
  slot_index ← slot_of (local s) pos;
  let s := with_local_tx_pos s (s32 (local_tx_pos s + stride)) in
  let s := with_local s (set_tx_pos (local s) (local_tx_pos s)) in
  let h := slot_addr s slot_index + Z.land pos VCHIQ_SLOT_MASK in
  m ← store_le 4 (vmem s) (h + 4) (u32 msg_size);
  Ret (h, with_mem s m).

(** [payload] are the bytes of the object whose address and size the code passes. *)
Definition vchiq_handmade_prep_msg s (msgid srcport dstport : Z) (payload : list Z) : outcome S :=
  '(h, s) ← vchiq_prep_next_header_tx s (Z.of_nat (length payload));
  m ← store_le 4 (vmem s) h (VCHIQ_MAKE_MSG msgid srcport dstport);
  m ← copy_in m (h + sizeof_header) payload;
  Ret (with_mem s m).

(** ** Events *)
Definition vchiq_ring_bell s : S := with_rings s (rings s + 1).
Definition fire (e : remote_event) : remote_event := RemoteEvent (armed e) 1.
(** [vchiq_event_signal] of the remote side's trigger and recycle events. *)
Definition signal_trigger s : S :=
  let s := with_remote s (set_trigger (remote s) (fire (trigger (remote s)))) in
  if truth (armed (trigger (remote s))) then vchiq_ring_bell s else s.
Definition signal_recycle s : S :=
  let s := with_remote s (set_recycle (remote s) (fire (recycle (remote s)))) in
  if truth (armed (recycle (remote s))) then vchiq_ring_bell s else s.

(** [vchiq_event_wait] in the pieces another processor can act between: the
    test, the arming, the wait.  The event is not tested again once armed.
    [get]/[set] select an event of the local state; the result tells whether
    the task goes on ([true]) or was switched out. *)
Definition event_wait_test (get : shared_state → remote_event) s : bool := truth (fired (get (local s))).
Definition event_wait_arm (get : shared_state → remote_event) (set : shared_state → remote_event → shared_state) s : S :=
  with_local s (set (local s) (RemoteEvent 1 (fired (get (local s))))).
Definition event_wait_block (fuel : nat) (now flag : Z) s : outcome (S * bool) :=
  v ← deref (words (vker s) !! flag);
  k ← wait_on_waitflag fuel now flag (vker s);
  Ret (with_vker s k, v =? 1).
(** What follows the wait, and what follows the test when the event has fired. *)
Definition event_wait_resume (get : shared_state → remote_event) (set : shared_state → remote_event → shared_state) s : S :=
  with_local s (set (local s) (RemoteEvent 0 0)).
Definition event_wait_take (get : shared_state → remote_event) (set : shared_state → remote_event → shared_state) s : S :=
  with_local s (set (local s) (RemoteEvent (armed (get (local s))) 0)).
Definition vchiq_event_wait (fuel : nat) (now flag : Z) (get : shared_state → remote_event)
    (set : shared_state → remote_event → shared_state) s : outcome (S * bool) :=
  if event_wait_test get s then Ret (event_wait_take get set s, true) else
  '(s, through) ← event_wait_block fuel now flag (event_wait_arm get set s);
  Ret (if through : bool then event_wait_resume get set s else s, through).

Definition wake s (flag : Z) : outcome S := k ← wakeup_waitflag flag (vker s); Ret (with_vker s k).
Definition vchiq_event_check s (flag : Z) (e : remote_event) : outcome S :=
  if truth (armed e) && truth (fired e) then wake s flag else Ret s.
Definition vchiq_check_local_events s : outcome S :=
  s ← vchiq_event_check s (trigger_waitflag (vflags s)) (trigger (local s));
  s ← vchiq_event_check s (recycle_waitflag (vflags s)) (recycle (local s));
  s ← vchiq_event_check s (sync_trigger_waitflag (vflags s)) (sync_trigger (local s));
  vchiq_event_check s (sync_release_waitflag (vflags s)) (sync_release (local s)).
(** [bell_reg] is what the doorbell register reads. *)
Definition vchiq_irq_handler (bell_reg : Z) s : outcome S :=
  if truth (Z.land bell_reg 4) then vchiq_check_local_events s else Ret s.

(** ** Receiving *)
Definition next_header_turn s : outcome (S + Z * S) :=
  slot_index ← slot_of (remote s) (rx_pos s);
  let h := slot_addr s slot_index + Z.land (rx_pos s) VCHIQ_SLOT_MASK in
  size ← header_size (vmem s) h;
  let s := with_rx_pos s (s32 (rx_pos s + vchiq_calc_stride (s32 size))) in
  msgid ← header_msgid (vmem s) h;
  Ret (if msgid =? VCHIQ_MSGID_PADDING then inl s else inr (h, s)).
Definition vchiq_get_next_header_rx (fuel : nat) s : outcome (Z * S) := loop fuel next_header_turn s.

(** The slot the next message is read from. *)
Definition vchiq_tx_header_to_slot_idx s : outcome Z :=
  deref (slot_queue (remote s) !! Z.to_nat (Z.land (Z.quot (rx_pos s) VCHIQ_SLOT_SIZE) VCHIQ_SLOT_QUEUE_MASK)).

(** The first entry of the map whose service has the port. *)
Fixpoint find_service (l : list Z) s (localport_ : Z) : outcome Z :=
  match l with
  | [] => Ret NULL
  | p :: l =>
    if p =? NULL then find_service l s localport_ else
    x ← deref (services s !! p);
    if localport x =? localport_ then Ret p else find_service l s localport_
  end.
Definition vchiq_service_find_by_localport s (localport_ : Z) : outcome Z := find_service (service_map s) s localport_.

Definition vchiq_parse_msg_openack s (localport_ remoteport_ : Z) : outcome (Z * S) :=
  p ← vchiq_service_find_by_localport s localport_;
  _ ← BUG (p =? NULL);
  x ← deref (services s !! p);
  let s := with_services s (service_map s) (<[p := Service (fourcc x) true remoteport_ (localport x) (data_callback x)]> (services s)) in
  s ← wake s (state_waitflag (vflags s));
  Ret (ERR_OK, s).

(** What the callback returns is dropped. *)
Definition vchiq_parse_msg_data s (localport_ : Z) (h : Z) : outcome (Z * S) :=
  p ← vchiq_service_find_by_localport s localport_;
  _ ← BUG (p =? NULL);
  x ← deref (services s !! p);
  if data_callback x =? NULL then Fault else
  '(k, c) ← on_data (data_callback x) p (vmem s) h (vker s, client s);
  Ret (ERR_OK, with_client s k c).

(** [unassigned] is what the local variable [err] holds, which the branch of
    the CONNECT message returns without assigning it. *)
Definition vchiq_parse_rx_dispatch (unassigned : Z) s (h : Z) : outcome (Z * S) :=
  msgid ← header_msgid (vmem s) h;
  let msg_type := VCHIQ_MSG_TYPE msgid in
  let localport_ := VCHIQ_MSG_DSTPORT msgid in
  let remoteport_ := VCHIQ_MSG_SRCPORT msgid in
  if msg_type =? VCHIQ_MSG_CONNECT then
    let s := with_conn_state s VCHIQ_CONNSTATE_CONNECTED in
    s ← wake s (state_waitflag (vflags s));
    Ret (unassigned, s)
  else if msg_type =? VCHIQ_MSG_OPENACK then vchiq_parse_msg_openack s localport_ remoteport_
  else if msg_type =? VCHIQ_MSG_DATA then vchiq_parse_msg_data s localport_ h
  else Ret (ERR_INVAL_ARG, s).

Definition vchiq_release_slot s (slot_index : Z) : outcome S :=
  let r := slot_queue_recycle (remote s) in
  let i := Z.to_nat (Z.land r VCHIQ_SLOT_QUEUE_MASK) in
  _ ← deref (slot_queue (remote s) !! i);
  Ret (signal_recycle (with_remote s (set_queue (remote s) (s32 (r + 1)) (<[i := slot_index]> (slot_queue (remote s)))))).

(** A turn of the loop of [vchiq_parse_rx]; [prev_rx_slot] is its variable. *)
Definition parse_rx_turn (fuel : nat) (unassigned : Z) : S * Z → outcome (S * Z + Z * S) := λ '(s, prev_rx_slot),
  if rx_pos s =? tx_pos (remote s) then Ret (inr (ERR_OK, s)) else
  '(h, s) ← vchiq_get_next_header_rx fuel s;
  '(err, s) ← vchiq_parse_rx_dispatch unassigned s h;
  if negb (err =? ERR_OK) then Ret (inr (err, s)) else
  rx_slot ← vchiq_tx_header_to_slot_idx s;
  if rx_slot =? prev_rx_slot then Ret (inl (s, prev_rx_slot)) else
  s ← vchiq_release_slot s prev_rx_slot;
  Ret (inl (s, rx_slot)).
Definition vchiq_parse_rx (fuel : nat) (unassigned : Z) s : outcome (Z * S) :=
  prev_rx_slot ← vchiq_tx_header_to_slot_idx s;
  loop fuel (parse_rx_turn fuel unassigned) (s, prev_rx_slot).

(** A turn of [vchiq_loop_thread] once it is past its wait. *)
Definition vchiq_loop_thread_turn (fuel : nat) (unassigned : Z) s : outcome S :=
  '(err, s) ← vchiq_parse_rx fuel unassigned s;
  _ ← BUG (negb (err =? ERR_OK));
  Ret s.

(** ** Slots that come back *)

(** The walk over the headers of a slot. *)
Definition walk_turn m (slot_data_ : Z) (pos : Z) : outcome (Z + unit) :=
  if negb (pos <? VCHIQ_SLOT_SIZE) then Ret (inr tt) else
  size ← header_size m (slot_data_ + pos);
  let pos := s32 (pos + vchiq_calc_stride (s32 size)) in
  _ ← BUG (VCHIQ_SLOT_SIZE <? pos);
  Ret (inl pos).

Definition free_queue_turn (fuel : nat) : S * Z → outcome (S * Z + S) := λ '(s, available),
  if available =? slot_queue_recycle (local s) then Ret (inr s) else
  slot_index ← deref (slot_queue (local s) !! Z.to_nat (Z.land available VCHIQ_SLOT_QUEUE_MASK));
  let available := s32 (available + 1) in
  _ ← loop fuel (walk_turn (vmem s) (slot_addr s slot_index)) 0;
  let s := with_available s available in
  x ← semaphore_up (SemState (vker s) (slot_available_event s) (slot_waiters s));
  Ret (inl (with_sem s x, available)).
Definition vchiq_process_free_queue (fuel : nat) s : outcome S := loop fuel (free_queue_turn fuel) (s, slot_queue_available s).

(** ** Opening a connection and services *)
Definition vchiq_handmade_connect s : outcome (Z * S) :=
  '(h, s) ← vchiq_prep_next_header_tx s 0;
  m ← store_le 4 (vmem s) h (VCHIQ_MAKE_MSG VCHIQ_MSG_CONNECT 0 0);
  m ← store_le 4 m (h + 4) 0;
  let s := with_mem s m in
  let s := signal_trigger (with_local s (set_tx_pos (local s) (local_tx_pos s))) in
  Ret (if negb (conn_state s =? VCHIQ_CONNSTATE_CONNECTED) then ERR_GENERIC else ERR_OK, s).

(** The first free entry of the map, and its service; [kz] is what [kzalloc]
    returns, a pointer or an error. *)
Fixpoint first_free (l : list Z) (i : nat) : option nat :=
  match l with [] => None | p :: l => if p =? NULL then Some i else first_free l (i + 1) end.
Definition vchiq_alloc_service (kz : Z + Z) s : (Z + Z) * S :=
  match first_free (service_map s) 0 with
  | None => (inr ERR_NO_RESOURCE, s)
  | Some i =>
    match kz with
    | inr err => (inr err, s)
    | inl p => (inl p, with_services s (<[i := p]> (service_map s)) (<[p := Service 0 false 0 (Z.of_nat i + 1) 0]> (services s)))
    end
  end.

(** [struct vchiq_open_payload], packed. *)
Definition open_payload (fourcc client_id version version_min : Z) : list Z :=
  le_bytes 4 fourcc ++ le_bytes 4 client_id ++ le_bytes 2 version ++ le_bytes 2 version_min.

(** [vchiq_open_service] up to its wait, and from there on. *)
Definition vchiq_open_service_send s (p fourcc version version_min : Z) : outcome S :=
  x ← deref (services s !! p);
  let s := with_services s (service_map s) (<[p := Service (u32 fourcc) false (remoteport x) (localport x) (data_callback x)]> (services s)) in
  s ← vchiq_handmade_prep_msg s VCHIQ_MSG_OPEN (localport x) 0 (open_payload fourcc 0 version version_min);
  Ret (signal_trigger s).
Definition vchiq_open_service_finish s (p : Z) : outcome Z :=
  x ← deref (services s !! p);
  _ ← BUG (negb (opened x));
  Ret ERR_OK.

(** [vchiq_alloc_open_service] in the same two parts; the callback is set last. *)
Definition vchiq_alloc_open_service_send (kz : Z + Z) s (fourcc version version_min : Z) : outcome ((Z + Z) * S) :=
  match vchiq_alloc_service kz s with
  | (inr err, s) => Ret (inr err, s)
  | (inl p, s) => s ← vchiq_open_service_send s p fourcc version version_min; Ret (inl p, s)
  end.
Definition vchiq_alloc_open_service_finish s (p callback : Z) : outcome (Z * S) :=
  err ← vchiq_open_service_finish s p;
  x ← deref (services s !! p);
  Ret (p, with_services s (service_map s) (<[p := Service (fourcc x) (opened x) (remoteport x) (localport x) callback]> (services s))).
End vchiq.

(** ** Initialisation *)
Definition VCHIQ_MAGIC : Z := 0x56434849.
Definition VCHIQ_VERSION : Z := 8.
Definition VCHIQ_VERSION_MIN : Z := 3.
Definition VCHIQ_MAX_SLOTS : Z := 128.
Definition VCHIQ_MAX_STATES : Z := 1.
Definition sizeof_shared_state : Z := 16 + 12 + 4 + 12 + 4 + 12 + 12 + 4 * VCHIQ_MAX_SLOTS_PER_SIDE + 4 * 11.
Definition sizeof_slot_zero : Z := 32 + 2 * sizeof_shared_state + 4 * VCHIQ_MAX_SLOTS.
Definition VCHIQ_SLOT_ZERO_SLOTS : Z := (sizeof_slot_zero + VCHIQ_SLOT_SIZE - 1) / VCHIQ_SLOT_SIZE.

(** [struct vchiq_slot_zero_struct]: the geometry and the two shared states. *)
Record slot_zero := SlotZero {
  magic : Z; version : Z; version_min : Z; slot_zero_size : Z; slot_size : Z; max_slots : Z; max_slots_per_side : Z;
  platform_data : list Z; master : shared_state; slave : shared_state }.

Definition zero_event : remote_event := RemoteEvent 0 0.
Definition zero_shared (first last sync : Z) : shared_state :=
  SharedState 0 first last sync zero_event 0 zero_event 0 zero_event zero_event (replicate (Z.to_nat VCHIQ_MAX_SLOTS_PER_SIDE) 0).

(** The address of slot zero and its contents. *)
Definition vchiq_init_slots (mem_base mem_size : Z) : option (Z * slot_zero) :=
  let mem_align := Z.land (VCHIQ_SLOT_SIZE - s32 mem_base) VCHIQ_SLOT_MASK in
  let num_slots := Z.quot (mem_size - mem_align) VCHIQ_SLOT_SIZE in
  let first_data_slot := VCHIQ_SLOT_ZERO_SLOTS in
  let num_slots := num_slots - first_data_slot in
  if num_slots <? 4 then None else
  let half := Z.quot num_slots 2 in
  Some (mem_base + mem_align,
    SlotZero VCHIQ_MAGIC VCHIQ_VERSION VCHIQ_VERSION_MIN sizeof_slot_zero VCHIQ_SLOT_SIZE VCHIQ_MAX_SLOTS VCHIQ_MAX_SLOTS_PER_SIDE [0; 0]
      (zero_shared (first_data_slot + 1) (first_data_slot + half - 1) first_data_slot)
      (zero_shared (first_data_slot + half + 1) (first_data_slot + num_slots - 1) (first_data_slot + half))).

(** [slot_queue[available++] = i] for the slots of a side. *)
Definition fill_queue (first last : Z) (q : list Z) : outcome (list Z * Z) :=
  forZ first (last + 1) (λ i '(q, available),
    _ ← deref (q !! Z.to_nat available);
    Ret (<[Z.to_nat available := i]> q, available + 1)) (q, 0).

Definition remote_event_create (e : remote_event) : remote_event := RemoteEvent 0 (fired e).
Definition remote_event_signal_local (e : remote_event) : remote_event := RemoteEvent 0 (fired e).

(** [vchiq_init_state] for the side of [local_]: the memory [m] of the slots
    starts at [base], [sem] and [k] are the semaphore's and the kernel's state,
    [id] the value of the counter of states. *)
Definition vchiq_init_state {C} (id base : Z) (m : mem) (local_ remote_ : shared_state) (f : waitflags) (sem_ : semaphore) (k : kernel) (c : C)
    : outcome (vchiq_state C) :=
  '(q, available) ← fill_queue (slot_first local_) (slot_last local_) (slot_queue local_);
  let k := with_words k (<[state_waitflag f := 0]> (<[sync_release_waitflag f := 0]> (<[sync_trigger_waitflag f := 0]>
    (<[recycle_waitflag f := 0]> (<[trigger_waitflag f := 0]> (words k)))))) in
  x ← semaphore_init (SemState k sem_ ∅) 0;
  let l := SharedState 1 (slot_first local_) (slot_last local_) (slot_sync local_)
    (remote_event_create (trigger local_)) 0 (remote_event_create (recycle local_)) available
    (remote_event_create (sync_trigger local_)) (remote_event_signal_local (remote_event_create (sync_release local_))) q in
  m ← store_le 4 m (base + VCHIQ_SLOT_SIZE * slot_sync local_) VCHIQ_MSGID_PADDING;
  _ ← BUG (VCHIQ_MAX_STATES <=? id);
  Ret (VState m base l remote_ 0 0 available VCHIQ_CONNSTATE_DISCONNECTED (sem x) (waiters x) f (ker x) 0 (replicate 10 NULL) ∅ c).

(** The fragments' free list: each starts with the address of the next. *)
Definition MAX_FRAGMENTS : Z := 64.
Definition vchiq_prepare_fragments (m : mem) (fragments_base fragment_size : Z) : outcome mem :=
  m ← forZ 0 (MAX_FRAGMENTS - 1) (λ i m, store_le 8 m (fragments_base + i * fragment_size) (fragments_base + (i + 1) * fragment_size)) m;
  store_le 8 m (fragments_base + (MAX_FRAGMENTS - 1) * fragment_size) NULL.
