(* ===== verification/VchiqLink.v ===== *)
(** * The message queue is a FIFO

    Two sides of Vchiq.v on one memory: what one sends with
    [vchiq_handmade_prep_msg], the other's [vchiq_parse_rx] hands to the
    services, in order, for any schedule of sending, receiving and recycling
    in which the sender stays inside the slots it has got back. *)

From S2P Require Import Prelude Bits Lists Exceptions Sched Semaphore Vchiq.

(** ** Numbers *)
Lemma land_slot_mask a : Z.land a VCHIQ_SLOT_MASK = a mod 4096.
Proof. change VCHIQ_SLOT_MASK with (Z.ones 12). by rewrite Z.land_ones by lia. Qed.
Lemma land_queue_mask a : Z.land a VCHIQ_SLOT_QUEUE_MASK = a mod 64.
Proof. change VCHIQ_SLOT_QUEUE_MASK with (Z.ones 6). by rewrite Z.land_ones by lia. Qed.

Lemma vchiq_calc_stride_val n : 0 ≤ n ≤ 5000 → vchiq_calc_stride n = 8 * ((n + 15) / 8).
Proof.
  intros Hn. unfold vchiq_calc_stride, sizeof_header. rewrite (s32_id (n + 8)) by lia.
  change (Z.lnot (8 - 1)) with (Z.lnot (Z.ones 3)). rewrite <- Z.ldiff_land, Z.ldiff_ones_r by lia.
  rewrite Z.shiftl_mul_pow2, Z.shiftr_div_pow2 by lia. replace (n + 8 + 8 - 1) with (n + 15) by lia.
  change (2 ^ 3) with 8. rewrite s32_id; [lia|]. dlia.
Qed.

(** ** Messages and where they lie *)
Record message := Message { msg_src : Z; msg_dst : Z; msg_payload : list Z }.
Definition msg_id (x : message) : Z := VCHIQ_MAKE_MSG VCHIQ_MSG_DATA (msg_src x) (msg_dst x).
Definition msg_len (x : message) : Z := Z.of_nat (length (msg_payload x)).
Definition stride (x : message) : Z := 8 * ((msg_len x + 15) / 8).
(** A payload that leaves room in its slot for another header. *)
Definition msg_ok (x : message) : Prop :=
  0 ≤ msg_src x < 4096 ∧ 0 ≤ msg_dst x < 4096 ∧ is_bytes (msg_payload x) ∧ msg_len x ≤ 4080.

Definition header_bytes (id size : Z) : list Z := le_bytes 4 id ++ le_bytes 4 size.
(** The message [x] is at address [h]. *)
Definition msg_at (m : mem) (h : Z) (x : message) : Prop := bytes_at m h (header_bytes (msg_id x) (msg_len x) ++ msg_payload x).

Definition slotn (q : list Z) (e : Z) : Z := default 0 (q !! Z.to_nat (e mod 64)).
(** The address of a position of the stream. *)
Definition addr (base : Z) (q : list Z) (p : Z) : Z := base + 4096 * slotn q (p / 4096) + p mod 4096.
Definition space (p : Z) : Z := 4096 - p mod 4096.
(** The position of the header of a message sent at [p], and the one after it. *)
Definition place (p : Z) (x : message) : Z := if space p <? stride x then p + space p else p.
Definition next (p : Z) (x : message) : Z := place p x + stride x.

Definition frame_at (m : mem) base q (p : Z) (x : message) : Prop :=
  (space p < stride x → bytes_at m (addr base q p) (header_bytes 0 (space p - 8))) ∧ msg_at m (addr base q (place p x)) x.
Fixpoint frames (m : mem) base q (p : Z) (l : list message) : Prop :=
  match l with [] => True | x :: l => frame_at m base q p x ∧ frames m base q (next p x) l end.
Definition ends (p : Z) (l : list message) : Z := foldl next p l.

Lemma stride_ok x : msg_ok x → msg_len x + 8 ≤ stride x ≤ 4088 ∧ 8 ≤ stride x ∧ stride x mod 8 = 0 ∧ 0 ≤ msg_len x.
Proof. intros (_ & _ & _ & H). unfold stride. unfold msg_len in *. dlia. Qed.

Lemma space_bounds p : p mod 8 = 0 → 8 ≤ space p ≤ 4096 ∧ space p mod 8 = 0 ∧ (p + space p) mod 4096 = 0.
Proof. intros H. unfold space. dlia. Qed.

Lemma place_bounds p x : p mod 8 = 0 → msg_ok x →
  p ≤ place p x ∧ place p x mod 8 = 0 ∧ place p x mod 4096 + stride x ≤ 4096 ∧ place p x / 4096 ≤ p / 4096 + 1 ∧
  (space p < stride x → place p x = 4096 * (p / 4096 + 1)) ∧ (stride x ≤ space p → place p x = p).
Proof.
  intros Hp Hx. pose proof (stride_ok x Hx). pose proof (space_bounds p Hp). unfold place.
  destruct (Z.ltb_spec (space p) (stride x)); unfold space in *; dlia.
Qed.

(** ** Addresses of positions *)
Definition distinct (q : list Z) (a r : Z) : Prop := ∀ e e', a ≤ e < r → a ≤ e' < r → slotn q e = slotn q e' → e = e'.

Lemma addr_add base q p i : 0 ≤ i → p mod 4096 + i < 4096 → addr base q (p + i) = addr base q p + i.
Proof.
  intros Hi Hp. unfold addr. replace ((p + i) / 4096) with (p / 4096) by dlia.
  replace ((p + i) mod 4096) with (p mod 4096 + i) by dlia. lia.
Qed.

Lemma addr_inj base q a r p p' : distinct q a r → 4096 * a ≤ p < 4096 * r → 4096 * a ≤ p' < 4096 * r →
  addr base q p = addr base q p' → p = p'.
Proof.
  intros Hd Hp Hp' E. unfold addr in E. assert (p mod 4096 = p' mod 4096) as Em by dlia.
  assert (p / 4096 = p' / 4096); [|dlia]. apply Hd; [dlia..|dlia].
Qed.

(** Bytes from a position to the end of its slot, by position. *)
Lemma bytes_at_pos m base q p l : p mod 4096 + Z.of_nat (length l) ≤ 4096 →
  bytes_at m (addr base q p) l ↔ ∀ i b, l !! i = Some b → m !! addr base q (p + Z.of_nat i) = Some b.
Proof.
  intros Hp. split; intros Hb i b Hi; pose proof (lookup_lt_Some _ _ _ Hi).
  - rewrite addr_add by lia. by apply Hb.
  - rewrite <- addr_add by lia. by apply Hb.
Qed.

Definition keeps (m m' : mem) base q (lo hi : Z) : Prop := ∀ p, lo ≤ p < hi → m' !! addr base q p = m !! addr base q p.
(** [m'] differs from [m] only at positions of a range, and maps the same. *)
Definition touches (m m' : mem) base q (lo hi : Z) : Prop :=
  (∀ a, is_Some (m' !! a) ↔ is_Some (m !! a)) ∧ (∀ a, (∀ p, lo ≤ p < hi → a ≠ addr base q p) → m' !! a = m !! a).

Lemma keeps_bytes m m' base q p l lo hi : keeps m m' base q lo hi → p mod 4096 + Z.of_nat (length l) ≤ 4096 →
  lo ≤ p → p + Z.of_nat (length l) ≤ hi → bytes_at m (addr base q p) l → bytes_at m' (addr base q p) l.
Proof.
  intros Hk Hp Hlo Hhi. rewrite !bytes_at_pos by done. intros Hb i b Hi. pose proof (lookup_lt_Some _ _ _ Hi).
  rewrite Hk by lia. by apply Hb.
Qed.

Lemma touches_refl m base q p : touches m m base q p p.
Proof. done. Qed.

Lemma touches_trans m1 m2 m3 base q a b c : a ≤ b ≤ c → touches m1 m2 base q a b → touches m2 m3 base q b c → touches m1 m3 base q a c.
Proof.
  intros Hab [D1 K1] [D2 K2]. split; [intros x; by rewrite D2|]. intros x Hx. rewrite K2; [apply K1|]; intros p Hp; apply Hx; lia.
Qed.

Lemma touches_keeps m m' base q lo hi a r lo' hi' : distinct q a r → touches m m' base q lo hi →
  4096 * a ≤ lo → hi ≤ 4096 * r → 4096 * a ≤ lo' → hi' ≤ 4096 * r → hi' ≤ lo ∨ hi ≤ lo' → keeps m m' base q lo' hi'.
Proof.
  intros Hd [_ Hk] ????? p Hp. apply Hk. intros p' Hp' E. apply (addr_inj base q a r) in E; [lia|done|lia..].
Qed.

Lemma touches_write m base q p l : p mod 4096 + Z.of_nat (length l) ≤ 4096 → mapped m (addr base q p) (Z.of_nat (length l)) →
  touches m (write_bytes m (addr base q p) l) base q p (p + Z.of_nat (length l)).
Proof.
  intros Hp Hm. split.
  - apply (write_bytes_writes m _ l Hm).
  - intros a Ha. rewrite write_bytes_lookup. case_decide as E; [|done].
    exfalso. apply (Ha (p + (a - addr base q p))); [lia|]. rewrite addr_add by lia. lia.
Qed.

Lemma header_bytes_length id size : length (header_bytes id size) = 8%nat.
Proof. done. Qed.

Lemma msg_bytes_length x : Z.of_nat (length (header_bytes (msg_id x) (msg_len x) ++ msg_payload x)) = 8 + msg_len x.
Proof. rewrite length_app, header_bytes_length. unfold msg_len. lia. Qed.

Lemma frame_keeps m m' base q p x : p mod 8 = 0 → msg_ok x → keeps m m' base q p (next p x) → frame_at m base q p x → frame_at m' base q p x.
Proof.
  intros Hp Hx Hk [Hpad Hm]. pose proof (place_bounds p x Hp Hx). pose proof (stride_ok x Hx). pose proof (space_bounds p Hp). unfold next in *.
  split.
  - intros Hs. eapply keeps_bytes; [exact Hk| | | |by apply Hpad]; rewrite ?header_bytes_length; unfold space in *; dlia.
  - eapply keeps_bytes; [exact Hk| | | |exact Hm]; rewrite ?msg_bytes_length; lia.
Qed.

Lemma next_bounds p x : p mod 8 = 0 → msg_ok x → p < next p x ∧ next p x mod 8 = 0.
Proof. intros Hp Hx. pose proof (place_bounds p x Hp Hx). pose proof (stride_ok x Hx). unfold next. dlia. Qed.

Lemma ends_bounds l : ∀ p, p mod 8 = 0 → Forall msg_ok l → p ≤ ends p l ∧ ends p l mod 8 = 0.
Proof.
  induction l as [|x l IH]; intros p Hp Hl; [done|]. inversion_clear Hl as [|?? Hx Hl'].
  destruct (next_bounds p x Hp Hx). destruct (IH (next p x)) as [??]; [done..|]. cbn. unfold ends in *. lia.
Qed.

Lemma frames_keeps m m' base q l : ∀ p, p mod 8 = 0 → Forall msg_ok l → keeps m m' base q p (ends p l) → frames m base q p l → frames m' base q p l.
Proof.
  induction l as [|x l IH]; intros p Hp Hl Hk; [done|]. intros [Hf Hr]. inversion_clear Hl as [|?? Hx Hl'].
  destruct (next_bounds p x Hp Hx). destruct (ends_bounds l (next p x)) as [? _]; [done..|]. cbn in Hk. change (foldl next (next p x) l) with (ends (next p x) l) in Hk.
  split; [apply (frame_keeps m); [done..| |done]|apply IH; [done..| |done]]; intros p' ?; apply Hk; lia.
Qed.

Lemma frames_app m base q l x : ∀ p, frames m base q p (l ++ [x]) ↔ frames m base q p l ∧ frame_at m base q (ends p l) x.
Proof. induction l as [|y l IH]; intros p; cbn; [tauto|]. rewrite IH. unfold ends. cbn. tauto. Qed.
Lemma ends_app p l x : ends p (l ++ [x]) = next (ends p l) x.
Proof. unfold ends. by rewrite foldl_app. Qed.

(** ** Sending *)
Lemma copy_in_write m l : ∀ p, is_bytes l → mapped m p (Z.of_nat (length l)) → copy_in m p l = Ret (write_bytes m p l).
Proof.
  revert m; induction l as [|b l IH]; intros m p Hb Hm; [done|]. inversion_clear Hb as [|?? Hb0 Hbl]. cbn [copy_in write_bytes].
  rewrite store8_write; [|lia|apply Hm; cbn; lia]. rewrite bind_ret. cbn [write_bytes]. apply IH; [done|].
  intros a Ha. destruct (decide (a = p)) as [->|]; [rewrite lookup_insert_eq; by eexists|]. rewrite lookup_insert_ne by done. apply Hm. cbn. lia.
Qed.

Lemma mapped_touches m m' base q lo hi p n : touches m m' base q lo hi → mapped m p n → mapped m' p n.
Proof. intros [Hd _] Hm a Ha. apply Hd. by apply Hm. Qed.

(** Every position of a range is mapped. *)
Definition backed (m : mem) base q (lo hi : Z) : Prop := ∀ p, lo ≤ p < hi → is_Some (m !! addr base q p).
Lemma backed_mapped m base q lo hi p n : backed m base q lo hi → lo ≤ p → p + n ≤ hi → p mod 4096 + n ≤ 4096 → mapped m (addr base q p) n.
Proof.
  intros Hb ??? a Ha. replace a with (addr base q (p + (a - addr base q p))); [apply Hb; lia|]. rewrite addr_add by lia. lia.
Qed.

Section link.
Context {C : Type} `{VchiqClient C}.
Abbreviation S := (vchiq_state C).
Implicit Types (s : S) (m : mem).

Lemma slot_of_val (x : shared_state) p : length (slot_queue x) = 64%nat → 0 ≤ p < 2 ^ 31 → slot_of x p = Ret (slotn (slot_queue x) (p / 4096)).
Proof.
  intros Hl Hp. unfold slot_of, slotn. rewrite u32_id, s32_id, land_queue_mask by (unfold VCHIQ_SLOT_SIZE; dlia).
  unfold VCHIQ_SLOT_SIZE. destruct (lookup_lt_is_Some_2 (slot_queue x) (Z.to_nat (p / 4096 mod 64))) as [v E]; [rewrite Hl; dlia|].
  by rewrite E.
Qed.

Lemma store_header {B} (f : mem → outcome B) m a id size : mapped m a 8 →
  (m ← store_le 4 m a id; m ← store_le 4 m (a + 4) size; f m) = f (write_bytes m a (header_bytes id size)).
Proof.
  intros Hm. rewrite store_le_bytes by (intros b Hb; apply Hm; lia). rewrite bind_ret.
  rewrite store_le_bytes; [|apply write_bytes_mapped; intros b Hb; apply Hm; lia]. rewrite bind_ret. unfold header_bytes. by rewrite write_bytes_app.
Qed.

Lemma prep_padding_ok s p : local_tx_pos s = p → 0 ≤ p → p mod 8 = 0 → p + space p < 2 ^ 31 → length (slot_queue (local s)) = 64%nat →
  mapped (vmem s) (addr (slot_data s) (slot_queue (local s)) p) 8 →
  prep_padding s p (space p) = Ret (with_local_tx_pos (with_mem s
    (write_bytes (vmem s) (addr (slot_data s) (slot_queue (local s)) p) (header_bytes 0 (space p - 8)))) (p + space p)).
Proof.
  intros Ep Hp H8 Hs Hl Hm. pose proof (space_bounds p H8). unfold prep_padding. rewrite slot_of_val by (done || lia). rewrite bind_ret.
  rewrite land_slot_mask. change VCHIQ_MSGID_PADDING with 0. unfold sizeof_header. rewrite u32_id by lia. rewrite Ep.
  change (slot_addr s (slotn (slot_queue (local s)) (p / 4096)) + p mod 4096) with (addr (slot_data s) (slot_queue (local s)) p).
  rewrite store_header by done. rewrite s32_id by lia. done.
Qed.

Definition with_sent s m p : S := with_mem (with_local (with_local_tx_pos s p) (set_tx_pos (local s) p)) m.

Lemma write_bytes_swap m h l1 l2 : write_bytes (write_bytes m (h + Z.of_nat (length l1)) l2) h l1 = write_bytes m h (l1 ++ l2).
Proof.
  apply map_eq. intros i. rewrite !write_bytes_lookup, length_app. destruct (decide (h ≤ i < h + Z.of_nat (length l1))).
  - rewrite decide_True by lia. by rewrite lookup_app_l by lia.
  - destruct (decide (h + Z.of_nat (length l1) ≤ i < h + Z.of_nat (length l1) + Z.of_nat (length l2))).
    + rewrite decide_True by lia. rewrite lookup_app_r by lia. f_equal. lia.
    + by rewrite decide_False by lia.
Qed.

(** The memory once the padding is written. *)
Definition padded s p x : mem :=
  if space p <? stride x then write_bytes (vmem s) (addr (slot_data s) (slot_queue (local s)) p) (header_bytes 0 (space p - 8)) else vmem s.

Lemma prep_next_header_ok s x : let q := slot_queue (local s) in let p := local_tx_pos s in let h := addr (slot_data s) q (place p x) in
  length q = 64%nat → 0 ≤ p → p mod 8 = 0 → msg_ok x → next p x < 2 ^ 31 → mapped (padded s p x) (h + 4) 4 →
  (space p < stride x → mapped (vmem s) (addr (slot_data s) q p) 8) →
  vchiq_prep_next_header_tx s (msg_len x) = Ret (h, with_sent s (write_bytes (padded s p x) (h + 4) (le_bytes 4 (msg_len x))) (next p x)).
Proof.
  intros q p h Hl Hp H8 Hx H31 Hm Hb. pose proof (place_bounds p x H8 Hx). pose proof (stride_ok x Hx) as Hst. pose proof (space_bounds p H8).
  assert (msg_len x ≤ 4080) by apply Hx. unfold vchiq_prep_next_header_tx. fold p. rewrite vchiq_calc_stride_val by lia.
  change (8 * ((msg_len x + 15) / 8)) with (stride x). rewrite land_slot_mask. change (VCHIQ_SLOT_SIZE - p mod 4096) with (space p).
  unfold padded, next, place in *. destruct (Z.ltb_spec (space p) (stride x)).
  - rewrite prep_padding_ok by (done || lia || (apply Hb; lia)). rewrite !bind_ret. rewrite (s32_id (p + space p)) by lia.
    rewrite slot_of_val by (done || lia). rewrite bind_ret, land_slot_mask. cbn [local_tx_pos with_local_tx_pos local with_local vmem with_mem slot_queue set_tx_pos].
    rewrite (s32_id (p + space p + stride x)) by lia. rewrite u32_id by lia.
    change (slot_addr _ (slotn (slot_queue (local s)) ((p + space p) / 4096)) + (p + space p) mod 4096) with h. rewrite store_le_bytes by done. done.
  - rewrite !bind_ret. rewrite slot_of_val by (done || lia). rewrite bind_ret, land_slot_mask.
    cbn [local_tx_pos with_local_tx_pos local with_local vmem with_mem slot_queue set_tx_pos]. fold p. rewrite s32_id by lia. rewrite u32_id by lia.
    change (slot_addr _ (slotn (slot_queue (local s)) (p / 4096)) + p mod 4096) with h. rewrite store_le_bytes by done. done.
Qed.

Lemma padded_touches s x hi : let q := slot_queue (local s) in let p := local_tx_pos s in
  p mod 8 = 0 → msg_ok x → next p x ≤ hi → backed (vmem s) (slot_data s) q p hi →
  touches (vmem s) (padded s p x) (slot_data s) q p (place p x) ∧ (space p < stride x → mapped (vmem s) (addr (slot_data s) q p) 8).
Proof.
  intros q p H8 Hx Hhi Hb. pose proof (place_bounds p x H8 Hx). pose proof (stride_ok x Hx). pose proof (space_bounds p H8).
  unfold padded, next, place in *. destruct (Z.ltb_spec (space p) (stride x)); [|split; [done|lia]].
  assert (p mod 4096 + 8 ≤ 4096) by (unfold space in *; lia).
  assert (mapped (vmem s) (addr (slot_data s) q p) 8) as Hm by (apply (backed_mapped _ _ _ _ _ _ _ Hb); lia). split; [|done].
  destruct (touches_write (vmem s) (slot_data s) q p (header_bytes 0 (space p - 8))) as [D K]; [done..|]. split; [done|].
  intros b Hbb. apply K. intros p' Hp'. apply Hbb. rewrite header_bytes_length in Hp'. lia.
Qed.

(** What sending does: the message's frame is written after the last one, and
    nothing else changes. *)
Lemma prep_msg_ok s x a r : let q := slot_queue (local s) in let p := local_tx_pos s in
  length q = 64%nat → 0 ≤ p → p mod 8 = 0 → msg_ok x → next p x < 2 ^ 31 → distinct q a r → 4096 * a ≤ p → next p x ≤ 4096 * r →
  backed (vmem s) (slot_data s) q p (next p x) →
  ∃ m, vchiq_handmade_prep_msg s VCHIQ_MSG_DATA (msg_src x) (msg_dst x) (msg_payload x) = Ret (with_sent s m (next p x)) ∧
    frame_at m (slot_data s) q p x ∧ touches (vmem s) m (slot_data s) q p (next p x).
Proof.
  intros q p Hl Hp H8 Hx H31 Hd Ha Hr Hb. pose proof (place_bounds p x H8 Hx) as Hpl. pose proof (stride_ok x Hx) as Hst.
  pose proof (space_bounds p H8) as Hsp. destruct (padded_touches s x (next p x) H8 Hx (Z.le_refl _) Hb) as [Ht1 Hpm]. fold q p in Ht1, Hpm.
  set (m1 := padded s p x) in *. set (h := addr (slot_data s) q (place p x)). set (bs := header_bytes (msg_id x) (msg_len x) ++ msg_payload x).
  assert (Z.of_nat (length bs) = 8 + msg_len x) as Hbs by apply msg_bytes_length.
  assert (mapped m1 h (8 + msg_len x)) as Hm1.
  { eapply mapped_touches; [exact Ht1|]. apply (backed_mapped _ _ _ _ _ _ _ Hb); unfold next in *; lia. }
  assert (touches m1 (write_bytes m1 h bs) (slot_data s) q (place p x) (next p x)) as Ht2.
  { destruct (touches_write m1 (slot_data s) q (place p x) bs) as [D K]; [lia|by rewrite Hbs|].
    split; [done|]. intros b Hbb. apply K. intros p' Hp'. apply Hbb. rewrite Hbs in Hp'. unfold next. lia. }
  exists (write_bytes m1 h bs). split_and!.
  - unfold vchiq_handmade_prep_msg. fold (msg_len x).
    rewrite (prep_next_header_ok s x) by (done || (intros b Hbb; apply Hm1; fold q p h in Hbb; lia)). rewrite bind_ret. fold q p m1 h.
    rewrite store_le_bytes by (intros b Hbb; apply write_bytes_mapped with (n := 8 + msg_len x) (q := h); [exact Hm1|lia]). rewrite bind_ret.
    cbn [vmem with_sent with_mem]. change 4 with (Z.of_nat (length (le_bytes 4 (VCHIQ_MAKE_MSG VCHIQ_MSG_DATA (msg_src x) (msg_dst x))))) at 2.
    rewrite write_bytes_swap. rewrite copy_in_write; [|apply Hx|].
    2:{ intros b Hbb. apply write_bytes_mapped with (n := 8 + msg_len x) (q := h); [exact Hm1|]. unfold sizeof_header, msg_len in *. lia. }
    rewrite bind_ret. unfold bs. rewrite (write_bytes_app m1 h (header_bytes _ _)). done.
  - split.
    + intros Hs. assert (place p x = p + space p) as Epl by (unfold place; zdec; done).
      eapply (keeps_bytes m1 _ _ _ p _ p (place p x)); [|rewrite header_bytes_length; unfold space in *; lia|lia|rewrite header_bytes_length; lia|].
      * apply (touches_keeps _ _ _ _ _ _ a r _ _ Hd Ht2); unfold next in *; lia.
      * unfold m1, padded. zdec. apply write_bytes_at.
    + apply write_bytes_at.
  - eapply touches_trans; [|exact Ht1|exact Ht2]. unfold next. lia.
Qed.

(** ** Receiving *)
Lemma msg_id_val x : msg_ok x → msg_id x = 5 * 2 ^ 24 + msg_src x * 2 ^ 12 + msg_dst x.
Proof.
  intros (Hs & Hd & _). unfold msg_id, VCHIQ_MAKE_MSG, VCHIQ_MSG_DATA. rewrite Z.shiftl_0_r.
  change (Z.shiftl 5 24) with (Z.shiftl (Z.shiftl 5 12) 12). rewrite <- Z.shiftl_lor, !shiftl_lor_add by lia. lia.
Qed.

Lemma header_read m h id size l : 0 ≤ id < 2 ^ 32 → 0 ≤ size < 2 ^ 32 → bytes_at m h (header_bytes id size ++ l) →
  header_msgid m h = Ret id ∧ header_size m h = Ret size.
Proof.
  intros Hi Hz Hb. unfold header_bytes in Hb. rewrite <- app_assoc in Hb. apply bytes_at_app in Hb as [H1 Hb]. apply bytes_at_app in Hb as [H2 _].
  unfold header_msgid, header_size. split.
  - rewrite load_le_bytes with (v := id) by done. by rewrite Z.mod_small by lia.
  - change (Z.of_nat (length (le_bytes 4 id))) with 4 in H2. rewrite load_le_bytes with (v := size) by done. by rewrite Z.mod_small by lia.
Qed.

Lemma msg_read m h x : msg_ok x → msg_at m h x → header_msgid m h = Ret (msg_id x) ∧ header_size m h = Ret (msg_len x).
Proof.
  intros Hx Hm. pose proof (stride_ok x Hx). apply (header_read m h _ _ (msg_payload x)); [|destruct Hx; lia|exact Hm].
  rewrite msg_id_val by done. destruct Hx as (? & ? & _). lia.
Qed.

Lemma next_header_turn_ok s id n : let q := slot_queue (remote s) in let p := rx_pos s in
  length q = 64%nat → 0 ≤ p → p + 8 * ((n + 15) / 8) < 2 ^ 31 → 0 ≤ n ≤ 5000 →
  header_msgid (vmem s) (addr (slot_data s) q p) = Ret id → header_size (vmem s) (addr (slot_data s) q p) = Ret n →
  next_header_turn s = Ret (if id =? 0 then inl (with_rx_pos s (p + 8 * ((n + 15) / 8)))
    else inr (addr (slot_data s) q p, with_rx_pos s (p + 8 * ((n + 15) / 8)))).
Proof.
  intros q p Hl Hp H31 Hn Hi Hz. unfold next_header_turn. fold p. rewrite slot_of_val by (done || dlia). rewrite bind_ret, land_slot_mask.
  change (slot_addr s (slotn (slot_queue (remote s)) (p / 4096)) + p mod 4096) with (addr (slot_data s) q p).
  rewrite Hz, bind_ret. rewrite (s32_id n) by lia. rewrite vchiq_calc_stride_val by lia. rewrite s32_id by dlia.
  cbn [vmem with_rx_pos]. rewrite Hi, bind_ret. done.
Qed.

Lemma get_next_header_ok fuel s x : let q := slot_queue (remote s) in let p := rx_pos s in
  length q = 64%nat → 0 ≤ p → p mod 8 = 0 → msg_ok x → next p x < 2 ^ 31 → frame_at (vmem s) (slot_data s) q p x → (2 ≤ fuel)%nat →
  vchiq_get_next_header_rx fuel s = Ret (addr (slot_data s) q (place p x), with_rx_pos s (next p x)).
Proof.
  intros q p Hl Hp H8 Hx H31 [Hpad Hm] Hf. pose proof (place_bounds p x H8 Hx). pose proof (stride_ok x Hx). pose proof (space_bounds p H8).
  destruct (msg_read _ _ _ Hx Hm) as [Ei Ez]. assert (msg_id x ≠ 0) by (rewrite msg_id_val by done; destruct Hx as (? & ? & _); lia).
  assert (0 ≤ msg_len x ≤ 5000) by (destruct Hx; lia). unfold vchiq_get_next_header_rx. destruct fuel as [|[|fuel]]; [lia..|].
  unfold next, place in *. fold (stride x) in *. destruct (Z.ltb_spec (space p) (stride x)) as [Hlt|Hge].
  - destruct (header_read (vmem s) (addr (slot_data s) q p) 0 (space p - 8) []) as [Ei0 Ez0]; [lia..|rewrite app_nil_r; by apply Hpad|].
    assert (8 * ((space p - 8 + 15) / 8) = space p) as Esp by dlia.
    cbn [loop]. rewrite (next_header_turn_ok s 0 (space p - 8)); [|done || (rewrite ?Esp; fold p; lia)..]. rewrite bind_ret, Esp. fold p. change (0 =? 0) with true. cbv iota beta. cbn [loop].
    rewrite (next_header_turn_ok (with_rx_pos s (p + space p)) (msg_id x) (msg_len x));
      [|cbn [slot_queue remote rx_pos with_rx_pos vmem slot_data]; fold (stride x); (done || lia)..].
    zdec. done.
  - cbn [loop]. rewrite (next_header_turn_ok s (msg_id x) (msg_len x)); [|fold p; fold (stride x); (done || lia)..]. zdec. done.
Qed.

Definition serves s x (p cb : Z) : Prop :=
  vchiq_service_find_by_localport s (msg_dst x) = Ret p ∧ p ≠ NULL ∧ ∃ y, services s !! p = Some y ∧ data_callback y = cb ∧ cb ≠ NULL.

Lemma dispatch_ok un s h x p cb k c : msg_ok x → msg_at (vmem s) h x → serves s x p cb → on_data cb p (vmem s) h (vker s, client s) = Ret (k, c) →
  vchiq_parse_rx_dispatch un s h = Ret (ERR_OK, with_client s k c).
Proof.
  intros Hx Hm (Hf & Hn & y & Hy & Hcb & Hnc) Hd. destruct (msg_read _ _ _ Hx Hm) as [Ei _]. pose proof (msg_id_val x Hx) as Ev.
  destruct Hx as (Hs & Hdst & _). unfold vchiq_parse_rx_dispatch. rewrite Ei, bind_ret.
  assert (VCHIQ_MSG_TYPE (msg_id x) = 5) as ->. { unfold VCHIQ_MSG_TYPE. rewrite u32_id, Z.shiftr_div_pow2 by lia. rewrite Ev. dlia. }
  assert (VCHIQ_MSG_DSTPORT (msg_id x) = msg_dst x) as ->.
  { unfold VCHIQ_MSG_DSTPORT, u16. change 0xfff with (Z.ones 12). rewrite Z.land_ones by lia. rewrite Ev. dlia. }
  unfold vchiq_parse_msg_data. cbn [Z.eqb Pos.eqb VCHIQ_MSG_CONNECT VCHIQ_MSG_OPENACK VCHIQ_MSG_DATA]. rewrite Hf, bind_ret.
  change (5 =? VCHIQ_MSG_CONNECT) with false. change (5 =? VCHIQ_MSG_OPENACK) with false. change (5 =? VCHIQ_MSG_DATA) with true. cbv iota.
  rewrite (proj2 (Z.eqb_neq p NULL) Hn), BUG_false, bind_ret, Hy. cbn [deref]. rewrite bind_ret, Hcb, (proj2 (Z.eqb_neq cb NULL) Hnc), Hd. done.
Qed.
End link.

(** ** The headers of a slot *)

(** Walking the headers of the slot at [a] leads from offset [o] to [o']. *)
Inductive chain (m : mem) (a : Z) : Z → Z → Prop :=
| chain_nil o : chain m a o o
| chain_cons o n o' : bytes_at m (a + o + 4) (le_bytes 4 n) → 0 ≤ n ≤ 5000 → 0 ≤ o → o + 8 * ((n + 15) / 8) ≤ o' → o' ≤ 4096 →
  chain m a (o + 8 * ((n + 15) / 8)) o' → chain m a o o'.

Lemma chain_le m a o o' : chain m a o o' → o ≤ o'.
Proof. induction 1; [lia|]. dlia. Qed.

Lemma chain_trans m a o o1 o2 : chain m a o o1 → chain m a o1 o2 → o2 ≤ 4096 → chain m a o o2.
Proof.
  induction 1 as [|o n o' Hb Hn Ho Hle Ho' Hc IH]; intros H2 Hm; [done|]. pose proof (chain_le _ _ _ _ H2).
  eapply chain_cons; [done..|lia|done|by apply IH].
Qed.

Lemma chain_keeps m m' base q e o o' : keeps m m' base q (4096 * e) (4096 * e + o') → o' ≤ 4096 →
  chain m (base + 4096 * slotn q e) o o' → chain m' (base + 4096 * slotn q e) o o'.
Proof.
  intros Hk Hm. induction 1 as [|o n o' Hb Hn Ho Hle Ho' Hc IH]; [constructor|].
  eapply chain_cons; [|done..|by apply IH]. assert (8 ≤ 8 * ((n + 15) / 8)) by dlia.
  assert (base + 4096 * slotn q e + o + 4 = addr base q (4096 * e + (o + 4))) as E.
  { unfold addr. replace ((4096 * e + (o + 4)) / 4096) with e by dlia. replace ((4096 * e + (o + 4)) mod 4096) with (o + 4) by dlia. lia. }
  rewrite E in Hb |- *. eapply keeps_bytes; [exact Hk|..|exact Hb]; rewrite ?le_bytes_length; [|lia..]. 
  replace ((4096 * e + (o + 4)) mod 4096) with (o + 4) by dlia. lia.
Qed.

(** A header at position [p] leads to the end of its message. *)
Lemma chain_header m base q p id n l : p mod 4096 + 8 * ((n + 15) / 8) ≤ 4096 → 0 ≤ n ≤ 5000 →
  bytes_at m (addr base q p) (header_bytes id n ++ l) →
  chain m (base + 4096 * slotn q (p / 4096)) (p mod 4096) (p mod 4096 + 8 * ((n + 15) / 8)).
Proof.
  intros Hp Hn Hb. eapply chain_cons; [|done|dlia|lia|done|constructor].
  unfold header_bytes in Hb. rewrite <- app_assoc in Hb. apply bytes_at_app in Hb as [_ Hb]. by apply bytes_at_app in Hb as [Hb _].
Qed.

Section link.
Context {C : Type} `{VchiqClient C}.
Abbreviation S := (vchiq_state C).
Implicit Types (s : S) (m : mem).

Lemma walk_chain m a o fuel : chain m a o 4096 → 0 ≤ o → (Z.to_nat ((4096 - o) / 8) < fuel)%nat → loop fuel (walk_turn m a) o = Ret tt.
Proof.
  intros Hc. remember 4096 as e eqn:Ee. revert fuel. induction Hc as [o|o n o' Hb Hn Ho Hle Ho' Hc IH]; intros fuel H0 Hf; subst.
  - destruct fuel; [lia|]. done.
  - assert (8 ≤ 8 * ((n + 15) / 8)) by dlia. destruct fuel; [lia|]. cbn [loop].
    assert (walk_turn m a o = Ret (inl (o + 8 * ((n + 15) / 8)))) as ->.
    { unfold walk_turn, VCHIQ_SLOT_SIZE, header_size. zdec. cbn [negb]. rewrite load_le_bytes with (v := n) by done. rewrite Z.mod_small by lia.
      rewrite bind_ret, (s32_id n) by lia. rewrite vchiq_calc_stride_val, s32_id by lia. zdec. done. }
    rewrite bind_ret. apply IH; [done|lia|dlia].
Qed.

(** ** The invariant of a channel

    [q] and [r] are the sender's slot queue and its recycle index, [p] the
    receiver's position, [l] the messages between, [av] the queue index up to
    which the sender has taken slots back; [total] slots start at [base]. *)
Record chan (m : mem) (base total : Z) (q : list Z) (r p : Z) (l : list message) (av : Z) : Prop := {
  ch_len : length q = 64%nat;
  ch_pos : 0 ≤ p ∧ p mod 8 = 0;
  ch_window : p / 4096 + 2 ≤ r ≤ p / 4096 + 64;
  ch_ok : Forall msg_ok l;
  ch_room : ends p l ≤ 4096 * av ∧ av ≤ r ∧ ends p l < 2 ^ 31;
  ch_distinct : distinct q (p / 4096) r;
  ch_slots : ∀ e, p / 4096 ≤ e < r → 0 ≤ slotn q e < total;
  ch_mapped : mapped m base (4096 * total);
  ch_frames : frames m base q p l;
  ch_current : chain m (base + 4096 * slotn q (p / 4096)) 0 (p mod 4096);
  ch_recycled : ∀ e, av ≤ e < r → chain m (base + 4096 * slotn q e) 0 4096 }.

Lemma chan_backed m base total q r p l av lo hi : chan m base total q r p l av → p ≤ lo → hi ≤ 4096 * r → backed m base q lo hi.
Proof.
  intros Hc Hlo Hhi p' Hp'. destruct (ch_pos _ _ _ _ _ _ _ _ Hc). apply (ch_mapped _ _ _ _ _ _ _ _ Hc). unfold addr.
  pose proof (ch_slots _ _ _ _ _ _ _ _ Hc (p' / 4096) ltac:(dlia)). dlia.
Qed.

(** Sending extends the channel. *)
Lemma chan_send m m' base total q r p l av x : chan m base total q r p l av → msg_ok x →
  next (ends p l) x ≤ 4096 * av → next (ends p l) x < 2 ^ 31 →
  frame_at m' base q (ends p l) x → touches m m' base q (ends p l) (next (ends p l) x) → chan m' base total q r p (l ++ [x]) av.
Proof.
  intros Hc Hx Hr H31 Hf Ht. destruct Hc as [Hl [Hp H8] Hw Hok (Hrm & Hav & _) Hd Hs Hm Hfr Hcur Hrec].
  destruct (ends_bounds l p H8 Hok) as [Hle He8]. destruct (next_bounds (ends p l) x He8 Hx) as [Hlt _].
  assert (∀ lo hi, 4096 * (p / 4096) ≤ lo → hi ≤ 4096 * r → hi ≤ ends p l ∨ next (ends p l) x ≤ lo → keeps m m' base q lo hi) as Hk.
  { intros lo hi ???. eapply (touches_keeps _ _ _ _ _ _ (p / 4096) r); [exact Hd|exact Ht|dlia|lia|done|done|done]. }
  split; [done|done|done|by apply Forall_app_2; [|constructor]|rewrite ends_app; lia|done|done|by eapply mapped_touches|..].
  - apply frames_app. split; [|done]. apply (frames_keeps m); [done|done| |done]. apply Hk; dlia.
  - apply (chain_keeps m _ _ q (p / 4096)); [apply Hk; dlia|dlia|done].
  - intros e He. apply (chain_keeps m _ _ q e); [apply Hk; dlia|lia|by apply Hrec].
Qed.

(** ** Receiving takes the first message off *)
Lemma slotn_insert q r v e : length q = 64%nat →
  slotn (<[Z.to_nat (r mod 64) := v]> q) e = if decide (e mod 64 = r mod 64) then v else slotn q e.
Proof.
  intros Hl. unfold slotn. case_decide as E.
  - rewrite E. rewrite list_lookup_insert_eq by (rewrite Hl; dlia). done.
  - rewrite list_lookup_insert_ne by dlia. done.
Qed.

Lemma frame_queue m base q q' r p x : (∀ e, p / 4096 ≤ e < r → slotn q' e = slotn q e) → p mod 8 = 0 → msg_ok x → next p x ≤ 4096 * r →
  frame_at m base q p x → frame_at m base q' p x.
Proof.
  intros He H8 Hx Hr. pose proof (place_bounds p x H8 Hx). pose proof (stride_ok x Hx). unfold next, frame_at, addr in *.
  rewrite !He by dlia. done.
Qed.

Lemma frames_queue m base q q' r l : ∀ p, (∀ e, p / 4096 ≤ e < r → slotn q' e = slotn q e) → p mod 8 = 0 → Forall msg_ok l → ends p l ≤ 4096 * r →
  frames m base q p l → frames m base q' p l.
Proof.
  induction l as [|x l IH]; intros p He H8 Hl Hr; [done|]. intros [Hf Hfs]. inversion_clear Hl as [|?? Hx Hl'].
  destruct (next_bounds p x H8 Hx). destruct (ends_bounds l (next p x)) as [? _]; [done..|]. change (ends p (x :: l)) with (ends (next p x) l) in Hr.
  split; [apply (frame_queue m base q q' r); [done..|lia|done]|apply IH; [intros e ?; apply He; dlia|done..]].
Qed.

(** The headers of a frame, in the slot of its start and in the next one. *)
Lemma frame_chain m base q p x : p mod 8 = 0 → msg_ok x → frame_at m base q p x →
  (stride x ≤ space p → chain m (base + 4096 * slotn q (p / 4096)) (p mod 4096) (p mod 4096 + stride x)) ∧
  (space p < stride x → chain m (base + 4096 * slotn q (p / 4096)) (p mod 4096) 4096 ∧
    chain m (base + 4096 * slotn q (p / 4096 + 1)) 0 (stride x)).
Proof.
  intros H8 Hx [Hpad Hm]. pose proof (place_bounds p x H8 Hx) as (_ & _ & _ & _ & Hpl & Hpp). pose proof (stride_ok x Hx). pose proof (space_bounds p H8).
  split; intros Hs.
  - rewrite Hpp in Hm by done. apply (chain_header m base q p (msg_id x) (msg_len x) (msg_payload x)); [unfold space in *; fold (stride x); lia|lia|exact Hm].
  - split.
    + specialize (Hpad Hs). rewrite <- (app_nil_r (header_bytes _ _)) in Hpad. assert (8 * ((space p - 8 + 15) / 8) = space p) as E by dlia.
      pose proof (chain_header m base q p 0 (space p - 8) []) as Hc. rewrite E in Hc.
      replace (p mod 4096 + space p) with 4096 in Hc by (unfold space; lia). apply Hc; [done|lia|done].
    + rewrite Hpl in Hm by done. pose proof (chain_header m base q (4096 * (p / 4096 + 1)) (msg_id x) (msg_len x) (msg_payload x)) as Hc.
      fold (stride x) in Hc. replace (4096 * (p / 4096 + 1) / 4096) with (p / 4096 + 1) in Hc by dlia.
      replace ((4096 * (p / 4096 + 1)) mod 4096) with 0 in Hc by dlia. apply Hc; [lia..|exact Hm].
Qed.

Lemma chan_recv_same m base total q r p x l av : chan m base total q r p (x :: l) av → next p x / 4096 = p / 4096 → chan m base total q r (next p x) l av.
Proof.
  intros [Hl [Hp H8] Hw Hok (Hrm & Hav & H31) Hd Hs Hm [Hf Hfs] Hcur Hrec] E. inversion_clear Hok as [|?? Hx Hok'].
  pose proof (place_bounds p x H8 Hx) as (_ & _ & Hfit & _ & Hpl & Hpp). pose proof (stride_ok x Hx). destruct (next_bounds p x H8 Hx).
  assert (stride x ≤ space p) as Hsp by (destruct (Z.lt_ge_cases (space p) (stride x)) as [L|]; [|done]; specialize (Hpl L); unfold next in *; dlia).
  destruct (frame_chain m base q p x H8 Hx Hf) as [Hc _]. specialize (Hc Hsp). specialize (Hpp Hsp).
  split; [done|split; [lia|done]|by rewrite E|done|done|by rewrite E|by rewrite E|done|done| |done].
  rewrite E. eapply chain_trans; [exact Hcur| |dlia].
  replace (next p x mod 4096) with (p mod 4096 + stride x) by (unfold next in *; dlia). exact Hc.
Qed.

Lemma chan_recv_next m base total q r p x l av : chan m base total q r p (x :: l) av → next p x / 4096 ≠ p / 4096 →
  next p x / 4096 = p / 4096 + 1 ∧ slotn q (p / 4096 + 1) ≠ slotn q (p / 4096) ∧
  chan m base total (<[Z.to_nat (r mod 64) := slotn q (p / 4096)]> q) (r + 1) (next p x) l av.
Proof.
  intros [Hl [Hp H8] Hw Hok (Hrm & Hav & H31) Hd Hs Hm [Hf Hfs] Hcur Hrec] E. inversion_clear Hok as [|?? Hx Hok'].
  pose proof (place_bounds p x H8 Hx) as (_ & _ & Hfit & _ & Hpl & Hpp). pose proof (stride_ok x Hx). destruct (next_bounds p x H8 Hx).
  assert (next p x / 4096 = p / 4096 + 1) as E1.
  { destruct (Z.lt_ge_cases (space p) (stride x)) as [L|L]; [specialize (Hpl L)|specialize (Hpp L)]; unfold next, space in *; dlia. }
  assert (∀ e, p / 4096 + 1 ≤ e < r → slotn (<[Z.to_nat (r mod 64) := slotn q (p / 4096)]> q) e = slotn q e) as Hq.
  { intros e He. rewrite slotn_insert by done. rewrite decide_False; [done|]. dlia. }
  assert (slotn (<[Z.to_nat (r mod 64) := slotn q (p / 4096)]> q) r = slotn q (p / 4096)) as Hqr by (rewrite slotn_insert by done; by rewrite decide_True).
  destruct (ends_bounds l (next p x)) as [Hle _]; [done..|]. change (ends p (x :: l)) with (ends (next p x) l) in *.
  destruct (frame_chain m base q p x H8 Hx Hf) as [Hc1 Hc2].
  split; [done|]. split; [intros F; apply Hd in F; lia|].
  split; [by rewrite length_insert|split; [lia|done]|rewrite E1; lia|done|lia|..|done| | |].
  - rewrite E1. intros e e' He He'. destruct (decide (e = r)) as [->|], (decide (e' = r)) as [->|]; [done|..]; rewrite ?Hqr, ?Hq by lia; intros F; apply Hd in F; lia.
  - rewrite E1. intros e He. destruct (decide (e = r)) as [->|]; [rewrite Hqr; apply Hs; lia|rewrite Hq by lia; apply Hs; lia].
  - apply (frames_queue m base q _ r); [intros e He; apply Hq; lia|done|done|lia|done].
  - rewrite E1, Hq by lia. destruct (Z.lt_ge_cases (space p) (stride x)) as [L|L].
    + replace (next p x mod 4096) with (stride x) by (specialize (Hpl L); unfold next in *; dlia). by apply Hc2.
    + replace (next p x mod 4096) with 0 by (specialize (Hpp L); unfold next, space in *; dlia). constructor.
  - assert (chain m (base + 4096 * slotn q (p / 4096)) 0 4096) as Hfull.
    { eapply chain_trans; [exact Hcur| |lia]. destruct (Z.lt_ge_cases (space p) (stride x)) as [L|L]; [by apply Hc2|].
      specialize (Hc1 L). replace (p mod 4096 + stride x) with 4096 in Hc1 by (specialize (Hpp L); unfold next, space in *; dlia). done. }
    intros e He. destruct (decide (e = r)) as [->|]; [by rewrite Hqr|]. rewrite Hq by dlia. apply Hrec. lia.
Qed.

(** ** The receiver's loop *)

(** [s] after receiving: what the receiver changes. *)
Definition moved s (x : shared_state) (p n : Z) (k : kernel) (c : C) : S := with_client (with_rings (with_rx_pos (with_remote s x) p) n) k c.

(** The messages [l] are ahead of the receiver. *)
Definition receiving (total av : Z) s (l : list message) : Prop :=
  chan (vmem s) (slot_data s) total (slot_queue (remote s)) (slot_queue_recycle (remote s)) (rx_pos s) l av ∧ tx_pos (remote s) = ends (rx_pos s) l.
(** The slot the receiver is in. *)
Definition rx_slot s : Z := slotn (slot_queue (remote s)) (rx_pos s / 4096).

Lemma tx_header_slot s : length (slot_queue (remote s)) = 64%nat → 0 ≤ rx_pos s → vchiq_tx_header_to_slot_idx s = Ret (rx_slot s).
Proof.
  intros Hl Hp. unfold vchiq_tx_header_to_slot_idx, rx_slot, slotn, VCHIQ_SLOT_SIZE. rewrite Z.quot_div_nonneg, land_queue_mask by lia.
  destruct (lookup_lt_is_Some_2 (slot_queue (remote s)) (Z.to_nat (rx_pos s / 4096 mod 64))) as [v E]; [rewrite Hl; dlia|]. by rewrite E.
Qed.

Lemma release_slot_ok s v : let r := slot_queue_recycle (remote s) in length (slot_queue (remote s)) = 64%nat → 0 ≤ r < 2 ^ 31 - 1 →
  ∃ x n, vchiq_release_slot s v = Ret (moved s x (rx_pos s) n (vker s) (client s)) ∧
    slot_queue x = <[Z.to_nat (r mod 64) := v]> (slot_queue (remote s)) ∧ slot_queue_recycle x = r + 1 ∧ tx_pos x = tx_pos (remote s).
Proof.
  intros r Hl Hr. unfold vchiq_release_slot. fold r. rewrite land_queue_mask.
  destruct (lookup_lt_is_Some_2 (slot_queue (remote s)) (Z.to_nat (r mod 64))) as [v0 E]; [rewrite Hl; dlia|]. rewrite E. cbn [deref]. rewrite bind_ret.
  rewrite (s32_id (r + 1)) by lia. set (y := set_queue (remote s) (r + 1) (<[_ := v]> (slot_queue (remote s)))).
  exists (set_recycle y (fire (recycle y))), (rings s + if truth (armed (recycle y)) then 1 else 0). split; [|done].
  unfold signal_recycle. cbn [remote with_remote recycle set_recycle fire armed]. destruct (truth (armed (recycle y))); [done|].
  rewrite Z.add_0_r. done.
Qed.

Lemma find_service_eq s s' l port : services s' = services s → find_service l s' port = find_service l s port.
Proof. intros E. induction l as [|p l IH]; [done|]. cbn. by rewrite IH, E. Qed.

Lemma serves_same s s' x p cb : service_map s' = service_map s → services s' = services s → serves s x p cb → serves s' x p cb.
Proof.
  intros Em Es (Hf & Hr). unfold serves, vchiq_service_find_by_localport in *. rewrite Em, Es, (find_service_eq s s') by done. done.
Qed.

(** What a client's callback does with a message, whatever its address. *)
Context (handle : Z → Z → message → kernel * C → kernel * C).
Hypothesis handle_ok : ∀ cb p m h x kc, msg_ok x → msg_at m h x → on_data cb p m h kc = Ret (handle cb p x kc).

(** The service of [r0] a message is for takes it. *)
Definition takes (r0 : S) (x : message) (kc : kernel * C) : kernel * C :=
  match vchiq_service_find_by_localport r0 (msg_dst x) with
  | Ret p => match services r0 !! p with Some y => handle (data_callback y) p x kc | None => kc end
  | _ => kc
  end.

Lemma takes_serves r0 x p cb kc : serves r0 x p cb → takes r0 x kc = handle cb p x kc.
Proof. intros (Hf & _ & y & Hy & <- & _). unfold takes. by rewrite Hf, Hy. Qed.

Lemma takes_same s s' x kc : service_map s' = service_map s → services s' = services s → takes s' x kc = takes s x kc.
Proof. intros Em Es. unfold takes, vchiq_service_find_by_localport. by rewrite Em, Es, (find_service_eq s s'). Qed.

Lemma takes_all_same s s' l : service_map s' = service_map s → services s' = services s →
  ∀ kc, foldl (λ kc x, takes s' x kc) kc l = foldl (λ kc x, takes s x kc) kc l.
Proof. intros Em Es. induction l as [|x l IH]; intros kc; [done|]. cbn [foldl]. by rewrite (takes_same s s'), IH. Qed.

Lemma take_one fuel un s x p cb : let q := slot_queue (remote s) in let h := addr (slot_data s) q (place (rx_pos s) x) in
  length q = 64%nat → 0 ≤ rx_pos s → rx_pos s mod 8 = 0 → msg_ok x → next (rx_pos s) x < 2 ^ 31 → frame_at (vmem s) (slot_data s) q (rx_pos s) x →
  serves s x p cb → (2 ≤ fuel)%nat →
  vchiq_get_next_header_rx fuel s = Ret (h, with_rx_pos s (next (rx_pos s) x)) ∧
  ∃ k c, (k, c) = takes s x (vker s, client s) ∧
    vchiq_parse_rx_dispatch un (with_rx_pos s (next (rx_pos s) x)) h = Ret (ERR_OK, moved s (remote s) (next (rx_pos s) x) (rings s) k c).
Proof.
  intros q h Hl Hp H8 Hx H31 Hf Hs Hfu. split; [by apply get_next_header_ok|]. destruct (takes s x (vker s, client s)) as [k c] eqn:E.
  exists k, c. split; [done|]. rewrite (dispatch_ok un _ h x p cb k c); [by destruct s|done|by destruct Hf| |].
  - destruct Hs as (Hf' & Hr). split; [|exact Hr]. rewrite <- Hf'. by apply find_service_eq.
  - cbn [vmem with_rx_pos vker client]. rewrite handle_ok with (x := x) by (done || by destruct Hf). by rewrite <- (takes_serves s x p cb), E.
Qed.

Lemma moved_moved s x1 p1 n1 k1 c1 x2 p2 n2 k2 c2 : moved (moved s x1 p1 n1 k1 c1) x2 p2 n2 k2 c2 = moved s x2 p2 n2 k2 c2.
Proof. done. Qed.
Lemma moved_id s : moved s (remote s) (rx_pos s) (rings s) (vker s) (client s) = s.
Proof. by destruct s. Qed.

Lemma receiving_pos total av s x l : receiving total av s (x :: l) → rx_pos s < ends (rx_pos s) (x :: l).
Proof.
  intros [Hc _]. destruct (ch_pos _ _ _ _ _ _ _ _ Hc). pose proof (ch_ok _ _ _ _ _ _ _ _ Hc) as Hok. inversion_clear Hok as [|?? Hx Hl].
  destruct (next_bounds (rx_pos s) x); [done..|]. destruct (ends_bounds l (next (rx_pos s) x)); [done..|]. cbn. unfold ends in *. lia.
Qed.

(** A turn hands the first message over, and gives its slot back when it was
    the last one there. *)
Lemma parse_rx_turn_ok fuel un total av s x l p cb : receiving total av s (x :: l) → serves s x p cb → (2 ≤ fuel)%nat →
  ∃ y p' n k c, let s' := moved s y p' n k c in
    parse_rx_turn fuel un (s, rx_slot s) = Ret (inl (s', rx_slot s')) ∧ receiving total av s' l ∧ (k, c) = takes s x (vker s, client s) ∧ tx_pos y = tx_pos (remote s).
Proof.
  intros Hrx Hs Hf. pose proof (receiving_pos _ _ _ _ _ Hrx) as Hlt. destruct Hrx as [Hc Ht].
  pose proof (ch_len _ _ _ _ _ _ _ _ Hc) as Hl. destruct (ch_pos _ _ _ _ _ _ _ _ Hc) as [Hp H8]. pose proof (ch_ok _ _ _ _ _ _ _ _ Hc) as Hok.
  inversion_clear Hok as [|?? Hx Hok']. pose proof (ch_room _ _ _ _ _ _ _ _ Hc) as (_ & _ & H31). pose proof (ch_window _ _ _ _ _ _ _ _ Hc) as Hw.
  destruct (next_bounds (rx_pos s) x H8 Hx) as [Hnx _]. destruct (ends_bounds l (next (rx_pos s) x)) as [Hle _]; [by apply next_bounds|done|].
  change (ends (rx_pos s) (x :: l)) with (ends (next (rx_pos s) x) l) in *.
  destruct (take_one fuel un s x p cb) as (Hg & k & c & Hk & Hd); [done..|lia|apply (ch_frames _ _ _ _ _ _ _ _ Hc)|done|done|].
  unfold parse_rx_turn. rewrite (proj2 (Z.eqb_neq (rx_pos s) (tx_pos (remote s)))) by lia. rewrite Hg, bind_ret, Hd, bind_ret.
  change (negb (ERR_OK =? ERR_OK)) with false. cbv iota. set (s1 := moved s (remote s) (next (rx_pos s) x) (rings s) k c).
  rewrite (tx_header_slot s1) by (cbn; done || lia). rewrite bind_ret.
  destruct (decide (next (rx_pos s) x / 4096 = rx_pos s / 4096)) as [E|E].
  - assert (rx_slot s1 = rx_slot s) as -> by (unfold rx_slot; cbn; by rewrite E). rewrite Z.eqb_refl.
    exists (remote s), (next (rx_pos s) x), (rings s), k, c. split_and!; [unfold rx_slot; cbn; by rewrite E| |done|done].
    split; [by eapply chan_recv_same|done].
  - destruct (chan_recv_next _ _ _ _ _ _ _ _ _ Hc E) as (E1 & Hne & Hc').
    assert (rx_slot s1 = slotn (slot_queue (remote s)) (rx_pos s / 4096 + 1)) as Hs1 by (unfold rx_slot; cbn; by rewrite E1).
    rewrite (proj2 (Z.eqb_neq (rx_slot s1) (rx_slot s))) by (by rewrite Hs1).
    destruct (release_slot_ok s1 (rx_slot s)) as (y & n & Hr & Hq & Hi & Hty); [done|cbn; dlia|]. rewrite Hr, bind_ret.
    exists y, (next (rx_pos s) x), n, k, c. unfold s1 in Hr, Hq, Hi, Hty |- *. cbn in Hq, Hi, Hty. rewrite moved_moved. split_and!; [|split|done|done].
    + cbn [rx_pos vker client moved with_client]. do 3 f_equal. unfold rx_slot. cbn. rewrite Hq, slotn_insert by done.
      rewrite decide_False by (pose proof (place_bounds (rx_pos s) x H8 Hx); dlia). done.
    + cbn. rewrite Hq, Hi. exact Hc'.
    + cbn. by rewrite Hty.
Qed.

Definition served s (l : list message) : Prop := ∀ x, x ∈ l → ∃ p cb, serves s x p cb.

(** The whole of what is ahead is handed over, in order. *)
Lemma parse_rx_all fuel0 un total av l : ∀ fuel s, receiving total av s l → served s l → (2 ≤ fuel0)%nat → (length l < fuel)%nat →
  ∃ y p' n k c, let s' := moved s y p' n k c in
    loop fuel (parse_rx_turn fuel0 un) (s, rx_slot s) = Ret (ERR_OK, s') ∧ receiving total av s' [] ∧
    (k, c) = foldl (λ kc x, takes s x kc) (vker s, client s) l ∧ tx_pos y = tx_pos (remote s).
Proof.
  induction l as [|x l IH]; intros fuel s Hrx Hs H2 Hf; (destruct fuel; [cbn in Hf; lia|]).
  - exists (remote s), (rx_pos s), (rings s), (vker s), (client s). cbv zeta. rewrite moved_id. split_and!; [|done..].
    cbn [loop]. unfold parse_rx_turn. destruct Hrx as [_ Ht]. cbn in Ht. rewrite Ht, Z.eqb_refl. done.
  - destruct (Hs x) as (p & cb & Hsx); [by left|]. destruct (parse_rx_turn_ok fuel0 un _ _ _ _ _ _ _ Hrx Hsx H2) as (y & p' & n & k & c & Ht & Hr' & Hk & Hty).
    destruct (IH fuel (moved s y p' n k c)) as (y2 & p2 & n2 & k2 & c2 & Hl & Hr2 & Hk2 & Hty2); [done| |done|cbn in Hf; lia|].
    { intros z Hz. destruct (Hs z) as (pz & cz & Hsz); [by right|]. exists pz, cz. by apply (serves_same s). }
    exists y2, p2, n2, k2, c2. rewrite moved_moved in Hl, Hr2. split_and!; [|done| |by rewrite Hty2].
    + cbn [loop]. rewrite Ht. exact Hl.
    + rewrite Hk2, (takes_all_same s) by done. cbn [foldl]. by rewrite <- Hk.
Qed.

Lemma parse_rx_ok fuel un total av s l : receiving total av s l → served s l → (length l + 2 ≤ fuel)%nat →
  ∃ y p' n k c, let s' := moved s y p' n k c in
    vchiq_parse_rx fuel un s = Ret (ERR_OK, s') ∧ receiving total av s' [] ∧
    (k, c) = foldl (λ kc x, takes s x kc) (vker s, client s) l ∧ tx_pos y = tx_pos (remote s).
Proof.
  intros Hrx Hs Hf. unfold vchiq_parse_rx. pose proof Hrx as [Hc _].
  rewrite tx_header_slot by (apply (ch_len _ _ _ _ _ _ _ _ Hc) || apply (ch_pos _ _ _ _ _ _ _ _ Hc)). rewrite bind_ret. by apply (parse_rx_all fuel un total av); [..|lia|lia].
Qed.

(** ** The sender takes slots back *)

(** Nobody holds the semaphore's lock or waits for it. *)
Definition sem_free (x : sem_state) : Prop := lock (sem x) = 0 ∧ list_empty (hp (ker x)) (wait_list (sem x)) = Ret true.

Lemma semaphore_up_free x : sem_free x → ∃ x', semaphore_up x = Ret x' ∧ sem_free x'.
Proof.
  intros [Hl He]. unfold semaphore_up, spinlock_lock_disable_irq, spinlock_lock_irq. cbn [sem with_ker lock]. rewrite Hl, Z.eqb_refl, !bind_ret.
  cbn [ker with_ker with_lock hp with_irq wait_list sem]. rewrite He, bind_ret. eexists. split; [reflexivity|]. split; [done|exact He].
Qed.

Definition semaphore_of s : sem_state := SemState (vker s) (slot_available_event s) (slot_waiters s).
(** [s] after taking slots back: what that changes. *)
Definition taken s (v : Z) (x : sem_state) : S := with_sem (with_available s v) x.

Lemma free_turn_end fuel0 s x : let r := slot_queue_recycle (local s) in free_queue_turn fuel0 (taken s r x, r) = Ret (inr (taken s r x)).
Proof. unfold free_queue_turn. cbn [local taken with_sem with_available]. by rewrite Z.eqb_refl. Qed.

Lemma free_turn_step fuel0 s x av total p l : let r := slot_queue_recycle (local s) in av < r < 2 ^ 31 → 0 ≤ av →
  chan (vmem s) (slot_data s) total (slot_queue (local s)) r p l av → sem_free x → (512 < fuel0)%nat →
  ∃ x', free_queue_turn fuel0 (taken s av x, av) = Ret (inl (taken s (av + 1) x', av + 1)) ∧ sem_free x'.
Proof.
  intros r Hr Hav Hc Hx H0. unfold free_queue_turn. cbn [local taken with_sem with_available]. fold r.
  rewrite (proj2 (Z.eqb_neq av r)) by lia. rewrite land_queue_mask. pose proof (ch_len _ _ _ _ _ _ _ _ Hc) as Hl.
  destruct (lookup_lt_is_Some_2 (slot_queue (local s)) (Z.to_nat (av mod 64))) as [v E]; [rewrite Hl; dlia|]. rewrite E. cbn [deref]. rewrite bind_ret.
  pose proof (ch_recycled _ _ _ _ _ _ _ _ Hc av ltac:(lia)) as Hch. unfold slotn in Hch. rewrite E in Hch. cbn [default] in Hch.
  rewrite (walk_chain _ (slot_addr _ v) 0 fuel0); [|exact Hch|lia|exact H0]. rewrite bind_ret.
  destruct (semaphore_up_free x Hx) as (x' & Hu & Hx'). cbn [vker slot_available_event slot_waiters with_available with_sem taken].
  destruct x as [kx sx wx]. cbn [ker sem waiters]. rewrite Hu, bind_ret, s32_id by lia. by exists x'.
Qed.

Lemma free_loop fuel0 s total p l : ∀ n fuel x av, let r := slot_queue_recycle (local s) in
  n = Z.to_nat (r - av) → 0 ≤ av → chan (vmem s) (slot_data s) total (slot_queue (local s)) r p l av → sem_free x →
  (512 < fuel0)%nat → (n < fuel)%nat →
  ∃ x', loop fuel (free_queue_turn fuel0) (taken s av x, av) = Ret (taken s r x') ∧ sem_free x'.
Proof.
  induction n as [|n IH]; intros fuel x av r Hn Hav Hc Hx H0 Hf; (destruct fuel; [lia|]); cbn [loop]; pose proof (ch_room _ _ _ _ _ _ _ _ Hc) as (_ & Hle & _).
  - assert (av = r) as -> by lia. unfold r. rewrite free_turn_end. by exists x.
  - pose proof (ch_window _ _ _ _ _ _ _ _ Hc). pose proof (ch_room _ _ _ _ _ _ _ _ Hc). destruct (ch_pos _ _ _ _ _ _ _ _ Hc) as [Hp0 Hp8].
    destruct (ends_bounds l p) as [Hpe _]; [done|apply (ch_ok _ _ _ _ _ _ _ _ Hc)|].
    destruct (free_turn_step fuel0 s x av total p l) as (x' & Hu & Hx'); [fold r; dlia|done..|]. rewrite Hu, bind_ret.
    apply (IH fuel x' (av + 1)); [fold r; lia|lia| |done|done|lia]. destruct Hc. split; try done; [fold r; lia|]. intros e He. apply ch_recycled0. lia.
Qed.

Lemma free_queue_ok fuel s total p l : let r := slot_queue_recycle (local s) in let av := slot_queue_available s in
  0 ≤ av → chan (vmem s) (slot_data s) total (slot_queue (local s)) r p l av → sem_free (semaphore_of s) → (512 < fuel)%nat →
  ∃ x, vchiq_process_free_queue fuel s = Ret (taken s r x) ∧ sem_free x ∧ chan (vmem s) (slot_data s) total (slot_queue (local s)) r p l r.
Proof.
  intros r av Hav Hc Hx Hf. pose proof (ch_room _ _ _ _ _ _ _ _ Hc) as Hr. unfold vchiq_process_free_queue.
  destruct (free_loop fuel s total p l _ fuel (semaphore_of s) av eq_refl Hav Hc Hx Hf) as (x & Hl & Hx').
  { pose proof (ch_window _ _ _ _ _ _ _ _ Hc). destruct (ch_pos _ _ _ _ _ _ _ _ Hc) as [Hp0 Hp8].
    destruct (ends_bounds l p) as [Hpe _]; [done|apply (ch_ok _ _ _ _ _ _ _ _ Hc)|]. dlia. }
  exists x. split_and!; [|done|].
  - etransitivity; [|exact Hl]. do 2 f_equal. by destruct s.
  - destruct Hc. split; try done; [lia|]. intros e He. lia.
Qed.
End link.

(** ** The start *)
Lemma fill_queue_ok first last q : length q = 64%nat → 0 ≤ first → first ≤ last + 1 ≤ first + 64 →
  ∃ q', fill_queue first last q = Ret (q', last + 1 - first) ∧ length q' = 64%nat ∧ ∀ e, 0 ≤ e < last + 1 - first → slotn q' e = first + e.
Proof.
  intros Hl H0 Hle. unfold fill_queue.
  destruct (forZ_inv (λ i '(q', available), available = i - first ∧ length q' = 64%nat ∧ ∀ e, 0 ≤ e < i - first → slotn q' e = first + e)
    first (last + 1) (λ i '(q, available), _ ← deref (q !! Z.to_nat available); Ret (<[Z.to_nat available := i]> q, available + 1)) (q, 0))
    as ([q' av] & Hr & -> & Hq & He); [lia|split_and!; [lia|done|lia]| |by exists q'].
  intros i [q' av] Hi (-> & Hq & He). destruct (lookup_lt_is_Some_2 q' (Z.to_nat (i - first))) as [v E]; [lia|].
  rewrite E. cbn [deref]. rewrite bind_ret. eexists (_, _). split; [reflexivity|]. split_and!; [lia|by rewrite length_insert|].
  intros e Hb. replace (Z.to_nat (i - first)) with (Z.to_nat ((i - first) mod 64)) by (rewrite Z.mod_small by lia; done).
  rewrite slotn_insert by done. case_decide as D; [rewrite !Z.mod_small in D by lia; lia|]. apply He. rewrite !Z.mod_small in D by lia. lia.
Qed.

(** A side after [vchiq_init_state]. *)
Definition started {C} (base : Z) (m : mem) (x y : shared_state) (s : vchiq_state C) : Prop :=
  vmem s = m ∧ slot_data s = base ∧ remote s = y ∧ local_tx_pos s = 0 ∧ rx_pos s = 0 ∧ tx_pos (local s) = 0 ∧
  slot_queue_available s = slot_last x + 1 - slot_first x ∧ slot_queue_recycle (local s) = slot_last x + 1 - slot_first x ∧
  length (slot_queue (local s)) = 64%nat ∧ (∀ e, 0 ≤ e < slot_last x + 1 - slot_first x → slotn (slot_queue (local s)) e = slot_first x + e) ∧
  sem_free (semaphore_of s).

Lemma store_le_mapped n m p v m' q k : store_le n m p v = Ret m' → mapped m q k → mapped m' q k.
Proof.
  revert m p v; induction n as [|n IH]; intros m p v Hs Hm; [by injection Hs as <-|]. cbn [store_le] in Hs. apply bind_inv in Hs as (m1 & H1 & Hs).
  apply (IH m1 _ _ Hs). intros a Ha. unfold store8 in H1. destruct (m !! p); [|done]. ret_inv H1. subst m1.
  destruct (decide (a = p)) as [->|]; [rewrite lookup_insert_eq; by eexists|rewrite lookup_insert_ne by done; by apply Hm].
Qed.

Lemma init_state_ok {C} base m x y f sm k (c : C) s : vchiq_init_state 0 base m x y f sm k c = Ret s → length (slot_queue x) = 64%nat → 0 ≤ slot_first x →
  slot_first x ≤ slot_last x + 1 ≤ slot_first x + 64 → ∃ m', store_le 4 m (base + VCHIQ_SLOT_SIZE * slot_sync x) VCHIQ_MSGID_PADDING = Ret m' ∧ started base m' x y s.
Proof.
  intros Hs Hl H0 Hle. unfold vchiq_init_state in Hs. destruct (fill_queue_ok _ _ _ Hl H0 Hle) as (q & Hq & Hlq & He). rewrite Hq, bind_ret in Hs.
  apply bind_inv in Hs as (w & Hw & Hs). apply bind_inv in Hs as (m' & Hm & Hs). apply bind_inv in Hs as ([] & _ & Hs). ret_inv Hs. subst s.
  exists m'. split; [done|]. unfold started. cbn [vmem slot_data local remote local_tx_pos rx_pos tx_pos slot_queue slot_queue_recycle slot_queue_available].
  do 10 (split; [done|]). unfold semaphore_init in Hw. cbn [ker sem waiters] in Hw. apply bind_inv in Hw as (σ & Hσ & Hw). ret_inv Hw. subst w.
  split; [done|]. cbn [semaphore_of hp vker ker slot_available_event sem wait_list with_hp].
  cbn [hp with_words] in Hσ. destruct (INIT_LIST_HEAD_ring (hp k) (wait_list sm)) as (σ' & Hσ' & Hd & _).
  { unfold INIT_LIST_HEAD, set_next in Hσ. destruct (hp k !! wait_list sm); [by eexists|done]. }
  rewrite Hσ in Hσ'. ret_inv Hσ'. subst σ'. by rewrite (list_empty_ring _ _ [] Hd).
Qed.

(** The slots of a side: from [slot_first], enough for the queue and not too many. *)
Definition side_slots (total : Z) (x : shared_state) : Prop :=
  length (slot_queue x) = 64%nat ∧ 0 ≤ slot_first x ∧ slot_first x + 1 ≤ slot_last x ≤ slot_first x + 63 ∧ slot_last x < total.

Lemma init_slots_ok base size : 4096 * 8 ≤ size ≤ 4096 * 131 →
  ∃ a z total, vchiq_init_slots base size = Some (a, z) ∧ base ≤ a ∧ a + 4096 * total ≤ base + size ∧
    side_slots total (master z) ∧ side_slots total (slave z).
Proof.
  intros Hs. unfold vchiq_init_slots. rewrite land_slot_mask. change VCHIQ_SLOT_ZERO_SLOTS with 1. unfold VCHIQ_SLOT_SIZE.
  set (al := (4096 - s32 base) mod 4096). assert (0 ≤ al < 4096) by (apply Z.mod_pos_bound; lia). rewrite Z.quot_div_nonneg by lia.
  set (n := (size - al) / 4096 - 1). assert (6 ≤ n ≤ 130 ∧ 4096 * (n + 1) ≤ size - al) as [? ?] by (unfold n; dlia). clearbody n. rewrite Z.quot_div_nonneg by lia. zdec.
  eexists _, _, (n + 1). split; [done|]. unfold side_slots. cbn [master slave zero_shared slot_queue slot_first slot_last].
  rewrite !length_replicate. change (Z.to_nat VCHIQ_MAX_SLOTS_PER_SIDE) with 64%nat. split_and!; try done; dlia.
Qed.

Section system.
Context {C : Type} `{VchiqClient C}.
Abbreviation S := (vchiq_state C).
Implicit Types (s w r : S) (m : mem).

(** [s] when the other side is [o]: the slots and the shared states are the same memory. *)
Definition see (o s : S) : S := with_mem (with_local (with_remote s (local o)) (remote o)) (vmem o).

(** Both sides start: the sender is the slave, as the code is, the receiver the master. *)
Definition link_start (base size : Z) m (fw fr : waitflags) (sw sr : semaphore) (kw kr : kernel) (cw cr : C) : outcome (S * S) :=
  match vchiq_init_slots base size with
  | None => Fault
  | Some (a, z) =>
    w ← vchiq_init_state 0 a m (slave z) (master z) fw sw kw cw;
    r ← vchiq_init_state 0 a (vmem w) (master z) (local w) fr sr kr cr;
    Ret (see r w, r)
  end.

(** The message fits the slots the sender has; nothing in the code tests it. *)
Definition room (w : S) (x : message) : Prop :=
  next (local_tx_pos w) x ≤ 4096 * slot_queue_available w ∧ next (local_tx_pos w) x < 2 ^ 31.
Definition send (w : S) (x : message) : outcome S :=
  w ← vchiq_handmade_prep_msg w VCHIQ_MSG_DATA (msg_src x) (msg_dst x) (msg_payload x); Ret (signal_trigger w).

(** [run w0 r0 w r sent]: the sides are [w] and [r] once [w] has sent [sent]. *)
Inductive run (w0 r0 : S) : S → S → list message → Prop :=
| run_start : run w0 r0 w0 r0 []
| run_send w r sent x w' : run w0 r0 w r sent → msg_ok x → served r0 [x] → room w x → send w x = Ret w' → run w0 r0 w' (see w' r) (sent ++ [x])
| run_receive w r sent fuel un err r' : run w0 r0 w r sent → (length sent + 2 ≤ fuel)%nat → vchiq_parse_rx fuel un r = Ret (err, r') →
  run w0 r0 (see r' w) r' sent
| run_free w r sent fuel w' : run w0 r0 w r sent → (512 < fuel)%nat → vchiq_process_free_queue fuel w = Ret w' → run w0 r0 w' (see w' r) sent.

Context (handle : Z → Z → message → kernel * C → kernel * C).
Hypothesis handle_ok : ∀ cb p m h x kc, msg_ok x → msg_at m h x → on_data cb p m h kc = Ret (handle cb p x kc).

(** What the client of [r0] has when it has taken the messages [l]. *)
Definition taken_by (r0 : S) (l : list message) : kernel * C := foldl (λ kc x, takes handle r0 x kc) (vker r0, client r0) l.

(** The sides agree, [done_] is handed over and [l] is between them. *)
Record linked (total : Z) (r0 w r : S) (done_ l : list message) : Prop := {
  lk_chan : chan (vmem w) (slot_data w) total (slot_queue (local w)) (slot_queue_recycle (local w)) (rx_pos r) l (slot_queue_available w);
  lk_pos : tx_pos (local w) = ends (rx_pos r) l ∧ local_tx_pos w = ends (rx_pos r) l;
  lk_same : local w = remote r ∧ remote w = local r ∧ vmem w = vmem r ∧ slot_data w = slot_data r;
  lk_sem : 0 ≤ slot_queue_available w ∧ sem_free (semaphore_of w);
  lk_served : served r0 l;
  lk_services : service_map r = service_map r0 ∧ services r = services r0;
  lk_client : (vker r, client r) = taken_by r0 done_ }.

(** The services of [r] come from elsewhere ([vchiq_alloc_service]). *)
Lemma start_linked base size m fw fr sw sr kw kr (cw cr : C) w r sm sv : 4096 * 8 ≤ size ≤ 4096 * 131 → mapped m base size →
  link_start base size m fw fr sw sr kw kr cw cr = Ret (w, r) → ∃ total, linked total (with_services r sm sv) w (with_services r sm sv) [] [] ∧
    rx_pos r = 0 ∧ 2 ≤ slot_queue_available w.
Proof.
  intros Hs Hm Hl. destruct (init_slots_ok base size Hs) as (a & z & total & Hi & Ha & Hat & (Mq & M0 & Ml & Mt) & Sq & S0 & Sl & St).
  unfold link_start in Hl. rewrite Hi in Hl. apply bind_inv in Hl as (w1 & Hw & Hl). apply bind_inv in Hl as (r1 & Hr & Hl). injection Hl as <- <-.
  apply init_state_ok in Hw as (m1 & Hm1 & Hw); [|done|done|lia]. apply init_state_ok in Hr as (m2 & Hm2 & Hr); [|done|done|lia].
  destruct Hw as (Ew & Ew1 & Ew2 & Ew3 & Ew4 & Ew5 & Ew6 & Ew7 & Ew8 & Ew9 & Ew10). destruct Hr as (Er & Er1 & Er2 & Er3 & Er4 & Er5 & Er6 & Er7 & Er8 & Er9 & Er10).
  exists total. split; [|cbn; split; [done|lia]]. split; cbn; rewrite ?Er, ?Er1, ?Er2, ?Er4, ?Ew1, ?Ew3, ?Ew5, ?Ew6, ?Ew7; cbn; try done; [|split; [lia|done]|intros ? []%elem_of_nil].
  set (n := slot_last (slave z) + 1 - slot_first (slave z)) in *.
  split; [done|done|change (0 / 4096) with 0; lia|done|cbn; lia|..].
  - intros e e' He He'. change (0 / 4096) with 0 in *. rewrite !Ew9 by lia. lia.
  - intros e He. change (0 / 4096) with 0 in *. rewrite Ew9 by lia. lia.
  - eapply store_le_mapped; [exact Hm2|]. rewrite Ew. eapply store_le_mapped; [exact Hm1|]. intros b Hb. apply Hm. lia.
  - done.
  - constructor.
  - intros e He. lia.
Qed.

Lemma send_linked total r0 w r d l x : linked total r0 w r d l → msg_ok x → served r0 [x] → room w x →
  ∃ w', send w x = Ret w' ∧ linked total r0 w' (see w' r) d (l ++ [x]) ∧ slot_queue_available w' = slot_queue_available w.
Proof.
  intros [Hc [Ht Hp] (Esh & Eh & Em & Ed) Hsem Hs Hsv Hk] Hx Hsx [Hroom H31]. rewrite Hp in *.
  pose proof (ch_len _ _ _ _ _ _ _ _ Hc) as Hl. destruct (ch_pos _ _ _ _ _ _ _ _ Hc) as [Hp0 Hp8].
  destruct (ends_bounds l (rx_pos r)) as [Hle He8]; [done|apply (ch_ok _ _ _ _ _ _ _ _ Hc)|]. pose proof (ch_room _ _ _ _ _ _ _ _ Hc) as (_ & Hav & _).
  destruct (prep_msg_ok w x (rx_pos r / 4096) (slot_queue_recycle (local w))) as (m & Hm & Hf & Hto); rewrite ?Hp; [done|lia|done..|apply (ch_distinct _ _ _ _ _ _ _ _ Hc)|dlia|lia| |].
  { eapply chan_backed; [exact Hc|lia|lia]. }
  rewrite Hp in *. unfold send. rewrite Hm, bind_ret. eexists. split; [reflexivity|].
  pose proof (chan_send _ m _ _ _ _ _ _ _ x Hc Hx Hroom H31 Hf Hto) as Hc'.
  unfold signal_trigger. destruct (truth _); (split; [|done]); (split; cbn; [exact Hc'|by rewrite ends_app|by rewrite <- ?Ed|exact Hsem| |exact Hsv|exact Hk]);
    (intros y Hy; apply elem_of_app in Hy as [Hy|Hy]; [by apply Hs|by apply Hsx]).
Qed.

Lemma receive_linked total r0 w r d l fuel un : linked total r0 w r d l → (length l + 2 ≤ fuel)%nat →
  ∃ r', vchiq_parse_rx fuel un r = Ret (ERR_OK, r') ∧ linked total r0 (see r' w) r' (d ++ l) [].
Proof.
  intros [Hc [Ht Hp] (Esh & Eh & Em & Ed) Hsem Hs [Hsv1 Hsv2] Hk] Hf.
  destruct (parse_rx_ok handle handle_ok fuel un total (slot_queue_available w) r l) as (y & p' & n & k & c & Hr & [Hc' Ht'] & Hk' & Hty).
  - split; [by rewrite <- Em, <- Ed, <- Esh|by rewrite <- Esh].
  - intros x Hx. destruct (Hs x Hx) as (p & cb & Hsx). exists p, cb. by apply (serves_same r0).
  - lia.
  - eexists. split; [exact Hr|]. cbn in Hc', Ht'.
    assert (local_tx_pos w = ends p' []) as Hp'. { rewrite Hp, <- Ht, Esh, <- Hty. exact Ht'. }
    split; cbn; [by rewrite Ed|done|done|exact Hsem|intros ? []%elem_of_nil|done|].
    unfold taken_by in *. rewrite foldl_app, <- Hk, Hk'. by apply takes_all_same.
Qed.

Lemma free_linked total r0 w r d l fuel : linked total r0 w r d l → (512 < fuel)%nat →
  ∃ w', vchiq_process_free_queue fuel w = Ret w' ∧ linked total r0 w' (see w' r) d l ∧
    local_tx_pos w' = local_tx_pos w ∧ slot_queue_available w' = slot_queue_recycle (local w).
Proof.
  intros [Hc Hpos (Esh & Eh & Em & Ed) [Hav Hsem] Hs Hsv Hk] Hf. destruct (free_queue_ok fuel w total _ _ Hav Hc Hsem Hf) as (x & Hx & Hx' & Hc').
  eexists. split; [exact Hx|]. split; [|done].
  split; cbn; [exact Hc'|done|done|split; [|by destruct x]|done|done|done].
  pose proof (ch_room _ _ _ _ _ _ _ _ Hc). lia.
Qed.

Lemma run_linked total w0 r0 w r sent : linked total r0 w0 r0 [] [] → run w0 r0 w r sent → ∃ d l, sent = d ++ l ∧ linked total r0 w r d l.
Proof.
  intros H0. induction 1 as [|w r sent x w' _ (d & l & -> & Hl) Hx Hsx Hroom Hs|w r sent fuel un err r' _ (d & l & -> & Hl) Hf Hr|w r sent fuel w' _ (d & l & -> & Hl) Hf Hw].
  - by exists [], [].
  - destruct (send_linked _ _ _ _ _ _ _ Hl Hx Hsx Hroom) as (w1 & Hs1 & Hl1 & _). rewrite Hs in Hs1. injection Hs1 as <-. exists d, (l ++ [x]). by rewrite app_assoc.
  - rewrite length_app in Hf. destruct (receive_linked _ _ _ _ _ _ fuel un Hl) as (r1 & Hr1 & Hl1); [lia|]. rewrite Hr in Hr1. injection Hr1 as -> ->. exists (d ++ l), []. by rewrite app_nil_r.
  - destruct (free_linked _ _ _ _ _ _ _ Hl Hf) as (w1 & Hw1 & Hl1 & _). rewrite Hw in Hw1. injection Hw1 as <-. by exists d, l.
Qed.

(** A signal that comes between the test and the arming of a wait is lost: the
    bell is not rung, and the wait blocks although the event has fired. *)
Lemma event_signal_lost fuel now w r s' through : remote w = local r → event_wait_test trigger r = false → armed (trigger (local r)) = 0 →
  words (vker r) !! trigger_waitflag (vflags r) = Some 0 →
  let w' := signal_trigger w in let r' := event_wait_arm trigger set_trigger (see w' r) in
  rings w' = rings w ∧ trigger (local r') = RemoteEvent 1 1 ∧
  (event_wait_block fuel now (trigger_waitflag (vflags r)) r' = Ret (s', through) → through = false).
Proof.
  intros Er Ht Ha Hw. unfold signal_trigger. cbn [remote with_remote trigger set_trigger fire armed]. rewrite Er, Ha. change (truth 0) with false. cbv iota.
  split; [done|]. split; [done|]. unfold event_wait_block. cbn [event_wait_arm vker with_local see with_mem with_remote]. rewrite Hw. cbn [deref]. rewrite bind_ret.
  intros E. apply bind_inv in E as (k & _ & E). by injection E.
Qed.

(** C14: from two fresh sides of the queue, for any order of sending, receiving and
    taking slots back, what the receiver's services have been given is a
    prefix of what was sent, in order, each message once; [vchiq_parse_rx]
    always returns without error and brings them up to date, the walk over the
    recycled slots returns without hitting its [BUG], and sending returns
    whenever the message fits the slots the sender has. *)
Theorem vchiq_channel_fifo base size m fw fr sw sr kw kr (cw cr : C) w0 rr sm sv w r sent :
  4096 * 8 ≤ size ≤ 4096 * 131 → mapped m base size → link_start base size m fw fr sw sr kw kr cw cr = Ret (w0, rr) →
  let r0 := with_services rr sm sv in run w0 r0 w r sent →
  (∃ d l, sent = d ++ l ∧ (vker r, client r) = taken_by r0 d) ∧
  (∀ fuel un, (length sent + 2 ≤ fuel)%nat → ∃ r', vchiq_parse_rx fuel un r = Ret (ERR_OK, r') ∧ (vker r', client r') = taken_by r0 sent) ∧
  (∀ x, msg_ok x → served r0 [x] → room w x → ∃ w', send w x = Ret w') ∧
  (∀ fuel, (512 < fuel)%nat → ∃ w', vchiq_process_free_queue fuel w = Ret w').
Proof.
  intros Hs Hm Hst r0 Hrun. destruct (start_linked _ _ _ _ _ _ _ _ _ _ _ _ _ sm sv Hs Hm Hst) as (total & H0 & _).
  destruct (run_linked _ _ _ _ _ _ H0 Hrun) as (d & l & -> & Hl). split_and!.
  - exists d, l. split; [done|apply Hl].
  - intros fuel un Hf. rewrite length_app in Hf. destruct (receive_linked _ _ _ _ _ _ fuel un Hl) as (r' & Hr & Hl'); [lia|]. exists r'. split; [done|apply Hl'].
  - intros x Hx Hsx Hroom. destruct (send_linked _ _ _ _ _ _ _ Hl Hx Hsx Hroom) as (w' & Hw & _). by exists w'.
  - intros fuel Hf. destruct (free_linked _ _ _ _ _ _ _ Hl Hf) as (w' & Hw & _). by exists w'.
Qed.

(** C34: the queue does not run dry: in every state the sides can reach, once the
    receiver has parsed and the sender has taken the slots back, any message
    fits (as long as the positions stay in 32 bits). *)
Theorem vchiq_slots_come_back base size m fw fr sw sr kw kr (cw cr : C) w0 rr sm sv w r sent fuel un :
  4096 * 8 ≤ size ≤ 4096 * 131 → mapped m base size → link_start base size m fw fr sw sr kw kr cw cr = Ret (w0, rr) →
  run w0 (with_services rr sm sv) w r sent → local_tx_pos w < 2 ^ 31 - 8192 → (512 < fuel)%nat → (length sent + 2 ≤ fuel)%nat →
  ∃ r' w', vchiq_parse_rx fuel un r = Ret (ERR_OK, r') ∧ vchiq_process_free_queue fuel (see r' w) = Ret w' ∧ ∀ x, msg_ok x → room w' x.
Proof.
  intros Hs Hm Hst Hrun H31 Hf Hf2. destruct (start_linked _ _ _ _ _ _ _ _ _ _ _ _ _ sm sv Hs Hm Hst) as (total & H0 & _).
  destruct (run_linked _ _ _ _ _ _ H0 Hrun) as (d & l & -> & Hl). rewrite length_app in Hf2.
  destruct (receive_linked _ _ _ _ _ _ fuel un Hl) as (r' & Hr & Hl'); [lia|]. destruct (free_linked _ _ _ _ _ _ _ Hl' Hf) as (w' & Hw & _ & Htx & Hav).
  exists r', w'. split; [done|]. split; [done|]. intros x Hx. destruct Hl' as [Hc [_ Hp] _ _ _ _ _]. unfold room. rewrite Htx, Hav.
  cbn in Hp. destruct (ch_pos _ _ _ _ _ _ _ _ Hc) as [Hp0 Hp8]. pose proof (ch_window _ _ _ _ _ _ _ _ Hc) as Hwin.
  cbn [local_tx_pos see with_mem with_local with_remote] in *. rewrite Hp in *. pose proof (place_bounds (rx_pos r') x Hp8 Hx). pose proof (stride_ok x Hx). unfold next. dlia.
Qed.
End system.

(** ** Examples *)

(** Both sides do start. *)
Lemma init_state_returns {C} base m x y f sm k (c : C) : length (slot_queue x) = 64%nat → 0 ≤ slot_first x → slot_first x ≤ slot_last x + 1 ≤ slot_first x + 64 →
  mapped m (base + VCHIQ_SLOT_SIZE * slot_sync x) 4 → is_Some (hp k !! wait_list sm) →
  ∃ s, vchiq_init_state 0 base m x y f sm k c = Ret s ∧ client s = c.
Proof.
  intros Hl H0 Hle Hm Hk. unfold vchiq_init_state. destruct (fill_queue_ok _ _ _ Hl H0 Hle) as (q & Hq & _). rewrite Hq, bind_ret.
  destruct (INIT_LIST_HEAD_ring (hp k) (wait_list sm) Hk) as (σ & Hσ & _). unfold semaphore_init. cbn [ker sem hp with_words]. rewrite Hσ, !bind_ret.
  rewrite store_le_bytes by done. rewrite bind_ret. change (VCHIQ_MAX_STATES <=? 0) with false. rewrite BUG_false, bind_ret. by eexists.
Qed.

(** A client that logs what it is given. *)
Fixpoint read_payload (n : nat) (m : mem) (p : Z) : list Z := match n with O => [] | S n => default 0 (m !! p) :: read_payload n m (p + 1) end.
#[local] Instance logger : VchiqClient (list (list Z)) :=
  {| on_data cb p m h kc := size ← header_size m h; Ret (kc.1, kc.2 ++ [read_payload (Z.to_nat size) m (h + 8)]) |}.
Definition logs (cb p : Z) (x : message) (kc : kernel * list (list Z)) : kernel * list (list Z) := (kc.1, kc.2 ++ [msg_payload x]).

Lemma read_payload_at m l : ∀ p, bytes_at m p l → read_payload (length l) m p = l.
Proof.
  induction l as [|b l IH]; intros p Hb; [done|]. cbn [length read_payload]. f_equal.
  - pose proof (Hb 0%nat b eq_refl) as E. rewrite Z.add_0_r in E. by rewrite E.
  - apply IH. intros i c Hi. specialize (Hb (Datatypes.S i) c Hi). rewrite <- Hb. f_equal. lia.
Qed.

Lemma logger_ok cb p m h x kc : msg_ok x → msg_at m h x → on_data cb p m h kc = Ret (logs cb p x kc).
Proof.
  intros Hx Hm. cbn [on_data logger]. destruct (msg_read _ _ _ Hx Hm) as [_ Hz]. rewrite Hz, bind_ret. unfold logs, msg_len. rewrite Nat2Z.id.
  apply bytes_at_app in Hm as [_ Hm]. by rewrite read_payload_at.
Qed.

Definition demo_flags : waitflags := WaitFlags 901 902 903 904 905.
Definition demo_side : kernel := with_hp demo_kernel {[5 := ListHead 5 5]}.
Definition demo_slots : mem := write_bytes ∅ 0 (replicate (Z.to_nat 32768) 0).
Definition demo_service : gmap Z service := {[100 := Service 0 true 7 3 1]}.
Definition demo_m1 : message := Message 7 3 [1; 2; 3].
Definition demo_m2 : message := Message 7 3 [4; 5].
Notation demo_start := (link_start 0 32768 demo_slots demo_flags demo_flags (Semaphore 0 0 5) (Semaphore 0 0 5) demo_side demo_side [] []).

Lemma demo_slots_mapped : mapped demo_slots 0 32768.
Proof.
  intros a Ha. unfold demo_slots. rewrite write_bytes_lookup, length_replicate. rewrite decide_True by lia. apply lookup_lt_is_Some_2.
  rewrite length_replicate. lia.
Qed.

Lemma demo_started : ∃ w0 rr : vchiq_state (list (list Z)), demo_start = Ret (w0, rr) ∧ client rr = [].
Proof.
  assert (4096 * 8 ≤ 32768 ≤ 4096 * 131) as Hs by lia. pose proof demo_slots_mapped as Hmap.
  destruct (init_slots_ok 0 32768 Hs) as (a & z & total & Hi & Ha & Hat & (Mq & M0 & Ml & Mt) & Sq & S0 & Sl & St).
  assert (slot_sync (slave z) = slot_first (slave z) - 1 ∧ slot_sync (master z) = slot_first (master z) - 1 ∧ 1 < slot_first (slave z) ∧ 1 < slot_first (master z)) as (? & ? & ? & ?).
  { vm_compute in Hi. injection Hi as <- <-. done. }
  unfold link_start. rewrite Hi. unfold VCHIQ_SLOT_SIZE in *.
  destruct (init_state_returns a demo_slots (slave z) (master z) demo_flags (Semaphore 0 0 5) demo_side ([] : list (list Z))) as (w & Hw & _);
    [done|done|lia|intros b Hb; apply Hmap; unfold VCHIQ_SLOT_SIZE in *; lia|by eexists|].
  rewrite Hw, bind_ret. apply init_state_ok in Hw as (m1 & Hm1 & (Ew & _)); [|done|done|lia].
  destruct (init_state_returns a (vmem w) (master z) (local w) demo_flags (Semaphore 0 0 5) demo_side ([] : list (list Z))) as (r & Hr & Hcr);
    [done|done|lia| |by eexists|].
  - rewrite Ew. eapply store_le_mapped; [exact Hm1|]. intros b Hb; apply Hmap; unfold VCHIQ_SLOT_SIZE in *; lia.
  - rewrite Hr, bind_ret. exists (see r w), r. split; [reflexivity|exact Hcr].
Qed.

Lemma demo_serves (rr : vchiq_state (list (list Z))) : served (with_services rr [100] demo_service) [demo_m1] ∧ served (with_services rr [100] demo_service) [demo_m2].
Proof. split; intros x ->%list_elem_of_singleton; exists 100, 1; (split; [reflexivity|]); (split; [done|]); eexists; (split; [reflexivity|done]). Qed.

Lemma demo_run : ∃ w0 rr w r, demo_start = Ret (w0, rr) ∧ client rr = [] ∧ run w0 (with_services rr [100] demo_service) w r [demo_m1; demo_m2] ∧ local_tx_pos w < 100.
Proof.
  destruct demo_started as (w0 & rr & Hst & Hc). destruct (demo_serves rr) as [Hs1 Hs2].
  destruct (start_linked logs 0 32768 _ _ _ _ _ _ _ _ _ _ _ [100] demo_service ltac:(lia) demo_slots_mapped Hst) as (total & Hl & Hp & Hav).
  assert (local_tx_pos w0 = 0) as Hp0 by (destruct (lk_pos _ _ _ _ _ _ _ Hl) as [_ E]; cbn in E; by rewrite E).
  assert (msg_ok demo_m1 ∧ msg_ok demo_m2) as [Hm1 Hm2] by (unfold msg_ok, msg_len, is_bytes; cbn; split_and!; try lia; repeat constructor; done).
  assert (room w0 demo_m1) as R1 by (unfold room; rewrite Hp0; vm_compute (next 0 demo_m1); lia).
  destruct (send_linked logs _ _ _ _ _ _ _ Hl Hm1 Hs1 R1) as (w1 & Hw1 & Hl1 & Ha1).
  assert (local_tx_pos w1 = 16) as Hp1.
  { destruct (lk_pos _ _ _ _ _ _ _ Hl1) as [_ E].
    change (local_tx_pos w1 = ends (rx_pos rr) [demo_m1]) in E.
    rewrite E, Hp.
    reflexivity. }
  assert (room w1 demo_m2) as R2 by (unfold room; rewrite Hp1, Ha1; vm_compute (next 16 demo_m2); lia).
  destruct (send_linked logs _ _ _ _ _ _ _ Hl1 Hm2 Hs2 R2) as (w2 & Hw2 & Hl2 & _).
  exists w0, rr, w2, (see w2 (see w1 (with_services rr [100] demo_service))). split_and!; [done|done| |].
  - eapply (run_send w0 _ w1 _ [demo_m1] demo_m2); [|done..]. eapply (run_send w0 _ w0 _ [] demo_m1); [constructor|done..].
  - destruct (lk_pos _ _ _ _ _ _ _ Hl2) as [_ E]. change (local_tx_pos w2 = ends (rx_pos rr) [demo_m1; demo_m2]) in E. rewrite E, Hp. by vm_compute.
Qed.

Lemma vchiq_channel_fifo_witness : ∃ w0 rr w r r', demo_start = Ret (w0, rr) ∧ run w0 (with_services rr [100] demo_service) w r [demo_m1; demo_m2] ∧
  vchiq_parse_rx 600 0 r = Ret (ERR_OK, r') ∧ client r' = [[1; 2; 3]; [4; 5]].
Proof.
  destruct demo_run as (w0 & rr & w & r & Hst & Hc & Hrun & _).
  destruct (vchiq_channel_fifo logs logger_ok 0 32768 _ _ _ _ _ _ _ _ _ w0 rr [100] demo_service w r _ ltac:(lia) demo_slots_mapped Hst Hrun) as (_ & Hr & _).
  destruct (Hr 600%nat 0 ltac:(cbn; lia)) as (r' & Hp & Hk). exists w0, rr, w, r, r'. split_and!; [done|done|done|].
  apply (f_equal snd) in Hk. cbn [snd] in Hk. rewrite Hk. unfold taken_by. cbn [client with_services]. rewrite Hc. reflexivity.
Defined.

Lemma vchiq_slots_come_back_witness : ∃ w0 rr w r r' w', demo_start = Ret (w0, rr) ∧ run w0 (with_services rr [100] demo_service) w r [demo_m1; demo_m2] ∧
  vchiq_parse_rx 600 0 r = Ret (ERR_OK, r') ∧ vchiq_process_free_queue 600 (see r' w) = Ret w' ∧ ∀ x, msg_ok x → room w' x.
Proof.
  destruct demo_run as (w0 & rr & w & r & Hst & Hc & Hrun & Hw).
  destruct (vchiq_slots_come_back logs logger_ok 0 32768 _ _ _ _ _ _ _ _ _ w0 rr [100] demo_service w r _ 600 0 ltac:(lia) demo_slots_mapped Hst Hrun) as (r' & w' & Hr & Hf & Hx); [lia|lia|cbn; lia|].
  exists w0, rr, w, r, r', w'. exact (conj Hst (conj Hrun (conj Hr (conj Hf Hx)))).
Defined.
