(* ===== verification/Mmal.v ===== *)
(** * The camera over MMAL messages (board/bcm2835/vchiq/vchiq_2835_arm.c)

    Components and their ports live on the VideoCore; the kernel keeps a copy
    of what it knows of them and asks for changes with messages of its own
    format.  The other end is a class: what it answers to a request, and that it
    takes a buffer.  A request whose answer is of another type is never
    answered, because the callback that gets it does not wake the caller. *)

From Stdlib Require Import String.
From S2P Require Import Prelude Lists Mmio.

Definition ERR_OK : Z := 0.
Definition ERR_INVAL_ARG : Z := -1.
Definition ERR_NO_RESOURCE : Z := -6.
Definition ERR_NOT_FOUND : Z := -7.
Definition ERR_GENERIC : Z := -9.

(** ** Codes *)
Definition MMAL_FOURCC (a b c d : Z) : Z := Z.lor (Z.lor (Z.lor a (Z.shiftl b 8)) (Z.shiftl c 16)) (Z.shiftl d 24).
Definition MMAL_MAGIC : Z := MMAL_FOURCC 109 109 97 108.
Definition MMAL_TIME_UNKNOWN : Z := 2 ^ 63.
Definition MMAL_MSG_TYPE_COMPONENT_CREATE : Z := 4.
Definition MMAL_MSG_TYPE_COMPONENT_DESTROY : Z := 5.
Definition MMAL_MSG_TYPE_COMPONENT_ENABLE : Z := 6.
Definition MMAL_MSG_TYPE_COMPONENT_DISABLE : Z := 7.
Definition MMAL_MSG_TYPE_PORT_INFO_GET : Z := 8.
Definition MMAL_MSG_TYPE_PORT_INFO_SET : Z := 9.
Definition MMAL_MSG_TYPE_PORT_ACTION : Z := 10.
Definition MMAL_MSG_TYPE_BUFFER_FROM_HOST : Z := 11.
Definition MMAL_MSG_TYPE_BUFFER_TO_HOST : Z := 12.
Definition MMAL_MSG_TYPE_PORT_PARAMETER_SET : Z := 14.
Definition MMAL_MSG_TYPE_PORT_PARAMETER_GET : Z := 15.
Definition MMAL_MSG_STATUS_SUCCESS : Z := 0.
Definition MMAL_MSG_PORT_ACTION_TYPE_ENABLE : Z := 1.
Definition MMAL_MSG_PORT_ACTION_TYPE_CONNECT : Z := 4.
Definition MMAL_PORT_TYPE_CONTROL : Z := 1.
Definition MMAL_PORT_TYPE_INPUT : Z := 2.
Definition MMAL_PORT_TYPE_OUTPUT : Z := 3.
Definition MMAL_PORT_TYPE_CLOCK : Z := 4.
Definition MAX_PORT_COUNT : Z := 4.
Definition MMAL_PARAMETER_SUPPORTED_ENCODINGS : Z := 1.
Definition MMAL_PARAMETER_ZERO_COPY : Z := 4.
Definition MMAL_PARAMETER_CAMERA_NUM : Z := 0x10010.
Definition MMAL_PARAMETER_CAPTURE : Z := 0x10011.
Definition MMAL_PARAMETER_CAMERA_CONFIG : Z := 0x10015.
Definition MMAL_PARAMETER_CAMERA_INFO : Z := 0x1001c.
Definition MMAL_PARAM_TIMESTAMP_MODE_RAW_STC : Z := 1.
Definition MMAL_BUFFER_HEADER_FLAG_EOS : Z := 1.
Definition MMAL_BUFFER_HEADER_FLAG_FRAME_END : Z := 4.
Definition CAM_PORT_PREVIEW : Z := 0.
Definition CAM_PORT_VIDEO : Z := 1.
Definition CAM_PORT_CAPTURE : Z := 2.
Definition MAX_SUPPORTED_ENCODINGS : Z := 20.

(** ** Data *)
Record port_buffer := PortBuffer { num : Z; size : Z; alignment : Z }.

(** [struct mmal_es_format_local]; [es_set] tells whether its pointer [es]
    points to the [es] of the port, or is NULL; [extradata] is never set. *)
Record es_format := EsFormat { type : Z; encoding : Z; encoding_variant : Z; es_set : bool; bitrate : Z; flags : Z; extradata_size : Z }.

(** [struct vchiq_mmal_port]: [es] are the words of the union, those of the
    video format; [buffers] is the address of the list's head. *)
Record port := Port {
  p_enabled : bool; zero_copy : bool; p_handle : Z; p_type : Z; p_index : Z; p_component : Z;
  minimum_buffer : port_buffer; recommended_buffer : port_buffer; current_buffer : port_buffer;
  format : es_format; es : list Z; buffers : Z }.

Record component := Component { c_name : list Z; c_enabled : bool; c_handle : Z; inputs : Z; outputs : Z; clocks : Z }.

(** [struct mmal_buffer] at its address, which is that of its list node. *)
Record mmal_buffer := MmalBuffer { buffer : Z; buffer_size : Z; vcsm_handle : Z; length_ : Z; mmal_flags : Z; dts : Z; pts : Z }.

(** The words of [struct mmal_video_format]. *)
Definition ES_WORDS : nat := 11.
Definition es_word (i : nat) (v : Z) (l : list Z) : list Z := <[i := u32 v]> l.
Definition ES_WIDTH : nat := 0.
Definition ES_HEIGHT : nat := 1.
Definition ES_CROP_X : nat := 2.
Definition ES_CROP_Y : nat := 3.
Definition ES_CROP_WIDTH : nat := 4.
Definition ES_CROP_HEIGHT : nat := 5.
Definition ES_FRAME_RATE_NUM : nat := 6.
Definition ES_FRAME_RATE_DEN : nat := 7.
Definition ES_COLOR_SPACE : nat := 10.

(** ** Contexts of the shared memory service *)

(** [struct mems_msg_context]: [data] are the address and the size of the
    answer's payload. *)
Record mems_ctx := MemsCtx { active : bool; trans_id : Z; data : Z; data_size : Z }.
Definition MEMS_CONTEXT_POOL_SIZE : Z := 4.
(** The pool and the counter of transactions. *)
Record mems_pool := MemsPool { contexts : list mems_ctx; mems_transaction_counter : Z }.
Definition mems_start : mems_pool := MemsPool (replicate (Z.to_nat MEMS_CONTEXT_POOL_SIZE) (MemsCtx false 0 NULL 0)) 0.
Definition with_contexts (s : mems_pool) l : mems_pool := MemsPool l (mems_transaction_counter s).

(** The first context that is not in use; contexts are named by their index. *)
Fixpoint first_inactive (l : list mems_ctx) (i : nat) : option nat :=
  match l with [] => None | x :: l => if active x then first_inactive l (i + 1) else Some i end.
Definition mems_msg_context_alloc (s : mems_pool) : (nat + Z) * mems_pool :=
  match first_inactive (contexts s) 0 with
  | None => (inr ERR_NO_RESOURCE, s)
  | Some i => (inl i, MemsPool (<[i := MemsCtx true (mems_transaction_counter s) NULL (default 0 (data_size <$> contexts s !! i))]> (contexts s))
      (u32 (mems_transaction_counter s + 1)))
  end.

(** The first context of a transaction decides, in use or not. *)
Fixpoint find_trans (l : list mems_ctx) (id : Z) (i : nat) : nat + Z :=
  match l with
  | [] => inr ERR_NOT_FOUND
  | x :: l => if trans_id x =? id then (if active x then inl i else inr ERR_GENERIC) else find_trans l id (i + 1)
  end.
Definition mems_msg_context_from_trans_id (s : mems_pool) (id : Z) : nat + Z := find_trans (contexts s) id 0.

(** The test lets the address past the pool's end through. *)
Definition mems_msg_context_free (s : mems_pool) (i : nat) : outcome mems_pool :=
  if MEMS_CONTEXT_POOL_SIZE <? Z.of_nat i then Panic else
  x ← deref (contexts s !! i);
  Ret (with_contexts s (<[i := MemsCtx false (trans_id x) (data x) (data_size x)]> (contexts s))).

(** [mems_service_data_callback] up to its wake-up: the message at [h] has
    [size] bytes and starts with the word [id]; the context to wake. *)
Definition mems_take_answer (s : mems_pool) (h size id : Z) : outcome (nat * mems_pool) :=
  _ ← BUG (size <? 4);
  match mems_msg_context_from_trans_id s id with
  | inr _ => Panic
  | inl i =>
    x ← deref (contexts s !! i);
    Ret (i, with_contexts s (<[i := MemsCtx (active x) (trans_id x) (h + 8) size]> (contexts s)))
  end.

Record mmal (F : Type) := Mmal { comps : gmap Z component; ports : gmap Z port; bufs : gmap Z mmal_buffer; mnodes : heap;
  mems : mems_pool; vc_trans_id : Z; vc : F }.
Arguments Mmal {F}. Arguments comps {F}. Arguments ports {F}. Arguments bufs {F}. Arguments mnodes {F}. Arguments mems {F}. Arguments vc_trans_id {F}. Arguments vc {F}.

(** The other end.  [vc_answer type payload] is what it answers to a request: a
    type, and the bytes from [rmsg->u] on; [vc_take] takes a message nobody
    waits for; [sm_answer] is the payload the shared memory service answers
    with, and where that lies; [lcd_print] what [tft_lcd_print_data] shows. *)
Class VideoCore (F : Type) : Type := {
  vc_answer : Z → list Z → F → outcome (Z * (Z → Z) * F);
  vc_take : Z → list Z → F → outcome F;
  sm_answer : list Z → F → outcome (Z * list Z * F);
  lcd_print : Z → Z → F → F }.

(** Where the compiler puts the ports of a component, and a port's list head. *)
Class MmalLayout : Type := { port_at : Z → Z → Z → Z; buffers_at : Z → Z }.

Definition words (l : list Z) : list Z := concat (map (le_bytes 4) l).
(** The [i]-th word of an answer. *)
Definition rword (r : Z → Z) (i : Z) : Z := le_val (map r [4 * i; 4 * i + 1; 4 * i + 2; 4 * i + 3]).

Section mmal.
Context {F : Type} `{VideoCore F} `{MmalLayout}.
Abbreviation S := (mmal F).
Implicit Types s : S.

Definition with_comps (s : S) x : S := Mmal x (ports s) (bufs s) (mnodes s) (mems s) (vc_trans_id s) (vc s).
Definition with_ports (s : S) x : S := Mmal (comps s) x (bufs s) (mnodes s) (mems s) (vc_trans_id s) (vc s).
Definition with_bufs (s : S) x : S := Mmal (comps s) (ports s) x (mnodes s) (mems s) (vc_trans_id s) (vc s).
Definition with_mnodes (s : S) x : S := Mmal (comps s) (ports s) (bufs s) x (mems s) (vc_trans_id s) (vc s).
Definition with_mems (s : S) x n : S := Mmal (comps s) (ports s) (bufs s) (mnodes s) x n (vc s).
Definition with_vc (s : S) x : S := Mmal (comps s) (ports s) (bufs s) (mnodes s) (mems s) (vc_trans_id s) x.

Definition get_comp (c : Z) : io S component := λ s, x ← deref (comps s !! c); Ret (x, s).
Definition get_port (p : Z) : io S port := λ s, x ← deref (ports s !! p); Ret (x, s).
Definition get_buf (b : Z) : io S mmal_buffer := λ s, x ← deref (bufs s !! b); Ret (x, s).
Definition set_comp (c : Z) (x : component) : io S unit := λ s, _ ← deref (comps s !! c); Ret (tt, with_comps s (<[c := x]> (comps s))).
Definition set_port (p : Z) (x : port) : io S unit := λ s, _ ← deref (ports s !! p); Ret (tt, with_ports s (<[p := x]> (ports s))).
Definition on_lists (f : heap → outcome heap) : io S unit := λ s, σ ← f (mnodes s); Ret (tt, with_mnodes s σ).
Definition port_with_format (p : port) (f : es_format) (e : list Z) : port := Port (p_enabled p) (zero_copy p) (p_handle p) (p_type p) (p_index p)
  (p_component p) (minimum_buffer p) (recommended_buffer p) (current_buffer p) f e (buffers p).
Definition port_with_current (p : port) (b : port_buffer) : port := Port (p_enabled p) (zero_copy p) (p_handle p) (p_type p) (p_index p)
  (p_component p) (minimum_buffer p) (recommended_buffer p) b (format p) (es p) (buffers p).
Definition port_with_flags (p : port) (en zc : bool) : port := Port en zc (p_handle p) (p_type p) (p_index p)
  (p_component p) (minimum_buffer p) (recommended_buffer p) (current_buffer p) (format p) (es p) (buffers p).

(** The port of a component, of an array of [MAX_PORT_COUNT]. *)
Definition control_port (c : Z) : Z := port_at c MMAL_PORT_TYPE_CONTROL 0.
Definition array_port (c type i : Z) : outcome Z := if (0 <=? i) && (i <? MAX_PORT_COUNT) then Ret (port_at c type i) else Fault.

(** ** Requests *)

(** [VCHIQ_MMAL_MSG_COMMUNICATE_SYNC]: the payload of an answer whose status is
    good, or nothing where the macro returns [ERR_GENERIC]. *)
Definition communicate (msg_type : Z) (payload : list Z) : io S (option (Z → Z)) := λ s,
  '(rtype, r, f) ← vc_answer msg_type payload (vc s);
  if negb (rtype =? msg_type) then NoFuel else
  Ret (if negb (rword r 0 =? MMAL_MSG_STATUS_SUCCESS) then None else Some r, with_vc s f).
Definition request (msg_type : Z) (payload : list Z) (k : (Z → Z) → io S Z) : io S Z :=
  o ← communicate msg_type payload;
  match o with None => mret ERR_GENERIC | Some r => k r end.

Definition vchiq_mmal_handmade_component_disable (c : Z) : io S Z :=
  x ← get_comp c;
  _ ← lift (BUG (negb (c_enabled x)));
  request MMAL_MSG_TYPE_COMPONENT_DISABLE (words [c_handle x]) (λ _,
    _ ← set_comp c (Component (c_name x) false (c_handle x) (inputs x) (outputs x) (clocks x));
    mret ERR_OK).

Definition vchiq_mmal_component_enable (c : Z) : io S Z :=
  x ← get_comp c;
  request MMAL_MSG_TYPE_COMPONENT_ENABLE (words [c_handle x]) (λ _, mret ERR_OK).

(** The port [y] once the answer to PORT_INFO_GET is [r].  The size of the
    recommended buffers is not taken over. *)
Definition port_known (c : Z) (y : port) (r : Z → Z) : port :=
  let w := rword r in
  Port (negb (w 10 =? 0)) (zero_copy y) (w 5) (w 2) (w 3) c
    (PortBuffer (w 12) (w 13) (w 14)) (PortBuffer (w 15) (size (recommended_buffer y)) (w 14)) (PortBuffer (w 17) (w 18) (alignment (current_buffer y)))
    (EsFormat (w 22) (w 23) (w 24) true (w 26) (w 27) (w 28)) (map w (seqZ 30 (Z.of_nat ES_WORDS))) (buffers y).

(** Extra data would be copied to the NULL pointer. *)
Definition vchiq_mmal_port_info_get (c p : Z) : io S Z :=
  x ← get_comp c;
  y ← get_port p;
  request MMAL_MSG_TYPE_PORT_INFO_GET (words [c_handle x; p_type y; p_index y]) (λ r,
    if negb (rword r 28 =? 0) then lift Fault else
    _ ← set_port p (port_known c y r);
    mret ERR_OK).

Definition mmal_port_create (c p type_ index : Z) : io S Z :=
  y ← get_port p;
  _ ← set_port p (Port (p_enabled y) (zero_copy y) (p_handle y) type_ index (p_component y)
    (minimum_buffer y) (recommended_buffer y) (current_buffer y) (format y) (es y) (buffers y));
  err ← vchiq_mmal_port_info_get c p;
  if negb (err =? ERR_OK) then mret err else
  _ ← on_lists (λ σ, INIT_LIST_HEAD σ (buffers y));
  mret ERR_OK.

(** [name] without its terminator, in an array of [n] bytes. *)
Definition name_field (n : nat) (name : list Z) : list Z := take n (name ++ replicate n 0).

Definition mmal_component_create (name : list Z) (component_idx c : Z) : io S Z :=
  request MMAL_MSG_TYPE_COMPONENT_CREATE (words [component_idx] ++ name_field 128 name ++ words [0]) (λ r,
    x ← get_comp c;
    _ ← set_comp c (Component (c_name x) true (rword r 1) (rword r 2) (rword r 3) (rword r 4));
    mret ERR_OK).

(** A component from [kzalloc], with its ports. *)
Definition zero_buffers : port_buffer := PortBuffer 0 0 0.
Definition zero_port (p : Z) : port := Port false false 0 0 0 NULL zero_buffers zero_buffers zero_buffers (EsFormat 0 0 0 false 0 0 0) (replicate ES_WORDS 0) (buffers_at p).
Definition component_ports (c : Z) : list Z :=
  control_port c :: map (port_at c MMAL_PORT_TYPE_INPUT) [0; 1; 2; 3] ++ map (port_at c MMAL_PORT_TYPE_OUTPUT) [0; 1; 2; 3] ++ map (port_at c MMAL_PORT_TYPE_CLOCK) [0; 1; 2; 3].
Definition zalloc_component (c : Z) : io S unit := λ s,
  Ret (tt, with_ports (with_comps s (<[c := Component (replicate 32 0) false 0 0 0 0]> (comps s))) (foldr (λ p m, <[p := zero_port p]> m) (ports s) (component_ports c))).
Definition free_component (c : Z) : io S unit := λ s,
  Ret (tt, with_ports (with_comps s (delete c (comps s))) (foldr delete (ports s) (component_ports c))).

Definition vchiq_mmal_handmade_component_destroy (c : Z) : io S Z :=
  x ← get_comp c;
  _ ← lift (BUG (c_enabled x));
  request MMAL_MSG_TYPE_COMPONENT_DESTROY (words [c_handle x]) (λ _, _ ← free_component c; mret ERR_OK).

(** The loop over the ports of one kind; an error ends it. *)
Fixpoint create_ports (n : nat) (c type i : Z) : io S Z :=
  match n with
  | O => mret ERR_OK
  | Datatypes.S n =>
    p ← lift (array_port c type i);
    err ← mmal_port_create c p type i;
    if negb (err =? ERR_OK) then mret err else create_ports n c type (i + 1)
  end.

(** [kz] is what [kzalloc] returns: an address or an error. *)
Definition component_create (kz : Z + Z) (name : list Z) : io S (Z + Z) :=
  match kz with
  | inr err => mret (inr err)
  | inl c =>
    _ ← zalloc_component c;
    err ← mmal_component_create name 0 c;
    if negb (err =? ERR_OK) then (_ ← free_component c; mret (inr err)) else
    x ← get_comp c;
    _ ← set_comp c (Component (name_field 32 name) (c_enabled x) (c_handle x) (inputs x) (outputs x) (clocks x));
    err ← mmal_port_create c (control_port c) MMAL_PORT_TYPE_CONTROL 0;
    if negb (err =? ERR_OK) then (_ ← free_component c; mret (inr err)) else
    err ← create_ports (Z.to_nat (inputs x)) c MMAL_PORT_TYPE_INPUT 0;
    if negb (err =? ERR_OK) then (_ ← free_component c; mret (inr err)) else
    err ← create_ports (Z.to_nat (outputs x)) c MMAL_PORT_TYPE_OUTPUT 0;
    if negb (err =? ERR_OK) then (_ ← free_component c; mret (inr err)) else
    mret (inl c)
  end.

(** ** Formats *)

(** [port_to_mmal_msg]: the words of the port at [p]. *)
Definition port_to_mmal_msg (p : Z) (y : port) : list Z :=
  [0; 0; p_type y; u16 (p_index y); (if p_enabled y then 1 else 0); 0; num (minimum_buffer y); size (minimum_buffer y); alignment (minimum_buffer y);
   num (recommended_buffer y); size (recommended_buffer y); num (current_buffer y); size (current_buffer y); 0; u32 p; 0].

Definition vchiq_mmal_port_info_set (c p : Z) : io S Z :=
  x ← get_comp c;
  y ← get_port p;
  let f := format y in
  if negb (extradata_size f =? 0) then lift Fault else
  request MMAL_MSG_TYPE_PORT_INFO_SET (words ([c_handle x; p_type y; p_index y] ++ port_to_mmal_msg p y ++
    [type f; encoding f; encoding_variant f; 0; bitrate f; flags f; extradata_size f; 0] ++ es y) ++ replicate 128 0) (λ _, mret ERR_OK).

Definition vchiq_mmal_port_set_format (c p : Z) : io S Z :=
  err ← vchiq_mmal_port_info_set c p;
  if negb (err =? ERR_OK) then mret err else vchiq_mmal_port_info_get c p.

Definition vchiq_mmal_local_format_fill (p encoding_ encoding_variant_ width height : Z) : io S unit :=
  y ← get_port p;
  let f := format y in
  if negb (es_set f) then lift Fault else
  set_port p (port_with_format y (EsFormat (type f) encoding_ encoding_variant_ true (bitrate f) (flags f) (extradata_size f))
    (es_word ES_FRAME_RATE_DEN 0 (es_word ES_FRAME_RATE_NUM 1 (es_word ES_CROP_HEIGHT height (es_word ES_CROP_WIDTH width
      (es_word ES_CROP_Y 0 (es_word ES_CROP_X 0 (es_word ES_HEIGHT height (es_word ES_WIDTH width (es y)))))))))).

(** ** Parameters *)

(** [value] are the bytes given; 384 fit the message. *)
Definition MMAL_WORKER_PORT_PARAMETER_SPACE : Z := 96.
Definition vchiq_mmal_port_parameter_set (c p parameter_id : Z) (value : list Z) : io S Z :=
  x ← get_comp c;
  y ← get_port p;
  let value_size := Z.of_nat (length value) in
  if 4 * MMAL_WORKER_PORT_PARAMETER_SPACE <? value_size then lift Fault else
  request MMAL_MSG_TYPE_PORT_PARAMETER_SET (words [c_handle x; p_handle y; parameter_id; 2 * 4 + value_size] ++
    value ++ replicate (Z.to_nat (4 * MMAL_WORKER_PORT_PARAMETER_SPACE - value_size)) 0) (λ _,
    if parameter_id =? MMAL_PARAMETER_ZERO_COPY then
      y ← get_port p;
      _ ← set_port p (port_with_flags y (p_enabled y) true);
      mret ERR_OK
    else mret ERR_OK).

(** The object [value] with what the answer puts into it, and the new size.
    [value_size] is what the caller says the object has room for. *)
Definition vchiq_mmal_port_parameter_get (c p parameter_id : Z) (value : list Z) (value_size : Z) : io S (Z * list Z * Z) :=
  x ← get_comp c;
  y ← get_port p;
  o ← communicate MMAL_MSG_TYPE_PORT_PARAMETER_GET (words [c_handle x; p_handle y; parameter_id; u32 (2 * 4 + value_size)]);
  match o with
  | None => mret (ERR_GENERIC, value, value_size)
  | Some r =>
    let n := Z.min (rword r 2) value_size in
    if Z.of_nat (length value) <? n then lift Fault else
    mret (ERR_OK, map r (seqZ 12 n) ++ drop (Z.to_nat n) value, rword r 2)
  end.

Definition SIZEOF_CAMERA_INFO : Z := 4 + 4 + 4 * (4 + 4 + 4 + 4 + 16) + 2 * 4.
Definition vchiq_mmal_get_camera_info (c : Z) (cam_info : list Z) : io S (Z * list Z) :=
  '(err, v, _) ← vchiq_mmal_port_parameter_get c (control_port c) MMAL_PARAMETER_CAMERA_INFO cam_info SIZEOF_CAMERA_INFO;
  mret (err, v).

(** The width and height of the first camera of the information. *)
Definition cam_max_width (cam_info : list Z) : Z := le_val (take 4 (drop 12 cam_info)).
Definition cam_max_height (cam_info : list Z) : Z := le_val (take 4 (drop 16 cam_info)).
Definition SIZEOF_CAMERA_CONFIG : Z := 4 * 10.

(** Both results are dropped; what [new_config] holds is not used. *)
Definition mmal_set_camera_parameters (c : Z) (cam_info : list Z) : io S Z :=
  let w := cam_max_width cam_info in
  let h := cam_max_height cam_info in
  _ ← vchiq_mmal_port_parameter_set c (control_port c) MMAL_PARAMETER_CAMERA_CONFIG
    (words [w; h; 1; 1; Z.max 1920 w; Z.max 1088 h; 3; 0; 0; MMAL_PARAM_TIMESTAMP_MODE_RAW_STC]);
  _ ← vchiq_mmal_port_parameter_get c (control_port c) MMAL_PARAMETER_CAMERA_CONFIG (replicate (Z.to_nat SIZEOF_CAMERA_CONFIG) 0) SIZEOF_CAMERA_CONFIG;
  mret ERR_OK.

Definition mmal_port_set_zero_copy (c p : Z) : io S Z := vchiq_mmal_port_parameter_set c p MMAL_PARAMETER_ZERO_COPY (words [1]).
Definition mmal_camera_capture_frames (cam capture_port : Z) : io S Z := vchiq_mmal_port_parameter_set cam capture_port MMAL_PARAMETER_CAPTURE (words [1]).

(** [encodings] are the bytes of the caller's array, [max_encodings] what it
    says is its length. *)
Definition mmal_port_get_supp_encodings (p : Z) (encodings : list Z) (max_encodings : Z) : io S (Z * list Z * Z) :=
  y ← get_port p;
  '(err, e, n) ← vchiq_mmal_port_parameter_get (p_component y) p MMAL_PARAMETER_SUPPORTED_ENCODINGS encodings (u32 (max_encodings * 4));
  mret (err, e, n / 4).

(** ** Actions *)
Definition vchiq_mmal_port_action_port (c p action : Z) : io S Z :=
  x ← get_comp c;
  y ← get_port p;
  request MMAL_MSG_TYPE_PORT_ACTION (words ([c_handle x; p_handle y; action] ++ port_to_mmal_msg p y)) (λ _, mret ERR_OK).

Definition vchiq_mmal_port_action_handle (c p action dst_component_handle dst_port_handle : Z) : io S Z :=
  x ← get_comp c;
  y ← get_port p;
  request MMAL_MSG_TYPE_PORT_ACTION (words [c_handle x; p_handle y; action; dst_component_handle; dst_port_handle]) (λ _, mret ERR_OK).

(** An error of the action is replaced by the result of the query. *)
Definition vchiq_mmal_port_enable (p : Z) : io S Z :=
  y ← get_port p;
  if p_enabled y then mret ERR_OK else
  err ← vchiq_mmal_port_action_port (p_component y) p MMAL_MSG_PORT_ACTION_TYPE_ENABLE;
  _ ← (if err =? ERR_OK then (y ← get_port p; set_port p (port_with_flags y true (zero_copy y))) else mret tt);
  vchiq_mmal_port_info_get (p_component y) p.

Definition vchiq_mmal_create_tunnel (c src dst_c dst : Z) : io S Z :=
  a ← get_port src;
  b ← get_port dst;
  let f := format b in
  let e i l := es_word i (default 0 (es a !! i)) l in
  _ ← set_port dst (port_with_format b (EsFormat (type f) (encoding (format a)) (encoding_variant f) (es_set f) (bitrate f) (flags f) (extradata_size f))
    (e ES_FRAME_RATE_DEN (e ES_FRAME_RATE_NUM (e ES_CROP_HEIGHT (e ES_CROP_WIDTH (e ES_CROP_Y (e ES_CROP_X (e ES_HEIGHT (e ES_WIDTH (es b))))))))));
  err ← vchiq_mmal_port_set_format dst_c dst;
  if negb (err =? ERR_OK) then mret err else
  x ← get_comp dst_c;
  b ← get_port dst;
  vchiq_mmal_port_action_handle c src MMAL_MSG_PORT_ACTION_TYPE_CONNECT (c_handle x) (p_handle b).

(** The result of the last step is dropped. *)
Definition mmal_camera_enable (cam : Z) : io S Z :=
  err ← vchiq_mmal_port_parameter_set cam (control_port cam) MMAL_PARAMETER_CAMERA_NUM (words [0]);
  if negb (err =? ERR_OK) then mret err else
  _ ← vchiq_mmal_component_enable cam;
  mret ERR_OK.

(** [camera_info] is used whether or not it is an error. *)
Definition vchiq_mmal_get_cam_info (kz : Z + Z) (cam_info : list Z) : io S (Z * list Z) :=
  r ← component_create kz [99; 97; 109; 101; 114; 97; 95; 105; 110; 102; 111];
  match r with
  | inr _ => lift Fault
  | inl c =>
    '(err, v) ← vchiq_mmal_get_camera_info c cam_info;
    if negb (err =? ERR_OK) then mret (err, v) else
    err ← vchiq_mmal_handmade_component_disable c;
    if negb (err =? ERR_OK) then mret (err, v) else
    err ← vchiq_mmal_handmade_component_destroy c;
    mret (err, v)
  end.

(** ** Buffers *)

(** The address the VideoCore knows a buffer by. *)
Definition buffer_data (p : port) (b : mmal_buffer) : Z := if zero_copy p then u32 (vcsm_handle b) else Z.lor (u32 (buffer b)) 0xc0000000.

(** Memory the code fills with 0xbc and leaves so. *)
Definition filler (n : nat) : list Z := replicate n 0xbc.

(** The payload of BUFFER_FROM_HOST for the port [y] at [p] and the buffer [x]
    at [b], with the handle of the component. *)
Definition buffer_message (handle p b : Z) (y : port) (x : mmal_buffer) : list Z :=
  let out := p_type y =? MMAL_PORT_TYPE_OUTPUT in
  words [MMAL_MAGIC; handle; p_handle y; u32 p] ++ filler 16 ++
  words [0; 0; 0; buffer_data y x; u32 (buffer_size x); if out then 0 else u32 (length_ x); 0; if out then 0 else mmal_flags x] ++
  le_bytes 8 (if out then MMAL_TIME_UNKNOWN else pts x) ++ le_bytes 8 (if out then MMAL_TIME_UNKNOWN else dts x) ++ filler 4 ++ words [u32 b] ++
  replicate 40 0 ++ words [if zero_copy y then 1 else 0] ++ filler 4 ++ words [0] ++ filler 128 ++ filler 4.

Definition vchiq_mmal_buffer_from_host (p b : Z) : io S Z :=
  y ← get_port p;
  c ← get_comp (p_component y);
  x ← get_buf b;
  _ ← (λ s, f ← vc_take MMAL_MSG_TYPE_BUFFER_FROM_HOST (buffer_message (c_handle c) p b y x) (vc s); Ret (tt, with_vc s f)) : io S unit;
  mret ERR_OK.

(** [list_for_each_entry] over the list at [head], ended by a result of its body. *)
Definition for_each_entry {A} (fuel : nat) (head : Z) (body : Z → io S (option A)) : io S (option A) := λ s,
  pos ← get_next (mnodes s) head;
  loop fuel (λ '(pos, s),
    if pos =? head then Ret (inr (None, s)) else
    '(o, s) ← body pos s;
    match o with
    | Some a => Ret (inr (Some a, s))
    | None => n ← get_next (mnodes s) pos; Ret (inl (n, s))
    end) (pos, s).

Definition mmal_port_buffer_send_one (fuel : nat) (p b : Z) : io S Z :=
  y ← get_port p;
  r ← for_each_entry fuel (buffers y) (λ pb,
    if pb =? b then (
      err ← vchiq_mmal_buffer_from_host p pb;
      mret (Some err))
    else mret None);
  mret (default ERR_INVAL_ARG r).

Definition mmal_port_buffer_send_all (fuel : nat) (p : Z) : io S Z :=
  y ← get_port p;
  e ← (λ s, e ← list_empty (mnodes s) (buffers y); Ret (e, s)) : io S bool;
  if e : bool then mret ERR_NO_RESOURCE else
  r ← for_each_entry fuel (buffers y) (λ b,
    err ← vchiq_mmal_buffer_from_host p b;
    mret (if negb (err =? ERR_OK) then Some err else None));
  mret (default ERR_OK r).

(** The buffer of the port [p] that a header's [data] stands for. *)
Definition mmal_port_get_buffer_from_header (fuel : nat) (p data_ : Z) : io S Z :=
  y ← get_port p;
  r ← for_each_entry fuel (buffers y) (λ b, x ← get_buf b; mret (if buffer_data y x =? data_ then Some b else None));
  mret (default NULL r).

(** A header with the fields read here. *)
Record buffer_header := BufferHeader { h_data : Z; h_length : Z; h_flags : Z }.
Definition mmal_port_buffer_io_work (fuel : nat) (c p : Z) (h : buffer_header) : io S Z :=
  b ← mmal_port_get_buffer_from_header fuel p (h_data h);
  _ ← lift (BUG (b =? NULL));
  x ← get_buf b;
  _ ← (if truth (Z.land (h_flags h) MMAL_BUFFER_HEADER_FLAG_FRAME_END) then (λ s, Ret (tt, with_vc s (lcd_print (buffer x) (h_length h) (vc s)))) else mret tt : io S unit);
  err ← mmal_port_buffer_send_one fuel p b;
  if negb (err =? ERR_OK) then mret err else
  if truth (Z.land (h_flags h) MMAL_BUFFER_HEADER_FLAG_EOS) then mmal_camera_capture_frames c p else mret ERR_OK.

(** ** Memory for the VideoCore *)
Definition VC_SM_MSG_TYPE_IMPORT : Z := 8.
Definition VC_SM_ALLOC_NON_CACHED : Z := 1.

(** The bytes of the result object [result].  The answer's own size decides how
    much is copied into it. *)
Definition vc_sm_cma_vchi_send_msg (msg_id : Z) (msg result : list Z) : io S (Z * list Z) := λ s,
  match mems_msg_context_alloc (mems s) with
  | (inr err, _) => Ret ((err, result), s)
  | (inl ctx, pool) =>
    if 256 <? 8 + Z.of_nat (length msg) then Fault else
    let hdr := words [msg_id; vc_trans_id s] ++ msg in
    '(h, answer, f) ← sm_answer hdr (vc s);
    '(woken, pool) ← mems_take_answer pool h (Z.of_nat (length answer)) (le_val (take 4 answer));
    if negb (woken =? ctx)%nat then NoFuel else
    if Z.of_nat (length result) <? Z.of_nat (length answer) then Fault else
    pool ← mems_msg_context_free pool ctx;
    Ret ((ERR_OK, answer ++ drop (length answer) result), with_mems (with_vc s f) pool (s32 (vc_trans_id s + 1)))
  end.

Definition vc_sm_cma_vchi_import (msg result : list Z) : io S (Z * list Z) := vc_sm_cma_vchi_send_msg VC_SM_MSG_TYPE_IMPORT msg result.

(** [stack] are the bytes the local variables start with: 15 of the name and
    the 8 of the result. *)
Definition vc_sm_cma_import_dmabuf (stack : list Z) (b : Z) : io S Z :=
  x ← get_buf b;
  let import := words [VC_SM_ALLOC_NON_CACHED; Z.lor (u32 (buffer x)) 0xc0000000; u32 (buffer_size x); 0x6677; 0x66aa] ++
    [115; 109; 45; 104; 111; 115; 116; 45; 114; 101; 115; 111; 117; 114; 99; 101; 0] ++ take 15 stack in
  '(err, result) ← vc_sm_cma_vchi_import import (take 8 (drop 15 stack));
  if negb (err =? ERR_OK) then mret err else
  x ← get_buf b;
  _ ← (λ s, Ret (tt, with_bufs s (<[b := MmalBuffer (buffer x) (buffer_size x) (le_val (drop 4 result)) (length_ x) (mmal_flags x) (dts x) (pts x)]> (bufs s)))) : io S unit;
  mret ERR_OK.

(** [kz i] and [dma i] are what the allocators give the [i]-th turn; neither is tested. *)
Fixpoint alloc_buffers (n : nat) (stack : list Z) (kz : Z → Z + Z) (dma : Z → Z) (p i : Z) : io S Z :=
  match n with
  | O => mret ERR_OK
  | Datatypes.S n =>
    y ← get_port p;
    match kz i with
    | inr _ => lift Fault
    | inl b =>
      _ ← (λ s, Ret (tt, with_bufs s (<[b := MmalBuffer (dma i) (size (minimum_buffer y)) 0 0 0 0 0]> (bufs s)))) : io S unit;
      err ← (if zero_copy y then vc_sm_cma_import_dmabuf stack b else mret ERR_OK);
      if negb (err =? ERR_OK) then mret err else
      _ ← on_lists (λ σ, list_add_tail σ b (buffers y));
      alloc_buffers n stack kz dma p (i + 1)
    end
  end.
Definition mmal_alloc_port_buffers (stack : list Z) (kz : Z → Z + Z) (dma : Z → Z) (p : Z) : io S Z :=
  y ← get_port p;
  alloc_buffers (Z.to_nat (u32 (num (minimum_buffer y) * 2))) stack kz dma p 0.

(** ** The pipeline of a capture *)

(** [struct mmal_fmt]; [mmal_encoding] is its field [mmal]. *)
Record mmal_fmt := MmalFmt { fmt_name : string; fourcc : Z; fmt_flags : Z; mmal_encoding : Z; depth : Z; mmal_component : Z; ybbp : Z; remove_padding : bool }.
Definition V4L2_FMT_FLAG_COMPRESSED : Z := 1.
Definition COMP_CAMERA : Z := 0.
Definition COMP_IMAGE_ENCODE : Z := 2.
Definition COMP_VIDEO_ENCODE : Z := 3.
Definition MMAL_ENCODING_JPEG : Z := MMAL_FOURCC 74 80 69 71.
Definition MMAL_ENCODING_RGB24 : Z := MMAL_FOURCC 82 71 66 51.
Definition MMAL_ENCODING_OPAQUE : Z := MMAL_FOURCC 79 80 81 86.
Definition MMAL_COLOR_SPACE_JPEG_JFIF : Z := MMAL_FOURCC 89 74 70 73.
Definition formats : list mmal_fmt :=
  [MmalFmt "4:2:0, planar, YUV"%string (MMAL_FOURCC 89 85 49 50) 0 (MMAL_FOURCC 73 52 50 48) 12 COMP_CAMERA 1 true;
   MmalFmt "4:2:2, packed, YUYV"%string (MMAL_FOURCC 89 85 89 86) 0 (MMAL_FOURCC 89 85 89 86) 16 COMP_CAMERA 2 false;
   MmalFmt "RGB24 (LE)"%string (MMAL_FOURCC 82 71 66 51) 0 MMAL_ENCODING_RGB24 24 COMP_CAMERA 3 false;
   MmalFmt "JPEG"%string (MMAL_FOURCC 74 80 69 71) V4L2_FMT_FLAG_COMPRESSED MMAL_ENCODING_JPEG 8 COMP_IMAGE_ENCODE 0 false;
   MmalFmt "H264"%string (MMAL_FOURCC 72 50 54 52) V4L2_FMT_FLAG_COMPRESSED (MMAL_FOURCC 72 50 54 52) 8 COMP_VIDEO_ENCODE 0 false;
   MmalFmt "MJPEG"%string (MMAL_FOURCC 77 74 80 71) V4L2_FMT_FLAG_COMPRESSED (MMAL_FOURCC 77 74 80 71) 8 COMP_VIDEO_ENCODE 0 false;
   MmalFmt "4:2:2, packed, YVYU"%string (MMAL_FOURCC 89 86 89 85) 0 (MMAL_FOURCC 89 86 89 85) 16 COMP_CAMERA 2 false;
   MmalFmt "4:2:2, packed, VYUY"%string (MMAL_FOURCC 86 89 85 89) 0 (MMAL_FOURCC 86 89 85 89) 16 COMP_CAMERA 2 false;
   MmalFmt "4:2:2, packed, UYVY"%string (MMAL_FOURCC 85 89 86 89) 0 (MMAL_FOURCC 85 89 86 89) 16 COMP_CAMERA 2 false;
   MmalFmt "4:2:0, planar, NV12"%string (MMAL_FOURCC 78 86 49 50) 0 (MMAL_FOURCC 78 86 49 50) 12 COMP_CAMERA 1 true;
   MmalFmt "RGB24 (BE)"%string (MMAL_FOURCC 66 71 82 51) 0 (MMAL_FOURCC 66 71 82 51) 24 COMP_CAMERA 3 false;
   MmalFmt "4:2:0, planar, YVU"%string (MMAL_FOURCC 89 86 49 50) 0 (MMAL_FOURCC 89 86 49 50) 12 COMP_CAMERA 1 true;
   MmalFmt "4:2:0, planar, NV21"%string (MMAL_FOURCC 78 86 50 49) 0 (MMAL_FOURCC 78 86 50 49) 12 COMP_CAMERA 1 true;
   MmalFmt "RGB32 (BE)"%string (MMAL_FOURCC 66 71 82 52) 0 (MMAL_FOURCC 66 71 82 65) 32 COMP_CAMERA 4 false].

(** [struct v4l2_pix_format], the fields read. *)
Record pix_format := PixFormat { width : Z; height : Z; pixelformat : Z; sizeimage : Z }.
Definition get_format (f : pix_format) : option mmal_fmt := list_find (λ x, fourcc x = pixelformat f) formats ≫= λ '(_, x), Some x.

Definition es_of_pix (f : pix_format) (l : list Z) : list Z :=
  es_word ES_FRAME_RATE_DEN 1 (es_word ES_FRAME_RATE_NUM 0 (es_word ES_CROP_HEIGHT (height f) (es_word ES_CROP_WIDTH (width f)
    (es_word ES_CROP_Y 0 (es_word ES_CROP_X 0 (es_word ES_HEIGHT (height f) (es_word ES_WIDTH (width f) l))))))).
Definition port_with_encoding (y : port) (enc : Z) (e : list Z) : port :=
  let f := format y in port_with_format y (EsFormat (type f) enc 0 (es_set f) (bitrate f) (flags f) (extradata_size f)) e.

(** An unknown format is a NULL pointer. *)
Definition vchiq_mmal_setup_encode_component (f : pix_format) (cam camera_port encode_component p : Z) : io S Z :=
  y ← get_port camera_port;
  _ ← set_port camera_port (port_with_current y (PortBuffer (num (recommended_buffer y)) (size (recommended_buffer y)) (alignment (current_buffer y))));
  input ← lift (array_port encode_component MMAL_PORT_TYPE_INPUT 0);
  err ← vchiq_mmal_create_tunnel cam camera_port encode_component input;
  if negb (err =? ERR_OK) then mret err else
  mfmt ← lift (deref (get_format f));
  y ← get_port p;
  _ ← set_port p (port_with_encoding y (mmal_encoding mfmt) (es_of_pix f (es y)));
  err ← vchiq_mmal_port_set_format encode_component p;
  if negb (err =? ERR_OK) then mret err else
  err ← vchiq_mmal_component_enable encode_component;
  if negb (err =? ERR_OK) then mret err else
  y ← get_port p;
  let size_ := if encoding (format y) =? MMAL_ENCODING_JPEG then (if sizeimage f <? Z.shiftl 100 10 then Z.shiftl 100 10 else sizeimage f) else sizeimage f in
  _ ← set_port p (port_with_current y (PortBuffer 1 size_ 0));
  mret ERR_OK.

(** The ports chosen, when there is no error. *)
Definition vchiq_mmal_setup_components (cam encode_component : Z) (f : pix_format) : io S (Z * option (Z * Z)) :=
  mfmt ← lift (deref (get_format f));
  if negb (mmal_component mfmt =? COMP_IMAGE_ENCODE) then mret (ERR_INVAL_ARG, None) else
  p ← lift (array_port encode_component MMAL_PORT_TYPE_OUTPUT 0);
  camera_port ← lift (array_port cam MMAL_PORT_TYPE_OUTPUT CAM_PORT_CAPTURE);
  y ← get_port camera_port;
  _ ← set_port camera_port (port_with_encoding y MMAL_ENCODING_OPAQUE (es_word ES_COLOR_SPACE MMAL_COLOR_SPACE_JPEG_JFIF (es_of_pix f (es y))));
  err ← vchiq_mmal_port_set_format cam camera_port;
  if negb (err =? ERR_OK) then mret (err, None) else
  err ← vchiq_mmal_setup_encode_component f cam camera_port encode_component p;
  if negb (err =? ERR_OK) then mret (err, None) else mret (ERR_OK, Some (camera_port, p)).

(** [vchiq_camera_run] up to its loop: the still port, or the error.  The
    allocators' results are arguments. *)
Definition camera_name : list Z := [114; 105; 108; 46; 99; 97; 109; 101; 114; 97].
Definition set_still_format (cam p encoding_ width_ height_ : Z) : io S Z :=
  _ ← vchiq_mmal_local_format_fill p encoding_ 0 width_ height_;
  vchiq_mmal_port_set_format cam p.
Definition camera_setup (cam still_port video_port preview_port frame_width frame_height : Z) (stack : list Z) (kz : Z → Z + Z) (dma : Z → Z) : io S Z :=
  err ← set_still_format cam still_port MMAL_ENCODING_RGB24 frame_width frame_height;
  if negb (err =? ERR_OK) then mret err else
  err ← set_still_format cam video_port MMAL_ENCODING_OPAQUE frame_width frame_height;
  if negb (err =? ERR_OK) then mret err else
  err ← set_still_format cam preview_port MMAL_ENCODING_OPAQUE frame_width frame_height;
  if negb (err =? ERR_OK) then mret err else
  err ← mmal_port_set_zero_copy cam still_port;
  if negb (err =? ERR_OK) then mret err else
  err ← mmal_camera_enable cam;
  if negb (err =? ERR_OK) then mret err else
  err ← vchiq_mmal_port_enable still_port;
  if negb (err =? ERR_OK) then mret err else
  mmal_alloc_port_buffers stack kz dma still_port.

Definition vchiq_camera_run (frame_width frame_height : Z) (kz_info kz_cam : Z + Z) (stack : list Z) (kz : Z → Z + Z) (dma : Z → Z) : io S (Z + Z) :=
  '(err, cam_info) ← vchiq_mmal_get_cam_info kz_info (replicate (Z.to_nat SIZEOF_CAMERA_INFO) 0);
  if negb (err =? ERR_OK) then mret (inr err) else
  r ← component_create kz_cam camera_name;
  match r with
  | inr err => mret (inr err)
  | inl cam =>
    _ ← mmal_set_camera_parameters cam cam_info;
    still_port ← lift (array_port cam MMAL_PORT_TYPE_OUTPUT CAM_PORT_CAPTURE);
    video_port ← lift (array_port cam MMAL_PORT_TYPE_OUTPUT CAM_PORT_VIDEO);
    preview_port ← lift (array_port cam MMAL_PORT_TYPE_OUTPUT CAM_PORT_PREVIEW);
    '(err, _, _) ← mmal_port_get_supp_encodings still_port (replicate (Z.to_nat (4 * MAX_SUPPORTED_ENCODINGS)) 0) (4 * MAX_SUPPORTED_ENCODINGS);
    if negb (err =? ERR_OK) then mret (inr err) else
    err ← camera_setup cam still_port video_port preview_port frame_width frame_height stack kz dma;
    mret (if negb (err =? ERR_OK) then inr err else inl still_port)
  end.

(** A turn of its loop: the error of the capture is not the one that is tested. *)
Definition camera_turn (fuel : nat) (cam still_port : Z) : io S Z :=
  err ← mmal_port_buffer_send_all fuel still_port;
  if negb (err =? ERR_OK) then mret err else
  _ ← mmal_camera_capture_frames cam still_port;
  mret ERR_OK.
End mmal.

(** ** The contexts *)

(** What the service can do with the pool: [n] contexts were taken so far. *)
Inductive pool_reach : mems_pool → Z → Prop :=
| pool_start : pool_reach mems_start 0
| pool_alloc s n i s' : pool_reach s n → n < 2 ^ 32 → mems_msg_context_alloc s = (inl i, s') → pool_reach s' (n + 1)
| pool_answer s n h size_ id i s' : pool_reach s n → mems_take_answer s h size_ id = Ret (i, s') → pool_reach s' n
| pool_free s n i s' : pool_reach s n → mems_msg_context_free s i = Ret s' → pool_reach s' n.

(** The first [k] contexts were used, with different transactions. *)
Record pool_inv (s : mems_pool) (n : Z) (k : nat) : Prop := {
  pi_length : length (contexts s) = 4%nat;
  pi_count : mems_transaction_counter s = n mod 2 ^ 32 ∧ 0 ≤ n ≤ 2 ^ 32;
  pi_old : ∀ i x, contexts s !! i = Some x → (i < k)%nat → 0 ≤ trans_id x < n;
  pi_new : ∀ i x, contexts s !! i = Some x → (k ≤ i)%nat → active x = false;
  pi_distinct : ∀ i j x y, contexts s !! i = Some x → contexts s !! j = Some y → (i < j < k)%nat → trans_id x ≠ trans_id y }.

Lemma first_inactive_spec l : ∀ o,
  match first_inactive l o with
  | None => ∀ i x, l !! i = Some x → active x = true
  | Some i => ∃ j x, i = (o + j)%nat ∧ l !! j = Some x ∧ active x = false ∧ ∀ j' y, (j' < j)%nat → l !! j' = Some y → active y = true
  end.
Proof.
  induction l as [|x l IH]; intros o; [done|]. cbn [first_inactive]. destruct (active x) eqn:E.
  - specialize (IH (o + 1)%nat). destruct (first_inactive l (o + 1)) as [i|].
    + destruct IH as (j & y & -> & Hj & Ha & Hlt). exists (S j), y. split_and!; [lia|done|done|].
      intros [|j'] z Hj' Hz; [by injection Hz as <-|]. apply (Hlt j'); [lia|done].
    + intros [|i] y Hy; [by injection Hy as <-|by eapply IH].
  - exists 0%nat, x. split_and!; [lia|done|done|lia].
Qed.

Lemma find_trans_spec l id : ∀ o j x, l !! j = Some x → trans_id x = id → active x = true →
  (∀ j' y, (j' < j)%nat → l !! j' = Some y → trans_id y ≠ id) → find_trans l id o = inl (o + j)%nat.
Proof.
  induction l as [|z l IH]; intros o j x Hj Hid Ha Hlt; [done|]. cbn [find_trans]. destruct j as [|j].
  - injection Hj as ->. rewrite Hid, Z.eqb_refl, Ha. f_equal. lia.
  - rewrite (proj2 (Z.eqb_neq _ _)) by (apply (Hlt 0%nat); [lia|done]). rewrite (IH (o + 1)%nat j x); [f_equal; lia|done..|].
    intros j' y Hj' Hy. apply (Hlt (S j')); [lia|done].
Qed.

(** Replacing a context by one with the same transaction, in use only if it was. *)
Lemma pool_inv_update s n k i x x' : pool_inv s n k → contexts s !! i = Some x → trans_id x' = trans_id x → (active x' = true → active x = true) →
  pool_inv (with_contexts s (<[i := x']> (contexts s))) n k.
Proof.
  intros [Hl Hc Ho Hn Hd] Hi Ht Ha. assert (∀ j y, <[i := x']> (contexts s) !! j = Some y → ∃ z, contexts s !! j = Some z ∧ trans_id y = trans_id z ∧ (active y = true → active z = true)) as Hback.
  { intros j y Hy. destruct (decide (j = i)) as [->|]; [rewrite list_lookup_insert_eq in Hy by (by eapply lookup_lt_Some); injection Hy as <-; by exists x|].
    rewrite list_lookup_insert_ne in Hy by done. by exists y. }
  split; cbn [contexts mems_transaction_counter with_contexts].
  - by rewrite length_insert.
  - done.
  - intros j y Hy Hj. destruct (Hback j y Hy) as (z & Hz & -> & _). by apply (Ho j).
  - intros j y Hy Hj. destruct (Hback j y Hy) as (z & Hz & _ & Hact). specialize (Hn j z Hz Hj). destruct (active y); [rewrite Hact in Hn; done|done].
  - intros j j' y y' Hy Hy' Hj. destruct (Hback j y Hy) as (z & Hz & -> & _). destruct (Hback j' y' Hy') as (z' & Hz' & -> & _). by apply (Hd j j').
Qed.

Lemma pool_inv_alloc s n k i s' : pool_inv s n k → n < 2 ^ 32 → mems_msg_context_alloc s = (inl i, s') → ∃ k', pool_inv s' (n + 1) k'.
Proof.
  intros [Hl [Hc Hb] Ho Hn Hd] Hlt Ha. unfold mems_msg_context_alloc in Ha. pose proof (first_inactive_spec (contexts s) 0) as Hf.
  destruct (first_inactive (contexts s) 0) as [i0|]; [|done]. destruct Hf as (j & x & -> & Hj & _ & Hbefore). injection Ha as <- <-. cbn [Nat.add] in *.
  pose proof (lookup_lt_Some _ _ _ Hj) as Hjl. rewrite Hc, Z.mod_small by lia.
  assert (j ≤ k)%nat as Hjk. { destruct (le_lt_dec j k); [done|]. destruct (lookup_lt_is_Some_2 (contexts s) k) as [y Hy]; [lia|]. pose proof (Hbefore k y ltac:(lia) Hy) as Hact. by rewrite (Hn k y Hy) in Hact. }
  exists (Nat.max k (S j)). split; cbn [contexts mems_transaction_counter].
  - by rewrite length_insert.
  - unfold u32. lia.
  - intros i y Hy Hi. destruct (decide (i = j)) as [->|]; [rewrite list_lookup_insert_eq in Hy by done; injection Hy as <-; cbn; lia|].
    rewrite list_lookup_insert_ne in Hy by done. pose proof (Ho i y Hy). lia.
  - intros i y Hy Hi. rewrite list_lookup_insert_ne in Hy by lia. apply (Hn i); [done|lia].
  - intros i i' y y' Hy Hy' Hi. destruct (decide (i = j)) as [->|], (decide (i' = j)) as [->|]; [lia|..];
      rewrite ?list_lookup_insert_eq, ?list_lookup_insert_ne in Hy by done; rewrite ?list_lookup_insert_eq, ?list_lookup_insert_ne in Hy' by done.
    + injection Hy as <-. cbn. pose proof (Ho i' y' Hy'). lia.
    + injection Hy' as <-. cbn. pose proof (Ho i y Hy). lia.
    + apply (Hd i i'); [done|done|lia].
Qed.

Lemma pool_reach_inv s n : pool_reach s n → ∃ k, pool_inv s n k.
Proof.
  induction 1 as [|s n i s' _ [k Hk] Hn Ha|s n h size_ id i s' _ [k Hk] Ht|s n i s' _ [k Hk] Hf].
  - exists 0%nat. split; [done|split; [reflexivity|lia]|intros; lia| |intros; lia]. intros i x Hi _. change (contexts mems_start) with (replicate 4 (MemsCtx false 0 NULL 0)) in Hi. by apply lookup_replicate in Hi as [-> _].
  - by eapply pool_inv_alloc.
  - unfold mems_take_answer in Ht. apply bind_inv in Ht as (? & _ & Ht). destruct (mems_msg_context_from_trans_id s id) as [j|]; [|done].
    apply bind_inv in Ht as (z & Hx & Ht). injection Ht as <- <-. exists k. destruct (contexts s !! j) as [x0|] eqn:E; [injection Hx as <-|done]. by eapply pool_inv_update.
  - unfold mems_msg_context_free in Hf. destruct (_ <? _); [done|]. apply bind_inv in Hf as (z & Hx & Hf). injection Hf as <-.
    destruct (contexts s !! i) as [x0|] eqn:E; [injection Hx as <-|done]. exists k. by eapply pool_inv_update.
Qed.

(** C35: the shared memory service never loses a request: whatever contexts were
    taken, answered and given back before (fewer than 2^32), a context in use is
    the one its transaction leads to, so that an answer wakes the task that
    waits for it; and a new context is refused only when all four are in use. *)
Theorem mems_contexts_found s n : pool_reach s n →
  (∀ i x, contexts s !! i = Some x → active x = true → mems_msg_context_from_trans_id s (trans_id x) = inl i) ∧
  (n < 2 ^ 32 → match mems_msg_context_alloc s with
   | (inl i, s') => (∃ x, contexts s !! i = Some x ∧ active x = false) ∧ mems_msg_context_from_trans_id s' n = inl i
   | (inr err, s') => err = ERR_NO_RESOURCE ∧ s' = s ∧ ∀ x, x ∈ contexts s → active x = true
   end).
Proof.
  intros Hr. assert (∀ s n, pool_reach s n → ∀ i x, contexts s !! i = Some x → active x = true → mems_msg_context_from_trans_id s (trans_id x) = inl i) as Hfound.
  { clear s n Hr. intros s n Hr i x Hi Ha. destruct (pool_reach_inv s n Hr) as [k [Hl Hc Ho Hn Hd]]. assert (i < k)%nat by (destruct (le_lt_dec k i) as [L|]; [by rewrite (Hn i x Hi L) in Ha|done]).
    apply (find_trans_spec _ _ 0 i x); [done..|]. intros j y Hj Hy. apply (Hd j i); [done|done|lia]. }
  split; [by apply (Hfound s n)|]. intros Hn. destruct (mems_msg_context_alloc s) as [[i|err] s'] eqn:E.
  - pose proof (pool_alloc s n i s' Hr Hn E) as Hr'. destruct (pool_reach_inv s n Hr) as [k [Hl [Hc Hb] _ _ _]]. unfold mems_msg_context_alloc in E. pose proof (first_inactive_spec (contexts s) 0) as Hf.
    destruct (first_inactive (contexts s) 0) as [i0|]; [|done]. destruct Hf as (j & x & -> & Hj & Ha & _). injection E as <- <-. cbn [Nat.add] in *. split; [by exists x|].
    pose proof (Hfound _ _ Hr' j _ (list_lookup_insert_eq _ _ _ (lookup_lt_Some _ _ _ Hj)) eq_refl) as E. rewrite Z.mod_small in Hc by lia.
    rewrite Hc in E |- *. exact E.
  - unfold mems_msg_context_alloc in E. pose proof (first_inactive_spec (contexts s) 0) as Hf. destruct (first_inactive (contexts s) 0); [done|]. injection E as <- <-.
    split_and!; [done|done|]. intros x [i Hi]%list_elem_of_lookup. by apply (Hf i).
Qed.

(** ** A buffer and its message *)
Definition word_at (l : list Z) (i : Z) : Z := le_val (take 4 (drop (Z.to_nat (4 * i)) l)).

(** Where the answer's fields come from: [drvbuf.client_context] is the fourth
    word, [buffer_header.data] the twelfth. *)
Lemma buffer_message_fields handle p b y x : 0 ≤ p < 2 ^ 32 →
  word_at (buffer_message handle p b y x) 3 = p ∧ word_at (buffer_message handle p b y x) 11 = u32 (buffer_data y x).
Proof.
  intros Hp. unfold word_at, buffer_message, words. generalize (if p_type y =? MMAL_PORT_TYPE_OUTPUT then 0 else u32 (length_ x)). intros v.
  change (Z.to_nat (4 * 3)) with 12%nat. change (Z.to_nat (4 * 11)) with 44%nat. cbn [map concat]. split.
  - etransitivity; [exact (le_val_bytes 4 (u32 p))|]. unfold u32. rewrite Zmod_mod. apply Z.mod_small. done.
  - exact (le_val_bytes 4 (buffer_data y x)).
Qed.

Lemma buffer_data_u32 y x : u32 (buffer_data y x) = buffer_data y x.
Proof.
  unfold buffer_data. destruct (zero_copy y); [apply u32_u32|]. apply u32_id. pose proof (u32_range (buffer x)).
  apply bits_bound; [lia|]. split; [apply Z.lor_nonneg; lia|]. intros i Hi. rewrite Z.lor_spec, !(testbit_high _ 32) by lia. done.
Qed.

Section buffers.
Context {F : Type} `{VideoCore F} `{MmalLayout}.
Abbreviation S := (mmal F).
Implicit Types s : S.

Lemma walk_find {A} (body : Z → io S (option A)) s s' h b (a : A) ys : body b s = Ret (Some a, s') → ∀ xs x fuel,
  path (mnodes s) x (xs ++ b :: ys) h → h ∉ xs ++ b :: ys → (∀ z, z ∈ xs → body z s = Ret (None, s)) → (length xs < fuel)%nat →
  (pos ← get_next (mnodes s) x;
   loop fuel (λ '(pos, s),
    if pos =? h then Ret (inr (None, s)) else
    '(o, s) ← body pos s;
    match o with
    | Some a => Ret (inr (Some a, s))
    | None => n ← get_next (mnodes s) pos; Ret (inl (n, s))
    end) (pos, s)) = Ret (Some a, s').
Proof.
  intros Hb. induction xs as [|z xs IH]; intros x fuel Hp Hh Hn Hf; (destruct fuel; [cbn in Hf; lia|]); cbn [app] in *;
    destruct Hp as [[Hl _] Hp]; apply not_elem_of_cons in Hh as [Hh Hh']; rewrite (get_next_ok _ _ _ Hl), bind_ret; cbn [loop];
    rewrite (proj2 (Z.eqb_neq _ _)) by congruence.
  - by rewrite Hb, !bind_ret.
  - rewrite Hn by (by left). rewrite bind_ret. destruct (path_head _ _ _ _ Hp) as (n & Hnx & _).
    specialize (IH z fuel Hp Hh'). rewrite (get_next_ok _ _ _ Hnx), bind_ret in IH. rewrite (get_next_ok _ _ _ Hnx), !bind_ret. apply IH; [|cbn in Hf; lia]. intros w Hw. apply Hn. by right.
Qed.

Lemma for_each_find {A} (body : Z → io S (option A)) s s' h xs b (a : A) ys fuel : dring (mnodes s) h (xs ++ b :: ys) →
  (∀ z, z ∈ xs → body z s = Ret (None, s)) → body b s = Ret (Some a, s') → (length xs < fuel)%nat → for_each_entry fuel h body s = Ret (Some a, s').
Proof. intros [Hnd Hp] Hn Hb Hf. apply NoDup_cons in Hnd as [Hh _]. by apply (walk_find body s s' h b a ys Hb xs h fuel). Qed.

(** The buffers [bs] of the port [y], known to the VideoCore by different data. *)
Record port_buffers s (y : port) (bs : list Z) : Prop := {
  pb_ring : dring (mnodes s) (buffers y) bs;
  pb_bufs b : b ∈ bs → is_Some (bufs s !! b);
  pb_data b b' x x' : b ∈ bs → b' ∈ bs → bufs s !! b = Some x → bufs s !! b' = Some x' → buffer_data y x = buffer_data y x' → b = b' }.

Lemma get_port_ok s p y : ports s !! p = Some y → get_port p s = Ret (y, s).
Proof. intros E. unfold get_port. by rewrite E. Qed.
Lemma get_buf_ok s b x : bufs s !! b = Some x → get_buf b s = Ret (x, s).
Proof. intros E. unfold get_buf. by rewrite E. Qed.
Lemma get_comp_ok s c x : comps s !! c = Some x → get_comp c s = Ret (x, s).
Proof. intros E. unfold get_comp. by rewrite E. Qed.

Lemma buffer_found fuel s p y bs b x : ports s !! p = Some y → port_buffers s y bs → b ∈ bs → bufs s !! b = Some x → (length bs < fuel)%nat →
  mmal_port_get_buffer_from_header fuel p (buffer_data y x) s = Ret (b, s).
Proof.
  intros Hp Hb Hin Hx Hf. apply list_elem_of_split in Hin as (xs & ys & ->). unfold mmal_port_get_buffer_from_header.
  rewrite (io_bind_ret _ _ _ _ _ (get_port_ok _ _ _ Hp)). pose proof (pb_ring _ _ _ Hb) as Hr. pose proof Hr as [Hnd _]. apply NoDup_cons in Hnd as [_ Hnd].
  rewrite (io_bind_ret _ _ _ (Some b) s); [done|]. apply (for_each_find _ _ _ _ xs b _ ys); [done| | |rewrite length_app in Hf; lia].
  - intros z Hz. destruct (pb_bufs _ _ _ Hb z) as [xz Hxz]; [set_solver|]. rewrite (io_bind_ret _ _ _ _ _ (get_buf_ok _ _ _ Hxz)).
    rewrite (proj2 (Z.eqb_neq _ _)); [done|]. intros E. assert (z = b) as -> by (apply (pb_data _ _ _ Hb z b xz x); [set_solver..|done]).
    apply NoDup_app in Hnd as (_ & Hd & _). apply (Hd b Hz). by left.
  - rewrite (io_bind_ret _ _ _ _ _ (get_buf_ok _ _ _ Hx)). by rewrite Z.eqb_refl.
Qed.

Lemma buffer_sent fuel s p y c bs b x f : ports s !! p = Some y → comps s !! p_component y = Some c → port_buffers s y bs → b ∈ bs → bufs s !! b = Some x →
  (length bs < fuel)%nat → vc_take MMAL_MSG_TYPE_BUFFER_FROM_HOST (buffer_message (c_handle c) p b y x) (vc s) = Ret f →
  mmal_port_buffer_send_one fuel p b s = Ret (ERR_OK, with_vc s f).
Proof.
  intros Hp Hc Hb Hin Hx Hf Ht. apply list_elem_of_split in Hin as (xs & ys & ->). unfold mmal_port_buffer_send_one.
  rewrite (io_bind_ret _ _ _ _ _ (get_port_ok _ _ _ Hp)). pose proof (pb_ring _ _ _ Hb) as Hr. pose proof Hr as [Hnd _]. apply NoDup_cons in Hnd as [_ Hnd].
  rewrite (io_bind_ret _ _ _ (Some ERR_OK) (with_vc s f)); [done|]. apply (for_each_find _ _ _ _ xs b _ ys); [done| | |rewrite length_app in Hf; lia].
  - intros z Hz. rewrite (proj2 (Z.eqb_neq _ _)); [done|]. intros ->. apply NoDup_app in Hnd as (_ & Hd & _). apply (Hd b Hz). by left.
  - rewrite Z.eqb_refl. rewrite (io_bind_ret _ _ _ ERR_OK (with_vc s f)); [done|]. unfold vchiq_mmal_buffer_from_host. rewrite (io_bind_ret _ _ _ _ _ (get_port_ok _ _ _ Hp)).
    rewrite (io_bind_ret _ _ _ _ _ (get_comp_ok _ _ _ Hc)), (io_bind_ret _ _ _ _ _ (get_buf_ok _ _ _ Hx)).
    rewrite (io_bind_ret _ _ _ tt (with_vc s f)); [done|]. by rewrite Ht.
Qed.

(** C27: a buffer comes back to itself: the message that gives the buffer [b] of a
    port to the VideoCore carries the port's address and the buffer's data, and
    when a header with that data comes back for that port, the work it causes
    finds [b] again, shows it when a frame ends, gives it to the VideoCore again
    with the same message, and at the end of a stream asks for the next capture. *)
Theorem mmal_buffer_returns fuel s p y c bs b x len fl f1 : 0 ≤ p < 2 ^ 32 → ports s !! p = Some y → comps s !! p_component y = Some c →
  port_buffers s y bs → b ∈ bs → b ≠ NULL → bufs s !! b = Some x → (length bs < fuel)%nat →
  let m := buffer_message (c_handle c) p b y x in
  vc_take MMAL_MSG_TYPE_BUFFER_FROM_HOST m (if truth (Z.land fl MMAL_BUFFER_HEADER_FLAG_FRAME_END) then lcd_print (buffer x) len (vc s) else vc s) = Ret f1 →
  word_at m 3 = p ∧
  mmal_port_buffer_io_work fuel (p_component y) p (BufferHeader (word_at m 11) len fl) s =
    (if truth (Z.land fl MMAL_BUFFER_HEADER_FLAG_EOS) then mmal_camera_capture_frames (p_component y) p (with_vc s f1) else Ret (ERR_OK, with_vc s f1)).
Proof.
  intros Hpr Hp Hc Hb Hin Hnn Hx Hf m Ht. destruct (buffer_message_fields (c_handle c) p b y x Hpr) as [E3 E11]. fold m in E3, E11. rewrite buffer_data_u32 in E11.
  split; [done|]. rewrite E11. unfold mmal_port_buffer_io_work. cbn [h_data h_length h_flags].
  rewrite (io_bind_ret _ _ _ _ _ (buffer_found fuel s p y bs b x Hp Hb Hin Hx Hf)). rewrite (proj2 (Z.eqb_neq b NULL) Hnn).
  rewrite (io_bind_ret _ _ _ tt s) by done. rewrite (io_bind_ret _ _ _ _ _ (get_buf_ok _ _ _ Hx)).
  set (s1 := if truth (Z.land fl MMAL_BUFFER_HEADER_FLAG_FRAME_END) then with_vc s (lcd_print (buffer x) len (vc s)) else s).
  rewrite (io_bind_ret _ _ _ tt s1) by (unfold s1; by destruct (truth _)).
  assert (ports s1 = ports s ∧ comps s1 = comps s ∧ bufs s1 = bufs s ∧ mnodes s1 = mnodes s ∧ with_vc s1 f1 = with_vc s f1) as (Ep & Ec & Eb & En & Ev) by (unfold s1; by destruct (truth _)).
  assert (port_buffers s1 y bs) as Hb1 by (destruct Hb as [R B D]; split; rewrite ?En, ?Eb; [exact R|exact B|exact D]).
  rewrite (io_bind_ret _ _ _ ERR_OK (with_vc s f1)).
  - change (negb (ERR_OK =? ERR_OK)) with false. cbv iota. by destruct (truth (Z.land fl MMAL_BUFFER_HEADER_FLAG_EOS)).
  - rewrite <- Ev. apply (buffer_sent fuel s1 p y c bs b x f1); rewrite ?Ep, ?Ec, ?Eb; [done..|]. fold m. rewrite <- Ht. unfold s1. by destruct (truth (Z.land fl MMAL_BUFFER_HEADER_FLAG_FRAME_END)).
Qed.
End buffers.

(** A port with more than 20 encodings: the answer does not fit the caller's
    array, because the size of the array is given as its length. *)
Lemma supp_encodings_overflow {F} `{VideoCore F} `{MmalLayout} (s : mmal F) p y c r f n : ports s !! p = Some y → comps s !! p_component y = Some c →
  vc_answer MMAL_MSG_TYPE_PORT_PARAMETER_GET (words [c_handle c; p_handle y; MMAL_PARAMETER_SUPPORTED_ENCODINGS; 328]) (vc s) = Ret (MMAL_MSG_TYPE_PORT_PARAMETER_GET, r, f) →
  rword r 0 = MMAL_MSG_STATUS_SUCCESS → rword r 2 = 4 * n → MAX_SUPPORTED_ENCODINGS < n →
  mmal_port_get_supp_encodings p (replicate (Z.to_nat (4 * MAX_SUPPORTED_ENCODINGS)) 0) (4 * MAX_SUPPORTED_ENCODINGS) s = Fault.
Proof.
  intros Hp Hc Ha R0 R2 Hn. unfold mmal_port_get_supp_encodings. rewrite (io_bind_ret _ _ _ _ _ (get_port_ok _ _ _ Hp)).
  change (u32 (4 * MAX_SUPPORTED_ENCODINGS * 4)) with 320. unfold mbind, io_bind at 1.
  assert (vchiq_mmal_port_parameter_get (p_component y) p MMAL_PARAMETER_SUPPORTED_ENCODINGS (replicate (Z.to_nat (4 * MAX_SUPPORTED_ENCODINGS)) 0) 320 s = Fault) as ->; [|done].
  unfold vchiq_mmal_port_parameter_get. change (u32 (2 * 4 + 320)) with 328.
  rewrite (io_bind_ret _ _ _ _ _ (get_comp_ok _ _ _ Hc)), (io_bind_ret _ _ _ _ _ (get_port_ok _ _ _ Hp)).
  rewrite (io_bind_ret _ _ _ (Some r) (with_vc s f)) by (unfold communicate; by rewrite Ha, bind_ret, R0).
  rewrite R2. rewrite (proj2 (Z.ltb_lt _ _)); [done|]. rewrite length_replicate. unfold MAX_SUPPORTED_ENCODINGS in *. lia.
Qed.

(** ** A new component *)
Section create.
Context {F : Type} `{VideoCore F} `{MmalLayout}.
Abbreviation S := (mmal F).
Implicit Types s : S.

(** The ports a component has room for. *)
Definition valid_port (t i : Z) : Prop := (t = MMAL_PORT_TYPE_CONTROL ∧ i = 0) ∨ (MMAL_PORT_TYPE_INPUT ≤ t ≤ MMAL_PORT_TYPE_CLOCK ∧ 0 ≤ i < MAX_PORT_COUNT).

(** What the VideoCore answers about the component it makes, and its ports. *)
Context (c : Z) (fw : F → Prop) (handle_ nin nout nclk : Z) (info : Z → Z → Z → Z).
Hypothesis fw_create : ∀ payload f, fw f → ∃ r f', vc_answer MMAL_MSG_TYPE_COMPONENT_CREATE payload f = Ret (MMAL_MSG_TYPE_COMPONENT_CREATE, r, f') ∧ fw f' ∧
  rword r 0 = MMAL_MSG_STATUS_SUCCESS ∧ rword r 1 = handle_ ∧ rword r 2 = nin ∧ rword r 3 = nout ∧ rword r 4 = nclk.
Hypothesis fw_info : ∀ t i f, fw f → valid_port t i → ∃ f', vc_answer MMAL_MSG_TYPE_PORT_INFO_GET (words [handle_; t; i]) f = Ret (MMAL_MSG_TYPE_PORT_INFO_GET, info t i, f') ∧ fw f' ∧
  rword (info t i) 0 = MMAL_MSG_STATUS_SUCCESS ∧ rword (info t i) 28 = 0.
Hypothesis layout : ∀ t i t' i', valid_port t i → valid_port t' i' →
  (port_at c t i = port_at c t' i' → t = t' ∧ i = i') ∧ (buffers_at (port_at c t i) = buffers_at (port_at c t' i') → t = t' ∧ i = i').

Definition new_port (t i : Z) : port := port_known c (zero_port (port_at c t i)) (info t i).

(** The ports [done_] are made, the others are as [kzalloc] left them. *)
Record creating s (x : component) (done_ : Z → Z → Prop) : Prop := {
  cr_comp : comps s !! c = Some x;
  cr_fw : fw (vc s);
  cr_done t i : valid_port t i → done_ t i → ports s !! port_at c t i = Some (new_port t i) ∧ list_empty (mnodes s) (buffers_at (port_at c t i)) = Ret true;
  cr_left t i : valid_port t i → ¬ done_ t i → ports s !! port_at c t i = Some (zero_port (port_at c t i));
  cr_nodes t i : valid_port t i → is_Some (mnodes s !! buffers_at (port_at c t i)) }.

Lemma port_create_ok s x done_ t i : creating s x done_ → c_handle x = handle_ → valid_port t i → ¬ done_ t i →
  ∃ s', mmal_port_create c (port_at c t i) t i s = Ret (ERR_OK, s') ∧ creating s' x (λ t' i', (t' = t ∧ i' = i) ∨ done_ t' i').
Proof.
  intros [Hc Hw Hd Hl Hn] Hh Hv Hnd. specialize (Hl t i Hv Hnd) as Hp. destruct (fw_info t i (vc s) Hw Hv) as (f' & Ha & Hw' & H0' & H28).
  set (p := port_at c t i) in *. destruct (INIT_LIST_HEAD_ring (mnodes s) (buffers_at p) (Hn t i Hv)) as (σ & Hσ & Hr & Hag).
  set (y1 := Port false false 0 t i NULL zero_buffers zero_buffers zero_buffers (EsFormat 0 0 0 false 0 0 0) (replicate ES_WORDS 0) (buffers_at p)).
  set (s1 := with_ports s (<[p := y1]> (ports s))). set (s2 := with_ports (with_vc s1 f') (<[p := new_port t i]> (<[p := y1]> (ports s)))).
  assert (vchiq_mmal_port_info_get c p s1 = Ret (ERR_OK, s2)) as Hg.
  { unfold vchiq_mmal_port_info_get. rewrite (io_bind_ret _ _ _ _ _ (get_comp_ok s1 c x Hc)).
    rewrite (io_bind_ret _ _ _ _ _ (get_port_ok s1 p y1 ltac:(cbn; by rewrite lookup_insert_eq))). unfold request.
    rewrite (io_bind_ret _ _ _ (Some (info t i)) (with_vc s1 f')).
    - rewrite H28. cbn [Z.eqb negb]. rewrite (io_bind_ret _ _ _ tt s2); [done|]. unfold set_port. cbn [ports with_vc with_ports s1]. by rewrite lookup_insert_eq.
    - unfold communicate. rewrite Hh. cbn [p_type p_index y1 vc s1 with_ports]. rewrite Ha, bind_ret, H0'. done. }
  exists (with_mnodes s2 σ). split.
  - unfold mmal_port_create. rewrite (io_bind_ret _ _ _ _ _ (get_port_ok s p _ Hp)). rewrite (io_bind_ret _ _ _ tt s1) by (unfold set_port; by rewrite Hp).
    rewrite (io_bind_ret _ _ _ _ _ Hg). change (negb (ERR_OK =? ERR_OK)) with false. cbv iota.
    rewrite (io_bind_ret _ _ _ tt (with_mnodes s2 σ)); [done|]. unfold on_lists. cbn [mnodes s2 s1 with_ports with_vc buffers zero_port]. by rewrite Hσ.
  - split; cbn [comps vc ports mnodes with_mnodes s2 s1 with_ports with_vc].
    + done.
    + done.
    + intros t' i' Hv' [[-> ->]|Hdn].
      * rewrite lookup_insert_eq. split; [done|]. fold p. by rewrite (list_empty_ring _ _ [] Hr).
      * assert (¬ (t = t' ∧ i = i')) as Hne by (intros [<- <-]; done). destruct (Hd t' i' Hv' Hdn) as [E1 E2].
        rewrite !lookup_insert_ne by (intros E; apply Hne; by apply layout in E). split; [done|].
        unfold list_empty, get_next in E2 |- *. destruct (Hag (buffers_at (port_at c t' i'))) as [Heq _].
        rewrite Heq; [done|]. intros Hin%list_elem_of_singleton. apply layout in Hin; [|done..]. destruct Hin as [-> ->]. tauto.
    + intros t' i' Hv' Hdn. rewrite !lookup_insert_ne by (intros E; apply layout in E as [<- <-]; [tauto|done..]). apply Hl; [done|tauto].
    + intros t' i' Hv'. destruct (Hag (buffers_at (port_at c t' i'))) as [_ Hdom]. apply Hdom. by apply Hn.
Qed.

Lemma creating_ext s x d1 d2 : (∀ t i, d1 t i ↔ d2 t i) → creating s x d1 → creating s x d2.
Proof. intros E [Hc Hw Hd Hl Hn]. split; [done|done| | |done]; intros t i Hv Hdn; [apply Hd; [done|by apply E]|apply Hl; [done|by rewrite E]]. Qed.

Lemma create_ports_ok x t : c_handle x = handle_ → MMAL_PORT_TYPE_INPUT ≤ t ≤ MMAL_PORT_TYPE_CLOCK → ∀ n i s done_, creating s x done_ → 0 ≤ i → i + Z.of_nat n ≤ MAX_PORT_COUNT →
  (∀ j, i ≤ j → ¬ done_ t j) → ∃ s', create_ports n c t i s = Ret (ERR_OK, s') ∧ creating s' x (λ t' j, (t' = t ∧ i ≤ j < i + Z.of_nat n) ∨ done_ t' j).
Proof.
  intros Hh Ht. induction n as [|n IH]; intros i s done_ Hc Hi Hle Hnd; cbn [create_ports].
  - exists s. split; [done|]. eapply creating_ext; [|exact Hc]. intros t' j. split; [by right|intros [?|?]; [lia|done]].
  - assert (valid_port t i) as Hv by (right; split; [done|lia]). destruct (port_create_ok s x done_ t i Hc Hh Hv (Hnd i (Z.le_refl _))) as (s1 & H1 & Hc1).
    rewrite (io_bind_ret _ _ _ (port_at c t i) s) by (unfold lift, array_port; zdec; done). rewrite (io_bind_ret _ _ _ _ _ H1).
    change (negb (ERR_OK =? ERR_OK)) with false. cbv iota. destruct (IH (i + 1) s1 _ Hc1) as (s' & Hs' & Hc'); [lia|lia|intros j Hj [?|Hdn]; [lia|by apply (Hnd j); [lia|]]|].
    exists s'. split; [exact Hs'|]. eapply creating_ext; [|exact Hc']. intros t' j. split.
    + intros [[-> ?]|[[-> ->]|?]]; [left; lia|left; lia|by right].
    + intros [[-> ?]|?]; [|by right; right]. destruct (decide (j = i)) as [->|]; [by right; left|left; lia].
Qed.

Lemma zeroed_lookup l (m : gmap Z port) p : foldr (λ p m, <[p := zero_port p]> m) m l !! p = if decide (p ∈ l) then Some (zero_port p) else m !! p.
Proof.
  induction l as [|q l IH]; cbn [foldr]; [by rewrite decide_False by (apply not_elem_of_nil)|]. destruct (decide (p = q)) as [->|].
  - rewrite lookup_insert_eq, decide_True by (by left). done.
  - rewrite lookup_insert_ne, IH by done. destruct (decide (p ∈ l)); [by rewrite decide_True by (by right)|]. rewrite decide_False; [done|]. by apply not_elem_of_cons.
Qed.

Lemma valid_port_in t i : valid_port t i → port_at c t i ∈ component_ports c.
Proof.
  intros [[-> ->]|[Ht Hi]]; [by left|]. unfold MMAL_PORT_TYPE_INPUT, MMAL_PORT_TYPE_CLOCK, MAX_PORT_COUNT in *. right. rewrite !elem_of_app.
  assert (i = 0 ∨ i = 1 ∨ i = 2 ∨ i = 3) as Hi4 by lia. assert (i ∈ [0; 1; 2; 3]) as Hin by (destruct Hi4 as [->|[->|[->| ->]]]; set_solver).
  assert (t = 2 ∨ t = 3 ∨ t = 4) as [->|[->| ->]] by lia; [left|right; left|right; right]; by apply list_elem_of_fmap_2.
Qed.

Definition named (name : list Z) : component := Component (name_field 32 name) true handle_ nin nout nclk.

Lemma component_head_ok s name : fw (vc s) → (∀ t i, valid_port t i → is_Some (mnodes s !! buffers_at (port_at c t i))) →
  ∃ s0 s1 y s2, zalloc_component c s = Ret (tt, s0) ∧ mmal_component_create name 0 c s0 = Ret (ERR_OK, s1) ∧ get_comp c s1 = Ret (y, s1) ∧
    set_comp c (Component (name_field 32 name) (c_enabled y) (c_handle y) (inputs y) (outputs y) (clocks y)) s1 = Ret (tt, s2) ∧
    inputs y = nin ∧ outputs y = nout ∧ creating s2 (named name) (λ _ _, False).
Proof.
  intros Hw Hn. set (zeros := Component (replicate 32 0) false 0 0 0 0). set (y := Component (replicate 32 0) true handle_ nin nout nclk).
  destruct (fw_create (words [0] ++ name_field 128 name ++ words [0]) (vc s) Hw) as (r & f' & Ha & Hw' & R0 & R1 & R2 & R3 & R4).
  set (s0 := with_ports (with_comps s (<[c := zeros]> (comps s))) (foldr (λ p m, <[p := zero_port p]> m) (ports s) (component_ports c))).
  set (s1 := with_comps (with_vc s0 f') (<[c := y]> (comps s0))). exists s0, s1, y, (with_comps s1 (<[c := named name]> (comps s1))).
  split; [reflexivity|]. assert (comps s0 !! c = Some zeros) as E0 by (cbn; by rewrite lookup_insert_eq). split_and!; [| | |done|done|].
  - unfold mmal_component_create, request. rewrite (io_bind_ret _ _ _ (Some r) (with_vc s0 f')).
    + rewrite (io_bind_ret _ _ _ _ _ (get_comp_ok (with_vc s0 f') c zeros E0)). rewrite R1, R2, R3, R4. rewrite (io_bind_ret _ _ _ tt s1); [done|].
      unfold set_comp. change (comps (with_vc s0 f')) with (comps s0). by rewrite E0.
    + unfold communicate. change (vc s0) with (vc s). rewrite Ha, bind_ret, R0. done.
  - apply get_comp_ok. cbn. by rewrite lookup_insert_eq.
  - unfold set_comp. cbn [comps s1 with_comps]. by rewrite lookup_insert_eq.
  - split; cbn [comps vc ports mnodes s0 s1 with_comps with_vc with_ports].
    + by rewrite lookup_insert_eq.
    + done.
    + done.
    + intros t i Hv _. rewrite zeroed_lookup. by rewrite decide_True by (by apply valid_port_in).
    + exact Hn.
Qed.

(** creating a component leaves it as the VideoCore describes it: if that
    makes the component and answers for each of its ports, the component has
    the handle and the counts of the answer, and the control port, every input
    port and every output port have the handle, type, buffers and format
    answered for their type and index, and an empty list of buffers. *)
Theorem component_create_ports s name : fw (vc s) → 0 ≤ nin ≤ MAX_PORT_COUNT → 0 ≤ nout ≤ MAX_PORT_COUNT →
  (∀ t i, valid_port t i → is_Some (mnodes s !! buffers_at (port_at c t i))) →
  ∃ s', component_create (inl c) name s = Ret (inl c, s') ∧
    comps s' !! c = Some (Component (name_field 32 name) true handle_ nin nout nclk) ∧
    ∀ t i, (t = MMAL_PORT_TYPE_CONTROL ∧ i = 0) ∨ (t = MMAL_PORT_TYPE_INPUT ∧ 0 ≤ i < nin) ∨ (t = MMAL_PORT_TYPE_OUTPUT ∧ 0 ≤ i < nout) →
      ports s' !! port_at c t i = Some (new_port t i) ∧ list_empty (mnodes s') (buffers_at (port_at c t i)) = Ret true.
Proof.
  intros Hw Hin Hout Hn. destruct (component_head_ok s name Hw Hn) as (s0 & s1 & y & s2 & H1 & H2 & H3 & H4 & Ei & Eo & Hc2).
  assert (valid_port MMAL_PORT_TYPE_CONTROL 0) as Hv0 by (by left). destruct (port_create_ok s2 (named name) _ _ _ Hc2 eq_refl Hv0 (λ x, x)) as (s3 & H5 & Hc3).
  assert (MMAL_PORT_TYPE_INPUT ≤ MMAL_PORT_TYPE_INPUT ≤ MMAL_PORT_TYPE_CLOCK) as Ti by done. assert (MMAL_PORT_TYPE_INPUT ≤ MMAL_PORT_TYPE_OUTPUT ≤ MMAL_PORT_TYPE_CLOCK) as To by done.
  destruct (create_ports_ok (named name) MMAL_PORT_TYPE_INPUT eq_refl Ti (Z.to_nat nin) 0 s3 _ Hc3 (Z.le_refl _)) as (s4 & H6 & Hc4); [lia|intros j _ [[E _]|[]]; discriminate E|].
  destruct (create_ports_ok (named name) MMAL_PORT_TYPE_OUTPUT eq_refl To (Z.to_nat nout) 0 s4 _ Hc4 (Z.le_refl _)) as (s5 & H7 & Hc5); [lia|intros j _ [[E _]|[[E _]|[]]]; discriminate E|].
  rewrite !Z2Nat.id in Hc5 by lia. exists s5. split; [|split; [apply (cr_comp _ _ _ Hc5)|]].
  - unfold component_create. rewrite (io_bind_ret _ _ _ _ _ H1), (io_bind_ret _ _ _ _ _ H2). change (negb (ERR_OK =? ERR_OK)) with false. cbv iota.
    rewrite (io_bind_ret _ _ _ _ _ H3), (io_bind_ret _ _ _ _ _ H4). rewrite (io_bind_ret _ _ _ ERR_OK s3) by exact H5. change (negb (ERR_OK =? ERR_OK)) with false. cbv iota. rewrite Ei, Eo.
    rewrite (io_bind_ret _ _ _ _ _ H6). change (negb (ERR_OK =? ERR_OK)) with false. cbv iota. rewrite (io_bind_ret _ _ _ _ _ H7). done.
  - intros t i Ht. apply (cr_done _ _ _ Hc5); [destruct Ht as [?|[[-> ?]|[-> ?]]]; [by left|right; split; [done|lia]..]|].
    destruct Ht as [[-> ->]|[[-> ?]|[-> ?]]]; [right; right; by left|right; left; lia|left; lia].
Qed.
End create.

(** ** Examples *)
Lemma mems_contexts_found_witness : ∃ s, pool_reach s 2 ∧ mems_msg_context_from_trans_id s 1 = inl 1%nat ∧ mems_msg_context_alloc s = (inl 0%nat, snd (mems_msg_context_alloc s)).
Proof.
  set (s1 := snd (mems_msg_context_alloc mems_start)). set (s2 := snd (mems_msg_context_alloc s1)).
  assert (pool_reach s2 2) as Hr by (apply (pool_alloc s1 1 1%nat); [apply (pool_alloc mems_start 0 0%nat); [constructor|lia|reflexivity]|lia|reflexivity]).
  assert (∃ s3, mems_msg_context_free s2 0 = Ret s3 ∧ contexts s3 !! 1%nat = contexts s2 !! 1%nat ∧ mems_msg_context_alloc s3 = (inl 0%nat, snd (mems_msg_context_alloc s3)))
    as (s3 & Hf & H1 & Ha) by (eexists; split_and!; [reflexivity..]).
  pose proof (pool_free s2 2 0%nat s3 Hr Hf) as Hr3. destruct (mems_contexts_found s3 2 Hr3) as [Hfound _].
  exists s3. split; [exact Hr3|]. split; [|exact Ha]. exact (Hfound 1%nat (MemsCtx true 1 NULL 0) H1 eq_refl).
Defined.

(** A VideoCore that logs what it is sent and answers for a component with the
    handle 7, one input and two outputs. *)
Definition demo_bytes (l : list Z) (k : Z) : Z := default 0 (words l !! Z.to_nat k).
Definition demo_answer (t : Z) (payload : list Z) : Z → Z :=
  if t =? MMAL_MSG_TYPE_PORT_INFO_GET then
    let ty := word_at payload 1 in let i := word_at payload 2 in demo_bytes [0; 7; ty; i; 0; 100 * ty + i; 0; 0; 0; 0; 0; 0; 2; 4096; 16]
  else demo_bytes [0; 7; 1; 2; 0].
#[local] Instance demo_vc : VideoCore (list (Z * list Z)) := {|
  vc_answer t payload f := Ret (t, demo_answer t payload, f ++ [(t, payload)]);
  vc_take t payload f := Ret (f ++ [(t, payload)]);
  sm_answer msg f := Ret (0, words [word_at msg 1; 5], f ++ [(0, msg)]);
  lcd_print a n f := f ++ [(99, [a; n])] |}.
#[local] Instance demo_layout : MmalLayout := {| port_at c t i := c + 1000 * t + 100 * i; buffers_at p := p + 50 |}.

Definition demo_heads : heap := list_to_map (map (λ p, (buffers_at p, ListHead 0 0)) (component_ports 0)).
Definition demo_mmal : mmal (list (Z * list Z)) := Mmal ∅ ∅ ∅ demo_heads mems_start 0 [].

Lemma demo_ports_mapped t i : valid_port t i → is_Some (demo_heads !! buffers_at (port_at 0 t i)).
Proof.
  intros [[-> ->]|[Ht Hi]]; [by eexists|]. unfold MMAL_PORT_TYPE_INPUT, MMAL_PORT_TYPE_CLOCK, MAX_PORT_COUNT in *.
  assert (t = 2 ∨ t = 3 ∨ t = 4) as [->|[->| ->]] by lia; assert (i = 0 ∨ i = 1 ∨ i = 2 ∨ i = 3) as [->|[->|[->| ->]]] by lia; by eexists.
Qed.

Lemma component_create_ports_witness : ∃ s', component_create (inl 0) camera_name demo_mmal = Ret (inl 0, s') ∧
  (p_handle <$> ports s' !! 3100) = Some 301 ∧ (num ∘ minimum_buffer <$> ports s' !! 3100) = Some 2.
Proof.
  destruct (component_create_ports 0 (λ _, True) 7 1 2 0 (λ t i, demo_answer MMAL_MSG_TYPE_PORT_INFO_GET (words [7; t; i]))) with (s := demo_mmal) (name := camera_name) as (s' & Hs & _ & Hp);
    [| | |done|done|done|exact demo_ports_mapped|].
  - intros payload f _. do 2 eexists. split; [reflexivity|]. by repeat split.
  - intros t i f _ Hv. eexists. split; [reflexivity|]. by repeat split.
  - unfold valid_port, MMAL_PORT_TYPE_CONTROL, MMAL_PORT_TYPE_INPUT, MMAL_PORT_TYPE_CLOCK, MAX_PORT_COUNT. intros t i t' i' H1 H2. cbn [port_at buffers_at demo_layout]. lia.
  - exists s'. split; [exact Hs|]. destruct (Hp MMAL_PORT_TYPE_OUTPUT 1) as [E _]; [right; right; split; [done|lia]|].
    change (port_at 0 MMAL_PORT_TYPE_OUTPUT 1) with 3100 in E. rewrite E. split; reflexivity.
Defined.

(** A port with the two buffers at 500 and 600. *)
Definition demo_port : port := Port true false 301 MMAL_PORT_TYPE_OUTPUT 1 0 zero_buffers zero_buffers zero_buffers (EsFormat 0 0 0 true 0 0 0) [] 3150.
Definition demo_two : mmal (list (Z * list Z)) :=
  Mmal {[0 := Component camera_name true 7 1 2 0]} {[3100 := demo_port]} (list_to_map [(500, MmalBuffer 0x10000 4096 0 0 0 0 0); (600, MmalBuffer 0x20000 4096 0 0 0 0 0)])
    (list_to_map [(3150, ListHead 500 600); (500, ListHead 600 3150); (600, ListHead 3150 500)]) mems_start 0 [].

Lemma demo_two_buffers : port_buffers demo_two demo_port [500; 600].
Proof.
  split.
  - split; [by apply (bool_decide_unpack _); vm_compute|]. by repeat split.
  - intros b Hb. assert (b = 500 ∨ b = 600) as [->| ->] by set_solver; by eexists.
  - intros b b' x x' Hb Hb' Hx Hx'. assert (b = 500 ∨ b = 600) as [->| ->] by set_solver; assert (b' = 500 ∨ b' = 600) as [->| ->] by set_solver;
      vm_compute in Hx, Hx'; injection Hx as <-; injection Hx' as <-; by vm_compute.
Qed.

Lemma mmal_buffer_returns_witness : let m := buffer_message 7 3100 600 demo_port (MmalBuffer 0x20000 4096 0 0 0 0 0) in
  mmal_port_buffer_io_work 9 0 3100 (BufferHeader (word_at m 11) 4096 4) demo_two = Ret (ERR_OK, with_vc demo_two [(99, [0x20000; 4096]); (MMAL_MSG_TYPE_BUFFER_FROM_HOST, m)]).
Proof.
  destruct (mmal_buffer_returns 9 demo_two 3100 demo_port (Component camera_name true 7 1 2 0) [500; 600] 600 (MmalBuffer 0x20000 4096 0 0 0 0 0) 4096 4
    [(99, [0x20000; 4096]); (MMAL_MSG_TYPE_BUFFER_FROM_HOST, buffer_message 7 3100 600 demo_port (MmalBuffer 0x20000 4096 0 0 0 0 0))]) as [_ E];
    [lia|reflexivity|reflexivity|exact demo_two_buffers|set_solver|done|reflexivity|cbn; lia|reflexivity|]. exact E.
Defined.
