(* ===== verification/MmalCb.v ===== *)
(** * What the camera's services do with their messages

    The callbacks of the two services and the thread that works on returned
    buffers (board/bcm2835/vchiq/vchiq_2835_arm.c), as a client of the message
    queue of Vchiq.v. *)

From S2P Require Import Prelude Lists Sched Vchiq Mmio Mmal.

(** [struct mmal_msg_context] of a task that waits for an answer; the answer's
    address is NULL until it is there. *)
Record sync_ctx := SyncCtx { msg_type : Z; completion_waitflag : Z; rmsg : Z; rmsg_size : Z }.

(** [struct mmal_io_work]: its [fn] is always [mmal_port_buffer_io_work]; [w_b]
    is the address of a buffer header inside a slot. *)
Record io_work := IoWork { w_c : Z; w_p : Z; w_b : Z }.

(** The services' state: the camera, the contexts by address, the work list, its
    lock and its wait flag, and what [kzalloc] will return. *)
Record services_state (F : Type) := Services {
  mm : mmal F; contexts_at : gmap Z sync_ctx; works : gmap Z io_work; wnodes : heap; work_list : Z; work_lock : Z; work_flag : Z; allocs : list (Z + Z) }.
Arguments Services {F}. Arguments mm {F}. Arguments contexts_at {F}. Arguments works {F}. Arguments wnodes {F}. Arguments work_list {F}.
Arguments work_lock {F}. Arguments work_flag {F}. Arguments allocs {F}.

(** Where a field of an MMAL message at [rmsg] is. *)
Definition MSG_TYPE_OFF : Z := 4.
Definition MSG_CONTEXT_OFF : Z := 12.
Definition CLIENT_CONTEXT_OFF : Z := 24 + 12.
Definition BUFFER_HEADER_OFF : Z := 24 + 32.

Section services.
Context {F : Type} `{VideoCore F} `{MmalLayout}.
Abbreviation St := (services_state F).
Implicit Types (c : St) (k : kernel).

Definition with_mm c x : St := Services x (contexts_at c) (works c) (wnodes c) (work_list c) (work_lock c) (work_flag c) (allocs c).
Definition with_contexts_at c x : St := Services (mm c) x (works c) (wnodes c) (work_list c) (work_lock c) (work_flag c) (allocs c).
Definition with_work c w n l a : St := Services (mm c) (contexts_at c) w n (work_list c) l (work_flag c) a.

(** The lock of the work list, on one processor with interrupts off. *)
Definition work_lock_take (kc : kernel * St) : outcome (kernel * St * bool) :=
  let '(k, c) := kc in
  if work_lock c =? 0 then Ret (with_irq k false, with_work c (works c) (wnodes c) 1 (allocs c), irq_on k) else NoFuel.
Definition work_lock_release (flags : bool) (kc : kernel * St) : kernel * St :=
  let '(k, c) := kc in (with_irq k flags, with_work c (works c) (wnodes c) 0 (allocs c)).

Definition mmal_io_work_push (kc : kernel * St) (w : io_work) : outcome (Z * (kernel * St)) :=
  let '(k, c) := kc in
  match allocs c with
  | [] => Fault
  | inr err :: a => Ret (err, (k, with_work c (works c) (wnodes c) (work_lock c) a))
  | inl x :: a =>
    let c := with_work c (<[x := w]> (works c)) (<[x := ListHead 0 0]> (wnodes c)) (work_lock c) a in
    '(k, c, flags) ← work_lock_take (k, c);
    σ ← list_add_tail (wnodes c) x (work_list c);
    let c := with_work c (works c) σ (work_lock c) (allocs c) in
    k ← wakeup_waitflag (work_flag c) k;
    Ret (ERR_OK, work_lock_release flags (k, c))
  end.

(** NULL when the list is empty. *)
Definition mmal_io_work_pop (kc : kernel * St) : outcome (Z * (kernel * St)) :=
  '(k, c, flags) ← work_lock_take kc;
  e ← list_empty (wnodes c) (work_list c);
  if e : bool then Ret (NULL, work_lock_release flags (k, c)) else
  w ← list_first_entry (wnodes c) (work_list c);
  σ ← list_del_init (wnodes c) w;
  Ret (w, work_lock_release flags (k, with_work c (works c) σ (work_lock c) (allocs c))).

(** The buffer header is read when the work is done, from a slot that may have
    been recycled since. *)
Definition read_header (m : mem) (b : Z) : outcome buffer_header :=
  d ← load_le 4 m (b + 12);
  l ← load_le 4 m (b + 20);
  f ← load_le 4 m (b + 28);
  Ret (BufferHeader d l f).

(** A turn of [vchiq_io_thread]: its wait, and one work if there is one.  The
    result tells whether the task went through the wait. *)
Definition vchiq_io_thread_turn (fuel : nat) (now : Z) (m : mem) (kc : kernel * St) : outcome (bool * (kernel * St)) :=
  let '(k, c) := kc in
  v ← deref (Sched.words k !! work_flag c);
  k ← wait_on_waitflag fuel now (work_flag c) k;
  if negb (v =? 1) then Ret (false, (k, c)) else
  '(w, (k, c)) ← mmal_io_work_pop (k, c);
  if w =? NULL then Ret (true, (k, c)) else
  x ← deref (works c !! w);
  h ← read_header m (w_b x);
  '(_, s) ← mmal_port_buffer_io_work fuel (w_c x) (w_p x) h (mm c);
  Ret (true, (k, with_mm c s)).

Definition mmal_buffer_to_host_cb (m : mem) (rmsg_ : Z) (kc : kernel * St) : outcome (Z * (kernel * St)) :=
  p ← load_le 4 m (rmsg_ + CLIENT_CONTEXT_OFF);
  y ← deref (ports (mm (snd kc)) !! p);
  mmal_io_work_push kc (IoWork (p_component y) p (rmsg_ + BUFFER_HEADER_OFF)).

(** An answer of another type than the one asked for wakes nobody. *)
Definition mmal_service_data_callback (m : mem) (h : Z) (kc : kernel * St) : outcome (Z * (kernel * St)) :=
  let rmsg_ := h + sizeof_header in
  type_ ← load_le 4 m (rmsg_ + MSG_TYPE_OFF);
  if type_ =? MMAL_MSG_TYPE_BUFFER_TO_HOST then mmal_buffer_to_host_cb m rmsg_ kc else
  ctx ← load_le 4 m (rmsg_ + MSG_CONTEXT_OFF);
  let '(k, c) := kc in
  x ← deref (contexts_at c !! ctx);
  if negb (msg_type x =? type_) then Ret (ERR_INVAL_ARG, (k, c)) else
  size_ ← header_size m h;
  let c := with_contexts_at c (<[ctx := SyncCtx (msg_type x) (completion_waitflag x) rmsg_ (s32 size_)]> (contexts_at c)) in
  k ← wakeup_waitflag (completion_waitflag x) k;
  Ret (ERR_OK, (k, c)).

(** [mems_flag i] is the address of the wait flag of the [i]-th context. *)
Context (mems_flag : nat → Z).
Definition mems_service_data_callback (m : mem) (h : Z) (kc : kernel * St) : outcome (Z * (kernel * St)) :=
  let '(k, c) := kc in
  size_ ← header_size m h;
  id ← load_le 4 m (h + sizeof_header);
  '(i, pool) ← mems_take_answer (mems (mm c)) h size_ id;
  k ← wakeup_waitflag (mems_flag i) k;
  Ret (ERR_OK, (k, with_mm c (with_mems (mm c) pool (vc_trans_id (mm c))))).

(** The callbacks by the addresses of their functions. *)
Context (mmal_cb mems_cb : Z).
Definition services_client : VchiqClient St := {|
  on_data fn svc m h kc :=
    if fn =? mmal_cb then '(_, kc) ← mmal_service_data_callback m h kc; Ret kc else
    if fn =? mems_cb then '(_, kc) ← mems_service_data_callback m h kc; Ret kc else
    Fault |}.
End services.

(** ** The work list *)
Section work.
Context {F : Type} `{VideoCore F} `{MmalLayout}.
Abbreviation St := (services_state F).
Implicit Types (c : St) (k : kernel).

Lemma io_work_push_ok k c w x a xs : dring (wnodes c) (work_list c) xs → work_lock c = 0 → allocs c = inl x :: a → x ∉ work_list c :: xs →
  is_Some (wnodes c !! x) → is_Some (Sched.words k !! work_flag c) →
  ∃ k' σ, mmal_io_work_push (k, c) w = Ret (ERR_OK, (k', with_work c (<[x := w]> (works c)) σ 0 a)) ∧ dring σ (work_list c) (xs ++ [x]) ∧
    Sched.words k' !! work_flag c = Some 1 ∧ ∀ z, is_Some (σ !! z) ↔ is_Some (wnodes c !! z).
Proof.
  intros Hd Hl Ha Hx Hm [v Hv]. set (n := <[x := ListHead 0 0]> (wnodes c)).
  assert (agree_off [x] (wnodes c) n) as Hag.
  { intros y. unfold n. split; [intros Hy; by rewrite lookup_insert_ne by set_solver|].
    destruct (decide (x = y)) as [<-|]; [rewrite lookup_insert_eq; split; [done|by eexists]|by rewrite lookup_insert_ne]. }
  assert (dring n (work_list c) xs) as Hd1 by (eapply dring_frame; [exact Hag|set_solver|exact Hd]).
  destruct (list_add_tail_ring n (work_list c) xs x Hd1 Hx) as (σ & Hσ & Hd2 & Hag2); [unfold n; rewrite lookup_insert_eq; by eexists|].
  eexists _, σ. split; [|split; [exact Hd2|split]].
  - unfold mmal_io_work_push. rewrite Ha. unfold work_lock_take. cbn [work_lock with_work]. rewrite Hl. cbn [Z.eqb]. rewrite bind_ret.
    cbn [wnodes with_work works work_list allocs]. fold n. rewrite Hσ, bind_ret. unfold wakeup_waitflag, irqs_saved. cbn [work_flag with_work Sched.words with_irq].
    rewrite Hv. cbn [deref]. rewrite !bind_ret. reflexivity.
  - cbn. by rewrite lookup_insert_eq.
  - intros z. etransitivity; [apply (Hag2 z)|apply (Hag z)].
Qed.

Lemma io_work_pop_ok k c x xs : dring (wnodes c) (work_list c) (x :: xs) → work_lock c = 0 →
  ∃ k' σ, mmal_io_work_pop (k, c) = Ret (x, (k', with_work c (works c) σ 0 (allocs c))) ∧ dring σ (work_list c) xs ∧ Sched.words k' = Sched.words k.
Proof.
  intros Hd Hl. destruct (list_del_init_ring _ _ [] x xs Hd) as (σ & Hσ & Hd' & _). eexists _, σ. split; [|split; [exact Hd'|]].
  - unfold mmal_io_work_pop, work_lock_take. rewrite Hl. cbn [Z.eqb]. rewrite bind_ret. cbn [wnodes with_work work_list works].
    rewrite (list_empty_ring _ _ _ Hd), bind_ret. cbn. rewrite (list_first_ring _ _ _ Hd), bind_ret, Hσ, bind_ret. reflexivity.
  - done.
Qed.

(** The wait flag holds one wake-up: after two works were pushed, the thread does
    the first and then waits, with the second on the list and the flag clear. *)
Lemma io_work_left_behind fuel now m k c w1 w2 x1 x2 a h s' : dring (wnodes c) (work_list c) [] → work_lock c = 0 → allocs c = inl x1 :: inl x2 :: a →
  NoDup [work_list c; x1; x2] → x1 ≠ NULL → is_Some (wnodes c !! x1) → is_Some (wnodes c !! x2) → is_Some (Sched.words k !! work_flag c) →
  read_header m (w_b w1) = Ret h → mmal_port_buffer_io_work fuel (w_c w1) (w_p w1) h (mm c) = Ret (ERR_OK, s') →
  ∃ kc1 kc2 k3 c3, mmal_io_work_push (k, c) w1 = Ret (ERR_OK, kc1) ∧ mmal_io_work_push kc1 w2 = Ret (ERR_OK, kc2) ∧
    vchiq_io_thread_turn fuel now m kc2 = Ret (true, (k3, c3)) ∧ mm c3 = s' ∧
    dring (wnodes c3) (work_list c) [x2] ∧ works c3 !! x2 = Some w2 ∧ Sched.words k3 !! work_flag c = Some 0.
Proof.
  intros Hd Hl Ha Hnd Hn1 Hm1 Hm2 Hf Hh Hw. apply NoDup_cons in Hnd as [N1 N2]. apply NoDup_cons in N2 as [N2 _].
  destruct (io_work_push_ok k c w1 x1 (inl x2 :: a) [] Hd Hl Ha ltac:(set_solver) Hm1 Hf) as (k1 & σ1 & P1 & D1 & F1 & M1).
  set (c1 := with_work c (<[x1 := w1]> (works c)) σ1 0 (inl x2 :: a)) in *.
  destruct (io_work_push_ok k1 c1 w2 x2 a [x1] D1 eq_refl eq_refl) as (k2 & σ2 & P2 & D2 & F2 & _); [set_solver|by apply M1|by eexists|].
  set (c2 := with_work c1 (<[x2 := w2]> (works c1)) σ2 0 a) in *.
  destruct (io_work_pop_ok (with_words k2 (<[work_flag c := 0]> (<[work_flag c := 0]> (Sched.words k2)))) c2 x1 [x2] D2 eq_refl) as (k3 & σ3 & P3 & D3 & F3).
  exists (k1, c1), (k2, c2), k3, (with_mm (with_work c2 (works c2) σ3 0 (allocs c2)) s'). split_and!; [exact P1|exact P2| |done|exact D3| |].
  - unfold vchiq_io_thread_turn, wait_on_waitflag, atomic_cmp_and_swap. change (work_flag c2) with (work_flag c). change (work_flag c1) with (work_flag c) in F2. rewrite F2. cbn [deref]. rewrite !bind_ret.
    change (1 =? 1) with true. cbv iota. rewrite !bind_ret. change (1 =? 1) with true. cbv iota. rewrite bind_ret. cbn [negb]. match goal with |- context [mmal_io_work_pop ?kc] => change kc with (with_words k2 (<[work_flag c := 0]> (<[work_flag c := 0]> (Sched.words k2))), c2) end. rewrite P3, bind_ret.
    rewrite (proj2 (Z.eqb_neq x1 NULL) Hn1). cbn [works with_work]. cbn [works c2 c1 with_work]. rewrite lookup_insert_ne, lookup_insert_eq by set_solver. cbn [deref]. rewrite bind_ret, Hh, bind_ret.
    change (mm _) with (mm c). rewrite Hw. done.
  - cbn. by rewrite lookup_insert_eq.
  - rewrite F3. cbn. by rewrite lookup_insert_eq.
Qed.
End work.
