(* ===== verification/Tft.v ===== *)
(** * The TFT display (drivers/tft_lcd/tft_lcd.c)

    Commands and pixels to an ILI9341 controller through the registers of SPI0
    and the D/C pin, rectangles filled with one colour, the chain of DMA control
    blocks for a frame, and the animation.  Time and caches have no effect on
    the state; the video loop of [display_payload] is not modelled. *)

From S2P Require Import Prelude Bits DmaMem Exceptions Mmio GpioSet Gpio Trace SpiEmu Spi.

Definition ILI9341_CMD_SOFT_RESET : Z := 0x01.
Definition ILI9341_CMD_SLEEP_OUT : Z := 0x11.
Definition ILI9341_CMD_DISPLAY_OFF : Z := 0x28.
Definition ILI9341_CMD_DISPLAY_ON : Z := 0x29.
Definition ILI9341_CMD_SET_CURSOR_X : Z := 0x2a.
Definition ILI9341_CMD_SET_CURSOR_Y : Z := 0x2b.
Definition ILI9341_CMD_WRITE_PIXELS : Z := 0x2c.
Definition ILI9341_CMD_MEM_ACCESS_CONTROL : Z := 0x36.
Definition ILI9341_CMD_MEM_ACCESS_CONTROL_BGR : Z := Z.shiftl 1 3.
Definition ILI9341_CMD_MEM_ACCESS_CONTROL_MV : Z := Z.shiftl 1 5.
Definition DISPLAY_WIDTH : Z := 320.
Definition DISPLAY_HEIGHT : Z := 240.
Definition SPI_CS_CLEAR_TX : Z := Z.shiftl 1 4.
Definition SPI_CS_CLEAR_RX : Z := Z.shiftl 1 5.

Record tft_control := TftControl {
  gpio_pin_mosi : Z; gpio_pin_miso : Z; gpio_pin_sclk : Z; gpio_pin_blk : Z; gpio_pin_reset : Z; gpio_pin_dc : Z }.

(** The hardware and the pointer [tftc], [None] when null. *)
Record tft_drv (D : Type) := TftDrv { thw : D; tftc : option tft_control }.
Arguments TftDrv {D}.
Arguments thw {D}.
Arguments tftc {D}.

#[export] Instance tft_drv_mmio {D} `{Mmio D} : Mmio (tft_drv D) := {|
  mmio_read r s := let '(v, d) := mmio_read r (thw s) in (v, TftDrv d (tftc s));
  mmio_write r v s := TftDrv (mmio_write r v (thw s)) (tftc s) |}.

(** ** Filling memory with a colour *)

(** [BP]: the char [v] at byte [p] of a word. *)
Definition BP (v p : Z) : Z := u64 (Z.shiftl (u8 v) (p * 8)).
Definition packed (l : list Z) : Z := foldl Z.lor 0 (imap (λ i v, BP v (Z.of_nat i)) l).
Definition fill_v1 (r g b : Z) : Z := packed [r; g; b; r; g; b; r; g].
Definition fill_v2 (r g b : Z) : Z := packed [b; r; g; b; r; g; b; r].
Definition fill_v3 (r g b : Z) : Z := packed [g; b; r; g; b; r; g; b].

(** Stores of whole words; outside the array they are undefined. *)
Definition put_bytes (l : list Z) (off : nat) (bs : list Z) : outcome (list Z) :=
  if Nat.leb (off + length bs) (length l) then Ret (take off l ++ bs ++ drop (off + length bs) l) else Fault.

(** The loop of [fastfill] after [done] of [count] turns: it ends when [to]
    equals [to_end], so it does not with a count of 0. *)
Definition fastfill_turn (v1 v2 v3 : Z) (dst : list Z) (to : nat) : outcome (list Z) :=
  dst ← put_bytes dst to (le_bytes 8 v1 ++ le_bytes 8 v2);
  put_bytes dst (to + 16) (le_bytes 8 v3).
Fixpoint fastfill (count : nat) (v1 v2 v3 : Z) (dst : list Z) (to : nat) : outcome (list Z) :=
  match count with
  | O => Fault
  | Datatypes.S count =>
    dst ← fastfill_turn v1 v2 v3 dst to;
    match count with O => Ret dst | _ => fastfill count v1 v2 v3 dst (to + 24) end
  end.

(** The small rectangles, a column at a time. *)
Definition put_pixel (local_width x y r g b : Z) (canvas : list Z) : outcome (list Z) :=
  let c := (y * local_width + x) * 3 in
  canvas ← arr_set canvas c (u8 r);
  canvas ← arr_set canvas (c + 1) (u8 g);
  arr_set canvas (c + 2) (u8 b).
Fixpoint fill_column (n : nat) (local_width x y r g b : Z) (canvas : list Z) : outcome (list Z) :=
  match n with
  | O => Ret canvas
  | Datatypes.S n => canvas ← put_pixel local_width x y r g b canvas; fill_column n local_width x (y + 1) r g b canvas
  end.
Fixpoint fill_columns (n : nat) (local_width local_height x r g b : Z) (canvas : list Z) : outcome (list Z) :=
  match n with
  | O => Ret canvas
  | Datatypes.S n =>
    canvas ← fill_column (Z.to_nat local_height) local_width x 0 r g b canvas;
    fill_columns n local_width local_height (x + 1) r g b canvas
  end.

(** What [tft_fill_rect] leaves in its array, from what the stack held. *)
Definition fill_canvas (local_width local_height r g b : Z) (canvas : list Z) : outcome (list Z) :=
  if 8 <? local_width * local_height then
    fastfill (Z.to_nat (local_width * local_height / 8)) (fill_v1 r g b) (fill_v2 r g b) (fill_v3 r g b) canvas 0
  else fill_columns (Z.to_nat local_width) local_width local_height 0 r g b canvas.

(** ** Commands *)
Section tft.
Context {D : Type} `{Mmio D} (fuel : nat).
Abbreviation S := (tft_drv D).

Definition SPI_DC_SET (pin : Z) : io S unit := write_reg GPIO_REG_GPSET0 (Z.shiftl 1 pin).
Definition SPI_DC_CLEAR (pin : Z) : io S unit := write_reg GPIO_REG_GPCLR0 (Z.shiftl 1 pin).
Definition get_tftc : io S tft_control := λ s, t ← deref (tftc s); Ret (t, s).
Definition drop_rx (cs mask : Z) : io S unit :=
  if truth (Z.land (u32 cs) mask) then write_reg SPI_CS (Z.lor SPI_CS_TA SPI_CS_CLEAR_RX) else mret tt.

Definition tft_cmd (cmd : Z) : io S unit :=
  t ← get_tftc;
  cs ← read_reg SPI_CS;
  _ ← drop_rx cs SPI_CS_RXD;
  _ ← SPI_DC_CLEAR (gpio_pin_dc t);
  _ ← wait_set fuel SPI_CS SPI_CS_TXD;
  _ ← write_reg SPI_FIFO (u8 cmd);
  _ ← wait_set fuel SPI_CS SPI_CS_DONE;
  SPI_DC_SET (gpio_pin_dc t).

(** The byte loop of [SEND_CMD_DATA] and the wait after it. *)
Definition wait_sent : io S unit :=
  io_loop fuel (r ← read_reg SPI_CS;
    if truth (Z.land (u32 r) SPI_CS_DONE) then mret (Some tt) else _ ← drop_rx r SPI_CS_RXR; mret None).
Fixpoint send_data (data : list Z) : io S unit :=
  match data with
  | [] => mret tt
  | d :: data =>
    r ← read_reg SPI_CS;
    _ ← drop_rx r SPI_CS_RXD;
    _ ← wait_set fuel SPI_CS SPI_CS_TXD;
    _ ← write_reg SPI_FIFO (u8 d);
    send_data data
  end.
Definition SEND_CMD_DATA (cmd : Z) (data : list Z) : io S unit :=
  _ ← tft_cmd cmd; _ ← send_data data; wait_sent.

(** The values are not truncated to bytes, as their types decide. *)
Fixpoint send_rep (reps : nat) (r g b : Z) : io S unit :=
  match reps with
  | O => mret tt
  | Datatypes.S reps =>
    cs ← read_reg SPI_CS;
    _ ← drop_rx cs SPI_CS_RXD;
    _ ← wait_set fuel SPI_CS SPI_CS_TXD; _ ← write_reg SPI_FIFO r;
    _ ← wait_set fuel SPI_CS SPI_CS_TXD; _ ← write_reg SPI_FIFO g;
    _ ← wait_set fuel SPI_CS SPI_CS_TXD; _ ← write_reg SPI_FIFO b;
    send_rep reps r g b
  end.
Definition SEND_CMD_CHAR_REP (cmd r g b reps : Z) : io S unit :=
  _ ← tft_cmd cmd; _ ← send_rep (Z.to_nat reps) r g b; wait_sent.

(** [while (read_reg(r) & mask);] *)
Definition wait_clear (r mask : Z) : io S unit :=
  io_loop fuel (v ← read_reg r; mret (if truth (Z.land (u32 v) mask) then None else Some tt)).
(** What was received goes to the buffer from [i] on, whatever its size. *)
Definition recv_bytes (data : list Z) (i : Z) : io S (list Z * Z) := λ s,
  loop fuel (λ '((data, i, s) : list Z * Z * S),
    '(v, s) ← read_reg SPI_CS s;
    if truth (Z.land (u32 v) SPI_CS_RXD) then
      '(c, s) ← read_reg SPI_FIFO s; data ← arr_set data i (u8 c); Ret (inl (data, i + 1, s))
    else Ret (inr (data, i, s))) (data, i, s).
Definition recv_loop (data : list Z) (datalen : Z) : io S (list Z) := λ s,
  loop fuel (λ '((data, i, s) : list Z * Z * S),
    if datalen <=? i then Ret (inr (data, s)) else
    '(_, s) ← read_reg SPI_CS s;
    '(r, s) ← read_reg SPI_CS s;
    if truth (Z.land (u32 r) SPI_CS_TXD) then
      '(_, s) ← write_reg SPI_FIFO 0 s;
      '(_, s) ← wait_clear SPI_CS SPI_CS_DONE s;
      '(data, i, s) ← recv_bytes data i s;
      Ret (inl (data, i, s))
    else Ret (inl (data, i, s))) (data, 0, s).
Definition RECV_CMD_DATA (cmd : Z) (data : list Z) (datalen : Z) : io S (list Z) :=
  _ ← tft_cmd cmd;
  _ ← write_reg SPI_CS (Z.lor SPI_CS_CLEAR_RX SPI_CS_CLEAR_TX);
  _ ← write_reg SPI_CS (Z.lor (Z.lor SPI_CS_CLEAR_RX SPI_CS_CLEAR_TX) SPI_CS_TA);
  recv_loop data datalen.

(** [HI8] and [LO8] of both ends; the pin given is not used. *)
Definition coords (a b : Z) : list Z := [Z.land (Z.shiftr (u16 a) 8) 0xff; Z.land (u16 a) 0xff; Z.land (Z.shiftr (u16 b) 8) 0xff; Z.land (u16 b) 0xff].
Definition tft_set_region_coords (pin x0 y0 x1 y1 : Z) : io S unit :=
  _ ← SEND_CMD_DATA ILI9341_CMD_SET_CURSOR_X (coords x0 x1);
  SEND_CMD_DATA ILI9341_CMD_SET_CURSOR_Y (coords y0 y1).

(** [canvas] is what the stack holds where the array is placed. *)
Definition tft_fill_rect (canvas : list Z) (pin x0 y0 x1 y1 r g b : Z) : io S unit :=
  let local_width := s32 (x1 - x0) in
  let local_height := s32 (y1 - y0) in
  canvas ← lift (fill_canvas local_width local_height r g b canvas);
  _ ← tft_set_region_coords pin x0 y0 x1 y1;
  let n := local_width * local_height * 3 in
  if Z.of_nat (length canvas) <? n then lift Fault else
  SEND_CMD_DATA ILI9341_CMD_WRITE_PIXELS (take (Z.to_nat n) canvas).

Definition fill_screen (canvas : list Z) (pin : Z) : io S unit :=
  tft_fill_rect canvas pin 0 0 DISPLAY_WIDTH DISPLAY_HEIGHT 240 0 255.

(** ** The animation *)
Record cube := Cube { cx : Z; cy : Z; cg : Z; x_speed : Z; y_speed : Z }.
Definition cube_start : cube := Cube 0 0 0 2 5.
Definition cube_move (c : cube) : cube :=
  let '(xs, g) := if 0 <? x_speed c then (if DISPLAY_WIDTH - 10 <? cx c then (- x_speed c, s32 (cg c + 10)) else (x_speed c, cg c))
                  else (if cx c =? 0 then - x_speed c else x_speed c, cg c) in
  let ys := if 0 <? y_speed c then (if DISPLAY_HEIGHT - 10 <? cy c then - y_speed c else y_speed c)
            else (if cy c =? 0 then - y_speed c else y_speed c) in
  Cube (cx c + xs) (cy c + ys) g xs ys.
(** A turn of the endless loop. *)
Definition tft_lcd_cube_turn (canvas : list Z) (t : tft_control) (c : cube) : io S cube :=
  _ ← tft_fill_rect canvas (gpio_pin_dc t) (cx c) (cy c) (cx c + 10) (cy c + 10) 0 (cg c) 0;
  _ ← tft_fill_rect canvas (gpio_pin_dc t) (cx c) (cy c) (cx c + 10) (cy c + 10) 0 0 255;
  mret (cube_move c).
End tft.

(** ** A frame by DMA *)
Definition SPI_CS_7E : Z := 0x7e204000.
Definition SPI_FIFO_7E : Z := 0x7e204004.
Definition DMA_CS0_7E : Z := 0x7e007000.
Definition DMA_CS1_7E : Z := 0x7e007100.
Definition DMA_CONBLK_AD_7E : Z := 0x7e007004.
Definition DMA_SPI_TRANSFER_LEN_OFF : Z := 16.
Definition max_task_size : Z := Z.ldiff (0xffff - 64) 7.
Definition DMA_ADDR (ptr : Z) : Z := Z.lor (u32 ptr) 0xc0000000.

(** The word stored and the length in it. *)
Definition dma_set_spi_word (transfer_len : Z) : Z * Z :=
  let max_transfer_len := Z.ldiff 65535 3 in
  let spi_transfer_len := u16 (if max_transfer_len <? transfer_len then max_transfer_len else transfer_len) in
  (u32 (Z.lor (Z.shiftl spi_transfer_len DMA_SPI_TRANSFER_LEN_OFF) SPI_CS_TA), spi_transfer_len).

(** [struct dma_control_block] and the templates of [TI]. *)
Record control_block := ControlBlock { cb_ti : Z; src_addr : Z; dst_addr : Z; transfer_length : Z; dma_cb_next : Z }.
Definition TI_TX_PIPE : Z := dma_make_ti_value DMA_DREQ_SPI_TX DMA_TI_DREQ_T_DST DMA_TI_ADDR_TYPE_INC_Y DMA_TI_ADDR_TYPE_INC_N true.
Definition TI_RX_PIPE : Z := dma_make_ti_value DMA_DREQ_SPI_RX DMA_TI_DREQ_T_SRC DMA_TI_ADDR_TYPE_INC_N DMA_TI_ADDR_TYPE_IGNOR false.
Definition TI_MM_PIPE : Z := dma_make_ti_value DMA_DREQ_NONE DMA_TI_DREQ_T_NONE DMA_TI_ADDR_TYPE_INC_Y DMA_TI_ADDR_TYPE_INC_Y true.

(** Where the blocks, the local arrays and the static words are. *)
Record print_layout := PrintLayout {
  pl_cbs : Z; tx_headers : Z; tx_endmarks_check : Z; rx_endmarks_check : Z; tx_next_dma : Z; pl_spi_stop : Z; dma_cs_start : Z }.

Section print_data.
Context (A : print_layout).
Definition NUM_CBS : nat := 64.
Definition cb_ptr (i : nat) : Z := pl_cbs A + sizeof_control_block * Z.of_nat i.

(** [dma_program_cb]; the blocks past the end are not the array's. *)
Definition dma_program_cb (cbs : list control_block) (cb : nat) (src dst len ti : Z) (cb_next : option nat) : outcome (list control_block) :=
  if Nat.ltb cb (length cbs) then
    Ret (<[cb := ControlBlock ti src dst len (match cb_next with Some n => DMA_ADDR (cb_ptr n) | None => 0 end)]> cbs)
  else Fault.
Definition set_next (cbs : list control_block) (cb next : nat) : outcome (list control_block) :=
  b ← deref (cbs !! cb);
  Ret (<[cb := ControlBlock (cb_ti b) (src_addr b) (dst_addr b) (transfer_length b) (DMA_ADDR (cb_ptr next))]> cbs).

(** The lower words of [tx_headers]. *)
Definition header_word (len : Z) : Z := u32 (Z.lor (Z.shiftl len DMA_SPI_TRANSFER_LEN_OFF) SPI_CS_TA).
Definition header_step : Z * list Z * nat → outcome ((Z * list Z * nat) + (list Z * nat)) := λ '(transfer_len, hdrs, num_tasks),
  if transfer_len =? 0 then Ret (inr (hdrs, num_tasks)) else
  let len := Z.min transfer_len max_task_size in
  hdrs ← arr_set hdrs (Z.of_nat num_tasks) (header_word len);
  Ret (inl (u32 (transfer_len - len), hdrs, (num_tasks + 1)%nat)).
Definition fill_headers (fuel : nat) (size : Z) (hdrs : list Z) : outcome (list Z * nat) := loop fuel header_step (u32 size, hdrs, 0%nat).

(** The blocks that hand over from the previous task, at [cb] and after. *)
Definition link_tasks (cbs : list control_block) (cb prev_rx cb_rx i : nat) : outcome (list control_block) :=
  cbs ← set_next cbs prev_rx cb;
  cbs ← dma_program_cb cbs cb (DMA_ADDR (tx_next_dma A + 8 * Z.of_nat i)) DMA_CONBLK_AD_7E 4 TI_MM_PIPE (Some (cb + 1)%nat);
  cbs ← dma_program_cb cbs (cb + 1) (DMA_ADDR (pl_spi_stop A)) SPI_CS_7E 4 TI_MM_PIPE (Some (cb + 3)%nat);
  cbs ← dma_program_cb cbs (cb + 3) DMA_CS1_7E (DMA_ADDR (rx_endmarks_check A + 8 * (Z.of_nat i - 1))) 8 TI_MM_PIPE (Some (cb + 2)%nat);
  dma_program_cb cbs (cb + 2) (DMA_ADDR (dma_cs_start A)) DMA_CS0_7E 4 TI_MM_PIPE (Some cb_rx).

(** [state]: the blocks, the next free one, the source, the receiving block of
    the task before and the lower words of [tx_next_dma]. *)
Record print_state := PrintState { ps_cbs : list control_block; ps_cb : nat; ps_src : Z; ps_prev : option nat; ps_next : list Z }.
Definition task_step (hdrs : list Z) (i : nat) (s : print_state) : outcome print_state :=
  h ← arr_get hdrs (Z.of_nat i);
  let len := Z.land (Z.shiftr h 16) 0xffff in
  let cb := ps_cb s in
  cbs ← dma_program_cb (ps_cbs s) cb (DMA_ADDR (tx_headers A + 8 * Z.of_nat i)) SPI_FIFO_7E 4 TI_TX_PIPE (Some (cb + 2)%nat);
  cbs ← dma_program_cb cbs (cb + 2) (DMA_ADDR (ps_src s)) SPI_FIFO_7E len TI_TX_PIPE (Some (cb + 3)%nat);
  cbs ← dma_program_cb cbs (cb + 3) DMA_CS0_7E (DMA_ADDR (tx_endmarks_check A + 8 * Z.of_nat i)) 8 TI_MM_PIPE None;
  cbs ← dma_program_cb cbs (cb + 1) SPI_FIFO_7E 0 len TI_RX_PIPE None;
  let src := ps_src s + 4 * Z.shiftr len 2 in
  match ps_prev s with
  | None => Ret (PrintState cbs (cb + 4) src (Some (cb + 1)%nat) (ps_next s))
  | Some prev =>
    cbs ← link_tasks cbs (cb + 4) prev (cb + 1) i;
    next ← arr_set (ps_next s) (Z.of_nat i) (DMA_ADDR (cb_ptr cb));
    Ret (PrintState cbs (cb + 8) src (Some (cb + 1)%nat) next)
  end.
Fixpoint tasks (n : nat) (hdrs : list Z) (i : nat) (s : print_state) : outcome print_state :=
  match n with O => Ret s | Datatypes.S n => s ← task_step hdrs i s; tasks n hdrs (i + 1) s end.

(** Everything that is prepared before the channels start: [cbs], [hdrs] and
    [next] are the contents found in the arrays. *)
Definition prepare_chain (fuel : nat) (frame_data size : Z) (cbs : list control_block) (hdrs next : list Z) : outcome (list Z * nat * print_state) :=
  '(hdrs, num_tasks) ← fill_headers fuel size hdrs;
  s ← tasks num_tasks hdrs 0 (PrintState cbs 0 frame_data None next);
  Ret (hdrs, num_tasks, s).
End print_data.

Definition block_words (b : control_block) : list Z := control_block_words (cb_ti b) (src_addr b) (dst_addr b) (transfer_length b) (dma_cb_next b).
Definition with_cbs (A : print_layout) (p : Z) : print_layout :=
  PrintLayout p (tx_headers A) (tx_endmarks_check A) (rx_endmarks_check A) (tx_next_dma A) (pl_spi_stop A) (dma_cs_start A).

Section print_frame.
Context {D : Type} `{Mmio D} (L : layout) (fuel : nat).
Abbreviation S := (tft_drv (dma_drv D)).

Definition on_dma {A} (m : io (dma_drv D) A) : io S A := λ s, '(a, d) ← m (thw s); Ret (a, TftDrv d (tftc s)).
Fixpoint store_blocks (p : Z) (l : list control_block) : io S unit :=
  match l with [] => mret tt | b :: l => _ ← on_dma (store_words p (block_words b)); store_blocks (p + sizeof_control_block) l end.
Definition tft_dma_free (p : Z) : io S unit := λ s, d ← dma_free L p (dstate (thw s)); Ret (tt, TftDrv (DmaDrv (dregs (thw s)) d) (tftc s)).

(** The test of the last loop is [reg & (DMA_CS_END == 0)], which is 0: nothing
    is waited for.  The control blocks go to memory when they are complete. *)
Definition tft_lcd_print_data (A : print_layout) (frame_data size : Z) (cbs : list control_block) (hdrs next : list Z) : io S unit :=
  p ← on_dma (λ s, '(d, cb) ← dma_alloc L fuel (sizeof_control_block * Z.of_nat NUM_CBS) (dstate s); Ret (cb, DmaDrv (dregs s) d));
  let A := with_cbs A p in
  _ ← tft_cmd fuel ILI9341_CMD_WRITE_PIXELS;
  _ ← write_reg SPI_CS (Z.lor (Z.lor SPI_CS_CLEAR SPI_CS_DMAEN) SPI_CS_ADCS);
  _ ← write_reg (DMA_CS 0) DMA_CS_RESET;
  _ ← write_reg (DMA_CS 1) DMA_CS_RESET;
  '(_, _, s) ← lift (prepare_chain A fuel frame_data size cbs hdrs next);
  _ ← store_blocks p (take (ps_cb s) (ps_cbs s));
  _ ← write_reg (DMA_CONBLK_AD 0) (DMA_ADDR (cb_ptr A 0));
  _ ← write_reg (DMA_CONBLK_AD 1) (DMA_ADDR (cb_ptr A 1));
  _ ← on_dma (change_reg (DMA_CS 0) (λ v, Z.lor v DMA_CS_ACTIVE));
  _ ← on_dma (change_reg (DMA_CS 1) (λ v, Z.lor v DMA_CS_ACTIVE));
  tft_dma_free p.

(** ** Initialisation *)
Definition tft_pins : tft_control := TftControl 10 9 11 19 6 13.
Definition tftc_gpio_init : io S tft_control :=
  _ ← on_dma spi0_init_dma;
  let t := tft_pins in
  _ ← gpio_set_function (gpio_pin_mosi t) GPIO_FUNC_ALT_0;
  _ ← gpio_set_function (gpio_pin_miso t) GPIO_FUNC_ALT_0;
  _ ← gpio_set_function (gpio_pin_sclk t) GPIO_FUNC_ALT_0;
  _ ← gpio_set_function (gpio_pin_blk t) GPIO_FUNC_OUT;
  _ ← gpio_set_function (gpio_pin_reset t) GPIO_FUNC_OUT;
  _ ← gpio_set_function (gpio_pin_dc t) GPIO_FUNC_OUT;
  _ ← gpio_set_on (gpio_pin_dc t);
  _ ← gpio_set_on (gpio_pin_blk t);
  _ ← gpio_set_off (gpio_pin_reset t);
  mret t.
Definition set_tftc (t : tft_control) : io S unit := λ s, Ret (tt, TftDrv (thw s) (Some t)).
Definition tftc_transport_init : io S tft_control :=
  t ← tftc_gpio_init;
  _ ← write_reg SPI_CS (Z.lor SPI_CS_CLEAR_TX SPI_CS_CLEAR_RX);
  _ ← write_reg SPI_CLK 8;
  _ ← write_reg SPI_DLEN 2;
  _ ← set_tftc t;
  mret t.
Definition tft_lcd_init (canvas : list Z) : io S unit :=
  t ← tftc_transport_init;
  _ ← gpio_set_on (gpio_pin_reset t);
  _ ← gpio_set_off (gpio_pin_reset t);
  _ ← gpio_set_on (gpio_pin_reset t);
  _ ← write_reg SPI_CS SPI_CS_TA;
  _ ← tft_cmd fuel ILI9341_CMD_SOFT_RESET;
  _ ← tft_cmd fuel ILI9341_CMD_DISPLAY_OFF;
  _ ← SEND_CMD_DATA fuel ILI9341_CMD_MEM_ACCESS_CONTROL [Z.lor ILI9341_CMD_MEM_ACCESS_CONTROL_BGR ILI9341_CMD_MEM_ACCESS_CONTROL_MV];
  _ ← tft_cmd fuel ILI9341_CMD_SLEEP_OUT;
  _ ← tft_cmd fuel ILI9341_CMD_DISPLAY_ON;
  fill_screen fuel canvas (gpio_pin_dc t).
End print_frame.

(** ** Filling memory *)
Lemma packed_spec l (k : nat) a : Z.of_nat (k + length l) ≤ 8 → 0 ≤ a < 2 ^ (8 * Z.of_nat k) →
  foldl Z.lor a (imap (λ i v, BP v (Z.of_nat (k + i))) l) = a + 2 ^ (8 * Z.of_nat k) * le_val (map u8 l).
Proof.
  revert k a; induction l as [|v l IH]; intros k a Hk Ha; [cbn; lia|]. cbn [imap foldl map le_val length] in *.
  pose proof (u8_range v) as Hv.
  assert (BP v (Z.of_nat (k + 0)) = u8 v * 2 ^ (8 * Z.of_nat k)) as ->.
  { unfold BP. rewrite Nat.add_0_r, (Z.mul_comm _ 8), Z.shiftl_mul_pow2 by lia.
    pose proof (Z.pow_pos_nonneg 2 (8 * Z.of_nat k) ltac:(lia) ltac:(lia)).
    apply u64_id. split; [nia|]. apply (Z.lt_le_trans _ (2 ^ 8 * 2 ^ (8 * Z.of_nat k))); [nia|].
    rewrite <- Z.pow_add_r by lia. apply Z.pow_le_mono_r; lia. }
  rewrite Z.lor_comm, <- Z.shiftl_mul_pow2, shiftl_lor_add by lia.
  assert (2 ^ (8 * Z.of_nat (Datatypes.S k)) = 2 ^ 8 * 2 ^ (8 * Z.of_nat k)) as Ep.
  { rewrite <- Z.pow_add_r by lia. f_equal. lia. }
  rewrite (imap_ext _ (λ i v, BP v (Z.of_nat (Datatypes.S k + i)))) by (intros; unfold compose; do 2 f_equal; lia).
  rewrite (IH (Datatypes.S k)); [|lia|rewrite Ep; nia]. rewrite Ep. lia.
Qed.

Lemma le_bytes_le_val l : is_bytes l → le_bytes (length l) (le_val l) = l.
Proof.
  induction l as [|b l IH]; intros Hl; [done|]. apply Forall_cons in Hl as [Hb Hl]. cbn [length le_bytes le_val].
  rewrite (Z.mul_comm (2 ^ 8)), Z.mod_add, Z.div_add, Z.mod_small, Z.div_small, Z.add_0_l, IH by (done || lia). done.
Qed.

Lemma map_u8_bytes l : is_bytes (map u8 l).
Proof. apply Forall_forall. intros z (v & -> & _)%list_elem_of_fmap. apply u8_range. Qed.

Lemma packed_bytes l : length l = 8%nat → le_bytes 8 (packed l) = map u8 l.
Proof.
  intros Hl. pose proof (packed_spec l 0 0 ltac:(lia) ltac:(cbn; lia)) as E.
  change (packed l = 0 + 2 ^ 0 * le_val (map u8 l)) in E. rewrite E, Z.pow_0_r, Z.add_0_l, Z.mul_1_l.
  replace 8%nat with (length (map u8 l)) by (by rewrite length_map). apply le_bytes_le_val, map_u8_bytes.
Qed.

(** The colour as the display takes it, [n] times. *)
Definition pixels (n : nat) (r g b : Z) : list Z := concat (replicate n [u8 r; u8 g; u8 b]).
Lemma pixels_length n r g b : length (pixels n r g b) = (3 * n)%nat.
Proof. induction n as [|n IH]; [done|]. unfold pixels in *. cbn. rewrite IH. lia. Qed.
Lemma pixels_add n m r g b : pixels (n + m) r g b = pixels n r g b ++ pixels m r g b.
Proof. unfold pixels. by rewrite replicate_add, concat_app. Qed.

Lemma put_bytes_at (pre old post bs : list Z) : length old = length bs →
  put_bytes (pre ++ old ++ post) (length pre) bs = Ret (pre ++ bs ++ post).
Proof.
  intros Hl. unfold put_bytes. rewrite !length_app, <- Hl.
  rewrite (leb_correct (length pre + length old)) by lia. f_equal.
  rewrite take_app_length. rewrite (app_assoc pre old), <- length_app, drop_app_length. done.
Qed.

Lemma fastfill_turn_ok r g b pre old post : length old = 24%nat →
  fastfill_turn (fill_v1 r g b) (fill_v2 r g b) (fill_v3 r g b) (pre ++ old ++ post) (length pre) = Ret (pre ++ pixels 8 r g b ++ post).
Proof.
  intros Hl. unfold fastfill_turn, fill_v1, fill_v2, fill_v3. rewrite !packed_bytes by done.
  rewrite <- (take_drop 16 old), <- (app_assoc (take 16 old)).
  rewrite put_bytes_at by (rewrite length_take, length_app, !length_map, Hl; done).
  rewrite bind_ret, (app_assoc pre).
  replace (length pre + 16)%nat with (length (pre ++ map u8 [r; g; b; r; g; b; r; g] ++ map u8 [b; r; g; b; r; g; b; r])) by (rewrite !length_app, !length_map; cbn; lia).
  rewrite put_bytes_at by (by rewrite length_drop, length_map, Hl). by rewrite <- !app_assoc.
Qed.

Lemma fastfill_ok r g b n pre rest : (24 * Datatypes.S n ≤ length rest)%nat →
  fastfill (Datatypes.S n) (fill_v1 r g b) (fill_v2 r g b) (fill_v3 r g b) (pre ++ rest) (length pre)
  = Ret (pre ++ pixels (8 * Datatypes.S n) r g b ++ drop (24 * Datatypes.S n) rest).
Proof.
  revert pre rest; induction n as [|n IH]; intros pre rest Hl; cbn [fastfill];
    rewrite <- (take_drop 24 rest) at 1; rewrite fastfill_turn_ok, bind_ret by (rewrite length_take; lia); [done|].
  change (fastfill (Datatypes.S n) (fill_v1 r g b) (fill_v2 r g b) (fill_v3 r g b) (pre ++ pixels 8 r g b ++ drop 24 rest) (length pre + 24)
    = Ret (pre ++ pixels (8 * Datatypes.S (Datatypes.S n)) r g b ++ drop (24 * Datatypes.S (Datatypes.S n)) rest)).
  rewrite (app_assoc pre). replace (length pre + 24)%nat with (length (pre ++ pixels 8 r g b)) by (rewrite length_app, pixels_length; lia).
  rewrite IH by (rewrite length_drop; lia). rewrite drop_drop. replace (8 * Datatypes.S (Datatypes.S n))%nat with (8 + 8 * Datatypes.S n)%nat by lia.
  rewrite pixels_add, <- !app_assoc. replace (24 + 24 * Datatypes.S n)%nat with (24 * Datatypes.S (Datatypes.S n))%nat by lia. done.
Qed.

(** [l] is [junk] with the pixels of [P] in the colour. *)
Definition painted (r g b : Z) (P : Z → Prop) (junk l : list Z) : Prop :=
  length l = length junk ∧ ∀ i : nat, (P (Z.of_nat i / 3) → l !! i = [u8 r; u8 g; u8 b] !! Z.to_nat (Z.of_nat i mod 3)) ∧
    (¬ P (Z.of_nat i / 3) → l !! i = junk !! i).

Lemma arr_set_ok (l : list Z) i v : 0 ≤ i < Z.of_nat (length l) → arr_set l i v = Ret (<[Z.to_nat i := v]> l).
Proof.
  intros Hi. unfold arr_set, arr_get. zdec. destruct (lookup_lt_is_Some_2 l (Z.to_nat i)) as [x ->]; [lia|done].
Qed.

Lemma put_pixel_painted r g b P junk l w x y : painted r g b P junk l → 0 ≤ y * w + x → 3 * (y * w + x) + 3 ≤ Z.of_nat (length junk) →
  ∃ l', put_pixel w x y r g b l = Ret l' ∧ painted r g b (λ p, P p ∨ p = y * w + x) junk l'.
Proof.
  intros [Hl HP] H0 H1. set (q := y * w + x) in *. unfold put_pixel. fold q.
  rewrite arr_set_ok, bind_ret, arr_set_ok, bind_ret, arr_set_ok by (rewrite ?length_insert; lia).
  eexists; split; [done|]. split; [by rewrite !length_insert|]. intros i. destruct (HP i) as [HP1 HP2].
  destruct (decide (Z.of_nat i / 3 = q)) as [Ei|Ei].
  - split; [intros _|tauto]. assert (i = Z.to_nat (q * 3 + Z.of_nat i mod 3)) as Em by dlia.
    pose proof (Z.mod_pos_bound (Z.of_nat i) 3 ltac:(lia)) as Hm. remember (Z.of_nat i mod 3) as m eqn:Eqm. clear Eqm.
    assert (m = 0 ∨ m = 1 ∨ m = 2) as [-> | [-> | ->]] by lia; rewrite Em, ?Z.add_0_r;
      repeat first [rewrite list_lookup_insert_eq by (rewrite ?length_insert; lia) | rewrite list_lookup_insert_ne by lia]; done.
  - rewrite !list_lookup_insert_ne by (intros E; apply Ei; dlia).
    split; [intros [?|?]; [auto|done]|intros ?; apply HP2; tauto].
Qed.

Lemma painted_iff r g b P Q junk l : (∀ p, P p ↔ Q p) → painted r g b P junk l → painted r g b Q junk l.
Proof. intros HPQ [Hl HP]. split; [done|]. intros i. by rewrite <- HPQ. Qed.

Lemma fill_column_painted r g b n junk w x P : ∀ y l, painted r g b P junk l → 0 ≤ x < w → 0 ≤ y → 3 * ((y + Z.of_nat n) * w) ≤ Z.of_nat (length junk) →
  ∃ l', fill_column n w x y r g b l = Ret l' ∧ painted r g b (λ p, P p ∨ ∃ y', y ≤ y' < y + Z.of_nat n ∧ p = y' * w + x) junk l'.
Proof.
  revert P; induction n as [|n IH]; intros P y l Hp Hx Hy Hn; cbn [fill_column].
  - exists l. split; [done|]. revert Hp. apply painted_iff. intros p. split; [auto|]. intros [?|(? & ? & ?)]; [done|lia].
  - destruct (put_pixel_painted r g b P junk l w x y Hp) as (l1 & -> & Hp1); [nia..|]. rewrite bind_ret.
    destruct (IH _ (y + 1) l1 Hp1) as (l2 & -> & Hp2); [lia..|]. exists l2. split; [done|]. revert Hp2. apply painted_iff. intros p. split.
    + intros [[?| ->]|(y' & ? & ->)]; [auto|right; exists y; split; [lia|done]|right; exists y'; split; [lia|done]].
    + intros [?|(y' & ? & ->)]; [auto|]. destruct (decide (y' = y)) as [->|?]; [auto|]. right. exists y'. split; [lia|done].
Qed.

Lemma fill_columns_painted r g b n junk w h P : ∀ x l, painted r g b P junk l → 0 ≤ x → x + Z.of_nat n ≤ w → 0 ≤ h → 3 * (h * w) ≤ Z.of_nat (length junk) →
  ∃ l', fill_columns n w h x r g b l = Ret l' ∧
    painted r g b (λ p, P p ∨ ∃ x' y', x ≤ x' < x + Z.of_nat n ∧ 0 ≤ y' < h ∧ p = y' * w + x') junk l'.
Proof.
  revert P; induction n as [|n IH]; intros P x l Hp Hx Hn Hh Hj; cbn [fill_columns].
  - exists l. split; [done|]. revert Hp. apply painted_iff. intros p. split; [auto|]. intros [?|(? & ? & ? & ?)]; [done|lia].
  - destruct (fill_column_painted r g b (Z.to_nat h) junk w x P 0 l Hp) as (l1 & -> & Hp1); [lia..|]. rewrite bind_ret.
    destruct (IH _ (x + 1) l1 Hp1) as (l2 & -> & Hp2); [lia..|]. exists l2. split; [done|]. revert Hp2. apply painted_iff. intros p. split.
    + intros [[?|(y' & ? & ->)]|(x' & y' & ? & ? & ->)]; [auto|right; exists x, y'; split_and!; (done || lia)|right; exists x', y'; split_and!; (done || lia)].
    + intros [?|(x' & y' & ? & ? & ->)]; [auto|]. destruct (decide (x' = x)) as [->|?]; [left; right; exists y'; split; [lia|done]|].
      right. exists x', y'. split_and!; (done || lia).
Qed.

Lemma pixels_lookup n r g b i : (i < 3 * n)%nat → pixels n r g b !! i = [u8 r; u8 g; u8 b] !! Z.to_nat (Z.of_nat i mod 3).
Proof.
  revert i; induction n as [|n IH]; intros i Hi; [lia|]. unfold pixels. cbn [replicate concat].
  destruct (decide (i < 3)%nat) as [?|?].
  - rewrite lookup_app_l by (cbn; lia). rewrite Z.mod_small by lia. by rewrite Nat2Z.id.
  - rewrite lookup_app_r by (cbn; lia). cbn [length]. fold (pixels n r g b). rewrite IH by lia. do 2 f_equal. dlia.
Qed.

Lemma painted_all r g b n P junk l : painted r g b P junk l → (∀ p, 0 ≤ p → P p ↔ p < Z.of_nat n) → (3 * n ≤ length junk)%nat →
  l = pixels n r g b ++ drop (3 * n) junk.
Proof.
  intros [Hl HP] Hn Hj. apply list_eq. intros i. destruct (HP i) as [HP1 HP2].
  assert (P (Z.of_nat i / 3) ↔ (i < 3 * n)%nat) as HPi by (rewrite Hn by dlia; dlia).
  destruct (decide (i < 3 * n)%nat) as [?|?].
  - rewrite lookup_app_l by (rewrite pixels_length; lia). rewrite pixels_lookup by lia. tauto.
  - rewrite lookup_app_r, pixels_length, lookup_drop by (rewrite pixels_length; lia).
    rewrite HP2 by tauto. f_equal. lia.
Qed.

(** The pixels that get the colour: all of a small rectangle, whole groups of
    eight of a larger one. *)
Definition painted_pixels (local_width local_height : Z) : nat :=
  Z.to_nat (if 8 <? local_width * local_height then 8 * (local_width * local_height / 8) else local_width * local_height).

Lemma fill_canvas_spec w h r g b junk : 0 ≤ w → 0 ≤ h → 3 * (w * h) ≤ Z.of_nat (length junk) →
  fill_canvas w h r g b junk = Ret (pixels (painted_pixels w h) r g b ++ drop (3 * painted_pixels w h) junk).
Proof.
  intros Hw Hh Hj. unfold fill_canvas, painted_pixels. destruct (Z.ltb_spec 8 (w * h)) as [H8|H8].
  - assert (0 ≤ w * h) as H0 by nia. revert H0 H8 Hj. generalize (w * h). intros q H0 H8 Hj.
    pose proof (Z.div_mod q 8 ltac:(lia)). pose proof (Z.mod_pos_bound q 8 ltac:(lia)).
    destruct (Z.to_nat (q / 8)) as [|n] eqn:En; [lia|].
    replace (Z.to_nat (8 * (q / 8))) with (8 * Datatypes.S n)%nat by lia.
    replace (3 * (8 * Datatypes.S n))%nat with (24 * Datatypes.S n)%nat by lia. exact (fastfill_ok r g b n [] junk ltac:(lia)).
  - destruct (fill_columns_painted r g b (Z.to_nat w) junk w h (λ _, False) 0 junk) as (l & -> & Hp); try lia.
    { split; [done|]. intros i. split; [done|auto]. }
    f_equal. eapply painted_all; [exact Hp| |lia]. intros p Hp0. rewrite Z2Nat.id by nia. split.
    + intros [[]|(x & y & Hx & Hy & ->)]. nia.
    + intros Hp1. right. assert (0 < w) by nia. exists (p mod w), (p / w).
      pose proof (Z.mod_pos_bound p w ltac:(lia)). pose proof (Z.div_mod p w ltac:(lia)).
      split_and!; [lia|lia|apply Z.div_pos; lia|apply Z.div_lt_upper_bound; lia|lia].
Qed.

(** ** What goes over the wires *)

(** The controller and the D/C pin as documented: [wire] is what was shifted
    out, each byte with the level of the pin; the flags of an idle
    transmitter are seen after at most [patience] reads of the status. *)
Class TftBus (D : Type) `{Mmio D} (pin : Z) (patience : nat) : Type := {
  wire : D → list (bool * Z);
  level : D → bool;
  busy : D → nat;
  busy_patience d : (busy d ≤ patience)%nat;
  bus_read d : wire (snd (mmio_read SPI_CS d)) = wire d ∧ level (snd (mmio_read SPI_CS d)) = level d ∧ (busy (snd (mmio_read SPI_CS d)) ≤ pred (busy d))%nat;
  bus_idle d m : m = SPI_CS_TXD ∨ m = SPI_CS_DONE → busy d = 0%nat → truth (Z.land (u32 (fst (mmio_read SPI_CS d))) m) = true;
  bus_status v d : wire (mmio_write SPI_CS v d) = wire d ∧ level (mmio_write SPI_CS v d) = level d ∧ (busy (mmio_write SPI_CS v d) ≤ busy d)%nat;
  bus_fifo v d : wire (mmio_write SPI_FIFO v d) = wire d ++ [(level d, u8 v)] ∧ level (mmio_write SPI_FIFO v d) = level d;
  bus_high d : wire (mmio_write GPIO_REG_GPSET0 (u32 (Z.shiftl 1 pin)) d) = wire d ∧ level (mmio_write GPIO_REG_GPSET0 (u32 (Z.shiftl 1 pin)) d) = true;
  bus_low d : wire (mmio_write GPIO_REG_GPCLR0 (u32 (Z.shiftl 1 pin)) d) = wire d ∧ level (mmio_write GPIO_REG_GPCLR0 (u32 (Z.shiftl 1 pin)) d) = false }.

(** A command and its parameters on the wire. *)
Definition message (cmd : Z) (data : list Z) : list (bool * Z) := (false, u8 cmd) :: map (λ d, (true, u8 d)) data.

Section wire.
Context {D : Type} `{Mmio D} (pin : Z) (patience : nat) `{!TftBus D pin patience} (fuel : nat) (Hfuel : (patience < fuel)%nat).
Abbreviation S := (tft_drv D).
#[local] Instance wire_logged : Logged S (bool * Z) := λ s, wire (thw s).
Definition lv (s : S) : bool := level (thw s).
Definition same (s s' : S) : Prop := tftc s' = tftc s ∧ lv s' = lv s.
Definition quiet (s : S) : unit → S → lang_of (bool * Z) := λ _ s' l, l = [] ∧ same s s'.

Lemma read_status_quiet s : does (read_reg SPI_CS) s (λ v s' l, l = [] ∧ same s s' ∧ (busy (thw s') ≤ pred (busy (thw s)))%nat ∧
  (busy (thw s) = 0%nat → ∀ m, m = SPI_CS_TXD ∨ m = SPI_CS_DONE → truth (Z.land (u32 v) m) = true)).
Proof.
  destruct (bus_read (thw s)) as (Ew & El & Eb). pose proof (bus_idle (thw s)) as Hi.
  exists (fst (mmio_read SPI_CS (thw s))), (TftDrv (snd (mmio_read SPI_CS (thw s))) (tftc s)), [].
  unfold read_reg. cbn. destruct (mmio_read SPI_CS (thw s)) as [v d]. cbn in *. rewrite app_nil_r.
  split; [done|]. split; [exact Ew|]. split; [done|]. split; [by split|]. auto.
Qed.

Lemma drop_rx_quiet cs mask s : does (drop_rx cs mask) s (λ x s' l, quiet s x s' l ∧ (busy (thw s') ≤ busy (thw s))%nat).
Proof.
  unfold drop_rx. destruct (truth _).
  - destruct (bus_status (u32 (Z.lor SPI_CS_TA SPI_CS_CLEAR_RX)) (thw s)) as (Ew & El & Eb).
    eexists _, _, []. rewrite app_nil_r. split; [done|]. split; [exact Ew|]. by repeat split.
  - apply does_ret. by repeat split.
Qed.

(** A loop that reads the status and may drop what was received. *)
Lemma poll_quiet (turn : Z → io S (option unit)) m (n : nat) :
  (∀ v s, does (turn v) s (λ o s' l, l = [] ∧ same s s' ∧ (busy (thw s') ≤ busy (thw s))%nat ∧ (truth (Z.land (u32 v) m) = true → o = Some tt))) →
  m = SPI_CS_TXD ∨ m = SPI_CS_DONE → ∀ s, (busy (thw s) < n)%nat → does (io_loop n (v ← read_reg SPI_CS; turn v)) s (quiet s).
Proof.
  intros Ht Hm. induction n as [|n IH]; intros s Hn; [lia|].
  assert (does (v ← read_reg SPI_CS; turn v) s (λ o s' l, l = [] ∧ same s s' ∧ (busy (thw s') ≤ pred (busy (thw s)))%nat ∧ (busy (thw s) = 0%nat → o = Some tt))) as Hd.
  { eapply does_bind; [apply read_status_quiet|]. intros v s1 l (-> & [E1 E2] & Hb & Hi). eapply does_mono; [apply Ht|].
    intros o s2 l (-> & [E3 E4] & Hb2 & Ho). split_and!; [done|split; congruence|lia|auto]. }
  destruct Hd as (o & s1 & l & E & El & -> & [E1 E2] & Hb & Ho). destruct o as [[]|].
  - exists tt, s1, []. unfold io_loop. cbn [loop]. rewrite E. cbn. by repeat split.
  - destruct (IH s1) as (a & s2 & l & E' & El' & -> & [E3 E4]); [destruct (busy (thw s)); [by specialize (Ho eq_refl)|lia]|].
    exists a, s2, []. unfold io_loop in *. cbn [loop]. rewrite E, bind_ret. split; [exact E'|]. split; [by rewrite El', El, app_nil_r|].
    split; [done|]. split; congruence.
Qed.

Lemma wait_quiet m s : m = SPI_CS_TXD ∨ m = SPI_CS_DONE → does (wait_set fuel SPI_CS m) s (quiet s).
Proof.
  intros Hm. apply (poll_quiet (λ v, mret (if truth (Z.land (u32 v) m) then Some tt else None)) m); [|done|pose proof (busy_patience (thw s)); lia].
  intros v s'. apply does_ret. split_and!; [done|by split|done|]. by intros ->.
Qed.

Lemma wait_sent_quiet s : does (wait_sent fuel) s (quiet s).
Proof.
  apply (poll_quiet (λ r, if truth (Z.land (u32 r) SPI_CS_DONE) then mret (Some tt) else _ ← drop_rx r SPI_CS_RXR; mret None) SPI_CS_DONE); [|auto|pose proof (busy_patience (thw s)); lia].
  intros v s'. destruct (truth _).
  - apply does_ret. by repeat split.
  - eapply does_bind; [apply drop_rx_quiet|]. intros [] s1 l ((-> & Hs) & Hb). apply does_ret. by split_and!.
Qed.

(** The display has been initialised with the D/C pin [pin]. *)
Definition has_pin (s : S) : Prop := ∃ t, tftc s = Some t ∧ gpio_pin_dc t = pin.
Lemma same_pin s s' : same s s' → has_pin s → has_pin s'.
Proof. intros [E _] (t & Et & Ep). exists t. by rewrite E. Qed.

Lemma quiet_bind {A B} (m : io S A) (k : A → io S B) s Q : does m s (λ _ s' l, l = [] ∧ same s s') →
  (∀ a s', same s s' → does (k a) s' Q) → does (m ≫= k) s Q.
Proof. intros Hm Hk. eapply does_bind; [exact Hm|]. intros a s' l [-> Hs]. cbn. by apply Hk. Qed.

Lemma fifo_does v s : does (write_reg SPI_FIFO (u8 v)) s (λ _ s' l, l = [(lv s, u8 v)] ∧ same s s').
Proof.
  destruct (bus_fifo (u32 (u8 v)) (thw s)) as [Ew El]. pose proof (u8_range v).
  rewrite (u32_id (u8 v)), (u8_id (u8 v)) in Ew by lia. rewrite (u32_id (u8 v)) in El by lia.
  eexists _, _, [(lv s, u8 v)]. split; [reflexivity|]. rewrite u32_id by lia. split; [exact Ew|]. split; [done|]. by split.
Qed.

Lemma drop_rx_same cs mask s : does (drop_rx cs mask) s (λ _ s' l, l = [] ∧ same s s').
Proof. eapply does_mono; [apply drop_rx_quiet|]. by intros ? ? ? [? _]. Qed.
Lemma read_status_same s : does (read_reg SPI_CS) s (λ _ s' l, l = [] ∧ same s s').
Proof. eapply does_mono; [apply read_status_quiet|]. by intros ? ? ? (-> & ? & _). Qed.

Lemma tft_cmd_does cmd s : has_pin s → does (tft_cmd fuel cmd) s (λ _ s' l, l = [(false, u8 cmd)] ∧ tftc s' = tftc s ∧ lv s' = true).
Proof.
  intros (t & Et & Ep). unfold tft_cmd, get_tftc. eapply does_quiet; [by rewrite Et|done|].
  apply quiet_bind; [apply read_status_same|]. intros cs s1 [E1 _].
  apply quiet_bind; [apply drop_rx_same|]. intros _ s2 [E2 _].
  destruct (bus_low (thw s2)) as [Ew El]. unfold SPI_DC_CLEAR. rewrite Ep.
  eapply does_quiet; [reflexivity|exact Ew|]. set (s3 := mmio_write _ _ s2).
  assert (lv s3 = false) as L3 by exact El. assert (tftc s3 = tftc s) as E3 by (cbn; congruence).
  apply quiet_bind; [apply wait_quiet; auto|]. intros _ s4 [E4 L4].
  eapply does_bind; [apply fifo_does|]. intros _ s5 l [-> [E5 L5]].
  apply quiet_bind; [apply wait_quiet; auto|]. intros _ s6 [E6 L6].
  destruct (bus_high (thw s6)) as [Ew' El']. eexists _, _, []. rewrite app_nil_r. split; [reflexivity|]. split; [exact Ew'|].
  split; [by rewrite L4, L3|]. split; [cbn; congruence|exact El'].
Qed.

Lemma send_data_does data s : lv s = true → does (send_data fuel data) s (λ _ s' l, l = map (λ d, (true, u8 d)) data ∧ same s s').
Proof.
  revert s; induction data as [|d data IH]; intros s Hl; cbn [send_data map]; [by apply does_ret|].
  apply quiet_bind; [apply read_status_same|]. intros cs s1 [E1 L1].
  apply quiet_bind; [apply drop_rx_same|]. intros _ s2 [E2 L2].
  apply quiet_bind; [apply wait_quiet; auto|]. intros _ s3 [E3 L3].
  eapply does_bind; [apply fifo_does|]. intros _ s4 l [-> [E4 L4]].
  eapply does_mono; [apply IH; congruence|]. intros _ s5 l [-> [E5 L5]].
  split; [cbn; by rewrite L3, L2, L1, Hl|]. split; congruence.
Qed.

Lemma SEND_CMD_DATA_does cmd data s : has_pin s → does (SEND_CMD_DATA fuel cmd data) s (λ _ s' l, l = message cmd data ∧ tftc s' = tftc s).
Proof.
  intros Hp. unfold SEND_CMD_DATA. eapply does_bind; [by apply tft_cmd_does|]. intros _ s1 l (-> & E1 & L1).
  eapply does_bind; [by apply send_data_does|]. intros _ s2 l [-> [E2 _]].
  eapply does_mono; [apply wait_sent_quiet|]. intros _ s3 l [-> [E3 _]]. rewrite app_nil_r. split; [done|congruence].
Qed.

Lemma has_pin_eq s s' : tftc s' = tftc s → has_pin s → has_pin s'.
Proof. intros E (t & ? & ?). exists t. by rewrite E. Qed.

Lemma set_region_does arg x0 y0 x1 y1 s : has_pin s → does (tft_set_region_coords fuel arg x0 y0 x1 y1) s
  (λ _ s' l, l = message ILI9341_CMD_SET_CURSOR_X (coords x0 x1) ++ message ILI9341_CMD_SET_CURSOR_Y (coords y0 y1) ∧ tftc s' = tftc s).
Proof.
  intros Hp. eapply does_bind; [by apply SEND_CMD_DATA_does|]. intros _ s1 l [-> E1].
  eapply does_mono; [apply SEND_CMD_DATA_does; by apply (has_pin_eq s)|]. intros _ s2 l [-> E2]. split; [done|congruence].
Qed.

(** a rectangle of the display is filled by three messages: its columns, its
    rows, and as many pixels as it has.  All the pixels of a small one, and whole
    groups of eight of a larger one, have the colour; the rest is what the stack
    held. *)
Theorem tft_fill_rect_paints junk arg x0 y0 x1 y1 r g b s : has_pin s → 0 ≤ x0 ≤ x1 → 0 ≤ y0 ≤ y1 → x1 < 2 ^ 16 → y1 < 2 ^ 16 →
  3 * ((x1 - x0) * (y1 - y0)) ≤ Z.of_nat (length junk) →
  let n := Z.to_nat ((x1 - x0) * (y1 - y0)) in let k := painted_pixels (x1 - x0) (y1 - y0) in
  ∃ s', tft_fill_rect fuel junk arg x0 y0 x1 y1 r g b s = Ret (tt, s') ∧ tftc s' = tftc s ∧ (k ≤ n)%nat ∧
    wire (thw s') = wire (thw s) ++ message ILI9341_CMD_SET_CURSOR_X (coords x0 x1) ++ message ILI9341_CMD_SET_CURSOR_Y (coords y0 y1) ++
      message ILI9341_CMD_WRITE_PIXELS (pixels k r g b ++ take (3 * (n - k)) (drop (3 * k) junk)).
Proof.
  intros Hp Hx Hy Hx1 Hy1 Hj n k. set (w := x1 - x0) in *. set (h := y1 - y0) in *.
  assert ((k ≤ n)%nat) as Hk by (unfold k, n, painted_pixels; destruct (Z.ltb_spec 8 (w * h)); dlia).
  assert (length (pixels k r g b ++ drop (3 * k) junk) = length junk) as El by (rewrite length_app, pixels_length, length_drop; lia).
  assert (take (Z.to_nat (w * h * 3)) (pixels k r g b ++ drop (3 * k) junk) = pixels k r g b ++ take (3 * (n - k)) (drop (3 * k) junk)) as Et.
  { replace (Z.to_nat (w * h * 3)) with (length (pixels k r g b) + 3 * (n - k))%nat by (rewrite pixels_length; lia). apply take_app_add. }
  assert (does (tft_fill_rect fuel junk arg x0 y0 x1 y1 r g b) s (λ _ s' l, tftc s' = tftc s ∧
    l = message ILI9341_CMD_SET_CURSOR_X (coords x0 x1) ++ message ILI9341_CMD_SET_CURSOR_Y (coords y0 y1) ++
      message ILI9341_CMD_WRITE_PIXELS (pixels k r g b ++ take (3 * (n - k)) (drop (3 * k) junk)))) as ([] & s' & l & E & Elog & Es & ->).
  { unfold tft_fill_rect. rewrite !s32_id by lia. fold w h. rewrite fill_canvas_spec by lia. fold k.
    eapply does_quiet; [reflexivity|done|]. rewrite El, Et.
    eapply does_bind; [by apply set_region_does|]. intros _ s2 l [-> E2]. zdec.
    eapply does_mono; [apply SEND_CMD_DATA_does; by apply (has_pin_eq s)|].
    intros _ s3 l [-> E3]. split; [congruence|]. by rewrite <- app_assoc. }
  exists s'. by split_and!.
Qed.
End wire.

(** ** The chain of control blocks *)

(** What the blocks of a frame of [size] bytes should be: task [i] transfers the
    bytes from [max_task_size * i] on. *)
Definition task_len (size : Z) (i : nat) : Z := Z.min max_task_size (size - max_task_size * Z.of_nat i).
Definition task_cb (i : nat) : nat := match i with O => 0 | Datatypes.S i => 4 + 8 * i end.
Definition task_blocks (A : print_layout) (frame size : Z) (i : nat) (last : bool) : list control_block :=
  let to cb := DMA_ADDR (cb_ptr A cb) in let c := task_cb i in
  [ControlBlock TI_TX_PIPE (DMA_ADDR (tx_headers A + 8 * Z.of_nat i)) SPI_FIFO_7E 4 (to (c + 2)%nat);
   ControlBlock TI_RX_PIPE SPI_FIFO_7E 0 (task_len size i) (if last then 0 else to (task_cb (i + 1) + 4)%nat);
   ControlBlock TI_TX_PIPE (DMA_ADDR (frame + max_task_size * Z.of_nat i)) SPI_FIFO_7E (task_len size i) (to (c + 3)%nat);
   ControlBlock TI_MM_PIPE DMA_CS0_7E (DMA_ADDR (tx_endmarks_check A + 8 * Z.of_nat i)) 8 0] ++
  match i with
  | O => []
  | Datatypes.S _ =>
    [ControlBlock TI_MM_PIPE (DMA_ADDR (tx_next_dma A + 8 * Z.of_nat i)) DMA_CONBLK_AD_7E 4 (to (c + 5)%nat);
     ControlBlock TI_MM_PIPE (DMA_ADDR (pl_spi_stop A)) SPI_CS_7E 4 (to (c + 7)%nat);
     ControlBlock TI_MM_PIPE (DMA_ADDR (dma_cs_start A)) DMA_CS0_7E 4 (to (c + 1)%nat);
     ControlBlock TI_MM_PIPE DMA_CS1_7E (DMA_ADDR (rx_endmarks_check A + 8 * (Z.of_nat i - 1))) 8 (to (c + 6)%nat)]
  end.
(** The first [n] tasks, linked up to the last. *)
Fixpoint linked_blocks (A : print_layout) (frame size : Z) (n : nat) : list control_block :=
  match n with O => [] | Datatypes.S n => linked_blocks A frame size n ++ task_blocks A frame size n false end.
Definition frame_chain (A : print_layout) (frame size : Z) (n : nat) : list control_block :=
  match n with O => [] | Datatypes.S n => linked_blocks A frame size n ++ task_blocks A frame size n true end.

Lemma linked_blocks_length A frame size n : length (linked_blocks A frame size n) = task_cb n.
Proof. induction n as [|n IH]; [done|]. cbn [linked_blocks]. rewrite length_app, IH. destruct n; cbn; lia. Qed.

Lemma dma_program_cb_ok A l k src dst len ti nx : (k < length l)%nat → dma_program_cb A l k src dst len ti nx =
  Ret (<[k := ControlBlock ti src dst len (match nx with Some n => DMA_ADDR (cb_ptr A n) | None => 0 end)]> l).
Proof. intros Hk. unfold dma_program_cb. by rewrite (proj2 (Nat.ltb_lt _ _)). Qed.

Lemma dma_program_cb_app A pre l k c src dst len ti nx : c = (length pre + k)%nat → (k < length l)%nat →
  dma_program_cb A (pre ++ l) c src dst len ti nx =
  Ret (pre ++ <[k := ControlBlock ti src dst len (match nx with Some n => DMA_ADDR (cb_ptr A n) | None => 0 end)]> l).
Proof. intros -> Hk. rewrite dma_program_cb_ok by (rewrite length_app; lia). by rewrite insert_app_r. Qed.

Lemma set_next_app A pre l k b next : l !! k = Some b → set_next A (pre ++ l) (length pre + k) next =
  Ret (pre ++ <[k := ControlBlock (cb_ti b) (src_addr b) (dst_addr b) (transfer_length b) (DMA_ADDR (cb_ptr A next))]> l).
Proof. intros E. unfold set_next. rewrite lookup_app_r, Nat.add_comm, Nat.add_sub, E by lia. cbn. by rewrite Nat.add_comm, insert_app_r. Qed.

Lemma header_word_len len : 0 ≤ len < 2 ^ 16 → Z.land (Z.shiftr (header_word len) 16) 0xffff = len.
Proof.
  intros Hl. unfold header_word, DMA_SPI_TRANSFER_LEN_OFF. change SPI_CS_TA with 128. rewrite shiftl_lor_add by lia.
  rewrite u32_id by lia. rewrite Z.shiftr_div_pow2 by lia. change 0xffff with (Z.ones 16). rewrite Z.land_ones by lia. dlia.
Qed.

Lemma task_len_range size i : 0 ≤ max_task_size * Z.of_nat i ≤ size → 0 ≤ task_len size i < 2 ^ 16.
Proof. unfold task_len. change max_task_size with 65464. lia. Qed.

(** The state before task [i]. *)
Definition before_task (A : print_layout) (frame size : Z) (i : nat) (s : print_state) : Prop :=
  ps_src s = frame + max_task_size * Z.of_nat i ∧ ps_cb s = task_cb i ∧ length (ps_next s) = NUM_CBS ∧ length (ps_cbs s) = NUM_CBS ∧
  (∃ rest, ps_cbs s = frame_chain A frame size i ++ rest) ∧ ps_prev s = match i with O => None | Datatypes.S j => Some (task_cb j + 1)%nat end ∧
  (∀ j, (0 < j < i)%nat → ps_next s !! j = Some (DMA_ADDR (cb_ptr A (task_cb j)))).

Lemma task_step_first A frame size hdrs s : hdrs !! 0%nat = Some (header_word (task_len size 0)) → 0 < size →
  before_task A frame size 0 s →
  ∃ s', task_step A hdrs 0 s = Ret s' ∧ (max_task_size < size → before_task A frame size 1 s') ∧ take (ps_cb s') (ps_cbs s') = frame_chain A frame size 1 ∧ ps_cb s' = 4%nat.
Proof.
  intros Hh Hs (Esrc & Ecb & Ln & Lc & (rest & Ec) & Ep & _). cbn in Ec, Ecb.
  unfold task_step. change (arr_get hdrs (Z.of_nat 0)) with (deref (hdrs !! 0%nat)). rewrite Hh. cbn [deref]. rewrite bind_ret.
  rewrite header_word_len by (apply task_len_range; lia). rewrite Ecb, Ec, Ep, Esrc.
  rewrite Ec in Lc. destruct rest as [|j0 [|j1 [|j2 [|j3 rest]]]]; try done. cbv zeta.
  rewrite dma_program_cb_ok, bind_ret by (cbn; lia). do 3 (rewrite dma_program_cb_ok, bind_ret by (rewrite ?length_insert; cbn; lia)).
  eexists; split; [done|]. cbn [ps_cb ps_cbs ps_src ps_prev ps_next]. split; [|split; [|done]].
  - intros Hm. split_and!; [|done|done|done|by exists rest|done|lia].
    cbn [ps_src]. unfold task_len. rewrite Z.mul_0_r, Z.sub_0_r, Z.min_l by lia. by rewrite Z.add_0_r.
  - done.
Qed.

Lemma set_next_prev A frame size j l :
  set_next A (frame_chain A frame size (Datatypes.S j) ++ l) (task_cb j + 1) (4 + 8 * j + 4) = Ret (linked_blocks A frame size (Datatypes.S j) ++ l).
Proof.
  cbn [frame_chain linked_blocks]. rewrite <- !app_assoc. rewrite <- (linked_blocks_length A frame size j).
  erewrite set_next_app by reflexivity. cbn [task_blocks app insert list_insert cb_ti src_addr dst_addr transfer_length].
  replace (task_cb (j + 1)) with (4 + 8 * j)%nat by (by rewrite Nat.add_1_r). done.
Qed.

(** The last four blocks of task [S j]. *)
Lemma link_tasks_ok A frame size j b0 b1 b2 b3 j4 j5 j6 j7 rest : [b0; b1; b2; b3] = take 4 (task_blocks A frame size (Datatypes.S j) true) →
  link_tasks A (frame_chain A frame size (Datatypes.S j) ++ b0 :: b1 :: b2 :: b3 :: j4 :: j5 :: j6 :: j7 :: rest)
    (4 + 8 * j + 4) (task_cb j + 1) (4 + 8 * j + 1) (Datatypes.S j)
  = Ret (frame_chain A frame size (Datatypes.S (Datatypes.S j)) ++ rest).
Proof.
  intros E.
  unfold link_tasks. rewrite set_next_prev, bind_ret.
  pose proof (linked_blocks_length A frame size (Datatypes.S j)) as LP. cbn [task_cb] in LP.
  rewrite (dma_program_cb_app A _ _ 4), bind_ret by (rewrite ?LP; cbn [length]; lia). cbn [insert list_insert].
  rewrite (dma_program_cb_app A _ _ 5), bind_ret by (rewrite ?LP; cbn [length]; lia). cbn [insert list_insert].
  rewrite (dma_program_cb_app A _ _ 7), bind_ret by (rewrite ?LP; cbn [length]; lia). cbn [insert list_insert].
  rewrite (dma_program_cb_app A _ _ 6) by (rewrite ?LP; cbn [length]; lia). cbn [insert list_insert].
  change (frame_chain A frame size (Datatypes.S (Datatypes.S j))) with (linked_blocks A frame size (Datatypes.S j) ++ task_blocks A frame size (Datatypes.S j) true).
  rewrite <- app_assoc. match goal with |- Ret (_ ++ _ :: _ :: _ :: _ :: ?X) = _ => change (b0 :: b1 :: b2 :: b3 :: X) with ([b0; b1; b2; b3] ++ X) end.
  rewrite E. cbn [task_blocks task_cb app take]. rewrite <- !Nat.add_assoc. done.
Qed.

Lemma task_step_next A frame size hdrs j s : hdrs !! Datatypes.S j = Some (header_word (task_len size (Datatypes.S j))) → (j ≤ 6)%nat →
  max_task_size * Z.of_nat (Datatypes.S j) < size → before_task A frame size (Datatypes.S j) s →
  ∃ s', task_step A hdrs (Datatypes.S j) s = Ret s' ∧ (max_task_size * (Z.of_nat (Datatypes.S j) + 1) < size → before_task A frame size (Datatypes.S (Datatypes.S j)) s') ∧
    take (ps_cb s') (ps_cbs s') = frame_chain A frame size (Datatypes.S (Datatypes.S j)) ∧ ps_cb s' = (12 + 8 * j)%nat ∧
    ps_next s' = <[Datatypes.S j := DMA_ADDR (cb_ptr A (task_cb (Datatypes.S j)))]> (ps_next s).
Proof.
  intros Hh Hj Hs (Esrc & Ecb & Ln & Lc & (rest & Ec) & Ep & En).
  set (P := frame_chain A frame size (Datatypes.S j)) in *.
  assert (length P = (4 + 8 * j)%nat) as LP by (unfold P; cbn [frame_chain]; rewrite length_app, linked_blocks_length; destruct j; cbn; lia).
  pose proof (linked_blocks_length A frame size (Datatypes.S j)) as LQ.
  unfold task_step, arr_get. zdec. rewrite Nat2Z.id, Hh. cbn [deref]. rewrite bind_ret.
  rewrite header_word_len by (apply task_len_range; change max_task_size with 65464 in *; lia). cbv zeta. rewrite Ecb, Ec, Ep, Esrc. cbn [task_cb].
  rewrite Ec, length_app, LP in Lc. unfold NUM_CBS in *.
  destruct rest as [|j0 [|j1 [|j2 [|j3 [|j4 [|j5 [|j6 [|j7 rest]]]]]]]]; try (cbn in Lc; lia).
  rewrite (dma_program_cb_app A P _ 0), bind_ret by first [lia|cbn [length]; lia]. cbn [insert list_insert].
  rewrite (dma_program_cb_app A P _ 2), bind_ret by first [lia|cbn [length]; lia]. cbn [insert list_insert].
  rewrite (dma_program_cb_app A P _ 3), bind_ret by first [lia|cbn [length]; lia]. cbn [insert list_insert].
  rewrite (dma_program_cb_app A P _ 1), bind_ret by first [lia|cbn [length]; lia]. cbn [insert list_insert].
  unfold P. rewrite link_tasks_ok, bind_ret, arr_set_ok, bind_ret, Nat2Z.id by (reflexivity || lia).
  eexists; split; [done|]. cbn [ps_cb ps_cbs ps_src ps_prev ps_next task_cb].
  assert (length (frame_chain A frame size (Datatypes.S (Datatypes.S j))) = (12 + 8 * j)%nat) as LF by (cbn [frame_chain]; rewrite length_app, LQ; cbn; lia).
  split; [|split; [|split; [lia|done]]].
  - intros Hm. split_and!; cbn [ps_cb ps_cbs ps_src ps_prev ps_next]; [|cbn; lia|by rewrite length_insert| |by exists rest|done|].
    + unfold task_len. rewrite Z.min_l by (change max_task_size with 65464 in *; lia). change (4 * Z.shiftr max_task_size 2) with max_task_size. lia.
    + rewrite length_app, LF. unfold NUM_CBS. cbn [length] in Lc. lia.
    + intros k Hk. destruct (decide (k = Datatypes.S j)) as [->|?]; [rewrite list_lookup_insert_eq by lia; done|].
      rewrite list_lookup_insert_ne by lia. apply En. lia.
  - replace (4 + 8 * j + 8)%nat with (length (frame_chain A frame size (Datatypes.S (Datatypes.S j)))) by lia. by rewrite take_app_length.
Qed.

Definition num_tasks (size : Z) : nat := Z.to_nat ((size + max_task_size - 1) / max_task_size).
Lemma num_tasks_spec size i : 0 < size → (max_task_size * Z.of_nat i < size ↔ (i < num_tasks size)%nat).
Proof. unfold num_tasks. change max_task_size with 65464. intros. dlia. Qed.

(** What is known after task [i]. *)
Definition after_task (A : print_layout) (frame size : Z) (i : nat) (s : print_state) : Prop :=
  take (ps_cb s) (ps_cbs s) = frame_chain A frame size (Datatypes.S i) ∧ ps_cb s = task_cb (Datatypes.S i) ∧
  (∀ j, (0 < j ≤ i)%nat → ps_next s !! j = Some (DMA_ADDR (cb_ptr A (task_cb j)))).

Lemma task_step_ok A frame size hdrs i s : hdrs !! i = Some (header_word (task_len size i)) → (i < 8)%nat → (i < num_tasks size)%nat → 0 < size →
  before_task A frame size i s →
  ∃ s', task_step A hdrs i s = Ret s' ∧ ((Datatypes.S i < num_tasks size)%nat → before_task A frame size (Datatypes.S i) s') ∧ after_task A frame size i s'.
Proof.
  intros Hh Hi Hn Hs Hb. apply num_tasks_spec in Hn; [|done]. destruct i as [|j].
  - destruct (task_step_first A frame size hdrs s Hh Hs Hb) as (s' & -> & H1 & H2 & H3). exists s'. split; [done|]. split.
    + intros H%num_tasks_spec; [|done]. apply H1. change max_task_size with 65464 in *. lia.
    + split; [done|]. split; [done|lia].
  - destruct (task_step_next A frame size hdrs j s Hh ltac:(lia) Hn Hb) as (s' & -> & H1 & H2 & H3 & H4). exists s'. split; [done|]. split.
    + intros H%num_tasks_spec; [|done]. apply H1. change max_task_size with 65464 in *. lia.
    + split; [done|]. split; [rewrite H3; cbn; lia|]. destruct Hb as (_ & _ & Ln & _ & _ & _ & En). unfold NUM_CBS in Ln. intros k Hk. rewrite H4.
      destruct (decide (k = Datatypes.S j)) as [->|?]; [by rewrite list_lookup_insert_eq by lia|].
      rewrite list_lookup_insert_ne by lia. apply En. lia.
Qed.

Lemma tasks_ok A frame size hdrs m i s : (∀ j, (j < num_tasks size)%nat → hdrs !! j = Some (header_word (task_len size j))) →
  (num_tasks size ≤ 8)%nat → 0 < size → (i + Datatypes.S m = num_tasks size)%nat → before_task A frame size i s →
  ∃ s', tasks A (Datatypes.S m) hdrs i s = Ret s' ∧ after_task A frame size (i + m) s'.
Proof.
  intros Hh H8 Hs. revert i s; induction m as [|m IH]; intros i s Hi Hb; cbn [tasks];
    destruct (task_step_ok A frame size hdrs i s (Hh i ltac:(lia)) ltac:(lia) ltac:(lia) Hs Hb) as (s1 & -> & H1 & H2); rewrite bind_ret.
  - exists s1. by rewrite Nat.add_0_r.
  - destruct (IH (i + 1)%nat s1) as (s2 & E & H3); [lia|rewrite Nat.add_1_r; apply H1; lia|]. cbn [tasks] in E. rewrite E.
    exists s2. split; [done|]. by replace (i + Datatypes.S m)%nat with (i + 1 + m)%nat by lia.
Qed.

Lemma header_step_more t hdrs (i : nat) : t ≠ 0 → (i < length hdrs)%nat → header_step (t, hdrs, i) =
  Ret (inl (u32 (t - Z.min t max_task_size), <[i := header_word (Z.min t max_task_size)]> hdrs, (i + 1)%nat)).
Proof. intros Ht Hi. unfold header_step. zdec. rewrite arr_set_ok, bind_ret, Nat2Z.id by lia. done. Qed.

Lemma fill_headers_ok size : 0 < size → (num_tasks size ≤ NUM_CBS)%nat → ∀ m i fuel hdrs,
  (i + m = num_tasks size)%nat → (m < fuel)%nat → length hdrs = NUM_CBS → (∀ j, (j < i)%nat → hdrs !! j = Some (header_word (task_len size j))) →
  ∃ hdrs', loop fuel header_step (Z.max 0 (size - max_task_size * Z.of_nat i), hdrs, i) = Ret (hdrs', num_tasks size) ∧
    (∀ j, (j < num_tasks size)%nat → hdrs' !! j = Some (header_word (task_len size j))).
Proof.
  intros Hs H64 m; induction m as [|m IH]; intros i fuel hdrs Hi Hf Hl Hh; (destruct fuel as [|fuel]; [lia|]); cbn [loop];
    pose proof (num_tasks_spec size i Hs) as Hspec; change max_task_size with 65464 in *.
  - replace (Z.max 0 (size - 65464 * Z.of_nat i)) with 0 by lia. cbn. exists hdrs. split; [repeat f_equal; lia|]. intros j Hj. apply Hh. lia.
  - replace (Z.max 0 (size - 65464 * Z.of_nat i)) with (size - 65464 * Z.of_nat i) by lia. unfold NUM_CBS in *.
    rewrite header_step_more, bind_ret by lia. change max_task_size with 65464.
    assert (size ≤ 65464 * 64) as Hmax by (pose proof (num_tasks_spec size 64 Hs) as H'; change max_task_size with 65464 in H'; lia).
    replace (u32 _) with (Z.max 0 (size - 65464 * Z.of_nat (i + 1))) by (rewrite u32_id; lia).
    destruct (IH (i + 1)%nat fuel (<[i := header_word (Z.min (size - 65464 * Z.of_nat i) 65464)]> hdrs)) as (hdrs' & E & H'); [lia|lia|by rewrite length_insert| |].
    + intros j Hj. destruct (decide (j = i)) as [->|?]; [|rewrite list_lookup_insert_ne by lia; apply Hh; lia].
      rewrite list_lookup_insert_eq by lia. unfold task_len. change max_task_size with 65464. by rewrite Z.min_comm.
    + exists hdrs'. split; [exact E|exact H'].
Qed.

(** C23: the control blocks prepared for a frame are those of [frame_chain]: one
    task for every [max_task_size] bytes, its header, receiver, payload and end
    mark, handed over to the next by the blocks of that one; the headers hold the
    lengths, every byte of the frame is in the payload of one task, and the words
    copied to the channel between tasks are the addresses of the next headers. *)
Theorem prepare_chain_covers A fuel frame size cbs hdrs next : 0 < size < 2 ^ 32 → (num_tasks size ≤ 8)%nat → (num_tasks size < fuel)%nat →
  length cbs = NUM_CBS → length hdrs = NUM_CBS → length next = NUM_CBS →
  let n := num_tasks size in
  ∃ hdrs' s, prepare_chain A fuel frame size cbs hdrs next = Ret (hdrs', n, s) ∧
    take (ps_cb s) (ps_cbs s) = frame_chain A frame size n ∧ ps_cb s = task_cb n ∧
    (∀ i, (i < n)%nat → hdrs' !! i = Some (header_word (task_len size i))) ∧
    (∀ a, 0 ≤ a < size ↔ ∃ i, (i < n)%nat ∧ max_task_size * Z.of_nat i ≤ a < max_task_size * Z.of_nat i + task_len size i) ∧
    (∀ i, (0 < i < n)%nat → ps_next s !! i = Some (DMA_ADDR (cb_ptr A (task_cb i)))).
Proof.
  intros Hs H8 Hf Lc Lh Ln n. unfold prepare_chain, fill_headers. rewrite u32_id by lia.
  destruct (fill_headers_ok size ltac:(lia) ltac:(unfold NUM_CBS; lia) n 0 fuel hdrs eq_refl Hf Lh ltac:(lia)) as (hdrs' & E & Hh).
  rewrite Z.mul_0_r, Z.sub_0_r, Z.max_r in E by lia. rewrite E, bind_ret.
  assert (0 < n)%nat as Hn by (apply num_tasks_spec; lia).
  destruct (tasks_ok A frame size hdrs' (pred n) 0 (PrintState cbs 0 frame None next)) as (s & Et & E1 & E2 & E3); try (fold n; lia); [exact Hh| |].
  { split_and!; cbn; [lia|done|done|done|by exists cbs|done|lia]. }
  replace (Datatypes.S (pred n)) with n in Et by lia. replace (Datatypes.S (0 + pred n)) with n in * by lia.
  exists hdrs', s. unfold n in *. rewrite Et, bind_ret. split_and!; [done|exact E1|exact E2|exact Hh| |intros i Hi; apply E3; lia].
  intros a. unfold task_len. split.
  - intros Ha. exists (Z.to_nat (a / max_task_size)). rewrite <- num_tasks_spec by lia. change max_task_size with 65464. dlia.
  - change max_task_size with 65464. intros (i & Hi & Ha). lia.
Qed.

(** A frame of more than eight tasks does not fit in the blocks. *)
Lemma frame_size_ok : num_tasks (DISPLAY_WIDTH * DISPLAY_HEIGHT * 3) = 4%nat.
Proof. done. Qed.

(** ** The animation *)

(** The square stays within two columns and five rows of the screen. *)
Lemma cube_stays n : let c := Nat.iter n cube_move cube_start in
  0 ≤ cx c ≤ DISPLAY_WIDTH - 8 ∧ 0 ≤ cy c ≤ DISPLAY_HEIGHT - 5 ∧ Z.abs (x_speed c) = 2 ∧ Z.abs (y_speed c) = 5.
Proof.
  assert (let c := Nat.iter n cube_move cube_start in
    (0 ≤ cx c ≤ 312 ∧ cx c mod 2 = 0 ∧ (x_speed c = 2 ∨ x_speed c = -2 ∧ cx c ≤ 310)) ∧
    (0 ≤ cy c ≤ 235 ∧ cy c mod 5 = 0 ∧ (y_speed c = 5 ∨ y_speed c = -5 ∧ cy c ≤ 230))) as [(? & ? & ?) (? & ? & ?)].
  { induction n as [|n IH]; [cbv [Nat.iter nat_rect cube_start cx cy x_speed y_speed]; split; split_and!; try done; auto|]. rewrite Nat.iter_succ. destruct (Nat.iter n cube_move cube_start) as [x y g xs ys].
    destruct IH as [(H1 & H2 & H3) (H4 & H5 & H6)]. cbn in *. unfold cube_move, DISPLAY_WIDTH, DISPLAY_HEIGHT. cbn.
    destruct H3 as [-> | [-> ?]], H6 as [-> | [-> ?]]; zdec; cbn;
      repeat match goal with |- context [if (?a <? ?b) then _ else _] => destruct (Z.ltb_spec a b) | |- context [if (?a =? ?b) then _ else _] => destruct (Z.eqb_spec a b) end;
      cbn; unfold DISPLAY_WIDTH, DISPLAY_HEIGHT in *; dlia. }
  change DISPLAY_WIDTH with 320. change DISPLAY_HEIGHT with 240. cbv zeta. lia.
Qed.

(** ** Witnesses *)

(** A controller that is seen busy once after every byte. *)
Record demo_tft := DemoTft { dt_wire : list (bool * Z); dt_level : bool; dt_busy : bool }.
#[export] Instance demo_tft_mmio : Mmio demo_tft := {|
  mmio_read r d := if (r =? SPI_CS) && negb (dt_busy d) then (Z.lor SPI_CS_TXD SPI_CS_DONE, d) else (0, DemoTft (dt_wire d) (dt_level d) false);
  mmio_write r v d :=
    if r =? SPI_FIFO then DemoTft (dt_wire d ++ [(dt_level d, u8 v)]) (dt_level d) true
    else if r =? GPIO_REG_GPSET0 then DemoTft (dt_wire d) true (dt_busy d)
    else if r =? GPIO_REG_GPCLR0 then DemoTft (dt_wire d) false (dt_busy d) else d |}.
#[export] Program Instance demo_tft_bus : TftBus demo_tft 13 1 := {| wire := dt_wire; level := dt_level; busy d := if dt_busy d then 1%nat else 0%nat |}.
Next Obligation. intros [w l []]; cbn; lia. Qed.
Next Obligation. intros [w l []]; cbn; split_and!; (done || lia). Qed.
Next Obligation. intros [w l []] m; cbn; [lia|]. intros [-> | ->] _; done. Qed.
Next Obligation. done. Qed.
Next Obligation. done. Qed.
Next Obligation. done. Qed.
Next Obligation. done. Qed.

Definition demo_tft_drv : tft_drv demo_tft := TftDrv (DemoTft [] true false) (Some tft_pins).
(** A square of the animation: the last four of its pixels are what the stack held. *)
Lemma tft_fill_rect_paints_witness : ∃ s', tft_fill_rect 3 (replicate 300 204) 13 10 20 20 30 0 0 255 demo_tft_drv = Ret (tt, s') ∧
  wire (thw s') = message 0x2a [0; 10; 0; 20] ++ message 0x2b [0; 20; 0; 30] ++ message 0x2c (pixels 96 0 0 255 ++ replicate 12 204).
Proof.
  destruct (tft_fill_rect_paints 13 1 3 ltac:(lia) (replicate 300 204) 13 10 20 20 30 0 0 255 demo_tft_drv) as (s' & E & _ & _ & Ew);
    [by exists tft_pins|lia..|vm_compute; discriminate|]. exists s'. split; [exact E|exact Ew].
Defined.

(** A whole frame at 0x100000, the blocks at 0x400000. *)
Definition demo_print_layout : print_layout := PrintLayout 0x400000 0x80000 0x80200 0x80400 0x80600 0x90000 0x90004.
Definition no_block : control_block := ControlBlock 0 0 0 0 0.
Lemma prepare_chain_covers_witness : ∃ hdrs s,
  prepare_chain demo_print_layout 5 0x100000 230400 (replicate NUM_CBS no_block) (replicate NUM_CBS 0) (replicate NUM_CBS 0) = Ret (hdrs, 4%nat, s) ∧
  take 28 (ps_cbs s) = frame_chain demo_print_layout 0x100000 230400 4 ∧ hdrs !! 3%nat = Some (header_word 34008).
Proof.
  destruct (prepare_chain_covers demo_print_layout 5 0x100000 230400 (replicate NUM_CBS no_block) (replicate NUM_CBS 0) (replicate NUM_CBS 0))
    as (hdrs & s & E & Ec & Eb & Eh & _); [lia|by apply Nat.leb_le|by apply Nat.ltb_lt|done..|].
  exists hdrs, s. split; [exact E|]. split; [rewrite Eb in Ec; exact Ec|]. apply (Eh 3%nat). by apply Nat.ltb_lt.
Defined.
