(* ===== verification/I2c.v ===== *)
(** * I2C: the master BSC1 and the slave (board/bcm2835/i2c_master.c, bsc_slave.c)

    The transfers of the master, whose waits give up after 300 reads of the
    status; and the initialisation of the slave, which owns two pins of the pin
    registry. *)

From S2P Require Import Prelude Bits Exceptions Mmio GpioSet Gpio Trace.

Definition BSC1_BASE : Z := 0x3f804000.
Definition i2c_c : Z := BSC1_BASE + 0x00.
Definition i2c_s : Z := BSC1_BASE + 0x04.
Definition i2c_dlen : Z := BSC1_BASE + 0x08.
Definition i2c_a : Z := BSC1_BASE + 0x0c.
Definition i2c_fifo : Z := BSC1_BASE + 0x10.
Definition i2c_div : Z := BSC1_BASE + 0x14.
Definition BSC_MASTER_C_READ : Z := Z.shiftl 1 0.
Definition BSC_MASTER_C_CLEAR : Z := Z.shiftl 3 4.
Definition BSC_MASTER_C_ST : Z := Z.shiftl 1 7.
Definition BSC_MASTER_C_I2CEN : Z := Z.shiftl 1 15.
Definition BSC_MASTER_S_BIT_TA : Z := 0.
Definition BSC_MASTER_S_BIT_DONE : Z := 1.
Definition BSC_MASTER_S_BIT_TXD : Z := 4.
Definition BSC_MASTER_S_BIT_RXD : Z := 5.
Definition BSC_MASTER_S_BIT_ERR : Z := 8.
Definition PIN_SDA : Z := 2.
Definition PIN_SCL : Z := 3.
Definition GPIO_PULLUPDOWN_EN_PULLDOWN : Z := 1.
Definition BSC_ERR_OK : Z := 0.
Definition BSC_ERR_TIMEOUT : Z := -1.
Definition BSC_ERR_ACK : Z := -2.
Definition ERR_GENERIC : Z := -9.
Definition NUM_RETRIES : nat := 300.
Definition BIT_IS_SET (val bitpos : Z) : bool := truth (Z.land (u32 val) (Z.shiftl 1 bitpos)).

(** ** The master *)
Section master.
Context {D : Type} `{Mmio D}.

(** The registers that are printed. *)
Definition i2c_debug : io D unit :=
  _ ← read_reg i2c_s; _ ← read_reg i2c_a; _ ← read_reg i2c_div; _ ← read_reg i2c_dlen; mret tt.

Definition i2c_init : io D Z :=
  _ ← gpio_set_function PIN_SDA GPIO_FUNC_ALT_0;
  _ ← gpio_set_function PIN_SCL GPIO_FUNC_ALT_0;
  _ ← i2c_debug;
  _ ← write_reg i2c_c (Z.lor BSC_MASTER_C_I2CEN BSC_MASTER_C_CLEAR);
  _ ← i2c_debug;
  mret ERR_OK.

(** The four waits differ in the bit. *)
Fixpoint wait_status (bit : Z) (num_retries : nat) : io D Z :=
  match num_retries with
  | O => mret BSC_ERR_TIMEOUT
  | S n =>
    s ← read_reg i2c_s;
    if BIT_IS_SET s BSC_MASTER_S_BIT_ERR then mret BSC_ERR_ACK
    else if BIT_IS_SET s bit then mret BSC_ERR_OK
    else wait_status bit n
  end.
Definition i2c_wait_transfer_ready : nat → io D Z := wait_status BSC_MASTER_S_BIT_TA.
Definition i2c_wait_tx_ready : nat → io D Z := wait_status BSC_MASTER_S_BIT_TXD.
Definition i2c_wait_rx_has_data : nat → io D Z := wait_status BSC_MASTER_S_BIT_RXD.
Definition i2c_wait_transfer_done : nat → io D Z := wait_status BSC_MASTER_S_BIT_DONE.

(** [WAIT_TRANSFER_CHECK]: the function is left on an error. *)
Definition checked_wait {A} (wait : io D Z) (fail : A) (k : io D A) : io D A :=
  err ← wait;
  if negb (err =? BSC_ERR_OK) && ((err =? BSC_ERR_TIMEOUT) || (err =? BSC_ERR_ACK)) then mret fail else k.

Definition i2c_start (addr bufsz c : Z) : io D unit :=
  _ ← write_reg i2c_a (u8 addr);
  _ ← write_reg i2c_dlen bufsz;
  _ ← write_reg i2c_c c;
  i2c_debug.

Definition i2c_finish {A} (fail done : A) : io D A :=
  checked_wait (i2c_wait_transfer_done NUM_RETRIES) fail (_ ← i2c_debug; mret done).

Fixpoint write_bytes_loop (buf : list Z) (bufsz : Z) : io D Z :=
  match buf with
  | [] => i2c_finish ERR_GENERIC bufsz
  | b :: buf => checked_wait (i2c_wait_tx_ready NUM_RETRIES) ERR_GENERIC (_ ← write_reg i2c_fifo (u8 b); write_bytes_loop buf bufsz)
  end.
(** [buf] has [bufsz] bytes. *)
Definition i2c_write (i2c_addr : Z) (buf : list Z) : io D Z :=
  let bufsz := Z.of_nat (length buf) in
  _ ← i2c_start i2c_addr bufsz (Z.lor BSC_MASTER_C_I2CEN BSC_MASTER_C_ST);
  write_bytes_loop buf bufsz.

(** The code and the bytes stored, from the first. *)
Fixpoint read_bytes_loop (n : nat) (bufsz : Z) (got : list Z) : io D (Z * list Z) :=
  match n with
  | O => i2c_finish (ERR_GENERIC, got) (bufsz, got)
  | S n => checked_wait (i2c_wait_rx_has_data NUM_RETRIES) (ERR_GENERIC, got)
      (v ← read_reg i2c_fifo; read_bytes_loop n bufsz (got ++ [Z.land (u32 v) 0xff]))
  end.
Definition i2c_read (i2c_addr : Z) (bufsz : Z) : io D (Z * list Z) :=
  _ ← i2c_start i2c_addr bufsz (Z.lor (Z.lor BSC_MASTER_C_I2CEN BSC_MASTER_C_ST) BSC_MASTER_C_READ);
  read_bytes_loop (Z.to_nat bufsz) bufsz [].

Definition i2c_start_transfer : io D unit :=
  _ ← write_reg i2c_dlen 1; write_reg i2c_c (Z.lor BSC_MASTER_C_I2CEN BSC_MASTER_C_ST).
Definition LOG_ST : io D unit := _ ← read_reg i2c_c; _ ← read_reg i2c_s; mret tt.
(** Up to the endless loop. *)
Definition i2c_test : io D unit :=
  _ ← gpio_set_pullupdown PIN_SDA GPIO_PULLUPDOWN_EN_PULLDOWN;
  _ ← gpio_set_pullupdown PIN_SCL GPIO_PULLUPDOWN_EN_PULLDOWN;
  _ ← gpio_set_function PIN_SDA GPIO_FUNC_ALT_0;
  _ ← gpio_set_function PIN_SCL GPIO_FUNC_ALT_0;
  _ ← write_reg i2c_c 0;
  _ ← LOG_ST;
  _ ← write_reg i2c_c (Z.lor BSC_MASTER_C_I2CEN BSC_MASTER_C_CLEAR);
  _ ← LOG_ST;
  _ ← write_reg i2c_fifo 0xff;
  _ ← write_reg i2c_a 0x4e;
  _ ← write_reg i2c_dlen 1;
  _ ← write_reg i2c_c (Z.lor BSC_MASTER_C_I2CEN BSC_MASTER_C_ST);
  _ ← LOG_ST;
  LOG_ST.
End master.

(** ** The slave *)

(** The registers are used without the address of the peripheral. *)
Definition BSC_SLAVE_DR : Z := 0x00.
Definition BSC_SLAVE_RSR : Z := 0x04.
Definition BSC_SLAVE_SLV : Z := 0x08.
Definition BSC_SLAVE_CR : Z := 0x0c.
Definition BSC_SLAVE_FR : Z := 0x10.
Definition BSC_SLAVE_RIS : Z := 0x1c.
Definition BSC_SLAVE_ICR : Z := 0x24.
Definition BSC_SLAVE_DEBUG1 : Z := 0x38.
Definition BSC_SLAVE_SDA_PIN : Z := 18.
Definition BSC_SLAVE_SCL_PIN : Z := 19.
Definition BSC_SLAVE_CR_EN : Z := 0.
Definition BSC_SLAVE_CR_I2C : Z := 2.
Definition BSC_SLAVE_CR_TXE : Z := 8.
Definition BSC_SLAVE_CR_RXE : Z := 9.
Definition BSC_SLAVE_MODE_SPI : Z := 0.
Definition BSC_SLAVE_MODE_I2C : Z := 1.
Definition GPIO_FUNC_ALT_3 : Z := 7.
Definition ERR_NOT_IMPLEMENTED : Z := -3.
(** "BSC_SLAVE_I2C_K" *)
Definition gpio_set_key_bsc_i2c_slave : list Z := [66; 83; 67; 95; 83; 76; 65; 86; 69; 95; 73; 50; 67; 95; 75].

(** The hardware, the pin registry and the static variables. *)
Record bsc_slave (D : Type) := BscSlave { bs_hw : D; bs_pins : gpio_state; bsc_slave_addr : Z; bsc_slave_mode : Z }.
Arguments BscSlave {D}.
Arguments bs_hw {D}.
Arguments bs_pins {D}.
Arguments bsc_slave_addr {D}.
Arguments bsc_slave_mode {D}.
#[export] Instance bsc_slave_mmio {D} `{Mmio D} : Mmio (bsc_slave D) := {|
  mmio_read r s := let '(v, d) := mmio_read r (bs_hw s) in (v, BscSlave d (bs_pins s) (bsc_slave_addr s) (bsc_slave_mode s));
  mmio_write r v s := BscSlave (mmio_write r v (bs_hw s)) (bs_pins s) (bsc_slave_addr s) (bsc_slave_mode s) |}.

Section slave.
Context {D : Type} `{Mmio D}.
Abbreviation B := (bsc_slave D).

Definition bsc_slave_init_as_spi (addr : Z) : io B Z := mret ERR_NOT_IMPLEMENTED.
Definition request_slave_pins : io B Z := λ s,
  '(g, h) ← gpio_set_request_n_pins (bs_pins s) [BSC_SLAVE_SDA_PIN; BSC_SLAVE_SCL_PIN] gpio_set_key_bsc_i2c_slave;
  Ret (h, BscSlave (bs_hw s) g (bsc_slave_addr s) (bsc_slave_mode s)).
Definition bsc_slave_init_as_i2c (addr : Z) : io B Z :=
  gpio_set_handle ← request_slave_pins;
  if gpio_set_handle =? GPIO_SET_INVALID_HANDLE then mret ERR_BUSY else
  _ ← gpio_set_function BSC_SLAVE_SDA_PIN GPIO_FUNC_ALT_3;
  _ ← gpio_set_function BSC_SLAVE_SCL_PIN GPIO_FUNC_ALT_3;
  _ ← write_reg BSC_SLAVE_SLV (u8 addr);
  _ ← write_reg BSC_SLAVE_CR (Z.lor (Z.lor (Z.lor (Z.shiftl 1 BSC_SLAVE_CR_EN) (Z.shiftl 1 BSC_SLAVE_CR_I2C)) (Z.shiftl 1 BSC_SLAVE_CR_TXE)) (Z.shiftl 1 BSC_SLAVE_CR_RXE));
  mret ERR_OK.
Definition set_slave (mode addr : Z) : io B unit := λ s, Ret (tt, BscSlave (bs_hw s) (bs_pins s) (u8 addr) mode).
Definition bsc_slave_init (mode addr : Z) : io B Z :=
  _ ← set_slave mode addr;
  if mode =? BSC_SLAVE_MODE_I2C then bsc_slave_init_as_i2c addr
  else if mode =? BSC_SLAVE_MODE_SPI then bsc_slave_init_as_spi addr
  else mret ERR_INVAL_ARG.

Definition bsc_slave_debug (fuel : nat) : io B Z :=
  io_loop fuel (
    dr ← read_reg BSC_SLAVE_DR;
    _ ← read_reg BSC_SLAVE_RSR;
    _ ← read_reg BSC_SLAVE_FR;
    _ ← read_reg BSC_SLAVE_RIS;
    _ ← read_reg BSC_SLAVE_ICR;
    _ ← read_reg BSC_SLAVE_DEBUG1;
    mret (if Z.land (u32 dr) 0xff =? 0x66 then Some ERR_OK else None)).
End slave.

(** ** What the master does, whatever the bus answers *)
Definition fifo_written (l : list access) : list Z := omap (λ a, match a with Wr r v => if r =? i2c_fifo then Some v else None | Rd _ _ => None end) l.
Lemma fifo_written_app l1 l2 : fifo_written (l1 ++ l2) = fifo_written l1 ++ fifo_written l2.
Proof. apply omap_app. Qed.

Section transfers.
Context {S : Type} `{TracedState S}.
Implicit Types s : S.

(** At most [n] accesses, none of which writes the FIFO. *)
Definition silent (n : nat) (l : list access) : Prop := (length l ≤ n)%nat ∧ fifo_written l = [].

Lemma i2c_debug_does s : does i2c_debug s (λ _ _ l, silent 4 l).
Proof. unfold i2c_debug. repeat does_step. split; [cbn; lia|done]. Qed.

Lemma i2c_start_does addr bufsz c s : does (i2c_start addr bufsz c) s (λ _ _ l, silent 7 l).
Proof.
  unfold i2c_start. do 3 does_step. eapply does_mono; [apply i2c_debug_does|]. intros _ ? l [Hl Hf]. split; [cbn; lia|exact Hf].
Qed.

Lemma i2c_wait_does bit n s : does (wait_status bit n) s (λ err _ l, silent n l ∧ (err = BSC_ERR_OK ∨ err = BSC_ERR_TIMEOUT ∨ err = BSC_ERR_ACK)).
Proof.
  revert s; induction n as [|n IH]; intros s; cbn [wait_status].
  - apply does_ret. split; [split; [cbn; lia|done]|auto].
  - does_step. destruct (BIT_IS_SET _ BSC_MASTER_S_BIT_ERR); [apply does_ret; split; [split; [cbn; lia|done]|auto]|].
    destruct (BIT_IS_SET _ bit); [apply does_ret; split; [split; [cbn; lia|done]|auto]|].
    eapply does_mono; [apply IH|]. intros err ? l [[Hl Hf] He]. split; [split; [cbn; lia|exact Hf]|exact He].
Qed.

(** A wait is followed by what comes next, or by the failure. *)
Lemma checked_wait_does {A} bit (fail : A) k s (Q : A → S → lang) :
  (∀ s' l, silent NUM_RETRIES l → Q fail s' l) →
  (∀ s' l, silent NUM_RETRIES l → does k s' (λ a s'' l', Q a s'' (l ++ l'))) →
  does (checked_wait (wait_status bit NUM_RETRIES) fail k) s Q.
Proof.
  intros Hfail Hk. unfold checked_wait. eapply does_bind; [apply i2c_wait_does|].
  intros err s' l (Hl & [-> | [-> | ->]]); cbn; [by apply Hk|..]; apply does_ret; rewrite app_nil_r; by apply Hfail.
Qed.

Lemma silent_app n m l1 l2 : silent n l1 → silent m l2 → silent (n + m) (l1 ++ l2).
Proof. intros [? E1] [? E2]. split; [rewrite length_app; lia|by rewrite fifo_written_app, E1, E2]. Qed.

Lemma i2c_finish_does {A} (fail fin : A) s : does (i2c_finish fail fin) s (λ r _ l, silent 304 l ∧ (r = fail ∨ r = fin)).
Proof.
  apply checked_wait_does.
  - intros s' l [Hl Hf]. split; [split; [unfold NUM_RETRIES in Hl; lia|done]|auto].
  - intros s' l Hl. eapply does_bind; [apply i2c_debug_does|]. intros ? s1 l1 Hl1. apply does_ret. rewrite app_nil_r.
    split; [exact (silent_app _ _ _ _ Hl Hl1)|auto].
Qed.

(** The bytes sent and what is returned. *)
Definition wrote (buf : list Z) (bufsz : Z) (n : nat) : Z → S → lang := λ r _ l, (length l ≤ n)%nat ∧
  ∃ k, fifo_written l = map u8 (take k buf) ∧ (r = ERR_GENERIC ∨ r = bufsz ∧ (length buf ≤ k)%nat).

Lemma write_bytes_loop_does buf bufsz s : does (write_bytes_loop buf bufsz) s (wrote buf bufsz (304 + 301 * length buf)).
Proof.
  revert s; induction buf as [|b buf IH]; intros s; cbn [write_bytes_loop].
  - eapply does_mono; [apply i2c_finish_does|]. intros r s' l [[Hl Hf] Hr]. split; [cbn; lia|]. exists 0%nat.
    split; [exact Hf|]. destruct Hr as [-> | ->]; [by left|right; split; [done|cbn; lia]].
  - apply checked_wait_does.
    + intros s' l [Hl Hf]. unfold NUM_RETRIES in Hl. split; [cbn [length]; lia|]. exists 0%nat. split; [exact Hf|by left].
    + intros s' l [Hl Hf]. unfold NUM_RETRIES in Hl. does_step. eapply does_mono; [apply IH|]. intros r s1 l1 (Hl1 & k & Hf1 & Hr).
      split; [rewrite length_app; cbn [length]; lia|]. exists (Datatypes.S k).
      rewrite fifo_written_app, Hf. change (fifo_written (Wr i2c_fifo (u32 (u8 b)) :: l1)) with (u32 (u8 b) :: fifo_written l1). cbn [app]. rewrite Hf1. pose proof (u8_range b). rewrite u32_id by lia. split; [done|].
      destruct Hr as [-> | [-> ?]]; [by left|right; split; [done|cbn [length]; lia]].
Qed.

(** C29: a write ends after at most 301 accesses for each byte and 311 more,
    whatever the bus answers.  The bytes that reached the FIFO are a prefix of
    the buffer; when the size of the buffer is returned they are all of it, and
    otherwise the code is [ERR_GENERIC]. *)
Theorem i2c_write_transfers addr buf s : does (i2c_write addr buf) s (λ r _ l,
  (length l ≤ 311 + 301 * length buf)%nat ∧
  ∃ k, fifo_written l = map u8 (take k buf) ∧ (r = ERR_GENERIC ∨ r = Z.of_nat (length buf) ∧ (length buf ≤ k)%nat)).
Proof.
  unfold i2c_write. eapply does_bind; [apply i2c_start_does|]. intros _ s1 l1 [Hl1 Hf1].
  eapply does_mono; [apply write_bytes_loop_does|]. intros r s2 l2 (Hl2 & k & Hf2 & Hr).
  split; [rewrite length_app; lia|]. exists k. by rewrite fifo_written_app, Hf1.
Qed.
End transfers.

(** ** The error flag *)

(** As documented, the error flag of the status stays set until it is written. *)
Class BscStatus (D : Type) `{Mmio D} (failed : D → Prop) : Prop := {
  failed_seen d : failed d → BIT_IS_SET (fst (mmio_read i2c_s d)) BSC_MASTER_S_BIT_ERR = true;
  failed_read r d : failed d → failed (snd (mmio_read r d));
  failed_write r v d : r ≠ i2c_s → failed d → failed (mmio_write r v d) }.

Section error.
Context {D : Type} `{Mmio D} (failed : D → Prop) `{!BscStatus D failed}.

Lemma i2c_start_failed addr bufsz c d : failed d → ∃ d', i2c_start addr bufsz c d = Ret (tt, d') ∧ failed d'.
Proof.
  intros Hd. unfold i2c_start, i2c_debug. repeat first [rewrite write_reg_bind | rewrite read_reg_bind]. eexists; split; [done|].
  repeat first [apply failed_read | apply failed_write; [done|]]. exact Hd.
Qed.

Lemma checked_wait_failed {A} bit (fail : A) k d : failed d →
  ∃ d', checked_wait (wait_status bit NUM_RETRIES) fail k d = Ret (fail, d') ∧ failed d'.
Proof.
  intros Hd. exists (snd (mmio_read i2c_s d)). split; [|by apply failed_read]. unfold checked_wait, NUM_RETRIES.
  assert (wait_status bit 300 d = Ret (BSC_ERR_ACK, snd (mmio_read i2c_s d))) as E by (cbn [wait_status]; by rewrite read_reg_bind, failed_seen).
  by rewrite (io_bind_ret _ _ _ _ _ E).
Qed.

(** C30: the driver never clears the status.  Once a transfer was not
    acknowledged, every later transfer fails, and leaves the flag as it is. *)
Theorem i2c_error_sticks d addr buf n : failed d →
  (∃ d', i2c_write addr buf d = Ret (ERR_GENERIC, d') ∧ failed d') ∧ (∃ d', i2c_read addr n d = Ret ((ERR_GENERIC, []), d') ∧ failed d').
Proof.
  intros Hd. split.
  - unfold i2c_write. destruct (i2c_start_failed addr (Z.of_nat (length buf)) (Z.lor BSC_MASTER_C_I2CEN BSC_MASTER_C_ST) d Hd) as (d1 & E & H1).
    cbv zeta. rewrite (io_bind_ret _ _ _ _ _ E). destruct buf; cbn [write_bytes_loop]; unfold i2c_finish, i2c_wait_transfer_done, i2c_wait_tx_ready; by apply checked_wait_failed.
  - unfold i2c_read. destruct (i2c_start_failed addr n (Z.lor (Z.lor BSC_MASTER_C_I2CEN BSC_MASTER_C_ST) BSC_MASTER_C_READ) d Hd) as (d1 & E & H1).
    rewrite (io_bind_ret _ _ _ _ _ E). destruct (Z.to_nat n); cbn [read_bytes_loop]; unfold i2c_finish, i2c_wait_transfer_done, i2c_wait_rx_has_data; by apply checked_wait_failed.
Qed.
End error.

(** A status register whose bits are cleared by writing them. *)
Record demo_bsc := DemoBsc { demo_status : Z }.
#[export] Instance demo_bsc_mmio : Mmio demo_bsc := {|
  mmio_read r d := (if r =? i2c_s then demo_status d else 0, d);
  mmio_write r v d := if r =? i2c_s then DemoBsc (Z.ldiff (demo_status d) v) else d |}.
Definition demo_failed (d : demo_bsc) : Prop := BIT_IS_SET (demo_status d) BSC_MASTER_S_BIT_ERR = true.
#[export] Instance demo_bsc_status : BscStatus demo_bsc demo_failed.
Proof. split; [done|done|]. intros r v d Hr Hd. cbn. destruct (Z.eqb_spec r i2c_s); done. Qed.
Lemma i2c_error_sticks_witness : ∃ d', i2c_write 0x50 [1; 2] (DemoBsc 0x150) = Ret (ERR_GENERIC, d') ∧ demo_failed d'.
Proof.
  assert (demo_failed (DemoBsc 0x150)) as H by (vm_compute; reflexivity).
  destruct (i2c_error_sticks demo_failed (DemoBsc 0x150) 0x50 [1; 2] 2 H) as [Hw _]. exact Hw.
Defined.
