(* ===== verification/Usbd.v ===== *)
(** * Start of the USB host, and the device tree (board/bcm2835/usb/hcd.c,
    root_hub.c, drivers/usbd/usbd.c)

    The initialisation of the controller, the power calls to the firmware, the
    root hub; the addresses of devices in the tree of hubs, and the search for
    a mass storage device.  What is printed is not modelled. *)

From S2P Require Import Prelude Bits Lists Exceptions Mmio Mbox Dwc2 Sched UsbQueue UsbTypes RootHub Hcd Mass HcdHid Hub.

Definition MBOX_DEVICE_ID_USB : Z := 3.
Definition ARM_BASIC_USB : Z := 64 + 11.
Definition DWC2_HS_I_ULPI : Z := 2.
Definition DWC2_FS_I_DEDICATED : Z := 1.
Definition DWC2_CLK_30_60MHZ : Z := 0.
Definition DWC2_CLK_48MHZ : Z := 1.
Definition USB_RECV_FIFO_SIZE : Z := 1024.
Definition USB_NON_PERIODIC_FIFO_SIZE : Z := 1024.
Definition USB_PERIODIC_FIFO_SIZE : Z := 1024.
Definition USB_ITER_STOP : Z := 1.
Definition USB_ITER_CONTINUE : Z := 0.
Definition TOPO_PORTS : Z := 16.

(** ** The device tree *)
Section tree.
Context {B : Type} `{UsbTransport B}.
Abbreviation S := (hcd B).

(** The ports from the device up; there are [TOPO_PORTS] of them at most. *)
Definition collect_ports (fuel : nat) (d : Z) : io S (list Z) := λ s,
  loop fuel (λ '((d, ports) : Z * list Z),
    if d =? NULL then Ret (inr (ports, s)) else
    if TOPO_PORTS <=? Z.of_nat (length ports) then Fault else
    x ← deref (devices s !! d);
    Ret (inl (location_hub x, ports ++ [u8 (hub_port x)]))) (d, []).
(** The entries of [ta->ports] below [ta->depth]. *)
Definition usb_hcd_get_topo_addr (fuel : nat) (d : Z) : io S (list Z) := ports ← collect_ports fuel d; mret (rev ports).

Definition is_hub (d : Z) : io S (option Z) :=
  x ← get_device d;
  if class x =? NULL then mret None else
  c ← get_class (class x);
  mret (if device_class_of c =? USB_HCD_DEVICE_CLASS_HUB then Some (class x) else None).

(** A port for every level but the last. *)
Fixpoint find_from (fuel : nat) (ports : list Z) (d : Z) : io S Z :=
  match ports with
  | p :: (_ :: _) as rest =>
    h ← is_hub d;
    match h with
    | None => mret NULL
    | Some h => d ← usb_hub_get_device_at_port fuel h p; if d =? NULL then mret NULL else find_from fuel rest d
    end
  | _ => mret d
  end.
Definition usbd_find_device_by_topo_addr (fuel : nat) (ports : list Z) : io S Z := d ← getv root_hub; find_from fuel ports d.

Definition usb_iter_devices {T} (fuel : nat) (fn : Z → T → io S (Z * T)) (t : T) : io S T := usb_hcd_iter_devices fuel fn t.

(** The class object of a device whose interface is for mass storage. *)
Fixpoint mass_interface (n : nat) (i : nat) (x : usb_hcd_device) : bool :=
  match n with
  | O => false
  | Datatypes.S n => (usb_hcd_get_interface_class x i =? USB_INTERFACE_CLASS_MASSSTORAGE) || mass_interface n (i + 1) x
  end.
Definition hcd_device_get_class (x : usb_hcd_device) : io S Z :=
  if class x =? NULL then mret (-1) else c ← get_class (class x); mret (device_class_of c).
Definition usb_find_device_fn (d : Z) (mass_device : Z) : io S (Z * Z) :=
  x ← get_device d;
  dc ← hcd_device_get_class x;
  let m := if (dc =? USB_HCD_DEVICE_CLASS_MASS) || (dc =? USB_HCD_DEVICE_CLASS_UNDEFINED) && mass_interface (Z.to_nat (num_interfaces x)) 0 x
           then class x else NULL in
  mret (if negb (m =? NULL) && (state x =? USB_DEVICE_STATE_CONFIGURED) then (USB_ITER_STOP, m) else (USB_ITER_CONTINUE, NULL)).
(** Ten rounds over the devices, ten seconds apart. *)
Fixpoint detect_rounds (n : nat) (fuel : nat) (mass_device : Z) : io S Z :=
  match n with
  | O => mret mass_device
  | Datatypes.S n =>
    m ← usb_iter_devices fuel usb_find_device_fn mass_device;
    if negb (m =? NULL) then mret m else detect_rounds n fuel m
  end.
Definition detect_any_usb_mass_device (fuel : nat) : io S Z := detect_rounds 10 fuel NULL.
End tree.

(** ** Start of the host *)

(** The devices over the controller behind the root hub, the interrupt tables,
    the firmware's mailbox, [powered_on], and whether interrupts are taken. *)
Record usb_sys (D : Type) := UsbSys {
  u_hcd : hcd (rh D queue); u_irqs : irq_state; u_mbox : mbox; powered_on : bool; irqs_on : bool }.
Arguments UsbSys {D}.
Arguments u_hcd {D}.
Arguments u_irqs {D}.
Arguments u_mbox {D}.
Arguments powered_on {D}.
Arguments irqs_on {D}.

Section start.
Context {D : Type} `{Mmio D} `{!UsbTransport (rh D queue)} `{!HubEnv (rh D queue)}.
Context (respond : Mbox.words → Mbox.words * bool) (cpu irq_cb : Z) (fuel : nat).
Abbreviation S := (usb_sys D).

Definition on_hcd {A} (m : io (hcd (rh D queue)) A) : io S A := λ s,
  '(a, h) ← m (u_hcd s); Ret (a, UsbSys h (u_irqs s) (u_mbox s) (powered_on s) (irqs_on s)).
Definition on_core {A} (m : io (usb D queue) A) : io S A := on_hcd (on_bus (on_ctrl m)).
Definition set_irqs (b : bool) : io S unit := λ s, Ret (tt, UsbSys (u_hcd s) (u_irqs s) (u_mbox s) (powered_on s) b).
Definition set_powered (b : bool) : io S unit := λ s, Ret (tt, UsbSys (u_hcd s) (u_irqs s) (u_mbox s) b (irqs_on s)).
Definition set_usb_irq : io S Z := λ s,
  '(t, err) ← irq_set (u_irqs s) cpu ARM_BASIC_USB irq_cb; Ret (err, UsbSys (u_hcd s) t (u_mbox s) (powered_on s) (irqs_on s)).
Definition write_all (l : list (Z * Z)) : io S unit := on_core (λ s : usb D queue, Ret (tt, Dwc2.with_dev s (writes l (dev s)))).
Definition on_mbox {A} (f : mbox → outcome (mbox * A)) : io S A := λ s,
  '(m, a) ← f (u_mbox s); Ret (a, UsbSys (u_hcd s) (u_irqs s) m (powered_on s) (irqs_on s)).

Definition usb_hcd_start : io S Z :=
  _ ← on_core (dwc2_init_core fuel);
  hs_iface ← on_core dwc2_get_hs_iface;
  fs_iface ← on_core dwc2_get_fs_iface;
  _ ← on_core dwc2_enable_ahb_interrupts;
  err ← set_usb_irq;
  _ ← on_core dwc2_clear_all_interrupts;
  '(l, _) ← lift intr_ctl_usb_irq_enable;
  _ ← write_all l;
  _ ← set_irqs true;
  _ ← on_core dwc2_enable_channel_interrupts;
  _ ← on_core dwc2_power_clock_off;
  ls ← (if (hs_iface =? DWC2_HS_I_ULPI) && (fs_iface =? DWC2_FS_I_DEDICATED) then on_core dwc2_is_ulpi_fs_ls_only else mret false);
  _ ← on_core (dwc2_set_host_speed (if (ls : bool) then DWC2_CLK_48MHZ else DWC2_CLK_30_60MHZ));
  _ ← on_core (dwc2_setup_fifo_sizes USB_RECV_FIFO_SIZE USB_NON_PERIODIC_FIFO_SIZE USB_PERIODIC_FIFO_SIZE);
  _ ← on_core (dwc2_tx_fifo_flush fuel 16);
  _ ← on_core (dwc2_rx_fifo_flush fuel);
  dma ← on_core dwc2_is_dma_enabled;
  _ ← (if (dma : bool) then mret tt else _ ← on_core (dwc2_init_channels fuel); mret tt);
  mret err.

(** [after]: the bytes behind the hub descriptor, which is copied in place of
    the device descriptor. *)
Definition init_root_hub_device (after : list Z) (d : Z) : io S Z :=
  a ← on_hcd usb_hcd_allocate_device_address;
  _ ← on_hcd (on_bus (λ s : rh D queue, Ret (tt, Rh (ctrl s) a)));
  _ ← on_hcd (upd_device d (λ x, set_state (set_address x a) USB_DEVICE_STATE_POWERED));
  _ ← on_hcd (upd_device d (λ x, let p := set_pipe_speed (set_pipe_address (pipe0 x) a) USB_SPEED_HIGH in
    set_pipe0 x (set_pipe_mps p 64)));
  _ ← on_hcd (upd_device d (λ x, set_descriptor x (take 18 (usb_root_hub_descriptor ++ after))));
  on_hcd (usb_hcd_parse_configuration fuel d usb_root_hub_configuration 25).

(** A slot from an empty pool is an error pointer, which stays in [root_hub]. *)
Definition usb_hcd_attach_root_hub (after : list Z) : io S Z :=
  r ← on_hcd (getv root_hub);
  if negb (r =? NULL) then mret ERR_BUSY else
  o ← on_hcd usb_hcd_allocate_device;
  match o with
  | None => _ ← on_hcd (modv (λ s, with_root_hub s (u64 ERR_BUSY))); mret ERR_BUSY
  | Some d =>
    _ ← on_hcd (modv (λ s, with_root_hub s d));
    err ← init_root_hub_device after d;
    if negb (err =? ERR_OK) then mret err else
    on_hcd (usb_hub_enumerate (usb_hcd_configure_class fuel fuel) fuel d)
  end.

(** The code and the state of the power. *)
Definition usb_hcd_power_on : io S Z :=
  r ← on_mbox (mbox_set_power_state respond MBOX_DEVICE_ID_USB 1 1);
  mret (match r with None => ERR_GENERIC | Some (on, ex) => if ex =? 0 then ERR_GENERIC else if on =? 0 then ERR_GENERIC else ERR_OK end).
Definition usb_hcd_is_powered_on : io S Z :=
  r ← on_mbox (mbox_get_power_state respond MBOX_DEVICE_ID_USB);
  mret (match r with None => ERR_GENERIC | Some (on, ex) => if ex =? 0 then ERR_GENERIC else on end).
Definition usb_hcd_power_off : io S Z :=
  r ← on_mbox (mbox_set_power_state respond MBOX_DEVICE_ID_USB 0 1);
  mret (match r with None => ERR_GENERIC | Some (on, ex) => if ex =? 0 then ERR_GENERIC else if negb (on =? 0) then ERR_GENERIC else ERR_OK end).

(** [out_err]. *)
Definition init_failed (err : Z) : io S Z := λ s,
  if powered_on s then ('(e, s) ← usb_hcd_power_off s; _ ← BUG (negb (e =? ERR_OK)); '(_, s) ← set_powered false s; Ret (err, s)) else Ret (err, s).
Definition or_out_err (m k : io S Z) : io S Z := err ← m; if negb (err =? ERR_OK) then init_failed err else k.

(** What is set up before the firmware is asked. *)
Definition init_pools : io S unit :=
  _ ← on_hcd (λ s, σ ← STATIC_SLOT_INIT_FREE (nodes s) (device_pool s); Ret (tt, with_nodes s σ));
  _ ← on_core dwc2_init;
  _ ← on_hcd usb_hcd_hub_init;
  _ ← on_hcd usb_hcd_hid_init;
  _ ← on_hcd usb_hcd_mass_init;
  _ ← on_core dwc2_get_vendor_id;
  _ ← on_core dwc2_get_user_id;
  mret tt.
(** [powered_on] is a [bool]: an error of the question is stored as [true]. *)
Definition usb_hcd_init (after : list Z) : io S Z :=
  _ ← init_pools;
  flags ← (λ s, Ret (irqs_on s, s)) : io S bool;
  _ ← set_irqs false;
  or_out_err usb_hcd_power_on (
    _ ← set_irqs flags;
    p ← usb_hcd_is_powered_on;
    _ ← set_powered (truth p);
    _ ← lift (BUG (negb (truth p)));
    or_out_err usb_hcd_start (
      _ ← on_core usb_xfer_queue_init;
      or_out_err (usb_hcd_attach_root_hub after) (mret ERR_OK))).
Definition usbd_init (after : list Z) : io S Z := usb_hcd_init after.

(** ** Errors of the start *)

(** The firmware does not know the device, or leaves it off. *)
Definition refuses_power : Prop := ∀ b, ∃ w, respond b = (w, true) ∧ (Z.land (default 0 (w !! 6%nat)) 1 = 0 ∨ Z.land (default 0 (w !! 6%nat)) 2 = 2).

Lemma bit_1_set v : Z.land v 2 = 2 → Z.land (Z.shiftr v 1) 1 = 1.
Proof.
  intros Hv. change (Z.land (Z.shiftr v 1) (Z.ones 1) = 1). rewrite Z.land_ones, <- Z.bit0_mod, Z.shiftr_spec by lia. change (0 + 1) with 1.
  assert (Z.testbit (Z.land v 2) 1 = true) as E by (by rewrite Hv). rewrite Z.land_spec, andb_true_r in E. by rewrite E.
Qed.

Lemma power_on_refused s : refuses_power → ∃ m, usb_hcd_power_on s = Ret (ERR_GENERIC, UsbSys (u_hcd s) (u_irqs s) m (powered_on s) (irqs_on s)).
Proof.
  intros Hr. unfold usb_hcd_power_on, on_mbox, mbox_set_power_state, state_call, on_success, mbox_prop_call, mbox_prop_call_no_lock, mbox_call_blocking, mbind, io_bind.
  destruct (Hr (mbox_buffer (DECL_MBOX_MSG MBOX_TAG_SET_POWER_STATE [MBOX_DEVICE_ID_USB; Z.lor (Z.land 1 1) (Z.shiftl (Z.land 1 1) 1)] (u_mbox s)))) as (w & -> & Hw).
  eexists. cbn. unfold word, state_bits. cbn [mbox_buffer]. destruct Hw as [-> | Hw].
  - by case_match.
  - by rewrite (bit_1_set _ Hw).
Qed.

(** when the firmware does not know the device, or leaves it off, the
    initialisation ends with [ERR_GENERIC] before the controller is started, and
    leaves interrupts off whether or not they were on: the exit on the error
    skips what restores them. *)
Theorem usb_hcd_init_power_fails after s s1 : refuses_power → init_pools s = Ret (tt, s1) → powered_on s1 = false →
  ∃ s', usb_hcd_init after s = Ret (ERR_GENERIC, s') ∧ irqs_on s' = false ∧ powered_on s' = false ∧ u_hcd s' = u_hcd s1 ∧ u_irqs s' = u_irqs s1.
Proof.
  intros Hr Hi Hp. set (s2 := UsbSys (u_hcd s1) (u_irqs s1) (u_mbox s1) (powered_on s1) false).
  destruct (power_on_refused s2 Hr) as (m & E). exists (UsbSys (u_hcd s1) (u_irqs s1) m false false). split; [|done].
  unfold usb_hcd_init. rewrite (io_bind_ret _ _ _ _ _ Hi). erewrite io_bind_ret by reflexivity. rewrite (io_bind_ret _ _ _ tt s2) by reflexivity.
  unfold or_out_err at 1. rewrite (io_bind_ret _ _ _ _ _ E). cbn. unfold init_failed. cbn. by rewrite Hp.
Qed.

(** An error of the question counts as "on". *)
Lemma is_powered_on_error s : (∀ b, ∃ w, respond b = (w, true) ∧ Z.land (default 0 (w !! 6%nat)) 2 = 2) →
  ∃ s', usb_hcd_is_powered_on s = Ret (ERR_GENERIC, s') ∧ truth ERR_GENERIC = true.
Proof.
  intros Hr. unfold usb_hcd_is_powered_on, on_mbox, mbox_get_power_state, state_call, on_success, mbox_prop_call, mbox_prop_call_no_lock, mbox_call_blocking, mbind, io_bind.
  destruct (Hr (mbox_buffer (DECL_MBOX_MSG MBOX_TAG_GET_POWER_STATE [MBOX_DEVICE_ID_USB; 0] (u_mbox s)))) as (w & -> & Hw).
  eexists. cbn. unfold word, state_bits. cbn [mbox_buffer].
  by rewrite (bit_1_set _ Hw).
Qed.
End start.

(** ** Addresses in the tree *)
Section topo.
Context {B : Type} `{UsbTransport B}.
Implicit Types s : hcd B.

(** The device [d] is reached from the root hub through the ports [path]; every
    hub on the way finds its child by the port. *)
Inductive located (fuel : nat) s : Z → list Z → Prop :=
| LocRoot x : root_hub s ≠ NULL → devices s !! root_hub s = Some x → location_hub x = NULL → located fuel s (root_hub s) []
| LocChild d path dx h hd desc p c x : located fuel s d path → devices s !! d = Some dx → class dx = h → h ≠ NULL →
    classes s !! h = Some (ClassHub hd desc) → usb_hub_get_device_at_port fuel h p s = Ret (c, s) → c ≠ NULL →
    devices s !! c = Some x → location_hub x = d → hub_port x = p → 0 ≤ p < 2 ^ 8 → located fuel s c (path ++ [p]).

Lemma located_device fuel s d path : located fuel s d path → d ≠ NULL ∧ ∃ x, devices s !! d = Some x.
Proof. intros []; eauto. Qed.

(** The root hub's own port, which comes first in the address of a device. *)
Definition root_port s : Z := u8 (default 0 (hub_port <$> devices s !! root_hub s)).

(** A turn of the walk up, with [acc] collected below the device. *)
Lemma collect_up fuel n s d path acc : located fuel s d path → (length path + 1 < n)%nat → (length path + length acc < 16)%nat →
  loop n (λ '((d, ports) : Z * list Z),
    if d =? NULL then Ret (inr (ports, s)) else
    if TOPO_PORTS <=? Z.of_nat (length ports) then Fault else
    x ← deref (devices s !! d);
    Ret (inl (location_hub x, ports ++ [u8 (hub_port x)]))) (d, acc) = Ret (acc ++ rev path ++ [root_port s], s).
Proof.
  intros Hd. revert n acc; induction Hd as [x Hr Hx Hl|d path dx h hd desc p c x Hd IH Hdx Hc Hh Hcl Hp Hcn Hx Hl Hpx Hp8]; intros n acc Hn Ha;
    (destruct n as [|n]; [lia|]); cbn [loop]; unfold TOPO_PORTS.
  - zdec. rewrite Hx. cbn [deref]. rewrite !bind_ret. destruct n as [|n]; [cbn in Hn; lia|]. cbn [loop]. rewrite Hl. cbn. unfold root_port. by rewrite Hx.
  - rewrite length_app in *. cbn [length] in *. zdec. rewrite Hx. cbn [deref]. rewrite !bind_ret, Hl, Hpx, u8_id by lia.
    rewrite IH by (rewrite ?length_app; cbn [length]; lia). rewrite rev_app_distr, <- !app_assoc. done.
Qed.

Lemma find_down fuel s d path rest : located fuel s d path → rest ≠ [] → find_from fuel (path ++ rest) (root_hub s) s = find_from fuel rest d s.
Proof.
  intros Hd. revert rest; induction Hd as [x Hr Hx Hl|d path dx h hd desc p c x Hd IH Hdx Hc Hh Hcl Hp Hcn Hx Hl Hpx Hp8]; intros rest Hrest; [done|].
  rewrite <- app_assoc. rewrite IH by done. destruct rest as [|q rest]; [done|]. cbn [app find_from].
  assert (is_hub d s = Ret (Some h, s)) as Eh.
  { unfold is_hub. rewrite (io_bind_ret _ _ _ dx s) by (unfold get_device; by rewrite Hdx). rewrite Hc. zdec.
    rewrite (io_bind_ret _ _ _ (ClassHub hd desc) s) by (unfold get_class; by rewrite Hcl). done. }
  rewrite (io_bind_ret _ _ _ _ _ Eh). rewrite (io_bind_ret _ _ _ _ _ Hp). by zdec.
Qed.

(** the address of a device is the ports on the way to it, after a first
    entry for the root hub itself; the search takes the ports from the first
    entry on and ignores the last.  So a device is found by its ports with
    anything behind them, and what is found by its own address is what the hubs
    have at the port of the root hub, then its ports but for the last. *)
Theorem usb_topo_addr_paths fuel n s d path : located fuel s d path → (length path < 16)%nat → (length path + 1 < n)%nat →
  usb_hcd_get_topo_addr n d s = Ret (root_port s :: path, s) ∧
  (∀ last, usbd_find_device_by_topo_addr fuel (path ++ [last]) s = Ret (d, s)) ∧
  (∀ c, located fuel s c (root_port s :: removelast path) → path ≠ [] → usbd_find_device_by_topo_addr fuel (root_port s :: path) s = Ret (c, s)).
Proof.
  intros Hd Hl Hn. split_and!.
  - unfold usb_hcd_get_topo_addr, collect_ports. erewrite io_bind_ret; [|apply (collect_up fuel n s d path []); [done|lia|cbn; lia]].
    cbn [app]. by rewrite rev_app_distr, rev_involutive.
  - intros last. unfold usbd_find_device_by_topo_addr. rewrite (io_bind_ret _ _ _ (root_hub s) s) by done. by rewrite (find_down fuel s d path [last]).
  - intros c Hc Hne. destruct (exists_last Hne) as (path' & z & E). rewrite E, removelast_last in Hc. unfold usbd_find_device_by_topo_addr.
    rewrite (io_bind_ret _ _ _ (root_hub s) s) by done. rewrite E. exact (find_down fuel s c (root_port s :: path') [z] Hc ltac:(done)).
Qed.
End topo.

(** ** Witnesses *)

(** A device at port 1 of the root hub; transfers are not used. *)
#[local] Instance no_transfers {B} : UsbTransport B := {|
  bus_control _ _ buf _ _ b := Ret (XferResult ERR_GENERIC 0 buf 0, b); bus_bulk _ _ buf _ b := Ret (XferResult ERR_GENERIC 0 buf 0, b) |}.
#[local] Instance no_env {B} : HubEnv B := {| get_boottime_msec := mret 0; unassigned_int := mret 0 |}.

Definition empty_pool : slot_pool := SlotPool 0 0 [].
Definition demo_tree : hcd unit :=
  HcdState tt (<[1000 := set_class zero_device 5000]> {[2000 := set_location zero_device 1000 1]}) {[5000 := ClassHub 1000 (repeat 0 9)]} ∅
    (<[5040 := ListHead 2104 2104]> {[2104 := ListHead 5040 5040]}) empty_pool empty_pool empty_pool empty_pool empty_pool 0 1000 1 0.

Lemma demo_located : located 3 demo_tree 2000 [1].
Proof.
  apply (LocChild 3 demo_tree 1000 [] (set_class zero_device 5000) 5000 1000 (repeat 0 9) 1 2000 (set_location zero_device 1000 1));
    [|reflexivity|reflexivity|done|reflexivity|vm_compute; reflexivity|done|reflexivity|done|done|lia].
  apply (LocRoot 3 demo_tree (set_class zero_device 5000)); done.
Qed.

(** The device is found by its port with anything behind it, and not by its address. *)
Lemma usb_topo_addr_paths_witness : usb_hcd_get_topo_addr 3 2000 demo_tree = Ret ([0; 1], demo_tree) ∧
  usbd_find_device_by_topo_addr 3 [1; 0] demo_tree = Ret (2000, demo_tree) ∧ usbd_find_device_by_topo_addr 3 [0; 1] demo_tree = Ret (NULL, demo_tree).
Proof.
  destruct (usb_topo_addr_paths 3 3 demo_tree 2000 [1] demo_located) as (E1 & E2 & _); [cbn; lia|cbn; lia|].
  split; [exact E1|]. split; [exact (E2 0)|]. vm_compute. reflexivity.
Defined.

Definition demo_queue : queue := Queue ∅ ∅ empty_pool empty_pool 0 0 0 demo_kernel [].
Definition demo_usb_sys : usb_sys bank :=
  UsbSys (HcdState (Rh (Usb ∅ 0 [] ∅ ∅ ∅ empty_pool 0 0 demo_queue) 0) ∅ ∅ ∅ ∅ empty_pool empty_pool empty_pool empty_pool empty_pool 0 NULL 1 0)
    (IrqState [] [] 0) (Mbox [] []) false true.
(** A firmware that answers 2, "no device". *)
Definition no_device (b : Mbox.words) : Mbox.words * bool := ([0; 0; 0; 0; 0; 0; 2; 0], true).
Lemma usb_hcd_init_power_fails_witness : ∃ s', usb_hcd_init no_device 0 0 1 [] demo_usb_sys = Ret (ERR_GENERIC, s') ∧ irqs_on s' = false.
Proof.
  destruct (usb_hcd_init_power_fails no_device 0 0 1 [] demo_usb_sys demo_usb_sys) as (s' & E & Hi & _);
    [intros b; eexists; split; [reflexivity|right; reflexivity]|vm_compute; reflexivity|reflexivity|].
  exists s'. split; [exact E|exact Hi].
Defined.
