(* ===== verification/Cmdrunner.v ===== *)
(** * The debug shell (cmdrunner/cmdrunner.c)

    The line editor with its history, the search for a command and its call.
    Printing has no effect but for the echo of what is typed.  The commands are
    in Commands.v. *)

From S2P Require Import Prelude Bits Strings Parse Exceptions Mmio.

Definition CMD_ERR_NO_ERROR : Z := 0.
Definition CMD_ERR_PARSE_ARG_ERROR : Z := 1.
Definition CMD_ERR_UNKNOWN_SUBCMD : Z := 2.
Definition CMD_ERR_INVALID_ARGS : Z := 3.
Definition CMD_ERR_EXECUTION_ERR : Z := 4.
Definition CMDRUNNER_ERR_MAXCOMMANDSREACHED : Z := -1.
Definition COMMAND_MAX_COUNT : Z := 256.
Definition CMDLINE_BUF_SIZE : Z := 1024.
Definition MAX_HISTORY_LINES : Z := 8.
Definition CONSOLE_CHAR_BACKSPACE : Z := 0x08.
Definition CONSOLE_CHAR_ASCII_BACKSPACE : Z := 0x7f.
Definition CONSOLE_CHAR_LINEFEED : Z := 0x0a.
Definition CONSOLE_CHAR_CARRIAGE_RETURN : Z := 0x0d.
Definition CONSOLE_CHAR_ESC : Z := 0x1b.
Definition CONSOLE_CHAR_LEFT_BRACKET : Z := 0x5b.
Definition CONSOLE_CHAR_UP_ARROW : Z := 0x41.
Definition CONSOLE_CHAR_DOWN_ARROW : Z := 0x42.
Definition MAX_TOKENS : Z := 8.

(** A registered command: its name and its function. *)
Record command_t := Command { cmd_name : list Z; cmd_fn : Z }.

(** [sh_mem] holds [inputbuf] and the lines of [hist]; [h_len] their lengths;
    [echo] what was put on the console; [world] what the commands act on. *)
Record shell (W : Type) := Shell {
  sh_mem : mem; inputbuf_carret : Z; h_len : list Z; h_current : Z; h_last : Z; commands : list command_t;
  escbuflen : Z; echo : list Z; world : W }.
Arguments Shell {W}.
Arguments sh_mem {W}.
Arguments inputbuf_carret {W}.
Arguments h_len {W}.
Arguments h_current {W}.
Arguments h_last {W}.
Arguments commands {W}.
Arguments escbuflen {W}.
Arguments echo {W}.
Arguments world {W}.

Section shell.
Context {W : Type}.
(** Where [inputbuf] and [hist] are, and the call of a command's function with
    the tokens after the first, which may change the memory and the world. *)
Context (inputbuf hist : Z) (call : Z → list (Z * Z) → io (mem * W) Z) (fuel : nat).
Abbreviation S := (shell W).

Definition inputbuf_end : Z := inputbuf + CMDLINE_BUF_SIZE.
(** An element of [hist.h] is 1024 bytes and an [int]. *)
Definition h_s (i : Z) : Z := hist + 1028 * i.

Definition with_buf (s : S) (m : mem) (c : Z) : S := Shell m c (h_len s) (h_current s) (h_last s) (commands s) (escbuflen s) (echo s) (world s).
Definition with_hist (s : S) (m : mem) (l : list Z) (cur last : Z) : S := Shell m (inputbuf_carret s) l cur last (commands s) (escbuflen s) (echo s) (world s).
Definition with_current (s : S) (cur : Z) : S := Shell (sh_mem s) (inputbuf_carret s) (h_len s) cur (h_last s) (commands s) (escbuflen s) (echo s) (world s).
Definition with_esc (s : S) (n : Z) : S := Shell (sh_mem s) (inputbuf_carret s) (h_len s) (h_current s) (h_last s) (commands s) n (echo s) (world s).
Definition with_world (s : S) (mw : mem * W) : S := Shell mw.1 (inputbuf_carret s) (h_len s) (h_current s) (h_last s) (commands s) (escbuflen s) (echo s) mw.2.
Definition put (s : S) (l : list Z) : S := Shell (sh_mem s) (inputbuf_carret s) (h_len s) (h_current s) (h_last s) (commands s) (escbuflen s) (echo s ++ l) (world s).

(** ** The history *)
Definition first_char (s : S) (i : Z) : outcome Z := load8 (sh_mem s) (h_s i).
Definition cmdrunner_history_prev (s : S) : outcome (S * bool) :=
  let tmp_current := h_current s in
  cur ← (if h_current s =? 0 then c ← first_char s (MAX_HISTORY_LINES - 2); Ret (if truth c then MAX_HISTORY_LINES - 2 else h_current s)
         else c ← first_char s (h_current s - 1); Ret (if truth c then h_current s - 1 else h_current s));
  Ret (with_current s cur, negb (cur =? tmp_current)).
Definition cmdrunner_history_next (s : S) : outcome (S * bool) :=
  let tmp_current := h_current s in
  cur ← (if negb (h_current s + 1 =? MAX_HISTORY_LINES) then c ← first_char s (h_current s + 1); Ret (if truth c then h_current s + 1 else h_current s)
         else Ret 0);
  Ret (with_current s cur, negb (cur =? tmp_current)).

(** The byte behind the line is cleared, not the last one of it. *)
Definition cmdrunner_backspace (s : S) : outcome S :=
  if inputbuf_carret s =? inputbuf then Ret s else
  m ← store8 (sh_mem s) (inputbuf_carret s) 0;
  Ret (put (with_buf s m (inputbuf_carret s - 1)) [CONSOLE_CHAR_BACKSPACE; 32; CONSOLE_CHAR_BACKSPACE]).
Definition cmdrunner_clear_line (s : S) : outcome S :=
  loop fuel (λ s, if inputbuf <? inputbuf_carret s then s ← cmdrunner_backspace s; Ret (inl s) else Ret (inr s)) s.

Definition echo_line (s : S) : outcome S :=
  loop fuel (λ '((p, s) : Z * S), c ← load8 (sh_mem s) p; if truth c then Ret (inl (p + 1, put s [c])) else Ret (inr s)) (inputbuf, s).
Definition cmdrunner_history_fetch (s : S) : outcome S :=
  s ← cmdrunner_clear_line s;
  len ← arr_get (h_len s) (h_current s);
  m ← memcpy fuel (sh_mem s) inputbuf (h_s (h_current s)) len;
  m ← store8 m (inputbuf + len) 0;
  echo_line (with_buf s m (inputbuf + len)).

Definition zero_lines (m : mem) : outcome mem := memset fuel m hist 0 (1028 * MAX_HISTORY_LINES).
Definition cmdrunner_history_init (s : S) : outcome S :=
  m ← zero_lines (sh_mem s); Ret (with_hist s m (replicate 8 0) 0 0).

(** A line that is a prefix of the last one is not stored. *)
Definition cmdrunner_history_put (s : S) : outcome S :=
  let n := inputbuf_carret s - inputbuf in
  r ← strncmp fuel (sh_mem s) (h_s (h_last s)) inputbuf n;
  if r =? 0 then Ret s else
  let last := if h_last s + 1 =? MAX_HISTORY_LINES then 0 else h_last s + 1 in
  m ← memcpy fuel (sh_mem s) (h_s last) inputbuf n;
  l ← arr_set (h_len s) last n;
  Ret (with_hist s m l (if last + 1 =? MAX_HISTORY_LINES then 0 else last + 1) last).

(** ** Commands *)

(** [string_token_eq]: [strncmp] of the [n] bytes of a token with a constant. *)
Fixpoint token_is (n : nat) (m : mem) (p : Z) (str : list Z) : outcome bool :=
  match n with
  | O => Ret true
  | Datatypes.S n =>
    c ← load8 m p;
    if c =? default 0 (head str) then (if c =? 0 then Ret true else token_is n m (p + 1) (tail str)) else Ret false
  end.
Definition string_token_eq (m : mem) (t : Z * Z) (str : list Z) : outcome bool := token_is (Z.to_nat t.2) m t.1 str.

Fixpoint cmdrunner_get_command (m : mem) (cmd_token : Z * Z) (l : list command_t) : outcome (option command_t) :=
  match l with
  | [] => Ret None
  | cmd :: l => b ← string_token_eq m cmd_token (cmd_name cmd); if (b : bool) then Ret (Some cmd) else cmdrunner_get_command m cmd_token l
  end.

(** Without a word on the line the first token is not initialised. *)
Definition cmdrunner_on_newline (s : S) : outcome S :=
  s ← cmdrunner_history_put s;
  let s := put s [CONSOLE_CHAR_LINEFEED] in
  tokens ← tokenize_string fuel (sh_mem s) inputbuf (inputbuf_carret s) MAX_TOKENS;
  match tokens with
  | [] => Fault
  | t :: args =>
    cmd ← cmdrunner_get_command (sh_mem s) t (commands s);
    match cmd with
    | None => Ret s
    | Some c => '(_, mw) ← call (cmd_fn c) args (sh_mem s, world s); Ret (with_world s mw)
    end
  end.

Definition scroll (move : S → outcome (S * bool)) (s : S) : outcome S :=
  '(s, moved) ← move s; if (moved : bool) then cmdrunner_history_fetch s else Ret s.
Definition cmdrunner_on_arrow_up : S → outcome S := scroll cmdrunner_history_prev.
Definition cmdrunner_on_arrow_down : S → outcome S := scroll cmdrunner_history_next.

Definition cmdrunner_flush_inputbuf (s : S) : outcome S :=
  m ← memset fuel (sh_mem s) inputbuf 0 CMDLINE_BUF_SIZE; Ret (with_buf s m inputbuf).

Definition cmdrunner_add_cmd (name : list Z) (func : Z) (s : S) : S * Z :=
  if Z.of_nat (length (commands s)) =? COMMAND_MAX_COUNT then (s, CMDRUNNER_ERR_MAXCOMMANDSREACHED) else
  (Shell (sh_mem s) (inputbuf_carret s) (h_len s) (h_current s) (h_last s) (commands s ++ [Command name func]) (escbuflen s) (echo s) (world s), 0).
(** [table]: the commands in the order they are added. *)
Definition cmdrunner_init (table : list command_t) (s : S) : outcome S :=
  s ← cmdrunner_flush_inputbuf s;
  s ← cmdrunner_history_init s;
  let s := Shell (sh_mem s) (inputbuf_carret s) (h_len s) (h_current s) (h_last s) [] (escbuflen s) (echo s) (world s) in
  Ret (foldl (λ s c, fst (cmdrunner_add_cmd (cmd_name c) (cmd_fn c) s)) s table).
(** The state is a local of the caller. *)
Definition cmdrunner_state_init (s : S) : S := with_esc s 0.

(** ** A character *)
Definition cmdrunner_handle_char (c : Z) (s : S) : outcome (S * Z) :=
  if 0 <? escbuflen s then
    if escbuflen s =? 1 then (if c =? CONSOLE_CHAR_LEFT_BRACKET then Ret (with_esc s (escbuflen s + 1), ERR_OK) else Panic)
    else
      s ← (if c =? CONSOLE_CHAR_UP_ARROW then cmdrunner_on_arrow_up s
           else if c =? CONSOLE_CHAR_DOWN_ARROW then cmdrunner_on_arrow_down s else Ret s);
      Ret (with_esc s 0, ERR_OK)
  else if c =? CONSOLE_CHAR_ESC then Ret (with_esc s 1, ERR_OK)
  else if (c =? CONSOLE_CHAR_LINEFEED) || (c =? CONSOLE_CHAR_CARRIAGE_RETURN) then
    s ← cmdrunner_on_newline s;
    s ← cmdrunner_flush_inputbuf s;
    Ret (put s [10; 13; 32; 62], ERR_OK)
  else if (c =? CONSOLE_CHAR_BACKSPACE) || (c =? CONSOLE_CHAR_ASCII_BACKSPACE) then
    s ← cmdrunner_backspace s; Ret (s, ERR_OK)
  else
    s ← (if inputbuf_carret s <? inputbuf_end then m ← store8 (sh_mem s) (inputbuf_carret s) c; Ret (with_buf s m (inputbuf_carret s + 1)) else Ret s);
    Ret (put s [c], ERR_OK).

(** The loop of the shell over the characters it is given. *)
Fixpoint handle_chars (cs : list Z) (s : S) : outcome S :=
  match cs with [] => Ret s | c :: cs => '(s, _) ← cmdrunner_handle_char c s; handle_chars cs s end.


(** ** What a line does *)

(** What typing a character does to the line. *)
Definition edit (l : list Z) (c : Z) : list Z :=
  if (c =? CONSOLE_CHAR_BACKSPACE) || (c =? CONSOLE_CHAR_ASCII_BACKSPACE) then removelast l
  else if Z.of_nat (length l) <? CMDLINE_BUF_SIZE then l ++ [c] else l.

(** A character that neither ends the line nor starts an escape. *)
Definition plain (c : Z) : Prop := 0 < c < 2 ^ 8 ∧ c ≠ CONSOLE_CHAR_ESC ∧ c ≠ CONSOLE_CHAR_LINEFEED ∧ c ≠ CONSOLE_CHAR_CARRIAGE_RETURN.

Lemma edit_plain l c : Forall (λ b, 0 < b < 2 ^ 8) l → plain c → Forall (λ b, 0 < b < 2 ^ 8) (edit l c).
Proof.
  intros Hl [Hc _]. unfold edit. case_match.
  - destruct l as [|x l _] using rev_ind; [done|]. rewrite removelast_last. by apply Forall_app in Hl as [? _].
  - case_match; [|done]. apply Forall_app_2; [done|by apply Forall_singleton].
Qed.

Lemma edit_bound l c : Z.of_nat (length l) ≤ CMDLINE_BUF_SIZE → Z.of_nat (length (edit l c)) ≤ CMDLINE_BUF_SIZE.
Proof.
  unfold edit. intros Hl. case_match; [|case_match; [|done]].
  - destruct l as [|x l _] using rev_ind; [done|]. rewrite removelast_last. rewrite length_app in Hl. simpl in Hl. lia.
  - rewrite length_app. simpl. lia.
Qed.

(** The words [l] starts with name the command [c]. *)
Definition names (w : list Z) (c : command_t) : bool := bool_decide (w `prefix_of` cmd_name c).

Lemma token_is_prefix m p w str : bytes_at m p w → Forall (λ b, 0 < b < 2 ^ 8) w → Forall (λ b, 0 < b < 2 ^ 8) str →
  token_is (length w) m p str = Ret (bool_decide (w `prefix_of` str)).
Proof.
  revert p str; induction w as [|c w IH]; intros p str Hb Hw Hs; cbn [token_is length].
  { by rewrite bool_decide_true by apply prefix_nil. }
  apply bytes_at_cons in Hb as [Hc Hb]. apply Forall_cons in Hw as [? Hw].
  rewrite (load8_at _ _ _ Hc), bind_ret. destruct str as [|d str]; cbn [head default tail].
  { destruct (Z.eqb_spec c 0); [lia|]. by rewrite bool_decide_false by (by intros [? ?]). }
  apply Forall_cons in Hs as [? Hs]. cbn. destruct (Z.eqb_spec c d) as [->|].
  - destruct (Z.eqb_spec d 0); [lia|]. rewrite IH by done. f_equal. apply bool_decide_ext.
    split; [by apply prefix_cons|by intros ?%prefix_cons_inv_2].
  - rewrite bool_decide_false; [done|]. by intros ?%prefix_cons_inv_1.
Qed.

Lemma get_command_find m t w l : bytes_at m t.1 w → t.2 = Z.of_nat (length w) → Forall (λ b, 0 < b < 2 ^ 8) w →
  Forall (λ c, Forall (λ b, 0 < b < 2 ^ 8) (cmd_name c)) l →
  cmdrunner_get_command m t l = Ret (find (names w) l).
Proof.
  intros Hb Ht Hw. induction l as [|c l IH]; intros Hl; [done|]. apply Forall_cons in Hl as [Hc Hl]. cbn [cmdrunner_get_command find].
  unfold string_token_eq. rewrite Ht, Nat2Z.id, (token_is_prefix _ _ _ _ Hb Hw Hc), bind_ret.
  unfold names at 1. case_bool_decide; [done|]. by apply IH.
Qed.

Lemma strncmp_returns n f m p q k : mapped m p (Z.of_nat n) → mapped m q (Z.of_nat n) → (n < f)%nat → k = Z.of_nat n →
  ∃ r, strncmp f m p q k = Ret r.
Proof.
  unfold strncmp. revert n p q k; induction f as [|f IH]; intros n p q k Hp Hq Hf ->; [lia|].
  cbn [loop]. destruct n as [|n]; [by exists 0|]. rewrite truth_nonzero by lia.
  destruct (Hp p ltac:(lia)) as [x Hx], (Hq q ltac:(lia)) as [y Hy].
  rewrite !(load8_at _ _ _ Hx), bind_ret.
  destruct (truth x).
  2:{ rewrite !bind_ret. cbn. rewrite (load8_at _ _ _ Hx), (load8_at _ _ _ Hy). by eexists. }
  rewrite !(load8_at _ _ _ Hy), bind_ret. destruct (truth y && (x =? y)).
  - rewrite bind_ret. apply (IH n); [intros z Hz; apply Hp; lia|intros z Hz; apply Hq; lia|lia|lia].
  - rewrite !bind_ret. cbn. rewrite (load8_at _ _ _ Hx), (load8_at _ _ _ Hy). by eexists.
Qed.

(** The shell waits with the line [l] typed. *)
Record at_line (s : S) (l : list Z) : Prop := AtLine {
  al_bytes : bytes_at (sh_mem s) inputbuf l;
  al_carret : inputbuf_carret s = inputbuf + Z.of_nat (length l);
  al_len : Z.of_nat (length l) ≤ CMDLINE_BUF_SIZE;
  al_text : Forall (λ b, 0 < b < 2 ^ 8) l;
  al_buf : mapped (sh_mem s) inputbuf (CMDLINE_BUF_SIZE + 1);
  al_hist : mapped (sh_mem s) hist (1028 * MAX_HISTORY_LINES);
  al_last : 0 ≤ h_last s < MAX_HISTORY_LINES;
  al_lens : length (h_len s) = 8%nat;
  al_esc : escbuflen s = 0 }.

Definition same (s s' : S) : Prop := commands s' = commands s ∧ world s' = world s.

Lemma same_trans s1 s2 s3 : same s1 s2 → same s2 s3 → same s1 s3.
Proof. unfold same. intros [-> ->] [-> ->]. done. Qed.

Context (Hapart : inputbuf + CMDLINE_BUF_SIZE + 1 ≤ hist ∨ hist + 1028 * MAX_HISTORY_LINES ≤ inputbuf).
Context (Hfuel : CMDLINE_BUF_SIZE < Z.of_nat fuel).

Lemma mapped_insert (m : mem) p v q n : mapped m q n → mapped (<[p := v]> m) q n.
Proof. intros Hm r Hr. rewrite lookup_insert. case_decide; [by eexists|by apply Hm]. Qed.

Lemma bytes_at_insert (m : mem) p v q l : bytes_at m q l → q + Z.of_nat (length l) ≤ p → bytes_at (<[p := v]> m) q l.
Proof. intros Hb Hp i b Hi. pose proof (lookup_lt_Some _ _ _ Hi). rewrite lookup_insert_ne by lia. by apply Hb. Qed.

Lemma handle_plain s l c : at_line s l → plain c →
  ∃ s', cmdrunner_handle_char c s = Ret (s', ERR_OK) ∧ at_line s' (edit l c) ∧ same s s'.
Proof.
  intros [Hb Hc Hl Ht Hm Hh Hi Hn He] Hp. pose proof (edit_plain l c Ht Hp) as Ht'. pose proof (edit_bound l c Hl) as Hl'.
  destruct Hp as (Hc0 & Hesc & Hlf & Hcr). unfold cmdrunner_handle_char. rewrite He. cbn [Z.ltb Z.compare].
  destruct (Z.eqb_spec c CONSOLE_CHAR_ESC); [done|]. destruct (Z.eqb_spec c CONSOLE_CHAR_LINEFEED); [done|].
  destruct (Z.eqb_spec c CONSOLE_CHAR_CARRIAGE_RETURN); [done|]. cbn [orb]. unfold edit in *.
  destruct ((c =? CONSOLE_CHAR_BACKSPACE) || (c =? CONSOLE_CHAR_ASCII_BACKSPACE)).
  - unfold cmdrunner_backspace. rewrite Hc. destruct l as [|x l _] using rev_ind.
    { rewrite Z.add_0_r, Z.eqb_refl, bind_ret. eexists. split; [done|]. split; [|done]. by split. }
    rewrite removelast_last in *. rewrite length_app in *. cbn [length] in *.
    destruct (Z.eqb_spec (inputbuf + Z.of_nat (length l + 1)) inputbuf); [lia|].
    rewrite store8_returns by (apply Hm; unfold CMDLINE_BUF_SIZE in *; lia). rewrite !bind_ret. eexists. split; [done|]. split; [|done].
    split; cbn; try done; [|lia|by apply mapped_insert|by apply mapped_insert].
    apply bytes_at_app in Hb as [Hb _]. apply bytes_at_insert; [done|lia].
  - unfold inputbuf_end. rewrite Hc. destruct (Z.ltb_spec (Z.of_nat (length l)) CMDLINE_BUF_SIZE).
    2:{ destruct (Z.ltb_spec (inputbuf + Z.of_nat (length l)) (inputbuf + CMDLINE_BUF_SIZE)); [lia|]. rewrite bind_ret.
        eexists. split; [done|]. split; [|done]. by split. }
    destruct (Z.ltb_spec (inputbuf + Z.of_nat (length l)) (inputbuf + CMDLINE_BUF_SIZE)); [|lia].
    rewrite store8_returns by (apply Hm; unfold CMDLINE_BUF_SIZE in *; lia). rewrite !bind_ret. eexists. split; [done|]. split; [|done].
    split; cbn; try done; [|rewrite length_app; cbn; lia|by apply mapped_insert|by apply mapped_insert].
    apply bytes_at_app. split; [apply bytes_at_insert; [done|lia]|]. apply bytes_at_cons. split; [|apply bytes_at_nil].
    rewrite lookup_insert_eq, u8_id; [done|lia].
Qed.

Lemma handle_line cs : ∀ s l, at_line s l → Forall plain cs →
  ∃ s', (∀ cs', handle_chars (cs ++ cs') s = handle_chars cs' s') ∧ at_line s' (foldl edit l cs) ∧ same s s'.
Proof.
  induction cs as [|c cs IH]; intros s l Hs Hcs; [by exists s|]. apply Forall_cons in Hcs as [Hc Hcs].
  destruct (handle_plain s l c Hs Hc) as (s1 & E & Hs1 & H1). destruct (IH s1 _ Hs1 Hcs) as (s2 & E2 & Hs2 & H2).
  exists s2. split; [|split; [done|by eapply same_trans]]. intros cs'. cbn. rewrite E, bind_ret. apply E2.
Qed.

Lemma history_put_line s l : at_line s l → ∃ s', cmdrunner_history_put s = Ret s' ∧ at_line s' l ∧ same s s'.
Proof.
  intros [Hb Hc Hl Ht Hm Hh Hi Hn He]. unfold cmdrunner_history_put. rewrite Hc.
  replace (inputbuf + Z.of_nat (length l) - inputbuf) with (Z.of_nat (length l)) by lia.
  destruct (strncmp_returns (length l) fuel (sh_mem s) (h_s (h_last s)) inputbuf (Z.of_nat (length l))) as [r ->].
  { intros q Hq. apply Hh. unfold h_s, MAX_HISTORY_LINES, CMDLINE_BUF_SIZE in *. lia. }
  { intros q Hq. apply Hm. lia. }
  { lia. }
  { done. }
  rewrite bind_ret. destruct (r =? 0); [exists s; split; [done|]; split; [by split|done]|].
  assert (0 ≤ (if h_last s + 1 =? MAX_HISTORY_LINES then 0 else h_last s + 1) < MAX_HISTORY_LINES) as Hlast.
  { destruct (Z.eqb_spec (h_last s + 1) MAX_HISTORY_LINES); unfold MAX_HISTORY_LINES in *; lia. }
  revert Hlast. generalize (if h_last s + 1 =? MAX_HISTORY_LINES then 0 else h_last s + 1). intros last Hlast.
  rewrite (memcpy_ok (sh_mem s) (h_s last) inputbuf l fuel).
  2:{ done. }
  2:{ eapply Forall_impl; [done|]. cbn. lia. }
  2:{ intros q Hq. apply Hh. unfold h_s, MAX_HISTORY_LINES, CMDLINE_BUF_SIZE in *. lia. }
  2:{ unfold h_s, MAX_HISTORY_LINES, CMDLINE_BUF_SIZE in *. lia. }
  2:{ unfold CMDLINE_BUF_SIZE in *. lia. }
  2:{ lia. }
  rewrite bind_ret. unfold arr_set, arr_get, deref. destruct (Z.ltb_spec last 0); [lia|].
  destruct (lookup_lt_is_Some_2 (h_len s) (Z.to_nat last)) as [x ->]; [unfold MAX_HISTORY_LINES in *; lia|]. rewrite !bind_ret.
  eexists. split; [done|]. split; [|done].
  assert (∀ q, h_s last ≤ q < h_s last + Z.of_nat (length l) → is_Some (sh_mem s !! q)) as Hd.
  { intros q Hq. apply Hh. unfold h_s, MAX_HISTORY_LINES, CMDLINE_BUF_SIZE in *. lia. }
  split; cbn; try done; [|by apply write_bytes_mapped|by apply write_bytes_mapped|by rewrite length_insert].
  apply write_bytes_bytes_at; [done|]. unfold h_s, MAX_HISTORY_LINES, CMDLINE_BUF_SIZE in *. lia.
Qed.

Lemma memset_Z m p v k : mapped m p k → 0 ≤ k < Z.of_nat fuel → memset fuel m p v k = Ret (write_bytes m p (replicate (Z.to_nat k) (u8 v))).
Proof. intros Hm Hk. rewrite <- (memset_ok fuel); [by rewrite Z2Nat.id by lia|by rewrite Z2Nat.id by lia|lia]. Qed.

Lemma flush_line s : mapped (sh_mem s) inputbuf (CMDLINE_BUF_SIZE + 1) → mapped (sh_mem s) hist (1028 * MAX_HISTORY_LINES) →
  0 ≤ h_last s < MAX_HISTORY_LINES → length (h_len s) = 8%nat → escbuflen s = 0 →
  ∃ s', cmdrunner_flush_inputbuf s = Ret s' ∧ same s s' ∧ ∀ l, at_line (put s' l) [].
Proof.
  intros Hm Hh Hi Hn He. unfold cmdrunner_flush_inputbuf.
  rewrite memset_Z by ((unfold CMDLINE_BUF_SIZE in *; lia) || (intros q Hq; apply Hm; lia)). rewrite bind_ret.
  eexists. split; [done|]. split; [done|]. intros l.
  split; cbn; try done; try lia; by apply write_bytes_mapped.
Qed.

(** The text of a token. *)
Definition token_text (l : list Z) (t : Z * Z) : list Z := take (Z.to_nat t.2) (drop (Z.to_nat (t.1 - inputbuf)) l).

(** The tokens of the line [l]. *)
Definition tokens_of (l : list Z) : list (Z * Z) := take 8 (words inputbuf None l).

Lemma words_range l : ∀ p cur t, t ∈ words p cur l → (∀ s, cur = Some s → s ≤ p) →
  default p cur ≤ t.1 ∧ 0 ≤ t.2 ∧ t.1 + t.2 ≤ p + Z.of_nat (length l).
Proof.
  induction l as [|c l IH]; intros p [q|] t; cbn [words length default]; intros Ht Hq.
  - apply list_elem_of_singleton in Ht as ->. specialize (Hq q eq_refl). cbn. lia.
  - by apply elem_of_nil in Ht.
  - specialize (Hq q eq_refl). case_match.
    + apply elem_of_cons in Ht as [->|Ht]; [cbn; lia|]. apply IH in Ht; [|done]. cbn in *. lia.
    + apply IH in Ht; [cbn in *; lia|]. intros s [= <-]. lia.
  - case_match; apply IH in Ht; cbn in *; try lia; [done|]. intros s [= <-]. lia.
Qed.

Lemma token_at m l t : bytes_at m inputbuf l → t ∈ tokens_of l →
  bytes_at m t.1 (token_text l t) ∧ t.2 = Z.of_nat (length (token_text l t)).
Proof.
  intros Hb Ht. apply elem_of_take in Ht as (i & Ht & _). apply list_elem_of_lookup_2, words_range in Ht; [|done].
  cbn in Ht. unfold token_text. split; [|rewrite length_take, length_drop; lia].
  intros j b Hj. apply lookup_take_Some in Hj as [Hj _]. rewrite lookup_drop in Hj. apply Hb in Hj. rewrite <- Hj. f_equal. lia.
Qed.

Lemma newline_tokens s l : at_line s l → ∃ s1, at_line s1 l ∧ same s s1 ∧
  cmdrunner_on_newline s = match tokens_of l with
    | [] => Fault
    | t :: args => cmd ← cmdrunner_get_command (sh_mem s1) t (commands s1);
                   match cmd with None => Ret s1 | Some c => '(_, mw) ← call (cmd_fn c) args (sh_mem s1, world s1); Ret (with_world s1 mw) end
    end.
Proof.
  intros Hs. destruct (history_put_line s l Hs) as (s1 & E & Hs1 & H1). exists (put s1 [CONSOLE_CHAR_LINEFEED]).
  split; [by destruct Hs1; split|]. split; [done|]. unfold cmdrunner_on_newline. rewrite E, bind_ret. destruct Hs1.
  cbn [put sh_mem inputbuf_carret commands world].
  rewrite (tokenize_string_words fuel (sh_mem s1) inputbuf (inputbuf_carret s1) l MAX_TOKENS); [done| |done|lia].
  split; [done|]. split; [done|]. left. by rewrite al_carret0.
Qed.

Lemma newline_char s : escbuflen s = 0 → cmdrunner_handle_char CONSOLE_CHAR_LINEFEED s =
  s ← cmdrunner_on_newline s; s ← cmdrunner_flush_inputbuf s; Ret (put s [10; 13; 32; 62], ERR_OK).
Proof. intros He. unfold cmdrunner_handle_char. by rewrite He. Qed.

(** Enter on a line without a word looks for a command by a token that was
    never set. *)
Lemma shell_empty_line s cs : at_line s [] → Forall plain cs → tokens_of (foldl edit [] cs) = [] →
  handle_chars (cs ++ [CONSOLE_CHAR_LINEFEED]) s = Fault.
Proof.
  intros Hs Hcs Ht. destruct (handle_line cs s [] Hs Hcs) as (s1 & E & Hs1 & _). rewrite E. cbn [handle_chars].
  rewrite newline_char by apply Hs1. destruct (newline_tokens s1 _ Hs1) as (s2 & _ & _ & ->). by rewrite Ht.
Qed.

(** C16: Enter runs the line that the characters typed since the last one edit
    together: a backspace takes the last character away, a character past 1024 is
    dropped, and the line's first word, up to white space, selects the first
    command in the order of registration whose name starts with that word.  The
    command gets the words after it and the world changes as it changes it; an
    unknown word leaves the world alone.  The shell is then ready for the next
    line. *)
Theorem shell_runs_line s cs t args w' :
  at_line s [] → Forall plain cs → Forall (λ c, Forall (λ b, 0 < b < 2 ^ 8) (cmd_name c)) (commands s) →
  tokens_of (foldl edit [] cs) = t :: args →
  match find (names (token_text (foldl edit [] cs) t)) (commands s) with
  | Some c => ∃ r, ∀ m, bytes_at m inputbuf (foldl edit [] cs) → call (cmd_fn c) args (m, world s) = Ret (r, (m, w'))
  | None => w' = world s
  end →
  ∃ s', handle_chars (cs ++ [CONSOLE_CHAR_LINEFEED]) s = Ret s' ∧ at_line s' [] ∧ commands s' = commands s ∧ world s' = w'.
Proof.
  intros Hs Hcs Hnames Ht Hrun. destruct (handle_line cs s [] Hs Hcs) as (s1 & E & Hs1 & [Hc1 Hw1]). rewrite E. cbn [handle_chars].
  rewrite newline_char by apply Hs1. destruct (newline_tokens s1 _ Hs1) as (s2 & Hs2 & [Hc2 Hw2] & ->). rewrite Ht.
  destruct (token_at (sh_mem s2) (foldl edit [] cs) t) as [Htok Hlen]; [apply Hs2|rewrite Ht; by left|].
  rewrite (get_command_find _ _ _ _ Htok Hlen), bind_ret.
  2:{ apply Forall_take, Forall_drop. apply Hs2. }
  2:{ by rewrite Hc2, Hc1. }
  rewrite Hc2, Hc1. assert (∀ mw : mem * W, mw.1 = sh_mem s2 → mw.2 = w' → ∃ s', ('(s, _) ← (s ← Ret (with_world s2 mw); s ← cmdrunner_flush_inputbuf s; Ret (put s [10; 13; 32; 62], ERR_OK)); Ret s) = Ret s' ∧
    at_line s' [] ∧ commands s' = commands s ∧ world s' = w') as Hend.
  { intros mw Em Ew. destruct Hs2. rewrite bind_ret. destruct (flush_line (with_world s2 mw)) as (s3 & -> & [Hc3 Hw3] & Hs3); try done; [by rewrite <- Em in *..|].
    rewrite !bind_ret. eexists. split; [done|]. split; [apply Hs3|]. cbn. rewrite Hc3, Hw3. cbn. by rewrite Hc2, Hc1, Ew. }
  destruct (find _ _) as [c|].
  - destruct Hrun as [r Hrun]. rewrite Hw2, Hw1, Hrun by apply Hs2. rewrite bind_ret. by apply Hend.
  - destruct s2. apply (Hend (sh_mem0, world0)); [done|]. cbn. cbn in Hw2. congruence.
Qed.
End shell.

(** Witness: a shell with the commands [ab] and [b], whose functions add their
    number to the world; [acX b] with the [X] and the [c] taken back runs the
    first of them. *)
Definition demo_shell : shell Z :=
  Shell (mem_of 4096 (replicate (Z.to_nat 9256) 0)) 4096 (replicate 8 0) 0 0 [Command [97; 98] 7; Command [98] 9] 0 [] 1.

Lemma demo_mapped p n : 4096 ≤ p → p + n ≤ 13352 → mapped (sh_mem demo_shell) p n.
Proof.
  intros Hp Hn q Hq. apply (bytes_at_mapped _ 4096 (replicate (Z.to_nat 9256) 0)); [apply mem_of_bytes|].
  rewrite length_replicate. lia.
Qed.

Lemma shell_runs_line_witness : ∃ s',
  handle_chars 4096 5128 (λ fn _ s, Ret (0, (fst s, snd s + fn))) (Z.to_nat 1100) ([97; 99; 88; 8; 127; 32; 98] ++ [CONSOLE_CHAR_LINEFEED]) demo_shell = Ret s' ∧
  at_line 4096 5128 s' [] ∧ commands s' = commands demo_shell ∧ world s' = 8.
Proof.
  apply (shell_runs_line 4096 5128 (λ fn _ s, Ret (0, (fst s, snd s + fn))) (Z.to_nat 1100) ltac:(by left) ltac:(by vm_compute)
    demo_shell [97; 99; 88; 8; 127; 32; 98] (4096, 1) [(4098, 1)] 8).
  - apply AtLine; [apply bytes_at_nil|reflexivity|discriminate|constructor|apply demo_mapped; discriminate|apply demo_mapped; discriminate|..].
    + by split.
    + reflexivity.
    + reflexivity.
  - repeat constructor; done.
  - repeat constructor; lia.
  - by vm_compute.
  - by exists 0.
Defined.
