(* ===== verification/Commands.v ===== *)
(** * The shell's commands (cmdrunner/gpio.c, clock.c, pwm.c, sleep.c, memdump.c, shiftreg.c, f5161ah.c)

    A command is given the tokens after its name.  It reads their text in the
    shell's memory and acts on the registers and on the LED drivers; help texts
    and other prints have no effect. *)

From Stdlib Require Import String.
From S2P Require Import Prelude Bits Strings Parse Exceptions Mmio GpioSet Gpio Clocks Trace SpiEmu Spi Leds Cmdrunner.

(** The characters of a constant. *)
Definition chars (s : string) : list Z := map (λ c, Z.of_nat (Ascii.nat_of_ascii c)) (String.list_ascii_of_string s).

Section arguments.
(** What the commands act on besides the memory. *)
Context {W : Type} (fuel : nat).
Abbreviation S := (mem * W)%type.
Abbreviation args := (list (Z * Z)).

Definition the_text : io S mem := λ s, Ret (s.1, s).

(** ** argument.h *)
Definition ASSERT_NUMARGS_EQ (l : args) (n : Z) (k : io S Z) : io S Z :=
  if negb (Z.of_nat (length l) =? n) then mret CMD_ERR_INVALID_ARGS else k.
Definition ASSERT_NUMARGS_GE (l : args) (n : Z) (k : io S Z) : io S Z :=
  if Z.of_nat (length l) <? n then mret CMD_ERR_INVALID_ARGS else k.
(** A token that was not filled in is not initialised. *)
Definition ts (l : args) (n : nat) : io S (Z * Z) := λ s, t ← deref (l !! n); Ret (t, s).
Definition GET_NUMERIC_PARAM (conv : Z → Z) (l : args) (argnum : nat) (k : Z → io S Z) : io S Z :=
  t ← ts l argnum; m ← the_text;
  r ← lift (strtoll fuel m t.1 0);
  if t.1 =? snd r then mret CMD_ERR_INVALID_ARGS else k (conv (fst r)).
Definition arg_eq (l : args) (n : nat) (str : string) : io S bool :=
  t ← ts l n; m ← the_text; lift (string_token_eq m t (chars str)).

(** [if (string_token_eq(arg, name)) return ...;] for each name in turn. *)
Fixpoint subcommands {A} (l : args) (n : nat) (cases : list (string * A)) (k : option A → io S Z) : io S Z :=
  match cases with
  | [] => k None
  | (name, a) :: cases => b ← arg_eq l n name; if (b : bool) then k (Some a) else subcommands l n cases k
  end.
Definition run_or (err : Z) (o : option (io S Z)) : io S Z := match o with Some x => x | None => mret err end.
Definition print_help : io S Z := mret CMD_ERR_NO_ERROR.
Definition check_status (x : io S Z) : io S Z :=
  st ← x; mret (if truth st then CMD_ERR_EXECUTION_ERR else CMD_ERR_NO_ERROR).

End arguments.
Abbreviation args := (list (Z * Z)).

Section commands.
Context {D : Type} `{Mmio D} (shiftreg_ptr : Z) (fuel : nat).

(** The registers with the LED drivers, and [sr] of shiftreg.c. *)
Abbreviation W := (led_drv D * Z)%type.
Abbreviation S := (mem * W)%type.

Definition on_device (x : io (led_drv D) Z) : io S Z := λ '(m, (d, sr)), '(r, d) ← x d; Ret (r, (m, (d, sr))).
Definition shiftreg_sr : io S Z := λ s, Ret (s.2.2, s).
Definition set_sr (v : Z) : io S unit := λ s, Ret (tt, (s.1, (s.2.1, v))).

(** ** gpio.c *)
Definition gpio_aliases : list (string * Z) :=
  [("input"%string, GPIO_FUNC_IN); ("in"%string, GPIO_FUNC_IN); ("output"%string, GPIO_FUNC_OUT); ("out"%string, GPIO_FUNC_OUT);
   ("alt0"%string, 4); ("alt1"%string, 5); ("alt2"%string, 6); ("alt3"%string, 7); ("alt4"%string, 3); ("alt5"%string, 2);
   ("0"%string, 4); ("1"%string, 5); ("2"%string, 6); ("3"%string, 7); ("4"%string, 3); ("5"%string, 2)].
Definition command_gpio_set_function (l : args) : io S Z :=
  ASSERT_NUMARGS_EQ l 2 (GET_NUMERIC_PARAM fuel s32 l 0 (λ pin_idx,
    subcommands l 1 gpio_aliases (λ o, match o with
      | Some v => check_status (on_device (gpio_set_function (u32 pin_idx) v))
      | None => mret CMD_ERR_INVALID_ARGS
      end))).
(** The pin's names are printed without a check of the pin. *)
Definition command_gpio_get_functions (l : args) : io S Z :=
  ASSERT_NUMARGS_EQ l 1 (GET_NUMERIC_PARAM fuel s32 l 0 (λ pin_idx,
    if (pin_idx <? 0) || (53 <? pin_idx) then lift Fault else mret CMD_ERR_NO_ERROR)).
(** The result of the driver is not looked at. *)
Definition command_gpio_set (l : args) : io S Z :=
  ASSERT_NUMARGS_EQ l 2 (GET_NUMERIC_PARAM fuel s32 l 0 (λ pin_idx, GET_NUMERIC_PARAM fuel s32 l 1 (λ pin_value,
    if negb (pin_value =? 0) && negb (pin_value =? 1) then mret CMD_ERR_INVALID_ARGS else
    _ ← on_device (if truth pin_value then gpio_set_on (u32 pin_idx) else gpio_set_off (u32 pin_idx));
    mret CMD_ERR_NO_ERROR))).
Definition pullupdowns : list (string * Z) := [("no"%string, 0); ("pulldown"%string, 1); ("pullup"%string, 2)].
Definition command_gpio_set_pullupdown (l : args) : io S Z :=
  ASSERT_NUMARGS_EQ l 2 (GET_NUMERIC_PARAM fuel s32 l 0 (λ pin_idx,
    subcommands l 1 pullupdowns (λ o, match o with
      | Some v => check_status (on_device (gpio_set_pullupdown (u32 pin_idx) v))
      | None => mret CMD_ERR_INVALID_ARGS
      end))).
Definition command_gpio (l : args) : io S Z :=
  ASSERT_NUMARGS_GE l 1 (subcommands l 0
    [("help"%string, print_help); ("set"%string, command_gpio_set (tail l));
     ("get-functions"%string, command_gpio_get_functions (tail l)); ("set-function"%string, command_gpio_set_function (tail l));
     ("set-pullupdown"%string, command_gpio_set_pullupdown (tail l))] (run_or CMD_ERR_UNKNOWN_SUBCMD)).

(** ** clock.c *)
Definition clock_ids : list (string * Z) :=
  [("gp0"%string, CM_CLK_ID_GP_0); ("gp1"%string, CM_CLK_ID_GP_1); ("gp2"%string, CM_CLK_ID_GP_2); ("pwm"%string, CM_CLK_ID_PWM)].
Definition clock_srcs : list (string * Z) :=
  [("gnd"%string, 0); ("osc"%string, 1); ("tstdbg0"%string, 2); ("tstdbg1"%string, 3);
   ("plla"%string, 4); ("pllc"%string, 5); ("plld"%string, 6); ("hdmi"%string, 7)].
Definition clock_status (st : Z) : Z :=
  if st =? CM_SETCLK_ERR_INV then CMD_ERR_INVALID_ARGS else if st =? CM_SETCLK_ERR_BUSY then CMD_ERR_EXECUTION_ERR else CMD_ERR_NO_ERROR.
Definition set_clock (clock_id clock_src divi divf : Z) : io S Z :=
  st ← on_device (cm_set_clock clock_id clock_src 0 divi divf); mret (clock_status st).
Definition command_clock_set (l : args) : io S Z :=
  ASSERT_NUMARGS_GE l 3 (
    subcommands l 0 clock_ids (λ o, match o with None => mret CMD_ERR_INVALID_ARGS | Some clock_id =>
    subcommands l 1 clock_srcs (λ o, match o with None => mret CMD_ERR_INVALID_ARGS | Some clock_src =>
    GET_NUMERIC_PARAM fuel u32 l 2 (λ divi,
      if 4 <=? Z.of_nat (length l) then GET_NUMERIC_PARAM fuel u32 l 3 (λ divf, set_clock clock_id clock_src divi divf)
      else set_clock clock_id clock_src divi 0) end) end)).
Definition command_clock_info (l : args) : io S Z := ASSERT_NUMARGS_EQ l 1 (mret CMD_ERR_NO_ERROR).
Definition command_clock (l : args) : io S Z :=
  ASSERT_NUMARGS_GE l 1 (subcommands l 0
    [("help"%string, print_help); ("set"%string, command_clock_set (tail l)); ("info"%string, command_clock_info (tail l))]
    (run_or CMD_ERR_UNKNOWN_SUBCMD)).

(** ** pwm.c *)
Definition command_pwm_enable (l : args) : io S Z :=
  ASSERT_NUMARGS_EQ l 2 (GET_NUMERIC_PARAM fuel s32 l 0 (λ channel, GET_NUMERIC_PARAM fuel s32 l 1 (λ ms_mode,
    check_status (on_device (pwm_enable fuel channel ms_mode))))).
Definition command_pwm_set (l : args) : io S Z :=
  ASSERT_NUMARGS_EQ l 3 (GET_NUMERIC_PARAM fuel s32 l 0 (λ channel, GET_NUMERIC_PARAM fuel s32 l 1 (λ range, GET_NUMERIC_PARAM fuel s32 l 2 (λ data,
    check_status (on_device (pwm_set channel range data)))))).
Definition command_pwm (l : args) : io S Z :=
  ASSERT_NUMARGS_GE l 1 (subcommands l 0
    [("help"%string, print_help); ("enable"%string, command_pwm_enable (tail l)); ("set"%string, command_pwm_set (tail l));
     ("info"%string, print_help)] (run_or CMD_ERR_UNKNOWN_SUBCMD)).

(** ** sleep.c: the wait has no effect on the state. *)
Definition command_sleep (l : args) : io S Z :=
  ASSERT_NUMARGS_EQ l 1 (b ← arg_eq l 0 "help"%string; if (b : bool) then print_help else
    GET_NUMERIC_PARAM fuel s32 l 0 (λ _, mret CMD_ERR_NO_ERROR)).

(** ** memdump.c *)
Definition DUMPSIZE_BYTES : Z := 1.
Definition DUMPSIZE_HALFWORDS : Z := 2.
Definition DUMPSIZE_WORDS : Z := 4.
Definition DUMPSIZE_DOUBLEWORDS : Z := 8.
Definition command_memdump_get_elementsize (c : Z) : Z :=
  if c =? 72 then DUMPSIZE_HALFWORDS else if c =? 87 then DUMPSIZE_WORDS else if c =? 68 then DUMPSIZE_DOUBLEWORDS else DUMPSIZE_BYTES.
(** The bytes that are printed. *)
Fixpoint load_bytes (n : nat) (m : mem) (p : Z) : outcome (list Z) :=
  match n with O => Ret [] | Datatypes.S n => b ← load8 m p; l ← load_bytes n m (p + 1); Ret (b :: l) end.
Definition memdump_dump_bytes (m : mem) (ptr sz : Z) : outcome (list Z) :=
  let n := Z.to_nat (c_min sz 8) in
  l ← load_bytes n m ptr;
  if c_min sz 8 =? sz then Ret l else
  l' ← load_bytes n m (ptr + c_min sz 8); Ret (l ++ l').
(** The other sizes print nothing. *)
Definition memdump_dump (element_size : Z) (m : mem) (ptr sz : Z) : outcome (list Z) :=
  if element_size =? DUMPSIZE_BYTES then memdump_dump_bytes m ptr sz else Ret [].
(** Returns the lines printed. *)
Definition memdump_lines (element_size : Z) (m : mem) (ptr bytescount : Z) : outcome (list (list Z)) :=
  loop fuel (λ '((p, n, out) : Z * Z * list (list Z)),
    if truth n then
      let todump := c_min 16 n in
      l ← memdump_dump element_size m p todump; Ret (inl (p + todump, n - todump, out ++ [l]))
    else Ret (inr out)) (ptr, bytescount, []).
(** The first word after the name is not looked at. *)
Definition memdump_run (element_size : Z) (offset_arg : nat) (l : args) : io S Z :=
  ASSERT_NUMARGS_GE l (Z.of_nat offset_arg + 2) (
    GET_NUMERIC_PARAM fuel u64 l offset_arg (λ ptr, GET_NUMERIC_PARAM fuel u64 l (offset_arg + 1) (λ bytescount,
      m ← the_text; _ ← lift (memdump_lines element_size m ptr bytescount); mret CMD_ERR_NO_ERROR))).
Definition command_memdump (l : args) : io S Z :=
  ASSERT_NUMARGS_GE l 1 (
    b ← arg_eq l 1 "help"%string; if (b : bool) then print_help else
    t ← ts l 1; m ← the_text;
    if 1 <? t.2 then
      c ← lift (load8 m t.1);
      if c =? 45 then e ← lift (load8 m (t.1 + 1)); memdump_run (command_memdump_get_elementsize e) 2 l
      else memdump_run DUMPSIZE_BYTES 1 l
    else memdump_run DUMPSIZE_BYTES 1 l).
Definition poke (address value : Z) : io S Z := λ '(m, w), m ← store_le 4 m address (u32 value); Ret (CMD_ERR_NO_ERROR, (m, w)).
Definition command_ww (l : args) : io S Z :=
  ASSERT_NUMARGS_GE l 1 (b ← arg_eq l 0 "help"%string; if (b : bool) then print_help else
    ASSERT_NUMARGS_EQ l 2 (GET_NUMERIC_PARAM fuel u64 l 0 (λ address, GET_NUMERIC_PARAM fuel s32 l 1 (λ value, poke address value)))).
Definition command_rw (l : args) : io S Z :=
  ASSERT_NUMARGS_GE l 1 (b ← arg_eq l 0 "help"%string; if (b : bool) then print_help else
    GET_NUMERIC_PARAM fuel u64 l 0 (λ address, m ← the_text; _ ← lift (load_le 4 m address); mret CMD_ERR_NO_ERROR)).

(** ** shiftreg.c *)
Definition command_shiftreg_pushbit (l : args) : io S Z :=
  ASSERT_NUMARGS_EQ l 1 (GET_NUMERIC_PARAM fuel u8 l 0 (λ bit_value,
    sr ← shiftreg_sr; check_status (on_device (shiftreg_push_bit shiftreg_ptr sr bit_value)))).
Definition command_shiftreg_pushbyte (l : args) : io S Z :=
  ASSERT_NUMARGS_EQ l 1 (GET_NUMERIC_PARAM fuel u8 l 0 (λ byte_value,
    sr ← shiftreg_sr; check_status (on_device (shiftreg_push_byte shiftreg_ptr sr byte_value)))).
Definition command_shiftreg_latch (l : args) : io S Z :=
  ASSERT_NUMARGS_EQ l 0 (sr ← shiftreg_sr; check_status (on_device (shiftreg_pulse_rclk shiftreg_ptr sr))).
Definition init_shiftreg (l : args) (k : Z → io S Z) : io S Z :=
  ASSERT_NUMARGS_EQ l 4 (GET_NUMERIC_PARAM fuel s32 l 0 (λ clk_wait, GET_NUMERIC_PARAM fuel s32 l 1 (λ ser,
    GET_NUMERIC_PARAM fuel s32 l 2 (λ srclk, GET_NUMERIC_PARAM fuel s32 l 3 (λ rclk,
      sr ← on_device (shiftreg_init shiftreg_ptr clk_wait ser srclk rclk SHIFTREG_INIT_PIN_DISABLED SHIFTREG_INIT_PIN_DISABLED); k sr))))).
Definition command_shiftreg_init (l : args) : io S Z := init_shiftreg l (λ sr,
  _ ← set_sr sr; mret (if sr =? 0 then CMD_ERR_EXECUTION_ERR else CMD_ERR_NO_ERROR)).
Definition command_shiftreg (l : args) : io S Z :=
  ASSERT_NUMARGS_GE l 1 (subcommands l 0
    [("help"%string, print_help); ("init"%string, command_shiftreg_init (tail l)); ("pushbit"%string, command_shiftreg_pushbit (tail l));
     ("pushbyte"%string, command_shiftreg_pushbyte (tail l)); ("latch"%string, command_shiftreg_latch (tail l))] (run_or CMD_ERR_UNKNOWN_SUBCMD)).

(** ** f5161ah.c *)
Definition command_f5161ah_init_with_shiftreg (l : args) : io S Z := init_shiftreg l (λ sr,
  if sr =? 0 then mret CMD_ERR_EXECUTION_ERR else check_status (on_device (f5161ah_init shiftreg_ptr sr))).
Definition command_f5161ah_init (l : args) : io S Z :=
  ASSERT_NUMARGS_GE l 1 (subcommands l 0 [("shiftreg"%string, command_f5161ah_init_with_shiftreg (tail l))] (run_or CMD_ERR_INVALID_ARGS)).
Definition show_char (value : Z) (dot : option Z) : io S Z :=
  dot ← lift (deref dot); check_status (on_device (f5161ah_display_char shiftreg_ptr value dot)).
(** [dot] is not initialised when a digit is the only word. *)
Definition command_f5161ah_show (CHAR_NULL : Z) (l : args) : io S Z :=
  ASSERT_NUMARGS_GE l 1 (
    t ← ts l 0; m ← the_text;
    if negb (t.2 =? 1) then mret CMD_ERR_INVALID_ARGS else
    c ← lift (load8 m t.1);
    if (48 <=? c) && (c <=? 57) then
      match l !! 1%nat with
      | None => show_char (c - 48) None
      | Some t => d ← lift (if t.2 =? 1 then load8 m t.1 else Ret 0); show_char (c - 48) (Some (if d =? 46 then 1 else 0))
      end
    else if c =? 46 then show_char CHAR_NULL (Some 1) else mret CMD_ERR_INVALID_ARGS).
(** One count from 9 down to 0, then the next. *)
Fixpoint count_from (n : nat) (value : Z) (k : io S Z) : io S Z :=
  match n with
  | O => k
  | Datatypes.S n => st ← on_device (f5161ah_display_char shiftreg_ptr value 0);
    if truth st then mret CMD_ERR_EXECUTION_ERR else count_from n (value - 1) k
  end.
Fixpoint countdowns (reps : nat) : io S Z :=
  match reps with O => mret CMD_ERR_NO_ERROR | Datatypes.S reps => count_from 10 9 (countdowns reps) end.
Definition command_f5161ah_countdown (l : args) : io S Z :=
  ASSERT_NUMARGS_EQ l 2 (GET_NUMERIC_PARAM fuel s32 l 0 (λ reps, GET_NUMERIC_PARAM fuel s32 l 1 (λ _, countdowns (Z.to_nat reps)))).
Definition command_f5161ah (CHAR_NULL : Z) (l : args) : io S Z :=
  ASSERT_NUMARGS_GE l 1 (subcommands l 0
    [("help"%string, print_help); ("init"%string, command_f5161ah_init (tail l)); ("show"%string, command_f5161ah_show CHAR_NULL (tail l));
     ("countdown"%string, command_f5161ah_countdown (tail l))] (run_or CMD_ERR_UNKNOWN_SUBCMD)).

(** ** A pin set from the shell *)

(** [t] is a word [w] of the text, followed by the byte [e]. *)
Definition word_at (m : mem) (t : Z * Z) (w : list Z) (e : Z) : Prop := bytes_at m t.1 (w ++ [e]) ∧ t.2 = Z.of_nat (length w).

Lemma strtoll_basis0 m p c : (0 < fuel)%nat → m !! p = Some c → isspace c = false → c ≠ 43 → c ≠ 45 → c ≠ 48 → strtoll fuel m p 0 = strtoll fuel m p 10.
Proof.
  intros Hf Hc Hs H1 H2 H3. destruct fuel as [|f]; [lia|]. unfold strtoll, SKIP_WHITESPACES. cbn [loop].
  rewrite !(load8_at _ _ _ Hc), !bind_ret, Hs, andb_false_r, !bind_ret, !(load8_at _ _ _ Hc), !bind_ret.
  destruct (Z.eqb_spec c 43); [done|]. rewrite !(load8_at _ _ _ Hc), !bind_ret. destruct (Z.eqb_spec c 45); [done|].
  rewrite !(load8_at _ _ _ Hc), !bind_ret. destruct (Z.eqb_spec c 48); [done|]. done.
Qed.

Lemma strtoll_zero m p e : (1 < fuel)%nat → bytes_at m p [48; e] → 0 ≤ e < 2 ^ 8 → isdigit e = false → e ≠ 120 → e ≠ 88 → strtoll fuel m p 0 = Ret (0, p + 1).
Proof.
  intros Hf Hb He Hd H1 H2. apply bytes_at_cons in Hb as [H0 Hb]. apply bytes_at_cons in Hb as [Hc _].
  destruct fuel as [|[|f]]; [lia..|]. unfold strtoll, SKIP_WHITESPACES. cbn [loop].
  rewrite !(load8_at _ _ _ H0), !bind_ret. change (isspace 48) with false. rewrite andb_false_r, !bind_ret, !(load8_at _ _ _ H0), !bind_ret.
  change (48 =? 43) with false. cbn match. rewrite !(load8_at _ _ _ H0), !bind_ret. change (48 =? 45) with false. cbn match.
  rewrite !(load8_at _ _ _ H0), !bind_ret. change (0 =? 0) with true. change (48 =? 48) with true. cbn match.
  rewrite !(load8_at _ _ _ Hc), !bind_ret.
  destruct (Z.eqb_spec e 120); [done|]. destruct (Z.eqb_spec e 88); [done|]. cbn [orb].
  change (2 =? 16) with false. change (2 =? 2) with true. cbn match. rewrite !bind_ret.
  assert (forward_walk (Datatypes.S (Datatypes.S f)) m stop2 p = Ret (p + 1)) as ->.
  { unfold forward_walk. cbn [loop]. rewrite !(load8_at _ _ _ H0), !bind_ret. change (stop2 48) with false. cbn [truth Z.eqb negb].
    rewrite !bind_ret, !(load8_at _ _ _ Hc), !bind_ret. destruct (truth e) eqn:E0; [|by rewrite !bind_ret].
    assert (stop2 e = true) as ->; [|by rewrite !bind_ret].
    unfold stop2, u8, isdigit in *. destruct (Z.leb_spec 48 e), (Z.leb_spec e 57); try done; zcases; dlia. }
  rewrite !bind_ret. unfold backward2. cbn [loop]. replace (p + 1 - 1) with p by lia. rewrite Z.leb_refl, !(load8_at _ _ _ H0), !bind_ret.
  change (48 =? 49) with false. cbn match. rewrite !bind_ret. destruct (Z.leb_spec p (p - 1)); [lia|]. by rewrite !bind_ret.
Qed.

(** A number as it is typed: [0], or digits that do not start with a 0. *)
Definition typed (ds : list Z) : Prop := is_digits ds ∧ (ds = [0] ∨ ∃ d ds', ds = d :: ds' ∧ d ≠ 0).

Lemma strtoll_typed m t ds e : typed ds → (length ds + 1 < fuel)%nat → dec_val ds < 2 ^ 63 → word_at m t (digit_chars ds) e →
  0 ≤ e < 2 ^ 8 → isdigit e = false → e ≠ 120 → e ≠ 88 → strtoll fuel m t.1 0 = Ret (dec_val ds, t.1 + Z.of_nat (length ds)).
Proof.
  intros [Hd [->|(d & ds' & -> & Hd0)]] Hf Hv [Hb _] He Hed H1 H2.
  - cbn in Hb. rewrite (strtoll_zero _ _ e); [done| |done..]. cbn in *. lia.
  - assert (0 ≤ d ≤ 9) by (by apply Forall_cons in Hd as [? _]).
    assert (m !! t.1 = Some (d + 48)) as Hc by (cbn in Hb; by apply bytes_at_cons in Hb as [? _]).
    rewrite (strtoll_basis0 _ _ (d + 48)); [|lia|done|unfold isspace; zcases; cbn; lia || done|lia..].
    by rewrite (strtoll_decimal fuel m t.1 false (d :: ds') e), Z.add_0_r.
Qed.

Lemma numeric_typed conv l n t ds e (k : Z → io S Z) m w : l !! n = Some t → typed ds → (length ds + 1 < fuel)%nat → dec_val ds < 2 ^ 63 →
  word_at m t (digit_chars ds) e → 0 ≤ e < 2 ^ 8 → isdigit e = false → e ≠ 120 → e ≠ 88 →
  GET_NUMERIC_PARAM fuel conv l n k (m, w) = k (conv (dec_val ds)) (m, w).
Proof.
  intros Hl Hd Hf Hv Hw He Hed H1 H2. unfold GET_NUMERIC_PARAM, ts, the_text, lift.
  rewrite (io_bind_ret _ _ _ t (m, w)) by (by rewrite Hl). rewrite (io_bind_ret _ _ _ m (m, w)) by done.
  rewrite (io_bind_ret _ _ _ (dec_val ds, t.1 + Z.of_nat (length ds)) (m, w)) by (by rewrite (strtoll_typed m t ds e)).
  cbn [fst snd]. destruct (Z.eqb_spec t.1 (t.1 + Z.of_nat (length ds))); [|done]. destruct Hd as [_ [->|(? & ? & -> & _)]]; cbn in *; lia.
Qed.

Lemma eq_word l n t word e str m (w : W) : l !! n = Some t → word_at m t word e → Forall (λ b, 0 < b < 2 ^ 8) word →
  Forall (λ b, 0 < b < 2 ^ 8) (chars str) → arg_eq l n str (m, w) = Ret (bool_decide (word `prefix_of` chars str), (m, w)).
Proof.
  intros Hl [Hb Ht] Hw Hs. unfold arg_eq, ts, the_text, lift. rewrite (io_bind_ret _ _ _ t (m, w)) by (by rewrite Hl).
  rewrite (io_bind_ret _ _ _ m (m, w)) by done. unfold string_token_eq. rewrite Ht, Nat2Z.id.
  apply bytes_at_app in Hb as [Hb _]. by rewrite (token_is_prefix _ _ _ _ Hb Hw Hs).
Qed.

Definition ends_number (e : Z) : Prop := 0 ≤ e < 2 ^ 8 ∧ isdigit e = false ∧ e ≠ 120 ∧ e ≠ 88.

(** C36: [gpio set P V] with a typed pin number and a value of 0 or 1 writes the
    pin's bit, and no other, to the pin's set register (1) or clear register (0)
    and reports success.  So it does for a pin above 53, for which nothing is
    written. *)
Theorem gpio_set_writes m d sr t0 t1 t2 e0 ds e1 v e2 :
  word_at m t0 (chars "set") e0 → word_at m t1 (digit_chars ds) e1 → word_at m t2 [48 + v] e2 →
  typed ds → (length ds + 1 < fuel)%nat → dec_val ds < 2 ^ 31 → v = 0 ∨ v = 1 → ends_number e1 → ends_number e2 →
  command_gpio [t0; t1; t2] (m, (d, sr)) = Ret (CMD_ERR_NO_ERROR,
    (m, (if dec_val ds <=? GPIO_MAX_PIN_IDX
         then mmio_write ((if v =? 1 then GPIO_REG_GPSET0 else GPIO_REG_GPCLR0) + 4 * (dec_val ds / 32)) (2 ^ (dec_val ds mod 32)) d else d, sr))).
Proof.
  intros Ht0 Ht1 Ht2 Hds Hf Hv32 Hv (He1 & Hd1 & Hx1 & Hy1) (He2 & Hd2 & Hx2 & Hy2).
  pose proof (dec_val_bounds ds (proj1 Hds)) as Hpos.
  unfold command_gpio, ASSERT_NUMARGS_GE. change (Z.of_nat (length [t0; t1; t2]) <? 1) with false. cbn match.
  cbn [subcommands]. rewrite (io_bind_ret _ _ _ false (m, (d, sr))) by (rewrite (eq_word _ _ t0 _ e0) by (first [done|repeat constructor]); done).
  cbn match. rewrite (io_bind_ret _ _ _ true (m, (d, sr))) by (rewrite (eq_word _ _ t0 _ e0) by (first [done|repeat constructor]); done).
  cbn [run_or tail]. unfold command_gpio_set, ASSERT_NUMARGS_EQ. change (negb (Z.of_nat (length [t1; t2]) =? 2)) with false. cbn match.
  rewrite (numeric_typed _ _ _ t1 ds e1) by (done || lia). rewrite s32_id by lia.
  assert (0 < length ds)%nat as Hlen by (destruct Hds as [_ [->|(? & ? & -> & _)]]; cbn; lia).
  assert (typed [v]) as Hv1.
  { split; [apply Forall_singleton; lia|]. destruct Hv as [-> | ->]; [by left|right; by exists 1, []]. }
  rewrite (numeric_typed _ _ _ t2 [v] e2); try done; [|cbn; lia|unfold dec_val; cbn; lia|cbn; by rewrite Z.add_comm].
  replace (s32 (dec_val [v])) with v by (by destruct Hv as [->| ->]).
  assert (negb (v =? 0) && negb (v =? 1) = false) as -> by (by destruct Hv as [->| ->]).
  set (r := if v =? 1 then _ else _).
  assert ((if truth v then gpio_set_on (D:=led_drv D) (u32 (dec_val ds)) else gpio_set_off (u32 (dec_val ds))) = GPIO_32PIN_SET_CHEKCED (u32 (dec_val ds)) r) as -> by (by destruct Hv as [->| ->]).
  rewrite u32_id by lia. unfold GPIO_32PIN_SET_CHEKCED, checked. rewrite Z.leb_antisym.
  destruct (GPIO_MAX_PIN_IDX <? dec_val ds); [done|]. cbn [negb].
  assert (0 < 2 ^ (dec_val ds mod 32) < 2 ^ 32) as Hbit by (split; [apply Z.pow_pos_nonneg; dlia|apply Z.pow_lt_mono_r; dlia]).
  rewrite Z.shiftl_1_l, (io_bind_ret _ _ _ ERR_OK (m, (mmio_write (r + 4 * (dec_val ds / 32)) (2 ^ (dec_val ds mod 32)) d, sr))); [done|].
  unfold on_device. by rewrite write_reg_bind, u32_id by lia.
Qed.


(** ** The table of commands (cmdrunner_init) *)
Definition CMD_ERR_NOT_IMPLEMENTED : Z := 255.
Definition command_ls (l : args) : io S Z := mret CMD_ERR_NOT_IMPLEMENTED.
Definition command_help (l : args) : io S Z := mret CMD_ERR_NO_ERROR.

(** In the order they are added; the commands of other drivers are parameters. *)
Definition command_list (CHAR_NULL : Z) (max7219 mbox spi ps : args → io S Z) : list (string * (args → io S Z)) :=
  [("clock"%string, command_clock); ("f5161ah"%string, command_f5161ah CHAR_NULL); ("gpio"%string, command_gpio);
   ("help"%string, command_help); ("ls"%string, command_ls); ("max7219"%string, max7219); ("mbox"%string, mbox);
   ("memdump"%string, command_memdump); ("rw"%string, command_rw); ("pwm"%string, command_pwm);
   ("shiftreg"%string, command_shiftreg); ("sleep"%string, command_sleep); ("spi"%string, spi);
   ("ww"%string, command_ww); ("ps"%string, ps)].
(** A function is the position of its command. *)
Definition command_table (l : list (string * (args → io S Z))) : list command_t := imap (λ i c, Command (chars (fst c)) (Z.of_nat i)) l.
Definition call_command (l : list (string * (args → io S Z))) (func : Z) (a : args) : io S Z :=
  match l !! Z.to_nat func with Some c => snd c a | None => lift Fault end.
End commands.

(** ** A shell on a bank of registers *)
Definition demo_drv : led_drv bank := LedDrv ∅ (ShiftReg 0 0 0 0 0 0) false 0 false.
Definition demo_call : Z → list (Z * Z) → io (mem * (led_drv bank * Z)) Z :=
  let no := λ _, mret CMD_ERR_NO_ERROR in call_command (command_list 1 (Z.to_nat 1100) 0 no no no no).
Definition demo_shell : shell (led_drv bank * Z) :=
  let no := λ _, mret CMD_ERR_NO_ERROR in
  Shell (mem_of 4096 (replicate (Z.to_nat 9256) 0)) 4096 (replicate 8 0) 0 0
    (command_table (command_list 1 (Z.to_nat 1100) 0 no no no no)) 0 [] (demo_drv, 0).
(** What a text typed on it leaves in the registers of the pins that are set. *)
Definition typed_text (cs : list Z) : option Z :=
  match handle_chars 4096 5128 demo_call (Z.to_nat 1100) cs demo_shell with
  | Ret s => Some (bank_get (led_regs (fst (world s))) GPIO_REG_GPSET0)
  | _ => None
  end.

(** Typing [gpio set 17 1] sets pin 17. *)
Example typed_set : typed_text (chars "gpio set 17 1" ++ [10]) = Some (2 ^ 17).
Proof. vm_compute. reflexivity. Qed.

(** A backspace takes a digit off the line, but its character stays in the
    buffer and the parser of the number before it still reads it: with a [0]
    typed and taken back the value is read as 10 and the command refused. *)
Example backspaced_digit_counts : typed_text (chars "gpio set 17 10" ++ [8; 10]) = Some 0.
Proof. vm_compute. reflexivity. Qed.

(** Witness: the line of the example. *)
Lemma gpio_set_writes_witness :
  command_gpio (D := bank) 20 [(100, 3); (104, 2); (107, 1)] (mem_of 100 (chars "set 17 1" ++ [0]), (demo_drv, 0))
  = Ret (CMD_ERR_NO_ERROR, (mem_of 100 (chars "set 17 1" ++ [0]), (mmio_write GPIO_REG_GPSET0 (2 ^ 17) demo_drv, 0))).
Proof.
  apply (gpio_set_writes (D := bank) 20 (mem_of 100 (chars "set 17 1" ++ [0])) demo_drv 0 (100, 3) (104, 2) (107, 1) 32 [1; 7] 32 1 0).
  1-3: split; [|done]; repeat (apply bytes_at_cons; split; [by vm_compute|]); apply bytes_at_nil.
  - split; [repeat constructor; lia|]. right. by exists 1, [7].
  - cbn. lia.
  - cbn. lia.
  - by right.
  - by repeat split.
  - by repeat split.
Defined.
