(* ===== verification/Servo.v ===== *)
(** * PWM channels, the servo and the generic timer (pwm.c,
    drivers/servo/sg90/sg90.c, arch/armv8/armv8_generic_timer.c)

    The parts that calculate with [float]: single precision is the Standard
    Library's specification of IEEE 754, with 24 bits of mantissa, rounding to
    the nearest.  A channel owns a slot of a pool and a pin of the registry; the
    servo drives any PWM through its operations. *)

From Stdlib Require Import SpecFloat.
From S2P Require Import Prelude Bits Lists Rings Exceptions Mmio GpioSet Gpio Clocks.

(** ** [float] *)
Definition f32_of_Z (z : Z) : spec_float := binary_normalize 24 128 z 0 false.
Definition f32_div : spec_float → spec_float → spec_float := SFdiv 24 128.
Definition f32_mul : spec_float → spec_float → spec_float := SFmul 24 128.
Definition f32_add : spec_float → spec_float → spec_float := SFadd 24 128.
Definition f32_sub : spec_float → spec_float → spec_float := SFsub 24 128.

(** The conversion to an unsigned integer of [bits] bits drops the fraction; a
    value out of range is undefined. *)
Definition f32_to_unsigned (bits : Z) (f : spec_float) : outcome Z :=
  match f with
  | S754_zero _ => Ret 0
  | S754_finite s m e =>
    let v := Z.shiftl (Zpos m) e in
    if s then (if v =? 0 then Ret 0 else Fault) else if v <? 2 ^ bits then Ret v else Fault
  | _ => Fault
  end.

(** ** The generic timer *)
Definition USEC_PER_SEC : Z := 1000000.
Definition TIMER_ID_ARM_GENERIC_TIMER : Z := 3.

(** [timer_data] of the CPU, and its timer's control and value registers. *)
Record generic_timer := GenericTimer {
  gt_cb : Z; gt_cb_arg : Z; is_oneshot : bool; cntp_ctl_el0 : Z; cntp_tval_el0 : Z; cntfrq_el0 : Z }.
Definition set_ctl (t : generic_timer) (v : Z) : generic_timer :=
  GenericTimer (gt_cb t) (gt_cb_arg t) (is_oneshot t) (u64 v) (cntp_tval_el0 t) (cntfrq_el0 t).
Definition armv8_timer_interrupt_disable (t : generic_timer) : generic_timer := set_ctl t (Z.lor (cntp_ctl_el0 t) 2).
Definition armv8_timer_disable (t : generic_timer) : generic_timer := set_ctl t (Z.ldiff (cntp_ctl_el0 t) 1).
Definition armv8_timer_enable_with_interrupt (t : generic_timer) : generic_timer := set_ctl t 1.
(** The value register has 32 bits. *)
Definition armv8_timer_set_timer_value (v : Z) (t : generic_timer) : generic_timer :=
  GenericTimer (gt_cb t) (gt_cb_arg t) (is_oneshot t) (cntp_ctl_el0 t) (u32 v) (cntfrq_el0 t).

(** The callback that is called, with its argument. *)
Definition irq_handler_arm_generic_timer (t : generic_timer) : generic_timer * option (Z * Z) :=
  let t := if is_oneshot t then armv8_timer_interrupt_disable t else t in
  (t, if gt_cb t =? 0 then None else Some (gt_cb t, gt_cb_arg t)).

Definition wait_counts (counter_freq usec : Z) : outcome Z :=
  f32_to_unsigned 64 (f32_mul (f32_div (f32_of_Z counter_freq) (f32_of_Z USEC_PER_SEC)) (f32_of_Z usec)).
Definition armv8_generic_timer_set_oneshot (usec cb cb_arg : Z) (t : generic_timer) : outcome (generic_timer * Z) :=
  let t := GenericTimer cb cb_arg true (cntp_ctl_el0 t) (cntp_tval_el0 t) (cntfrq_el0 t) in
  counts ← wait_counts (u32 (cntfrq_el0 t)) (u32 usec);
  Ret (armv8_timer_enable_with_interrupt (armv8_timer_set_timer_value counts t), ERR_OK).
(** Nothing is set. *)
Definition armv8_generic_timer_set_periodic (usec cb cb_arg : Z) (t : generic_timer) : outcome (generic_timer * Z) := Ret (t, ERR_OK).
Definition armv8_generic_timer_interrupt_enable (cpu handler : Z) (s : irq_state) : outcome (irq_state * Z) :=
  '(s, _) ← irq_local_set s cpu handler; Ret (s, ERR_OK).
Definition armv8_generic_timer_init (timer : Z) (ts : timer_table) (t : generic_timer) : timer_table * generic_timer * Z :=
  let '(ts, ret) := timer_register ts timer TIMER_ID_ARM_GENERIC_TIMER in
  if negb (ret =? ERR_OK) then (ts, t, ret) else (ts, armv8_timer_disable t, ERR_OK).

(** ** PWM channels *)

(** [struct pwm_bcm2835] and [struct servo_sg90] without their list links. *)
Record pwm_bcm2835 := PwmBcm2835 { gpio_pin : Z; gpio_key : list Z; gpio_handle : Z; channel : Z }.
Definition pwm_zero : pwm_bcm2835 := PwmBcm2835 0 [] 0 0.

(** The registers, the pin registry, the list nodes, the objects by their
    address, and the static variables of both files. *)
Record motors (D : Type) := Motors {
  mhw : D; mpins : gpio_state; mnodes : heap; pwms : gmap Z pwm_bcm2835; pwm_bcm2835_initialized : bool;
  servos : gmap Z Z; servo_sg90_initialized : bool;
  gpio_set_handle_pwm : Z; gpio_pin_pwm0 : Z; gpio_pin_pwm1 : Z }.
Arguments Motors {D}.
Arguments mhw {D}.
Arguments mpins {D}.
Arguments mnodes {D}.
Arguments pwms {D}.
Arguments pwm_bcm2835_initialized {D}.
Arguments servos {D}.
Arguments servo_sg90_initialized {D}.
Arguments gpio_set_handle_pwm {D}.
Arguments gpio_pin_pwm0 {D}.
Arguments gpio_pin_pwm1 {D}.

Section with_fields.
Context {D : Type}.
Implicit Types s : motors D.
Definition with_hw s (d : D) : motors D := Motors d (mpins s) (mnodes s) (pwms s) (pwm_bcm2835_initialized s) (servos s) (servo_sg90_initialized s) (gpio_set_handle_pwm s) (gpio_pin_pwm0 s) (gpio_pin_pwm1 s).
Definition with_pins s (g : gpio_state) : motors D := Motors (mhw s) g (mnodes s) (pwms s) (pwm_bcm2835_initialized s) (servos s) (servo_sg90_initialized s) (gpio_set_handle_pwm s) (gpio_pin_pwm0 s) (gpio_pin_pwm1 s).
Definition with_mnodes s (σ : heap) : motors D := Motors (mhw s) (mpins s) σ (pwms s) (pwm_bcm2835_initialized s) (servos s) (servo_sg90_initialized s) (gpio_set_handle_pwm s) (gpio_pin_pwm0 s) (gpio_pin_pwm1 s).
Definition with_pwms s (m : gmap Z pwm_bcm2835) (b : bool) : motors D := Motors (mhw s) (mpins s) (mnodes s) m b (servos s) (servo_sg90_initialized s) (gpio_set_handle_pwm s) (gpio_pin_pwm0 s) (gpio_pin_pwm1 s).
Definition with_servos s (m : gmap Z Z) (b : bool) : motors D := Motors (mhw s) (mpins s) (mnodes s) (pwms s) (pwm_bcm2835_initialized s) m b (gpio_set_handle_pwm s) (gpio_pin_pwm0 s) (gpio_pin_pwm1 s).
Definition with_prepared s (h p0 p1 : Z) : motors D := Motors (mhw s) (mpins s) (mnodes s) (pwms s) (pwm_bcm2835_initialized s) (servos s) (servo_sg90_initialized s) h p0 p1.
End with_fields.

#[export] Instance motors_mmio {D} `{Mmio D} : Mmio (motors D) := {|
  mmio_read r s := let '(v, d) := mmio_read r (mhw s) in (v, with_hw s d);
  mmio_write r v s := with_hw s (mmio_write r v (mhw s)) |}.

(** What a PWM offers to its clients ([struct pwm]). *)
Record pwm_ops (S : Type) := PwmOps {
  set_clk_freq : Z → io S Z; pwm_set_both : Z → Z → io S Z; set_range : Z → io S Z; set_data : Z → io S Z; release : io S Z }.
Arguments PwmOps {S}.
Arguments set_clk_freq {S}.
Arguments pwm_set_both {S}.
Arguments set_range {S}.
Arguments set_data {S}.
Arguments release {S}.

(** "PWM_KEYS_______", "BCM2835_PWM__0_", "BCM2835_PWM__1_" *)
Definition pwm_key : list Z := [80; 87; 77; 95; 75; 69; 89; 83; 95; 95; 95; 95; 95; 95; 95].
Definition bcm2835_gpio_key_pwm_chan_0 : list Z := [66; 67; 77; 50; 56; 51; 53; 95; 80; 87; 77; 95; 95; 48; 95].
Definition bcm2835_gpio_key_pwm_chan_1 : list Z := [66; 67; 77; 50; 56; 51; 53; 95; 80; 87; 77; 95; 95; 49; 95].
Definition CM_SETCLK_SRC_OSC : Z := 1.
Definition CM_SETCLK_MASH_OFF : Z := 0.

Section pwm.
Context {D : Type} `{Mmio D} (pwm_pool servo_pool : slot_pool) (fuel : nat).
Abbreviation S := (motors D).

Definition pwm_bcm2835_init : io S unit := λ s,
  σ ← STATIC_SLOT_INIT_FREE (mnodes s) pwm_pool;
  Ret (tt, with_pwms (with_mnodes s σ) (list_to_map (map (λ x, (x, pwm_zero)) (slot_nodes pwm_pool))) true).

(** The divisor of an unsigned division is the argument as unsigned. *)
Definition bcm2835_set_pwm_clk_freq (hz : Z) : io S Z :=
  let pwm_clock_hz := 19200000 in
  if u32 hz =? 0 then lift Fault else
  let divi := pwm_clock_hz / u32 hz in
  divf ← lift (f32_to_unsigned 32 (f32_mul (f32_sub (f32_div (f32_of_Z pwm_clock_hz) (f32_of_Z hz)) (f32_of_Z divi)) (f32_of_Z 10000)));
  err ← cm_set_clock CM_CLK_ID_PWM CM_SETCLK_SRC_OSC CM_SETCLK_MASH_OFF divi divf;
  mret (if negb (err =? ERR_OK) then err else ERR_OK).

Definition get_pwm (p : Z) : io S pwm_bcm2835 := λ s, x ← deref (pwms s !! p); Ret (x, s).
Definition put_pwm (p : Z) (x : pwm_bcm2835) : io S unit := λ s, Ret (tt, with_pwms s (<[p := x]> (pwms s)) (pwm_bcm2835_initialized s)).
Definition pwm_bcm2835_alloc : io S Z := λ s, '(σ, x) ← slot_alloc (mnodes s) pwm_pool; Ret (x, with_mnodes s σ).
Definition pwm_bcm2835_release (p : Z) : io S unit := λ s, σ ← slot_release (mnodes s) pwm_pool p; Ret (tt, with_mnodes s σ).
Definition request_pin (pin : Z) (key : list Z) : io S Z := λ s,
  '(g, h) ← gpio_set_request_1_pins (mpins s) pin key; Ret (h, with_pins s g).
Definition PWM_RELEASE_GPIO_HANDLE (handle : Z) : io S unit := λ s,
  '(g, err) ← gpio_set_release (mpins s) handle;
  if negb (err =? ERR_OK) then Panic else Ret (tt, with_pins s g).

Definition pwm_bcm2835_disable (p : Z) : io S Z :=
  x ← get_pwm p;
  let choff := Z.shiftl (channel x) 3 in
  ctl ← read_reg PWM_CTL;
  _ ← PWM_CTL_WRITE fuel (BIT_CLEAR_U32 ctl (PWM_CTL_PWEN1 + choff));
  _ ← gpio_set_off (gpio_pin x);
  _ ← gpio_set_function (gpio_pin x) GPIO_FUNC_OUT;
  _ ← PWM_RELEASE_GPIO_HANDLE (gpio_handle x);
  _ ← pwm_bcm2835_release p;
  mret ERR_OK.

(** The function of a pin, -1 for another pin. *)
Definition alt_func_pwm (pin alt0 alt5 : Z) : Z := if pin =? alt0 then GPIO_FUNC_ALT_0 else if pin =? alt5 then GPIO_FUNC_ALT_5 else -1.
Definition request_pins (pins : list Z) (key : list Z) : io S Z := λ s,
  '(g, h) ← gpio_set_request_n_pins (mpins s) pins key; Ret (h, with_pins s g).
Definition set_prepared (h p0 p1 : Z) : io S unit := λ s, Ret (tt, with_prepared s h p0 p1).
Definition enable_pin (pin func ch : Z) : io S unit :=
  if func =? -1 then mret tt else _ ← gpio_set_function (u32 pin) func; _ ← pwm_enable fuel ch 1; mret tt.
Definition pwm_prepare (gpio_pwm0 gpio_pwm1 : Z) : io S Z :=
  let alt_func_pwm_0 := alt_func_pwm gpio_pwm0 12 18 in
  let alt_func_pwm_1 := alt_func_pwm gpio_pwm1 13 19 in
  if (alt_func_pwm_0 =? -1) && (alt_func_pwm_1 =? -1) then mret ERR_INVAL_ARG else
  h ← request_pins [gpio_pwm0; gpio_pwm1] pwm_key;
  if h =? GPIO_SET_INVALID_HANDLE then mret ERR_BUSY else
  _ ← set_prepared h gpio_pwm0 gpio_pwm1;
  _ ← enable_pin gpio_pwm0 alt_func_pwm_0 0;
  _ ← enable_pin gpio_pwm1 alt_func_pwm_1 1;
  mret ERR_OK.

(** The three setters, of the object's channel. *)
Definition pwm_bcm2835_set_of (p range data : Z) : io S Z := x ← get_pwm p; pwm_bcm2835_set (channel x) range data.
Definition pwm_bcm2835_set_range_of (p range : Z) : io S Z := x ← get_pwm p; pwm_bcm2835_set_range (channel x) range.
Definition pwm_bcm2835_set_data_of (p data : Z) : io S Z := x ← get_pwm p; pwm_bcm2835_set_data (channel x) data.
Definition pwm_bcm2835_ops (p : Z) : pwm_ops S :=
  PwmOps (λ hz, bcm2835_set_pwm_clk_freq hz) (pwm_bcm2835_set_of p) (pwm_bcm2835_set_range_of p) (pwm_bcm2835_set_data_of p) (pwm_bcm2835_disable p).

(** The channel of a pin and its key. *)
Definition pin_channel (gpio_pin : Z) : option (Z * list Z) :=
  if (gpio_pin =? 12) || (gpio_pin =? 18) then Some (0, bcm2835_gpio_key_pwm_chan_0)
  else if (gpio_pin =? 13) || (gpio_pin =? 19) then Some (1, bcm2835_gpio_key_pwm_chan_1) else None.
Definition create_failed (p err : Z) : io S (Z + Z) := _ ← pwm_bcm2835_release p; mret (inl err).
(** [inl]: an error pointer. *)
Definition pwm_bcm2835_create (pin ms_mode : Z) : io S (Z + Z) := λ s,
  if negb (pwm_bcm2835_initialized s) then Ret (inl ERR_NOT_INIT, s) else
  '(p, s) ← pwm_bcm2835_alloc s;
  if p =? NULL then Ret (inl ERR_BUSY, s) else
  match pin_channel pin with
  | None => create_failed p ERR_INVAL_ARG s
  | Some (ch, key) =>
    let gpio_func := if pin - ch =? 12 then GPIO_FUNC_ALT_0 else GPIO_FUNC_ALT_5 in
    '(h, s) ← request_pin pin key s;
    '(x, s) ← get_pwm p s;
    '(_, s) ← put_pwm p (PwmBcm2835 (gpio_pin x) (gpio_key x) h (channel x)) s;
    if h =? GPIO_SET_INVALID_HANDLE then create_failed p ERR_BUSY s else
    '(_, s) ← put_pwm p (PwmBcm2835 pin key h (channel x)) s;
    '(_, s) ← gpio_set_function pin gpio_func s;
    '(err, s) ← pwm_enable fuel ch ms_mode s;
    if negb (err =? ERR_OK) then
      (_ ← gpio_set_function pin GPIO_FUNC_OUT; _ ← gpio_set_off pin; _ ← PWM_RELEASE_GPIO_HANDLE h; create_failed p err) s
    else '(_, s) ← put_pwm p (PwmBcm2835 pin key h ch) s; Ret (inr p, s)
  end.

(** ** The servo *)
Definition SG90_RANGE_START : Z := 60.
Definition SG90_RANGE_END : Z := 250.
Definition SG90_RANGE : Z := SG90_RANGE_END - SG90_RANGE_START.
Definition SG90_RANGE_FULL : Z := 2000.
Definition SG90_MIN_DEGREE : Z := -90.
Definition SG90_MAX_DEGREE : Z := 90.
Definition SG90_DEGREE_RANGE : Z := SG90_MAX_DEGREE - SG90_MIN_DEGREE.

(** [ops]: the operations behind a pointer to a PWM. *)
Context (ops : Z → pwm_ops S).
Definition servo_data (angle : Z) : outcome Z :=
  let normal_angle := Z.min (Z.max angle SG90_MIN_DEGREE) SG90_MAX_DEGREE - SG90_MIN_DEGREE in
  let norm := f32_div (f32_of_Z normal_angle) (f32_of_Z SG90_DEGREE_RANGE) in
  f32_to_unsigned 32 (f32_add (f32_of_Z SG90_RANGE_START) (f32_mul (f32_of_Z SG90_RANGE) norm)).
Definition get_servo (x : Z) : io S Z := λ s, p ← deref (servos s !! x); Ret (p, s).
Definition servo_sg90_set_angle (servo angle : Z) : io S Z :=
  p ← get_servo servo; data ← lift (servo_data angle); set_data (ops p) data.
Definition servo_sg90_release (x : Z) : io S unit := λ s, σ ← slot_release (mnodes s) servo_pool x; Ret (tt, with_mnodes s σ).
Definition servo_sg90_destroy (servo : Z) : io S Z :=
  p ← get_servo servo; err ← release (ops p);
  if truth err then lift Panic else _ ← servo_sg90_release servo; mret ERR_OK.
Definition put_servo (x p : Z) : io S unit := λ s, Ret (tt, with_servos s (<[x := p]> (servos s)) (servo_sg90_initialized s)).
Definition servo_sg90_alloc : io S Z := λ s, '(σ, x) ← slot_alloc (mnodes s) servo_pool; Ret (x, with_mnodes s σ).
(** An empty pool gives a null pointer, which is not an error pointer: it is
    written to. *)
Definition servo_sg90_create (pwm : Z) : io S (Z + Z) := λ s,
  if negb (servo_sg90_initialized s) then Ret (inl ERR_NOT_INIT, s) else
  '(x, s) ← servo_sg90_alloc s;
  if x =? NULL then Fault else
  '(_, s) ← put_servo x pwm s;
  '(_, s) ← set_clk_freq (ops pwm) 100000 s;
  '(_, s) ← set_range (ops pwm) SG90_RANGE_FULL s;
  Ret (inr x, s).
Definition servo_sg90_init : io S Z := λ s,
  σ ← STATIC_SLOT_INIT_FREE (mnodes s) servo_pool;
  Ret (ERR_OK, with_servos (with_mnodes s σ) (list_to_map (map (λ x, (x, 0)) (slot_nodes servo_pool))) true).
End pwm.

(** ** The angle *)

Definition clamped (angle : Z) : Z := Z.min (Z.max angle (-90)) 90.

Lemma servo_data_floor angle : servo_data angle = Ret (60 + 190 * (clamped angle + 90) / 180).
Proof.
  set (calc n := f32_to_unsigned 32 (f32_add (f32_of_Z SG90_RANGE_START) (f32_mul (f32_of_Z SG90_RANGE) (f32_div (f32_of_Z n) (f32_of_Z SG90_DEGREE_RANGE))))).
  assert (forallb (λ n, match calc (Z.of_nat n) with Ret v => v =? 60 + 190 * Z.of_nat n / 180 | _ => false end) (seq 0 181) = true) as Hall by (vm_compute; reflexivity).
  rewrite forallb_forall in Hall. unfold servo_data, clamped, SG90_MIN_DEGREE, SG90_MAX_DEGREE. fold (calc (Z.min (Z.max angle (-90)) 90 - -90)).
  replace (Z.min (Z.max angle (-90)) 90 - -90) with (Z.min (Z.max angle (-90)) 90 + 90) by lia.
  assert (0 ≤ Z.min (Z.max angle (-90)) 90 + 90 < 181) as Hn by lia. revert Hn. generalize (Z.min (Z.max angle (-90)) 90 + 90). intros n Hn.
  specialize (Hall (Z.to_nat n) ltac:(apply in_seq; lia)). cbv beta in Hall. rewrite Z2Nat.id in Hall by lia.
  destruct (calc n); try done. apply Z.eqb_eq in Hall. congruence.
Qed.

(** C25: turning a servo writes the data register of its channel, once and
    nothing else.  The calculation in single precision gives what the exact one
    gives, rounded down, for every angle: 60 ticks at -90 degrees and below, 250
    at 90 and above, and in proportion between them. *)
Theorem servo_turns {D} `{Mmio D} pool fuel (s : motors D) x p c angle :
  servos s !! x = Some p → pwms s !! p = Some c →
  let data := 60 + 190 * (clamped angle + 90) / 180 in
  servo_sg90_set_angle (pwm_bcm2835_ops pool fuel) x angle s
  = Ret (ERR_OK, with_hw s (mmio_write (PWM_DAT1 + 16 * channel c) data (mhw s))) ∧ 60 ≤ data ≤ 250.
Proof.
  intros Hx Hp data. assert (60 ≤ data ≤ 250) as Hd by (unfold data, clamped; dlia). split; [|done].
  unfold servo_sg90_set_angle. rewrite (io_bind_ret _ _ _ p s) by (unfold get_servo; by rewrite Hx).
  rewrite servo_data_floor. fold data. rewrite (io_bind_ret _ _ _ data s) by done. cbn [set_data pwm_bcm2835_ops].
  unfold pwm_bcm2835_set_data_of. rewrite (io_bind_ret _ _ _ c s) by (unfold get_pwm; by rewrite Hp).
  unfold pwm_bcm2835_set_data. rewrite write_reg_bind, u32_id by lia.
  replace (4 * Z.shiftl (channel c) 2) with (16 * channel c) by (rewrite Z.shiftl_mul_pow2 by lia; lia). done.
Qed.

(** ** Ownership of a channel *)

(** A controller whose channel empties, and that reports no bus error. *)
Class PwmIdle (D : Type) `{Mmio D} : Prop :=
  pwm_idle (d : D) : Z.testbit (fst (mmio_read PWM_STA d)) PWM_STA_EMPT1 = true ∧ Z.testbit (fst (mmio_read PWM_STA d)) PWM_STA_BERR = false.

Section ownership.
Context {D : Type} `{PwmIdle D} (p : slot_pool) (fuel : nat).
Context (Hp : slot_free p ≠ slot_active p) (Hfuel : (0 < fuel)%nat).
Abbreviation S := (motors D).
Implicit Types s : S.

(** [m] returns, its result satisfies [Q] and it changes registers only. *)
Definition on_regs {A} (m : io S A) s (Q : A → Prop) : Prop := ∃ a d, m s = Ret (a, with_hw s d) ∧ Q a.

Lemma on_regs_ret {A} (a : A) s (Q : A → Prop) : Q a → on_regs (mret a) s Q.
Proof. intros Ha. exists a, (mhw s). split; [by destruct s|done]. Qed.
Lemma on_regs_bind {A B} (m : io S A) (f : A → io S B) s (Q : A → Prop) (R : B → Prop) :
  on_regs m s Q → (∀ a d, Q a → on_regs (f a) (with_hw s d) R) → on_regs (m ≫= f) s R.
Proof.
  intros (a & d & E & Ha) Hf. destruct (Hf a d Ha) as (b & d' & E' & Hb). exists b, d'. split; [|done].
  by rewrite (io_bind_ret _ _ _ _ _ E), E'.
Qed.
Lemma on_regs_read r s : on_regs (read_reg r) s (λ v, ∃ d : D, v = fst (mmio_read r d)).
Proof.
  unfold on_regs, read_reg. cbn. destruct (mmio_read r (mhw s)) as [v d] eqn:E. exists v, d. split; [done|]. exists (mhw s). by rewrite E.
Qed.
Lemma on_regs_write r v s : on_regs (write_reg r v) s (λ _, True).
Proof. by exists tt, (mmio_write r (u32 v) (mhw s)). Qed.

Lemma truth_testbit v w i : 0 ≤ i → Z.testbit v i = true → Z.testbit w i = true → truth (Z.land v w) = true.
Proof.
  intros Hi Hv Hw. unfold truth. destruct (Z.eqb_spec (Z.land v w) 0) as [E|]; [|done].
  assert (Z.testbit (Z.land v w) i = false) as Hf by (by rewrite E, Z.bits_0). by rewrite Z.land_spec, Hv, Hw in Hf.
Qed.

Lemma on_regs_loop {A} (body : io S (option A)) s (Q : A → Prop) : on_regs body s (λ o, ∃ a, o = Some a ∧ Q a) → on_regs (io_loop fuel body) s Q.
Proof.
  intros (o & d & E & a & -> & Ha). exists a, d. split; [|done]. unfold io_loop. rewrite loop_step by lia. by rewrite E.
Qed.

Lemma PWM_CTL_WRITE_ok x s : on_regs (PWM_CTL_WRITE fuel x) s (λ _, True).
Proof.
  apply on_regs_loop. eapply on_regs_bind; [apply on_regs_write|]. intros _ d _. eapply on_regs_bind; [apply on_regs_read|].
  intros v d' [d0 ->]. apply on_regs_ret. destruct (pwm_idle d0) as [_ Hb]. exists tt. split; [|done].
  rewrite Z.shiftl_1_l. unfold truth. by rewrite land_pow2_eqb, Hb by done.
Qed.

Lemma pwm_wait_idle_ok ch s : 0 ≤ ch → on_regs (pwm_wait_idle fuel ch) s (λ _, True).
Proof.
  intros Hch. apply on_regs_loop. eapply on_regs_bind; [apply on_regs_read|]. intros v d' [d0 ->]. destruct (pwm_idle d0) as [He _].
  rewrite (truth_testbit _ _ PWM_STA_EMPT1); [|done|done|]; [apply on_regs_ret; by exists tt|].
  rewrite Z.lor_spec. by rewrite (Z.shiftl_1_l PWM_STA_EMPT1), Z.pow2_bits_true.
Qed.

Lemma pwm_enable_ok ch ms_mode s : ch = 0 ∨ ch = 1 → on_regs (pwm_enable fuel ch ms_mode) s (λ err, err = ERR_OK).
Proof.
  intros Hch. unfold pwm_enable. assert (negb (ch =? 0) && negb (ch =? 1) = false) as -> by (by destruct Hch as [-> | ->]).
  eapply on_regs_bind; [apply on_regs_read|]. intros ctl d1 _. eapply on_regs_bind; [apply PWM_CTL_WRITE_ok|]. intros _ d2 _.
  eapply on_regs_bind; [apply pwm_wait_idle_ok; lia|]. intros _ d3 _. eapply on_regs_bind; [apply PWM_CTL_WRITE_ok|]. intros _ d4 _.
  by apply on_regs_ret.
Qed.

Lemma gpio_set_function_ok pin func s : pin ≤ 53 → on_regs (gpio_set_function pin func) s (λ _, True).
Proof.
  intros Hpin. unfold gpio_set_function, checked. destruct (Z.ltb_spec GPIO_MAX_PIN_IDX pin); [unfold GPIO_MAX_PIN_IDX in *; lia|].
  eapply on_regs_bind; [|intros; by apply on_regs_ret]. unfold gpio_read_and_set_3.
  eapply on_regs_bind; [apply on_regs_read|]. intros v d _. apply on_regs_write.
Qed.
Lemma gpio_set_off_ok pin s : pin ≤ 53 → on_regs (gpio_set_off pin) s (λ _, True).
Proof.
  intros Hpin. unfold gpio_set_off, GPIO_32PIN_SET_CHEKCED, checked. destruct (Z.ltb_spec GPIO_MAX_PIN_IDX pin); [unfold GPIO_MAX_PIN_IDX in *; lia|].
  eapply on_regs_bind; [apply on_regs_write|]. intros. by apply on_regs_ret.
Qed.

(** The pool with [F] free and [A] taken. *)
Definition pool_holds s (F A : list Z) : Prop := ∃ M, ringm (mnodes s) M ∧ M !! slot_free p = Some F ∧ M !! slot_active p = Some A.

Lemma alloc_empty s A : pool_holds s [] A → pwm_bcm2835_alloc p s = Ret (NULL, s).
Proof.
  intros (M & HM & HF & HA). unfold pwm_bcm2835_alloc, slot_alloc.
  rewrite (list_next_or_null_ring _ _ _ (ringm_ring _ _ HM _ _ HF)), bind_ret. cbn. by destruct s.
Qed.
Lemma alloc_first s x F A : pool_holds s (x :: F) A → x ≠ NULL ∧
  ∃ σ, pwm_bcm2835_alloc p s = Ret (x, with_mnodes s σ) ∧ pool_holds (with_mnodes s σ) F (x :: A).
Proof.
  intros (M & HM & HF & HA). split.
  - intros ->. destruct (dring_mapped _ _ _ NULL (ringm_ring _ _ HM _ _ HF)) as [e E]; [set_solver|]. pose proof (ringm_null _ _ HM). congruence.
  - destruct (ringm_alloc _ _ p x F A HM HF HA Hp) as (σ & E & HM' & _). exists σ. unfold pwm_bcm2835_alloc. rewrite E, bind_ret. split; [done|].
    eexists. split; [exact HM'|]. rewrite lookup_insert_ne by done. by rewrite !lookup_insert_eq.
Qed.
Lemma release_first s x F A : pool_holds s F (x :: A) → ∃ σ, pwm_bcm2835_release p x s = Ret (tt, with_mnodes s σ) ∧ pool_holds (with_mnodes s σ) (x :: F) A.
Proof.
  intros (M & HM & HF & HA). destruct (ringm_release _ _ p x F (x :: A) HM HF HA) as (σ & E & HM' & _); [by left|done|].
  exists σ. unfold pwm_bcm2835_release. rewrite E, bind_ret. split; [done|]. eexists. split; [exact HM'|].
  rewrite lookup_insert_eq, lookup_insert_ne by done. rewrite lookup_insert_eq. split; [done|]. f_equal.
  apply (del_split x [] A); [set_solver|]. by pose proof (ringm_NoDup _ _ _ _ HM HA) as [? _]%NoDup_cons.
Qed.

(** A granted request makes one set active, whose number is the handle. *)
Lemma request_granted g g' mask key h : gpio_set_request g mask key = Ret (g', ERR_OK, h) → ∃ i o, h = Some (Z.of_nat i) ∧
  gpio_sets g !! i = Some o ∧ gpio_sets g' = <[i := GpioSet true (key ++ [0]) mask]> (gpio_sets g) ∧ initialized g' = true.
Proof.
  unfold gpio_set_request. destruct (negb (initialized g)); [by intros [= <- <-]|]. destruct (negb _); [by intros [= <- <-]|].
  destruct (_ =? 32); [by intros [= <- <-]|]. destruct (find_set (overlaps mask) 0 (gpio_sets g)); [by intros [= <- <-]|].
  destruct (find_set _ 0 (gpio_sets g)) as [i|] eqn:E; [|done]. cbn [deref]. rewrite bind_ret. intros [= <- <-].
  apply find_set_some in E as (o & _ & Ho & _). rewrite Nat.sub_0_r in Ho. by exists i, o.
Qed.

Lemma release_granted g i o : gpio_sets g !! i = Some o → active o = true →
  gpio_set_release g (Z.of_nat i) = Ret (GpioState (<[i := GpioSet false (owner_key o) (pin_mask o)]> (gpio_sets g)) (active_count g) (initialized g), ERR_OK).
Proof.
  intros Hi Ho. unfold gpio_set_release, gpio_set_get_by_handle. destruct (Z.ltb_spec (Z.of_nat i) 0); [lia|].
  rewrite Nat2Z.id, Hi. cbn [deref]. rewrite !bind_ret, Ho. done.
Qed.

Lemma pin_channel_cases pin ch key : pin_channel pin = Some (ch, key) → 12 ≤ pin ≤ 19 ∧ (ch = 0 ∨ ch = 1) ∧ length key = 15%nat.
Proof.
  unfold pin_channel. destruct (Z.eqb_spec pin 12); [by intros [= <- <-]; subst; cbn; lia|]. destruct (Z.eqb_spec pin 18); [by intros [= <- <-]; subst; cbn; lia|].
  destruct (Z.eqb_spec pin 13); [by intros [= <- <-]; subst; cbn; lia|]. destruct (Z.eqb_spec pin 19); [by intros [= <- <-]; subst; cbn; lia|done].
Qed.

Lemma pin_mask_of pin : 0 ≤ pin < 31 → gpio_set_mask_add 0 pin = Ret (2 ^ pin).
Proof.
  intros Hpin. unfold gpio_set_mask_add. destruct (Z.ltb_spec pin 0); [lia|]. destruct (Z.ltb_spec 31 pin); [lia|]. cbn [orb].
  rewrite Z.lor_0_l, Z.shiftl_1_l. assert (0 < 2 ^ pin < 2 ^ 31) by (split; [apply Z.pow_pos_nonneg; lia|apply Z.pow_lt_mono_r; lia]).
  rewrite s32_id, u64_id by lia. done.
Qed.

Lemma pwm_bcm2835_disable_ok s x c F A i o : pwms s !! x = Some c → gpio_pin c ≤ 53 → gpio_handle c = Z.of_nat i →
  gpio_sets (mpins s) !! i = Some o → active o = true → pool_holds s F (x :: A) →
  ∃ s', pwm_bcm2835_disable p fuel x s = Ret (ERR_OK, s') ∧ pool_holds s' (x :: F) A ∧
    gpio_sets (mpins s') = <[i := GpioSet false (owner_key o) (pin_mask o)]> (gpio_sets (mpins s)).
Proof.
  intros Hx Hpin Hh Hi Ho Hpool. unfold pwm_bcm2835_disable. rewrite (io_bind_ret _ _ _ c s) by (unfold get_pwm; by rewrite Hx).
  destruct (on_regs_read PWM_CTL s) as (v & d1 & E1 & _). rewrite (io_bind_ret _ _ _ _ _ E1).
  destruct (PWM_CTL_WRITE_ok (BIT_CLEAR_U32 v (PWM_CTL_PWEN1 + Z.shiftl (channel c) 3)) (with_hw s d1)) as ([] & d2 & E2 & _). rewrite (io_bind_ret _ _ _ _ _ E2).
  destruct (gpio_set_off_ok (gpio_pin c) (with_hw (with_hw s d1) d2) Hpin) as (r3 & d3 & E3 & _). rewrite (io_bind_ret _ _ _ _ _ E3).
  destruct (gpio_set_function_ok (gpio_pin c) GPIO_FUNC_OUT (with_hw (with_hw (with_hw s d1) d2) d3) Hpin) as (r4 & d4 & E4 & _). rewrite (io_bind_ret _ _ _ _ _ E4).
  rewrite Hh. set (s4 := with_hw (with_hw (with_hw (with_hw s d1) d2) d3) d4).
  set (g := GpioState (<[i := GpioSet false (owner_key o) (pin_mask o)]> (gpio_sets (mpins s))) (active_count (mpins s)) (initialized (mpins s))).
  rewrite (io_bind_ret _ _ _ tt (with_pins s4 g)).
  2:{ unfold PWM_RELEASE_GPIO_HANDLE. change (mpins s4) with (mpins s). by rewrite (release_granted _ _ _ Hi Ho), bind_ret. }
  destruct (release_first (with_pins s4 g) x F A Hpool) as (σ & E & Hpool'). rewrite (io_bind_ret _ _ _ _ _ E).
  eexists. split; [done|]. by split.
Qed.

Lemma put_pwm_eq x y s : put_pwm x y s = Ret (tt, with_pwms s (<[x := y]> (pwms s)) (pwm_bcm2835_initialized s)).
Proof. done. Qed.

(** The slot and the handle of a new object, before the pin is set up. *)
Lemma create_start s x c F A pin ms ch key g r h : pwm_bcm2835_initialized s = true → pool_holds s (x :: F) A → pwms s !! x = Some c →
  pin_channel pin = Some (ch, key) → gpio_set_request (mpins s) (2 ^ pin) key = Ret (g, r, h) →
  (r = ERR_OK → is_Some h) →
  let handle := if r =? ERR_OK then default 0 h else GPIO_SET_INVALID_HANDLE in
  ∃ s1, pool_holds s1 F (x :: A) ∧ mpins s1 = g ∧ mhw s1 = mhw s ∧ is_Some (pwms s1 !! x) ∧
    pwm_bcm2835_create p fuel pin ms s =
      if handle =? GPIO_SET_INVALID_HANDLE then create_failed p x ERR_BUSY s1 else
      ('(_, s) ← put_pwm x (PwmBcm2835 pin key handle (channel c)) s1;
       '(_, s) ← gpio_set_function pin (if pin - ch =? 12 then GPIO_FUNC_ALT_0 else GPIO_FUNC_ALT_5) s;
       '(err, s) ← pwm_enable fuel ch ms s;
       if negb (err =? ERR_OK) then
         (_ ← gpio_set_function pin GPIO_FUNC_OUT; _ ← gpio_set_off pin; _ ← PWM_RELEASE_GPIO_HANDLE handle; create_failed p x err) s
       else '(_, s) ← put_pwm x (PwmBcm2835 pin key handle ch) s; Ret (inr x, s)).
Proof.
  intros Hinit Hpool Hx Hch Hreq Hh handle. destruct (pin_channel_cases _ _ _ Hch) as (Hpin & _ & _).
  destruct (alloc_first s x F A Hpool) as (Hnull & σ & Ealloc & Hpool').
  exists (with_pwms (with_pins (with_mnodes s σ) g) (<[x := PwmBcm2835 (gpio_pin c) (gpio_key c) handle (channel c)]> (pwms s)) true).
  split; [exact Hpool'|]. split; [done|]. split; [done|]. split; [cbn; by rewrite lookup_insert_eq|].
  unfold pwm_bcm2835_create. rewrite Hinit, Ealloc, bind_ret, Hch. cbn [negb].
  destruct (Z.eqb_spec x NULL); [done|].
  assert (request_pin pin key (with_mnodes s σ) = Ret (handle, with_pins (with_mnodes s σ) g)) as ->.
  { unfold request_pin, gpio_set_request_1_pins. rewrite pin_mask_of by lia. rewrite bind_ret. unfold gpio_set_checked_request.
    change (mpins (with_mnodes s σ)) with (mpins s). rewrite Hreq, bind_ret. unfold handle. change Exceptions.ERR_OK with ERR_OK. destruct (Z.eqb_spec r ERR_OK) as [Hr|]; [|done].
    destruct (Hh Hr) as [i ->]. cbn [deref default]. by rewrite !bind_ret. }
  rewrite bind_ret. assert (get_pwm x (with_pins (with_mnodes s σ) g) = Ret (c, with_pins (with_mnodes s σ) g)) as -> by (unfold get_pwm; cbn; by rewrite Hx).
  rewrite bind_ret. rewrite put_pwm_eq, bind_ret. cbn [pwms pwm_bcm2835_initialized with_pins with_mnodes]. rewrite Hinit. done.
Qed.

(** C24: creating a channel for one of its four pins takes the first free slot
    and makes a set of the pin registry with that pin active, or, when the
    registry refuses the pin, answers busy with the slot and the registry as they
    were.  Releasing the channel gives back both: the slot is the first free one
    again and the pin's set is inactive. *)
Theorem pwm_channel_roundtrip n s pin ms ch key x F A :
  pwm_bcm2835_initialized s = true → gpio_inv n (mpins s) → pool_holds s (x :: F) A → is_Some (pwms s !! x) → pin_channel pin = Some (ch, key) →
  ∃ g r h, gpio_set_request (mpins s) (2 ^ pin) key = Ret (g, r, h) ∧
  if r =? ERR_OK then ∃ s1 i, pwm_bcm2835_create p fuel pin ms s = Ret (inr x, s1) ∧ pool_holds s1 F (x :: A) ∧
      pwms s1 !! x = Some (PwmBcm2835 pin key (Z.of_nat i) ch) ∧ gpio_sets (mpins s1) !! i = Some (GpioSet true (key ++ [0]) (2 ^ pin)) ∧
      ∃ s2, pwm_bcm2835_disable p fuel x s1 = Ret (ERR_OK, s2) ∧ pool_holds s2 (x :: F) A ∧
        gpio_sets (mpins s2) = <[i := GpioSet false (key ++ [0]) (2 ^ pin)]> (gpio_sets (mpins s))
  else ∃ s1, pwm_bcm2835_create p fuel pin ms s = Ret (inl ERR_BUSY, s1) ∧ pool_holds s1 (x :: F) A ∧ mpins s1 = mpins s ∧ mhw s1 = mhw s.
Proof.
  intros Hinit Hinv Hpool [c Hx] Hch. destruct (pin_channel_cases _ _ _ Hch) as (Hpin & Hch01 & _).
  destruct (request_ok n (mpins s) (2 ^ pin) key Hinv) as (g & r & h & Hreq & Hno & _). exists g, r, h. split; [done|].
  destruct (create_start s x c F A pin ms ch key g r h Hinit Hpool Hx Hch Hreq) as (s1 & Hpool1 & Hg & Hhw & Hx1 & ->).
  { intros ->. destruct (request_granted _ _ _ _ _ Hreq) as (i & o & -> & _). by eexists. }
  destruct (Z.eqb_spec r ERR_OK) as [->|Hr].
  2:{ rewrite Z.eqb_refl. destruct (release_first s1 x F A Hpool1) as (σ & E & Hpool2). exists (with_mnodes s1 σ).
      unfold create_failed. rewrite (io_bind_ret _ _ _ _ _ E). split; [done|]. split; [done|]. split; [cbn; by rewrite Hg, Hno|done]. }
  destruct (request_granted _ _ _ _ _ Hreq) as (i & o & -> & Ho & Hsets & _). cbn [default from_option id].
  destruct (Z.eqb_spec (Z.of_nat i) GPIO_SET_INVALID_HANDLE); [unfold GPIO_SET_INVALID_HANDLE in *; lia|].
  rewrite put_pwm_eq, bind_ret. set (s2 := with_pwms s1 _ _).
  destruct (gpio_set_function_ok pin (if pin - ch =? 12 then GPIO_FUNC_ALT_0 else GPIO_FUNC_ALT_5) s2 ltac:(lia)) as (r3 & d3 & -> & _). rewrite bind_ret.
  destruct (pwm_enable_ok ch ms (with_hw s2 d3) Hch01) as (err & d4 & -> & ->). rewrite bind_ret. cbn [negb Z.eqb ERR_OK].
  rewrite put_pwm_eq, bind_ret. set (s5 := with_pwms _ _ _).
  assert (pwms s5 !! x = Some (PwmBcm2835 pin key (Z.of_nat i) ch)) as Hx5 by (cbn; by rewrite lookup_insert_eq).
  assert (gpio_sets (mpins s5) !! i = Some (GpioSet true (key ++ [0]) (2 ^ pin))) as Hi5.
  { cbn. rewrite Hg, Hsets. apply list_lookup_insert_eq. by apply lookup_lt_is_Some_1; eexists. }
  exists s5, i. split; [done|]. split; [exact Hpool1|]. split; [done|]. split; [done|].
  destruct (pwm_bcm2835_disable_ok s5 x _ F A i _ Hx5 ltac:(cbn; lia) eq_refl Hi5 eq_refl Hpool1) as (s6 & E & Hpool6 & Hsets6).
  exists s6. split; [done|]. split; [done|]. rewrite Hsets6. cbn. by rewrite Hg, Hsets, list_insert_insert_eq.
Qed.
End ownership.

(** ** Examples *)

(** The callback of a one-shot timer is called once, and the interrupt masked. *)
Lemma oneshot_fires usec cb cb_arg t counts : cb ≠ 0 → wait_counts (u32 (cntfrq_el0 t)) (u32 usec) = Ret counts →
  ∃ t', armv8_generic_timer_set_oneshot usec cb cb_arg t = Ret (t', ERR_OK) ∧ cntp_tval_el0 t' = u32 counts ∧
    snd (irq_handler_arm_generic_timer t') = Some (cb, cb_arg) ∧ cntp_ctl_el0 (fst (irq_handler_arm_generic_timer t')) = 3.
Proof.
  intros Hcb E. unfold armv8_generic_timer_set_oneshot. cbn [cntfrq_el0]. rewrite E, bind_ret. eexists. split; [done|]. split; [done|].
  unfold irq_handler_arm_generic_timer. cbn. destruct (Z.eqb_spec cb 0); [done|]. done.
Qed.

(** A wait of four minutes at 19.2 MHz does not fit the 32 bits of the value
    register: it ends after about 16 seconds. *)
Example long_wait_wraps : ∃ counts, wait_counts 19200000 240000000 = Ret counts ∧ 19200000 * 239 < counts ∧ u32 counts < 19200000 * 17.
Proof. eexists. split; [vm_compute; reflexivity|]. split; reflexivity. Qed.

(** A register bank whose PWM is always idle. *)
Record demo_pwm := DemoPwm { demo_bank : bank }.
#[export] Instance demo_pwm_mmio : Mmio demo_pwm := {|
  mmio_read r d := (if r =? PWM_STA then 2 else bank_get (demo_bank d) r, d);
  mmio_write r v d := DemoPwm (<[r := v]> (demo_bank d)) |}.
#[export] Instance demo_pwm_idle : PwmIdle demo_pwm.
Proof. by intros d. Qed.

Definition demo_pool : slot_pool := SlotPool 1 4 [2; 3].
Definition demo_motors : motors demo_pwm :=
  Motors (DemoPwm ∅) (fst (gpio_set_init gpio_boot)) demo_heap {[2 := pwm_zero; 3 := pwm_zero]} true {[5 := 2]} true 0 0 0.

(** Witness: the servo at address 5 turned to 45 degrees. *)
Lemma servo_turns_witness :
  servo_sg90_set_angle (pwm_bcm2835_ops demo_pool 5) 5 45 demo_motors
  = Ret (ERR_OK, with_hw demo_motors (mmio_write (PWM_DAT1 + 16 * 0) 202 (mhw demo_motors))) ∧ 60 ≤ 202 ≤ 250.
Proof. apply (servo_turns demo_pool 5 demo_motors 5 2 pwm_zero 45); reflexivity. Defined.

(** Witness: a channel on pin 18 from a pool of two. *)
Lemma pwm_channel_roundtrip_witness : ∃ g r h, gpio_set_request (mpins demo_motors) (2 ^ 18) bcm2835_gpio_key_pwm_chan_0 = Ret (g, r, h) ∧
  if r =? ERR_OK then ∃ s1 i, pwm_bcm2835_create demo_pool 5 18 1 demo_motors = Ret (inr 2, s1) ∧ pool_holds demo_pool s1 [3] [2] ∧
      pwms s1 !! 2 = Some (PwmBcm2835 18 bcm2835_gpio_key_pwm_chan_0 (Z.of_nat i) 0) ∧
      gpio_sets (mpins s1) !! i = Some (GpioSet true (bcm2835_gpio_key_pwm_chan_0 ++ [0]) (2 ^ 18)) ∧
      ∃ s2, pwm_bcm2835_disable demo_pool 5 2 s1 = Ret (ERR_OK, s2) ∧ pool_holds demo_pool s2 [2; 3] [] ∧
        gpio_sets (mpins s2) = <[i := GpioSet false (bcm2835_gpio_key_pwm_chan_0 ++ [0]) (2 ^ 18)]> (gpio_sets (mpins demo_motors))
  else ∃ s1, pwm_bcm2835_create demo_pool 5 18 1 demo_motors = Ret (inl ERR_BUSY, s1) ∧ pool_holds demo_pool s1 [2; 3] [] ∧
    mpins s1 = mpins demo_motors ∧ mhw s1 = mhw demo_motors.
Proof.
  apply (pwm_channel_roundtrip demo_pool 5 ltac:(done) ltac:(lia) 0 demo_motors 18 1 0 bcm2835_gpio_key_pwm_chan_0 2 [3] []).
  - done.
  - apply reach_inv, reach_init.
  - exists (list_to_map [(1, [2; 3]); (4, [])]). split; [|done]. apply ringm_of_list; [done|apply (bool_decide_unpack _); by vm_compute|].
    repeat constructor.
  - by eexists.
  - done.
Defined.
