(* ===== verification/BusCommands.v ===== *)
(** * More commands of the shell (cmdrunner/mbox.c, max7219.c, nokia5110.c, spi.c)

    The commands over the firmware's clocks, the displays MAX7219 and Nokia 5110, and the SPI
    buses.
    Waits and what is printed have no effect. *)

From Stdlib Require Import String.
From S2P Require Import Prelude Bits Lists Strings Parse DmaMem Exceptions Mmio GpioSet Mbox SpiEmu Spi Leds Nokia Cmdrunner Commands.

(** The type of bus a token names. *)
Definition token_spi_type {W} (args : list (Z * Z)) (n : nat) : io (mem * W) Z :=
  t ← ts args n; m ← the_text; l ← lift (load_bytes (Z.to_nat t.2) m t.1); mret (spi_type_from_string l (Z.to_nat t.2)).

(** [spi_get_dev]: nothing initialises SPI1 and SPI2, whose objects therefore
    have no address. *)
Definition spi0_get (spi0_dev : Z) (spi0_dev_initialized : bool) : Z → Z := spi_get_dev spi0_dev NULL NULL spi0_dev_initialized false false.

(** ** mbox.c *)
(** An element of [clock_names]: the name and the identifier. *)
Abbreviation clock_info := (string * Z)%type.
Definition NUM_CLOCK_NAMES : nat := 10.
(** [SET_CLKNAME]: the element of an identifier is the one before it. *)
Definition SET_CLKNAME (name : string) (id : Z) (l : list clock_info) : outcome (list clock_info) :=
  _ ← deref (l !! Z.to_nat (id - 1)); Ret (<[Z.to_nat (id - 1) := (name, id)]> l).
Definition clock_ids_by_name : list clock_info :=
  [("EMMC"%string, 1); ("UART"%string, 2); ("ARM"%string, 3); ("CORE"%string, 4); ("V3D"%string, 5); ("H264"%string, 6);
   ("ISP"%string, 7); ("SDRAM"%string, 8); ("PIXEL"%string, 9); ("PWM"%string, 10); ("EMMC2"%string, 11)].
Definition command_mbox_get_clock_infos : outcome (list clock_info) :=
  foldl (λ l c, l ← l; SET_CLKNAME (fst c) (snd c) l) (Ret (replicate NUM_CLOCK_NAMES (EmptyString, 0))) clock_ids_by_name.

Section mbox_commands.
Context (respond : Mbox.words → Mbox.words * bool) (fuel : nat).
Abbreviation S := (mem * mbox)%type.

(** [RUN_CHK_STATUS]: [None] is an error of the call. *)
Definition RUN_CHK_STATUS {A} (f : mbox → outcome (mbox * option A)) (k : io S Z) : io S Z := λ '(m, b),
  '(b, o) ← f b; match o with Some _ => k (m, b) | None => Ret (CMD_ERR_EXECUTION_ERR, (m, b)) end.
Definition command_mbox_get_clock_worker (i : clock_info) : io S Z :=
  RUN_CHK_STATUS (mbox_get_clock_rate respond (snd i)) (
  RUN_CHK_STATUS (mbox_get_min_clock_rate respond (snd i)) (
  RUN_CHK_STATUS (mbox_get_max_clock_rate respond (snd i)) (
  RUN_CHK_STATUS (mbox_get_clock_state respond (snd i)) (mret CMD_ERR_NO_ERROR)))).
(** The loops over the names. *)
Fixpoint with_clock (args : list (Z * Z)) (l : list clock_info) (k : clock_info → io S Z) : io S Z :=
  match l with
  | [] => mret CMD_ERR_INVALID_ARGS
  | i :: l => b ← arg_eq args 0 (fst i); if (b : bool) then k i else with_clock args l k
  end.
Definition command_mbox_get_clock (args : list (Z * Z)) : io S Z :=
  ASSERT_NUMARGS_EQ args 1 (names ← lift command_mbox_get_clock_infos; with_clock args names command_mbox_get_clock_worker).
Fixpoint all_clocks (l : list clock_info) : io S Z :=
  match l with
  | [] => mret CMD_ERR_NO_ERROR
  | i :: l => status ← command_mbox_get_clock_worker i; if truth status then mret CMD_ERR_EXECUTION_ERR else all_clocks l
  end.
Definition command_mbox_get_clocks (args : list (Z * Z)) : io S Z :=
  ASSERT_NUMARGS_EQ args 0 (names ← lift command_mbox_get_clock_infos; all_clocks names).
Definition command_mbox_set_clock_rate (args : list (Z * Z)) : io S Z :=
  ASSERT_NUMARGS_EQ args 2 (GET_NUMERIC_PARAM fuel u32 args 1 (λ rate,
    names ← lift command_mbox_get_clock_infos;
    with_clock args names (λ i, RUN_CHK_STATUS (mbox_set_clock_rate respond (snd i) rate 0) (mret CMD_ERR_NO_ERROR)))).
Definition command_mbox (args : list (Z * Z)) : io S Z :=
  ASSERT_NUMARGS_GE args 1 (subcommands args 0
    [("help"%string, print_help); ("get-clock"%string, command_mbox_get_clock (tail args));
     ("get-clocks"%string, command_mbox_get_clocks (tail args)); ("set-clock-rate"%string, command_mbox_set_clock_rate (tail args))]
    (run_or CMD_ERR_UNKNOWN_SUBCMD)).

(** The table has ten elements and the last name is for the eleventh. *)
Lemma clock_names_overflow : command_mbox_get_clock_infos = Fault.
Proof. reflexivity. Qed.
End mbox_commands.

(** ** max7219.c *)
Definition MAX7219_SCAN_LIMIT_FULL : Z := 7.

Section max7219_commands.
Context {B : Type} `{SpiBus B} (spi0_dev : Z) (spi0_dev_initialized : bool) (fuel : nat).
Abbreviation S := (mem * max7219_drv B)%type.

Definition on_max (x : io (max7219_drv B) Z) : io S Z := λ '(m, d), '(r, d) ← x d; Ret (r, (m, d)).
Fixpoint rows_off (n : nat) (i : Z) : io S unit :=
  match n with O => mret tt | Datatypes.S n => _ ← on_max (max7219_row_off i); rows_off n (i + 1) end.
Definition command_max7219_init (args : list (Z * Z)) : io S Z :=
  ASSERT_NUMARGS_EQ args 1 (
    type ← token_spi_type args 0;
    if spi0_get spi0_dev spi0_dev_initialized type =? 0 then mret CMD_ERR_INVALID_ARGS else
    err ← on_max (max7219_set_spi_dev ((spi0_get spi0_dev spi0_dev_initialized type)));
    if truth err then mret CMD_ERR_EXECUTION_ERR else
    _ ← on_max max7219_set_test_mode_on;
    _ ← on_max max7219_set_test_mode_off;
    _ ← rows_off 8 0;
    _ ← on_max max7219_set_shutdown_mode_off;
    _ ← on_max (max7219_set_scan_limit MAX7219_SCAN_LIMIT_FULL);
    _ ← on_max (max7219_row_on 0);
    _ ← on_max (max7219_row_off 0);
    mret CMD_ERR_NO_ERROR).
Definition command_max7219_set (args : list (Z * Z)) : io S Z :=
  ASSERT_NUMARGS_EQ args 1 (GET_NUMERIC_PARAM fuel u16 args 0 (λ value, _ ← on_max (max7219_set_raw value); mret CMD_ERR_NO_ERROR)).
(** One pass over the rows, and the passes; the line asked for is only compared
    with 7. *)
Fixpoint rows_blink (n : nat) (b : Z) : io S unit :=
  match n with O => mret tt | Datatypes.S n => _ ← on_max (max7219_row_on b); _ ← on_max (max7219_row_off b); rows_blink n (b + 1) end.
Fixpoint line_passes (repeats : nat) : io S Z :=
  match repeats with O => mret CMD_ERR_NO_ERROR | Datatypes.S repeats => _ ← rows_blink 8 0; line_passes repeats end.
Definition command_max7219_lineloop (args : list (Z * Z)) : io S Z :=
  ASSERT_NUMARGS_EQ args 3 (GET_NUMERIC_PARAM fuel s32 args 0 (λ line, GET_NUMERIC_PARAM fuel s32 args 1 (λ _, GET_NUMERIC_PARAM fuel s32 args 2 (λ repeats,
    if 7 <? line then mret CMD_ERR_INVALID_ARGS else line_passes (Z.to_nat repeats))))).
(** [info] prints whether a device is set. *)
Definition command_max7219 (print_info : io S Z) (args : list (Z * Z)) : io S Z :=
  ASSERT_NUMARGS_GE args 1 (subcommands args 0
    [("help"%string, print_help); ("info"%string, check_status print_info); ("init"%string, command_max7219_init (tail args));
     ("set"%string, command_max7219_set (tail args)); ("lineloop"%string, command_max7219_lineloop (tail args))] (run_or CMD_ERR_UNKNOWN_SUBCMD)).
End max7219_commands.

(** ** nokia5110.c *)
Section nokia5110_commands.
Context {B : Type} `{Mmio B} `{!SpiBus B} (spi_xmit_dma : Z → list Z → io B Z)
  (spi0_dev : Z) (spi0_dev_initialized : bool) (fuel : nat).
Abbreviation S := (mem * nokia_drv B)%type.

Definition on_nokia (x : io (nokia_drv B) Z) : io S Z := λ '(m, d), '(r, d) ← x d; Ret (r, (m, d)).
Definition command_nokia5110_init (args : list (Z * Z)) : io S Z :=
  ASSERT_NUMARGS_EQ args 5 (GET_NUMERIC_PARAM fuel u32 args 1 (λ rst_pin, GET_NUMERIC_PARAM fuel u32 args 2 (λ dc_pin,
    GET_NUMERIC_PARAM fuel s32 args 3 (λ function_flags, GET_NUMERIC_PARAM fuel s32 args 4 (λ display_mode,
      type ← token_spi_type args 0;
      if spi0_get spi0_dev spi0_dev_initialized type =? 0 then mret CMD_ERR_INVALID_ARGS else
      check_status (on_nokia (nokia5110_init ((spi0_get spi0_dev spi0_dev_initialized type)) rst_pin dc_pin function_flags display_mode))))))).
Definition command_nokia5110_dot (args : list (Z * Z)) : io S Z :=
  ASSERT_NUMARGS_EQ args 2 (GET_NUMERIC_PARAM fuel s32 args 0 (λ x, GET_NUMERIC_PARAM fuel s32 args 1 (λ y,
    check_status (on_nokia (nokia5110_draw_dot x y))))).
Definition command_nokia5110_line (args : list (Z * Z)) : io S Z :=
  ASSERT_NUMARGS_EQ args 4 (GET_NUMERIC_PARAM fuel s32 args 0 (λ x0, GET_NUMERIC_PARAM fuel s32 args 1 (λ y0,
    GET_NUMERIC_PARAM fuel s32 args 2 (λ x1, GET_NUMERIC_PARAM fuel s32 args 3 (λ y1,
      check_status (on_nokia (nokia5110_draw_line x0 y0 x1 y1))))))).
Definition command_nokia5110 (args : list (Z * Z)) : io S Z :=
  ASSERT_NUMARGS_GE args 1 (subcommands args 0
    [("help"%string, print_help); ("info"%string, print_help); ("init"%string, command_nokia5110_init (tail args));
     ("dot"%string, command_nokia5110_dot (tail args)); ("line"%string, command_nokia5110_line (tail args))] (run_or CMD_ERR_UNKNOWN_SUBCMD)).
End nokia5110_commands.

(** ** spi.c *)
(** The emulated buses with the registers, the memory of the DMA control blocks,
    [spi0_dev_initialized] and [spi_emulated_dev]. *)
Record spi_world (D : Type) := SpiWorld { emulated : spie D; blocks : dma_state; spi0_dev_initialized : bool; spi_emulated_dev : Z }.
Arguments SpiWorld {D}.
Arguments emulated {D}.
Arguments blocks {D}.
Arguments spi0_dev_initialized {D}.
Arguments spi_emulated_dev {D}.

Definition with_gpio {D} (s : spie D) (d : D) : spie D :=
  Spie d (gpio_owners s) (spi_nodes s) (spi_devs s) (spi_pool s) (init_counter s) (spi_emulated_initialized s).
(** "spi_cmdrunner" *)
Definition spi_cmdrunner : list Z := chars "spi_cmdrunner".

Section spi_commands.
(** The object of SPI0, and the two words on the stack of a DMA transfer. *)
Context {D : Type} `{Mmio D} (L : layout) (spi0_dev stub_in stub_out : Z) (fuel : nat).
Abbreviation S := (mem * spi_world D)%type.
Implicit Types w : spi_world D.

(** A step of SPI0, of its DMA (on the same memory), of the emulated buses. *)
Definition on_spi0 {A} (x : io D A) : io S A := λ '(m, w),
  '(a, d) ← x (gpio (emulated w)); Ret (a, (m, SpiWorld (with_gpio (emulated w) d) (blocks w) (spi0_dev_initialized w) (spi_emulated_dev w))).
Definition on_spi0_dma {A} (x : io (dma_drv D) A) : io S A := λ '(m, w),
  '(a, d) ← x (DmaDrv (gpio (emulated w)) (with_dmem (blocks w) m));
  Ret (a, (dmem (dstate d), SpiWorld (with_gpio (emulated w) (dregs d)) (dstate d) (spi0_dev_initialized w) (spi_emulated_dev w))).
Definition on_emulated {A} (x : io (spie D) A) : io S A := λ '(m, w),
  '(a, e) ← x (emulated w); Ret (a, (m, SpiWorld e (blocks w) (spi0_dev_initialized w) (spi_emulated_dev w))).
Definition set_initialized : io S unit := λ '(m, w), Ret (tt, (m, SpiWorld (emulated w) (blocks w) true (spi_emulated_dev w))).
Definition set_emulated (v : Z) : io S unit := λ '(m, w), Ret (tt, (m, SpiWorld (emulated w) (blocks w) (spi0_dev_initialized w) v)).

Definition dev_of_name (l : list Z) (n : nat) : io S Z := λ s,
  Ret (spi0_get spi0_dev (spi0_dev_initialized s.2) (spi_type_from_string l n), s).
Definition spi_token_dev (args : list (Z * Z)) : io S Z :=
  t ← ts args 0; m ← the_text; l ← lift (load_bytes (Z.to_nat t.2) m t.1); dev_of_name l (Z.to_nat t.2).
Definition command_spi_init_spi0 : io S Z := check_status (err ← on_spi0_dma spi0_init; _ ← set_initialized; mret err).
Definition command_spi_init_spi1 : io S Z := mret CMD_ERR_NOT_IMPLEMENTED.
Definition command_spi_init_emulated (args : list (Z * Z)) : io S Z :=
  ASSERT_NUMARGS_EQ args 5 (GET_NUMERIC_PARAM fuel s32 args 0 (λ sclk, GET_NUMERIC_PARAM fuel s32 args 1 (λ mosi,
    GET_NUMERIC_PARAM fuel s32 args 2 (λ miso, GET_NUMERIC_PARAM fuel s32 args 3 (λ ce0, GET_NUMERIC_PARAM fuel s32 args 4 (λ ce1,
      r ← on_emulated (spi_allocate_emulated spi_cmdrunner sclk mosi miso ce0 ce1 SPI_EMU_MODE_MASTER);
      match r with
      | inl _ => _ ← set_emulated NULL; mret CMD_ERR_EXECUTION_ERR
      | inr d => _ ← set_emulated d; mret CMD_ERR_NO_ERROR
      end)))))).
(** The device found is SPI0.  The second byte is sent when a third word is
    given. *)
Definition command_spi_send (args : list (Z * Z)) : io S Z :=
  ASSERT_NUMARGS_GE args 2 (
    spidev ← spi_token_dev args;
    if spidev =? NULL then mret CMD_ERR_INVALID_ARGS else
    GET_NUMERIC_PARAM fuel u8 args 1 (λ byte1,
      if 2 <? Z.of_nat (length args) then GET_NUMERIC_PARAM fuel u8 args 2 (λ byte2, check_status (on_spi0 (spi0_xmit fuel [byte1; byte2])))
      else check_status (on_spi0 (spi0_xmit fuel [byte1])))).
Definition command_spi_dmasend (args : list (Z * Z)) : io S Z :=
  ASSERT_NUMARGS_EQ args 3 (
    spidev ← spi_token_dev args;
    if spidev =? NULL then mret CMD_ERR_INVALID_ARGS else
    GET_NUMERIC_PARAM fuel u64 args 1 (λ src, GET_NUMERIC_PARAM fuel s32 args 2 (λ srclen,
      check_status (on_spi0_dma (spi0_xmit_dma L fuel stub_in stub_out src NULL (u32 srclen)))))).
Definition command_spi_init (args : list (Z * Z)) : io S Z :=
  ASSERT_NUMARGS_GE args 1 (subcommands args 0
    [("spi0"%string, command_spi_init_spi0); ("spi1"%string, command_spi_init_spi1); ("emulated"%string, command_spi_init_emulated (tail args))]
    (run_or CMD_ERR_UNKNOWN_SUBCMD)).
Definition command_spi (args : list (Z * Z)) : io S Z :=
  ASSERT_NUMARGS_GE args 1 (subcommands args 0
    [("help"%string, print_help); ("init"%string, command_spi_init (tail args)); ("send"%string, command_spi_send (tail args));
     ("dmasend"%string, command_spi_dmasend (tail args)); ("info"%string, print_help)] (run_or CMD_ERR_UNKNOWN_SUBCMD)).

(** The device that a word of a known text names. *)
Lemma spi_token_dev_of args t m w str : args !! 0%nat = Some t → bytes_at m t.1 str → t.2 = Z.of_nat (length str) →
  spi_token_dev args (m, w) = Ret (spi0_get spi0_dev (spi0_dev_initialized w) (spi_type_from_string str (length str)), (m, w)).
Proof.
  intros Ht Hb Hl. assert (Z.to_nat t.2 = length str) as Hn by lia.
  assert (∀ p l, bytes_at m p l → load_bytes (length l) m p = Ret l) as Hload.
  { intros p l. revert p. induction l as [|b l IH]; intros p Hp; [done|]. apply bytes_at_cons in Hp as [Hc Hp].
    cbn [length load_bytes]. by rewrite (load8_at _ _ _ Hc), bind_ret, (IH _ Hp). }
  unfold spi_token_dev. rewrite (io_bind_ret _ _ _ t (m, w)) by (unfold ts; by rewrite Ht). rewrite (io_bind_ret _ _ _ m (m, w)) by done.
  rewrite Hn. by rewrite (io_bind_ret _ _ _ str (m, w)) by (unfold lift; by rewrite (Hload _ _ Hb)).
Qed.

(** The emulated bus that [init] allocates is never sent on. *)
Lemma spi_send_emulated_refused args t m w : (2 ≤ length args)%nat → args !! 0%nat = Some t →
  bytes_at m t.1 (chars "emulated") → t.2 = 8 → command_spi_send args (m, w) = Ret (CMD_ERR_INVALID_ARGS, (m, w)).
Proof.
  intros Hlen Ht Hb Hl. unfold command_spi_send, ASSERT_NUMARGS_GE. destruct (Z.ltb_spec (Z.of_nat (length args)) 2); [lia|].
  by rewrite (io_bind_ret _ _ _ _ _ (spi_token_dev_of args t m w (chars "emulated") Ht Hb Hl)).
Qed.
End spi_commands.
