(* ===== verification/Crash.v ===== *)
(** * The crash dump and its reader (binblock.c, lib/checksum.c, cpuctx_generic.c,
    arch/armv8/armv8_cpuctx.c, exception_reporter.c, unhandled_exception.c,
    parse_uart_capture.py)

    After a fatal exception the kernel sends the registers and two pieces of
    stack over the UART as hexadecimal blocks; a tool on the host reads them from
    the captured output.  The theorem of this file puts the two together, on any
    device that obeys the law of [Uart]. *)

From S2P Require Import Prelude Strings Exceptions Mmio Uart.

(** ** lib/checksum.c *)
(** A byte is a [char], which has no sign on this processor. *)
Definition checksum_basic (m : mem) (buf size initval : Z) : outcome Z :=
  for_n (Z.to_nat size) 0 (λ i result, c ← load8 m (buf + i); Ret (u32 (result + c))) initval.

(** ** binblock.c *)
(** "BINBLOCK", "__EXCPTN", "___STACK" *)
Definition MAGIC_BINBLOCK : list Z := [66; 73; 78; 66; 76; 79; 67; 75].
Definition BINBLOCK_ID_EXCEPTION : list Z := [95; 95; 69; 88; 67; 80; 84; 78].
Definition BINBLOCK_ID_STACK : list Z := [95; 95; 95; 83; 84; 65; 67; 75].

Definition half_byte (x : Z) : Z := x + (if x <? 10 then 48 else 97 - 10).
(** The characters stored from [dst] on; the result of the C function is their
    number. *)
Fixpoint hex_loop (src_sz : nat) (room : Z) (m : mem) (s : Z) : outcome (list Z) :=
  match src_sz with
  | O => Ret []
  | S src_sz =>
    if 2 <=? room then
      c ← load8 m s;
      l ← hex_loop src_sz (room - 2) m (s + 1);
      Ret (half_byte (Z.land (Z.shiftr c 4) 0xf) :: half_byte (Z.land c 0xf) :: l)
    else Ret []
  end.
Definition bin_to_ascii_hex (dst_sz : Z) (m : mem) (src src_sz : Z) : outcome (list Z) := hex_loop (Z.to_nat src_sz) dst_sz m src.

Section dump.
Context {D : Type} `{Mmio D}.

Section binblock.
Context (send : list Z → io D Z).

(** At least a byte goes out at every turn. *)
Fixpoint send_ascii_loop (fuel : nat) (m : mem) (bytes bytes_count bytes_sent : Z) : io D Z :=
  match fuel with
  | O => lift NoFuel
  | S fuel =>
    if bytes_sent <? bytes_count then
      buf ← lift (bin_to_ascii_hex 128 m (bytes + bytes_sent) (bytes_count - bytes_sent));
      _ ← send buf;
      send_ascii_loop fuel m bytes bytes_count (bytes_sent + Z.of_nat (length buf) / 2)
    else mret bytes_sent
  end.
Definition binblock_send_ascii_bin (m : mem) (bytes bytes_count : Z) : io D Z :=
  send_ascii_loop (S (Z.to_nat bytes_count)) m bytes bytes_count 0.

(** [if (send(...) != n) return -1;] *)
Definition expect (n : Z) (x k : io D Z) : io D Z := r ← x; if negb (r =? n) then mret (-1) else k.
(** The two numbers are variables of the function: a memory of their own. *)
Definition binblock_send (m : mem) (data data_sz : Z) (binblock_id : list Z) : io D Z :=
  checksum ← lift (checksum_basic m data (s32 data_sz) 0);
  expect 8 (send MAGIC_BINBLOCK) (
  expect 8 (send binblock_id) (
  expect 4 (binblock_send_ascii_bin (mem_of 0 (le_bytes 4 checksum)) 0 4) (
  expect 8 (binblock_send_ascii_bin (mem_of 0 (le_bytes 8 data_sz)) 0 8) (
  expect data_sz (binblock_send_ascii_bin m data data_sz) (mret 0))))).
End binblock.

(** ** cpuctx_generic.c, armv8_cpuctx.c *)
(** [strncpy] of a constant or of the array of a local structure, whose
    characters are given up to and with a zero. *)
Fixpoint strncpy_bytes (n : nat) (s : list Z) : list Z :=
  match n, s with
  | O, _ => []
  | S _, [] => replicate n 0
  | S n', c :: s => if c =? 0 then replicate n 0 else c :: strncpy_bytes n' s
  end.
Fixpoint store_bytes (m : mem) (p : Z) (l : list Z) : outcome mem :=
  match l with [] => Ret m | b :: l => m ← store8 m p b; store_bytes m (p + 1) l end.

Definition digit_name (i : Z) : list Z := if i <? 10 then [48 + i] else [48 + i / 10; 48 + i mod 10].
(** "x0" to "x29", "lr", "sp", "pc", "cpsr" *)
Definition armv8_cpu_reg_names : list (list Z) :=
  map (λ i, 120 :: digit_name (Z.of_nat i)) (seq 0 30) ++ [[108; 114]; [115; 112]; [112; 99]; [99; 112; 115; 114]].
Record cpu_reg_t := CpuReg { r_name : list Z; r_value : Z }.

(** The callback may write to memory; its result ends the loop. *)
Fixpoint enum_registers {A} (cb : cpu_reg_t → mem * A → outcome (mem * A * Z)) (names : list (list Z)) (p : Z) (s : mem * A) : outcome (mem * A) :=
  match names with
  | [] => Ret s
  | name :: names =>
    value ← load_le 8 (fst s) p;
    '(s, r) ← cb (CpuReg (strncpy_bytes 15 name ++ [0]) value) s;
    if truth r then Ret s else enum_registers cb names (p + 8) s
  end.
Definition cpuctx_enum_registers {A} (ctx : Z) (cb : cpu_reg_t → mem * A → outcome (mem * A * Z)) (s : mem * A) : outcome (mem * A) :=
  enum_registers cb armv8_cpu_reg_names ctx s.
Definition cpuctx_get_sp (m : mem) (ctx : Z) : outcome Z := load_le 8 m (ctx + 31 * 8).
Definition cpuctx_get_fp (m : mem) (ctx : Z) : outcome Z := load_le 8 m (ctx + 29 * 8).

Definition REG_NAME_MAX_LEN : nat := 8.
Definition cpuctx_binblock_fill_regs_cb (binblock : Z) (cpu_r : cpu_reg_t) (s : mem * Z) : outcome (mem * Z * Z) :=
  let '(m, n) := s in
  if 40 <=? n then Ret (m, n, -1) else
  let bin_r := binblock + 16 * n in
  m ← memset 9 m bin_r 0 8;
  m ← store_bytes m bin_r (strncpy_bytes (REG_NAME_MAX_LEN - 1) (r_name cpu_r));
  m ← store_le 8 m (bin_r + 8) (r_value cpu_r);
  Ret (m, n + 1, 0).
Definition cpuctx_binblock_fill_regs (m : mem) (ctx binblock : Z) : outcome (mem * Z) :=
  '(m, _) ← cpuctx_enum_registers ctx (cpuctx_binblock_fill_regs_cb binblock) (m, 0); Ret (m, ERR_OK).

(** The zeroed context of a new task. *)
Definition cpuctx_init (m : mem) (cpuctx cpuctx_sz sp pc : Z) : outcome (mem * Z) :=
  m ← memset (S (Z.to_nat cpuctx_sz)) m cpuctx 0 cpuctx_sz;
  m ← store_le 8 m (cpuctx + 32 * 8) pc;
  m ← store_le 8 m (cpuctx + 31 * 8) sp;
  Ret (m, ERR_OK).

(** ** The dump *)
Record exception_info := ExceptionInfo { e_esr : Z; e_spsr : Z; e_elr : Z; e_far : Z; e_type : Z; e_cpu_ctx : Z; e_stack : Z; e_stack_base : Z }.
Definition sizeof_binblock_exception : Z := 4 * 8 + 40 * 16.
Definition binblock_fill_exception (m : mem) (buf bufsz : Z) (e : exception_info) : outcome (mem * Z) :=
  if bufsz <? sizeof_binblock_exception then Ret (m, ERR_INVAL_ARG) else
  m ← memset 673 m buf 0 sizeof_binblock_exception;
  m ← store_le 8 m buf (e_type e);
  m ← store_le 8 m (buf + 8) (e_esr e);
  m ← store_le 8 m (buf + 16) (e_spsr e);
  m ← store_le 8 m (buf + 24) (e_far e);
  '(m, _) ← cpuctx_binblock_fill_regs m (e_cpu_ctx e) (buf + 32);
  Ret (m, sizeof_binblock_exception).

(** "*EXCEPTION_CONTEXT_DUMP***********************" and its end *)
Definition dump_title : list Z := [42; 69; 88; 67; 69; 80; 84; 73; 79; 78; 95; 67; 79; 78; 84; 69; 88; 84; 95; 68; 85; 77; 80] ++ replicate 23 42.
Definition dump_end : list Z := [42; 69; 88; 67; 69; 80; 84; 73; 79; 78; 95; 67; 79; 78; 84; 69; 88; 84; 95; 68; 85; 77; 80; 95; 69; 78; 68] ++ replicate 19 42.
Definition msg_generate : list Z := [70; 97; 105; 108; 101; 100; 32; 116; 111; 32; 103; 101; 110; 101; 114; 97; 116; 101; 32; 101; 120; 99; 101; 112; 116; 105; 111; 110; 32; 98; 105; 110; 98; 108; 111; 99; 107; 46; 10].
Definition msg_send : list Z := [70; 97; 105; 108; 101; 100; 32; 116; 111; 32; 115; 101; 110; 100; 32; 101; 120; 99; 101; 112; 116; 105; 111; 110; 32; 98; 105; 110; 98; 108; 111; 99; 107; 46; 10].
Definition msg_stack : list Z := [70; 97; 105; 108; 101; 100; 32; 116; 111; 32; 100; 117; 109; 112; 32; 115; 116; 97; 99; 107; 46].

Context (fuel : nat).
(** A piece of stack. *)
Definition dump_stack (m : mem) (p : Z) : io D unit :=
  r ← binblock_send (uart_send_buf fuel) m p 0x100 BINBLOCK_ID_STACK;
  if r <? 0 then _ ← uart_puts fuel (msg_stack ++ [0]); mret tt else mret tt.
(** [binblock]: the address of the buffer, a variable of the function. *)
Definition exception_dump_cpu_ctx_uart (m : mem) (binblock : Z) (e : exception_info) : io D unit :=
  _ ← uart_puts fuel (dump_title ++ [0]);
  '(m, n) ← lift (binblock_fill_exception m binblock 2048 e);
  if n <? 0 then _ ← uart_puts fuel (msg_generate ++ [0]); mret tt else
  r ← binblock_send (uart_send_buf fuel) m binblock n BINBLOCK_ID_EXCEPTION;
  if r <? 0 then _ ← uart_puts fuel (msg_send ++ [0]); mret tt else
  sp_value ← lift (cpuctx_get_sp m (e_cpu_ctx e));
  _ ← dump_stack m sp_value;
  fp_value ← lift (cpuctx_get_fp m (e_cpu_ctx e));
  _ ← dump_stack m fp_value;
  _ ← uart_puts fuel (dump_end ++ [0]);
  mret tt.
End dump.

(** ** unhandled_exception.c *)
Definition REPORTER_ID_UART_PL011 : Z := 0.
Definition REPORTER_ID_VCANVAS : Z := 1.
Definition REPORTER_ID_NOKIA5110 : Z := 2.
Definition ERR_NOT_FOUND : Z := -7.
(** The three functions of a reporter are null or act on [W]. *)
Record unhandled_exception_reporter_t (W : Type) := Reporter {
  reporter_id : Z; enabled : bool; print_summary : option (exception_info → io W unit);
  print_cpu_ctx : option (exception_info → io W unit); dump_cpu_ctx : option (exception_info → io W unit) }.
Arguments Reporter {W}.
Arguments reporter_id {W}.
Arguments enabled {W}.
Arguments print_summary {W}.
Arguments print_cpu_ctx {W}.
Arguments dump_cpu_ctx {W}.

Section reporters.
Context {W : Type}.
Abbreviation reporter := (unhandled_exception_reporter_t W).
Definition enable (r : reporter) : reporter := Reporter (reporter_id r) true (print_summary r) (print_cpu_ctx r) (dump_cpu_ctx r).
Definition init_unhandled_exception_reporters (l : list reporter) : list reporter := map enable l.
Fixpoint enable_unhandled_exception_reporter (id : Z) (l : list reporter) : list reporter * Z :=
  match l with
  | [] => ([], ERR_NOT_FOUND)
  | r :: l => if reporter_id r =? id then (enable r :: l, ERR_OK) else
    let '(l, err) := enable_unhandled_exception_reporter id l in (r :: l, err)
  end.
Definition if_set (f : option (exception_info → io W unit)) (e : exception_info) : io W unit := match f with Some f => f e | None => mret tt end.
Fixpoint report_unhandled_exception (e : exception_info) (l : list reporter) : io W unit :=
  match l with
  | [] => mret tt
  | r :: l =>
    _ ← (if enabled r then _ ← if_set (print_summary r) e; _ ← if_set (print_cpu_ctx r) e; if_set (dump_cpu_ctx r) e else mret tt);
    report_unhandled_exception e l
  end.
End reporters.

(** ** parse_uart_capture.py
    A position in the file is what is left of it; [None] is an exception. *)
Definition hexval (c : Z) : option Z :=
  if (48 <=? c) && (c <=? 57) then Some (c - 48) else if (97 <=? c) && (c <=? 102) then Some (c - 87)
  else if (65 <=? c) && (c <=? 70) then Some (c - 55) else None.
Fixpoint unhexlify (l : list Z) : option (list Z) :=
  match l with
  | [] => Some []
  | a :: b :: l => x ← hexval a; y ← hexval b; l ← unhexlify l; Some (16 * x + y :: l)
  | _ => None
  end.
Definition unpack_from (n : nat) (buf : list Z) : option (list Z * list Z) := if decide (n ≤ length buf)%nat then Some (drop n buf, take n buf) else None.
Definition ascii (l : list Z) : option (list Z) := if forallb (λ c, c <? 128) l then Some l else None.
Definition fetch_ascii_string (namelen : nat) (buf : list Z) : option (list Z * list Z) :=
  '(buf, name) ← unpack_from namelen buf; name ← ascii name; Some (buf, name).
Definition unpack_be32 (buf : list Z) : option (list Z * Z) := '(buf, x) ← fetch_ascii_string 8 buf; x ← unhexlify x; Some (buf, le_val x).
Definition ascii_unpack_be64 (buf : list Z) : option (list Z * Z) := '(buf, x) ← fetch_ascii_string 16 buf; x ← unhexlify x; Some (buf, le_val x).
(** The name up to its first zero. *)
Fixpoint cut_zero (l : list Z) : list Z := match l with [] => [] | c :: l => if c =? 0 then [] else c :: cut_zero l end.
Definition ascii_unpack_string (buf : list Z) : option (list Z * list Z) :=
  '(buf, x) ← fetch_ascii_string 16 buf; x ← unhexlify x; name ← ascii (cut_zero x); Some (buf, name).

Definition parse_reg (buf : list Z) : option (list Z * (list Z * Z)) :=
  '(buf, name) ← ascii_unpack_string buf; '(buf, value) ← ascii_unpack_be64 buf; Some (buf, (name, value)).
(** Every register takes 32 characters: the length of the input is fuel enough. *)
Fixpoint parse_regs_loop (fuel : nat) (buf : list Z) : option (list Z * list (list Z * Z)) :=
  match fuel with
  | O => None
  | S fuel =>
    '(buf, reg) ← parse_reg buf;
    match reg.1 with [] => Some (buf, []) | _ => '(buf, regs) ← parse_regs_loop fuel buf; Some (buf, reg :: regs) end
  end.
Definition parse_regs (buf : list Z) : option (list Z * list (list Z * Z)) := parse_regs_loop (S (length buf)) buf.
Record CoreException := MkCoreException { x_esr : Z; x_spsr : Z; x_far : Z; x_type : Z; x_regs : list (list Z * Z) }.
Definition parse_binblock_exception (buf : list Z) : option (list Z * CoreException) :=
  '(buf, exception_type) ← ascii_unpack_be64 buf;
  '(buf, esr) ← ascii_unpack_be64 buf;
  '(buf, spsr) ← ascii_unpack_be64 buf;
  '(buf, far) ← ascii_unpack_be64 buf;
  '(buf, regs) ← parse_regs buf;
  Some (buf, MkCoreException esr spsr far exception_type regs).
Fixpoint parse_stack_loop (n : nat) (buf : list Z) : option (list Z * list Z) :=
  match n with
  | O => Some (buf, [])
  | S n => '(buf, value) ← ascii_unpack_be64 buf; '(buf, stack_values) ← parse_stack_loop n buf; Some (buf, value :: stack_values)
  end.
Definition parse_binblock_stack (buf : list Z) (size : Z) : option (list Z * list Z) :=
  if size mod 8 =? 0 then parse_stack_loop (Z.to_nat (size / 8)) buf else None.

Inductive block := BlockException (x : CoreException) | BlockStack (stack_values : list Z).
Definition parse_binblock (buf : list Z) : option (list Z * (list Z * block)) :=
  '(buf, binblock_magic) ← fetch_ascii_string 8 buf;
  '(buf, binblock_id) ← fetch_ascii_string 8 buf;
  '(buf, binblock_checksum) ← unpack_be32 buf;
  '(buf, binblock_len) ← ascii_unpack_be64 buf;
  if bool_decide (binblock_id = BINBLOCK_ID_EXCEPTION) then '(buf, x) ← parse_binblock_exception buf; Some (buf, (binblock_id, BlockException x))
  else if bool_decide (binblock_id = BINBLOCK_ID_STACK) then '(buf, l) ← parse_binblock_stack buf binblock_len; Some (buf, (binblock_id, BlockStack l))
  else None.

(** [buf.find(binstart, offset)]. *)
Fixpoint find_binstart (buf : list Z) : option (list Z) :=
  if decide (take 8 buf = MAGIC_BINBLOCK) then Some buf else match buf with [] => None | _ :: buf => find_binstart buf end.
(** The blocks in their order, and the dictionary: a later block replaces an
    earlier one of the same identifier. *)
Fixpoint capture_loop (fuel : nat) (buf : list Z) : option (list (list Z * block)) :=
  match fuel with
  | O => None
  | S fuel => match find_binstart buf with
    | None => Some []
    | Some buf => '(buf, b) ← parse_binblock buf; l ← capture_loop fuel buf; Some (b :: l)
    end
  end.
Definition capture_blocks (buf : list Z) : option (list (list Z * block)) := capture_loop (S (length buf)) buf.
Definition capture (buf : list Z) : option (gmap (list Z) block) :=
  l ← capture_blocks buf; Some (foldl (λ d '(id, b), <[id := b]> d) ∅ l).

(** ** Hexadecimal *)
Definition hex_byte (c : Z) : list Z := [half_byte (Z.land (Z.shiftr c 4) 0xf); half_byte (Z.land c 0xf)].
Definition hex (l : list Z) : list Z := flat_map hex_byte l.

Lemma byte_cases (P : Z → bool) : forallb (λ n, P (Z.of_nat n)) (seq 0 256) = true → ∀ c, 0 ≤ c < 2 ^ 8 → P c = true.
Proof.
  rewrite forallb_forall. intros H c Hc. replace c with (Z.of_nat (Z.to_nat c)) by lia. apply H. apply in_seq. lia.
Qed.

(** What the theorems need of the two digits of a byte. *)
Definition hex_byte_ok (c : Z) : bool :=
  match unhexlify (hex_byte c) with Some [d] => d =? c | _ => false end && forallb (λ d, (48 <=? d) && (d <? 128) && negb (d =? 66)) (hex_byte c).
Lemma hex_byte_facts c : 0 ≤ c < 2 ^ 8 → hex_byte_ok c = true.
Proof. apply byte_cases. vm_compute. done. Qed.

Lemma hex_length l : length (hex l) = (2 * length l)%nat.
Proof. induction l as [|c l IH]; [done|]. change (hex (c :: l)) with (hex_byte c ++ hex l). rewrite length_app, IH. cbn [hex_byte length]. lia. Qed.
Lemma hex_app l l' : hex (l ++ l') = hex l ++ hex l'.
Proof. apply flat_map_app. Qed.

Lemma hex_chars l : is_bytes l → Forall (λ d, 48 ≤ d < 128 ∧ d ≠ 66) (hex l).
Proof.
  induction 1 as [|c l Hc Hl IH]; [constructor|]. change (hex (c :: l)) with (hex_byte c ++ hex l). apply Forall_app. split; [|exact IH].
  pose proof (hex_byte_facts c Hc) as E. unfold hex_byte_ok in E. apply andb_prop in E as [_ E]. apply Forall_forall. intros d Hd.
  rewrite forallb_forall in E. apply list_elem_of_In in Hd. specialize (E d Hd).
  apply andb_prop in E as [E1 E2]. apply andb_prop in E1 as [E0 E1]. apply negb_true_iff in E2. lia.
Qed.

Lemma unhexlify_hex l : is_bytes l → unhexlify (hex l) = Some l.
Proof.
  induction 1 as [|c l Hc Hl IH]; [done|]. pose proof (hex_byte_facts c Hc) as E. unfold hex_byte_ok in E. apply andb_prop in E as [E _].
  change (hex (c :: l)) with (hex_byte c ++ hex l). revert E. unfold hex_byte. cbn [app unhexlify].
  destruct (hexval (half_byte (Z.land (Z.shiftr c 4) 0xf))); [|done]. destruct (hexval (half_byte (Z.land c 0xf))); [|done].
  cbn. rewrite IH. cbn. intros E%Z.eqb_eq. by rewrite E.
Qed.

Lemma hex_loop_hex m : ∀ l room s, bytes_at m s l → hex_loop (length l) room m s = Ret (hex (take (Z.to_nat (room / 2)) l)).
Proof.
  induction l as [|c l IH]; intros room s Hb; [by rewrite take_nil|]. apply bytes_at_cons in Hb as [Hc Hb]. cbn [length hex_loop].
  destruct (Z.leb_spec 2 room) as [Hr|Hr]; [|by replace (Z.to_nat (room / 2)) with 0%nat by dlia].
  rewrite (load8_at _ _ _ Hc), bind_ret, (IH _ _ Hb), bind_ret.
  replace (Z.to_nat (room / 2)) with (S (Z.to_nat ((room - 2) / 2))) by dlia. done.
Qed.

(** ** What goes out *)
Section sent.
Context {D : Type} `{Mmio D} {maxw : nat} `{!Pl011 D maxw} (fuel : nat) (Hfuel : (maxw < fuel)%nat).

Lemma hex_range l : is_bytes l → Forall (λ c, 0 ≤ c < 256) (hex l).
Proof. intros Hl. eapply Forall_impl; [by apply hex_chars|]. cbn. lia. Qed.

Lemma uart_send_buf_sends l : Forall (λ c, 0 ≤ c < 256) l → sends (uart_send_buf fuel l) (Z.of_nat (length l)) l.
Proof.
  intros Hl. unfold uart_send_buf, pl011_uart_send_buf. rewrite <- (app_nil_r l) at 3.
  eapply sends_bind; [by apply send_buf_loop_sends|apply sends_ret].
Qed.

Lemma sends_lift {A B} (x : outcome A) (f : A → io D B) a b l : x = Ret a → sends (f a) b l → sends (lift x ≫= f) b l.
Proof. intros -> Hf d. apply Hf. Qed.

Lemma send_ascii_loop_sends m p count : ∀ (n : nat) l sent, (length l < n)%nat → is_bytes l → bytes_at m (p + sent) l → sent + Z.of_nat (length l) = count →
  sends (send_ascii_loop (uart_send_buf fuel) n m p count sent) count (hex l).
Proof.
  induction n as [|n IH]; intros l sent Hn Hl Hb Hc; [lia|]. cbn [send_ascii_loop].
  destruct (Z.ltb_spec sent count) as [Hlt|Hge].
  2:{ assert (l = []) as -> by (destruct l; [done|cbn [length] in *; lia]). replace count with sent by (cbn in Hc; lia). apply sends_ret. }
  apply (sends_lift _ _ (hex (take 64 l))).
  { unfold bin_to_ascii_hex. replace (Z.to_nat (count - sent)) with (length l) by lia. apply (hex_loop_hex m l 128 _ Hb). }
  rewrite <- (take_drop 64 l) at 2. rewrite hex_app. eapply sends_bind; [apply uart_send_buf_sends, hex_range, Forall_take, Hl|].
  rewrite hex_length. replace (Z.of_nat (2 * length (take 64 l)) / 2) with (Z.of_nat (length (take 64 l))) by dlia.
  rewrite <- (take_drop 64 l) in Hb. apply bytes_at_app in Hb as [_ Hb].
  apply IH; [|by apply Forall_drop|by rewrite Z.add_assoc|]; rewrite length_drop, ?length_take; lia.
Qed.

Lemma send_ascii_sends m p l : is_bytes l → bytes_at m p l →
  sends (binblock_send_ascii_bin (uart_send_buf fuel) m p (Z.of_nat (length l))) (Z.of_nat (length l)) (hex l).
Proof. intros Hl Hb. apply send_ascii_loop_sends; [lia|done|by rewrite Z.add_0_r|lia]. Qed.

Lemma sends_expect n (x k : io D Z) r l l' : sends x n l → sends k r l' → sends (expect n x k) r (l ++ l').
Proof. intros Hx Hk. eapply sends_bind; [exact Hx|]. by rewrite Z.eqb_refl. Qed.

(** The text of a block: the magic, the identifier, the sum of the bytes, their
    number, and the bytes. *)
Definition byte_sum (l : list Z) : Z := foldr Z.add 0 l.
Definition block_text (id l : list Z) : list Z :=
  MAGIC_BINBLOCK ++ id ++ hex (le_bytes 4 (u32 (byte_sum l))) ++ hex (le_bytes 8 (Z.of_nat (length l))) ++ hex l.

Lemma checksum_loop_sum m buf l : ∀ i v, bytes_at m (buf + i) l →
  for_n (length l) i (λ i result, c ← load8 m (buf + i); Ret (u32 (result + c))) (u32 v) = Ret (u32 (v + byte_sum l)).
Proof.
  induction l as [|c l IH]; intros i v Hb; [by rewrite Z.add_0_r|]. apply bytes_at_cons in Hb as [Hc Hb]. cbn [length for_n].
  rewrite (load8_at _ _ _ Hc), !bind_ret.
  assert (u32 (u32 v + c) = u32 (v + c)) as -> by (unfold u32; apply Zplus_mod_idemp_l).
  rewrite (IH (i + 1) (v + c)) by (by rewrite Z.add_assoc). cbn [byte_sum foldr]. do 2 f_equal. unfold byte_sum. lia.
Qed.
Lemma checksum_basic_sum m p l : bytes_at m p l → checksum_basic m p (Z.of_nat (length l)) 0 = Ret (u32 (byte_sum l)).
Proof. intros Hb. unfold checksum_basic. rewrite Nat2Z.id. apply (checksum_loop_sum m p l 0 0). by rewrite Z.add_0_r. Qed.

Lemma binblock_send_sends m p l id : is_bytes l → bytes_at m p l → Z.of_nat (length l) < 2 ^ 31 → length id = 8%nat → Forall (λ c, 0 ≤ c < 256) id →
  sends (binblock_send (uart_send_buf fuel) m p (Z.of_nat (length l)) id) 0 (block_text id l).
Proof.
  intros Hl Hb Hlen Hid Hidc. pose proof (checksum_basic_sum m p l Hb) as Ec.
  unfold binblock_send. apply (sends_lift _ _ (u32 (byte_sum l))); [by rewrite s32_id by lia|].
  assert (∀ n v, (sends (binblock_send_ascii_bin (uart_send_buf fuel) (mem_of 0 (le_bytes n v)) 0 (Z.of_nat n)) (Z.of_nat n) (hex (le_bytes n v)))) as Hloc.
  { intros n v. pose proof (send_ascii_sends (mem_of 0 (le_bytes n v)) 0 _ (le_bytes_is_bytes n v) (mem_of_bytes 0 (le_bytes n v))) as Hs.
    by rewrite le_bytes_length in Hs. }
  unfold block_text. apply sends_expect; [apply uart_send_buf_sends; repeat (constructor; [lia|]); constructor|].
  apply sends_expect; [change 8 with (Z.of_nat 8); rewrite <- Hid; by apply uart_send_buf_sends|].
  apply sends_expect; [apply (Hloc 4%nat)|]. apply sends_expect; [apply (Hloc 8%nat)|].
  rewrite <- (app_nil_r (hex l)). apply sends_expect; [by apply send_ascii_sends|apply sends_ret].
Qed.
End sent.

(** ** The block of an exception *)
Definition word : Z → Prop := λ v, 0 ≤ v < 2 ^ 64.
Definition words (l : list Z) : list Z := flat_map (le_bytes 8) l.
(** A name as it is stored, and an entry. *)
Definition name_field (name : list Z) : list Z := strncpy_bytes 7 (strncpy_bytes 15 name ++ [0]) ++ [0].
Definition reg_bytes (r : list Z * Z) : list Z := name_field r.1 ++ le_bytes 8 r.2.
Definition header_words (e : exception_info) : list Z := [e_type e; e_esr e; e_spsr e; e_far e].
Definition exception_bytes (e : exception_info) (regs : list (list Z * Z)) : list Z :=
  words (header_words e) ++ flat_map reg_bytes regs ++ replicate (16 * (40 - length regs)) 0.

Lemma words_length l : length (words l) = (8 * length l)%nat.
Proof. induction l as [|v l IH]; [done|]. change (words (v :: l)) with (le_bytes 8 v ++ words l). rewrite length_app, IH, le_bytes_length. cbn [length]. lia. Qed.
Lemma words_are_bytes l : is_bytes (words l).
Proof. induction l as [|v l IH]; [constructor|]. apply Forall_app. split; [apply le_bytes_is_bytes|exact IH]. Qed.

Lemma strncpy_bytes_ok n : ∀ s, is_bytes s → length (strncpy_bytes n s) = n ∧ is_bytes (strncpy_bytes n s).
Proof.
  assert (∀ k, is_bytes (replicate k 0)) as Hz by (intros k; apply Forall_replicate; lia).
  induction n as [|n IH]; intros s Hs; [split; [done|constructor]|]. destruct s as [|c s]; [split; [cbn; by rewrite length_replicate|apply (Hz (S n))]|].
  cbn [strncpy_bytes]. destruct (Z.eqb_spec c 0); [split; [cbn; by rewrite length_replicate|apply (Hz (S n))]|].
  apply Forall_cons in Hs as [Hc Hs]. destruct (IH s Hs). split; [cbn; lia|by constructor].
Qed.

Lemma store_bytes_ok l : ∀ m p, is_bytes l → mapped m p (Z.of_nat (length l)) → store_bytes m p l = Ret (write_bytes m p l).
Proof.
  induction l as [|b l IH]; intros m p Hl Hm; [done|]. apply Forall_cons in Hl as [Hb Hl]. cbn [store_bytes write_bytes length] in *.
  rewrite store8_write; [|done|apply Hm; lia]. rewrite bind_ret. apply IH; [done|]. apply (write_bytes_mapped m p [b]). intros q Hq. apply Hm. lia.
Qed.

Section filled.
Context (buf : Z) (m0 : mem).

(** The buffer holds [l]; nothing else has changed. *)
Definition filled (l : list Z) (m : mem) : Prop := bytes_at m buf l ∧ writes_in buf (buf + 672) m0 m ∧ length l = 672%nat.

Lemma filled_other l m q l' : filled l m → bytes_at m0 q l' → q + Z.of_nat (length l') ≤ buf ∨ buf + 672 ≤ q → bytes_at m q l'.
Proof. intros (_ & Hw & _) Hb Hd. by eapply bytes_at_writes. Qed.

Lemma filled_write m A l0 B l : filled (A ++ l0 ++ B) m → length l = length l0 →
  mapped m (buf + Z.of_nat (length A)) (Z.of_nat (length l)) ∧ filled (A ++ l ++ B) (write_bytes m (buf + Z.of_nat (length A)) l).
Proof.
  intros (Hb & Hw & Hlen) Hl. rewrite !length_app in Hlen. apply bytes_at_app in Hb as [HA Hb]. apply bytes_at_app in Hb as [H0 HB].
  assert (mapped m (buf + Z.of_nat (length A)) (Z.of_nat (length l))) as Hm by (rewrite Hl; by apply bytes_at_mapped).
  split; [done|]. split; [|split; [|rewrite !length_app; lia]].
  - apply bytes_at_app. split; [apply write_bytes_bytes_at; [done|lia]|]. apply bytes_at_app. split; [apply write_bytes_at|].
    rewrite Hl. apply write_bytes_bytes_at; [done|lia].
  - etrans; [exact Hw|]. apply write_bytes_writes in Hm as [Hm1 Hm2]. split; [exact Hm1|]. intros q Hq. apply Hm2. lia.
Qed.

Lemma fill_word m A B v k : k = buf + Z.of_nat (length A) → filled (A ++ replicate 8 0 ++ B) m →
  ∃ m', store_le 8 m k v = Ret m' ∧ filled (A ++ le_bytes 8 v ++ B) m'.
Proof.
  intros -> Hf. destruct (filled_write m A _ B (le_bytes 8 v) Hf) as [Hm Hf']; [by rewrite le_bytes_length|].
  eexists. split; [|exact Hf']. apply store_le_bytes. by rewrite le_bytes_length in Hm.
Qed.

(** One register. *)
Lemma fill_regs_cb_ok m A k n r : filled (A ++ replicate (16 * S k) 0) m → Z.of_nat (length A) = 32 + 16 * n → n < 40 → is_bytes (r_name r) →
  ∃ m', cpuctx_binblock_fill_regs_cb (buf + 32) r (m, n) = Ret (m', n + 1, 0) ∧
    filled ((A ++ (strncpy_bytes 7 (r_name r) ++ [0]) ++ le_bytes 8 (r_value r)) ++ replicate (16 * k) 0) m'.
Proof.
  intros Hf HA Hn Hr. unfold cpuctx_binblock_fill_regs_cb. destruct (Z.leb_spec 40 n); [lia|].
  replace (buf + 32 + 16 * n) with (buf + Z.of_nat (length A)) by lia. replace (16 * S k)%nat with (8 + (8 + 16 * k))%nat in Hf by lia.
  rewrite !replicate_add in Hf. destruct (filled_write m A _ _ (replicate 8 0) Hf eq_refl) as [Hm1 Hf1].
  pose proof (memset_ok 9 m _ 0 8 Hm1 ltac:(lia)) as Ems. change (Z.of_nat 8) with 8 in Ems. rewrite Ems, bind_ret. change (u8 0) with 0.
  set (m1 := write_bytes m _ _) in *. destruct (strncpy_bytes_ok 7 (r_name r) Hr) as [Hl7 Hb7].
  change (replicate 8 0) with (replicate 7 0 ++ [0] : list Z) in Hf1 at 1. rewrite <- (app_assoc (replicate 7 0)) in Hf1.
  destruct (filled_write m1 A _ _ (strncpy_bytes 7 (r_name r)) Hf1) as [Hm2 Hf2]; [by rewrite Hl7|].
  change (REG_NAME_MAX_LEN - 1)%nat with 7%nat. rewrite store_bytes_ok by done. rewrite bind_ret. set (m2 := write_bytes m1 _ _) in *.
  assert (filled ((A ++ strncpy_bytes 7 (r_name r) ++ [0]) ++ replicate 8 0 ++ replicate (16 * k) 0) m2) as Hf3 by (by rewrite <- !app_assoc).
  assert (buf + Z.of_nat (length A) + 8 = buf + Z.of_nat (length (A ++ strncpy_bytes 7 (r_name r) ++ [0]))) as Hp
    by (rewrite !length_app, Hl7; cbn [length]; lia).
  destruct (fill_word m2 _ _ (r_value r) _ Hp Hf3) as (m3 & E & Hf4). rewrite E, bind_ret.
  exists m3. split; [done|]. rewrite <- !app_assoc in Hf4. rewrite <- !(app_assoc A), <- !(app_assoc (strncpy_bytes _ _)). exact Hf4.
Qed.

(** The other registers, whose values are in memory from [p] on. *)
Lemma enum_registers_ok names : ∀ vals p m A k n,
  length vals = length names → Forall is_bytes names → bytes_at m0 p (words vals) → Forall word vals →
  p + 8 * Z.of_nat (length vals) ≤ buf ∨ buf + 672 ≤ p →
  filled (A ++ replicate (16 * (length names + k)) 0) m → Z.of_nat (length A) = 32 + 16 * n → n + Z.of_nat (length names) ≤ 40 →
  ∃ m', enum_registers (cpuctx_binblock_fill_regs_cb (buf + 32)) names p (m, n) = Ret (m', n + Z.of_nat (length names)) ∧
    filled (A ++ flat_map reg_bytes (zip names vals) ++ replicate (16 * k) 0) m'.
Proof.
  induction names as [|name names IH]; intros [|v vals] p m A k n Hlen Hnames Hb Hvals Hd Hf HA Hn; try done.
  { exists m. split; [by rewrite Z.add_0_r|exact Hf]. }
  apply Forall_cons in Hnames as [Hname Hnames]. apply Forall_cons in Hvals as [Hv Hvals]. cbn [length] in *.
  change (words (v :: vals)) with (le_bytes 8 v ++ words vals) in Hb. apply bytes_at_app in Hb as [Hb1 Hb2]. rewrite le_bytes_length in Hb2.
  cbn [enum_registers fst]. rewrite (load_le_bytes 8 m p v); [|eapply filled_other; [exact Hf|exact Hb1|rewrite le_bytes_length; lia]].
  rewrite bind_ret. change (2 ^ (8 * Z.of_nat 8)) with (2 ^ 64). rewrite (Z.mod_small v) by exact Hv.
  destruct (fill_regs_cb_ok m A (length names + k) n (CpuReg (strncpy_bytes 15 name ++ [0]) v) Hf HA ltac:(lia)) as (m1 & -> & Hf1).
  { apply Forall_app. split; [by apply strncpy_bytes_ok|]. constructor; [lia|constructor]. }
  rewrite bind_ret. cbn [truth Z.eqb negb]. change ((strncpy_bytes 7 _ ++ [0]) ++ le_bytes 8 _) with (reg_bytes (name, v)) in Hf1.
  destruct (IH vals (p + 8) m1 (A ++ reg_bytes (name, v)) k (n + 1)) as (m' & E & Hf'); try done; [by injection Hlen|lia| |lia|].
  { rewrite length_app. unfold reg_bytes, name_field. cbn [fst snd]. rewrite !length_app, le_bytes_length.
    destruct (strncpy_bytes_ok 7 (strncpy_bytes 15 name ++ [0])) as [-> _]; [|cbn [length]; lia].
    apply Forall_app. split; [by apply strncpy_bytes_ok|]. constructor; [lia|constructor]. }
  exists m'. rewrite E. split; [do 2 f_equal; lia|].
  change (flat_map _ (zip (name :: _) _)) with (reg_bytes (name, v) ++ flat_map reg_bytes (zip names vals)).
  rewrite <- app_assoc in Hf'. by rewrite <- app_assoc.
Qed.
End filled.

Lemma armv8_names_ok : Forall is_bytes armv8_cpu_reg_names.
Proof. cbn. unfold is_bytes. repeat first [dlia|constructor]. Qed.

(** The registers of a context. *)
Definition named (regs : list Z) : list (list Z * Z) := zip armv8_cpu_reg_names regs.

Lemma binblock_fill_exception_ok m buf e regs : mapped m buf 672 → length regs = 34%nat → Forall word regs →
  bytes_at m (e_cpu_ctx e) (words regs) → e_cpu_ctx e + 272 ≤ buf ∨ buf + 672 ≤ e_cpu_ctx e →
  ∃ m', binblock_fill_exception m buf 2048 e = Ret (m', 672) ∧ filled buf m (exception_bytes e (named regs)) m'.
Proof.
  intros Hm Hlen Hregs Hctx Hd. unfold binblock_fill_exception. change (2048 <? sizeof_binblock_exception) with false. cbv iota.
  pose proof (memset_ok 673 m buf 0 672 Hm ltac:(lia)) as Ems. change (Z.of_nat 672) with sizeof_binblock_exception in Ems.
  rewrite Ems, bind_ret. change (u8 0) with 0. set (m1 := write_bytes m buf _).
  assert (filled buf m (replicate 672 0) m1) as Hf.
  { split; [apply write_bytes_at|]. split; [|done]. apply (write_bytes_writes m buf (replicate 672 0)). exact Hm. }
  destruct (fill_word buf m m1 [] (replicate 664 0) (e_type e) buf ltac:(cbn; lia) Hf) as (m2 & E & Hf2). rewrite E, bind_ret. clear E.
  destruct (fill_word buf m m2 (words [e_type e]) (replicate 656 0) (e_esr e) (buf + 8) eq_refl Hf2) as (m3 & E & Hf3). rewrite E, bind_ret. clear E.
  destruct (fill_word buf m m3 (words [e_type e; e_esr e]) (replicate 648 0) (e_spsr e) (buf + 16) eq_refl Hf3) as (m4 & E & Hf4). rewrite E, bind_ret. clear E.
  destruct (fill_word buf m m4 (words [e_type e; e_esr e; e_spsr e]) (replicate 640 0) (e_far e) (buf + 24) eq_refl Hf4) as (m5 & E & Hf5).
  rewrite E, bind_ret. clear E. unfold cpuctx_binblock_fill_regs, cpuctx_enum_registers.
  destruct (enum_registers_ok buf m armv8_cpu_reg_names regs (e_cpu_ctx e) m5 (words (header_words e)) 6 0) as (m6 & E & Hf6);
    [done|apply armv8_names_ok|done|done|lia|exact Hf5|by rewrite words_length|done|].
  rewrite E, !bind_ret. exists m6. split; [done|]. unfold exception_bytes.
  assert (length (named regs) = 34%nat) as -> by (unfold named; rewrite length_zip_with; cbn [length armv8_cpu_reg_names]; rewrite Hlen; done).
  exact Hf6.
Qed.

(** ** What is read *)
Lemma unpack_from_app n A rest : length A = n → unpack_from n (A ++ rest) = Some (rest, A).
Proof. intros <-. unfold unpack_from. rewrite decide_True by (rewrite length_app; lia). by rewrite drop_app_length, take_app_length. Qed.

Lemma ascii_ok l : Forall (λ c, c < 128) l → ascii l = Some l.
Proof.
  intros Hl. unfold ascii. assert (forallb (λ c, c <? 128) l = true) as ->; [|done]. apply forallb_forall. intros c Hc%list_elem_of_In.
  rewrite Forall_forall in Hl. specialize (Hl c Hc). cbn in Hl. lia.
Qed.

Lemma fetch_ascii n A rest : length A = n → Forall (λ c, c < 128) A → fetch_ascii_string n (A ++ rest) = Some (rest, A).
Proof. intros Hl Ha. unfold fetch_ascii_string. rewrite (unpack_from_app n A rest Hl). cbn. by rewrite (ascii_ok A Ha). Qed.

Lemma fetch_hex n l rest : is_bytes l → (2 * length l)%nat = n → fetch_ascii_string n (hex l ++ rest) = Some (rest, hex l).
Proof.
  intros Hl Hn. apply fetch_ascii; [by rewrite hex_length|]. eapply Forall_impl; [by apply hex_chars|]. cbn. lia.
Qed.

Lemma unpack_be64_hex v rest : word v → ascii_unpack_be64 (hex (le_bytes 8 v) ++ rest) = Some (rest, v).
Proof.
  intros Hv. unfold ascii_unpack_be64. rewrite fetch_hex by (apply le_bytes_is_bytes || by rewrite le_bytes_length). cbn [mbind option_bind].
  rewrite unhexlify_hex by apply le_bytes_is_bytes. cbn [mbind option_bind]. rewrite le_val_bytes. change (2 ^ (8 * Z.of_nat 8)) with (2 ^ 64).
  by rewrite Z.mod_small.
Qed.
Lemma unpack_be32_hex v rest : ∃ x, unpack_be32 (hex (le_bytes 4 v) ++ rest) = Some (rest, x).
Proof.
  unfold unpack_be32. rewrite fetch_hex by (apply le_bytes_is_bytes || by rewrite le_bytes_length). cbn [mbind option_bind].
  rewrite unhexlify_hex by apply le_bytes_is_bytes. by eexists.
Qed.

(** Names that survive the way into the block and out of it. *)
Definition name_ok (name : list Z) : Prop :=
  cut_zero (name_field name) = name ∧ length (name_field name) = 8%nat ∧ is_bytes (name_field name) ∧ Forall (λ c, c < 128) name.

Lemma unpack_string_hex name rest : name_ok name → ascii_unpack_string (hex (name_field name) ++ rest) = Some (rest, name).
Proof.
  intros (Hcut & Hlen & Hb & Ha). unfold ascii_unpack_string. rewrite fetch_hex by (done || by rewrite Hlen). cbn [mbind option_bind].
  rewrite unhexlify_hex by done. cbn [mbind option_bind]. rewrite Hcut. by rewrite (ascii_ok name Ha).
Qed.

Lemma parse_reg_hex r rest : name_ok r.1 → word r.2 → parse_reg (hex (reg_bytes r) ++ rest) = Some (rest, r).
Proof.
  intros Hn Hw. unfold parse_reg, reg_bytes. rewrite hex_app, <- app_assoc, (unpack_string_hex _ _ Hn). cbn [mbind option_bind].
  rewrite (unpack_be64_hex _ _ Hw). cbn [mbind option_bind]. by destruct r.
Qed.

(** The entry without a name ends the list. *)
Lemma parse_regs_hex rest regs : ∀ fuel, (length regs < fuel)%nat →
  Forall (λ r, name_ok r.1 ∧ r.1 ≠ [] ∧ word r.2) regs →
  parse_regs_loop fuel (hex (flat_map reg_bytes regs ++ replicate 16 0) ++ rest) = Some (rest, regs).
Proof.
  induction regs as [|r regs IH]; intros [|fuel] Hf Hr; cbn [length] in Hf; try lia.
  - cbn [flat_map app parse_regs_loop]. change (replicate 16 0) with (reg_bytes ([], 0)).
    rewrite (parse_reg_hex ([], 0)); [done| |split; [done|reflexivity]]. split; [done|]. split; [done|]. split; [|constructor].
    change (is_bytes (replicate 8 0)). apply Forall_replicate. lia.
  - apply Forall_cons in Hr as [(Hn & Hne & Hw) Hr]. change (flat_map reg_bytes (r :: regs)) with (reg_bytes r ++ flat_map reg_bytes regs).
    rewrite <- app_assoc, hex_app, <- app_assoc. cbn [parse_regs_loop]. rewrite (parse_reg_hex _ _ Hn Hw). cbn [mbind option_bind].
    rewrite IH by (done || lia). destruct r as [[|] ?]; [done|]. done.
Qed.

Lemma parse_stack_hex rest l : Forall word l → parse_stack_loop (length l) (hex (words l) ++ rest) = Some (rest, l).
Proof.
  induction 1 as [|v l Hv Hl IH]; [done|]. change (words (v :: l)) with (le_bytes 8 v ++ words l). rewrite hex_app, <- app_assoc.
  cbn [length parse_stack_loop]. rewrite (unpack_be64_hex _ _ Hv). cbn [mbind option_bind]. by rewrite IH.
Qed.

Lemma find_skip l rest : Forall (λ c, c ≠ 66) l → find_binstart (l ++ rest) = find_binstart rest.
Proof.
  induction 1 as [|c l Hc Hl IH]; [done|]. cbn [app find_binstart]. rewrite decide_False; [exact IH|]. intros E. injection E as E _. done.
Qed.
Lemma find_here rest : find_binstart (MAGIC_BINBLOCK ++ rest) = Some (MAGIC_BINBLOCK ++ rest).
Proof. reflexivity. Qed.
Lemma find_nothing l : Forall (λ c, c ≠ 66) l → find_binstart l = None.
Proof. intros Hl. rewrite <- (app_nil_r l), find_skip by done. done. Qed.

Lemma parse_header id l rest : length id = 8%nat → Forall (λ c, c < 128) id → word (Z.of_nat (length l)) →
  parse_binblock (block_text id l ++ rest) =
    if bool_decide (id = BINBLOCK_ID_EXCEPTION) then '(buf, x) ← parse_binblock_exception (hex l ++ rest); Some (buf, (id, BlockException x))
    else if bool_decide (id = BINBLOCK_ID_STACK) then '(buf, l) ← parse_binblock_stack (hex l ++ rest) (Z.of_nat (length l)); Some (buf, (id, BlockStack l))
    else None.
Proof.
  intros Hid Ha Hl. unfold parse_binblock, block_text. rewrite <- !app_assoc. rewrite fetch_ascii by first [done|repeat (constructor; [lia|]); constructor].
  cbn [mbind option_bind]. rewrite fetch_ascii by done. cbn [mbind option_bind].
  destruct (unpack_be32_hex (u32 (byte_sum l)) (hex (le_bytes 8 (Z.of_nat (length l))) ++ hex l ++ rest)) as [x ->]. cbn [mbind option_bind].
  by rewrite (unpack_be64_hex _ _ Hl).
Qed.

Lemma flat_map_regs_length regs : (length regs ≤ length (flat_map reg_bytes regs))%nat.
Proof.
  induction regs as [|r regs IH]; [done|]. change (flat_map reg_bytes (r :: regs)) with (reg_bytes r ++ flat_map reg_bytes regs).
  rewrite length_app. unfold reg_bytes at 1. rewrite length_app, le_bytes_length. cbn [length]. lia.
Qed.

Definition exception_of (e : exception_info) (regs : list (list Z * Z)) : CoreException :=
  MkCoreException (e_esr e) (e_spsr e) (e_far e) (e_type e) regs.

Lemma parse_exception_text e regs rest : length (exception_bytes e regs) = 672%nat → (length regs < 40)%nat →
  Forall word (header_words e) → Forall (λ r, name_ok r.1 ∧ r.1 ≠ [] ∧ word r.2) regs →
  ∃ zeros, Forall (λ c, c ≠ 66) zeros ∧
  parse_binblock (block_text BINBLOCK_ID_EXCEPTION (exception_bytes e regs) ++ rest)
  = Some (zeros ++ rest, (BINBLOCK_ID_EXCEPTION, BlockException (exception_of e regs))).
Proof.
  intros Hlen Hn Hh Hr. exists (hex (replicate (16 * (39 - length regs)) 0)). split.
  { eapply Forall_impl; [apply hex_chars, Forall_replicate; lia|]. cbn. lia. }
  rewrite parse_header; [|done|repeat (constructor; [lia|]); constructor|rewrite Hlen; done]. rewrite bool_decide_true by done.
  unfold exception_bytes, parse_binblock_exception, words, header_words in *. cbn [flat_map]. rewrite app_nil_r.
  do 4 (apply Forall_cons in Hh as [? Hh]). rewrite <- !app_assoc, !(hex_app (le_bytes _ _)), <- !app_assoc.
  do 4 (rewrite unpack_be64_hex by done; cbn [mbind option_bind]). unfold parse_regs.
  replace (16 * (40 - length regs))%nat with (16 + 16 * (39 - length regs))%nat by lia. rewrite replicate_add, (app_assoc (flat_map _ _)), hex_app, <- app_assoc.
  rewrite parse_regs_hex; [done| |done]. rewrite length_app, hex_length, length_app. pose proof (flat_map_regs_length regs). lia.
Qed.

Lemma parse_stack_text l rest : length l = 32%nat → Forall word l →
  parse_binblock (block_text BINBLOCK_ID_STACK (words l) ++ rest) = Some (rest, (BINBLOCK_ID_STACK, BlockStack l)).
Proof.
  intros Hlen Hl. rewrite parse_header; [|done|repeat (constructor; [lia|]); constructor|rewrite words_length, Hlen; done].
  rewrite bool_decide_false by done. rewrite bool_decide_true by done. rewrite words_length, Hlen. unfold parse_binblock_stack.
  change (Z.of_nat (8 * 32) mod 8 =? 0) with true. cbv iota. change (Z.to_nat (Z.of_nat (8 * 32) / 8)) with 32%nat. rewrite <- Hlen.
  by rewrite parse_stack_hex.
Qed.

Lemma armv8_name_ok : Forall (λ name, name_ok name ∧ name ≠ []) armv8_cpu_reg_names.
Proof.
  cbn. unfold name_ok, is_bytes. repeat (apply Forall_cons; split; [split; [split_and!; [reflexivity|reflexivity|cbn; repeat first [dlia|constructor]..]|done]|]).
  constructor.
Qed.
Lemma named_ok regs : length regs = 34%nat → Forall word regs → length (named regs) = 34%nat ∧ Forall (λ r, name_ok r.1 ∧ r.1 ≠ [] ∧ word r.2) (named regs).
Proof.
  intros Hlen Hw. split; [unfold named; rewrite length_zip_with, Hlen; done|]. apply Forall_forall. intros [name v] Hin. unfold named in Hin.
  apply elem_of_zip_l in Hin as Hn. apply elem_of_zip_r in Hin as Hv. pose proof armv8_name_ok as Hok. rewrite Forall_forall in Hok. rewrite Forall_forall in Hw.
  destruct (Hok name Hn). split_and!; [done|done|by apply Hw].
Qed.

(** ** The dump, sent and read *)
Section crash.
Context {D : Type} `{Mmio D} {maxw : nat} `{!Pl011 D maxw}.

Lemma block_text_length id l : (1 ≤ length (block_text id l))%nat.
Proof. unfold block_text. rewrite length_app. cbn [length MAGIC_BINBLOCK]. lia. Qed.

(** A line of the dump is no start of a block. *)
Lemma no_start s : forallb (λ c, negb (c =? 66)) s = true → Forall (λ c, c ≠ 66) s.
Proof.
  intros Hs. apply Forall_forall. intros c Hc%list_elem_of_In. rewrite forallb_forall in Hs. specialize (Hs c Hc).
  apply negb_true_iff in Hs. lia.
Qed.

(** One turn of the tool's loop. *)
Lemma capture_turn fuel skip id l b rest rest' : Forall (λ c, c ≠ 66) skip →
  parse_binblock (block_text id l ++ rest) = Some (rest', b) →
  capture_loop (S fuel) (skip ++ block_text id l ++ rest) = (l ← capture_loop fuel rest'; Some (b :: l)).
Proof.
  intros Hs Hp. cbn [capture_loop]. rewrite (find_skip _ _ Hs). unfold block_text at 1. rewrite <- app_assoc, find_here, app_assoc. fold (block_text id l).
  by rewrite Hp.
Qed.

Definition dump_text (e : exception_info) (regs : list (list Z * Z)) (sp_words fp_words : list Z) : list Z :=
  dump_title ++ block_text BINBLOCK_ID_EXCEPTION (exception_bytes e regs) ++ block_text BINBLOCK_ID_STACK (words sp_words) ++
  block_text BINBLOCK_ID_STACK (words fp_words) ++ dump_end.

Lemma capture_dump_text e regs sp_words fp_words : length (exception_bytes e regs) = 672%nat → (length regs < 40)%nat →
  Forall word (header_words e) → Forall (λ r, name_ok r.1 ∧ r.1 ≠ [] ∧ word r.2) regs →
  length sp_words = 32%nat → Forall word sp_words → length fp_words = 32%nat → Forall word fp_words →
  capture_blocks (dump_text e regs sp_words fp_words) =
    Some [(BINBLOCK_ID_EXCEPTION, BlockException (exception_of e regs)); (BINBLOCK_ID_STACK, BlockStack sp_words); (BINBLOCK_ID_STACK, BlockStack fp_words)].
Proof.
  intros Hlen Hn Hh Hr Hsp Hspw Hfp Hfpw. unfold capture_blocks, dump_text. set (text := dump_title ++ _).
  assert (∃ n, length text = S (S (S n))) as [n ->].
  { exists (length text - 3)%nat. unfold text. rewrite length_app. change (length dump_title) with 46%nat. lia. }
  unfold text. clear text. set (rest := block_text BINBLOCK_ID_STACK _ ++ _).
  destruct (parse_exception_text e regs rest Hlen Hn Hh Hr) as (zeros & Hz & Ep).
  rewrite (capture_turn _ dump_title _ _ _ _ _ (no_start dump_title eq_refl) Ep). unfold rest.
  rewrite (capture_turn _ zeros _ _ _ _ _ Hz (parse_stack_text sp_words _ Hsp Hspw)).
  rewrite <- (app_nil_l (block_text BINBLOCK_ID_STACK _ ++ _)).
  rewrite (capture_turn _ [] _ _ _ _ _ (Forall_nil_2 _) (parse_stack_text fp_words _ Hfp Hfpw)).
  cbn [capture_loop]. rewrite find_nothing; [done|]. by apply no_start.
Qed.

Lemma dump_stack_sends (fuel : nat) m p l : (maxw < fuel)%nat → bytes_at m p (words l) → length l = 32%nat →
  sends (dump_stack fuel m p) tt (block_text BINBLOCK_ID_STACK (words l)).
Proof.
  intros Hf Hb Hl. assert (sends (binblock_send (uart_send_buf fuel) m p (Z.of_nat (length (words l))) BINBLOCK_ID_STACK) 0 (block_text BINBLOCK_ID_STACK (words l))) as Hs.
  { apply binblock_send_sends; [done|apply words_are_bytes|done|rewrite words_length, Hl; done|done|repeat (constructor; [lia|]); constructor]. }
  unfold dump_stack. rewrite words_length, Hl in Hs. rewrite <- (app_nil_r (block_text _ _)). eapply sends_bind; [exact Hs|apply sends_ret].
Qed.

(** The block whose identifier comes first or last in the dump. *)
Lemma disjoint_after m m' buf q l : filled buf m l m' → ∀ l', bytes_at m q l' → q + Z.of_nat (length l') ≤ buf ∨ buf + 672 ≤ q → bytes_at m' q l'.
Proof. intros Hf l' Hb Hd. by eapply filled_other. Qed.

Lemma load_reg m ctx regs i v : Forall word regs → bytes_at m ctx (words regs) → regs !! i = Some v → load_le 8 m (ctx + Z.of_nat i * 8) = Ret v.
Proof.
  intros Hw Hb Hi. rewrite <- (take_drop_middle _ _ _ Hi) in Hb. unfold words in Hb. rewrite flat_map_app in Hb. apply bytes_at_app in Hb as [_ Hb].
  cbn [flat_map] in Hb. apply bytes_at_app in Hb as [Hb _]. fold (words (take i regs)) in Hb. rewrite words_length, length_take_le in Hb
    by (apply lookup_lt_Some in Hi; lia).
  replace (ctx + Z.of_nat i * 8) with (ctx + Z.of_nat (8 * i)) by lia. rewrite (load_le_bytes 8 _ _ v Hb). f_equal.
  change (2 ^ (8 * Z.of_nat 8)) with (2 ^ 64). apply Z.mod_small. rewrite Forall_lookup in Hw. by apply (Hw i).
Qed.

Lemma exception_bytes_length e regs : length regs = 34%nat → Forall (λ r, name_ok r.1 ∧ r.1 ≠ [] ∧ word r.2) regs → length (exception_bytes e regs) = 672%nat.
Proof.
  intros Hlen Hr. unfold exception_bytes. rewrite !length_app, words_length, length_replicate, Hlen. cbn [length header_words].
  assert (length (flat_map reg_bytes regs) = (16 * length regs)%nat) as ->; [|lia]. clear Hlen.
  induction Hr as [|r regs ((_ & Hn & _) & _) _ IH]; [done|]. change (flat_map reg_bytes (r :: regs)) with (reg_bytes r ++ flat_map reg_bytes regs).
  unfold reg_bytes at 1. rewrite !length_app, le_bytes_length, Hn, IH. cbn [length]. lia.
Qed.

(** The registers in the order of the saved context: x0 to x29, lr, sp, pc,
    cpsr. *)
Definition context_order : list (list Z) :=
  [[120; 48]; [120; 49]; [120; 50]; [120; 51]; [120; 52]; [120; 53]; [120; 54]; [120; 55]; [120; 56]; [120; 57];
   [120; 49; 48]; [120; 49; 49]; [120; 49; 50]; [120; 49; 51]; [120; 49; 52]; [120; 49; 53]; [120; 49; 54]; [120;
   49; 55]; [120; 49; 56]; [120; 49; 57]; [120; 50; 48]; [120; 50; 49]; [120; 50; 50]; [120; 50; 51]; [120; 50;
   52]; [120; 50; 53]; [120; 50; 54]; [120; 50; 55]; [120; 50; 56]; [120; 50; 57]; [108; 114]; [115; 112]; [112;
   99]; [99; 112; 115; 114]].

Lemma names_in_order : armv8_cpu_reg_names = context_order.
Proof. vm_compute. reflexivity. Qed.


(** The tool keeps one block of an identifier: of the two pieces of stack it
    shows the one at the frame pointer, which comes second. *)
Lemma capture_keeps_last out x s1 s2 :
  capture_blocks out = Some [(BINBLOCK_ID_EXCEPTION, x); (BINBLOCK_ID_STACK, s1); (BINBLOCK_ID_STACK, s2)] →
  ∃ blocks, capture out = Some blocks ∧ blocks !! BINBLOCK_ID_STACK = Some s2.
Proof. intros E. unfold capture. rewrite E. eexists. split; [reflexivity|]. apply lookup_insert_eq. Qed.
End crash.

(** ** Examples *)

Lemma enabled_reporter {W} (l : list (unhandled_exception_reporter_t W)) r id : reporter_id r = id →
  enable_unhandled_exception_reporter id (r :: l) = (enable r :: l, ERR_OK).
Proof. intros <-. cbn. by rewrite Z.eqb_refl. Qed.

(** Witness: a dump over a device whose transmit FIFO is full for one poll after
    every byte.  The registers are at 4096, the stack at 8000, the buffer of the
    dump at 6000. *)
Module crash_witness.
#[local] Existing Instance pl011_witness.chip_mmio.
#[local] Existing Instance pl011_witness.chip_pl011.
Definition demo_regs : list Z := map Z.of_nat (seq 1000 29) ++ [8064; 77; 8000; 4096; 5].
Definition demo_stack : list Z := map Z.of_nat (seq 7 40).
Definition demo_mem : mem := mem_of 4096 (words demo_regs) ∪ (mem_of 8000 (words demo_stack) ∪ mem_of 6000 (replicate 672 1)).
Definition demo_exception : exception_info := ExceptionInfo 0x96000045 0x3c5 0x80000 64 0 4096 0 0.

Fixpoint at_bytes (m : mem) (p : Z) (l : list Z) : bool :=
  match l with [] => true | b :: l => bool_decide (m !! p = Some b) && at_bytes m (p + 1) l end.
Lemma at_bytes_ok m l : ∀ p, at_bytes m p l = true → bytes_at m p l.
Proof.
  induction l as [|b l IH]; intros p Hp; [apply bytes_at_nil|]. cbn in Hp. apply andb_prop in Hp as [Hb Hp]. apply bytes_at_cons.
  split; [by apply bool_decide_eq_true in Hb|by apply IH].
Qed.
Lemma all_words l : forallb (λ v, (0 <=? v) && (v <? 2 ^ 64)) l = true → Forall word l.
Proof.
  intros Hl. apply Forall_forall. intros v Hv%list_elem_of_In. rewrite forallb_forall in Hl. specialize (Hl v Hv).
  apply andb_prop in Hl as [H1 H2]. unfold word. lia.
Qed.

End crash_witness.
